(* ===== verification/_CoqProject ===== *)
-Q . S2P
Prelude.v
Libs.v
Std.v
Text.v
Packet.v
ControlMessage.v
Bridge.v
Lease.v
NetState.v
Service.v
Handler.v
Peer.v
PeerFacts.v
Cluster.v
WebSecurity.v
Sql.v
Db.v
DbFacts.v
Storage.v
Restore.v
Vault.v
Tunnel.v
P2p.v
Runtime.v
RuntimeFacts.v
Sessions.v
Config.v
Startup.v
Admin.v
ClientConfig.v
Agent.v
AgentTasks.v
Outbound.v
ClientView.v
ClientTunnel.v
ClientTunnelFacts.v
Fec.v
