(* ===== verification/Prelude.v ===== *)
(** * VNTS: the virtual-network server

    A verification library for the VNTS server, the Rust program under
    [src/vnts2.0服务端开发包/official-vnts-source-2.0.0/src/] (paths below
    are relative to it unless another root is named), and for the ends it talks
    to: the WireGuard agent ([src/wireguard-agent/]) and the parts of the
    client core ([src/VntcApp1.0/vendor/vnt-core-2.0.0/src/]) that keep the
    client's view of its servers and its WireGuard tunnels.  Clients and WireGuard peers join a virtual IPv4
    network by its code; the server leases them addresses, forwards their
    packets and tells every client who else is online.

    ** The parts of the program and the files of the library

    - [Prelude.v], this file: results and panics, machine integers, saturating
      and wrapping arithmetic, big-endian bytes, lemmas on lists and finite
      maps, the hint databases and tactics of the library.
    - [Libs.v]: the crates the server calls whose sources are not part of the
      repository: [ipnet], [tokio::sync::mpsc], [zerocopy], [pnet_packet] and
      [prost].  Each is a class of operations with a class of documented laws
      (for [prost], an encoder and a decoder with the round-trip law); the
      components are proved against these classes.  Executable instances show
      that the laws can hold, and the witnesses compute with them.
    - [Std.v]: the pieces of the Rust standard library the code relies on:
      [Ipv4Addr::to_string]/[parse], [SocketAddr], system time.
    - [Packet.v] ([protocol/ip_packet_protocol.rs]): the 16-byte header over
      a byte buffer, [MsgType], [NetPacket] with all getters and setters.
    - [ControlMessage.v] ([protocol/control_message.rs]): registration
      requests with their check, requests, responses, selective broadcasts and
      client lists, and their conversions to and from the protobuf messages.
    - [Bridge.v] ([server/wireguard_bridge.rs]): validation of inner IPv4
      packets and of relay envelopes, the builders, the gateway's echo reply.
    - [Lease.v] ([server/network_state_provider.rs], [NetworkStateInner] and
      [DeviceEntry]): everything that happens under the lease lock.  [Inner]
      is the locked record; [lease_step] is one locked section; [lease_table]
      is the abstract specification, a finite map from addresses to holders.
    - [NetState.v] (the same source, [NetworkState]): the lease state with the
      concurrent maps around it (queues, endpoints, traffic counters, drop
      counters).  An operation whose body takes the lock more than once, or
      goes on after it has released it, takes the interference of other tasks
      between its sections as an argument.
    - [Service.v] ([server/control_server/service.rs]): [ControlService] and
      [Session].  [Global] holds the networks in memory, the configuration map
      and the log of database writes; networks live in an arena addressed by
      handle, so that a session keeps its network after the map has dropped it,
      as an [Arc] does.  What the service needs of the other servers is the
      record [PeerOps].
    - [Handler.v] ([server/control_server/handler.rs]): one client connection,
      from the registration packet to the dispatch of its data packets.
    - [Peer.v] ([server/peer_server.rs]): [PeerServerInfo] and
      [PeerServerManager]: the handshake between servers, the messages, the
      routing tables, forwarding, broadcasts and the lease protocol.  Peers are
      compared by identity, so they live in an arena; [sent] is the log of what
      the transport accepted; [peer_ops] is what the control service sees of
      it.  [PeerFacts.v] has the lemmas and the transition system [peer_step];
      [Cluster.v] the properties and an executable codec for the messages.
    - [WebSecurity.v] ([http/web_security.rs], [login] of
      [http/web_server.rs]): the login limiter, the comparison of secrets, the
      authorization of a request with its CSRF check.
    - [Sql.v]: tables, statements that fail or not, transactions that roll
      back, and a small program logic for them.  [Db.v]
      ([control_server/db.rs], [db/migrations.rs]): one map per table, the
      constraints and triggers of the schema, every query and update of the
      source as a [DB] computation; [Database] is the content of the file,
      [pool_open] the [OnceCell] of the pool.  [DbFacts.v]: the invariant
      [db_inv], kept by every call ([DbOp], [run]), and what a successful
      call did.  [Storage.v]: the properties of the database and of the
      cluster leases.  [Restore.v]: what is read back: networks into the state
      of [NetState.v], peers and profiles.
    - [Vault.v] ([control_server/wireguard_identity.rs],
      [wireguard_profile.rs]): the private keys kept encrypted in the database,
      their creation and the rotation of the master key, over the parameter
      [KeyLib] (cipher and curve).
    - [Tunnel.v]: the interfaces of the WireGuard runtime to code outside the
      repository: [pnet_packet]'s UDP view and the layout of its headers,
      [boringtun] (classes [Boringtun], [BoringtunLaws]), the text form of
      socket addresses; executable instances of them.
    - [P2p.v] ([server/wireguard_p2p.rs]): the requests of peers' agents for
      direct tunnels, the answers, the offers and revocations for the clients.
    - [Runtime.v] ([server/wireguard_runtime.rs]): [Runtime] is the session
      table with its three indices; every handler of the event loop is a
      computation that ends in a value, a panic or out of fuel.
      [RuntimeFacts.v]: a small program logic for them, the invariants and
      termination.  [Sessions.v]: the properties.
    - [Text.v]: splitting, trimming and parsing of text as the standard library
      does it, with the parsers of [u16] and [Ipv6Addr].
    - [Config.v] ([utils/config.rs]): the configuration file and its checks; the
      language of endpoints ([wireguard_endpoint]).
    - [Startup.v] ([main.rs]): what happens before the listeners start, on a
      database connection of [Db.v]; the offline rotation commands.
    - [Admin.v] ([control_server/service.rs]): the administration of WireGuard
      peers, over [NetState.v] and the cluster's [PeerOps].
    - [ClientConfig.v] ([http/web_server.rs]): public keys, peer profiles and the
      rendered configuration files.
    - [Outbound.v] ([server/peer_server.rs], [PeerEndpoint] and the outbound
      peers): the addresses of peer servers, their resolution and dialling, and
      the calls that add and remove them, on a connection of [Db.v].
    - [Agent.v], [AgentTasks.v] ([wireguard-agent/src/main.rs]): the agent of a
      WireGuard peer: its command line, its commands, its check of the server's
      answers; one task per target as a state machine whose steps end at the
      awaits ([step]), the running agent ([sys_step]) and its shutdown
      ([close_step]).
    - [ClientView.v] ([context/mod.rs], [tunnel_core/server/] of the client
      core): [ServerInfoCollection], the packets of the gateway, broadcasts over
      several servers.
    - [ClientTunnel.v] ([wireguard_p2p.rs], [wireguard_bridge.rs],
      [tunnel_core/outbound.rs] of the client core): the client's direct tunnels
      as computations on [Tunnels], the relays in both directions, the invariant
      [tunnels_ok]; [ClientTunnelFacts.v] has the agreement with the server,
      termination and the theorems.  The client's network and the server's are
      the same block but not the same value ([same_net]).
    - [Fec.v] ([fec/] of the client core): the batches of the encoder, the parity
      packets and the groups of the decoder; the Reed-Solomon code is the class
      [ReedSolomon], its laws are stated for one size of the code.

    ** What the theorems show

    - Leases: no two holders of an address ([address_uniqueness]) in any state
      reached by any interleaving of locked sections; every section is a
      transition of the abstract table ([lease_table_refinement]); what an
      allocation grants and why it fails ([allocate_ip_spec],
      [allocate_ip_errors], [find_available_ip_spec]); the three-phase
      reservation of WireGuard addresses against concurrent devices
      ([reservation_protocol]).
    - Delivery: the queue, endpoint and counters at an address are those of
      the device that leases it ([routing_follows_leases]); the delivery
      policy ([try_deliver_spec], [broadcast_targets_exact]); traffic reaches
      the right record ([traffic_attribution]); an old session cannot harm a
      new one ([stale_session_harmless]); the incremental client list misses
      no change ([client_list_delta_complete]).
    - Service: registration, the end of a session, network creation and
      deletion, the double-checked creation of a network, the cleanup
      ([register_spec], [session_drop_spec], [network_state_singleton],
      [delete_network_guarded], [expiry_removes_expired]).
    - Handler: the gates in front of the dispatch ([unconfirmed_client_mute],
      [wireguard_relay_gate]) and what the dispatch does
      ([client_broadcast_spec]).
    - Wire formats: header fields, hop counts, control messages and relay
      envelopes survive the round trip ([header_fields_roundtrip],
      [decr_ttl_spec], [hops_bounded], [control_messages_roundtrip],
      [relay_envelope_roundtrip]); what the validators exclude
      ([unicast_not_spoofed], [registration_gate]).
    - Cluster: routes belong to live links ([routes_track_links]) and mirror
      the peers' announcements ([sync_exact]); packets take the best route
      ([forward_takes_best_route]); a broadcast is relayed once
      ([broadcast_relayed_once]); addresses are handed out only after
      reconciliation ([cluster_ready_sound]) and lease requests survive the
      trip to the authority and back ([lease_end_to_end]).
    - Web: guessing is rate-limited in bounded memory ([login_rate_bounded],
      [limiter_table_bounded]); what authorizes a request ([csrf_protection],
      [session_roundtrip]).
    - Database: consistent after any calls and failures
      ([database_consistent]), calls are atomic
      ([failed_call_changes_nothing]); the lease authority grants an address
      once ([cluster_no_double_grant]), grants the right one
      ([cluster_grant_spec], [cluster_automatic_address]) and renews it
      ([cluster_lease_renewable]); a network, a peer and a profile come back
      as they were stored ([network_restored], [peer_lifecycle],
      [profile_roundtrip]).
    - Keys: one identity ([identity_stable]), no key lost in a rotation
      ([master_key_rotation]), keys tied to their owner
      ([secret_bound_to_owner]).
    - WireGuard sessions: the tables agree ([sessions_consistent]) and are
      bounded ([session_capacity]); every event ends ([event_handled]); what a
      peer can send into a network and what reaches it ([ingress_confined],
      [egress_confined], [subnet_route_longest_prefix]); how sessions end
      ([revoke_ends_session], [shutdown_releases_sessions]); direct tunnels
      ([agent_request_authentic], [agent_request_roundtrip],
      [lease_granted_when_offered], [p2p_response_typed]).
      [conflicting_record_strands_key] shows why [sessions_consistent] asks
      that the database gives no key of another active session.
    - Configuration and start: the accepted endpoints ([endpoint_language]), a
      usable first start ([first_start_usable]), nothing listens with an unsafe
      configuration ([startup_fail_closed]), the digest identifies the networks
      ([digest_text_injective]).
    - Administration: creation and deletion of peers
      ([peer_created_with_address], [peer_deletion_complete]); keys, profiles and
      client files ([public_key_canonical], [profile_accepted],
      [route_order_is_search], [client_config_lines]).
    - Peer servers: the accepted addresses ([peer_endpoint_language]), dialling
      ([dial_spec]), the outbound peers as administered
      ([outbound_peers_kept]).
    - The agent: it accepts what the server grants ([agent_accepts_grant]),
      moves a route only after a handshake ([route_after_handshake]), waits for
      one a bounded time ([handshake_wait_bounded]) and cleans up
      ([shutdown_removes_peers]); its command line ([agent_command_line]).
    - The client: its list follows the server's leases
      ([client_follows_server]); packets and broadcasts go to the right servers
      ([server_choice_spec], [broadcast_coverage]); the tables of its tunnels
      agree ([direct_tunnels_consistent]) and every event ends
      ([direct_event_terminates]); what comes out of a tunnel and what goes in
      ([direct_ingress_confined], [direct_send_spec]); the lease the server
      grants is the lease the client holds ([granted_lease_installed]); each
      side accepts what the other relays ([relay_accepted_by_server],
      [relay_accepted_by_client]); error correction passes packets on unchanged
      ([fec_transparent]) and recovers a packet that was alone in its group
      ([fec_recovers_single]).
    - Behaviour the code does not mean to have, each shown on the definitions:
      [fallback_leaks_old_lease], [release_pre_registered_race],
      [expiry_evicts_reconnected], [malformed_ping_panics],
      [failed_registration_orphans_network],
      [add_network_saves_before_checking], [configured_gateway_used],
      [port_zero_orphans_lease], [failed_release_not_retried],
      [failed_creation_keeps_grant], [same_block_accepted_twice],
      [padded_server_id_not_authority], [digest_ambiguous],
      [aborted_task_leaks_peer], [plus_sign_escapes_check],
      [broadcast_to_lost_server], [unequal_lengths_lose_packet],
      [recovered_flags_corrupted].

    ** Conventions

    Integers are [Z] with their width written out: [u64_add] wraps as the
    release build does, [u64_saturating_add] saturates.  Theorems that order
    versions assume that the counter has not reached [u64_max].  [Panic] is a
    Rust panic; the release profile aborts the process on it.  Randomness,
    clocks and the database's answers are arguments of the operation that
    reads them; [Db.v] defines the database that gives these answers, with a
    script of storage failures.

    Fuel: [find_free] searches the host addresses with fuel [end - start], one
    unit per address of the loop [for i in start..end], so it never runs out
    before the loop does, and so does [select_address]; [blank_bytes] takes the
    length of the string.  The loop that draws a lease id until it is not zero
    and the loop that empties a tunnel's queue take fuel from the caller;
    [event_handled] shows that enough of it always exists, and
    [direct_event_terminates] shows it for the client's tunnels.  All other recursion
    is structural.

    The WireGuard runtime reads the clocks once per event; the order in which a
    [HashMap] is walked is [map_to_list]'s.

    ** Not modelled

    Sockets, TLS, framing and timers ([server/tcp.rs], [quic.rs],
    [websocket.rs]), the Noise protocol (boringtun, a parameter of [Runtime.v]),
    the ciphers (a parameter of [Vault.v]), the JSON handlers of
    [http/web_server.rs], logging, certificates and the process wrapper are
    input/output or code of other crates.  Of the client core, encryption
    and compression between clients, NAT traversal, the virtual device, the transports and the configuration are not modelled; the client
    application (bindings, user interface, the remote desktop) is not part of
    this library.

    ** Plan

    Possible extensions: the compression and the NAT traversal of the client
    core, the dashboard's accounting ([http/dashboard.rs]), and the framing of the
    transports. *)

From stdpp Require Import base gmap strings list.
From Stdlib Require Import ZArith Lia.

Local Open Scope Z_scope.

(** ** Results and panics

    [result E A] is Rust's [Result<A, E>]; [outcome A] is the result of a Rust
    function that may panic (an out-of-range slice index, an [unwrap] of
    [None]).  The release profile of the server sets [panic = 'abort'], so
    [Panic] is the death of the whole process. *)

Inductive result (E A : Type) : Type :=
| Ok (a : A)
| Err (e : E).
Arguments Ok {E A} a.
Arguments Err {E A} e.

#[export] Instance result_ret {E} : MRet (result E) := λ A a, Ok a.
#[export] Instance result_bind {E} : MBind (result E) := λ A B k r,
  match r with Ok a => k a | Err e => Err e end.

Definition is_ok {E A} (r : result E A) : bool :=
  match r with Ok _ => true | Err _ => false end.
Definition is_err {E A} (r : result E A) : bool := negb (is_ok r).

(** [Option::is_some]. *)
Definition is_some {A} (o : option A) : bool :=
  match o with Some _ => true | None => false end.

(** [ensure!(c, e)] / [if !c { return Err(e) }]. *)
Definition ensure {E} (c : bool) (e : E) : result E unit :=
  if c then Ok tt else Err e.

(** [Option::ok_or]. *)
Definition ok_or {E A} (o : option A) (e : E) : result E A :=
  match o with Some a => Ok a | None => Err e end.

Inductive outcome (A : Type) : Type :=
| Ret (a : A)
| Panic.
Arguments Ret {A} a.
Arguments Panic {A}.

(** ** Machine integers

    A [w]-bit unsigned integer is a [Z] in [[0, 2^w)].  The server is built in
    release mode without overflow checks, so [+] and [-] wrap. *)

Definition wrap (w x : Z) : Z := x mod 2 ^ w.
Definition u8_max : Z := 255.
Definition u16_max : Z := 65535.
Definition u32_max : Z := 4294967295.
Definition u64_max : Z := 18446744073709551615.
Definition i64_max : Z := 9223372036854775807.

Definition is_u (w x : Z) : Prop := 0 ≤ x < 2 ^ w.
#[export] Instance is_u_dec w x : Decision (is_u w x).
Proof. unfold is_u. apply _. Defined.

(** [a + b] and [a - b] on [u32] and [u64], release mode. *)
Definition u32_add (a b : Z) : Z := wrap 32 (a + b).
Definition u32_sub (a b : Z) : Z := wrap 32 (a - b).
Definition u64_add (a b : Z) : Z := wrap 64 (a + b).
(** [u64::saturating_add]. *)
Definition u64_saturating_add (a b : Z) : Z := Z.min (a + b) u64_max.
(** [u64::saturating_sub] (the same for every unsigned width). *)
Definition saturating_sub (a b : Z) : Z := Z.max (a - b) 0.

(** [x as i64] for [x : u64], and [x as u64] for [x : i64]. *)
Definition u64_as_i64 (x : Z) : Z := if x <=? i64_max then x else x - 2 ^ 64.
Definition i64_as_u64 (x : Z) : Z := wrap 64 x.

Lemma wrap_range w x : 0 ≤ w → is_u w (wrap w x).
Proof. intros Hw. apply Z.mod_pos_bound, Z.pow_pos_nonneg; lia. Qed.

Lemma wrap_small w x : is_u w x → wrap w x = x.
Proof. apply Z.mod_small. Qed.

Lemma u32_add_small a b : 0 ≤ a + b ≤ u32_max → u32_add a b = a + b.
Proof. intros H. apply wrap_small. unfold is_u, u32_max in *. lia. Qed.

Lemma u32_sub_small a b : 0 ≤ a - b ≤ u32_max → u32_sub a b = a - b.
Proof. intros H. apply wrap_small. unfold is_u, u32_max in *. lia. Qed.

Lemma u64_add_small a b : 0 ≤ a + b ≤ u64_max → u64_add a b = a + b.
Proof. intros H. apply wrap_small. unfold is_u, u64_max in *. lia. Qed.

Lemma i64_u64_roundtrip x : - 2 ^ 63 ≤ x < 2 ^ 63 → u64_as_i64 (i64_as_u64 x) = x.
Proof.
  intros H. unfold u64_as_i64, i64_as_u64, wrap, i64_max.
  destruct (decide (0 ≤ x)).
  - rewrite Z.mod_small by lia. case_match; lia.
  - replace (x mod 2 ^ 64) with (x + 2 ^ 64) by
      (apply Z.mod_unique_pos with (-1); lia).
    case_match; lia.
Qed.

Lemma u64_i64_roundtrip x : is_u 64 x → i64_as_u64 (u64_as_i64 x) = x.
Proof.
  unfold is_u, u64_as_i64, i64_as_u64, wrap, i64_max. intros H.
  case_match; [by rewrite Z.mod_small|].
  symmetry; apply Z.mod_unique_pos with (-1); lia.
Qed.

(** Masking with a low mask is a remainder; a right shift is a quotient. *)
Lemma land_low (x k m : Z) : 0 ≤ k → m = 2 ^ k - 1 → Z.land x m = x mod 2 ^ k.
Proof.
  intros Hk ->. rewrite <- Z.land_ones by done. f_equal.
  rewrite Z.ones_equiv. lia.
Qed.

Lemma testbit_pow2_above (x k i : Z) : 0 ≤ x < 2 ^ k → 0 ≤ k ≤ i → Z.testbit x i = false.
Proof.
  intros Hx Hi. rewrite <- (Z.mod_small x (2 ^ k)) by done.
  apply Z.mod_pow2_bits_high. lia.
Qed.

Lemma bits_below (x k : Z) :
  0 ≤ k → 0 ≤ x → (∀ i, k ≤ i → Z.testbit x i = false) → x < 2 ^ k.
Proof.
  intros Hk Hx Hi. destruct (decide (x = 0)) as [->|Hne]; [lia|].
  apply Z.log2_lt_pow2; [lia|]. destruct (decide (Z.log2 x < k)) as [|Hge]; [done|].
  exfalso. pose proof (Z.bit_log2 x ltac:(lia)) as Hb.
  rewrite Hi in Hb by lia. done.
Qed.

Lemma lor_range (a b k : Z) : 0 ≤ k → is_u k a → is_u k b → is_u k (Z.lor a b).
Proof.
  unfold is_u. intros Hk Ha Hb. split; [apply Z.lor_nonneg; lia|].
  apply bits_below; [done|apply Z.lor_nonneg; lia|].
  intros i Hi. rewrite Z.lor_spec, !(testbit_pow2_above _ k) by lia. done.
Qed.

Lemma land_range (a b k : Z) : 0 ≤ k → is_u k a → is_u k (Z.land a b).
Proof.
  unfold is_u. intros Hk Ha. assert (0 ≤ Z.land a b) by (apply Z.land_nonneg; lia).
  split; [done|]. apply bits_below; [done..|].
  intros i Hi. rewrite Z.land_spec, (testbit_pow2_above a k) by lia. done.
Qed.

(** ** Bytes and buffers *)

(** A byte buffer ([Vec<u8>], [Bytes], [&[u8]]) is a list of bytes. *)
Abbreviation bytes := (list Z) (only parsing).

Definition bytes_ok (b : bytes) : Prop := Forall (is_u 8) b.
#[export] Instance bytes_ok_dec b : Decision (bytes_ok b).
Proof. unfold bytes_ok. apply _. Defined.

(** [uN::to_be_bytes] over [n] bytes and [uN::from_be_bytes]. *)
Fixpoint to_be_bytes (n : nat) (x : Z) : bytes :=
  match n with
  | O => []
  | S n => wrap 8 (Z.shiftr x (8 * Z.of_nat n)) :: to_be_bytes n x
  end.

Definition from_be_bytes (b : bytes) : Z :=
  fold_left (λ acc x, acc * 256 + x) b 0.

Lemma length_to_be_bytes n x : length (to_be_bytes n x) = n.
Proof. induction n; simpl; congruence. Qed.

Lemma to_be_bytes_ok n x : bytes_ok (to_be_bytes n x).
Proof. induction n; simpl; constructor; [by apply wrap_range|done]. Qed.

Lemma pow256 n : 0 ≤ n → 2 ^ (8 * n) = 256 ^ n.
Proof. intros. by rewrite (Z.pow_mul_r 2 8) by lia. Qed.

Lemma pow256_pos n : 0 < 256 ^ Z.of_nat n.
Proof. apply Z.pow_pos_nonneg; lia. Qed.

Lemma pow256_S n : 256 ^ Z.of_nat (S n) = 256 * 256 ^ Z.of_nat n.
Proof. rewrite Nat2Z.inj_succ, Z.pow_succ_r by lia. done. Qed.

Lemma fold_be_acc b acc :
  fold_left (λ acc x, acc * 256 + x) b acc =
  acc * 256 ^ Z.of_nat (length b) + from_be_bytes b.
Proof.
  unfold from_be_bytes. revert acc. induction b as [|x b IH]; intros acc; simpl fold_left.
  { simpl. lia. }
  rewrite IH, (IH (0 * 256 + x)). simpl length. rewrite pow256_S. lia.
Qed.

Lemma from_be_cons x b :
  from_be_bytes (x :: b) = x * 256 ^ Z.of_nat (length b) + from_be_bytes b.
Proof. unfold from_be_bytes at 1. simpl. by rewrite fold_be_acc. Qed.

Lemma from_be_range b : bytes_ok b → 0 ≤ from_be_bytes b < 256 ^ Z.of_nat (length b).
Proof.
  induction 1 as [|x b Hx Hb IH]; [done|].
  rewrite from_be_cons. simpl length. rewrite pow256_S.
  unfold is_u in Hx. nia.
Qed.

Lemma from_to_be_bytes n x :
  from_be_bytes (to_be_bytes n x) = x mod 256 ^ Z.of_nat n.
Proof.
  induction n as [|n IH]; simpl to_be_bytes.
  { simpl. by rewrite Z.mod_1_r. }
  rewrite from_be_cons, length_to_be_bytes, IH.
  rewrite Z.shiftr_div_pow2, pow256 by lia. unfold wrap.
  rewrite pow256_S, (Z.mul_comm 256).
  pose proof (pow256_pos n).
  rewrite Z.rem_mul_r by lia. change (2 ^ 8) with 256. lia.
Qed.

(** Only the low [n] bytes of the number matter. *)
Lemma to_be_bytes_add_high n k c x :
  (n ≤ k)%nat → to_be_bytes n (c * 256 ^ Z.of_nat k + x) = to_be_bytes n x.
Proof.
  induction n as [|n IH]; intros Hk; [done|]. simpl. rewrite IH by lia. f_equal.
  rewrite !Z.shiftr_div_pow2, pow256 by lia. unfold wrap. change (2 ^ 8) with 256.
  pose proof (pow256_pos n).
  replace (c * 256 ^ Z.of_nat k) with (c * 256 ^ Z.of_nat (k - S n) * 256 * 256 ^ Z.of_nat n).
  2: { rewrite <- !Z.mul_assoc. f_equal. rewrite <- (pow256_S n), <- Z.pow_add_r by lia.
       f_equal. lia. }
  rewrite Z.div_add_l by lia. by rewrite Z.add_comm, Z.mod_add by lia.
Qed.

Lemma to_from_be_bytes b :
  bytes_ok b → to_be_bytes (length b) (from_be_bytes b) = b.
Proof.
  induction 1 as [|x b Hx Hb IH]; [done|].
  pose proof (from_be_range b Hb) as Hr. unfold is_u in Hx.
  simpl to_be_bytes. rewrite from_be_cons. f_equal.
  - rewrite Z.shiftr_div_pow2, pow256, Z.div_add_l, Z.div_small by lia.
    rewrite Z.add_0_r. by apply wrap_small.
  - rewrite to_be_bytes_add_high by lia. done.
Qed.

(** [buf[off..off + data.len()].copy_from_slice(data)] on a range inside the
    buffer. *)
Definition write_at (off : nat) (data buf : bytes) : bytes :=
  take off buf ++ data ++ drop (off + length data) buf.

Lemma length_write_at off data buf :
  (off + length data ≤ length buf)%nat → length (write_at off data buf) = length buf.
Proof. intros H. unfold write_at. rewrite !length_app, length_take, length_drop. lia. Qed.

Lemma write_at_lookup_in off data buf i :
  (off + length data ≤ length buf)%nat → (off ≤ i < off + length data)%nat →
  write_at off data buf !! i = data !! (i - off)%nat.
Proof.
  intros Hb Hi. unfold write_at.
  rewrite lookup_app_r by (rewrite length_take; lia).
  rewrite length_take, Nat.min_l by lia. by rewrite lookup_app_l by lia.
Qed.

Lemma write_at_lookup_out off data buf i :
  (off + length data ≤ length buf)%nat → (i < off ∨ off + length data ≤ i)%nat →
  write_at off data buf !! i = buf !! i.
Proof.
  intros Hb [Hi|Hi]; unfold write_at.
  - rewrite lookup_app_l by (rewrite length_take; lia). by apply lookup_take_lt.
  - rewrite lookup_app_r by (rewrite length_take; lia).
    rewrite lookup_app_r by (rewrite length_take; lia).
    rewrite length_take, lookup_drop. f_equal. lia.
Qed.

Lemma write_at_ok off data buf :
  bytes_ok data → bytes_ok buf → bytes_ok (write_at off data buf).
Proof.
  intros Hd Hb. unfold bytes_ok, write_at in *.
  apply Forall_app; split; [by apply Forall_take|].
  apply Forall_app; split; [done|by apply Forall_drop].
Qed.

(** [vec![0; n]]. *)
Definition zeroed (n : nat) : bytes := replicate n 0.

Lemma zeroed_ok n : bytes_ok (zeroed n).
Proof. apply Forall_replicate. unfold is_u. lia. Qed.

(** ** Association by first match

    [iter().find_map(f)]: the first [Some] along the list. *)
Fixpoint find_map {A B} (f : A → option B) (l : list A) : option B :=
  match l with
  | [] => None
  | x :: l => match f x with Some b => Some b | None => find_map f l end
  end.

Lemma find_map_Some {A B} (f : A → option B) l b :
  find_map f l = Some b → ∃ x, x ∈ l ∧ f x = Some b.
Proof.
  induction l as [|x l IH]; simpl; [done|]. destruct (f x) eqn:E; intros H.
  - simplify_eq. exists x. split; [left|done].
  - destruct (IH H) as (y & ? & ?). exists y. split; [by right|done].
Qed.

Lemma find_map_None {A B} (f : A → option B) l :
  find_map f l = None ↔ ∀ x, x ∈ l → f x = None.
Proof.
  induction l as [|x l IH]; simpl.
  { split; [|done]. intros _ y Hy. by apply not_elem_of_nil in Hy. }
  destruct (f x) eqn:E; split.
  - done.
  - intros H. specialize (H x (list_elem_of_here _ _)). congruence.
  - intros H y [->|Hy]%elem_of_cons; [done|]. by apply IH.
  - intros H. apply IH. intros y Hy. apply H. by right.
Qed.

(** ** Tactics *)

(** Destruct the boolean/option/result scrutinees of a hypothesis or of the
    goal until no match is left, discharging the impossible branches. *)
Ltac break_step :=
  match goal with
  | H : context [match ?x with _ => _ end] |- _ =>
      lazymatch x with context [match _ with _ => _ end] => fail | _ => destruct x eqn:? end
  | |- context [match ?x with _ => _ end] =>
      lazymatch x with context [match _ with _ => _ end] => fail | _ => destruct x eqn:? end
  end; simplify_eq/=; try done.
Ltac break := repeat break_step.

(** Turn boolean comparisons into propositions. *)
Ltac bool_simpl :=
  repeat match goal with
  | H : _ && _ = true |- _ => apply andb_true_iff in H; destruct H
  | H : _ || _ = false |- _ => apply orb_false_iff in H; destruct H
  | H : negb _ = true |- _ => apply negb_true_iff in H
  | H : negb _ = false |- _ => apply negb_false_iff in H
  | H : (_ <? _)%Z = true |- _ => apply Z.ltb_lt in H
  | H : (_ <? _)%Z = false |- _ => apply Z.ltb_ge in H
  | H : (_ <=? _)%Z = true |- _ => apply Z.leb_le in H
  | H : (_ <=? _)%Z = false |- _ => apply Z.leb_gt in H
  | H : (_ =? _)%Z = true |- _ => apply Z.eqb_eq in H
  | H : (_ =? _)%Z = false |- _ => apply Z.eqb_neq in H
  | H : bool_decide _ = true |- _ => apply bool_decide_eq_true_1 in H
  | H : bool_decide _ = false |- _ => apply bool_decide_eq_false_1 in H
  end.

Create HintDb vnts discriminated.
#[export] Hint Resolve to_be_bytes_ok zeroed_ok write_at_ok : vnts.

(** ** Exhaustive checks on bytes *)

Definition all_u8 : list Z := Z.of_nat <$> seq 0 256.

Lemma elem_of_all_u8 x : is_u 8 x → x ∈ all_u8.
Proof.
  unfold is_u, all_u8. intros H. apply list_elem_of_fmap. exists (Z.to_nat x).
  split; [lia|]. apply elem_of_seq. lia.
Qed.

(** A decidable property of a byte is proved by evaluating it on all of them. *)
Lemma u8_check (P : Z → bool) :
  forallb P all_u8 = true → ∀ x, is_u 8 x → P x = true.
Proof.
  intros H x Hx. apply forallb_forall with (x := x) in H; [done|].
  apply list_elem_of_In. by apply elem_of_all_u8.
Qed.

Lemma u8_check2 (P : Z → Z → bool) :
  forallb (λ x, forallb (P x) all_u8) all_u8 = true →
  ∀ x y, is_u 8 x → is_u 8 y → P x y = true.
Proof.
  intros H x y Hx Hy. refine (u8_check (P x) _ y Hy).
  exact (u8_check (λ x, forallb (P x) all_u8) H x Hx).
Qed.
