(* ===== verification/Libs.v ===== *)
(** Interfaces of the third-party crates the server calls.

    The sources of [ipnet], [tokio::sync::mpsc], [zerocopy] and [pnet_packet]
    are not part of the repository.  Each is a type class of operations; what
    the server relies on is a second class of laws, each law a documented
    behaviour of the crate.  The components are proved against these classes.
    The instances at the end of the file are executable models of the crates'
    documentation: they show that the laws can hold, and witnesses compute
    with them. *)

From S2P Require Import Prelude.
From stdpp Require Import base gmap strings list.
From Stdlib Require Import ZArith Lia.

Local Open Scope Z_scope.

(** [std::net::Ipv4Addr]; [u32::from] and [Ipv4Addr::from] are the identity. *)
Abbreviation Ipv4Addr := Z (only parsing).

(** [Ipv4Addr::BROADCAST], [is_unspecified], [is_multicast] and [is_loopback]
    of the standard library. *)
Definition ADDR_BROADCAST : Ipv4Addr := u32_max.
Definition is_unspecified (ip : Ipv4Addr) : bool := ip =? 0.
Definition is_multicast (ip : Ipv4Addr) : bool :=
  (224 <=? Z.shiftr ip 24) && (Z.shiftr ip 24 <=? 239).
Definition ipv4 (a b c d : Z) : Ipv4Addr := ((a * 256 + b) * 256 + c) * 256 + d.

(** ** ipnet: IPv4 networks *)

Class Ipv4NetLib := {
  Ipv4Net : Type;
  net_network : Ipv4Net → Ipv4Addr;
  net_broadcast : Ipv4Net → Ipv4Addr;
  net_prefix_len : Ipv4Net → Z;
  net_contains : Ipv4Net → Ipv4Addr → bool;
  (** [Ipv4Net::new]; [None] is the prefix-length error. *)
  net_new : Ipv4Addr → Z → option Ipv4Net
}.

Class Ipv4NetLaws `{!Ipv4NetLib} : Prop := {
  (** The prefix length is at most 32, the network address is a multiple of the
      block size, and the block ends at the broadcast address. *)
  net_prefix_range n : 0 ≤ net_prefix_len n ≤ 32;
  net_network_range n : 0 ≤ net_network n ≤ u32_max;
  net_aligned n : net_network n mod 2 ^ (32 - net_prefix_len n) = 0;
  net_broadcast_eq n :
    net_broadcast n = net_network n + 2 ^ (32 - net_prefix_len n) - 1;
  net_contains_eq n ip :
    net_contains n ip = (net_network n <=? ip) && (ip <=? net_broadcast n);
  (** [Ipv4Net::new] fails exactly on a prefix above 32; the network address is
      the given address with the host bits cleared. *)
  net_new_Some ip p : is_u 32 ip → 0 ≤ p ≤ 32 →
    ∃ n, net_new ip p = Some n ∧ net_prefix_len n = p ∧
         net_network n = ip / 2 ^ (32 - p) * 2 ^ (32 - p);
  net_new_None ip p : 32 < p → net_new ip p = None
}.

Section Ipv4NetFacts.
Context {NL : Ipv4NetLib} {NLL : Ipv4NetLaws}.

Lemma net_size_pos n : 0 < 2 ^ (32 - net_prefix_len n).
Proof. pose proof (net_prefix_range n). apply Z.pow_pos_nonneg; lia. Qed.

Lemma net_network_le_broadcast n : net_network n ≤ net_broadcast n.
Proof. rewrite net_broadcast_eq. pose proof (net_size_pos n). lia. Qed.

Lemma net_broadcast_range n : 0 ≤ net_broadcast n ≤ u32_max.
Proof.
  pose proof (net_network_le_broadcast n). pose proof (net_network_range n).
  split; [lia|]. rewrite net_broadcast_eq.
  pose proof (net_prefix_range n). pose proof (net_size_pos n) as Hs.
  pose proof (net_aligned n) as Ha.
  apply Z.mod_divide in Ha as [k Hk]; [|lia].
  set (m := 2 ^ (32 - net_prefix_len n)) in *.
  assert (2 ^ 32 = 2 ^ net_prefix_len n * m) as Hm
    by (unfold m; rewrite <- Z.pow_add_r by lia; f_equal; lia).
  unfold u32_max in *. change (2 ^ 32) with 4294967296 in Hm.
  assert (k < 2 ^ net_prefix_len n) by nia.
  assert ((k + 1) * m ≤ 2 ^ net_prefix_len n * m) by (apply Z.mul_le_mono_nonneg_r; lia).
  lia.
Qed.

Lemma net_contains_true n ip :
  net_contains n ip = true ↔ net_network n ≤ ip ≤ net_broadcast n.
Proof. rewrite net_contains_eq, andb_true_iff, !Z.leb_le. lia. Qed.
End Ipv4NetFacts.

(** ** tokio::sync::mpsc: bounded queues

    [W] is the state of all queues; a sender is a handle. *)

(** [tokio::sync::mpsc::error::TrySendError]. *)
Inductive TrySendError := TrySendFull | TrySendClosed.

Class Mpsc (W M : Type) := {
  mpsc_sender : Type;
  mpsc_try_send : mpsc_sender → M → W → option TrySendError * W;
  (** What the receiver of the handle's queue has been sent so far. *)
  mpsc_sent : mpsc_sender → W → list M
}.
Arguments mpsc_sender W M {_}.

Class MpscLaws (W M : Type) `{!Mpsc W M} : Prop := {
  mpsc_send_ok s m w w' :
    mpsc_try_send s m w = (None, w') → mpsc_sent s w' = mpsc_sent s w ++ [m];
  mpsc_send_err s m w e w' :
    mpsc_try_send s m w = (Some e, w') → w' = w
}.

(** ** zerocopy: [U32<NetworkEndian>] fields of a packed header *)

Class NetU32Lib := {
  u32_get : bytes → Z;
  u32_set : Z → bytes
}.

Class NetU32Laws `{!NetU32Lib} : Prop := {
  u32_set_length x : length (u32_set x) = 4%nat;
  u32_set_ok x : is_u 32 x → bytes_ok (u32_set x);
  u32_get_set x : is_u 32 x → u32_get (u32_set x) = x;
  u32_set_get b : length b = 4%nat → bytes_ok b → u32_set (u32_get b) = b
}.

(** ** pnet_packet: IPv4 and ICMP views of a buffer *)

Class PnetLib := {
  (** [Ipv4Packet::new(b).is_some()] and the getters of the view. *)
  ipv4_new : bytes → bool;
  ipv4_get_version : bytes → Z;
  ipv4_get_header_length : bytes → Z;
  ipv4_get_total_length : bytes → Z;
  ipv4_get_source : bytes → Ipv4Addr;
  ipv4_get_destination : bytes → Ipv4Addr;
  ipv4_get_next_level_protocol : bytes → Z;
  ipv4_get_fragment_offset : bytes → Z;
  ipv4_get_flags : bytes → Z;
  ipv4_payload : bytes → bytes;
  (** The setters of [MutableIpv4Packet] and [ipv4::checksum]. *)
  ipv4_set_source : Ipv4Addr → bytes → bytes;
  ipv4_set_destination : Ipv4Addr → bytes → bytes;
  ipv4_set_checksum : Z → bytes → bytes;
  ipv4_checksum : bytes → Z;
  (** [IcmpPacket::new(b).is_some()], [EchoRequestPacket::new(b).is_some()],
      the accessors and [icmp::checksum]. *)
  icmp_new : bytes → bool;
  echo_request_new : bytes → bool;
  icmp_get_icmp_type : bytes → Z;
  icmp_set_icmp_type : Z → bytes → bytes;
  icmp_set_icmp_code : Z → bytes → bytes;
  icmp_set_checksum : Z → bytes → bytes;
  icmp_checksum : bytes → Z
}.

(** [IpNextHeaderProtocols::Icmp], [IpNextHeaderProtocols::Udp],
    [IcmpTypes::EchoRequest] and [IcmpTypes::EchoReply]. *)
Definition PROTO_ICMP : Z := 1.
Definition PROTO_UDP : Z := 17.
Definition ICMP_ECHO_REQUEST : Z := 8.
Definition ICMP_ECHO_REPLY : Z := 0.

Class PnetLaws `{!PnetLib} : Prop := {
  (** A view exists exactly on a buffer of at least the minimum packet size. *)
  ipv4_new_eq b : ipv4_new b = bool_decide (20 ≤ length b)%nat;
  icmp_new_eq b : icmp_new b = bool_decide (4 ≤ length b)%nat;
  echo_request_new_eq b : echo_request_new b = bool_decide (8 ≤ length b)%nat;
  (** Setters keep the length and write their own field only. *)
  ipv4_set_source_length x b : length (ipv4_set_source x b) = length b;
  ipv4_set_destination_length x b : length (ipv4_set_destination x b) = length b;
  ipv4_set_checksum_length x b : length (ipv4_set_checksum x b) = length b;
  icmp_set_icmp_type_length x b : length (icmp_set_icmp_type x b) = length b;
  icmp_set_icmp_code_length x b : length (icmp_set_icmp_code x b) = length b;
  icmp_set_checksum_length x b : length (icmp_set_checksum x b) = length b;
  ipv4_get_set_source x b : is_u 32 x → (20 ≤ length b)%nat →
    ipv4_get_source (ipv4_set_source x b) = x;
  ipv4_get_set_destination x b : is_u 32 x → (20 ≤ length b)%nat →
    ipv4_get_destination (ipv4_set_destination x b) = x;
  ipv4_source_set_destination x b : (20 ≤ length b)%nat →
    ipv4_get_source (ipv4_set_destination x b) = ipv4_get_source b;
  ipv4_source_set_checksum x b : (20 ≤ length b)%nat →
    ipv4_get_source (ipv4_set_checksum x b) = ipv4_get_source b;
  ipv4_destination_set_checksum x b : (20 ≤ length b)%nat →
    ipv4_get_destination (ipv4_set_checksum x b) = ipv4_get_destination b;
  (** The IPv4 fields lie in the first twenty bytes. *)
  ipv4_set_source_tail x b i : (20 ≤ i)%nat →
    ipv4_set_source x b !! i = b !! i;
  ipv4_set_destination_tail x b i : (20 ≤ i)%nat →
    ipv4_set_destination x b !! i = b !! i;
  ipv4_set_checksum_tail x b i : (20 ≤ i)%nat →
    ipv4_set_checksum x b !! i = b !! i;
  (** The addresses are read from the first twenty bytes. *)
  icmp_get_set_type x b : is_u 8 x → (4 ≤ length b)%nat →
    icmp_get_icmp_type (icmp_set_icmp_type x b) = x;
  icmp_type_set_checksum x b : (4 ≤ length b)%nat →
    icmp_get_icmp_type (icmp_set_checksum x b) = icmp_get_icmp_type b;
  (** An ICMP setter leaves everything past the four header bytes alone. *)
  icmp_set_type_tail x b i : (4 ≤ i)%nat → icmp_set_icmp_type x b !! i = b !! i;
  icmp_set_checksum_tail x b i : (4 ≤ i)%nat → icmp_set_checksum x b !! i = b !! i
}.

(** ** Executable models of the documented behaviour *)

Module Model.

(** An IPv4 network: an address and a prefix length of at most 32. *)
Record Cidr := mkCidr {
  cidr_addr : Z;
  cidr_len : Z;
  cidr_wf : bool_decide (is_u 32 cidr_addr ∧ 0 ≤ cidr_len ≤ 32) = true
}.

Definition cidr_size (n : Cidr) : Z := 2 ^ (32 - cidr_len n).
Definition cidr_network (n : Cidr) : Z := cidr_addr n / cidr_size n * cidr_size n.
Definition cidr_broadcast (n : Cidr) : Z := cidr_network n + cidr_size n - 1.

Definition cidr_new (ip p : Z) : option Cidr :=
  match decide (bool_decide (is_u 32 ip ∧ 0 ≤ p ≤ 32) = true) with
  | left H => Some (mkCidr ip p H)
  | right _ => None
  end.

#[export] Instance cidr_lib : Ipv4NetLib := {|
  Ipv4Net := Cidr;
  net_network := cidr_network;
  net_broadcast := cidr_broadcast;
  net_prefix_len := cidr_len;
  net_contains := λ n ip, (cidr_network n <=? ip) && (ip <=? cidr_broadcast n);
  net_new := cidr_new
|}.

#[export] Instance cidr_laws : Ipv4NetLaws.
Proof.
  assert (∀ n, is_u 32 (cidr_addr n) ∧ 0 ≤ cidr_len n ≤ 32) as Hwf.
  { intros [a l H]. exact (bool_decide_eq_true_1 _ H). }
  assert (∀ n, 0 < cidr_size n) as Hs.
  { intros n. destruct (Hwf n). apply Z.pow_pos_nonneg; lia. }
  split; simpl.
  - intros n. apply Hwf.
  - intros n. unfold cidr_network. destruct (Hwf n) as [Ha _]. specialize (Hs n).
    unfold is_u, u32_max in *. change (2 ^ 32) with 4294967296 in Ha.
    pose proof (Z.mul_div_le (cidr_addr n) (cidr_size n) Hs).
    pose proof (Z.div_pos (cidr_addr n) (cidr_size n)). nia.
  - intros n. apply Z.mod_mul. specialize (Hs n). unfold cidr_size in Hs. lia.
  - done.
  - done.
  - intros ip p Hip Hp. unfold cidr_new.
    destruct decide as [H|H]; [by eexists|]. exfalso. apply H. by apply bool_decide_eq_true_2.
  - intros ip p Hp. unfold cidr_new. destruct decide as [H|H]; [|done].
    pose proof (bool_decide_eq_true_1 _ H). lia.
Qed.

(** A queue: its capacity, whether the receiver is alive, and what was sent. *)
Record queue (M : Type) := mkQueue { q_cap : nat; q_open : bool; q_items : list M }.
Arguments mkQueue {M}. Arguments q_cap {M}. Arguments q_open {M}. Arguments q_items {M}.

Definition queue_send {M} (m : M) (q : queue M) : option TrySendError * queue M :=
  if negb (q_open q) then (Some TrySendClosed, q)
  else if (q_cap q <=? length (q_items q))%nat then (Some TrySendFull, q)
  else (None, mkQueue (q_cap q) true (q_items q ++ [m])).

Definition map_send {M} (s : nat) (m : M) (w : gmap nat (queue M))
    : option TrySendError * gmap nat (queue M) :=
  match w !! s with
  | None => (Some TrySendClosed, w)
  | Some q => match queue_send m q with
              | (None, q') => (None, <[s := q']> w)
              | (Some e, _) => (Some e, w)
              end
  end.

Definition map_sent {M} (s : nat) (w : gmap nat (queue M)) : list M :=
  match w !! s with Some q => q_items q | None => [] end.

Lemma map_send_ok {M} s (m : M) w w' :
  map_send s m w = (None, w') → map_sent s w' = map_sent s w ++ [m].
Proof.
  unfold map_send, map_sent, queue_send. intros H.
  destruct (w !! s) as [q|] eqn:E; [|done].
  destruct (negb _); [done|]. destruct (_ <=? _)%nat; simplify_eq.
  by rewrite lookup_insert_eq.
Qed.

Lemma map_send_err {M} s (m : M) w e w' : map_send s m w = (Some e, w') → w' = w.
Proof. unfold map_send, queue_send. intros H. break. Qed.

(** Two families of queues side by side: plain byte queues and bridge queues. *)
Section World.
Context (M1 M2 : Type).
Definition world : Type := gmap nat (queue M1) * gmap nat (queue M2).

Definition mpsc_fst : Mpsc world M1 := {|
  mpsc_sender := nat;
  mpsc_try_send := λ s m w, let '(e, w1) := map_send s m w.1 in (e, (w1, w.2));
  mpsc_sent := λ s w, map_sent s w.1 |}.
Definition mpsc_snd : Mpsc world M2 := {|
  mpsc_sender := nat;
  mpsc_try_send := λ s m w, let '(e, w2) := map_send s m w.2 in (e, (w.1, w2));
  mpsc_sent := λ s w, map_sent s w.2 |}.

Lemma mpsc_fst_laws : @MpscLaws world M1 mpsc_fst.
Proof.
  split; simpl; intros; destruct (map_send _ _ _) eqn:E; simplify_eq; simpl;
    [by eapply map_send_ok|]. apply map_send_err in E. subst. by destruct w.
Qed.
Lemma mpsc_snd_laws : @MpscLaws world M2 mpsc_snd.
Proof.
  split; simpl; intros; destruct (map_send _ _ _) eqn:E; simplify_eq; simpl;
    [by eapply map_send_ok|]. apply map_send_err in E. subst. by destruct w.
Qed.
End World.

(** [U32<NetworkEndian>]: four bytes, most significant first. *)
#[export] Instance be_u32 : NetU32Lib := {|
  u32_get := from_be_bytes;
  u32_set := to_be_bytes 4
|}.

#[export] Instance be_u32_laws : NetU32Laws.
Proof.
  split; simpl.
  - done.
  - intros x _. apply (to_be_bytes_ok 4 x).
  - intros x Hx. pose proof (from_to_be_bytes 4 x) as H. simpl to_be_bytes in H.
    rewrite H. by apply Z.mod_small.
  - intros b Hl Hb. pose proof (to_from_be_bytes b Hb) as H. by rewrite Hl in H.
Qed.

(** The IPv4 and ICMP headers of RFC 791 and RFC 792. *)
Definition byte_at (i : nat) (b : bytes) : Z := default 0 (b !! i).
Definition field (i n : nat) (b : bytes) : Z := from_be_bytes (take n (drop i b)).
Definition set_field (i n : nat) (x : Z) (b : bytes) : bytes :=
  if bool_decide (i + n ≤ length b)%nat then write_at i (to_be_bytes n x) b else b.

(** The Internet checksum of RFC 1071, the [skip]-th 16-bit word left out. *)
Fixpoint sum16 (k : nat) (skip : nat) (b : bytes) : Z :=
  match b with
  | h :: l :: r => (if bool_decide (k = skip) then 0 else h * 256 + l) + sum16 (S k) skip r
  | [h] => if bool_decide (k = skip) then 0 else h * 256
  | [] => 0
  end.
Definition fold16 (x : Z) : Z := let y := x mod 65536 + x / 65536 in y mod 65536 + y / 65536.
Definition checksum16 (skip : nat) (b : bytes) : Z := 65535 - fold16 (sum16 0 skip b).

#[export] Instance rfc_pnet : PnetLib := {|
  ipv4_new := λ b, bool_decide (20 ≤ length b)%nat;
  ipv4_get_version := λ b, Z.shiftr (byte_at 0 b) 4;
  ipv4_get_header_length := λ b, Z.land (byte_at 0 b) 15;
  ipv4_get_total_length := field 2 2;
  ipv4_get_source := field 12 4;
  ipv4_get_destination := field 16 4;
  ipv4_get_next_level_protocol := byte_at 9;
  ipv4_get_fragment_offset := λ b, Z.land (field 6 2 b) 8191;
  ipv4_get_flags := λ b, Z.shiftr (byte_at 6 b) 5;
  ipv4_payload := λ b,
    let start := Z.to_nat (4 * Z.land (byte_at 0 b) 15) in
    let len := Z.to_nat (field 2 2 b) in
    drop start (take (Nat.max start len) b);
  ipv4_set_source := set_field 12 4;
  ipv4_set_destination := set_field 16 4;
  ipv4_set_checksum := set_field 10 2;
  ipv4_checksum := λ b, checksum16 5 (take (Z.to_nat (4 * Z.land (byte_at 0 b) 15)) b);
  icmp_new := λ b, bool_decide (4 ≤ length b)%nat;
  echo_request_new := λ b, bool_decide (8 ≤ length b)%nat;
  icmp_get_icmp_type := byte_at 0;
  icmp_set_icmp_type := set_field 0 1;
  icmp_set_icmp_code := set_field 1 1;
  icmp_set_checksum := set_field 2 2;
  icmp_checksum := checksum16 1
|}.

Lemma length_set_field i n x b : length (set_field i n x b) = length b.
Proof.
  unfold set_field. case_bool_decide; [|done].
  by rewrite length_write_at by (rewrite length_to_be_bytes; lia).
Qed.

Lemma set_field_out i n x b j :
  (j < i ∨ i + n ≤ j)%nat → set_field i n x b !! j = b !! j.
Proof.
  intros Hj. unfold set_field. case_bool_decide; [|done].
  apply write_at_lookup_out; rewrite length_to_be_bytes; lia.
Qed.

Lemma field_ext i n b b' :
  length b = length b' → (∀ j, (i ≤ j < i + n)%nat → b !! j = b' !! j) → field i n b = field i n b'.
Proof.
  intros Hl H. unfold field. f_equal. apply list_eq. intros j.
  destruct (decide (j < n)%nat).
  - rewrite !lookup_take_lt, !lookup_drop by lia. apply H. lia.
  - rewrite !lookup_take_ge by lia. done.
Qed.

Lemma field_set_same i n x b :
  (i + n ≤ length b)%nat → field i n (set_field i n x b) = x mod 256 ^ Z.of_nat n.
Proof.
  intros H. unfold field, set_field. rewrite bool_decide_eq_true_2 by done.
  rewrite <- from_to_be_bytes. f_equal. apply list_eq. intros j.
  destruct (decide (j < n)%nat).
  - rewrite lookup_take_lt, lookup_drop, write_at_lookup_in
      by (rewrite ?length_to_be_bytes; lia). f_equal. lia.
  - rewrite lookup_take_ge by lia.
    symmetry. apply lookup_ge_None. rewrite length_to_be_bytes. lia.
Qed.

Lemma field_set_other i n x i' n' b :
  (i' + n' ≤ i ∨ i + n ≤ i')%nat → field i' n' (set_field i n x b) = field i' n' b.
Proof.
  intros H. apply field_ext; [apply length_set_field|].
  intros j Hj. apply set_field_out. lia.
Qed.

#[export] Instance rfc_pnet_laws : PnetLaws.
Proof.
  split; simpl; intros; rewrite ?length_set_field; try done.
  all: try (apply set_field_out; lia).
  all: try (apply field_set_other; lia).
  - rewrite field_set_same by lia. by apply Z.mod_small.
  - rewrite field_set_same by lia. by apply Z.mod_small.
  - pose proof (field_set_same 0 1 x b ltac:(lia)) as Hf.
    unfold byte_at, field in *. rewrite drop_0 in Hf.
    pose proof (length_set_field 0 1 x b) as Hl.
    destruct (set_field 0 1 x b) as [|y r]; simpl in *; [lia|].
    unfold from_be_bytes in Hf. simpl in Hf.
    unfold is_u in *. change (256 ^ 1) with 256 in Hf. rewrite Z.mod_small in Hf by lia. lia.
  - unfold byte_at. rewrite set_field_out by lia. done.
Qed.
End Model.

(** ** prost: protobuf messages

    Each generated message type has an encoder and a partial decoder.  The
    server relies on one law: what was encoded decodes to itself. *)

Class ProstCodec (M : Type) := {
  prost_encode : M → bytes;
  prost_decode : bytes → option M
}.

Class ProstLaws (M : Type) `{!ProstCodec M} : Prop :=
  prost_decode_encode (m : M) : prost_decode (prost_encode m) = Some m.

Module ProstModel.
(** The bits of a positive number as bytes, least significant first. *)
Fixpoint pos_to_bits (p : positive) : bytes :=
  match p with xI p => 1 :: pos_to_bits p | xO p => 0 :: pos_to_bits p | xH => [] end.

Fixpoint bits_to_pos (b : bytes) : positive :=
  match b with
  | [] => xH
  | x :: b => if x =? 1 then xI (bits_to_pos b) else xO (bits_to_pos b)
  end.

Lemma bits_to_pos_to_bits p : bits_to_pos (pos_to_bits p) = p.
Proof. induction p as [p IH|p IH|]; simpl; [by rewrite IH|by rewrite IH|done]. Qed.

(** Any countable message type has a codec. *)
Definition countable_codec (M : Type) `{Countable M} : ProstCodec M := {|
  prost_encode := λ m, pos_to_bits (encode m);
  prost_decode := λ b, decode (bits_to_pos b)
|}.

Lemma countable_codec_laws M `{Countable M} : @ProstLaws M (countable_codec M).
Proof.
  intros m. unfold prost_encode, prost_decode, countable_codec.
  rewrite bits_to_pos_to_bits. apply decode_encode.
Qed.
End ProstModel.
