(* ===== verification/Std.v ===== *)
(** What the server uses of the Rust standard library: the text form of IPv4
    addresses, blank strings, and system time.

    A [String] is a Rocq [string] of its UTF-8 bytes. *)

From S2P Require Import Prelude Libs.
From stdpp Require Import base strings list.
From Stdlib Require Import ZArith Lia Ascii.

Local Open Scope Z_scope.

(** ** [Ipv4Addr: Display + FromStr] *)

Definition is_digit (c : ascii) : bool :=
  let n := Z.of_nat (nat_of_ascii c) in (48 <=? n) && (n <=? 57).
Definition digit_value (c : ascii) : Z := Z.of_nat (nat_of_ascii c) - 48.
Definition digit_char (d : Z) : ascii := ascii_of_nat (Z.to_nat (d + 48)).

Definition octet_to_string (o : Z) : string :=
  if o <? 10 then String (digit_char o) EmptyString
  else if o <? 100 then String (digit_char (o / 10)) (String (digit_char (o mod 10)) EmptyString)
  else String (digit_char (o / 100))
         (String (digit_char (o / 10 mod 10)) (String (digit_char (o mod 10)) EmptyString)).

Definition octet (i ip : Z) : Z := Z.shiftr ip (8 * i) mod 256.

Definition ipv4_to_string (ip : Ipv4Addr) : string :=
  (octet_to_string (octet 3 ip) +:+ "." +:+ octet_to_string (octet 2 ip) +:+ "." +:+
   octet_to_string (octet 1 ip) +:+ "." +:+ octet_to_string (octet 0 ip))%string.

(** The longest run of digits at the front, and the rest. *)
Fixpoint span_digits (s : string) : list Z * string :=
  match s with
  | EmptyString => ([], EmptyString)
  | String c r =>
      if is_digit c then let '(ds, t) := span_digits r in (digit_value c :: ds, t)
      else ([], s)
  end.

(** One octet: one to three digits, no leading zero, at most 255. *)
Definition read_octet (s : string) : option (Z * string) :=
  let '(ds, t) := span_digits s in
  let v := fold_left (λ a d, a * 10 + d) ds 0 in
  if (1 <=? length ds)%nat && (length ds <=? 3)%nat && (v <=? 255)
     && ((length ds =? 1)%nat || negb (bool_decide (head ds = Some 0)))
  then Some (v, t) else None.

Definition read_dot (s : string) : option string :=
  match s with String c r => if bool_decide (c = "."%char) then Some r else None | _ => None end.

Definition ipv4_parse (s : string) : option Ipv4Addr :=
  '(a, s) ← read_octet s; s ← read_dot s;
  '(b, s) ← read_octet s; s ← read_dot s;
  '(c, s) ← read_octet s; s ← read_dot s;
  '(d, s) ← read_octet s;
  if bool_decide (s = EmptyString) then Some (ipv4 a b c d) else None.

(** [std::net::SocketAddr]. *)
Inductive SocketAddr := SockV4 (ip : Ipv4Addr) (port : Z) | SockV6 (ip : Z) (port : Z).
#[export] Instance SocketAddr_eq_dec : EqDecision SocketAddr.
Proof. solve_decision. Defined.

(** ** [str::trim().is_empty()]

    Every character of the string has the Unicode property White_Space; the
    multi-byte ones are matched by their UTF-8 encoding. *)
Definition blank_prefix (b : list Z) : option (list Z) :=
  match b with
  | x :: r =>
      if ((9 <=? x) && (x <=? 13)) || (x =? 32) then Some r
      else match r with
      | y :: r =>
          if (x =? 194) && ((y =? 133) || (y =? 160)) then Some r
          else match r with
          | z :: r =>
              if ((x =? 225) && (y =? 154) && (z =? 128))
                 || ((x =? 226) && (y =? 128) && (((128 <=? z) && (z <=? 138))
                       || (z =? 168) || (z =? 169) || (z =? 175)))
                 || ((x =? 226) && (y =? 129) && (z =? 159))
                 || ((x =? 227) && (y =? 128) && (z =? 128))
              then Some r else None
          | [] => None
          end
      | [] => None
      end
  | [] => None
  end.

Fixpoint blank_bytes (fuel : nat) (b : list Z) : bool :=
  match b, fuel with
  | [], _ => true
  | _, O => false
  | _, S fuel => match blank_prefix b with Some r => blank_bytes fuel r | None => false end
  end.

Definition string_bytes (s : string) : list Z :=
  (λ c, Z.of_nat (nat_of_ascii c)) <$> String.list_ascii_of_string s.

(** [s.trim().is_empty()]; each step consumes a byte, so the length is enough
    fuel. *)
Definition str_blank (s : string) : bool :=
  blank_bytes (length (string_bytes s)) (string_bytes s).

(** ** [SystemTime] and [Duration], in nanoseconds

    The seconds of a [SystemTime] are an [i64]; an addition that leaves its
    range panics. *)
Definition nanos : Z := 1000000000.
Definition from_secs (s : Z) : Z := s * nanos.
Definition as_secs (d : Z) : Z := d / nanos.
Definition system_time_add (t d : Z) : option Z :=
  if (t + d) / nanos <=? i64_max then Some (t + d) else None.

Module StdFacts.
Lemma append_cons c s r : (String c s +:+ r = String c (s +:+ r))%string.
Proof. reflexivity. Qed.
Lemma append_nil r : ("" +:+ r = r)%string.
Proof. reflexivity. Qed.

Lemma span_digits_app o r :
  is_u 8 o → (match r with String c _ => is_digit c = false | EmptyString => True end) →
  span_digits (octet_to_string o +:+ r) =
  ((span_digits (octet_to_string o)).1, r).
Proof.
  intros Ho Hr.
  assert (∀ d, 0 ≤ d < 10 → is_digit (digit_char d) = true) as Hd.
  { intros d Hd. assert (d = 0 ∨ d = 1 ∨ d = 2 ∨ d = 3 ∨ d = 4 ∨ d = 5 ∨ d = 6 ∨ d = 7 ∨ d = 8 ∨ d = 9)
      as H by lia. by repeat destruct H as [->|H]; subst. }
  assert (span_digits r = ([], r)) as Hs.
  { destruct r as [|c r]; [done|]. simpl. by rewrite Hr. }
  unfold is_u in Ho. change (2 ^ 8) with 256 in Ho. unfold octet_to_string.
  assert (0 ≤ o / 10 < 26) by (split; [apply Z.div_pos|apply Z.div_lt_upper_bound]; lia).
  assert (0 ≤ o / 100 < 3) by (split; [apply Z.div_pos|apply Z.div_lt_upper_bound]; lia).
  pose proof (Z.mod_pos_bound o 10). pose proof (Z.mod_pos_bound (o / 10) 10).
  assert (o < 100 → o / 10 < 10) by (intros; apply Z.div_lt_upper_bound; lia).
  destruct (Z.ltb_spec o 10); [|destruct (Z.ltb_spec o 100)];
    rewrite !append_cons, append_nil; cbn [span_digits]; rewrite !Hd by lia; rewrite Hs; done.
Qed.

Lemma read_octet_app o r :
  is_u 8 o → (match r with String c _ => is_digit c = false | EmptyString => True end) →
  read_octet (octet_to_string o +:+ r) = Some (o, r).
Proof.
  intros Ho Hr. unfold read_octet. rewrite span_digits_app by done.
  assert (match read_octet (octet_to_string o) with
          | Some (v, EmptyString) => v =? o | _ => false end = true) as HP.
  { refine (u8_check (λ o, match read_octet (octet_to_string o) with
      Some (v, EmptyString) => v =? o | _ => false end) _ o Ho). vm_compute. reflexivity. }
  unfold read_octet in HP. destruct (span_digits (octet_to_string o)) as [ds t]. simpl.
  destruct (_ && _ && _ && _); [|done]. destruct t; [|done]. apply Z.eqb_eq in HP. by subst.
Qed.

Lemma octet_range i ip : is_u 8 (octet i ip).
Proof. unfold octet, is_u. apply Z.mod_pos_bound. lia. Qed.

Lemma ipv4_octets ip :
  is_u 32 ip → ipv4 (octet 3 ip) (octet 2 ip) (octet 1 ip) (octet 0 ip) = ip.
Proof.
  unfold is_u, ipv4, octet. intros H.
  rewrite !Z.shiftr_div_pow2 by lia.
  change (2 ^ (8 * 3)) with (256 * (256 * 256)). change (2 ^ (8 * 2)) with (256 * 256).
  change (2 ^ (8 * 1)) with 256. change (2 ^ (8 * 0)) with 1. change (2 ^ 32) with 4294967296 in H.
  rewrite Z.div_1_r, <- !Z.div_div by lia.
  pose proof (Z.div_mod ip 256 ltac:(lia)).
  pose proof (Z.div_mod (ip / 256) 256 ltac:(lia)).
  pose proof (Z.div_mod (ip / 256 / 256) 256 ltac:(lia)).
  assert (0 ≤ ip / 256 / 256 / 256 < 256).
  { split; [repeat apply Z.div_pos; lia|]. repeat (apply Z.div_lt_upper_bound; [lia|]). lia. }
  rewrite (Z.mod_small (ip / 256 / 256 / 256)) by lia. lia.
Qed.

(** An address survives being written to text and read back. *)
Lemma ipv4_parse_to_string ip : is_u 32 ip → ipv4_parse (ipv4_to_string ip) = Some ip.
Proof.
  intros H. unfold ipv4_parse, ipv4_to_string. pose proof octet_range as Ho.
  rewrite read_octet_app by done. rewrite append_cons, append_nil. cbn [mbind option_bind read_dot].
  rewrite bool_decide_eq_true_2 by done. cbn [mbind option_bind].
  rewrite read_octet_app by done. rewrite append_cons, append_nil. cbn [mbind option_bind read_dot].
  rewrite bool_decide_eq_true_2 by done. cbn [mbind option_bind].
  rewrite read_octet_app by done. rewrite append_cons, append_nil. cbn [mbind option_bind read_dot].
  rewrite bool_decide_eq_true_2 by done. cbn [mbind option_bind].
  assert (∀ s : string, s = (s +:+ "")%string) as Happ.
  { induction s as [|c s IH]; [done|]. by rewrite append_cons, <- IH. }
  rewrite (Happ (octet_to_string (octet 0 ip))).
  rewrite read_octet_app by done. cbn [mbind option_bind].
  rewrite bool_decide_eq_true_2 by done. by rewrite ipv4_octets.
Qed.

Lemma string_bytes_inj a b : string_bytes a = string_bytes b → a = b.
Proof.
  unfold string_bytes. intros H.
  rewrite <- (String.string_of_list_ascii_of_string a), <- (String.string_of_list_ascii_of_string b).
  f_equal. refine (list_fmap_eq_inj _ _ _ _ H).
  intros x y E%Nat2Z.inj. by rewrite <- (ascii_nat_embedding x), E, ascii_nat_embedding.
Qed.
End StdFacts.
