(* ===== verification/Text.v ===== *)
(** Text: what the server uses of [str], [char] and [FromStr] of the Rust standard
    library beyond [Std]: splitting and trimming, ASCII classes, the parsers of
    [u16] and [Ipv6Addr].

    A string is the [string] of its UTF-8 bytes. *)

From S2P Require Import Prelude Libs Std.
From stdpp Require Import base strings list.
From Stdlib Require Import ZArith Lia Ascii.

Local Open Scope Z_scope.

(** ** ASCII texts

    [trim] here is for texts whose white space is ASCII. *)
Module Str.
Definition is_space (c : ascii) : bool :=
  let n := Z.of_nat (nat_of_ascii c) in ((9 <=? n) && (n <=? 13)) || (n =? 32).

(** [split(c)]. *)
Fixpoint split (c : ascii) (s : string) : list string :=
  match s with
  | EmptyString => [EmptyString]
  | String a r =>
      if bool_decide (a = c) then EmptyString :: split c r
      else match split c r with
           | [] => [String a EmptyString]
           | w :: ws => String a w :: ws
           end
  end.

(** [split_once(c)]. *)
Fixpoint split_once (c : ascii) (s : string) : option (string * string) :=
  match s with
  | EmptyString => None
  | String a r =>
      if bool_decide (a = c) then Some (EmptyString, r)
      else '(x, y) ← split_once c r; Some (String a x, y)
  end.

(** [trim_start] and [trim_end]. *)
Fixpoint trim_start (s : string) : string :=
  match s with
  | String a r => if is_space a then trim_start r else s
  | EmptyString => EmptyString
  end.

Fixpoint trim_end (s : string) : string :=
  match s with
  | String a r =>
      match trim_end r with
      | EmptyString => if is_space a then EmptyString else String a EmptyString
      | t => String a t
      end
  | EmptyString => EmptyString
  end.

Definition trim (s : string) : string := trim_end (trim_start s).

(** [strip_prefix(p)]. *)
Fixpoint strip_prefix (p s : string) : option string :=
  match p, s with
  | EmptyString, _ => Some s
  | String a p, String b s => if bool_decide (a = b) then strip_prefix p s else None
  | String _ _, EmptyString => None
  end.
End Str.

(** ** Characters *)

Definition ascii_code (c : ascii) : Z := Z.of_nat (nat_of_ascii c).

Definition is_ascii_alphanumeric (c : ascii) : bool :=
  is_digit c || ((65 <=? ascii_code c) && (ascii_code c <=? 90)) || ((97 <=? ascii_code c) && (ascii_code c <=? 122)).

Definition to_ascii_lowercase (c : ascii) : ascii :=
  if (65 <=? ascii_code c) && (ascii_code c <=? 90) then ascii_of_nat (nat_of_ascii c + 32) else c.

Definition eq_ignore_ascii_case (a b : string) : bool :=
  bool_decide ((to_ascii_lowercase <$> String.list_ascii_of_string a) =
               (to_ascii_lowercase <$> String.list_ascii_of_string b)).

(** Whether all bytes of a text satisfy a predicate. *)
Definition all_bytes (P : ascii → bool) (s : string) : bool :=
  forallb P (String.list_ascii_of_string s).

Definition contains_char (c : ascii) (s : string) : bool :=
  existsb (λ a, bool_decide (a = c)) (String.list_ascii_of_string s).

(** [contains] with a text. *)
Fixpoint contains (p s : string) : bool :=
  is_some (Str.strip_prefix p s) ||
  match s with String _ r => contains p r | EmptyString => false end.

(** [rsplit_once(c)]: at the last occurrence. *)
Fixpoint rsplit_once (c : ascii) (s : string) : option (string * string) :=
  match s with
  | EmptyString => None
  | String a r =>
      match rsplit_once c r with
      | Some (x, y) => Some (String a x, y)
      | None => if bool_decide (a = c) then Some (EmptyString, r) else None
      end
  end.

(** [chars]: a character is a byte with the continuation bytes after it. *)
Definition continuation (c : ascii) : bool := (128 <=? ascii_code c) && (ascii_code c <=? 191).

Fixpoint chars (s : string) : list string :=
  match s with
  | EmptyString => []
  | String a r =>
      match chars r with
      | String b c :: cs =>
          if continuation b then String a (String b c) :: cs
          else String a EmptyString :: String b c :: cs
      | cs => String a EmptyString :: cs
      end
  end.

(** [char::is_whitespace]. *)
Definition is_whitespace (c : string) : bool :=
  match blank_prefix (string_bytes c) with Some [] => true | _ => false end.

Fixpoint drop_while {A} (P : A → bool) (l : list A) : list A :=
  match l with a :: r => if P a then drop_while P r else l | [] => [] end.

Definition concat_chars (cs : list string) : string := fold_right String.append EmptyString cs.

(** [str::trim]. *)
Definition trim (s : string) : string :=
  concat_chars (reverse (drop_while is_whitespace (reverse (drop_while is_whitespace (chars s))))).

(** ** [u16: FromStr] and [u64: FromStr]: an optional plus sign and at least one
    digit *)

Definition decimal (ds : list Z) : Z := fold_left (λ a d, a * 10 + d) ds 0.

Definition strip_plus (s : string) : string :=
  match s with String c r => if bool_decide (c = "+"%char) then r else s | EmptyString => s end.

Definition uint_parse (max : Z) (s : string) : option Z :=
  match span_digits (strip_plus s) with
  | (d :: ds, EmptyString) => if decimal (d :: ds) <=? max then Some (decimal (d :: ds)) else None
  | _ => None
  end.

Definition u16_parse : string → option Z := uint_parse 65535.
Definition u64_parse : string → option Z := uint_parse u64_max.

(** ** [Ipv6Addr: FromStr] *)

Definition read_char (c : ascii) (s : string) : option string :=
  match s with String a r => if bool_decide (a = c) then Some r else None | EmptyString => None end.

Definition hex_value (c : ascii) : option Z :=
  if is_digit c then Some (digit_value c)
  else if (65 <=? ascii_code c) && (ascii_code c <=? 70) then Some (ascii_code c - 55)
  else if (97 <=? ascii_code c) && (ascii_code c <=? 102) then Some (ascii_code c - 87)
  else None.

Fixpoint span_hex (s : string) : list Z * string :=
  match s with
  | EmptyString => ([], EmptyString)
  | String c r =>
      match hex_value c with
      | Some d => let '(ds, t) := span_hex r in (d :: ds, t)
      | None => ([], s)
      end
  end.

(** A group: one to four hexadecimal digits. *)
Definition read_group (s : string) : option (Z * string) :=
  let '(ds, t) := span_hex s in
  if (1 <=? length ds)%nat && (length ds <=? 4)%nat
  then Some (fold_left (λ a d, a * 16 + d) ds 0, t) else None.

Definition read_ipv4 (s : string) : option (Ipv4Addr * string) :=
  '(a, s) ← read_octet s; s ← read_dot s;
  '(b, s) ← read_octet s; s ← read_dot s;
  '(c, s) ← read_octet s; s ← read_dot s;
  '(d, s) ← read_octet s;
  Some (ipv4 a b c d, s).

(** Every item but the first follows a separator. *)
Definition read_separator {A} (i : nat) (inner : string → option (A * string)) (s : string)
    : option (A * string) :=
  match i with O => inner s | S _ => s ← read_char ":" s; inner s end.

(** Up to [n] groups, the last two of them possibly as an IPv4 address; [i] groups
    have been read before. *)
Fixpoint read_groups (n i : nat) (s : string) : list Z * bool * string :=
  match n with
  | O => ([], false, s)
  | S m =>
      match if (1 <? n)%nat then read_separator i read_ipv4 s else None with
      | Some (v4, s) => ([Z.shiftr v4 16; v4 mod 65536], true, s)
      | None =>
          match read_separator i read_group s with
          | Some (g, s) => let '(gs, v4, s) := read_groups m (S i) s in (g :: gs, v4, s)
          | None => ([], false, s)
          end
      end
  end.

Definition of_groups (gs : list Z) : Z := fold_left (λ a g, a * 65536 + g) gs 0.

Definition ipv6_parse (s : string) : option Z :=
  let '(head, v4, s) := read_groups 8 0 s in
  if (length head =? 8)%nat then
    if bool_decide (s = EmptyString) then Some (of_groups head) else None
  else if v4 : bool then None
  else
    s ← read_char ":" s; s ← read_char ":" s;
    let '(tail, _, s) := read_groups (8 - (length head + 1)) 0 s in
    if bool_decide (s = EmptyString)
    then Some (of_groups (head ++ replicate (8 - length head - length tail) 0 ++ tail)) else None.

Example ipv6_parse_examples :
  ipv6_parse "2001:db8::1" = Some 42540766411282592856903984951653826561 ∧ ipv6_parse "::" = Some 0 ∧
  ipv6_parse "::ffff:1.2.3.4" = Some 281470698652420 ∧ ipv6_parse "1:2:3:4:5:6:7" = None ∧
  ipv6_parse "1:2:3:4:5:6:7::" = Some 5192455318486707404433266433261568 ∧
  ipv6_parse "12345::" = None ∧ ipv6_parse ":1" = None ∧ ipv6_parse "1.2.3.4::" = None.
Proof. vm_compute. done. Qed.

(** ** [SocketAddr: FromStr]

    A number here has no sign and may have leading zeros.  The scope id of an IPv6
    address is read and not kept. *)

Definition read_number (max : Z) (s : string) : option (Z * string) :=
  match span_digits s with
  | (d :: ds, t) => if decimal (d :: ds) <=? max then Some (decimal (d :: ds), t) else None
  | _ => None
  end.

Definition read_port (s : string) : option (Z * string) :=
  s ← read_char ":" s; read_number 65535 s.

Definition read_socket_v4 (s : string) : option (SocketAddr * string) :=
  '(ip, s) ← read_ipv4 s; '(port, s) ← read_port s; Some (SockV4 ip port, s).

(** The address ends at the scope id or at the bracket: neither [%] nor the
    bracket can be read as a part of it. *)
Definition read_scope_id (s : string) : option unit :=
  '(_, t) ← read_number u32_max s; if bool_decide (t = EmptyString) then Some tt else None.

Definition read_bracketed (inside : string) : option Z :=
  match Str.split_once "%" inside with
  | Some (address, scope) => ip ← ipv6_parse address; _ ← read_scope_id scope; Some ip
  | None => ipv6_parse inside
  end.

Definition read_socket_v6 (s : string) : option (SocketAddr * string) :=
  s ← read_char "[" s;
  '(inside, s) ← Str.split_once "]" s;
  ip ← read_bracketed inside;
  '(port, s) ← read_port s; Some (SockV6 ip port, s).

Definition socket_parse (s : string) : option SocketAddr :=
  match read_socket_v4 s with
  | Some (a, EmptyString) => Some a
  | _ => match read_socket_v6 s with Some (a, EmptyString) => Some a | _ => None end
  end.

Example socket_parse_examples :
  socket_parse "127.0.0.1:29873" = Some (SockV4 (ipv4 127 0 0 1) 29873) ∧
  socket_parse "[::1]:080" = Some (SockV6 1 80) ∧ socket_parse "[fe80::1%3]:1" = Some (SockV6 (Z.shiftl 65152 112 + 1) 1) ∧
  socket_parse "1.2.3.4:65536" = None ∧ socket_parse "1.2.3.4:+1" = None ∧ socket_parse "1.2.3.4" = None ∧
  socket_parse "::1:80" = None ∧ socket_parse "host:1" = None.
Proof. vm_compute. done. Qed.

(** ** [str::lines] and [str::split_whitespace] *)

(** A carriage return at the end of a line belongs to its end. *)
Fixpoint strip_cr (s : string) : string :=
  match s with
  | String a EmptyString => if ascii_code a =? 13 then EmptyString else s
  | String a r => String a (strip_cr r)
  | EmptyString => EmptyString
  end.

(** The pieces between line feeds; the last one has no end of line, and no piece
    follows the last line feed. *)
Fixpoint line_pieces (pieces : list string) : list string :=
  match pieces with
  | [] => []
  | [l] => if bool_decide (l = EmptyString) then [] else [l]
  | l :: pieces => strip_cr l :: line_pieces pieces
  end.

Definition lines (s : string) : list string := line_pieces (Str.split (ascii_of_nat 10) s).

(** The maximal runs of characters that are not white space. *)
Fixpoint words (current : string) (cs : list string) : list string :=
  match cs with
  | [] => if bool_decide (current = EmptyString) then [] else [current]
  | c :: cs =>
      if is_whitespace c
      then if bool_decide (current = EmptyString) then words EmptyString cs else current :: words EmptyString cs
      else words (current +:+ c) cs
  end.

Definition split_whitespace (s : string) : list string := words EmptyString (chars s).

(** ** Lemmas *)

Module StrFacts.
Local Open Scope string_scope.

Lemma append_string c s r : String c s +:+ r = String c (s +:+ r).
Proof. reflexivity. Qed.

Lemma append_assoc a b c : (a +:+ b) +:+ c = a +:+ (b +:+ c).
Proof. induction a as [|x a IH]; [done|]. by rewrite !append_string, IH. Qed.

Lemma append_empty a : a +:+ "" = a.
Proof. induction a as [|x a IH]; [done|]. by rewrite append_string, IH. Qed.

Lemma append_eq_cons (a b : ascii) (r s : string) : String a r = String b s ↔ a = b ∧ r = s.
Proof. split; [by intros [= -> ->]|by intros [-> ->]]. Qed.

Lemma length_append a b : String.length (a +:+ b) = (String.length a + String.length b)%nat.
Proof. induction a as [|x a IH]; [done|]. rewrite append_string. simpl. by rewrite IH. Qed.

Lemma all_bytes_cons P c s : all_bytes P (String c s) = P c && all_bytes P s.
Proof. reflexivity. Qed.

Lemma all_bytes_app P a b : all_bytes P (a +:+ b) = all_bytes P a && all_bytes P b.
Proof.
  induction a as [|x a IH]; [done|]. rewrite append_string, !all_bytes_cons, IH. by rewrite andb_assoc.
Qed.

Lemma all_bytes_impl (P Q : ascii → bool) s :
  (∀ c, P c = true → Q c = true) → all_bytes P s = true → all_bytes Q s = true.
Proof.
  intros H. induction s as [|x s IH]; [done|]. rewrite !all_bytes_cons.
  intros [? ?]%andb_prop. by rewrite H, IH.
Qed.

Lemma contains_char_cons c a s :
  contains_char c (String a s) = bool_decide (a = c) || contains_char c s.
Proof. reflexivity. Qed.

Lemma contains_char_app c a b :
  contains_char c (a +:+ b) = contains_char c a || contains_char c b.
Proof.
  induction a as [|x a IH]; [done|]. rewrite append_string, !contains_char_cons, IH.
  by rewrite orb_assoc.
Qed.

(** A character outside a class does not occur in a text of the class. *)
Lemma all_bytes_not (P : ascii → bool) c s :
  P c = false → all_bytes P s = true → contains_char c s = false.
Proof.
  intros Hc. induction s as [|x s IH]; [done|]. rewrite all_bytes_cons, contains_char_cons.
  intros [Hx Hs]%andb_prop. rewrite IH by done. rewrite bool_decide_eq_false_2; [done|congruence].
Qed.

Lemma strip_prefix_spec p s r : Str.strip_prefix p s = Some r ↔ s = p +:+ r.
Proof.
  revert s. induction p as [|a p IH]; intros s; [simpl; split; [by intros [= ->]|by intros ->]|].
  rewrite append_string. destruct s as [|b s]; simpl; [done|]. case_bool_decide as Hab.
  - subst. rewrite IH. split; [by intros ->|by intros [= ->]].
  - split; [done|]. intros [= -> ->]. done.
Qed.

Lemma split_once_spec c s x y :
  Str.split_once c s = Some (x, y) ↔ s = x +:+ String c y ∧ contains_char c x = false.
Proof.
  revert x y. induction s as [|a s IH]; intros x y.
  { simpl. split; [done|]. by destruct x as [|b x]; intros [? _]. }
  simpl. case_bool_decide as Ha.
  - subst. split; [intros [= <- <-]; by split|]. intros [E Hx].
    destruct x as [|b x]; [by injection E as ->|]. rewrite append_string in E. injection E as -> ->.
    rewrite contains_char_cons, bool_decide_eq_true_2 in Hx; done.
  - destruct (Str.split_once c s) as [[x1 y1]|] eqn:E1; simpl.
    + destruct (proj1 (IH x1 y1) eq_refl) as [-> Hx1]. split.
      * intros [= <- <-]. rewrite append_string, contains_char_cons, bool_decide_eq_false_2; [done|done].
      * intros [E Hx]. destruct x as [|b x]; [injection E as Ea Er; congruence|].
        rewrite append_string in E. injection E as -> E.
        rewrite contains_char_cons in Hx. apply orb_false_elim in Hx as [_ Hx].
        assert (Some (x1, y1) = Some (x, y)) as [= -> ->]; [|done]. apply IH. by split.
    + split; [done|]. intros [E Hx]. destruct x as [|b x]; [injection E as Ea Er; congruence|].
      rewrite append_string in E. injection E as -> E.
      rewrite contains_char_cons in Hx. apply orb_false_elim in Hx as [_ Hx].
      by assert (None = Some (x, y)) by (apply IH; by split).
Qed.

Lemma rsplit_once_none c s : rsplit_once c s = None ↔ contains_char c s = false.
Proof.
  induction s as [|a s IH]; [done|]. simpl. rewrite contains_char_cons.
  destruct (rsplit_once c s) as [[x y]|].
  - split; [done|]. intros [_ ?]%orb_false_elim. by apply IH in H.
  - rewrite (proj1 IH eq_refl). case_bool_decide; by simpl.
Qed.

Lemma rsplit_once_spec c s x y :
  rsplit_once c s = Some (x, y) ↔ s = x +:+ String c y ∧ contains_char c y = false.
Proof.
  revert x y. induction s as [|a s IH]; intros x y.
  { simpl. split; [done|]. by destruct x as [|b x]; intros [? _]. }
  simpl. destruct (rsplit_once c s) as [[x1 y1]|] eqn:E1.
  - destruct (proj1 (IH x1 y1) eq_refl) as [-> Hy1]. split.
    + intros [= <- <-]. by rewrite append_string.
    + intros [E Hy]. destruct x as [|b x].
      { injection E as -> <-. rewrite contains_char_app, contains_char_cons in Hy.
        rewrite (bool_decide_eq_true_2 (c = c)) in Hy by done. by rewrite orb_true_r in Hy. }
      rewrite append_string in E. injection E as -> E.
      assert (Some (x1, y1) = Some (x, y)) as [= -> ->]; [|done]. apply IH. by split.
  - apply rsplit_once_none in E1. case_bool_decide as Ha.
    + subst a. split; [intros [= <- <-]; by split|]. intros [E Hy].
      destruct x as [|b x]; [by injection E as ->|]. rewrite append_string in E. injection E as _ ->.
      rewrite contains_char_app, contains_char_cons in E1.
      rewrite (bool_decide_eq_true_2 (c = c)) in E1 by done. by rewrite orb_true_r in E1.
    + split; [done|]. intros [E Hy]. destruct x as [|b x]; [injection E as Ea Er; congruence|].
      rewrite append_string in E. injection E as -> ->.
      rewrite contains_char_app, contains_char_cons in E1.
      rewrite (bool_decide_eq_true_2 (c = c)) in E1 by done. by rewrite orb_true_r in E1.
Qed.

(** A text that contains another contains its characters. *)
Lemma contains_chars p s c : contains p s = true → contains_char c p = true → contains_char c s = true.
Proof.
  intros H Hc. induction s as [|a s IH]; simpl in H.
  - destruct (Str.strip_prefix p "") as [r|] eqn:E; [|done]. apply strip_prefix_spec in E.
    by destruct p.
  - destruct (Str.strip_prefix p (String a s)) as [r|] eqn:E; simpl in H.
    + apply strip_prefix_spec in E. by rewrite E, contains_char_app, Hc.
    + rewrite contains_char_cons, IH by done. apply orb_true_r.
Qed.

(** *** Characters and trimming *)

Definition is_ascii (c : ascii) : bool := (ascii_code c <? 128)%Z.

Lemma concat_chars_of s : concat_chars (chars s) = s.
Proof.
  induction s as [|a s IH]; [done|]. simpl. destruct (chars s) as [|[|b c] cs]; simpl in *; subst; try done.
  destruct (continuation b); done.
Qed.

Lemma chars_ascii s : all_bytes is_ascii s = true →
  chars s = (λ c, String c "") <$> String.list_ascii_of_string s.
Proof.
  induction s as [|a s IH]; [done|]. rewrite all_bytes_cons. intros [Ha Hs]%andb_prop. simpl.
  rewrite IH by done. destruct s as [|b s]; [done|]. simpl.
  rewrite all_bytes_cons in Hs. apply andb_prop in Hs as [Hb _].
  unfold is_ascii, continuation in *. apply Z.ltb_lt in Hb.
  destruct (Z.leb_spec 128 (ascii_code b)); [lia|done].
Qed.

Lemma drop_while_none {A} (P : A → bool) l : existsb P l = false → drop_while P l = l.
Proof. destruct l as [|a l]; [done|]. simpl. by intros [-> _]%orb_false_elim. Qed.

Lemma existsb_reverse {A} (P : A → bool) l : existsb P (reverse l) = existsb P l.
Proof.
  apply Bool.eq_true_iff_eq. rewrite !existsb_exists.
  split; intros (x & Hx & HP); exists x; (split; [|done]);
    apply list_elem_of_In; apply list_elem_of_In in Hx; [by rewrite elem_of_reverse in Hx|by rewrite elem_of_reverse].
Qed.

Lemma trim_no_whitespace s : existsb is_whitespace (chars s) = false → trim s = s.
Proof.
  intros H. unfold trim. rewrite (drop_while_none _ (chars s)) by done.
  rewrite drop_while_none by (by rewrite existsb_reverse). rewrite reverse_involutive.
  apply concat_chars_of.
Qed.

(** An ASCII text without blanks has no white space. *)
Definition is_graphic (c : ascii) : bool := ((33 <=? ascii_code c) && (ascii_code c <? 128))%Z.

Lemma graphic_no_whitespace s : all_bytes is_graphic s = true → existsb is_whitespace (chars s) = false.
Proof.
  intros H. rewrite chars_ascii.
  - unfold all_bytes in H. induction (String.list_ascii_of_string s) as [|a l IH]; [done|].
    rewrite fmap_cons. cbn [existsb forallb] in *.
    apply andb_prop in H as [Ha Hl]. rewrite IH by done. rewrite orb_false_r.
    unfold is_whitespace, string_bytes, is_graphic, ascii_code in *. simpl.
    apply andb_prop in Ha as [H1%Z.leb_le H2%Z.ltb_lt].
    destruct (_ || _) eqn:E; [|done]. exfalso.
    apply orb_prop in E as [E|E]; [apply andb_prop in E as [_ E%Z.leb_le]; lia|apply Z.eqb_eq in E; lia].
  - revert H. apply all_bytes_impl. intros c [_ ?]%andb_prop. done.
Qed.

(** *** What the parsers read

    [reads P s r]: the parser went from [s] to [r] over characters of [P]. *)
Definition reads (P : ascii → bool) (s r : string) : Prop :=
  ∃ pre, s = pre +:+ r ∧ all_bytes P pre = true.

Lemma reads_refl P s : reads P s s.
Proof. by exists "". Qed.

Lemma reads_trans P s t r : reads P s t → reads P t r → reads P s r.
Proof.
  intros (a & -> & Ha) (b & -> & Hb). exists (a +:+ b). by rewrite append_assoc, all_bytes_app, Ha, Hb.
Qed.

Lemma reads_char P c s : P c = true → reads P (String c s) s.
Proof. intros H. exists (String c ""). by rewrite all_bytes_cons, H. Qed.

Lemma reads_all P s : reads P s "" → all_bytes P s = true.
Proof. intros (a & -> & Ha). by rewrite append_empty. Qed.

Lemma reads_impl (P Q : ascii → bool) s r : (∀ c, P c = true → Q c = true) → reads P s r → reads Q s r.
Proof. intros H (a & -> & Ha). exists a. split; [done|]. by eapply all_bytes_impl. Qed.

Lemma span_digits_reads s ds t : span_digits s = (ds, t) → reads is_digit s t.
Proof.
  revert ds. induction s as [|c s IH]; intros ds; simpl; [intros [= _ <-]; apply reads_refl|].
  destruct (is_digit c) eqn:Hc; [|intros [= _ <-]; apply reads_refl].
  destruct (span_digits s) as [ds' t'] eqn:E. intros [= _ <-].
  eapply reads_trans; [by apply reads_char|by eapply IH].
Qed.

Lemma read_char_reads (P : ascii → bool) c s r : P c = true → read_char c s = Some r → reads P s r.
Proof.
  destruct s as [|a s]; simpl; [done|]. intros H. case_bool_decide; [|done]. intros [= <-]. subst.
  by apply reads_char.
Qed.

Definition ipv4_char (c : ascii) : bool := is_digit c || bool_decide (c = "."%char).

Lemma read_octet_reads s o r : read_octet s = Some (o, r) → reads ipv4_char s r.
Proof.
  unfold read_octet. destruct (span_digits s) as [ds t] eqn:E. destruct (_ && _); [|done].
  intros [= _ <-]. eapply reads_impl; [|by eapply span_digits_reads].
  intros c Hc. unfold ipv4_char. by rewrite Hc.
Qed.

Lemma read_dot_reads s r : read_dot s = Some r → reads ipv4_char s r.
Proof. intros H. by apply (read_char_reads _ "."%char). Qed.

Lemma read_ipv4_reads s a r : read_ipv4 s = Some (a, r) → reads ipv4_char s r.
Proof.
  unfold read_ipv4. intros H.
  repeat match type of H with
  | mbind _ (read_octet ?x) = _ =>
      let E := fresh in destruct (read_octet x) as [[? ?]|] eqn:E; cbn [mbind option_bind] in H; [|done];
      apply read_octet_reads in E
  | mbind _ (read_dot ?x) = _ =>
      let E := fresh in destruct (read_dot x) as [?|] eqn:E; cbn [mbind option_bind] in H; [|done];
      apply read_dot_reads in E
  end.
  injection H as _ <-. by repeat (eapply reads_trans; [eassumption|]); try apply reads_refl.
Qed.

Lemma ipv4_parse_read s a : ipv4_parse s = Some a ↔ read_ipv4 s = Some (a, "").
Proof.
  unfold ipv4_parse, read_ipv4.
  repeat match goal with
  | |- context [mbind _ (read_octet ?x)] => destruct (read_octet x) as [[? ?]|]; cbn [mbind option_bind]; [|done]
  | |- context [mbind _ (read_dot ?x)] => destruct (read_dot x) as [?|]; cbn [mbind option_bind]; [|done]
  end.
  case_bool_decide; [subst|]; split; intros [= E]; by subst.
Qed.

Lemma ipv4_parse_chars s a : ipv4_parse s = Some a → all_bytes ipv4_char s = true.
Proof. intros H%ipv4_parse_read%read_ipv4_reads. by apply reads_all. Qed.

Definition ipv6_char (c : ascii) : bool :=
  is_some (hex_value c) || bool_decide (c = "."%char) || bool_decide (c = ":"%char).

Lemma ipv4_ipv6_char c : ipv4_char c = true → ipv6_char c = true.
Proof.
  unfold ipv4_char, ipv6_char, hex_value. intros [->|H]%orb_prop; [done|].
  by rewrite H, orb_true_r.
Qed.

Lemma span_hex_reads s ds t : span_hex s = (ds, t) → reads ipv6_char s t.
Proof.
  revert ds. induction s as [|c s IH]; intros ds; simpl; [intros [= _ <-]; apply reads_refl|].
  destruct (hex_value c) eqn:Hc; [|intros [= _ <-]; apply reads_refl].
  destruct (span_hex s) as [ds' t'] eqn:E. intros [= _ <-].
  eapply reads_trans; [apply reads_char; unfold ipv6_char; by rewrite Hc|by eapply IH].
Qed.

Lemma read_separator_reads {A} i (inner : string → option (A * string)) s a r :
  (∀ s a r, inner s = Some (a, r) → reads ipv6_char s r) →
  read_separator i inner s = Some (a, r) → reads ipv6_char s r.
Proof.
  intros H. destruct i; simpl; [apply H|]. destruct (read_char ":" s) as [t|] eqn:E; [|done].
  intros Hi. eapply reads_trans; [by eapply (read_char_reads _ ":"%char)|by eapply H].
Qed.

Lemma read_groups_reads n i s gs v4 r : read_groups n i s = (gs, v4, r) → reads ipv6_char s r.
Proof.
  revert i s gs v4. induction n as [|n IH]; intros i s gs v4; simpl;
    [intros [= _ _ <-]; apply reads_refl|].
  destruct (if (1 <? S n)%nat then read_separator i read_ipv4 s else None) as [[a t]|] eqn:E1.
  { intros [= _ _ <-]. destruct (1 <? S n)%nat; [|done].
    eapply read_separator_reads; [|exact E1]. intros x b y H%read_ipv4_reads.
    eapply reads_impl; [apply ipv4_ipv6_char|done]. }
  destruct (read_separator i read_group s) as [[g t]|] eqn:E2.
  - destruct (read_groups n (S i) t) as [[gs' v'] t'] eqn:E3. intros [= _ _ <-].
    eapply reads_trans; [|by eapply IH]. eapply read_separator_reads; [|exact E2].
    intros x b y. unfold read_group. destruct (span_hex x) as [ds u] eqn:E4. destruct (_ && _); [|done].
    intros [= _ <-]. by eapply span_hex_reads.
  - intros [= _ _ <-]. apply reads_refl.
Qed.

Lemma ipv6_parse_chars s a : ipv6_parse s = Some a → all_bytes ipv6_char s = true.
Proof.
  unfold ipv6_parse. destruct (read_groups 8 0 s) as [[head v4] t] eqn:E1.
  apply read_groups_reads in E1. destruct (_ =? _)%nat.
  { case_bool_decide; [|done]. subst. intros _. by apply reads_all. }
  destruct v4; [done|]. destruct (read_char ":" t) as [t1|] eqn:E2; cbn [mbind option_bind]; [|done].
  destruct (read_char ":" t1) as [t2|] eqn:E3; cbn [mbind option_bind]; [|done].
  destruct (read_groups _ 0 t2) as [[tail v] t3] eqn:E4. apply read_groups_reads in E4.
  case_bool_decide; [|done]. subst. intros _. apply reads_all.
  eapply reads_trans; [exact E1|]. eapply reads_trans; [by eapply (read_char_reads _ ":"%char)|].
  eapply reads_trans; [by eapply (read_char_reads _ ":"%char)|done].
Qed.

Definition port_char (c : ascii) : bool := is_digit c || bool_decide (c = "+"%char).

Lemma u16_parse_chars s p : u16_parse s = Some p → all_bytes port_char s = true ∧ (0 ≤ p ≤ 65535)%Z.
Proof.
  unfold u16_parse, uint_parse. destruct (span_digits (strip_plus s)) as [[|d ds] [|? ?]] eqn:E; try done.
  destruct (Z.leb_spec (decimal (d :: ds)) 65535); [|done]. intros [= <-].
  apply span_digits_reads in E as Hr. split.
  - assert (all_bytes port_char (strip_plus s) = true) as Hp.
    { apply reads_all. eapply reads_impl; [|exact Hr]. intros c Hc. unfold port_char. by rewrite Hc. }
    destruct s as [|c s]; [done|]. simpl in Hp. case_bool_decide; [subst; by rewrite all_bytes_cons|done].
  - split; [|done].
    assert (Forall (λ x, 0 ≤ x)%Z (d :: ds)) as Hf.
    { clear -E. revert E. generalize (strip_plus s) as u, (d :: ds) as l.
      induction u as [|c u IH]; intros l; simpl; [intros [= <-]; constructor|].
      destruct (is_digit c) eqn:Hc; [|intros [= <-]; constructor].
      destruct (span_digits u) as [ds' t'] eqn:E'. intros [= <- ->]. constructor; [|by apply IH].
      unfold is_digit, digit_value in *. apply andb_prop in Hc as [?%Z.leb_le _]. lia. }
    unfold decimal. assert (∀ l a, Forall (λ x, 0 ≤ x)%Z l → 0 ≤ a → 0 ≤ fold_left (λ a d, a * 10 + d) l a)%Z as Hd.
    { induction l as [|x l IH]; intros a; [done|]. intros [??]%Forall_cons ?. simpl. apply IH; [done|lia]. }
    apply Hd; [done|lia].
Qed.
(** *** Splitting and trimming ASCII texts *)

Definition no_char (c : ascii) (s : string) : bool :=
  forallb (λ a, negb (bool_decide (a = c))) (String.list_ascii_of_string s).

Lemma split_app c a r :
  no_char c a = true → Str.split c (a +:+ String c r) = a :: Str.split c r.
Proof.
  induction a as [|x a IH]; simpl; intros H.
  { by rewrite bool_decide_eq_true_2. }
  apply andb_true_iff in H as [Hx Ha]. apply negb_true_iff in Hx.
  by rewrite Hx, IH.
Qed.

Lemma split_none c a : no_char c a = true → Str.split c a = [a].
Proof.
  induction a as [|x a IH]; simpl; intros H; [done|].
  apply andb_true_iff in H as [Hx Ha]. apply negb_true_iff in Hx. by rewrite Hx, IH.
Qed.

Lemma split_once_app c a r :
  no_char c a = true → Str.split_once c (a +:+ String c r) = Some (a, r).
Proof.
  induction a as [|x a IH]; simpl; intros H.
  { by rewrite bool_decide_eq_true_2. }
  apply andb_true_iff in H as [Hx Ha]. apply negb_true_iff in Hx.
  by rewrite Hx, IH.
Qed.

Definition no_space (s : string) : bool :=
  forallb (λ a, negb (Str.is_space a)) (String.list_ascii_of_string s).

Lemma trim_no_space s : no_space s = true → Str.trim s = s.
Proof.
  intros H. unfold Str.trim.
  assert (Str.trim_start s = s) as ->.
  { destruct s as [|a s]; [done|]. simpl in *. apply andb_true_iff in H as [Ha _].
    apply negb_true_iff in Ha. by rewrite Ha. }
  induction s as [|a s IH]; [done|]. simpl in *. apply andb_true_iff in H as [Ha Hs].
  apply negb_true_iff in Ha. rewrite IH by done. destruct s; [by rewrite Ha|done].
Qed.

Lemma trim_lead_space s : no_space s = true → Str.trim (String " " s) = s.
Proof. intros H. exact (trim_no_space s H). Qed.

End StrFacts.
