(* ===== verification/Packet.v ===== *)
(** The VNT packet header: [protocol/ip_packet_protocol.rs].

    A packet is a byte buffer whose first sixteen bytes are a packed header.
    The header view of the source ([Ref::from_prefix]) is a decoding of those
    bytes; a write through the mutable view re-encodes them in place. *)

From S2P Require Import Prelude Libs.
From stdpp Require Import base gmap strings list.
From Stdlib Require Import ZArith Lia.

Local Open Scope Z_scope.

(** ** The header *)

Record NetHeader := mkNetHeader {
  type_byte : Z;
  ttl_byte : Z;
  flags_byte : Z;
  reserved : Z;
  h_seq : bytes;
  h_src_id : bytes;
  h_dest_id : bytes
}.

Definition HEAD_LENGTH : nat := 16.
Definition COMPRESSED : Z := 128.
Definition GATEWAY : Z := 64.

Module Header.
Definition msg_type (h : NetHeader) : Z := Z.land (type_byte h) 127.

Definition set_msg_type (m : Z) (h : NetHeader) : NetHeader :=
  mkNetHeader (Z.lor (Z.land m 127) 128) (ttl_byte h) (flags_byte h) (reserved h)
    (h_seq h) (h_src_id h) (h_dest_id h).

Definition max_ttl (h : NetHeader) : Z := Z.shiftr (ttl_byte h) 4.
Definition curr_ttl (h : NetHeader) : Z := Z.land (ttl_byte h) 15.

Definition with_ttl_byte (t : Z) (h : NetHeader) : NetHeader :=
  mkNetHeader (type_byte h) t (flags_byte h) (reserved h)
    (h_seq h) (h_src_id h) (h_dest_id h).

(** [max << 4] on a [u8] drops the high bits. *)
Definition set_ttl (max curr : Z) (h : NetHeader) : NetHeader :=
  with_ttl_byte (Z.lor (wrap 8 (Z.shiftl max 4)) (Z.land curr 15)) h.

Definition decr_ttl (h : NetHeader) : bool * NetHeader :=
  let curr := curr_ttl h in
  if curr <=? 1 then (false, h)
  else (true, with_ttl_byte (Z.lor (Z.land (ttl_byte h) 240) (curr - 1)) h).

(** [flags &= !mask] is a [land] with the 8-bit complement. *)
Definition set_flag (mask : Z) (val : bool) (h : NetHeader) : NetHeader :=
  let f := if val then Z.lor (flags_byte h) mask
           else Z.land (flags_byte h) (255 - mask) in
  mkNetHeader (type_byte h) (ttl_byte h) f (reserved h)
    (h_seq h) (h_src_id h) (h_dest_id h).

(** [header.seq.set(x)] and the same for the two ids. *)
Definition set_seq `{!NetU32Lib} (x : Z) (h : NetHeader) : NetHeader :=
  mkNetHeader (type_byte h) (ttl_byte h) (flags_byte h) (reserved h)
    (u32_set x) (h_src_id h) (h_dest_id h).
Definition set_src_id `{!NetU32Lib} (x : Z) (h : NetHeader) : NetHeader :=
  mkNetHeader (type_byte h) (ttl_byte h) (flags_byte h) (reserved h)
    (h_seq h) (u32_set x) (h_dest_id h).
Definition set_dest_id `{!NetU32Lib} (x : Z) (h : NetHeader) : NetHeader :=
  mkNetHeader (type_byte h) (ttl_byte h) (flags_byte h) (reserved h)
    (h_seq h) (h_src_id h) (u32_set x).
End Header.

(** ** Message types *)

Inductive MsgType :=
| Turn | Broadcast | ExcludeBroadcast | TargetBroadcast
| Ping | Pong | PingTurn | PongTurn
| PunchStart1 | PunchStart2 | PunchReq | PunchRes
| PushClientIps | RpcReq | RpcRes
| Quic | WireGuardRelay | WireGuardP2pControl
| WireGuardSubnetRelay | WireGuardBroadcastRelay.

#[export] Instance MsgType_eq_dec : EqDecision MsgType.
Proof. solve_decision. Defined.

Module MsgType_.
(** [impl Into<u8> for MsgType]: the discriminants. *)
Definition into (m : MsgType) : Z :=
  match m with
  | Turn => 1 | Broadcast => 2 | ExcludeBroadcast => 3 | TargetBroadcast => 4
  | Ping => 5 | Pong => 6 | PingTurn => 7 | PongTurn => 8
  | PunchStart1 => 9 | PunchStart2 => 10 | PunchReq => 11 | PunchRes => 12
  | PushClientIps => 13 | RpcReq => 14 | RpcRes => 15
  | Quic => 17 | WireGuardRelay => 18 | WireGuardP2pControl => 20
  | WireGuardSubnetRelay => 21 | WireGuardBroadcastRelay => 22
  end.

(** [impl TryFrom<u8> for MsgType]; the error carries the rejected value. *)
Definition try_from (value : Z) : result Z MsgType :=
  match value with
  | 1 => Ok Turn | 2 => Ok Broadcast | 3 => Ok ExcludeBroadcast | 4 => Ok TargetBroadcast
  | 5 => Ok Ping | 6 => Ok Pong | 7 => Ok PingTurn | 8 => Ok PongTurn
  | 9 => Ok PunchStart1 | 10 => Ok PunchStart2 | 11 => Ok PunchReq | 12 => Ok PunchRes
  | 13 => Ok PushClientIps | 14 => Ok RpcReq | 15 => Ok RpcRes
  | 17 => Ok Quic | 18 => Ok WireGuardRelay | 20 => Ok WireGuardP2pControl
  | 21 => Ok WireGuardSubnetRelay | 22 => Ok WireGuardBroadcastRelay
  | _ => Err value
  end.
End MsgType_.

(** ** Packets *)

Record NetPacket := mkNetPacket { buffer : bytes }.

(** The errors of this file are [io::ErrorKind::InvalidInput]. *)
Inductive IoError := InvalidInput.

(** The header is a packed [repr(C)] struct: its fields in order. *)
Definition decode_header (b : bytes) : NetHeader :=
  mkNetHeader (default 0 (b !! 0%nat)) (default 0 (b !! 1%nat))
    (default 0 (b !! 2%nat)) (default 0 (b !! 3%nat))
    (take 4 (drop 4 b)) (take 4 (drop 8 b)) (take 4 (drop 12 b)).

Definition encode_header (h : NetHeader) : bytes :=
  [type_byte h; ttl_byte h; flags_byte h; reserved h]
  ++ h_seq h ++ h_src_id h ++ h_dest_id h.

Module Packet.
Section Packet.
Context {U32 : NetU32Lib}.

(** [NetPacket::new]. *)
Definition new (b : bytes) : result IoError NetPacket :=
  if (length b <? HEAD_LENGTH)%nat then Err InvalidInput else Ok (mkNetPacket b).

Definition header (p : NetPacket) : NetHeader := decode_header (buffer p).

(** A write through the mutable header view. *)
Definition header_mut (f : NetHeader → NetHeader) (p : NetPacket) : NetPacket :=
  mkNetPacket (encode_header (f (header p)) ++ drop HEAD_LENGTH (buffer p)).

Definition msg_type (p : NetPacket) : result Z MsgType :=
  MsgType_.try_from (Header.msg_type (header p)).
Definition max_ttl (p : NetPacket) : Z := Header.max_ttl (header p).
Definition ttl (p : NetPacket) : Z := Header.curr_ttl (header p).
Definition seq (p : NetPacket) : Z := u32_get (h_seq (header p)).
Definition src_id (p : NetPacket) : Z := u32_get (h_src_id (header p)).
Definition dest_id (p : NetPacket) : Z := u32_get (h_dest_id (header p)).
Definition is_compressed (p : NetPacket) : bool :=
  negb (Z.land (flags_byte (header p)) COMPRESSED =? 0).
Definition is_gateway (p : NetPacket) : bool :=
  negb (Z.land (flags_byte (header p)) GATEWAY =? 0).
Definition payload (p : NetPacket) : bytes := drop HEAD_LENGTH (buffer p).

Definition set_msg_type (m : MsgType) : NetPacket → NetPacket :=
  header_mut (Header.set_msg_type (MsgType_.into m)).

Definition decr_ttl (p : NetPacket) : bool * NetPacket :=
  ((Header.decr_ttl (header p)).1, header_mut (λ h, (Header.decr_ttl h).2) p).

Definition set_ttl (t : Z) : NetPacket → NetPacket := header_mut (Header.set_ttl t t).

Definition set_seq (x : Z) : NetPacket → NetPacket := header_mut (Header.set_seq x).
Definition set_src_id (x : Z) : NetPacket → NetPacket := header_mut (Header.set_src_id x).
Definition set_dest_id (x : Z) : NetPacket → NetPacket := header_mut (Header.set_dest_id x).

Definition set_compressed_flag (v : bool) : NetPacket → NetPacket :=
  header_mut (Header.set_flag COMPRESSED v).
Definition set_gateway_flag (v : bool) : NetPacket → NetPacket :=
  header_mut (Header.set_flag GATEWAY v).

Definition set_payload (data : bytes) (p : NetPacket) : result IoError NetPacket :=
  if (length (buffer p) <? HEAD_LENGTH + length data)%nat then Err InvalidInput
  else Ok (mkNetPacket (write_at HEAD_LENGTH data (buffer p))).
End Packet.
End Packet.

(** ** Well-formed packets and the header view *)

(** A packet made by [NetPacket::new] on a buffer of bytes. *)
Definition packet_ok (p : NetPacket) : Prop :=
  (HEAD_LENGTH ≤ length (buffer p))%nat ∧ bytes_ok (buffer p).
#[export] Instance packet_ok_dec p : Decision (packet_ok p).
Proof. unfold packet_ok. apply _. Defined.

Definition header_ok (h : NetHeader) : Prop :=
  is_u 8 (type_byte h) ∧ is_u 8 (ttl_byte h) ∧ is_u 8 (flags_byte h) ∧ is_u 8 (reserved h) ∧
  (length (h_seq h) = 4%nat ∧ bytes_ok (h_seq h)) ∧
  (length (h_src_id h) = 4%nat ∧ bytes_ok (h_src_id h)) ∧
  (length (h_dest_id h) = 4%nat ∧ bytes_ok (h_dest_id h)).

Module PacketFacts.
Section PacketFacts.
Context {U32 : NetU32Lib} {U32L : NetU32Laws}.

Lemma new_ok b p : Packet.new b = Ok p → bytes_ok b → packet_ok p ∧ buffer p = b.
Proof.
  unfold Packet.new. destruct (Nat.ltb_spec (length b) HEAD_LENGTH) as [|Hl]; [done|].
  intros [= <-] Hb. done.
Qed.

Lemma decode_header_ok b :
  (HEAD_LENGTH ≤ length b)%nat → bytes_ok b → header_ok (decode_header b).
Proof.
  unfold HEAD_LENGTH. intros Hl Hb.
  assert (∀ i, is_u 8 (default 0 (b !! i))) as Hi.
  { intros i. destruct (b !! i) eqn:E; simpl; [|unfold is_u; lia].
    eapply Forall_lookup_1 in E; done. }
  assert (∀ i, (i + 4 ≤ 16)%nat →
    length (take 4 (drop i b)) = 4%nat ∧ bytes_ok (take 4 (drop i b))) as Hw.
  { intros i ?. rewrite length_take, length_drop.
    split; [lia|by apply Forall_take, Forall_drop]. }
  repeat split; simpl; try apply Hi; try (apply Hw; lia).
Qed.

Lemma decode_header_take b : decode_header (take 16 b) = decode_header b.
Proof.
  unfold decode_header. rewrite !lookup_take_lt by lia. f_equal.
  all: by rewrite !take_drop_commute, take_take.
Qed.

Lemma header_ok_of p : packet_ok p → header_ok (Packet.header p).
Proof. intros [? ?]. by apply decode_header_ok. Qed.

Lemma length_encode_header h : header_ok h → length (encode_header h) = HEAD_LENGTH.
Proof.
  intros (_&_&_&_&[H1 _]&[H2 _]&[H3 _]). unfold encode_header.
  rewrite !length_app, H1, H2, H3. done.
Qed.

Lemma decode_encode_header h r : header_ok h → decode_header (encode_header h ++ r) = h.
Proof.
  intros (_&_&_&_&[H1 _]&[H2 _]&[H3 _]). destruct h as [t l f v s a d]; simpl in *.
  destruct s as [|? [|? [|? [|? [|]]]]]; simplify_eq/=.
  destruct a as [|? [|? [|? [|? [|]]]]]; simplify_eq/=.
  destruct d as [|? [|? [|? [|? [|]]]]]; simplify_eq/=. done.
Qed.

Lemma encode_decode_header b :
  (HEAD_LENGTH ≤ length b)%nat → encode_header (decode_header b) = take HEAD_LENGTH b.
Proof.
  unfold HEAD_LENGTH. intros Hl.
  do 16 (destruct b as [|? b]; [simpl in Hl; lia|]). done.
Qed.

Lemma encode_header_ok h : header_ok h → bytes_ok (encode_header h).
Proof.
  intros (?&?&?&?&[_ H1]&[_ H2]&[_ H3]). unfold encode_header, bytes_ok in *.
  rewrite !Forall_app, !Forall_cons, Forall_nil. tauto.
Qed.

(** The three facts every header write needs: the header afterwards is the
    function applied to the header before, the payload and the length are
    untouched, and the packet stays well-formed. *)
Lemma header_header_mut f p :
  packet_ok p → header_ok (f (Packet.header p)) →
  Packet.header (Packet.header_mut f p) = f (Packet.header p).
Proof. intros _ Hf. unfold Packet.header, Packet.header_mut. simpl. by apply decode_encode_header. Qed.

Lemma payload_header_mut f p :
  header_ok (f (Packet.header p)) → Packet.payload (Packet.header_mut f p) = Packet.payload p.
Proof.
  intros Hf. unfold Packet.payload, Packet.header_mut. cbn [buffer].
  by rewrite drop_app_length' by (by rewrite length_encode_header).
Qed.

Lemma length_header_mut f p :
  packet_ok p → header_ok (f (Packet.header p)) →
  length (buffer (Packet.header_mut f p)) = length (buffer p).
Proof.
  intros [Hl _] Hf. unfold Packet.header_mut. cbn [buffer]. rewrite length_app, length_encode_header, length_drop by done. lia.
Qed.

Lemma header_mut_ok f p :
  packet_ok p → header_ok (f (Packet.header p)) → packet_ok (Packet.header_mut f p).
Proof.
  intros Hp Hf. split; [rewrite length_header_mut by done; apply Hp|].
  unfold Packet.header_mut. cbn [buffer].
  apply Forall_app. split; [by apply encode_header_ok|apply Forall_drop, Hp].
Qed.

(** ** Header writes keep the header well-formed *)

Lemma set_msg_type_ok m h : header_ok h → header_ok (Header.set_msg_type m h).
Proof.
  intros Hh. assert (is_u 8 (Z.lor (Z.land m 127) 128)) as Hr.
  { apply lor_range; [lia|rewrite Z.land_comm; apply land_range; unfold is_u; lia|unfold is_u; lia]. }
  unfold header_ok in *. simpl. tauto.
Qed.

Lemma with_ttl_byte_ok t h : is_u 8 t → header_ok h → header_ok (Header.with_ttl_byte t h).
Proof. unfold header_ok. simpl. tauto. Qed.

Lemma set_ttl_ok m c h : header_ok h → header_ok (Header.set_ttl m c h).
Proof.
  intros Hh. apply with_ttl_byte_ok; [|done]. apply lor_range; [lia|by apply wrap_range|].
  rewrite Z.land_comm. apply land_range; [lia|]. unfold is_u. lia.
Qed.

Lemma set_flag_ok mask v h :
  is_u 8 mask → header_ok h → header_ok (Header.set_flag mask v h).
Proof.
  intros Hm Hh. assert (is_u 8 (flags_byte (Header.set_flag mask v h))) as Hr.
  { simpl. destruct v; [apply lor_range|apply land_range]; try done; apply Hh. }
  unfold header_ok in *. simpl in *. tauto.
Qed.

(** The ttl byte: its two nibbles, checked on all bytes. *)
Lemma ttl_byte_set t : is_u 4 t →
  Z.land (Z.lor (wrap 8 (Z.shiftl t 4)) (Z.land t 15)) 15 = t ∧
  Z.shiftr (Z.lor (wrap 8 (Z.shiftl t 4)) (Z.land t 15)) 4 = t.
Proof.
  intros Ht. pose (P := λ t, (15 <? t) ||
    (Z.land (Z.lor (wrap 8 (Z.shiftl t 4)) (Z.land t 15)) 15 =? t) &&
    (Z.shiftr (Z.lor (wrap 8 (Z.shiftl t 4)) (Z.land t 15)) 4 =? t)).
  assert (P t = true) as HP by (apply u8_check; [by vm_compute|unfold is_u in *; lia]).
  unfold P in HP. apply orb_true_iff in HP as [HP|HP]; bool_simpl; [|done].
  unfold is_u in Ht. change (2 ^ 4) with 16 in Ht. lia.
Qed.

Lemma ttl_byte_decr b : is_u 8 b → 1 < Z.land b 15 →
  is_u 8 (Z.lor (Z.land b 240) (Z.land b 15 - 1)) ∧
  Z.land (Z.lor (Z.land b 240) (Z.land b 15 - 1)) 15 = Z.land b 15 - 1 ∧
  Z.shiftr (Z.lor (Z.land b 240) (Z.land b 15 - 1)) 4 = Z.shiftr b 4.
Proof.
  intros Hb Hc. pose (P := λ b, (Z.land b 15 <=? 1) ||
    (let n := Z.lor (Z.land b 240) (Z.land b 15 - 1) in
     bool_decide (is_u 8 n) && (Z.land n 15 =? Z.land b 15 - 1) &&
     (Z.shiftr n 4 =? Z.shiftr b 4))).
  assert (P b = true) as HP by (apply u8_check; [by vm_compute|done]).
  unfold P in HP. apply orb_true_iff in HP as [HP|HP]; bool_simpl; [lia|done].
Qed.

Lemma flag_byte_set b (v : bool) : is_u 8 b →
  (negb (Z.land (if v then Z.lor b GATEWAY else Z.land b (255 - GATEWAY)) GATEWAY =? 0) = v) ∧
  Z.land (if v then Z.lor b GATEWAY else Z.land b (255 - GATEWAY)) COMPRESSED = Z.land b COMPRESSED.
Proof.
  intros Hb. pose (P := λ b, forallb (λ v : bool,
    let n := if v then Z.lor b GATEWAY else Z.land b (255 - GATEWAY) in
    eqb (negb (Z.land n GATEWAY =? 0)) v && (Z.land n COMPRESSED =? Z.land b COMPRESSED)) [true; false]).
  assert (P b = true) as HP by (apply u8_check; [by vm_compute|done]).
  unfold P in HP. simpl in HP. rewrite andb_true_r in HP.
  destruct v; bool_simpl; split; try done; by apply eqb_prop.
Qed.

Lemma ttl_range p : packet_ok p → 0 ≤ Packet.ttl p ≤ 15.
Proof.
  intros Hp. unfold Packet.ttl, Header.curr_ttl.
  rewrite (land_low _ 4 15) by lia.
  pose proof (Z.mod_pos_bound (ttl_byte (Packet.header p)) (2 ^ 4)). lia.
Qed.

Lemma decr_ttl_header_ok h : header_ok h → header_ok (Header.decr_ttl h).2.
Proof.
  intros Hh. unfold Header.decr_ttl, Header.curr_ttl. destruct (Z.leb_spec (Z.land (ttl_byte h) 15) 1); [done|].
  apply with_ttl_byte_ok; [|done]. apply ttl_byte_decr; [apply Hh|done].
Qed.

Lemma decr_ttl_packet_ok p : packet_ok p → packet_ok (Packet.decr_ttl p).2.
Proof.
  intros Hp. apply header_mut_ok; [done|]. by apply decr_ttl_header_ok, header_ok_of.
Qed.

Lemma try_from_into m v : MsgType_.try_from v = Ok m → v = MsgType_.into m.
Proof. unfold MsgType_.try_from. intros E. break. Qed.

Lemma msg_type_byte m : Z.land (Z.lor (Z.land (MsgType_.into m) 127) 128) 127 = MsgType_.into m.
Proof. by destruct m. Qed.

(** Reading and rewriting the id fields. *)
Lemma set_seq_ok x h : is_u 32 x → header_ok h → header_ok (Header.set_seq x h).
Proof.
  intros Hx. pose proof (u32_set_length x). pose proof (u32_set_ok x Hx).
  unfold header_ok. simpl. tauto.
Qed.
Lemma set_src_id_ok x h : is_u 32 x → header_ok h → header_ok (Header.set_src_id x h).
Proof.
  intros Hx. pose proof (u32_set_length x). pose proof (u32_set_ok x Hx).
  unfold header_ok. simpl. tauto.
Qed.
Lemma set_dest_id_ok x h : is_u 32 x → header_ok h → header_ok (Header.set_dest_id x h).
Proof.
  intros Hx. pose proof (u32_set_length x). pose proof (u32_set_ok x Hx).
  unfold header_ok. simpl. tauto.
Qed.

Lemma header_decr_ttl p :
  Header.decr_ttl (Packet.header p) =
  if Packet.ttl p <=? 1 then (false, Packet.header p)
  else (true, Header.with_ttl_byte (Z.lor (Z.land (ttl_byte (Packet.header p)) 240)
                (Packet.ttl p - 1)) (Packet.header p)).
Proof. reflexivity. Qed.

(** Every setter, seen from the header, the payload and the length. *)
Lemma setter_effect f p :
  packet_ok p → (header_ok (Packet.header p) → header_ok (f (Packet.header p))) →
  packet_ok (Packet.header_mut f p) ∧
  Packet.header (Packet.header_mut f p) = f (Packet.header p) ∧
  Packet.payload (Packet.header_mut f p) = Packet.payload p ∧
  length (buffer (Packet.header_mut f p)) = length (buffer p).
Proof.
  intros Hp Hf. specialize (Hf (header_ok_of p Hp)).
  split; [by apply header_mut_ok|]. split; [by apply header_header_mut|].
  split; [by apply payload_header_mut|by apply length_header_mut].
Qed.

(** The packet after the writes a relay envelope makes. *)
Lemma envelope_writes p m t s d :
  packet_ok p → is_u 4 t → is_u 32 s → is_u 32 d →
  let q := Packet.set_dest_id d (Packet.set_src_id s (Packet.set_ttl t (Packet.set_msg_type m p))) in
  packet_ok q ∧
  Packet.header q = mkNetHeader (Z.lor (Z.land (MsgType_.into m) 127) 128)
    (Z.lor (wrap 8 (Z.shiftl t 4)) (Z.land t 15)) (flags_byte (Packet.header p))
    (reserved (Packet.header p)) (h_seq (Packet.header p)) (u32_set s) (u32_set d) ∧
  Packet.payload q = Packet.payload p ∧ length (buffer q) = length (buffer p).
Proof.
  intros Hp Ht Hs Hd q.
  destruct (setter_effect (Header.set_msg_type (MsgType_.into m)) p Hp
    (set_msg_type_ok _ _)) as (Hp1 & E1 & P1 & L1).
  destruct (setter_effect (Header.set_ttl t t) _ Hp1 (set_ttl_ok _ _ _)) as (Hp2 & E2 & P2 & L2).
  destruct (setter_effect (Header.set_src_id s) _ Hp2 (set_src_id_ok s _ Hs)) as (Hp3 & E3 & P3 & L3).
  destruct (setter_effect (Header.set_dest_id d) _ Hp3 (set_dest_id_ok d _ Hd)) as (Hp4 & E4 & P4 & L4).
  split; [exact Hp4|]. split.
  - etransitivity; [exact E4|]. by rewrite E3, E2, E1.
  - split; etransitivity; [exact P4|congruence|exact L4|congruence].
Qed.

Lemma set_payload_ok d p :
  packet_ok p → bytes_ok d → (HEAD_LENGTH + length d ≤ length (buffer p))%nat →
  ∃ q, Packet.set_payload d p = Ok q ∧ packet_ok q ∧ Packet.header q = Packet.header p ∧
    take (length d) (Packet.payload q) = d ∧ length (buffer q) = length (buffer p).
Proof.
  intros [Hl Hb] Hd Hlen. unfold Packet.set_payload.
  destruct (Nat.ltb_spec (length (buffer p)) (HEAD_LENGTH + length d)); [lia|].
  eexists. split; [done|].
  assert (length (write_at HEAD_LENGTH d (buffer p)) = length (buffer p)) as Hw
    by (apply length_write_at; lia).
  split; [split; [simpl; by rewrite Hw|by apply write_at_ok]|].
  split; [|split; [|done]].
  - unfold Packet.header. simpl buffer.
    assert (∀ i, (i < 16)%nat → write_at HEAD_LENGTH d (buffer p) !! i = buffer p !! i) as Hi.
    { intros i Hi. apply write_at_lookup_out; [done|]. unfold HEAD_LENGTH. lia. }
    assert (take 16 (write_at HEAD_LENGTH d (buffer p)) = take 16 (buffer p)) as Ht.
    { apply list_eq. intros i. destruct (decide (i < 16)%nat).
      - rewrite !lookup_take_lt by done. by apply Hi.
      - rewrite !lookup_take_ge by lia. done. }
    by rewrite <- decode_header_take, Ht, decode_header_take.
  - unfold Packet.payload. simpl buffer. unfold write_at.
    rewrite drop_app_length' by (rewrite length_take; lia). by rewrite take_app_length.
Qed.

(** The effect of one ttl decrement. *)
Lemma decr_ttl_effect p ok q :
  packet_ok p → Packet.decr_ttl p = (ok, q) →
  packet_ok q ∧ ok = (1 <? Packet.ttl p) ∧
  Packet.header q = (if ok then Header.with_ttl_byte (Z.lor (Z.land (ttl_byte (Packet.header p)) 240)
                (Packet.ttl p - 1)) (Packet.header p) else Packet.header p) ∧
  Packet.ttl q = (if ok then Packet.ttl p - 1 else Packet.ttl p) ∧
  Packet.max_ttl q = Packet.max_ttl p ∧
  Packet.payload q = Packet.payload p ∧ (ok = false → buffer q = buffer p).
Proof.
  intros Hp Hd. unfold Packet.decr_ttl in Hd.
  destruct (setter_effect (λ h, (Header.decr_ttl h).2) p Hp
    (decr_ttl_header_ok _)) as (Hq & E & P & L).
  pose proof (header_ok_of p Hp) as Hh. rewrite header_decr_ttl in *.
  destruct (Z.leb_spec (Packet.ttl p) 1) as [Hle|Hgt]; simplify_eq Hd; intros <- <-.
  - split; [done|]. split; [symmetry; apply Z.ltb_ge; lia|].
    unfold Packet.ttl, Packet.max_ttl. rewrite E, P. split_and!; try done. intros _.
    unfold Packet.header_mut. rewrite header_decr_ttl.
    destruct (Z.leb_spec (Packet.ttl p) 1); [|lia]. cbn [buffer snd].
    unfold Packet.header. rewrite encode_decode_header by apply Hp. apply take_drop.
  - destruct (ttl_byte_decr _ (proj1 (proj2 Hh)) Hgt) as (_ & T1 & T2).
    split; [done|]. split; [symmetry; apply Z.ltb_lt; lia|].
    unfold Packet.ttl, Packet.max_ttl. rewrite E, P.
    by split_and!.
Qed.

Lemma into_try_from m : MsgType_.try_from (MsgType_.into m) = Ok m.
Proof. by destruct m. Qed.

(** Reading a header whose bytes were written by the setters. *)
Lemma read_envelope q m t f v sq s d :
  is_u 4 t → is_u 32 s → is_u 32 d →
  Packet.header q = mkNetHeader (Z.lor (Z.land (MsgType_.into m) 127) 128)
    (Z.lor (wrap 8 (Z.shiftl t 4)) (Z.land t 15)) f v sq (u32_set s) (u32_set d) →
  Packet.msg_type q = Ok m ∧ Packet.ttl q = t ∧ Packet.max_ttl q = t ∧
  Packet.src_id q = s ∧ Packet.dest_id q = d.
Proof.
  intros Ht Hs Hd E. destruct (ttl_byte_set t Ht) as [T1 T2].
  unfold Packet.msg_type, Packet.ttl, Packet.max_ttl, Packet.src_id, Packet.dest_id. rewrite E.
  unfold Header.msg_type, Header.curr_ttl, Header.max_ttl.
  cbn [type_byte ttl_byte h_src_id h_dest_id].
  rewrite msg_type_byte, into_try_from, T1, T2, !u32_get_set by done. done.
Qed.
End PacketFacts.
End PacketFacts.

(** ** Theorems *)

(** [n] successful ttl decrements in a row: a packet forwarded [n] times. *)
Fixpoint hops (n : nat) (p : NetPacket) : option NetPacket :=
  match n with
  | O => Some p
  | S n => let '(ok, q) := Packet.decr_ttl p in if ok then hops n q else None
  end.

Section Theorems.
Context {U32 : NetU32Lib} {U32L : NetU32Laws}.

(** The wire byte of a message type identifies it: [try_from] accepts a byte
    exactly when it is the discriminant of the type it returns, and every
    discriminant survives the seven-bit mask of the header. *)
Theorem msg_type_codec m v :
  (MsgType_.try_from v = Ok m ↔ v = MsgType_.into m) ∧ 0 < MsgType_.into m < 128.
Proof.
  split; [|destruct m; simpl; lia]. split; [apply PacketFacts.try_from_into|].
  intros ->. apply PacketFacts.into_try_from.
Qed.

(** Writing type, ttl, source and destination into a well-formed packet and
    reading them back gives the written values; sequence number, flags, payload
    and length are untouched. *)
Theorem header_fields_roundtrip p m t s d :
  packet_ok p → is_u 4 t → is_u 32 s → is_u 32 d →
  let q := Packet.set_dest_id d (Packet.set_src_id s (Packet.set_ttl t (Packet.set_msg_type m p))) in
  Packet.msg_type q = Ok m ∧ Packet.ttl q = t ∧ Packet.max_ttl q = t ∧
  Packet.src_id q = s ∧ Packet.dest_id q = d ∧ Packet.seq q = Packet.seq p ∧
  Packet.is_gateway q = Packet.is_gateway p ∧ Packet.is_compressed q = Packet.is_compressed p ∧
  Packet.payload q = Packet.payload p ∧ length (buffer q) = length (buffer p).
Proof.
  intros Hp Ht Hs Hd q.
  destruct (PacketFacts.envelope_writes p m t s d Hp Ht Hs Hd) as (Hq & E & P & L).
  fold q in Hq, E, P, L. clearbody q.
  destruct (PacketFacts.read_envelope q m t _ _ _ s d Ht Hs Hd E) as (?&?&?&?&?).
  split_and!; try done; unfold Packet.seq, Packet.is_gateway, Packet.is_compressed; by rewrite E.
Qed.

(** One ttl decrement.  It succeeds exactly when more than one hop is left;
    it then takes one off the current ttl and changes no other field, and on
    failure it changes nothing. *)
Theorem decr_ttl_spec p :
  packet_ok p →
  let '(ok, q) := Packet.decr_ttl p in
  ok = (1 <? Packet.ttl p) ∧
  Packet.ttl q = (if ok then Packet.ttl p - 1 else Packet.ttl p) ∧
  Packet.max_ttl q = Packet.max_ttl p ∧ Packet.msg_type q = Packet.msg_type p ∧
  Packet.src_id q = Packet.src_id p ∧ Packet.dest_id q = Packet.dest_id p ∧
  Packet.is_gateway q = Packet.is_gateway p ∧ Packet.payload q = Packet.payload p ∧
  (ok = false → buffer q = buffer p).
Proof.
  intros Hp. destruct (Packet.decr_ttl p) as [ok q] eqn:E.
  destruct (PacketFacts.decr_ttl_effect p ok q Hp E) as (_ & Ho & Hh & Ht & Hm & Hpl & Hb).
  unfold Packet.msg_type, Packet.src_id, Packet.dest_id, Packet.is_gateway.
  rewrite Hh. split_and!; try done; by destruct ok.
Qed.

(** A packet is forwarded at most fourteen times: [n] successful decrements
    leave a ttl that is exactly [n] smaller and still positive. *)
Theorem hops_bounded n p q :
  packet_ok p → hops n p = Some q →
  Packet.ttl q = Packet.ttl p - Z.of_nat n ∧ (n ≤ 14)%nat.
Proof.
  intros Hp H. enough (Packet.ttl q = Packet.ttl p - Z.of_nat n ∧ (n = 0%nat ∨ 1 ≤ Packet.ttl q)) as [? ?]
    by (pose proof (PacketFacts.ttl_range p Hp); lia).
  revert p Hp H. induction n as [|n IH]; intros p Hp H; cbn [hops] in H.
  { simplify_eq. split; [lia|by left]. }
  destruct (Packet.decr_ttl p) as [[] p'] eqn:E; [|done].
  destruct (PacketFacts.decr_ttl_effect p _ _ Hp E) as (Hq & H1 & _ & H2 & _).
  symmetry in H1. bool_simpl.
  destruct (IH p' Hq H) as [H3 H4]. lia.
Qed.
End Theorems.

(** ** Witnesses *)

Module PacketWitness.
Import Model.

(** A twenty-byte packet: a [Turn] message with ttl 5 and a four-byte payload. *)
Definition sample : NetPacket :=
  mkNetPacket ([129; 85; 0; 0] ++ [0; 0; 0; 7] ++ [10; 26; 0; 2] ++ [10; 26; 0; 3] ++ [1; 2; 3; 4]).

Lemma sample_ok : packet_ok sample.
Proof. apply (bool_decide_eq_true_1 _). vm_compute. reflexivity. Defined.

Lemma header_fields_roundtrip_witness :
  Packet.msg_type (Packet.set_dest_id 9 (Packet.set_src_id 8
    (Packet.set_ttl 5 (Packet.set_msg_type WireGuardRelay sample)))) = Ok WireGuardRelay.
Proof.
  apply (header_fields_roundtrip sample WireGuardRelay 5 8 9 sample_ok);
    apply (bool_decide_eq_true_1 _); vm_compute; reflexivity.
Defined.

Lemma decr_ttl_spec_witness : (Packet.decr_ttl sample).1 = (1 <? Packet.ttl sample).
Proof.
  pose proof (decr_ttl_spec sample sample_ok) as H.
  destruct (Packet.decr_ttl sample) as [ok q]. exact (proj1 H).
Defined.

Lemma hops_bounded_witness :
  ∃ q, hops 4 sample = Some q ∧ Packet.ttl q = Packet.ttl sample - 4 ∧ (4 ≤ 14)%nat.
Proof.
  eexists. split; [vm_compute; reflexivity|].
  apply (hops_bounded 4 sample _ sample_ok). vm_compute. reflexivity.
Defined.
End PacketWitness.
