(* ===== verification/ControlMessage.v ===== *)
(** Control messages: [protocol/control_message.rs] over
    [proto/control_message.proto].

    A Rust [String] is a Rocq string whose characters are the UTF-8 bytes, so
    [String.length] is [str::len].  The generated protobuf types are records
    with the fields of the [.proto] file; the wire codec is [ProstCodec]. *)

From S2P Require Import Prelude Libs.
From stdpp Require Import base gmap strings list.
From Stdlib Require Import ZArith Lia.

Local Open Scope Z_scope.

(** ** Generated protobuf types *)

Inductive RegistrationMode := Normal | PreRegister.
Inductive NodeType := Vnt | Wireguard.

#[export] Instance RegistrationMode_eq_dec : EqDecision RegistrationMode.
Proof. solve_decision. Defined.
#[export] Instance NodeType_eq_dec : EqDecision NodeType.
Proof. solve_decision. Defined.

(** [self as i32] and the generated accessor, which maps an unknown number to
    the default (the zero value). *)
Definition RegistrationMode_to_i32 (m : RegistrationMode) : Z :=
  match m with Normal => 0 | PreRegister => 1 end.
Definition RegistrationMode_of_i32 (x : Z) : RegistrationMode :=
  if x =? 1 then PreRegister else Normal.
Definition NodeType_to_i32 (m : NodeType) : Z := match m with Vnt => 0 | Wireguard => 1 end.
Definition NodeType_of_i32 (x : Z) : NodeType := if x =? 1 then Wireguard else Vnt.

Module proto.
Record RegRequestMsg := mkRegRequestMsg {
  network_code : string;
  device_id : string;
  ip : option Z;
  name : string;
  version : string;
  key_sign : option string;
  ip_variable : bool;
  server_id : Z;
  registration_mode : Z;
  allow_wire_guard : bool;
  wireguard_p2p_public_key : bytes;
  wireguard_p2p_port : Z;
  client_capabilities : Z
}.

Inductive RequestPayload := Reg (m : RegRequestMsg) | ConfirmReg.

(** [RequestMessage { request_payload: Option<RequestPayload> }]. *)
Abbreviation RequestMessage := (option RequestPayload).

Record RegResponseMsg := mkRegResponseMsg {
  res_ip : Z; res_prefix_len : Z; res_gateway : Z; res_server_version : string
}.

Inductive ResponsePayload :=
| ResReg (m : RegResponseMsg)
| ResError (code : Z) (message : string)
| ResConfirmReg (success : bool).

Abbreviation ResponseMessage := (option ResponsePayload).

Record SelectiveBroadcast := mkSelectiveBroadcast { sb_ips : list Z; sb_data : bytes }.

Record ClientSimpleInfo := mkClientSimpleInfo { ci_ip : Z; ci_online : bool; ci_node_type : Z }.

Record ClientSimpleInfoList := mkClientSimpleInfoList {
  cl_data_version : Z; cl_list : list ClientSimpleInfo; cl_is_all : bool; cl_time : Z
}.
End proto.

(** ** Registration requests *)

Definition CLIENT_CAP_WIREGUARD_SUBNET_RELAY : Z := Z.shiftl 1 0.
Definition CLIENT_CAP_WIREGUARD_BROADCAST_RELAY : Z := Z.shiftl 1 1.
Definition CLIENT_CAP_WIREGUARD_EXTENDED_RELAY : Z :=
  Z.lor CLIENT_CAP_WIREGUARD_SUBNET_RELAY CLIENT_CAP_WIREGUARD_BROADCAST_RELAY.

Record WireGuardP2pRegistration := mkWireGuardP2pRegistration {
  p2p_public_key : bytes;
  p2p_port : Z
}.

Record RegRequestMsg := mkRegRequestMsg {
  network_code : string;
  device_id : string;
  ip : option Ipv4Addr;
  name : string;
  version : string;
  key_sign : option string;
  ip_variable : bool;
  server_id : Z;
  registration_mode : RegistrationMode;
  allow_wire_guard : bool;
  wireguard_p2p : option WireGuardP2pRegistration;
  client_capabilities : Z
}.

Definition MAX_NETWORK_CODE_LEN : nat := 32.
Definition MAX_DEVICE_ID_LEN : nat := 64.
Definition MAX_NAME_LEN : nat := 128.
Definition MAX_VERSION_LEN : nat := 32.

(** The [anyhow] errors of this file, one constructor per site. *)
Inductive MsgError :=
| NetworkCodeEmpty | NetworkCodeTooLong (len : nat)
| DeviceIdEmpty | DeviceIdTooLong (len : nat)
| NameTooLong (len : nat) | VersionTooLong (len : nat)
| P2pNeedsWireGuard | CapsNeedWireGuard
| BadP2pKeyOrPort
| DecodeError | Unsupported.

Definition is_nil {A} (l : list A) : bool := match l with [] => true | _ => false end.

Module RegRequest.
(** [RegRequestMsg::check]. *)
Definition check (r : RegRequestMsg) : result MsgError unit :=
  let nc := String.length (network_code r) in
  let di := String.length (device_id r) in
  let nm := String.length (name r) in
  let ve := String.length (version r) in
  if (nc =? 0)%nat then Err NetworkCodeEmpty
  else if (MAX_NETWORK_CODE_LEN <? nc)%nat then Err (NetworkCodeTooLong nc)
  else if (di =? 0)%nat then Err DeviceIdEmpty
  else if (MAX_DEVICE_ID_LEN <? di)%nat then Err (DeviceIdTooLong di)
  else if (MAX_NAME_LEN <? nm)%nat then Err (NameTooLong nm)
  else if (MAX_VERSION_LEN <? ve)%nat then Err (VersionTooLong ve)
  else if is_some (wireguard_p2p r) && negb (allow_wire_guard r)
  then Err P2pNeedsWireGuard
  else if negb (Z.land (client_capabilities r) CLIENT_CAP_WIREGUARD_EXTENDED_RELAY =? 0)
          && negb (allow_wire_guard r)
  then Err CapsNeedWireGuard
  else Ok tt.

(** [RegRequestMsg::from]. *)
Definition from (m : proto.RegRequestMsg) : result MsgError RegRequestMsg :=
  let mode := RegistrationMode_of_i32 (proto.registration_mode m) in
  let key := proto.wireguard_p2p_public_key m in
  let port := proto.wireguard_p2p_port m in
  p2p ← (if is_nil key && (port =? 0) then Ok None
         else if (1 <=? port) && (port <=? 65535) && (length key =? 32)%nat
         then Ok (Some (mkWireGuardP2pRegistration key (wrap 16 port)))
         else Err BadP2pKeyOrPort);
  Ok (mkRegRequestMsg (proto.network_code m) (proto.device_id m) (proto.ip m)
        (proto.name m) (proto.version m) (proto.key_sign m) (proto.ip_variable m)
        (proto.server_id m) mode (proto.allow_wire_guard m) p2p (proto.client_capabilities m)).

(** [RegRequestMsg::to]. *)
Definition to (r : RegRequestMsg) : proto.RegRequestMsg :=
  let '(key, port) :=
    match wireguard_p2p r with
    | Some g => (p2p_public_key g, p2p_port g)
    | None => ([], 0)
    end in
  proto.mkRegRequestMsg (network_code r) (device_id r) (ip r) (name r) (version r)
    (key_sign r) (ip_variable r) (server_id r) (RegistrationMode_to_i32 (registration_mode r))
    (allow_wire_guard r) key port (client_capabilities r).
End RegRequest.

(** ** Requests and responses *)

Inductive RequestMessage := ReqReg (r : RegRequestMsg) | ReqConfirmReg.

Record RegResponseMsg := mkRegResponseMsg {
  rr_ip : Ipv4Addr; rr_prefix_len : Z; rr_gateway : Ipv4Addr; rr_server_version : string
}.

Inductive ResponseMessage :=
| RespReg (r : RegResponseMsg)
| RespError (code : Z) (message : string)
| RespConfirmReg (success : bool).

Section Messages.
Context {RQ : ProstCodec proto.RequestMessage} {RS : ProstCodec proto.ResponseMessage}.
Context {SB : ProstCodec proto.SelectiveBroadcast} {CL : ProstCodec proto.ClientSimpleInfoList}.

(** [RequestMessage::from_slice] and [encode]. *)
Definition request_from_slice (b : bytes) : result MsgError RequestMessage :=
  msg ← ok_or (prost_decode b) DecodeError;
  match msg with
  | None => Err Unsupported
  | Some (proto.Reg reg) => r ← RegRequest.from reg; Ok (ReqReg r)
  | Some proto.ConfirmReg => Ok ReqConfirmReg
  end.

Definition request_encode (r : RequestMessage) : bytes :=
  prost_encode (Some match r with
                     | ReqReg reg => proto.Reg (RegRequest.to reg)
                     | ReqConfirmReg => proto.ConfirmReg
                     end).

(** [RegResponseMsg::to] and [ResponseMessage::encode]. *)
Definition reg_response_to (r : RegResponseMsg) : proto.RegResponseMsg :=
  proto.mkRegResponseMsg (rr_ip r) (rr_prefix_len r) (rr_gateway r) (rr_server_version r).

Definition response_encode (r : ResponseMessage) : bytes :=
  prost_encode (Some match r with
                     | RespReg reg => proto.ResReg (reg_response_to reg)
                     | RespError c m => proto.ResError c m
                     | RespConfirmReg s => proto.ResConfirmReg s
                     end).

(** [SelectiveBroadcast]: a set of addresses and a packet. *)
Record SelectiveBroadcast := mkSelectiveBroadcast { ips : gset Ipv4Addr; data : bytes }.

Definition selective_broadcast_from_slice (b : bytes) : result MsgError SelectiveBroadcast :=
  msg ← ok_or (prost_decode b) DecodeError;
  Ok (mkSelectiveBroadcast (list_to_set (proto.sb_ips msg)) (proto.sb_data msg)).

Definition selective_broadcast_encode (s : SelectiveBroadcast) : bytes :=
  prost_encode (proto.mkSelectiveBroadcast (elements (ips s)) (data s)).

(** [ClientSimpleInfo] and [ClientSimpleInfoList]. *)
Record ClientSimpleInfo := mkClientSimpleInfo {
  info_ip : Ipv4Addr; info_online : bool; info_node_type : NodeType
}.

Definition client_simple_info_from (m : proto.ClientSimpleInfo) : ClientSimpleInfo :=
  mkClientSimpleInfo (proto.ci_ip m) (proto.ci_online m) (NodeType_of_i32 (proto.ci_node_type m)).
Definition client_simple_info_to (c : ClientSimpleInfo) : proto.ClientSimpleInfo :=
  proto.mkClientSimpleInfo (info_ip c) (info_online c) (NodeType_to_i32 (info_node_type c)).

Record ClientSimpleInfoList := mkClientSimpleInfoList {
  csl_data_version : Z; csl_list : list ClientSimpleInfo; csl_is_all : bool; csl_time : Z
}.

Definition client_list_from_slice (b : bytes) : result MsgError ClientSimpleInfoList :=
  msg ← ok_or (prost_decode b) DecodeError;
  Ok (mkClientSimpleInfoList (proto.cl_data_version msg)
        (client_simple_info_from <$> proto.cl_list msg) (proto.cl_is_all msg) (proto.cl_time msg)).

Definition client_list_encode (l : ClientSimpleInfoList) : bytes :=
  prost_encode (proto.mkClientSimpleInfoList (csl_data_version l)
    (client_simple_info_to <$> csl_list l) (csl_is_all l) (csl_time l)).
End Messages.

(** ** Theorems *)

(** A registration as the decoder produces it: a P2P key of 32 bytes and a
    non-zero port. *)
Definition reg_wf (r : RegRequestMsg) : Prop :=
  match wireguard_p2p r with
  | Some g => length (p2p_public_key g) = 32%nat ∧ 1 ≤ p2p_port g ≤ 65535
  | None => True
  end.

Lemma reg_from_to r : reg_wf r → RegRequest.from (RegRequest.to r) = Ok r.
Proof.
  unfold reg_wf. destruct r as [nc di i nm ve ks iv sid mode aw p2p caps]. simpl.
  destruct p2p as [[k p]|]; simpl; unfold RegRequest.from; simpl; intros Hw.
  - destruct Hw as [Hl Hp].
    destruct k as [|k0 k]; [done|]. cbn [is_nil andb].
    rewrite (proj2 (Z.leb_le 1 p)), (proj2 (Z.leb_le p 65535)) by lia.
    rewrite Hl. simpl. rewrite wrap_small by (unfold is_u; lia). by destruct mode.
  - by destruct mode.
Qed.

Lemma client_info_from_to c : client_simple_info_from (client_simple_info_to c) = c.
Proof. destruct c as [i o []]; done. Qed.

(** What the decoder accepts is a well-formed registration, and the gate
    [check] accepts it exactly when every field is within its bound and no
    WireGuard feature is announced without [allow_wire_guard]. *)
Theorem registration_gate m r :
  RegRequest.from m = Ok r →
  reg_wf r ∧
  (RegRequest.check r = Ok tt ↔
    (1 ≤ String.length (network_code r) ≤ 32)%nat ∧
    (1 ≤ String.length (device_id r) ≤ 64)%nat ∧
    (String.length (name r) ≤ 128)%nat ∧ (String.length (version r) ≤ 32)%nat ∧
    (allow_wire_guard r = false →
      wireguard_p2p r = None ∧ Z.land (client_capabilities r) 3 = 0)).
Proof.
  intros Hf. split.
  - unfold RegRequest.from in Hf. unfold reg_wf.
    destruct (is_nil _ && _) eqn:E1; simpl in Hf; [by simplify_eq|].
    destruct (_ && _ && (_ =? 32)%nat) eqn:E2; simpl in Hf; [|done]. simplify_eq/=.
    bool_simpl. apply Nat.eqb_eq in H0. rewrite wrap_small by (unfold is_u; lia). lia.
  - unfold RegRequest.check, MAX_NETWORK_CODE_LEN, MAX_DEVICE_ID_LEN, MAX_NAME_LEN, MAX_VERSION_LEN.
    change CLIENT_CAP_WIREGUARD_EXTENDED_RELAY with 3.
    destruct (Nat.eqb_spec (String.length (network_code r)) 0); [split; [done|lia]|].
    destruct (Nat.ltb_spec 32 (String.length (network_code r))); [split; [done|lia]|].
    destruct (Nat.eqb_spec (String.length (device_id r)) 0); [split; [done|lia]|].
    destruct (Nat.ltb_spec 64 (String.length (device_id r))); [split; [done|lia]|].
    destruct (Nat.ltb_spec 128 (String.length (name r))); [split; [done|lia]|].
    destruct (Nat.ltb_spec 32 (String.length (version r))); [split; [done|lia]|].
    destruct (Z.eqb_spec (Z.land (client_capabilities r) 3) 0);
      destruct (wireguard_p2p r), (allow_wire_guard r); simpl;
      (split; [intros ?; split_and!; try done; lia|intros (_ & _ & _ & _ & Hw); first [done|by destruct (Hw eq_refl)]]).
Qed.

Section Theorems.
Context {RQ : ProstCodec proto.RequestMessage} {RQL : ProstLaws proto.RequestMessage}.
Context {CL : ProstCodec proto.ClientSimpleInfoList} {CLL : ProstLaws proto.ClientSimpleInfoList}.
Context {SB : ProstCodec proto.SelectiveBroadcast} {SBL : ProstLaws proto.SelectiveBroadcast}.

(** The control messages survive the wire: a well-formed registration, a
    confirmation, a client list and a selective broadcast decode to what was
    encoded. *)
Theorem control_messages_roundtrip r l s :
  reg_wf r →
  request_from_slice (request_encode (ReqReg r)) = Ok (ReqReg r) ∧
  request_from_slice (request_encode ReqConfirmReg) = Ok ReqConfirmReg ∧
  client_list_from_slice (client_list_encode l) = Ok l ∧
  selective_broadcast_from_slice (selective_broadcast_encode s) = Ok s.
Proof.
  intros Hr. unfold request_from_slice, request_encode, client_list_from_slice,
    client_list_encode, selective_broadcast_from_slice, selective_broadcast_encode.
  rewrite !prost_decode_encode. simpl. rewrite reg_from_to by done. split_and!; try done.
  - destruct l as [v l a t]. simpl. do 2 f_equal.
    rewrite <- list_fmap_compose. rewrite <- (list_fmap_id l) at 2.
    apply list_fmap_ext. intros i c _. apply client_info_from_to.
  - destruct s as [i d]. simpl. by rewrite list_to_set_elements_L.
Qed.
End Theorems.

(** ** Witnesses *)

Module ControlMessageWitness.
Import ProstModel.

#[local] Instance reg_eq_dec : EqDecision proto.RegRequestMsg.
Proof. solve_decision. Defined.
#[local] Instance reg_countable : Countable proto.RegRequestMsg.
Proof.
  refine (inj_countable'
    (λ m, (proto.network_code m, proto.device_id m, proto.ip m, proto.name m, proto.version m,
      proto.key_sign m, proto.ip_variable m, proto.server_id m,
      (proto.registration_mode m, proto.allow_wire_guard m, proto.wireguard_p2p_public_key m,
       proto.wireguard_p2p_port m, proto.client_capabilities m)))
    (λ '(a, b, c, d, e, f, g, h, (i, j, k, l, m)),
      proto.mkRegRequestMsg a b c d e f g h i j k l m) _).
  intros []. done.
Defined.
#[local] Instance payload_eq_dec : EqDecision proto.RequestPayload.
Proof. solve_decision. Defined.
#[local] Instance payload_countable : Countable proto.RequestPayload.
Proof.
  refine (inj_countable'
    (λ m, match m with proto.Reg r => Some r | proto.ConfirmReg => None end)
    (λ o, match o with Some r => proto.Reg r | None => proto.ConfirmReg end) _).
  intros []; done.
Defined.
#[local] Instance info_eq_dec : EqDecision proto.ClientSimpleInfo.
Proof. solve_decision. Defined.
#[local] Instance info_countable : Countable proto.ClientSimpleInfo.
Proof.
  refine (inj_countable' (λ m, (proto.ci_ip m, proto.ci_online m, proto.ci_node_type m))
    (λ '(a, b, c), proto.mkClientSimpleInfo a b c) _). intros []; done.
Defined.
#[local] Instance list_eq_dec' : EqDecision proto.ClientSimpleInfoList.
Proof. solve_decision. Defined.
#[local] Instance info_list_countable : Countable proto.ClientSimpleInfoList.
Proof.
  refine (inj_countable'
    (λ m, (proto.cl_data_version m, proto.cl_list m, proto.cl_is_all m, proto.cl_time m))
    (λ '(a, b, c, d), proto.mkClientSimpleInfoList a b c d) _). intros []; done.
Defined.
#[local] Instance sb_eq_dec : EqDecision proto.SelectiveBroadcast.
Proof. solve_decision. Defined.
#[local] Instance sb_countable : Countable proto.SelectiveBroadcast.
Proof.
  refine (inj_countable' (λ m, (proto.sb_ips m, proto.sb_data m))
    (λ '(a, b), proto.mkSelectiveBroadcast a b) _). intros []; done.
Defined.

Definition sample_proto : proto.RegRequestMsg :=
  proto.mkRegRequestMsg "net" "dev" None "host" "2.0" None true 0 1 true
    (replicate 32 42) 51820 3.

Definition sample_reg : RegRequestMsg :=
  mkRegRequestMsg "net" "dev" None "host" "2.0" None true 0 PreRegister true
    (Some (mkWireGuardP2pRegistration (replicate 32 42) 51820)) 3.

Lemma registration_gate_witness : reg_wf sample_reg.
Proof. apply (registration_gate sample_proto sample_reg). vm_compute. reflexivity. Defined.

Lemma control_messages_roundtrip_witness :
  @request_from_slice (countable_codec _) (@request_encode (countable_codec _) (ReqReg sample_reg))
  = Ok (ReqReg sample_reg).
Proof.
  apply (@control_messages_roundtrip (countable_codec _) (countable_codec_laws _)
    (countable_codec _) (countable_codec_laws _) (countable_codec _) (countable_codec_laws _)
    sample_reg (mkClientSimpleInfoList 1 [mkClientSimpleInfo 7 true Wireguard] true 0)
    (mkSelectiveBroadcast {[7]} [1; 2])).
  split; [reflexivity|simpl; lia].
Defined.
End ControlMessageWitness.
