(* ===== verification/Bridge.v ===== *)
(** The WireGuard bridge: [server/wireguard_bridge.rs].

    Validation of the inner IPv4 packets that cross between VNT clients and
    WireGuard peers, construction of the relay envelopes, and the gateway's
    answer to a ping. *)

From S2P Require Import Prelude Libs Packet.
From stdpp Require Import base gmap strings list.
From Stdlib Require Import ZArith Lia.

Local Open Scope Z_scope.

Definition MAX_INNER_IPV4_PACKET_SIZE : nat := 1420.
Definition RELAY_TTL : Z := 5.

Inductive RelayOrigin := OriginVnt | OriginWireGuard.
#[export] Instance RelayOrigin_eq_dec : EqDecision RelayOrigin.
Proof. solve_decision. Defined.

Record Ipv4Route := mkIpv4Route { source : Ipv4Addr; destination : Ipv4Addr }.
#[export] Instance Ipv4Route_eq_dec : EqDecision Ipv4Route.
Proof. solve_decision. Defined.

Inductive RelayValidationError :=
| InvalidMessageType | InvalidFlags | Expired | TooShort | TooLarge | InvalidVersion
| InvalidHeaderLength | InvalidTotalLength | SourceMismatch | DestinationMismatch
| InvalidDestination | DestinationOutsideNetwork | InvalidControlPacket.

Module Bridge.
Section Bridge.
Context {NL : Ipv4NetLib} {PL : PnetLib} {U32 : NetU32Lib}.

Definition parse_unbound_inner_ipv4 (packet : bytes)
    : result RelayValidationError (Ipv4Route * nat) :=
  if (length packet <? 20)%nat then Err TooShort
  else if (MAX_INNER_IPV4_PACKET_SIZE <? length packet)%nat then Err TooLarge
  else if negb (ipv4_new packet) then Err TooShort
  else if negb (ipv4_get_version packet =? 4) then Err InvalidVersion
  else
    let header_length := Z.to_nat (ipv4_get_header_length packet * 4) in
    if (header_length <? 20)%nat || (length packet <? header_length)%nat
    then Err InvalidHeaderLength
    else if negb (ipv4_get_total_length packet =? Z.of_nat (length packet))
    then Err InvalidTotalLength
    else Ok (mkIpv4Route (ipv4_get_source packet) (ipv4_get_destination packet), header_length).

Definition parse_inner_ipv4 (packet : bytes) (expected_source : Ipv4Addr)
    : result RelayValidationError (Ipv4Route * nat) :=
  parsed ← parse_unbound_inner_ipv4 packet;
  if negb (source parsed.1 =? expected_source) then Err SourceMismatch else Ok parsed.

Definition validate_inner_ipv4 (packet : bytes) (expected_source : Ipv4Addr)
    (network : Ipv4Net) (gateway : Ipv4Addr) : result RelayValidationError Ipv4Route :=
  '(route, _) ← parse_inner_ipv4 packet expected_source;
  let d := destination route in
  if (d =? ADDR_BROADCAST) || is_multicast d || (d =? net_network network)
     || (d =? net_broadcast network) || (d =? gateway)
  then Err InvalidDestination
  else if negb (net_contains network d) then Err DestinationOutsideNetwork
  else Ok route.

Definition validate_broadcast_inner_ipv4 (packet : bytes) (expected_source : Ipv4Addr)
    (network : Ipv4Net) (gateway : Ipv4Addr) : result RelayValidationError Ipv4Route :=
  '(route, _) ← parse_inner_ipv4 packet expected_source;
  if (source route =? gateway) || negb (net_contains network (source route))
  then Err SourceMismatch
  else if negb (destination route =? ADDR_BROADCAST)
          && negb (destination route =? net_broadcast network)
          && negb (is_multicast (destination route))
  then Err InvalidDestination
  else Ok route.

Definition validate_subnet_inner_ipv4 (packet : bytes) (expected_source : Ipv4Addr)
    (virtual_network : Ipv4Net) (gateway : Ipv4Addr) (lan_network : Ipv4Net)
    : result RelayValidationError Ipv4Route :=
  '(route, _) ← parse_inner_ipv4 packet expected_source;
  let s := source route in
  let d := destination route in
  if negb (net_contains virtual_network s) || (s =? net_network virtual_network)
     || (s =? net_broadcast virtual_network) || (s =? gateway)
  then Err SourceMismatch
  else if is_unspecified d || (d =? ADDR_BROADCAST) || is_multicast d
          || net_contains virtual_network d
  then Err InvalidDestination
  else if negb (net_contains lan_network d) then Err DestinationOutsideNetwork
  else Ok route.

(** Replace everything from [off] on by [f] of it: a write through
    [&mut buf[off..]]. *)
Definition update_from (off : nat) (f : bytes → bytes) (buf : bytes) : bytes :=
  take off buf ++ f (drop off buf).

Definition build_gateway_echo_reply (packet : bytes) (expected_source gateway : Ipv4Addr)
    : result RelayValidationError (option bytes) :=
  '(route, header_length) ← parse_inner_ipv4 packet expected_source;
  if negb (destination route =? gateway) then Ok None
  else if negb (ipv4_new packet) then Err TooShort
  else if negb (ipv4_get_next_level_protocol packet =? PROTO_ICMP) then Ok None
  else if negb (ipv4_get_fragment_offset packet =? 0)
          || negb (Z.land (ipv4_get_flags packet) 1 =? 0)
  then Err InvalidControlPacket
  else
    let icmp := drop header_length packet in
    if negb (icmp_new icmp) then Err InvalidControlPacket
    else if negb (icmp_get_icmp_type icmp =? ICMP_ECHO_REQUEST) || (length icmp <? 8)%nat
    then Ok None
    else
      let reply := update_from header_length
        (λ b, icmp_set_checksum 0 (icmp_set_icmp_type ICMP_ECHO_REPLY b)) packet in
      let icmp_sum := icmp_checksum (drop header_length reply) in
      let reply := update_from header_length (icmp_set_checksum icmp_sum) reply in
      let reply := ipv4_set_checksum 0
        (ipv4_set_destination expected_source (ipv4_set_source gateway reply)) in
      Ok (Some (ipv4_set_checksum (ipv4_checksum reply) reply)).

(** The four checks the three envelope validators share, in the source's order;
    [mt] is the expected message type and [src] the expected source id. *)
Definition validate_envelope (p : NetPacket) (mt : MsgType) (src : Ipv4Addr)
    : result RelayValidationError unit :=
  if negb (match Packet.msg_type p with Ok m => bool_decide (m = mt) | Err _ => false end)
  then Err InvalidMessageType
  else if Packet.is_compressed p || Packet.is_gateway p then Err InvalidFlags
  else if Packet.ttl p =? 0 then Err Expired
  else if negb (Packet.src_id p =? src) then Err SourceMismatch
  else Ok tt.

Definition validate_vnt_relay (p : NetPacket) (expected_source : Ipv4Addr)
    (network : Ipv4Net) (gateway : Ipv4Addr) : result RelayValidationError Ipv4Route :=
  _ ← validate_envelope p WireGuardRelay expected_source;
  route ← validate_inner_ipv4 (Packet.payload p) expected_source network gateway;
  if negb (Packet.dest_id p =? destination route) then Err DestinationMismatch else Ok route.

Definition validate_vnt_broadcast_relay (p : NetPacket) (expected_source : Ipv4Addr)
    (network : Ipv4Net) (gateway : Ipv4Addr) : result RelayValidationError Ipv4Route :=
  _ ← validate_envelope p WireGuardBroadcastRelay expected_source;
  if negb (Packet.dest_id p =? ADDR_BROADCAST) then Err DestinationMismatch
  else validate_broadcast_inner_ipv4 (Packet.payload p) expected_source network gateway.

Definition validate_vnt_subnet_relay (p : NetPacket) (expected_vnt_gateway : Ipv4Addr)
    (virtual_network : Ipv4Net) (gateway : Ipv4Addr) : result RelayValidationError Ipv4Route :=
  _ ← validate_envelope p WireGuardSubnetRelay expected_vnt_gateway;
  let target := Packet.dest_id p in
  if negb (net_contains virtual_network target) || (target =? net_network virtual_network)
     || (target =? net_broadcast virtual_network) || (target =? gateway)
     || (target =? expected_vnt_gateway)
  then Err InvalidDestination
  else
    '(route, _) ← parse_unbound_inner_ipv4 (Packet.payload p);
    if negb (destination route =? target) then Err DestinationMismatch
    else
      let s := source route in
      if is_unspecified s || (s =? ADDR_BROADCAST) || is_multicast s
         || net_contains virtual_network s
      then Err SourceMismatch
      else Ok route.

(** [build_wireguard_envelope]: the buffer is zeroed with room for the header
    and the packet, so neither [expect] can fail; the model returns the buffer
    unchanged in the branches the code never takes. *)
Definition build_wireguard_envelope (message_type : MsgType) (inner : bytes)
    (src dst : Ipv4Addr) : bytes :=
  let buf := zeroed (HEAD_LENGTH + length inner) in
  match Packet.new buf with
  | Err _ => buf
  | Ok p =>
      let p := Packet.set_msg_type message_type p in
      let p := Packet.set_ttl RELAY_TTL p in
      let p := Packet.set_src_id src p in
      let p := Packet.set_dest_id dst p in
      match Packet.set_payload inner p with
      | Ok p => buffer p
      | Err _ => buffer p
      end
  end.

Definition build_wireguard_relay (inner : bytes) (route : Ipv4Route) : bytes :=
  build_wireguard_envelope WireGuardRelay inner (source route) (destination route).
Definition build_wireguard_broadcast_relay (inner : bytes) (route : Ipv4Route)
    (target : Ipv4Addr) : bytes :=
  build_wireguard_envelope WireGuardBroadcastRelay inner (source route) target.
Definition build_wireguard_subnet_relay (inner : bytes) (route : Ipv4Route)
    (vnt_gateway : Ipv4Addr) : bytes :=
  build_wireguard_envelope WireGuardSubnetRelay inner (source route) vnt_gateway.
End Bridge.
End Bridge.

(** ** Lemmas *)

Module BridgeFacts.
Section BridgeFacts.
Context {NL : Ipv4NetLib} {NLL : Ipv4NetLaws} {PL : PnetLib} {PLL : PnetLaws}.
Context {U32 : NetU32Lib} {U32L : NetU32Laws}.

(** Reduce the error monad and the route projections, nothing else. *)
Ltac rsimpl := cbn [mbind result_bind fst snd source destination negb orb andb].

(** What a structurally valid inner packet is. *)
Definition inner_wf (b : bytes) (hl : nat) : Prop :=
  (20 ≤ length b ≤ MAX_INNER_IPV4_PACKET_SIZE)%nat ∧ ipv4_get_version b = 4 ∧
  hl = Z.to_nat (ipv4_get_header_length b * 4) ∧ (20 ≤ hl ≤ length b)%nat ∧
  ipv4_get_total_length b = Z.of_nat (length b).

Lemma parse_unbound_ok b route hl :
  Bridge.parse_unbound_inner_ipv4 b = Ok (route, hl) ↔
  inner_wf b hl ∧ route = mkIpv4Route (ipv4_get_source b) (ipv4_get_destination b).
Proof.
  unfold Bridge.parse_unbound_inner_ipv4, inner_wf. rewrite ipv4_new_eq.
  destruct (Nat.ltb_spec (length b) 20); [split; [done|lia]|].
  destruct (Nat.ltb_spec MAX_INNER_IPV4_PACKET_SIZE (length b)); [split; [done|lia]|].
  rewrite bool_decide_eq_true_2 by done. cbn [negb].
  destruct (Z.eqb_spec (ipv4_get_version b) 4); cbn [negb]; [|split; [done|lia]].
  set (h := Z.to_nat (ipv4_get_header_length b * 4)).
  destruct (Nat.ltb_spec h 20); cbn [orb]; [split; [done|lia]|].
  destruct (Nat.ltb_spec (length b) h); [split; [done|lia]|].
  destruct (Z.eqb_spec (ipv4_get_total_length b) (Z.of_nat (length b))); cbn [negb];
    [|split; [done|lia]].
  split; [intros [= <- <-]; repeat split; done || lia|by intros [(_ & _ & -> & _) ->]].
Qed.

Lemma parse_inner_ok b s route hl :
  Bridge.parse_inner_ipv4 b s = Ok (route, hl) ↔
  inner_wf b hl ∧ ipv4_get_source b = s ∧ route = mkIpv4Route s (ipv4_get_destination b).
Proof.
  unfold Bridge.parse_inner_ipv4.
  destruct (Bridge.parse_unbound_inner_ipv4 b) as [[r h]|e] eqn:E; rsimpl.
  - apply parse_unbound_ok in E as [Hw ->]. rsimpl.
    destruct (Z.eqb_spec (ipv4_get_source b) s); rsimpl.
    + split; [intros [= <- <-]; by subst|]. intros (Hw' & _ & ->).
      destruct Hw as (_&_&->&_), Hw' as (_&_&->&_). by subst.
    + split; [done|tauto].
  - split; [done|]. intros (Hw & _ & _).
    pose proof (proj2 (parse_unbound_ok b _ hl) (conj Hw eq_refl)). congruence.
Qed.

Lemma validate_inner_ok b s n g route :
  Bridge.validate_inner_ipv4 b s n g = Ok route ↔
  (∃ hl, inner_wf b hl) ∧ ipv4_get_source b = s ∧
  route = mkIpv4Route s (ipv4_get_destination b) ∧
  net_contains n (ipv4_get_destination b) = true ∧
  ipv4_get_destination b ≠ ADDR_BROADCAST ∧ is_multicast (ipv4_get_destination b) = false ∧
  ipv4_get_destination b ≠ net_network n ∧ ipv4_get_destination b ≠ net_broadcast n ∧
  ipv4_get_destination b ≠ g.
Proof.
  unfold Bridge.validate_inner_ipv4.
  destruct (Bridge.parse_inner_ipv4 b s) as [[r h]|e] eqn:E; rsimpl.
  - apply parse_inner_ok in E as (Hw & Hs & ->). rsimpl.
    destruct (_ || _) eqn:Eo.
    + split; [done|]. intros (_&_&_&_&?&Hm&?&?&?). rewrite Hm in Eo.
      repeat (apply orb_true_iff in Eo as [Eo|Eo]); bool_simpl; done.
    + bool_simpl. destruct (net_contains _ _) eqn:Ec; rsimpl; [|split; [done|by intros (_&_&_&?&_)]].
      split; [intros [= <-]; split_and!; eauto|by intros (_&_&->&_)].
  - split; [done|]. intros ([hl Hw] & Hs & _).
    pose proof (proj2 (parse_inner_ok b s _ hl) (conj Hw (conj Hs eq_refl))). congruence.
Qed.

Lemma validate_broadcast_ok b s n g route :
  Bridge.validate_broadcast_inner_ipv4 b s n g = Ok route ↔
  (∃ hl, inner_wf b hl) ∧ ipv4_get_source b = s ∧
  route = mkIpv4Route s (ipv4_get_destination b) ∧ s ≠ g ∧ net_contains n s = true ∧
  (ipv4_get_destination b = ADDR_BROADCAST ∨ ipv4_get_destination b = net_broadcast n ∨
   is_multicast (ipv4_get_destination b) = true).
Proof.
  unfold Bridge.validate_broadcast_inner_ipv4.
  destruct (Bridge.parse_inner_ipv4 b s) as [[r h]|e] eqn:E; rsimpl.
  - apply parse_inner_ok in E as (Hw & Hs & ->). rsimpl.
    destruct (Z.eqb_spec s g); rsimpl; [split; [done|by intros (_&_&_&?&_)]|].
    destruct (net_contains n s); rsimpl; [|split; [done|by intros (_&_&_&_&?&_)]].
    destruct (Z.eqb_spec (ipv4_get_destination b) ADDR_BROADCAST); rsimpl.
    { split; [intros [= <-]; split_and!; eauto|by intros (_&_&->&_)]. }
    destruct (Z.eqb_spec (ipv4_get_destination b) (net_broadcast n)); rsimpl.
    { split; [intros [= <-]; split_and!; eauto|by intros (_&_&->&_)]. }
    destruct (is_multicast (ipv4_get_destination b)); rsimpl.
    { split; [intros [= <-]; split_and!; eauto|by intros (_&_&->&_)]. }
    split; [done|by intros (_&_&_&_&_&[?|[?|?]])].
  - split; [done|]. intros ([hl Hw] & Hs & _).
    pose proof (proj2 (parse_inner_ok b s _ hl) (conj Hw (conj Hs eq_refl))). congruence.
Qed.

Lemma validate_subnet_ok b s n g lan route :
  Bridge.validate_subnet_inner_ipv4 b s n g lan = Ok route →
  (∃ hl, inner_wf b hl) ∧ ipv4_get_source b = s ∧
  route = mkIpv4Route s (ipv4_get_destination b) ∧
  net_contains n s = true ∧ s ≠ net_network n ∧ s ≠ net_broadcast n ∧ s ≠ g ∧
  net_contains n (ipv4_get_destination b) = false ∧
  net_contains lan (ipv4_get_destination b) = true ∧
  ipv4_get_destination b ≠ ADDR_BROADCAST ∧ is_multicast (ipv4_get_destination b) = false.
Proof.
  unfold Bridge.validate_subnet_inner_ipv4.
  destruct (Bridge.parse_inner_ipv4 b s) as [[r h]|e] eqn:E; rsimpl; [|done].
  apply parse_inner_ok in E as (Hw & Hs & ->). rsimpl.
  destruct (negb _ || _ || _ || _) eqn:E1; [done|].
  destruct (is_unspecified _ || _ || _ || _) eqn:E2; [done|].
  destruct (net_contains lan _) eqn:E3; [|done]. rsimpl. intros [= <-].
  bool_simpl. split_and!; eauto.
Qed.

(** The relay envelope: every field, the payload and well-formedness. *)
Lemma build_envelope_spec m inner s d :
  bytes_ok inner → is_u 32 s → is_u 32 d →
  ∃ p, Packet.new (Bridge.build_wireguard_envelope m inner s d) = Ok p ∧ packet_ok p ∧
    Packet.msg_type p = Ok m ∧ Packet.ttl p = RELAY_TTL ∧ Packet.src_id p = s ∧
    Packet.dest_id p = d ∧ Packet.is_compressed p = false ∧ Packet.is_gateway p = false ∧
    Packet.payload p = inner ∧ length (buffer p) = (HEAD_LENGTH + length inner)%nat.
Proof.
  intros Hi Hs Hd. unfold Bridge.build_wireguard_envelope.
  set (z := zeroed (HEAD_LENGTH + length inner)).
  assert (length z = (HEAD_LENGTH + length inner)%nat) as Hlz by apply length_replicate.
  assert (packet_ok (mkNetPacket z)) as Hz.
  { split; [cbn [buffer]; lia|apply zeroed_ok]. }
  unfold Packet.new at 2. rewrite (proj2 (Nat.ltb_ge _ _)) by lia.
  destruct (PacketFacts.envelope_writes (mkNetPacket z) m RELAY_TTL s d Hz
    ltac:(unfold is_u, RELAY_TTL; lia) Hs Hd) as (Hq & E & P & L).
  set (q := Packet.set_dest_id d _) in *. clearbody q. cbn [buffer] in L.
  destruct (PacketFacts.set_payload_ok inner q Hq Hi ltac:(lia)) as (p & -> & Hp & Hh & Ht & Hl).
  exists p. unfold Packet.new. rewrite (proj2 (Nat.ltb_ge _ _)) by apply Hp.
  split; [by destruct p|]. split; [done|]. rewrite E in Hh.
  destruct (PacketFacts.read_envelope p m RELAY_TTL _ _ _ s d
    ltac:(unfold is_u, RELAY_TTL; lia) Hs Hd Hh) as (?&?&?&?&?).
  assert (flags_byte (Packet.header (mkNetPacket z)) = 0) as Hf by reflexivity.
  split_and!; try done.
  - unfold Packet.is_compressed. rewrite Hh. cbn [flags_byte]. by rewrite Hf.
  - unfold Packet.is_gateway. rewrite Hh. cbn [flags_byte]. by rewrite Hf.
  - rewrite take_ge in Ht; [done|].
    unfold Packet.payload. rewrite length_drop. lia.
  - lia.
Qed.
(** Forwarding a packet changes its ttl only. *)
Lemma hops_preserve k p q :
  packet_ok p → hops k p = Some q →
  packet_ok q ∧ Packet.msg_type q = Packet.msg_type p ∧ Packet.src_id q = Packet.src_id p ∧
  Packet.dest_id q = Packet.dest_id p ∧ Packet.is_compressed q = Packet.is_compressed p ∧
  Packet.is_gateway q = Packet.is_gateway p ∧ Packet.payload q = Packet.payload p ∧
  Packet.ttl q = Packet.ttl p - Z.of_nat k.
Proof.
  revert p. induction k as [|k IH]; intros p Hp H; cbn [hops] in H.
  { simplify_eq. split_and!; try done || lia; apply Hp. }
  destruct (Packet.decr_ttl p) as [[] p'] eqn:E; [|done].
  destruct (PacketFacts.decr_ttl_effect p _ _ Hp E) as (Hq & _ & Hh & Ht & _ & Hpl & _).
  destruct (IH p' Hq H) as (? & -> & -> & -> & -> & -> & -> & ->).
  unfold Packet.msg_type, Packet.src_id, Packet.dest_id, Packet.is_compressed, Packet.is_gateway.
  rewrite Hh, Hpl. split_and!; try done; try apply H0. lia.
Qed.

(** A packet can be forwarded as long as its ttl stays positive. *)
Lemma hops_total k p :
  packet_ok p → Z.of_nat k < Packet.ttl p → ∃ q, hops k p = Some q.
Proof.
  revert p. induction k as [|k IH]; intros p Hp H; cbn [hops]; [by eexists|].
  destruct (Packet.decr_ttl p) as [ok p'] eqn:E.
  destruct (PacketFacts.decr_ttl_effect p _ _ Hp E) as (Hq & -> & _ & Ht & _).
  rewrite (proj2 (Z.ltb_lt _ _)) in * by lia. apply IH; [done|lia].
Qed.

Lemma validate_envelope_ok p m s :
  Packet.msg_type p = Ok m → Packet.is_compressed p = false → Packet.is_gateway p = false →
  Packet.ttl p ≠ 0 → Packet.src_id p = s → Bridge.validate_envelope p m s = Ok tt.
Proof.
  intros Hm Hc Hg Ht Hs. unfold Bridge.validate_envelope.
  rewrite Hm, Hc, Hg, (proj2 (Z.eqb_neq _ _) Ht), Hs, Z.eqb_refl.
  by rewrite bool_decide_eq_true_2.
Qed.

(** The bytes from the ICMP header on are out of the IPv4 setters' reach. *)
Lemma drop_ipv4_set h (b b' : bytes) :
  (20 ≤ h)%nat → (∀ i, (20 ≤ i)%nat → b' !! i = b !! i) → drop h b' = drop h b.
Proof. intros Hh H. apply list_eq. intros i. rewrite !lookup_drop. apply H. lia. Qed.

Lemma length_update_from h f b :
  (h ≤ length b)%nat → (∀ c, length (f c) = length c) →
  length (Bridge.update_from h f b) = length b.
Proof.
  intros H Hf. unfold Bridge.update_from.
  rewrite length_app, Hf, length_take, length_drop. lia.
Qed.

Lemma drop_update_from h f b :
  (h ≤ length b)%nat → drop h (Bridge.update_from h f b) = f (drop h b).
Proof. intros H. unfold Bridge.update_from. by rewrite drop_app_length' by (rewrite length_take; lia). Qed.
End BridgeFacts.
End BridgeFacts.

(** ** Theorems *)

Section Theorems.
Context {NL : Ipv4NetLib} {NLL : Ipv4NetLaws} {PL : PnetLib} {PLL : PnetLaws}.
Context {U32 : NetU32Lib} {U32L : NetU32Laws}.

(** A relayed packet arrives.  An inner packet the server accepts from a peer
    at [s] is wrapped in an envelope that the receiving side validates to the
    same route, with the inner packet as payload, after any number of up to four
    forwarding hops. *)
Theorem relay_envelope_roundtrip inner s n g route k :
  bytes_ok inner → is_u 32 s → (k < Z.to_nat RELAY_TTL)%nat →
  Bridge.validate_inner_ipv4 inner s n g = Ok route →
  ∃ p q, Packet.new (Bridge.build_wireguard_relay inner route) = Ok p ∧
    hops k p = Some q ∧ Packet.payload q = inner ∧
    Bridge.validate_vnt_relay q s n g = Ok route.
Proof.
  intros Hi Hs Hk Hv. pose proof Hv as Hv'.
  apply BridgeFacts.validate_inner_ok in Hv as (Hw & Hsrc & -> & Hc & _).
  assert (is_u 32 (ipv4_get_destination inner)) as Hd.
  { apply net_contains_true in Hc. pose proof (net_network_range n).
    pose proof (net_broadcast_range n). unfold is_u, u32_max in *. lia. }
  destruct (BridgeFacts.build_envelope_spec WireGuardRelay inner s _ Hi Hs Hd)
    as (p & Hp & Hok & Hm & Ht & Hsi & Hdi & Hcf & Hgf & Hpl & _).
  destruct (BridgeFacts.hops_total k p Hok ltac:(unfold RELAY_TTL in *; lia)) as [q Hq].
  destruct (BridgeFacts.hops_preserve k p q Hok Hq) as (_ & Em & Es & Ed & Ec & Eg & Ep & Et).
  exists p, q. split; [done|]. split; [done|]. split; [congruence|].
  unfold Bridge.validate_vnt_relay.
  rewrite (BridgeFacts.validate_envelope_ok q WireGuardRelay s)
    by (congruence || unfold RELAY_TTL in *; lia).
  rewrite Ep, Hpl, Hv', Ed, Hdi. cbn [mbind result_bind destination].
  by rewrite Z.eqb_refl.
Qed.

(** What the bridge lets through is not spoofed and is classified uniquely.
    An accepted unicast packet has the peer's own address as source and a host
    of the network, neither network, broadcast, gateway nor multicast address,
    as destination, and the broadcast and the LAN validators both refuse it. *)
Theorem unicast_not_spoofed inner s n g route :
  Bridge.validate_inner_ipv4 inner s n g = Ok route →
  source route = s ∧ ipv4_get_source inner = s ∧
  destination route = ipv4_get_destination inner ∧
  net_network n < destination route < net_broadcast n ∧ destination route ≠ g ∧
  is_multicast (destination route) = false ∧
  (∀ r, Bridge.validate_broadcast_inner_ipv4 inner s n g ≠ Ok r) ∧
  (∀ lan r, Bridge.validate_subnet_inner_ipv4 inner s n g lan ≠ Ok r).
Proof.
  intros Hv. apply BridgeFacts.validate_inner_ok in Hv
    as (_ & Hs & -> & Hc & H1 & H2 & H3 & H4 & H5).
  pose proof Hc as Hr. apply net_contains_true in Hr.
  cbn [source destination]. split_and!; try done; try lia.
  - intros r Hb. apply BridgeFacts.validate_broadcast_ok in Hb as (_&_&_&_&_&[?|[?|?]]); congruence.
  - intros lan r Hb. apply BridgeFacts.validate_subnet_ok in Hb as (_&_&_&_&_&_&_&?&_). congruence.
Qed.

(** The gateway answers pings.  A well-formed, unfragmented ICMP echo request
    from [s] to the gateway is answered; the answer has the request's length,
    goes from the gateway to [s], is an echo reply and carries the identifier,
    sequence number and data of the request unchanged. *)
Theorem gateway_echo_reply_spec b s g hl :
  is_u 32 s → is_u 32 g → BridgeFacts.inner_wf b hl → ipv4_get_source b = s →
  ipv4_get_destination b = g → ipv4_get_next_level_protocol b = PROTO_ICMP →
  ipv4_get_fragment_offset b = 0 → Z.land (ipv4_get_flags b) 1 = 0 →
  icmp_get_icmp_type (drop hl b) = ICMP_ECHO_REQUEST → (hl + 8 ≤ length b)%nat →
  ∃ r, Bridge.build_gateway_echo_reply b s g = Ok (Some r) ∧ length r = length b ∧
    ipv4_get_source r = g ∧ ipv4_get_destination r = s ∧
    icmp_get_icmp_type (drop hl r) = ICMP_ECHO_REPLY ∧
    drop (hl + 4) r = drop (hl + 4) b.
Proof.
  intros Hs Hg Hw Hsrc Hdst Hp Hf Hfl Hty Hl.
  assert (Bridge.parse_inner_ipv4 b s = Ok (mkIpv4Route s g, hl)) as Hpa
    by (apply BridgeFacts.parse_inner_ok; rewrite Hdst; done).
  destruct Hw as ([H20 _] & _ & _ & [Hhl _] & _).
  unfold Bridge.build_gateway_echo_reply. rewrite Hpa. cbn [mbind result_bind destination].
  rewrite Z.eqb_refl, ipv4_new_eq, (bool_decide_eq_true_2 _ H20), Hp, Hf, Hfl, icmp_new_eq, Hty.
  rewrite bool_decide_eq_true_2 by (rewrite length_drop; lia).
  rewrite (proj2 (Nat.ltb_ge _ _)) by (rewrite length_drop; lia).
  cbn [negb orb Z.eqb]. rewrite Z.eqb_refl. cbn [negb].
  set (r1 := Bridge.update_from hl _ b).
  assert (length r1 = length b) as L1 by (apply BridgeFacts.length_update_from; [lia|]; intros c;
    by rewrite icmp_set_checksum_length, icmp_set_icmp_type_length).
  set (r2 := Bridge.update_from hl _ r1).
  assert (length r2 = length b) as L2.
  { rewrite <- L1. apply BridgeFacts.length_update_from; [lia|]. intros c.
    apply icmp_set_checksum_length. }
  assert (drop hl r2 = icmp_set_checksum (icmp_checksum (drop hl r1)) (icmp_set_checksum 0
    (icmp_set_icmp_type ICMP_ECHO_REPLY (drop hl b)))) as D2.
  { unfold r2. rewrite BridgeFacts.drop_update_from by lia. f_equal.
    unfold r1. by rewrite BridgeFacts.drop_update_from by lia. }
  clearbody r1 r2.
  eexists. split; [reflexivity|]. set (ck := ipv4_checksum _). clearbody ck.
  set (r3 := ipv4_set_checksum ck _).
  assert (drop hl r3 = drop hl r2) as D3.
  { apply BridgeFacts.drop_ipv4_set; [lia|]. intros i Hi. unfold r3.
    by rewrite !ipv4_set_checksum_tail, ipv4_set_destination_tail, ipv4_set_source_tail by done. }
  unfold r3 in *. clear r3.
  split; [by rewrite !ipv4_set_checksum_length, ipv4_set_destination_length, ipv4_set_source_length|].
  split; [|split; [|split]].
  - rewrite !ipv4_source_set_checksum, ipv4_source_set_destination, ipv4_get_set_source
      by (rewrite ?ipv4_set_checksum_length, ?ipv4_set_destination_length, ?ipv4_set_source_length; done || lia).
    done.
  - rewrite !ipv4_destination_set_checksum, ipv4_get_set_destination
      by (rewrite ?ipv4_set_checksum_length, ?ipv4_set_destination_length, ?ipv4_set_source_length; done || lia).
    done.
  - rewrite D3, D2, !icmp_type_set_checksum, icmp_get_set_type
      by (rewrite ?icmp_set_checksum_length, ?icmp_set_icmp_type_length, ?length_drop;
          unfold is_u, ICMP_ECHO_REPLY; lia). done.
  - rewrite <- !drop_drop, D3, D2. apply list_eq. intros i. rewrite !lookup_drop.
    rewrite !icmp_set_checksum_tail, icmp_set_type_tail, lookup_drop by lia. done.
Qed.
End Theorems.

(** ** Witnesses *)

Module BridgeWitness.
Import Model.

Definition net24 : Ipv4Net := mkCidr (ipv4 10 26 0 0) 24 eq_refl.
Definition gw : Ipv4Addr := ipv4 10 26 0 1.

(** A UDP datagram from 10.26.0.2 to 10.26.0.3, and a ping of the gateway. *)
Definition udp : bytes :=
  [69; 0; 0; 24; 0; 0; 0; 0; 64; 17; 0; 0; 10; 26; 0; 2; 10; 26; 0; 3; 1; 2; 3; 4].
Definition ping : bytes :=
  [69; 0; 0; 30; 0; 0; 0; 0; 64; 1; 0; 0; 10; 26; 0; 2; 10; 26; 0; 1;
   8; 0; 0; 0; 0; 1; 0; 2; 7; 7].

Lemma relay_envelope_roundtrip_witness :
  ∃ p q, Packet.new (Bridge.build_wireguard_relay udp
      (mkIpv4Route (ipv4 10 26 0 2) (ipv4 10 26 0 3))) = Ok p ∧
    hops 4 p = Some q ∧ Packet.payload q = udp ∧
    Bridge.validate_vnt_relay q (ipv4 10 26 0 2) net24 gw
      = Ok (mkIpv4Route (ipv4 10 26 0 2) (ipv4 10 26 0 3)).
Proof.
  apply (relay_envelope_roundtrip udp (ipv4 10 26 0 2) net24 gw).
  - apply (bool_decide_eq_true_1 _). vm_compute. reflexivity.
  - apply (bool_decide_eq_true_1 _). vm_compute. reflexivity.
  - apply Nat.ltb_lt. vm_compute. reflexivity.
  - vm_compute. reflexivity.
Defined.

Lemma unicast_not_spoofed_witness : ∃ route,
  Bridge.validate_inner_ipv4 udp (ipv4 10 26 0 2) net24 gw = Ok route ∧
  source route = ipv4 10 26 0 2 ∧ net_network net24 < destination route.
Proof.
  exists (mkIpv4Route (ipv4 10 26 0 2) (ipv4 10 26 0 3)).
  assert (Bridge.validate_inner_ipv4 udp (ipv4 10 26 0 2) net24 gw
    = Ok (mkIpv4Route (ipv4 10 26 0 2) (ipv4 10 26 0 3))) as Hv by (vm_compute; reflexivity).
  split; [exact Hv|].
  destruct (unicast_not_spoofed _ _ _ _ _ Hv) as (? & _ & _ & [? _] & _). by split.
Defined.

Lemma gateway_echo_reply_spec_witness :
  ∃ r, Bridge.build_gateway_echo_reply ping (ipv4 10 26 0 2) gw = Ok (Some r) ∧
    length r = length ping ∧ ipv4_get_source r = gw ∧
    ipv4_get_destination r = ipv4 10 26 0 2 ∧
    icmp_get_icmp_type (drop 20 r) = ICMP_ECHO_REPLY ∧ drop (20 + 4) r = drop (20 + 4) ping.
Proof.
  apply (gateway_echo_reply_spec ping (ipv4 10 26 0 2) gw 20); try (vm_compute; reflexivity).
  - apply (bool_decide_eq_true_1 _). vm_compute. reflexivity.
  - apply (bool_decide_eq_true_1 _). vm_compute. reflexivity.
  - split_and!; try (vm_compute; reflexivity); apply Nat.leb_le; vm_compute; reflexivity.
  - apply Nat.leb_le. vm_compute. reflexivity.
Defined.
End BridgeWitness.
