(* ===== verification/Lease.v ===== *)
(** The address leases of one virtual network: [NetworkStateInner], the entries
    it holds and the traffic counters they share
    ([server/network_state_provider.rs]).

    The [Arc<TrafficStats>] of a device entry is also reachable from the
    network's traffic map, so counters live in a heap and entries hold a
    location.  [SystemTime::now()] is an argument [now] of the operation that
    reads it. *)

From S2P Require Import Prelude Libs Std ControlMessage.
From stdpp Require Import base gmap strings list.
From Stdlib Require Import ZArith Lia.

Local Open Scope Z_scope.

(** ** Traffic counters *)

Record TrafficStats := mkTrafficStats { tx : Z; rx : Z }.
#[export] Instance TrafficStats_eq_dec : EqDecision TrafficStats.
Proof. solve_decision. Defined.

Module Traffic.
Definition new : TrafficStats := mkTrafficStats 0 0.
Definition add_tx (n : Z) (t : TrafficStats) : TrafficStats := mkTrafficStats (u64_add (tx t) n) (rx t).
Definition add_rx (n : Z) (t : TrafficStats) : TrafficStats := mkTrafficStats (tx t) (u64_add (rx t) n).
Definition set_tx (n : Z) (t : TrafficStats) : TrafficStats := mkTrafficStats n (rx t).
Definition set_rx (n : Z) (t : TrafficStats) : TrafficStats := mkTrafficStats (tx t) n.
End Traffic.

(** The heap of [Arc]s; a location that is not allocated reads as zero, which no
    reachable handle does. *)
Abbreviation heap := (gmap positive TrafficStats).
Definition arc_new (t : TrafficStats) (h : heap) : positive * heap :=
  let l := fresh (dom h) in (l, <[l := t]> h).
Definition arc_get (l : positive) (h : heap) : TrafficStats := default Traffic.new (h !! l).

(** ** Device entries and records *)

(** [db::DeviceRecord]. *)
Record DeviceRecord := mkDeviceRecord {
  r_device_id : string;
  r_network_code : string;
  r_ip : option string;
  r_device_name : string;
  r_device_version : string;
  r_last_connect_time : Z;
  r_tx_bytes : Z;
  r_rx_bytes : Z
}.

Record DeviceEntry := mkDeviceEntry {
  e_device_id : string;
  e_ip : option Ipv4Addr;
  e_random_id : Z;
  e_device_name : string;
  e_device_version : string;
  e_is_connected : bool;
  e_last_connect_time : Z;
  e_disconnect_time : option Z;
  e_data_version : Z;
  e_key_sign : option string;
  e_latency_ms : option Z;
  e_traffic_stats : positive
}.

Definition system_time_to_i64 (st : Z) : Z :=
  if st <? 0 then 0 else u64_as_i64 (as_secs st).

(** [UNIX_EPOCH + Duration::from_secs(ts as u64)]: panics when the result is out
    of the range of [SystemTime]. *)
Definition i64_to_system_time (ts : Z) : outcome Z :=
  match system_time_add 0 (from_secs (i64_as_u64 ts)) with
  | Some t => Ret t
  | None => Panic
  end.

Definition from_record (now : Z) (r : DeviceRecord) (h : heap) : outcome (DeviceEntry * heap) :=
  let ip := r_ip r ≫= ipv4_parse in
  let '(l, h) := arc_new (Traffic.set_rx (i64_as_u64 (r_rx_bytes r))
                   (Traffic.set_tx (i64_as_u64 (r_tx_bytes r)) Traffic.new)) h in
  match i64_to_system_time (r_last_connect_time r) with
  | Panic => Panic
  | Ret t => Ret (mkDeviceEntry (r_device_id r) ip 0 (r_device_name r) (r_device_version r)
                    false t (Some now) 0 None None l, h)
  end.

Definition to_record (network_code : string) (e : DeviceEntry) (h : heap) : DeviceRecord :=
  mkDeviceRecord (e_device_id e) network_code (ipv4_to_string <$> e_ip e)
    (e_device_name e) (e_device_version e) (system_time_to_i64 (e_last_connect_time e))
    (u64_as_i64 (tx (arc_get (e_traffic_stats e) h)))
    (u64_as_i64 (rx (arc_get (e_traffic_stats e) h))).

(** ** NetworkStateInner *)

Record Inner := mkInner {
  data_version : Z;
  last_wireguard_change_version : Z;
  device_map : gmap string DeviceEntry;
  device_ip_map : gmap Ipv4Addr string;
  wireguard_peer_ip_map : gmap Ipv4Addr string;
  remote_wireguard_sources : gmap string (gset Ipv4Addr)
}.

(** The [bail!]s of the lease operations. *)
Inductive LeaseError :=
| IpIsGateway
| IpOutsideNetwork
| IpUsedByPeer (peer_id : string)
| IpUsedByDevice (device_name device_id : string)
| IpUsedByUnknownDevice
| IpUsedByVnt (device_id : string)
| IpExhaustion.

Module Lease.
(** Field updates. *)
Definition set_version (v : Z) (s : Inner) : Inner :=
  mkInner v (last_wireguard_change_version s) (device_map s) (device_ip_map s)
    (wireguard_peer_ip_map s) (remote_wireguard_sources s).
Definition set_devices (m : gmap string DeviceEntry) (s : Inner) : Inner :=
  mkInner (data_version s) (last_wireguard_change_version s) m (device_ip_map s)
    (wireguard_peer_ip_map s) (remote_wireguard_sources s).
Definition set_device_ips (m : gmap Ipv4Addr string) (s : Inner) : Inner :=
  mkInner (data_version s) (last_wireguard_change_version s) (device_map s) m
    (wireguard_peer_ip_map s) (remote_wireguard_sources s).
Definition set_peer_ips (m : gmap Ipv4Addr string) (s : Inner) : Inner :=
  mkInner (data_version s) (last_wireguard_change_version s) (device_map s) (device_ip_map s)
    m (remote_wireguard_sources s).
(** [self.data_version += 1]. *)
Definition bump (s : Inner) : Inner := set_version (u64_add (data_version s) 1) s.

Section Lease.
Context {NL : Ipv4NetLib}.

Definition wireguard_peer_ip (peer_id : string) (s : Inner) : option Ipv4Addr :=
  find_map (λ '(ip, owner), if bool_decide (owner = peer_id) then Some ip else None)
    (map_to_list (wireguard_peer_ip_map s)).

Definition prepare_wireguard_peer_ip_reservation (peer_id : string) (ip : Ipv4Addr) (s : Inner)
    : result LeaseError (option Ipv4Addr * Inner) :=
  match device_ip_map s !! ip with
  | Some device_id => Err (IpUsedByVnt device_id)
  | None =>
      match wireguard_peer_ip_map s !! ip with
      | Some existing =>
          if bool_decide (existing ≠ peer_id) then Err (IpUsedByPeer existing)
          else Ok (wireguard_peer_ip peer_id s,
                   set_peer_ips (<[ip := peer_id]> (wireguard_peer_ip_map s)) s)
      | None => Ok (wireguard_peer_ip peer_id s,
                    set_peer_ips (<[ip := peer_id]> (wireguard_peer_ip_map s)) s)
      end
  end.

Definition commit_wireguard_peer_ip_reservation (peer_id : string) (ip : Ipv4Addr)
    (previous_ip : option Ipv4Addr) (s : Inner) : Inner :=
  match previous_ip with
  | Some p =>
      if bool_decide (p ≠ ip) && bool_decide (wireguard_peer_ip_map s !! p = Some peer_id)
      then set_peer_ips (delete p (wireguard_peer_ip_map s)) s else s
  | None => s
  end.

Definition rollback_wireguard_peer_ip_reservation (peer_id : string) (ip : Ipv4Addr)
    (previous_ip : option Ipv4Addr) (s : Inner) : Inner :=
  if bool_decide (previous_ip ≠ Some ip) && bool_decide (wireguard_peer_ip_map s !! ip = Some peer_id)
  then set_peer_ips (delete ip (wireguard_peer_ip_map s)) s else s.

Definition release_wireguard_peer_ip (peer_id : string) (s : Inner) : bool * Inner :=
  let kept := filter (λ '(_, owner), owner ≠ peer_id) (wireguard_peer_ip_map s) in
  (negb (size kept =? size (wireguard_peer_ip_map s))%nat, set_peer_ips kept s).

Definition offline_ip (network_code device_id : string) (ip : Ipv4Addr) (random_id now : Z)
    (h : heap) (s : Inner) : (bool * option DeviceRecord) * Inner :=
  match device_map s !! device_id with
  | None => ((false, None), s)
  | Some e =>
      if negb (e_random_id e =? random_id) then ((false, None), s)
      else if bool_decide (e_ip e ≠ Some ip) then ((false, None), s)
      else
        let s := bump s in
        let e := mkDeviceEntry (e_device_id e) (e_ip e) (e_random_id e) (e_device_name e)
          (e_device_version e) false (e_last_connect_time e) (Some now) (data_version s)
          (e_key_sign e) (e_latency_ms e) (e_traffic_stats e) in
        ((true, Some (to_record network_code e h)),
         set_devices (<[device_id := e]> (device_map s)) s)
  end.

(** The filter of [collect_expired_devices]: [None] is the panic of
    [disconnect_time + lease_duration]. *)
Definition expired (lease_duration now : Z) (e : DeviceEntry) : option bool :=
  if e_is_connected e then Some false
  else match e_disconnect_time e with
       | None => Some false
       | Some t => t' ← system_time_add t lease_duration; Some (negb (now <? t'))
       end.

Fixpoint collect_expired (lease_duration now : Z) (l : list (string * DeviceEntry))
    : outcome (list string) :=
  match l with
  | [] => Ret []
  | (k, v) :: l =>
      match expired lease_duration now v with
      | None => Panic
      | Some b => match collect_expired lease_duration now l with
                  | Panic => Panic
                  | Ret r => Ret (if b then k :: r else r)
                  end
      end
  end.

Definition collect_expired_devices (lease_duration now : Z) (s : Inner) : outcome (list string) :=
  collect_expired lease_duration now (map_to_list (device_map s)).

Definition remove_one (s : Inner) (device_id : string) : Inner :=
  match device_map s !! device_id with
  | None => s
  | Some e =>
      let s := set_devices (delete device_id (device_map s)) s in
      match e_ip e with
      | Some ip => set_device_ips (delete ip (device_ip_map s)) s
      | None => s
      end
  end.

Definition remove_devices (device_ids : list string) (s : Inner) : Inner :=
  match device_ids with
  | [] => s
  | _ => fold_left remove_one device_ids (bump s)
  end.

Definition add_device (e : DeviceEntry) (s : Inner) : Inner :=
  let s := match e_ip e with
           | Some ip => set_device_ips (<[ip := e_device_id e]> (device_ip_map s)) s
           | None => s
           end in
  set_devices (<[e_device_id e := e]> (device_map s)) s.

(** The body of the loop in [find_available_ip]: an address is taken when it is
    the gateway's or is leased. *)
Definition taken (gateway : Ipv4Addr) (s : Inner) (ip : Ipv4Addr) : bool :=
  (ip =? gateway) || is_some (device_ip_map s !! ip) || is_some (wireguard_peer_ip_map s !! ip).

(** [for i in start..start + n]. *)
Fixpoint find_free (gateway : Ipv4Addr) (s : Inner) (n : nat) (i : Z) : option Ipv4Addr :=
  match n with
  | O => None
  | S n => if taken gateway s i then find_free gateway s n (i + 1) else Some i
  end.

Definition find_available_ip (net : Ipv4Net) (gateway : Ipv4Addr) (s : Inner)
    : result LeaseError Ipv4Addr :=
  let start := u32_add (net_network net) 1 in
  let end_ := net_broadcast net in
  ok_or (find_free gateway s (Z.to_nat (end_ - start)) start) IpExhaustion.

(** The [loop] over the address the client asks for: [Ok true] when it is free,
    [Ok false] for a [break], which leads to an automatic address. *)
Definition check_expected (net : Ipv4Net) (gateway : Ipv4Addr) (ip_variable : bool)
    (ip : Ipv4Addr) (s : Inner) : result LeaseError bool :=
  let refuse e := if ip_variable then Ok false else Err e in
  if ip =? gateway then refuse IpIsGateway
  else if negb (net_contains net ip) then refuse IpOutsideNetwork
  else match wireguard_peer_ip_map s !! ip with
  | Some peer_id => refuse (IpUsedByPeer peer_id)
  | None =>
      match device_ip_map s !! ip with
      | Some id => refuse (match device_map s !! id with
                           | Some v => IpUsedByDevice (e_device_name v) (e_device_id v)
                           | None => IpUsedByUnknownDevice
                           end)
      | None => Ok true
      end
  end.

(** The entry of a device that connects with the address [ip]. *)
Definition new_entry (req : RegRequestMsg) (ip : Ipv4Addr) (random_id now version : Z)
    (l : positive) : DeviceEntry :=
  mkDeviceEntry (device_id req) (Some ip) random_id (name req) (ControlMessage.version req)
    true now None version (key_sign req) None l.

(** A known device that reconnects, with the address [ip']. *)
Definition reconnected (e : DeviceEntry) (req : RegRequestMsg) (ip' : option Ipv4Addr)
    (random_id now version : Z) : DeviceEntry :=
  mkDeviceEntry (e_device_id e) ip' random_id (e_device_name e) (e_device_version e)
    true now None version (key_sign req) (e_latency_ms e) (e_traffic_stats e).

(** No branch changes the state before it fails, so an error carries no state. *)
Definition allocate_ip (net : Ipv4Net) (gateway : Ipv4Addr) (req : RegRequestMsg)
    (random_id now : Z) (h : heap) (s : Inner)
    : result LeaseError ((Ipv4Addr * option Ipv4Addr) * (heap * Inner)) :=
  let existing := device_map s !! device_id req in
  let fresh_device :=
    let old := existing ≫= e_ip in
    take ← match ControlMessage.ip req with
           | None => Ok None
           | Some ip => free ← check_expected net gateway (ip_variable req) ip s;
                        Ok (if free : bool then Some ip else None)
           end;
    match take with
    | Some ip =>
        let s := match old with
                 | Some old_ip => set_device_ips (delete old_ip (device_ip_map s)) s
                 | None => s
                 end in
        let s := bump s in
        let '(l, h) := arc_new Traffic.new h in
        Ok ((ip, old), (h, add_device (new_entry req ip random_id now (data_version s) l) s))
    | None =>
        ip ← find_available_ip net gateway s;
        let s := bump s in
        let '(l, h) := arc_new Traffic.new h in
        Ok ((ip, old), (h, add_device (new_entry req ip random_id now (data_version s) l) s))
    end in
  match existing with
  | Some e =>
      if negb (is_some (ControlMessage.ip req)) || bool_decide (e_ip e = ControlMessage.ip req) then
        match e_ip e with
        | None =>
            ip ← find_available_ip net gateway s;
            let s := bump s in
            let e := reconnected e req (Some ip) random_id now (data_version s) in
            Ok ((ip, None), (h,
              set_device_ips (<[ip := e_device_id e]> (device_ip_map s))
                (set_devices (<[device_id req := e]> (device_map s)) s)))
        | Some current_ip =>
            let s := bump s in
            let e := reconnected e req (Some current_ip) random_id now (data_version s) in
            Ok ((current_ip, None), (h, set_devices (<[device_id req := e]> (device_map s)) s))
        end
      else fresh_device
  | None => fresh_device
  end.

(** ** The locked sections of NetworkState

    The parts of [NetworkState] operations that run under the lease lock and
    touch the lease state directly. *)

(** [guard.data_version = ...; guard.last_wireguard_change_version = guard.data_version]
    for the two ways the source increments the version. *)
Definition mark_wireguard_change (v : Z) (s : Inner) : Inner :=
  mkInner v v (device_map s) (device_ip_map s) (wireguard_peer_ip_map s)
    (remote_wireguard_sources s).

Definition set_remote (m : gmap string (gset Ipv4Addr)) (s : Inner) : Inner :=
  mkInner (data_version s) (last_wireguard_change_version s) (device_map s) (device_ip_map s)
    (wireguard_peer_ip_map s) m.

Definition update_remote_wireguard_ips (source : string) (ips : gset Ipv4Addr) (s : Inner)
    : bool * Inner :=
  let m := remote_wireguard_sources s in
  if bool_decide (m !! source = Some ips)
     || (bool_decide (ips = ∅) && negb (is_some (m !! source)))
  then (false, s)
  else
    let m := if bool_decide (ips = ∅) then delete source m else <[source := ips]> m in
    (true, mark_wireguard_change (u64_saturating_add (data_version s) 1) (set_remote m s)).

Definition remove_remote_wireguard_source (source : string) (s : Inner) : bool * Inner :=
  let m := remote_wireguard_sources s in
  if negb (is_some (m !! source)) then (false, s)
  else (true, mark_wireguard_change (u64_saturating_add (data_version s) 1)
                (set_remote (delete source m) s)).

(** The returned option is the removed entry. *)
Definition remove_device_from_memory (device_id : string) (s : Inner)
    : option DeviceEntry * Inner :=
  match device_map s !! device_id with
  | Some e => (Some e, bump (remove_one s device_id))
  | None => (None, s)
  end.

Definition release_pre_registered_ip (device_id : string) (ip : Ipv4Addr) (random_id : Z)
    (s : Inner) : bool * Inner :=
  match device_map s !! device_id with
  | Some e =>
      if (e_random_id e =? random_id) && bool_decide (e_ip e = Some ip) then
        (true, bump (set_device_ips (delete ip (device_ip_map s))
                 (set_devices (delete device_id (device_map s)) s)))
      else (false, s)
  | None => (false, s)
  end.

Definition update_client_latency (ip : Ipv4Addr) (latency_ms : Z) (s : Inner) : Inner :=
  match device_ip_map s !! ip with
  | None => s
  | Some device_id =>
      match device_map s !! device_id with
      | None => s
      | Some e =>
          let e := mkDeviceEntry (e_device_id e) (e_ip e) (e_random_id e) (e_device_name e)
            (e_device_version e) (e_is_connected e) (e_last_connect_time e) (e_disconnect_time e)
            (e_data_version e) (e_key_sign e) (Some latency_ms) (e_traffic_stats e) in
          set_devices (<[device_id := e]> (device_map s)) s
      end
  end.

(** ** The load from the database *)

Fixpoint load_devices (net : Ipv4Net) (gateway : Ipv4Addr) (now : Z) (l : list DeviceRecord)
    (acc : heap * gmap string DeviceEntry * gmap Ipv4Addr string * Z)
    : outcome (heap * gmap string DeviceEntry * gmap Ipv4Addr string * Z) :=
  match l with
  | [] => Ret acc
  | r :: l =>
      let '(h, devices, ips, v) := acc in
      match from_record now r h with
      | Panic => Panic
      | Ret (e, h) =>
          let ips := match e_ip e with
                     | Some ip => if net_contains net ip && negb (gateway =? ip)
                                  then <[ip := e_device_id e]> ips else ips
                     | None => ips
                     end in
          load_devices net gateway now l
            (h, <[e_device_id e := e]> devices, ips, Z.max v (e_data_version e))
      end
  end.

Definition load_peers (net : Ipv4Net) (gateway : Ipv4Addr) (l : list (Ipv4Addr * string))
    : gmap Ipv4Addr string :=
  fold_left (λ m '(ip, peer_id),
    if net_contains net ip && negb (gateway =? ip) then <[ip := peer_id]> m else m) l ∅.

(** [records] and [allocations] are what the two queries return; a failed query
    is logged and counts as empty. *)
Definition build_initial_inner_state (net : Ipv4Net) (gateway : Ipv4Addr) (now : Z)
    (records : list DeviceRecord) (allocations : list (Ipv4Addr * string)) (h : heap)
    : outcome (heap * Inner) :=
  match load_devices net gateway now records (h, ∅, ∅, 0) with
  | Panic => Panic
  | Ret (h, devices, ips, v) =>
      Ret (h, mkInner v 0 devices ips (load_peers net gateway allocations) ∅)
  end.
End Lease.
End Lease.

(** ** Invariants *)

Section Invariants.
Context {NL : Ipv4NetLib}.

(** An address a client may hold: in the network, and not the gateway's. *)
Definition usable (net : Ipv4Net) (gw : Ipv4Addr) (ip : Ipv4Addr) : Prop :=
  net_contains net ip = true ∧ ip ≠ gw.

(** The lease table is consistent: entries are filed under their own id, the
    address of a device is leased to that device, only usable addresses are
    leased, and never to a device and to a WireGuard peer at once. *)
Record lease_inv (net : Ipv4Net) (gw : Ipv4Addr) (s : Inner) : Prop := {
  inv_ids d e : device_map s !! d = Some e → e_device_id e = d;
  inv_owner d e ip : device_map s !! d = Some e → e_ip e = Some ip → usable net gw ip →
    device_ip_map s !! ip = Some d;
  inv_usable ip d : device_ip_map s !! ip = Some d → usable net gw ip;
  inv_disjoint ip d : device_ip_map s !! ip = Some d → wireguard_peer_ip_map s !! ip = None
}.

(** Versions: no entry is newer than the table. *)
Record version_inv (s : Inner) : Prop := {
  inv_version : 0 ≤ data_version s;
  inv_wg_version : 0 ≤ last_wireguard_change_version s ≤ data_version s;
  inv_entry_version d e : device_map s !! d = Some e → 0 ≤ e_data_version e ≤ data_version s
}.
End Invariants.

(** One locked section on the lease state, with the arguments its caller gives. *)
Section Steps.
Context {NL : Ipv4NetLib} (net : Ipv4Net) (gw : Ipv4Addr).

Inductive lease_step : heap * Inner → heap * Inner → Prop :=
| step_allocate req rid now h s r st :
    Lease.allocate_ip net gw req rid now h s = Ok (r, st) → lease_step (h, s) st
| step_offline c d ip rid now h s :
    lease_step (h, s) (h, (Lease.offline_ip c d ip rid now h s).2)
| step_remove_devices l h s : lease_step (h, s) (h, Lease.remove_devices l s)
| step_remove_from_memory d h s : lease_step (h, s) (h, (Lease.remove_device_from_memory d s).2)
| step_release_pre d ip rid h s :
    lease_step (h, s) (h, (Lease.release_pre_registered_ip d ip rid s).2)
| step_prepare p ip h s prev s' :
    Lease.prepare_wireguard_peer_ip_reservation p ip s = Ok (prev, s') → lease_step (h, s) (h, s')
| step_commit p ip prev h s :
    lease_step (h, s) (h, Lease.commit_wireguard_peer_ip_reservation p ip prev s)
| step_rollback p ip prev h s :
    lease_step (h, s) (h, Lease.rollback_wireguard_peer_ip_reservation p ip prev s)
| step_release p h s : lease_step (h, s) (h, (Lease.release_wireguard_peer_ip p s).2)
| step_latency ip ms h s : lease_step (h, s) (h, Lease.update_client_latency ip ms s)
| step_remote src ips h s :
    lease_step (h, s) (h, (Lease.update_remote_wireguard_ips src ips s).2)
| step_remove_remote src h s :
    lease_step (h, s) (h, (Lease.remove_remote_wireguard_source src s).2)
| step_wireguard h s :
    lease_step (h, s) (h, Lease.mark_wireguard_change (u64_add (data_version s) 1) s)
| step_traffic h h' s : dom h ⊆ dom h' → lease_step (h, s) (h', s).
End Steps.

Module LeaseFacts.
Section LeaseFacts.
Context {NL : Ipv4NetLib} {NLL : Ipv4NetLaws}.
Context (net : Ipv4Net) (gw : Ipv4Addr).
Implicit Types (s : Inner) (h : heap).

(** *** Free addresses *)

Lemma find_free_Some s n i ip :
  Lease.find_free gw s n i = Some ip ↔
  i ≤ ip < i + Z.of_nat n ∧ Lease.taken gw s ip = false ∧
  ∀ j, i ≤ j < ip → Lease.taken gw s j = true.
Proof.
  revert i. induction n as [|n IH]; intros i; simpl Lease.find_free; [split; [done|lia]|].
  destruct (Lease.taken gw s i) eqn:E.
  - rewrite IH. split; intros (H1 & H2 & H3); (split; [|split; [done|]]).
    + lia.
    + intros j Hj. destruct (decide (j = i)) as [->|]; [done|]. apply H3. lia.
    + destruct (decide (ip = i)) as [->|]; [congruence|lia].
    + intros j Hj. apply H3. lia.
  - split.
    + intros [= ->]. split; [lia|]. split; [done|]. lia.
    + intros (H1 & H2 & H3). f_equal. destruct (decide (i = ip)); [done|].
      rewrite H3 in E; [done|lia].
Qed.

Lemma find_free_None s n i :
  Lease.find_free gw s n i = None ↔ ∀ j, i ≤ j < i + Z.of_nat n → Lease.taken gw s j = true.
Proof.
  revert i. induction n as [|n IH]; intros i; simpl Lease.find_free; [split; [lia|done]|].
  destruct (Lease.taken gw s i) eqn:E.
  - rewrite IH. split; intros H j Hj; [|apply H; lia].
    destruct (decide (j = i)) as [->|]; [done|]. apply H. lia.
  - split; [done|]. intros H. rewrite H in E; [done|lia].
Qed.

(** The address after the network address is representable: the network is not
    255.255.255.255/32. *)
Context (Hnet : net_network net < u32_max).

Lemma find_available_Ok s ip :
  Lease.find_available_ip net gw s = Ok ip ↔
  net_network net < ip < net_broadcast net ∧ Lease.taken gw s ip = false ∧
  ∀ j, net_network net < j < ip → Lease.taken gw s j = true.
Proof.
  unfold Lease.find_available_ip.
  pose proof (net_network_range net). pose proof (net_network_le_broadcast net).
  rewrite u32_add_small by lia. set (k := Z.to_nat _).
  transitivity (Lease.find_free gw s k (net_network net + 1) = Some ip).
  { destruct (Lease.find_free _ _ _ _); simpl; split; congruence. }
  rewrite find_free_Some. unfold k. split; intros (H1 & H2 & H3); (split; [lia|]); (split; [done|]);
    intros j Hj; apply H3; lia.
Qed.

Lemma find_available_Err s e :
  Lease.find_available_ip net gw s = Err e →
  e = IpExhaustion ∧ ∀ j, net_network net < j < net_broadcast net → Lease.taken gw s j = true.
Proof.
  unfold Lease.find_available_ip.
  pose proof (net_network_range net). pose proof (net_network_le_broadcast net).
  rewrite u32_add_small by lia.
  destruct (Lease.find_free _ _ _ _) eqn:E; simpl; [done|]. intros [= <-]. split; [done|].
  intros j Hj. apply (proj1 (find_free_None _ _ _) E). lia.
Qed.

Lemma taken_false s ip :
  Lease.taken gw s ip = false ↔
  ip ≠ gw ∧ device_ip_map s !! ip = None ∧ wireguard_peer_ip_map s !! ip = None.
Proof.
  unfold Lease.taken. rewrite !orb_false_iff, Z.eqb_neq.
  destruct (device_ip_map s !! ip), (wireguard_peer_ip_map s !! ip); simpl;
    split; intros; destruct_and?; split_and!; done.
Qed.

(** What both ways to a new address give: a usable address nobody holds. *)
Definition free_for s ip : Prop :=
  usable net gw ip ∧ device_ip_map s !! ip = None ∧ wireguard_peer_ip_map s !! ip = None.

Lemma find_available_free s ip : Lease.find_available_ip net gw s = Ok ip → free_for s ip.
Proof.
  intros (H1 & H2 & _)%find_available_Ok. apply taken_false in H2 as (H2 & H3 & H4).
  split; [split; [apply net_contains_true; lia|done]|done].
Qed.

Lemma check_expected_free s v ip :
  Lease.check_expected net gw v ip s = Ok true → free_for s ip.
Proof.
  unfold Lease.check_expected, free_for, usable. intros H.
  destruct (Z.eqb_spec ip gw); [by destruct v|].
  destruct (net_contains net ip); simpl in H; [|by destruct v].
  destruct (wireguard_peer_ip_map s !! ip); [by destruct v|].
  destruct (device_ip_map s !! ip); [by destruct v|]. done.
Qed.

(** *** Preservation *)

(** Changing the version only. *)
Lemma set_version_lease_inv v s : lease_inv net gw s → lease_inv net gw (Lease.set_version v s).
Proof. intros [H1 H2 H3 H4]. by split. Qed.

(** A device takes a free address; what happens to the leases in between may
    only drop addresses of this device. *)
Lemma add_device_lease_inv e ip s :
  e_ip e = Some ip → usable net gw ip → device_ip_map s !! ip = None →
  wireguard_peer_ip_map s !! ip = None →
  (∀ d x, device_map s !! d = Some x → e_device_id x = d) →
  (∀ d x jp, d ≠ e_device_id e → device_map s !! d = Some x → e_ip x = Some jp →
     usable net gw jp → device_ip_map s !! jp = Some d) →
  (∀ jp d, device_ip_map s !! jp = Some d →
     usable net gw jp ∧ wireguard_peer_ip_map s !! jp = None) →
  lease_inv net gw (Lease.add_device e s).
Proof.
  intros He Hu Hd Hw Hids Hown Hmap. unfold Lease.add_device. rewrite He.
  split; simpl.
  - intros d x [[<- <-]|[Hne Hx]]%lookup_insert_Some; [done|by apply Hids].
  - intros d x jp [[<- <-]|[Hne Hx]]%lookup_insert_Some Hip Hjp.
    + simplify_eq. by rewrite lookup_insert_eq.
    + pose proof (Hown d x jp (not_eq_sym Hne) Hx Hip Hjp) as Hl.
      rewrite lookup_insert_ne; [done|]. intros <-. congruence.
  - intros jp d [[<- <-]|[Hne Hx]]%lookup_insert_Some; [done|by eapply Hmap].
  - intros jp d [[<- <-]|[Hne Hx]]%lookup_insert_Some; [done|by eapply Hmap].
Qed.

Lemma add_free_lease_inv e ip s :
  lease_inv net gw s → e_ip e = Some ip → free_for s ip → lease_inv net gw (Lease.add_device e s).
Proof.
  intros [H1 H2 H3 H4] He (Hu & Hd & Hw).
  apply (add_device_lease_inv e ip); try done; [by intros; eapply H2|].
  intros jp d Hj. split; [by eapply H3|by eapply H4].
Qed.

(** The same when the old address of the device is dropped first. *)
Lemma add_moved_lease_inv e x ip old s :
  lease_inv net gw s → device_map s !! e_device_id e = Some x → e_ip x = Some old →
  e_ip e = Some ip → free_for s ip →
  lease_inv net gw (Lease.add_device e (Lease.set_device_ips (delete old (device_ip_map s)) s)).
Proof.
  intros [H1 H2 H3 H4] Hx Hold He (Hu & Hd & Hw).
  apply (add_device_lease_inv e ip); simpl; try done.
  - rewrite lookup_delete_None. by right.
  - intros d y jp Hne Hy Hip Hjp. pose proof (H2 _ _ _ Hy Hip Hjp) as Hl.
    rewrite lookup_delete_ne; [done|]. intros <-.
    pose proof (H2 _ _ _ Hx Hold Hjp). congruence.
  - intros jp d [_ Hj]%lookup_delete_Some. split; [by eapply H3|by eapply H4].
Qed.

(** An entry is replaced by one with the same id and address. *)
Lemma update_entry_lease_inv s d e e' :
  lease_inv net gw s → device_map s !! d = Some e → e_device_id e' = e_device_id e →
  e_ip e' = e_ip e → lease_inv net gw (Lease.set_devices (<[d := e']> (device_map s)) s).
Proof.
  intros [H1 H2 H3 H4] He Hid Hip. split; simpl; try done.
  - intros d' x [[<- <-]|[Hne Hx]]%lookup_insert_Some; [rewrite Hid|]; by apply H1.
  - intros d' x ip [[<- <-]|[Hne Hx]]%lookup_insert_Some; [rewrite Hip|]; by apply H2.
Qed.

(** A device leaves with its address. *)
Lemma remove_one_lease_inv s d : lease_inv net gw s → lease_inv net gw (Lease.remove_one s d).
Proof.
  intros [H1 H2 H3 H4]. unfold Lease.remove_one.
  destruct (device_map s !! d) as [e|] eqn:Ed; [|by split].
  assert (∀ d' x, delete d (device_map s) !! d' = Some x → d ≠ d' ∧ device_map s !! d' = Some x) as Hd
    by (intros d' x; apply lookup_delete_Some).
  destruct (e_ip e) as [ip|] eqn:Eip; split; simpl; try done.
  - intros d' x [_ Hx]%Hd. by apply H1.
  - intros d' x jp [Hne Hx]%Hd Hip Hjp. pose proof (H2 _ _ _ Hx Hip Hjp) as Hl.
    rewrite lookup_delete_ne; [done|]. intros <-.
    pose proof (H2 _ _ _ Ed Eip Hjp). congruence.
  - intros jp d' [_ Hj]%lookup_delete_Some. by eapply H3.
  - intros jp d' [_ Hj]%lookup_delete_Some. by eapply H4.
  - intros d' x [_ Hx]%Hd. by apply H1.
  - intros d' x jp [Hne Hx]%Hd. by apply H2.
Qed.

Lemma remove_devices_lease_inv l s :
  lease_inv net gw s → lease_inv net gw (Lease.remove_devices l s).
Proof.
  intros H. unfold Lease.remove_devices. destruct l as [|d l]; [done|].
  assert (lease_inv net gw (Lease.bump s)) as Hb by by apply set_version_lease_inv.
  revert Hb. generalize (Lease.bump s), (d :: l). clear. intros s l. revert s.
  induction l as [|d l IH]; intros s Hs; simpl; [done|]. by apply IH, remove_one_lease_inv.
Qed.

Lemma set_peer_ips_lease_inv m s :
  lease_inv net gw s →
  (∀ ip p, m !! ip = Some p → wireguard_peer_ip_map s !! ip = None → device_ip_map s !! ip = None) →
  lease_inv net gw (Lease.set_peer_ips m s).
Proof.
  intros [H1 H2 H3 H4] Hm. split; simpl; try done. intros ip d Hip.
  destruct (m !! ip) as [p|] eqn:E; [|done].
  pose proof (H4 _ _ Hip) as Hn. rewrite (Hm ip p E Hn) in Hip. done.
Qed.

Lemma shrink_peer_ips_lease_inv m s :
  lease_inv net gw s → m ⊆ wireguard_peer_ip_map s → lease_inv net gw (Lease.set_peer_ips m s).
Proof.
  intros Hi Hm. apply set_peer_ips_lease_inv; [done|]. intros ip p Hp Hn.
  pose proof (lookup_weaken _ _ _ _ Hp Hm). congruence.
Qed.

Lemma prepare_lease_inv s p ip prev s' :
  lease_inv net gw s →
  Lease.prepare_wireguard_peer_ip_reservation p ip s = Ok (prev, s') → lease_inv net gw s'.
Proof.
  intros Hi. unfold Lease.prepare_wireguard_peer_ip_reservation.
  destruct (device_ip_map s !! ip) eqn:Ed; [done|]. intros H.
  assert (s' = Lease.set_peer_ips (<[ip := p]> (wireguard_peer_ip_map s)) s) as ->.
  { destruct (wireguard_peer_ip_map s !! ip); [case_bool_decide|]; simplify_eq; done. }
  apply set_peer_ips_lease_inv; [done|]. intros jp q [[<- _]|[_ Hq]]%lookup_insert_Some; [done|].
  congruence.
Qed.

Lemma commit_lease_inv s p ip prev :
  lease_inv net gw s → lease_inv net gw (Lease.commit_wireguard_peer_ip_reservation p ip prev s).
Proof.
  intros Hi. unfold Lease.commit_wireguard_peer_ip_reservation.
  destruct prev; [|done]. destruct (_ && _); [|done].
  apply shrink_peer_ips_lease_inv; [done|apply delete_subseteq].
Qed.

Lemma rollback_lease_inv s p ip prev :
  lease_inv net gw s → lease_inv net gw (Lease.rollback_wireguard_peer_ip_reservation p ip prev s).
Proof.
  intros Hi. unfold Lease.rollback_wireguard_peer_ip_reservation. destruct (_ && _); [|done].
  apply shrink_peer_ips_lease_inv; [done|apply delete_subseteq].
Qed.

Lemma release_lease_inv s p :
  lease_inv net gw s → lease_inv net gw (Lease.release_wireguard_peer_ip p s).2.
Proof. intros Hi. simpl. apply shrink_peer_ips_lease_inv; [done|apply map_filter_subseteq]. Qed.

Lemma offline_lease_inv c d ip r now h s :
  lease_inv net gw s → lease_inv net gw (Lease.offline_ip c d ip r now h s).2.
Proof.
  intros Hi. unfold Lease.offline_ip. destruct (device_map s !! d) as [e|] eqn:E; [|done].
  destruct (negb _); [done|]. case_bool_decide; [done|]. simpl.
  by apply (update_entry_lease_inv (Lease.bump s) d e); [apply set_version_lease_inv|..].
Qed.

Lemma latency_lease_inv ip ms s :
  lease_inv net gw s → lease_inv net gw (Lease.update_client_latency ip ms s).
Proof.
  intros Hi. unfold Lease.update_client_latency. destruct (device_ip_map s !! ip) as [d|]; [|done].
  destruct (device_map s !! d) as [e|] eqn:E; [|done]. by eapply update_entry_lease_inv.
Qed.

Lemma release_pre_remove_one d ip rid s :
  (Lease.release_pre_registered_ip d ip rid s).2 = s ∨
  (Lease.release_pre_registered_ip d ip rid s).2 = Lease.bump (Lease.remove_one s d).
Proof.
  unfold Lease.release_pre_registered_ip, Lease.remove_one.
  destruct (device_map s !! d) as [e|]; [|by left].
  destruct (e_random_id e =? rid); [|by left]. simpl.
  case_bool_decide as Hip; [|by left]. rewrite Hip. by right.
Qed.

(** *** The four ways [allocate_ip] succeeds *)

Inductive alloc_case (req : RegRequestMsg) (rid now : Z) h s :
  Ipv4Addr → option Ipv4Addr → heap → Inner → Prop :=
| alloc_reconnect e ip :
    device_map s !! device_id req = Some e → e_ip e = Some ip →
    (ControlMessage.ip req = None ∨ ControlMessage.ip req = Some ip) →
    alloc_case req rid now h s ip None h
      (Lease.set_devices (<[device_id req := Lease.reconnected e req (Some ip) rid now
         (data_version (Lease.bump s))]> (device_map s)) (Lease.bump s))
| alloc_reconnect_new e ip :
    device_map s !! device_id req = Some e → e_ip e = None → ControlMessage.ip req = None →
    Lease.find_available_ip net gw s = Ok ip →
    alloc_case req rid now h s ip None h
      (Lease.set_device_ips (<[ip := e_device_id e]> (device_ip_map s))
        (Lease.set_devices (<[device_id req := Lease.reconnected e req (Some ip) rid now
           (data_version (Lease.bump s))]> (device_map s)) (Lease.bump s)))
| alloc_expected ip old l h' :
    ControlMessage.ip req = Some ip → Lease.check_expected net gw (ip_variable req) ip s = Ok true →
    old = device_map s !! device_id req ≫= e_ip → arc_new Traffic.new h = (l, h') →
    alloc_case req rid now h s ip old h'
      (Lease.add_device (Lease.new_entry req ip rid now (data_version (Lease.bump s)) l)
        (Lease.bump match old with
           | Some o => Lease.set_device_ips (delete o (device_ip_map s)) s
           | None => s
           end))
| alloc_automatic ip old l h' :
    Lease.find_available_ip net gw s = Ok ip →
    (ControlMessage.ip req = None ∧ device_map s !! device_id req = None ∨
     ∃ ip', ControlMessage.ip req = Some ip' ∧ old ≠ Some ip' ∧
            Lease.check_expected net gw (ip_variable req) ip' s = Ok false) →
    old = device_map s !! device_id req ≫= e_ip → arc_new Traffic.new h = (l, h') →
    alloc_case req rid now h s ip old h'
      (Lease.add_device (Lease.new_entry req ip rid now (data_version (Lease.bump s)) l)
        (Lease.bump s)).

Lemma allocate_fresh_case req rid now h s r st :
  (∀ e, device_map s !! device_id req = Some e →
     ControlMessage.ip req ≠ None ∧ e_ip e ≠ ControlMessage.ip req) →
  Lease.allocate_ip net gw req rid now h s = Ok (r, st) →
  alloc_case req rid now h s r.1 r.2 st.1 st.2.
Proof.
  intros Hex. unfold Lease.allocate_ip.
  set (fresh_device := mbind _ _). intros Hf.
  assert (fresh_device = Ok (r, st)) as Hf'.
  { destruct (device_map s !! device_id req) as [e|] eqn:E; [|done].
    destruct (Hex e eq_refl) as [Hn Hne]. destruct (ControlMessage.ip req); [|done].
    simpl in Hf. by rewrite bool_decide_eq_false_2 in Hf. }
  clear Hf. unfold fresh_device in Hf'. clear fresh_device.
  set (old := device_map s !! device_id req ≫= e_ip) in *.
  destruct (arc_new Traffic.new h) as [l h'] eqn:Ea.
  destruct (ControlMessage.ip req) as [ip|] eqn:Eip; cbn [mbind result_bind] in Hf'.
  - destruct (Lease.check_expected _ _ _ _ _) as [[]|e] eqn:Ec; cbn [mbind result_bind] in Hf'; [| |done].
    + simplify_eq. simpl.
      pose proof (alloc_expected req rid now h s ip old l h' Eip Ec eq_refl Ea) as Hc.
      by destruct old.
    + destruct (Lease.find_available_ip net gw s) as [ip'|] eqn:Ef; cbn [mbind result_bind] in Hf'; [|done].
      simplify_eq. simpl. eapply alloc_automatic; try done. right. exists ip. split_and!; [done| |done].
      unfold old. destruct (device_map s !! device_id req) as [e|]; [|done].
      simpl. by apply Hex.
  - destruct (Lease.find_available_ip net gw s) as [ip'|] eqn:Ef; cbn [mbind result_bind] in Hf'; [|done].
    simplify_eq. simpl. eapply alloc_automatic; try done. left. split; [done|].
    destruct (device_map s !! device_id req) as [e|]; [|done]. by destruct (Hex e eq_refl).
Qed.

Lemma allocate_cases req rid now h s r st :
  Lease.allocate_ip net gw req rid now h s = Ok (r, st) →
  alloc_case req rid now h s r.1 r.2 st.1 st.2.
Proof.
  intros H. destruct (device_map s !! device_id req) as [e|] eqn:E.
  2: { apply allocate_fresh_case; [|done]. congruence. }
  destruct (negb (is_some (ControlMessage.ip req)) || bool_decide (e_ip e = ControlMessage.ip req)) eqn:Em.
  2: { apply allocate_fresh_case; [|done]. intros e' ?. simplify_eq. bool_simpl.
       by destruct (ControlMessage.ip req). }
  unfold Lease.allocate_ip in H. rewrite E, Em in H. destruct (e_ip e) as [ip|] eqn:Ee.
  - simplify_eq. simpl. eapply alloc_reconnect; try done.
    destruct (ControlMessage.ip req); [right|by left]. simpl in Em. bool_simpl. done.
  - destruct (Lease.find_available_ip net gw s) as [ip|] eqn:Ef; cbn [mbind result_bind] in H; [|done].
    simplify_eq. simpl. eapply alloc_reconnect_new; try done.
    destruct (ControlMessage.ip req); [|done]. simpl in Em. bool_simpl. done.
Qed.

Lemma allocate_lease_inv req rid now h s r st :
  lease_inv net gw s → Lease.allocate_ip net gw req rid now h s = Ok (r, st) →
  lease_inv net gw st.2.
Proof.
  intros Hi H. destruct r as [ip old], st as [h' s']. simpl.
  apply allocate_cases in H. simpl in H.
  assert (lease_inv net gw (Lease.bump s)) as Hb by by apply set_version_lease_inv.
  destruct H as [e ip He Hip _|e ip He Hip _ Hf|ip old l h' Hr Hc Ho Ha|ip old l h' Hf _ Ho Ha].
  - by eapply (update_entry_lease_inv (Lease.bump s)).
  - pose proof (inv_ids _ _ _ Hi _ _ He) as Hid.
    apply find_available_free in Hf.
    pose proof (add_free_lease_inv (Lease.reconnected e req (Some ip) rid now
      (data_version (Lease.bump s))) ip (Lease.bump s) Hb eq_refl Hf) as Ha.
    unfold Lease.add_device in Ha. cbn [e_ip Lease.reconnected e_device_id] in Ha.
    by rewrite Hid in *.
  - apply check_expected_free in Hc. destruct old as [o|]; [|by eapply add_free_lease_inv].
    destruct (device_map s !! device_id req) as [e|] eqn:E; [|done]. simpl in Ho.
    by apply (add_moved_lease_inv _ e ip o (Lease.bump s)).
  - apply find_available_free in Hf. by eapply add_free_lease_inv.
Qed.

Lemma lease_step_inv st st' :
  lease_step net gw st st' → lease_inv net gw st.2 → lease_inv net gw st'.2.
Proof.
  assert (∀ v s, lease_inv net gw s → lease_inv net gw (Lease.mark_wireguard_change v s)) as Hm.
  { intros v s [H1 H2 H3 H4]. by split. }
  assert (∀ m s, lease_inv net gw s → lease_inv net gw (Lease.set_remote m s)) as Hr.
  { intros m s [H1 H2 H3 H4]. by split. }
  destruct 1; cbn [snd]; intros Hi.
  - by eapply allocate_lease_inv.
  - by apply offline_lease_inv.
  - by apply remove_devices_lease_inv.
  - unfold Lease.remove_device_from_memory. destruct (device_map s !! d); [|done].
    by apply set_version_lease_inv, remove_one_lease_inv.
  - destruct (release_pre_remove_one d ip rid s) as [->| ->]; [done|].
    by apply set_version_lease_inv, remove_one_lease_inv.
  - by eapply prepare_lease_inv.
  - by apply commit_lease_inv.
  - by apply rollback_lease_inv.
  - by apply release_lease_inv.
  - by apply latency_lease_inv.
  - unfold Lease.update_remote_wireguard_ips. destruct (_ || _); [done|]. by apply Hm, Hr.
  - unfold Lease.remove_remote_wireguard_source. destruct (negb _); [done|]. by apply Hm, Hr.
  - by apply Hm.
  - done.
Qed.

(** *** Versions *)

(** How one locked section changes versions and entries: the table version grows
    by at most one, and an entry that is new or whose address or online flag
    changed carries the new version. *)
Record evolves s s' : Prop := {
  ev_version : data_version s ≤ data_version s' ≤ data_version s + 1;
  ev_wg : last_wireguard_change_version s' = last_wireguard_change_version s ∨
          last_wireguard_change_version s' = data_version s';
  ev_entry d e' : device_map s' !! d = Some e' →
    e_data_version e' = data_version s' ∧ data_version s < data_version s' ∨
    ∃ e, device_map s !! d = Some e ∧ e_ip e' = e_ip e ∧
         e_is_connected e' = e_is_connected e ∧ e_data_version e' = e_data_version e
}.

Lemma evolves_version_inv s s' : evolves s s' → version_inv s → version_inv s'.
Proof.
  intros [H1 H2 H3] [I1 I2 I3]. split; [lia|destruct H2; lia|].
  intros d e' He. destruct (H3 d e' He) as [[-> _]|(e & He0 & _ & _ & ->)]; [lia|].
  pose proof (I3 d e He0). lia.
Qed.

(** Nothing but removals of entries. *)
Lemma shrink_evolves s s' :
  data_version s ≤ data_version s' ≤ data_version s + 1 →
  last_wireguard_change_version s' = last_wireguard_change_version s ∨
    last_wireguard_change_version s' = data_version s' →
  device_map s' ⊆ device_map s → evolves s s'.
Proof.
  intros Hv Hw Hm. split; [done..|]. intros d e' He. right. exists e'.
  split; [by eapply lookup_weaken|done].
Qed.

(** One entry is written with the new version. *)
Lemma touch_evolves s s' d e :
  data_version s' = data_version s + 1 →
  last_wireguard_change_version s' = last_wireguard_change_version s →
  device_map s' = <[d := e]> (device_map s) → e_data_version e = data_version s' → evolves s s'.
Proof.
  intros Hv Hw Hm He. split; [lia|by left|]. rewrite Hm.
  intros d' e' [[<- <-]|[_ Hd]]%lookup_insert_Some; [left; lia|right; by exists e'].
Qed.

Lemma bump_version s :
  0 ≤ data_version s < u64_max → data_version (Lease.bump s) = data_version s + 1.
Proof. intros H. simpl. apply u64_add_small. lia. Qed.

Lemma add_device_map e s : device_map (Lease.add_device e s) = <[e_device_id e := e]> (device_map s).
Proof. unfold Lease.add_device. by destruct (e_ip e). Qed.
Lemma add_device_version e s : data_version (Lease.add_device e s) = data_version s.
Proof. unfold Lease.add_device. by destruct (e_ip e). Qed.
Lemma add_device_wg e s :
  last_wireguard_change_version (Lease.add_device e s) = last_wireguard_change_version s ∧
  wireguard_peer_ip_map (Lease.add_device e s) = wireguard_peer_ip_map s.
Proof. unfold Lease.add_device. by destruct (e_ip e). Qed.

Lemma remove_one_frame s d :
  data_version (Lease.remove_one s d) = data_version s ∧
  last_wireguard_change_version (Lease.remove_one s d) = last_wireguard_change_version s ∧
  wireguard_peer_ip_map (Lease.remove_one s d) = wireguard_peer_ip_map s ∧
  device_map (Lease.remove_one s d) = delete d (device_map s) ∧
  device_ip_map (Lease.remove_one s d) ⊆ device_ip_map s.
Proof.
  unfold Lease.remove_one. destruct (device_map s !! d) as [e|] eqn:E.
  - destruct (e_ip e); simpl; split_and!; try done. apply delete_subseteq.
  - split_and!; try done. by rewrite delete_id.
Qed.

Lemma remove_fold_frame l s :
  data_version (fold_left Lease.remove_one l s) = data_version s ∧
  last_wireguard_change_version (fold_left Lease.remove_one l s) = last_wireguard_change_version s ∧
  device_map (fold_left Lease.remove_one l s) ⊆ device_map s.
Proof.
  revert s. induction l as [|d l IH]; intros s; simpl; [done|].
  destruct (IH (Lease.remove_one s d)) as (-> & -> & Hm).
  destruct (remove_one_frame s d) as (-> & -> & _ & Hd & _). split_and!; [done..|].
  rewrite Hd in Hm. etrans; [exact Hm|apply delete_subseteq].
Qed.

Lemma allocate_evolves req rid now h s r st :
  0 ≤ data_version s < u64_max →
  Lease.allocate_ip net gw req rid now h s = Ok (r, st) → evolves s st.2.
Proof.
  intros Hv H. apply allocate_cases in H. destruct r as [ip old], st as [h' s']. simpl in *.
  pose proof (bump_version s Hv) as Hb.
  destruct H as [e ip He Hip _|e ip He Hip _ Hf|ip old l h' Hr Hc Ho Ha|ip old l h' Hf _ Ho Ha].
  - by eapply touch_evolves.
  - by eapply touch_evolves.
  - eapply touch_evolves with (d := device_id req); rewrite ?add_device_version.
    + destruct old; by rewrite bump_version.
    + rewrite (proj1 (add_device_wg _ _)). by destruct old.
    + rewrite add_device_map. by destruct old.
    + by destruct old.
  - eapply touch_evolves with (d := device_id req); rewrite ?add_device_version.
    + done.
    + by rewrite (proj1 (add_device_wg _ _)).
    + by rewrite add_device_map.
    + done.
Qed.

Lemma evolves_refl s : evolves s s.
Proof. apply shrink_evolves; [lia|by left|done]. Qed.

Lemma offline_evolves c d ip rid now h s :
  0 ≤ data_version s < u64_max → evolves s (Lease.offline_ip c d ip rid now h s).2.
Proof.
  intros Hv. unfold Lease.offline_ip. destruct (device_map s !! d) as [e|]; [|apply evolves_refl].
  destruct (negb _); [apply evolves_refl|]. case_bool_decide; [apply evolves_refl|]. simpl.
  eapply touch_evolves; try done. by apply bump_version.
Qed.

Lemma remove_bump_evolves d s :
  0 ≤ data_version s < u64_max → evolves s (Lease.bump (Lease.remove_one s d)).
Proof.
  intros Hv. destruct (remove_one_frame s d) as (H1 & H2 & _ & H3 & _).
  apply shrink_evolves; [rewrite bump_version; lia|by left|].
  change (device_map (Lease.bump ?x)) with (device_map x). rewrite H3. apply delete_subseteq.
Qed.

Lemma mark_evolves v s s' :
  device_map s' = device_map s → data_version s ≤ v ≤ data_version s + 1 →
  evolves s (Lease.mark_wireguard_change v s').
Proof. intros Hm Hv. apply shrink_evolves; [done|by right|]. simpl. by rewrite Hm. Qed.

Lemma lease_step_evolves st st' :
  0 ≤ data_version st.2 < u64_max → lease_step net gw st st' → evolves st.2 st'.2.
Proof.
  destruct 2; cbn [snd] in *.
  - by eapply allocate_evolves.
  - by apply offline_evolves.
  - unfold Lease.remove_devices. destruct l as [|d l]; [apply evolves_refl|].
    destruct (remove_fold_frame (d :: l) (Lease.bump s)) as (H1 & H2 & H3).
    apply shrink_evolves; [rewrite H1, bump_version; lia|rewrite H2; by left|done].
  - unfold Lease.remove_device_from_memory. destruct (device_map s !! d); [|apply evolves_refl].
    by apply remove_bump_evolves.
  - destruct (release_pre_remove_one d ip rid s) as [->| ->]; [apply evolves_refl|].
    by apply remove_bump_evolves.
  - apply shrink_evolves;
    unfold Lease.prepare_wireguard_peer_ip_reservation in H0; break; (lia || by left).
  - unfold Lease.commit_wireguard_peer_ip_reservation. destruct prev; [|apply evolves_refl].
    destruct (_ && _); [|apply evolves_refl]. apply shrink_evolves; [simpl; lia|by left|done].
  - unfold Lease.rollback_wireguard_peer_ip_reservation.
    destruct (_ && _); [|apply evolves_refl]. apply shrink_evolves; [simpl; lia|by left|done].
  - apply shrink_evolves; [simpl; lia|by left|done].
  - unfold Lease.update_client_latency. destruct (device_ip_map s !! ip) as [d|]; [|apply evolves_refl].
    destruct (device_map s !! d) as [e|] eqn:E; [|apply evolves_refl].
    split; [simpl; lia|by left|]. simpl.
    intros d' e' [[<- <-]|[_ He]]%lookup_insert_Some; right; [by exists e|by exists e'].
  - unfold Lease.update_remote_wireguard_ips. destruct (_ || _); [apply evolves_refl|].
    apply mark_evolves; [done|]. unfold u64_saturating_add. lia.
  - unfold Lease.remove_remote_wireguard_source. destruct (negb _); [apply evolves_refl|].
    apply mark_evolves; [done|]. unfold u64_saturating_add. lia.
  - apply mark_evolves; [done|]. rewrite u64_add_small; lia.
  - apply evolves_refl.
Qed.

(** Any number of steps that the version counter can count. *)
Lemma lease_steps_version n st st' :
  nsteps (lease_step net gw) n st st' → version_inv st.2 →
  data_version st.2 + Z.of_nat n ≤ u64_max →
  version_inv st'.2 ∧ data_version st.2 ≤ data_version st'.2 ≤ data_version st.2 + Z.of_nat n ∧
  (∀ d e', device_map st'.2 !! d = Some e' → e_data_version e' ≤ data_version st.2 →
     ∃ e, device_map st.2 !! d = Some e ∧ e_ip e' = e_ip e ∧
          e_is_connected e' = e_is_connected e ∧ e_data_version e' = e_data_version e).
Proof.
  induction 1 as [st|n st st1 st' Hs Hn IH]; intros Hi Hv.
  { split; [done|]. split; [lia|]. eauto. }
  assert (0 ≤ data_version st.2 < u64_max) as Hb by (pose proof (inv_version _ Hi); lia).
  pose proof (lease_step_evolves _ _ Hb Hs) as He.
  pose proof (evolves_version_inv _ _ He Hi) as Hi1.
  destruct He as [E1 _ E3]. destruct (IH Hi1 ltac:(lia)) as (H1 & H2 & H3).
  split; [done|]. split; [lia|]. intros d e' Hd Hle.
  destruct (H3 d e' Hd ltac:(lia)) as (e1 & He1 & Hip & Hc & Hve).
  destruct (E3 d e1 He1) as [[Hver Hlt]|(e & He & ? & ? & ?)]; [lia|].
  exists e. split_and!; congruence.
Qed.

(** *** The initial state *)

Definition record_ip (r : DeviceRecord) : option Ipv4Addr := r_ip r ≫= ipv4_parse.

(** What the tables of the database promise: an address has one holder. *)
Record db_leases_ok (records : list DeviceRecord) (allocations : list (Ipv4Addr * string)) : Prop := {
  db_unique r1 r2 ip : r1 ∈ records → r2 ∈ records → record_ip r1 = Some ip →
    record_ip r2 = Some ip → r_device_id r1 = r_device_id r2;
  db_disjoint r ip p : r ∈ records → record_ip r = Some ip → (ip, p) ∉ allocations
}.

(** The accumulator after the records [done] of the list. *)
Record loaded (seen : list DeviceRecord) (devices : gmap string DeviceEntry)
    (ips : gmap Ipv4Addr string) (v : Z) : Prop := {
  ld_entry d e : devices !! d = Some e →
    e_device_id e = d ∧ e_data_version e = 0 ∧
    ∃ r, r ∈ seen ∧ r_device_id r = d ∧ e_ip e = record_ip r;
  ld_ips ip d : ips !! ip = Some d →
    usable net gw ip ∧ ∃ r, r ∈ seen ∧ r_device_id r = d ∧ record_ip r = Some ip;
  ld_owner d e ip : devices !! d = Some e → e_ip e = Some ip → usable net gw ip →
    ips !! ip = Some d;
  ld_version : v = 0
}.

Lemma from_record_ret now r h e h' :
  from_record now r h = Ret (e, h') →
  e_device_id e = r_device_id r ∧ e_ip e = record_ip r ∧ e_data_version e = 0.
Proof.
  unfold from_record, record_ip. destruct (arc_new _ h). destruct (i64_to_system_time _); [|done].
  intros [= <- <-]. done.
Qed.

Lemma usable_bool ip :
  net_contains net ip && negb (gw =? ip) = true ↔ usable net gw ip.
Proof.
  unfold usable. rewrite andb_true_iff, negb_true_iff, Z.eqb_neq.
  split; intros [? ?]; split; done || by apply not_eq_sym.
Qed.

Lemma loaded_step seen devices ips v r e :
  (∀ r' ip, r' ∈ seen → record_ip r' = Some ip → record_ip r = Some ip →
     r_device_id r' = r_device_id r) →
  e_device_id e = r_device_id r → e_ip e = record_ip r → e_data_version e = 0 →
  loaded seen devices ips v →
  loaded (seen ++ [r]) (<[e_device_id e := e]> devices)
    (match e_ip e with
     | Some ip => if net_contains net ip && negb (gw =? ip) then <[ip := e_device_id e]> ips else ips
     | None => ips
     end) (Z.max v (e_data_version e)).
Proof.
  intros Hu Hid Hip Hv [L1 L2 L3 L4].
  assert (∀ r', r' ∈ seen → r' ∈ seen ++ [r]) as Hin by (intros; apply elem_of_app; by left).
  assert (r ∈ seen ++ [r]) as Hr by (apply elem_of_app; right; by apply list_elem_of_singleton).
  set (ips' := match e_ip e with Some ip => _ | None => _ end).
  assert (∀ ip d, ips' !! ip = Some d →
    (e_ip e = Some ip ∧ d = e_device_id e ∧ usable net gw ip) ∨ ips !! ip = Some d) as Hi1.
  { intros ip d. unfold ips'. destruct (e_ip e) as [jp|]; [|by right].
    destruct (_ && _) eqn:E; [|by right]. apply usable_bool in E.
    intros [[<- <-]|[_ ?]]%lookup_insert_Some; [by left|by right]. }
  assert (∀ ip, e_ip e = Some ip → usable net gw ip → ips' !! ip = Some (e_device_id e)) as Hi2.
  { intros ip He Hus. unfold ips'. rewrite He. apply usable_bool in Hus. rewrite Hus.
    apply lookup_insert_eq. }
  assert (∀ ip d, ips !! ip = Some d → ips' !! ip = Some d) as Hi3.
  { intros ip d Hd. unfold ips'. destruct (e_ip e) as [jp|] eqn:Ee; [|done].
    destruct (_ && _); [|done]. destruct (decide (jp = ip)) as [->|]; [|by rewrite lookup_insert_ne].
    destruct (L2 _ _ Hd) as (_ & r' & Hr' & <- & Hip'). rewrite lookup_insert_eq, Hid.
    f_equal. symmetry. apply (Hu r' ip); congruence. }
  split; [| | |lia].
  - intros d x [[<- <-]|[_ Hx]]%lookup_insert_Some; [by eauto 10|].
    destruct (L1 _ _ Hx) as (? & ? & r' & ? & ? & ?). eauto 10.
  - intros ip d [(He & -> & Hus)|Hd]%Hi1.
    + split; [done|]. exists r. split; [done|]. split; [done|]. by rewrite <- Hip.
    + destruct (L2 _ _ Hd) as (? & r' & ? & ? & ?). eauto 10.
  - intros d x ip [[<- <-]|[_ Hx]]%lookup_insert_Some Hxi Hus; [by apply Hi2|].
    apply Hi3. by eapply L3.
Qed.

Lemma load_devices_loaded now l seen h devices ips v h' devices' ips' v' :
  (∀ r1 r2 ip, r1 ∈ seen ++ l → r2 ∈ seen ++ l → record_ip r1 = Some ip →
     record_ip r2 = Some ip → r_device_id r1 = r_device_id r2) →
  loaded seen devices ips v →
  Lease.load_devices net gw now l (h, devices, ips, v) = Ret (h', devices', ips', v') →
  loaded (seen ++ l) devices' ips' v'.
Proof.
  revert seen h devices ips v. induction l as [|r l IH]; intros seen h devices ips v Hu Hl Hr;
    cbn [Lease.load_devices] in Hr.
  { simplify_eq. by rewrite app_nil_r. }
  destruct (from_record now r h) as [[e h1]|] eqn:Ef; [|done].
  destruct (from_record_ret _ _ _ _ _ Ef) as (H1 & H2 & H3).
  rewrite cons_middle, app_assoc in Hu |- *. eapply IH; [done| |exact Hr].
  apply loaded_step; try done. intros r' ip Hr' ? ?. apply (Hu r' r ip); try done.
  - apply elem_of_app. left. apply elem_of_app. by left.
  - apply elem_of_app. left. apply elem_of_app. right. by apply list_elem_of_singleton.
Qed.

Lemma load_peers_elem l ip p :
  Lease.load_peers net gw l !! ip = Some p → (ip, p) ∈ l ∧ usable net gw ip.
Proof.
  unfold Lease.load_peers.
  set (f := λ (m : gmap Ipv4Addr string) '(ip, peer_id), _).
  enough (∀ m, fold_left f l m !! ip = Some p →
    (ip, p) ∈ l ∧ usable net gw ip ∨ m !! ip = Some p) as H.
  { intros Hl. destruct (H ∅ Hl) as [?|Hm]; [done|]. by rewrite lookup_empty in Hm. }
  induction l as [|[jp q] l IH]; intros m Hf; simpl in Hf; [by right|].
  destruct (IH _ Hf) as [[Hin Hus]|Hm]; [left; split; [by right|done]|].
  destruct (net_contains net jp && negb (gw =? jp)) eqn:E; [|by right].
  apply usable_bool in E.
  apply lookup_insert_Some in Hm as [[-> ->]|[_ ?]]; [|by right].
  left. split; [by left|done].
Qed.

Lemma initial_inv now records allocations h h' s :
  db_leases_ok records allocations →
  Lease.build_initial_inner_state net gw now records allocations h = Ret (h', s) →
  lease_inv net gw s ∧ version_inv s ∧ data_version s = 0.
Proof.
  intros [Hu Hd]. unfold Lease.build_initial_inner_state.
  destruct (Lease.load_devices _ _ _ _ _) as [[[[h1 devices] ips] v]|] eqn:E; [|done].
  intros [= <- <-].
  destruct (load_devices_loaded now records [] h ∅ ∅ 0 h1 devices ips v Hu) as [L1 L2 L3 L4]; [|done|].
  { split; [intros d e H|intros ip d H|intros d e ip H|done]; by rewrite lookup_empty in H. }
  simpl in L1, L2. subst v. split; [|split; [|done]]; split; simpl; try done.
  - intros d e He. by apply L1.
  - intros ip d Hip. by eapply L2.
  - intros ip d Hip. destruct (L2 _ _ Hip) as (_ & r & Hr & _ & Hri).
    destruct (Lease.load_peers net gw allocations !! ip) as [p|] eqn:Ep; [|done].
    apply load_peers_elem in Ep as [Hp _]. by apply (Hd r ip p) in Hp.
  - intros d e He. destruct (L1 _ _ He) as (_ & -> & _). lia.
Qed.
End LeaseFacts.
End LeaseFacts.

(** ** Abstract specification: a table of leases

    Clients see one table from addresses to their holder.  A transition drops
    some leases and grants at most one address, which was free before. *)

Inductive holder := HDevice (device_id : string) | HPeer (peer_id : string).

Definition lease_table (s : Inner) : gmap Ipv4Addr holder :=
  (HDevice <$> device_ip_map s) ∪ (HPeer <$> wireguard_peer_ip_map s).

Inductive table_step : gmap Ipv4Addr holder → gmap Ipv4Addr holder → Prop :=
| table_drop t t' : t' ⊆ t → table_step t t'
| table_grant t t1 ip x : t1 ⊆ t → t !! ip = None → table_step t (<[ip := x]> t1).

(** States the lease operations reach from a database load in [n] locked
    sections. *)
Definition reachable {NL : Ipv4NetLib} (net : Ipv4Net) (gw : Ipv4Addr) (now : Z)
    (records : list DeviceRecord) (allocations : list (Ipv4Addr * string)) (n : nat)
    (st : heap * Inner) : Prop :=
  ∃ st0, Lease.build_initial_inner_state net gw now records allocations ∅ = Ret st0 ∧
         nsteps (lease_step net gw) n st0 st.

Module TableFacts.
Section TableFacts.
Context {NL : Ipv4NetLib} {NLL : Ipv4NetLaws}.
Context (net : Ipv4Net) (gw : Ipv4Addr) (Hnet : net_network net < u32_max).
Implicit Types (s : Inner) (h : heap).

Lemma table_lookup s ip :
  lease_table s !! ip =
  match device_ip_map s !! ip with
  | Some d => Some (HDevice d)
  | None => HPeer <$> wireguard_peer_ip_map s !! ip
  end.
Proof.
  unfold lease_table. rewrite lookup_union, !lookup_fmap.
  destruct (device_ip_map s !! ip), (wireguard_peer_ip_map s !! ip); done.
Qed.

Lemma table_shrink s s' :
  lease_inv net gw s → device_ip_map s' ⊆ device_ip_map s →
  wireguard_peer_ip_map s' ⊆ wireguard_peer_ip_map s → lease_table s' ⊆ lease_table s.
Proof.
  intros Hi Hd Hw. apply map_subseteq_spec. intros ip x. rewrite !table_lookup.
  destruct (device_ip_map s' !! ip) as [d|] eqn:E1.
  - by rewrite (lookup_weaken _ _ _ _ E1 Hd).
  - destruct (wireguard_peer_ip_map s' !! ip) as [p|] eqn:E2; [|done]. intros [= <-].
    pose proof (lookup_weaken _ _ _ _ E2 Hw) as Hp. rewrite Hp.
    destruct (device_ip_map s !! ip) as [d|] eqn:E3; [|done].
    by rewrite (inv_disjoint _ _ _ Hi _ _ E3) in Hp.
Qed.

Lemma table_insert_device s s1 ip d :
  device_ip_map s1 = <[ip := d]> (device_ip_map s) →
  wireguard_peer_ip_map s1 = wireguard_peer_ip_map s →
  lease_table s1 = <[ip := HDevice d]> (lease_table s).
Proof.
  intros H1 H2. apply map_eq. intros jp. rewrite table_lookup, H1, H2.
  destruct (decide (ip = jp)) as [->|Hne].
  - by rewrite !lookup_insert_eq.
  - by rewrite !lookup_insert_ne, table_lookup by done.
Qed.

Lemma table_insert_peer s s1 ip p :
  device_ip_map s !! ip = None → device_ip_map s1 = device_ip_map s →
  wireguard_peer_ip_map s1 = <[ip := p]> (wireguard_peer_ip_map s) →
  lease_table s1 = <[ip := HPeer p]> (lease_table s).
Proof.
  intros Hn H1 H2. apply map_eq. intros jp. rewrite table_lookup, H1, H2.
  destruct (decide (ip = jp)) as [->|Hne].
  - by rewrite Hn, !lookup_insert_eq.
  - by rewrite !lookup_insert_ne, table_lookup by done.
Qed.

Lemma table_free s ip : LeaseFacts.free_for net gw s ip → lease_table s !! ip = None.
Proof. intros (_ & H1 & H2). by rewrite table_lookup, H1, H2. Qed.

Lemma add_device_ips e ip s :
  e_ip e = Some ip → device_ip_map (Lease.add_device e s) = <[ip := e_device_id e]> (device_ip_map s).
Proof. intros He. unfold Lease.add_device. by rewrite He. Qed.

Lemma grant_device s s1 s' ip d :
  lease_table s1 ⊆ lease_table s → lease_table s !! ip = None →
  device_ip_map s' = <[ip := d]> (device_ip_map s1) →
  wireguard_peer_ip_map s' = wireguard_peer_ip_map s1 →
  table_step (lease_table s) (lease_table s').
Proof.
  intros Hs Hf H1 H2. rewrite (table_insert_device s1 s' ip d H1 H2). by apply table_grant.
Qed.

Lemma allocate_refines req rid now h s r st :
  lease_inv net gw s → Lease.allocate_ip net gw req rid now h s = Ok (r, st) →
  table_step (lease_table s) (lease_table st.2).
Proof.
  intros Hi H. apply LeaseFacts.allocate_cases in H. destruct r as [ip old], st as [h' s']. simpl in *.
  destruct H as [e ip He Hip _|e ip He Hip _ Hf|ip old l h' Hr Hc Ho Ha|ip old l h' Hf _ Ho Ha].
  - by apply table_drop.
  - apply (LeaseFacts.find_available_free net gw Hnet) in Hf.
    by eapply (grant_device s s); [|apply table_free|..].
  - apply LeaseFacts.check_expected_free in Hc.
    set (s1 := match old with Some o => _ | None => _ end).
    apply (grant_device s (Lease.bump s1) _ ip (device_id req)).
    + apply table_shrink; [done|..]; unfold s1; destruct old; simpl; try done. apply delete_subseteq.
    + by apply table_free.
    + by apply add_device_ips.
    + apply (LeaseFacts.add_device_wg _ (Lease.bump s1)).
  - apply (LeaseFacts.find_available_free net gw Hnet) in Hf.
    apply (grant_device s (Lease.bump s) _ ip (device_id req)); [done|by apply table_free|..].
    + by apply add_device_ips.
    + apply (LeaseFacts.add_device_wg _ (Lease.bump s)).
Qed.

Lemma remove_fold_ips l s :
  device_ip_map (fold_left Lease.remove_one l s) ⊆ device_ip_map s ∧
  wireguard_peer_ip_map (fold_left Lease.remove_one l s) = wireguard_peer_ip_map s.
Proof.
  revert s. induction l as [|d l IH]; intros s; simpl; [done|].
  destruct (IH (Lease.remove_one s d)) as [H1 ->].
  destruct (LeaseFacts.remove_one_frame s d) as (_ & _ & -> & _ & H2).
  split; [by etrans|done].
Qed.

(** A reservation either renews the peer's own lease or takes a free address. *)
Lemma prepare_refines p ip s prev s' :
  lease_inv net gw s → Lease.prepare_wireguard_peer_ip_reservation p ip s = Ok (prev, s') →
  table_step (lease_table s) (lease_table s').
Proof.
  intros Hi. unfold Lease.prepare_wireguard_peer_ip_reservation.
  destruct (device_ip_map s !! ip) eqn:Ed; [done|].
  destruct (wireguard_peer_ip_map s !! ip) as [q|] eqn:Ew.
  - case_bool_decide as Hq; [done|]. subst q. intros [= <- <-].
    apply table_drop, table_shrink; [done..|]. simpl. by rewrite insert_id.
  - intros [= <- <-].
    set (s1 := Lease.set_peer_ips _ s). rewrite (table_insert_peer s s1 ip p) by done.
    apply table_grant; [done|]. by rewrite table_lookup, Ed, Ew.
Qed.

Lemma lease_step_refines st st' :
  lease_inv net gw st.2 → lease_step net gw st st' →
  table_step (lease_table st.2) (lease_table st'.2).
Proof.
  assert (∀ s s', lease_inv net gw s → device_ip_map s' ⊆ device_ip_map s →
    wireguard_peer_ip_map s' ⊆ wireguard_peer_ip_map s →
    table_step (lease_table s) (lease_table s')) as Hdrop by (intros; by apply table_drop, table_shrink).
  intros Hi Hs. destruct Hs; cbn [snd] in *.
  - by eapply allocate_refines.
  - apply Hdrop; [done|..]; unfold Lease.offline_ip; break.
  - apply Hdrop; [done|..]; unfold Lease.remove_devices; destruct l as [|d l]; try done.
    + apply (remove_fold_ips (d :: l) (Lease.bump s)).
    + by rewrite (proj2 (remove_fold_ips (d :: l) (Lease.bump s))).
  - unfold Lease.remove_device_from_memory. destruct (device_map s !! d); [|by apply table_drop].
    destruct (LeaseFacts.remove_one_frame s d) as (_ & _ & H1 & _ & H2).
    apply Hdrop; [done|done|]. simpl. by rewrite H1.
  - destruct (LeaseFacts.release_pre_remove_one d ip rid s) as [->| ->]; [by apply table_drop|].
    destruct (LeaseFacts.remove_one_frame s d) as (_ & _ & H1 & _ & H2).
    apply Hdrop; [done|done|]. simpl. by rewrite H1.
  - by eapply prepare_refines.
  - apply Hdrop; [done|..]; unfold Lease.commit_wireguard_peer_ip_reservation;
      destruct prev; try done; destruct (_ && _); try done. apply delete_subseteq.
  - apply Hdrop; [done|..]; unfold Lease.rollback_wireguard_peer_ip_reservation;
      destruct (_ && _); try done. apply delete_subseteq.
  - apply Hdrop; [done|done|]. apply map_filter_subseteq.
  - apply Hdrop; [done|..]; unfold Lease.update_client_latency; break.
  - apply Hdrop; [done|..]; unfold Lease.update_remote_wireguard_ips; by destruct (_ || _).
  - apply Hdrop; [done|..]; unfold Lease.remove_remote_wireguard_source; by destruct (negb _).
  - by apply Hdrop.
  - by apply table_drop.
Qed.

Lemma reachable_inv now records allocations n st :
  LeaseFacts.db_leases_ok records allocations →
  reachable net gw now records allocations n st → lease_inv net gw st.2.
Proof.
  intros Hdb ([h0 s0] & H0 & Hn). destruct (LeaseFacts.initial_inv net gw _ _ _ _ _ _ Hdb H0) as [Hi _].
  change s0 with (h0, s0).2 in Hi. revert Hi. clear H0.
  induction Hn; [done|]. intros Hi. apply IHHn. by eapply LeaseFacts.lease_step_inv.
Qed.

(** *** Reservations *)

(** Each WireGuard peer holds at most one address. *)
Definition peers_single s : Prop := ∀ ip1 ip2 p,
  wireguard_peer_ip_map s !! ip1 = Some p → wireguard_peer_ip_map s !! ip2 = Some p → ip1 = ip2.

Lemma wireguard_peer_ip_Some p ip s :
  Lease.wireguard_peer_ip p s = Some ip → wireguard_peer_ip_map s !! ip = Some p.
Proof.
  intros ([jp q] & Hin & H)%find_map_Some. apply elem_of_map_to_list in Hin.
  case_bool_decide; by simplify_eq.
Qed.

Lemma wireguard_peer_ip_None p s :
  Lease.wireguard_peer_ip p s = None → ∀ ip, wireguard_peer_ip_map s !! ip ≠ Some p.
Proof.
  intros H ip Hip. unfold Lease.wireguard_peer_ip in H. rewrite find_map_None in H.
  apply elem_of_map_to_list in Hip. specialize (H _ Hip). simpl in H.
  by rewrite bool_decide_eq_true_2 in H.
Qed.

Lemma wireguard_peer_ip_single p ip s :
  peers_single s → wireguard_peer_ip_map s !! ip = Some p → Lease.wireguard_peer_ip p s = Some ip.
Proof.
  intros Hs Hp. destruct (Lease.wireguard_peer_ip p s) as [jp|] eqn:E.
  - apply wireguard_peer_ip_Some in E. f_equal. by eapply Hs.
  - by destruct (wireguard_peer_ip_None _ _ E ip).
Qed.

Lemma prepare_Ok p ip s prev s1 :
  Lease.prepare_wireguard_peer_ip_reservation p ip s = Ok (prev, s1) →
  prev = Lease.wireguard_peer_ip p s ∧ device_ip_map s !! ip = None ∧
  device_ip_map s1 = device_ip_map s ∧
  wireguard_peer_ip_map s1 = <[ip := p]> (wireguard_peer_ip_map s) ∧
  (wireguard_peer_ip_map s !! ip = None ∨ wireguard_peer_ip_map s !! ip = Some p).
Proof.
  unfold Lease.prepare_wireguard_peer_ip_reservation.
  destruct (device_ip_map s !! ip) eqn:Ed; [done|].
  destruct (wireguard_peer_ip_map s !! ip) as [q|] eqn:Ew.
  - case_bool_decide as Hq; [done|]. subst q. intros [= <- <-].
    split_and!; try done. by right.
  - intros [= <- <-]. split_and!; try done. by left.
Qed.
End TableFacts.
End TableFacts.

(** ** Theorems *)

Section Theorems.
Context {NL : Ipv4NetLib} {NLL : Ipv4NetLaws}.
Context (net : Ipv4Net) (gw : Ipv4Addr).
Implicit Types (s : Inner) (h : heap).

(** C1: no address conflict.  In every state reached from a database load whose
    addresses have one holder each, by any interleaving of locked sections, two
    devices never hold the same usable address, and no WireGuard peer holds the
    usable address of a device. *)
Theorem address_uniqueness now records allocations n st d1 d2 e1 e2 ip :
  net_network net < u32_max → LeaseFacts.db_leases_ok records allocations →
  reachable net gw now records allocations n st →
  device_map st.2 !! d1 = Some e1 → e_ip e1 = Some ip → usable net gw ip →
  (device_map st.2 !! d2 = Some e2 → e_ip e2 = Some ip → d1 = d2) ∧
  wireguard_peer_ip_map st.2 !! ip = None ∧ lease_table st.2 !! ip = Some (HDevice d1).
Proof.
  intros Hnet Hdb Hr H1 Hip1 Hu.
  pose proof (TableFacts.reachable_inv net gw Hnet _ _ _ _ _ Hdb Hr) as Hi.
  pose proof (inv_owner _ _ _ Hi _ _ _ H1 Hip1 Hu) as Ho.
  split; [|split].
  - intros H2 Hip2. pose proof (inv_owner _ _ _ Hi _ _ _ H2 Hip2 Hu). congruence.
  - by eapply inv_disjoint.
  - by rewrite TableFacts.table_lookup, Ho.
Qed.

(** The automatic address is the lowest host address that is neither the
    gateway's nor leased, and the search fails exactly when there is none. *)
Theorem find_available_ip_spec s :
  net_network net < u32_max →
  (∀ ip, Lease.find_available_ip net gw s = Ok ip ↔
     net_network net < ip < net_broadcast net ∧ ip ≠ gw ∧ lease_table s !! ip = None ∧
     ∀ j, net_network net < j < ip → j = gw ∨ is_Some (lease_table s !! j)) ∧
  (Lease.find_available_ip net gw s = Err IpExhaustion ↔
     ∀ j, net_network net < j < net_broadcast net → j = gw ∨ is_Some (lease_table s !! j)).
Proof.
  intros Hnet.
  assert (∀ j, Lease.taken gw s j = false ↔ j ≠ gw ∧ lease_table s !! j = None) as Hf.
  { intros j. rewrite LeaseFacts.taken_false, TableFacts.table_lookup.
    destruct (device_ip_map s !! j), (wireguard_peer_ip_map s !! j); simpl; intuition congruence. }
  assert (∀ j, Lease.taken gw s j = true ↔ j = gw ∨ is_Some (lease_table s !! j)) as Ht.
  { intros j. specialize (Hf j). destruct (Lease.taken gw s j); split; try done.
    - intros _. destruct (decide (j = gw)); [by left|right].
      destruct (lease_table s !! j); [done|]. by discriminate (proj2 Hf).
    - destruct (proj1 Hf eq_refl) as [? ->]. by intros [?|[? ?]]. }
  split.
  - intros ip. rewrite LeaseFacts.find_available_Ok, Hf by done.
    split; intros (H1 & H2 & H3).
    + destruct H2. split_and!; try done; try lia. intros j Hj. by apply Ht, H3.
    + destruct H3 as [H3 H4]. split_and!; try done; try lia. intros j Hj. by apply Ht, H4.
  - split.
    + intros [_ H]%(LeaseFacts.find_available_Err net gw Hnet) j Hj. by apply Ht, H.
    + intros H. destruct (Lease.find_available_ip net gw s) as [ip|e] eqn:E.
      * apply LeaseFacts.find_available_Ok in E as (Hr & Hfree & _); [|done].
        rewrite (proj2 (Ht ip) (H ip Hr)) in Hfree. done.
      * by apply LeaseFacts.find_available_Err in E as [-> _].
Qed.

(** C22: a successful allocation.  The device is recorded online under the
    session's random id with the returned address; that address is the one it
    already had or one that was usable and free; a new usable address is leased
    to it, no other entry changes, and a refused or absent request falls back to
    the search. *)
Theorem allocate_ip_spec req rid now h s ip old h' s' :
  net_network net < u32_max → lease_inv net gw s →
  Lease.allocate_ip net gw req rid now h s = Ok ((ip, old), (h', s')) →
  ∃ e', device_map s' = <[device_id req := e']> (device_map s) ∧
    e_ip e' = Some ip ∧ e_is_connected e' = true ∧ e_random_id e' = rid ∧
    e_disconnect_time e' = None ∧ e_key_sign e' = key_sign req ∧
    e_data_version e' = data_version s' ∧ lease_inv net gw s' ∧
    (usable net gw ip → lease_table s' !! ip = Some (HDevice (device_id req))) ∧
    ((∃ e, device_map s !! device_id req = Some e ∧ e_ip e = Some ip) ∨
     usable net gw ip ∧ lease_table s !! ip = None) ∧
    wireguard_peer_ip_map s' = wireguard_peer_ip_map s.
Proof.
  intros Hnet Hi H.
  pose proof (LeaseFacts.allocate_lease_inv net gw Hnet _ _ _ _ _ _ _ Hi H) as Hi'. simpl in Hi'.
  apply LeaseFacts.allocate_cases in H. simpl in H.
  enough (∃ e', device_map s' = <[device_id req := e']> (device_map s) ∧
    e_ip e' = Some ip ∧ e_is_connected e' = true ∧ e_random_id e' = rid ∧
    e_disconnect_time e' = None ∧ e_key_sign e' = key_sign req ∧
    e_data_version e' = data_version s' ∧
    ((∃ e, device_map s !! device_id req = Some e ∧ e_ip e = Some ip) ∨
     LeaseFacts.free_for net gw s ip) ∧
    wireguard_peer_ip_map s' = wireguard_peer_ip_map s) as (e' & Hm & Hip & ? & ? & ? & ? & ? & Hf & ?).
  { exists e'. split_and!; try done.
    - intros Hu. rewrite TableFacts.table_lookup.
      assert (device_map s' !! device_id req = Some e') as Hl by (by rewrite Hm, lookup_insert_eq).
      by rewrite (inv_owner _ _ _ Hi' _ _ _ Hl Hip Hu).
    - destruct Hf as [?|Hf]; [by left|right]. split; [apply Hf|by apply (TableFacts.table_free net gw)]. }
  destruct H as [e ip He Hip Hq|e ip He Hip Hq Hf|ip old l h' Hr Hc Ho Ha|ip old l h' Hf _ Ho Ha];
    eexists.
  - split; [reflexivity|]. split_and!; try reflexivity. left. eauto.
  - split; [reflexivity|]. split_and!; try reflexivity. right.
    by apply LeaseFacts.find_available_free.
  - split; [rewrite LeaseFacts.add_device_map; by destruct old|].
    rewrite LeaseFacts.add_device_version, (proj2 (LeaseFacts.add_device_wg _ _)).
    split_and!; try reflexivity; try by destruct old. right. by eapply LeaseFacts.check_expected_free.
  - split; [by rewrite LeaseFacts.add_device_map|].
    rewrite LeaseFacts.add_device_version, (proj2 (LeaseFacts.add_device_wg _ _)).
    split_and!; try reflexivity. right. by apply LeaseFacts.find_available_free.
Qed.

(** Why an allocation fails.  Either every host address is taken and the
    client left the choice to the server, or the client insists on an address
    and the error names the actual obstacle: the gateway, an address outside the
    network, the WireGuard peer or the device that holds it. *)
Theorem allocate_ip_errors req rid now h s err :
  net_network net < u32_max →
  Lease.allocate_ip net gw req rid now h s = Err err →
  (err = IpExhaustion ∧ (ControlMessage.ip req = None ∨ ip_variable req = true) ∧
   ∀ j, net_network net < j < net_broadcast net → j = gw ∨ is_Some (lease_table s !! j)) ∨
  ∃ ip, ControlMessage.ip req = Some ip ∧ ip_variable req = false ∧
    match err with
    | IpIsGateway => ip = gw
    | IpOutsideNetwork => net_contains net ip = false
    | IpUsedByPeer p => wireguard_peer_ip_map s !! ip = Some p
    | IpUsedByDevice n d => ∃ id e, device_ip_map s !! ip = Some id ∧
        device_map s !! id = Some e ∧ e_device_name e = n ∧ e_device_id e = d
    | IpUsedByUnknownDevice => ∃ id, device_ip_map s !! ip = Some id ∧ device_map s !! id = None
    | _ => False
    end.
Proof.
  intros Hnet H.
  assert (∀ e, Lease.find_available_ip net gw s = Err e →
    e = IpExhaustion ∧ ∀ j, net_network net < j < net_broadcast net →
      j = gw ∨ is_Some (lease_table s !! j)) as Hx.
  { intros e He. apply (LeaseFacts.find_available_Err net gw Hnet) in He as [-> He].
    split; [done|]. intros j Hj. specialize (He j Hj). rewrite TableFacts.table_lookup.
    unfold Lease.taken in He. destruct (Z.eqb_spec j gw); [by left|right].
    destruct (device_ip_map s !! j), (wireguard_peer_ip_map s !! j); simpl in *; eauto. done. }
  unfold Lease.allocate_ip in H. set (fresh_device := mbind _ _) in H.
  assert (fresh_device = Err err ∨ (ControlMessage.ip req = None ∧ Lease.find_available_ip net gw s = Err err))
    as [Hf|[Hr Hf]].
  { destruct (device_map s !! device_id req) as [e|] eqn:E; [|by left].
    destruct (negb _ || _) eqn:Em; [|by left]. right.
    destruct (e_ip e) as [c|] eqn:Ee; [done|].
    destruct (Lease.find_available_ip net gw s); cbn [mbind result_bind] in H; simplify_eq.
    split; [|done]. destruct (ControlMessage.ip req); [|done]. simpl in Em. bool_simpl. done. }
  2: { left. destruct (Hx _ Hf). auto. }
  unfold fresh_device in Hf. clear H fresh_device. destruct (arc_new Traffic.new h).
  destruct (ControlMessage.ip req) as [ip|] eqn:Eip; cbn [mbind result_bind] in Hf.
  2: { destruct (Lease.find_available_ip net gw s) eqn:Ef; cbn [mbind result_bind] in Hf; simplify_eq.
       left. destruct (Hx _ eq_refl). auto. }
  destruct (Lease.check_expected _ _ _ _ _) as [[]|e] eqn:Ec; cbn [mbind result_bind] in Hf; [done| |].
  - destruct (Lease.find_available_ip net gw s) eqn:Ef; cbn [mbind result_bind] in Hf; simplify_eq.
    left. destruct (Hx _ eq_refl). split_and!; try done. right.
    unfold Lease.check_expected in Ec. by destruct (ip_variable req); [|break].
  - simplify_eq. right. exists ip. unfold Lease.check_expected in Ec.
    destruct (ip_variable req); [break|]. split_and!; [done..|].
    destruct (Z.eqb_spec ip gw); [by simplify_eq|].
    destruct (net_contains net ip) eqn:En; simpl in Ec; [|by simplify_eq].
    destruct (wireguard_peer_ip_map s !! ip) eqn:Ew; [by simplify_eq|].
    destruct (device_ip_map s !! ip) as [id|] eqn:Ed; [|done]. simplify_eq.
    destruct (device_map s !! id) eqn:Em; eauto 10.
Qed.

(** C3: the lease state implements the lease table.  Every locked section from
    a consistent state is one transition of the table: it drops leases and
    grants at most one address, which was free; so no lease passes from one
    holder to another in a step. *)
Theorem lease_table_refinement st st' :
  net_network net < u32_max → lease_inv net gw st.2 → lease_step net gw st st' →
  lease_inv net gw st'.2 ∧ table_step (lease_table st.2) (lease_table st'.2) ∧
  (∀ ip x y, lease_table st.2 !! ip = Some x → lease_table st'.2 !! ip = Some y → x = y).
Proof.
  intros Hnet Hi Hs. split; [by eapply LeaseFacts.lease_step_inv|].
  pose proof (TableFacts.lease_step_refines net gw Hnet _ _ Hi Hs) as Ht. split; [done|].
  intros ip x y Hx Hy. destruct Ht as [t t' Hsub|t t1 jp z Hsub Hnone].
  - pose proof (lookup_weaken _ _ _ _ Hy Hsub). congruence.
  - apply lookup_insert_Some in Hy as [[-> ->]|[_ Hy]]; [congruence|].
    pose proof (lookup_weaken _ _ _ _ Hy Hsub). congruence.
Qed.

(** A locked section that leaves the peers' addresses alone, as all sections of
    other tasks do while the holder of the update lock awaits the database. *)
Definition vnt_section (st st' : heap * Inner) : Prop :=
  lease_step net gw st st' ∧ wireguard_peer_ip_map st'.2 = wireguard_peer_ip_map st.2.

(** C13: the reservation protocol.  Between [prepare] and the answer of the
    database other tasks may run any locked sections on devices.  Whatever they
    do, no device gets the reserved address; if the write fails, [rollback]
    restores the peers' addresses exactly; if it succeeds, [commit] leaves the
    peer with the new address only and every other peer as it was. *)
Theorem reservation_protocol p ip s prev h1 s1 h2 s2 :
  net_network net < u32_max → lease_inv net gw s → TableFacts.peers_single s →
  Lease.prepare_wireguard_peer_ip_reservation p ip s = Ok (prev, s1) →
  rtc vnt_section (h1, s1) (h2, s2) →
  device_ip_map s2 !! ip = None ∧
  wireguard_peer_ip_map (Lease.rollback_wireguard_peer_ip_reservation p ip prev s2)
    = wireguard_peer_ip_map s ∧
  (∀ jp, wireguard_peer_ip_map (Lease.commit_wireguard_peer_ip_reservation p ip prev s2) !! jp =
     if decide (jp = ip) then Some p
     else if decide (wireguard_peer_ip_map s !! jp = Some p) then None
     else wireguard_peer_ip_map s !! jp).
Proof.
  intros Hnet Hi Hsg Hp Hr.
  pose proof (LeaseFacts.prepare_lease_inv net gw _ _ _ _ _ Hi Hp) as Hi1.
  apply TableFacts.prepare_Ok in Hp as (-> & _ & _ & Hw1 & Hfree).
  assert (lease_inv net gw s2 ∧ wireguard_peer_ip_map s2 = <[ip := p]> (wireguard_peer_ip_map s)) as [Hi2 Hw2].
  { assert (∀ a b, rtc vnt_section a b → lease_inv net gw a.2 →
      lease_inv net gw b.2 ∧ wireguard_peer_ip_map b.2 = wireguard_peer_ip_map a.2) as Hrt.
    { induction 1 as [a|a b c [Hs Hw] _ IH]; intros Ha; [done|].
      destruct (IH (LeaseFacts.lease_step_inv net gw Hnet _ _ Hs Ha)). split; congruence. }
    destruct (Hrt _ _ Hr Hi1) as [? Hw]. simpl in *. split; congruence. }
  split.
  { destruct (device_ip_map s2 !! ip) as [d|] eqn:E; [|done].
    apply (inv_disjoint _ _ _ Hi2) in E. rewrite Hw2, lookup_insert_eq in E. done. }
  split.
  - unfold Lease.rollback_wireguard_peer_ip_reservation.
    rewrite Hw2, lookup_insert_eq, (bool_decide_eq_true_2 (Some p = Some p)) by done.
    rewrite andb_true_r. case_bool_decide as Hne.
    + simpl. rewrite ?Hw2. apply delete_insert_id. destruct Hfree as [|Hp]; [done|].
      destruct Hne. by apply TableFacts.wireguard_peer_ip_single.
    + rewrite Hw2. apply insert_id. by apply TableFacts.wireguard_peer_ip_Some.
  - intros jp. unfold Lease.commit_wireguard_peer_ip_reservation.
    destruct (Lease.wireguard_peer_ip p s) as [q|] eqn:Eq.
    + pose proof (TableFacts.wireguard_peer_ip_Some _ _ _ Eq) as Hq. rewrite Hw2.
      destruct (decide (q = ip)) as [->|Hqi].
      * rewrite (bool_decide_eq_false_2 (ip ≠ ip)) by auto. simpl. rewrite ?Hw2.
        destruct (decide (jp = ip)) as [->|Hj]; [by rewrite lookup_insert_eq|].
        rewrite lookup_insert_ne by done. destruct (decide _) as [Hjp|]; [|done].
        by destruct Hj; eapply Hsg.
      * rewrite lookup_insert_ne, !bool_decide_eq_true_2 by done. simpl. rewrite ?Hw2.
        destruct (decide (jp = ip)) as [->|Hj]; [by rewrite lookup_delete_ne, lookup_insert_eq|].
        destruct (decide (jp = q)) as [->|Hjq].
        -- rewrite lookup_delete_eq. by destruct (decide _).
        -- rewrite lookup_delete_ne, lookup_insert_ne by done.
           destruct (decide _) as [Hjp|]; [|done]. by destruct Hjq; eapply Hsg.
    + rewrite Hw2. destruct (decide (jp = ip)) as [->|Hj]; [by rewrite lookup_insert_eq|].
      rewrite lookup_insert_ne by done. destruct (decide _) as [Hjp|]; [|done].
      by destruct (TableFacts.wireguard_peer_ip_None _ _ Eq jp).
Qed.

(** The automatic fallback leaks the old lease.  When a device that holds
    [old] asks for another address, is refused and lets the server choose, it
    gets a new address while [old] stays leased to it, and stays leased after
    the device itself is removed. *)
Theorem fallback_leaks_old_lease req rid now h s e old ip0 ip o h' s' :
  net_network net < u32_max → lease_inv net gw s →
  device_map s !! device_id req = Some e → e_ip e = Some old → usable net gw old →
  ControlMessage.ip req = Some ip0 → ip0 ≠ old →
  Lease.check_expected net gw (ip_variable req) ip0 s = Ok false →
  Lease.allocate_ip net gw req rid now h s = Ok ((ip, o), (h', s')) →
  ip ≠ old ∧ lease_table s' !! old = Some (HDevice (device_id req)) ∧
  let s'' := Lease.remove_one s' (device_id req) in
  device_map s'' !! device_id req = None ∧
  lease_table s'' !! old = Some (HDevice (device_id req)).
Proof.
  intros Hnet Hi He Hold Hu Hr Hne Hc H.
  pose proof (inv_owner _ _ _ Hi _ _ _ He Hold Hu) as Ho.
  apply LeaseFacts.allocate_cases in H. simpl in H.
  destruct H as [x ip Hx Hip [?|?]|x ip Hx Hip ?|ip o l h' Hr' Hc'|ip o l h' Hf _ Ho' Ha]; [congruence..|].
  apply (LeaseFacts.find_available_free net gw Hnet) in Hf as (_ & Hf & _).
  assert (ip ≠ old) as Hio by congruence. clear Ho' Ha Hc.
  set (x := Lease.new_entry req ip rid now _ l).
  assert (device_ip_map (Lease.add_device x (Lease.bump s)) !! old = Some (device_id req)) as Hl.
  { rewrite (TableFacts.add_device_ips x ip) by done. by rewrite lookup_insert_ne. }
  split; [done|]. split; [by rewrite TableFacts.table_lookup, Hl|]. cbn zeta.
  assert (device_map (Lease.add_device x (Lease.bump s)) !! device_id req = Some x) as Hx.
  { rewrite LeaseFacts.add_device_map. apply lookup_insert_eq. }
  unfold Lease.remove_one. rewrite Hx, TableFacts.table_lookup. cbn [e_ip x Lease.new_entry].
  simpl. rewrite lookup_delete_eq. split; [done|]. rewrite lookup_delete_ne by done.
  by rewrite lookup_insert_ne, Ho.
Qed.

(** A device survives a restart.  Saving an entry and loading it back keeps
    its id, address, name, version and traffic counters; the connect time is
    rounded down to the second and the device comes back offline. *)
Theorem device_record_roundtrip code e h now h0 :
  (∀ ip, e_ip e = Some ip → is_u 32 ip) →
  is_u 64 (tx (arc_get (e_traffic_stats e) h)) → is_u 64 (rx (arc_get (e_traffic_stats e) h)) →
  0 ≤ e_last_connect_time e < i64_max * nanos →
  ∃ e' h1, from_record now (to_record code e h) h0 = Ret (e', h1) ∧
    e_device_id e' = e_device_id e ∧ e_ip e' = e_ip e ∧
    e_device_name e' = e_device_name e ∧ e_device_version e' = e_device_version e ∧
    arc_get (e_traffic_stats e') h1 = arc_get (e_traffic_stats e) h ∧
    e_is_connected e' = false ∧ e_disconnect_time e' = Some now ∧
    e_last_connect_time e' = as_secs (e_last_connect_time e) * nanos.
Proof.
  intros Hip Htx Hrx Ht. unfold from_record, to_record, arc_new. cbn [r_ip r_rx_bytes r_tx_bytes r_last_connect_time].
  set (l := fresh (dom h0)).
  set (sec := as_secs (e_last_connect_time e)).
  assert (0 ≤ sec ≤ i64_max) as Hsec.
  { unfold sec, as_secs. split; [apply Z.div_pos; unfold nanos in *; lia|].
    apply Z.lt_le_incl, Z.div_lt_upper_bound; unfold nanos in *; lia. }
  assert (system_time_to_i64 (e_last_connect_time e) = sec) as ->.
  { unfold system_time_to_i64. destruct (Z.ltb_spec (e_last_connect_time e) 0); [lia|].
    fold sec. unfold u64_as_i64. by rewrite (proj2 (Z.leb_le _ _)) by lia. }
  assert (i64_to_system_time sec = Ret (sec * nanos)) as ->.
  { unfold i64_to_system_time, system_time_add, from_secs, i64_as_u64.
    rewrite wrap_small by (unfold is_u, i64_max in *; lia). rewrite Z.add_0_l, Z.div_mul by done.
    by rewrite (proj2 (Z.leb_le _ _)) by lia. }
  eexists _, _. split; [reflexivity|]. cbn [e_device_id e_ip e_device_name e_device_version
    e_is_connected e_disconnect_time e_last_connect_time e_traffic_stats r_device_id r_device_name r_device_version].
  split_and!; try done.
  - destruct (e_ip e) as [ip|] eqn:E; [|done]. simpl. by apply StdFacts.ipv4_parse_to_string, Hip.
  - unfold arc_get at 1. rewrite lookup_insert_eq. cbn [default Traffic.set_rx Traffic.set_tx].
    unfold Traffic.set_rx, Traffic.set_tx. cbn [tx rx Traffic.new].
    rewrite !u64_i64_roundtrip by done. by destruct (arc_get (e_traffic_stats e) h).
Qed.
End Theorems.

(** ** Witnesses *)

Module LeaseWitness.
Import Model.

Definition net24 : Ipv4Net := mkCidr (ipv4 10 26 0 0) 24 eq_refl.
Definition gw : Ipv4Addr := ipv4 10 26 0 1.
Definition host (n : Z) : Ipv4Addr := ipv4 10 26 0 n.

(** The database knows one device at .2 and one WireGuard peer at .9. *)
Definition records : list DeviceRecord :=
  [mkDeviceRecord "a" "net" (Some "10.26.0.2"%string) "A" "2.0" 1700000000 7 9].
Definition allocations : list (Ipv4Addr * string) := [(host 9, "p"%string)].

Definition req (id : string) (ip : option Ipv4Addr) (variable : bool) : RegRequestMsg :=
  mkRegRequestMsg "net" id ip "host" "2.0" None variable 0 Normal false None 0.

Definition empty : heap * Inner := (∅, mkInner 0 0 ∅ ∅ ∅ ∅).
Definition init : heap * Inner :=
  match Lease.build_initial_inner_state net24 gw 5 records allocations ∅ with
  | Ret st => st | Panic => empty end.
Definition alloc (r : RegRequestMsg) (st : heap * Inner) :=
  Lease.allocate_ip net24 gw r 42 1000 st.1 st.2.
Definition after {A} (r : result LeaseError (A * (heap * Inner))) : heap * Inner :=
  match r with Ok (_, st) => st | Err _ => empty end.
(** A second device asks for no address in particular. *)
Definition st1 : heap * Inner := after (alloc (req "b" None false) init).

Lemma net24_ok : net_network net24 < u32_max.
Proof. reflexivity. Defined.

Lemma db_ok : LeaseFacts.db_leases_ok records allocations.
Proof.
  split.
  - intros r1 r2 ip ->%list_elem_of_singleton ->%list_elem_of_singleton. done.
  - intros r ip p ->%list_elem_of_singleton Hr. vm_compute in Hr. injection Hr as <-.
    unfold allocations. intros H%list_elem_of_singleton. discriminate H.
Defined.

Lemma init_eq : Lease.build_initial_inner_state net24 gw 5 records allocations ∅ = Ret init.
Proof. vm_compute. reflexivity. Defined.

Lemma init_inv : lease_inv net24 gw init.2.
Proof. refine (proj1 (LeaseFacts.initial_inv net24 gw 5 records allocations ∅ init.1 init.2 db_ok _)). by rewrite init_eq; destruct init. Defined.

Lemma st1_eq : alloc (req "b" None false) init = Ok ((host 3, None), st1).
Proof. vm_compute. reflexivity. Defined.

Lemma st1_step : lease_step net24 gw init st1.
Proof.
  pose proof st1_eq as H. unfold alloc in H. destruct init as [h s].
  by eapply step_allocate.
Defined.

Lemma st1_reachable : reachable net24 gw 5 records allocations 1 st1.
Proof.
  exists init. split; [apply init_eq|]. eapply nsteps_l; [apply st1_step|apply nsteps_O].
Defined.

(** The entry of "b" after its registration, and of "a". *)
Definition entry (id : string) (st : heap * Inner) : DeviceEntry :=
  default (mkDeviceEntry "" None 0 "" "" false 0 None 0 None None 1) (device_map st.2 !! id).

Lemma address_uniqueness_witness :
  wireguard_peer_ip_map st1.2 !! host 3 = None ∧ lease_table st1.2 !! host 3 = Some (HDevice "b").
Proof.
  apply (address_uniqueness net24 gw 5 records allocations 1 st1 "b" "a" (entry "b" st1)
    (entry "a" st1) (host 3) net24_ok db_ok st1_reachable).
  - vm_compute. reflexivity.
  - vm_compute. reflexivity.
  - split; [vm_compute; reflexivity|done].
Defined.

Lemma find_available_ip_spec_witness :
  Lease.find_available_ip net24 gw st1.2 = Ok (host 4) ∧ lease_table st1.2 !! host 4 = None.
Proof.
  assert (Lease.find_available_ip net24 gw st1.2 = Ok (host 4)) as H by (vm_compute; reflexivity).
  split; [exact H|]. by apply (find_available_ip_spec net24 gw st1.2 net24_ok) in H as (_ & _ & ? & _).
Defined.

Lemma allocate_ip_spec_witness :
  lease_inv net24 gw st1.2 ∧ lease_table init.2 !! host 3 = None.
Proof.
  pose proof st1_eq as H. unfold alloc in H.
  destruct (allocate_ip_spec net24 gw (req "b" None false) 42 1000 init.1 init.2 (host 3) None
    st1.1 st1.2 net24_ok init_inv) as (e & _ & _ & _ & _ & _ & _ & _ & Hi & _ & _ & _).
  { rewrite H. by destruct st1. }
  split; [exact Hi|vm_compute; reflexivity].
Defined.

Lemma allocate_ip_errors_witness :
  alloc (req "b" (Some (host 9)) false) init = Err (IpUsedByPeer "p") ∧
  ∃ ip, ControlMessage.ip (req "b" (Some (host 9)) false) = Some ip ∧
        wireguard_peer_ip_map init.2 !! ip = Some "p"%string.
Proof.
  assert (alloc (req "b" (Some (host 9)) false) init = Err (IpUsedByPeer "p")) as H
    by (vm_compute; reflexivity).
  split; [exact H|].
  destruct (allocate_ip_errors net24 gw _ 42 1000 init.1 init.2 _ net24_ok H)
    as [[? _]|(ip & ? & _ & ?)]; [done|]. by exists ip.
Defined.

Lemma lease_table_refinement_witness :
  table_step (lease_table init.2) (lease_table st1.2).
Proof. apply (lease_table_refinement net24 gw init st1 net24_ok init_inv st1_step). Defined.

(** Peer "p" moves from .9 to .7 while device "b" registers. *)
Definition prep : option Ipv4Addr * Inner :=
  match Lease.prepare_wireguard_peer_ip_reservation "p" (host 7) init.2 with
  | Ok r => r | Err _ => (None, empty.2) end.
Definition st2 : heap * Inner := after (alloc (req "b" None false) (init.1, prep.2)).

Lemma reservation_protocol_witness :
  wireguard_peer_ip_map (Lease.rollback_wireguard_peer_ip_reservation "p" (host 7) prep.1 st2.2)
    = wireguard_peer_ip_map init.2 ∧
  wireguard_peer_ip_map (Lease.commit_wireguard_peer_ip_reservation "p" (host 7) prep.1 st2.2)
    !! host 7 = Some "p"%string.
Proof.
  assert (Lease.prepare_wireguard_peer_ip_reservation "p" (host 7) init.2 = Ok (prep.1, prep.2)) as Hp
    by (vm_compute; reflexivity).
  assert (TableFacts.peers_single init.2) as Hs.
  { assert (wireguard_peer_ip_map init.2 = {[ host 9 := "p"%string ]}) as Hw by (vm_compute; reflexivity).
    intros ip1 ip2 p. rewrite Hw.
    intros [? _]%lookup_singleton_Some [? _]%lookup_singleton_Some. congruence. }
  assert (rtc (vnt_section net24 gw) (init.1, prep.2) (st2.1, st2.2)) as Hr.
  { apply rtc_once. split; [|vm_compute; reflexivity].
    apply (step_allocate net24 gw (req "b" None false) 42 1000 init.1 prep.2 (host 3, None)).
    vm_compute. reflexivity. }
  destruct (reservation_protocol net24 gw "p" (host 7) init.2 prep.1 init.1 prep.2 st2.1 st2.2
    net24_ok init_inv Hs Hp Hr) as (_ & H1 & H2).
  split; [exact H1|]. rewrite H2. vm_compute. reflexivity.
Defined.

Definition st3 : heap * Inner := after (alloc (req "a" (Some (host 9)) true) init).

Lemma fallback_leaks_old_lease_witness :
  lease_table (Lease.remove_one st3.2 "a") !! host 2 = Some (HDevice "a").
Proof.
  apply (fallback_leaks_old_lease net24 gw (req "a" (Some (host 9)) true) 42 1000 init.1 init.2
    (entry "a" init) (host 2) (host 9) (host 3) (Some (host 2)) st3.1 st3.2 net24_ok init_inv);
    try (vm_compute; reflexivity).
  - split; [vm_compute; reflexivity|done].
  - done.
Defined.

Lemma device_record_roundtrip_witness :
  ∃ e' h1, from_record 9 (to_record "net" (entry "a" init) init.1) ∅ = Ret (e', h1) ∧
    e_ip e' = Some (host 2).
Proof.
  destruct (device_record_roundtrip "net" (entry "a" init) init.1 9 ∅)
    as (e' & h1 & H & _ & Hip & _).
  - intros ip Hip. vm_compute in Hip. injection Hip as <-. apply (bool_decide_eq_true_1 _). reflexivity.
  - apply (bool_decide_eq_true_1 _). vm_compute. reflexivity.
  - apply (bool_decide_eq_true_1 _). vm_compute. reflexivity.
  - apply (bool_decide_eq_true_1 _). vm_compute. reflexivity.
  - exists e', h1. split; [exact H|]. rewrite Hip. vm_compute. reflexivity.
Defined.
End LeaseWitness.
