(* ===== verification/NetState.v ===== *)
(** One virtual network: [NetworkState] of [server/network_state_provider.rs].

    The lease state of [Lease], the queues and endpoints of the clients that are
    online, the traffic counters, and the delivery of packets to a client.
    [W] is the state of all message queues.  An [await] on the database gives
    other tasks a turn: it is a function from the shared state to the result of
    the query and the state it resumes in. *)

From S2P Require Import Prelude Libs Std Packet ControlMessage Bridge Lease.
From stdpp Require Import base gmap strings list.
From Stdlib Require Import ZArith Lia.

Local Open Scope Z_scope.

Record WireGuardP2pEndpoint := mkWireGuardP2pEndpoint { p2p_public_key : bytes; p2p_endpoint : SocketAddr }.

Inductive OnlineEndpoint :=
| EpVnt (random_id : Z) (allow_wireguard : bool) (client_capabilities : Z) (confirmed : bool)
    (wireguard_p2p : option WireGuardP2pEndpoint)
| EpWireGuard (peer_id : string) (connected_at : Z).

Inductive LocalDeliveryResult := Delivered | NotFound | Rejected | Full | Closed.
#[export] Instance LocalDeliveryResult_eq_dec : EqDecision LocalDeliveryResult.
Proof. solve_decision. Defined.

Record WireGuardBridgePacket := mkWireGuardBridgePacket { bp_network_code : string; bp_data : bytes }.

Inductive NetworkSendError := SendFull | SendClosed.

Record DashboardTrafficSnapshot := mkDashboardTrafficSnapshot {
  tx_bytes_total : Z; rx_bytes_total : Z; wireguard_drops_total : Z }.
Record DashboardEndpointSnapshot := mkDashboardEndpointSnapshot {
  vnt_online : Z; wireguard_online : Z }.

(** [rpc_message::ClientInfo]. *)
Record ClientInfo := mkClientInfo {
  cinfo_name : string; cinfo_version : string; cinfo_ip : Z; cinfo_key_sign : option string;
  cinfo_online : bool; cinfo_last_connected_time : Z; cinfo_id : string; cinfo_node_type : Z }.

Inductive NetError := LeaseErr (e : LeaseError) | DbErr | BlankPeerId | PeerVanished | RevokeErr.

(** What an administrator sees of a device ([service::DeviceInfoVO]). *)
Record DeviceInfoVO := mkDeviceInfoVO {
  vo_device_id : string; vo_device_name : string; vo_device_version : string;
  vo_ip : option Ipv4Addr; vo_status : string; vo_last_connect_time : string;
  vo_disconnect_time : option string; vo_latency_ms : option Z; vo_server_addr : option string;
  vo_tx_bytes : Z; vo_rx_bytes : Z }.

(** [db::WireGuardPeerRecord] and [db::WireGuardPeerDeleteResult]. *)
Record WireGuardPeerRecord := mkWireGuardPeerRecord {
  wp_network_code : string; wp_peer_id : string; wp_public_key : bytes;
  wp_enabled : bool; wp_created_at : Z; wp_updated_at : Z }.
Record WireGuardPeerDeleteResult := mkWireGuardPeerDeleteResult {
  peer_removed : bool; ip_released : bool }.

Section NetworkState.
Context {NL : Ipv4NetLib} {PL : PnetLib} {U32 : NetU32Lib}.
Context {W : Type} {MV : Mpsc W bytes} {MW : Mpsc W WireGuardBridgePacket}.

Inductive NetworkSender :=
| SVnt (sender : mpsc_sender W bytes)
| SWireGuard (network_code : string) (sender : mpsc_sender W WireGuardBridgePacket).

Definition sender_try_send (s : NetworkSender) (data : bytes) (w : W)
    : option NetworkSendError * W :=
  let map_err e := match e with TrySendFull => SendFull | TrySendClosed => SendClosed end in
  match s with
  | SVnt sender => let '(r, w) := mpsc_try_send sender data w in (map_err <$> r, w)
  | SWireGuard code sender =>
      let '(r, w) := mpsc_try_send sender (mkWireGuardBridgePacket code data) w in
      (map_err <$> r, w)
  end.

Record NetworkState := mkNetworkState {
  ns_time : Z;
  ns_network_code : string;
  ns_gateway : Ipv4Addr;
  ns_net : Ipv4Net;
  ns_lease_duration : Z;
  sender_map : gmap Ipv4Addr NetworkSender;
  online_endpoints : gmap Ipv4Addr OnlineEndpoint;
  wireguard_backpressure_drops : gmap Ipv4Addr Z;
  lease_state : Inner;
  stats_heap : heap;
  traffic_stats_map : gmap Ipv4Addr positive;
  dashboard_traffic : TrafficStats;
  dashboard_wireguard_drops : Z
}.

(** Field updates. *)
Definition with_time (t : Z) (s : NetworkState) : NetworkState :=
  mkNetworkState t (ns_network_code s) (ns_gateway s) (ns_net s) (ns_lease_duration s)
    (sender_map s) (online_endpoints s) (wireguard_backpressure_drops s) (lease_state s)
    (stats_heap s) (traffic_stats_map s) (dashboard_traffic s) (dashboard_wireguard_drops s).
Definition with_endpoints (m : gmap Ipv4Addr NetworkSender) (o : gmap Ipv4Addr OnlineEndpoint)
    (d : gmap Ipv4Addr Z) (s : NetworkState) : NetworkState :=
  mkNetworkState (ns_time s) (ns_network_code s) (ns_gateway s) (ns_net s) (ns_lease_duration s)
    m o d (lease_state s) (stats_heap s) (traffic_stats_map s) (dashboard_traffic s)
    (dashboard_wireguard_drops s).
Definition with_lease (h : heap) (i : Inner) (s : NetworkState) : NetworkState :=
  mkNetworkState (ns_time s) (ns_network_code s) (ns_gateway s) (ns_net s) (ns_lease_duration s)
    (sender_map s) (online_endpoints s) (wireguard_backpressure_drops s) i h
    (traffic_stats_map s) (dashboard_traffic s) (dashboard_wireguard_drops s).
Definition with_stats_map (m : gmap Ipv4Addr positive) (s : NetworkState) : NetworkState :=
  mkNetworkState (ns_time s) (ns_network_code s) (ns_gateway s) (ns_net s) (ns_lease_duration s)
    (sender_map s) (online_endpoints s) (wireguard_backpressure_drops s) (lease_state s)
    (stats_heap s) m (dashboard_traffic s) (dashboard_wireguard_drops s).
Definition with_dashboard (t : TrafficStats) (d : Z) (s : NetworkState) : NetworkState :=
  mkNetworkState (ns_time s) (ns_network_code s) (ns_gateway s) (ns_net s) (ns_lease_duration s)
    (sender_map s) (online_endpoints s) (wireguard_backpressure_drops s) (lease_state s)
    (stats_heap s) (traffic_stats_map s) t d.
Definition with_inner (i : Inner) (s : NetworkState) : NetworkState := with_lease (stats_heap s) i s.

(** [self.sender_map.remove(&ip); self.online_endpoints.remove(&ip);
    self.traffic_stats_map.remove(&ip);] *)
Definition forget_ip (ip : Ipv4Addr) (s : NetworkState) : NetworkState :=
  with_stats_map (delete ip (traffic_stats_map s))
    (with_endpoints (delete ip (sender_map s)) (delete ip (online_endpoints s))
      (wireguard_backpressure_drops s) s).

Definition update_time (now : Z) (s : NetworkState) : NetworkState := with_time now s.

(** [new_from_db]; [records] and [allocations] are the answers of the database. *)
Definition new_from_db (network_code : string) (net : Ipv4Net) (lease_duration now instant : Z)
    (records : list DeviceRecord) (allocations : list (Ipv4Addr * string)) (h : heap)
    : outcome NetworkState :=
  let gateway := u32_add (net_network net) 1 in
  match Lease.build_initial_inner_state net gateway now records allocations h with
  | Panic => Panic
  | Ret (h, inner) =>
      Ret (mkNetworkState instant network_code gateway net lease_duration ∅ ∅ ∅ inner h ∅
             Traffic.new 0)
  end.

(** ** Endpoints *)

Definition is_wireguard (e : OnlineEndpoint) : bool :=
  match e with EpWireGuard _ _ => true | EpVnt _ _ _ _ _ => false end.

Definition is_wireguard_endpoint (ip : Ipv4Addr) (s : NetworkState) : bool :=
  match online_endpoints s !! ip with Some e => is_wireguard e | None => false end.

Definition update_remote_wireguard_ips (now : Z) (source : string) (ips : gset Ipv4Addr)
    (s : NetworkState) : bool * NetworkState :=
  let '(changed, i) := Lease.update_remote_wireguard_ips source ips (lease_state s) in
  if changed then (true, update_time now (with_inner i s)) else (false, s).

Definition remove_remote_wireguard_source (now : Z) (source : string) (s : NetworkState)
    : bool * NetworkState :=
  let '(changed, i) := Lease.remove_remote_wireguard_source source (lease_state s) in
  if changed then (true, update_time now (with_inner i s)) else (false, s).

Definition wireguard_p2p_endpoint (ip : Ipv4Addr) (s : NetworkState) : option WireGuardP2pEndpoint :=
  match online_endpoints s !! ip with
  | Some (EpVnt _ true _ true (Some p2p)) => Some p2p
  | _ => None
  end.

Definition connect_wireguard_peer (now wall : Z) (peer_id : string) (ip : Ipv4Addr)
    (sender : mpsc_sender W WireGuardBridgePacket) (s : NetworkState) : bool * NetworkState :=
  if negb (bool_decide (wireguard_peer_ip_map (lease_state s) !! ip = Some peer_id))
     || is_some (sender_map s !! ip) || is_some (online_endpoints s !! ip)
  then (false, s)
  else
    let i := lease_state s in
    (true, update_time now
      (with_inner (Lease.mark_wireguard_change (u64_add (data_version i) 1) i)
        (with_endpoints
          (<[ip := SWireGuard (ns_network_code s) sender]> (sender_map s))
          (<[ip := EpWireGuard peer_id (system_time_to_i64 wall)]> (online_endpoints s))
          (<[ip := 0]> (wireguard_backpressure_drops s)) s))).

Definition disconnect_wireguard_peer (now : Z) (peer_id : string) (ip : Ipv4Addr)
    (s : NetworkState) : bool * NetworkState :=
  let matches_peer := match online_endpoints s !! ip with
                      | Some (EpWireGuard active _) => bool_decide (active = peer_id)
                      | _ => false
                      end in
  if negb matches_peer then (false, s)
  else
    let i := lease_state s in
    (true, update_time now
      (with_inner (Lease.mark_wireguard_change (u64_add (data_version i) 1) i)
        (with_endpoints (delete ip (sender_map s)) (delete ip (online_endpoints s))
          (delete ip (wireguard_backpressure_drops s)) s))).

(** ** Delivery *)

Definition has_capability (caps cap : Z) : bool := Z.land caps cap =? cap.

(** The table of [try_deliver]: which message type may go from where to which
    kind of endpoint. *)
Definition delivery_allowed (m : MsgType) (origin : RelayOrigin) (e : OnlineEndpoint) : bool :=
  match m, origin, e with
  | WireGuardRelay, OriginVnt, EpWireGuard _ _ => true
  | WireGuardRelay, OriginWireGuard, EpWireGuard _ _ => true
  | WireGuardRelay, OriginWireGuard, EpVnt _ true _ true _ => true
  | WireGuardRelay, _, _ => false
  | WireGuardSubnetRelay, OriginWireGuard, EpVnt _ true caps true _ =>
      has_capability caps CLIENT_CAP_WIREGUARD_SUBNET_RELAY
  | WireGuardSubnetRelay, OriginVnt, EpWireGuard _ _ => true
  | WireGuardSubnetRelay, _, _ => false
  | WireGuardBroadcastRelay, OriginVnt, EpWireGuard _ _ => true
  | WireGuardBroadcastRelay, OriginWireGuard, EpWireGuard _ _ => true
  | WireGuardBroadcastRelay, OriginWireGuard, EpVnt _ true caps true _ =>
      has_capability caps CLIENT_CAP_WIREGUARD_BROADCAST_RELAY
  | WireGuardBroadcastRelay, _, _ => false
  | _, _, EpVnt _ _ _ _ _ => true
  | _, _, EpWireGuard _ _ => false
  end.

(** The two counters of a failed send; [fetch_add] wraps. *)
Definition count_drop (destination : Ipv4Addr) (s : NetworkState) : NetworkState :=
  let drops := match wireguard_backpressure_drops s !! destination with
               | Some n => <[destination := u64_add n 1]> (wireguard_backpressure_drops s)
               | None => wireguard_backpressure_drops s
               end in
  with_dashboard (dashboard_traffic s) (u64_add (dashboard_wireguard_drops s) 1)
    (with_endpoints (sender_map s) (online_endpoints s) drops s).

Definition try_deliver (destination : Ipv4Addr) (data : bytes) (origin : RelayOrigin)
    (s : NetworkState) (w : W) : LocalDeliveryResult * NetworkState * W :=
  match online_endpoints s !! destination with
  | None => (NotFound, s, w)
  | Some endpoint =>
      match Packet.new data with
      | Err _ => (Rejected, s, w)
      | Ok packet =>
          match Packet.msg_type packet with
          | Err _ => (Rejected, s, w)
          | Ok message_type =>
              if negb (delivery_allowed message_type origin endpoint) then (Rejected, s, w)
              else match sender_map s !! destination with
              | None => (NotFound, s, w)
              | Some sender =>
                  match sender_try_send sender data w with
                  | (None, w) => (Delivered, s, w)
                  | (Some SendFull, w) => (Full, count_drop destination s, w)
                  | (Some SendClosed, w) => (Closed, count_drop destination s, w)
                  end
              end
          end
      end
  end.

Definition record_tx_traffic (ip : Ipv4Addr) (n : Z) (s : NetworkState) : NetworkState :=
  let s := with_dashboard (Traffic.add_tx n (dashboard_traffic s)) (dashboard_wireguard_drops s) s in
  match traffic_stats_map s !! ip with
  | Some l => with_lease (<[l := Traffic.add_tx n (arc_get l (stats_heap s))]> (stats_heap s))
                (lease_state s) s
  | None => s
  end.

Definition record_rx_traffic (ip : Ipv4Addr) (n : Z) (s : NetworkState) : NetworkState :=
  let s := with_dashboard (Traffic.add_rx n (dashboard_traffic s)) (dashboard_wireguard_drops s) s in
  match traffic_stats_map s !! ip with
  | Some l => with_lease (<[l := Traffic.add_rx n (arc_get l (stats_heap s))]> (stats_heap s))
                (lease_state s) s
  | None => s
  end.

(** The filter of [relay_wireguard_broadcast]. *)
Definition broadcast_target (source : Ipv4Addr) (origin : RelayOrigin)
    (x : Ipv4Addr * OnlineEndpoint) : option Ipv4Addr :=
  let '(target, e) := x in
  if target =? source then None
  else match origin, e with
  | OriginVnt, EpWireGuard _ _ => Some target
  | OriginWireGuard, EpWireGuard _ _ => Some target
  | OriginWireGuard, EpVnt _ true caps true _ =>
      if has_capability caps CLIENT_CAP_WIREGUARD_BROADCAST_RELAY then Some target else None
  | _, _ => None
  end.

Fixpoint relay_to (inner : bytes) (route : Ipv4Route) (origin : RelayOrigin)
    (targets : list Ipv4Addr) (delivered : nat) (s : NetworkState) (w : W)
    : nat * NetworkState * W :=
  match targets with
  | [] => (delivered, s, w)
  | target :: targets =>
      let data := Bridge.build_wireguard_broadcast_relay inner route target in
      match try_deliver target data origin s w with
      | (Delivered, s, w) =>
          relay_to inner route origin targets (S delivered)
            (record_rx_traffic target (Z.of_nat (length data)) s) w
      | (_, s, w) => relay_to inner route origin targets delivered s w
      end
  end.

Definition broadcast_targets (source : Ipv4Addr) (origin : RelayOrigin) (s : NetworkState)
    : list Ipv4Addr := omap (broadcast_target source origin) (map_to_list (online_endpoints s)).

Definition relay_wireguard_broadcast (source : Ipv4Addr) (inner : bytes) (origin : RelayOrigin)
    (s : NetworkState) (w : W) : result RelayValidationError (nat * NetworkState * W) :=
  route ← Bridge.validate_broadcast_inner_ipv4 inner source (ns_net s) (ns_gateway s);
  Ok (relay_to inner route origin (broadcast_targets source origin s) 0 s w).

Definition dashboard_traffic_snapshot (s : NetworkState) : DashboardTrafficSnapshot :=
  mkDashboardTrafficSnapshot (tx (dashboard_traffic s)) (rx (dashboard_traffic s))
    (dashboard_wireguard_drops s).

Definition dashboard_endpoint_snapshot (s : NetworkState) : DashboardEndpointSnapshot :=
  fold_left (λ n '(_, e), match e with
      | EpVnt _ _ _ _ _ => mkDashboardEndpointSnapshot (u64_add (vnt_online n) 1) (wireguard_online n)
      | EpWireGuard _ _ => mkDashboardEndpointSnapshot (vnt_online n) (u64_add (wireguard_online n) 1)
      end)
    (map_to_list (online_endpoints s)) (mkDashboardEndpointSnapshot 0 0).

(** ** Sessions *)

Definition offline_ip (device_id : string) (ip : Ipv4Addr) (random_id wall : Z) (s : NetworkState)
    : option DeviceRecord * NetworkState :=
  let '((success, record), i) :=
    Lease.offline_ip (ns_network_code s) device_id ip random_id wall (stats_heap s) (lease_state s) in
  let s := with_inner i s in
  if success : bool then (record, forget_ip ip s) else (None, s).

Definition count (s : NetworkState) : Z * Z :=
  let wireguard_count := wrap 32 (Z.of_nat (length
    (filter (λ x, is_wireguard x.2 = true) (map_to_list (online_endpoints s))))) in
  (u32_add (wrap 32 (Z.of_nat (size (device_map (lease_state s))))) wireguard_count,
   wrap 32 (Z.of_nat (size (sender_map s)))).

Definition is_device_online (device_id : string) (s : NetworkState) : bool :=
  match device_map (lease_state s) !! device_id with Some e => e_is_connected e | None => false end.

Definition remove_device_from_memory (device_id : string) (s : NetworkState)
    : option Ipv4Addr * NetworkState :=
  match Lease.remove_device_from_memory device_id (lease_state s) with
  | (None, _) => (None, s)
  | (Some e, i) =>
      let s := with_inner i s in
      match e_ip e with
      | Some ip => (Some ip, forget_ip ip s)
      | None => (None, s)
      end
  end.

(** [release_pre_registered_ip] releases the lease lock before it forgets the
    queues: [meanwhile] is what other tasks do in between. *)
Definition release_pre_registered_ip (device_id : string) (ip : Ipv4Addr) (random_id : Z)
    (meanwhile : NetworkState → NetworkState) (s : NetworkState) : NetworkState :=
  let '(should_remove, i) :=
    Lease.release_pre_registered_ip device_id ip random_id (lease_state s) in
  let s := meanwhile (with_inner i s) in
  if should_remove : bool then forget_ip ip s else s.

Definition get_device_entry (device_id : string) (s : NetworkState) : option DeviceEntry :=
  device_map (lease_state s) !! device_id.

Definition get_device_entry_by_ip (ip : Ipv4Addr) (s : NetworkState) : option DeviceEntry :=
  device_ip_map (lease_state s) !! ip ≫= λ device_id, device_map (lease_state s) !! device_id.

(** A query: its answer, and the state the task resumes in. *)
Definition query (A : Type) : Type := NetworkState → result NetError A * NetworkState.

Definition confirm_endpoint (ip : Ipv4Addr) (random_id : Z) (s : NetworkState) : NetworkState :=
  match online_endpoints s !! ip with
  | Some (EpVnt active allow caps confirmed p2p) =>
      if active =? random_id then
        with_endpoints (sender_map s) (<[ip := EpVnt active allow caps true p2p]> (online_endpoints s))
          (wireguard_backpressure_drops s) s
      else s
  | _ => s
  end.

Definition confirm_registration (network_code device_id : string) (ip : Ipv4Addr) (random_id : Z)
    (save : DeviceRecord → query unit) (s : NetworkState) : result NetError unit * NetworkState :=
  let '(saved, s) :=
    match get_device_entry device_id s with
    | Some e => save (to_record network_code e (stats_heap s)) s
    | None => (Ok tt, s)
    end in
  match saved with
  | Err e => (Err e, s)
  | Ok _ => (Ok tt, confirm_endpoint ip random_id s)
  end.

Definition allocate_ip_and_get_entry (req : RegRequestMsg) (random_id wall : Z)
    (sender : mpsc_sender W bytes) (p2p : option WireGuardP2pEndpoint) (s : NetworkState)
    : result NetError (Ipv4Addr * option Ipv4Addr * option DeviceEntry) * NetworkState :=
  let confirmed := match registration_mode req with Normal => true | PreRegister => false end in
  match Lease.allocate_ip (ns_net s) (ns_gateway s) req random_id wall (stats_heap s)
          (lease_state s) with
  | Err e => (Err (LeaseErr e), s)
  | Ok ((ip, old_ip), (h, i)) =>
      let s := with_lease h i s in
      let s := match old_ip with Some old_ip => forget_ip old_ip s | None => s end in
      let entry := device_map i !! device_id req in
      let s := with_endpoints (<[ip := SVnt sender]> (sender_map s))
        (<[ip := EpVnt random_id (allow_wire_guard req) (client_capabilities req) confirmed p2p]>
          (online_endpoints s)) (wireguard_backpressure_drops s) s in
      let s := match entry with
               | Some e => with_stats_map (<[ip := e_traffic_stats e]> (traffic_stats_map s)) s
               | None => s
               end in
      (Ok (ip, old_ip, entry), s)
  end.

Definition collect_expired_devices (wall : Z) (s : NetworkState) : outcome (list string) :=
  Lease.collect_expired_devices (ns_lease_duration s) wall (lease_state s).

Definition remove_devices (device_ids : list string) (s : NetworkState) : NetworkState :=
  with_inner (Lease.remove_devices device_ids (lease_state s)) s.

Definition get_all_device_simple_info (s : NetworkState) : list (string * option Ipv4Addr * bool * Z) :=
  (λ x, (e_device_id x.2, e_ip x.2, e_is_connected x.2, e_data_version x.2))
    <$> map_to_list (device_map (lease_state s)).

Definition is_empty (s : NetworkState) : bool :=
  (size (device_map (lease_state s)) =? 0)%nat && (size (device_ip_map (lease_state s)) =? 0)%nat
  && (size (wireguard_peer_ip_map (lease_state s)) =? 0)%nat.

Definition update_client_latency (ip : Ipv4Addr) (latency_ms : Z) (s : NetworkState) : NetworkState :=
  with_inner (Lease.update_client_latency ip latency_ms (lease_state s)) s.

(** ** Addresses of WireGuard peers

    All of these hold the update lock throughout; [persist] and [revoke] are the
    awaited futures. *)

Definition create_wireguard_peer (record : WireGuardPeerRecord) (insert : query unit)
    (s : NetworkState) : result NetError (option Ipv4Addr) * NetworkState :=
  match insert s with
  | (Err e, s) => (Err e, s)
  | (Ok _, s) => (Ok (Lease.wireguard_peer_ip (wp_peer_id record) (lease_state s)), s)
  end.

(** [prepare]; the database; then [commit], or [rollback] on an error. *)
Definition reserve_with (now : Z) (peer_id : string) (ip : Ipv4Addr) (persist : query unit)
    (s : NetworkState) : result NetError (option Ipv4Addr) * NetworkState :=
  match Lease.prepare_wireguard_peer_ip_reservation peer_id ip (lease_state s) with
  | Err e => (Err (LeaseErr e), s)
  | Ok (previous_ip, i) =>
      match persist (with_inner i s) with
      | (Err e, s) =>
          (Err e, with_inner (Lease.rollback_wireguard_peer_ip_reservation peer_id ip previous_ip
                    (lease_state s)) s)
      | (Ok _, s) =>
          (Ok previous_ip, update_time now
            (with_inner (Lease.commit_wireguard_peer_ip_reservation peer_id ip previous_ip
              (lease_state s)) s))
      end
  end.

Definition create_wireguard_peer_with_ip (now : Z) (record : WireGuardPeerRecord) (ip : Ipv4Addr)
    (insert : query unit) (s : NetworkState) : result NetError Ipv4Addr * NetworkState :=
  let '(r, s) := reserve_with now (wp_peer_id record) ip insert s in
  (_ ← r; Ok ip, s).

(** The automatic variant passes [None] as the previous address to [commit] and
    [rollback]. *)
Definition create_wireguard_peer_with_automatic_ip (now : Z) (record : WireGuardPeerRecord)
    (insert : Ipv4Addr → query unit) (s : NetworkState) : result NetError Ipv4Addr * NetworkState :=
  let peer_id := wp_peer_id record in
  match Lease.find_available_ip (ns_net s) (ns_gateway s) (lease_state s) with
  | Err e => (Err (LeaseErr e), s)
  | Ok ip =>
      match Lease.prepare_wireguard_peer_ip_reservation peer_id ip (lease_state s) with
      | Err e => (Err (LeaseErr e), s)
      | Ok (_, i) =>
          match insert ip (with_inner i s) with
          | (Err e, s) =>
              (Err e, with_inner (Lease.rollback_wireguard_peer_ip_reservation peer_id ip None
                        (lease_state s)) s)
          | (Ok _, s) =>
              (Ok ip, update_time now
                (with_inner (Lease.commit_wireguard_peer_ip_reservation peer_id ip None
                  (lease_state s)) s))
          end
      end
  end.

Definition list_wireguard_peers (load : query (list WireGuardPeerRecord)) (s : NetworkState)
    : result NetError (list (WireGuardPeerRecord * option Ipv4Addr)) * NetworkState :=
  let '(r, s) := load s in
  (peers ← r;
   Ok (map (λ p, (p, Lease.wireguard_peer_ip (wp_peer_id p) (lease_state s))) peers), s).

Definition set_wireguard_peer_enabled (peer_id : string) (enabled : bool) (update : query bool)
    (load : query (option WireGuardPeerRecord)) (revoke : query unit) (s : NetworkState)
    : result NetError (option (WireGuardPeerRecord * option Ipv4Addr)) * NetworkState :=
  match update s with
  | (Err e, s) => (Err e, s)
  | (Ok false, s) => (Ok None, s)
  | (Ok true, s) =>
      match load s with
      | (Err e, s) => (Err e, s)
      | (Ok None, s) => (Err PeerVanished, s)
      | (Ok (Some peer), s) =>
          let ip := Lease.wireguard_peer_ip peer_id (lease_state s) in
          if enabled then (Ok (Some (peer, ip)), s)
          else match revoke s with
               | (Err e, s) => (Err e, s)
               | (Ok _, s) => (Ok (Some (peer, ip)), s)
               end
      end
  end.

Definition delete_wireguard_peer_with (now : Z) (peer_id : string)
    (persist : query WireGuardPeerDeleteResult) (revoke : query unit) (s : NetworkState)
    : result NetError WireGuardPeerDeleteResult * NetworkState :=
  if str_blank peer_id then (Err BlankPeerId, s)
  else match persist s with
  | (Err e, s) => (Err e, s)
  | (Ok res, s) =>
      let '(removed, i) := Lease.release_wireguard_peer_ip peer_id (lease_state s) in
      let s := with_inner i s in
      let res := mkWireGuardPeerDeleteResult (peer_removed res) (ip_released res || removed) in
      let s := if removed then update_time now s else s in
      match revoke s with
      | (Err e, s) => (Err e, s)
      | (Ok _, s) => (Ok res, s)
      end
  end.

Definition reserve_wireguard_peer_ip_with (now : Z) (peer_id : string) (ip : Ipv4Addr)
    (persist : query unit) (s : NetworkState) : result NetError bool * NetworkState :=
  if str_blank peer_id then (Err BlankPeerId, s)
  else if negb (net_contains (ns_net s) ip) then (Err (LeaseErr IpOutsideNetwork), s)
  else if ip =? ns_gateway s then (Err (LeaseErr IpIsGateway), s)
  else
    let '(r, s) := reserve_with now peer_id ip persist s in
    (previous_ip ← r;
     Ok (match previous_ip with Some p => negb (p =? ip) | None => false end), s).

Definition reserve_wireguard_peer_ip (now : Z) (peer_id : string) (ip : Ipv4Addr)
    (persist revoke : query unit) (s : NetworkState) : result NetError unit * NetworkState :=
  match reserve_wireguard_peer_ip_with now peer_id ip persist s with
  | (Err e, s) => (Err e, s)
  | (Ok changed, s) => if changed then revoke s else (Ok tt, s)
  end.

Definition release_wireguard_peer_ip_with (now : Z) (peer_id : string) (persist : query bool)
    (s : NetworkState) : result NetError bool * NetworkState :=
  if str_blank peer_id then (Err BlankPeerId, s)
  else match persist s with
  | (Err e, s) => (Err e, s)
  | (Ok database_removed, s) =>
      let '(memory_removed, i) := Lease.release_wireguard_peer_ip peer_id (lease_state s) in
      let s := with_inner i s in
      let s := if memory_removed then update_time now s else s in
      (Ok (database_removed || memory_removed), s)
  end.

Definition release_wireguard_peer_ip (now : Z) (peer_id : string) (persist : query bool)
    (revoke : query unit) (s : NetworkState) : result NetError bool * NetworkState :=
  match release_wireguard_peer_ip_with now peer_id persist s with
  | (Err e, s) => (Err e, s)
  | (Ok false, s) => (Ok false, s)
  | (Ok true, s) => match revoke s with
                    | (Err e, s) => (Err e, s)
                    | (Ok _, s) => (Ok true, s)
                    end
  end.

(** ** Views for clients *)

Definition vnt_infos (keep : DeviceEntry → bool) (exclude_ip : Ipv4Addr) (s : NetworkState)
    : list ClientSimpleInfo :=
  omap (λ '(_, v), match e_ip v with
                   | Some ip => if keep v && negb (ip =? exclude_ip)
                                then Some (mkClientSimpleInfo ip (e_is_connected v) Vnt) else None
                   | None => None
                   end)
    (map_to_list (device_map (lease_state s))).

Definition local_wireguard_infos (s : NetworkState) : list ClientSimpleInfo :=
  omap (λ '(ip, e), if is_wireguard e then Some (mkClientSimpleInfo ip true Wireguard) else None)
    (map_to_list (online_endpoints s)).

(** [remote_wireguard_sources.values().flatten()] as a set. *)
Definition remote_ips (i : Inner) : gset Ipv4Addr :=
  ⋃ ((λ x, x.2) <$> map_to_list (remote_wireguard_sources i)).

Definition changed_client_simple_list (exclude_ip : Ipv4Addr) (version : Z)
    (include_wireguard : bool) (s : NetworkState) : option ClientSimpleInfoList :=
  let i := lease_state s in
  if version =? data_version i then None
  else if (data_version i <? version)
          || (include_wireguard && (version <? last_wireguard_change_version i))
  then
    let vnt := vnt_infos (λ _, true) exclude_ip s in
    let list :=
      if include_wireguard then
        let local := vnt ++ local_wireguard_infos s in
        let local_ips : gset Ipv4Addr := list_to_set (info_ip <$> local) in
        local ++ ((λ ip, mkClientSimpleInfo ip true Wireguard) <$>
          filter (λ ip, ip ≠ exclude_ip ∧ ip ∉ local_ips) (elements (remote_ips i)))
      else vnt in
    Some (mkClientSimpleInfoList (data_version i) list true 0)
  else
    Some (mkClientSimpleInfoList (data_version i)
      (vnt_infos (λ v, version <? e_data_version v) exclude_ip s) false 0).

Definition client_info_list (exclude_ip : Ipv4Addr) (include_wireguard : bool) (s : NetworkState)
    : list ClientInfo :=
  omap (λ '(_, e), match e_ip e with
                   | Some ip => if ip =? exclude_ip then None else
                       Some (mkClientInfo (e_device_name e) (e_device_version e) ip (e_key_sign e)
                         (e_is_connected e) (e_last_connect_time e / nanos) (e_device_id e)
                         (NodeType_to_i32 Vnt))
                   | None => None
                   end) (map_to_list (device_map (lease_state s)))
  ++ (if include_wireguard then
        omap (λ '(ip, e), match e with
                          | EpWireGuard peer_id connected_at =>
                              Some (mkClientInfo peer_id "WireGuard" ip None true connected_at
                                peer_id (NodeType_to_i32 Wireguard))
                          | EpVnt _ _ _ _ _ => None
                          end) (map_to_list (online_endpoints s))
      else []).

(** [format_time] is the date format of the [time] crate. *)
Definition get_device_infos (format_time : Z → string) (s : NetworkState) : list DeviceInfoVO :=
  (λ '(_, e), mkDeviceInfoVO (e_device_id e) (e_device_name e) (e_device_version e) (e_ip e)
     (if e_is_connected e then "Online" else "Offline") (format_time (e_last_connect_time e))
     (format_time <$> e_disconnect_time e) (e_latency_ms e) None
     (tx (arc_get (e_traffic_stats e) (stats_heap s)))
     (rx (arc_get (e_traffic_stats e) (stats_heap s))))
    <$> map_to_list (device_map (lease_state s)).
End NetworkState.

(** ** Steps

    One operation of a task on the network, run to its next [await].  Peer
    address updates appear as their locked sections. *)
Section Steps.
Context {NL : Ipv4NetLib} {PL : PnetLib} {U32 : NetU32Lib}.
Context {W : Type} {MV : Mpsc W bytes} {MW : Mpsc W WireGuardBridgePacket}.

Inductive net_step : NetworkState → NetworkState → Prop :=
| net_allocate req rid wall sender p2p s :
    net_step s (allocate_ip_and_get_entry req rid wall sender p2p s).2
| net_offline d ip rid wall s : net_step s (offline_ip d ip rid wall s).2
| net_remove_from_memory d s : net_step s (remove_device_from_memory d s).2
| net_release_pre d ip rid s : net_step s (release_pre_registered_ip d ip rid id s)
| net_expire l s :
    (∀ d, d ∈ l → is_device_online d s = false) → net_step s (remove_devices l s)
| net_connect now wall p ip sender s : net_step s (connect_wireguard_peer now wall p ip sender s).2
| net_disconnect now p ip s : net_step s (disconnect_wireguard_peer now p ip s).2
| net_confirm ip rid s : net_step s (confirm_endpoint ip rid s)
| net_tx ip n s : net_step s (record_tx_traffic ip n s)
| net_rx ip n s : net_step s (record_rx_traffic ip n s)
| net_drop ip s : net_step s (count_drop ip s)
| net_latency ip ms s : net_step s (update_client_latency ip ms s)
| net_remote now src ips s : net_step s (update_remote_wireguard_ips now src ips s).2
| net_remove_remote now src s : net_step s (remove_remote_wireguard_source now src s).2
| net_time now s : net_step s (update_time now s)
| net_prepare p ip prev i s :
    Lease.prepare_wireguard_peer_ip_reservation p ip (lease_state s) = Ok (prev, i) →
    net_step s (with_inner i s)
| net_commit p ip prev s :
    net_step s (with_inner (Lease.commit_wireguard_peer_ip_reservation p ip prev (lease_state s)) s)
| net_rollback p ip prev s :
    net_step s (with_inner (Lease.rollback_wireguard_peer_ip_reservation p ip prev (lease_state s)) s)
| net_release p s :
    net_step s (with_inner (Lease.release_wireguard_peer_ip p (lease_state s)).2 s).

(** ** Invariants *)

(** Queues and endpoints come in pairs of the same kind. *)
Definition senders_ok (sm : gmap Ipv4Addr NetworkSender) (eps : gmap Ipv4Addr OnlineEndpoint) : Prop :=
  ∀ ip, match sm !! ip, eps !! ip with
        | None, None => True
        | Some (SVnt _), Some (EpVnt _ _ _ _ _) => True
        | Some (SWireGuard _ _), Some (EpWireGuard _ _) => True
        | _, _ => False
        end.

(** The endpoints agree with the leases: an endpoint at an address is the
    session of an online device with that address, whose counters it uses; and
    an online device with a usable address has its session's endpoint there. *)
Record sessions_ok (net : Ipv4Net) (gw : Ipv4Addr) (dm : gmap string DeviceEntry)
    (eps : gmap Ipv4Addr OnlineEndpoint) (tm : gmap Ipv4Addr positive) : Prop := {
  so_endpoint ip rid a c k p : eps !! ip = Some (EpVnt rid a c k p) →
    ∃ d e, dm !! d = Some e ∧ e_ip e = Some ip ∧ e_random_id e = rid ∧
           e_is_connected e = true ∧ tm !! ip = Some (e_traffic_stats e);
  so_device d e ip : dm !! d = Some e → e_ip e = Some ip → e_is_connected e = true →
    usable net gw ip → ∃ a c k p, eps !! ip = Some (EpVnt (e_random_id e) a c k p)
}.

(** Each device has counters of its own. *)
Record stats_ok (dm : gmap string DeviceEntry) (h : heap) : Prop := {
  st_alloc d e : dm !! d = Some e → is_Some (h !! e_traffic_stats e);
  st_own d1 d2 e1 e2 : dm !! d1 = Some e1 → dm !! d2 = Some e2 →
    e_traffic_stats e1 = e_traffic_stats e2 → d1 = d2
}.

Record net_inv (s : NetworkState) : Prop := {
  ni_lease : lease_inv (ns_net s) (ns_gateway s) (lease_state s);
  ni_senders : senders_ok (sender_map s) (online_endpoints s);
  ni_sessions : sessions_ok (ns_net s) (ns_gateway s) (device_map (lease_state s))
                  (online_endpoints s) (traffic_stats_map s);
  ni_stats : stats_ok (device_map (lease_state s)) (stats_heap s)
}.
End Steps.

Module NetFacts.
Section NetFacts.
Context {NL : Ipv4NetLib} {NLL : Ipv4NetLaws} {PL : PnetLib} {U32 : NetU32Lib}.
Context {W : Type} {MV : Mpsc W bytes} {MW : Mpsc W WireGuardBridgePacket}.
Implicit Types (s : NetworkState) (h : heap).

(** *** Queues and endpoints in pairs *)

Lemma senders_insert_vnt sm eps ip snd rid a c k p :
  senders_ok sm eps → senders_ok (<[ip := SVnt snd]> sm) (<[ip := EpVnt rid a c k p]> eps).
Proof.
  intros H jp. destruct (decide (ip = jp)) as [->|]; [by rewrite !lookup_insert_eq|].
  rewrite !lookup_insert_ne by done. apply H.
Qed.

Lemma senders_insert_wg sm eps ip code snd p t :
  senders_ok sm eps → senders_ok (<[ip := SWireGuard code snd]> sm) (<[ip := EpWireGuard p t]> eps).
Proof.
  intros H jp. destruct (decide (ip = jp)) as [->|]; [by rewrite !lookup_insert_eq|].
  rewrite !lookup_insert_ne by done. apply H.
Qed.

Lemma senders_delete sm eps ip : senders_ok sm eps → senders_ok (delete ip sm) (delete ip eps).
Proof.
  intros H jp. destruct (decide (ip = jp)) as [->|]; [by rewrite !lookup_delete_eq|].
  rewrite !lookup_delete_ne by done. apply H.
Qed.

(** *** Sessions *)

(** A device connects at [ip] after its endpoint at [old] was forgotten. *)
Lemma sessions_connect net gw (dm : gmap string DeviceEntry) eps tm d e' ip old rid a c k p :
  sessions_ok net gw dm eps tm →
  e_ip e' = Some ip → e_is_connected e' = true → e_random_id e' = rid →
  (dm !! d ≫= e_ip = old ∨ old = None ∧ dm !! d ≫= e_ip = Some ip) →
  (∀ d2 e2, d2 ≠ d → dm !! d2 = Some e2 → usable net gw ip → e_ip e2 ≠ Some ip) →
  (∀ d2 e2 o, d2 ≠ d → dm !! d2 = Some e2 → old = Some o → usable net gw o → e_ip e2 ≠ Some o) →
  sessions_ok net gw (<[d := e']> dm)
    (<[ip := EpVnt rid a c k p]> match old with Some o => delete o eps | None => eps end)
    (<[ip := e_traffic_stats e']> match old with Some o => delete o tm | None => tm end).
Proof.
  intros [S1 S2] Hip Hc Hr Hold Hu1 Hu2. split.
  - intros jp r' a' c' k' p' [[<- [= <- <- <- <- <-]]|[Hne Hl]]%lookup_insert_Some.
    + exists d, e'. by rewrite !lookup_insert_eq.
    + assert (eps !! jp = Some (EpVnt r' a' c' k' p') ∧ old ≠ Some jp) as [Hl' Hjo].
      { destruct old as [o|]; [|done]. apply lookup_delete_Some in Hl as [? ?]. split; congruence. }
      destruct (S1 _ _ _ _ _ _ Hl') as (d2 & e2 & H1 & H2 & H3 & H4 & H5).
      assert (d2 ≠ d) as Hd.
      { intros ->. rewrite H1 in Hold. simpl in Hold. destruct Hold as [|[]]; congruence. }
      exists d2, e2. rewrite !lookup_insert_ne by done. split_and!; try done.
      destruct old as [o|]; [|done]. rewrite lookup_delete_ne; [done|congruence].
  - intros d2 e2 jp [[<- <-]|[Hne Hl]]%lookup_insert_Some Hj Hcon Hus.
    + simplify_eq. rewrite lookup_insert_eq. eauto.
    + assert (jp ≠ ip) by (intros ->; by eapply Hu1).
      destruct (S2 _ _ _ Hl Hj Hcon Hus) as (a2 & c2 & k2 & p2 & He).
      exists a2, c2, k2, p2. rewrite lookup_insert_ne by done.
      destruct old as [o|]; [|done]. rewrite lookup_delete_ne; [done|].
      intros ->. by eapply Hu2.
Qed.

(** A device disconnects or disappears together with its endpoint. *)
Lemma sessions_disconnect net gw (dm dm' : gmap string DeviceEntry) eps tm d e ip :
  sessions_ok net gw dm eps tm → dm !! d = Some e → e_ip e = Some ip →
  (∀ d2, d2 ≠ d → dm' !! d2 = dm !! d2) →
  (∀ e', dm' !! d = Some e' → e_is_connected e' = false) →
  (∀ d2 e2, d2 ≠ d → dm !! d2 = Some e2 → usable net gw ip → e_ip e2 ≠ Some ip) →
  sessions_ok net gw dm' (delete ip eps) (delete ip tm).
Proof.
  intros [S1 S2] Hd Hip Hsame Hoff Hu. split.
  - intros jp r a c k p [Hne Hl]%lookup_delete_Some.
    destruct (S1 _ _ _ _ _ _ Hl) as (d2 & e2 & H1 & H2 & H3 & H4 & H5).
    assert (d2 ≠ d) by congruence. exists d2, e2. rewrite Hsame, lookup_delete_ne by done. done.
  - intros d2 e2 jp Hl Hj Hcon Hus. destruct (decide (d2 = d)) as [->|Hne].
    { apply Hoff in Hl. congruence. }
    rewrite Hsame in Hl by done. assert (jp ≠ ip) by (intros ->; by eapply Hu).
    rewrite lookup_delete_ne by done. by eapply S2.
Qed.

(** Offline devices have no endpoint to lose. *)
Lemma sessions_drop_offline net gw (dm dm' : gmap string DeviceEntry) eps tm :
  sessions_ok net gw dm eps tm → dm' ⊆ dm →
  (∀ d e, dm !! d = Some e → e_is_connected e = true → dm' !! d = Some e) →
  sessions_ok net gw dm' eps tm.
Proof.
  intros [S1 S2] Hsub Hon. split.
  - intros ip r a c k p Hl. destruct (S1 _ _ _ _ _ _ Hl) as (d & e & H1 & H2 & H3 & H4 & H5).
    exists d, e. split; [by apply Hon|done].
  - intros d e ip Hl. apply (S2 d). by eapply lookup_weaken.
Qed.

(** Entries change in other fields only. *)
Lemma sessions_same_entries net gw (dm dm' : gmap string DeviceEntry) eps tm :
  sessions_ok net gw dm eps tm →
  (∀ d e', dm' !! d = Some e' → ∃ e, dm !! d = Some e ∧ e_ip e = e_ip e' ∧
     e_random_id e = e_random_id e' ∧ e_is_connected e = e_is_connected e') →
  (∀ d e, dm !! d = Some e → ∃ e', dm' !! d = Some e' ∧ e_ip e = e_ip e' ∧
     e_random_id e = e_random_id e' ∧ e_is_connected e = e_is_connected e' ∧
     e_traffic_stats e = e_traffic_stats e') →
  sessions_ok net gw dm' eps tm.
Proof.
  intros [S1 S2] H1 H2. split.
  - intros ip r a c k p Hl. destruct (S1 _ _ _ _ _ _ Hl) as (d & e & Hd & ? & ? & ? & ?).
    destruct (H2 _ _ Hd) as (e' & ? & ? & ? & ? & ?). exists d, e'. split_and!; congruence.
  - intros d e' ip Hd Hip Hc Hu. destruct (H1 _ _ Hd) as (e & He & ? & Hr & ?).
    rewrite <- Hr. apply (S2 d e ip); congruence.
Qed.

(** WireGuard endpoints and confirmations do not matter to sessions. *)
Lemma sessions_wg_insert net gw dm eps tm ip p t :
  sessions_ok net gw dm eps tm → eps !! ip = None →
  sessions_ok net gw dm (<[ip := EpWireGuard p t]> eps) tm.
Proof.
  intros [S1 S2] Hn. split.
  - intros jp r a c k q [[_ ?]|[_ Hl]]%lookup_insert_Some; [done|by eapply S1].
  - intros d e jp Hd Hj Hc Hu. destruct (S2 _ _ _ Hd Hj Hc Hu) as (a & c & k & q & Hl).
    exists a, c, k, q. rewrite lookup_insert_ne; congruence.
Qed.

Lemma sessions_wg_delete net gw dm eps tm ip p t :
  sessions_ok net gw dm eps tm → eps !! ip = Some (EpWireGuard p t) →
  sessions_ok net gw dm (delete ip eps) tm.
Proof.
  intros [S1 S2] Hn. split.
  - intros jp r a c k q [_ Hl]%lookup_delete_Some. by eapply S1.
  - intros d e jp Hd Hj Hc Hu. destruct (S2 _ _ _ Hd Hj Hc Hu) as (a & c & k & q & Hl).
    exists a, c, k, q. rewrite lookup_delete_ne; congruence.
Qed.

Lemma sessions_confirm net gw dm eps tm ip r a c k p :
  sessions_ok net gw dm eps tm → eps !! ip = Some (EpVnt r a c k p) →
  sessions_ok net gw dm (<[ip := EpVnt r a c true p]> eps) tm.
Proof.
  intros [S1 S2] Hl. split.
  - intros jp r' a' c' k' p' [[<- [= <- <- <- <- <-]]|[_ Hj]]%lookup_insert_Some; by eapply S1.
  - intros d e jp Hd Hj Hc Hu. destruct (S2 _ _ _ Hd Hj Hc Hu) as (a' & c' & k' & p' & Hl').
    destruct (decide (ip = jp)) as [->|]; [|rewrite lookup_insert_ne by done; eauto].
    simplify_eq. rewrite lookup_insert_eq. eauto.
Qed.

(** *** Counters *)

Lemma stats_subset dm dm' h : stats_ok dm h → dm' ⊆ dm → stats_ok dm' h.
Proof.
  intros [H1 H2] Hs. split.
  - intros d e Hd. apply (H1 d e). by eapply lookup_weaken.
  - intros d1 d2 e1 e2 ? ? ?. apply (H2 d1 d2 e1 e2); [by eapply lookup_weaken..|done].
Qed.

Lemma stats_same dm h d e e' :
  stats_ok dm h → dm !! d = Some e → e_traffic_stats e' = e_traffic_stats e →
  stats_ok (<[d := e']> dm) h.
Proof.
  intros [H1 H2] Hd He.
  assert (∀ d2 e2, <[d := e']> dm !! d2 = Some e2 →
    ∃ e3, dm !! d2 = Some e3 ∧ e_traffic_stats e3 = e_traffic_stats e2) as Hl.
  { intros d2 e2 [[<- <-]|[_ H]]%lookup_insert_Some; eauto. }
  split.
  - intros d2 e2 (e3 & H3 & <-)%Hl. by eapply H1.
  - intros d1 d2 e1 e2 (e3 & H3 & <-)%Hl (e4 & H4 & <-)%Hl. by eapply H2.
Qed.

Lemma stats_fresh dm h d e l h' t :
  stats_ok dm h → arc_new t h = (l, h') → e_traffic_stats e = l → stats_ok (<[d := e]> dm) h'.
Proof.
  intros [H1 H2] [= Hl <-] He.
  assert (h !! l = None) as Hn.
  { apply not_elem_of_dom. rewrite <- Hl. apply is_fresh. }
  rewrite Hl. split.
  - intros d2 e2 [[<- <-]|[_ H]]%lookup_insert_Some.
    + rewrite He, lookup_insert_eq. eauto.
    + destruct (H1 _ _ H) as [x Hx]. rewrite lookup_insert_ne by congruence. eauto.
  - intros d1 d2 e1 e2 [[<- <-]|[N1 Q1]]%lookup_insert_Some [[<- <-]|[N2 Q2]]%lookup_insert_Some Heq;
      [done|..].
    + destruct (H1 _ _ Q2). congruence.
    + destruct (H1 _ _ Q1). congruence.
    + by eapply H2.
Qed.

Lemma stats_write dm h l t : stats_ok dm h → stats_ok dm (<[l := t]> h).
Proof.
  intros [H1 H2]. split; [|done]. intros d e Hd. apply lookup_insert_is_Some'. right. by eapply H1.
Qed.

(** *** Steps preserve the invariant *)

Lemma sole_holder net gw i d e ip d2 e2 :
  lease_inv net gw i → device_map i !! d = Some e → e_ip e = Some ip → d2 ≠ d →
  device_map i !! d2 = Some e2 → usable net gw ip → e_ip e2 ≠ Some ip.
Proof.
  intros Hi Hd Hip Hne Hd2 Hu Hip2.
  pose proof (inv_owner _ _ _ Hi _ _ _ Hd Hip Hu). pose proof (inv_owner _ _ _ Hi _ _ _ Hd2 Hip2 Hu).
  congruence.
Qed.

(** What a network needs to know of an allocation. *)
Lemma alloc_summary net gw req rid now h i ip old h' i' :
  Lease.allocate_ip net gw req rid now h i = Ok ((ip, old), (h', i')) →
  ∃ e', device_map i' = <[device_id req := e']> (device_map i) ∧
    e_ip e' = Some ip ∧ e_is_connected e' = true ∧ e_random_id e' = rid ∧
    (device_map i !! device_id req ≫= e_ip = old ∨
     old = None ∧ device_map i !! device_id req ≫= e_ip = Some ip) ∧
    (h' = h ∧ (∃ e, device_map i !! device_id req = Some e ∧ e_traffic_stats e' = e_traffic_stats e) ∨
     arc_new Traffic.new h = (e_traffic_stats e', h')).
Proof.
  intros H%LeaseFacts.allocate_cases. simpl in H.
  destruct H as [e ip He Hip Hq|e ip He Hip Hq Hf|ip old l h' Hr Hc Ho Ha|ip old l h' Hf _ Ho Ha].
  - eexists. split; [reflexivity|]. rewrite He. simpl. rewrite Hip. split_and!; try done; eauto 10.
  - eexists. split; [reflexivity|]. rewrite He. simpl. rewrite Hip. split_and!; try done; eauto 10.
  - eexists. split; [rewrite LeaseFacts.add_device_map; by destruct old|].
    split_and!; try done; [by left|by right].
  - eexists. split; [by rewrite LeaseFacts.add_device_map|].
    split_and!; try done; [by left|by right].
Qed.

Lemma allocate_net_inv req rid wall sender p2p s :
  net_network (ns_net s) < u32_max → net_inv s →
  net_inv (allocate_ip_and_get_entry req rid wall sender p2p s).2.
Proof.
  intros Hnet [I1 I2 I3 I4]. unfold allocate_ip_and_get_entry.
  destruct (Lease.allocate_ip _ _ _ _ _ _ _) as [[[ip old] [h i]]|e] eqn:Ea; [|by split].
  pose proof (LeaseFacts.allocate_lease_inv _ _ Hnet _ _ _ _ _ _ _ I1 Ea) as Hi. simpl in Hi.
  apply alloc_summary in Ea as (e' & Hm & Hip & Hc & Hr & Hold & Hst).
  assert (device_map i !! device_id req = Some e') as Hl by (by rewrite Hm, lookup_insert_eq).
  cbn zeta. rewrite Hl. cbn [snd].
  assert (stats_ok (device_map i) h) as Hst'.
  { rewrite Hm. destruct Hst as [[-> (e & He & Heq)]|Hst]; [by eapply stats_same|by eapply stats_fresh]. }
  assert (sessions_ok (ns_net s) (ns_gateway s) (device_map i)
    (<[ip := EpVnt rid (allow_wire_guard req) (client_capabilities req)
       match registration_mode req with Normal => true | PreRegister => false end p2p]>
       match old with Some o => delete o (online_endpoints s) | None => online_endpoints s end)
    (<[ip := e_traffic_stats e']>
       match old with Some o => delete o (traffic_stats_map s) | None => traffic_stats_map s end)) as Hs.
  { rewrite Hm. apply sessions_connect; try done.
    - intros d2 e2 Hne Hd2 Hu. eapply (sole_holder _ _ i); try done.
      by rewrite Hm, lookup_insert_ne.
    - intros d2 e2 o Hne Hd2 -> Hu. destruct Hold as [Ho|[? _]]; [|done].
      destruct (device_map (lease_state s) !! device_id req) as [e|] eqn:E; [|done].
      simpl in Ho. by eapply (sole_holder _ _ (lease_state s) _ e). }
  destruct old as [o|]; split; simpl; try done.
  - by apply senders_insert_vnt, senders_delete.
  - by apply senders_insert_vnt.
Qed.

Lemma forget_net_inv s i d e ip :
  net_inv s → device_map (lease_state s) !! d = Some e → e_ip e = Some ip →
  lease_inv (ns_net s) (ns_gateway s) i →
  (∀ d2, d2 ≠ d → device_map i !! d2 = device_map (lease_state s) !! d2) →
  (∀ e', device_map i !! d = Some e' → e_is_connected e' = false) →
  stats_ok (device_map i) (stats_heap s) →
  net_inv (forget_ip ip (with_inner i s)).
Proof.
  intros [I1 I2 I3 I4] Hd Hip Hi Hsame Hoff Hst. split; simpl; try done.
  - by apply senders_delete.
  - eapply (sessions_disconnect _ _ (device_map (lease_state s)) _ _ _ d e); try done.
    intros d2 e2 Hne Hd2 Hu. by eapply (sole_holder _ _ (lease_state s) d e).
Qed.

(** The lease part of a network step is a lease step. *)
Lemma with_inner_inv s i :
  net_inv s → lease_inv (ns_net s) (ns_gateway s) i →
  device_map i = device_map (lease_state s) → net_inv (with_inner i s).
Proof. intros [I1 I2 I3 I4] Hi Hm. split; simpl; try done; by rewrite Hm. Qed.

Lemma offline_net_inv d ip rid wall s : net_inv s → net_inv (offline_ip d ip rid wall s).2.
Proof.
  intros Hs. unfold offline_ip.
  pose proof (LeaseFacts.offline_lease_inv _ _ (ns_network_code s) d ip rid wall (stats_heap s) _ (ni_lease _ Hs)) as Hi.
  unfold Lease.offline_ip in *.
  destruct (device_map (lease_state s) !! d) as [e|] eqn:Ed; [|by apply with_inner_inv].
  destruct (negb _); [by apply with_inner_inv|].
  case_bool_decide as Hip; [by apply with_inner_inv|]. cbn [snd] in *.
  apply (forget_net_inv s _ d e ip); simpl; try done.
  - intros d2 Hne. by rewrite lookup_insert_ne.
  - intros e' [[_ <-]|[? _]]%lookup_insert_Some; done.
  - by eapply stats_same; [apply Hs|..].
Qed.

Lemma remove_one_map i d : device_map (Lease.remove_one i d) = delete d (device_map i).
Proof. apply LeaseFacts.remove_one_frame. Qed.

Lemma remove_one_net_inv d s e :
  net_inv s → device_map (lease_state s) !! d = Some e →
  match e_ip e with
  | Some ip => net_inv (forget_ip ip (with_inner (Lease.bump (Lease.remove_one (lease_state s) d)) s))
  | None => net_inv (with_inner (Lease.bump (Lease.remove_one (lease_state s) d)) s)
  end.
Proof.
  intros Hs Hd.
  assert (lease_inv (ns_net s) (ns_gateway s) (Lease.bump (Lease.remove_one (lease_state s) d))) as Hi
    by (apply LeaseFacts.set_version_lease_inv, LeaseFacts.remove_one_lease_inv, Hs).
  assert (stats_ok (device_map (Lease.bump (Lease.remove_one (lease_state s) d))) (stats_heap s)) as Hst.
  { eapply stats_subset; [apply Hs|]. simpl. rewrite remove_one_map. apply delete_subseteq. }
  destruct (e_ip e) as [ip|] eqn:Eip.
  - apply (forget_net_inv s _ d e ip); try done; simpl; rewrite remove_one_map.
    + intros d2 Hne. by rewrite lookup_delete_ne.
    + intros e'. by rewrite lookup_delete_eq.
  - destruct Hs as [I1 I2 I3 I4]. split; try done. simpl. rewrite remove_one_map.
    destruct I3 as [S1 S2]. split.
    + intros jp r a c k p Hl. destruct (S1 _ _ _ _ _ _ Hl) as (d2 & e2 & H1 & H2 & H3).
      exists d2, e2. rewrite lookup_delete_ne by congruence. done.
    + intros d2 e2 jp [_ H2]%lookup_delete_Some. by apply (S2 d2).
Qed.

Lemma remove_fold_lookup l i d :
  device_map (fold_left Lease.remove_one l i) !! d =
  if decide (d ∈ l) then None else device_map i !! d.
Proof.
  revert i. induction l as [|x l IH]; intros i; simpl fold_left.
  { by rewrite decide_False by apply not_elem_of_nil. }
  rewrite IH, remove_one_map. destruct (decide (d ∈ l)) as [Hin|Hin].
  - rewrite decide_True; [done|by right].
  - destruct (decide (x = d)) as [->|Hne].
    + rewrite lookup_delete_eq, decide_True; [done|left].
    + rewrite lookup_delete_ne, decide_False; [done|by apply not_elem_of_cons|done].
Qed.

Lemma expire_net_inv l s :
  net_inv s → (∀ d, d ∈ l → is_device_online d s = false) → net_inv (remove_devices l s).
Proof.
  intros Hs Hoff. unfold remove_devices.
  pose proof (LeaseFacts.remove_devices_lease_inv _ _ l _ (ni_lease _ Hs)) as Hi.
  destruct l as [|x l]; [by apply with_inner_inv|].
  set (i := Lease.remove_devices (x :: l) (lease_state s)) in *.
  assert (∀ d, device_map i !! d = if decide (d ∈ x :: l) then None else device_map (lease_state s) !! d) as Hl
    by (intros d; apply (remove_fold_lookup (x :: l) (Lease.bump (lease_state s)))).
  assert (device_map i ⊆ device_map (lease_state s)) as Hsub.
  { apply map_subseteq_spec. intros d e. rewrite Hl. by case_decide. }
  destruct Hs as [I1 I2 I3 I4]. split; try done; simpl.
  - eapply sessions_drop_offline; try done. intros d e Hd Hc. rewrite Hl.
    rewrite decide_False; [done|]. intros Hin. apply Hoff in Hin. unfold is_device_online in Hin.
    rewrite Hd in Hin. congruence.
  - by eapply stats_subset.
Qed.

Lemma release_pre_net_inv d ip rid s :
  net_inv s → net_inv (release_pre_registered_ip d ip rid id s).
Proof.
  intros Hs. unfold release_pre_registered_ip, Lease.release_pre_registered_ip.
  destruct (device_map (lease_state s) !! d) as [e|] eqn:Ed; [|by apply with_inner_inv; try apply Hs].
  destruct (_ && _) eqn:E; [|by apply with_inner_inv; try apply Hs].
  apply andb_true_iff in E as [_ Hip]. apply bool_decide_eq_true_1 in Hip.
  pose proof (remove_one_net_inv d s e Hs Ed) as H. rewrite Hip in H.
  unfold Lease.remove_one in H. by rewrite Ed, Hip in H.
Qed.

Lemma mark_lease_inv net gw v i :
  lease_inv net gw i → lease_inv net gw (Lease.mark_wireguard_change v i).
Proof. intros [H1 H2 H3 H4]. by split. Qed.

Lemma connect_net_inv now wall p ip sender s :
  net_inv s → net_inv (connect_wireguard_peer now wall p ip sender s).2.
Proof.
  intros [I1 I2 I3 I4]. unfold connect_wireguard_peer. destruct (_ || _) eqn:E; [by split|].
  apply orb_false_iff in E as [_ E].
  destruct (online_endpoints s !! ip) eqn:Ee; [done|]. split; simpl.
  - by apply mark_lease_inv.
  - by apply senders_insert_wg.
  - by apply sessions_wg_insert.
  - done.
Qed.

Lemma disconnect_net_inv now p ip s :
  net_inv s → net_inv (disconnect_wireguard_peer now p ip s).2.
Proof.
  intros [I1 I2 I3 I4]. unfold disconnect_wireguard_peer.
  destruct (online_endpoints s !! ip) as [[]|] eqn:Ee; simpl; [by split| |by split].
  case_bool_decide; simpl; [|by split]. split; simpl.
  - by apply mark_lease_inv.
  - by apply senders_delete.
  - by eapply sessions_wg_delete.
  - done.
Qed.

Lemma confirm_net_inv ip rid s : net_inv s → net_inv (confirm_endpoint ip rid s).
Proof.
  intros [I1 I2 I3 I4]. unfold confirm_endpoint.
  destruct (online_endpoints s !! ip) as [[r a c k p|]|] eqn:Ee; [|by split..].
  destruct (r =? rid); [|by split]. split; simpl; try done; [|by eapply sessions_confirm].
  intros jp. specialize (I2 jp). destruct (decide (ip = jp)) as [->|]; [|by rewrite lookup_insert_ne].
  rewrite lookup_insert_eq. by rewrite Ee in I2.
Qed.

Lemma latency_net_inv ip ms s : net_inv s → net_inv (update_client_latency ip ms s).
Proof.
  intros [I1 I2 I3 I4]. unfold update_client_latency.
  pose proof (LeaseFacts.latency_lease_inv _ _ ip ms _ I1) as Hi.
  unfold Lease.update_client_latency in *.
  destruct (device_ip_map (lease_state s) !! ip) as [d|]; [|by apply with_inner_inv].
  destruct (device_map (lease_state s) !! d) as [e|] eqn:Ed; [|by apply with_inner_inv].
  split; simpl; try done; [|by eapply stats_same].
  eapply sessions_same_entries; [done|..].
  - intros d2 e' [[<- <-]|[_ H]]%lookup_insert_Some; [by exists e|by exists e'].
  - intros d2 e2 H. destruct (decide (d = d2)) as [->|].
    + rewrite lookup_insert_eq. eexists. split; [done|]. by simplify_eq.
    + rewrite lookup_insert_ne by done. eauto 10.
Qed.

Lemma traffic_net_inv h t d s :
  net_inv s → stats_ok (device_map (lease_state s)) h →
  net_inv (with_lease h (lease_state s) (with_dashboard t d s)).
Proof. intros [I1 I2 I3 I4] Hst. by split. Qed.

Lemma net_step_inv s s' :
  net_network (ns_net s) < u32_max → net_step s s' → net_inv s → net_inv s'.
Proof.
  intros Hnet Hs Hi. destruct Hs.
  - by apply allocate_net_inv.
  - by apply offline_net_inv.
  - unfold remove_device_from_memory, Lease.remove_device_from_memory.
    destruct (device_map (lease_state s) !! d) as [e|] eqn:Ed; [|done].
    pose proof (remove_one_net_inv d s e Hi Ed) as H. by destruct (e_ip e).
  - by apply release_pre_net_inv.
  - by apply expire_net_inv.
  - by apply connect_net_inv.
  - by apply disconnect_net_inv.
  - by apply confirm_net_inv.
  - unfold record_tx_traffic. simpl. destruct (traffic_stats_map s !! ip) as [l|].
    + apply traffic_net_inv; [done|apply stats_write, Hi].
    + by apply (traffic_net_inv (stats_heap s)); [|apply Hi].
  - unfold record_rx_traffic. simpl. destruct (traffic_stats_map s !! ip) as [l|].
    + apply traffic_net_inv; [done|apply stats_write, Hi].
    + by apply (traffic_net_inv (stats_heap s)); [|apply Hi].
  - destruct Hi as [I1 I2 I3 I4]. by split.
  - by apply latency_net_inv.
  - unfold update_remote_wireguard_ips, Lease.update_remote_wireguard_ips.
    destruct (_ || _); [done|]. destruct Hi as [[] I2 I3 I4]. by split; [split|..].
  - unfold remove_remote_wireguard_source, Lease.remove_remote_wireguard_source.
    destruct (negb _); [done|]. destruct Hi as [[] I2 I3 I4]. by split; [split|..].
  - destruct Hi as [I1 I2 I3 I4]. by split.
  - apply with_inner_inv; [done|by eapply LeaseFacts.prepare_lease_inv; [apply Hi|]|].
    unfold Lease.prepare_wireguard_peer_ip_reservation in H; break.
  - apply with_inner_inv; [done|by apply LeaseFacts.commit_lease_inv, Hi|].
    unfold Lease.commit_wireguard_peer_ip_reservation; break.
  - apply with_inner_inv; [done|by apply LeaseFacts.rollback_lease_inv, Hi|].
    unfold Lease.rollback_wireguard_peer_ip_reservation; break.
  - apply with_inner_inv; [done|by apply LeaseFacts.release_lease_inv, Hi|done].
Qed.

(** *** The initial state *)

Lemma load_devices_offline net gw now l h dm ips v h' dm' ips' v' :
  stats_ok dm h → (∀ d e, dm !! d = Some e → e_is_connected e = false) →
  Lease.load_devices net gw now l (h, dm, ips, v) = Ret (h', dm', ips', v') →
  stats_ok dm' h' ∧ (∀ d e, dm' !! d = Some e → e_is_connected e = false).
Proof.
  revert h dm ips v. induction l as [|r l IH]; intros h dm ips v Hst Hoff H; cbn [Lease.load_devices] in H.
  { by simplify_eq. }
  destruct (from_record now r h) as [[e h1]|] eqn:Ef; [|done].
  unfold from_record in Ef. destruct (arc_new _ h) as [loc h2] eqn:Ea.
  destruct (i64_to_system_time _); [|done]. injection Ef as <- <-.
  eapply IH; [| |exact H].
  - by eapply stats_fresh.
  - intros d e [[_ <-]|[_ He]]%lookup_insert_Some; [done|by eapply Hoff].
Qed.

Lemma new_from_db_inv code net dur now instant records allocations s :
  LeaseFacts.db_leases_ok records allocations →
  new_from_db code net dur now instant records allocations ∅ = Ret s → net_inv s.
Proof.
  intros Hdb. unfold new_from_db.
  destruct (Lease.build_initial_inner_state _ _ _ _ _ _) as [[h i]|] eqn:E; [|done].
  intros [= <-].
  pose proof (LeaseFacts.initial_inv _ _ _ _ _ _ _ _ Hdb E) as [Hi _].
  unfold Lease.build_initial_inner_state in E.
  destruct (Lease.load_devices _ _ _ _ _) as [[[[h1 dm] ips] v]|] eqn:El; [|done].
  injection E as <- <-. apply load_devices_offline in El as [Hst Hoff].
  - split; simpl; [done| | |done].
    + intros ip. by rewrite !lookup_empty.
    + split; simpl; [intros * H; by rewrite lookup_empty in H|].
      intros d e ip Hd _ Hc. apply Hoff in Hd. congruence.
  - split; [intros d e H|intros d1 d2 e1 e2 H]; by rewrite lookup_empty in H.
  - intros d e H. by rewrite lookup_empty in H.
Qed.
End NetFacts.
End NetFacts.

(** ** Delivery and views *)

Module DeliveryFacts.
Section DeliveryFacts.
Context {NL : Ipv4NetLib} {NLL : Ipv4NetLaws} {PL : PnetLib} {PLL : PnetLaws}.
Context {U32 : NetU32Lib} {U32L : NetU32Laws}.
Context {W : Type} {MV : Mpsc W bytes} {MW : Mpsc W WireGuardBridgePacket}.
Context {MVL : MpscLaws W bytes} {MWL : MpscLaws W WireGuardBridgePacket}.
Implicit Types (s : NetworkState) (w : W).

(** What the receiver behind a sender has been sent. *)
Definition sender_queue (x : NetworkSender) (w : W) : list bytes :=
  match x with
  | SVnt q => mpsc_sent q w
  | SWireGuard _ q => bp_data <$> mpsc_sent q w
  end.

Lemma send_ok x data w w' :
  sender_try_send x data w = (None, w') → sender_queue x w' = sender_queue x w ++ [data].
Proof.
  destruct x as [q|code q]; simpl; intros H.
  - destruct (mpsc_try_send q data w) as [[e|] w1] eqn:E; simpl in H; [done|].
    simplify_eq. by apply mpsc_send_ok.
  - destruct (mpsc_try_send q _ w) as [[e|] w1] eqn:E; simpl in H; [done|].
    simplify_eq. apply mpsc_send_ok in E. by rewrite E, fmap_app.
Qed.

Lemma send_err x data w e w' : sender_try_send x data w = (Some e, w') → w' = w.
Proof.
  destruct x as [q|code q]; simpl; intros H;
    destruct (mpsc_try_send q _ w) as [[e0|] w1] eqn:E; simpl in H; simplify_eq;
    by apply mpsc_send_err in E.
Qed.

Lemma broadcast_target_Some src origin t e u :
  broadcast_target src origin (t, e) = Some u ↔
  u = t ∧ t ≠ src ∧ delivery_allowed WireGuardBroadcastRelay origin e = true.
Proof.
  unfold broadcast_target. destruct (Z.eqb_spec t src) as [->|Hne].
  { split; [done|]. by intros (_ & ? & _). }
  destruct origin, e as [r [] c [] p|p k]; simpl; split; try done;
    try (by intros [= <-]); try (by intros (-> & _ & _)); try (by intros (_ & _ & ?)).
  - destruct (has_capability _ _); [|done]. by intros [= <-].
  - intros (-> & _ & ->). done.
Qed.

Lemma broadcast_targets_elem src origin s t :
  t ∈ broadcast_targets src origin s ↔
  t ≠ src ∧ ∃ e, online_endpoints s !! t = Some e ∧
                 delivery_allowed WireGuardBroadcastRelay origin e = true.
Proof.
  unfold broadcast_targets. rewrite list_elem_of_omap. split.
  - intros ([u e] & Hin & Ht). apply elem_of_map_to_list in Hin.
    apply broadcast_target_Some in Ht as (-> & ? & ?). eauto.
  - intros (Hne & e & He & Ha). exists (t, e). split; [by apply elem_of_map_to_list|].
    by apply broadcast_target_Some.
Qed.

Lemma broadcast_targets_NoDup src origin s : NoDup (broadcast_targets src origin s).
Proof.
  unfold broadcast_targets.
  apply (sublist_NoDup _ ((map_to_list (online_endpoints s)).*1)); [apply NoDup_fst_map_to_list|].
  induction (map_to_list (online_endpoints s)) as [|[t e] l IH]; [constructor|].
  cbn [omap list_omap fmap list_fmap fst].
  destruct (broadcast_target src origin (t, e)) as [u|] eqn:E; [|by constructor].
  apply broadcast_target_Some in E as (-> & _). by constructor.
Qed.

(** The outcome of a delivery whose envelope decodes to a permitted type. *)
Lemma try_deliver_allowed dst data origin s w e p m :
  senders_ok (sender_map s) (online_endpoints s) →
  online_endpoints s !! dst = Some e → Packet.new data = Ok p → Packet.msg_type p = Ok m →
  delivery_allowed m origin e = true →
  ∃ r w', ((r = Delivered ∧ try_deliver dst data origin s w = (r, s, w')) ∨
    ((r = Full ∨ r = Closed) ∧ try_deliver dst data origin s w = (r, count_drop dst s, w'))).
Proof.
  intros Hs He Hp Hm Ha. unfold try_deliver. rewrite He, Hp, Hm, Ha. simpl.
  specialize (Hs dst). rewrite He in Hs. destruct (sender_map s !! dst) as [x|]; [|by destruct e].
  destruct (sender_try_send x data w) as [[[]|] w']; eauto 10.
Qed.

Lemma broadcast_envelope inner route t :
  bytes_ok inner → is_u 32 (source route) → is_u 32 t →
  ∃ p, Packet.new (Bridge.build_wireguard_broadcast_relay inner route t) = Ok p ∧
       Packet.msg_type p = Ok WireGuardBroadcastRelay.
Proof.
  intros Hb Hr Ht. unfold Bridge.build_wireguard_broadcast_relay.
  destruct (BridgeFacts.build_envelope_spec WireGuardBroadcastRelay inner (source route) t Hb Hr Ht)
    as (p & Hp & _ & Hm & _). by exists p.
Qed.

Lemma relay_to_cons inner route origin t targets k s w :
  relay_to inner route origin (t :: targets) k s w =
  let data := Bridge.build_wireguard_broadcast_relay inner route t in
  match try_deliver t data origin s w with
  | (Delivered, s, w) =>
      relay_to inner route origin targets (S k) (record_rx_traffic t (Z.of_nat (length data)) s) w
  | (_, s, w) => relay_to inner route origin targets k s w
  end.
Proof. reflexivity. Qed.

Lemma relay_to_accounting inner route origin targets s w k n s' w' :
  bytes_ok inner → is_u 32 (source route) →
  senders_ok (sender_map s) (online_endpoints s) → is_u 64 (dashboard_wireguard_drops s) →
  (∀ t, t ∈ targets → is_u 32 t ∧ ∃ e, online_endpoints s !! t = Some e ∧
     delivery_allowed WireGuardBroadcastRelay origin e = true) →
  relay_to inner route origin targets k s w = (n, s', w') →
  (k ≤ n ≤ k + length targets)%nat ∧ sender_map s' = sender_map s ∧
  online_endpoints s' = online_endpoints s ∧
  dashboard_wireguard_drops s' =
    wrap 64 (dashboard_wireguard_drops s + Z.of_nat (k + length targets - n)).
Proof.
  intros Hb Hr. revert s w k. induction targets as [|t targets IH]; intros s w k Hs Hd Ht H.
  { injection H as <- <- <-. simpl. split_and!; try done; try lia.
    replace (k + 0 - k)%nat with 0%nat by lia. rewrite Z.add_0_r. symmetry. by apply wrap_small. }
  rewrite relay_to_cons in H. destruct (Ht t ltac:(left)) as (Htu & e & He & Ha).
  destruct (broadcast_envelope inner route t Hb Hr Htu) as (p & Hp & Hm).
  set (data := Bridge.build_wireguard_broadcast_relay inner route t) in *. clearbody data.
  cbn zeta in H.
  destruct (try_deliver_allowed t _ origin s w e p _ Hs He Hp Hm Ha)
    as (r & w1 & [[-> Htd]|[Hrr Htd]]); rewrite Htd in H.
  - set (s1 := record_rx_traffic t _ s) in *.
    assert (sender_map s1 = sender_map s ∧ online_endpoints s1 = online_endpoints s ∧
      dashboard_wireguard_drops s1 = dashboard_wireguard_drops s) as (E1 & E2 & E3).
    { unfold s1, record_rx_traffic. simpl. by destruct (traffic_stats_map s !! t). }
    apply IH in H as (H1 & H2 & H3 & H4); rewrite ?E1, ?E2, ?E3 in *; try done.
    + simpl length. split_and!; try done; try lia. rewrite H4. f_equal. lia.
    + intros u Hu. apply Ht. by right.
  - assert (relay_to inner route origin targets k (count_drop t s) w1 = (n, s', w')) as H'
      by (by destruct Hrr as [-> | ->]).
    apply IH in H' as (H1 & H2 & H3 & H4); try done.
    + simpl length. split_and!; try done; try lia. rewrite H4. simpl. unfold u64_add, wrap.
      rewrite Zplus_mod_idemp_l. f_equal. lia.
    + simpl. by apply wrap_range.
    + intros u Hu. apply Ht. by right.
Qed.

(** Membership in the list of devices sent to a client. *)
Lemma vnt_infos_elem keep exclude s d e ip :
  device_map (lease_state s) !! d = Some e → e_ip e = Some ip → ip ≠ exclude → keep e = true →
  mkClientSimpleInfo ip (e_is_connected e) Vnt ∈ vnt_infos keep exclude s.
Proof.
  intros Hd Hip Hne Hk. unfold vnt_infos. apply list_elem_of_omap. exists (d, e).
  split; [by apply elem_of_map_to_list|]. simpl. by rewrite Hip, Hk, (proj2 (Z.eqb_neq _ _) Hne).
Qed.
End DeliveryFacts.
End DeliveryFacts.

(** ** Theorems *)

Section Theorems.
Context {NL : Ipv4NetLib} {NLL : Ipv4NetLaws} {PL : PnetLib} {PLL : PnetLaws}.
Context {U32 : NetU32Lib} {U32L : NetU32Laws}.
Context {W : Type} {MV : Mpsc W bytes} {MW : Mpsc W WireGuardBridgePacket}.
Context {MVL : MpscLaws W bytes} {MWL : MpscLaws W WireGuardBridgePacket}.
Implicit Types (s : NetworkState) (w : W).

Lemma net_step_const s s' :
  net_step s s' → ns_net s' = ns_net s ∧ ns_gateway s' = ns_gateway s.
Proof.
  destruct 1; unfold allocate_ip_and_get_entry, offline_ip, remove_device_from_memory,
    release_pre_registered_ip, connect_wireguard_peer, disconnect_wireguard_peer, confirm_endpoint,
    record_tx_traffic, record_rx_traffic, update_remote_wireguard_ips,
    remove_remote_wireguard_source; try done; simpl; repeat (case_match; simplify_eq/=; try done).
Qed.

Lemma net_steps_inv s s' :
  rtc net_step s s' → net_network (ns_net s) < u32_max → net_inv s →
  net_inv s' ∧ ns_net s' = ns_net s ∧ ns_gateway s' = ns_gateway s.
Proof.
  induction 1 as [s|s s1 s' Hs _ IH]; intros Hn Hi; [done|].
  destruct (net_step_const _ _ Hs) as [E1 E2]. rewrite <- E1, <- E2. apply IH; [by rewrite E1|].
  by eapply NetFacts.net_step_inv.
Qed.


(** C14: delivery.  A packet is delivered only to an online endpoint that the
    policy table admits for its message type and origin, and is then the last
    one in that endpoint's queue; a WireGuard peer receives the three relay types
    only, and a VNT client receives them only from WireGuard peers, after
    confirming a registration that allows WireGuard; in every other case no
    queue changes, and only a full or closed queue counts a drop. *)
Theorem try_deliver_spec dst data origin s w r s' w' :
  try_deliver dst data origin s w = (r, s', w') →
  match r with
  | Delivered => s' = s ∧ ∃ e p m x, online_endpoints s !! dst = Some e ∧
      Packet.new data = Ok p ∧ Packet.msg_type p = Ok m ∧
      delivery_allowed m origin e = true ∧ sender_map s !! dst = Some x ∧
      DeliveryFacts.sender_queue x w' = DeliveryFacts.sender_queue x w ++ [data] ∧
      let relay := bool_decide (m = WireGuardRelay ∨ m = WireGuardBroadcastRelay ∨
                                m = WireGuardSubnetRelay) in
      match e with
      | EpWireGuard _ _ => relay = true
      | EpVnt _ allow caps confirmed _ => relay = true →
          origin = OriginWireGuard ∧ allow = true ∧ confirmed = true ∧
          (m = WireGuardSubnetRelay → has_capability caps CLIENT_CAP_WIREGUARD_SUBNET_RELAY = true) ∧
          (m = WireGuardBroadcastRelay →
             has_capability caps CLIENT_CAP_WIREGUARD_BROADCAST_RELAY = true)
      end
  | NotFound | Rejected => s' = s ∧ w' = w
  | Full | Closed => w' = w ∧
      dashboard_wireguard_drops s' = u64_add (dashboard_wireguard_drops s) 1 ∧
      online_endpoints s' = online_endpoints s ∧ sender_map s' = sender_map s
  end.
Proof.
  unfold try_deliver. destruct (online_endpoints s !! dst) as [e|] eqn:He; [|by intros [= <- <- <-]].
  destruct (Packet.new data) as [p|] eqn:Hp; [|by intros [= <- <- <-]].
  destruct (Packet.msg_type p) as [m|] eqn:Hm; [|by intros [= <- <- <-]].
  destruct (delivery_allowed m origin e) eqn:Ha; simpl; [|by intros [= <- <- <-]].
  destruct (sender_map s !! dst) as [x|] eqn:Hx; [|by intros [= <- <- <-]].
  destruct (sender_try_send x data w) as [[[]|] w1] eqn:Es; intros [= <- <- <-].
  - by apply DeliveryFacts.send_err in Es.
  - by apply DeliveryFacts.send_err in Es.
  - split; [done|]. exists e, p, m, x. split_and!; try done; [by apply DeliveryFacts.send_ok|].
    destruct m, origin, e as [rid [] caps [] p2p|]; simpl in Ha |- *;
      try done; by intros _.
Qed.

(** A WireGuard broadcast goes to exactly the endpoints the delivery policy
    admits, once each and never back to its source; every copy is either
    delivered or counted as a drop, and the routing tables do not change. *)
Theorem broadcast_targets_exact src inner origin s w n s' w' :
  bytes_ok inner → is_u 32 src → senders_ok (sender_map s) (online_endpoints s) →
  is_u 64 (dashboard_wireguard_drops s) → (∀ ip, is_Some (online_endpoints s !! ip) → is_u 32 ip) →
  relay_wireguard_broadcast src inner origin s w = Ok (n, s', w') →
  let targets := broadcast_targets src origin s in
  NoDup targets ∧
  (∀ t, t ∈ targets ↔ t ≠ src ∧ ∃ e, online_endpoints s !! t = Some e ∧
     delivery_allowed WireGuardBroadcastRelay origin e = true) ∧
  (n ≤ length targets)%nat ∧
  dashboard_wireguard_drops s' =
    wrap 64 (dashboard_wireguard_drops s + Z.of_nat (length targets - n)) ∧
  sender_map s' = sender_map s ∧ online_endpoints s' = online_endpoints s.
Proof.
  intros Hb Hsrc Hs Hd Hips H targets.
  split; [apply DeliveryFacts.broadcast_targets_NoDup|].
  split; [apply DeliveryFacts.broadcast_targets_elem|].
  unfold relay_wireguard_broadcast in H. fold targets in H.
  destruct (Bridge.validate_broadcast_inner_ipv4 _ _ _ _) as [route|] eqn:Ev;
    cbn [mbind result_bind] in H; [|done].
  apply BridgeFacts.validate_broadcast_ok in Ev as (_ & _ & Er & _).
  assert (relay_to inner route origin targets 0 s w = (n, s', w')) as H' by congruence.
  apply DeliveryFacts.relay_to_accounting in H' as (H1 & H2 & H3 & H4); try done.
  - split_and!; try done; lia.
  - by rewrite Er.
  - intros t [_ (e & He & Ha)]%DeliveryFacts.broadcast_targets_elem.
    split; [apply Hips; eauto|by exists e].
Qed.

(** Traffic is attributed to the device that caused it.  Bytes recorded at
    the address of an online device appear in the record saved when it goes
    offline, on top of its previous count, and no other device's counters
    change. *)
Theorem traffic_attribution s d e ip n wall :
  net_inv s → device_map (lease_state s) !! d = Some e → e_ip e = Some ip →
  e_is_connected e = true → usable (ns_net s) (ns_gateway s) ip →
  (∃ r, (offline_ip d ip (e_random_id e) wall (record_tx_traffic ip n s)).1 = Some r ∧
     r_device_id r = d ∧
     r_tx_bytes r = u64_as_i64 (u64_add (tx (arc_get (e_traffic_stats e) (stats_heap s))) n)) ∧
  (∀ d2 e2, d2 ≠ d → device_map (lease_state s) !! d2 = Some e2 →
     arc_get (e_traffic_stats e2) (stats_heap (record_tx_traffic ip n s)) =
     arc_get (e_traffic_stats e2) (stats_heap s)).
Proof.
  intros [I1 I2 [S1 S2] [T1 T2]] Hd Hip Hc Hu.
  destruct (S2 _ _ _ Hd Hip Hc Hu) as (a & c & k & p & He).
  assert (traffic_stats_map s !! ip = Some (e_traffic_stats e)) as Hl.
  { destruct (S1 _ _ _ _ _ _ He) as (d2 & e2 & H1 & H2 & _ & _ & H5).
    destruct (decide (d2 = d)) as [->|Hne]; [congruence|].
    by destruct (NetFacts.sole_holder _ _ (lease_state s) d e ip d2 e2 I1 Hd Hip Hne H1 Hu). }
  unfold record_tx_traffic. simpl traffic_stats_map. rewrite Hl.
  set (l := e_traffic_stats e) in *. split.
  - unfold offline_ip, Lease.offline_ip. cbn [lease_state with_lease with_dashboard]. rewrite Hd.
    rewrite Z.eqb_refl. cbn [negb]. rewrite bool_decide_eq_false_2 by auto. cbn [fst].
    eexists. split; [reflexivity|]. cbn [r_device_id to_record r_tx_bytes e_traffic_stats e_device_id].
    split; [by eapply inv_ids|]. unfold arc_get at 1. cbn [stats_heap with_lease with_dashboard].
    fold l. by rewrite lookup_insert_eq.
  - intros d2 e2 Hne Hd2. unfold arc_get. cbn [stats_heap with_lease with_dashboard].
    rewrite lookup_insert_ne; [done|]. intros Heq. apply Hne. symmetry. by eapply T2.
Qed.

(** A stale session is harmless.  Once a device has reconnected under a new
    random id, the cleanup of an earlier session neither takes it offline nor
    releases its address, whatever other tasks do meanwhile. *)
Theorem stale_session_harmless s d e ip rid wall meanwhile :
  device_map (lease_state s) !! d = Some e → e_random_id e ≠ rid →
  offline_ip d ip rid wall s = (None, s) ∧
  release_pre_registered_ip d ip rid meanwhile s = meanwhile s.
Proof.
  intros Hd Hr. assert (with_inner (lease_state s) s = s) as Hid by (by destruct s).
  unfold offline_ip, Lease.offline_ip, release_pre_registered_ip, Lease.release_pre_registered_ip.
  rewrite Hd, (proj2 (Z.eqb_neq _ _) Hr). simpl. by rewrite Hid.
Qed.

(** C15: clients do not miss changes.  Let a client know the device list of the
    state [i0] at version [v].  After any locked sections that the version
    counter can count, the update it is sent carries the current version and
    lists every device with an address other than its own that is new or whose
    address or online flag differs from [i0]; no update is sent only if there is
    no such device. *)
Theorem client_list_delta_complete n h0 i0 s exclude wg :
  version_inv i0 → data_version i0 + Z.of_nat n ≤ u64_max →
  nsteps (lease_step (ns_net s) (ns_gateway s)) n (h0, i0) (stats_heap s, lease_state s) →
  let known d e := ∃ e0, device_map i0 !! d = Some e0 ∧ e_ip e0 = e_ip e ∧
                         e_is_connected e0 = e_is_connected e in
  match changed_client_simple_list exclude (data_version i0) wg s with
  | None => ∀ d e, device_map (lease_state s) !! d = Some e → known d e
  | Some l => csl_data_version l = data_version (lease_state s) ∧
      ∀ d e ip, device_map (lease_state s) !! d = Some e → e_ip e = Some ip → ip ≠ exclude →
        known d e ∨ mkClientSimpleInfo ip (e_is_connected e) Vnt ∈ csl_list l
  end.
Proof.
  intros Hi Hn Hs known.
  destruct (LeaseFacts.lease_steps_version _ _ n _ _ Hs Hi Hn) as (Hi' & _ & Hk). cbn [snd] in *.
  assert (∀ d e, device_map (lease_state s) !! d = Some e → e_data_version e ≤ data_version i0 →
    known d e) as Hknown.
  { intros d e Hd Hv. destruct (Hk d e Hd Hv) as (e0 & ? & ? & ? & _). by exists e0. }
  unfold changed_client_simple_list. destruct (Z.eqb_spec (data_version i0) (data_version (lease_state s))) as [Heq|Hne].
  { intros d e Hd. apply Hknown; [done|]. rewrite Heq. by eapply inv_entry_version. }
  destruct (_ || _); cbn [csl_data_version csl_list]; (split; [done|]); intros d e ip Hd Hip Hex.
  - right. assert (mkClientSimpleInfo ip (e_is_connected e) Vnt ∈ vnt_infos (λ _, true) exclude s)
      by (by eapply DeliveryFacts.vnt_infos_elem).
    destruct wg; [|done]. apply elem_of_app. left. apply elem_of_app. by left.
  - destruct (decide (data_version i0 < e_data_version e)).
    + right. eapply DeliveryFacts.vnt_infos_elem; try done. by apply Z.ltb_lt.
    + left. apply Hknown; [done|lia].
Qed.

(** The lease lock does not cover the queues.  [release_pre_registered_ip]
    frees the address under the lease lock and forgets the queue after it: if
    another device is given the freed address in between, the cleanup removes
    the queue and endpoint of that device, which stays online in the lease
    table but cannot be reached. *)
Theorem release_pre_registered_race s d e ip rid req rid2 wall sender p2p old entry s2 :
  net_network (ns_net s) < u32_max → net_inv s →
  device_map (lease_state s) !! d = Some e → e_random_id e = rid → e_ip e = Some ip →
  usable (ns_net s) (ns_gateway s) ip →
  let freed := with_inner (Lease.release_pre_registered_ip d ip rid (lease_state s)).2 s in
  allocate_ip_and_get_entry req rid2 wall sender p2p freed = (Ok (ip, old, entry), s2) →
  let s' := release_pre_registered_ip d ip rid
              (λ x, (allocate_ip_and_get_entry req rid2 wall sender p2p x).2) s in
  is_device_online (device_id req) s' = true ∧ sender_map s' !! ip = None ∧
  online_endpoints s' !! ip = None ∧ lease_table (lease_state s') !! ip = Some (HDevice (device_id req)).
Proof.
  intros Hnet Hi Hd Hr Hip Hu freed Ha s'.
  assert (net_inv (forget_ip ip freed)) as Hfi.
  { pose proof (NetFacts.release_pre_net_inv d ip rid s Hi) as H. unfold release_pre_registered_ip in H.
    unfold freed. unfold Lease.release_pre_registered_ip in *.
    rewrite Hd, Hr, Z.eqb_refl, bool_decide_eq_true_2 in H |- * by done. exact H. }
  assert (s' = forget_ip ip s2) as ->.
  { unfold s', release_pre_registered_ip. unfold freed in Ha.
    unfold Lease.release_pre_registered_ip in *.
    rewrite Hd, Hr, Z.eqb_refl, bool_decide_eq_true_2 in Ha |- * by done.
    cbn [andb snd] in *. by rewrite Ha. }
  assert (ns_net freed = ns_net s ∧ ns_gateway freed = ns_gateway s) as [En Eg] by done.
  pose proof (ni_lease _ Hfi) as Hfl. cbn [ns_net ns_gateway lease_state forget_ip with_stats_map with_endpoints] in Hfl.
  rewrite En, Eg in Hfl. clearbody freed.
  unfold allocate_ip_and_get_entry in Ha. rewrite En, Eg in Ha.
  destruct (Lease.allocate_ip _ _ _ _ _ _ _) as [[[ip' old'] [h i]]|] eqn:E; [|done].
  pose proof (LeaseFacts.allocate_lease_inv _ _ Hnet _ _ _ _ _ _ _ Hfl E) as Hli. simpl in Hli.
  apply NetFacts.alloc_summary in E as (e' & Hm & Hip' & Hc & _).
  assert (device_map i !! device_id req = Some e') as Hl by (by rewrite Hm, lookup_insert_eq).
  cbn zeta in Ha. rewrite Hl in Ha. injection Ha as -> -> _ <-.
  unfold is_device_online. simpl. rewrite !lookup_delete_eq.
  assert (lease_state match old with Some o => forget_ip o (with_lease h i freed)
    | None => with_lease h i freed end = i) as -> by (by destruct old).
  rewrite Hl. split_and!; try done.
  rewrite TableFacts.table_lookup. by rewrite (inv_owner _ _ _ Hli _ _ _ Hl Hip' Hu).
Qed.
End Theorems.

(** ** Witnesses *)

Module NetWitness.
Import Model LeaseWitness.

Definition Wd : Type := world bytes WireGuardBridgePacket.
#[local] Instance MV : Mpsc Wd bytes := mpsc_fst bytes WireGuardBridgePacket.
#[local] Instance MW : Mpsc Wd WireGuardBridgePacket := mpsc_snd bytes WireGuardBridgePacket.
#[local] Instance MVL : MpscLaws Wd bytes := mpsc_fst_laws _ _.
#[local] Instance MWL : MpscLaws Wd WireGuardBridgePacket := mpsc_snd_laws _ _.

Definition w0 : Wd := ({[ 0%nat := mkQueue 4 true [] ]}, {[ 0%nat := mkQueue 4 true [] ]}).

Definition dead : NetworkState (W := Wd) :=
  mkNetworkState 0 "" gw net24 0 ∅ ∅ ∅ empty.2 ∅ ∅ Traffic.new 0.
Definition s0 : NetworkState (W := Wd) :=
  match new_from_db "net" net24 (from_secs 3600) 5 0 records allocations ∅ with
  | Ret s => s | Panic => dead end.
(** Device "b" registers; then peer "p" connects. *)
Definition s1 : NetworkState := (allocate_ip_and_get_entry (req "b" None false) 42 1000 0%nat None s0).2.
Definition s2 : NetworkState := (connect_wireguard_peer 2 2000 "p" (host 9) 0%nat s1).2.

Lemma s0_eq : new_from_db "net" net24 (from_secs 3600) 5 0 records allocations ∅ = Ret s0.
Proof.
  assert (match new_from_db (W := Wd) "net" net24 (from_secs 3600) 5 0 records allocations ∅ with
          | Ret _ => true | Panic => false end = true) as H by (vm_compute; reflexivity).
  unfold s0. by destruct (new_from_db _ _ _ _ _ _ _ _).
Defined.
Lemma s1_steps : rtc net_step s0 s1.
Proof. apply rtc_once, net_allocate. Defined.
Lemma s0_inv : net_inv s0.
Proof. exact (NetFacts.new_from_db_inv _ _ _ _ _ _ _ _ db_ok s0_eq). Defined.
Lemma s1_inv : net_inv s1.
Proof. refine (NetFacts.net_step_inv s0 s1 _ (net_allocate _ _ _ _ _ _) s0_inv). vm_compute. reflexivity. Defined.
Lemma s2_inv : net_inv s2.
Proof. refine (NetFacts.net_step_inv s1 s2 _ (net_connect _ _ _ _ _ _) s1_inv). vm_compute. reflexivity. Defined.

Definition eb : DeviceEntry := entry "b" (stats_heap s1, lease_state s1).
Lemma eb_eq : device_map (lease_state s1) !! "b"%string = Some eb.
Proof. vm_compute. reflexivity. Defined.
Lemma host3_usable : usable (ns_net s1) (ns_gateway s1) (host 3).
Proof. split; vm_compute; [reflexivity|discriminate]. Defined.


(** A relay envelope for the peer, from a VNT client. *)
Definition relay_data : bytes :=
  Bridge.build_wireguard_relay [1; 2; 3] (mkIpv4Route (host 3) (host 9)).
Definition delivered : LocalDeliveryResult * NetworkState * Wd :=
  try_deliver (host 9) relay_data OriginVnt s2 w0.

Lemma try_deliver_spec_witness : delivered.1.1 = Delivered ∧ delivered.1.2 = s2.
Proof.
  assert (delivered.1.1 = Delivered) as Hr by (vm_compute; reflexivity).
  split; [exact Hr|].
  assert (delivered = (delivered.1.1, delivered.1.2, delivered.2)) as Heq
    by (by destruct delivered as [[]]).
  unfold delivered at 1 in Heq. apply try_deliver_spec in Heq. rewrite Hr in Heq. apply Heq.
Defined.

(** A limited broadcast of device "b". *)
Definition bcast : bytes :=
  [69; 0; 0; 24; 0; 0; 0; 0; 64; 17; 0; 0; 10; 26; 0; 3; 255; 255; 255; 255; 1; 2; 3; 4].
Definition bresult : nat * NetworkState * Wd :=
  match relay_wireguard_broadcast (host 3) bcast OriginVnt s2 w0 with
  | Ok r => r | Err _ => (0%nat, dead, w0) end.

Lemma broadcast_targets_exact_witness :
  bresult.1.1 = 1%nat ∧ host 3 ∉ broadcast_targets (host 3) OriginVnt s2.
Proof.
  split; [vm_compute; reflexivity|].
  assert (relay_wireguard_broadcast (host 3) bcast OriginVnt s2 w0 = Ok (bresult.1.1, bresult.1.2, bresult.2)) as He.
  { assert (is_ok (relay_wireguard_broadcast (host 3) bcast OriginVnt s2 w0) = true) as Hok
      by (vm_compute; reflexivity).
    unfold bresult. destruct (relay_wireguard_broadcast _ _ _ _ _) as [[[]]|]; [done|discriminate Hok]. }
  destruct (broadcast_targets_exact (host 3) bcast OriginVnt s2 w0 bresult.1.1 bresult.1.2 bresult.2)
    as (_ & Ht & _); [..|exact He|].
  - apply (bool_decide_eq_true_1 _). vm_compute. reflexivity.
  - apply (bool_decide_eq_true_1 _). vm_compute. reflexivity.
  - apply s2_inv.
  - apply (bool_decide_eq_true_1 _). vm_compute. reflexivity.
  - assert (forallb (λ x, bool_decide (is_u 32 x.1)) (map_to_list (online_endpoints s2)) = true) as Hf
      by (vm_compute; reflexivity).
    intros ip [e He']. apply elem_of_map_to_list, list_elem_of_In in He'.
    apply (proj1 (forallb_forall _ _) Hf) in He'. exact (bool_decide_eq_true_1 _ He').
  - intros Hin. apply Ht in Hin as [Hne _]. by apply Hne.
Defined.

Lemma traffic_attribution_witness :
  ∃ r, (offline_ip "b" (host 3) 42 3000 (record_tx_traffic (host 3) 500 s1)).1 = Some r ∧
       r_tx_bytes r = 500.
Proof.
  destruct (traffic_attribution s1 "b" eb (host 3) 500 3000 s1_inv eb_eq) as [(r & H1 & _ & H2) _];
    [vm_compute; reflexivity|vm_compute; reflexivity|apply host3_usable|].
  exists r. split; [exact H1|]. rewrite H2. vm_compute. reflexivity.
Defined.

Lemma stale_session_harmless_witness : offline_ip "b" (host 3) 41 3000 s1 = (None, s1).
Proof. refine (proj1 (stale_session_harmless s1 "b" eb (host 3) 41 3000 id eb_eq _)). vm_compute. discriminate. Defined.

Lemma client_list_delta_complete_witness :
  ∃ l, changed_client_simple_list (host 2) 0 false s1 = Some l ∧
       mkClientSimpleInfo (host 3) true Vnt ∈ csl_list l.
Proof.
  assert (version_inv (lease_state s0)) as Hv.
  { refine (proj1 (proj2 (LeaseFacts.initial_inv net24 gw 5 records allocations ∅ init.1 init.2 db_ok _))).
    rewrite init_eq. by destruct init. }
  assert (nsteps (lease_step (ns_net s1) (ns_gateway s1)) 1 (stats_heap s0, lease_state s0)
    (stats_heap s1, lease_state s1)) as Hs.
  { eapply nsteps_l; [|apply nsteps_O].
    apply (step_allocate _ _ (req "b" None false) 42 1000 _ _ (host 3, None)). vm_compute. reflexivity. }
  pose proof (client_list_delta_complete 1 (stats_heap s0) (lease_state s0) s1 (host 2) false Hv
    ltac:(vm_compute; discriminate) Hs) as H. cbn zeta in H.
  assert (data_version (lease_state s0) = 0) as E0 by (vm_compute; reflexivity). rewrite E0 in H.
  destruct (changed_client_simple_list (host 2) 0 false s1) as [l|] eqn:E; [|vm_compute in E; discriminate E].
  exists l. split; [done|]. destruct H as [_ H].
  destruct (H "b"%string eb (host 3) eb_eq) as [(e0 & He0 & _)|Hin];
    [vm_compute; reflexivity|vm_compute; discriminate| |exact Hin].
  vm_compute in He0. discriminate He0.
Defined.

Definition freed : NetworkState :=
  with_inner (Lease.release_pre_registered_ip "b" (host 3) 42 (lease_state s1)).2 s1.
Definition raced := allocate_ip_and_get_entry (req "c" None false) 43 1500 0%nat None freed.

Lemma release_pre_registered_race_witness :
  is_device_online "c" (release_pre_registered_ip "b" (host 3) 42
    (λ x, (allocate_ip_and_get_entry (req "c" None false) 43 1500 0%nat None x).2) s1) = true.
Proof.
  assert (raced.1 = Ok (host 3, None, device_map (lease_state raced.2) !! "c"%string)) as Hr
    by (vm_compute; reflexivity).
  refine (proj1 (release_pre_registered_race s1 "b" eb (host 3) 42 (req "c" None false) 43 1500 0%nat
    None None (device_map (lease_state raced.2) !! "c"%string) raced.2 _ s1_inv eb_eq _ _ host3_usable _)).
  - vm_compute. reflexivity.
  - vm_compute. reflexivity.
  - vm_compute. reflexivity.
  - cbn zeta. fold freed. change (raced = (Ok (host 3, None, device_map (lease_state raced.2) !! "c"%string), raced.2)).
    rewrite <- Hr. apply surjective_pairing.
Defined.
End NetWitness.
