(* ===== verification/Service.v ===== *)
(** The control service: [server/control_server/service.rs] and the shared view
    [NetworkStateProvider].

    The networks in memory are [Arc]s: the provider maps a network code to a
    location of an arena, and a session keeps the location it registered with,
    which the provider may have dropped or replaced meanwhile.  The database is
    outside the program: what it answers is an argument, what is written to it
    is appended to [db_writes] in program order.  [peer] is the cluster
    component, when there is one. *)

From S2P Require Import Prelude Libs Std Packet ControlMessage Bridge Lease NetState.
From stdpp Require Import base gmap strings list.
From Stdlib Require Import ZArith Lia.

Local Open Scope Z_scope.

Inductive NetworkSource := SrcConfig | SrcManual | SrcDeviceRegister.

Definition NetworkSource_from_i32 (x : Z) : NetworkSource :=
  if x =? 0 then SrcConfig else if x =? 1 then SrcManual
  else if x =? 2 then SrcDeviceRegister else SrcConfig.

Record NetworkRecord := mkNetworkRecord {
  nr_network_code : string; nr_gateway : string; nr_netmask : Z; nr_lease_duration : Z;
  nr_source : NetworkSource; nr_created_at : Z }.

(** [db::ClusterLeaseGrant]. *)
Record ClusterLeaseGrant := mkClusterLeaseGrant { gr_ip : Ipv4Addr; gr_revision : Z; gr_expires_at : Z }.

(** What the service asks of the database. *)
Inductive DbWrite :=
| SaveNetwork (r : NetworkRecord)
| SaveNetworkIfNotExists (r : NetworkRecord)
| UpdateNetwork (code gateway : string) (netmask lease_duration : Z)
| DeleteNetwork (code : string)
| SaveDevice (r : DeviceRecord)
| DeleteDevice (code device_id : string)
| ReleaseDeviceIp (code device_id : string).

Inductive ServiceError :=
| BadRequest (e : MsgError)
| ClusterErr
| Alloc (e : NetError)
| NetworkExists (code : string)
| NetworkMissing (code : string)
| NetworkInUse
| InvalidNetwork
| DeviceOnline
| DatabaseErr.

Inductive RegistrationStatus := Confirmed | PendingConfirmation.
#[export] Instance RegistrationStatus_eq_dec : EqDecision RegistrationStatus.
Proof. solve_decision. Defined.

Section Service.
Context {NL : Ipv4NetLib} {PL : PnetLib} {U32 : NetU32Lib}.
Context {W : Type} {MV : Mpsc W bytes} {MW : Mpsc W WireGuardBridgePacket}.

Record NetworkConfig := mkNetworkConfig {
  cfg_net : Ipv4Net; cfg_lease_duration : Z; cfg_source : NetworkSource }.

Definition to_ipv4_net (r : NetworkRecord) : option Ipv4Net :=
  gateway ← ipv4_parse (nr_gateway r);
  net_new (u32_sub gateway 1) (nr_netmask r).

Record Global := mkGlobal {
  default_net : Ipv4Net;
  default_lease_duration : Z;
  db_nets : gmap string NetworkConfig;
  network_states : gmap string positive;
  arena : gmap positive NetworkState;
  queues : W;
  db_writes : list DbWrite
}.

Definition with_nets (m : gmap string NetworkConfig) (g : Global) : Global :=
  mkGlobal (default_net g) (default_lease_duration g) m (network_states g) (arena g) (queues g)
    (db_writes g).
Definition with_states (m : gmap string positive) (a : gmap positive NetworkState) (g : Global)
    : Global :=
  mkGlobal (default_net g) (default_lease_duration g) (db_nets g) m a (queues g) (db_writes g).
Definition with_queues (w : W) (g : Global) : Global :=
  mkGlobal (default_net g) (default_lease_duration g) (db_nets g) (network_states g) (arena g) w
    (db_writes g).
Definition db_write (x : DbWrite) (g : Global) : Global :=
  mkGlobal (default_net g) (default_lease_duration g) (db_nets g) (network_states g) (arena g)
    (queues g) (db_writes g ++ [x]).
(** A write through the [Arc] at [l]. *)
Definition set_state (l : positive) (s : NetworkState) (g : Global) : Global :=
  with_states (network_states g) (<[l := s]> (arena g)) g.

(** The cluster component ([PeerServerManager]) as the service sees it. *)
Record PeerOps := mkPeerOps {
  acquire_lease : string → string → string → option Ipv4Addr → Ipv4Net → Ipv4Addr → Z → bool →
    Global → result ServiceError (option ClusterLeaseGrant) * Global;
  release_lease : string → string → string → Global → result ServiceError unit * Global;
  forward_with_best_route : string → Ipv4Addr → bytes → RelayOrigin → Global → bool * Global;
  broadcast_wireguard : string → Ipv4Addr → bytes → RelayOrigin → Global → Global
}.

(** ** Start-up *)

(** [save_config_networks_to_db], over the custom networks of the configuration. *)
Definition save_config_networks_to_db (custom_nets : gmap string Ipv4Net) (lease_duration now : Z)
    (g : Global) : Global :=
  fold_left (λ g '(code, net),
    db_write (SaveNetworkIfNotExists (mkNetworkRecord code
      (ipv4_to_string (u32_add (net_network net) 1)) (net_prefix_len net)
      (u64_as_i64 (as_secs lease_duration)) SrcConfig (system_time_to_i64 now))) g)
    (map_to_list custom_nets) g.

Definition load_networks_from_db (records : list NetworkRecord) : gmap string NetworkConfig :=
  fold_left (λ m r, match to_ipv4_net r with
                    | Some net => <[nr_network_code r :=
                        mkNetworkConfig net (from_secs (i64_as_u64 (nr_lease_duration r)))
                          (nr_source r)]> m
                    | None => m
                    end) records ∅.

(** ** Networks in memory *)

(** [Ipv4Net::new_assert] panics on a prefix above 32; the literal 24 is not. *)
Definition network_config (code : string) (ip : option Ipv4Addr) (g : Global)
    : outcome NetworkConfig :=
  match db_nets g !! code with
  | Some config => Ret config
  | None =>
      match match ip with
            | Some ip => n ← net_new ip 24; net_new (net_network n) 24
            | None => Some (default_net g)
            end with
      | Some net => Ret (mkNetworkConfig net (default_lease_duration g) SrcDeviceRegister)
      | None => Panic
      end
  end.

Definition touch (instant : Z) (l : positive) (g : Global) : Global :=
  match arena g !! l with
  | Some s => set_state l (update_time instant s) g
  | None => g
  end.

(** What [new_from_db] reads for a network. *)
Record DbLoad := mkDbLoad { ld_records : list DeviceRecord; ld_allocations : list (Ipv4Addr * string) }.

(** Double-checked: [meanwhile] is what other tasks do while this one waits for
    the initialisation lock of the network. *)
Definition get_or_create_network_state (code : string) (config : NetworkConfig)
    (load : DbLoad) (wall instant : Z) (meanwhile : Global → Global) (g : Global)
    : outcome (positive * Global) :=
  match network_states g !! code with
  | Some l => Ret (l, touch instant l g)
  | None =>
      let g := meanwhile g in
      match network_states g !! code with
      | Some l => Ret (l, touch instant l g)
      | None =>
          match new_from_db code (cfg_net config) (cfg_lease_duration config) wall instant
                  (ld_records load) (ld_allocations load) ∅ with
          | Panic => Panic
          | Ret s =>
              let l := fresh (dom (arena g)) in
              Ret (l, with_states (<[code := l]> (network_states g)) (<[l := s]> (arena g)) g)
          end
      end
  end.

Definition network_timeout : Z := from_secs (60 * 60).

(** One network of [release_network]: dropped when idle for an hour and empty. *)
Definition release_one (now : Z) (g : Global) (code : string) : Global :=
  match network_states g !! code ≫= λ l, arena g !! l with
  | Some s =>
      if negb (is_empty s) then g
      else if now <? ns_time s + network_timeout then g
      else with_states (delete code (network_states g)) (arena g) g
  | None => g
  end.

Definition idle_networks (now : Z) (g : Global) : list string :=
  omap (λ '(code, l), match arena g !! l with
                      | Some s => if ns_time s + network_timeout <? now then Some code else None
                      | None => None
                      end) (map_to_list (network_states g)).

Definition release_network (now : Z) (g : Global) : Global :=
  fold_left (release_one now) (idle_networks now g) g.

(** [release_expired_ips]: collecting and removing are two locked sections, with
    [meanwhile] in between. *)
Definition release_expired_ips (l : positive) (wall : Z)
    (meanwhile : NetworkState → NetworkState) (g : Global) : outcome Global :=
  match arena g !! l with
  | None => Ret g
  | Some s =>
      match collect_expired_devices wall s with
      | Panic => Panic
      | Ret [] => Ret g
      | Ret expired_devices =>
          let s := remove_devices expired_devices (meanwhile s) in
          Ret (fold_left (λ g d, db_write (ReleaseDeviceIp (ns_network_code s) d) g)
                 expired_devices (set_state l s g))
      end
  end.

(** ** Sessions *)

Record Session := mkSession {
  se_network_code : string;
  se_device_id : string;
  se_ip : Ipv4Addr;
  se_random_id : Z;
  se_network_state : positive;
  se_status : RegistrationStatus;
  se_allow_wire_guard : bool;
  se_client_capabilities : Z;
  se_cluster_lease_cancel : bool;   (** whether a renewal task runs *)
  se_cluster_lease_valid : bool
}.

Definition p2p_endpoint_of (r : option WireGuardP2pRegistration) (remote : SocketAddr)
    : option WireGuardP2pEndpoint :=
  match r, remote with
  | Some reg, SockV4 ip _ =>
      Some (mkWireGuardP2pEndpoint (ControlMessage.p2p_public_key reg)
              (SockV4 ip (ControlMessage.p2p_port reg)))
  | _, _ => None
  end.

(** The request with the address the cluster granted. *)
Definition with_grant (req : RegRequestMsg) (grant : option ClusterLeaseGrant) : RegRequestMsg :=
  match grant with
  | None => req
  | Some gr =>
      mkRegRequestMsg (network_code req) (device_id req) (Some (gr_ip gr)) (name req)
        (ControlMessage.version req) (key_sign req) false (server_id req) (registration_mode req)
        (allow_wire_guard req) (wireguard_p2p req) (client_capabilities req)
  end.

Definition status_of (m : RegistrationMode) : RegistrationStatus :=
  match m with Normal => Confirmed | PreRegister => PendingConfirmation end.

(** The writes at the end of [register]. *)
Definition register_writes (is_new_network : bool) (config : NetworkConfig) (req : RegRequestMsg)
    (entry : option DeviceEntry) (h : heap) (wall : Z) (g : Global) : Global :=
  let g := if is_new_network then
             db_write (SaveNetwork (mkNetworkRecord (network_code req)
               (ipv4_to_string (u32_add (net_network (cfg_net config)) 1))
               (net_prefix_len (cfg_net config))
               (u64_as_i64 (as_secs (cfg_lease_duration config))) SrcDeviceRegister
               (system_time_to_i64 wall))) g
           else g in
  match registration_mode req, entry with
  | Normal, Some e => db_write (SaveDevice (to_record (network_code req) e h)) g
  | _, _ => g
  end.

Definition register (peer : option PeerOps) (req : RegRequestMsg) (sender : mpsc_sender W bytes)
    (remote : SocketAddr) (random_id wall instant : Z) (load : DbLoad)
    (meanwhile : Global → Global) (g : Global) : outcome (result ServiceError Session * Global) :=
  match RegRequest.check req with
  | Err e => Ret (Err (BadRequest e), g)
  | Ok _ =>
      let code := network_code req in
      let is_new_network := negb (is_some (db_nets g !! code)) in
      match network_config code (ControlMessage.ip req) g with
      | Panic => Panic
      | Ret config =>
          let g := if is_new_network then with_nets (<[code := config]> (db_nets g)) g else g in
          match get_or_create_network_state code config load wall instant meanwhile g with
          | Panic => Panic
          | Ret (l, g) =>
              let gateway := u32_add (net_network (cfg_net config)) 1 in
              let gateway := match arena g !! l with Some s => ns_gateway s | None => gateway end in
              let '(granted, g) :=
                match peer with
                | None => (Ok None, g)
                | Some p =>
                    acquire_lease p code "vnt_device" (device_id req)
                      (if ip_variable req then None else ControlMessage.ip req) (cfg_net config)
                      gateway (cfg_lease_duration config) false g
                end in
              match granted, arena g !! l with
              | Err e, _ => Ret (Err e, g)
              | Ok _, None => Ret (Err ClusterErr, g)   (* an [Arc] that is held is not freed *)
              | Ok grant, Some s =>
                  let req' := with_grant req grant in
                  match allocate_ip_and_get_entry req' random_id wall sender
                          (p2p_endpoint_of (wireguard_p2p req) remote) s with
                  | (Err e, s) => Ret (Err (Alloc e), set_state l s g)
                  | (Ok (ip, _, entry), s) =>
                      let leased := is_some grant && is_some peer in
                      let session := mkSession code (device_id req) ip random_id l
                        (status_of (registration_mode req)) (allow_wire_guard req)
                        (client_capabilities req) leased true in
                      Ret (Ok session,
                           register_writes is_new_network config req entry (stats_heap s) wall
                             (set_state l s g))
                  end
              end
          end
      end
  end.

(** One tick of the renewal task: [None] when the task ends. *)
Definition renew_tick (renewed : result ServiceError (option ClusterLeaseGrant)) (now expires_at : Z)
    : option Z * bool :=
  match renewed with
  | Ok (Some g) => (Some (gr_expires_at g), true)
  | Ok None => (None, true)
  | Err _ => if expires_at <=? now then (None, false) else (Some expires_at, true)
  end.

(** [Drop for Session]. *)
Definition session_drop (se : Session) (wall : Z) (meanwhile : NetworkState → NetworkState)
    (g : Global) : Global :=
  match arena g !! se_network_state se with
  | None => g
  | Some s =>
      match se_status se with
      | Confirmed =>
          let '(record, s) := offline_ip (se_device_id se) (se_ip se) (se_random_id se) wall s in
          let g := set_state (se_network_state se) s g in
          match record with Some r => db_write (SaveDevice r) g | None => g end
      | PendingConfirmation =>
          set_state (se_network_state se)
            (release_pre_registered_ip (se_device_id se) (se_ip se) (se_random_id se) meanwhile s) g
      end
  end.

(** ** Administration

    [saved] is whether the database accepted the write; [has_owners] its answer
    to [network_has_resource_owners]. *)

Definition add_network (code : string) (gateway : Ipv4Addr) (netmask : Z) (lease : option Z)
    (saved : bool) (wall : Z) (g : Global) : result ServiceError unit * Global :=
  if is_some (db_nets g !! code) then (Err (NetworkExists code), g)
  else
    let lease_duration := default (default_lease_duration g) lease in
    let record := mkNetworkRecord code (ipv4_to_string gateway) netmask
      (u64_as_i64 (as_secs lease_duration)) SrcManual (system_time_to_i64 wall) in
    if negb saved then (Err DatabaseErr, g)
    else
      let g := db_write (SaveNetwork record) g in
      match net_new (u32_sub gateway 1) netmask with
      | None => (Err InvalidNetwork, g)
      | Some net =>
          (Ok tt, with_nets (<[code := mkNetworkConfig net lease_duration SrcManual]> (db_nets g)) g)
      end.

(** The number of devices and peers of the network in memory, if it is there. *)
Definition devices_in_memory (code : string) (g : Global) : Z :=
  match network_states g !! code ≫= λ l, arena g !! l with
  | Some s => (count s).1
  | None => 0
  end.

Definition update_network (code : string) (gateway : Ipv4Addr) (netmask lease_duration : Z)
    (has_owners : result ServiceError bool) (saved : bool) (g : Global)
    : result ServiceError unit * Global :=
  match db_nets g !! code with
  | None => (Err (NetworkMissing code), g)
  | Some c =>
      match has_owners with
      | Err e => (Err e, g)
      | Ok true => (Err NetworkInUse, g)
      | Ok false =>
          if 0 <? devices_in_memory code g then (Err NetworkInUse, g)
          else if negb saved then (Err DatabaseErr, g)
          else
            let g := db_write (UpdateNetwork code (ipv4_to_string gateway) netmask
                                 (u64_as_i64 (as_secs lease_duration))) g in
            match net_new (u32_sub gateway 1) netmask with
            | None => (Err InvalidNetwork, g)
            | Some net =>
                (Ok tt, with_states (delete code (network_states g)) (arena g)
                  (with_nets (<[code := mkNetworkConfig net lease_duration (cfg_source c)]>
                     (db_nets g)) g))
            end
      end
  end.

Definition delete_network (code : string) (has_owners : result ServiceError bool) (saved : bool)
    (g : Global) : result ServiceError unit * Global :=
  if negb (is_some (db_nets g !! code)) then (Err (NetworkMissing code), g)
  else match has_owners with
  | Err e => (Err e, g)
  | Ok true => (Err NetworkInUse, g)
  | Ok false =>
      if 0 <? devices_in_memory code g then (Err NetworkInUse, g)
      else if negb saved then (Err DatabaseErr, g)
      else
        let g := db_write (DeleteNetwork code) g in
        (Ok tt, with_states (delete code (network_states g)) (arena g)
                  (with_nets (delete code (db_nets g)) g))
  end.

Definition delete_device (code device_id : string) (saved : bool) (g : Global)
    : result ServiceError unit * Global :=
  let online := match network_states g !! code ≫= λ l, arena g !! l with
                | Some s => is_device_online device_id s
                | None => false
                end in
  if online then (Err DeviceOnline, g)
  else
    let g := match network_states g !! code with
             | Some l => match arena g !! l with
                         | Some s => set_state l (remove_device_from_memory device_id s).2 g
                         | None => g
                         end
             | None => g
             end in
    if negb saved then (Err DatabaseErr, g)
    else (Ok tt, db_write (DeleteDevice code device_id) g).

(** ** Routing *)

Definition get_network_state (code : string) (g : Global) : option (positive * NetworkState) :=
  l ← network_states g !! code; s ← arena g !! l; Some (l, s).

Definition route_wireguard_relay (peer : option PeerOps) (code : string) (dest : Ipv4Addr)
    (data : bytes) (origin : RelayOrigin) (g : Global) : LocalDeliveryResult * Global :=
  match get_network_state code g with
  | None => (NotFound, g)
  | Some (l, s) =>
      let '((local, s), w) := try_deliver dest data origin s (queues g) in
      let g := with_queues w g in
      if bool_decide (local ≠ NotFound) then
        let s := if bool_decide (local = Delivered)
                 then record_rx_traffic dest (Z.of_nat (length data)) s else s in
        (local, set_state l s g)
      else
        let g := set_state l s g in
        match peer with
        | None => (NotFound, g)
        | Some p =>
            let '(forwarded, g) := forward_with_best_route p code dest data origin g in
            (if forwarded : bool then Delivered else NotFound, g)
        end
  end.

Definition route_wireguard_broadcast (peer : option PeerOps) (code : string) (source : Ipv4Addr)
    (inner : bytes) (origin : RelayOrigin) (g : Global) : bool * Global :=
  match get_network_state code g with
  | None => (false, g)
  | Some (l, s) =>
      match relay_wireguard_broadcast source inner origin s (queues g) with
      | Err _ => (false, g)
      | Ok (_, s, w) =>
          let g := set_state l s (with_queues w g) in
          (true, match peer with
                 | None => g
                 | Some p => broadcast_wireguard p code source inner origin g
                 end)
      end
  end.

(** [NetworkStateProvider::update_client_latency]. *)
Definition provider_update_client_latency (code : string) (ip : Ipv4Addr) (latency_ms : Z)
    (g : Global) : Global :=
  match get_network_state code g with
  | Some (l, s) => set_state l (update_client_latency ip latency_ms s) g
  | None => g
  end.
End Service.

(** ** Lemmas *)

Module ServiceFacts.
Section ServiceFacts.
Context {NL : Ipv4NetLib} {NLL : Ipv4NetLaws} {PL : PnetLib} {U32 : NetU32Lib}.
Context {W : Type} {MV : Mpsc W bytes} {MW : Mpsc W WireGuardBridgePacket}.
Implicit Types (g : Global) (s : NetworkState).

(** The network state after a successful registration in it. *)
Lemma allocate_and_get_entry_ok req rid wall sender p2p s ip old entry s' :
  allocate_ip_and_get_entry req rid wall sender p2p s = (Ok (ip, old, entry), s') →
  ∃ e, device_map (lease_state s') !! device_id req = Some e ∧ entry = Some e ∧
    e_ip e = Some ip ∧ e_is_connected e = true ∧ e_random_id e = rid ∧
    sender_map s' !! ip = Some (SVnt sender) ∧
    online_endpoints s' !! ip = Some (EpVnt rid (allow_wire_guard req) (client_capabilities req)
      match registration_mode req with Normal => true | PreRegister => false end p2p).
Proof.
  unfold allocate_ip_and_get_entry.
  destruct (Lease.allocate_ip _ _ _ _ _ _ _) as [[[ip' old'] [h i]]|] eqn:E; [|done].
  apply NetFacts.alloc_summary in E as (e & Hm & Hip & Hc & Hr & _).
  assert (device_map i !! device_id req = Some e) as Hl by (by rewrite Hm, lookup_insert_eq).
  cbn zeta. rewrite Hl. intros [= -> -> <- <-].
  exists e. split_and!; try done.
  - simpl. destruct old as [o|]; done.
  - simpl. by rewrite lookup_insert_eq.
  - simpl. by rewrite lookup_insert_eq.
Qed.

(** A client that insists on an address gets it or nothing. *)
Lemma allocate_insisting net gw req rid now h i ip0 ip old st :
  ControlMessage.ip req = Some ip0 → ip_variable req = false →
  Lease.allocate_ip net gw req rid now h i = Ok ((ip, old), st) → ip = ip0.
Proof.
  intros Hr Hv H. apply LeaseFacts.allocate_cases in H. simpl in H.
  destruct H as [e ip He Hip [?|?]|e ip He Hip ? Hf|ip old l h' Hr' Hc Ho Ha
                |ip old l h' Hf [[? _]|(ip' & Hr' & _ & Hc)] Ho Ha]; try congruence.
  exfalso. rewrite Hv in Hc. unfold Lease.check_expected in Hc. break.
Qed.

Lemma get_or_create_ok code config load wall instant meanwhile g l g' :
  get_or_create_network_state code config load wall instant meanwhile g = Ret (l, g') →
  network_states g' !! code = Some l ∧
  (∀ l0, network_states g !! code = Some l0 → l = l0) ∧
  (network_states g !! code = None → ∀ l0, network_states (meanwhile g) !! code = Some l0 → l = l0).
Proof.
  assert (∀ i l0 g0, network_states (touch i l0 g0) = network_states g0) as Ht.
  { intros. unfold touch. by destruct (arena g0 !! l0). }
  unfold get_or_create_network_state. destruct (network_states g !! code) as [l1|] eqn:E1.
  { intros [= <- <-]. rewrite Ht. split; [done|]. split; congruence. }
  destruct (network_states (meanwhile g) !! code) as [l1|] eqn:E2.
  { intros [= <- <-]. rewrite Ht. split; [done|]. split; congruence. }
  destruct (new_from_db _ _ _ _ _ _ _ _) as [s|]; [|done]. intros [= <- <-]. simpl.
  rewrite lookup_insert_eq. split; [done|]. split; congruence.
Qed.

Lemma get_or_create_frame code config load wall instant g l g' :
  get_or_create_network_state code config load wall instant id g = Ret (l, g') →
  db_nets g' = db_nets g ∧ db_writes g' = db_writes g.
Proof.
  assert (∀ i l0 g0, db_nets (touch i l0 g0) = db_nets g0 ∧ db_writes (touch i l0 g0) = db_writes g0) as Ht.
  { intros. unfold touch. by destruct (arena g0 !! l0). }
  unfold get_or_create_network_state, id. destruct (network_states g !! code) as [l1|].
  { intros [= <- <-]. apply Ht. }
  destruct (new_from_db _ _ _ _ _ _ _ _) as [s|]; [|done]. by intros [= <- <-].
Qed.

(** What a registration without a cluster writes and remembers. *)
Lemma register_frame req sender remote rid wall instant load g r g' :
  register None req sender remote rid wall instant load id g = Ret (r, g') →
  (∀ c, is_Some (db_nets g !! c) → is_Some (db_nets g' !! c)) ∧
  match r with
  | Err _ => db_writes g' = db_writes g ∧ (∀ e, r = Err (Alloc e) → is_Some (db_nets g' !! network_code req))
  | Ok se => is_Some (db_nets g !! network_code req) →
      ∀ x, SaveNetwork x ∈ db_writes g' → SaveNetwork x ∈ db_writes g
  end.
Proof.
  unfold register. destruct (RegRequest.check req) as [u|e]; [|by intros [= <- <-]].
  destruct (network_config _ _ g) as [config|] eqn:Ec; [|done].
  set (g1 := if negb _ then _ else g).
  assert ((∀ c, is_Some (db_nets g !! c) → is_Some (db_nets g1 !! c)) ∧
    is_Some (db_nets g1 !! network_code req) ∧ db_writes g1 = db_writes g) as (H1 & H2 & H3).
  { unfold g1. destruct (db_nets g !! network_code req) eqn:E; simpl; [by rewrite E|].
    split_and!; [|by rewrite lookup_insert_eq|done]. intros c Hc. by apply lookup_insert_is_Some'; right. }
  destruct (get_or_create_network_state _ _ _ _ _ _ g1) as [[l g2]|] eqn:Eg; [|done].
  apply get_or_create_frame in Eg as [E1 E2].
  destruct (arena g2 !! l) as [s|] eqn:Ea; cbn zeta iota beta.
  2: { intros [= <- <-]. rewrite E1, E2. split; [done|]. split; [done|]. done. }
  destruct (allocate_ip_and_get_entry _ _ _ _ _ s) as [[[[ip old] entry]|e] s2] eqn:Eal.
  - intros [= <- <-]. unfold register_writes. split.
    + intros c Hc%H1. destruct (negb _), (registration_mode req), entry; simpl; by rewrite E1.
    + intros [c Hc] x. rewrite Hc. simpl.
      destruct (registration_mode req), entry; simpl; rewrite ?elem_of_app, ?list_elem_of_singleton, E2, H3;
        intuition congruence.
  - intros [= <- <-]. simpl. rewrite E1, E2. split; [done|]. split; [done|]. done.
Qed.

Lemma register_writes_arena b config req entry h wall g :
  arena (register_writes b config req entry h wall g) = arena g.
Proof. unfold register_writes. by destruct b, (registration_mode req), entry. Qed.

(** Networks come back from their own records. *)
Lemma u32_sub_add_1 x : 0 ≤ x < u32_max → u32_sub (u32_add x 1) 1 = x.
Proof.
  intros H. rewrite u32_add_small by lia. rewrite u32_sub_small; lia.
Qed.

Lemma record_net_roundtrip net code lease src now :
  net_network net < u32_max →
  ∃ net', to_ipv4_net (mkNetworkRecord code (ipv4_to_string (u32_add (net_network net) 1))
            (net_prefix_len net) lease src now) = Some net' ∧
    net_network net' = net_network net ∧ net_prefix_len net' = net_prefix_len net.
Proof.
  intros Hn. pose proof (net_network_range net) as Hr. pose proof (net_prefix_range net) as Hp.
  unfold to_ipv4_net. cbn [nr_gateway nr_netmask].
  rewrite StdFacts.ipv4_parse_to_string by (apply wrap_range; lia). cbn [mbind option_bind].
  rewrite u32_sub_add_1 by lia.
  destruct (net_new_Some (net_network net) (net_prefix_len net)) as (n & -> & E1 & E2);
    [unfold is_u, u32_max in *; lia|done|].
  exists n. split; [done|]. split; [|done]. rewrite E2.
  pose proof (net_size_pos net) as Hs. pose proof (net_aligned net) as Ha.
  rewrite (Z.div_mod (net_network net) (2 ^ (32 - net_prefix_len net))) at 2 by lia. lia.
Qed.

(** The lease of an offline device is over. *)
Definition lease_over (lease wall : Z) (e : DeviceEntry) : Prop :=
  e_is_connected e = false ∧ ∃ t, e_disconnect_time e = Some t ∧ t + lease ≤ wall.

Lemma expired_true lease wall e b :
  Lease.expired lease wall e = Some b → (b = true ↔ lease_over lease wall e).
Proof.
  unfold Lease.expired, lease_over. destruct (e_is_connected e); [intros [= <-]; split; [done|by intros [? _]]|].
  destruct (e_disconnect_time e) as [t|]; [|intros [= <-]; split; [done|by intros (_ & ? & ? & _)]].
  unfold system_time_add. destruct (_ <=? i64_max); cbn [mbind option_bind]; [|done]. intros [= <-].
  rewrite negb_true_iff, Z.ltb_ge. split; [intros H; split; [done|by exists t]|].
  by intros (_ & t' & [= ->] & ?).
Qed.

Lemma collect_expired_elem lease wall l r :
  Lease.collect_expired lease wall l = Ret r →
  (∀ d e, (d, e) ∈ l → is_Some (Lease.expired lease wall e)) ∧
  (∀ d, d ∈ r ↔ ∃ e, (d, e) ∈ l ∧ lease_over lease wall e).
Proof.
  revert r. induction l as [|[k v] l IH]; intros r H; cbn [Lease.collect_expired] in H.
  { injection H as <-. split; [intros d e He; by apply not_elem_of_nil in He|].
    intros d. split; [intros Hd; by apply not_elem_of_nil in Hd|].
    intros (e & He & _). by apply not_elem_of_nil in He. }
  destruct (Lease.expired lease wall v) as [b|] eqn:Ee; [|done].
  destruct (Lease.collect_expired lease wall l) as [r'|]; [|done].
  injection H as <-. destruct (IH r' eq_refl) as [IH1 IH2]. pose proof (expired_true _ _ _ _ Ee) as Hb.
  split.
  - intros d e [[= -> ->]|He]%elem_of_cons; [by eexists|by eapply IH1].
  - intros d. transitivity ((b = true ∧ d = k) ∨ d ∈ r').
    { destruct b; rewrite ?elem_of_cons; intuition congruence. }
    rewrite IH2, Hb. split.
    + intros [[Ho ->]|(e & He & Ho)]; [exists v; split; [left|done]|exists e; split; [by right|done]].
    + intros (e & [[= -> ->]|He]%elem_of_cons & Ho); [by left|right; by exists e].
Qed.

Lemma fold_writes_arena f l g :
  arena (fold_left (λ g (d : string), db_write (f d) g) l g) = arena g ∧
  db_writes (fold_left (λ g d, db_write (f d) g) l g) = db_writes g ++ (f <$> l).
Proof.
  revert g. induction l as [|d l IH]; intros g; simpl; [by rewrite app_nil_r|].
  destruct (IH (db_write (f d) g)) as [-> ->]. simpl. by rewrite <- app_assoc.
Qed.

(** The state after the cleanup, with any interference. *)
Lemma release_expired_state l wall meanwhile g s ds g' :
  arena g !! l = Some s → collect_expired_devices wall s = Ret ds → ds ≠ [] →
  release_expired_ips l wall meanwhile g = Ret g' →
  arena g' !! l = Some (remove_devices ds (meanwhile s)) ∧
  db_writes g' = db_writes g ++
    (ReleaseDeviceIp (ns_network_code (meanwhile s)) <$> ds).
Proof.
  intros Hs Hc Hne. unfold release_expired_ips. rewrite Hs, Hc. destruct ds as [|d ds]; [done|].
  set (s' := remove_devices (d :: ds) (meanwhile s)). intros [= <-].
  destruct (fold_writes_arena (ReleaseDeviceIp (ns_network_code s')) (d :: ds) (set_state l s' g)) as [E1 E2].
  split; [|exact E2]. etransitivity; [exact (f_equal (lookup l) E1)|]. apply lookup_insert_eq.
Qed.

Lemma remove_devices_lookup ds s d :
  device_map (lease_state (remove_devices ds s)) !! d =
  if decide (d ∈ ds) then None else device_map (lease_state s) !! d.
Proof.
  unfold remove_devices. destruct ds as [|x ds].
  - rewrite decide_False; [done|apply not_elem_of_nil].
  - apply (NetFacts.remove_fold_lookup (x :: ds) (Lease.bump (lease_state s))).
Qed.
End ServiceFacts.
End ServiceFacts.

(** ** Theorems *)

Section Theorems.
Context {NL : Ipv4NetLib} {NLL : Ipv4NetLaws} {PL : PnetLib} {U32 : NetU32Lib}.
Context {W : Type} {MV : Mpsc W bytes} {MW : Mpsc W WireGuardBridgePacket}.
Implicit Types (g : Global) (s : NetworkState).

(** One state per network.  Whatever other tasks do while a task waits for
    the initialisation lock, it ends up with the state registered for the
    network: the one that was there, the one another task created meanwhile, or
    the new one, which is registered; states of other networks stay registered. *)
Theorem network_state_singleton code config load wall instant meanwhile g l g' :
  get_or_create_network_state code config load wall instant meanwhile g = Ret (l, g') →
  network_states g' !! code = Some l ∧
  (∀ l0, network_states g !! code = Some l0 → l = l0) ∧
  (network_states g !! code = None →
     (∀ l0, network_states (meanwhile g) !! code = Some l0 → l = l0) ∧
     (network_states (meanwhile g) !! code = None → arena (meanwhile g) !! l = None) ∧
     ∀ c, c ≠ code → network_states g' !! c = network_states (meanwhile g) !! c).
Proof.
  intros H. pose proof (ServiceFacts.get_or_create_ok _ _ _ _ _ _ _ _ _ H) as (H1 & H2 & H3).
  split; [done|]. split; [done|]. intros Hn. split; [by apply H3|].
  unfold get_or_create_network_state in H. rewrite Hn in H.
  destruct (network_states (meanwhile g) !! code) as [l1|] eqn:E.
  - injection H as <- <-. split; [done|]. intros c _. unfold touch. by destruct (arena (meanwhile g) !! l1).
  - destruct (new_from_db _ _ _ _ _ _ _ _) as [s|]; [|done]. injection H as <- <-. simpl. split.
    + intros _. apply not_elem_of_dom, is_fresh.
    + intros c Hc. by rewrite lookup_insert_ne.
Qed.

(** C25: a successful registration.  The request passed the gate; the device is
    online in the session's network under the session's random id and address,
    and its queue is the one registered there, confirmed exactly when the
    registration is not a pre-registration. *)
Theorem register_spec peer req sender remote rid wall instant load meanwhile g se g' :
  register peer req sender remote rid wall instant load meanwhile g = Ret (Ok se, g') →
  RegRequest.check req = Ok tt ∧ se_network_code se = network_code req ∧
  se_device_id se = device_id req ∧ se_random_id se = rid ∧
  se_status se = status_of (registration_mode req) ∧
  ∃ s e, arena g' !! se_network_state se = Some s ∧
    device_map (lease_state s) !! device_id req = Some e ∧ e_ip e = Some (se_ip se) ∧
    e_is_connected e = true ∧ e_random_id e = rid ∧
    sender_map s !! se_ip se = Some (SVnt sender) ∧
    online_endpoints s !! se_ip se =
      Some (EpVnt rid (allow_wire_guard req) (client_capabilities req)
              (bool_decide (se_status se = Confirmed))
              (p2p_endpoint_of (wireguard_p2p req) remote)).
Proof.
  unfold register. destruct (RegRequest.check req) as [[]|]; [|done].
  destruct (network_config _ _ g) as [config|]; [|done].
  destruct (get_or_create_network_state _ _ _ _ _ _ _) as [[l g1]|]; [|done].
  destruct (match peer with None => _ | Some p => _ end) as [[grant|] g2]; [|done].
  destruct (arena g2 !! l) as [s|] eqn:Ea; [|done].
  destruct (allocate_ip_and_get_entry _ _ _ _ _ s) as [[[[ip old] entry]|] s1] eqn:E; [|done].
  intros [= <- <-]. cbn [se_network_code se_device_id se_random_id se_status se_network_state se_ip].
  split_and!; try done.
  apply ServiceFacts.allocate_and_get_entry_ok in E as (e & Hd & -> & Hip & Hc & Hr & Hs & Ho).
  exists s1, e.
  assert (device_id (with_grant req grant) = device_id req) as Hid by (by destruct grant).
  rewrite ServiceFacts.register_writes_arena. rewrite Hid in Hd. split; [apply lookup_insert_eq|]. split_and!; try done.
  rewrite Ho. destruct grant; simpl; by destruct (registration_mode req).
Qed.

(** The cluster decides.  When the lease authority grants an address, the
    session gets exactly that address, or the registration fails. *)
Theorem cluster_grant_respected p gr req sender remote rid wall instant load meanwhile g se g' :
  (∀ c t o i n gw d st g0, ∃ g1, acquire_lease p c t o i n gw d st g0 = (Ok (Some gr), g1)) →
  register (Some p) req sender remote rid wall instant load meanwhile g = Ret (Ok se, g') →
  se_ip se = gr_ip gr ∧ se_cluster_lease_cancel se = true.
Proof.
  intros Hacq. unfold register. destruct (RegRequest.check req) as [[]|]; [|done].
  destruct (network_config _ _ g) as [config|]; [|done].
  destruct (get_or_create_network_state _ _ _ _ _ _ _) as [[l g1]|]; [|done]. cbv zeta.
  edestruct Hacq as [g2 ->]. destruct (arena g2 !! l) as [s|]; [|done].
  destruct (allocate_ip_and_get_entry _ _ _ _ _ s) as [[[[ip old] entry]|] s1] eqn:E; [|done].
  intros [= <- <-]. cbn [se_ip se_cluster_lease_cancel]. split; [|done].
  unfold allocate_ip_and_get_entry in E.
  destruct (Lease.allocate_ip _ _ _ _ _ _ _) as [[[ip' old'] [h i]]|] eqn:Ea; [|done].
  injection E as -> _ _ _. by eapply ServiceFacts.allocate_insisting in Ea.
Qed.

(** The end of a session.  A confirmed session takes its device offline,
    frees queue and endpoint but keeps the lease, and saves the device's record;
    a pre-registration that was never confirmed leaves no trace of the device,
    its address or its queue, and writes nothing. *)
Theorem session_drop_spec se wall g s e :
  arena g !! se_network_state se = Some s → net_inv s →
  device_map (lease_state s) !! se_device_id se = Some e →
  e_random_id e = se_random_id se → e_ip e = Some (se_ip se) →
  let g' := session_drop se wall id g in
  ∃ s', arena g' !! se_network_state se = Some s' ∧ net_inv s' ∧
    sender_map s' !! se_ip se = None ∧ online_endpoints s' !! se_ip se = None ∧
    match se_status se with
    | Confirmed => is_device_online (se_device_id se) s' = false ∧
        device_ip_map (lease_state s') = device_ip_map (lease_state s) ∧
        ∃ r, db_writes g' = db_writes g ++ [SaveDevice r] ∧ r_device_id r = se_device_id se ∧
             r_ip r = Some (ipv4_to_string (se_ip se))
    | PendingConfirmation => device_map (lease_state s') !! se_device_id se = None ∧
        device_ip_map (lease_state s') !! se_ip se = None ∧ db_writes g' = db_writes g
    end.
Proof.
  intros Hs Hi Hd Hr Hip g'. unfold g', session_drop. rewrite Hs. destruct (se_status se).
  - pose proof (NetFacts.offline_net_inv (se_device_id se) (se_ip se) (se_random_id se) wall s Hi) as Hi'.
    unfold offline_ip, Lease.offline_ip in *. rewrite Hd, Hr, Z.eqb_refl in *. cbn [negb] in *.
    rewrite bool_decide_eq_false_2 in * by auto. cbn [snd] in *.
    eexists. split; [simpl; apply lookup_insert_eq|]. split; [done|]. simpl. rewrite !lookup_delete_eq.
    split_and!; try done.
    + unfold is_device_online. simpl. by rewrite lookup_insert_eq.
    + eexists. split; [done|]. simpl. rewrite Hip. split; [|done]. by eapply inv_ids; [apply Hi|].
  - pose proof (NetFacts.release_pre_net_inv (se_device_id se) (se_ip se) (se_random_id se) s Hi) as Hi'.
    unfold release_pre_registered_ip, Lease.release_pre_registered_ip in *.
    rewrite Hd, Hr, Z.eqb_refl, bool_decide_eq_true_2 in * by done. cbn [andb] in *.
    eexists. split; [simpl; apply lookup_insert_eq|]. split; [done|]. simpl. by rewrite !lookup_delete_eq.
Qed.

(** Removing a network is guarded.  A network is deleted only when neither
    the database nor memory has devices or peers of it, and then it is gone from
    both views; a refused deletion changes nothing. *)
Theorem delete_network_guarded code has_owners saved g r g' :
  delete_network code has_owners saved g = (r, g') →
  match r with
  | Ok _ => has_owners = Ok false ∧ devices_in_memory code g ≤ 0 ∧
      db_nets g' = delete code (db_nets g) ∧ get_network_state code g' = None ∧
      db_writes g' = db_writes g ++ [DeleteNetwork code]
  | Err _ => g' = g
  end.
Proof.
  unfold delete_network. destruct (negb _); [by intros [= <- <-]|].
  destruct has_owners as [[]|]; [by intros [= <- <-]| |by intros [= <- <-]].
  destruct (Z.ltb_spec 0 (devices_in_memory code g)); [by intros [= <- <-]|].
  destruct (negb saved); [by intros [= <- <-]|]. intros [= <- <-]. simpl.
  split_and!; try done. unfold get_network_state. simpl. by rewrite lookup_delete_eq.
Qed.

(** Networks survive a restart.  The record written for a network that a
    registration created is read back as a network with the same address, prefix
    and lease time (in seconds). *)
Theorem registered_network_roundtrip b config req entry h wall g :
  net_network (cfg_net config) < u32_max →
  0 ≤ cfg_lease_duration config ≤ i64_max * nanos →
  b = true →
  ∃ r c, SaveNetwork r ∈ db_writes (register_writes b config req entry h wall g) ∧
    load_networks_from_db [r] !! network_code req = Some c ∧
    net_network (cfg_net c) = net_network (cfg_net config) ∧
    net_prefix_len (cfg_net c) = net_prefix_len (cfg_net config) ∧
    cfg_lease_duration c = as_secs (cfg_lease_duration config) * nanos ∧
    cfg_source c = SrcDeviceRegister.
Proof.
  intros Hn Hl ->. set (now := system_time_to_i64 wall).
  destruct (ServiceFacts.record_net_roundtrip (cfg_net config) (network_code req)
    (u64_as_i64 (as_secs (cfg_lease_duration config))) SrcDeviceRegister now Hn) as (n & Hrec & E1 & E2).
  eexists _, _. split.
  { unfold register_writes. fold now.
    destruct (registration_mode req), entry; simpl; rewrite ?elem_of_app, ?list_elem_of_singleton; auto. }
  unfold load_networks_from_db. cbn [fold_left]. rewrite Hrec. cbn [nr_network_code].
  split; [apply lookup_insert_eq|]. cbn [cfg_net cfg_lease_duration cfg_source nr_lease_duration nr_source].
  split_and!; try done. unfold from_secs. f_equal. apply u64_i64_roundtrip.
  unfold is_u, as_secs, i64_max, nanos in *. split; [apply Z.div_pos; lia|].
  apply Z.le_lt_trans with 9223372036854775807; [apply Z.div_le_upper_bound; lia|lia].
Qed.

(** A failed first registration orphans its network.  When the first
    registration of a network code fails at the allocation, the network stays in
    memory although it was not saved, and since it now counts as known, no later
    registration saves it either. *)
Theorem failed_registration_orphans_network req sender remote rid wall instant load g err g' :
  db_nets g !! network_code req = None →
  register None req sender remote rid wall instant load id g = Ret (Err (Alloc err), g') →
  is_Some (db_nets g' !! network_code req) ∧ db_writes g' = db_writes g ∧
  (∀ req2 sender2 remote2 rid2 wall2 instant2 load2 se2 g2,
     network_code req2 = network_code req →
     register None req2 sender2 remote2 rid2 wall2 instant2 load2 id g' = Ret (Ok se2, g2) →
     ∀ x, SaveNetwork x ∈ db_writes g2 → SaveNetwork x ∈ db_writes g).
Proof.
  intros _ H. apply ServiceFacts.register_frame in H as (_ & Hw & Hn).
  specialize (Hn err eq_refl). split; [done|]. split; [done|].
  intros req2 sender2 remote2 rid2 wall2 instant2 load2 se2 g2 Hc H2 x Hx.
  apply ServiceFacts.register_frame in H2 as (_ & H2). rewrite <- Hw. apply H2; [by rewrite Hc|done].
Qed.

(** An invalid network is saved.  [add_network] writes the record before it
    checks the prefix length: a prefix above 32 is refused, but leaves a row in
    the database that no start of the server can use. *)
Theorem add_network_saves_before_checking code gateway netmask lease wall g :
  db_nets g !! code = None → is_u 32 gateway → 32 < netmask →
  ∃ r, add_network code gateway netmask lease true wall g =
         (Err InvalidNetwork, db_write (SaveNetwork r) g) ∧
       nr_network_code r = code ∧ to_ipv4_net r = None ∧
       load_networks_from_db [r] = ∅.
Proof.
  intros Hn Hg Hm. unfold add_network. rewrite Hn. cbn [is_some negb].
  rewrite (net_new_None _ _ Hm). eexists. split; [done|]. split; [done|].
  assert (∀ c l src t, to_ipv4_net (mkNetworkRecord c (ipv4_to_string gateway) netmask l src t) = None) as Hx.
  { intros. unfold to_ipv4_net. cbn [nr_gateway nr_netmask].
    rewrite StdFacts.ipv4_parse_to_string by done. cbn [mbind option_bind]. by apply net_new_None. }
  split; [apply Hx|]. unfold load_networks_from_db. cbn [fold_left]. by rewrite Hx.
Qed.

(** The configured gateway is not always the gateway.  A network added with
    [gateway] runs with the first host address of its block as gateway, which is
    [gateway] exactly when [gateway - 1] is a multiple of the block size. *)
Theorem configured_gateway_used code gateway netmask lease wall g g' c dur now instant records allocations s :
  1 ≤ gateway ≤ u32_max → 0 ≤ netmask ≤ 32 →
  add_network code gateway netmask lease true wall g = (Ok tt, g') → db_nets g' !! code = Some c →
  new_from_db code (cfg_net c) dur now instant records allocations ∅ = Ret s →
  (ns_gateway s = gateway ↔ (gateway - 1) mod 2 ^ (32 - netmask) = 0).
Proof.
  intros Hg Hm. unfold add_network. destruct (is_some _); [done|]. cbn [negb].
  rewrite u32_sub_small by (unfold u32_max in *; lia).
  destruct (net_new_Some (gateway - 1) netmask) as (n & -> & E1 & E2);
    [unfold is_u, u32_max in *; lia|done|].
  intros [= <-]. simpl. rewrite lookup_insert_eq. intros [= <-]. cbn [cfg_net].
  unfold new_from_db. destruct (Lease.build_initial_inner_state _ _ _ _ _ _) as [[h i]|]; [|done].
  intros [= <-]. cbn [ns_gateway].
  set (m := 2 ^ (32 - netmask)) in *. assert (0 < m) as Hpos by (apply Z.pow_pos_nonneg; lia).
  pose proof (Z.div_mod (gateway - 1) m ltac:(lia)). pose proof (Z.mod_pos_bound (gateway - 1) m Hpos).
  assert (net_network n = gateway - 1 - (gateway - 1) mod m) as E by lia.
  pose proof (net_network_range n).
  rewrite u32_add_small by lia. lia.
Qed.

(** The lease cleanup removes what has expired.  Without interference it
    removes from the network exactly the devices that are offline and whose
    disconnection is at least the lease time ago, and leaves the others as they
    are. *)
Theorem expiry_removes_expired l wall g s g' :
  arena g !! l = Some s → release_expired_ips l wall id g = Ret g' →
  ∃ s', arena g' !! l = Some s' ∧
    ∀ d e, device_map (lease_state s) !! d = Some e →
      (ServiceFacts.lease_over (ns_lease_duration s) wall e →
         device_map (lease_state s') !! d = None) ∧
      (¬ ServiceFacts.lease_over (ns_lease_duration s) wall e →
         device_map (lease_state s') !! d = Some e).
Proof.
  intros Hs H. pose proof H as H'. unfold release_expired_ips in H'. rewrite Hs in H'.
  destruct (collect_expired_devices wall s) as [ds|] eqn:Ec; [|done].
  destruct (ServiceFacts.collect_expired_elem _ _ _ _ Ec) as [_ Hin].
  assert (∀ d e, device_map (lease_state s) !! d = Some e →
    (d ∈ ds ↔ ServiceFacts.lease_over (ns_lease_duration s) wall e)) as Hd.
  { intros d e Hde. rewrite Hin. split.
    - intros (e' & He' & Ho). apply elem_of_map_to_list in He'. by simplify_eq.
    - intros Ho. exists e. split; [by apply elem_of_map_to_list|done]. }
  destruct (decide (ds = [])) as [->|Hne].
  - injection H' as <-. exists s. split; [done|]. intros d e Hde. split; [|done].
    intros Ho. apply (Hd d e Hde) in Ho. by apply not_elem_of_nil in Ho.
  - destruct (ServiceFacts.release_expired_state _ _ _ _ _ _ _ Hs Ec Hne H) as [Ha _].
    eexists. split; [exact Ha|]. intros d e Hde. unfold id. rewrite ServiceFacts.remove_devices_lookup.
    specialize (Hd d e Hde). split; intros Ho.
    + by rewrite decide_True by (by apply Hd).
    + by rewrite decide_False by (by rewrite Hd).
Qed.

(** The cleanup can evict a device that has just reconnected.  Collecting and
    removing are separate: a device that comes back in between loses its entry
    and its lease while its queue and endpoint stay, so the address can be given
    to another device while it is in use. *)
Theorem expiry_evicts_reconnected l wall g s meanwhile d e ip g' :
  arena g !! l = Some s → collect_expired_devices wall s = Ret [d] →
  net_inv (meanwhile s) → device_map (lease_state (meanwhile s)) !! d = Some e →
  e_is_connected e = true → e_ip e = Some ip →
  usable (ns_net (meanwhile s)) (ns_gateway (meanwhile s)) ip →
  release_expired_ips l wall meanwhile g = Ret g' →
  ∃ s', arena g' !! l = Some s' ∧ is_device_online d s' = false ∧
    lease_table (lease_state s') !! ip = None ∧
    ∃ a c k p, online_endpoints s' !! ip = Some (EpVnt (e_random_id e) a c k p).
Proof.
  intros Hs Hc Hi Hd Hcon Hip Hu H.
  destruct (ServiceFacts.release_expired_state _ _ _ _ _ _ _ Hs Hc ltac:(done) H) as [Ha _].
  eexists. split; [exact Ha|]. split; [|split].
  - unfold is_device_online. rewrite ServiceFacts.remove_devices_lookup.
    by rewrite decide_True by (by apply list_elem_of_singleton).
  - unfold remove_devices. simpl. unfold Lease.remove_one. simpl. rewrite Hd, Hip.
    rewrite TableFacts.table_lookup. simpl. rewrite lookup_delete_eq.
    pose proof (inv_owner _ _ _ (ni_lease _ Hi) _ _ _ Hd Hip Hu) as Ho.
    by rewrite (inv_disjoint _ _ _ (ni_lease _ Hi) _ _ Ho).
  - exact (so_device _ _ _ _ _ (ni_sessions _ Hi) _ _ _ Hd Hip Hcon Hu).
Qed.
End Theorems.

(** ** Witnesses *)

Module ServiceWitness.
Import Model LeaseWitness NetWitness.
#[local] Existing Instance NetWitness.MV.
#[local] Existing Instance NetWitness.MW.

Definition nets0 : gmap string NetworkConfig := ∅.
Definition g0 : Global := mkGlobal net24 (from_secs 3600) nets0 ∅ ∅ w0 [].
Definition ldb : DbLoad := mkDbLoad records allocations.
Definition addr : SocketAddr := SockV4 (ipv4 1 2 3 4) 5000.
Definition reg (peer : option PeerOps) (r : RegRequestMsg) (g : Global) :=
  register peer r 0%nat addr 42 1000 7 ldb id g.
Definition reg_ok (x : outcome (result ServiceError Session * Global)) : bool :=
  match x with Ret (Ok _, _) => true | _ => false end.

Lemma network_state_singleton_witness :
  ∃ l g', get_or_create_network_state "net" (mkNetworkConfig net24 0 SrcManual) ldb 5 7 id g0 = Ret (l, g') ∧
    network_states g' !! "net"%string = Some l.
Proof.
  assert (match get_or_create_network_state "net" (mkNetworkConfig net24 0 SrcManual) ldb 5 7 id g0 with
          | Ret _ => true | Panic => false end = true) as H by (vm_compute; reflexivity).
  destruct (get_or_create_network_state _ _ _ _ _ _ _) as [[l g']|] eqn:E; [|discriminate H].
  exists l, g'. split; [reflexivity|]. exact (proj1 (network_state_singleton _ _ _ _ _ _ _ _ _ E)).
Defined.

Lemma register_spec_witness :
  ∃ se g', reg None (req "b" None false) g0 = Ret (Ok se, g') ∧ se_device_id se = "b"%string.
Proof.
  assert (reg_ok (reg None (req "b" None false) g0) = true) as H by (vm_compute; reflexivity).
  destruct (reg None (req "b" None false) g0) as [[[se|] g']|] eqn:E; [|discriminate H..].
  exists se, g'. split; [reflexivity|].
  exact (proj1 (proj2 (proj2 (register_spec _ _ _ _ _ _ _ _ _ _ _ _ E)))).
Defined.

Definition granted : ClusterLeaseGrant := mkClusterLeaseGrant (host 5) 1 2000.
Definition ops : PeerOps := mkPeerOps
  (λ _ _ _ _ _ _ _ _ g, (Ok (Some granted), g)) (λ _ _ _ g, (Ok tt, g))
  (λ _ _ _ _ g, (false, g)) (λ _ _ _ _ g, g).

Lemma cluster_grant_respected_witness :
  ∃ se g', reg (Some ops) (req "b" None true) g0 = Ret (Ok se, g') ∧ se_ip se = host 5.
Proof.
  assert (reg_ok (reg (Some ops) (req "b" None true) g0) = true) as H by (vm_compute; reflexivity).
  destruct (reg (Some ops) (req "b" None true) g0) as [[[se|] g']|] eqn:E; [|discriminate H..].
  exists se, g'. split; [reflexivity|].
  assert (∀ c t o i n gw d st g0, ∃ g1, acquire_lease ops c t o i n gw d st g0 = (Ok (Some granted), g1)) as Ha
    by (intros; eexists; reflexivity).
  exact (proj1 (cluster_grant_respected ops granted _ _ _ _ _ _ _ _ _ _ _ Ha E)).
Defined.

Definition g1 : Global := set_state 1 s1 g0.
Definition se1 (st : RegistrationStatus) : Session :=
  mkSession "net" "b" (host 3) 42 1 st false 0 false true.
Lemma g1_state : arena g1 !! 1%positive = Some s1.
Proof. apply lookup_insert_eq. Defined.

Lemma session_drop_spec_witness :
  ∃ s', arena (session_drop (se1 PendingConfirmation) 3000 id g1) !! 1%positive = Some s' ∧
    sender_map s' !! host 3 = None.
Proof.
  destruct (session_drop_spec (se1 PendingConfirmation) 3000 g1 s1 eb g1_state s1_inv eb_eq)
    as (s' & H1 & _ & H2 & _); [vm_compute; reflexivity|vm_compute; reflexivity|].
  exists s'. split; [exact H1|exact H2].
Defined.

Definition g2 : Global := with_nets (<["net"%string := mkNetworkConfig net24 0 SrcManual]> nets0) g0.

Lemma delete_network_guarded_witness :
  (delete_network "net" (Ok false) true g2).1 = Ok tt ∧
  db_nets (delete_network "net" (Ok false) true g2).2 = delete "net"%string (db_nets g2).
Proof.
  assert ((delete_network "net" (Ok false) true g2).1 = Ok tt) as H by (vm_compute; reflexivity).
  split; [exact H|].
  pose proof (delete_network_guarded "net" (Ok false) true g2 _ _
    (surjective_pairing (delete_network "net" (Ok false) true g2))) as Hg.
  rewrite H in Hg. apply Hg.
Defined.

Lemma registered_network_roundtrip_witness :
  ∃ r c, SaveNetwork r ∈ db_writes (register_writes true
      (mkNetworkConfig net24 (from_secs 3600) SrcDeviceRegister) (req "b" None false) None ∅ 1000 g0) ∧
    load_networks_from_db [r] !! "net"%string = Some c ∧ net_prefix_len (cfg_net c) = 24.
Proof.
  destruct (registered_network_roundtrip true (mkNetworkConfig net24 (from_secs 3600) SrcDeviceRegister)
    (req "b" None false) None ∅ 1000 g0) as (r & c & H1 & H2 & _ & H3 & _).
  - vm_compute. reflexivity.
  - split; vm_compute; discriminate.
  - reflexivity.
  - exists r, c. split; [exact H1|]. split; [exact H2|]. rewrite H3. reflexivity.
Defined.

(** The first client of the network asks for the gateway's address. *)
Definition failed : outcome (result ServiceError Session * Global) := reg None (req "b" (Some gw) false) g0.

Lemma failed_registration_orphans_network_witness :
  ∃ err g', failed = Ret (Err (Alloc err), g') ∧ is_Some (db_nets g' !! "net"%string) ∧ db_writes g' = [].
Proof.
  assert (match failed with Ret (Err (Alloc _), _) => true | _ => false end = true) as H
    by (vm_compute; reflexivity).
  destruct failed as [[[se|err] g']|] eqn:E; [discriminate H| |discriminate H].
  destruct err as [| |err| | | | | |]; try discriminate H. exists err, g'. split; [reflexivity|].
  unfold failed, reg in E.
  eapply failed_registration_orphans_network in E as (H1 & H2 & _); [|reflexivity].
  split; [exact H1|exact H2].
Defined.

Lemma add_network_saves_before_checking_witness :
  ∃ r, add_network "x" gw 33 None true 1000 g0 = (Err InvalidNetwork, db_write (SaveNetwork r) g0) ∧
    load_networks_from_db [r] = ∅.
Proof.
  destruct (add_network_saves_before_checking "x" gw 33 None 1000 g0) as (r & H1 & _ & _ & H2).
  - reflexivity.
  - apply (bool_decide_eq_true_1 _). vm_compute. reflexivity.
  - reflexivity.
  - exists r. split; [exact H1|exact H2].
Defined.

(** 10.26.0.5/24: the network runs with 10.26.0.1. *)
Lemma configured_gateway_used_witness :
  ∃ c s, db_nets (add_network "x" (host 5) 24 None true 1000 g0).2 !! "x"%string = Some c ∧
    new_from_db "x" (cfg_net c) 0 5 7 records allocations ∅ = Ret s ∧ ns_gateway s ≠ host 5.
Proof.
  assert (match db_nets (add_network "x" (host 5) 24 None true 1000 g0).2 !! "x"%string with
    | Some c => match new_from_db (W := Wd) "x" (cfg_net c) 0 5 7 records allocations ∅ with
                | Ret _ => true | Panic => false end
    | None => false end = true) as H by (vm_compute; reflexivity).
  assert ((add_network "x" (host 5) 24 None true 1000 g0).1 = Ok tt) as Hok by (vm_compute; reflexivity).
  pose proof (surjective_pairing (add_network "x" (host 5) 24 None true 1000 g0)) as Hp.
  rewrite Hok in Hp. set (g' := (add_network "x" (host 5) 24 None true 1000 g0).2) in *. clearbody g'.
  destruct (db_nets g' !! "x"%string) as [c|] eqn:Ec; [|discriminate H].
  destruct (new_from_db "x" (cfg_net c) 0 5 7 records allocations ∅) as [s|] eqn:Es; [|discriminate H].
  exists c, s. split; [reflexivity|]. split; [exact Es|].
  destruct (configured_gateway_used "x" (host 5) 24 None 1000 g0 g' c 0 5 7 records allocations s)
    as [Hgw _]; [split; vm_compute; discriminate|split; vm_compute; discriminate|exact Hp|exact Ec|exact Es|].
  intros Heq. apply Hgw in Heq. vm_compute in Heq. discriminate Heq.
Defined.

(** A network with the single device "b", which has gone offline. *)
Definition n0 : NetworkState := match new_from_db "net" net24 (from_secs 3600) 5 0 [] [] ∅ with
  | Ret s => s | Panic => dead end.
Definition come (s : NetworkState) : NetworkState :=
  (allocate_ip_and_get_entry (req "b" None false) 42 1000 0%nat None s).2.
Definition n1 : NetworkState := come n0.
Definition n2 : NetworkState := (offline_ip "b" (host 2) 42 2000 n1).2.
Definition late : Z := from_secs 7200.

Lemma n2_inv : net_inv n2.
Proof.
  apply NetFacts.offline_net_inv, NetFacts.allocate_net_inv; [vm_compute; reflexivity|].
  apply (NetFacts.new_from_db_inv "net" net24 (from_secs 3600) 5 0 [] []).
  - split; intros r1; intros; by apply not_elem_of_nil in H.
  - assert (match new_from_db (W := Wd) "net" net24 (from_secs 3600) 5 0 [] [] ∅ with
            | Ret _ => true | Panic => false end = true) as H by (vm_compute; reflexivity).
    unfold n0. by destruct (new_from_db _ _ _ _ _ _ _ _).
Defined.

Definition g3 : Global := set_state 1 n2 g0.
Lemma g3_state : arena g3 !! 1%positive = Some n2.
Proof. apply lookup_insert_eq. Defined.
Lemma n2_expired : collect_expired_devices late n2 = Ret ["b"%string].
Proof. vm_compute. reflexivity. Defined.

Lemma released (meanwhile : NetworkState → NetworkState) :
  ∃ g', release_expired_ips 1 late meanwhile g3 = Ret g'.
Proof. unfold release_expired_ips. rewrite g3_state, n2_expired. eexists. reflexivity. Defined.

Definition eb2 : DeviceEntry := entry "b" (stats_heap n2, lease_state n2).

Lemma expiry_removes_expired_witness :
  ∃ g' s', release_expired_ips 1 late id g3 = Ret g' ∧ arena g' !! 1%positive = Some s' ∧
    device_map (lease_state s') !! "b"%string = None.
Proof.
  destruct (released id) as [g' Hg'].
  destruct (expiry_removes_expired 1 late g3 n2 g' g3_state Hg') as (s' & H1 & H2).
  exists g', s'. split; [exact Hg'|]. split; [exact H1|].
  refine (proj1 (H2 "b"%string eb2 _) _).
  - vm_compute. reflexivity.
  - split; [vm_compute; reflexivity|]. exists 2000. split; vm_compute; [reflexivity|discriminate].
Defined.

Definition eb3 : DeviceEntry := entry "b" (stats_heap (come n2), lease_state (come n2)).

Lemma expiry_evicts_reconnected_witness :
  ∃ g' s', release_expired_ips 1 late come g3 = Ret g' ∧ arena g' !! 1%positive = Some s' ∧
    is_device_online "b" s' = false ∧ lease_table (lease_state s') !! host 2 = None.
Proof.
  destruct (released come) as [g' Hg'].
  destruct (expiry_evicts_reconnected 1 late g3 n2 come "b" eb3 (host 2) g' g3_state n2_expired)
    as (s' & H1 & H2 & H3 & _).
  - apply NetFacts.allocate_net_inv; [vm_compute; reflexivity|apply n2_inv].
  - vm_compute. reflexivity.
  - vm_compute. reflexivity.
  - vm_compute. reflexivity.
  - split; vm_compute; [reflexivity|discriminate].
  - exact Hg'.
  - exists g', s'. split; [exact Hg'|]. split; [exact H1|]. split; [exact H2|exact H3].
Defined.
End ServiceWitness.
