(* ===== verification/Handler.v ===== *)
(** The handler of one client connection: [server/control_server/handler.rs].

    [upgraded] is the result of [WeakSender::upgrade]; [send] is the awaited
    [Sender::send], which reports whether the receiver is still there.  A panic
    anywhere ends the server ([panic = 'abort']). *)

From S2P Require Import Prelude Libs Std Packet ControlMessage Bridge Lease NetState Service.
From stdpp Require Import base gmap strings list.
From Stdlib Require Import ZArith Lia.

Local Open Scope Z_scope.

(** [RpcMessageRequest] and [RpcMessageResponse]; the only payloads are the
    client list request and response. *)
Record RpcMessageRequest := mkRpcMessageRequest { rpc_id : Z; rpc_client_list_req : bool }.
Record RpcMessageResponse := mkRpcMessageResponse { rpc_res_id : Z; rpc_client_list : list ClientInfo }.

Inductive HandlerError :=
| SessionAlreadyActive | ExpectedRegistration | SenderDropped | SessionNotActive
| NotPending | LeaseExpired | SendFailed
| PacketErr (e : IoError) | UnknownMsgType (v : Z) | MessageErr (e : MsgError) | RpcErr.

Section Handler.
Context {NL : Ipv4NetLib} {PL : PnetLib} {U32 : NetU32Lib}.
Context {W : Type} {MV : Mpsc W bytes} {MW : Mpsc W WireGuardBridgePacket}.
Context {RQ : ProstCodec proto.RequestMessage} {RS : ProstCodec proto.ResponseMessage}.
Context {SB : ProstCodec proto.SelectiveBroadcast} {CL : ProstCodec proto.ClientSimpleInfoList}.
Context {RPQ : ProstCodec RpcMessageRequest} {RPS : ProstCodec RpcMessageResponse}.
Context (send : mpsc_sender W bytes → bytes → W → bool * W).
Context (server_version : string) (format_error : ServiceError → string)
  (format_net_error : NetError → string).

Record ControlHandler := mkControlHandler {
  h_addr : SocketAddr;
  h_upgraded : option (mpsc_sender W bytes);
  h_session : option Session
}.

(** A handler call: its result, the session afterwards and the shared state; or
    the end of the process. *)
Definition handled : Type := outcome (result HandlerError unit * option Session * Global).

Definition reply (sender : mpsc_sender W bytes) (r : ResponseMessage) (se : option Session) (g : Global)
    : handled :=
  let '(ok, w) := send sender (response_encode r) (queues g) in
  Ret (if ok then Ok tt else Err SendFailed, se, with_queues w g).

(** [_ = sender.try_send(data)]. *)
Definition push (sender : mpsc_sender W bytes) (data : bytes) (g : Global) : Global :=
  with_queues (mpsc_try_send sender data (queues g)).2 g.

Definition handle_reg (peer : option PeerOps) (buf : bytes) (random_id wall instant : Z)
    (load : DbLoad) (meanwhile : Global → Global) (h : ControlHandler) (g : Global) : handled :=
  match h_session h with
  | Some _ => Ret (Err SessionAlreadyActive, h_session h, g)
  | None =>
      match request_from_slice buf with
      | Err e => Ret (Err (MessageErr e), None, g)
      | Ok ReqConfirmReg => Ret (Err ExpectedRegistration, None, g)
      | Ok (ReqReg reg) =>
          match h_upgraded h with
          | None => Ret (Err SenderDropped, None, g)
          | Some sender =>
              match register peer reg sender (h_addr h) random_id wall instant load meanwhile g with
              | Panic => Panic
              | Ret (Err e, g) => reply sender (RespError 400 (format_error e)) None g
              | Ret (Ok se, g) =>
                  match arena g !! se_network_state se with
                  | None => Panic   (* the session holds its [Arc] *)
                  | Some s =>
                      reply sender (RespReg (mkRegResponseMsg (se_ip se) (net_prefix_len (ns_net s))
                        (ns_gateway s) server_version)) (Some se) g
                  end
              end
          end
      end
  end.

Definition confirmed (se : Session) : Session :=
  mkSession (se_network_code se) (se_device_id se) (se_ip se) (se_random_id se)
    (se_network_state se) Confirmed (se_allow_wire_guard se) (se_client_capabilities se)
    (se_cluster_lease_cancel se) (se_cluster_lease_valid se).

Definition handle_confirm_reg (save : DeviceRecord → query unit) (h : ControlHandler) (g : Global)
    : handled :=
  match h_session h with
  | None => Ret (Err SessionNotActive, None, g)
  | Some se =>
      match h_upgraded h with
      | None => Ret (Err SenderDropped, Some se, g)
      | Some sender =>
          if bool_decide (se_status se ≠ PendingConfirmation) then Ret (Err NotPending, Some se, g)
          else match arena g !! se_network_state se with
          | None => Panic
          | Some s =>
              let '(r, s) := confirm_registration (se_network_code se) (se_device_id se) (se_ip se)
                               (se_random_id se) save s in
              let g := set_state (se_network_state se) s g in
              match r with
              | Err e => reply sender (RespError 500
                  ("Failed to save registration: " +:+ format_net_error e)%string) (Some se) g
              | Ok _ => reply sender (RespConfirmReg true) (Some (confirmed se)) g
              end
          end
      end
  end.

(** A reply envelope from the gateway: the three that the handler builds write
    the same independent header fields, the echo reply the sequence number too. *)
Definition gateway_envelope (m : MsgType) (seq : option Z) (payload : bytes) : option bytes :=
  match Packet.new (zeroed (HEAD_LENGTH + length payload)) with
  | Err _ => None
  | Ok p =>
      let p := Packet.set_msg_type m p in
      let p := Packet.set_gateway_flag true p in
      let p := Packet.set_ttl 1 p in
      let p := match seq with Some x => Packet.set_seq x p | None => p end in
      match Packet.set_payload payload p with Ok p => Some (buffer p) | Err _ => None end
  end.

Definition push_client_ips (list : ClientSimpleInfoList) : option bytes :=
  gateway_envelope PushClientIps None (client_list_encode list).

(** [&payload[..total_len]] panics when the packet claims to be longer than it
    is, [&mut reply_ip_buf[ip_header_len..]] when its header does. *)
Definition handle_icmp_ping (packet : NetPacket) : outcome (option bytes) :=
  let payload := Packet.payload packet in
  if negb (ipv4_new payload) then Ret None
  else if negb (ipv4_get_next_level_protocol payload =? PROTO_ICMP) then Ret None
  else
    let icmp_payload := ipv4_payload payload in
    if negb (echo_request_new icmp_payload) then Ret None
    else if negb (icmp_get_icmp_type icmp_payload =? ICMP_ECHO_REQUEST) then Ret None
    else
      let ip_header_len := Z.to_nat (ipv4_get_header_length payload * 4) in
      let total_len := Z.to_nat (ipv4_get_total_length payload) in
      if (length payload <? total_len)%nat then Panic
      else
        let buf := take total_len payload in
        if negb (ipv4_new buf) then Ret None
        else
          let buf := ipv4_set_destination (ipv4_get_source payload)
                       (ipv4_set_source (ipv4_get_destination payload) buf) in
          let buf := ipv4_set_checksum (ipv4_checksum buf) buf in
          if (total_len <? ip_header_len)%nat then Panic
          else if negb (icmp_new (drop ip_header_len buf)) then Ret None
          else
            let buf := Bridge.update_from ip_header_len
              (λ b, icmp_set_icmp_code 0 (icmp_set_icmp_type ICMP_ECHO_REPLY b)) buf in
            let sum := icmp_checksum (drop ip_header_len buf) in
            let buf := Bridge.update_from ip_header_len (icmp_set_checksum sum) buf in
            Ret (gateway_envelope Turn (Some (Packet.seq packet)) buf).

Definition handle_rpc (se : Session) (s : NetworkState) (sender : mpsc_sender W bytes)
    (packet : NetPacket) (g : Global) : result HandlerError Global :=
  req ← ok_or (prost_decode (Packet.payload packet)) RpcErr;
  if negb (rpc_client_list_req req) then Ok g
  else
    let list := client_info_list (se_ip se) (se_allow_wire_guard se) s in
    let response := prost_encode (mkRpcMessageResponse (rpc_id req) list) in
    match gateway_envelope RpcRes None response with
    | Some data => Ok (push sender data g)
    | None => Ok g
    end.

Definition with_list_time (t : Z) (l : ClientSimpleInfoList) : ClientSimpleInfoList :=
  mkClientSimpleInfoList (csl_data_version l) (csl_list l) (csl_is_all l) t.

(** [now_ms] is the wall clock in milliseconds. *)
Definition handle_gateway (now_ms : Z) (buf : bytes) (h : ControlHandler) (g : Global) : handled :=
  let finish r g := Ret (r, h_session h, g) in
  match h_session h with
  | None => finish (Err SessionNotActive) g
  | Some se =>
      if negb (se_cluster_lease_valid se) then finish (Err LeaseExpired) g
      else match Packet.new buf with
      | Err e => finish (Err (PacketErr e)) g
      | Ok packet =>
          match Packet.msg_type packet with
          | Err v => finish (Err (UnknownMsgType v)) g
          | Ok m =>
              match h_upgraded h, arena g !! se_network_state se with
              | None, _ => finish (Err SenderDropped) g
              | Some _, None => Panic
              | Some sender, Some s =>
                  if Packet.ttl packet =? 0 then finish (Ok tt) g
                  else
                    let pong := push sender (buffer (Packet.set_msg_type PongTurn packet)) g in
                    match m with
                    | Turn =>
                        match handle_icmp_ping packet with
                        | Panic => Panic
                        | Ret None => finish (Ok tt) g
                        | Ret (Some data) => finish (Ok tt) (push sender data g)
                        end
                    | PingTurn =>
                        let p := Packet.payload packet in
                        if (length p =? 8)%nat then finish (Ok tt) pong
                        else if negb (length p =? 16)%nat then finish (Ok tt) g
                        else
                          let data_version := from_be_bytes (drop 8 p) in
                          match changed_client_simple_list (se_ip se) data_version
                                  (se_allow_wire_guard se) s with
                          | Some list =>
                              let list := with_list_time (u64_as_i64 (from_be_bytes (take 8 p))) list in
                              match push_client_ips list with
                              | Some data => finish (Ok tt) (push sender data g)
                              | None => finish (Ok tt) pong
                              end
                          | None => finish (Ok tt) pong
                          end
                    | Pong =>
                        if (length (Packet.payload packet) =? 8)%nat then
                          let rtt := saturating_sub now_ms (from_be_bytes (Packet.payload packet)) in
                          finish (Ok tt) (provider_update_client_latency (se_network_code se)
                                            (se_ip se) (wrap 32 (rtt / 2)) g)
                        else finish (Ok tt) g
                    | RpcReq =>
                        match handle_rpc se s sender packet g with
                        | Err e => finish (Err e) g
                        | Ok g => finish (Ok tt) g
                        end
                    | _ => finish (Ok tt) g
                    end
              end
          end
      end
  end.

(** The local recipients of a broadcast: VNT clients other than the source that
    [keep] admits. *)
Definition recipients (keep : Ipv4Addr → bool) (src : Ipv4Addr) (s : NetworkState)
    : list NetworkSender :=
  omap (λ '(ip, x), if keep ip && negb (ip =? src) && negb (is_wireguard_endpoint ip s)
                    then Some x else None) (map_to_list (sender_map s)).

Definition send_all (senders : list NetworkSender) (data : bytes) (g : Global) : Global :=
  fold_left (λ g x, with_queues (sender_try_send x data (queues g)).2 g) senders g.

(** Local delivery of a client's packet, with the receiver's traffic counted. *)
Definition deliver_local (l : positive) (dest : Ipv4Addr) (data : bytes) (g : Global) : Global :=
  match arena g !! l with
  | None => g
  | Some s =>
      let '((r, s), w) := try_deliver dest data OriginVnt s (queues g) in
      let s := if bool_decide (r = Delivered) then record_rx_traffic dest (Z.of_nat (length data)) s
               else s in
      set_state l s (with_queues w g)
  end.

(** [Turn], [Ping], [Pong], [PunchStart1], [PunchStart2] and [Quic]: the cluster
    first, when there is one, then the local queue. *)
Definition forward (peer : option PeerOps) (se : Session) (dest : Ipv4Addr) (data : bytes)
    (g : Global) : Global :=
  match peer with
  | None => deliver_local (se_network_state se) dest data g
  | Some p =>
      let '(forwarded, g) :=
        forward_with_best_route p (se_network_code se) dest data OriginVnt g in
      if forwarded : bool then g else deliver_local (se_network_state se) dest data g
  end.

Definition selective (packet : NetPacket) (mem : bool) (src : Ipv4Addr) (s : NetworkState)
    (g : Global) : result HandlerError Global :=
  match selective_broadcast_from_slice (Packet.payload packet) with
  | Err e => Err (MessageErr e)
  | Ok b =>
      match Packet.new (data b) with
      | Err e => Err (PacketErr e)
      | Ok inner =>
          let '(ok, inner) := Packet.decr_ttl inner in
          if negb ok then Ok g
          else Ok (send_all (recipients (λ ip, eqb (bool_decide (ip ∈ ips b)) mem) src s)
                     (buffer inner) g)
      end
  end.

(** The part of [handle_data] after the traffic of the claimed source was
    counted. *)
Definition dispatch (peer : option PeerOps) (se : Session) (m : MsgType) (packet : NetPacket)
    (g : Global) : result HandlerError Global :=
  let src := Packet.src_id packet in
  let dest := Packet.dest_id packet in
  match arena g !! se_network_state se with
  | None => Ok g
  | Some s =>
      let '(ttl_ok, packet') := Packet.decr_ttl packet in
      let relay (valid : bool) := if negb (se_allow_wire_guard se) || negb valid || negb ttl_ok
        then Ok g
        else Ok (route_wireguard_relay peer (se_network_code se) dest (buffer packet') OriginVnt g).2 in
      match m with
      | Turn | Ping | Pong | PunchStart1 | PunchStart2 | Quic =>
          if negb ttl_ok then Ok g else Ok (forward peer se dest (buffer packet') g)
      | WireGuardRelay =>
          relay (is_ok (Bridge.validate_vnt_relay packet (se_ip se) (ns_net s) (ns_gateway s)))
      | WireGuardBroadcastRelay =>
          if negb (se_allow_wire_guard se)
             || negb (has_capability (se_client_capabilities se) CLIENT_CAP_WIREGUARD_BROADCAST_RELAY)
             || negb (is_ok (Bridge.validate_vnt_broadcast_relay packet (se_ip se) (ns_net s)
                               (ns_gateway s)))
             || negb ttl_ok
          then Ok g
          else Ok (route_wireguard_broadcast peer (se_network_code se) (se_ip se)
                     (Packet.payload packet') OriginVnt g).2
      | WireGuardSubnetRelay =>
          relay (has_capability (se_client_capabilities se) CLIENT_CAP_WIREGUARD_SUBNET_RELAY
                 && is_ok (Bridge.validate_vnt_subnet_relay packet (se_ip se) (ns_net s)
                             (ns_gateway s)))
      | Broadcast =>
          if negb ttl_ok then Ok g
          else Ok (send_all (recipients (λ _, true) src s) (buffer packet') g)
      | ExcludeBroadcast => selective packet false src s g
      | TargetBroadcast => selective packet true src s g
      | _ => Ok g
      end
  end.

Definition handle_data (peer : option PeerOps) (save : DeviceRecord → query unit) (now_ms : Z)
    (buf : bytes) (h : ControlHandler) (g : Global) : handled :=
  let finish r g := Ret (r, h_session h, g) in
  match h_session h with
  | None => finish (Err SessionNotActive) g
  | Some se =>
      if bool_decide (se_status se = PendingConfirmation) then
        match request_from_slice buf with
        | Ok ReqConfirmReg => handle_confirm_reg save h g
        | _ => finish (Ok tt) g
        end
      else match Packet.new buf with
      | Err e => finish (Err (PacketErr e)) g
      | Ok packet =>
          match Packet.msg_type packet with
          | Err v => finish (Err (UnknownMsgType v)) g
          | Ok m =>
              if Packet.is_gateway packet then handle_gateway now_ms buf h g
              else if negb (se_cluster_lease_valid se) then finish (Err LeaseExpired) g
              else
                let g := match arena g !! se_network_state se with
                         | Some s => set_state (se_network_state se)
                             (record_tx_traffic (Packet.src_id packet) (Z.of_nat (length buf)) s) g
                         | None => g
                         end in
                match dispatch peer se m packet g with
                | Err e => finish (Err e) g
                | Ok g => finish (Ok tt) g
                end
          end
      end
  end.
End Handler.

(** ** Lemmas *)

Module HandlerFacts.
Section HandlerFacts.
Context {NL : Ipv4NetLib} {NLL : Ipv4NetLaws} {PL : PnetLib} {PLL : PnetLaws}.
Context {U32 : NetU32Lib} {U32L : NetU32Laws}.
Context {W : Type} {MV : Mpsc W bytes} {MW : Mpsc W WireGuardBridgePacket}.

(** The payload of a ping that reaches the copy in [handle_icmp_ping]. *)
Definition echo_request (b : bytes) : Prop :=
  (20 ≤ length b)%nat ∧ ipv4_get_next_level_protocol b = PROTO_ICMP ∧
  (8 ≤ length (ipv4_payload b))%nat ∧ icmp_get_icmp_type (ipv4_payload b) = ICMP_ECHO_REQUEST.

(** Its header claims more than the packet holds. *)
Definition overlong (b : bytes) : Prop :=
  let total := Z.to_nat (ipv4_get_total_length b) in
  let header := Z.to_nat (ipv4_get_header_length b * 4) in
  (length b < total)%nat ∨ (20 ≤ total < header)%nat.

Lemma icmp_ping_panic p :
  handle_icmp_ping p = Panic ↔ echo_request (Packet.payload p) ∧ overlong (Packet.payload p).
Proof.
  unfold handle_icmp_ping, echo_request, overlong.
  set (b := Packet.payload p). rewrite ipv4_new_eq.
  destruct (decide (20 ≤ length b)%nat) as [H1|H1];
    [rewrite bool_decide_eq_true_2 by done|rewrite bool_decide_eq_false_2 by done; simpl; split; [done|tauto]].
  cbn [negb]. destruct (Z.eqb_spec (ipv4_get_next_level_protocol b) PROTO_ICMP) as [H2|H2]; cbn [negb];
    [|split; [done|tauto]].
  rewrite echo_request_new_eq.
  destruct (decide (8 ≤ length (ipv4_payload b))%nat) as [H3|H3];
    [rewrite bool_decide_eq_true_2 by done|rewrite bool_decide_eq_false_2 by done; simpl; split; [done|tauto]].
  cbn [negb]. destruct (Z.eqb_spec (icmp_get_icmp_type (ipv4_payload b)) ICMP_ECHO_REQUEST) as [H4|H4];
    cbn [negb]; [|split; [done|tauto]].
  set (total := Z.to_nat (ipv4_get_total_length b)).
  set (header := Z.to_nat (ipv4_get_header_length b * 4)).
  destruct (Nat.ltb_spec (length b) total) as [Ht|Ht].
  { split; [|done]. intros _. split; [done|by left]. }
  rewrite ipv4_new_eq, length_take.
  destruct (decide (20 ≤ Nat.min total (length b))%nat) as [H5|H5];
    [rewrite bool_decide_eq_true_2 by done|rewrite bool_decide_eq_false_2 by done; simpl; split; [done|lia]].
  cbn [negb]. destruct (Nat.ltb_spec total header) as [Hh|Hh].
  { split; [|done]. intros _. split; [done|right; lia]. }
  split; [|lia]. destruct (negb _); done.
Qed.

Lemma recipients_elem keep src (s : NetworkState) x :
  x ∈ recipients keep src s ↔
  ∃ ip, sender_map s !! ip = Some x ∧ keep ip = true ∧ ip ≠ src ∧ is_wireguard_endpoint ip s = false.
Proof.
  unfold recipients. rewrite list_elem_of_omap. split.
  - intros ([ip y] & Hin & H). apply elem_of_map_to_list in Hin.
    destruct (_ && _ && _) eqn:E; [|done]. injection H as <-. bool_simpl. eauto.
  - intros (ip & Hx & Hk & Hne & Hw). exists (ip, x). split; [by apply elem_of_map_to_list|].
    by rewrite Hk, Hw, (proj2 (Z.eqb_neq _ _) Hne).
Qed.

(** With queues and endpoints in pairs the recipients are VNT clients. *)
Lemma recipients_vnt keep src (s : NetworkState) x :
  senders_ok (sender_map s) (online_endpoints s) → x ∈ recipients keep src s →
  ∃ ip q, x = SVnt q ∧ sender_map s !! ip = Some x ∧ ip ≠ src ∧ keep ip = true.
Proof.
  intros Hs (ip & Hx & Hk & Hne & Hw)%recipients_elem. specialize (Hs ip). rewrite Hx in Hs.
  unfold is_wireguard_endpoint in Hw. exists ip.
  destruct x as [q|code q]; [by exists q|]. destruct (online_endpoints s !! ip) as [[]|]; done.
Qed.

(** Membership of an envelope whose validation succeeded. *)
Lemma validate_envelope_inv p m src :
  Bridge.validate_envelope p m src = Ok tt → Packet.ttl p ≠ 0 ∧ Packet.src_id p = src.
Proof.
  unfold Bridge.validate_envelope. destruct (negb _); [done|]. destruct (_ || _); [done|].
  destruct (Z.eqb_spec (Packet.ttl p) 0); [done|].
  destruct (Z.eqb_spec (Packet.src_id p) src); done.
Qed.

(** All three relay validators bind the envelope's source to the session. *)
Lemma relay_source p ip (n : Ipv4Net) gw route :
  (Bridge.validate_vnt_relay p ip n gw = Ok route ∨
   Bridge.validate_vnt_broadcast_relay p ip n gw = Ok route ∨
   Bridge.validate_vnt_subnet_relay p ip n gw = Ok route) → Packet.src_id p = ip.
Proof.
  unfold Bridge.validate_vnt_relay, Bridge.validate_vnt_broadcast_relay, Bridge.validate_vnt_subnet_relay.
  intros [H|[H|H]];
    (destruct (Bridge.validate_envelope p _ ip) as [[]|] eqn:E; [|done]; by apply validate_envelope_inv in E as [_ E]).
Qed.
End HandlerFacts.
End HandlerFacts.

(** ** Theorems *)

Section Theorems.
Context {NL : Ipv4NetLib} {NLL : Ipv4NetLaws} {PL : PnetLib} {PLL : PnetLaws}.
Context {U32 : NetU32Lib} {U32L : NetU32Laws}.
Context {W : Type} {MV : Mpsc W bytes} {MW : Mpsc W WireGuardBridgePacket}.
Context {RQ : ProstCodec proto.RequestMessage} {RS : ProstCodec proto.ResponseMessage}.
Context {SB : ProstCodec proto.SelectiveBroadcast} {CL : ProstCodec proto.ClientSimpleInfoList}.
Context {RPQ : ProstCodec RpcMessageRequest} {RPS : ProstCodec RpcMessageResponse}.
Context (send : mpsc_sender W bytes → bytes → W → bool * W).
Context (format_net_error : NetError → string).
Implicit Types (g : Global) (s : NetworkState).

(** An unconfirmed client is mute.  Until a pre-registered session confirms,
    whatever it sends other than the confirmation is dropped without any effect,
    and the session stays as it is. *)
Theorem unconfirmed_client_mute peer save now_ms buf h g se :
  h_session h = Some se → se_status se = PendingConfirmation →
  request_from_slice buf ≠ Ok ReqConfirmReg →
  handle_data send format_net_error peer save now_ms buf h g = Ret (Ok tt, Some se, g).
Proof.
  intros Hs Hp Hr. unfold handle_data. rewrite Hs, Hp, bool_decide_eq_true_2 by done.
  destruct (request_from_slice buf) as [[]|]; done.
Qed.


(** A client's broadcast.  With hops left, it is sent with one hop less to
    every VNT client of the network other than the claimed source, and to no
    WireGuard peer; without, it is dropped. *)
Theorem client_broadcast_spec peer se packet g s :
  arena g !! se_network_state se = Some s → packet_ok packet →
  senders_ok (sender_map s) (online_endpoints s) →
  ∃ p', Packet.payload p' = Packet.payload packet ∧
    dispatch peer se Broadcast packet g =
      Ok (if 1 <? Packet.ttl packet
          then send_all (recipients (λ _, true) (Packet.src_id packet) s) (buffer p') g else g) ∧
    (1 < Packet.ttl packet → Packet.ttl p' = Packet.ttl packet - 1) ∧
    (∀ ip q, sender_map s !! ip = Some (SVnt q) → ip ≠ Packet.src_id packet →
       SVnt q ∈ recipients (λ _, true) (Packet.src_id packet) s) ∧
    (∀ x, x ∈ recipients (λ _, true) (Packet.src_id packet) s → ∃ ip q, x = SVnt q ∧
       sender_map s !! ip = Some x ∧ ip ≠ Packet.src_id packet).
Proof.
  intros Ha Hp Hs. unfold dispatch. rewrite Ha.
  destruct (Packet.decr_ttl packet) as [ok p'] eqn:Ed.
  destruct (PacketFacts.decr_ttl_effect packet ok p' Hp Ed) as (_ & -> & _ & Ht & _ & Hpl & _).
  exists p'. split; [done|]. split; [by destruct (1 <? Packet.ttl packet)|].
  split; [|split].
  - intros Hl. by rewrite (proj2 (Z.ltb_lt _ _) Hl) in Ht.
  - intros ip q Hq Hne. apply HandlerFacts.recipients_elem. exists ip. split_and!; try done.
    specialize (Hs ip). rewrite Hq in Hs. unfold is_wireguard_endpoint.
    by destruct (online_endpoints s !! ip) as [[]|].
  - intros x Hx. destruct (HandlerFacts.recipients_vnt _ _ _ _ Hs Hx) as (ip & q & ? & ? & ? & _). eauto.
Qed.

(** A client can abort the server.  A registered client that sends the
    gateway an echo request whose IPv4 header claims more bytes than the packet
    has makes the handler panic, whatever else is going on. *)
Theorem malformed_ping_panics peer save now_ms buf h g se sender s p :
  h_session h = Some se → se_status se = Confirmed → se_cluster_lease_valid se = true →
  h_upgraded h = Some sender → arena g !! se_network_state se = Some s →
  Packet.new buf = Ok p → Packet.msg_type p = Ok Turn → Packet.is_gateway p = true →
  Packet.ttl p ≠ 0 → HandlerFacts.echo_request (Packet.payload p) →
  HandlerFacts.overlong (Packet.payload p) →
  handle_data send format_net_error peer save now_ms buf h g = Panic.
Proof.
  intros Hs Hst Hv Hu Ha Hp Hm Hg Ht He Ho. unfold handle_data.
  rewrite Hs, Hst, bool_decide_eq_false_2, Hp, Hm, Hg by done.
  unfold handle_gateway. rewrite Hs, Hv, Hp, Hm, Hu, Ha, (proj2 (Z.eqb_neq _ _) Ht). cbn [negb].
  rewrite (proj2 (HandlerFacts.icmp_ping_panic p)) by done. done.
Qed.
End Theorems.

(** ** Witnesses *)

Module HandlerWitness.
Import Model LeaseWitness NetWitness ServiceWitness.
#[local] Existing Instance NetWitness.MV.
#[local] Existing Instance NetWitness.MW.

(** A codec that refuses every message. *)
Definition null_codec (M : Type) : ProstCodec M := {| prost_encode := λ _, []; prost_decode := λ _, None |}.
#[local] Existing Instance null_codec.

Definition send : mpsc_sender Wd bytes → bytes → Wd → bool * Wd :=
  λ q b w, let '(e, w) := mpsc_try_send q b w in (negb (is_some e), w).
Definition fmt : NetError → string := λ _, "error"%string.
Definition save : DeviceRecord → query unit := λ _ s, (Ok tt, s).
Definition handler (st : RegistrationStatus) : ControlHandler (W := Wd) :=
  mkControlHandler addr (Some 0%nat) (Some (se1 st)).

Lemma unconfirmed_client_mute_witness :
  handle_data send fmt None save 0 [1; 2; 3] (handler PendingConfirmation) g1 =
  Ret (Ok tt, Some (se1 PendingConfirmation), g1).
Proof. apply unconfirmed_client_mute; [reflexivity|reflexivity|discriminate]. Defined.

(** A relay packet of device "b", which did not register for WireGuard. *)
Definition relay_packet : NetPacket := mkNetPacket relay_data.


Lemma client_broadcast_spec_witness :
  ∃ p', Packet.payload p' = Packet.payload relay_packet ∧
    dispatch None (se1 Confirmed) Broadcast relay_packet g1 =
      Ok (if 1 <? Packet.ttl relay_packet
          then send_all (recipients (λ _, true) (Packet.src_id relay_packet) s1) (buffer p') g1 else g1).
Proof.
  assert (packet_ok relay_packet) as Hp by (apply (bool_decide_eq_true_1 _); vm_compute; reflexivity).
  destruct (client_broadcast_spec None (se1 Confirmed) relay_packet g1 s1 g1_state Hp (ni_senders _ s1_inv))
    as (p' & H1 & H2 & _).
  exists p'. split; [exact H1|exact H2].
Defined.

(** An echo request to the gateway whose total length says 255 bytes. *)
Definition bad_ping : bytes :=
  [129; 85; 64; 0; 0; 0; 0; 1; 10; 26; 0; 3; 10; 26; 0; 1;
   69; 0; 0; 255; 0; 0; 0; 0; 64; 1; 0; 0; 10; 26; 0; 3; 10; 26; 0; 1;
   8; 0; 0; 0; 0; 1; 0; 2; 7; 7].

Lemma malformed_ping_panics_witness :
  handle_data send fmt None save 0 bad_ping (handler Confirmed) g1 = Panic.
Proof.
  apply (malformed_ping_panics send fmt None save 0 bad_ping (handler Confirmed) g1 (se1 Confirmed)
    0%nat s1 (mkNetPacket bad_ping)); try reflexivity.
  - vm_compute. discriminate.
  - split_and!; try (vm_compute; reflexivity); apply Nat.leb_le; vm_compute; reflexivity.
  - left. apply Nat.ltb_lt. vm_compute. reflexivity.
Defined.
End HandlerWitness.
