(* ===== verification/Peer.v ===== *)
(** The links between servers: [server/peer_server.rs].

    Servers of a cluster connect to each other over QUIC, tell each other
    which clients they serve, forward packets along the fastest route, flood
    WireGuard broadcasts, and ask one of them, the lease authority, for every
    address they hand out.

    A [PeerServerInfo] is shared by reference and compared by identity
    ([Arc::ptr_eq]): [peers] is the arena of these objects and a [positive] is
    a reference.  [Link] is the pair of a stream queue and a QUIC connection;
    whether the transport accepts a message is the argument [transport], and
    the messages it accepted are appended to [sent]. *)

From S2P Require Import Prelude Libs Std Packet Bridge Lease NetState Service.
From stdpp Require Import base gmap strings list sorting.
From Stdlib Require Import ZArith Lia.

Local Open Scope Z_scope.

Definition DEFAULT_CLIENT_LATENCY_MS : Z := 10.
Definition DEFAULT_SERVER_LATENCY_MS : Z := 10.
Definition MAX_ROUTES_PER_IP : nat := 5.
Definition PEER_PROTOCOL_VERSION : Z := 2.
Definition CAPABILITY_PEER_IDENTITY_V1 : Z := 1.
Definition CAPABILITY_CLUSTER_LEASE_V1 : Z := Z.shiftl 1 1.
Definition CAPABILITY_WIREGUARD_BROADCAST_V1 : Z := Z.shiftl 1 2.
Definition CAPABILITY_WIREGUARD_ENDPOINT_SYNC_V1 : Z := Z.shiftl 1 3.
Definition BROADCAST_HOP_LIMIT : Z := 8.
Definition BROADCAST_SEEN_TTL : Z := from_secs 120.
Definition MAX_BROADCAST_SEEN : nat := 4096.

(** ** Messages ([proto/server_message.proto]) *)

Record ServerAuthRequest := mkAuthReq {
  aq_token_hash : string; aq_server_id : string; aq_protocol_version : Z; aq_capabilities : Z;
  aq_network_config_digest : string; aq_lease_authority : string }.
Record ServerAuthResponse := mkAuthRes {
  as_success : bool; as_message : string; as_server_id : string; as_protocol_version : Z;
  as_capabilities : Z; as_network_config_digest : string; as_lease_authority : string }.
Record ServerForwardData := mkForward {
  fd_network_code : string; fd_data : bytes; fd_source_is_wireguard : bool }.
Record ServerBroadcastData := mkBroadcast {
  bd_network_code : string; bd_data : bytes; bd_source_ip : Z; bd_broadcast_id : string;
  bd_origin_server_id : string; bd_hops_remaining : Z; bd_source_is_wireguard : bool }.
Record ClientLatencyInfo := mkClientLatency { cl_ip : Z; cl_latency_ms : Z; cl_is_wireguard : bool }.
Record NetworkInfo := mkNetworkInfo { ni_network_code : string; ni_clients : list ClientLatencyInfo }.
Record ServerLeaseAcquireRequest := mkAcquire {
  la_request_id : string; la_network_code : string; la_owner_type : string; la_owner_id : string;
  la_requested_ip : Z; la_has_requested_ip : bool; la_network_base : Z; la_prefix_len : Z;
  la_gateway : Z; la_lease_duration_secs : Z; la_static_reservation : bool;
  la_origin_server_id : string }.
Record ServerLeaseAcquireResponse := mkAcquired {
  lr_request_id : string; lr_success : bool; lr_message : string; lr_ip : Z; lr_revision : Z;
  lr_expires_at : Z }.
Record ServerLeaseReleaseRequest := mkRelease {
  rl_request_id : string; rl_network_code : string; rl_owner_type : string; rl_owner_id : string }.
Record ServerLeaseReleaseResponse := mkReleased {
  rr_request_id : string; rr_success : bool; rr_message : string; rr_revision : Z }.

Inductive Payload :=
| AuthReq (r : ServerAuthRequest)
| AuthRes (r : ServerAuthResponse)
| PingReq (timestamp : Z)
| PingRes (request_timestamp response_timestamp : Z)
| ForwardData (f : ServerForwardData)
| ClientInfoReq (network_codes : list string)
| ClientInfoRes (networks : list NetworkInfo)
| LeaseAcquireReq (r : ServerLeaseAcquireRequest)
| LeaseAcquireRes (r : ServerLeaseAcquireResponse)
| LeaseReleaseReq (r : ServerLeaseReleaseRequest)
| LeaseReleaseRes (r : ServerLeaseReleaseResponse)
| BroadcastData (b : ServerBroadcastData).

(** [ServerMessage]: a message of an unknown kind has no payload. *)
Record ServerMessage := mkServerMessage { payload : option Payload }.

(** ** Peers and routes *)

(** A live connection: the stream's queue and the QUIC connection. *)
Abbreviation Link := positive (only parsing).
Inductive Channel := Stream | Datagram.

Record PeerServerInfo := mkPeerInfo {
  addr : string;
  resolved_addr : option SocketAddr;
  last_resolved_at : option Z;
  last_error : option string;
  remote_server_id : option string;
  remote_protocol_version : Z;
  remote_capabilities : Z;
  cluster_compatible : bool;
  route_only : bool;
  latency_ms : Z;
  sender : option Link;
  connection : option Link;
  connected : bool;
  is_outbound : bool
}.

Module PeerInfo.
Definition new (a : string) (outbound : bool) : PeerServerInfo :=
  mkPeerInfo a None None None None 0 0 false true DEFAULT_SERVER_LATENCY_MS None None false outbound.

Definition set_connected (l : Link) (p : PeerServerInfo) : PeerServerInfo :=
  mkPeerInfo (addr p) (resolved_addr p) (last_resolved_at p) None (remote_server_id p)
    (remote_protocol_version p) (remote_capabilities p) (cluster_compatible p) (route_only p)
    (latency_ms p) (Some l) (Some l) true (is_outbound p).

Definition set_disconnected (p : PeerServerInfo) : PeerServerInfo :=
  mkPeerInfo (addr p) (resolved_addr p) (last_resolved_at p) (last_error p) (remote_server_id p)
    (remote_protocol_version p) (remote_capabilities p) (cluster_compatible p) (route_only p)
    (latency_ms p) None None false (is_outbound p).

Definition set_resolution (now : Z) (address : SocketAddr) (p : PeerServerInfo) : PeerServerInfo :=
  mkPeerInfo (addr p) (Some address) (Some now) None (remote_server_id p)
    (remote_protocol_version p) (remote_capabilities p) (cluster_compatible p) (route_only p)
    (latency_ms p) (sender p) (connection p) (connected p) (is_outbound p).

Definition set_last_error (e : string) (p : PeerServerInfo) : PeerServerInfo :=
  mkPeerInfo (addr p) (resolved_addr p) (last_resolved_at p) (Some e) (remote_server_id p)
    (remote_protocol_version p) (remote_capabilities p) (cluster_compatible p) (route_only p)
    (latency_ms p) (sender p) (connection p) (connected p) (is_outbound p).

Definition set_remote_metadata (server_id : string) (version capabilities : Z) (compatible : bool)
    (p : PeerServerInfo) : PeerServerInfo :=
  mkPeerInfo (addr p) (resolved_addr p) (last_resolved_at p) (last_error p)
    (if bool_decide (server_id = EmptyString) then None else Some server_id)
    version capabilities compatible
    ((version <? PEER_PROTOCOL_VERSION) || (Z.land capabilities CAPABILITY_PEER_IDENTITY_V1 =? 0))
    (latency_ms p) (sender p) (connection p) (connected p) (is_outbound p).

Definition update_latency (latency : Z) (p : PeerServerInfo) : PeerServerInfo :=
  mkPeerInfo (addr p) (resolved_addr p) (last_resolved_at p) (last_error p) (remote_server_id p)
    (remote_protocol_version p) (remote_capabilities p) (cluster_compatible p) (route_only p)
    latency (sender p) (connection p) (connected p) (is_outbound p).
End PeerInfo.

(** [IpRouteInfo]; [route_peer] is the shared [peer_info]. *)
Record IpRouteInfo := mkRoute { route_peer : positive; client_latency_ms : Z }.

Abbreviation RouteMap := (gmap Ipv4Addr (list IpRouteInfo)) (only parsing).

Record Manager := mkManager {
  token_hash : string;
  server_id : string;
  lease_authority : string;
  network_config_digest : string;
  capabilities : Z;
  peers : gmap positive PeerServerInfo;
  peer_servers : list positive;
  ip_to_routes : gmap string RouteMap;
  pending_lease_acquires : gset string;
  pending_lease_releases : gset string;
  broadcast_seen : gmap string Z;
  cluster_ready : bool;
  cluster_conflicts : Z;
  cluster_revision : Z;
  sent : list (Link * Channel * bytes)
}.

(** Field updates. *)
Definition with_peers (p : gmap positive PeerServerInfo) (l : list positive) (m : Manager) : Manager :=
  mkManager (token_hash m) (server_id m) (lease_authority m) (network_config_digest m)
    (capabilities m) p l (ip_to_routes m) (pending_lease_acquires m) (pending_lease_releases m)
    (broadcast_seen m) (cluster_ready m) (cluster_conflicts m) (cluster_revision m) (sent m).
Definition with_routes (r : gmap string RouteMap) (m : Manager) : Manager :=
  mkManager (token_hash m) (server_id m) (lease_authority m) (network_config_digest m)
    (capabilities m) (peers m) (peer_servers m) r (pending_lease_acquires m)
    (pending_lease_releases m) (broadcast_seen m) (cluster_ready m) (cluster_conflicts m)
    (cluster_revision m) (sent m).
Definition with_pending (a r : gset string) (m : Manager) : Manager :=
  mkManager (token_hash m) (server_id m) (lease_authority m) (network_config_digest m)
    (capabilities m) (peers m) (peer_servers m) (ip_to_routes m) a r (broadcast_seen m)
    (cluster_ready m) (cluster_conflicts m) (cluster_revision m) (sent m).
Definition with_seen (s : gmap string Z) (m : Manager) : Manager :=
  mkManager (token_hash m) (server_id m) (lease_authority m) (network_config_digest m)
    (capabilities m) (peers m) (peer_servers m) (ip_to_routes m) (pending_lease_acquires m)
    (pending_lease_releases m) s (cluster_ready m) (cluster_conflicts m) (cluster_revision m) (sent m).
Definition with_cluster (ready : bool) (conflicts revision : Z) (m : Manager) : Manager :=
  mkManager (token_hash m) (server_id m) (lease_authority m) (network_config_digest m)
    (capabilities m) (peers m) (peer_servers m) (ip_to_routes m) (pending_lease_acquires m)
    (pending_lease_releases m) (broadcast_seen m) ready conflicts revision (sent m).
Definition with_sent (o : list (Link * Channel * bytes)) (m : Manager) : Manager :=
  mkManager (token_hash m) (server_id m) (lease_authority m) (network_config_digest m)
    (capabilities m) (peers m) (peer_servers m) (ip_to_routes m) (pending_lease_acquires m)
    (pending_lease_releases m) (broadcast_seen m) (cluster_ready m) (cluster_conflicts m)
    (cluster_revision m) o.
Definition set_ready (b : bool) (m : Manager) : Manager :=
  with_cluster b (cluster_conflicts m) (cluster_revision m) m.
Definition set_revision (r : Z) (m : Manager) : Manager :=
  with_cluster (cluster_ready m) (cluster_conflicts m) r m.
(** A write through the [Arc] [p]. *)
Definition on_peer (p : positive) (f : PeerServerInfo → PeerServerInfo) (m : Manager) : Manager :=
  with_peers (alter f p (peers m)) (peer_servers m) m.

Inductive PeerError :=
| NotConnected | SendFailed | NotReady | AuthorityUnavailable | LeaseTimeout
| LeaseRefused (message : string) | InvalidPrefix | LeaseDatabase (message : string)
| Conflicts (n : Z) | AuthExpected | InvalidToken | DuplicateServerId | AuthFailed (message : string)
| DecodeFailed.

(** [new_with_identity]; the token's SHA-256 digest in hexadecimal is the
    argument [hash]. *)
Definition new_with_identity (hash : string) (server_id lease_authority : option string)
    (digest : string) : Manager :=
  let id := default EmptyString server_id in
  let authority := default EmptyString lease_authority in
  let cluster_enabled := negb (bool_decide (id = EmptyString))
                         && negb (bool_decide (authority = EmptyString)) in
  mkManager hash id authority digest
    (Z.lor (Z.lor (Z.lor CAPABILITY_PEER_IDENTITY_V1 CAPABILITY_WIREGUARD_BROADCAST_V1)
              CAPABILITY_WIREGUARD_ENDPOINT_SYNC_V1)
           (if cluster_enabled then CAPABILITY_CLUSTER_LEASE_V1 else 0))
    ∅ [] ∅ ∅ ∅ ∅ (negb cluster_enabled || bool_decide (id = authority)) 0 0 [].

Section Identity.
Context (m : Manager).

Definition auth_request : ServerAuthRequest :=
  mkAuthReq (token_hash m) (server_id m) PEER_PROTOCOL_VERSION (capabilities m)
    (network_config_digest m) (lease_authority m).

Definition auth_response (success : bool) (message : string) : ServerAuthResponse :=
  mkAuthRes success message (server_id m) PEER_PROTOCOL_VERSION (capabilities m)
    (network_config_digest m) (lease_authority m).

Definition peer_cluster_compatible (remote_id : string) (remote_caps : Z)
    (remote_digest remote_authority : string) : bool :=
  negb (bool_decide (server_id m = EmptyString))
  && negb (bool_decide (remote_id = EmptyString))
  && negb (bool_decide (remote_id = server_id m))
  && negb (Z.land remote_caps CAPABILITY_CLUSTER_LEASE_V1 =? 0)
  && bool_decide (remote_authority = lease_authority m)
  && bool_decide (remote_digest = network_config_digest m).

Definition cluster_enabled : bool :=
  negb (bool_decide (server_id m = EmptyString)) && negb (bool_decide (lease_authority m = EmptyString)).

Definition is_lease_authority : bool := cluster_enabled && bool_decide (server_id m = lease_authority m).

(** [authority_peer]: the first connected, compatible peer with the
    authority's id. *)
Definition authority_peer : option positive :=
  find_map (λ p, info ← peers m !! p;
    if connected info && cluster_compatible info
       && bool_decide (remote_server_id info = Some (lease_authority m))
    then Some p else None) (peer_servers m).
End Identity.

Section Leases.
Context {NL : Ipv4NetLib} {SM : ProstCodec ServerMessage}.

(** [db::ClusterLeaseRequest] and [db::LocalIpAllocation]. *)
Record ClusterLeaseRequest := mkClusterLeaseRequest {
  cq_network_code : string; cq_owner_type : string; cq_owner_id : string;
  cq_requested_ip : option Ipv4Addr; cq_network : Ipv4Net; cq_gateway : Ipv4Addr;
  cq_lease_duration_secs : Z; cq_static_reservation : bool; cq_authority_id : string;
  cq_origin_server_id : string }.

Record LocalIpAllocation := mkLocalIpAllocation {
  al_network_code : string; al_owner_type : string; al_owner_id : string; al_ip : Ipv4Addr;
  al_network : Ipv4Net; al_gateway : Ipv4Addr; al_lease_duration_secs : Z }.

Context (transport : Link → Channel → bytes → bool).
(** The authority's database, and the text of an error. *)
Context (db_acquire : ClusterLeaseRequest → result string ClusterLeaseGrant)
        (db_release : string → string → string → string → result string Z)
        (error_text : PeerError → string).

(** [PeerServerInfo::send] and [send_datagram], with the message encoded. *)
Definition send_on (ch : Channel) (p : positive) (msg : Payload) (m : Manager)
    : result PeerError unit * Manager :=
  let data := prost_encode (mkServerMessage (Some msg)) in
  match peers m !! p ≫= match ch with Stream => sender | Datagram => connection end with
  | None => (Err NotConnected, m)
  | Some l => if transport l ch data then (Ok tt, with_sent (sent m ++ [(l, ch, data)]) m)
              else (Err SendFailed, m)
  end.

Definition db_lease_request (req : ServerLeaseAcquireRequest) (m : Manager)
    : result PeerError ClusterLeaseRequest :=
  _ ← ensure (la_prefix_len req <=? 32) InvalidPrefix;
  network ← ok_or (net_new (la_network_base req) (la_prefix_len req)) InvalidPrefix;
  Ok (mkClusterLeaseRequest (la_network_code req) (la_owner_type req) (la_owner_id req)
        (if la_has_requested_ip req then Some (la_requested_ip req) else None) network
        (la_gateway req) (la_lease_duration_secs req) (la_static_reservation req) (server_id m)
        (la_origin_server_id req)).

(** The remote answer is what the waiting task is woken with: [None] when the
    five seconds pass or the channel is closed.  Only [handle_peer_message]
    takes the request out of the pending map. *)
Definition acquire_lease_request (answer : option ServerLeaseAcquireResponse)
    (req : ServerLeaseAcquireRequest) (m : Manager) : result PeerError ClusterLeaseGrant * Manager :=
  if is_lease_authority m then
    match db_lease_request req m with
    | Err e => (Err e, m)
    | Ok dbq =>
        match db_acquire dbq with
        | Err e => (Err (LeaseDatabase e), m)
        | Ok grant => (Ok grant, set_revision (gr_revision grant) m)
        end
    end
  else
    match authority_peer m with
    | None => (Err AuthorityUnavailable, m)
    | Some p =>
        let id := la_request_id req in
        let m := with_pending ({[id]} ∪ pending_lease_acquires m) (pending_lease_releases m) m in
        match send_on Stream p (LeaseAcquireReq req) m with
        | (Err e, m) =>
            (Err e, with_pending (pending_lease_acquires m ∖ {[id]}) (pending_lease_releases m) m)
        | (Ok _, m) =>
            match answer with
            | None => (Err LeaseTimeout, m)
            | Some r =>
                let m := with_pending (pending_lease_acquires m ∖ {[id]}) (pending_lease_releases m) m in
                if negb (lr_success r) then (Err (LeaseRefused (lr_message r)), m)
                else (Ok (mkClusterLeaseGrant (lr_ip r) (lr_revision r) (lr_expires_at r)),
                      set_revision (lr_revision r) m)
            end
        end
    end.

Definition acquire_lease (request_id : string) (answer : option ServerLeaseAcquireResponse)
    (network_code owner_type owner_id : string) (requested_ip : option Ipv4Addr)
    (network : Ipv4Net) (gateway : Ipv4Addr) (lease_duration : Z) (static_reservation : bool)
    (m : Manager) : result PeerError (option ClusterLeaseGrant) * Manager :=
  if negb (cluster_enabled m) then (Ok None, m)
  else if negb (is_lease_authority m) && negb (cluster_ready m) then (Err NotReady, m)
  else
    let req := mkAcquire request_id network_code owner_type owner_id (default 0 requested_ip)
                 (is_some requested_ip) (net_network network) (net_prefix_len network) gateway
                 (as_secs lease_duration) static_reservation (server_id m) in
    match acquire_lease_request answer req m with
    | (Ok g, m) => (Ok (Some g), m)
    | (Err e, m) => (Err e, m)
    end.

Definition release_lease (request_id : string) (answer : option ServerLeaseReleaseResponse)
    (network_code owner_type owner_id : string) (m : Manager) : result PeerError unit * Manager :=
  if negb (cluster_enabled m) then (Ok tt, m)
  else if is_lease_authority m then
    match db_release network_code owner_type owner_id (server_id m) with
    | Err e => (Err (LeaseDatabase e), m)
    | Ok revision => (Ok tt, set_revision revision m)
    end
  else
    match authority_peer m with
    | None => (Err AuthorityUnavailable, m)
    | Some p =>
        let m := with_pending (pending_lease_acquires m) ({[request_id]} ∪ pending_lease_releases m) m in
        match send_on Stream p
                (LeaseReleaseReq (mkRelease request_id network_code owner_type owner_id)) m with
        | (Err e, m) =>
            (Err e, with_pending (pending_lease_acquires m)
                      (pending_lease_releases m ∖ {[request_id]}) m)
        | (Ok _, m) =>
            match answer with
            | None => (Err LeaseTimeout, m)
            | Some r =>
                let m := with_pending (pending_lease_acquires m)
                           (pending_lease_releases m ∖ {[request_id]}) m in
                if negb (rr_success r) then (Err (LeaseRefused (rr_message r)), m)
                else (Ok tt, set_revision (rr_revision r) m)
            end
        end
    end.

(** One local allocation, with its random request id and the authority's
    answer; the result is the number of conflicts. *)
Definition reconcile_one (x : string * option ServerLeaseAcquireResponse * LocalIpAllocation)
    (acc : Z * Manager) : Z * Manager :=
  let '(id, answer, a) := x in
  let '(conflicts, m) := acc in
  let req := mkAcquire id (al_network_code a) (al_owner_type a) (al_owner_id a) (al_ip a) true
               (net_network (al_network a)) (net_prefix_len (al_network a)) (al_gateway a)
               (al_lease_duration_secs a) (bool_decide (al_owner_type a = "wireguard_peer"))
               (server_id m) in
  match acquire_lease_request answer req m with
  | (Ok grant, m) => (if gr_ip grant =? al_ip a then conflicts else u64_add conflicts 1, m)
  | (Err _, m) => (u64_add conflicts 1, m)
  end.

Definition reconcile_local_allocations
    (allocations : result string (list (string * option ServerLeaseAcquireResponse * LocalIpAllocation)))
    (m : Manager) : result PeerError unit * Manager :=
  if negb (cluster_enabled m) || is_lease_authority m then (Ok tt, set_ready true m)
  else
    let m := set_ready false m in
    match allocations with
    | Err e => (Err (LeaseDatabase e), m)
    | Ok l =>
        let '(conflicts, m) := fold_left (λ acc x, reconcile_one x acc) l (0, m) in
        let m := with_cluster (conflicts =? 0) conflicts (cluster_revision m) m in
        (if conflicts =? 0 then Ok tt else Err (Conflicts conflicts), m)
    end.

(** *** The authority's side *)

Definition handle_lease_acquire_request (p : positive) (req : ServerLeaseAcquireRequest) (m : Manager)
    : result PeerError unit * Manager :=
  let refuse msg m := (mkAcquired (la_request_id req) false msg 0 (cluster_revision m) 0, m) in
  let compatible := match peers m !! p with Some i => cluster_compatible i | None => false end in
  let '(response, m) :=
    if negb (is_lease_authority m) then refuse "当前节点不是租约权威"%string m
    else if negb compatible then refuse "Peer 集群能力或网络配置不兼容"%string m
    else match db_lease_request req m with
         | Err e => refuse (error_text e) m
         | Ok dbq =>
             match db_acquire dbq with
             | Err e => refuse e m
             | Ok grant =>
                 (mkAcquired (la_request_id req) true "OK"%string (gr_ip grant) (gr_revision grant)
                    (gr_expires_at grant), set_revision (gr_revision grant) m)
             end
         end in
  send_on Stream p (LeaseAcquireRes response) m.

Definition handle_lease_release_request (p : positive) (req : ServerLeaseReleaseRequest) (m : Manager)
    : result PeerError unit * Manager :=
  let compatible := match peers m !! p with Some i => cluster_compatible i | None => false end in
  let released :=
    if negb (is_lease_authority m) || negb compatible then Err "当前连接不能释放权威租约"%string
    else db_release (rl_network_code req) (rl_owner_type req) (rl_owner_id req) (server_id m) in
  let '(response, m) :=
    match released with
    | Ok revision => (mkReleased (rl_request_id req) true "OK"%string revision, set_revision revision m)
    | Err e => (mkReleased (rl_request_id req) false e (cluster_revision m), m)
    end in
  send_on Stream p (LeaseReleaseRes response) m.
End Leases.

(** ** Routes *)

(** [IpRouteInfo::total_latency], a [u32] sum. *)
Definition total_latency (ps : gmap positive PeerServerInfo) (r : IpRouteInfo) : Z :=
  u32_add (u32_add (match ps !! route_peer r with Some p => latency_ms p | None => 0 end)
             (client_latency_ms r)) 2.

(** [sort_by_key]: stable. *)
Fixpoint insert_by {A} (key : A → Z) (x : A) (l : list A) : list A :=
  match l with
  | [] => [x]
  | y :: l => if key x <=? key y then x :: y :: l else y :: insert_by key x l
  end.
Definition sort_by_key {A} (key : A → Z) (l : list A) : list A := foldr (insert_by key) [] l.

(** Update the peer's route in place, or push it. *)
Fixpoint upsert_route (p : positive) (latency : Z) (l : list IpRouteInfo) : list IpRouteInfo :=
  match l with
  | [] => [mkRoute p latency]
  | r :: l => if bool_decide (route_peer r = p) then mkRoute p latency :: l
              else r :: upsert_route p latency l
  end.

(** [ip_map.entry(ip).and_modify(...).or_insert_with(...)]. *)
Definition add_route (ps : gmap positive PeerServerInfo) (p : positive) (c : ClientLatencyInfo)
    (routes : RouteMap) : RouteMap :=
  <[cl_ip c := match routes !! cl_ip c with
               | Some l => take MAX_ROUTES_PER_IP
                             (sort_by_key (total_latency ps) (upsert_route p (cl_latency_ms c) l))
               | None => [mkRoute p (cl_latency_ms c)]
               end]> routes.

Definition drop_peer (p : positive) (l : list IpRouteInfo) : list IpRouteInfo :=
  filter (λ r, route_peer r ≠ p) l.

(** The [retain] at the end of a synchronisation: routes of [p] to addresses
    that it no longer announces go, and empty entries with them. *)
Definition retain_routes (p : positive) (synced : gset Ipv4Addr) (routes : RouteMap) : RouteMap :=
  map_imap (λ ip l,
    let l := if bool_decide (ip ∈ synced) then l else drop_peer p l in
    if bool_decide (l = []) then None else Some l) routes.

Definition sync_routes (ps : gmap positive PeerServerInfo) (p : positive)
    (clients : list ClientLatencyInfo) (routes : RouteMap) : RouteMap :=
  retain_routes p (list_to_set (cl_ip <$> clients))
    (fold_left (λ m c, add_route ps p c m) clients routes).

(** The strict minimum among the routes through connected peers, the first of
    them when there are several. *)
Definition better_route (ps : gmap positive PeerServerInfo) (best : option (positive * Z))
    (r : IpRouteInfo) : option (positive * Z) :=
  if negb (match ps !! route_peer r with Some p => connected p | None => false end) then best
  else
    let t := total_latency ps r in
    match best with
    | None => Some (route_peer r, t)
    | Some (_, current_best) => if t <? current_best then Some (route_peer r, t) else best
    end.

Section Routing.
Context {NL : Ipv4NetLib} {PL : PnetLib} {U32 : NetU32Lib}.
Context {W : Type} {MV : Mpsc W bytes} {MW : Mpsc W WireGuardBridgePacket}.
Context {SM : ProstCodec ServerMessage}.
Context (transport : Link → Channel → bytes → bool).

Definition on_network (code : string) (f : NetworkState → NetworkState)
    (g : Global (W := W)) : Global :=
  match get_network_state code g with
  | Some (l, s) => set_state l (f s) g
  | None => g
  end.

Definition peer_caps (p : positive) (m : Manager) : Z :=
  match peers m !! p with Some i => remote_capabilities i | None => 0 end.
Definition peer_addr (p : positive) (m : Manager) : string :=
  match peers m !! p with Some i => addr i | None => EmptyString end.

(** [handle_client_info_response]; [network_codes] is the set the link's task
    keeps of the networks it has heard of. *)
Definition sync_network (now : Z) (p : positive) (n : NetworkInfo)
    (acc : gset string * Manager * Global (W := W)) : gset string * Manager * Global :=
  let '(network_codes, m, g) := acc in
  let code := ni_network_code n in
  let accepts := negb (Z.land (peer_caps p m) CAPABILITY_WIREGUARD_ENDPOINT_SYNC_V1 =? 0) in
  let remote_wireguard : gset Ipv4Addr :=
    list_to_set (cl_ip <$> filter (λ c, (accepts && cl_is_wireguard c) = true) (ni_clients n)) in
  ({[code]} ∪ network_codes,
   with_routes (<[code := sync_routes (peers m) p (ni_clients n) (default ∅ (ip_to_routes m !! code))]>
                  (ip_to_routes m)) m,
   on_network code (λ s, (update_remote_wireguard_ips now (peer_addr p m) remote_wireguard s).2) g).

Definition handle_client_info_response (now : Z) (p : positive) (networks : list NetworkInfo)
    (network_codes : gset string) (m : Manager) (g : Global (W := W))
    : gset string * Manager * Global :=
  fold_left (λ acc n, sync_network now p n acc) networks (network_codes, m, g).

(** [cleanup_routes]. *)
Definition cleanup_network (now : Z) (p : positive) (acc : Manager * Global (W := W)) (code : string)
    : Manager * Global :=
  let '(m, g) := acc in
  (match ip_to_routes m !! code with
   | Some routes => with_routes (<[code := retain_routes p ∅ routes]> (ip_to_routes m)) m
   | None => m
   end,
   on_network code (λ s, (remove_remote_wireguard_source now (peer_addr p m) s).2) g).

Definition cleanup_routes (now : Z) (p : positive) (network_codes : gset string) (m : Manager)
    (g : Global (W := W)) : Manager * Global :=
  fold_left (cleanup_network now p) (elements network_codes) (m, g).

(** [handle_client_info_request]: the clients with a queue, with their
    measured or default latency. *)
Definition client_latencies (s : NetworkState (W := W)) : list ClientLatencyInfo :=
  (λ '(ip, _), mkClientLatency ip
     (default DEFAULT_CLIENT_LATENCY_MS (get_device_entry_by_ip ip s ≫= e_latency_ms))
     (is_wireguard_endpoint ip s)) <$> map_to_list (sender_map s).

Definition handle_client_info_request (codes : list string) (g : Global (W := W)) : list NetworkInfo :=
  (λ code, mkNetworkInfo code
     (match get_network_state code g with Some (_, s) => client_latencies s | None => [] end)) <$> codes.

(** [pull_client_info_from_peer]. *)
Definition pull_client_info_from_peer (p : positive) (m : Manager) (g : Global (W := W))
    : result PeerError unit * Manager :=
  let codes := (map_to_list (network_states g)).*1 in
  match codes with
  | [] => (Ok tt, m)
  | _ => send_on transport Stream p (ClientInfoReq codes) m
  end.

Definition find_best_route (code : string) (target : Ipv4Addr) (m : Manager) (g : Global (W := W))
    : option (positive * Z * option Z) :=
  let local := '(_, s) ← get_network_state code g; get_device_entry_by_ip target s ≫= e_latency_ms in
  routes ← ip_to_routes m !! code; l ← routes !! target;
  '(p, t) ← fold_left (better_route (peers m)) l None;
  Some (p, t, local).

(** [forward_to_peer]. *)
Definition forward_to_peer (p : positive) (code : string) (data : bytes) (origin : RelayOrigin)
    (m : Manager) : bool * Manager :=
  match send_on transport Datagram p
          (ForwardData (mkForward code data (bool_decide (origin = OriginWireGuard)))) m with
  | (Ok _, m) => (true, m)
  | (Err _, m) => (false, m)
  end.

Definition should_forward (remote : Z) (local : option Z) (local_has_client : bool) : bool :=
  match local with
  | Some local => remote <? local
  | None => if local_has_client then remote <? DEFAULT_CLIENT_LATENCY_MS else true
  end.

Definition forward_with_best_route (code : string) (target : Ipv4Addr) (data : bytes)
    (origin : RelayOrigin) (m : Manager) (g : Global (W := W)) : bool * Manager :=
  let local_has_client :=
    match get_network_state code g with
    | Some (_, s) => is_some (sender_map s !! target)
    | None => false
    end in
  match find_best_route code target m g with
  | Some (p, remote, local) =>
      if should_forward remote local local_has_client then forward_to_peer p code data origin m
      else (false, m)
  | None => (false, m)
  end.

(** ** Data from other servers *)

Definition handle_forward_data (f : ServerForwardData) (g : Global (W := W)) : Global :=
  match get_network_state (fd_network_code f) g with
  | None => g
  | Some (l, s) =>
      match Packet.new (fd_data f) with
      | Err _ => g
      | Ok packet =>
          let dest := Packet.dest_id packet in
          let origin := if fd_source_is_wireguard f then OriginWireGuard else OriginVnt in
          let '((res, s), w) := try_deliver dest (fd_data f) origin s (queues g) in
          let s := if bool_decide (res = Delivered)
                   then record_rx_traffic dest (Z.of_nat (length (fd_data f))) s else s in
          set_state l s (with_queues w g)
      end
  end.

Definition fresh_seen (now : Z) (t : Z) : bool := saturating_sub now t <? BROADCAST_SEEN_TTL.

(** [mark_broadcast_seen]: [true] when the broadcast is new. *)
Definition mark_broadcast_seen (now : Z) (id : string) (m : Manager) : bool * Manager :=
  let seen := broadcast_seen m in
  let seen := if (MAX_BROADCAST_SEEN <=? size seen)%nat
              then filter (λ x, fresh_seen now x.2 = true) seen else seen in
  match seen !! id with
  | Some t => if fresh_seen now t then (false, with_seen seen m)
              else (true, with_seen (<[id := now]> seen) m)
  | None => (true, with_seen (<[id := now]> seen) m)
  end.

(** The loop of [forward_broadcast_message] over the peers, with the set of
    servers that already got a copy and the number of copies. *)
Definition forward_broadcast_to (incoming : option positive) (b : ServerBroadcastData) (p : positive)
    (acc : gset string * Z * Manager) : gset string * Z * Manager :=
  let '(remote_ids, n, m) := acc in
  match peers m !! p with
  | None => acc
  | Some i =>
      if negb (connected i) || (Z.land (remote_capabilities i) CAPABILITY_WIREGUARD_BROADCAST_V1 =? 0)
         || bool_decide (incoming = Some p)
      then acc
      else
        let remote_id := default (addr i) (remote_server_id i) in
        if bool_decide (remote_id ∈ remote_ids) then acc
        else match send_on transport Datagram p (BroadcastData b) m with
             | (Ok _, m) => ({[remote_id]} ∪ remote_ids, n + 1, m)
             | (Err _, m) => ({[remote_id]} ∪ remote_ids, n, m)
             end
  end.

Definition forward_broadcast_message (incoming : option positive) (b : ServerBroadcastData)
    (m : Manager) : Z * Manager :=
  let '(_, n, m) :=
    fold_left (λ acc p, forward_broadcast_to incoming b p acc) (peer_servers m) (∅, 0, m) in
  (n, m).

Definition with_hops (h : Z) (b : ServerBroadcastData) : ServerBroadcastData :=
  mkBroadcast (bd_network_code b) (bd_data b) (bd_source_ip b) (bd_broadcast_id b)
    (bd_origin_server_id b) h (bd_source_is_wireguard b).

Definition broadcast_refused (p : positive) (b : ServerBroadcastData) (m : Manager) : bool :=
  (Z.land (peer_caps p m) CAPABILITY_WIREGUARD_BROADCAST_V1 =? 0)
  || bool_decide (bd_network_code b = EmptyString)
  || bool_decide (bd_broadcast_id b = EmptyString)
  || (128 <? Z.of_nat (String.length (bd_broadcast_id b)))
  || (MAX_INNER_IPV4_PACKET_SIZE <? length (bd_data b))%nat
  || (bd_hops_remaining b =? 0)
  || (BROADCAST_HOP_LIMIT <? bd_hops_remaining b).

Definition handle_broadcast_data (now : Z) (p : positive) (b : ServerBroadcastData) (m : Manager)
    (g : Global (W := W)) : Manager * Global :=
  if broadcast_refused p b m then (m, g)
  else
    let '(new, m) := mark_broadcast_seen now (bd_broadcast_id b) m in
    if negb new then (m, g)
    else
      let origin := if bd_source_is_wireguard b then OriginWireGuard else OriginVnt in
      let g :=
        match get_network_state (bd_network_code b) g with
        | Some (l, s) =>
            match relay_wireguard_broadcast (bd_source_ip b) (bd_data b) origin s (queues g) with
            | Ok (_, s, w) => set_state l s (with_queues w g)
            | Err _ => g
            end
        | None => g
        end in
      let hops := bd_hops_remaining b - 1 in
      ((if 0 <? hops then (forward_broadcast_message (Some p) (with_hops hops b) m).2 else m), g).

(** [random] is the text of the random request id. *)
Definition broadcast_wireguard (now : Z) (random : string) (code : string) (source : Ipv4Addr)
    (data : bytes) (origin : RelayOrigin) (m : Manager) : Z * Manager :=
  if (MAX_INNER_IPV4_PACKET_SIZE <? length data)%nat then (0, m)
  else
    let id := (server_id m +:+ ":" +:+ random)%string in
    let m := (mark_broadcast_seen now id m).2 in
    forward_broadcast_message None
      (mkBroadcast code data source id (server_id m) BROADCAST_HOP_LIMIT
         (bool_decide (origin = OriginWireGuard))) m.
End Routing.

(** ** The life of a link *)

Section Links.
Context {NL : Ipv4NetLib} {PL : PnetLib} {U32 : NetU32Lib}.
Context {W : Type} {MV : Mpsc W bytes} {MW : Mpsc W WireGuardBridgePacket}.
Context {SM : ProstCodec ServerMessage}.
Context (transport : Link → Channel → bytes → bool).
Context (db_acquire : ClusterLeaseRequest → result string ClusterLeaseGrant)
        (db_release : string → string → string → string → result string Z)
        (error_text : PeerError → string).

(** A frame written before the peer is known. *)
Definition write_frame (l : Link) (msg : Payload) (m : Manager) : bool * Manager :=
  let data := prost_encode (mkServerMessage (Some msg)) in
  if transport l Stream data then (true, with_sent (sent m ++ [(l, Stream, data)]) m) else (false, m).

(** The rest of a handshake, once the other side is authenticated. *)
Definition attach (now : Z) (address : SocketAddr) (l : Link) (id : string) (version caps : Z)
    (digest authority : string) (m : Manager) (i : PeerServerInfo) : PeerServerInfo :=
  PeerInfo.set_connected l
    (PeerInfo.set_remote_metadata id version caps (peer_cluster_compatible m id caps digest authority)
      (PeerInfo.set_resolution now address i)).

(** [handle_peer_connection]: an incoming connection [l] whose first frame is
    [frame]; the result is the new peer. *)
Definition handle_peer_connection (now : Z) (address : SocketAddr) (address_text : string) (l : Link)
    (frame : bytes) (m : Manager) : result PeerError positive * Manager :=
  match prost_decode frame with
  | None => (Err DecodeFailed, m)
  | Some (mkServerMessage (Some (AuthReq q))) =>
      if negb (bool_decide (aq_token_hash q = token_hash m)) then
        (Err InvalidToken, (write_frame l (AuthRes (auth_response m false "Invalid token"%string)) m).2)
      else if negb (bool_decide (server_id m = EmptyString))
              && bool_decide (aq_server_id q = server_id m) then
        (Err DuplicateServerId,
         (write_frame l (AuthRes (auth_response m false "Duplicate server_id"%string)) m).2)
      else
        match write_frame l (AuthRes (auth_response m true "OK"%string)) m with
        | (false, m) => (Err SendFailed, m)
        | (true, m) =>
            let p := fresh (dom (peers m)) in
            let i := attach now address l (aq_server_id q) (aq_protocol_version q) (aq_capabilities q)
                       (aq_network_config_digest q) (aq_lease_authority q) m
                       (PeerInfo.new address_text false) in
            (Ok p, with_peers (<[p := i]> (peers m)) (peer_servers m ++ [p]) m)
        end
  | Some _ => (Err AuthExpected, m)
  end.

(** [connect_to_peer], before its task runs. *)
Definition connect_to_peer (peer_addr : string) (m : Manager) : positive * Manager :=
  let p := fresh (dom (peers m)) in
  (p, with_peers (<[p := PeerInfo.new peer_addr true]> (peers m)) (peer_servers m ++ [p]) m).

(** [connect_to_peer_once] from the established connection [l] to the start of
    the communication loop; the boolean says whether reconciliation was
    started. *)
Definition connect_to_peer_once (now : Z) (p : positive) (address : SocketAddr) (l : Link)
    (reply : option bytes) (m : Manager) : result PeerError bool * Manager :=
  match write_frame l (AuthReq (auth_request m)) m with
  | (false, m) => (Err SendFailed, m)
  | (true, m) =>
      match reply ≫= prost_decode with
      | Some (mkServerMessage (Some (AuthRes r))) =>
          if negb (as_success r) then (Err (AuthFailed (as_message r)), m)
          else
            let m := on_peer p (attach now address l (as_server_id r) (as_protocol_version r)
                                 (as_capabilities r) (as_network_config_digest r)
                                 (as_lease_authority r) m) m in
            match peers m !! p with
            | Some i =>
                if cluster_compatible i && bool_decide (remote_server_id i = Some (lease_authority m))
                then (Ok true, set_ready false m) else (Ok false, m)
            | None => (Ok false, m)
            end
      | Some _ => (Err AuthExpected, m)
      | None => (Err DecodeFailed, m)
      end
  end.

Definition handle_ping_request (wall_ms : Z) (p : positive) (timestamp : Z) (m : Manager)
    : result PeerError unit * Manager :=
  send_on transport Stream p (PingRes timestamp wall_ms) m.

(** Half the round trip, cut to 32 bits. *)
Definition handle_ping_response (wall_ms : Z) (p : positive) (request_timestamp : Z) (m : Manager)
    : Manager :=
  on_peer p (PeerInfo.update_latency (wrap 32 (saturating_sub wall_ms request_timestamp / 2))) m.

(** [handle_peer_message]; the answers to lease requests only wake the waiting
    task. *)
Definition handle_peer_message (now wall_ms : Z) (p : positive) (data : bytes)
    (network_codes : gset string) (m : Manager) (g : Global (W := W))
    : result PeerError unit * (gset string * Manager * Global) :=
  let keep (r : result PeerError unit * Manager) := (r.1, (network_codes, r.2, g)) in
  match prost_decode data with
  | None => (Err DecodeFailed, (network_codes, m, g))
  | Some msg =>
      match payload msg with
      | Some (PingReq t) => keep (handle_ping_request wall_ms p t m)
      | Some (PingRes t _) => (Ok tt, (network_codes, handle_ping_response wall_ms p t m, g))
      | Some (ForwardData f) => (Ok tt, (network_codes, m, handle_forward_data f g))
      | Some (BroadcastData b) =>
          let '(m, g) := handle_broadcast_data transport now p b m g in
          (Ok tt, (network_codes, m, g))
      | Some (ClientInfoReq codes) =>
          keep (send_on transport Stream p (ClientInfoRes (handle_client_info_request codes g)) m)
      | Some (ClientInfoRes networks) =>
          (Ok tt, handle_client_info_response now p networks network_codes m g)
      | Some (LeaseAcquireReq q) => keep (handle_lease_acquire_request transport db_acquire error_text p q m)
      | Some (LeaseAcquireRes r) =>
          (Ok tt, (network_codes, with_pending (pending_lease_acquires m ∖ {[lr_request_id r]})
                                    (pending_lease_releases m) m, g))
      | Some (LeaseReleaseReq q) => keep (handle_lease_release_request transport db_release p q m)
      | Some (LeaseReleaseRes r) =>
          (Ok tt, (network_codes, with_pending (pending_lease_acquires m)
                                    (pending_lease_releases m ∖ {[rr_request_id r]}) m, g))
      | _ => (Ok tt, (network_codes, m, g))
      end
  end.

(** The end of [run_peer_communication_loop]. *)
Definition end_link (now : Z) (p : positive) (network_codes : gset string) (m : Manager)
    (g : Global (W := W)) : Manager * Global :=
  let m := on_peer p PeerInfo.set_disconnected m in
  let remote := peers m !! p ≫= remote_server_id in
  let m := if cluster_enabled m && negb (is_lease_authority m)
              && bool_decide (remote = Some (lease_authority m))
           then set_ready false m else m in
  let '(m, g) := cleanup_routes now p network_codes m g in
  let outbound := match peers m !! p with Some i => is_outbound i | None => false end in
  (if negb outbound then with_peers (peers m) (filter (.≠ p) (peer_servers m)) m else m, g).

(** The task of [connect_to_peer] when it is told to stop: [select!] drops the
    running [connect_to_peer_once], communication loop included. *)
Definition stop_outbound (p : positive) (m : Manager) : Manager :=
  let m := on_peer p PeerInfo.set_disconnected m in
  with_peers (peers m) (filter (.≠ p) (peer_servers m)) m.

(** What the control service sees of a manager in the state [m]. *)
Definition peer_ops (now : Z) (request_id random : string)
    (acquired : option ServerLeaseAcquireResponse) (released : option ServerLeaseReleaseResponse)
    (m : Manager) : PeerOps (W := W) :=
  mkPeerOps
    (λ code owner_type owner_id requested net gateway duration static g,
       (match (acquire_lease transport db_acquire request_id acquired code owner_type owner_id
                 requested net gateway duration static m).1 with
        | Ok grant => Ok grant
        | Err _ => Err ClusterErr
        end, g))
    (λ code owner_type owner_id g,
       (match (release_lease transport db_release request_id released code owner_type owner_id m).1 with
        | Ok _ => Ok tt
        | Err _ => Err ClusterErr
        end, g))
    (λ code dest data origin g,
       ((forward_with_best_route transport code dest data origin m g).1, g))
    (λ code source data origin g, g).
End Links.
