(* ===== verification/PeerFacts.v ===== *)
(** Lemmas on the links between servers ([Peer.v]): lists of routes and what a
    synchronisation does to them, the transition system of a server with its
    peers and its invariant, the best route, broadcasts already seen, and the
    reconciliation of leases. *)

From S2P Require Import Prelude Libs Std Packet Bridge Lease NetState Service Peer.
From stdpp Require Import base gmap strings list sorting.
From Stdlib Require Import ZArith Lia.

Local Open Scope Z_scope.

(** *** Lists of routes *)
Module RouteFacts.

Lemma insert_by_perm {A} (key : A → Z) x l : insert_by key x l ≡ₚ x :: l.
Proof.
  induction l as [|y l IH]; simpl; [done|]. case_match; [done|].
  rewrite IH. apply Permutation_swap.
Qed.

Lemma sort_by_key_perm {A} (key : A → Z) l : sort_by_key key l ≡ₚ l.
Proof. induction l as [|x l IH]; simpl; [done|]. by rewrite insert_by_perm, IH. Qed.

Lemma insert_by_sorted {A} (key : A → Z) x l :
  StronglySorted (λ a b, key a ≤ key b) l → StronglySorted (λ a b, key a ≤ key b) (insert_by key x l).
Proof.
  induction 1 as [|y l Hl IH Hy]; simpl; [repeat constructor|].
  destruct (Z.leb_spec (key x) (key y)).
  - constructor; [by constructor|]. constructor; [done|].
    eapply Forall_impl; [exact Hy|]. simpl. lia.
  - constructor; [done|]. rewrite insert_by_perm. constructor; [lia|done].
Qed.

Lemma sort_by_key_sorted {A} (key : A → Z) l :
  StronglySorted (λ a b, key a ≤ key b) (sort_by_key key l).
Proof. induction l; simpl; [constructor|by apply insert_by_sorted]. Qed.

(** What a truncated sorted list leaves out is no better than what it keeps. *)
Lemma take_sort_elem {A} (key : A → Z) n l x :
  x ∈ l → x ∈ take n (sort_by_key key l) ∨
  (length (take n (sort_by_key key l)) = n ∧ ∀ y, y ∈ take n (sort_by_key key l) → key y ≤ key x).
Proof.
  intros Hx. rewrite <- (sort_by_key_perm key) in Hx.
  pose proof (sort_by_key_sorted key l) as Hs.
  rewrite <- (take_drop n (sort_by_key key l)) in Hx, Hs.
  apply elem_of_app in Hx as [|Hx]; [by left|right].
  assert (n < length (sort_by_key key l))%nat as Hn.
  { apply list_elem_of_lookup_1 in Hx as [i Hi]. rewrite lookup_drop in Hi.
    apply lookup_lt_Some in Hi. lia. }
  split; [rewrite length_take; lia|]. intros y Hy.
  by apply (StronglySorted_app_1_elem_of (λ a b, key a ≤ key b) _ _ y x Hs).
Qed.

Lemma upsert_elem p lat l r : r ∈ upsert_route p lat l → r = mkRoute p lat ∨ r ∈ l.
Proof.
  induction l as [|x l IH]; simpl.
  { intros ->%list_elem_of_singleton. by left. }
  case_bool_decide; intros [->|Hr]%elem_of_cons.
  - by left.
  - right. by right.
  - right. by left.
  - destruct (IH Hr); [by left|right; by right].
Qed.

Lemma upsert_self p lat l : mkRoute p lat ∈ upsert_route p lat l.
Proof. induction l; simpl; [left|]. case_bool_decide; [left|by right]. Qed.

Lemma upsert_other p lat l r : r ∈ l → route_peer r ≠ p → r ∈ upsert_route p lat l.
Proof.
  intros Hr Hp. induction l as [|x l IH]; [by apply not_elem_of_nil in Hr|]. simpl.
  apply elem_of_cons in Hr as [->|Hr].
  - rewrite bool_decide_eq_false_2 by done. by left.
  - case_bool_decide; right; auto.
Qed.

(** With one route per peer, the updated route is the only one of its peer. *)
Lemma upsert_NoDup p lat l :
  NoDup (route_peer <$> l) → NoDup (route_peer <$> upsert_route p lat l).
Proof.
  induction l as [|x l IH]; simpl; intros Hn.
  { apply NoDup_singleton. }
  apply NoDup_cons in Hn as [Hx Hn]. case_bool_decide as Hp.
  - simpl. rewrite <- Hp. by constructor.
  - simpl. constructor; [|by apply IH]. intros Hin.
    apply list_elem_of_fmap in Hin as (r & E & [->|Hr]%upsert_elem); [done|].
    apply Hx, list_elem_of_fmap. by exists r.
Qed.

(** *** Route tables *)

Record route_list_ok (l : list IpRouteInfo) : Prop := {
  rl_nonempty : l ≠ [];
  rl_bound : (length l ≤ MAX_ROUTES_PER_IP)%nat;
  rl_distinct : NoDup (route_peer <$> l)
}.

Definition route_map_ok (routes : RouteMap) : Prop := map_Forall (λ _, route_list_ok) routes.

Lemma length_upsert p lat l : (1 ≤ length (upsert_route p lat l))%nat.
Proof. destruct l; simpl; [lia|]. case_bool_decide; simpl; lia. Qed.

Lemma singleton_ok p lat : route_list_ok [mkRoute p lat].
Proof. split; [done| |apply NoDup_singleton]. unfold MAX_ROUTES_PER_IP. simpl. lia. Qed.

Lemma take_sort_ok key l :
  l ≠ [] → NoDup (route_peer <$> l) → route_list_ok (take MAX_ROUTES_PER_IP (sort_by_key key l)).
Proof.
  intros Hne Hnd. pose proof (sort_by_key_perm key l) as Hp. split.
  - intros E. apply (f_equal length) in E. rewrite length_take, Hp in E.
    destruct l; [done|]. unfold MAX_ROUTES_PER_IP in E. simpl in E. lia.
  - rewrite length_take. lia.
  - rewrite fmap_take. eapply sublist_NoDup; [|apply sublist_take]. by rewrite Hp.
Qed.

Lemma add_route_ok ps p c routes : route_map_ok routes → route_map_ok (add_route ps p c routes).
Proof.
  intros H. apply map_Forall_insert_2; [|done].
  destruct (routes !! cl_ip c) as [l|] eqn:E; [|apply singleton_ok].
  apply take_sort_ok; [|by apply upsert_NoDup, (H _ _ E)].
  intros E'. pose proof (length_upsert p (cl_latency_ms c) l) as Hl. rewrite E' in Hl. simpl in Hl. lia.
Qed.

Lemma drop_peer_elem p l r : r ∈ drop_peer p l ↔ route_peer r ≠ p ∧ r ∈ l.
Proof. unfold drop_peer. by rewrite list_elem_of_filter. Qed.

Lemma retain_lookup p synced routes ip l :
  retain_routes p synced routes !! ip = Some l ↔
  l ≠ [] ∧ ∃ l0, routes !! ip = Some l0 ∧ l = if bool_decide (ip ∈ synced) then l0 else drop_peer p l0.
Proof.
  unfold retain_routes. rewrite map_lookup_imap. destruct (routes !! ip) as [l0|]; simpl; [|naive_solver].
  destruct (bool_decide (_ = [])) eqn:E.
  - apply bool_decide_eq_true in E. split; [done|]. intros (Hne & l1 & [= <-] & ->). done.
  - apply bool_decide_eq_false in E. split; [intros [= <-]; eauto|]. by intros (_ & l1 & [= <-] & ->).
Qed.

Lemma retain_ok p synced routes : route_map_ok routes → route_map_ok (retain_routes p synced routes).
Proof.
  intros H ip l (Hne & l0 & Hl0 & ->)%retain_lookup. destruct (H _ _ Hl0) as [_ Hb Hd].
  case_bool_decide; [by split|]. split; [done| |].
  - unfold drop_peer. etrans; [apply length_filter|done].
  - clear Hne Hb Hl0. unfold drop_peer. induction l0 as [|x l0 IH]; [done|]. simpl in *.
    apply NoDup_cons in Hd as [Hx Hd]. rewrite filter_cons. case_decide; [|by apply IH].
    simpl. constructor; [|by apply IH]. intros Hin. apply Hx.
    apply list_elem_of_fmap in Hin as (r & -> & Hr). apply list_elem_of_filter in Hr as [_ Hr].
    apply list_elem_of_fmap. by exists r.
Qed.

Lemma sync_routes_ok ps p cs routes : route_map_ok routes → route_map_ok (sync_routes ps p cs routes).
Proof.
  intros H. apply retain_ok. revert routes H. induction cs as [|c cs IH]; intros routes H; simpl; [done|].
  apply IH. by apply add_route_ok.
Qed.

(** *** What a synchronisation does *)

Definition routes_of (routes : RouteMap) (ip : Ipv4Addr) : list IpRouteInfo := default [] (routes !! ip).

(** The route [r] had to give way to routes that are all at least as fast. *)
Definition crowded_out (ps : gmap positive PeerServerInfo) (l : list IpRouteInfo) (r : IpRouteInfo) : Prop :=
  length l = MAX_ROUTES_PER_IP ∧ ∀ y, y ∈ l → total_latency ps y ≤ total_latency ps r.

Definition add_all ps p cs (routes : RouteMap) : RouteMap :=
  fold_left (λ m c, add_route ps p c m) cs routes.

Lemma add_route_other ps p c routes ip :
  ip ≠ cl_ip c → add_route ps p c routes !! ip = routes !! ip.
Proof. intros H. unfold add_route. by rewrite lookup_insert_ne. Qed.

Lemma add_all_other ps p cs routes ip :
  ip ∉ cl_ip <$> cs → add_all ps p cs routes !! ip = routes !! ip.
Proof.
  unfold add_all. revert routes. induction cs as [|c cs IH]; intros routes H; simpl; [done|].
  apply not_elem_of_cons in H as [Hc H]. rewrite IH by done. by apply add_route_other.
Qed.

Lemma add_route_lookup_ext ps p c r1 r2 :
  r1 !! cl_ip c = r2 !! cl_ip c → add_route ps p c r1 !! cl_ip c = add_route ps p c r2 !! cl_ip c.
Proof. intros H. unfold add_route. by rewrite !lookup_insert_eq, H. Qed.

Lemma add_all_self ps p cs routes c :
  NoDup (cl_ip <$> cs) → c ∈ cs → add_all ps p cs routes !! cl_ip c = add_route ps p c routes !! cl_ip c.
Proof.
  revert routes. induction cs as [|x cs IH]; intros routes Hnd Hc; [by apply not_elem_of_nil in Hc|].
  simpl in Hnd. apply NoDup_cons in Hnd as [Hx Hnd].
  change (add_all ps p (x :: cs) routes) with (add_all ps p cs (add_route ps p x routes)).
  apply elem_of_cons in Hc as [->|Hc].
  - by apply add_all_other.
  - rewrite IH by done. apply add_route_lookup_ext, add_route_other.
    intros E. apply Hx, list_elem_of_fmap. exists c. by rewrite E.
Qed.

(** The list of one address after a client of [p] was added to it. *)
Definition updated ps p lat (l : list IpRouteInfo) : list IpRouteInfo :=
  match l with
  | [] => [mkRoute p lat]
  | _ => take MAX_ROUTES_PER_IP (sort_by_key (total_latency ps) (upsert_route p lat l))
  end.

Lemma add_route_self ps p c routes :
  route_map_ok routes →
  add_route ps p c routes !! cl_ip c = Some (updated ps p (cl_latency_ms c) (routes_of routes (cl_ip c))).
Proof.
  intros Hok. unfold add_route, routes_of. rewrite lookup_insert_eq.
  destruct (routes !! cl_ip c) as [l|] eqn:E; simpl; [|done].
  destruct (Hok _ _ E) as [Hne _ _]. by destruct l.
Qed.

Lemma updated_elem ps p lat l r :
  NoDup (route_peer <$> l) → r ∈ updated ps p lat l →
  r = mkRoute p lat ∨ (route_peer r ≠ p ∧ r ∈ l).
Proof.
  intros Hnd Hr. destruct l as [|x l]; [by apply list_elem_of_singleton in Hr; left|].
  unfold updated in Hr. apply elem_of_take in Hr as (i & Hi & _).
  apply list_elem_of_lookup_2 in Hi. rewrite sort_by_key_perm in Hi.
  destruct (upsert_elem _ _ _ _ Hi) as [|Hin]; [by left|].
  destruct (decide (route_peer r = p)) as [Hp|]; [left|by right].
  (* two routes of the peer would not be distinct *)
  pose proof (upsert_NoDup p lat _ Hnd) as Hnd'.
  pose proof (upsert_self p lat (x :: l)) as Hs.
  apply list_elem_of_lookup in Hi as [i1 H1]. apply list_elem_of_lookup in Hs as [i2 H2].
  assert (i1 = i2) as ->.
  { eapply (NoDup_lookup _ _ _ p Hnd'); rewrite list_lookup_fmap; [rewrite H1|rewrite H2]; simpl;
      by rewrite ?Hp. }
  congruence.
Qed.

Lemma updated_keeps ps p lat l r :
  r = mkRoute p lat ∨ (route_peer r ≠ p ∧ r ∈ l) →
  r ∈ updated ps p lat l ∨ crowded_out ps (updated ps p lat l) r.
Proof.
  intros Hr. destruct l as [|x l].
  { destruct Hr as [->|[_ Hr]]; [left; left|by apply not_elem_of_nil in Hr]. }
  apply take_sort_elem. destruct Hr as [->|[Hp Hr]]; [apply upsert_self|by apply upsert_other].
Qed.

Lemma updated_nonempty ps p lat l : updated ps p lat l ≠ [].
Proof.
  destruct l as [|x l]; [done|]. unfold updated. intros E. apply (f_equal length) in E.
  rewrite length_take, (sort_by_key_perm _ _) in E. change (length (@nil IpRouteInfo)) with 0%nat in E.
  pose proof (length_upsert p lat (x :: l)). unfold MAX_ROUTES_PER_IP in E. lia.
Qed.

Lemma routes_of_NoDup routes ip : route_map_ok routes → NoDup (route_peer <$> routes_of routes ip).
Proof.
  intros Hok. unfold routes_of. destruct (routes !! ip) eqn:E; simpl; [by apply (Hok _ _ E)|constructor].
Qed.

(** The two cases of an address after a synchronisation. *)
Lemma sync_announced ps p cs routes c :
  route_map_ok routes → NoDup (cl_ip <$> cs) → c ∈ cs →
  routes_of (sync_routes ps p cs routes) (cl_ip c) =
  updated ps p (cl_latency_ms c) (routes_of routes (cl_ip c)).
Proof.
  intros Hok Hnd Hc.
  assert (sync_routes ps p cs routes !! cl_ip c =
          Some (updated ps p (cl_latency_ms c) (routes_of routes (cl_ip c)))) as E.
  { apply retain_lookup. split; [apply updated_nonempty|].
    exists (updated ps p (cl_latency_ms c) (routes_of routes (cl_ip c))). split.
    - change (add_all ps p cs routes !! cl_ip c = Some (updated ps p (cl_latency_ms c)
        (routes_of routes (cl_ip c)))). rewrite add_all_self by done. by apply add_route_self.
    - rewrite bool_decide_eq_true_2; [done|]. apply elem_of_list_to_set, list_elem_of_fmap. by exists c. }
  unfold routes_of at 1. by rewrite E.
Qed.

Lemma sync_unannounced ps p cs routes ip :
  ip ∉ cl_ip <$> cs → routes_of (sync_routes ps p cs routes) ip = drop_peer p (routes_of routes ip).
Proof.
  intros Hip. unfold routes_of, sync_routes, retain_routes. rewrite map_lookup_imap.
  fold (add_all ps p cs routes). rewrite add_all_other by done.
  destruct (routes !! ip) as [l|]; simpl; [|done].
  rewrite (bool_decide_eq_false_2 (ip ∈ _)) by (by rewrite elem_of_list_to_set).
  case_bool_decide as E; simpl; congruence.
Qed.
End RouteFacts.

(** ** The cluster as a transition system

    [known] maps the peers with a running communication loop to the
    [network_codes] of that loop. *)
Section Steps.
Context {NL : Ipv4NetLib} {PL : PnetLib} {U32 : NetU32Lib}.
Context {W : Type} {MV : Mpsc W bytes} {MW : Mpsc W WireGuardBridgePacket}.
Context {SM : ProstCodec ServerMessage}.

Definition cluster_state : Type := gmap positive (gset string) * Manager * Global (W := W).

Inductive peer_step : cluster_state → cluster_state → Prop :=
| step_message tr dba dbr et now wall p data codes known m g r codes' m' g' :
    known !! p = Some codes →
    handle_peer_message tr dba dbr et now wall p data codes m g = (r, (codes', m', g')) →
    peer_step (known, m, g) (<[p := codes']> known, m', g')
| step_accept tr now a txt l frame known m g p m' :
    handle_peer_connection tr now a txt l frame m = (Ok p, m') →
    peer_step (known, m, g) (<[p := ∅]> known, m', g)
| step_reject tr now a txt l frame known m g e m' :
    handle_peer_connection tr now a txt l frame m = (Err e, m') →
    peer_step (known, m, g) (known, m', g)
| step_connect a known m g p m' :
    connect_to_peer a m = (p, m') → peer_step (known, m, g) (known, m', g)
| step_once tr now p a l reply known m g b m' :
    known !! p = None → is_Some (peers m !! p) →
    connect_to_peer_once tr now p a l reply m = (Ok b, m') →
    peer_step (known, m, g) (<[p := ∅]> known, m', g)
| step_once_failed tr now p a l reply known m g e txt m' :
    known !! p = None →
    connect_to_peer_once tr now p a l reply m = (Err e, m') →
    peer_step (known, m, g)
      (known, on_peer p (PeerInfo.set_last_error txt) (on_peer p PeerInfo.set_disconnected m'), g)
| step_end now p codes known m g m' g' :
    known !! p = Some codes → end_link now p codes m g = (m', g') →
    peer_step (known, m, g) (delete p known, m', g')
| step_acquire tr dba id ans code ot oi rq net gw d st known m g r m' :
    acquire_lease tr dba id ans code ot oi rq net gw d st m = (r, m') →
    peer_step (known, m, g) (known, m', g)
| step_release tr dbr id ans code ot oi known m g r m' :
    release_lease tr dbr id ans code ot oi m = (r, m') → peer_step (known, m, g) (known, m', g)
| step_reconcile tr dba l known m g r m' :
    reconcile_local_allocations tr dba l m = (r, m') → peer_step (known, m, g) (known, m', g)
| step_pull tr p known m g r m' :
    pull_client_info_from_peer tr p m g = (r, m') → peer_step (known, m, g) (known, m', g)
| step_broadcast tr now rnd code src data o known m g n m' :
    broadcast_wireguard tr now rnd code src data o m = (n, m') → peer_step (known, m, g) (known, m', g)
| step_forward tr code ip data o known m g b m' :
    forward_with_best_route tr code ip data o m g = (b, m') → peer_step (known, m, g) (known, m', g)
(** The rest of the server works on the networks. *)
| step_other known m g g' : peer_step (known, m, g) (known, m, g').

Record cluster_inv (known : gmap positive (gset string)) (m : Manager) : Prop := {
  ci_routes code routes : ip_to_routes m !! code = Some routes → RouteFacts.route_map_ok routes;
  ci_live code routes ip r :
    ip_to_routes m !! code = Some routes → r ∈ RouteFacts.routes_of routes ip →
    ∃ codes, known !! route_peer r = Some codes ∧ code ∈ codes;
  ci_known : dom known ⊆ dom (peers m);
  ci_connection p i : peers m !! p = Some i → connected i = true → is_Some (connection i)
}.
End Steps.

Module LinkFacts.
Section LinkFacts.
Context {NL : Ipv4NetLib} {PL : PnetLib} {U32 : NetU32Lib}.
Context {W : Type} {MV : Mpsc W bytes} {MW : Mpsc W WireGuardBridgePacket}.
Context {SM : ProstCodec ServerMessage}.

(** Operations that touch neither the routes nor the peers. *)
Definition same (m m' : Manager) : Prop :=
  ip_to_routes m' = ip_to_routes m ∧ peers m' = peers m ∧ peer_servers m' = peer_servers m ∧
  server_id m' = server_id m ∧ lease_authority m' = lease_authority m.

Lemma same_refl m : same m m.
Proof. done. Qed.

Lemma same_trans m1 m2 m3 : same m1 m2 → same m2 m3 → same m1 m3.
Proof. unfold same. intuition congruence. Qed.

Lemma send_on_same tr ch p msg m : same m (send_on tr ch p msg m).2.
Proof. unfold send_on. destruct (peers m !! p ≫= _); [|done]. by destruct (tr _ _ _). Qed.

Lemma write_frame_same tr l msg m : same m (write_frame tr l msg m).2.
Proof. unfold write_frame. by destruct (tr _ _ _). Qed.

Lemma acquire_lease_request_same tr dba ans req m : same m (acquire_lease_request tr dba ans req m).2.
Proof.
  unfold acquire_lease_request. destruct (is_lease_authority m).
  { destruct (db_lease_request req m); [|done]. by destruct (dba _). }
  destruct (authority_peer m) as [p|]; [|done].
  match goal with |- context [send_on tr Stream p ?msg ?m'] =>
    pose proof (send_on_same tr Stream p msg m') as Hs;
    destruct (send_on tr Stream p msg m') as [[?|?] m1] end; simpl in *.
  - destruct ans as [r|]; [|done]. by destruct (negb (lr_success r)).
  - done.
Qed.

Lemma acquire_lease_same tr dba id ans code ot oi rq net gw d st m :
  same m (acquire_lease tr dba id ans code ot oi rq net gw d st m).2.
Proof.
  unfold acquire_lease. destruct (negb (cluster_enabled m)); [done|].
  destruct (negb (is_lease_authority m) && _); [done|].
  match goal with |- context [acquire_lease_request tr dba ans ?req m] =>
    pose proof (acquire_lease_request_same tr dba ans req m) as Hs;
    destruct (acquire_lease_request tr dba ans req m) as [[?|?] m1] end; done.
Qed.

Lemma release_lease_same tr dbr id ans code ot oi m :
  same m (release_lease tr dbr id ans code ot oi m).2.
Proof.
  unfold release_lease. destruct (negb (cluster_enabled m)); [done|].
  destruct (is_lease_authority m); [by destruct (dbr _ _ _ _)|].
  destruct (authority_peer m) as [p|]; [|done].
  match goal with |- context [send_on tr Stream p ?msg ?m'] =>
    pose proof (send_on_same tr Stream p msg m') as Hs;
    destruct (send_on tr Stream p msg m') as [[?|?] m1] end; simpl in *.
  - destruct ans as [r|]; [|done]. by destruct (negb (rr_success r)).
  - done.
Qed.

Lemma reconcile_fold_same tr dba l c m :
  same m (fold_left (λ acc x, reconcile_one tr dba x acc) l (c, m)).2.
Proof.
  revert c m. induction l as [|[[id ans] a] l IH]; intros c m; cbn [fold_left]; [done|].
  unfold reconcile_one at 2.
  match goal with |- context [acquire_lease_request tr dba ans ?req m] =>
    pose proof (acquire_lease_request_same tr dba ans req m) as Hs;
    destruct (acquire_lease_request tr dba ans req m) as [[?|?] m1] end; simpl in Hs;
    (eapply same_trans; [exact Hs|apply IH]).
Qed.

Lemma reconcile_same tr dba l m : same m (reconcile_local_allocations tr dba l m).2.
Proof.
  unfold reconcile_local_allocations. destruct (_ || _); [done|]. destruct l as [l|e]; [|done].
  pose proof (reconcile_fold_same tr dba l 0 (set_ready false m)) as Hs.
  destruct (fold_left _ l _) as [c m1]. exact Hs.
Qed.

Lemma forward_broadcast_same tr inc b m : same m (forward_broadcast_message tr inc b m).2.
Proof.
  unfold forward_broadcast_message.
  assert (∀ l ids n m, same m (fold_left (λ acc p, forward_broadcast_to tr inc b p acc) l (ids, n, m)).2) as H.
  { clear m. induction l as [|p l IH]; intros ids n m; cbn [fold_left]; [done|].
    unfold forward_broadcast_to at 2. destruct (peers m !! p) as [i|]; [|apply IH].
    destruct (_ || _); [apply IH|]. case_bool_decide; [apply IH|].
    pose proof (send_on_same tr Datagram p (BroadcastData b) m) as Hs.
    destruct (send_on _ _ _ _ _) as [[?|?] m1]; (eapply same_trans; [exact Hs|apply IH]). }
  specialize (H (peer_servers m) ∅ 0 m). by destruct (fold_left _ _ _) as [[ids n] m1].
Qed.

Lemma mark_seen_same now id m : same m (mark_broadcast_seen now id m).2.
Proof. unfold mark_broadcast_seen. destruct (_ !! id); [|done]. by destruct (fresh_seen _ _). Qed.

Lemma handle_broadcast_same tr now p b m (g : Global (W := W)) :
  same m (handle_broadcast_data tr now p b m g).1.
Proof.
  unfold handle_broadcast_data. destruct (broadcast_refused p b m); [done|].
  pose proof (mark_seen_same now (bd_broadcast_id b) m) as Hs.
  destruct (mark_broadcast_seen _ _ _) as [[] m1]; simpl in *; [|done].
  destruct (0 <? _); [|done]. eapply same_trans; [exact Hs|apply forward_broadcast_same].
Qed.

Lemma lease_acquire_same tr dba et p q m : same m (handle_lease_acquire_request tr dba et p q m).2.
Proof.
  unfold handle_lease_acquire_request.
  match goal with |- context [let '(_, _) := ?x in _] => assert (same m x.2) as Hx end.
  { destruct (negb (is_lease_authority m)); [done|]. destruct (negb _); [done|].
    destruct (db_lease_request q m); [|done]. by destruct (dba _). }
  match goal with |- context [let '(_, _) := ?x in _] => destruct x as [r m1] end.
  eapply same_trans; [exact Hx|apply send_on_same].
Qed.

Lemma lease_release_same tr dbr p q m : same m (handle_lease_release_request tr dbr p q m).2.
Proof.
  unfold handle_lease_release_request.
  match goal with |- context [let '(_, _) := ?x in _] => assert (same m x.2) as Hx end.
  { by destruct (if _ || _ then _ else _). }
  match goal with |- context [let '(_, _) := ?x in _] => destruct x as [r m1] end.
  eapply same_trans; [exact Hx|apply send_on_same].
Qed.

Lemma forward_same tr code ip data o m (g : Global (W := W)) :
  same m (forward_with_best_route tr code ip data o m g).2.
Proof.
  unfold forward_with_best_route. destruct (find_best_route _ _ _ _) as [[[p t] loc]|]; [|done].
  destruct (should_forward _ _ _); [|done]. unfold forward_to_peer.
  pose proof (send_on_same tr Datagram p
    (ForwardData (mkForward code data (bool_decide (o = OriginWireGuard)))) m) as Hs.
  by destruct (send_on _ _ _ _ _) as [[?|?] m1].
Qed.

(** *** The invariant *)

Lemma same_inv known m m' : same m m' → cluster_inv known m → cluster_inv known m'.
Proof. intros (Hr & Hp & _) []. split; rewrite ?Hr, ?Hp; done. Qed.

Lemma on_peer_inv known m p f :
  (∀ i, connected (f i) = true → connected i = true ∧ connection (f i) = connection i
        ∨ is_Some (connection (f i))) →
  cluster_inv known m → cluster_inv known (on_peer p f m).
Proof.
  intros Hf []. split; cbn [on_peer with_peers ip_to_routes peers]; [done|done| |].
  - by rewrite dom_alter_L.
  - intros q i Hq Hc. rewrite lookup_alter in Hq. case_decide; [|by eapply ci_connection0].
    apply fmap_Some in Hq as (j & E & ->).
    destruct (Hf j Hc) as [[Hj ->]|]; [by eapply ci_connection0|done].
Qed.

Lemma known_inv known m p codes codes' :
  known !! p = Some codes → codes ⊆ codes' → cluster_inv known m → cluster_inv (<[p := codes']> known) m.
Proof.
  intros Hp Hsub []. split; [done| |rewrite dom_insert_L|done].
  - intros code routes ip r Hc Hr. destruct (ci_live0 code routes ip r Hc Hr) as (cs & Hcs & Hin).
    destruct (decide (route_peer r = p)) as [E|E].
    + exists codes'. rewrite E, lookup_insert_eq in *. split; [done|]. set_solver.
    + exists cs. by rewrite lookup_insert_ne.
  - apply elem_of_dom_2 in Hp. set_solver.
Qed.

Lemma attach_inv known m p :
  known !! p = None → p ∈ dom (peers m) → cluster_inv known m → cluster_inv (<[p := ∅]> known) m.
Proof.
  intros Hp Hd []. split; [done| |rewrite dom_insert_L; set_solver|done].
  intros code routes ip r Hc Hr. destruct (ci_live0 code routes ip r Hc Hr) as (cs & Hcs & Hin).
  exists cs. split; [|done]. rewrite lookup_insert_ne; [done|congruence].
Qed.

Lemma new_peer_inv known m p i l :
  p ∉ dom (peers m) → (connected i = true → is_Some (connection i)) →
  cluster_inv known m → cluster_inv known (with_peers (<[p := i]> (peers m)) l m).
Proof.
  intros Hp Hi []. split; cbn [with_peers ip_to_routes peers]; [done|done|set_solver|].
  intros q j Hq. destruct (decide (p = q)) as [->|].
  - rewrite lookup_insert_eq in Hq. by simplify_eq.
  - rewrite lookup_insert_ne in Hq by done. by eapply ci_connection0.
Qed.

Lemma add_route_elem ps p c routes ip r :
  r ∈ RouteFacts.routes_of (add_route ps p c routes) ip →
  route_peer r = p ∨ r ∈ RouteFacts.routes_of routes ip.
Proof.
  unfold RouteFacts.routes_of. destruct (decide (ip = cl_ip c)) as [->|Hne].
  2: { rewrite RouteFacts.add_route_other by done. by right. }
  unfold add_route. rewrite lookup_insert_eq. destruct (routes !! cl_ip c) as [l|]; simpl.
  - intros Hr. apply elem_of_take in Hr as (i & Hi & _). apply list_elem_of_lookup_2 in Hi.
    rewrite RouteFacts.sort_by_key_perm in Hi.
    apply RouteFacts.upsert_elem in Hi as [->|]; [by left|by right].
  - intros ->%list_elem_of_singleton. by left.
Qed.

Lemma retain_elem p synced routes ip r :
  r ∈ RouteFacts.routes_of (retain_routes p synced routes) ip →
  r ∈ RouteFacts.routes_of routes ip ∧ (ip ∉ synced → route_peer r ≠ p).
Proof.
  unfold RouteFacts.routes_of. destruct (retain_routes p synced routes !! ip) as [l|] eqn:E; simpl.
  2: { by intros ?%not_elem_of_nil. }
  apply RouteFacts.retain_lookup in E as (_ & l0 & -> & ->). simpl. case_bool_decide; [done|].
  rewrite RouteFacts.drop_peer_elem. naive_solver.
Qed.

Lemma sync_routes_elem ps p cs routes ip r :
  r ∈ RouteFacts.routes_of (sync_routes ps p cs routes) ip →
  route_peer r = p ∨ r ∈ RouteFacts.routes_of routes ip.
Proof.
  intros [Hr _]%retain_elem. revert routes Hr. induction cs as [|c cs IH]; intros routes Hr; [by right|].
  destruct (IH _ Hr) as [|H]; [by left|]. by apply add_route_elem in H.
Qed.

Lemma sync_network_inv now p n codes m (g : Global (W := W)) known codes' m' g' :
  cluster_inv (<[p := codes]> known) m →
  sync_network now p n (codes, m, g) = (codes', m', g') →
  cluster_inv (<[p := codes']> known) m'.
Proof.
  intros [] [= <- <- _]. split; cbn [with_routes ip_to_routes peers].
  - intros code routes. destruct (decide (ni_network_code n = code)) as [->|].
    + rewrite lookup_insert_eq. intros [= <-]. apply RouteFacts.sync_routes_ok.
      destruct (ip_to_routes m !! code) eqn:E; simpl; [by eapply ci_routes0|apply map_Forall_empty].
    + rewrite lookup_insert_ne by done. by apply ci_routes0.
  - intros code routes ip r Hc Hr. destruct (decide (route_peer r = p)) as [Hrp|Hrp].
    + exists ({[ni_network_code n]} ∪ codes). rewrite Hrp, lookup_insert_eq. split; [done|].
      destruct (decide (ni_network_code n = code)) as [->|Hne]; [set_solver|].
      rewrite lookup_insert_ne in Hc by done.
      destruct (ci_live0 _ _ _ _ Hc Hr) as (cs & Hcs & Hin).
      rewrite Hrp, lookup_insert_eq in Hcs. set_solver.
    + rewrite lookup_insert_ne by done.
      assert (∃ routes0, ip_to_routes m !! code = Some routes0 ∧ r ∈ RouteFacts.routes_of routes0 ip)
        as (routes0 & Hc0 & Hr0).
      { destruct (decide (ni_network_code n = code)) as [<-|Hne].
        - rewrite lookup_insert_eq in Hc. simplify_eq.
          apply sync_routes_elem in Hr as [|Hr]; [done|].
          destruct (ip_to_routes m !! ni_network_code n) as [routes0|]; [by exists routes0|].
          by apply not_elem_of_nil in Hr.
        - rewrite lookup_insert_ne in Hc by done. eauto. }
      destruct (ci_live0 _ _ _ _ Hc0 Hr0) as (cs & Hcs & Hin).
      rewrite lookup_insert_ne in Hcs by done. eauto.
  - rewrite dom_insert_L in *. done.
  - done.
Qed.

Lemma client_info_inv now p networks codes m (g : Global (W := W)) known codes' m' g' :
  cluster_inv (<[p := codes]> known) m →
  handle_client_info_response now p networks codes m g = (codes', m', g') →
  cluster_inv (<[p := codes']> known) m'.
Proof.
  unfold handle_client_info_response. revert codes m g.
  induction networks as [|n ns IH]; intros codes m g Hinv H; cbn [fold_left] in H; [by simplify_eq|].
  destruct (sync_network now p n (codes, m, g)) as [[c1 m1] g1] eqn:E.
  eapply IH; [|exact H]. by eapply sync_network_inv.
Qed.

(** [shrunk cs p m m']: routes only disappear, and those of [p] in the networks
    [cs] all do. *)
Definition shrunk (cs : list string) (p : positive) (m m' : Manager) : Prop :=
  peers m' = peers m ∧ ∀ code routes', ip_to_routes m' !! code = Some routes' →
    ∃ routes, ip_to_routes m !! code = Some routes ∧
      (RouteFacts.route_map_ok routes → RouteFacts.route_map_ok routes') ∧
      ∀ ip r, r ∈ RouteFacts.routes_of routes' ip →
        r ∈ RouteFacts.routes_of routes ip ∧ (code ∈ cs → route_peer r ≠ p).

Lemma cleanup_shrunk now p cs m (g : Global (W := W)) :
  shrunk cs p m (fold_left (cleanup_network now p) cs (m, g)).1.
Proof.
  revert m g. induction cs as [|c cs IH]; intros m g; cbn [fold_left].
  { split; [done|]. intros code routes' H. exists routes'. split; [done|]. split; [done|].
    intros ip r Hr. split; [done|]. by intros ?%not_elem_of_nil. }
  destruct (cleanup_network now p (m, g) c) as [m1 g1] eqn:E.
  destruct (IH m1 g1) as [Hp1 Hr1]. unfold cleanup_network in E. injection E as Em _.
  assert (peers m1 = peers m) as Hp by (subst m1; by destruct (ip_to_routes m !! c)).
  split; [congruence|]. intros code routes' H.
  destruct (Hr1 code routes' H) as (r1 & Hm1 & Hok1 & Hel1).
  destruct (ip_to_routes m !! c) as [rc|] eqn:Ec; subst m1; cycle 1.
  { exists r1. split; [done|]. split; [done|]. intros ip r Hr. destruct (Hel1 ip r Hr) as [Hin Hnp].
    split; [done|]. intros [->|Hcs]%elem_of_cons; [congruence|by apply Hnp]. }
  cbn [with_routes ip_to_routes] in Hm1. destruct (decide (c = code)) as [->|Hne].
  - rewrite lookup_insert_eq in Hm1. injection Hm1 as <-. exists rc. split; [done|]. split.
    { intros Hok. by apply Hok1, RouteFacts.retain_ok. }
    intros ip r Hr. destruct (Hel1 ip r Hr) as [Hin _]. apply retain_elem in Hin as [Hin Hnp].
    split; [done|]. intros _. apply Hnp. set_solver.
  - rewrite lookup_insert_ne in Hm1 by done. exists r1. split; [done|]. split; [done|].
    intros ip r Hr. destruct (Hel1 ip r Hr) as [Hin Hnp].
    split; [done|]. intros [->|Hcs]%elem_of_cons; [done|by apply Hnp].
Qed.

Lemma end_link_inv now p codes known m (g : Global (W := W)) m' g' :
  known !! p = Some codes → cluster_inv known m → end_link now p codes m g = (m', g') →
  cluster_inv (delete p known) m'.
Proof.
  intros Hk Hinv H. unfold end_link in H.
  set (m1 := on_peer p PeerInfo.set_disconnected m) in H.
  assert (cluster_inv known m1) as Hinv1 by (apply on_peer_inv; [done|done]).
  set (m2 := if _ && _ && _ then set_ready false m1 else m1) in H.
  assert (same m1 m2) as Hs by (unfold m2; by destruct (_ && _)).
  pose proof (same_inv _ _ _ Hs Hinv1) as Hinv2. unfold cleanup_routes in H.
  pose proof (cleanup_shrunk now p (elements codes) m2 g) as [Hp Hr].
  destruct (fold_left (cleanup_network now p) (elements codes) (m2, g)) as [m3 g3].
  simpl in Hp, Hr.
  assert (cluster_inv (delete p known) m3) as Hinv3.
  { destruct Hinv2. split.
    - intros code routes' Hc. destruct (Hr code routes' Hc) as (r0 & H0 & Hok & _).
      by apply Hok, (ci_routes0 _ _ H0).
    - intros code routes' ip r Hc Hin. destruct (Hr code routes' Hc) as (r0 & H0 & _ & Hel).
      destruct (Hel ip r Hin) as [Hin0 Hnp]. destruct (ci_live0 _ _ _ _ H0 Hin0) as (cs & Hcs & Hcode).
      assert (route_peer r ≠ p) as Hne.
      { intros Ep. apply Hnp; [|done]. apply elem_of_elements. congruence. }
      exists cs. by rewrite lookup_delete_ne.
    - rewrite dom_delete_L, Hp. set_solver.
    - by rewrite Hp. }
  injection H as <- _. clear -Hinv3. match goal with |- context [negb ?b] => destruct (negb b) end; [|done].
  destruct Hinv3. by split.
Qed.

Lemma message_inv tr dba dbr et now wall p data codes known m (g : Global (W := W)) r codes' m' g' :
  known !! p = Some codes → cluster_inv known m →
  handle_peer_message tr dba dbr et now wall p data codes m g = (r, (codes', m', g')) →
  cluster_inv (<[p := codes']> known) m'.
Proof.
  intros Hk Hinv H. pose proof (known_inv _ _ _ _ codes Hk (reflexivity _) Hinv) as Hk'.
  assert (∀ m1, same m m1 → cluster_inv (<[p := codes]> known) m1) as Hsame.
  { intros m1 Hs. by eapply same_inv. }
  unfold handle_peer_message in H. destruct (prost_decode data) as [[[[]|]]|]; cbn [payload] in H;
    try (injection H as <- <- <- _; apply Hsame; first [done|apply send_on_same]).
  - injection H as <- <- <- _. by apply on_peer_inv; [intros i Hc; left|].
  - injection H as _ H. by eapply client_info_inv.
  - injection H as <- <- <- _. apply Hsame, lease_acquire_same.
  - injection H as <- <- <- _. apply Hsame, lease_release_same.
  - pose proof (handle_broadcast_same tr now p b m g) as Hs.
    destruct (handle_broadcast_data tr now p b m g) as [m1 g1]. injection H as <- <- <- _. by apply Hsame.
Qed.

Lemma once_inv tr now p a l reply known m r m' :
  cluster_inv known m → connect_to_peer_once tr now p a l reply m = (r, m') →
  cluster_inv known m' ∧ dom (peers m') = dom (peers m).
Proof.
  intros Hinv H. unfold connect_to_peer_once in H.
  pose proof (write_frame_same tr l (AuthReq (auth_request m)) m) as Hs.
  destruct (write_frame _ _ _ _) as [[] m1]; cycle 1.
  { injection H as <- <-. split; [by eapply same_inv|]. by destruct Hs as (_ & Hp & _); simpl in Hp; rewrite Hp. }
  pose proof (same_inv _ _ _ Hs Hinv) as Hinv1. destruct Hs as (_ & Hp & _). simpl in Hp.
  rewrite <- Hp. clear Hinv Hp m. rename m1 into m.
  destruct (reply ≫= prost_decode) as [[[[]|]]|];
    try (injection H as <- <-; done).
  destruct (negb (as_success r0)); [by injection H as <- <-|].
  match type of H with context [on_peer p ?f m] => set (f' := f) in H end.
  assert (cluster_inv known (on_peer p f' m) ∧ dom (peers (on_peer p f' m)) = dom (peers m)) as [Hi Hd].
  { split; [|cbn [on_peer with_peers peers]; by rewrite dom_alter_L].
    apply on_peer_inv; [|done]. intros i _. right. unfold f', attach. simpl. by eexists. }
  clearbody f'. destruct (peers (on_peer p f' m) !! p) as [i|]; [|by injection H as <- <-].
  destruct (_ && _); injection H as <- <-; [|done]. split; [|done]. by apply (same_inv known (on_peer p f' m)).
Qed.

Lemma accept_inv tr now a txt l frame known m r m' :
  cluster_inv known m → handle_peer_connection tr now a txt l frame m = (r, m') →
  match r with Ok p => cluster_inv (<[p := ∅]> known) m' | Err _ => cluster_inv known m' end.
Proof.
  intros Hinv H. unfold handle_peer_connection in H.
  destruct (prost_decode frame) as [[[[q| | | | | | | | | | |]|]]|];
    try (injection H as <- <-; done).
  destruct (negb _).
  { injection H as <- <-. eapply same_inv; [apply write_frame_same|done]. }
  destruct (negb _ && _).
  { injection H as <- <-. eapply same_inv; [apply write_frame_same|done]. }
  match type of H with context [write_frame tr l ?msg m] =>
    pose proof (write_frame_same tr l msg m) as Hs; destruct (write_frame tr l msg m) as [[] m1] end;
    simpl in Hs; pose proof (same_inv _ _ _ Hs Hinv) as Hinv1; injection H as <- <-; [|done].
  pose proof (is_fresh (dom (peers m1))) as Hf.
  apply attach_inv.
  - apply not_elem_of_dom. destruct Hinv1. set_solver.
  - cbn [with_peers peers]. set_solver.
  - apply new_peer_inv; [done| |done]. intros _. by eexists.
Qed.

Lemma peer_step_inv known m (g : Global (W := W)) known' m' g' :
  peer_step (known, m, g) (known', m', g') → cluster_inv known m → cluster_inv known' m'.
Proof.
  intros H Hinv. inversion H; subst; clear H.
  - by eapply message_inv.
  - match goal with H : handle_peer_connection _ _ _ _ _ _ _ = _ |- _ =>
      exact (accept_inv _ _ _ _ _ _ _ _ _ _ Hinv H) end.
  - match goal with H : handle_peer_connection _ _ _ _ _ _ _ = _ |- _ =>
      exact (accept_inv _ _ _ _ _ _ _ _ _ _ Hinv H) end.
  - match goal with H : connect_to_peer _ _ = _ |- _ => injection H as <- <- end.
    apply new_peer_inv; [apply is_fresh|done|done].
  - match goal with H : connect_to_peer_once _ _ _ _ _ _ _ = _ |- _ =>
      destruct (once_inv _ _ _ _ _ _ _ _ _ _ Hinv H) as [Hi Hd] end.
    apply attach_inv; [done| |done]. rewrite Hd. by apply elem_of_dom.
  - match goal with H : connect_to_peer_once _ _ _ _ _ _ _ = _ |- _ =>
      destruct (once_inv _ _ _ _ _ _ _ _ _ _ Hinv H) as [Hi Hd] end.
    apply on_peer_inv; [intros i Hc; by left|]. by apply on_peer_inv.
  - by eapply end_link_inv.
  - eapply same_inv, Hinv. match goal with H : _ = (_, m') |- _ => apply (f_equal snd) in H end.
    simpl in *. subst. apply acquire_lease_same.
  - eapply same_inv, Hinv. match goal with H : _ = (_, m') |- _ => apply (f_equal snd) in H end.
    simpl in *. subst. apply release_lease_same.
  - eapply same_inv, Hinv. match goal with H : _ = (_, m') |- _ => apply (f_equal snd) in H end.
    simpl in *. subst. apply reconcile_same.
  - eapply same_inv, Hinv. match goal with H : _ = (_, m') |- _ => apply (f_equal snd) in H end.
    simpl in *. subst. unfold pull_client_info_from_peer. case_match; [done|apply send_on_same].
  - eapply same_inv, Hinv. match goal with H : _ = (_, m') |- _ => apply (f_equal snd) in H end.
    simpl in *. subst. unfold broadcast_wireguard. case_match; [done|].
    eapply same_trans; [apply mark_seen_same|apply forward_broadcast_same].
  - eapply same_inv, Hinv. match goal with H : _ = (_, m') |- _ => apply (f_equal snd) in H end.
    simpl in *. subst. apply forward_same.
  - done.
Qed.

Lemma new_inv hash id authority digest : cluster_inv ∅ (new_with_identity hash id authority digest).
Proof.
  split; cbn [new_with_identity ip_to_routes peers].
  - intros code routes H. by rewrite lookup_empty in H.
  - intros code routes ip r H. by rewrite lookup_empty in H.
  - done.
  - intros p i H. by rewrite lookup_empty in H.
Qed.

Lemma cluster_reachable_inv x y :
  rtc (peer_step (W := W)) x y → cluster_inv x.1.1 x.1.2 → cluster_inv y.1.1 y.1.2.
Proof.
  induction 1 as [|[[k m] g] [[k1 m1] g1] z Hstep _ IH]; [done|]. intros H. apply IH.
  exact (peer_step_inv _ _ _ _ _ _ Hstep H).
Qed.

(** *** Best routes *)

Definition live_route (ps : gmap positive PeerServerInfo) (r : IpRouteInfo) : Prop :=
  ∃ i, ps !! route_peer r = Some i ∧ connected i = true.

Definition best_of (ps : gmap positive PeerServerInfo) (l : list IpRouteInfo) (o : option (positive * Z)) : Prop :=
  match o with
  | None => ∀ r, r ∈ l → ¬ live_route ps r
  | Some (p, t) =>
      (∃ r, r ∈ l ∧ live_route ps r ∧ route_peer r = p ∧ total_latency ps r = t) ∧
      ∀ r, r ∈ l → live_route ps r → t ≤ total_latency ps r
  end.

Lemma elem_of_snoc {A} (l : list A) x r : r ∈ l ++ [x] → r ∈ l ∨ r = x.
Proof. rewrite elem_of_app, list_elem_of_singleton. done. Qed.

Lemma better_route_best ps l o x : best_of ps l o → best_of ps (l ++ [x]) (better_route ps o x).
Proof.
  intros Ho. unfold better_route.
  destruct (match ps !! route_peer x with Some p => connected p | None => false end) eqn:Ex; cbn [negb].
  - assert (live_route ps x) as Hx by (unfold live_route; destruct (ps !! route_peer x); naive_solver).
    destruct o as [[p t]|]; [destruct (Z.ltb_spec (total_latency ps x) t) as [Hlt|Hge]|].
    + destruct Ho as [_ Hmin]. split; [exists x; set_solver|].
      intros r [Hr| ->]%elem_of_snoc Hl; [|done]. specialize (Hmin r Hr Hl). lia.
    + destruct Ho as [(r0 & Hr0 & H0) Hmin]. split; [exists r0; set_solver|].
      intros r [Hr| ->]%elem_of_snoc Hl; [by apply Hmin|lia].
    + split; [exists x; set_solver|].
      intros r [Hr| ->]%elem_of_snoc Hl; [by destruct (Ho r Hr)|done].
  - assert (¬ live_route ps x) as Hx.
    { intros (i & Hi & Hc). by rewrite Hi, Hc in Ex. }
    destruct o as [[p t]|].
    + destruct Ho as [(r0 & Hr0 & H0) Hmin]. split; [exists r0; set_solver|].
      intros r [Hr| ->]%elem_of_snoc Hl; [by apply Hmin|done].
    + intros r [Hr| ->]%elem_of_snoc; [by apply Ho|done].
Qed.

Lemma better_fold ps l : best_of ps l (fold_left (better_route ps) l None).
Proof.
  induction l as [|x l IH] using rev_ind; [by intros r ?%not_elem_of_nil|].
  rewrite fold_left_app. by apply better_route_best.
Qed.

(** *** Broadcasts *)

Lemma forward_broadcast_seen tr inc b m :
  broadcast_seen (forward_broadcast_message tr inc b m).2 = broadcast_seen m.
Proof.
  unfold forward_broadcast_message.
  assert (∀ l ids n m, broadcast_seen
    (fold_left (λ acc p, forward_broadcast_to tr inc b p acc) l (ids, n, m)).2 = broadcast_seen m) as H.
  { clear m. induction l as [|p l IH]; intros ids n m; cbn [fold_left]; [done|].
    unfold forward_broadcast_to at 2. destruct (peers m !! p) as [i|]; [|apply IH].
    destruct (_ || _); [apply IH|]. case_bool_decide; [apply IH|].
    assert (broadcast_seen (send_on tr Datagram p (BroadcastData b) m).2 = broadcast_seen m) as Hs.
    { unfold send_on. destruct (peers m !! p ≫= _); [|done]. by destruct (tr _ _ _). }
    destruct (send_on _ _ _ _ _) as [[?|?] m1]; simpl in Hs; by rewrite IH. }
  specialize (H (peer_servers m) ∅ 0 m). by destruct (fold_left _ _ _) as [[ids n] m1].
Qed.

(** The id was last relayed at or after [t1]. *)
Definition relayed_since (t1 now : Z) (id : string) (m : Manager) : Prop :=
  ∃ t, broadcast_seen m !! id = Some t ∧ t1 ≤ t ≤ now.

Lemma mark_relayed t1 now id m :
  relayed_since t1 now id m → t1 ≤ now < t1 + BROADCAST_SEEN_TTL →
  (mark_broadcast_seen now id m).1 = false.
Proof.
  intros (t & Ht & Hb) Hn.
  assert (fresh_seen now t = true) as Hf.
  { unfold fresh_seen, saturating_sub. apply Z.ltb_lt. lia. }
  unfold mark_broadcast_seen.
  match goal with |- context [if ?b then filter ?f ?s else ?s] => set (seen := if b then filter f s else s) end.
  assert (seen !! id = Some t) as ->; [|by rewrite Hf].
  unfold seen. destruct (_ <=? _)%nat; [|done]. by apply map_lookup_filter_Some.
Qed.

Lemma mark_keeps t1 now now' id id' m :
  relayed_since t1 now id m → t1 ≤ now ≤ now' → now' < t1 + BROADCAST_SEEN_TTL →
  relayed_since t1 now' id (mark_broadcast_seen now' id' m).2.
Proof.
  intros (t & Ht & Hb) Hn Hlt.
  assert (fresh_seen now' t = true) as Hf.
  { unfold fresh_seen, saturating_sub. apply Z.ltb_lt. lia. }
  unfold mark_broadcast_seen.
  match goal with |- context [if ?b then filter ?f ?s else ?s] => set (seen := if b then filter f s else s) end.
  assert (seen !! id = Some t) as Hs.
  { unfold seen. destruct (_ <=? _)%nat; [|done]. by apply map_lookup_filter_Some. }
  clearbody seen. destruct (decide (id = id')) as [<-|Hne].
  - rewrite Hs, Hf. exists t. split; [done|lia].
  - destruct (seen !! id') as [t'|]; [destruct (fresh_seen now' t')|];
      exists t; cbn [snd with_seen broadcast_seen]; rewrite ?lookup_insert_ne by done; (split; [done|lia]).
Qed.

Lemma mark_true now id m :
  (mark_broadcast_seen now id m).1 = true → broadcast_seen (mark_broadcast_seen now id m).2 !! id = Some now.
Proof.
  unfold mark_broadcast_seen.
  match goal with |- context [if ?b then filter ?f ?s else ?s] => set (seen := if b then filter f s else s) end.
  destruct (seen !! id) as [t|]; [destruct (fresh_seen now t); [done|]|];
    intros _; cbn [snd with_seen broadcast_seen]; by rewrite lookup_insert_eq.
Qed.

Lemma handle_broadcast_seen tr now p b m (g : Global (W := W)) :
  broadcast_seen (handle_broadcast_data tr now p b m g).1 =
  if broadcast_refused p b m then broadcast_seen m
  else broadcast_seen (mark_broadcast_seen now (bd_broadcast_id b) m).2.
Proof.
  unfold handle_broadcast_data. destruct (broadcast_refused p b m); [done|].
  destruct (mark_broadcast_seen _ _ _) as [[] m1]; [|done]. cbn [negb fst snd].
  destruct (0 <? _); [|done]. by rewrite forward_broadcast_seen.
Qed.

(** Broadcasts handled one after the other. *)
Fixpoint run_broadcasts (tr : Link → Channel → bytes → bool)
    (msgs : list (Z * positive * ServerBroadcastData)) (x : Manager * Global (W := W)) : Manager * Global :=
  match msgs with
  | [] => x
  | (now, p, b) :: msgs => run_broadcasts tr msgs (handle_broadcast_data tr now p b x.1 x.2)
  end.

Fixpoint times_between (t t2 : Z) (msgs : list (Z * positive * ServerBroadcastData)) : bool :=
  match msgs with
  | [] => t <=? t2
  | (now, _, _) :: msgs => (t <=? now) && times_between now t2 msgs
  end.

Lemma times_between_le t t2 msgs : times_between t t2 msgs = true → t ≤ t2.
Proof.
  revert t. induction msgs as [|[[n ?] ?] msgs IH]; intros t; simpl; [lia|].
  intros [? H]%andb_true_iff. specialize (IH n H). lia.
Qed.

Lemma run_relayed tr msgs t1 now t2 id x :
  relayed_since t1 now id x.1 → t1 ≤ now → times_between now t2 msgs = true →
  t2 < t1 + BROADCAST_SEEN_TTL → relayed_since t1 t2 id (run_broadcasts tr msgs x).1.
Proof.
  revert now x. induction msgs as [|[[n p] b] msgs IH]; intros now [m g] Hr Hn Ht H2; simpl.
  { simpl in Ht. destruct Hr as (t & ? & ?). exists t. split; [done|lia]. }
  simpl in Ht. apply andb_true_iff in Ht as [Hle Ht]. pose proof (times_between_le _ _ _ Ht).
  apply (IH n); [|lia|done|done]. unfold relayed_since. rewrite handle_broadcast_seen.
  destruct (broadcast_refused p b m).
  - destruct Hr as (t & ? & ?). exists t. split; [done|lia].
  - apply (mark_keeps t1 now n id _ m Hr); lia.
Qed.

(** *** Leases *)

Lemma same_authority m m' : same m m' → is_lease_authority m' = is_lease_authority m.
Proof. intros (_ & _ & _ & Hi & Ha). unfold is_lease_authority, cluster_enabled. by rewrite Hi, Ha. Qed.

(** The authority confirmed the allocation at its own address. *)
Definition confirmed (x : string * option ServerLeaseAcquireResponse * LocalIpAllocation) : Prop :=
  ∃ r, x.1.2 = Some r ∧ lr_success r = true ∧ lr_ip r = al_ip x.2.

Lemma remote_grant tr dba ans req m grant m' :
  is_lease_authority m = false → acquire_lease_request tr dba ans req m = (Ok grant, m') →
  ∃ r, ans = Some r ∧ lr_success r = true ∧
       grant = mkClusterLeaseGrant (lr_ip r) (lr_revision r) (lr_expires_at r).
Proof.
  intros Ha H. unfold acquire_lease_request in H. rewrite Ha in H.
  destruct (authority_peer m); [|done]. destruct (send_on _ _ _ _ _) as [[?|?] m1]; [|done].
  destruct ans as [r|]; [|done]. exists r. destruct (lr_success r); [|done].
  cbn [negb] in H. split; [done|]. split; [done|]. congruence.
Qed.

Lemma reconcile_one_spec tr dba x c m :
  is_lease_authority m = false → 0 ≤ c < u64_max →
  let '(c', m') := reconcile_one tr dba x (c, m) in
  is_lease_authority m' = false ∧ (c' = c ∧ confirmed x ∨ c' = c + 1).
Proof.
  intros Ha Hc. destruct x as [[id ans] a]. unfold reconcile_one, confirmed. cbn [fst snd].
  match goal with |- context [acquire_lease_request tr dba ans ?req m] =>
    pose proof (acquire_lease_request_same tr dba ans req m) as Hs;
    pose proof (remote_grant tr dba ans req m) as Hg;
    destruct (acquire_lease_request tr dba ans req m) as [[grant|?] m1] end;
    cbn [snd] in Hs; (split; [by rewrite (same_authority _ _ Hs)|]);
    rewrite ?u64_add_small by (unfold u64_max in *; lia); [|by right].
  destruct (Hg grant m1 Ha eq_refl) as (r & Hr & Hok & ->). cbn [gr_ip].
  destruct (Z.eqb_spec (lr_ip r) (al_ip a)); [left; eauto|by right].
Qed.

Lemma reconcile_fold tr dba l c m :
  is_lease_authority m = false → 0 ≤ c → c + Z.of_nat (length l) ≤ u64_max →
  let '(c', m') := fold_left (λ acc x, reconcile_one tr dba x acc) l (c, m) in
  c ≤ c' ∧ (c' = c → ∀ x, x ∈ l → confirmed x).
Proof.
  revert c m. induction l as [|x l IH]; intros c m Ha Hc Hl; cbn [fold_left].
  { split; [done|]. by intros _ x ?%not_elem_of_nil. }
  cbn [length] in Hl. pose proof (reconcile_one_spec tr dba x c m Ha ltac:(lia)) as H1.
  destruct (reconcile_one tr dba x (c, m)) as [c1 m1]. destruct H1 as [Ha1 H1].
  specialize (IH c1 m1 Ha1 ltac:(lia) ltac:(lia)).
  destruct (fold_left _ l _) as [c2 m2]. destruct IH as [Hle Hall]. split; [lia|].
  intros -> y [->|Hy]%elem_of_cons; destruct H1 as [[-> Hx]| ->]; try lia; [done|by apply Hall].
Qed.
End LinkFacts.
End LinkFacts.

