(* ===== verification/Cluster.v ===== *)
(** What the links between servers guarantee: the properties of [Peer.v]. *)

From S2P Require Import Prelude Libs Std Packet Bridge Lease NetState Service Peer PeerFacts.
From stdpp Require Import base gmap strings list sorting.
From Stdlib Require Import ZArith Lia.

Local Open Scope Z_scope.

(** ** Properties *)

Section Theorems.
Context {NL : Ipv4NetLib} {NLL : Ipv4NetLaws} {PL : PnetLib} {U32 : NetU32Lib}.
Context {W : Type} {MV : Mpsc W bytes} {MW : Mpsc W WireGuardBridgePacket}.
Context {SM : ProstCodec ServerMessage} {SML : ProstLaws ServerMessage}.


(** After a peer has announced its clients of a network, the routes
    through it are exactly those to the announced addresses with the announced
    latencies, the routes through other peers are the ones that were there, and
    a route is missing only where five at least as fast ones took its place. *)
Theorem sync_exact ps p clients routes :
  RouteFacts.route_map_ok routes → NoDup (cl_ip <$> clients) →
  let after := RouteFacts.routes_of (sync_routes ps p clients routes) in
  let before := RouteFacts.routes_of routes in
  let expected ip r := (route_peer r ≠ p ∧ r ∈ before ip) ∨
                       (∃ c, c ∈ clients ∧ cl_ip c = ip ∧ r = mkRoute p (cl_latency_ms c)) in
  ∀ ip r, (r ∈ after ip → expected ip r) ∧
          (expected ip r → r ∈ after ip ∨ RouteFacts.crowded_out ps (after ip) r).
Proof.
  intros Hok Hnd after before expected ip r. unfold after, before, expected.
  destruct (decide (ip ∈ cl_ip <$> clients)) as [Hin|Hout].
  - apply list_elem_of_fmap in Hin as (c & -> & Hc).
    rewrite (RouteFacts.sync_announced ps p clients routes c Hok Hnd Hc). split.
    + intros [->|H]%RouteFacts.updated_elem; [right; by exists c|by left|by apply RouteFacts.routes_of_NoDup].
    + intros [H|(c' & Hc' & E & ->)]; apply RouteFacts.updated_keeps; [by right|left].
      do 2 f_equal. apply list_elem_of_lookup in Hc as [i Hi]. apply list_elem_of_lookup in Hc' as [j Hj].
      assert (i = j) as ->; [|congruence].
      eapply (NoDup_lookup _ _ _ (cl_ip c) Hnd); rewrite list_lookup_fmap; [by rewrite Hi|].
      rewrite Hj. simpl. by rewrite E.
  - rewrite RouteFacts.sync_unannounced by done. rewrite RouteFacts.drop_peer_elem. split; [by left|].
    intros [H|(c & Hc & E & _)]; [by left|]. destruct Hout. apply list_elem_of_fmap. exists c.
    by rewrite E.
Qed.

(** A packet is handed to another server only along a route through a
    connected peer that no such route beats, and only when that is faster than
    serving the destination here, or it is not here; otherwise nothing is sent,
    because no connected peer has a route, the local path is not slower, or the
    transport refused the datagram. *)
Theorem forward_takes_best_route tr code target data origin m g known :
  cluster_inv known m →
  let routes := RouteFacts.routes_of (default ∅ (ip_to_routes m !! code)) target in
  let state : option NetworkState := '(_, s) ← get_network_state code g; Some s in
  let local : option Z := s ← state; get_device_entry_by_ip target s ≫= e_latency_ms in
  let slower r := match local with
                  | Some t => total_latency (peers m) r < t
                  | None => (∃ s, state = Some s ∧ is_Some (sender_map s !! target)) →
                            total_latency (peers m) r < DEFAULT_CLIENT_LATENCY_MS
                  end in
  let msg := prost_encode (mkServerMessage (Some (ForwardData
               (mkForward code data (bool_decide (origin = OriginWireGuard)))))) in
  let best r := r ∈ routes ∧ LinkFacts.live_route (peers m) r ∧
                ∀ r', r' ∈ routes → LinkFacts.live_route (peers m) r' →
                      total_latency (peers m) r ≤ total_latency (peers m) r' in
  match forward_with_best_route tr code target data origin m g with
  | (true, m') => ∃ r i l, best r ∧ slower r ∧ peers m !! route_peer r = Some i ∧ connection i = Some l ∧
                           sent m' = sent m ++ [(l, Datagram, msg)]
  | (false, m') => m' = m ∧ ((∀ r, r ∈ routes → ¬ LinkFacts.live_route (peers m) r)
                             ∨ ∃ r, best r ∧ (¬ slower r ∨ ∃ l, tr l Datagram msg = false))
  end.
Proof.
  intros Hinv routes state local slower msg best.
  unfold forward_with_best_route, find_best_route.
  replace ('(_, s) ← get_network_state code g; get_device_entry_by_ip target s ≫= e_latency_ms)
    with local by (unfold local, state; by destruct (get_network_state code g) as [[? ?]|]).
  pose proof (LinkFacts.better_fold (peers m) routes) as Hbest. unfold routes, RouteFacts.routes_of in *.
  destruct (ip_to_routes m !! code) as [rm|]; simpl in *; [|split; [done|left; exact Hbest]].
  destruct (rm !! target) as [l|]; simpl in *; [|split; [done|left; exact Hbest]].
  destruct (fold_left (better_route (peers m)) l None) as [[p t]|]; simpl in *; [|split; [done|by left]].
  destruct Hbest as [(r & Hr & Hlive & <- & <-) Hmin].
  assert (best r) as Hb by done. pose proof Hlive as (i & Hi & Hc).
  destruct (ci_connection _ _ Hinv _ _ Hi Hc) as [lk Hlk].
  match goal with |- context [should_forward _ _ ?b] => set (here := b) end.
  assert (should_forward (total_latency (peers m) r) local here = true ↔ slower r) as Hslow.
  { unfold should_forward, slower. destruct local as [t|]; [by rewrite Z.ltb_lt|].
    unfold here, state. destruct (get_network_state code g) as [[ln s]|]; simpl.
    - destruct (sender_map s !! target) eqn:E; simpl.
      + rewrite Z.ltb_lt. split; [done|]. intros H. apply H. exists s. rewrite E. split; [done|by eexists].
      + split; [|done]. intros _ (s0 & [= <-] & [x Hx]). congruence.
    - split; [|done]. by intros _ (s0 & ? & _). }
  destruct (should_forward _ _ _); cycle 1.
  { split; [done|]. right. exists r. split; [done|]. left. rewrite <- Hslow. done. }
  unfold forward_to_peer, send_on. rewrite Hi. simpl. rewrite Hlk.
  destruct (tr lk Datagram _) eqn:Et.
  - exists r, i, lk. repeat split; try done; by apply Hslow.
  - split; [done|]. right. exists r. split; [done|]. right. by exists lk.
Qed.

(** C39: a server relays a broadcast at most once in two minutes: once it has
    accepted an id, every further copy that arrives within
    [BROADCAST_SEEN_TTL], from whichever peer and with however many other
    broadcasts in between, reaches no client and no other server. *)
Theorem broadcast_relayed_once tr t1 p b m g msgs t2 p' b' :
  broadcast_refused p b m = false → (mark_broadcast_seen t1 (bd_broadcast_id b) m).1 = true →
  LinkFacts.times_between t1 t2 msgs = true → t2 < t1 + BROADCAST_SEEN_TTL →
  bd_broadcast_id b' = bd_broadcast_id b →
  let '(m2, g2) := LinkFacts.run_broadcasts tr msgs (handle_broadcast_data tr t1 p b m g) in
  let '(m3, g3) := handle_broadcast_data tr t2 p' b' m2 g2 in
  g3 = g2 ∧ sent m3 = sent m2 ∧ ip_to_routes m3 = ip_to_routes m2.
Proof.
  intros Href Hnew Ht H2 Hid.
  assert (LinkFacts.relayed_since t1 t1 (bd_broadcast_id b) (handle_broadcast_data tr t1 p b m g).1) as H1.
  { exists t1. rewrite LinkFacts.handle_broadcast_seen, Href. split; [by apply LinkFacts.mark_true|lia]. }
  pose proof (LinkFacts.run_relayed tr msgs _ _ _ _ _ H1 ltac:(lia) Ht H2) as Hr.
  pose proof (LinkFacts.times_between_le _ _ _ Ht).
  destruct (LinkFacts.run_broadcasts _ _ _) as [m2 g2]. simpl in Hr.
  unfold handle_broadcast_data. destruct (broadcast_refused p' b' m2); [done|].
  rewrite <- Hid in Hr.
  pose proof (LinkFacts.mark_relayed _ _ _ _ Hr ltac:(lia)) as Hf.
  pose proof (LinkFacts.mark_seen_same t2 (bd_broadcast_id b') m2) as (Hs & _).
  assert (sent (mark_broadcast_seen t2 (bd_broadcast_id b') m2).2 = sent m2) as Hsent.
  { unfold mark_broadcast_seen. destruct (_ !! bd_broadcast_id b') as [t|]; [|done]. by destruct (fresh_seen _ t). }
  destruct (mark_broadcast_seen t2 (bd_broadcast_id b') m2) as [new m3]. cbn [fst snd] in *. rewrite Hf. by cbn [negb].
Qed.

(** After it has compared its allocations with the lease authority, a
    server hands out addresses only if the authority confirmed every one of
    them at its own address; with a single refusal, timeout or different
    address it stays not ready and refuses every allocation. *)
Theorem cluster_ready_sound tr dba l m :
  cluster_enabled m = true → is_lease_authority m = false → Z.of_nat (length l) ≤ u64_max →
  let '(r, m') := reconcile_local_allocations tr dba (Ok l) m in
  (cluster_ready m' = true ↔ r = Ok tt) ∧
  (r = Ok tt → ∀ x, x ∈ l → LinkFacts.confirmed x) ∧
  (r ≠ Ok tt → ∀ id ans code owner_type owner_id requested net gateway d static,
     acquire_lease tr dba id ans code owner_type owner_id requested net gateway d static m' =
     (Err NotReady, m')).
Proof.
  intros He Ha Hl. unfold reconcile_local_allocations. rewrite He, Ha. cbn [negb orb].
  pose proof (LinkFacts.reconcile_fold tr dba l 0 (set_ready false m) Ha ltac:(lia) ltac:(lia)) as Hf.
  pose proof (LinkFacts.reconcile_fold_same tr dba l 0 (set_ready false m)) as Hs.
  destruct (fold_left _ l _) as [c m1]. destruct Hf as [Hc Hall]. cbn [snd] in Hs.
  destruct (Z.eqb_spec c 0) as [->|Hne]; cbn [with_cluster cluster_ready].
  - split; [done|]. split; [|done]. intros _. by apply Hall.
  - split; [by split|]. split; [done|]. intros _ id ans code ot oi rq net gw d st.
    destruct Hs as (_ & _ & _ & Hi & Hl'). unfold acquire_lease, is_lease_authority, cluster_enabled in *.
    cbn [with_cluster server_id lease_authority cluster_ready set_ready] in *. rewrite Hi, Hl', He.
    rewrite He in Ha. cbn [andb] in Ha. by rewrite Ha.
Qed.

(** A lease request between two servers arrives as it was made: the
    authority's database is asked for the requester's network, owner and
    address on behalf of the requester, and what it grants is what the
    requester's [acquire_lease] returns; the authority answers with a grant only
    to a peer it knows to be compatible. *)
Theorem lease_end_to_end tr dba dbr et (m1 m2 : Manager) id code owner_type owner_id requested net gateway
    d static p1 i1 l1 p2 i2 l2 now wall codes (g : Global (W := W)) :
  (∀ l ch b, tr l ch b = true) →
  cluster_enabled m1 = true → is_lease_authority m1 = false → cluster_ready m1 = true →
  authority_peer m1 = Some p1 → peers m1 !! p1 = Some i1 → sender i1 = Some l1 →
  is_lease_authority m2 = true → peers m2 !! p2 = Some i2 → sender i2 = Some l2 →
  ∃ request dbq,
    cq_network_code dbq = code ∧ cq_owner_type dbq = owner_type ∧ cq_owner_id dbq = owner_id ∧
    cq_requested_ip dbq = requested ∧ cq_gateway dbq = gateway ∧
    net_network (cq_network dbq) = net_network net ∧ net_prefix_len (cq_network dbq) = net_prefix_len net ∧
    cq_origin_server_id dbq = server_id m1 ∧ cq_authority_id dbq = server_id m2 ∧
    (∀ answer, sent (acquire_lease tr dba id answer code owner_type owner_id requested net gateway d static m1).2
               = sent m1 ++ [(l1, Stream, request)]) ∧
    let '(r, (_, m2', _)) := handle_peer_message tr dba dbr et now wall p2 request codes m2 g in
    ∃ reply response, r = Ok tt ∧ sent m2' = sent m2 ++ [(l2, Stream, reply)] ∧
      prost_decode reply = Some (mkServerMessage (Some (LeaseAcquireRes response))) ∧
      (lr_success response = true → cluster_compatible i2 = true) ∧
      (∀ grant, cluster_compatible i2 = true → dba dbq = Ok grant →
         (acquire_lease tr dba id (Some response) code owner_type owner_id requested net gateway d static m1).1
         = Ok (Some grant)).
Proof.
  intros Htr He Ha Hr Hp1 Hi1 Hl1 Ha2 Hi2 Hl2.
  set (req := mkAcquire id code owner_type owner_id (default 0 requested) (is_some requested)
                (net_network net) (net_prefix_len net) gateway (as_secs d) static (server_id m1)).
  pose proof (net_network_range net) as Hnr. pose proof (net_prefix_range net) as Hpr.
  destruct (net_new_Some (net_network net) (net_prefix_len net)) as (n & Hn & Hnp & Hnn); [|done|].
  { unfold is_u, u32_max in *. lia. }
  assert (net_network n = net_network net) as Hnet.
  { rewrite Hnn. pose proof (net_aligned net). pose proof (net_size_pos net).
    rewrite Z.mul_comm, <- Z_div_exact_full_2 by lia. done. }
  assert (db_lease_request req m2 = Ok (mkClusterLeaseRequest code owner_type owner_id requested n gateway
            (as_secs d) static (server_id m2) (server_id m1))) as Hdb.
  { unfold db_lease_request, req, ensure. cbn [la_prefix_len la_network_base]. rewrite (proj2 (Z.leb_le _ _)) by lia.
    rewrite Hn. cbn. by destruct requested. }
  exists (prost_encode (mkServerMessage (Some (LeaseAcquireReq req)))),
    (mkClusterLeaseRequest code owner_type owner_id requested n gateway (as_secs d) static (server_id m2)
       (server_id m1)).
  do 9 (split; [done|]).
  assert (∀ m, peers m = peers m1 → send_on tr Stream p1 (LeaseAcquireReq req) m =
    (Ok tt, with_sent (sent m ++ [(l1, Stream, prost_encode (mkServerMessage (Some (LeaseAcquireReq req))))]) m))
    as Hsend.
  { intros m Hm. unfold send_on. rewrite Hm, Hi1. simpl. by rewrite Hl1, Htr. }
  assert (∀ answer, acquire_lease tr dba id answer code owner_type owner_id requested net gateway d static m1 =
    match acquire_lease_request tr dba answer req m1 with
    | (Ok g, m) => (Ok (Some g), m) | (Err e, m) => (Err e, m) end) as Hacq.
  { intros answer. unfold acquire_lease. by rewrite He, Ha, Hr. }
  split.
  { intros answer. rewrite Hacq. unfold acquire_lease_request. rewrite Ha, Hp1, Hsend by done.
    destruct answer as [r|]; [|done]. by destruct (negb (lr_success r)). }
  unfold handle_peer_message. rewrite prost_decode_encode. cbn [payload].
  unfold handle_lease_acquire_request. rewrite Hi2, Ha2. cbn [negb].
  assert (∀ resp m, peers m = peers m2 → send_on tr Stream p2 (LeaseAcquireRes resp) m =
    (Ok tt, with_sent (sent m ++ [(l2, Stream, prost_encode (mkServerMessage (Some (LeaseAcquireRes resp))))]) m))
    as Hsend2.
  { intros resp m Hm. unfold send_on. rewrite Hm, Hi2. simpl. by rewrite Hl2, Htr. }
  match goal with |- context [let '(_, _) := ?x in _] =>
    assert (peers x.2 = peers m2 ∧ sent x.2 = sent m2 ∧
      (lr_success x.1 = true → cluster_compatible i2 = true) ∧
      ∀ grant, cluster_compatible i2 = true →
        dba (mkClusterLeaseRequest code owner_type owner_id requested n gateway (as_secs d) static
               (server_id m2) (server_id m1)) = Ok grant →
        x.1 = mkAcquired id true "OK"%string (gr_ip grant) (gr_revision grant) (gr_expires_at grant))
      as (Hxp & Hxs & Hxc & Hxg) end.
  { destruct (cluster_compatible i2); cbn [negb]; [|done]. rewrite Hdb. destruct (dba _) as [gr|e].
    - repeat split. by intros grant _ [= ->].
    - done. }
  match goal with |- context [let '(_, _) := ?x in _] => destruct x as [resp m] end.
  cbn [fst snd] in *. rewrite Hsend2 by done. cbn [fst snd].
  exists (prost_encode (mkServerMessage (Some (LeaseAcquireRes resp)))), resp.
  split; [done|]. split; [cbn [with_sent sent]; by rewrite Hxs|]. split; [apply prost_decode_encode|].
  split; [done|]. intros grant Hc Hg. rewrite Hacq, (Hxg grant Hc Hg). unfold acquire_lease_request.
  rewrite Ha, Hp1, Hsend by done. cbn. by destruct grant.
Qed.

(** Stopping an outbound peer leaves its routes behind.  When the link of
    a peer ends by itself no route through it remains; when the administrator
    removes the peer while the link is up, the task is dropped before it cleans
    up, and every route through the peer stays in the table although the peer
    is gone from the list and will never be cleaned up again. *)
Theorem removed_peer_leaves_routes now p codes known m g code routes ip r :
  cluster_inv known m → known !! p = Some codes →
  ip_to_routes m !! code = Some routes → r ∈ RouteFacts.routes_of routes ip → route_peer r = p →
  (∀ code' routes' ip' r', ip_to_routes (end_link now p codes m g).1 !! code' = Some routes' →
     r' ∈ RouteFacts.routes_of routes' ip' → route_peer r' ≠ p) ∧
  ip_to_routes (stop_outbound p m) !! code = Some routes ∧ p ∉ peer_servers (stop_outbound p m).
Proof.
  intros Hinv Hk Hc Hr Hp. split; [|split; [done|]].
  - intros code' routes' ip' r' Hc' Hr' E. destruct (end_link now p codes m g) as [m' g'] eqn:El.
    destruct (ci_live _ _ (LinkFacts.end_link_inv _ _ _ _ _ _ _ _ Hk Hinv El) _ _ _ _ Hc' Hr') as (cs & Hcs & _).
    rewrite E, lookup_delete_eq in Hcs. done.
  - cbn [stop_outbound with_peers peer_servers on_peer]. rewrite list_elem_of_filter. by intros [? _].
Qed.

(** The latency sum wraps: a peer that announces a client at
    [u32::MAX] milliseconds is ranked as if the client were one millisecond
    closer than the peer itself, and the packet goes to it rather than to any
    peer that is not faster and announces an honest latency. *)
Theorem latency_overflow_wins tr code target data origin m g known p i :
  let routes := RouteFacts.routes_of (default ∅ (ip_to_routes m !! code)) target in
  cluster_inv known m → peers m !! p = Some i → connected i = true → 0 ≤ latency_ms i < u32_max →
  mkRoute p u32_max ∈ routes →
  (∀ r, r ∈ routes → r ≠ mkRoute p u32_max → ∃ j, peers m !! route_peer r = Some j ∧
     latency_ms i ≤ latency_ms j ∧ 0 ≤ client_latency_ms r ∧
     latency_ms j + client_latency_ms r + 2 ≤ u32_max) →
  get_network_state code g = None → (∀ l ch b, tr l ch b = true) →
  ∃ l, connection i = Some l ∧
    sent (forward_with_best_route tr code target data origin m g).2 =
    sent m ++ [(l, Datagram, prost_encode (mkServerMessage (Some (ForwardData
                 (mkForward code data (bool_decide (origin = OriginWireGuard)))))))].
Proof.
  intros routes Hinv Hi Hc Hlat Hin Hhonest Hg Htr.
  destruct (ci_connection _ _ Hinv _ _ Hi Hc) as [l Hl]. exists l. split; [done|].
  assert (total_latency (peers m) (mkRoute p u32_max) = latency_ms i + 1) as Htot.
  { unfold total_latency. cbn [route_peer client_latency_ms]. rewrite Hi.
    unfold u32_add, wrap, u32_max in *. rewrite Zplus_mod_idemp_l.
    symmetry. apply Z.mod_unique_pos with 1; lia. }
  assert (LinkFacts.live_route (peers m) (mkRoute p u32_max)) as Hlive by (exists i; done).
  unfold forward_with_best_route, find_best_route. rewrite Hg. cbn [mbind option_bind].
  unfold routes, RouteFacts.routes_of in *. destruct (ip_to_routes m !! code) as [rm|]; simpl in Hin, Hhonest.
  2: { rewrite lookup_empty in Hin. by apply not_elem_of_nil in Hin. }
  cbn [mbind option_bind].
  destruct (rm !! target) as [lst|]; simpl in Hin, Hhonest; [|by apply not_elem_of_nil in Hin].
  cbn [mbind option_bind]. pose proof (LinkFacts.better_fold (peers m) lst) as Hb.
  destruct (fold_left _ _ _) as [[q t]|]; cycle 1.
  { destruct (Hb _ Hin Hlive). }
  destruct Hb as [(r & Hr & Hrl & <- & <-) Hmin]. specialize (Hmin _ Hin Hlive). rewrite Htot in Hmin.
  assert (route_peer r = p) as ->.
  { destruct (decide (route_peer r = p)) as [|Hne]; [done|exfalso].
    destruct (Hhonest r Hr) as (j & Hj & Hle & H0 & Hsum); [by intros ->|].
    unfold total_latency in Hmin. rewrite Hj in Hmin.
    rewrite !u32_add_small in Hmin; [lia| |]; rewrite ?u32_add_small; lia. }
  cbn [mbind option_bind should_forward]. unfold forward_to_peer, send_on. rewrite Hi.
  cbn [mbind option_bind]. by rewrite Hl, Htr.
Qed.
End Theorems.

(** ** A codec for the messages, and witnesses *)
Module ClusterCodec.
Ltac record_countable enc dec := refine (inj_countable' enc dec _); by intros [].
Ltac eq_dec := solve_decision.

#[export] Instance ServerAuthRequest_eq : EqDecision ServerAuthRequest. Proof. eq_dec. Defined.
#[export] Instance ServerAuthResponse_eq : EqDecision ServerAuthResponse. Proof. eq_dec. Defined.
#[export] Instance ServerForwardData_eq : EqDecision ServerForwardData. Proof. eq_dec. Defined.
#[export] Instance ServerBroadcastData_eq : EqDecision ServerBroadcastData. Proof. eq_dec. Defined.
#[export] Instance ClientLatencyInfo_eq : EqDecision ClientLatencyInfo. Proof. eq_dec. Defined.
#[export] Instance NetworkInfo_eq : EqDecision NetworkInfo. Proof. eq_dec. Defined.
#[export] Instance AcquireRequest_eq : EqDecision ServerLeaseAcquireRequest. Proof. eq_dec. Defined.
#[export] Instance AcquireResponse_eq : EqDecision ServerLeaseAcquireResponse. Proof. eq_dec. Defined.
#[export] Instance ReleaseRequest_eq : EqDecision ServerLeaseReleaseRequest. Proof. eq_dec. Defined.
#[export] Instance ReleaseResponse_eq : EqDecision ServerLeaseReleaseResponse. Proof. eq_dec. Defined.
#[export] Instance Payload_eq : EqDecision Payload. Proof. eq_dec. Defined.
#[export] Instance ServerMessage_eq : EqDecision ServerMessage. Proof. eq_dec. Defined.

#[export] Instance auth_req_countable : Countable ServerAuthRequest.
Proof.
  record_countable
    (λ r, (aq_token_hash r, aq_server_id r, aq_protocol_version r, aq_capabilities r,
           aq_network_config_digest r, aq_lease_authority r))
    (λ '(a, b, c, d, e, f), mkAuthReq a b c d e f).
Defined.
#[export] Instance auth_res_countable : Countable ServerAuthResponse.
Proof.
  record_countable
    (λ r, (as_success r, as_message r, as_server_id r, as_protocol_version r, as_capabilities r,
           as_network_config_digest r, as_lease_authority r))
    (λ '(a, b, c, d, e, f, g), mkAuthRes a b c d e f g).
Defined.
#[export] Instance forward_countable : Countable ServerForwardData.
Proof.
  record_countable (λ r, (fd_network_code r, fd_data r, fd_source_is_wireguard r))
    (λ '(a, b, c), mkForward a b c).
Defined.
#[export] Instance broadcast_countable : Countable ServerBroadcastData.
Proof.
  record_countable
    (λ r, (bd_network_code r, bd_data r, bd_source_ip r, bd_broadcast_id r, bd_origin_server_id r,
           bd_hops_remaining r, bd_source_is_wireguard r))
    (λ '(a, b, c, d, e, f, g), mkBroadcast a b c d e f g).
Defined.
#[export] Instance client_latency_countable : Countable ClientLatencyInfo.
Proof.
  record_countable (λ r, (cl_ip r, cl_latency_ms r, cl_is_wireguard r))
    (λ '(a, b, c), mkClientLatency a b c).
Defined.
#[export] Instance network_info_countable : Countable NetworkInfo.
Proof.
  record_countable (λ r, (ni_network_code r, ni_clients r)) (λ '(a, b), mkNetworkInfo a b).
Defined.
#[export] Instance acquire_countable : Countable ServerLeaseAcquireRequest.
Proof.
  record_countable
    (λ r, (la_request_id r, la_network_code r, la_owner_type r, la_owner_id r, la_requested_ip r,
           la_has_requested_ip r, la_network_base r, la_prefix_len r, la_gateway r,
           la_lease_duration_secs r, la_static_reservation r, la_origin_server_id r))
    (λ '(a, b, c, d, e, f, g, h, i, j, k, l), mkAcquire a b c d e f g h i j k l).
Defined.
#[export] Instance acquired_countable : Countable ServerLeaseAcquireResponse.
Proof.
  record_countable
    (λ r, (lr_request_id r, lr_success r, lr_message r, lr_ip r, lr_revision r, lr_expires_at r))
    (λ '(a, b, c, d, e, f), mkAcquired a b c d e f).
Defined.
#[export] Instance release_countable : Countable ServerLeaseReleaseRequest.
Proof.
  record_countable (λ r, (rl_request_id r, rl_network_code r, rl_owner_type r, rl_owner_id r))
    (λ '(a, b, c, d), mkRelease a b c d).
Defined.
#[export] Instance released_countable : Countable ServerLeaseReleaseResponse.
Proof.
  record_countable (λ r, (rr_request_id r, rr_success r, rr_message r, rr_revision r))
    (λ '(a, b, c, d), mkReleased a b c d).
Defined.

Definition payload_sum : Type :=
  ServerAuthRequest + ServerAuthResponse + Z + (Z * Z) + ServerForwardData + list string
  + list NetworkInfo + ServerLeaseAcquireRequest + ServerLeaseAcquireResponse
  + ServerLeaseReleaseRequest + ServerLeaseReleaseResponse + ServerBroadcastData.

Definition payload_to_sum (p : Payload) : payload_sum :=
  match p with
  | AuthReq r => inl (inl (inl (inl (inl (inl (inl (inl (inl (inl (inl r))))))))))
  | AuthRes r => inl (inl (inl (inl (inl (inl (inl (inl (inl (inl (inr r))))))))))
  | PingReq t => inl (inl (inl (inl (inl (inl (inl (inl (inl (inr t)))))))))
  | PingRes t u => inl (inl (inl (inl (inl (inl (inl (inl (inr (t, u)))))))))
  | ForwardData f => inl (inl (inl (inl (inl (inl (inl (inr f)))))))
  | ClientInfoReq l => inl (inl (inl (inl (inl (inl (inr l))))))
  | ClientInfoRes l => inl (inl (inl (inl (inl (inr l)))))
  | LeaseAcquireReq r => inl (inl (inl (inl (inr r))))
  | LeaseAcquireRes r => inl (inl (inl (inr r)))
  | LeaseReleaseReq r => inl (inl (inr r))
  | LeaseReleaseRes r => inl (inr r)
  | BroadcastData b => inr b
  end.

Definition payload_of_sum (s : payload_sum) : Payload :=
  match s with
  | inl (inl (inl (inl (inl (inl (inl (inl (inl (inl (inl r)))))))))) => AuthReq r
  | inl (inl (inl (inl (inl (inl (inl (inl (inl (inl (inr r)))))))))) => AuthRes r
  | inl (inl (inl (inl (inl (inl (inl (inl (inl (inr t))))))))) => PingReq t
  | inl (inl (inl (inl (inl (inl (inl (inl (inr (t, u))))))))) => PingRes t u
  | inl (inl (inl (inl (inl (inl (inl (inr f))))))) => ForwardData f
  | inl (inl (inl (inl (inl (inl (inr l)))))) => ClientInfoReq l
  | inl (inl (inl (inl (inl (inr l))))) => ClientInfoRes l
  | inl (inl (inl (inl (inr r)))) => LeaseAcquireReq r
  | inl (inl (inl (inr r))) => LeaseAcquireRes r
  | inl (inl (inr r)) => LeaseReleaseReq r
  | inl (inr r) => LeaseReleaseRes r
  | inr b => BroadcastData b
  end.

#[export] Instance payload_countable : Countable Payload.
Proof.
  refine (@inj_countable' payload_sum _ ltac:(unfold payload_sum; apply _) Payload _
            payload_to_sum payload_of_sum _); by intros [].
Defined.
#[export] Instance message_countable : Countable ServerMessage.
Proof. record_countable payload mkServerMessage. Defined.

#[export] Instance message_codec : ProstCodec ServerMessage := ProstModel.countable_codec ServerMessage.
#[export] Instance message_laws : ProstLaws ServerMessage := ProstModel.countable_codec_laws ServerMessage.
End ClusterCodec.

Module ClusterWitness.
Import Model LeaseWitness NetWitness ServiceWitness ClusterCodec.
#[local] Existing Instance NetWitness.MV.
#[local] Existing Instance NetWitness.MW.

Definition tr : Link → Channel → bytes → bool := λ _ _ _, true.
Definition dba : ClusterLeaseRequest → result string ClusterLeaseGrant := λ q,
  Ok (mkClusterLeaseGrant (default (host 5) (cq_requested_ip q)) 7 2000).
Definition dbr : string → string → string → string → result string Z := λ _ _ _ _, Ok 8.
Definition et : PeerError → string := λ _, "error"%string.
Definition enc (p : Payload) : bytes := prost_encode (mkServerMessage (Some p)).

(** Server "s1" of a cluster whose lease authority is "s2", with outbound
    links to "s2" and to "s3". *)
Definition m0 : Manager := new_with_identity "hash" (Some "s1"%string) (Some "s2"%string) "digest".
Definition hello (id : string) : bytes := enc (AuthRes (mkAuthRes true "OK" id 2 15 "digest" "s2")).
Definition c2 := connect_to_peer "s2:1" m0.
Definition o2 := connect_to_peer_once tr 1 c2.1 addr 2%positive (Some (hello "s2")) c2.2.
Definition c3 := connect_to_peer "s3:1" o2.2.
Definition o3 := connect_to_peer_once tr 1 c3.1 addr 3%positive (Some (hello "s3")) c3.2.
(** "s3" serves the host 7 at 5 ms; "s2" claims it at [u32::MAX]. *)
Definition clients (t : Z) : Payload := ClientInfoRes [mkNetworkInfo "net" [mkClientLatency (host 7) t false]].
Definition msg (p : positive) (t : Z) (m : Manager) :=
  handle_peer_message tr dba dbr et 5 5 p (enc (clients t)) ∅ m g0.
Definition m3 : Manager := (msg c3.1 5 o3.2).2.1.2.
Definition m4 : Manager := (msg c2.1 u32_max m3).2.1.2.
Definition known4 : gmap positive (gset string) :=
  <[c2.1 := {["net"%string]}]> (<[c3.1 := {["net"%string]}]> ∅).

Lemma codes_eq p t m : (msg p t m).2.1.1 = {["net"%string]}.
Proof.
  unfold msg, handle_peer_message, enc. rewrite prost_decode_encode. simpl. set_solver.
Defined.

Lemma message_step p t m known :
  known !! p = Some ∅ →
  peer_step (known, m, g0) (<[p := {["net"%string]}]> known, (msg p t m).2.1.2, (msg p t m).2.2).
Proof.
  intros Hp. rewrite <- (codes_eq p t m).
  refine (step_message tr dba dbr et 5 5 p (enc (clients t)) ∅ known m g0 (msg p t m).1 _ _ _ Hp _).
  fold (msg p t m). by destruct (msg p t m) as [? [[? ?] ?]].
Defined.

Lemma once_step p a l reply m known b :
  known !! p = None → bool_decide (p ∈ dom (peers m)) = true →
  (connect_to_peer_once tr 1 p a l reply m).1 = Ok b →
  peer_step (known, m, g0) (<[p := ∅]> known, (connect_to_peer_once tr 1 p a l reply m).2, g0).
Proof.
  intros Hk Hd Hok. refine (step_once tr 1 p a l reply known m g0 b _ Hk _ _).
  - apply bool_decide_eq_true_1 in Hd. by apply elem_of_dom.
  - rewrite <- Hok. by destruct (connect_to_peer_once _ _ _ _ _ _ _).
Defined.

Definition known2 : gmap positive (gset string) := <[c2.1 := ∅]> ∅.
Definition known3 : gmap positive (gset string) := <[c3.1 := ∅]> known2.

Lemma step_o2 : peer_step (W := Wd) (∅, c2.2, g0) (known2, o2.2, g0).
Proof. apply (once_step _ _ _ _ _ _ true); [reflexivity|vm_compute; reflexivity..]. Defined.
Lemma step_o3 : peer_step (W := Wd) (known2, c3.2, g0) (known3, o3.2, g0).
Proof. apply (once_step _ _ _ _ _ _ false); vm_compute; reflexivity. Defined.
Lemma step_m3 :
  peer_step (known3, o3.2, g0) (<[c3.1 := {["net"%string]}]> known3, m3, (msg c3.1 5 o3.2).2.2).
Proof. apply message_step. vm_compute. reflexivity. Defined.
Lemma step_m4 :
  peer_step (<[c3.1 := {["net"%string]}]> known3, m3, g0) (known4, m4, (msg c2.1 u32_max m3).2.2).
Proof.
  assert (<[c2.1 := {["net"%string]}]> (<[c3.1 := {["net"%string]}]> known3) = known4) as Hk
    by (vm_compute; reflexivity).
  rewrite <- Hk. apply message_step. vm_compute. reflexivity.
Defined.

Lemma reach4 : rtc (peer_step (W := Wd)) (∅, m0, g0) (known4, m4, g0).
Proof.
  eapply rtc_l; [exact (step_connect "s2:1" ∅ m0 g0 c2.1 c2.2 (surjective_pairing c2))|].
  eapply rtc_l; [exact step_o2|].
  eapply rtc_l; [exact (step_connect "s3:1" known2 o2.2 g0 c3.1 c3.2 (surjective_pairing c3))|].
  eapply rtc_l; [exact step_o3|].
  eapply rtc_l; [exact step_m3|].
  eapply rtc_l; [exact (step_other _ _ _ g0)|].
  eapply rtc_l; [exact step_m4|].
  eapply rtc_l; [exact (step_other _ _ _ g0)|]. apply rtc_refl.
Defined.

Lemma inv4 : cluster_inv known4 m4.
Proof. exact (LinkFacts.cluster_reachable_inv _ _ reach4 (LinkFacts.new_inv _ _ _ _)). Defined.

(** The routes of the address, the liar's first. *)
Lemma routes4 :
  RouteFacts.routes_of (default ∅ (ip_to_routes m4 !! "net"%string)) (host 7) =
  [mkRoute c2.1 u32_max; mkRoute c3.1 5].
Proof. vm_compute. reflexivity. Defined.

Lemma entry4 :
  ∃ routes l, ip_to_routes m4 !! "net"%string = Some routes ∧ routes !! host 7 = Some l ∧
              l = [mkRoute c2.1 u32_max; mkRoute c3.1 5].
Proof.
  pose proof routes4 as H4. revert H4. unfold RouteFacts.routes_of. generalize (ip_to_routes m4). intros rm.
  generalize c2.1 c3.1. intros p q. destruct (rm !! "net"%string) as [routes|]; simpl; [|done].
  destruct (routes !! host 7) as [l|] eqn:El; simpl; [|done]. intros Hl. by exists routes, l.
Qed.

(** The link to "s2" is up. *)
Lemma link4 : ∃ i, peers m4 !! c2.1 = Some i ∧ sender i = Some 2%positive ∧
                   connected i = true ∧ latency_ms i = 10.
Proof.
  assert (((λ i, (sender i, connected i, latency_ms i)) <$> peers m4 !! c2.1) =
          Some (Some 2%positive, true, 10)) as H by (vm_compute; reflexivity).
  revert H. generalize (peers m4 !! c2.1). intros [i|]; simpl; [|done]. intros [= H1 H2 H3]. by exists i.
Qed.

Lemma link4' : ∃ j, peers m4 !! c3.1 = Some j ∧ latency_ms j = 10.
Proof.
  assert (latency_ms <$> peers m4 !! c3.1 = Some 10) as H by (vm_compute; reflexivity).
  revert H. generalize (peers m4 !! c3.1). intros [i|]; simpl; [|done]. intros [= H1]. by exists i.
Qed.


Lemma sync_exact_witness :
  mkRoute 1 5 ∈ RouteFacts.routes_of (sync_routes ∅ 1 [mkClientLatency (host 7) 5 false] ∅) (host 7)
  ∨ RouteFacts.crowded_out ∅
      (RouteFacts.routes_of (sync_routes ∅ 1 [mkClientLatency (host 7) 5 false] ∅) (host 7)) (mkRoute 1 5).
Proof.
  apply (sync_exact ∅ 1 [mkClientLatency (host 7) 5 false] ∅).
  - apply map_Forall_empty.
  - apply NoDup_singleton.
  - right. exists (mkClientLatency (host 7) 5 false). split; [apply list_elem_of_here|]. split; reflexivity.
Defined.

Lemma forward_takes_best_route_witness :
  (forward_with_best_route tr "net" (host 7) [1; 2] OriginVnt m4 g0).1 = true ∧
  ∃ r, r ∈ RouteFacts.routes_of (default ∅ (ip_to_routes m4 !! "net"%string)) (host 7) ∧
       LinkFacts.live_route (peers m4) r.
Proof.
  assert ((forward_with_best_route tr "net" (host 7) [1; 2] OriginVnt m4 g0).1 = true) as H
    by (vm_compute; reflexivity).
  split; [exact H|].
  pose proof (forward_takes_best_route tr "net" (host 7) [1; 2] OriginVnt m4 g0 known4 inv4) as Ht.
  cbv zeta in Ht. destruct (forward_with_best_route _ _ _ _ _ _ _) as [b m']. simpl in H. subst b.
  destruct Ht as (r & i & l & (Hr & Hl & _) & _). exists r. split; [exact Hr|exact Hl].
Defined.

(** A broadcast with three hops left, heard from "s2" and again from "s3". *)
Definition shout : ServerBroadcastData := mkBroadcast "net" [1; 2; 3] (host 7) "s2:1" "s2" 3 true.
Definition between : list (Z * positive * ServerBroadcastData) :=
  [(from_secs 20, c3.1, mkBroadcast "net" [4] (host 7) "s3:1" "s3" 8 true)].

Lemma broadcast_relayed_once_witness :
  broadcast_refused c2.1 shout m4 = false ∧
  let '(m5, g5) := LinkFacts.run_broadcasts tr between
                     (handle_broadcast_data tr (from_secs 10) c2.1 shout m4 g0) in
  let '(m6, g6) := handle_broadcast_data tr (from_secs 60) c3.1 shout m5 g5 in
  g6 = g5 ∧ sent m6 = sent m5 ∧ ip_to_routes m6 = ip_to_routes m5.
Proof.
  assert (broadcast_refused c2.1 shout m4 = false) as Hr by (vm_compute; reflexivity).
  split; [exact Hr|].
  refine (broadcast_relayed_once tr (from_secs 10) c2.1 shout m4 g0 between (from_secs 60) c3.1 shout Hr _ _ _ _);
    vm_compute; reflexivity.
Defined.

Definition local_allocation : LocalIpAllocation :=
  mkLocalIpAllocation "net" "vnt_device" "b" (host 3) net24 gw 3600.

(** The authority does not answer for the one local allocation. *)
Lemma cluster_ready_sound_witness :
  let '(r, m') := reconcile_local_allocations tr dba (Ok [("id"%string, None, local_allocation)]) m4 in
  r = Err (Conflicts 1) ∧ (cluster_ready m' = true ↔ r = Ok tt).
Proof.
  pose proof (cluster_ready_sound tr dba [("id"%string, None, local_allocation)] m4) as H.
  assert ((reconcile_local_allocations tr dba (Ok [("id"%string, None, local_allocation)]) m4).1 =
          Err (Conflicts 1)) as Hr by (vm_compute; reflexivity).
  destruct (reconcile_local_allocations _ _ _ _) as [r m']. simpl in Hr. split; [exact Hr|].
  apply H; [vm_compute; reflexivity|vm_compute; reflexivity|unfold u64_max; simpl; lia].
Defined.

(** "s1" asks "s2", which knows it as its peer 1. *)
Definition s2_peer : PeerServerInfo :=
  mkPeerInfo "s1:9" None None None (Some "s1"%string) 2 15 true false 10 (Some 9%positive) (Some 9%positive)
    true false.
Definition m_s2 : Manager :=
  with_peers {[ 1%positive := s2_peer ]} [1%positive]
    (new_with_identity "hash" (Some "s2"%string) (Some "s2"%string) "digest").

Lemma lease_end_to_end_witness :
  ∃ answer,
    (acquire_lease tr dba "id" (Some answer) "net" "vnt_device" "b" (Some (host 3)) net24 gw 0 false
       (set_ready true m4)).1 = Ok (Some (mkClusterLeaseGrant (host 3) 7 2000)).
Proof.
  destruct link4 as (i1 & E1 & Hs & _).
  assert (authority_peer (set_ready true m4) = Some c2.1) as Ha by (vm_compute; reflexivity).
  assert (cluster_enabled (set_ready true m4) = true) as He by (vm_compute; reflexivity).
  assert (is_lease_authority (set_ready true m4) = false) as Hn by (vm_compute; reflexivity).
  assert (is_lease_authority m_s2 = true) as H2 by (vm_compute; reflexivity).
  assert (∀ l ch b, tr l ch b = true) as Htr by (intros; reflexivity).
  pose proof (lease_end_to_end tr dba dbr et (set_ready true m4) m_s2 "id" "net" "vnt_device" "b"
    (Some (host 3)) net24 gw 0 false c2.1 i1 2%positive 1%positive s2_peer 9%positive 5 5 ∅ g0 Htr He Hn
    eq_refl Ha E1 Hs H2 eq_refl eq_refl) as (request & dbq & _ & _ & _ & Hrq & _ & _ & _ & _ & _ & _ & H).
  destruct (handle_peer_message _ _ _ _ _ _ _ _ _ _ _) as [r [[? m2'] ?]].
  destruct H as (reply & response & _ & _ & _ & _ & Hg). exists response.
  apply Hg; [reflexivity|]. unfold dba. rewrite Hrq. reflexivity.
Defined.

Lemma removed_peer_leaves_routes_witness :
  ∃ routes, ip_to_routes (stop_outbound c2.1 m4) !! "net"%string = Some routes ∧
            c2.1 ∉ peer_servers (stop_outbound c2.1 m4).
Proof.
  destruct entry4 as (routes & l & E & El & Hl). exists routes.
  refine (proj2 (removed_peer_leaves_routes 5 c2.1 {["net"%string]} known4 m4 g0 "net" routes (host 7)
    (mkRoute c2.1 u32_max) inv4 _ E _ eq_refl)).
  - vm_compute. reflexivity.
  - unfold RouteFacts.routes_of. rewrite El, Hl. apply list_elem_of_here.
Defined.

Lemma latency_overflow_wins_witness :
  ∃ l, sent (forward_with_best_route tr "net" (host 7) [1; 2] OriginVnt m4 g0).2 =
       sent m4 ++ [(l, Datagram, enc (ForwardData (mkForward "net" [1; 2] false)))].
Proof.
  destruct link4 as (i & Ei & _ & Hc & Hlat). destruct link4' as (j & Ej & Hj).
  destruct (latency_overflow_wins tr "net" (host 7) [1; 2] OriginVnt m4 g0 known4 c2.1 i) as (l & _ & H).
  - exact inv4.
  - exact Ei.
  - exact Hc.
  - rewrite Hlat. unfold u32_max. lia.
  - rewrite routes4. apply list_elem_of_here.
  - rewrite routes4, Hlat. intros r Hr Hne. apply elem_of_cons in Hr as [Hr|Hr]; [by destruct Hne|].
    apply list_elem_of_singleton in Hr as ->. exists j. cbn [route_peer client_latency_ms].
    split; [exact Ej|]. rewrite Hj. unfold u32_max. lia.
  - reflexivity.
  - reflexivity.
  - exists l. exact H.
Defined.
End ClusterWitness.
