(* ===== verification/WebSecurity.v ===== *)
(** The guard of the administration API ([http/web_security.rs]) and the login
    handler that drives it ([login] of [http/web_server.rs]).

    [LoginLimiter] counts failed logins per source address; [authorize] checks
    the session token of a request and, for a token that came in a cookie, the
    CSRF token.  HTTP headers ([http::HeaderMap]) and JSON web tokens
    ([jsonwebtoken]) are classes with their documented laws. *)

From S2P Require Import Prelude Std Text.
From stdpp Require Import base gmap strings list sorting.
From Stdlib Require Import ZArith Lia Ascii.

Local Open Scope Z_scope.

(** ** Libraries *)

(** [std::net::IpAddr]. *)
Inductive IpAddr := V4 (ip : Z) | V6 (ip : Z).
#[export] Instance IpAddr_eq_dec : EqDecision IpAddr.
Proof. solve_decision. Defined.
#[export] Instance IpAddr_countable : Countable IpAddr.
Proof.
  refine (inj_countable' (λ i, match i with V4 a => inl a | V6 a => inr a end)
    (λ s, match s with inl a => V4 a | inr a => V6 a end) _).
  by intros [].
Defined.

(** [HeaderMap]: [get] is the first value of a name, [get_all] all of them in
    the order of arrival; [to_str] succeeds on visible ASCII and tabs. *)
Class HeaderMapLib := {
  HeaderMap : Type;
  header_get : HeaderMap → string → option string;
  header_get_all : HeaderMap → string → list string;
  to_str : string → option string
}.

Definition visible (c : ascii) : bool :=
  let n := Z.of_nat (nat_of_ascii c) in ((32 <=? n) && (n <=? 126)) || (n =? 9).

Class HeaderMapLaws `{!HeaderMapLib} : Prop := {
  header_get_first h n : header_get h n = head (header_get_all h n);
  to_str_visible s :
    to_str s = if forallb visible (String.list_ascii_of_string s) then Some s else None
}.

(** [Claims], and [jsonwebtoken] with HS256. *)
Record Claims := mkClaims { sub : string; exp : Z; csrf : option string }.

Class JwtLib := {
  jwt_encode : Claims → string → option string;
  (** [decode] with [Validation::new(HS256)] at the given Unix time. *)
  jwt_decode : Z → string → string → option Claims
}.

(** A token is dot-separated base64url, and it verifies under the key that
    signed it until it expires. *)
Definition token_char (c : ascii) : bool :=
  let n := Z.of_nat (nat_of_ascii c) in
  ((48 <=? n) && (n <=? 57)) || ((65 <=? n) && (n <=? 90)) || ((97 <=? n) && (n <=? 122))
  || (n =? 45) || (n =? 46) || (n =? 95).

Class JwtLaws `{!JwtLib} : Prop := {
  jwt_token_chars c key t :
    jwt_encode c key = Some t → forallb token_char (String.list_ascii_of_string t) = true;
  jwt_decode_encode c key t now :
    jwt_encode c key = Some t → now < exp c → jwt_decode now t key = Some c
}.

(** ** Constants *)

Definition SESSION_COOKIE : string := "vnts_session".
Definition CSRF_HEADER : string := "x-csrf-token".
Definition LOGIN_WINDOW : Z := from_secs (5 * 60).
Definition LOGIN_BLOCK : Z := from_secs (15 * 60).
Definition MAX_LOGIN_FAILURES : Z := 5.
Definition MAX_TRACKED_SOURCES : nat := 4096.

Inductive AuthError := Missing | Invalid | Csrf.
#[export] Instance AuthError_eq_dec : EqDecision AuthError.
Proof. solve_decision. Defined.

(** ** The login limiter

    An [Instant] is in nanoseconds; [duration_since] saturates at zero. *)
Definition duration_since (t earlier : Z) : Z := saturating_sub t earlier.
Definition u8_saturating_add (a b : Z) : Z := Z.min (a + b) u8_max.

Record LoginAttempt := mkAttempt {
  failures : Z;
  window_started : Z;
  last_seen : Z;
  blocked_until : option Z
}.

Abbreviation LoginLimiter := (gmap IpAddr LoginAttempt).

Definition retry_after (now : Z) (source : IpAddr) (attempts : LoginLimiter)
    : option Z * LoginLimiter :=
  match attempts !! source with
  | None => (None, attempts)
  | Some attempt =>
      let blocked := match blocked_until attempt with
                     | Some b => if now <? b then Some b else None
                     | None => None
                     end in
      match blocked with
      | Some b => (Some (Z.max (as_secs (duration_since b now)) 1), attempts)
      | None =>
          if LOGIN_WINDOW <=? duration_since now (window_started attempt)
          then (None, delete source attempts) else (None, attempts)
      end
  end.

(** [iter().min_by_key(last_seen)]: the first of the least. *)
Definition older (best : option (IpAddr * LoginAttempt)) (x : IpAddr * LoginAttempt)
    : option (IpAddr * LoginAttempt) :=
  match best with
  | None => Some x
  | Some b => if last_seen x.2 <? last_seen b.2 then Some x else best
  end.

Definition min_by_last_seen (l : list (IpAddr * LoginAttempt)) : option (IpAddr * LoginAttempt) :=
  fold_left older l None.

(** A [HashMap] is iterated in an unspecified order: [hash_iter] is that
    order. *)
Section Limiter.
Context (hash_iter : LoginLimiter → list (IpAddr * LoginAttempt)).

Definition record_failure (now : Z) (source : IpAddr) (attempts : LoginLimiter) : LoginLimiter :=
  let attempts :=
    if negb (is_some (attempts !! source)) && (MAX_TRACKED_SOURCES <=? size attempts)%nat
    then match min_by_last_seen (hash_iter attempts) with
         | Some (oldest, _) => delete oldest attempts
         | None => attempts
         end
    else attempts in
  let attempt := default (mkAttempt 0 now now None) (attempts !! source) in
  let attempt :=
    if LOGIN_WINDOW <=? duration_since now (window_started attempt)
    then mkAttempt 0 now (last_seen attempt) None else attempt in
  let f := u8_saturating_add (failures attempt) 1 in
  <[source := mkAttempt f (window_started attempt) now
                (if MAX_LOGIN_FAILURES <=? f then Some (now + LOGIN_BLOCK)
                 else blocked_until attempt)]> attempts.

Definition clear (source : IpAddr) (attempts : LoginLimiter) : LoginLimiter :=
  delete source attempts.
End Limiter.

(** ** Comparison of secrets *)

(** [difference |= left.get(i).unwrap_or_default() ^ right.get(i)...] for the
    indices from [i] on. *)
Fixpoint ct_loop (n i : nat) (left right : bytes) (difference : Z) : Z :=
  match n with
  | O => difference
  | S n => ct_loop n (S i) left right
             (Z.lor difference (Z.lxor (default 0 (left !! i)) (default 0 (right !! i))))
  end.

Definition constant_time_eq (left right : string) : bool :=
  let left := string_bytes left in
  let right := string_bytes right in
  let difference := Z.lxor (Z.of_nat (length left)) (Z.of_nat (length right)) in
  ct_loop (Nat.max (length left) (length right)) 0 left right difference =? 0.

(** ** Authorization of a request *)

Inductive Method := GET | HEAD | OPTIONS | POST | PUT | DELETE | PATCH | OtherMethod (name : string).

Definition is_unsafe (m : Method) : bool :=
  match m with GET | HEAD | OPTIONS => false | _ => true end.

Section Authorize.
Context `{HL : !HeaderMapLib} `{JL : !JwtLib}.

Definition cookie_value (headers : HeaderMap) (name : string) : option string :=
  let values := omap to_str (header_get_all headers "cookie") in
  let cookies := values ≫= Str.split ";" in
  let pairs := omap (λ c, Str.split_once "=" (Str.trim c)) cookies in
  find_map (λ '(n, v), if bool_decide (n = name) then Some v else None) pairs.

Definition bearer_token (headers : HeaderMap) : option string :=
  value ← header_get headers "authorization"; value ← to_str value;
  Str.strip_prefix "Bearer " value.

(** [now] is the clock [jsonwebtoken] checks the expiry against. *)
Definition authorize (now : Z) (headers : HeaderMap) (method : Method) (jwt_secret : string)
    : result AuthError Claims :=
  let bearer := bearer_token headers in
  let cookie := if is_some bearer then None else cookie_value headers SESSION_COOKIE in
  token ← ok_or (match bearer with Some t => Some t | None => cookie end) Missing;
  claims ← ok_or (jwt_decode now token jwt_secret) Invalid;
  if negb (is_some bearer) && is_unsafe method then
    expected ← ok_or (csrf claims) Csrf;
    provided ← ok_or (header_get headers CSRF_HEADER ≫= to_str) Csrf;
    if negb (constant_time_eq expected provided) then Err Csrf else Ok claims
  else Ok claims.
End Authorize.

Definition session_cookie (token : string) : string :=
  (SESSION_COOKIE +:+ "=" +:+ token +:+ "; Path=/; HttpOnly; SameSite=Strict; Max-Age=86400")%string.

(** ** The login handler

    [AuthConfig] is the part of the configuration it reads; [checked_at] and
    [recorded_at] are the two clock readings of one request, [wall] the Unix
    time and [csrf_token] the random token. *)
Record AuthConfig := mkAuth { username : string; password : string; jwt_secret : string }.

Record LoginRequest := mkLogin {
  from : IpAddr;
  body_username : string;
  body_password : string;
  checked_at : Z;
  recorded_at : Z;
  wall : Z;
  csrf_token : string
}.

Inductive LoginResponse :=
| TooManyRequests (retry : Z)
| LoggedIn (token : string) (set_cookie : string) (csrf : string)
| InternalServerError
| Unauthorized.

Definition matches (cfg : AuthConfig) (r : LoginRequest) : bool :=
  constant_time_eq (body_username r) (username cfg)
  && constant_time_eq (body_password r) (password cfg).

Definition login `{!JwtLib} (hash_iter : LoginLimiter → list (IpAddr * LoginAttempt))
    (cfg : AuthConfig) (r : LoginRequest) (l : LoginLimiter) : LoginResponse * LoginLimiter :=
  let '(retry, l) := retry_after (checked_at r) (from r) l in
  match retry with
  | Some n => (TooManyRequests n, l)
  | None =>
      if matches cfg r then
        let l := clear (from r) l in
        let claims := mkClaims (body_username r) (wall r + 24 * 60 * 60) (Some (csrf_token r)) in
        match jwt_encode claims (jwt_secret cfg) with
        | Some token => (LoggedIn token (session_cookie token) (csrf_token r), l)
        | None => (InternalServerError, l)
        end
      else (Unauthorized, record_failure hash_iter (recorded_at r) (from r) l)
  end.

(** ** Runs of the login handler

    One request after the other; [in_order t reqs] says that the clock does
    not run backwards. *)
Fixpoint in_order (t : Z) (reqs : list LoginRequest) : bool :=
  match reqs with
  | [] => true
  | r :: reqs =>
      (t <=? checked_at r) && (checked_at r <=? recorded_at r) && in_order (recorded_at r) reqs
  end.

(** The times at which the password of a request from [s] was compared and
    found wrong. *)
Fixpoint failure_times `{!JwtLib} (hash_iter : LoginLimiter → list (IpAddr * LoginAttempt))
    (cfg : AuthConfig) (s : IpAddr) (reqs : list LoginRequest) (l : LoginLimiter) : list Z :=
  match reqs with
  | [] => []
  | r :: reqs =>
      let '(resp, l) := login hash_iter cfg r l in
      (match resp with
       | Unauthorized => if bool_decide (from r = s) then [recorded_at r] else []
       | _ => []
       end) ++ failure_times hash_iter cfg s reqs l
  end.

(** The limiter after a run. *)
Definition run_logins `{!JwtLib} (hash_iter : LoginLimiter → list (IpAddr * LoginAttempt))
    (cfg : AuthConfig) (reqs : list LoginRequest) (l : LoginLimiter) : LoginLimiter :=
  fold_left (λ l r, (login hash_iter cfg r l).2) reqs l.

(** ** Lemmas *)
Module SecurityFacts.
Import StrFacts.

Lemma ct_loop_zero n i l r d :
  ct_loop n i l r d = 0 ↔
  d = 0 ∧ ∀ j, (i ≤ j < i + n)%nat → default 0 (l !! j) = default 0 (r !! j).
Proof.
  revert i d. induction n as [|n IH]; intros i d; simpl.
  { split; [intros ->; split; [done|lia]|by intros [? _]]. }
  rewrite IH, Z.lor_eq_0_iff, Z.lxor_eq_0_iff. split.
  - intros [[-> Hi] Hj]. split; [done|]. intros j Hij.
    destruct (decide (j = i)) as [->|]; [done|]. apply Hj. lia.
  - intros [-> Hj]. split; [split; [done|apply Hj; lia]|]. intros j Hij. apply Hj. lia.
Qed.

(** The comparison that visits every byte decides equality. *)
Lemma constant_time_eq_spec a b : constant_time_eq a b = true ↔ a = b.
Proof.
  unfold constant_time_eq. rewrite Z.eqb_eq, ct_loop_zero, Z.lxor_eq_0_iff. split.
  - intros [Hl%Nat2Z.inj Hj]. apply StdFacts.string_bytes_inj, list_eq. intros j.
    destruct (decide (j < length (string_bytes a))%nat) as [Hlt|Hge].
    + specialize (Hj j ltac:(lia)).
      destruct (lookup_lt_is_Some_2 (string_bytes a) j Hlt) as [x Hx].
      destruct (lookup_lt_is_Some_2 (string_bytes b) j ltac:(lia)) as [y Hy].
      rewrite Hx, Hy in *. by simpl in Hj; subst.
    + rewrite !lookup_ge_None_2 by lia. done.
  - by intros ->.
Qed.

(** *** The limiter *)

Lemma min_fold_elem l b x :
  fold_left older l (Some b) = Some x →
  (x = b ∨ x ∈ l) ∧ last_seen x.2 ≤ last_seen b.2 ∧ ∀ y, y ∈ l → last_seen x.2 ≤ last_seen y.2.
Proof.
  revert b. induction l as [|z l IH]; intros b H; simpl in H.
  { simplify_eq. repeat split; [by left|lia|]. by intros y ?%not_elem_of_nil. }
  destruct (Z.ltb_spec (last_seen z.2) (last_seen b.2)); apply IH in H as (Hin & Hle & Hall).
  - repeat split; [destruct Hin as [->|]; right; [by left|by right]|lia|].
    intros y [->|Hy]%elem_of_cons; [done|auto].
  - repeat split; [destruct Hin as [->|]; [by left|right; by right]|lia|].
    intros y [->|Hy]%elem_of_cons; [lia|auto].
Qed.

Lemma min_by_last_seen_spec l x :
  min_by_last_seen l = Some x → x ∈ l ∧ ∀ y, y ∈ l → last_seen x.2 ≤ last_seen y.2.
Proof.
  destruct l as [|b l]; [done|]. intros (Hin & Hle & Hall)%min_fold_elem.
  split; [destruct Hin as [->|]; [by left|by right]|].
  intros y [->|Hy]%elem_of_cons; auto.
Qed.

Lemma min_fold_Some l b :
  is_Some (fold_left older l (Some b)).
Proof. revert b. induction l as [|z l IH]; intros b; simpl; [done|]. case_match; apply IH. Qed.

Lemma min_by_last_seen_None l : min_by_last_seen l = None → l = [].
Proof.
  destruct l as [|b l]; [done|]. unfold min_by_last_seen. simpl.
  destruct (min_fold_Some l b) as [x ->]. done.
Qed.

(** With room in the table nobody is evicted. *)
Lemma record_failure_other hi now s s' l :
  s ≠ s' → (is_Some (l !! s') ∨ (size l < MAX_TRACKED_SOURCES)%nat) →
  record_failure hi now s' l !! s = l !! s.
Proof.
  intros Hne Hroom. unfold record_failure. rewrite lookup_insert_ne by done.
  destruct (negb (is_some (l !! s')) && _) eqn:E; [|done].
  apply andb_true_iff in E as [E1 E2%Nat.leb_le]. apply negb_true_iff in E1.
  destruct Hroom as [[a Ha]|]; [by rewrite Ha in E1|lia].
Qed.

(** The entry of the source after a failure, as a function of the entry
    before. *)
Definition failed_entry (now : Z) (o : option LoginAttempt) : LoginAttempt :=
  let a := default (mkAttempt 0 now now None) o in
  let a := if LOGIN_WINDOW <=? duration_since now (window_started a)
           then mkAttempt 0 now (last_seen a) None else a in
  let f := u8_saturating_add (failures a) 1 in
  mkAttempt f (window_started a) now
    (if MAX_LOGIN_FAILURES <=? f then Some (now + LOGIN_BLOCK) else blocked_until a).

Lemma record_failure_self hi now s l :
  (is_Some (l !! s) ∨ (size l < MAX_TRACKED_SOURCES)%nat) →
  record_failure hi now s l !! s = Some (failed_entry now (l !! s)).
Proof.
  intros Hroom. unfold record_failure. rewrite lookup_insert_eq.
  destruct (negb (is_some (l !! s)) && _) eqn:E; [|done].
  apply andb_true_iff in E as [E1 E2%Nat.leb_le]. apply negb_true_iff in E1.
  destruct Hroom as [[a Ha]|]; [by rewrite Ha in E1|lia].
Qed.

Lemma retry_after_other now s s' l : s ≠ s' → (retry_after now s' l).2 !! s = l !! s.
Proof.
  intros Hne. unfold retry_after. destruct (l !! s') as [a|]; [|done].
  destruct (match blocked_until a with Some b => _ | None => None end); [done|].
  destruct (_ <=? _); simpl; [by rewrite lookup_delete_ne|done].
Qed.

Lemma retry_after_dom now s l : dom (retry_after now s l).2 ⊆ dom l.
Proof.
  unfold retry_after. destruct (l !! s) as [a|]; [|done].
  destruct (match blocked_until a with Some b => _ | None => None end); [done|].
  destruct (_ <=? _); simpl; set_solver.
Qed.

Lemma record_failure_dom hi now s l : dom (record_failure hi now s l) ⊆ {[s]} ∪ dom l.
Proof.
  unfold record_failure. rewrite dom_insert_L. apply union_mono_l.
  destruct (_ && _); [|done]. destruct (min_by_last_seen _) as [[o ?]|]; [|done]. set_solver.
Qed.

Lemma login_dom `{!JwtLib} hi cfg r l : dom (login hi cfg r l).2 ⊆ {[from r]} ∪ dom l.
Proof.
  unfold login. pose proof (retry_after_dom (checked_at r) (from r) l) as Hd.
  destruct (retry_after _ _ _) as [[n|] l'] eqn:E; simpl in *; [set_solver|].
  destruct (matches cfg r).
  - unfold clear. destruct (jwt_encode _ _); simpl; set_solver.
  - simpl. etrans; [apply record_failure_dom|]. set_solver.
Qed.

(** A tracked set that fits leaves room for every source in it. *)
Lemma room (l : LoginLimiter) (S : gset IpAddr) s :
  dom l ⊆ S → s ∈ S → (size S ≤ MAX_TRACKED_SOURCES)%nat →
  is_Some (l !! s) ∨ (size l < MAX_TRACKED_SOURCES)%nat.
Proof.
  intros Hd Hs HS. destruct (l !! s) eqn:E; [by left; eauto|right].
  rewrite <- size_dom. apply Nat.lt_le_trans with (size S); [|done].
  apply subset_size. apply not_elem_of_dom in E. set_solver.
Qed.

(** *** The rate of guesses

    [h] is the history of the failures of one source.  [limited h t o] relates
    it to the source's entry [o]: the current window holds the last [f] of
    them, and every failure that is at least four before the window lies a
    whole window earlier. *)
Definition spaced (h : list Z) : Prop :=
  ∀ i x y, h !! i = Some x → h !! (i + 8)%nat = Some y → x + LOGIN_WINDOW ≤ y.

Record window_inv (h : list Z) (t : Z) (e : LoginAttempt) (f : nat) : Prop := {
  wi_count : failures e = Z.of_nat f;
  wi_bound : (1 ≤ f ≤ 5 ∧ f ≤ length h)%nat;
  wi_first i x : h !! i = Some x → (i + f ≤ length h)%nat → x ≤ window_started e;
  wi_last i x : h !! i = Some x → x ≤ last_seen e;
  wi_prev i x : h !! i = Some x → (i + 4 + f ≤ length h)%nat → x + LOGIN_WINDOW ≤ window_started e;
  wi_blocked : blocked_until e = if decide (f = 5%nat) then Some (last_seen e + LOGIN_BLOCK) else None;
  wi_times : window_started e ≤ last_seen e ≤ t
}.

Definition closed (h : list Z) (t : Z) : Prop :=
  ∀ i x, h !! i = Some x → (i + 4 ≤ length h)%nat → x + LOGIN_WINDOW ≤ t.

Definition limited (h : list Z) (t : Z) (o : option LoginAttempt) : Prop :=
  match o with None => closed h t | Some e => ∃ f, window_inv h t e f end.

Lemma limited_later h t t' o : t ≤ t' → limited h t o → limited h t' o.
Proof.
  intros Ht. destruct o as [e|]; simpl.
  - intros [f []]. exists f. split; [done..|lia].
  - intros H i x Hx Hi. specialize (H i x Hx Hi). lia.
Qed.

Lemma window_closes h t e f :
  window_inv h t e f → LOGIN_WINDOW ≤ duration_since t (window_started e) →
  (∀ b, blocked_until e = Some b → b ≤ t) → closed h t.
Proof.
  intros [] Hw Hb i x Hx Hi. unfold duration_since, saturating_sub, LOGIN_WINDOW, LOGIN_BLOCK in *.
  change (from_secs (5 * 60)) with 300000000000 in *.
  change (from_secs (15 * 60)) with 900000000000 in *.
  destruct (decide (i + f ≤ length h)%nat) as [Hf|Hf].
  - specialize (wi_first0 i x Hx Hf). lia.
  - destruct (decide (f = 5%nat)) as [->|]; [|lia].
    specialize (Hb _ wi_blocked0). specialize (wi_last0 i x Hx). lia.
Qed.

(** The check before the password is compared. *)
Lemma retry_after_limited h t now s l r l' :
  limited h t (l !! s) → t ≤ now → retry_after now s l = (r, l') →
  limited h now (l' !! s) ∧
  (r = None → ∀ e f, l' !! s = Some e → window_inv h now e f → (f < 5)%nat).
Proof.
  intros Hl Ht Hr. pose proof (limited_later _ _ _ _ Ht Hl) as Hn. clear Hl.
  unfold retry_after in Hr. destruct (l !! s) as [a|] eqn:E; cycle 1.
  { simplify_eq. rewrite E. split; [done|]. intros _ e f ?. done. }
  destruct (match blocked_until a with Some b => _ | None => None end) as [b|] eqn:Eb.
  { simplify_eq. rewrite E. done. }
  assert (∀ b, blocked_until a = Some b → b ≤ now) as Hb.
  { intros b Hb. rewrite Hb in Eb. destruct (Z.ltb_spec now b); [done|lia]. }
  destruct Hn as [f Hf]. destruct (Z.leb_spec LOGIN_WINDOW (duration_since now (window_started a))).
  - simplify_eq. rewrite lookup_delete_eq. split; [by eapply window_closes|]. intros _ e f' ?. done.
  - simplify_eq. rewrite E. split; [by exists f|]. intros _ e f' [= <-] Hf'. clear Hf f.
    destruct Hf'. destruct (decide (f' = 5%nat)) as [->|]; [|lia].
    specialize (Hb _ wi_blocked0). unfold duration_since, saturating_sub, LOGIN_WINDOW, LOGIN_BLOCK in *.
    change (from_secs (5 * 60)) with 300000000000 in *.
    change (from_secs (15 * 60)) with 900000000000 in *. lia.
Qed.

Lemma lookup_snoc_inv {A} (h : list A) y i x :
  (h ++ [y]) !! i = Some x → (h !! i = Some x ∧ (i < length h)%nat) ∨ (i = length h ∧ x = y).
Proof.
  intros H. destruct (decide (i < length h)%nat).
  - left. by rewrite lookup_app_l in H.
  - right. rewrite lookup_app_r in H by lia. destruct (i - length h)%nat eqn:E; simpl in H; [|done].
    split; [lia|congruence].
Qed.

Lemma spaced_snoc h y :
  spaced h → (∀ x, (8 ≤ length h)%nat → h !! (length h - 8)%nat = Some x → x + LOGIN_WINDOW ≤ y) →
  spaced (h ++ [y]).
Proof.
  intros Hs Hy i a b Ha Hb.
  apply lookup_snoc_inv in Hb as [[Hb Hi]|[Hi ->]].
  - rewrite lookup_app_l in Ha by lia. by eapply Hs.
  - rewrite lookup_app_l in Ha by lia. apply Hy; [lia|]. by rewrite <- Hi, Nat.add_sub.
Qed.

(** One more failure opens a window or joins the current one. *)
Lemma first_of_window h now :
  closed h now → (∀ i x, h !! i = Some x → x ≤ now) →
  window_inv (h ++ [now]) now (mkAttempt 1 now now None) 1.
Proof.
  intros Hc Hle. split; simpl; rewrite ?length_app; simpl; try done.
  - lia.
  - intros i x [[Hx _]|[_ ->]]%lookup_snoc_inv _; [by eapply Hle|done].
  - intros i x [[Hx _]|[_ ->]]%lookup_snoc_inv; [by eapply Hle|done].
  - intros i x [[Hx ?]|[-> ->]]%lookup_snoc_inv Hi; [|lia]. apply (Hc i x Hx). lia.
Qed.

Lemma next_in_window h now e f :
  window_inv h now e f → (f < 5)%nat →
  window_inv (h ++ [now]) now
    (mkAttempt (failures e + 1) (window_started e) now
      (if MAX_LOGIN_FAILURES <=? failures e + 1 then Some (now + LOGIN_BLOCK)
       else blocked_until e)) (S f).
Proof.
  intros [] Hf. split; simpl; rewrite ?length_app; simpl.
  - lia.
  - lia.
  - intros i x [[Hx ?]|[-> ->]]%lookup_snoc_inv Hi; [|lia]. apply (wi_first0 i x Hx). lia.
  - intros i x [[Hx ?]|[_ ->]]%lookup_snoc_inv; [|done]. specialize (wi_last0 i x Hx). lia.
  - intros i x [[Hx ?]|[-> ->]]%lookup_snoc_inv Hi; [|lia]. apply (wi_prev0 i x Hx). lia.
  - unfold MAX_LOGIN_FAILURES. rewrite wi_blocked0, (decide_False (P := f = 5%nat)) by lia.
    destruct (Z.leb_spec 5 (failures e + 1)); [rewrite decide_True by lia|rewrite decide_False by lia];
      done.
  - lia.
Qed.

Lemma failed_entry_limited h t now o :
  limited h t o → t ≤ now → (∀ i x, h !! i = Some x → x ≤ now) →
  (∀ e f, o = Some e → window_inv h t e f → (f < 5)%nat) → spaced h →
  limited (h ++ [now]) now (Some (failed_entry now o)) ∧ spaced (h ++ [now]).
Proof.
  intros Hl Ht Hle Hf Hs.
  assert (closed h now → limited (h ++ [now]) now (Some (mkAttempt 1 now now None))
          ∧ spaced (h ++ [now])) as Hfresh.
  { intros Hc. split; [exists 1%nat; by apply first_of_window|].
    apply spaced_snoc; [done|]. intros x ? Hx. apply (Hc _ x Hx). lia. }
  assert (∀ now, LOGIN_WINDOW <=? duration_since now now = false) as Hz.
  { intros n. apply Z.leb_gt. unfold duration_since, saturating_sub.
    rewrite Z.sub_diag. done. }
  unfold failed_entry. destruct o as [e|]; simpl default; cycle 1.
  { simpl window_started. rewrite Hz. apply Hfresh. by eapply (limited_later _ _ _ None). }
  destruct Hl as [f Hw]. specialize (Hf e f eq_refl Hw).
  assert (window_inv h now e f) as Hw' by (destruct Hw; split; [done..|lia]).
  destruct (Z.leb_spec LOGIN_WINDOW (duration_since now (window_started e))) as [Hge|Hlt].
  { apply Hfresh. apply (window_closes _ _ _ _ Hw' Hge). destruct Hw'.
    rewrite wi_blocked0, decide_False by lia. done. }
  assert (u8_saturating_add (failures e) 1 = failures e + 1) as ->.
  { unfold u8_saturating_add, u8_max. destruct Hw'. lia. }
  split; [exists (S f); by apply next_in_window|].
  apply spaced_snoc; [done|]. intros x ? Hx. destruct Hw'.
  specialize (wi_prev0 _ x Hx ltac:(lia)). lia.
Qed.

(** One request of any source. *)
Lemma login_limited `{!JwtLib} hi cfg s r l h t :
  limited h t (l !! s) → (∀ i x, h !! i = Some x → x ≤ t) → spaced h →
  t ≤ checked_at r ≤ recorded_at r → (from r = s → matches cfg r = false) →
  (is_Some ((retry_after (checked_at r) (from r) l).2 !! from r)
     ∨ (size (retry_after (checked_at r) (from r) l).2 < MAX_TRACKED_SOURCES)%nat) →
  let '(resp, l') := login hi cfg r l in
  let h' := h ++ (match resp with
                  | Unauthorized => if bool_decide (from r = s) then [recorded_at r] else []
                  | _ => []
                  end) in
  limited h' (recorded_at r) (l' !! s) ∧ spaced h' ∧ (∀ i x, h' !! i = Some x → x ≤ recorded_at r).
Proof.
  intros Hl Hle Hs Ht Hm Hroom. unfold login.
  assert (∀ i x, h !! i = Some x → x ≤ recorded_at r) as Hle'.
  { intros i x Hx. specialize (Hle i x Hx). lia. }
  destruct (retry_after (checked_at r) (from r) l) as [o l1] eqn:E. simpl in Hroom.
  destruct (decide (from r = s)) as [Hfs|Hne].
  - rewrite Hfs in *. destruct (retry_after_limited h t (checked_at r) _ _ _ _ Hl (proj1 Ht) E) as [Hl1 Hf5].
    destruct o as [n|].
    { rewrite app_nil_r. repeat split; [|done|done]. eapply limited_later, Hl1. lia. }
    rewrite Hm by done. rewrite bool_decide_eq_true_2 by done.
    rewrite record_failure_self by done.
    destruct (failed_entry_limited h (checked_at r) (recorded_at r) _ Hl1 (proj2 Ht) Hle' (Hf5 eq_refl) Hs).
    repeat split; [done..|]. intros i x [[Hx ?]|[_ ->]]%lookup_snoc_inv; [by eapply Hle'|done].
  - assert (l1 !! s = l !! s) as Hs1.
    { pose proof (retry_after_other (checked_at r) s (from r) l) as Ho. rewrite E in Ho. by apply Ho. }
    rewrite bool_decide_eq_false_2 by done.
    assert (limited h (recorded_at r) (l !! s)) as Hr by (eapply limited_later, Hl; lia).
    destruct o as [n|]; [by rewrite app_nil_r, Hs1|].
    destruct (matches cfg r).
    + unfold clear. destruct (jwt_encode _ _); rewrite app_nil_r, lookup_delete_ne, Hs1 by done; done.
    + rewrite app_nil_r, record_failure_other, Hs1 by (try done; congruence). done.
Qed.

Lemma failure_times_spaced `{!JwtLib} hi cfg s reqs l h t (S : gset IpAddr) :
  limited h t (l !! s) → (∀ i x, h !! i = Some x → x ≤ t) → spaced h →
  in_order t reqs = true → (∀ r, r ∈ reqs → from r = s → matches cfg r = false) →
  dom l ⊆ S → (∀ r, r ∈ reqs → from r ∈ S) → (size S ≤ MAX_TRACKED_SOURCES)%nat →
  spaced (h ++ failure_times hi cfg s reqs l).
Proof.
  revert h t l. induction reqs as [|r reqs IH]; intros h t l Hl Hle Hs Ho Hm Hd HS Hsz; simpl.
  { by rewrite app_nil_r. }
  simpl in Ho. bool_simpl.
  pose proof (retry_after_dom (checked_at r) (from r) l) as Hd1.
  pose proof (login_dom hi cfg r l) as Hd2.
  pose proof (login_limited hi cfg s r l h t Hl Hle Hs ltac:(lia)
    (Hm r (list_elem_of_here _ _))
    (room (retry_after (checked_at r) (from r) l).2 S (from r) ltac:(set_solver) (HS r (list_elem_of_here _ _)) Hsz)) as Hstep.
  destruct (login hi cfg r l) as [resp l'] eqn:E. simpl in Hd2.
  destruct Hstep as (Hl' & Hs' & Hle'). rewrite app_assoc.
  specialize (HS r (list_elem_of_here _ _)) as Hr.
  eapply IH; [done..| | | |done].
  - intros r' Hr'. apply Hm. by right.
  - set_solver.
  - intros r' Hr'. apply HS. by right.
Qed.

(** *** The table is bounded *)

Lemma record_failure_size hi now s l :
  (∀ l, hi l ≡ₚ map_to_list l) → (size l ≤ MAX_TRACKED_SOURCES)%nat →
  (size (record_failure hi now s l) ≤ MAX_TRACKED_SOURCES)%nat.
Proof.
  intros Hiter Hsz. unfold record_failure. rewrite map_size_insert.
  destruct (l !! s) as [a|] eqn:E; cbn [is_some negb andb]; [by rewrite E|].
  destruct (Nat.leb_spec MAX_TRACKED_SOURCES (size l)) as [Hfull|Hroom]; cbn [andb].
  2: { rewrite E. lia. }
  destruct (min_by_last_seen (hi l)) as [[o ?]|] eqn:Em.
  - apply min_by_last_seen_spec in Em as [Hin _]. rewrite Hiter in Hin.
    apply elem_of_map_to_list in Hin.
    rewrite lookup_delete_ne, E, map_size_delete, Hin by (intros ->; congruence).
    unfold MAX_TRACKED_SOURCES in *. lia.
  - apply min_by_last_seen_None in Em. pose proof (Hiter l) as Hp. rewrite Em in Hp.
    apply Permutation_nil in Hp. apply map_to_list_empty_iff in Hp. subst l.
    rewrite map_size_empty in Hfull. unfold MAX_TRACKED_SOURCES in Hfull. lia.
Qed.

Lemma retry_after_size now s l : (size (retry_after now s l).2 ≤ size l)%nat.
Proof. rewrite <- !size_dom. apply subseteq_size, retry_after_dom. Qed.

Lemma login_size `{!JwtLib} hi cfg r l :
  (∀ l, hi l ≡ₚ map_to_list l) → (size l ≤ MAX_TRACKED_SOURCES)%nat →
  (size (login hi cfg r l).2 ≤ MAX_TRACKED_SOURCES)%nat.
Proof.
  intros Hiter Hsz. unfold login.
  pose proof (retry_after_size (checked_at r) (from r) l) as Hr.
  destruct (retry_after _ _ _) as [[n|] l'] eqn:E; simpl in *; [lia|].
  destruct (matches cfg r).
  - unfold clear. assert (size (delete (from r) l') ≤ size l')%nat.
    { rewrite <- !size_dom. apply subseteq_size. set_solver. }
    destruct (jwt_encode _ _); simpl; lia.
  - apply record_failure_size; [done|lia].
Qed.

(** *** Cookies *)

(** The text of a [Cookie] header with the given cookies, in order. *)
Definition cookie_pair (c : string * string) : string := (c.1 +:+ "=" +:+ c.2)%string.
Fixpoint render_tail (cs : list (string * string)) : string :=
  match cs with
  | [] => EmptyString
  | c :: cs => (";" +:+ String " " (cookie_pair c) +:+ render_tail cs)%string
  end.
Definition render (cs : list (string * string)) : string :=
  match cs with [] => EmptyString | c :: cs => (cookie_pair c +:+ render_tail cs)%string end.

Definition cookie_ok (c : string * string) : bool :=
  no_char "=" c.1 && no_space (cookie_pair c) && no_char ";" (cookie_pair c).

Definition parse_cookies (s : string) : list (string * string) :=
  omap (λ c, Str.split_once "=" (Str.trim c)) (Str.split ";" s).

Lemma split_tail a cs :
  no_char ";" a = true → forallb cookie_ok cs = true →
  Str.split ";" (a +:+ render_tail cs) = a :: ((λ c, String " " (cookie_pair c)) <$> cs).
Proof.
  revert a. induction cs as [|c cs IH]; intros a Ha Hcs; simpl.
  { assert (a +:+ "" = a)%string as ->.
    { clear. induction a as [|x a IH]; [done|]. by rewrite StdFacts.append_cons, IH. }
    by apply split_none. }
  apply andb_true_iff in Hcs as [Hc Hcs].
  rewrite (StdFacts.append_cons ";"), StdFacts.append_nil, split_app by done.
  f_equal. apply (IH (String " " (cookie_pair c))); [|done].
  unfold cookie_ok in Hc. bool_simpl. done.
Qed.

Lemma parse_pair c : cookie_ok c = true →
  Str.split_once "=" (Str.trim (cookie_pair c)) = Some c ∧
  Str.split_once "=" (Str.trim (String " " (cookie_pair c))) = Some c.
Proof.
  unfold cookie_ok. intros H. bool_simpl.
  rewrite trim_no_space, trim_lead_space by done. unfold cookie_pair.
  rewrite (StdFacts.append_cons "="), StdFacts.append_nil, split_once_app by done. by destruct c.
Qed.

(** Cookies survive being written into one header and parsed. *)
Lemma parse_render cs : forallb cookie_ok cs = true → parse_cookies (render cs) = cs.
Proof.
  unfold parse_cookies. destruct cs as [|c cs]; [done|]. simpl. intros [Hc Hcs]%andb_true_iff.
  rewrite split_tail; [|unfold cookie_ok in Hc; by bool_simpl|done].
  simpl. rewrite (proj1 (parse_pair c Hc)). f_equal. clear c Hc.
  induction cs as [|c cs IH]; [done|]. simpl in *. apply andb_true_iff in Hcs as [Hc Hcs].
  rewrite (proj2 (parse_pair c Hc)). f_equal. by apply IH.
Qed.

Lemma session_pair_ok t :
  forallb token_char (String.list_ascii_of_string t) = true →
  cookie_ok (SESSION_COOKIE, t) = true.
Proof.
  intros H. unfold cookie_ok, cookie_pair. cbn [fst snd].
  assert (∀ P : ascii → bool, (∀ c, token_char c = true → P c = true) →
    forallb P (String.list_ascii_of_string (SESSION_COOKIE +:+ "=")) = true →
    forallb P (String.list_ascii_of_string (SESSION_COOKIE +:+ "=" +:+ t)) = true) as HP.
  { intros P Himp Hpre. unfold SESSION_COOKIE in *.
    rewrite !StdFacts.append_cons, !StdFacts.append_nil in *. simpl in *. bool_simpl.
    repeat (apply andb_true_iff; split); try done.
    apply forallb_forall. intros c Hc. apply Himp. by eapply forallb_forall in H. }
  apply andb_true_iff; split; [apply andb_true_iff; split; [vm_compute; reflexivity|]|];
    apply HP; try (vm_compute; reflexivity); intros c Hc; apply negb_true_iff.
  - unfold Str.is_space, token_char in *. lia.
  - apply bool_decide_eq_false_2. intros ->. vm_compute in Hc. done.
Qed.

Lemma find_map_app {A B} (f : A → option B) l1 l2 :
  find_map f (l1 ++ l2) = match find_map f l1 with Some b => Some b | None => find_map f l2 end.
Proof. induction l1 as [|x l1 IH]; simpl; [done|]. by destruct (f x). Qed.
End SecurityFacts.

(** ** Properties *)


(** Whatever sources send logins, the limiter never tracks more than
    [MAX_TRACKED_SOURCES] of them; and the source that has to make room for a
    new one is one that was seen least recently. *)
Theorem limiter_table_bounded `{!JwtLib} hash_iter cfg reqs :
  (∀ l, hash_iter l ≡ₚ map_to_list l) →
  (size (run_logins hash_iter cfg reqs ∅) ≤ MAX_TRACKED_SOURCES)%nat ∧
  ∀ now s l s' a, l !! s' = Some a → s' ≠ s →
    record_failure hash_iter now s l !! s' = None →
    ∀ s'' b, l !! s'' = Some b → last_seen a ≤ last_seen b.
Proof.
  intros Hiter. split.
  - unfold run_logins.
    assert (size (∅ : LoginLimiter) ≤ MAX_TRACKED_SOURCES)%nat as H0
      by (rewrite map_size_empty; unfold MAX_TRACKED_SOURCES; lia).
    revert H0. generalize (∅ : LoginLimiter). induction reqs as [|r reqs IH]; intros l Hl; [done|].
    simpl. apply IH. by apply SecurityFacts.login_size.
  - intros now s l s' a Ha Hne Hgone s'' b Hb. unfold record_failure in Hgone.
    rewrite lookup_insert_ne in Hgone by done.
    destruct (negb _ && _); [|congruence].
    destruct (min_by_last_seen (hash_iter l)) as [[o a']|] eqn:Em; [|congruence].
    apply SecurityFacts.min_by_last_seen_spec in Em as [Hin Hmin].
    destruct (decide (o = s')) as [->|]; [|rewrite lookup_delete_ne in Hgone by done; congruence].
    rewrite Hiter in Hin. apply elem_of_map_to_list in Hin. simplify_eq.
    apply (Hmin (s'', b)). rewrite Hiter. by apply elem_of_map_to_list.
Qed.

(** A request is authorized exactly when its bearer token verifies, or it
    has no bearer token, the first [vnts_session] cookie verifies, and its
    method is safe or its CSRF header is the token's CSRF claim.  A forged
    cross-site request, which carries the cookie but not the header, is
    refused for every method that is not GET, HEAD or OPTIONS. *)
Theorem csrf_protection `{!HeaderMapLib, !JwtLib} now headers method secret claims :
  authorize now headers method secret = Ok claims ↔
  (∃ token, bearer_token headers = Some token ∧ jwt_decode now token secret = Some claims)
  ∨ (∃ token, bearer_token headers = None ∧ cookie_value headers SESSION_COOKIE = Some token ∧
       jwt_decode now token secret = Some claims ∧
       (method = GET ∨ method = HEAD ∨ method = OPTIONS ∨
        ∃ value, csrf claims = Some value ∧ header_get headers CSRF_HEADER ≫= to_str = Some value)).
Proof.
  unfold authorize. destruct (bearer_token headers) as [tok|]; simpl.
  { destruct (jwt_decode now tok secret) eqn:Ed; simpl; split; intros Hc; simplify_eq; naive_solver. }
  destruct (cookie_value headers SESSION_COOKIE) as [tok|]; simpl; [|naive_solver].
  destruct (jwt_decode now tok secret) as [c|] eqn:Ed; simpl; [|naive_solver].
  destruct (is_unsafe method) eqn:Em; cycle 1.
  { split; [|naive_solver]. intros [= <-]. right. exists tok. repeat split; [done..|].
    destruct method; naive_solver. }
  destruct (csrf c) as [e|] eqn:Ec; simpl; [|naive_solver].
  destruct (header_get headers CSRF_HEADER ≫= to_str) as [p|] eqn:Ep; simpl; [|naive_solver].
  destruct (constant_time_eq e p) eqn:Eq; simpl.
  - apply SecurityFacts.constant_time_eq_spec in Eq as ->. split; [|naive_solver].
    intros [= <-]. right. exists tok. repeat split; [done..|]. do 3 right. by exists p.
  - split; [done|].
    intros [(? & ? & _)|(t & _ & [= <-] & Hd & [->|[->|[->|(v & Hv & Hp)]]])]; [done..|].
    assert (v = e) as -> by congruence. assert (p = e) as -> by congruence.
    by rewrite (proj2 (SecurityFacts.constant_time_eq_spec _ _) eq_refl) in Eq.
Qed.

(** What a successful login hands out authorizes every request until it
    expires: a browser that sends the session cookie among its other cookies
    and the CSRF token in the header is recognised as the configured user, for
    every method. *)
Theorem session_roundtrip `{!HeaderMapLib, !HeaderMapLaws, !JwtLib, !JwtLaws}
    hash_iter cfg r l l' token cookie csrf_tok headers before after_ method now :
  login hash_iter cfg r l = (LoggedIn token cookie csrf_tok, l') →
  header_get_all headers "authorization" = [] →
  header_get_all headers "cookie" =
    [SecurityFacts.render (before ++ (SESSION_COOKIE, token) :: after_)] →
  to_str (SecurityFacts.render (before ++ (SESSION_COOKIE, token) :: after_)) ≠ None →
  forallb SecurityFacts.cookie_ok (before ++ after_) = true →
  SESSION_COOKIE ∉ before.*1 →
  header_get headers CSRF_HEADER ≫= to_str = Some csrf_tok →
  now < wall r + 24 * 60 * 60 →
  authorize now headers method (jwt_secret cfg) =
    Ok (mkClaims (username cfg) (wall r + 24 * 60 * 60) (Some csrf_tok)) ∧ from r ∉ dom l'.
Proof.
  intros Hlogin Hauth Hck Hvis Hok Hbefore Hcsrf Hexp. unfold login in Hlogin.
  destruct (retry_after _ _ _) as [[n|] l1]; [done|].
  destruct (matches cfg r) eqn:Em; [|done].
  destruct (jwt_encode _ _) as [t|] eqn:Ej; [|done]. simplify_eq.
  unfold matches in Em. apply andb_true_iff in Em as [Eu _].
  apply SecurityFacts.constant_time_eq_spec in Eu. rewrite Eu in Ej.
  split; [|unfold clear; set_solver].
  unfold authorize, bearer_token. rewrite header_get_first, Hauth. simpl.
  assert (cookie_value headers SESSION_COOKIE = Some token) as ->.
  { unfold cookie_value. rewrite Hck. simpl.
    destruct (to_str (SecurityFacts.render _)) as [v|] eqn:Ev; [|done].
    rewrite to_str_visible in Ev. case_match; simplify_eq. cbn [omap list_omap mbind list_bind].
    rewrite app_nil_r.
    fold (SecurityFacts.parse_cookies (SecurityFacts.render (before ++ (SESSION_COOKIE, token) :: after_))).
    rewrite SecurityFacts.parse_render, SecurityFacts.find_map_app.
    - assert (find_map (λ '(n, v), if bool_decide (n = SESSION_COOKIE) then Some v else None) before
              = None) as ->.
      { apply find_map_None. intros [n v] Hin. rewrite bool_decide_eq_false_2; [done|].
        intros ->. apply Hbefore, list_elem_of_fmap. by exists (SESSION_COOKIE, v). }
      done.
    - rewrite forallb_app in *. apply andb_true_iff in Hok as [-> Ha]. cbn [forallb andb].
      rewrite Ha, andb_true_r. by apply SecurityFacts.session_pair_ok, (jwt_token_chars _ _ _ Ej). }
  simpl. rewrite (jwt_decode_encode _ _ _ now Ej) by done. simpl.
  destruct (is_unsafe method); [|done]. rewrite Hcsrf. simpl.
  by rewrite (proj2 (SecurityFacts.constant_time_eq_spec _ _) eq_refl).
Qed.

(** ** Executable models of the libraries, and witnesses *)
Module SecurityModel.
(** A header map is the list of its header lines. *)
Definition values (h : list (string * string)) (n : string) : list string :=
  omap (λ '(m, v), if bool_decide (m = n) then Some v else None) h.

#[export] Instance header_lib : HeaderMapLib := {|
  HeaderMap := list (string * string);
  header_get h n := head (values h n);
  header_get_all := values;
  to_str s := if forallb visible (String.list_ascii_of_string s) then Some s else None
|}.

#[export] Instance header_laws : HeaderMapLaws.
Proof. split; done. Qed.

(** A token is the claims and the key in binary digits. *)
Fixpoint pos_digits (p : positive) : string :=
  match p with
  | xI p => String "1" (pos_digits p)
  | xO p => String "0" (pos_digits p)
  | xH => EmptyString
  end.

Fixpoint digits_pos (s : string) : positive :=
  match s with
  | EmptyString => xH
  | String c s => if bool_decide (c = "1"%char) then xI (digits_pos s) else xO (digits_pos s)
  end.

Lemma digits_pos_digits p : digits_pos (pos_digits p) = p.
Proof. induction p as [p IH|p IH|]; simpl; [by rewrite IH..|done]. Qed.

Lemma pos_digits_chars p : forallb token_char (String.list_ascii_of_string (pos_digits p)) = true.
Proof. by induction p. Qed.

#[export] Instance jwt_lib : JwtLib := {|
  jwt_encode c key := Some (pos_digits (encode (key, sub c, exp c, csrf c)));
  jwt_decode now t key :=
    '(k, s, e, x) ← decode (A := string * string * Z * option string) (digits_pos t);
    if bool_decide (k = key) && (now <? e) then Some (mkClaims s e x) else None
|}.

#[export] Instance jwt_laws : JwtLaws.
Proof.
  split.
  - intros c key t [= <-]. apply pos_digits_chars.
  - intros [s e x] key t now [= <-] Hexp. cbn [jwt_decode jwt_lib].
    rewrite digits_pos_digits, decode_encode. simpl in *.
    rewrite bool_decide_eq_true_2 by done. by rewrite (proj2 (Z.ltb_lt _ _)).
Qed.
End SecurityModel.

Module SecurityWitness.
Import SecurityModel.

Definition cfg : AuthConfig := mkAuth "admin" "secret" "key".
Definition attacker : IpAddr := V4 3221225994.
Definition guess (t : Z) : LoginRequest := mkLogin attacker "admin" "guess" t t 1700000000 "token".
(** Four guesses, and five more when the window has passed. *)
Definition guesses : list LoginRequest :=
  guess <$> [0; 1; 2; 3; LOGIN_WINDOW; LOGIN_WINDOW; LOGIN_WINDOW; LOGIN_WINDOW;
             LOGIN_WINDOW + 1; LOGIN_WINDOW + 2].


(** A full table. *)
Definition full : LoginLimiter :=
  list_to_map ((λ i, (V4 (Z.of_nat i), mkAttempt 1 (Z.of_nat i) (Z.of_nat i) None)) <$> seq 0 4096).

(** Witness: the table of a run stays bounded, and a new source evicts the
    oldest one of a full table. *)
Lemma limiter_table_bounded_witness :
  (size (run_logins map_to_list cfg guesses ∅) ≤ MAX_TRACKED_SOURCES)%nat ∧
  record_failure map_to_list 5000 attacker full !! V4 0 = None ∧ 0 ≤ 1.
Proof.
  assert (record_failure map_to_list 5000 attacker full !! V4 0 = None) as Hgone
    by (vm_compute; reflexivity).
  destruct (limiter_table_bounded map_to_list cfg guesses (λ _, reflexivity _)) as [Hs He].
  split; [exact Hs|]. split; [exact Hgone|].
  refine (He 5000 attacker full (V4 0) (mkAttempt 1 0 0 None) _ _ Hgone
    (V4 1) (mkAttempt 1 1 1 None) _); vm_compute; [reflexivity|discriminate|reflexivity].
Defined.

Definition request : LoginRequest := mkLogin (V4 1) "admin" "secret" 0 0 1700000000 "csrf48".
Definition token : string :=
  default EmptyString
    (jwt_encode (mkClaims "admin" (1700000000 + 24 * 60 * 60) (Some "csrf48")) "key").
Definition headers : list (string * string) :=
  [("cookie", SecurityFacts.render [("theme", "dark"); (SESSION_COOKIE, token); ("lang", "en")]);
   (CSRF_HEADER, "csrf48")].

(** Witness: log in, then send a POST with three cookies and the CSRF header. *)
Lemma session_roundtrip_witness :
  authorize 1700000100 headers POST "key" =
    Ok (mkClaims "admin" (1700000000 + 24 * 60 * 60) (Some "csrf48")) ∧ V4 1 ∉ dom (∅ : LoginLimiter).
Proof.
  refine (session_roundtrip map_to_list cfg request ∅ ∅ token (session_cookie token) "csrf48" headers
    [("theme", "dark")] [("lang", "en")] POST 1700000100 _ _ _ _ _ _ _ _);
    try (vm_compute; reflexivity).
  - vm_compute. discriminate.
  - intros Hin. vm_compute in Hin. apply list_elem_of_In in Hin. destruct Hin as [Hin|[]]. discriminate Hin.
Defined.
End SecurityWitness.
