(* ===== verification/Sql.v ===== *)
(** What the server uses of SQLite through sqlx: tables, statements and
    transactions.

    A table is a finite map from its primary key to its other columns.  A
    connection is the contents of the database and a script of storage
    failures: the [n]-th entry says whether the [n]-th statement fails for a
    reason outside the program (I/O error, busy database, full disk); past its
    end nothing fails.  A statement that fails, for that reason or because of a
    constraint, changes nothing; a transaction that is not committed is rolled
    back when it is dropped. *)

From S2P Require Import Prelude.
From stdpp Require Import base gmap list.
From Stdlib Require Import ZArith Lia.

(** ** Tables *)

Section Tables.
Context {K A : Type} `{Countable K}.
Implicit Types (p : K → A → bool) (t : gmap K A).

(** [EXISTS(SELECT 1 FROM t WHERE p)]. *)
Definition row_exists p t : bool := existsb (λ x, p x.1 x.2) (map_to_list t).

(** [SELECT ... FROM t WHERE p], in no particular order. *)
Definition select p t : list (K * A) := filter (λ x, p x.1 x.2 = true) (map_to_list t).

(** [DELETE FROM t WHERE p]. *)
Definition delete_where p t : gmap K A := filter (λ x, p x.1 x.2 = false) t.

Lemma row_exists_true p t : row_exists p t = true ↔ ∃ k a, t !! k = Some a ∧ p k a = true.
Proof.
  unfold row_exists. rewrite existsb_exists. split.
  - intros ([k a] & Hin & Hp). exists k, a. split; [|done]. apply elem_of_map_to_list.
    by apply list_elem_of_In.
  - intros (k & a & Hk & Hp). exists (k, a). split; [|done]. apply list_elem_of_In.
    by apply elem_of_map_to_list.
Qed.

Lemma row_exists_false p t : row_exists p t = false ↔ ∀ k a, t !! k = Some a → p k a = false.
Proof.
  split.
  - intros Hf k a Hk. destruct (p k a) eqn:E; [|done]. rewrite <- Hf. symmetry.
    apply row_exists_true. eauto.
  - intros Hf. destruct (row_exists p t) eqn:E; [|done].
    apply row_exists_true in E as (k & a & Hk & Hp). by rewrite (Hf k a Hk) in Hp.
Qed.

Lemma elem_of_select p t k a : (k, a) ∈ select p t ↔ t !! k = Some a ∧ p k a = true.
Proof.
  unfold select. rewrite list_elem_of_filter, elem_of_map_to_list. simpl. tauto.
Qed.

Lemma NoDup_select p t : NoDup ((select p t).*1).
Proof.
  unfold select. pose proof (NoDup_fst_map_to_list t) as Hnd.
  induction (map_to_list t) as [|[k a] l IH]; [constructor|].
  simpl in Hnd. apply NoDup_cons in Hnd as [Hk Hnd]. rewrite filter_cons.
  destruct (decide _); [|by apply IH]. simpl. apply NoDup_cons. split; [|by apply IH].
  intros Hin. apply Hk. apply list_elem_of_fmap in Hin as ([k' a'] & -> & Hin).
  apply list_elem_of_filter in Hin as [_ Hin]. apply list_elem_of_fmap. by exists (k', a').
Qed.

Lemma lookup_delete_where p t k :
  delete_where p t !! k = match t !! k with Some a => if p k a then None else Some a | None => None end.
Proof.
  unfold delete_where. rewrite map_lookup_filter. destruct (t !! k) as [a|]; [|done]. simpl.
  case_guard as Hg; simpl in *; destruct (p k a); done || congruence.
Qed.

Lemma delete_where_Some p t k a :
  delete_where p t !! k = Some a ↔ t !! k = Some a ∧ p k a = false.
Proof.
  rewrite lookup_delete_where. destruct (t !! k) as [b|]; [|naive_solver].
  destruct (p k b) eqn:Hp; split; intros Ha; simplify_eq; [by destruct Ha; simplify_eq; congruence|done|].
  by destruct Ha.
Qed.
End Tables.

(** ** Statements and transactions *)

Section Statements.
Context {D E : Type}.

Record Conn := mkConn { contents : D; faults : list bool }.
Definition DB (A : Type) : Type := Conn → result E A * Conn.

#[export] Instance DB_ret : MRet DB := λ A a c, (Ok a, c).
#[export] Instance DB_bind : MBind DB := λ A B k m c,
  match m c with
  | (Ok a, c) => k a c
  | (Err e, c) => (Err e, c)
  end.

Definition db_throw {A} (e : E) : DB A := λ c, (Err e, c).
Definition db_lift {A} (r : result E A) : DB A := λ c, (r, c).

(** One statement: [io] is the error of a storage failure. *)
Definition stmt (io : E) {A} (f : D → result E (A * D)) : DB A := λ c,
  match faults c with
  | true :: rest => (Err io, mkConn (contents c) rest)
  | fs =>
      match f (contents c) with
      | Ok (a, d) => (Ok a, mkConn d (tail fs))
      | Err e => (Err e, mkConn (contents c) (tail fs))
      end
  end.

(** [begin ... commit]; every way out but the end rolls back. *)
Definition transaction (io : E) {A} (body : DB A) : DB A := λ c,
  match stmt io (λ d, Ok (tt, d)) c with
  | (Err e, c) => (Err e, c)
  | (Ok _, c1) =>
      match body c1 with
      | (Err e, c2) => (Err e, mkConn (contents c1) (faults c2))
      | (Ok a, c2) =>
          match stmt io (λ d, Ok (tt, d)) c2 with
          | (Ok _, c3) => (Ok a, c3)
          | (Err e, c3) => (Err e, mkConn (contents c1) (faults c3))
          end
      end
  end.

(** *** Reasoning

    [hoare P m Q R]: started in a database that satisfies [P], [m] ends with a
    value and a database that satisfy [Q], or with an error and a database that
    satisfies [R], whatever fails. *)
Definition hoare {A} (P : D → Prop) (m : DB A) (Q : A → D → Prop) (R : E → D → Prop) : Prop :=
  ∀ c, P (contents c) →
    match m c with
    | (Ok a, c') => Q a (contents c')
    | (Err e, c') => R e (contents c')
    end.

Lemma hoare_ret {A} P (a : A) Q R : (∀ d, P d → Q a d) → hoare P (mret a) Q R.
Proof. intros H c Hc. by apply H. Qed.

Lemma hoare_throw {A} P e (Q : A → D → Prop) R : (∀ d, P d → R e d) → hoare P (db_throw e) Q R.
Proof. intros H c Hc. by apply H. Qed.

Lemma hoare_lift {A} P (r : result E A) Q (R : E → D → Prop) :
  (∀ a d, r = Ok a → P d → Q a d) → (∀ e d, r = Err e → P d → R e d) → hoare P (db_lift r) Q R.
Proof. intros H1 H2 c Hc. unfold db_lift. destruct r; eauto. Qed.

Lemma hoare_bind {A B} P (m : DB A) (k : A → DB B) Q Q' R :
  hoare P m Q R → (∀ a, hoare (Q a) (k a) Q' R) → hoare P (m ≫= k) Q' R.
Proof.
  intros Hm Hk c Hc. specialize (Hm c Hc). unfold mbind, DB_bind.
  destruct (m c) as [[a|e] c']; [|done]. by apply Hk.
Qed.

Lemma hoare_weaken {A} (P P' : D → Prop) (m : DB A) (Q Q' : A → D → Prop) (R R' : E → D → Prop) :
  hoare P' m Q' R' → (∀ d, P d → P' d) → (∀ a d, Q' a d → Q a d) → (∀ e d, R' e d → R e d) →
  hoare P m Q R.
Proof.
  intros H HP HQ HR c Hc. specialize (H c (HP _ Hc)). destruct (m c) as [[a|e] c']; eauto.
Qed.

Lemma hoare_stmt {A} io P (f : D → result E (A * D)) Q (R : E → D → Prop) :
  (∀ d a d', P d → f d = Ok (a, d') → Q a d') → (∀ d, P d → R io d) →
  (∀ d e, P d → f d = Err e → R e d) → hoare P (stmt io f) Q R.
Proof.
  intros H1 H2 H3 c Hc. unfold stmt.
  assert (match (match f (contents c) with
                 | Ok (a, d) => (Ok a, mkConn d (tail (faults c)))
                 | Err e => (Err e, mkConn (contents c) (tail (faults c)))
                 end : result E A * Conn) with
          | (Ok a, c') => Q a (contents c') | (Err e, c') => R e (contents c') end) as Hf.
  { destruct (f (contents c)) as [[a d]|e] eqn:Ef; simpl; eauto. }
  destruct (faults c) as [|[] fs]; [done| |done]. by apply H2.
Qed.

(** A transaction that ends with an error leaves the database as it was. *)
Lemma hoare_transaction {A} io d0 (m : DB A) Q (R : E → Prop) :
  hoare (λ d, d = d0) m Q (λ e _, R e) → R io →
  hoare (λ d, d = d0) (transaction io m) Q (λ e d, R e ∧ d = d0).
Proof.
  intros H Hio c Hc. unfold transaction.
  pose proof (hoare_stmt io (λ d, d = d0) (λ d, Ok (tt, d)) (λ _ d, d = d0) (λ e d, e = io ∧ d = d0)) as Hb.
  specialize (Hb ltac:(naive_solver) ltac:(done) ltac:(done) c Hc).
  destruct (stmt _ _ c) as [[[]|e] c1]; [|by destruct Hb as [-> ->]].
  specialize (H c1 Hb). destruct (m c1) as [[a|e] c2]; [|done].
  pose proof (hoare_stmt io (Q a) (λ d, Ok (tt, d)) (λ _ d, Q a d) (λ e _, e = io)) as Hm.
  specialize (Hm ltac:(naive_solver) ltac:(done) ltac:(done) c2 H).
  destruct (stmt _ _ c2) as [[[]|e] c3]; [done|]. simpl. by subst.
Qed.

(** Without storage failures a statement is its function. *)
Lemma stmt_no_faults {A} io (f : D → result E (A * D)) d :
  stmt io f (mkConn d []) =
  match f d with Ok (a, d') => (Ok a, mkConn d' []) | Err e => (Err e, mkConn d []) end.
Proof. reflexivity. Qed.

Lemma transaction_no_faults {A} io (m : DB A) d :
  transaction io m (mkConn d []) =
  match m (mkConn d []) with
  | (Ok a, c) => match stmt io (λ d, Ok (tt, d)) c with
                 | (Ok _, c) => (Ok a, c)
                 | (Err e, c) => (Err e, mkConn d (faults c))
                 end
  | (Err e, c) => (Err e, mkConn d (faults c))
  end.
Proof. reflexivity. Qed.
End Statements.
Arguments Conn : clear implicits.
Arguments DB : clear implicits.

Create HintDb db discriminated.
#[export] Hint Resolve hoare_ret hoare_throw : db.
