(* ===== verification/Db.v ===== *)
(** The database: [server/control_server/db.rs] and the schema of
    [server/control_server/db/migrations.rs].

    [Database] is the content of the SQLite file: one finite map per table, the
    columns of the primary key as the map's key.  Each function of [db.rs] is a
    [DB] computation ([Sql.v]); a statement checks the constraints of the
    schema (CHECK, UNIQUE, FOREIGN KEY) and runs the triggers that copy
    [devices.ip] into [ip_allocations].  Foreign keys are enforced, which is
    sqlx's default.  [now] is what the clock shows.

    [pool_open] says whether [DB_POOL] is set: before that most functions do
    nothing and succeed. *)

From S2P Require Import Prelude Libs Std Lease NetState Service Peer Sql.
From stdpp Require Import base gmap strings list sorting.
From Stdlib Require Import ZArith Lia.

Local Open Scope Z_scope.

(** ** The schema *)

Inductive DbError :=
| NotInitialized
| Storage
| Constraint
| EmptyPeerId
| NoSuchNetwork (code : string)
| UnsupportedOwner
| EmptyOwner
| BadGateway
| NotInNetwork
| ReservedAddress
| AddressTaken (ip : Ipv4Addr)
| Exhausted
| RowNotFound
| RevisionOverflow
| BadRow
| IdentityChanged
| SecretGone
(** Errors of the keys stored in it ([wireguard_identity.rs],
    [wireguard_profile.rs]). *)
| BadMasterKey
| UnsupportedFormat
| BadKeyVersion
| BadKeyLength
| BadNonceLength
| EncryptionFailed
| AuthenticationFailed
| KeyMismatch
| IdentityMissing
| SameMasterKey
| KeyVersionOverflow
| SameIdentity.

(** [std::net::IpAddr]. *)
Inductive IpAddr := IpV4 (ip : Ipv4Addr) | IpV6 (ip : Z).

(** ipnet's text form of a network and serde_json's of a list of addresses. *)
Class Ipv4NetText `{!Ipv4NetLib} := {
  net_to_string : Ipv4Net → string;
  net_parse : string → option Ipv4Net
}.
Class Ipv4NetTextLaws `{!Ipv4NetLib, !Ipv4NetText} : Prop :=
  net_parse_to_string n : net_parse (net_to_string n) = Some n.
Class DnsJson := {
  dns_to_json : list IpAddr → string;
  dns_from_json : string → option (list IpAddr)
}.
Class DnsJsonLaws `{!DnsJson} : Prop :=
  dns_from_to_json l : dns_from_json (dns_to_json l) = Some l.

(** The primary key of [ip_allocations] and [cluster_leases]: network code,
    owner type and owner id. *)
Abbreviation OwnerKey := (string * string * string)%type (only parsing).
Abbreviation PeerKey := (string * string)%type (only parsing).

Record NetworkRow := mkNetworkRow {
  nw_gateway : string; nw_netmask : Z; nw_lease_duration : Z; nw_source : Z; nw_created_at : Z }.
Record DeviceRow := mkDeviceRow {
  dv_ip : option string; dv_name : string; dv_version : string; dv_last_connect_time : Z;
  dv_tx_bytes : Z; dv_rx_bytes : Z }.
Record WireGuardPeerRow := mkWireGuardPeerRow {
  pw_public_key : bytes; pw_enabled : Z; pw_created_at : Z; pw_updated_at : Z }.
Record ClusterLeaseRow := mkClusterLeaseRow {
  lw_ip : string; lw_authority_id : string; lw_origin_server_id : string; lw_revision : Z;
  lw_expires_at : Z; lw_static_reservation : Z; lw_updated_at : Z }.
Record ClusterStateRow := mkClusterStateRow {
  cs_authority_id : string; cs_revision : Z; cs_updated_at : Z }.
Record ProfileRow := mkProfileRow {
  fw_dns_servers : option string; fw_persistent_keepalive : Z; fw_created_at : Z; fw_updated_at : Z }.
Record RouteRow := mkRouteRow { rw_vnt_cli_ip : string; rw_sort_order : Z }.
(** [wireguard_peer_secrets] and [wireguard_server_identity] have the same
    columns; [EncryptedWireGuardIdentity] is exactly such a row. *)
Record EncryptedKey := mkEncryptedKey {
  ek_format_version : Z; ek_key_version : Z; ek_nonce : bytes; ek_ciphertext : bytes;
  ek_public_key : bytes; ek_created_at : Z; ek_updated_at : Z }.
Record PeerServerRow := mkPeerServerRow { sw_source : Z; sw_created_at : Z }.

#[export] Instance EncryptedKey_eq_dec : EqDecision EncryptedKey.
Proof. solve_decision. Defined.

Record Database := mkDatabase {
  pool_open : bool;
  networks : gmap string NetworkRow;
  devices : gmap (string * string) DeviceRow;
  peer_server_rows : gmap string PeerServerRow;
  ip_allocations : gmap OwnerKey string;
  wireguard_peers : gmap PeerKey WireGuardPeerRow;
  cluster_leases : gmap OwnerKey ClusterLeaseRow;
  cluster_state : option ClusterStateRow;
  wireguard_peer_profiles : gmap PeerKey ProfileRow;
  wireguard_peer_routes : gmap (string * string * string) RouteRow;
  wireguard_peer_secrets : gmap PeerKey EncryptedKey;
  wireguard_server_identity : option EncryptedKey
}.

Definition with_networks x d := mkDatabase (pool_open d) x (devices d) (peer_server_rows d)
  (ip_allocations d) (wireguard_peers d) (cluster_leases d) (cluster_state d)
  (wireguard_peer_profiles d) (wireguard_peer_routes d) (wireguard_peer_secrets d)
  (wireguard_server_identity d).
Definition with_devices x y d := mkDatabase (pool_open d) (networks d) x (peer_server_rows d)
  y (wireguard_peers d) (cluster_leases d) (cluster_state d)
  (wireguard_peer_profiles d) (wireguard_peer_routes d) (wireguard_peer_secrets d)
  (wireguard_server_identity d).
Definition with_peer_servers x d := mkDatabase (pool_open d) (networks d) (devices d) x
  (ip_allocations d) (wireguard_peers d) (cluster_leases d) (cluster_state d)
  (wireguard_peer_profiles d) (wireguard_peer_routes d) (wireguard_peer_secrets d)
  (wireguard_server_identity d).
Definition with_wireguard_peers x d := mkDatabase (pool_open d) (networks d) (devices d)
  (peer_server_rows d) (ip_allocations d) x (cluster_leases d) (cluster_state d)
  (wireguard_peer_profiles d) (wireguard_peer_routes d) (wireguard_peer_secrets d)
  (wireguard_server_identity d).
Definition with_cluster_leases x d := mkDatabase (pool_open d) (networks d) (devices d)
  (peer_server_rows d) (ip_allocations d) (wireguard_peers d) x (cluster_state d)
  (wireguard_peer_profiles d) (wireguard_peer_routes d) (wireguard_peer_secrets d)
  (wireguard_server_identity d).
Definition with_cluster_state x d := mkDatabase (pool_open d) (networks d) (devices d)
  (peer_server_rows d) (ip_allocations d) (wireguard_peers d) (cluster_leases d) x
  (wireguard_peer_profiles d) (wireguard_peer_routes d) (wireguard_peer_secrets d)
  (wireguard_server_identity d).
Definition with_profiles p r s d := mkDatabase (pool_open d) (networks d) (devices d)
  (peer_server_rows d) (ip_allocations d) (wireguard_peers d) (cluster_leases d) (cluster_state d)
  p r s (wireguard_server_identity d).
Definition with_identity x d := mkDatabase (pool_open d) (networks d) (devices d)
  (peer_server_rows d) (ip_allocations d) (wireguard_peers d) (cluster_leases d) (cluster_state d)
  (wireguard_peer_profiles d) (wireguard_peer_routes d) (wireguard_peer_secrets d) x.
Definition open_pool d := mkDatabase true (networks d) (devices d)
  (peer_server_rows d) (ip_allocations d) (wireguard_peers d) (cluster_leases d) (cluster_state d)
  (wireguard_peer_profiles d) (wireguard_peer_routes d) (wireguard_peer_secrets d)
  (wireguard_server_identity d).
Definition with_allocations y d := with_devices (devices d) y d.

(** ** Database computations *)

Abbreviation DBM := (DB Database DbError).
Definition exec {A} (f : Database → result DbError (A * Database)) : DBM A := stmt Storage f.
Definition query {A} (f : Database → A) : DBM A := exec (λ d, Ok (f d, d)).
Definition atomically {A} (m : DBM A) : DBM A := transaction Storage m.

(** [let Some(pool) = DB_POOL.get() else { return Ok(closed) }] and [db_pool()?]. *)
Definition if_open {A} (closed : A) (m : DBM A) : DBM A := λ c,
  if pool_open (contents c) then m c else (Ok closed, c).
Definition db_pool {A} (m : DBM A) : DBM A := λ c,
  if pool_open (contents c) then m c else (Err NotInitialized, c).

Definition pool_is_open : DBM bool := λ c, (Ok (pool_open (contents c)), c).
(** [DB_POOL.set(pool)]. *)
Definition set_pool : DBM unit := λ c, (Ok tt, mkConn (open_pool (contents c)) (faults c)).

(** [value.parse::<Ipv4Addr>()?]. *)
Definition parse_ip (text : string) : result DbError Ipv4Addr := ok_or (ipv4_parse text) BadRow.

(** [iter().map(f).collect::<Result<Vec<_>>>()]. *)
Fixpoint collect {E A B} (f : A → result E B) (l : list A) : result E (list B) :=
  match l with
  | [] => Ok []
  | x :: l => y ← f x; ys ← collect f l; Ok (y :: ys)
  end.

(** SQLite's [length(text)] counts the characters before the first NUL. *)
Definition text_nonempty (s : string) : bool :=
  match s with String c _ => negb (bool_decide (c = Ascii.zero)) | EmptyString => false end.

(** ORDER BY a text column: the bytes are compared as unsigned numbers. *)
Definition text_leb (a b : string) : bool :=
  match String.compare a b with Gt => false | _ => true end.

(** A stable sort by a boolean order. *)
Section Sorting.
Context {A : Type} (leb : A → A → bool).
Fixpoint sorted_insert (x : A) (l : list A) : list A :=
  match l with
  | [] => [x]
  | y :: l => if leb x y then x :: y :: l else y :: sorted_insert x l
  end.
Definition order_by (l : list A) : list A := foldr sorted_insert [] l.
End Sorting.

(** ** Statements on [ip_allocations]

    PRIMARY KEY(network_code, owner_type, owner_id), UNIQUE(network_code, ip),
    CHECK(owner_type IN ('vnt_device', 'wireguard_peer')),
    CHECK(length(owner_id) > 0). *)

Definition owner_type_ok (t : string) : bool :=
  bool_decide (t = "vnt_device"%string) || bool_decide (t = "wireguard_peer"%string).
Definition owner_checks (k : OwnerKey) : bool := owner_type_ok k.1.2 && text_nonempty k.2.

(** A row of the network other than [k]'s has the address. *)
Definition held_by_other (k : OwnerKey) (ip : string) (t : gmap OwnerKey string) : bool :=
  row_exists (λ k' ip', bool_decide (k'.1.1 = k.1.1) && bool_decide (ip' = ip)
                        && negb (bool_decide (k' = k))) t.

(** INSERT INTO ip_allocations VALUES (...). *)
Definition insert_allocation (k : OwnerKey) (ip : string) (t : gmap OwnerKey string)
    : result DbError (gmap OwnerKey string) :=
  _ ← ensure (owner_checks k) Constraint;
  _ ← ensure (negb (is_some (t !! k))) Constraint;
  _ ← ensure (negb (held_by_other k ip t)) Constraint;
  Ok (<[k := ip]> t).

(** The same with ON CONFLICT(network_code, owner_type, owner_id) DO UPDATE SET
    ip = excluded.ip. *)
Definition upsert_allocation (k : OwnerKey) (ip : string) (t : gmap OwnerKey string)
    : result DbError (gmap OwnerKey string) :=
  _ ← ensure (owner_checks k) Constraint;
  _ ← ensure (negb (held_by_other k ip t)) Constraint;
  Ok (<[k := ip]> t).

Definition device_key (code device_id : string) : OwnerKey := (code, "vnt_device"%string, device_id).
Definition peer_key (code peer_id : string) : OwnerKey := (code, "wireguard_peer"%string, peer_id).

(** ** Triggers ([migrations.rs]) *)

Definition devices_ip_allocation_insert (code device_id : string) (ip : option string)
    (t : gmap OwnerKey string) : result DbError (gmap OwnerKey string) :=
  match ip with
  | Some ip => insert_allocation (device_key code device_id) ip t
  | None => Ok t
  end.

Definition devices_ip_allocation_update (code device_id : string) (ip : option string)
    (t : gmap OwnerKey string) : result DbError (gmap OwnerKey string) :=
  let t := delete (device_key code device_id) t in
  match ip with
  | Some ip => insert_allocation (device_key code device_id) ip t
  | None => Ok t
  end.

Definition devices_ip_allocation_delete (code device_id : string) (t : gmap OwnerKey string)
    : gmap OwnerKey string :=
  delete (device_key code device_id) t.

Module Db.

(** ** Start-up: [migrations::apply] and [init_db_pool] *)

(** The rows the migration writes: the legacy addresses of the devices. *)
Definition legacy_allocations (ds : gmap (string * string) DeviceRow) (t : gmap OwnerKey string)
    : result DbError (gmap OwnerKey string) :=
  fold_left (λ r x, t ← r; devices_ip_allocation_insert x.1.2 x.1.1 (dv_ip x.2) t)
    (map_to_list ds) (Ok t).

Definition apply : DBM unit :=
  atomically (
    _ ← exec (λ d, Ok (tt, with_cluster_state
               (Some (default (mkClusterStateRow "" 0 0) (cluster_state d))) d));
    _ ← exec (λ d, Ok (tt, with_allocations
               (delete_where (λ k _, bool_decide (k.1.2 = "vnt_device"%string)) (ip_allocations d)) d));
    exec (λ d, t ← legacy_allocations (devices d) (ip_allocations d);
               Ok (tt, with_allocations t d))).

(** [lock]: whether the process lock on the database file was acquired. *)
Definition init_db_pool (lock : bool) : DBM unit :=
  is_open ← pool_is_open;
  if is_open : bool then mret tt
  else if negb lock then db_throw Storage
  else _ ← apply; set_pool.

(** ** Networks *)

Definition source_as_i32 (s : NetworkSource) : Z :=
  match s with SrcConfig => 0 | SrcManual => 1 | SrcDeviceRegister => 2 end.

Definition network_row (r : NetworkRecord) : NetworkRow :=
  mkNetworkRow (nr_gateway r) (nr_netmask r) (nr_lease_duration r) (source_as_i32 (nr_source r))
    (nr_created_at r).

Definition network_of_row (code : string) (w : NetworkRow) : NetworkRecord :=
  mkNetworkRecord code (nw_gateway w) (wrap 8 (nw_netmask w)) (nw_lease_duration w)
    (NetworkSource_from_i32 (nw_source w)) (nw_created_at w).

Definition save_network (r : NetworkRecord) : DBM unit :=
  if_open tt (exec (λ d,
    Ok (tt, with_networks (<[nr_network_code r := network_row r]> (networks d)) d))).

Definition save_network_if_not_exists (r : NetworkRecord) : DBM bool :=
  if_open false (exec (λ d,
    match networks d !! nr_network_code r with
    | Some _ => Ok (false, d)
    | None => Ok (true, with_networks (<[nr_network_code r := network_row r]> (networks d)) d)
    end)).

Definition update_network (code gateway : string) (netmask lease_duration : Z) : DBM bool :=
  if_open false (exec (λ d,
    match networks d !! code with
    | Some w => Ok (true, with_networks (<[code := mkNetworkRow gateway netmask lease_duration
                                           (nw_source w) (nw_created_at w)]> (networks d)) d)
    | None => Ok (false, d)
    end)).

Definition delete_network (code : string) : DBM bool :=
  if_open false (exec (λ d,
    Ok (is_some (networks d !! code), with_networks (delete code (networks d)) d))).

Definition get_network (code : string) : DBM (option NetworkRecord) :=
  if_open None (query (λ d, network_of_row code <$> networks d !! code)).

Definition load_all_networks : DBM (list NetworkRecord) :=
  if_open [] (query (λ d,
    order_by (λ a b, nr_created_at a <=? nr_created_at b)
      ((λ x, network_of_row x.1 x.2) <$> map_to_list (networks d)))).

Definition network_has_resource_owners (code : string) : DBM bool :=
  if_open false (query (λ d,
    row_exists (λ k _, bool_decide (k.2 = code)) (devices d)
    || row_exists (λ k _, bool_decide (k.1.1 = code)) (ip_allocations d)
    || row_exists (λ k _, bool_decide (k.1 = code)) (wireguard_peers d))).

(** ** Devices *)

Definition device_row (r : DeviceRecord) : DeviceRow :=
  mkDeviceRow (r_ip r) (r_device_name r) (r_device_version r) (r_last_connect_time r)
    (r_tx_bytes r) (r_rx_bytes r).

Definition device_of_row (code device_id : string) (w : DeviceRow) : DeviceRecord :=
  mkDeviceRecord device_id code (dv_ip w) (dv_name w) (dv_version w) (dv_last_connect_time w)
    (dv_tx_bytes w) (dv_rx_bytes w).

(** The upsert fires the insert trigger for a new row and the update trigger
    for an existing one. *)
Definition save_or_update_device (r : DeviceRecord) : DBM unit :=
  if_open tt (exec (λ d,
    let trigger := match devices d !! (r_device_id r, r_network_code r) with
                   | None => devices_ip_allocation_insert
                   | Some _ => devices_ip_allocation_update
                   end in
    t ← trigger (r_network_code r) (r_device_id r) (r_ip r) (ip_allocations d);
    Ok (tt, with_devices (<[(r_device_id r, r_network_code r) := device_row r]> (devices d)) t d))).

Definition release_device_ip (code device_id : string) : DBM unit :=
  if_open tt (exec (λ d,
    match devices d !! (device_id, code) with
    | None => Ok (tt, d)
    | Some w =>
        t ← devices_ip_allocation_update code device_id None (ip_allocations d);
        Ok (tt, with_devices (<[(device_id, code) := mkDeviceRow None (dv_name w) (dv_version w)
                  (dv_last_connect_time w) (dv_tx_bytes w) (dv_rx_bytes w)]> (devices d)) t d)
    end)).

Definition get_device (code device_id : string) : DBM (option DeviceRecord) :=
  if_open None (query (λ d, device_of_row code device_id <$> devices d !! (device_id, code))).

Definition load_all_devices (code : string) : DBM (list DeviceRecord) :=
  if_open [] (query (λ d,
    (λ x, device_of_row code x.1.1 x.2) <$>
      select (λ k _, bool_decide (k.2 = code)) (devices d))).

Definition delete_device (code device_id : string) : DBM bool :=
  if_open false (exec (λ d,
    match devices d !! (device_id, code) with
    | None => Ok (false, d)
    | Some _ => Ok (true, with_devices (delete (device_id, code) (devices d))
                  (devices_ip_allocation_delete code device_id (ip_allocations d)) d)
    end)).

Definition delete_devices_by_network (code : string) : DBM Z :=
  if_open 0 (exec (λ d,
    let rows := select (λ k _, bool_decide (k.2 = code)) (devices d) in
    Ok (Z.of_nat (length rows),
        with_devices (delete_where (λ k _, bool_decide (k.2 = code)) (devices d))
          (fold_left (λ t x, devices_ip_allocation_delete code x.1.1 t) rows (ip_allocations d)) d))).

(** ** Peer servers *)

Inductive PeerServerSource := PsConfig | PsManual.
Definition PeerServerSource_from_i32 (x : Z) : PeerServerSource :=
  if x =? 0 then PsConfig else if x =? 1 then PsManual else PsConfig.
Definition peer_source_as_i32 (s : PeerServerSource) : Z :=
  match s with PsConfig => 0 | PsManual => 1 end.

Record PeerServerRecord := mkPeerServerRecord {
  ps_server_addr : string; ps_source : PeerServerSource; ps_created_at : Z }.

Definition save_peer_server_if_not_exists (r : PeerServerRecord) : DBM bool :=
  if_open false (exec (λ d,
    match peer_server_rows d !! ps_server_addr r with
    | Some _ => Ok (false, d)
    | None => Ok (true, with_peer_servers (<[ps_server_addr r :=
                mkPeerServerRow (peer_source_as_i32 (ps_source r)) (ps_created_at r)]>
                (peer_server_rows d)) d)
    end)).

Definition save_peer_server (r : PeerServerRecord) : DBM unit :=
  if_open tt (exec (λ d,
    Ok (tt, with_peer_servers (<[ps_server_addr r :=
          mkPeerServerRow (peer_source_as_i32 (ps_source r)) (ps_created_at r)]>
          (peer_server_rows d)) d))).

Definition load_all_peer_servers : DBM (list PeerServerRecord) :=
  if_open [] (query (λ d,
    order_by (λ a b, ps_created_at a <=? ps_created_at b)
      ((λ x, mkPeerServerRecord x.1 (PeerServerSource_from_i32 (sw_source x.2)) (sw_created_at x.2))
         <$> map_to_list (peer_server_rows d)))).

Definition delete_peer_server (server_addr : string) : DBM bool :=
  if_open false (exec (λ d,
    Ok (is_some (peer_server_rows d !! server_addr),
        with_peer_servers (delete server_addr (peer_server_rows d)) d))).
(** ** WireGuard peers *)

(** CHECK(length(peer_id) > 0), CHECK(length(public_key) = 32),
    CHECK(enabled IN (0, 1)), PRIMARY KEY(network_code, peer_id),
    UNIQUE(public_key); the row is selected only if the network exists, and the
    answer is the number of rows inserted. *)
Definition insert_peer_row (r : WireGuardPeerRecord) (d : Database) : result DbError (Z * Database) :=
  let k := (wp_network_code r, wp_peer_id r) in
  match networks d !! wp_network_code r with
  | None => Ok (0, d)
  | Some _ =>
      _ ← ensure (text_nonempty (wp_peer_id r)) Constraint;
      _ ← ensure (length (wp_public_key r) =? 32)%nat Constraint;
      _ ← ensure (negb (is_some (wireguard_peers d !! k))) Constraint;
      _ ← ensure (negb (row_exists (λ _ w, bool_decide (pw_public_key w = wp_public_key r))
                          (wireguard_peers d))) Constraint;
      Ok (1, with_wireguard_peers (<[k := mkWireGuardPeerRow (wp_public_key r)
               (if wp_enabled r then 1 else 0) (wp_created_at r) (wp_updated_at r)]>
               (wireguard_peers d)) d)
  end.

Definition insert_wireguard_peer (r : WireGuardPeerRecord) : DBM unit :=
  db_pool (
    _ ← db_lift (ensure (negb (str_blank (wp_peer_id r))) EmptyPeerId);
    rows ← exec (insert_peer_row r);
    db_lift (ensure (rows =? 1) (NoSuchNetwork (wp_network_code r)))).

Definition insert_wireguard_peer_with_ip (r : WireGuardPeerRecord) (ip : Ipv4Addr) : DBM unit :=
  _ ← db_lift (ensure (negb (str_blank (wp_peer_id r))) EmptyPeerId);
  db_pool (atomically (
    rows ← exec (insert_peer_row r);
    _ ← db_lift (ensure (rows =? 1) (NoSuchNetwork (wp_network_code r)));
    exec (λ d,
      t ← insert_allocation (peer_key (wp_network_code r) (wp_peer_id r)) (ipv4_to_string ip)
            (ip_allocations d);
      Ok (tt, with_allocations t d)))).

Definition wireguard_peer_from_row (x : PeerKey * WireGuardPeerRow)
    : result DbError WireGuardPeerRecord :=
  let '((code, peer_id), w) := x in
  _ ← ensure (length (pw_public_key w) =? 32)%nat BadRow;
  _ ← ensure ((pw_enabled w =? 0) || (pw_enabled w =? 1)) BadRow;
  Ok (mkWireGuardPeerRecord code peer_id (pw_public_key w) (pw_enabled w =? 1) (pw_created_at w)
        (pw_updated_at w)).

Definition load_wireguard_peers (code : string) : DBM (list WireGuardPeerRecord) :=
  db_pool (
    rows ← query (λ d, order_by (λ a b, text_leb a.1.2 b.1.2)
                   (select (λ k _, bool_decide (k.1 = code)) (wireguard_peers d)));
    db_lift (collect wireguard_peer_from_row rows)).

(** [.map(f).transpose()] on an optional row. *)
Definition opt_row {A B} (f : A → result DbError B) (row : option A) : result DbError (option B) :=
  match row with Some x => y ← f x; Ok (Some y) | None => Ok None end.

Definition load_wireguard_peer (code peer_id : string) : DBM (option WireGuardPeerRecord) :=
  db_pool (
    row ← query (λ d, pair (code, peer_id) <$> wireguard_peers d !! (code, peer_id));
    db_lift (opt_row wireguard_peer_from_row row)).

Definition load_wireguard_peer_by_public_key (key : bytes) : DBM (option WireGuardPeerRecord) :=
  db_pool (
    row ← query (λ d, head (select (λ _ w, bool_decide (pw_public_key w = key)) (wireguard_peers d)));
    db_lift (opt_row wireguard_peer_from_row row)).

Definition set_wireguard_peer_enabled (code peer_id : string) (enabled : bool) (updated_at : Z)
    : DBM bool :=
  db_pool (exec (λ d,
    match wireguard_peers d !! (code, peer_id) with
    | None => Ok (false, d)
    | Some w => Ok (true, with_wireguard_peers (<[(code, peer_id) :=
                  mkWireGuardPeerRow (pw_public_key w) (if enabled then 1 else 0) (pw_created_at w)
                    updated_at]> (wireguard_peers d)) d)
    end)).

Definition route_of (code peer_id : string) (k : string * string * string) : bool :=
  bool_decide (k.1 = (code, peer_id)).

(** The children of the peer are deleted before the peer. *)
Definition delete_wireguard_peer (code peer_id : string) : DBM WireGuardPeerDeleteResult :=
  db_pool (atomically (
    _ ← exec (λ d, Ok (tt, with_profiles (wireguard_peer_profiles d)
               (delete_where (λ k _, route_of code peer_id k) (wireguard_peer_routes d))
               (wireguard_peer_secrets d) d));
    _ ← exec (λ d, Ok (tt, with_profiles (wireguard_peer_profiles d) (wireguard_peer_routes d)
               (delete (code, peer_id) (wireguard_peer_secrets d)) d));
    _ ← exec (λ d, Ok (tt, with_profiles (delete (code, peer_id) (wireguard_peer_profiles d))
               (wireguard_peer_routes d) (wireguard_peer_secrets d) d));
    removed ← exec (λ d, Ok (is_some (wireguard_peers d !! (code, peer_id)),
                with_wireguard_peers (delete (code, peer_id) (wireguard_peers d)) d));
    released ← exec (λ d, Ok (is_some (ip_allocations d !! peer_key code peer_id),
                 with_allocations (delete (peer_key code peer_id) (ip_allocations d)) d));
    mret (mkWireGuardPeerDeleteResult removed released))).

Definition reserve_wireguard_peer_ip (code peer_id : string) (ip : Ipv4Addr) : DBM unit :=
  if_open tt (exec (λ d,
    t ← upsert_allocation (peer_key code peer_id) (ipv4_to_string ip) (ip_allocations d);
    Ok (tt, with_allocations t d))).

Definition release_wireguard_peer_ip (code peer_id : string) : DBM bool :=
  if_open false (exec (λ d,
    Ok (is_some (ip_allocations d !! peer_key code peer_id),
        with_allocations (delete (peer_key code peer_id) (ip_allocations d)) d))).

(** [WireGuardPeerIpAllocation] is the pair of a peer and its address. *)
Definition load_wireguard_peer_ip_allocations (code : string) : DBM (list (string * Ipv4Addr)) :=
  if_open [] (
    rows ← query (λ d, order_by (λ a b, text_leb a.1.2 b.1.2)
             (select (λ k _, bool_decide (k.1 = (code, "wireguard_peer"%string))) (ip_allocations d)));
    db_lift (collect (λ x, ip ← parse_ip x.2; Ok (x.1.2, ip)) rows)).

(** ** The server's identity *)

Definition key_checks (r : EncryptedKey) : bool :=
  (ek_format_version r =? 1) && (0 <? ek_key_version r) && (length (ek_nonce r) =? 24)%nat
  && (length (ek_ciphertext r) =? 48)%nat && (length (ek_public_key r) =? 32)%nat.

Definition load_wireguard_server_identity : DBM (option EncryptedKey) :=
  query wireguard_server_identity.

(** OR IGNORE skips the row on any violated constraint. *)
Definition insert_wireguard_server_identity_if_absent (r : EncryptedKey) : DBM bool :=
  exec (λ d,
    if is_some (wireguard_server_identity d) || negb (key_checks r) then Ok (false, d)
    else Ok (true, with_identity (Some r) d)).

Definition update_identity (current replacement : EncryptedKey) (d : Database)
    : result DbError (Z * Database) :=
  if bool_decide (wireguard_server_identity d = Some current) then
    _ ← ensure (key_checks replacement) Constraint;
    Ok (1, with_identity (Some replacement) d)
  else Ok (0, d).

Definition replace_wireguard_server_identity (current replacement : EncryptedKey) : DBM unit :=
  rows ← exec (update_identity current replacement);
  db_lift (ensure (rows =? 1) IdentityChanged).

(** ** Peer secrets *)

Record EncryptedWireGuardPeerSecret := mkPeerSecret {
  sc_network_code : string; sc_peer_id : string; sc_key : EncryptedKey }.

Definition load_wireguard_peer_secret (code peer_id : string)
    : DBM (option EncryptedWireGuardPeerSecret) :=
  db_pool (query (λ d, mkPeerSecret code peer_id <$> wireguard_peer_secrets d !! (code, peer_id))).

Definition load_all_wireguard_peer_secrets : DBM (list EncryptedWireGuardPeerSecret) :=
  query (λ d, (λ x, mkPeerSecret x.1.1 x.1.2 x.2) <$>
    order_by (λ a b : PeerKey * EncryptedKey, if bool_decide (a.1.1 = b.1.1) then text_leb a.1.2 b.1.2
                    else text_leb a.1.1 b.1.1) (map_to_list (wireguard_peer_secrets d))).

(** UPDATE wireguard_peer_secrets SET (all but created_at) WHERE ...; the answer
    is the number of rows. *)
Definition update_secret (s : EncryptedWireGuardPeerSecret) (d : Database)
    : result DbError (Z * Database) :=
  match wireguard_peer_secrets d !! (sc_network_code s, sc_peer_id s) with
  | None => Ok (0, d)
  | Some old =>
      _ ← ensure (key_checks (sc_key s)) Constraint;
      let k := sc_key s in
      Ok (1, with_profiles (wireguard_peer_profiles d) (wireguard_peer_routes d)
               (<[(sc_network_code s, sc_peer_id s) :=
                    mkEncryptedKey (ek_format_version k) (ek_key_version k) (ek_nonce k)
                      (ek_ciphertext k) (ek_public_key k) (ek_created_at old) (ek_updated_at k)]>
                  (wireguard_peer_secrets d)) d)
  end.

Fixpoint update_secrets (l : list EncryptedWireGuardPeerSecret) : DBM unit :=
  match l with
  | [] => mret tt
  | s :: l =>
      rows ← exec (update_secret s);
      _ ← db_lift (ensure (rows =? 1) SecretGone);
      update_secrets l
  end.

Definition replace_wireguard_identity_and_peer_secrets (current replacement : EncryptedKey)
    (secrets : list EncryptedWireGuardPeerSecret) : DBM unit :=
  atomically (
    rows ← exec (update_identity current replacement);
    _ ← db_lift (ensure (rows =? 1) IdentityChanged);
    update_secrets secrets).

(** ** Peer profiles *)

Section Profiles.
Context {NL : Ipv4NetLib} {NT : Ipv4NetText} {DJ : DnsJson}.

Record WireGuardPeerRouteRecord := mkPeerRoute { rt_lan_network : Ipv4Net; rt_vnt_cli_ip : Ipv4Addr }.

Record WireGuardPeerProfileRecord := mkPeerProfile {
  pf_network_code : string; pf_peer_id : string; pf_dns_servers : option (list IpAddr);
  pf_persistent_keepalive : Z; pf_routes : list WireGuardPeerRouteRecord;
  pf_config_available : bool; pf_created_at : Z; pf_updated_at : Z }.

Record WireGuardRuntimePeer := mkRuntimePeer {
  wr_network_code : string; wr_peer_id : string; wr_public_key : bytes; wr_ip : Ipv4Addr;
  wr_routes : list WireGuardPeerRouteRecord }.

(** FOREIGN KEY(network_code, peer_id) REFERENCES wireguard_peers. *)
Definition peer_exists (k : PeerKey) (d : Database) : bool := is_some (wireguard_peers d !! k).

Definition upsert_profile (p : WireGuardPeerProfileRecord) (d : Database)
    : result DbError (unit * Database) :=
  let k := (pf_network_code p, pf_peer_id p) in
  let dns := dns_to_json <$> pf_dns_servers p in
  let set_row w := Ok (tt, with_profiles (<[k := w]> (wireguard_peer_profiles d))
                         (wireguard_peer_routes d) (wireguard_peer_secrets d) d) in
  _ ← ensure ((0 <=? pf_persistent_keepalive p) && (pf_persistent_keepalive p <=? 65535)) Constraint;
  match wireguard_peer_profiles d !! k with
  | Some old => set_row (mkProfileRow dns (pf_persistent_keepalive p) (fw_created_at old)
                           (pf_updated_at p))
  | None =>
      _ ← ensure (peer_exists k d) Constraint;
      set_row (mkProfileRow dns (pf_persistent_keepalive p) (pf_created_at p) (pf_updated_at p))
  end.

Definition insert_route (code peer_id : string) (sort_order : Z) (r : WireGuardPeerRouteRecord)
    (d : Database) : result DbError (unit * Database) :=
  let k := (code, peer_id, net_to_string (rt_lan_network r)) in
  _ ← ensure (negb (is_some (wireguard_peer_routes d !! k))) Constraint;
  _ ← ensure (peer_exists (code, peer_id) d) Constraint;
  Ok (tt, with_profiles (wireguard_peer_profiles d)
            (<[k := mkRouteRow (ipv4_to_string (rt_vnt_cli_ip r)) sort_order]>
               (wireguard_peer_routes d)) (wireguard_peer_secrets d) d).

Fixpoint insert_routes (code peer_id : string) (sort_order : Z) (l : list WireGuardPeerRouteRecord)
    : DBM unit :=
  match l with
  | [] => mret tt
  | r :: l =>
      _ ← exec (insert_route code peer_id sort_order r);
      insert_routes code peer_id (sort_order + 1) l
  end.

Definition upsert_secret (s : EncryptedWireGuardPeerSecret) (d : Database)
    : result DbError (unit * Database) :=
  let k := (sc_network_code s, sc_peer_id s) in
  let set_row w := Ok (tt, with_profiles (wireguard_peer_profiles d) (wireguard_peer_routes d)
                         (<[k := w]> (wireguard_peer_secrets d)) d) in
  _ ← ensure (key_checks (sc_key s)) Constraint;
  match wireguard_peer_secrets d !! k with
  | Some old =>
      let x := sc_key s in
      set_row (mkEncryptedKey (ek_format_version x) (ek_key_version x) (ek_nonce x)
                 (ek_ciphertext x) (ek_public_key x) (ek_created_at old) (ek_updated_at x))
  | None => _ ← ensure (peer_exists k d) Constraint; set_row (sc_key s)
  end.

Definition save_wireguard_peer_profile (p : WireGuardPeerProfileRecord)
    (secret : option EncryptedWireGuardPeerSecret) : DBM unit :=
  db_pool (atomically (
    _ ← exec (upsert_profile p);
    _ ← exec (λ d, Ok (tt, with_profiles (wireguard_peer_profiles d)
               (delete_where (λ k _, route_of (pf_network_code p) (pf_peer_id p) k)
                  (wireguard_peer_routes d)) (wireguard_peer_secrets d) d));
    _ ← insert_routes (pf_network_code p) (pf_peer_id p) 0 (pf_routes p);
    match secret with
    | Some s => exec (upsert_secret s)
    | None => mret tt
    end)).

(** SELECT lan_network, vnt_cli_ip FROM wireguard_peer_routes WHERE ... ORDER BY
    sort_order, lan_network. *)
Definition select_routes (code peer_id : string) (d : Database)
    : list (string * string * string * RouteRow) :=
  order_by (λ a b : string * string * string * RouteRow,
              if rw_sort_order a.2 =? rw_sort_order b.2 then text_leb a.1.2 b.1.2
              else rw_sort_order a.2 <=? rw_sort_order b.2)
    (select (λ k _, route_of code peer_id k) (wireguard_peer_routes d)).

Definition route_of_row (x : string * string * string * RouteRow)
    : result DbError WireGuardPeerRouteRecord :=
  lan ← ok_or (net_parse x.1.2) BadRow;
  ip ← parse_ip (rw_vnt_cli_ip x.2);
  Ok (mkPeerRoute lan ip).

Definition load_wireguard_peer_profile (code peer_id : string)
    : DBM (option WireGuardPeerProfileRecord) :=
  db_pool (
    row ← query (λ d, (λ w, (w, wireguard_peer_profiles d !! (code, peer_id),
                             is_some (wireguard_peer_secrets d !! (code, peer_id))))
                        <$> wireguard_peers d !! (code, peer_id));
    match row with
    | None => mret None
    | Some (w, pr, available) =>
        dns ← db_lift (opt_row (λ text, ok_or (dns_from_json text) BadRow) (pr ≫= fw_dns_servers));
        rows ← query (select_routes code peer_id);
        routes ← db_lift (collect route_of_row rows);
        mret (Some (mkPeerProfile code peer_id dns
          (wrap 16 (default 25 (fw_persistent_keepalive <$> pr))) routes available
          (default (pw_created_at w) (fw_created_at <$> pr))
          (default (pw_updated_at w) (fw_updated_at <$> pr))))
    end).

(** [p INNER JOIN ip_allocations a]: the enabled peer with the key, and its
    address. *)
Definition load_wireguard_runtime_peer_by_public_key (key : bytes)
    : DBM (option WireGuardRuntimePeer) :=
  db_pool (
    row ← query (λ d, head (omap (λ x : PeerKey * WireGuardPeerRow,
            pair x <$> ip_allocations d !! peer_key x.1.1 x.1.2)
            (select (λ _ w, bool_decide (pw_public_key w = key) && (pw_enabled w =? 1))
               (wireguard_peers d))));
    match row with
    | None => mret None
    | Some ((code, peer_id), w, text) =>
        _ ← db_lift (ensure (length (pw_public_key w) =? 32)%nat BadRow);
        rows ← query (select_routes code peer_id);
        routes ← db_lift (collect route_of_row rows);
        ip ← db_lift (parse_ip text);
        mret (Some (mkRuntimePeer code peer_id (pw_public_key w) ip
          (sort_by_key (λ r, - net_prefix_len (rt_lan_network r)) routes)))
    end).
End Profiles.

(** ** Cluster leases *)

Section Cluster.
Context {NL : Ipv4NetLib}.

Definition request_key (q : ClusterLeaseRequest) : OwnerKey :=
  (cq_network_code q, cq_owner_type q, cq_owner_id q).

Definition lease_ips (t : gmap OwnerKey ClusterLeaseRow) : gmap OwnerKey string := lw_ip <$> t.

(** Some other owner has the address, in the cluster or locally. *)
Definition ensure_cluster_ip_available (q : ClusterLeaseRequest) (ip : Ipv4Addr) : DBM unit :=
  occupied ← query (λ d,
    row_exists (λ k w, bool_decide (k.1.1 = cq_network_code q)
                       && bool_decide (lw_ip w = ipv4_to_string ip)
                       && negb (bool_decide (k.1.2 = cq_owner_type q) && bool_decide (k.2 = cq_owner_id q)))
      (cluster_leases d)
    || row_exists (λ k text, bool_decide (k.1.1 = cq_network_code q)
                       && bool_decide (text = ipv4_to_string ip)
                       && negb (bool_decide (k.1.2 = cq_owner_type q) && bool_decide (k.2 = cq_owner_id q)))
         (ip_allocations d));
  db_lift (ensure (negb occupied) (AddressTaken ip)).

Definition validate_cluster_candidate (network : Ipv4Net) (gateway ip : Ipv4Addr)
    : result DbError unit :=
  _ ← ensure (net_contains network ip) NotInNetwork;
  ensure (negb (ip =? net_network network) && negb (ip =? net_broadcast network)
          && negb (ip =? gateway)) ReservedAddress.

(** The loop over the host addresses; an address whose check fails for any
    reason is passed over. *)
Fixpoint select_address (q : ClusterLeaseRequest) (n : nat) (raw : Z) : DBM (option Ipv4Addr) :=
  match n with
  | O => mret None
  | S n =>
      if raw =? cq_gateway q then select_address q n (raw + 1)
      else λ c, match ensure_cluster_ip_available q raw c with
                | (Ok _, c) => (Ok (Some raw), c)
                | (Err _, c) => select_address q n (raw + 1) c
                end
  end.

(** UPDATE cluster_state SET revision = revision + 1 ... RETURNING revision.
    Past the largest integer SQLite's sum is a real number, on which [get]
    panics before the transaction commits. *)
Definition advance_revision (authority_id : string) (now : Z) : DBM Z :=
  exec (λ d,
    match cluster_state d with
    | None => Err RowNotFound
    | Some s =>
        if i64_max <=? cs_revision s then Err RevisionOverflow
        else Ok (i64_as_u64 (cs_revision s + 1),
                 with_cluster_state (Some (mkClusterStateRow authority_id (cs_revision s + 1) now)) d)
    end).

(** [now.saturating_add(secs.max(10).min(i64::MAX as u64) as i64)]. *)
Definition lease_expiry (q : ClusterLeaseRequest) (now : Z) : Z :=
  if cq_static_reservation q then 0
  else Z.min (now + Z.min (Z.max (cq_lease_duration_secs q) 10) i64_max) i64_max.

(** INSERT INTO cluster_leases ... ON CONFLICT(primary key) DO UPDATE. *)
Definition upsert_lease (k : OwnerKey) (w : ClusterLeaseRow) (d : Database)
    : result DbError (unit * Database) :=
  _ ← ensure (owner_checks k) Constraint;
  _ ← ensure (0 <=? lw_revision w) Constraint;
  _ ← ensure (negb (held_by_other k (lw_ip w) (lease_ips (cluster_leases d)))) Constraint;
  Ok (tt, with_cluster_leases (<[k := w]> (cluster_leases d)) d).

Definition expired_lease (now : Z) (_ : OwnerKey) (w : ClusterLeaseRow) : bool :=
  (lw_static_reservation w =? 0) && (0 <? lw_expires_at w) && (lw_expires_at w <=? now).

Definition acquire_cluster_lease (q : ClusterLeaseRequest) (now : Z) : DBM ClusterLeaseGrant :=
  db_pool (
    _ ← db_lift (ensure (owner_type_ok (cq_owner_type q)) UnsupportedOwner);
    _ ← db_lift (ensure (negb (str_blank (cq_owner_id q))) EmptyOwner);
    _ ← db_lift (ensure (net_contains (cq_network q) (cq_gateway q)
                         && negb (cq_gateway q =? net_network (cq_network q))
                         && negb (cq_gateway q =? net_broadcast (cq_network q))) BadGateway);
    atomically (
      _ ← exec (λ d, Ok (tt, with_cluster_leases
                 (delete_where (expired_lease now) (cluster_leases d)) d));
      existing ← query (λ d, lw_ip <$> cluster_leases d !! request_key q);
      existing_ip ← db_lift (opt_row parse_ip existing);
      local_owner_ip ←
        match existing_ip with
        | None =>
            row ← query (λ d, ip_allocations d !! request_key q);
            db_lift (opt_row parse_ip row)
        | Some _ => mret None
        end;
      candidate ←
        match union (union (cq_requested_ip q) existing_ip) local_owner_ip with
        | Some ip =>
            _ ← db_lift (validate_cluster_candidate (cq_network q) (cq_gateway q) ip);
            _ ← ensure_cluster_ip_available q ip;
            mret ip
        | None =>
            let first := u32_add (net_network (cq_network q)) 1 in
            let last := net_broadcast (cq_network q) in
            selected ← select_address q (Z.to_nat (last - first)) first;
            db_lift (ok_or selected Exhausted)
        end;
      revision ← advance_revision (cq_authority_id q) now;
      let expires_at := lease_expiry q now in
      _ ← exec (upsert_lease (request_key q)
                 (mkClusterLeaseRow (ipv4_to_string candidate) (cq_authority_id q)
                    (cq_origin_server_id q) (u64_as_i64 revision) expires_at
                    (if cq_static_reservation q then 1 else 0) now));
      mret (mkClusterLeaseGrant candidate revision expires_at))).

Definition release_cluster_lease (code owner_type owner_id authority_id : string) (now : Z) : DBM Z :=
  db_pool (atomically (
    rows ← exec (λ d, Ok (is_some (cluster_leases d !! (code, owner_type, owner_id)),
             with_cluster_leases (delete (code, owner_type, owner_id) (cluster_leases d)) d));
    if (rows : bool) then advance_revision authority_id now
    else
      state ← query cluster_state;
      db_lift (ok_or (i64_as_u64 ∘ cs_revision <$> state) RowNotFound))).

Definition key_leb (a b : OwnerKey) : bool :=
  if bool_decide (a.1.1 = b.1.1) then
    if bool_decide (a.1.2 = b.1.2) then text_leb a.2 b.2 else text_leb a.1.2 b.1.2
  else text_leb a.1.1 b.1.1.

Definition local_allocation (x : OwnerKey * string * NetworkRow) : result DbError LocalIpAllocation :=
  let '((code, owner_type, owner_id), text, n) := x in
  gateway ← parse_ip (nw_gateway n);
  network ← ok_or (net_new (u32_sub gateway 1) (wrap 8 (nw_netmask n))) BadRow;
  ip ← parse_ip text;
  Ok (mkLocalIpAllocation code owner_type owner_id ip network gateway
        (i64_as_u64 (Z.max (nw_lease_duration n) 10))).

(** [ip_allocations INNER JOIN networks]. *)
Definition load_local_ip_allocations : DBM (list LocalIpAllocation) :=
  db_pool (
    rows ← query (λ d, omap (λ x : OwnerKey * string, pair x <$> networks d !! x.1.1.1)
             (order_by (λ a b, key_leb a.1 b.1) (map_to_list (ip_allocations d))));
    db_lift (collect local_allocation rows)).
End Cluster.

End Db.
