(* ===== verification/DbFacts.v ===== *)
(** The invariant of the database and the lemmas the properties of [Vault.v]
    and [Storage.v] rest on.

    [db_inv] is what the constraints and triggers of the schema maintain
    together with the program; [all_or_nothing] says that a call that fails
    changes nothing. *)

From S2P Require Import Prelude Libs Std Lease NetState Service Peer Sql Db.
From stdpp Require Import base gmap strings list sorting.
From Stdlib Require Import ZArith Lia.

Local Open Scope Z_scope.

(** ** The invariant, table by table *)

(** UNIQUE(network_code, ip). *)
Definition unique_ip (t : gmap OwnerKey string) : Prop :=
  ∀ k1 k2 ip, t !! k1 = Some ip → t !! k2 = Some ip → k1.1.1 = k2.1.1 → k1 = k2.

Record alloc_inv (ds : gmap (string * string) DeviceRow) (t : gmap OwnerKey string) : Prop := {
  ai_unique : unique_ip t;
  ai_checks k ip : t !! k = Some ip → owner_checks k = true;
  (** The triggers: a device's address is mirrored, and nothing else is. *)
  ai_mirror code dev : t !! device_key code dev = ds !! (dev, code) ≫= dv_ip
}.

Record cluster_tables_inv (t : gmap OwnerKey ClusterLeaseRow) (st : option ClusterStateRow) : Prop := {
  cl_unique : unique_ip (Db.lease_ips t);
  cl_checks k w : t !! k = Some w → owner_checks k = true;
  cl_state : ∃ s, st = Some s ∧ 0 ≤ cs_revision s ≤ i64_max ∧
               ∀ k w, t !! k = Some w → 0 ≤ lw_revision w ≤ cs_revision s
}.

Record peer_tables_inv (ps : gmap PeerKey WireGuardPeerRow) (fs : gmap PeerKey ProfileRow)
    (rs : gmap (string * string * string) RouteRow) (ss : gmap PeerKey EncryptedKey) : Prop := {
  pi_keys k1 k2 w1 w2 : ps !! k1 = Some w1 → ps !! k2 = Some w2 →
    pw_public_key w1 = pw_public_key w2 → k1 = k2;
  pi_row k w : ps !! k = Some w →
    text_nonempty k.2 = true ∧ length (pw_public_key w) = 32%nat ∧ (pw_enabled w = 0 ∨ pw_enabled w = 1);
  pi_profiles k w : fs !! k = Some w → is_Some (ps !! k) ∧ 0 ≤ fw_persistent_keepalive w ≤ 65535;
  pi_routes k w : rs !! k = Some w → is_Some (ps !! k.1);
  pi_secrets k w : ss !! k = Some w → is_Some (ps !! k) ∧ Db.key_checks w = true
}.

Record db_inv (d : Database) : Prop := {
  di_open : pool_open d = true;
  di_alloc : alloc_inv (devices d) (ip_allocations d);
  di_cluster : cluster_tables_inv (cluster_leases d) (cluster_state d);
  di_peers : peer_tables_inv (wireguard_peers d) (wireguard_peer_profiles d)
               (wireguard_peer_routes d) (wireguard_peer_secrets d);
  di_identity r : wireguard_server_identity d = Some r → Db.key_checks r = true
}.

(** ** Calls that fail change nothing; calls that succeed keep the invariant *)

Definition all_or_nothing {A} (m : DBM A) : Prop :=
  ∀ c, match m c with (Err _, c') => contents c' = contents c | (Ok _, _) => True end.
Definition read_only {A} (m : DBM A) : Prop := ∀ c, contents (m c).2 = contents c.
Definition keeps {A} (I : Database → Prop) (m : DBM A) : Prop :=
  ∀ c, I (contents c) → match m c with (Ok _, c') => I (contents c') | (Err _, _) => True end.

Module CallFacts.
Lemma exec_cases {A} (f : Database → result DbError (A * Database)) c :
  (∃ a d, f (contents c) = Ok (a, d) ∧ exec f c = (Ok a, mkConn d (tail (faults c)))) ∨
  (∃ e, exec f c = (Err e, mkConn (contents c) (tail (faults c)))).
Proof.
  unfold exec, stmt. destruct (faults c) as [|[] fs]; simpl; [|by right; eexists|];
    destruct (f (contents c)) as [[a d]|e]; [left|right|left|right]; eauto.
Qed.

Lemma exec_atomic {A} (f : Database → result DbError (A * Database)) : all_or_nothing (exec f).
Proof. intros c. destruct (exec_cases f c) as [(a & d & _ & ->)|(e & ->)]; done. Qed.

Lemma exec_keeps {A} I (f : Database → result DbError (A * Database)) :
  (∀ d a d', I d → f d = Ok (a, d') → I d') → keeps I (exec f).
Proof. intros H c Hc. destruct (exec_cases f c) as [(a & d & Hf & ->)|(e & ->)]; [|done]. by eapply H. Qed.

Lemma query_read_only {A} (f : Database → A) : read_only (query f).
Proof. intros c. unfold query. destruct (exec_cases (λ d, Ok (f d, d)) c) as [(a & d & [= <- <-] & ->)|(e & ->)]; done. Qed.

Lemma lift_read_only {A} (r : result DbError A) : read_only (db_lift r : DBM A).
Proof. by intros c. Qed.
Lemma ret_read_only {A} (a : A) : read_only (mret a : DBM A).
Proof. by intros c. Qed.

Lemma bind_read_only {A B} (m : DBM A) (k : A → DBM B) :
  read_only m → (∀ a, read_only (k a)) → read_only (m ≫= k).
Proof.
  intros Hm Hk c. specialize (Hm c). unfold mbind, DB_bind.
  destruct (m c) as [[a|e] c']; [by rewrite (Hk a c')|done].
Qed.

Lemma read_only_atomic {A} (m : DBM A) : read_only m → all_or_nothing m.
Proof. intros H c. specialize (H c). by destruct (m c) as [[a|e] c']. Qed.

Lemma read_only_keeps {A} I (m : DBM A) : read_only m → keeps I m.
Proof. intros H c Hc. specialize (H c). destruct (m c) as [[a|e] c']; [|done]. simpl in H. by rewrite H. Qed.

Lemma bind_atomic {A B} (m : DBM A) (k : A → DBM B) :
  read_only m → (∀ a, all_or_nothing (k a)) → all_or_nothing (m ≫= k).
Proof.
  intros Hm Hk c. specialize (Hm c). unfold mbind, DB_bind.
  destruct (m c) as [[a|e] c']; [|done]. specialize (Hk a c').
  destruct (k a c') as [[b|e] c'']; [done|]. by rewrite Hk.
Qed.

Lemma bind_keeps {A B} I (m : DBM A) (k : A → DBM B) :
  keeps I m → (∀ a, keeps I (k a)) → keeps I (m ≫= k).
Proof.
  intros Hm Hk c Hc. specialize (Hm c Hc). unfold mbind, DB_bind.
  destruct (m c) as [[a|e] c']; [|done]. by apply Hk.
Qed.

Lemma if_open_atomic {A} (a : A) m : all_or_nothing m → all_or_nothing (if_open a m).
Proof. intros H c. unfold if_open. destruct (pool_open _); [apply H|done]. Qed.
Lemma if_open_keeps {A} I (a : A) m : keeps I m → keeps I (if_open a m).
Proof. intros H c Hc. unfold if_open. destruct (pool_open _); [by apply H|done]. Qed.
Lemma db_pool_atomic {A} (m : DBM A) : all_or_nothing m → all_or_nothing (db_pool m).
Proof. intros H c. unfold db_pool. destruct (pool_open _); [apply H|done]. Qed.
Lemma db_pool_keeps {A} I (m : DBM A) : keeps I m → keeps I (db_pool m).
Proof. intros H c Hc. unfold db_pool. destruct (pool_open _); [by apply H|done]. Qed.

(** The outcome of a transaction. *)
Lemma atomically_cases {A} (m : DBM A) c :
  (∃ a c1 c2 c3, contents c1 = contents c ∧ m c1 = (Ok a, c2) ∧ contents c3 = contents c2 ∧
     atomically m c = (Ok a, c3)) ∨
  (∃ e c', contents c' = contents c ∧ atomically m c = (Err e, c')).
Proof.
  unfold atomically, transaction.
  destruct (exec_cases (λ d, Ok (tt, d)) c) as [(a & d & [= <- <-] & H)|(e & H)];
    unfold exec in H; rewrite H; [|right; eexists _, _; by split; [|reflexivity]].
  destruct (m _) as [[b|e] c2] eqn:Hm; [|right; eexists _, _; by split; [|done]].
  destruct (exec_cases (λ d, Ok (tt, d)) c2) as [(a & d & [= <- <-] & H2)|(e & H2)];
    unfold exec in H2; rewrite H2.
  - left. eexists _, _, _, _. split; [|split; [exact Hm|split; [|reflexivity]]]; done.
  - right. eexists _, _. split; [|reflexivity]. done.
Qed.

Lemma atomically_atomic {A} (m : DBM A) : all_or_nothing (atomically m).
Proof.
  intros c. destruct (atomically_cases m c) as [(a & c1 & c2 & c3 & _ & _ & _ & ->)|(e & c' & H & ->)]; done.
Qed.

Lemma atomically_keeps {A} I (m : DBM A) : keeps I m → keeps I (atomically m).
Proof.
  intros H c Hc. destruct (atomically_cases m c) as [(a & c1 & c2 & c3 & E1 & E2 & E3 & ->)|(e & c' & _ & ->)]; [|done].
  rewrite <- E1 in Hc. specialize (H c1 Hc). rewrite E2 in H. by rewrite E3.
Qed.
End CallFacts.

#[export] Hint Resolve CallFacts.exec_atomic CallFacts.query_read_only CallFacts.lift_read_only
  CallFacts.ret_read_only CallFacts.read_only_atomic CallFacts.read_only_keeps CallFacts.bind_read_only
  CallFacts.if_open_atomic CallFacts.if_open_keeps CallFacts.db_pool_atomic CallFacts.db_pool_keeps
  CallFacts.atomically_atomic CallFacts.atomically_keeps : db.

(** ** The statements keep the invariant of their tables *)

Module TableFacts.
Lemma ensure_ok {E} (b : bool) (e : E) : ensure b e = Ok tt ↔ b = true.
Proof. by destruct b. Qed.

Lemma held_by_other_false k ip t :
  held_by_other k ip t = false ↔ ∀ k', t !! k' = Some ip → k'.1.1 = k.1.1 → k' = k.
Proof.
  unfold held_by_other. rewrite row_exists_false. split.
  - intros H k' Hk' He. specialize (H k' ip Hk'). rewrite !bool_decide_eq_true_2 in H by done. simpl in H.
    by destruct (bool_decide (k' = k)) eqn:E; [apply bool_decide_eq_true in E|].
  - intros H k' ip' Hk'. destruct (bool_decide_reflect (k'.1.1 = k.1.1)) as [He|]; [|done].
    destruct (bool_decide_reflect (ip' = ip)) as [->|]; [|done]. simpl.
    by rewrite bool_decide_eq_true_2 by (by apply H).
Qed.

Lemma unique_insert k ip t :
  unique_ip t → held_by_other k ip t = false → unique_ip (<[k := ip]> t).
Proof.
  intros Hu Hh k1 k2 ip' H1 H2 Hc. rewrite held_by_other_false in Hh.
  apply lookup_insert_Some in H1 as [[? ?]|[? H1]], H2 as [[? ?]|[? H2]]; subst.
  - done.
  - symmetry. by apply Hh.
  - by apply Hh.
  - by eapply Hu.
Qed.

Lemma unique_sub t t' : unique_ip t → (∀ k ip, t' !! k = Some ip → t !! k = Some ip) → unique_ip t'.
Proof. intros Hu Hs k1 k2 ip H1 H2. by apply (Hu k1 k2 ip); apply Hs. Qed.

Lemma insert_allocation_ok k ip t t' :
  insert_allocation k ip t = Ok t' ↔
  owner_checks k = true ∧ t !! k = None ∧ held_by_other k ip t = false ∧ t' = <[k := ip]> t.
Proof.
  unfold insert_allocation, ensure. destruct (owner_checks k); [|naive_solver].
  destruct (t !! k) as [x|]; [naive_solver|]. destruct (held_by_other k ip t); naive_solver.
Qed.

Lemma upsert_allocation_ok k ip t t' :
  upsert_allocation k ip t = Ok t' ↔
  owner_checks k = true ∧ held_by_other k ip t = false ∧ t' = <[k := ip]> t.
Proof.
  unfold upsert_allocation, ensure. destruct (owner_checks k); [|naive_solver].
  destruct (held_by_other k ip t); naive_solver.
Qed.

(** Both triggers: the device's old row goes, its new address is entered. *)
Lemma trigger_ok code dev ip t t' :
  (devices_ip_allocation_insert code dev ip t = Ok t' ∧ t !! device_key code dev = None) ∨
  devices_ip_allocation_update code dev ip t = Ok t' →
  t' !! device_key code dev = ip ∧ (∀ k, k ≠ device_key code dev → t' !! k = t !! k) ∧
  (unique_ip t → unique_ip t') ∧
  ((∀ k ip, t !! k = Some ip → owner_checks k = true) → ∀ k ip, t' !! k = Some ip → owner_checks k = true).
Proof.
  intros H.
  assert (match ip with
          | Some ip => insert_allocation (device_key code dev) ip (delete (device_key code dev) t)
          | None => Ok (delete (device_key code dev) t) end = Ok t') as Hu.
  { destruct H as [[H Hn]|H]; [|done]. rewrite delete_id by done. done. }
  clear H. destruct ip as [ip|]; [|simplify_eq].
  - apply insert_allocation_ok in Hu as (Hc & _ & Hh & ->). split_and!.
    + apply lookup_insert_eq.
    + intros k Hk. by rewrite lookup_insert_ne, lookup_delete_ne by done.
    + intros Hu. apply unique_insert; [|done]. eapply unique_sub; [done|].
      intros k x [_ ?]%lookup_delete_Some. done.
    + intros Ha k x [[<- _]|[_ [_ Hk]%lookup_delete_Some]]%lookup_insert_Some; [done|eauto].
  - split_and!.
    + apply lookup_delete_eq.
    + intros k Hk. by rewrite lookup_delete_ne by done.
    + intros Hu. eapply unique_sub; [done|]. intros k x [_ ?]%lookup_delete_Some. done.
    + intros Ha k x [_ Hk]%lookup_delete_Some. eauto.
Qed.

Lemma device_key_inj c1 d1 c2 d2 : device_key c1 d1 = device_key c2 d2 ↔ c1 = c2 ∧ d1 = d2.
Proof. unfold device_key. naive_solver. Qed.
Lemma device_peer_key c1 d1 c2 d2 : device_key c1 d1 ≠ peer_key c2 d2.
Proof. unfold device_key, peer_key. intros [=]. Qed.

Lemma alloc_set_device ds t code dev w t' :
  alloc_inv ds t →
  (devices_ip_allocation_insert code dev (dv_ip w) t = Ok t' ∧ ds !! (dev, code) = None) ∨
  devices_ip_allocation_update code dev (dv_ip w) t = Ok t' →
  alloc_inv (<[(dev, code) := w]> ds) t'.
Proof.
  intros [Hu Hc Hm] H. destruct (trigger_ok code dev (dv_ip w) t t') as (H1 & H2 & H3 & H4).
  { destruct H as [[H Hn]|H]; [left|by right]. split; [done|]. by rewrite Hm, Hn. }
  split; [by apply H3|by apply H4|]. intros c d.
  destruct (decide ((c, d) = (code, dev))) as [[= -> ->]|Hne].
  - by rewrite lookup_insert_eq, H1.
  - rewrite lookup_insert_ne, H2, Hm by (rewrite ?device_key_inj; naive_solver). done.
Qed.

Lemma alloc_delete_device ds t code dev :
  alloc_inv ds t → alloc_inv (delete (dev, code) ds) (devices_ip_allocation_delete code dev t).
Proof.
  intros [Hu Hc Hm]. unfold devices_ip_allocation_delete. split.
  - eapply unique_sub; [done|]. intros k x [_ ?]%lookup_delete_Some. done.
  - intros k x [_ Hk]%lookup_delete_Some. eauto.
  - intros c d. destruct (decide ((c, d) = (code, dev))) as [[= -> ->]|Hne].
    + by rewrite !lookup_delete_eq.
    + rewrite !lookup_delete_ne by (rewrite ?device_key_inj; naive_solver). apply Hm.
Qed.

Lemma alloc_delete_peer ds t code p : alloc_inv ds t → alloc_inv ds (delete (peer_key code p) t).
Proof.
  intros [Hu Hc Hm]. split.
  - eapply unique_sub; [done|]. intros k x [_ ?]%lookup_delete_Some. done.
  - intros k x [_ Hk]%lookup_delete_Some. eauto.
  - intros c d. rewrite lookup_delete_ne; [apply Hm|]. intros E. by eapply device_peer_key.
Qed.

Lemma alloc_insert_peer ds t code p ip :
  alloc_inv ds t → owner_checks (peer_key code p) = true →
  held_by_other (peer_key code p) ip t = false → alloc_inv ds (<[peer_key code p := ip]> t).
Proof.
  intros [Hu Hc Hm] Hk Hh. split.
  - by apply unique_insert.
  - intros k x [[<- _]|[_ ?]]%lookup_insert_Some; eauto.
  - intros c d. rewrite lookup_insert_ne; [apply Hm|]. intros E. symmetry in E. by eapply device_peer_key.
Qed.

Lemma lease_ips_Some t k ip : Db.lease_ips t !! k = Some ip ↔ ∃ w, t !! k = Some w ∧ lw_ip w = ip.
Proof. unfold Db.lease_ips. rewrite lookup_fmap_Some. naive_solver. Qed.

Lemma cluster_sub t t' st :
  cluster_tables_inv t st → (∀ k w, t' !! k = Some w → t !! k = Some w) → cluster_tables_inv t' st.
Proof.
  intros [Hu Hc (s & Hs & Hr & Hw)] Hsub. split.
  - eapply unique_sub; [done|]. intros k ip (w & Hk & E)%lease_ips_Some. apply lease_ips_Some. eauto.
  - eauto.
  - exists s. eauto.
Qed.
End TableFacts.

(** ** Every call of the database *)

Section Ops.
Context {NL : Ipv4NetLib} {NT : Ipv4NetText} {DJ : DnsJson}.

Inductive DbOp :=
| SaveNet (r : NetworkRecord)
| SaveNetIfNotExists (r : NetworkRecord)
| UpdateNet (code gateway : string) (netmask lease_duration : Z)
| DeleteNet (code : string)
| SaveDev (r : DeviceRecord)
| ReleaseDevIp (code device_id : string)
| DeleteDev (code device_id : string)
| DeleteDevs (code : string)
| SavePeerServerIfNotExists (r : Db.PeerServerRecord)
| SavePeerServer (r : Db.PeerServerRecord)
| DeletePeerServer (server_addr : string)
| InsertPeer (r : WireGuardPeerRecord)
| InsertPeerWithIp (r : WireGuardPeerRecord) (ip : Ipv4Addr)
| SetPeerEnabled (code peer_id : string) (enabled : bool) (updated_at : Z)
| DeletePeer (code peer_id : string)
| ReservePeerIp (code peer_id : string) (ip : Ipv4Addr)
| ReleasePeerIp (code peer_id : string)
| SaveProfile (p : Db.WireGuardPeerProfileRecord) (secret : option Db.EncryptedWireGuardPeerSecret)
| InsertIdentity (r : EncryptedKey)
| ReplaceIdentity (current replacement : EncryptedKey)
| ReplaceIdentityAndSecrets (current replacement : EncryptedKey)
    (secrets : list Db.EncryptedWireGuardPeerSecret)
| AcquireLease (q : ClusterLeaseRequest) (now : Z)
| ReleaseLease (code owner_type owner_id authority_id : string) (now : Z).

(** The call without its answer. *)
Definition void {A} (m : DBM A) : DBM unit := _ ← m; mret tt.

Definition run (op : DbOp) : DBM unit :=
  match op with
  | SaveNet r => Db.save_network r
  | SaveNetIfNotExists r => void (Db.save_network_if_not_exists r)
  | UpdateNet code gateway netmask lease => void (Db.update_network code gateway netmask lease)
  | DeleteNet code => void (Db.delete_network code)
  | SaveDev r => Db.save_or_update_device r
  | ReleaseDevIp code dev => Db.release_device_ip code dev
  | DeleteDev code dev => void (Db.delete_device code dev)
  | DeleteDevs code => void (Db.delete_devices_by_network code)
  | SavePeerServerIfNotExists r => void (Db.save_peer_server_if_not_exists r)
  | SavePeerServer r => Db.save_peer_server r
  | DeletePeerServer a => void (Db.delete_peer_server a)
  | InsertPeer r => Db.insert_wireguard_peer r
  | InsertPeerWithIp r ip => Db.insert_wireguard_peer_with_ip r ip
  | SetPeerEnabled code p e t => void (Db.set_wireguard_peer_enabled code p e t)
  | DeletePeer code p => void (Db.delete_wireguard_peer code p)
  | ReservePeerIp code p ip => Db.reserve_wireguard_peer_ip code p ip
  | ReleasePeerIp code p => void (Db.release_wireguard_peer_ip code p)
  | SaveProfile p s => Db.save_wireguard_peer_profile p s
  | InsertIdentity r => void (Db.insert_wireguard_server_identity_if_absent r)
  | ReplaceIdentity r1 r2 => Db.replace_wireguard_server_identity r1 r2
  | ReplaceIdentityAndSecrets r1 r2 l => Db.replace_wireguard_identity_and_peer_secrets r1 r2 l
  | AcquireLease q now => void (Db.acquire_cluster_lease q now)
  | ReleaseLease code ot oi a now => void (Db.release_cluster_lease code ot oi a now)
  end.

(** A sequence of calls; the callers go on after an error. *)
Definition run_all (ops : list DbOp) (c : Conn Database) : Conn Database :=
  fold_left (λ c op, (run op c).2) ops c.
End Ops.

Module OpFacts.
Section OpFacts.
Context {NL : Ipv4NetLib} {NT : Ipv4NetText} {DJ : DnsJson}.
Import CallFacts TableFacts.

(** *** Failure *)

Lemma void_atomic {A} (m : DBM A) : all_or_nothing m → all_or_nothing (void m).
Proof. intros H c. specialize (H c). unfold void, mbind, DB_bind. by destruct (m c) as [[a|e] c']. Qed.
Lemma void_keeps {A} I (m : DBM A) : keeps I m → keeps I (void m).
Proof. intros H c Hc. specialize (H c Hc). unfold void, mbind, DB_bind. by destruct (m c) as [[a|e] c']. Qed.

(** A statement that reports zero rows has changed nothing. *)
Lemma exec_ensure_atomic f e :
  (∀ d n d', f d = Ok (n, d') → n ≠ 1 → d' = d) →
  all_or_nothing (n ← exec f; db_lift (ensure (n =? 1) e) : DBM unit).
Proof.
  intros H c. unfold mbind, DB_bind. destruct (exec_cases f c) as [(n & d & Hf & ->)|(e' & ->)]; [|done].
  unfold db_lift. destruct (Z.eqb_spec n 1); simpl; [done|]. by apply (H _ _ _ Hf).
Qed.

Lemma insert_peer_row_ok r d n d' :
  Db.insert_peer_row r d = Ok (n, d') →
  (n = 0 ∧ d' = d ∧ networks d !! wp_network_code r = None) ∨
  (n = 1 ∧ is_Some (networks d !! wp_network_code r) ∧ text_nonempty (wp_peer_id r) = true ∧
   length (wp_public_key r) = 32%nat ∧ wireguard_peers d !! (wp_network_code r, wp_peer_id r) = None ∧
   (∀ k w, wireguard_peers d !! k = Some w → pw_public_key w ≠ wp_public_key r) ∧
   d' = with_wireguard_peers (<[(wp_network_code r, wp_peer_id r) := mkWireGuardPeerRow (wp_public_key r)
          (if wp_enabled r then 1 else 0) (wp_created_at r) (wp_updated_at r)]> (wireguard_peers d)) d).
Proof.
  unfold Db.insert_peer_row. destruct (networks d !! _) as [x|] eqn:En; [|naive_solver].
  unfold ensure. destruct (text_nonempty _); [|done]. destruct (Nat.eqb_spec (length (wp_public_key r)) 32); [|done].
  destruct (wireguard_peers d !! _) eqn:Ep; [done|]. cbn [is_some negb mbind result_bind].
  destruct (row_exists _ _) eqn:Er; [done|]. intros [= <- <-]. right. split_and!; eauto.
  intros k w Hk E. rewrite row_exists_false in Er. specialize (Er k w Hk). by rewrite bool_decide_eq_true_2 in Er.
Qed.

Lemma insert_identity_ok r d b d' :
  (if is_some (wireguard_server_identity d) || negb (Db.key_checks r) then Ok (false, d)
   else Ok (true, with_identity (Some r) d) : result DbError _) = Ok (b, d') →
  d' = d ∨ (Db.key_checks r = true ∧ d' = with_identity (Some r) d).
Proof.
  destruct (is_some _); [naive_solver|]. destruct (Db.key_checks r); naive_solver.
Qed.

Lemma update_identity_ok r1 r2 d n d' :
  Db.update_identity r1 r2 d = Ok (n, d') →
  (n = 0 ∧ d' = d) ∨
  (n = 1 ∧ wireguard_server_identity d = Some r1 ∧ Db.key_checks r2 = true ∧ d' = with_identity (Some r2) d).
Proof.
  unfold Db.update_identity. destruct (bool_decide_reflect (wireguard_server_identity d = Some r1)); [|naive_solver].
  unfold ensure. destruct (Db.key_checks r2); [|done]. intros [= <- <-]. naive_solver.
Qed.

Lemma run_atomic op : all_or_nothing (run op).
Proof.
  destruct op; simpl; try apply void_atomic; eauto with db.
  - apply db_pool_atomic, bind_atomic; [auto with db|]. intros _. apply exec_ensure_atomic.
    intros d n d' H Hn. apply insert_peer_row_ok in H as [(-> & -> & _)|(-> & _)]; done.
  - apply bind_atomic; auto with db.
  - apply exec_ensure_atomic. intros d n d' H Hn. apply update_identity_ok in H as [(-> & ->)|(-> & _)]; done.
  - apply db_pool_atomic. do 3 (apply bind_atomic; [auto with db|intros _]). auto with db.
Qed.

(** *** Success *)

(** Changing tables of one group leaves the others' invariants alone. *)
Lemma inv_networks x d : db_inv d → db_inv (with_networks x d).
Proof. by intros []. Qed.
Lemma inv_peer_servers x d : db_inv d → db_inv (with_peer_servers x d).
Proof. by intros []. Qed.
Lemma inv_devices ds t d : db_inv d → alloc_inv ds t → db_inv (with_devices ds t d).
Proof. by intros []. Qed.
Lemma inv_leases t d : db_inv d → cluster_tables_inv t (cluster_state d) → db_inv (with_cluster_leases t d).
Proof. by intros []. Qed.
Lemma inv_identity r d : db_inv d → Db.key_checks r = true → db_inv (with_identity (Some r) d).
Proof. intros [] H. split; try done. by intros ? [= <-]. Qed.
Lemma inv_peers ps fs rs ss d :
  db_inv d → peer_tables_inv ps fs rs ss → db_inv (with_profiles fs rs ss (with_wireguard_peers ps d)).
Proof. by intros []. Qed.
Lemma inv_profiles fs rs ss d :
  db_inv d → peer_tables_inv (wireguard_peers d) fs rs ss → db_inv (with_profiles fs rs ss d).
Proof. by intros []. Qed.
Lemma inv_wireguard_peers ps d :
  db_inv d → peer_tables_inv ps (wireguard_peer_profiles d) (wireguard_peer_routes d) (wireguard_peer_secrets d) →
  db_inv (with_wireguard_peers ps d).
Proof. by intros []. Qed.

Lemma delete_devices_inv ds t code :
  alloc_inv ds t →
  alloc_inv (delete_where (λ k _, bool_decide (k.2 = code)) ds)
    (fold_left (λ t x, devices_ip_allocation_delete code x.1.1 t)
       (select (λ k (_ : DeviceRow), bool_decide (k.2 = code)) ds) t).
Proof.
  set (l := select _ _). intros Ha.
  assert (∀ l ds t, alloc_inv ds t →
    alloc_inv (fold_left (λ ds x, delete (x.1.1, code) ds) l ds)
      (fold_left (λ t (x : string * string * DeviceRow), devices_ip_allocation_delete code x.1.1 t) l t)) as Hf.
  { clear. induction l as [|x l IH]; intros ds t Ha; [done|]. simpl. by apply IH, alloc_delete_device. }
  specialize (Hf l ds t Ha).
  assert (fold_left (λ ds x, delete (x.1.1, code) ds) l ds = delete_where (λ k _, bool_decide (k.2 = code)) ds)
    as <-; [|done].
  assert (∀ (l : list (string * string * DeviceRow)) (ds : gmap (string * string) DeviceRow) k,
    fold_left (λ ds x, delete (x.1.1, code) ds) l ds !! k =
    if bool_decide (k ∈ (λ x, (x.1.1, code)) <$> l) then None else ds !! k) as Hlk.
  { clear. induction l as [|x l IH]; intros ds k; simpl; [done|]. rewrite IH.
    destruct (bool_decide_reflect (k ∈ (λ x, (x.1.1, code)) <$> l)) as [Hin|Hin].
    - rewrite bool_decide_eq_true_2; [done|]. by right.
    - destruct (decide (k = (x.1.1, code))) as [->|Hne].
      + rewrite bool_decide_eq_true_2 by constructor. apply lookup_delete_eq.
      + rewrite bool_decide_eq_false_2 by (rewrite elem_of_cons; naive_solver). by rewrite lookup_delete_ne. }
  apply map_eq. intros [dev c]. rewrite Hlk, lookup_delete_where.
  destruct (bool_decide_reflect ((dev, c) ∈ (λ x, (x.1.1, code)) <$> l)) as [Hin|Hin].
  - apply list_elem_of_fmap in Hin as (y & [= -> ->] & Hin). destruct y as [[dev' c'] w].
    apply elem_of_select in Hin as [Hin Hc]. apply bool_decide_eq_true in Hc. simpl in *. subst c'.
    rewrite Hin. by rewrite bool_decide_eq_true_2.
  - destruct (ds !! (dev, c)) as [w|] eqn:E; [|done]. simpl. rewrite bool_decide_eq_false_2; [done|].
    intros ->. apply Hin, list_elem_of_fmap. exists ((dev, code), w). split; [done|].
    apply elem_of_select. split; [done|]. by apply bool_decide_eq_true.
Qed.

Lemma insert_peer_row_inv r d n d' : db_inv d → Db.insert_peer_row r d = Ok (n, d') → db_inv d'.
Proof.
  intros Hi [(_ & -> & _)|(-> & _ & Ht & Hl & Hn & Hk & ->)]%insert_peer_row_ok; [done|].
  apply inv_wireguard_peers; [done|]. destruct (di_peers _ Hi) as [H1 H2 H3 H4 H5]. split.
  - intros k1 k2 w1 w2 [[<- <-]|[? E1]]%lookup_insert_Some [[<- <-]|[? E2]]%lookup_insert_Some E; simpl in *;
      [done| | |by eapply H1]; exfalso; by (eapply Hk; [|done]; done) || by eapply Hk.
  - intros k w [[<- <-]|[? E1]]%lookup_insert_Some; [|eauto]. simpl. destruct (wp_enabled r); auto.
  - intros k w E. destruct (H3 k w E) as [? ?]. split; [|done]. apply lookup_insert_is_Some'. by right.
  - intros k w E. apply lookup_insert_is_Some'. right. eauto.
  - intros k w E. destruct (H5 k w E) as [? ?]. split; [|done]. apply lookup_insert_is_Some'. by right.
Qed.

Lemma set_enabled_inv k w e t d :
  db_inv d → wireguard_peers d !! k = Some w →
  db_inv (with_wireguard_peers (<[k := mkWireGuardPeerRow (pw_public_key w) (if e : bool then 1 else 0)
            (pw_created_at w) t]> (wireguard_peers d)) d).
Proof.
  intros Hi Hk. apply inv_wireguard_peers; [done|]. destruct (di_peers _ Hi) as [H1 H2 H3 H4 H5]. split.
  - intros k1 k2 w1 w2 [[<- <-]|[? E1]]%lookup_insert_Some [[<- <-]|[? E2]]%lookup_insert_Some E; simpl in *;
      [done| | |]; by eapply H1.
  - intros k' w' [[<- <-]|[? E1]]%lookup_insert_Some; [|eauto]. simpl. destruct (H2 k w Hk) as (? & ? & _).
    destruct e; auto.
  - intros k' w' E. destruct (H3 k' w' E) as [? ?]. split; [|done]. apply lookup_insert_is_Some'. by right.
  - intros k' w' E. apply lookup_insert_is_Some'. right. eauto.
  - intros k' w' E. destruct (H5 k' w' E) as [? ?]. split; [|done]. apply lookup_insert_is_Some'. by right.
Qed.
End OpFacts.
End OpFacts.

(** ** Inverting a call that succeeded *)

Module RunFacts.
Lemma bind_ok {A B} (m : DBM A) (k : A → DBM B) c b c' :
  (m ≫= k) c = (Ok b, c') → ∃ a c1, m c = (Ok a, c1) ∧ k a c1 = (Ok b, c').
Proof. unfold mbind, DB_bind. destruct (m c) as [[a|e] c1]; [eauto|done]. Qed.

Lemma ret_ok {A} (a b : A) c c' : (mret a : DBM A) c = (Ok b, c') → b = a ∧ c' = c.
Proof. by intros [= -> ->]. Qed.

Lemma lift_ok {A} (r : result DbError A) c b c' : (db_lift r : DBM A) c = (Ok b, c') → r = Ok b ∧ c' = c.
Proof. by intros [= -> ->]. Qed.

Lemma exec_ok {A} (f : Database → result DbError (A * Database)) c a c' :
  exec f c = (Ok a, c') → f (contents c) = Ok (a, contents c').
Proof. destruct (CallFacts.exec_cases f c) as [(x & d & Hf & ->)|(e & ->)]; [|done]. by intros [= -> <-]. Qed.

Lemma query_ok {A} (f : Database → A) c a c' :
  query f c = (Ok a, c') → a = f (contents c) ∧ contents c' = contents c.
Proof. intros H%exec_ok. by simplify_eq. Qed.

Lemma if_open_ok {A} (x : A) m c a c' :
  if_open x m c = (Ok a, c') → pool_open (contents c) = true → m c = (Ok a, c').
Proof. unfold if_open. intros H Ho. by rewrite Ho in H. Qed.

Lemma db_pool_ok {A} (m : DBM A) c a c' :
  db_pool m c = (Ok a, c') → pool_open (contents c) = true ∧ m c = (Ok a, c').
Proof. unfold db_pool. by destruct (pool_open _). Qed.

Lemma atomically_ok {A} (m : DBM A) c a c' :
  atomically m c = (Ok a, c') →
  ∃ c1 c2, contents c1 = contents c ∧ m c1 = (Ok a, c2) ∧ contents c' = contents c2.
Proof.
  destruct (CallFacts.atomically_cases m c) as [(b & c1 & c2 & c3 & ? & ? & ? & ->)|(e & c3 & _ & ->)]; [|done].
  intros [= -> ->]. eauto.
Qed.
End RunFacts.

(** Take a successful call [H : m c = (Ok a, c')] apart, statement by statement. *)
Ltac db_run H :=
  match type of H with
  | (_ ≫= _) ?c = (Ok _, _) =>
      let x := fresh "x" in let c1 := fresh "c" in let H1 := fresh "H" in
      apply RunFacts.bind_ok in H as (x & c1 & H1 & H); db_run H1; cbv beta in H; db_run H
  | (mret _) _ = (Ok _, _) =>
      let E := fresh "E" in apply RunFacts.ret_ok in H as [E H]; subst
  | (db_lift (ensure _ _)) _ = (Ok _, _) =>
      let E := fresh "E" in apply RunFacts.lift_ok in H as [E H]; apply TableFacts.ensure_ok in E; subst
  | (db_lift _) _ = (Ok _, _) =>
      let E := fresh "E" in apply RunFacts.lift_ok in H as [E H]; subst
  | (exec _) _ = (Ok _, _) => apply RunFacts.exec_ok in H; cbv beta in H
  | (query _) _ = (Ok _, _) =>
      let E := fresh "E" in apply RunFacts.query_ok in H as [E H]; cbv beta in E; subst
  | (atomically _) ?c = (Ok _, _) =>
      let c1 := fresh "c" in let c2 := fresh "c" in let E1 := fresh "E" in let E2 := fresh "E" in
      apply RunFacts.atomically_ok in H as (c1 & c2 & E1 & H & E2); db_run H
  | (db_pool _) _ = (Ok _, _) =>
      let E := fresh "E" in apply RunFacts.db_pool_ok in H as [E H]; db_run H
  | _ => idtac
  end.

Module ClusterFacts.
Section ClusterFacts.
Context {NL : Ipv4NetLib}.
Implicit Types (q : ClusterLeaseRequest).

(** Nobody but the owner of [q] has the address. *)
Definition free_for q (ip : Ipv4Addr) (t : gmap OwnerKey ClusterLeaseRow) (a : gmap OwnerKey string) : Prop :=
  (∀ k w, t !! k = Some w → k.1.1 = cq_network_code q → lw_ip w = ipv4_to_string ip → k = Db.request_key q) ∧
  (∀ k, a !! k = Some (ipv4_to_string ip) → k.1.1 = cq_network_code q → k = Db.request_key q).

Definition occupied q (ip : Ipv4Addr) (d : Database) : bool :=
  row_exists (λ k w, bool_decide (k.1.1 = cq_network_code q)
                     && bool_decide (lw_ip w = ipv4_to_string ip)
                     && negb (bool_decide (k.1.2 = cq_owner_type q) && bool_decide (k.2 = cq_owner_id q)))
    (cluster_leases d)
  || row_exists (λ k text, bool_decide (k.1.1 = cq_network_code q)
                     && bool_decide (text = ipv4_to_string ip)
                     && negb (bool_decide (k.1.2 = cq_owner_type q) && bool_decide (k.2 = cq_owner_id q)))
       (ip_allocations d).

Lemma other_owner_false (k : OwnerKey) q (b : bool) :
  bool_decide (k.1.1 = cq_network_code q) && b
    && negb (bool_decide (k.1.2 = cq_owner_type q) && bool_decide (k.2 = cq_owner_id q)) = false ↔
  (k.1.1 = cq_network_code q → b = true → k = Db.request_key q).
Proof.
  destruct k as [[kc kt] ko]. unfold Db.request_key. simpl.
  destruct (bool_decide_reflect (kc = cq_network_code q)); [|naive_solver].
  destruct b; [|naive_solver]. simpl.
  destruct (bool_decide_reflect (kt = cq_owner_type q)), (bool_decide_reflect (ko = cq_owner_id q));
    simpl; naive_solver.
Qed.

Lemma occupied_false q ip d :
  occupied q ip d = false ↔ free_for q ip (cluster_leases d) (ip_allocations d).
Proof.
  unfold occupied, free_for. rewrite orb_false_iff, !row_exists_false.
  setoid_rewrite other_owner_false. setoid_rewrite bool_decide_eq_true. naive_solver.
Qed.

Lemma ensure_available_eq q ip :
  Db.ensure_cluster_ip_available q ip =
  (o ← query (occupied q ip); db_lift (ensure (negb o) (AddressTaken ip))).
Proof. done. Qed.

Lemma ensure_available_ok q ip c c' :
  Db.ensure_cluster_ip_available q ip c = (Ok tt, c') →
  contents c' = contents c ∧ free_for q ip (cluster_leases (contents c)) (ip_allocations (contents c)).
Proof.
  rewrite ensure_available_eq. intros H. db_run H. apply negb_true_iff in E.
  split; [done|]. by apply occupied_false.
Qed.

Lemma ensure_available_read_only q ip : read_only (Db.ensure_cluster_ip_available q ip).
Proof. rewrite ensure_available_eq. auto with db. Qed.

Lemma select_address_ok q n raw c r c' :
  Db.select_address q n raw c = (r, c') →
  contents c' = contents c ∧ ∃ o, r = Ok o ∧
  ∀ ip, o = Some ip → raw ≤ ip < raw + Z.of_nat n ∧ ip ≠ cq_gateway q ∧
    free_for q ip (cluster_leases (contents c)) (ip_allocations (contents c)).
Proof.
  revert raw c. induction n as [|n IH]; intros raw c; cbn [Db.select_address].
  - intros [= <- <-]. split; [done|]. by exists None.
  - destruct (Z.eqb_spec raw (cq_gateway q)) as [->|Hg].
    + intros (E & o & -> & Ho)%IH. split; [done|]. exists o. split; [done|].
      intros ip ->. destruct (Ho ip eq_refl) as ([??] & ? & ?). split; [lia|done].
    + pose proof (ensure_available_read_only q raw c) as Hro.
      destruct (Db.ensure_cluster_ip_available q raw c) as [[[]|e] c1] eqn:He; simpl in Hro.
      * intros [= <- <-]. split; [done|]. eexists. split; [done|]. intros ip [= <-].
        split; [lia|]. split; [done|]. by apply ensure_available_ok in He as [_ ?].
      * intros (E & o & -> & Ho)%IH. rewrite Hro in E, Ho. split; [done|]. exists o. split; [done|].
        intros ip ->. destruct (Ho ip eq_refl) as ([??] & ? & ?). split; [lia|done].
Qed.

(** The address a request asks for, directly or because the owner has it. *)
Definition preferred q (t : gmap OwnerKey ClusterLeaseRow) (a : gmap OwnerKey string) : option Ipv4Addr :=
  cq_requested_ip q ∪ ((lw_ip <$> t !! Db.request_key q) ≫= ipv4_parse)
    ∪ (if is_some (t !! Db.request_key q) then None else a !! Db.request_key q ≫= ipv4_parse).

Definition usable_candidate q (ip : Ipv4Addr) : Prop :=
  net_contains (cq_network q) ip = true ∧ ip ≠ net_network (cq_network q) ∧
  ip ≠ net_broadcast (cq_network q) ∧ ip ≠ cq_gateway q.

Definition lease_row q (ip : Ipv4Addr) (revision now : Z) : ClusterLeaseRow :=
  mkClusterLeaseRow (ipv4_to_string ip) (cq_authority_id q) (cq_origin_server_id q) revision
    (Db.lease_expiry q now) (if cq_static_reservation q then 1 else 0) now.

Lemma opt_row_ok text o :
  Db.opt_row parse_ip text = Ok o → o = text ≫= ipv4_parse ∧ is_some o = is_some text.
Proof.
  unfold Db.opt_row, parse_ip. destruct text as [s|]; [|by intros [= <-]].
  simpl. destruct (ipv4_parse s); simpl; [|done]. by intros [= <-].
Qed.

Lemma validate_candidate_ok q ip :
  Db.validate_cluster_candidate (cq_network q) (cq_gateway q) ip = Ok tt ↔ usable_candidate q ip.
Proof.
  unfold Db.validate_cluster_candidate, usable_candidate, ensure.
  destruct (net_contains _ _); [|naive_solver]. simpl.
  destruct (Z.eqb_spec ip (net_network (cq_network q))); [naive_solver|].
  destruct (Z.eqb_spec ip (net_broadcast (cq_network q))); [naive_solver|].
  destruct (Z.eqb_spec ip (cq_gateway q)); naive_solver.
Qed.

Lemma advance_revision_ok a now c r c' :
  Db.advance_revision a now c = (Ok r, c') →
  ∃ s, cluster_state (contents c) = Some s ∧ cs_revision s < i64_max ∧ r = i64_as_u64 (cs_revision s + 1) ∧
    contents c' = with_cluster_state (Some (mkClusterStateRow a (cs_revision s + 1) now)) (contents c).
Proof.
  unfold Db.advance_revision. intros H. db_run H.
  destruct (cluster_state (contents c)) as [s|] eqn:Es; [|done]. exists s.
  destruct (Z.leb_spec i64_max (cs_revision s)); [done|]. by simplify_eq.
Qed.

Lemma upsert_lease_ok k w d u d' :
  Db.upsert_lease k w d = Ok (u, d') →
  owner_checks k = true ∧ 0 ≤ lw_revision w ∧
  held_by_other k (lw_ip w) (Db.lease_ips (cluster_leases d)) = false ∧
  d' = with_cluster_leases (<[k := w]> (cluster_leases d)) d.
Proof.
  unfold Db.upsert_lease, ensure. destruct (owner_checks k); [|done]. simpl.
  destruct (Z.leb_spec 0 (lw_revision w)); [|done]. simpl.
  destruct (held_by_other _ _ _); [done|]. simpl. intros [= <- <-]. done.
Qed.

Definition usable_gateway q : Prop :=
  net_contains (cq_network q) (cq_gateway q) = true ∧ cq_gateway q ≠ net_network (cq_network q) ∧
  cq_gateway q ≠ net_broadcast (cq_network q).

(** What a successful acquisition did. *)
Record granted q (now : Z) (d : Database) (g : ClusterLeaseGrant) (d' : Database) : Prop := {
  gr_gates : owner_type_ok (cq_owner_type q) = true ∧ str_blank (cq_owner_id q) = false ∧
    usable_gateway q;
  gr_candidate :
    let t := delete_where (Db.expired_lease now) (cluster_leases d) in
    free_for q (gr_ip g) t (ip_allocations d) ∧
    ((preferred q t (ip_allocations d) = Some (gr_ip g) ∧ usable_candidate q (gr_ip g)) ∨
     (preferred q t (ip_allocations d) = None ∧ gr_ip g ≠ cq_gateway q ∧
      u32_add (net_network (cq_network q)) 1 ≤ gr_ip g < net_broadcast (cq_network q)));
  gr_checks : owner_checks (Db.request_key q) = true;
  gr_state : ∃ s, cluster_state d = Some s ∧ cs_revision s < i64_max ∧
    gr_revision g = i64_as_u64 (cs_revision s + 1) ∧ gr_expires_at g = Db.lease_expiry q now ∧
    d' = with_cluster_leases
           (<[Db.request_key q := lease_row q (gr_ip g) (u64_as_i64 (gr_revision g)) now]>
              (delete_where (Db.expired_lease now) (cluster_leases d)))
           (with_cluster_state (Some (mkClusterStateRow (cq_authority_id q) (cs_revision s + 1) now)) d)
}.
End ClusterFacts.
End ClusterFacts.

Module StoreFacts.
Section StoreFacts.
Context {NL : Ipv4NetLib} {NT : Ipv4NetText} {DJ : DnsJson}.
Import CallFacts TableFacts OpFacts ClusterFacts.

Lemma acquire_granted q now c g c' :
  Db.acquire_cluster_lease q now c = (Ok g, c') → granted q now (contents c) g (contents c').
Proof.
  unfold Db.acquire_cluster_lease. intros H. apply RunFacts.db_pool_ok in H as [Ho H].
  apply RunFacts.bind_ok in H as (? & ? & [Hg1 ->]%RunFacts.lift_ok & H).
  apply RunFacts.bind_ok in H as (? & ? & [Hg2 ->]%RunFacts.lift_ok & H).
  apply RunFacts.bind_ok in H as (? & ? & [Hg3 ->]%RunFacts.lift_ok & H).
  destruct x, x0, x1. apply ensure_ok in Hg1. apply ensure_ok, negb_true_iff in Hg2. apply ensure_ok in Hg3.
  apply RunFacts.atomically_ok in H as (c1 & c2 & E1 & H & E2).
  apply RunFacts.bind_ok in H as ([] & c3 & H1%RunFacts.exec_ok & H).
  assert (contents c3 = with_cluster_leases (delete_where (Db.expired_lease now) (cluster_leases (contents c)))
            (contents c)) as E3 by (rewrite <- E1; by simplify_eq).
  clear H1. apply RunFacts.bind_ok in H as (text & c4 & [Ht E4]%RunFacts.query_ok & H).
  apply RunFacts.bind_ok in H as (existing & ? & [He ->]%RunFacts.lift_ok & H).
  apply opt_row_ok in He as [He Hes].
  apply RunFacts.bind_ok in H as (local & c5 & Hl & H).
  assert (contents c5 = contents c3 ∧ local = (if is_some existing then None
            else ip_allocations (contents c3) !! Db.request_key q ≫= ipv4_parse)) as [E5 Hlocal].
  { destruct existing as [x|]; [by apply RunFacts.ret_ok in Hl as [-> ->]|]. db_run Hl.
    apply opt_row_ok in E as [-> _]. by rewrite <- E4. }
  clear Hl. apply RunFacts.bind_ok in H as (cand & c6 & Hc & H).
  assert (preferred q (cluster_leases (contents c3)) (ip_allocations (contents c3)) =
          cq_requested_ip q ∪ existing ∪ local) as Hpref.
  { unfold preferred. rewrite He, Ht, Hlocal, Hes, Ht. by destruct (cluster_leases _ !! _). }
  assert (contents c6 = contents c3 ∧ free_for q cand (cluster_leases (contents c3)) (ip_allocations (contents c3)) ∧
    ((preferred q (cluster_leases (contents c3)) (ip_allocations (contents c3)) = Some cand ∧
      usable_candidate q cand) ∨
     (preferred q (cluster_leases (contents c3)) (ip_allocations (contents c3)) = None ∧ cand ≠ cq_gateway q ∧
      u32_add (net_network (cq_network q)) 1 ≤ cand < net_broadcast (cq_network q)))) as (E6 & Hfree & Hcand).
  { rewrite Hpref. destruct (cq_requested_ip q ∪ existing ∪ local) as [ip|].
    - apply RunFacts.bind_ok in Hc as ([] & ? & [Hv ->]%RunFacts.lift_ok & Hc).
      apply RunFacts.bind_ok in Hc as ([] & c7 & [E7 Hf]%ensure_available_ok & [-> ->]%RunFacts.ret_ok).
      rewrite E5 in E7, Hf. split; [done|]. split; [done|]. left. split; [done|]. by apply validate_candidate_ok.
    - cbv zeta in Hc. apply RunFacts.bind_ok in Hc as (sel & c7 & Hs & [Hx ->]%RunFacts.lift_ok).
      apply select_address_ok in Hs as (E7 & o & [= ->] & Hsel).
      destruct o as [ip|]; [|done]. injection Hx as ->. destruct (Hsel cand eq_refl) as (Hr & Hg & Hf).
      rewrite E5 in E7, Hf. split; [done|]. split; [done|]. right. split; [done|]. split; [done|]. lia. }
  apply RunFacts.bind_ok in H as (rev & c7 & (s & Hs & Hrev & -> & E7)%advance_revision_ok & H).
  cbv zeta in H. apply RunFacts.bind_ok in H as ([] & c8 & Hu%RunFacts.exec_ok & [-> ->]%RunFacts.ret_ok).
  apply upsert_lease_ok in Hu as (Hk & _ & _ & E8). cbn [lw_ip] in *.
  rewrite E7, E6, E3 in E8. rewrite E6, E3 in Hs. cbn [cluster_state with_cluster_leases] in Hs.
  rewrite E3 in Hfree, Hcand. split.
  - split_and!; [done..|]. unfold usable_gateway. apply andb_true_iff in Hg3 as [[Ha Hb]%andb_true_iff Hd].
    apply negb_true_iff, Z.eqb_neq in Hb, Hd. done.
  - cbv zeta. cbn [gr_ip]. split; [apply Hfree|apply Hcand].
  - done.
  - exists s. rewrite E2, E8. done.
Qed.

Lemma revision_roundtrip x : 0 ≤ x ≤ i64_max → u64_as_i64 (i64_as_u64 x) = x.
Proof. intros H. apply i64_u64_roundtrip. unfold i64_max in H. lia. Qed.

Lemma free_not_held (q : ClusterLeaseRequest) (ip : Ipv4Addr) (t : gmap OwnerKey ClusterLeaseRow)
    (a : gmap OwnerKey string) :
  free_for q ip t a → held_by_other (Db.request_key q) (ipv4_to_string ip) (Db.lease_ips t) = false.
Proof.
  intros [H _]. apply held_by_other_false. intros k (w & Hk & E)%lease_ips_Some Hc. by eapply H.
Qed.

Lemma cluster_advance t st s a now :
  cluster_tables_inv t st → st = Some s → cs_revision s < i64_max →
  cluster_tables_inv t (Some (mkClusterStateRow a (cs_revision s + 1) now)).
Proof.
  intros [Hu Hc (s' & -> & Hr & Hw)] [= ->] Hlt. split; [done..|]. eexists. split; [done|]. simpl.
  split; [lia|]. intros k w Hk. specialize (Hw k w Hk). lia.
Qed.

Lemma granted_inv q now d g d' : db_inv d → granted q now d g d' → db_inv d'.
Proof.
  intros Hi [_ [Hfree _] Hk (s & Hs & Hlt & Hrev & _ & ->)].
  pose proof (di_cluster _ Hi) as Hc. destruct (cl_state _ _ Hc) as (s' & Hs' & Hr & _).
  assert (s' = s) as -> by congruence.
  pose proof (cluster_sub _ (delete_where (Db.expired_lease now) (cluster_leases d)) _ Hc) as Hsub.
  specialize (Hsub ltac:(by intros k w [? _]%delete_where_Some)).
  pose proof (cluster_advance _ _ s (cq_authority_id q) now Hsub Hs Hlt) as [Hu Hch (s2 & [= <-] & Hr2 & Hw)].
  assert (u64_as_i64 (gr_revision g) = cs_revision s + 1) as Er.
  { rewrite Hrev. apply revision_roundtrip. lia. }
  split; [apply (di_open _ Hi)|apply (di_alloc _ Hi)| |apply (di_peers _ Hi)|apply (di_identity _ Hi)].
  cbn [with_cluster_leases with_cluster_state cluster_leases cluster_state]. split.
  - unfold Db.lease_ips. rewrite fmap_insert. apply unique_insert; [done|]. by eapply free_not_held.
  - intros k w [[<- _]|[_ ?]]%lookup_insert_Some; eauto.
  - eexists. split; [done|]. split; [done|]. intros k w [[_ <-]|[_ ?]]%lookup_insert_Some; [|eauto].
    simpl in *. rewrite Er. lia.
Qed.

Lemma acquire_keeps q now : keeps db_inv (Db.acquire_cluster_lease q now).
Proof.
  intros c Hc. destruct (Db.acquire_cluster_lease q now c) as [[g|e] c'] eqn:E; [|done].
  by eapply granted_inv, acquire_granted.
Qed.

Lemma release_ok code ot oi a now c r c' :
  Db.release_cluster_lease code ot oi a now c = (Ok r, c') →
  ∃ s, cluster_state (contents c) = Some s ∧
  if is_some (cluster_leases (contents c) !! (code, ot, oi)) then
    cs_revision s < i64_max ∧ r = i64_as_u64 (cs_revision s + 1) ∧
    contents c' = with_cluster_state (Some (mkClusterStateRow a (cs_revision s + 1) now))
      (with_cluster_leases (delete (code, ot, oi) (cluster_leases (contents c))) (contents c))
  else r = i64_as_u64 (cs_revision s) ∧
    contents c' = with_cluster_leases (delete (code, ot, oi) (cluster_leases (contents c))) (contents c).
Proof.
  unfold Db.release_cluster_lease. intros H. apply RunFacts.db_pool_ok in H as [_ H].
  apply RunFacts.atomically_ok in H as (c1 & c2 & E1 & H & E2).
  apply RunFacts.bind_ok in H as (b & c3 & H1%RunFacts.exec_ok & H). rewrite E1 in H1. injection H1 as <- E3.
  destruct (is_some _).
  - apply advance_revision_ok in H as (s & Hs & Hlt & -> & E4). rewrite <- E3 in Hs, E4.
    exists s. split; [done|]. split; [done|]. split; [done|]. by rewrite E2, E4.
  - apply RunFacts.bind_ok in H as (st & c4 & [-> E4]%RunFacts.query_ok & [Hr ->]%RunFacts.lift_ok).
    rewrite <- E3 in Hr. cbn [with_cluster_leases cluster_state] in Hr.
    destruct (cluster_state (contents c)) as [s|]; [|done]. exists s. split; [done|].
    injection Hr as <-. split; [done|]. by rewrite E2, E4, <- E3.
Qed.

Lemma release_keeps code ot oi a now : keeps db_inv (Db.release_cluster_lease code ot oi a now).
Proof.
  intros c Hi. destruct (Db.release_cluster_lease code ot oi a now c) as [[r|e] c'] eqn:E; [|done].
  apply release_ok in E as (s & Hs & E).
  pose proof (cluster_sub _ (delete (code, ot, oi) (cluster_leases (contents c))) _ (di_cluster _ Hi)) as Hsub.
  specialize (Hsub ltac:(by intros k w [_ ?]%lookup_delete_Some)).
  destruct (is_some _); [destruct E as (Hlt & _ & ->)|destruct E as (_ & ->)].
  - pose proof (cluster_advance _ _ s a now Hsub Hs Hlt) as Ha. destruct Hi. by split.
  - by apply inv_leases.
Qed.

(** *** Peers, profiles and secrets *)

Lemma children_sub ps fs rs ss fs' rs' ss' :
  peer_tables_inv ps fs rs ss → (∀ k w, fs' !! k = Some w → fs !! k = Some w) →
  (∀ k w, rs' !! k = Some w → rs !! k = Some w) → (∀ k w, ss' !! k = Some w → ss !! k = Some w) →
  peer_tables_inv ps fs' rs' ss'.
Proof. intros [] ???. split; eauto. Qed.

Lemma delete_peer_ok code p c r c' :
  Db.delete_wireguard_peer code p c = (Ok r, c') →
  r = mkWireGuardPeerDeleteResult (is_some (wireguard_peers (contents c) !! (code, p)))
        (is_some (ip_allocations (contents c) !! peer_key code p)) ∧
  contents c' =
    with_allocations (delete (peer_key code p) (ip_allocations (contents c)))
      (with_profiles (delete (code, p) (wireguard_peer_profiles (contents c)))
         (delete_where (λ k _, Db.route_of code p k) (wireguard_peer_routes (contents c)))
         (delete (code, p) (wireguard_peer_secrets (contents c)))
         (with_wireguard_peers (delete (code, p) (wireguard_peers (contents c))) (contents c))).
Proof.
  intros H. unfold Db.delete_wireguard_peer in H. db_run H.
  repeat match goal with
  | H : Ok (_, _) = Ok (_, contents ?x) |- _ =>
      let E := fresh "E" in injection H as ? E; symmetry in E; rewrite E in *; clear E
  end. subst. repeat match goal with H : contents _ = _ |- _ => rewrite H in *; clear H end. done.
Qed.

Lemma delete_peer_keeps code p : keeps db_inv (Db.delete_wireguard_peer code p).
Proof.
  intros c Hi. destruct (Db.delete_wireguard_peer code p c) as [[r|e] c'] eqn:H; [|done].
  apply delete_peer_ok in H as [_ ->]. unfold with_allocations.
  apply inv_devices; [|apply alloc_delete_peer, Hi]. apply inv_peers; [done|].
  destruct (di_peers _ Hi) as [H1 H2 H3 H4 H5]. split.
  - intros k1 k2 w1 w2 [_ ?]%lookup_delete_Some [_ ?]%lookup_delete_Some. by eapply H1.
  - intros k w [_ ?]%lookup_delete_Some. eauto.
  - intros k w [Hne Hk]%lookup_delete_Some. rewrite lookup_delete_ne by done. eauto.
  - intros k w [Hk Hr]%delete_where_Some. unfold Db.route_of in Hr. apply bool_decide_eq_false in Hr.
    rewrite lookup_delete_ne by done. eauto.
  - intros k w [Hne Hk]%lookup_delete_Some. rewrite lookup_delete_ne by done. eauto.
Qed.

Lemma upsert_profile_inv p d u d' : db_inv d → Db.upsert_profile p d = Ok (u, d') → db_inv d'.
Proof.
  intros Hi. unfold Db.upsert_profile, ensure.
  destruct ((0 <=? _) && _) eqn:Hb; [|done]. apply andb_true_iff in Hb as [?%Z.leb_le ?%Z.leb_le]. simpl.
  destruct (di_peers _ Hi) as [H1 H2 H3 H4 H5].
  assert (∀ w, fw_persistent_keepalive w = Db.pf_persistent_keepalive p →
    is_Some (wireguard_peers d !! (Db.pf_network_code p, Db.pf_peer_id p)) →
    db_inv (with_profiles (<[(Db.pf_network_code p, Db.pf_peer_id p) := w]> (wireguard_peer_profiles d))
              (wireguard_peer_routes d) (wireguard_peer_secrets d) d)) as Hset.
  { intros w Hw Hp. apply inv_profiles; [done|]. split; try done.
    intros k x [[<- <-]|[_ Hk]]%lookup_insert_Some; [|eauto]. rewrite Hw. done. }
  destruct (wireguard_peer_profiles d !! _) as [old|] eqn:Eo.
  - intros [= <- <-]. apply Hset; [done|]. by eapply H3.
  - unfold Db.peer_exists. destruct (wireguard_peers d !! _) eqn:Ep; [|done]. simpl.
    intros [= <- <-]. apply Hset; [done|]. by eexists.
Qed.

Lemma insert_route_inv code p n r d u d' : db_inv d → Db.insert_route code p n r d = Ok (u, d') → db_inv d'.
Proof.
  intros Hi. unfold Db.insert_route, ensure, Db.peer_exists.
  destruct (wireguard_peer_routes d !! _); [done|]. simpl.
  destruct (wireguard_peers d !! (code, p)) as [pw|] eqn:Ep; [|done]. simpl. intros [= <- <-].
  apply inv_profiles; [done|]. destruct (di_peers _ Hi). split; try done.
  intros k w [[<- _]|[_ Hk]]%lookup_insert_Some; [by eexists|eauto].
Qed.

Lemma insert_routes_keeps code p n l : keeps db_inv (Db.insert_routes code p n l).
Proof.
  revert n. induction l as [|r l IH]; intros n; simpl; [auto with db|].
  apply bind_keeps; [|auto]. apply exec_keeps. intros. by eapply insert_route_inv.
Qed.

(** Both ways a secret is written. *)
Lemma set_secret_inv k w d :
  db_inv d → is_Some (wireguard_peers d !! k) → Db.key_checks w = true →
  db_inv (with_profiles (wireguard_peer_profiles d) (wireguard_peer_routes d)
            (<[k := w]> (wireguard_peer_secrets d)) d).
Proof.
  intros Hi Hp Hc. apply inv_profiles; [done|]. destruct (di_peers _ Hi). split; try done.
  intros k' w' [[<- <-]|[_ Hk]]%lookup_insert_Some; eauto.
Qed.

Lemma upsert_secret_inv s d u d' : db_inv d → Db.upsert_secret s d = Ok (u, d') → db_inv d'.
Proof.
  intros Hi. unfold Db.upsert_secret, ensure, Db.peer_exists.
  destruct (Db.key_checks (Db.sc_key s)) eqn:Hc; [|done]. simpl.
  destruct (wireguard_peer_secrets d !! _) as [old|] eqn:Eo.
  - intros [= <- <-]. apply set_secret_inv; [done| |done]. by eapply (pi_secrets _ _ _ _ (di_peers _ Hi)).
  - destruct (wireguard_peers d !! _) eqn:Ep; [|done]. simpl. intros [= <- <-].
    apply set_secret_inv; [done|by eexists|done].
Qed.

Lemma update_secret_inv s d n d' : db_inv d → Db.update_secret s d = Ok (n, d') → db_inv d'.
Proof.
  intros Hi. unfold Db.update_secret, ensure.
  destruct (wireguard_peer_secrets d !! _) as [old|] eqn:Eo; [|by intros [= <- <-]].
  destruct (Db.key_checks (Db.sc_key s)) eqn:Hc; [|done]. simpl. intros [= <- <-].
  apply set_secret_inv; [done| |done]. by eapply (pi_secrets _ _ _ _ (di_peers _ Hi)).
Qed.

Lemma update_secrets_keeps l : keeps db_inv (Db.update_secrets l).
Proof.
  induction l as [|s l IH]; simpl; [auto with db|].
  apply bind_keeps; [apply exec_keeps; intros; by eapply update_secret_inv|]. intros n.
  apply bind_keeps; auto with db.
Qed.

Lemma update_identity_inv r1 r2 d n d' : db_inv d → Db.update_identity r1 r2 d = Ok (n, d') → db_inv d'.
Proof. intros Hi [(_ & ->)|(_ & _ & Hc & ->)]%update_identity_ok; [done|]. by apply inv_identity. Qed.

Lemma drop_routes_keeps code p :
  keeps db_inv (exec (λ d, Ok (tt, with_profiles (wireguard_peer_profiles d)
     (delete_where (λ k _, Db.route_of code p k) (wireguard_peer_routes d)) (wireguard_peer_secrets d) d))).
Proof.
  apply exec_keeps. intros d a d' Hi [= <- <-]. apply inv_profiles; [done|].
  eapply children_sub; [apply Hi|done| |done]. by intros k w [? _]%delete_where_Some.
Qed.

Lemma save_profile_keeps p s : keeps db_inv (Db.save_wireguard_peer_profile p s).
Proof.
  apply db_pool_keeps, atomically_keeps, bind_keeps; [apply exec_keeps; intros; by eapply upsert_profile_inv|].
  intros _. apply bind_keeps; [apply drop_routes_keeps|]. intros _.
  apply bind_keeps; [apply insert_routes_keeps|]. intros _.
  destruct s; [|auto with db]. apply exec_keeps. intros. by eapply upsert_secret_inv.
Qed.

Lemma insert_peer_alloc_inv code p ip d t :
  db_inv d → (insert_allocation (peer_key code p) ip (ip_allocations d) = Ok t ∨
              upsert_allocation (peer_key code p) ip (ip_allocations d) = Ok t) →
  db_inv (with_allocations t d).
Proof.
  intros Hi H.
  assert (owner_checks (peer_key code p) = true ∧ held_by_other (peer_key code p) ip (ip_allocations d) = false ∧
          t = <[peer_key code p := ip]> (ip_allocations d)) as (? & ? & ->).
  { destruct H as [(? & _ & ? & ?)%insert_allocation_ok|?%upsert_allocation_ok]; done. }
  apply inv_devices; [done|]. apply alloc_insert_peer; [apply Hi|done..].
Qed.

(** *** Every operation *)

Lemma save_device_keeps r : keeps db_inv (Db.save_or_update_device r).
Proof.
  apply if_open_keeps, exec_keeps. intros d a d' Hi H. cbv zeta in H.
  assert (∃ t, ((devices_ip_allocation_insert (r_network_code r) (r_device_id r) (r_ip r) (ip_allocations d) = Ok t
                 ∧ devices d !! (r_device_id r, r_network_code r) = None) ∨
                devices_ip_allocation_update (r_network_code r) (r_device_id r) (r_ip r) (ip_allocations d) = Ok t) ∧
          d' = with_devices (<[(r_device_id r, r_network_code r) := Db.device_row r]> (devices d)) t d)
    as (t & Ht & ->).
  { destruct (devices d !! _); unfold mbind, result_bind in H.
    - destruct (devices_ip_allocation_update _ _ _ _) as [t|] eqn:Et; [|done]. injection H as _ <-. eauto.
    - destruct (devices_ip_allocation_insert _ _ _ _) as [t|] eqn:Et; [|done]. injection H as _ <-. eauto. }
  apply inv_devices; [done|]. apply (alloc_set_device _ (ip_allocations d)); [apply Hi|exact Ht].
Qed.

Lemma release_device_keeps code dev : keeps db_inv (Db.release_device_ip code dev).
Proof.
  apply if_open_keeps, exec_keeps. intros d a d' Hi H.
  destruct (devices d !! (dev, code)) as [w|] eqn:E; [|by simplify_eq].
  simpl in H. injection H as _ <-. apply inv_devices; [done|].
  apply (alloc_set_device _ (ip_allocations d)); [apply Hi|by right].
Qed.

Lemma run_keeps op : keeps db_inv (run op).
Proof.
  destruct op; simpl; try apply void_keeps; auto using save_device_keeps, release_device_keeps,
    delete_peer_keeps, save_profile_keeps, acquire_keeps, release_keeps.
  - apply if_open_keeps, exec_keeps. intros d a d' Hi [= _ <-]. by apply inv_networks.
  - apply if_open_keeps, exec_keeps. intros d a d' Hi H.
    destruct (networks d !! _); simplify_eq; [done|by apply inv_networks].
  - apply if_open_keeps, exec_keeps. intros d a d' Hi H.
    destruct (networks d !! _); simplify_eq; [by apply inv_networks|done].
  - apply if_open_keeps, exec_keeps. intros d a d' Hi [= _ <-]. by apply inv_networks.
  - apply if_open_keeps, exec_keeps. intros d a d' Hi H.
    destruct (devices d !! _); simplify_eq; [|done]. apply inv_devices; [done|]. apply alloc_delete_device, Hi.
  - apply if_open_keeps, exec_keeps. intros d a d' Hi [= _ <-]. apply inv_devices; [done|].
    apply delete_devices_inv, Hi.
  - apply if_open_keeps, exec_keeps. intros d a d' Hi H.
    destruct (peer_server_rows d !! _); simplify_eq; [done|by apply inv_peer_servers].
  - apply if_open_keeps, exec_keeps. intros d a d' Hi [= _ <-]. by apply inv_peer_servers.
  - apply if_open_keeps, exec_keeps. intros d a d' Hi [= _ <-]. by apply inv_peer_servers.
  - apply db_pool_keeps, bind_keeps; [auto with db|]. intros _.
    apply bind_keeps; [apply exec_keeps; intros; by eapply insert_peer_row_inv|auto with db].
  - apply bind_keeps; [auto with db|]. intros _. apply db_pool_keeps, atomically_keeps, bind_keeps;
      [apply exec_keeps; intros; by eapply insert_peer_row_inv|]. intros n.
    apply bind_keeps; [auto with db|]. intros _. apply exec_keeps. intros d a d' Hi H.
    destruct (insert_allocation _ _ _) as [t|] eqn:E; [|done]. injection H as _ <-.
    eapply insert_peer_alloc_inv; [done|]. left. exact E.
  - apply db_pool_keeps, exec_keeps. intros d a d' Hi H.
    destruct (wireguard_peers d !! _) eqn:E; simplify_eq; [|done]. by apply set_enabled_inv.
  - apply if_open_keeps, exec_keeps. intros d a d' Hi H.
    destruct (upsert_allocation _ _ _) as [t|] eqn:E; [|done]. injection H as _ <-.
    eapply insert_peer_alloc_inv; [done|]. right. exact E.
  - apply if_open_keeps, exec_keeps. intros d a d' Hi [= _ <-]. apply inv_devices; [done|]. apply alloc_delete_peer, Hi.
  - apply exec_keeps. intros d a d' Hi [->|[Hc ->]]%insert_identity_ok; [done|by apply inv_identity].
  - apply bind_keeps; [apply exec_keeps; intros; by eapply update_identity_inv|auto with db].
  - apply atomically_keeps, bind_keeps; [apply exec_keeps; intros; by eapply update_identity_inv|].
    intros n. apply bind_keeps; [auto with db|]. intros _. apply update_secrets_keeps.
Qed.

Lemma run_inv op c : db_inv (contents c) → db_inv (contents (run op c).2).
Proof.
  intros Hi. pose proof (run_keeps op c Hi) as Hk. pose proof (run_atomic op c) as Ha.
  destruct (run op c) as [[u|e] c']; simpl in *; [done|by rewrite Ha].
Qed.

Lemma run_all_inv ops c : db_inv (contents c) → db_inv (contents (run_all ops c)).
Proof. revert c. induction ops as [|op ops IH]; intros c Hi; [done|]. simpl. by apply IH, run_inv. Qed.
End StoreFacts.
End StoreFacts.

(** ** Start-up *)

(** What an existing database file may hold before the migration: the tables
    the migration does not rebuild satisfy the constraints they were created
    with; a file without them has them empty. *)
Record legacy_db (d : Database) : Prop := {
  lg_closed : pool_open d = false;
  lg_alloc : unique_ip (ip_allocations d) ∧
    ∀ k ip, ip_allocations d !! k = Some ip → owner_checks k = true;
  lg_cluster : cluster_tables_inv (cluster_leases d)
    (Some (default (mkClusterStateRow "" 0 0) (cluster_state d)));
  lg_peers : peer_tables_inv (wireguard_peers d) (wireguard_peer_profiles d)
    (wireguard_peer_routes d) (wireguard_peer_secrets d);
  lg_identity r : wireguard_server_identity d = Some r → Db.key_checks r = true
}.

Module StartFacts.
Import TableFacts.

Lemma fold_err l e :
  fold_left (λ r (x : string * string * DeviceRow),
    t ← r; devices_ip_allocation_insert x.1.2 x.1.1 (dv_ip x.2) t) l (Err e) = Err e.
Proof. by induction l. Qed.

Lemma legacy_fold l ds t t' :
  alloc_inv ds t → NoDup (l.*1) → (∀ x, x ∈ l → ds !! x.1 = None) →
  fold_left (λ r (x : string * string * DeviceRow),
    t ← r; devices_ip_allocation_insert x.1.2 x.1.1 (dv_ip x.2) t) l (Ok t) = Ok t' →
  alloc_inv (list_to_map l ∪ ds) t'.
Proof.
  revert ds t. induction l as [|[[dev code] w] l IH]; intros ds t Ha Hnd Hfr; simpl.
  { intros [= <-]. by rewrite left_id by apply _. }
  simpl in Hnd. apply NoDup_cons in Hnd as [Hk Hnd].
  destruct (devices_ip_allocation_insert code dev (dv_ip w) t) as [t1|e] eqn:E; [|by rewrite fold_err].
  intros Hf. assert (ds !! (dev, code) = None) as Hn by apply (Hfr _ (list_elem_of_here _ _)).
  assert ((list_to_map l : gmap (string * string) DeviceRow) !! (dev, code) = None) as Hnl.
  { apply not_elem_of_list_to_map_1, Hk. }
  rewrite <- insert_union_l, insert_union_r by done. eapply IH; [|done| |done].
  - eapply alloc_set_device; [done|]. left. done.
  - intros x Hx. rewrite lookup_insert_ne; [apply Hfr; by right|]. intros Ex. apply Hk. rewrite Ex.
    apply list_elem_of_fmap. eauto.
Qed.

Lemma legacy_allocations_inv ds t t' :
  unique_ip t → (∀ k ip, t !! k = Some ip → owner_checks k = true) →
  Db.legacy_allocations ds (delete_where (λ k _, bool_decide (k.1.2 = "vnt_device"%string)) t) = Ok t' →
  alloc_inv ds t'.
Proof.
  intros Hu Hc H. unfold Db.legacy_allocations in H.
  eapply (legacy_fold _ ∅) in H; [by rewrite right_id, list_to_map_to_list in H by apply _| | |done].
  - split.
    + eapply unique_sub; [done|]. by intros k ip [? _]%delete_where_Some.
    + intros k ip [? _]%delete_where_Some. eauto.
    + intros code dev. rewrite lookup_delete_where, lookup_empty. simpl.
      by destruct (t !! device_key code dev).
  - apply NoDup_fst_map_to_list.
Qed.

Lemma start_inv lock c c' :
  legacy_db (contents c) → Db.init_db_pool lock c = (Ok tt, c') → db_inv (contents c').
Proof.
  intros [Hcl [Hu Hc] Hcs Hp Hid] H. unfold Db.init_db_pool in H.
  apply RunFacts.bind_ok in H as (b & c0 & Hb & H). unfold pool_is_open in Hb. injection Hb as <- <-.
  rewrite Hcl in H. destruct lock; [|done]. simpl in H.
  apply RunFacts.bind_ok in H as ([] & c1 & Ha & Hs). unfold set_pool in Hs. injection Hs as <-.
  unfold Db.apply in Ha. apply RunFacts.atomically_ok in Ha as (c2 & c3 & E2 & Ha & E3).
  apply RunFacts.bind_ok in Ha as ([] & c4 & H4%RunFacts.exec_ok & Ha).
  apply RunFacts.bind_ok in Ha as ([] & c5 & H5%RunFacts.exec_ok & H6%RunFacts.exec_ok).
  cbv beta in *. injection H4 as H4. injection H5 as H5. rewrite E2 in H4. rewrite <- H4 in H5. rewrite <- H5 in H6.
  destruct (Db.legacy_allocations _ _) as [t|] eqn:El; [|done]. injection H6 as H6.
  rewrite E3, <- H6. cbn in El. apply legacy_allocations_inv in El; [|done..].
  split; try done.
Qed.
End StartFacts.
