(* ===== verification/Storage.v ===== *)
(** Properties of the database: its invariant, the atomicity of its calls, the
    cluster leases it grants, and what the server finds in it after a restart. *)

From S2P Require Import Prelude Libs Std Lease NetState Service Peer Sql Db DbFacts.
From stdpp Require Import base gmap strings list sorting.
From Stdlib Require Import ZArith Lia Ascii.

Local Open Scope Z_scope.

(** ** The text form of an address is unique *)

Module TextFacts.
Lemma digit_char_value c : is_digit c = true → digit_char (digit_value c) = c.
Proof. destruct c as [[] [] [] [] [] [] [] []]; vm_compute; done. Qed.

Lemma digit_value_range c : is_digit c = true → 0 ≤ digit_value c < 10.
Proof. unfold is_digit, digit_value. rewrite andb_true_iff, !Z.leb_le. lia. Qed.

Fixpoint digits_text (ds : list Z) (r : string) : string :=
  match ds with [] => r | d :: ds => String (digit_char d) (digits_text ds r) end.

Lemma span_digits_inv s ds t :
  span_digits s = (ds, t) → s = digits_text ds t ∧ Forall (λ d, 0 ≤ d < 10) ds.
Proof.
  revert ds t. induction s as [|c s IH]; intros ds t; simpl; [by intros [= <- <-]|].
  destruct (is_digit c) eqn:Ed; [|by intros [= <- <-]].
  destruct (span_digits s) as [ds' t'] eqn:Es. intros [= <- <-].
  destruct (IH ds' t' eq_refl) as [-> Hf]. simpl. rewrite digit_char_value by done.
  split; [done|]. constructor; [by apply digit_value_range|done].
Qed.

Lemma digits_octet ds r :
  Forall (λ d, 0 ≤ d < 10) ds → (1 ≤ length ds ≤ 3)%nat →
  (length ds = 1%nat ∨ head ds ≠ Some 0) →
  digits_text ds r = (octet_to_string (fold_left (λ a d, a * 10 + d) ds 0) +:+ r)%string ∧
  0 ≤ fold_left (λ a d, a * 10 + d) ds 0.
Proof.
  intros Hf Hl Hz. destruct ds as [|a [|b [|c [|]]]]; simpl in Hl; try lia;
    rewrite ?Forall_cons in Hf; cbn [fold_left digits_text].
  - destruct Hf as [Ha _]. split; [|lia]. unfold octet_to_string. rewrite (proj2 (Z.ltb_lt _ _)) by lia. done.
  - destruct Hf as (Ha & Hb & _). destruct Hz as [|Hz]; [done|]. simpl in Hz.
    assert (a ≠ 0) by congruence. split; [|lia]. unfold octet_to_string.
    rewrite (proj2 (Z.ltb_ge _ _)), (proj2 (Z.ltb_lt _ _)) by lia.
    rewrite <- (Z.div_unique _ 10 a b), <- (Z.mod_unique _ 10 a b) by lia. done.
  - destruct Hf as (Ha & Hb & Hc & _). destruct Hz as [|Hz]; [done|]. simpl in Hz.
    assert (a ≠ 0) by congruence. split; [|lia]. unfold octet_to_string.
    rewrite (proj2 (Z.ltb_ge _ _)), (proj2 (Z.ltb_ge _ _)) by lia.
    rewrite <- (Z.div_unique _ 100 a (b * 10 + c)), <- (Z.div_unique _ 10 (a * 10 + b) c),
      <- (Z.mod_unique (a * 10 + b) 10 a b), <- (Z.mod_unique _ 10 (a * 10 + b) c) by lia. done.
Qed.

Lemma read_octet_inv s v t :
  read_octet s = Some (v, t) → s = (octet_to_string v +:+ t)%string ∧ 0 ≤ v ≤ 255.
Proof.
  unfold read_octet. destruct (span_digits s) as [ds r] eqn:Es. apply span_digits_inv in Es as [-> Hf].
  destruct (_ && _) eqn:Hb; [|done]. intros [= <- <-].
  rewrite !andb_true_iff, orb_true_iff, negb_true_iff, !Nat.leb_le, Nat.eqb_eq, Z.leb_le,
    bool_decide_eq_false in Hb.
  destruct Hb as [[[H1 H2] H3] H4]. destruct (digits_octet ds r Hf) as [-> ?]; [lia|done|]. done.
Qed.

Lemma ipv4_parse_inv s ip :
  ipv4_parse s = Some ip → ∃ a b c d,
    s = (octet_to_string a +:+ "." +:+ octet_to_string b +:+ "." +:+ octet_to_string c +:+ "." +:+
         octet_to_string d)%string ∧
    ip = ipv4 a b c d ∧ 0 ≤ a ≤ 255 ∧ 0 ≤ b ≤ 255 ∧ 0 ≤ c ≤ 255 ∧ 0 ≤ d ≤ 255.
Proof.
  assert (∀ s r, read_dot s = Some r → s = ("." +:+ r)%string) as Hdot.
  { intros [|x s'] r; simpl; [done|]. destruct (bool_decide_reflect (x = "."%char)); [|done]. by intros [= ->]; subst. }
  unfold ipv4_parse. destruct (read_octet s) as [[a s1]|] eqn:E1; [|done]. simpl.
  destruct (read_dot s1) as [s2|] eqn:E2; [|done]. simpl.
  destruct (read_octet s2) as [[b s3]|] eqn:E3; [|done]. simpl.
  destruct (read_dot s3) as [s4|] eqn:E4; [|done]. simpl.
  destruct (read_octet s4) as [[c s5]|] eqn:E5; [|done]. simpl.
  destruct (read_dot s5) as [s6|] eqn:E6; [|done]. simpl.
  destruct (read_octet s6) as [[d s7]|] eqn:E7; [|done]. simpl.
  destruct (bool_decide_reflect (s7 = EmptyString)) as [->|]; [|done]. intros [= <-].
  apply Hdot in E2, E4, E6. apply read_octet_inv in E1 as [-> ?], E3 as [-> ?], E5 as [-> ?], E7 as [-> ?].
  subst s1 s3 s5. exists a, b, c, d. split_and!; try lia; try done.
  assert (∀ x : string, (x +:+ "" = x)%string) as Happ.
  { intros x. induction x as [|y x IH]; [done|]. by rewrite StdFacts.append_cons, IH. }
  by rewrite Happ.
Qed.

(** Two texts that read as the same address are the same text. *)
Lemma ipv4_parse_inj s1 s2 ip : ipv4_parse s1 = Some ip → ipv4_parse s2 = Some ip → s1 = s2.
Proof.
  intros (a & b & c & d & -> & E1 & ?)%ipv4_parse_inv (a' & b' & c' & d' & -> & E2 & ?)%ipv4_parse_inv.
  unfold ipv4 in *. assert (a = a' ∧ b = b' ∧ c = c' ∧ d = d') as (-> & -> & -> & ->); [lia|done].
Qed.
End TextFacts.

(** ** The invariant and the atomicity of calls *)

Section Consistency.
Context {NL : Ipv4NetLib} {NT : Ipv4NetText} {DJ : DnsJson}.

(** C4: the database is consistent whatever happens.  Start from any file the
    migration accepts, run any calls in any order with storage failures at any
    statement: no two owners of a network share an address in the local
    allocations or in the cluster leases, each device's address is exactly the
    one mirrored for it, public keys identify peers, profiles, routes and
    secrets belong to existing peers, and no lease is newer than the cluster's
    revision. *)
Theorem database_consistent lock c0 c1 ops :
  legacy_db (contents c0) → Db.init_db_pool lock c0 = (Ok tt, c1) →
  db_inv (contents (run_all ops c1)).
Proof. intros Hl Hi. by eapply StoreFacts.run_all_inv, StartFacts.start_inv. Qed.

(** C34: a call that fails, because of a constraint, a check of the program or a
    storage failure in the middle of its transaction, leaves the database as it
    was. *)
Theorem failed_call_changes_nothing op c e c' :
  run op c = (Err e, c') → contents c' = contents c.
Proof. intros H. pose proof (OpFacts.run_atomic op c) as Ha. by rewrite H in Ha. Qed.
End Consistency.

(** ** Cluster leases *)

Module LeaseTrace.
Section LeaseTrace.
Context {NL : Ipv4NetLib} {NT : Ipv4NetText} {DJ : DnsJson}.
Import ClusterFacts StoreFacts.

(** A lease [w] of the owner [k] is still in force at [now]. *)
Definition in_force (now : Z) (w : ClusterLeaseRow) : Prop :=
  lw_static_reservation w ≠ 0 ∨ lw_expires_at w ≤ 0 ∨ now < lw_expires_at w.

(** The call leaves the lease of [k] alone: it is not about [k]'s lease, and it
    happens while the lease is in force. *)
Definition respects (k : OwnerKey) (w : ClusterLeaseRow) (op : DbOp) : Prop :=
  match op with
  | AcquireLease q now => Db.request_key q ≠ k ∧ in_force now w
  | ReleaseLease code ot oi _ _ => (code, ot, oi) ≠ k
  | _ => True
  end.

Lemma not_expired now k w : in_force now w ↔ Db.expired_lease now k w = false.
Proof.
  unfold in_force, Db.expired_lease.
  destruct (Z.eqb_spec (lw_static_reservation w) 0), (Z.ltb_spec 0 (lw_expires_at w)),
    (Z.leb_spec (lw_expires_at w) now); simpl; split; intros; try done; try lia; auto with lia.
Qed.

Definition same_leases {A} (m : DBM A) : Prop :=
  ∀ c, match m c with
       | (Ok _, c') => cluster_leases (contents c') = cluster_leases (contents c) ∧
                       cluster_state (contents c') = cluster_state (contents c)
       | (Err _, _) => True
       end.

Lemma same_leases_keeps {A} (m : DBM A) :
  (∀ t, keeps (λ d, (cluster_leases d, cluster_state d) = t) m) → same_leases m.
Proof. intros H c. specialize (H _ c eq_refl). destruct (m c) as [[a|e] c']; [|done]. by simplify_eq. Qed.

Lemma insert_routes_leases code p n l t :
  keeps (λ d, (cluster_leases d, cluster_state d) = t) (Db.insert_routes code p n l).
Proof.
  revert n. induction l as [|r l IH]; intros n; simpl; [auto with db|].
  apply CallFacts.bind_keeps; [|auto]. apply CallFacts.exec_keeps. intros d a d' Hd.
  unfold Db.insert_route, ensure. destruct (negb _); [|done]. destruct (Db.peer_exists _ _); [|done].
  by intros [= _ <-].
Qed.

Lemma update_secrets_leases l t : keeps (λ d, (cluster_leases d, cluster_state d) = t) (Db.update_secrets l).
Proof.
  induction l as [|s l IH]; simpl; [auto with db|].
  apply CallFacts.bind_keeps; [|intros n; apply CallFacts.bind_keeps; auto with db].
  apply CallFacts.exec_keeps. intros d a d' Hd. unfold Db.update_secret, ensure.
  destruct (wireguard_peer_secrets d !! _); [|by intros [= _ <-]].
  destruct (Db.key_checks _); [|done]. by intros [= _ <-].
Qed.

Ltac leases_unchanged :=
  let d := fresh "d" in let a := fresh "a" in let d' := fresh "d" in
  let Hd := fresh "Hd" in let Hf := fresh "Hf" in
  apply CallFacts.exec_keeps; intros d a d' Hd Hf;
  unfold Db.insert_peer_row, Db.update_identity, Db.upsert_profile, Db.upsert_secret, ensure,
    mbind, result_bind in Hf; cbv zeta in Hf;
  try (simplify_eq/=); repeat (case_match; simplify_eq/=); done.

Lemma run_same_leases op :
  match op with AcquireLease _ _ | ReleaseLease _ _ _ _ _ => True | _ => same_leases (run op) end.
Proof.
  destruct op; try done; apply same_leases_keeps; intros t; simpl; try apply OpFacts.void_keeps;
    repeat first
      [ apply CallFacts.if_open_keeps | apply CallFacts.db_pool_keeps | apply CallFacts.atomically_keeps
      | leases_unchanged | apply insert_routes_leases | apply update_secrets_leases
      | solve [auto with db] | apply CallFacts.bind_keeps; [|intros ?] | case_match ].
Qed.

Lemma respects_keeps k w op c :
  respects k w op → cluster_leases (contents c) !! k = Some w →
  cluster_leases (contents (run op c).2) !! k = Some w.
Proof.
  intros Hr Hk. pose proof (OpFacts.run_atomic op c) as Ha. pose proof (run_same_leases op) as Hs.
  destruct (run op c) as [[[]|e] c'] eqn:E; simpl in *; [|by rewrite Ha].
  destruct op; try (specialize (Hs c); rewrite E in Hs; by rewrite (proj1 Hs)); simpl in E, Hr;
    unfold void in E; apply RunFacts.bind_ok in E as (g & c1 & E & [_ ->]%RunFacts.ret_ok).
  - apply acquire_granted in E as [_ _ _ (s & _ & _ & _ & _ & ->)]. destruct Hr as [Hne Hf].
    cbn [with_cluster_leases cluster_leases]. rewrite lookup_insert_ne by done.
    apply delete_where_Some. split; [done|]. by apply not_expired.
  - apply release_ok in E as (s & _ & E). destruct (is_some _); [destruct E as (_ & _ & ->)|destruct E as (_ & ->)];
      cbn; by rewrite lookup_delete_ne.
Qed.

Lemma run_all_respects k w ops c :
  Forall (respects k w) ops → cluster_leases (contents c) !! k = Some w →
  cluster_leases (contents (run_all ops c)) !! k = Some w.
Proof.
  intros Hf. revert c. induction Hf as [|op ops Hr _ IH]; intros c Hk; [done|].
  simpl. by apply IH, respects_keeps.
Qed.

(** The revision of the cluster; it never goes back. *)
Definition revision (d : Database) : Z := default 0 (cs_revision <$> cluster_state d).

Lemma run_revision op c : revision (contents c) ≤ revision (contents (run op c).2).
Proof.
  pose proof (OpFacts.run_atomic op c) as Ha. pose proof (run_same_leases op) as Hs.
  destruct (run op c) as [[[]|e] c'] eqn:E; simpl in *; [|by rewrite Ha].
  unfold revision. destruct op; try (specialize (Hs c); rewrite E in Hs; by rewrite (proj2 Hs)); simpl in E;
    unfold void in E; apply RunFacts.bind_ok in E as (g & c1 & E & [_ ->]%RunFacts.ret_ok).
  - apply acquire_granted in E as [_ _ _ (s & -> & _ & _ & _ & ->)]. simpl. lia.
  - apply release_ok in E as (s & Es & E). rewrite Es.
    destruct (is_some _); [destruct E as (_ & _ & ->)|destruct E as (_ & ->)]; simpl; rewrite ?Es; simpl; lia.
Qed.

Lemma run_all_revision ops c : revision (contents c) ≤ revision (contents (run_all ops c)).
Proof.
  revert c. induction ops as [|op ops IH]; intros c; simpl; [done|].
  etrans; [apply (run_revision op)|apply IH].
Qed.

(** The grant [g] of the request [q] is in force at [now]. *)
Definition live (q : ClusterLeaseRequest) (g : ClusterLeaseGrant) (now : Z) : Prop :=
  cq_static_reservation q = true ∨ now < gr_expires_at g.

(** [op] neither renews nor releases the lease of [q], and happens while the
    grant is in force. *)
Definition leaves_alone (q : ClusterLeaseRequest) (g : ClusterLeaseGrant) (op : DbOp) : Prop :=
  match op with
  | AcquireLease q' now => Db.request_key q' ≠ Db.request_key q ∧ live q g now
  | ReleaseLease code ot oi _ _ => (code, ot, oi) ≠ Db.request_key q
  | _ => True
  end.

Lemma live_in_force q g now t1 d d' :
  granted q t1 d g d' → live q g now →
  in_force now (lease_row q (gr_ip g) (u64_as_i64 (gr_revision g)) t1).
Proof.
  intros [_ _ _ (s & _ & _ & _ & He & _)] Hl. unfold in_force, lease_row. cbn. rewrite <- He.
  destruct Hl as [->|]; [by left|auto].
Qed.

Lemma granted_revision q now d g d' :
  db_inv d → granted q now d g d' → gr_revision g = revision d + 1 ∧ revision d' = revision d + 1.
Proof.
  intros Hi [_ _ _ (s & Es & Hlt & Hr & _ & ->)]. unfold revision. rewrite Es. simpl. split; [|done].
  rewrite Hr. destruct (cl_state _ _ (di_cluster _ Hi)) as (s' & Es' & Hb & _). assert (s' = s) as -> by congruence.
  unfold i64_as_u64. apply wrap_small. unfold is_u, i64_max in *. lia.
Qed.
End LeaseTrace.
End LeaseTrace.

Section ClusterLeases.
Context {NL : Ipv4NetLib} {NLL : Ipv4NetLaws} {NT : Ipv4NetText} {DJ : DnsJson}.
Import ClusterFacts LeaseTrace.

(** C5: the lease authority never grants an address twice.  After an owner was
    granted an address, let anybody make any calls, with any storage failures,
    that neither renew nor release this lease; while the grant is in force
    every other owner of the network is granted a different address, under a
    later revision. *)
Theorem cluster_no_double_grant c0 q1 t1 g1 c1 ops q2 t2 g2 c2 :
  db_inv (contents c0) → Db.acquire_cluster_lease q1 t1 c0 = (Ok g1, c1) →
  Forall (leaves_alone q1 g1) ops → live q1 g1 t2 →
  cq_network_code q2 = cq_network_code q1 → Db.request_key q2 ≠ Db.request_key q1 →
  Db.acquire_cluster_lease q2 t2 (run_all ops c1) = (Ok g2, c2) →
  gr_ip g2 ≠ gr_ip g1 ∧ gr_revision g1 < gr_revision g2.
Proof.
  intros Hi H1 Hops Hl Hcode Hne H2.
  pose proof (StoreFacts.acquire_granted _ _ _ _ _ H1) as G1.
  pose proof (StoreFacts.acquire_granted _ _ _ _ _ H2) as G2.
  pose proof (StoreFacts.granted_inv _ _ _ _ _ Hi G1) as Hi1.
  set (w := lease_row q1 (gr_ip g1) (u64_as_i64 (gr_revision g1)) t1).
  assert (cluster_leases (contents (run_all ops c1)) !! Db.request_key q1 = Some w) as Hw.
  { apply run_all_respects.
    - eapply Forall_impl; [exact Hops|]. intros op. destruct op; try done. simpl.
      intros [? ?]. split; [done|]. by eapply live_in_force.
    - destruct G1 as [_ _ _ (s & _ & _ & _ & _ & ->)]. apply lookup_insert_eq. }
  split.
  - intros E. destruct G2 as [_ [[Hfree _] _] _ _]. apply Hne. symmetry. apply (Hfree _ w); [|done|].
    + apply delete_where_Some. split; [done|]. eapply not_expired, live_in_force; eauto.
    + by rewrite E.
  - pose proof (StoreFacts.run_all_inv ops c1 Hi1) as Hi2.
    destruct (granted_revision _ _ _ _ _ Hi G1) as [-> Hr1].
    destruct (granted_revision _ _ _ _ _ Hi2 G2) as [-> _]. pose proof (run_all_revision ops c1). lia.
Qed.

(** What a grant is.  The address is a host address of the requested network
    other than the gateway; no other owner of the network has it, neither a
    lease in force nor a local allocation; the owner's lease is recorded with
    it; every lease in force of the others stays as it was and the expired ones
    are gone; and the lease lasts at least ten seconds, or for ever when it is
    a static reservation. *)
Theorem cluster_grant_spec q now c g c' :
  db_inv (contents c) → 0 ≤ now → now + 10 ≤ i64_max →
  Db.acquire_cluster_lease q now c = (Ok g, c') →
  (net_network (cq_network q) < gr_ip g < net_broadcast (cq_network q) ∧ gr_ip g ≠ cq_gateway q) ∧
  (∀ k, k ≠ Db.request_key q → k.1.1 = cq_network_code q →
     ip_allocations (contents c') !! k ≠ Some (ipv4_to_string (gr_ip g)) ∧
     (lw_ip <$> cluster_leases (contents c') !! k) ≠ Some (ipv4_to_string (gr_ip g))) ∧
  (∃ w, cluster_leases (contents c') !! Db.request_key q = Some w ∧
     lw_ip w = ipv4_to_string (gr_ip g) ∧ lw_expires_at w = gr_expires_at g) ∧
  (∀ k, k ≠ Db.request_key q → cluster_leases (contents c') !! k =
     match cluster_leases (contents c) !! k with
     | Some w => if Db.expired_lease now k w then None else Some w
     | None => None
     end) ∧
  (if cq_static_reservation q then gr_expires_at g = 0
   else now + 10 ≤ gr_expires_at g ≤ i64_max).
Proof.
  intros Hi Hnow Hmax H. pose proof (StoreFacts.acquire_granted _ _ _ _ _ H) as [(_ & _ & Hgw) [Hfree Hc] _ Hs].
  destruct Hs as (s & Es & _ & _ & He & E'). rewrite E'. cbn [with_cluster_leases with_cluster_state cluster_leases ip_allocations].
  assert (net_network (cq_network q) + 1 < net_broadcast (cq_network q)) as Hsize.
  { destruct Hgw as (Hin & Hn1 & Hn2). rewrite net_contains_eq in Hin.
    apply andb_true_iff in Hin as [?%Z.leb_le ?%Z.leb_le]. lia. }
  split; [split|split; [|split; [|split]]].
  - pose proof (net_network_range (cq_network q)). pose proof (net_broadcast_range (cq_network q)).
    destruct Hc as [[_ (Hin & Hn1 & Hn2 & Hg)]|(_ & Hg & Hr)].
    + rewrite net_contains_eq in Hin. apply andb_true_iff in Hin as [?%Z.leb_le ?%Z.leb_le]. lia.
    + rewrite u32_add_small in Hr by lia. lia.
  - destruct Hc as [[_ (_ & _ & _ & Hg)]|(_ & Hg & _)]; done.
  - intros k Hk Hcode. destruct Hfree as [F1 F2]. split.
    + intros Ha. apply Hk. by apply F2.
    + rewrite lookup_insert_ne by done. intros (w & Hw & E)%fmap_Some. apply Hk. by eapply F1.
  - eexists. rewrite lookup_insert_eq. split; [done|]. split; [done|]. by rewrite He.
  - intros k Hk. rewrite lookup_insert_ne by done. apply lookup_delete_where.
  - rewrite He. unfold Db.lease_expiry. destruct (cq_static_reservation q); [done|]. unfold i64_max in *. lia.
Qed.
End ClusterLeases.

(** *** Without storage failures *)

Module NoFaults.
Section NoFaults.
Context {NL : Ipv4NetLib} {NLL : Ipv4NetLaws}.
Import ClusterFacts.

Lemma bind_step {A B} (m : DBM A) (k : A → DBM B) c a c1 : m c = (Ok a, c1) → (m ≫= k) c = k a c1.
Proof. unfold mbind, DB_bind. by intros ->. Qed.
Lemma bind_fail {A B} (m : DBM A) (k : A → DBM B) c e c1 : m c = (Err e, c1) → (m ≫= k) c = (Err e, c1).
Proof. unfold mbind, DB_bind. by intros ->. Qed.

Lemma lift_step {A B} (r : result DbError A) (k : A → DBM B) c a : r = Ok a → (db_lift r ≫= k) c = k a c.
Proof. by intros ->. Qed.

Lemma query_nf {A} (f : Database → A) d : query f (mkConn d []) = (Ok (f d), mkConn d []).
Proof. done. Qed.
Lemma exec_nf {A} (f : Database → result DbError (A * Database)) d a d' :
  f d = Ok (a, d') → exec f (mkConn d []) = (Ok a, mkConn d' []).
Proof. intros H. unfold exec. by rewrite stmt_no_faults, H. Qed.
Lemma atomically_nf {A} (m : DBM A) d :
  atomically m (mkConn d []) =
  match m (mkConn d []) with
  | (Ok a, mkConn d' []) => (Ok a, mkConn d' [])
  | (Ok a, c) => transaction Storage m (mkConn d [])
  | (Err e, c) => (Err e, mkConn d (faults c))
  end.
Proof. unfold atomically. rewrite transaction_no_faults. destruct (m (mkConn d [])) as [[a|e] [d' [|]]]; done. Qed.

Lemma ensure_available_nf q ip d :
  Db.ensure_cluster_ip_available q ip (mkConn d []) =
  (if occupied q ip d then Err (AddressTaken ip) else Ok tt, mkConn d []).
Proof. rewrite ensure_available_eq. rewrite (bind_step _ _ _ _ _ (query_nf _ _)). by destruct (occupied q ip d). Qed.

Lemma select_address_nf q n raw d :
  ∃ o, Db.select_address q n raw (mkConn d []) = (Ok o, mkConn d []) ∧
  match o with
  | Some ip => raw ≤ ip < raw + Z.of_nat n ∧ ip ≠ cq_gateway q ∧ occupied q ip d = false ∧
      ∀ ip', raw ≤ ip' < ip → ip' ≠ cq_gateway q → occupied q ip' d = true
  | None => ∀ ip', raw ≤ ip' < raw + Z.of_nat n → ip' ≠ cq_gateway q → occupied q ip' d = true
  end.
Proof.
  revert raw. induction n as [|n IH]; intros raw; cbn [Db.select_address].
  { exists None. split; [done|]. intros ip' H. simpl in H. lia. }
  destruct (IH (raw + 1)) as (o & Eo & Ho). destruct (Z.eqb_spec raw (cq_gateway q)) as [Eg|Hg].
  - exists o. split; [done|]. destruct o as [ip|].
    + destruct Ho as (Hr & H1 & H2 & H3). split; [lia|]. split; [done|]. split; [done|].
      intros ip' Hr' Hn. apply H3; [|done]. assert (ip' ≠ raw) by congruence. lia.
    + intros ip' Hr' Hn. apply Ho; [|done]. assert (ip' ≠ raw) by congruence. lia.
  - rewrite ensure_available_nf. destruct (occupied q raw d) eqn:Eocc.
    + exists o. split; [done|]. destruct o as [ip|].
      * destruct Ho as (Hr & H1 & H2 & H3). split; [lia|]. split; [done|]. split; [done|].
        intros ip' Hr' Hn. destruct (decide (ip' = raw)) as [->|]; [done|]. apply H3; [lia|done].
      * intros ip' Hr' Hn. destruct (decide (ip' = raw)) as [->|]; [done|]. apply Ho; [lia|done].
    + exists (Some raw). split; [done|]. split; [lia|]. split; [done|]. split; [done|]. intros; lia.
Qed.

(** The request passes the checks made before the transaction. *)
Record admissible (q : ClusterLeaseRequest) : Prop := {
  ad_type : owner_type_ok (cq_owner_type q) = true;
  ad_owner : str_blank (cq_owner_id q) = false ∧ text_nonempty (cq_owner_id q) = true;
  ad_gateway : usable_gateway q
}.

(** The tables the choice is made on: the leases in force. *)
Definition purged (now : Z) (d : Database) : Database :=
  with_cluster_leases (delete_where (Db.expired_lease now) (cluster_leases d)) d.

Definition candidate (q : ClusterLeaseRequest) (d : Database) : DBM Ipv4Addr :=
  match preferred q (cluster_leases d) (ip_allocations d) with
  | Some ip =>
      _ ← db_lift (Db.validate_cluster_candidate (cq_network q) (cq_gateway q) ip);
      _ ← Db.ensure_cluster_ip_available q ip;
      mret ip
  | None =>
      let first := u32_add (net_network (cq_network q)) 1 in
      let last := net_broadcast (cq_network q) in
      selected ← Db.select_address q (Z.to_nat (last - first)) first;
      db_lift (ok_or selected Exhausted)
  end.

Lemma opt_row_parse (t : option string) :
  (∀ s, t = Some s → is_Some (ipv4_parse s)) → Db.opt_row parse_ip t = Ok (t ≫= ipv4_parse).
Proof.
  intros H. destruct t as [s|]; [|done]. simpl. destruct (H s eq_refl) as [ip E].
  unfold parse_ip. by rewrite E.
Qed.

Lemma candidate_nf q d r c : candidate q d (mkConn d []) = (r, c) →
  c = mkConn d [] ∧ ∀ ip, r = Ok ip → free_for q ip (cluster_leases d) (ip_allocations d).
Proof.
  unfold candidate. destruct (preferred _ _ _) as [ip|].
  - unfold db_lift. destruct (Db.validate_cluster_candidate _ _ _) as [[]|e] eqn:Ev.
    + rewrite (bind_step _ _ _ _ _ eq_refl).
      destruct (occupied q ip d) eqn:Eo.
      * erewrite bind_fail; [|rewrite ensure_available_nf, Eo; reflexivity]. by intros [= <- <-].
      * erewrite bind_step; [|rewrite ensure_available_nf, Eo; reflexivity].
        intros [= <- <-]. split; [done|]. intros ip' [= <-]. by apply occupied_false.
    + rewrite (bind_fail _ _ _ _ _ eq_refl). by intros [= <- <-].
  - cbv zeta. destruct (select_address_nf q (Z.to_nat (net_broadcast (cq_network q) - u32_add (net_network (cq_network q)) 1))
      (u32_add (net_network (cq_network q)) 1) d) as (o & Eo & Ho).
    rewrite (bind_step _ _ _ _ _ Eo). unfold db_lift. intros [= <- <-]. split; [done|].
    destruct o as [ip|]; [|done]. intros ip' [= <-]. apply occupied_false. by destruct Ho as (_ & _ & ? & _).
Qed.

Lemma upsert_free k w d :
  owner_checks k = true → 0 ≤ lw_revision w →
  held_by_other k (lw_ip w) (Db.lease_ips (cluster_leases d)) = false →
  Db.upsert_lease k w d = Ok (tt, with_cluster_leases (<[k := w]> (cluster_leases d)) d).
Proof.
  intros H1 H2 H3. unfold Db.upsert_lease. rewrite H1, H3, (proj2 (Z.leb_le _ _)) by done. done.
Qed.

(** The whole call is the choice of the candidate and the record of the lease. *)
Lemma acquire_nf q now d s :
  db_inv d → admissible q → cluster_state d = Some s → cs_revision s < i64_max →
  (∀ w, cluster_leases (purged now d) !! Db.request_key q = Some w → is_Some (ipv4_parse (lw_ip w))) →
  (∀ t, ip_allocations d !! Db.request_key q = Some t → is_Some (ipv4_parse t)) →
  Db.acquire_cluster_lease q now (mkConn d []) =
  match (candidate q (purged now d) (mkConn (purged now d) [])).1 with
  | Ok ip =>
      let revision := i64_as_u64 (cs_revision s + 1) in
      (Ok (mkClusterLeaseGrant ip revision (Db.lease_expiry q now)),
       mkConn (with_cluster_leases (<[Db.request_key q := lease_row q ip (u64_as_i64 revision) now]>
                 (cluster_leases (purged now d)))
               (with_cluster_state (Some (mkClusterStateRow (cq_authority_id q) (cs_revision s + 1) now)) d)) [])
  | Err e => (Err e, mkConn d [])
  end.
Proof.
  intros Hi [Ht [Hb Hn] (Hg1 & Hg2 & Hg3)] Es Hlt Hp1 Hp2. unfold Db.acquire_cluster_lease, db_pool.
  cbn [contents]. rewrite (di_open _ Hi), Ht, Hb, Hg1. apply Z.eqb_neq in Hg2, Hg3. rewrite Hg2, Hg3. cbn [ensure negb andb].
  do 3 rewrite (lift_step _ _ _ tt) by done. rewrite atomically_nf.
  erewrite bind_step; [|by apply exec_nf]. change (with_cluster_leases _ d) with (purged now d).
  rewrite (bind_step _ _ _ _ _ (query_nf _ _)).
  erewrite lift_step; [|rewrite opt_row_parse; [reflexivity|]].
  2:{ intros x (w & Hw & ->)%fmap_Some. eauto. }
  assert (∃ local, local = (if is_some (cluster_leases (purged now d) !! Db.request_key q) then None
      else ip_allocations d !! Db.request_key q ≫= ipv4_parse)) as [local El] by eauto.
  erewrite (bind_step _ _ _ local).
  2:{ rewrite El. destruct (cluster_leases (purged now d) !! Db.request_key q) as [w|] eqn:Ew; cbn [fmap option_fmap option_map mbind option_bind is_some].
      - destruct (Hp1 w) as [ip Eip]; [done|]. by rewrite Eip.
      - rewrite (bind_step _ _ _ _ _ (query_nf _ _)). unfold db_lift. rewrite opt_row_parse; [done|]. cbn. eauto. }
  match goal with |- context [match ?o with Some ip => _ | None => _ end] =>
    replace o with (preferred q (cluster_leases (purged now d)) (ip_allocations (purged now d))) end.
  2:{ unfold preferred. by rewrite El. }
  fold (candidate q (purged now d)).
  destruct (candidate q (purged now d) (mkConn (purged now d) [])) as [r c] eqn:Ec.
  pose proof (candidate_nf _ _ _ _ Ec) as [-> Hfree]. destruct r as [ip|e]; cbn [fst].
  2:{ erewrite bind_fail by exact Ec. done. }
  rewrite (bind_step _ _ _ _ _ Ec).
  assert (0 ≤ cs_revision s) as Hpos.
  { destruct (cl_state _ _ (di_cluster _ Hi)) as (s' & Es' & ? & _). assert (s' = s) as -> by congruence. lia. }
  erewrite (bind_step (Db.advance_revision _ _)).
  2:{ unfold Db.advance_revision. apply exec_nf. cbn [purged with_cluster_leases cluster_state]. rewrite Es.
      rewrite (proj2 (Z.leb_gt _ _)) by lia. reflexivity. }
  cbv zeta. erewrite bind_step; [|apply exec_nf, upsert_free].
  - reflexivity.
  - unfold owner_checks, Db.request_key. cbn. by rewrite Ht, Hn.
  - cbn [lw_revision]. rewrite StoreFacts.revision_roundtrip; lia.
  - apply (StoreFacts.free_not_held q ip) with (ip_allocations (purged now d)). by apply (Hfree ip).
Qed.
End NoFaults.
End NoFaults.

Section ClusterService.
Context {NL : Ipv4NetLib} {NLL : Ipv4NetLaws}.
Import ClusterFacts NoFaults.

(** The authority's own choice.  When nothing fails and the owner neither asks
    for an address nor has one, it is granted the lowest host address of the
    network that is not the gateway, not leased and in force, and not locally
    allocated; the request is refused, with the database unchanged, exactly
    when there is no such address. *)
Theorem cluster_automatic_address q now d s :
  db_inv d → admissible q → cluster_state d = Some s → cs_revision s < i64_max →
  cq_requested_ip q = None → cluster_leases (purged now d) !! Db.request_key q = None →
  ip_allocations d !! Db.request_key q = None →
  let host ip := net_network (cq_network q) < ip < net_broadcast (cq_network q) ∧ ip ≠ cq_gateway q in
  let free ip := free_for q ip (cluster_leases (purged now d)) (ip_allocations d) in
  match Db.acquire_cluster_lease q now (mkConn d []) with
  | (Ok g, _) => host (gr_ip g) ∧ free (gr_ip g) ∧ (∀ ip, host ip → ip < gr_ip g → ¬ free ip)
  | (Err e, c) => e = Exhausted ∧ contents c = d ∧ (∀ ip, host ip → ¬ free ip)
  end.
Proof.
  intros Hi Ha Es Hlt Hq Hl Hal host free.
  rewrite (acquire_nf q now d s) by (done || (by rewrite ?Hl, ?Hal)).
  unfold candidate, preferred. rewrite Hq, Hl. cbn [purged with_cluster_leases ip_allocations]. rewrite Hal. cbn.
  pose proof (net_network_range (cq_network q)). pose proof (net_broadcast_range (cq_network q)).
  assert (net_network (cq_network q) + 1 < net_broadcast (cq_network q)) as Hsize.
  { destruct (ad_gateway _ Ha) as (Hin & Hn1 & Hn2). rewrite net_contains_eq in Hin.
    apply andb_true_iff in Hin as [?%Z.leb_le ?%Z.leb_le]. lia. }
  rewrite u32_add_small by lia.
  destruct (select_address_nf q (Z.to_nat (net_broadcast (cq_network q) - (net_network (cq_network q) + 1)))
    (net_network (cq_network q) + 1) (purged now d)) as (o & Eo & Ho).
  rewrite (bind_step _ _ _ _ _ Eo). rewrite Z2Nat.id in Ho by lia.
  assert (∀ ip, occupied q ip (purged now d) = true → ¬ free ip) as Hocc.
  { intros ip Ht Hf. assert (occupied q ip (purged now d) = false) as E by by apply occupied_false. congruence. }
  destruct o as [ip|]; cbn [ok_or db_lift fst gr_ip contents].
  - destruct Ho as (Hr & Hg & Hf & Hmin). split; [split; [lia|done]|]. split; [exact (proj1 (occupied_false q ip (purged now d)) Hf)|].
    intros ip' [Hr' Hg'] Hlt'. apply Hocc, Hmin; [lia|done].
  - split; [done|]. split; [done|]. intros ip' [Hr' Hg']. apply Hocc, Ho; [lia|done].
Qed.

End ClusterService.

(** ** Executable models of the text forms *)

Module StoreModel.
Import Model.

Definition read_slash (s : string) : option string :=
  match s with String c r => if bool_decide (c = "/"%char) then Some r else None | _ => None end.

(** [10.0.0.0/24]. *)
#[export] Instance cidr_text : @Ipv4NetText cidr_lib := {|
  net_to_string := λ n,
    (octet_to_string (octet 3 (cidr_addr n)) +:+ "." +:+ octet_to_string (octet 2 (cidr_addr n)) +:+ "." +:+
     octet_to_string (octet 1 (cidr_addr n)) +:+ "." +:+ octet_to_string (octet 0 (cidr_addr n)) +:+ "/" +:+
     octet_to_string (cidr_len n))%string;
  net_parse := λ s,
    '(a, s) ← read_octet s; s ← read_dot s;
    '(b, s) ← read_octet s; s ← read_dot s;
    '(c, s) ← read_octet s; s ← read_dot s;
    '(d, s) ← read_octet s; s ← read_slash s;
    '(p, s) ← read_octet s;
    if bool_decide (s = EmptyString) then cidr_new (ipv4 a b c d) p else None
|}.

#[export] Instance cidr_text_laws : @Ipv4NetTextLaws cidr_lib cidr_text.
Proof.
  intros [a l H]. pose proof (bool_decide_eq_true_1 _ H) as [Ha Hl].
  unfold net_to_string, net_parse, cidr_text. cbn [cidr_addr cidr_len]. pose proof StdFacts.octet_range as Ho.
  do 3 (rewrite StdFacts.read_octet_app by done; rewrite StdFacts.append_cons, StdFacts.append_nil;
        cbn [mbind option_bind read_dot]; rewrite bool_decide_eq_true_2 by done; cbn [mbind option_bind]).
  rewrite StdFacts.read_octet_app by done. rewrite StdFacts.append_cons, StdFacts.append_nil.
  cbn [mbind option_bind read_slash]. rewrite bool_decide_eq_true_2 by done. cbn [mbind option_bind].
  assert (octet_to_string l = (octet_to_string l +:+ "")%string) as ->.
  { generalize (octet_to_string l). intros s. induction s as [|x s IH]; [done|].
    by rewrite StdFacts.append_cons, <- IH. }
  rewrite StdFacts.read_octet_app by (done || (unfold is_u; lia)). cbn [mbind option_bind].
  rewrite bool_decide_eq_true_2 by done. rewrite StdFacts.ipv4_octets by done. unfold cidr_new.
  destruct (decide _) as [H'|]; [|done]. do 2 f_equal. apply Eqdep_dec.UIP_dec. apply bool_dec.
Qed.

#[export] Instance IpAddr_eq_dec : EqDecision IpAddr.
Proof. solve_decision. Defined.
#[export] Instance IpAddr_countable : Countable IpAddr.
Proof.
  refine (inj_countable' (λ a, match a with IpV4 x => inl x | IpV6 x => inr x end)
            (λ s, match s with inl x => IpV4 x | inr x => IpV6 x end) _). by intros [].
Defined.

Fixpoint pos_text (p : positive) : string :=
  match p with
  | xI p => String "1" (pos_text p) | xO p => String "0" (pos_text p) | xH => EmptyString
  end.
Fixpoint text_pos (s : string) : positive :=
  match s with
  | EmptyString => xH
  | String c s => if bool_decide (c = "1"%char) then xI (text_pos s) else xO (text_pos s)
  end.
Lemma text_pos_text p : text_pos (pos_text p) = p.
Proof. induction p as [p IH|p IH|]; simpl; [by rewrite IH|by rewrite IH|done]. Qed.

#[export] Instance dns_json : DnsJson := {|
  dns_to_json := λ l, pos_text (encode l);
  dns_from_json := λ s, decode (text_pos s)
|}.
#[export] Instance dns_json_laws : DnsJsonLaws.
Proof. intros l. unfold dns_from_json, dns_to_json, dns_json. by rewrite text_pos_text, decode_encode. Qed.
End StoreModel.

(** ** Witnesses *)

Module StorageWitness.
Import Model StoreModel LeaseWitness.

(** A file of an old version: a network and one device with an address. *)
Definition legacy : Database :=
  mkDatabase false {["net"%string := mkNetworkRow "10.26.0.1" 24 3600 1 0]}
    {[("dev"%string, "net"%string) := mkDeviceRow (Some "10.26.0.2"%string) "laptop" "2.0" 100 0 0]}
    ∅ ∅ ∅ ∅ None ∅ ∅ ∅ None.
Definition c0 : Conn Database := mkConn legacy [].
Definition c1 : Conn Database := (Db.init_db_pool true c0).2.

Lemma legacy_ok : legacy_db legacy.
Proof.
  assert (unique_ip ∅) as Hu by (intros k1 k2 ip H; by rewrite lookup_empty in H).
  assert (∀ (K A : Type) `{Countable K} (k : K) (a : A), (∅ : gmap K A) !! k = Some a → False) as He
    by (intros * H; by rewrite lookup_empty in H).
  split; [done|split; [exact Hu|]| | |done].
  - intros k ip H. by destruct (He _ _ _ _ _ _ H).
  - split; [exact Hu|intros k w H; by destruct (He _ _ _ _ _ _ H)|].
    eexists. split; [reflexivity|]. split; [cbn; unfold i64_max; lia|]. intros k w H. by destruct (He _ _ _ _ _ _ H).
  - split; [intros ? ? ? ? H|intros ? ? H..]; by destruct (He _ _ _ _ _ _ H).
Defined.
Lemma pool_eq : Db.init_db_pool true c0 = (Ok tt, c1).
Proof.
  rewrite (surjective_pairing (Db.init_db_pool true c0)). unfold c1. apply (f_equal2 pair); [vm_compute; reflexivity|reflexivity].
Defined.

Definition request (owner : string) (ip : option Ipv4Addr) : ClusterLeaseRequest :=
  mkClusterLeaseRequest "net" "vnt_device" owner ip net24 gw 60 false "auth" "s1".

Lemma database_consistent_witness :
  db_inv (contents (run_all [AcquireLease (request "other" None) 1000; DeleteDev "net" "dev"] c1)).
Proof. exact (database_consistent true c0 c1 _ legacy_ok pool_eq). Defined.

Lemma inv1 : db_inv (contents c1).
Proof. exact (StartFacts.start_inv true c0 c1 legacy_ok pool_eq). Defined.

(** A second device with the first one's address. *)
Definition dup : DeviceRecord := mkDeviceRecord "dev2" "net" (Some "10.26.0.2"%string) "phone" "2.0" 100 0 0.
Lemma failed_call_changes_nothing_witness : contents (run (SaveDev dup) c1).2 = contents c1.
Proof.
  refine (failed_call_changes_nothing (SaveDev dup) c1 Constraint (run (SaveDev dup) c1).2 _).
  rewrite (surjective_pairing (run (SaveDev dup) c1)) at 1. apply (f_equal2 pair); [vm_compute; reflexivity|reflexivity].
Defined.

(** "a" is granted the lowest free address; "b" gets the next one. *)
Definition q1 := request "a" None.
Definition g1 : ClusterLeaseGrant := mkClusterLeaseGrant (host 3) 1 1060.
Definition c2 : Conn Database := (Db.acquire_cluster_lease q1 1000 c1).2.
Lemma grant1 : Db.acquire_cluster_lease q1 1000 c1 = (Ok g1, c2).
Proof.
  rewrite (surjective_pairing (Db.acquire_cluster_lease q1 1000 c1)). unfold c2. apply (f_equal2 pair); [vm_compute; reflexivity|reflexivity].
Defined.
Definition ops : list DbOp := [SaveNet (mkNetworkRecord "n2" "10.0.0.1" 24 60 SrcManual 5); ReleaseLease "net" "vnt_device" "z" "auth" 1001].
Definition q2 := request "b" None.
Definition g2 : ClusterLeaseGrant := mkClusterLeaseGrant (host 4) 2 1070.
Definition c3 : Conn Database := (Db.acquire_cluster_lease q2 1010 (run_all ops c2)).2.
Lemma grant2 : Db.acquire_cluster_lease q2 1010 (run_all ops c2) = (Ok g2, c3).
Proof.
  rewrite (surjective_pairing (Db.acquire_cluster_lease q2 1010 (run_all ops c2))). unfold c3. apply (f_equal2 pair); [vm_compute; reflexivity|reflexivity].
Defined.
Lemma ops_ok : Forall (LeaseTrace.leaves_alone q1 g1) ops.
Proof. repeat constructor. discriminate. Defined.

Lemma cluster_no_double_grant_witness : gr_ip g2 ≠ gr_ip g1 ∧ gr_revision g1 < gr_revision g2.
Proof.
  refine (cluster_no_double_grant c1 q1 1000 g1 c2 ops q2 1010 g2 c3 inv1 grant1 ops_ok _ _ _ grant2).
  - right. vm_compute. reflexivity.
  - reflexivity.
  - discriminate.
Defined.

Lemma cluster_grant_spec_witness :
  (∃ w, cluster_leases (contents c2) !! Db.request_key q1 = Some w ∧
     lw_ip w = ipv4_to_string (gr_ip g1) ∧ lw_expires_at w = gr_expires_at g1) ∧
  1000 + 10 ≤ gr_expires_at g1 ≤ i64_max.
Proof.
  destruct (cluster_grant_spec q1 1000 c1 g1 c2 inv1 ltac:(lia) ltac:(unfold i64_max; lia) grant1)
    as (_ & _ & Hw & _ & He). exact (conj Hw He).
Defined.

Definition s1 : ClusterStateRow := mkClusterStateRow "" 0 0.
Lemma state1 : cluster_state (contents c1) = Some s1.
Proof. vm_compute. reflexivity. Defined.
Lemma admissible1 : NoFaults.admissible q1.
Proof. split; vm_compute; by repeat split. Defined.

Lemma cluster_automatic_address_witness :
  match Db.acquire_cluster_lease q1 1000 (mkConn (contents c1) []) with
  | (Ok g, _) =>
      (net_network net24 < gr_ip g < net_broadcast net24 ∧ gr_ip g ≠ gw) ∧
      ClusterFacts.free_for q1 (gr_ip g) (cluster_leases (NoFaults.purged 1000 (contents c1)))
        (ip_allocations (contents c1)) ∧
      (∀ ip, net_network net24 < ip < net_broadcast net24 ∧ ip ≠ gw → ip < gr_ip g →
         ¬ ClusterFacts.free_for q1 ip (cluster_leases (NoFaults.purged 1000 (contents c1)))
             (ip_allocations (contents c1)))
  | (Err e, c) => e = Exhausted ∧ contents c = contents c1 ∧
      (∀ ip, net_network net24 < ip < net_broadcast net24 ∧ ip ≠ gw →
         ¬ ClusterFacts.free_for q1 ip (cluster_leases (NoFaults.purged 1000 (contents c1)))
             (ip_allocations (contents c1)))
  end.
Proof.
  refine (cluster_automatic_address q1 1000 (contents c1) s1 inv1 admissible1 state1 _ eq_refl _ _);
    vm_compute; reflexivity.
Defined.

(** The owner "a" renews half a minute later. *)
Definition w1 : ClusterLeaseRow := ClusterFacts.lease_row q1 (host 3) 1 1000.
Lemma inv2 : db_inv (contents c2).
Proof. exact (StoreFacts.granted_inv _ _ _ _ _ inv1 (StoreFacts.acquire_granted _ _ _ _ _ grant1)). Defined.
Lemma lease1 : cluster_leases (NoFaults.purged 1030 (contents c2)) !! Db.request_key q1 = Some w1.
Proof. vm_compute. reflexivity. Defined.
Lemma nobody_local k :
  ip_allocations (contents c2) !! k = Some (ipv4_to_string (host 3)) → k.1.1 = "net"%string → k = Db.request_key q1.
Proof.
  intros H _. exfalso. apply elem_of_map_to_list in H.
  assert (map_to_list (ip_allocations (contents c2)) = [(device_key "net" "dev", "10.26.0.2"%string)]) as E
    by (vm_compute; reflexivity).
  rewrite E in H. apply list_elem_of_singleton in H. injection H as _ H. vm_compute in H. discriminate H.
Qed.

End StorageWitness.
