(* ===== verification/Restore.v ===== *)
(** What is read back from the database: a network after a restart, a WireGuard
    peer and its profile. *)

From S2P Require Import Prelude Libs Std Lease NetState Service Peer Sql Db DbFacts Storage.
From stdpp Require Import base gmap strings list sorting.
From Stdlib Require Import ZArith Lia.

Local Open Scope Z_scope.

Module ReadFacts.
Import NoFaults.

Lemma sorted_insert_perm {A} (leb : A → A → bool) x l : sorted_insert leb x l ≡ₚ x :: l.
Proof.
  induction l as [|y l IH]; simpl; [done|]. destruct (leb x y); [done|]. rewrite IH. constructor.
Qed.
Lemma order_by_perm {A} (leb : A → A → bool) l : order_by leb l ≡ₚ l.
Proof. unfold order_by. induction l as [|x l IH]; simpl; [done|]. by rewrite sorted_insert_perm, IH. Qed.

Lemma collect_ok {E A B} (f : A → result E B) l :
  (∀ x, x ∈ l → ∃ y, f x = Ok y) → ∃ ys, collect f l = Ok ys ∧ Forall2 (λ x y, f x = Ok y) l ys.
Proof.
  induction l as [|x l IH]; intros H; simpl; [by exists []|].
  destruct (H x) as [y Ey]; [by left|]. destruct IH as (ys & Eys & Hys); [intros z Hz; apply H; by right|].
  exists (y :: ys). rewrite Ey. simpl. rewrite Eys. split; [done|]. by constructor.
Qed.

Lemma if_open_nf {A} (a : A) m d : db_inv d → if_open a m (mkConn d []) = m (mkConn d []).
Proof. intros Hi. unfold if_open. cbn [contents]. by rewrite (di_open _ Hi). Qed.
Lemma db_pool_nf {A} (m : DBM A) d : db_inv d → db_pool m (mkConn d []) = m (mkConn d []).
Proof. intros Hi. unfold db_pool. cbn [contents]. by rewrite (di_open _ Hi). Qed.

Lemma load_devices_nf code d :
  db_inv d → ∃ records, Db.load_all_devices code (mkConn d []) = (Ok records, mkConn d []) ∧
  NoDup (r_device_id <$> records) ∧
  ∀ r, r ∈ records ↔ ∃ w, devices d !! (r_device_id r, code) = Some w ∧ r = Db.device_of_row code (r_device_id r) w.
Proof.
  intros Hi. unfold Db.load_all_devices. rewrite if_open_nf by done.
  rewrite query_nf. eexists. split; [reflexivity|]. split.
  - rewrite <- list_fmap_compose. simpl.
    pose proof (NoDup_select (λ k (_ : DeviceRow), bool_decide (k.2 = code)) (devices d)) as Hnd.
    assert (∀ x, x ∈ select (λ k (_ : DeviceRow), bool_decide (k.2 = code)) (devices d) → x.1.2 = code) as Hc.
    { intros [k w] [_ ?%bool_decide_eq_true]%elem_of_select. done. }
    induction (select _ _) as [|x l IH]; simpl in *; [constructor|].
    apply NoDup_cons in Hnd as [Hx Hnd]. apply NoDup_cons. split.
    + intros (y & E & Hy)%list_elem_of_fmap. apply Hx. apply list_elem_of_fmap. exists y. split; [|done].
      pose proof (Hc x (list_elem_of_here _ _)). assert (y.1.2 = code) by (apply Hc; by right).
      destruct x as [[]], y as [[]]; simpl in *. congruence.
    + apply IH; [done|]. intros y Hy. apply Hc. by right.
  - intros r. rewrite list_elem_of_fmap. split.
    + intros ([[dev c] w] & -> & [Hk Hc%bool_decide_eq_true]%elem_of_select). simpl in *. subst c. eauto.
    + intros (w & Hk & ->). exists ((r_device_id r, code), w). split; [done|]. apply elem_of_select.
      split; [done|]. by apply bool_decide_eq_true.
Qed.

Lemma load_allocations_nf code d :
  db_inv d → (∀ p t, ip_allocations d !! peer_key code p = Some t → is_Some (ipv4_parse t)) →
  ∃ l, Db.load_wireguard_peer_ip_allocations code (mkConn d []) = (Ok l, mkConn d []) ∧
  ∀ p ip, (p, ip) ∈ l ↔ ∃ t, ip_allocations d !! peer_key code p = Some t ∧ ipv4_parse t = Some ip.
Proof.
  intros Hi Hp. unfold Db.load_wireguard_peer_ip_allocations. rewrite if_open_nf by done.
  rewrite (bind_step _ _ _ _ _ (query_nf _ _)).
  set (rows := order_by _ _).
  assert (∀ x, x ∈ rows ↔ x.1.1 = (code, "wireguard_peer"%string) ∧ ip_allocations d !! x.1 = Some x.2) as Hrows.
  { intros [k t]. unfold rows. rewrite order_by_perm, elem_of_select, bool_decide_eq_true. simpl. tauto. }
  destruct (collect_ok (λ x : string * string * string * string, ip ← parse_ip x.2; Ok (x.1.2, ip)) rows) as (l & El & Hl).
  { intros [[k p] t] [Hk Ht]%Hrows. simpl in *. subst k. destruct (Hp p t Ht) as [ip Eip].
    exists (p, ip). unfold parse_ip. by rewrite Eip. }
  exists l. unfold db_lift. rewrite El. split; [done|].
  assert (∀ (x : string * string * string * string) y, (ip ← parse_ip x.2; Ok (x.1.2, ip) : result DbError _) = Ok y ↔
            ipv4_parse x.2 = Some y.2 ∧ y.1 = x.1.2) as Hf.
  { intros [[k p] t] [p' ip]. unfold parse_ip. simpl. destruct (ipv4_parse t); simpl; naive_solver. }
  intros p ip. split.
  - intros (i & Hi')%list_elem_of_lookup. destruct (Forall2_lookup_r _ _ _ _ _ Hl Hi') as ([[k p'] t] & Hx & Hxy).
    apply Hf in Hxy as [E1 E2]. simpl in *. subst p'. exists t.
    assert (((k, p), t) ∈ rows) as [Hk Ht]%Hrows by (apply list_elem_of_lookup; eauto). simpl in *. by subst k.
  - intros (t & Ht & Et). assert ((peer_key code p, t) ∈ rows) as Hin by by apply Hrows.
    apply list_elem_of_lookup in Hin as [i Hix]. destruct (Forall2_lookup_l _ _ _ _ _ Hl Hix) as (y & Hy & Hxy).
    apply Hf in Hxy as [E1 E2]. simpl in *. destruct y as [p' ip']. simpl in *. subst p'.
    assert (ip' = ip) as -> by congruence. apply list_elem_of_lookup. eauto.
Qed.

(** What the database promises is what the lease table is loaded from. *)
Lemma db_inv_leases_ok d code records l :
  db_inv d →
  (∀ r, r ∈ records → ∃ w, devices d !! (r_device_id r, code) = Some w ∧ r = Db.device_of_row code (r_device_id r) w) →
  (∀ p ip, (p, ip) ∈ l → ∃ t, ip_allocations d !! peer_key code p = Some t ∧ ipv4_parse t = Some ip) →
  LeaseFacts.db_leases_ok records ((λ x, (x.2, x.1)) <$> l).
Proof.
  intros Hi Hr Hl. pose proof (di_alloc _ Hi) as [Hu _ Hm].
  assert (∀ r ip, r ∈ records → LeaseFacts.record_ip r = Some ip →
    ∃ t, ip_allocations d !! device_key code (r_device_id r) = Some t ∧ ipv4_parse t = Some ip) as Hrec.
  { intros r ip Hin E. destruct (Hr r Hin) as (w & Hw & Er). rewrite Hm, Hw. unfold LeaseFacts.record_ip in E.
    rewrite Er in E. simpl in *. destruct (dv_ip w) as [t|]; [|done]. eauto. }
  split.
  - intros r1 r2 ip H1 H2 E1 E2. destruct (Hrec r1 ip H1 E1) as (t1 & A1 & P1), (Hrec r2 ip H2 E2) as (t2 & A2 & P2).
    assert (t1 = t2) as -> by by eapply TextFacts.ipv4_parse_inj. pose proof (Hu _ _ _ A1 A2 eq_refl) as E.
    by apply TableFacts.device_key_inj in E as [_ E].
  - intros r ip p Hin E ([p' ip'] & Eq & Hp)%list_elem_of_fmap. injection Eq as -> ->.
    destruct (Hrec r ip' Hin E) as (t1 & A1 & P1), (Hl _ _ Hp) as (t2 & A2 & P2).
    assert (t1 = t2) as -> by by eapply TextFacts.ipv4_parse_inj. pose proof (Hu _ _ _ A1 A2 eq_refl) as Ek.
    by eapply TableFacts.device_peer_key.
Qed.
End ReadFacts.

Module LoadFacts.
Section LoadFacts.
Context {NL : Ipv4NetLib} (net : Ipv4Net) (gw now : Z).

(** Every record with a time the clock can represent gets its entry. *)
Lemma load_devices_complete l h dm ips v :
  (∀ r, r ∈ l → 0 ≤ r_last_connect_time r ≤ i64_max) → NoDup (r_device_id <$> l) →
  ∃ h' dm' ips' v', Lease.load_devices net gw now l (h, dm, ips, v) = Ret (h', dm', ips', v') ∧
  (∀ r, r ∈ l → ∃ e, dm' !! r_device_id r = Some e ∧ e_ip e = LeaseFacts.record_ip r ∧
     e_device_name e = r_device_name r ∧ e_is_connected e = false) ∧
  (∀ dev, dev ∉ r_device_id <$> l → dm' !! dev = dm !! dev).
Proof.
  revert h dm ips v. induction l as [|r l IH]; intros h dm ips v Ht Hnd; simpl.
  { eexists _, _, _, _. split; [done|]. split; [by intros r ?%not_elem_of_nil|done]. }
  assert (∃ t, i64_to_system_time (r_last_connect_time r) = Ret t) as [t Et].
  { pose proof (Ht r (list_elem_of_here _ _)) as Hr. unfold i64_to_system_time, system_time_add, from_secs, i64_as_u64.
    rewrite wrap_small by (unfold is_u, i64_max in *; lia). rewrite Z.add_0_l, Z.div_mul by done.
    rewrite (proj2 (Z.leb_le _ _)) by lia. eauto. }
  simpl in Hnd. apply NoDup_cons in Hnd as [Hr Hnd].
  unfold from_record. destruct (arc_new _ h) as [loc h1]. rewrite Et.
  match goal with |- context [Lease.load_devices _ _ _ l (?h1, <[?k := ?e]> dm, ?i, ?vv)] =>
    destruct (IH h1 (<[k := e]> dm) i vv) as (h' & dm' & ips' & v' & El & H1 & H2); [|done|] end.
  { intros r' Hr'. apply Ht. by right. }
  eexists _, _, _, _. split; [exact El|]. split.
  - intros r' [->|Hr']%elem_of_cons; [|by apply H1]. cbn [e_device_id] in H2. rewrite H2 by done.
    eexists. split; [apply lookup_insert_eq|]. done.
  - intros dev Hd. apply not_elem_of_cons in Hd as [Hne Hd]. rewrite H2 by done. by apply lookup_insert_ne.
Qed.

Lemma load_peers_complete l ip p :
  (∀ ip p1 p2, (ip, p1) ∈ l → (ip, p2) ∈ l → p1 = p2) → (ip, p) ∈ l → usable net gw ip →
  Lease.load_peers net gw l !! ip = Some p.
Proof.
  intros Huniq Hin Hus. unfold Lease.load_peers. set (f := λ (m : gmap Ipv4Addr string) '(ip, peer_id), _).
  assert (∀ l m, (∀ p', (ip, p') ∈ l → p' = p) → (m !! ip = Some p ∨ (ip, p) ∈ l) → fold_left f l m !! ip = Some p) as H.
  { clear Hin Huniq l. intros l. induction l as [|[ip' p'] l' IH]; intros m Hu Hm; simpl.
    { destruct Hm as [|Hm]; [done|]. by apply not_elem_of_nil in Hm. }
    apply IH; [intros p'' ?; apply Hu; by right|]. 
    destruct (decide (ip' = ip)) as [->|Hne].
    - assert (p' = p) as -> by (apply Hu; by left). left.
      destruct (net_contains net ip && negb (gw =? ip)) eqn:E; [apply lookup_insert_eq|].
      apply LeaseFacts.usable_bool in Hus. congruence.
    - destruct Hm as [Hm|[?|Hm]%elem_of_cons]; [|naive_solver|by right]. left.
      destruct (net_contains _ _ && _); [|done]. by rewrite lookup_insert_ne. }
  apply H; [|by right]. intros p' Hp'. by eapply Huniq.
Qed.
End LoadFacts.
End LoadFacts.

Section Restart.
Context {NL : Ipv4NetLib} {PL : PnetLib} {U32 : NetU32Lib}.
Context {W : Type} {MV : Mpsc W bytes} {MW : Mpsc W WireGuardBridgePacket}.
Import NoFaults.

End Restart.

(** ** WireGuard peers and their profiles *)

Module PeerStore.
Section Tables.
Context {K A : Type} `{Countable K}.
Implicit Types (p : K → A → bool) (t : gmap K A).

Lemma select_insert p t k a :
  t !! k = None → select p (<[k := a]> t) ≡ₚ (if p k a then (k, a) :: select p t else select p t).
Proof.
  intros Hk. unfold select. rewrite map_to_list_insert by done. rewrite filter_cons. simpl.
  by destruct (p k a); [rewrite decide_True by done|rewrite decide_False by done].
Qed.

Lemma select_nil p t : (∀ k a, t !! k = Some a → p k a = false) → select p t = [].
Proof.
  intros Hp. destruct (select p t) as [|[k a] l] eqn:E; [done|].
  assert ((k, a) ∈ select p t) as [Hk Ha]%elem_of_select by (rewrite E; left). by rewrite (Hp k a Hk) in Ha.
Qed.

Lemma select_single p t k a :
  t !! k = Some a → p k a = true → (∀ k' a', t !! k' = Some a' → p k' a' = true → k' = k) →
  select p t = [(k, a)].
Proof.
  intros Hk Hp Hu. apply Permutation_singleton_r.
  rewrite <- (insert_delete_id t k a) by done. rewrite select_insert by apply lookup_delete_eq. rewrite Hp.
  constructor. rewrite select_nil; [done|]. intros k' a' [Hne Hk']%lookup_delete_Some.
  destruct (p k' a') eqn:E; [|done]. by destruct Hne; symmetry; eapply Hu.
Qed.
End Tables.

Section Sorted.
Context {A : Type} (leb : A → A → bool) (R : A → A → Prop) {Rtr : Transitive R}.
Hypotheses (Hle : ∀ x y, leb x y = true → R x y) (Hgt : ∀ x y, leb x y = false → R y x).

Lemma sorted_insert_sorted x l : StronglySorted R l → StronglySorted R (sorted_insert leb x l).
Proof.
  induction 1 as [|y l Hs IH Hy]; simpl; [by repeat constructor|].
  destruct (leb x y) eqn:E.
  - repeat (constructor; auto). apply Forall_forall. intros z Hz. etrans; [by apply Hle|].
    by eapply Forall_forall in Hy.
  - constructor; [done|]. rewrite ReadFacts.sorted_insert_perm. constructor; auto.
Qed.
Lemma order_by_sorted l : StronglySorted R (order_by leb l).
Proof. unfold order_by. induction l; simpl; [constructor|by apply sorted_insert_sorted]. Qed.
End Sorted.

Section Profiles.
Context {NL : Ipv4NetLib} {NT : Ipv4NetText} {NTL : Ipv4NetTextLaws} {DJ : DnsJson} {DJL : DnsJsonLaws}.
Import NoFaults.

Definition route_row (code peer_id : string) (n : Z) (r : Db.WireGuardPeerRouteRecord)
    : string * string * string * RouteRow :=
  ((code, peer_id, net_to_string (Db.rt_lan_network r)),
   mkRouteRow (ipv4_to_string (Db.rt_vnt_cli_ip r)) n).
Fixpoint route_rows (code peer_id : string) (n : Z) (l : list Db.WireGuardPeerRouteRecord) :=
  match l with
  | [] => []
  | r :: l => route_row code peer_id n r :: route_rows code peer_id (n + 1) l
  end.

Lemma insert_routes_ok code p n l c c' :
  Db.insert_routes code p n l c = (Ok tt, c') →
  select (λ k _, Db.route_of code p k) (wireguard_peer_routes (contents c')) ≡ₚ
    route_rows code p n l ++ select (λ k _, Db.route_of code p k) (wireguard_peer_routes (contents c)) ∧
  contents c' = with_profiles (wireguard_peer_profiles (contents c)) (wireguard_peer_routes (contents c'))
                  (wireguard_peer_secrets (contents c)) (contents c).
Proof.
  revert n c. induction l as [|r l IH]; intros n c H; simpl in H.
  { injection H as <-. split; [done|]. by destruct (contents c). }
  apply RunFacts.bind_ok in H as ([] & c1 & H1%RunFacts.exec_ok & H). apply IH in H as [Hp Hc].
  unfold Db.insert_route, ensure in H1. destruct (wireguard_peer_routes (contents c) !! _) eqn:Ek; [done|].
  simpl in H1. destruct (Db.peer_exists _ _); [|done]. injection H1 as H1. rewrite <- H1 in Hp, Hc. simpl in *.
  split; [|by rewrite Hc]. rewrite Hp, select_insert by done. 
  assert (∀ x, Db.route_of code p (code, p, x) = true) as -> by (intros x; by apply bool_decide_eq_true_2).
  by rewrite Permutation_middle.
Qed.

Lemma route_rows_sorted code p n l :
  StronglySorted (λ a b, rw_sort_order a.2 ≤ rw_sort_order b.2) (route_rows code p n l) ∧
  Forall (λ x, n ≤ rw_sort_order x.2) (route_rows code p n l) ∧
  ∀ x y, x ∈ route_rows code p n l → y ∈ route_rows code p n l →
    rw_sort_order x.2 = rw_sort_order y.2 → x = y.
Proof.
  revert n. induction l as [|r l IH]; intros n; simpl.
  { split; [constructor|]. split; [constructor|]. by intros x y ?%not_elem_of_nil. }
  destruct (IH (n + 1)) as (Hs & Hf & Hu).
  assert (Forall (λ x, n ≤ rw_sort_order x.2) (route_rows code p (n + 1) l)) as Hf'.
  { eapply Forall_impl; [exact Hf|]. simpl. intros. lia. }
  split; [|split].
  - constructor; [done|]. eapply Forall_impl; [exact Hf'|]. done.
  - constructor; [simpl; lia|done].
  - rewrite Forall_forall in Hf. intros x y [->|Hx]%elem_of_cons [->|Hy]%elem_of_cons E; [done| | |by apply Hu];
      exfalso; [specialize (Hf y Hy)|specialize (Hf x Hx)]; simpl in *; lia.
Qed.

Lemma select_routes_eq code p n l d :
  select (λ k _, Db.route_of code p k) (wireguard_peer_routes d) ≡ₚ route_rows code p n l →
  Db.select_routes code p d = route_rows code p n l.
Proof.
  intros Hp. destruct (route_rows_sorted code p n l) as (Hs & _ & Hu).
  eapply (StronglySorted_unique_strong (λ a b, rw_sort_order a.2 ≤ rw_sort_order b.2)); [| |exact Hs|].
  - intros x y Hx Hy H1 H2. apply Hu; [|done|lia]. rewrite <- Hp. unfold Db.select_routes in Hx.
    by rewrite ReadFacts.order_by_perm in Hx.
  - apply order_by_sorted.
    + intros x y z H1 H2. lia.
    + intros x y E. destruct (Z.eqb_spec (rw_sort_order x.2) (rw_sort_order y.2)); [lia|by apply Z.leb_le].
    + intros x y E. destruct (Z.eqb_spec (rw_sort_order x.2) (rw_sort_order y.2)); [lia|]. apply Z.leb_gt in E. lia.
  - unfold Db.select_routes. by rewrite ReadFacts.order_by_perm.
Qed.

Lemma collect_routes code p n l :
  Forall (λ r, is_u 32 (Db.rt_vnt_cli_ip r)) l → collect Db.route_of_row (route_rows code p n l) = Ok l.
Proof.
  intros Hf. revert n. induction Hf as [|r l Hr _ IH]; intros n; [done|]. cbn [route_rows collect].
  assert (Db.route_of_row (route_row code p n r) = Ok r) as ->; [|cbn; by rewrite IH].
  unfold Db.route_of_row, route_row, parse_ip. cbn [fst snd rw_vnt_cli_ip].
  pose proof (net_parse_to_string (Db.rt_lan_network r)) as ->. cbn.
  rewrite StdFacts.ipv4_parse_to_string by done. by destruct r.
Qed.
End Profiles.

(** No call adds storage failures. *)
Definition fault_free {A} (m : DBM A) : Prop := ∀ c, faults c = [] → faults (m c).2 = [].

Lemma exec_ff {A} (f : Database → result DbError (A * Database)) : fault_free (exec f).
Proof. intros c Hc. destruct (CallFacts.exec_cases f c) as [(a & d & _ & ->)|(e & ->)]; simpl; by rewrite Hc. Qed.
Lemma bind_ff {A B} (m : DBM A) (k : A → DBM B) : fault_free m → (∀ a, fault_free (k a)) → fault_free (m ≫= k).
Proof.
  intros Hm Hk c Hc. specialize (Hm c Hc). unfold mbind, DB_bind.
  destruct (m c) as [[a|e] c']; [by apply Hk|done].
Qed.
Lemma lift_ff {A} (r : result DbError A) : fault_free (db_lift r : DBM A).
Proof. by intros c. Qed.
Lemma ret_ff {A} (a : A) : fault_free (mret a : DBM A).
Proof. by intros c. Qed.
Lemma atomically_ff {A} (m : DBM A) : fault_free m → fault_free (atomically m).
Proof.
  intros Hm [d fs] Hc. simpl in Hc. subst fs. rewrite NoFaults.atomically_nf.
  specialize (Hm (mkConn d []) eq_refl). destruct (m (mkConn d [])) as [[a|e] [d' fs]]; simpl in *; by subst fs.
Qed.
Lemma db_pool_ff {A} (m : DBM A) : fault_free m → fault_free (db_pool m).
Proof. intros Hm c Hc. unfold db_pool. destruct (pool_open _); [by apply Hm|done]. Qed.
End PeerStore.

#[export] Hint Resolve PeerStore.exec_ff PeerStore.bind_ff PeerStore.lift_ff PeerStore.ret_ff
  PeerStore.atomically_ff PeerStore.db_pool_ff : db.

Section Peers.
Context {NL : Ipv4NetLib} {NT : Ipv4NetText} {NTL : Ipv4NetTextLaws} {DJ : DnsJson} {DJL : DnsJsonLaws}.
Import NoFaults PeerStore.

Lemma insert_routes_ff code p n l : fault_free (Db.insert_routes code p n l).
Proof. revert n. induction l as [|r l IH]; intros n; simpl; auto with db. Qed.

Lemma upsert_profile_ok p d u d' :
  Db.upsert_profile p d = Ok (u, d') → db_inv d →
  let k := (Db.pf_network_code p, Db.pf_peer_id p) in
  0 ≤ Db.pf_persistent_keepalive p ≤ 65535 ∧ is_Some (wireguard_peers d !! k) ∧
  d' = with_profiles (<[k := mkProfileRow (dns_to_json <$> Db.pf_dns_servers p) (Db.pf_persistent_keepalive p)
         (default (Db.pf_created_at p) (fw_created_at <$> wireguard_peer_profiles d !! k)) (Db.pf_updated_at p)]>
         (wireguard_peer_profiles d)) (wireguard_peer_routes d) (wireguard_peer_secrets d) d.
Proof.
  intros H Hi. cbv zeta. unfold Db.upsert_profile, ensure in H.
  destruct ((0 <=? _) && _) eqn:Hb; [|done]. apply andb_true_iff in Hb as [?%Z.leb_le ?%Z.leb_le]. cbn in H.
  split; [lia|]. destruct (wireguard_peer_profiles d !! _) as [old|] eqn:Eo; cbn in H.
  - injection H as _ <-. split; [|done]. by apply (pi_profiles _ _ _ _ (di_peers _ Hi)) in Eo as [? _].
  - unfold Db.peer_exists in H. destruct (wireguard_peers d !! _); [|done]. injection H as _ <-. split; [by eexists|done].
Qed.

Lemma upsert_secret_ok s d u d' :
  Db.upsert_secret s d = Ok (u, d') →
  ∃ w, d' = with_profiles (wireguard_peer_profiles d) (wireguard_peer_routes d)
         (<[(Db.sc_network_code s, Db.sc_peer_id s) := w]> (wireguard_peer_secrets d)) d.
Proof.
  unfold Db.upsert_secret, ensure. destruct (Db.key_checks _); [|done]. cbn.
  destruct (wireguard_peer_secrets d !! _); cbn; [intros [= _ <-]; eauto|].
  destruct (Db.peer_exists _ _); [|done]. intros [= _ <-]. eauto.
Qed.

(** What a successful save leaves in the tables. *)
Lemma save_profile_ok p secret d c' :
  let k := (Db.pf_network_code p, Db.pf_peer_id p) in
  db_inv d → (∀ s, secret = Some s → (Db.sc_network_code s, Db.sc_peer_id s) = k) →
  Db.save_wireguard_peer_profile p secret (mkConn d []) = (Ok tt, c') →
  faults c' = [] ∧ pool_open (contents c') = true ∧
  wireguard_peers (contents c') = wireguard_peers d ∧ is_Some (wireguard_peers d !! k) ∧
  0 ≤ Db.pf_persistent_keepalive p ≤ 65535 ∧
  wireguard_peer_profiles (contents c') !! k =
    Some (mkProfileRow (dns_to_json <$> Db.pf_dns_servers p) (Db.pf_persistent_keepalive p)
      (default (Db.pf_created_at p) (fw_created_at <$> wireguard_peer_profiles d !! k)) (Db.pf_updated_at p)) ∧
  select (λ k' _, Db.route_of k.1 k.2 k') (wireguard_peer_routes (contents c')) ≡ₚ
    route_rows k.1 k.2 0 (Db.pf_routes p) ∧
  is_some (wireguard_peer_secrets (contents c') !! k) =
    is_some secret || is_some (wireguard_peer_secrets d !! k).
Proof.
  intros k Hi Hs H. assert (faults c' = []) as Hff.
  { assert (fault_free (Db.save_wireguard_peer_profile p secret)) as Hf; [|specialize (Hf (mkConn d []) eq_refl); by rewrite H in Hf].
    unfold Db.save_wireguard_peer_profile. apply db_pool_ff, atomically_ff.
    do 2 (apply bind_ff; [apply exec_ff|intros _]). apply bind_ff; [apply insert_routes_ff|intros _].
    destruct secret; auto with db. }
  split; [done|]. unfold Db.save_wireguard_peer_profile in H. apply RunFacts.db_pool_ok in H as [Ho H].
  apply RunFacts.atomically_ok in H as (c1 & c2 & E1 & H & E2). simpl in E1.
  apply RunFacts.bind_ok in H as ([] & c3 & H3%RunFacts.exec_ok & H). rewrite E1 in H3.
  apply upsert_profile_ok in H3 as (Hka & Hpeer & E3); [|done].
  apply RunFacts.bind_ok in H as ([] & c4 & H4%RunFacts.exec_ok & H). injection H4 as E4. rewrite E3 in E4. cbn in E4.
  apply RunFacts.bind_ok in H as ([] & c5 & [H5 E5]%insert_routes_ok & H).
  rewrite <- E4 in H5, E5. cbn in H5, E5. fold k in E5, Hpeer.
  rewrite (select_nil _ (delete_where _ _)), app_nil_r in H5 by (by intros ? ? [_ ?]%delete_where_Some).
  assert (∃ ss, contents c2 = with_profiles (wireguard_peer_profiles (contents c5)) (wireguard_peer_routes (contents c5)) ss (contents c5) ∧
    is_some (ss !! k) = is_some secret || is_some (wireguard_peer_secrets d !! k)) as (ss & E6 & Hss).
  { destruct secret as [s|].
    - apply RunFacts.exec_ok, upsert_secret_ok in H as [w E]. rewrite (Hs s eq_refl) in E.
      eexists. split; [exact E|]. by rewrite lookup_insert_eq.
    - injection H as <-. exists (wireguard_peer_secrets (contents c5)). split; [by destruct (contents c5)|].
      by rewrite E5. }
  rewrite E2, E6. cbn. rewrite E5. cbn. split_and!; try done; try lia.
  apply lookup_insert_eq.
Qed.

(** A stored profile comes back: after a successful save, loading returns the
    same DNS servers, keepalive and routes, the routes in the order in which
    they were given; the creation time is that of the first save. *)
Theorem profile_roundtrip p secret d c' :
  let k := (Db.pf_network_code p, Db.pf_peer_id p) in
  db_inv d → Forall (λ r, is_u 32 (Db.rt_vnt_cli_ip r)) (Db.pf_routes p) →
  (∀ s, secret = Some s → (Db.sc_network_code s, Db.sc_peer_id s) = k) →
  Db.save_wireguard_peer_profile p secret (mkConn d []) = (Ok tt, c') →
  Db.load_wireguard_peer_profile k.1 k.2 c' =
  (Ok (Some (Db.mkPeerProfile k.1 k.2 (Db.pf_dns_servers p) (Db.pf_persistent_keepalive p) (Db.pf_routes p)
        (is_some secret || is_some (wireguard_peer_secrets d !! k))
        (default (Db.pf_created_at p) (fw_created_at <$> wireguard_peer_profiles d !! k))
        (Db.pf_updated_at p))), c').
Proof.
  intros k Hi Hr Hs H.
  destruct (save_profile_ok p secret d c' Hi Hs H) as (Hf & Ho & Hp & [w Hw] & Hka & Hprof & Hroutes & Hsec).
  subst k. cbv zeta in *. cbn [fst snd] in *.
  destruct c' as [d' fs]. cbn [faults contents] in *. subst fs.
  unfold Db.load_wireguard_peer_profile, db_pool. cbn [contents]. rewrite Ho.
  rewrite (bind_step _ _ _ _ _ (query_nf _ _)), Hp, Hw. cbn [fmap option_fmap option_map].
  rewrite Hprof, Hsec. cbn [mbind option_bind fw_dns_servers].
  rewrite (lift_step _ _ _ (Db.pf_dns_servers p)).
  2:{ destruct (Db.pf_dns_servers p) as [l|]; [|done]. cbn. pose proof (dns_from_to_json l) as ->. done. }
  rewrite (bind_step _ _ _ _ _ (query_nf _ _)).
  rewrite (select_routes_eq _ _ _ _ _ Hroutes), (lift_step _ _ _ (Db.pf_routes p)) by by apply collect_routes.
  cbn. rewrite wrap_small by (unfold is_u; lia). done.
Qed.

Lemma insert_with_ip_ok r ip d c1 :
  Db.insert_wireguard_peer_with_ip r ip (mkConn d []) = (Ok tt, c1) →
  let k := (wp_network_code r, wp_peer_id r) in
  wireguard_peers d !! k = None ∧ length (wp_public_key r) = 32%nat ∧
  (∀ k w, wireguard_peers d !! k = Some w → pw_public_key w ≠ wp_public_key r) ∧
  ip_allocations d !! peer_key k.1 k.2 = None ∧
  c1 = mkConn (with_allocations (<[peer_key k.1 k.2 := ipv4_to_string ip]> (ip_allocations d))
         (with_wireguard_peers (<[k := mkWireGuardPeerRow (wp_public_key r) (if wp_enabled r then 1 else 0)
            (wp_created_at r) (wp_updated_at r)]> (wireguard_peers d)) d)) [].
Proof.
  intros H k. assert (faults c1 = []) as Hff.
  { assert (fault_free (Db.insert_wireguard_peer_with_ip r ip)) as Hf; [|specialize (Hf (mkConn d []) eq_refl); by rewrite H in Hf].
    unfold Db.insert_wireguard_peer_with_ip. apply bind_ff; [apply lift_ff|intros _]. apply db_pool_ff, atomically_ff.
    apply bind_ff; [apply exec_ff|intros ?]. apply bind_ff; [apply lift_ff|intros _]. apply exec_ff. }
  unfold Db.insert_wireguard_peer_with_ip in H. apply RunFacts.bind_ok in H as ([] & ? & [_ ->]%RunFacts.lift_ok & H).
  apply RunFacts.db_pool_ok in H as [Ho H]. apply RunFacts.atomically_ok in H as (c2 & c3 & E2 & H & E3). simpl in E2.
  apply RunFacts.bind_ok in H as (n & c4 & H4%RunFacts.exec_ok & H). rewrite E2 in H4.
  apply RunFacts.bind_ok in H as ([] & ? & [Hn ->]%RunFacts.lift_ok & H5%RunFacts.exec_ok).
  apply TableFacts.ensure_ok, Z.eqb_eq in Hn.
  apply OpFacts.insert_peer_row_ok in H4 as [(? & _)|(_ & _ & _ & Hlen & Hk & Hu & E4)]; [lia|].
  rewrite E4 in H5. destruct (insert_allocation _ _ _) as [t|] eqn:Et; [|done]. injection H5 as E5.
  apply TableFacts.insert_allocation_ok in Et as (_ & Ha & _ & ->).
  split; [done|]. split; [done|]. split; [done|]. split; [done|].
  destruct c1 as [d1 fs]. simpl in *. subst fs. by rewrite E3, <- E5.
Qed.

Lemma delete_peer_ff code p : fault_free (Db.delete_wireguard_peer code p).
Proof.
  apply db_pool_ff, atomically_ff. do 5 (apply bind_ff; [apply exec_ff|intros ?]). apply ret_ff.
Qed.

Lemma delete_peer_total code p d : db_inv d → ∃ r c', Db.delete_wireguard_peer code p (mkConn d []) = (Ok r, c').
Proof.
  intros Hi. unfold Db.delete_wireguard_peer. rewrite ReadFacts.db_pool_nf by done. rewrite atomically_nf.
  do 5 (erewrite bind_step; [|by apply exec_nf]). cbn. eauto.
Qed.

(** A generated peer comes and goes.  After a successful creation with an
    address, the runtime finds the peer by its public key, enabled, with that
    address and no routes, and the administration sees the record as it was
    given; deleting the peer reports both removals and leaves the database
    exactly as it was before the creation. *)
Theorem peer_lifecycle r ip d c1 :
  db_inv d → is_u 32 ip → wp_enabled r = true →
  Db.insert_wireguard_peer_with_ip r ip (mkConn d []) = (Ok tt, c1) →
  Db.load_wireguard_runtime_peer_by_public_key (wp_public_key r) c1 =
    (Ok (Some (Db.mkRuntimePeer (wp_network_code r) (wp_peer_id r) (wp_public_key r) ip [])), c1) ∧
  Db.load_wireguard_peer (wp_network_code r) (wp_peer_id r) c1 = (Ok (Some r), c1) ∧
  Db.delete_wireguard_peer (wp_network_code r) (wp_peer_id r) c1 =
    (Ok (mkWireGuardPeerDeleteResult true true), mkConn d []).
Proof.
  intros Hi Hu He H. destruct (insert_with_ip_ok _ _ _ _ H) as (Hk & Hlen & Hun & Ha & E1). subst c1.
  set (k := (wp_network_code r, wp_peer_id r)) in *. rewrite He in *.
  set (w := mkWireGuardPeerRow (wp_public_key r) 1 (wp_created_at r) (wp_updated_at r)) in *.
  set (d' := with_allocations _ _). pose proof (di_peers _ Hi) as [P1 P2 P3 P4 P5].
  assert (pool_open d' = true) as Ho by apply (di_open _ Hi). split; [|split].
  - unfold Db.load_wireguard_runtime_peer_by_public_key, db_pool. cbn [contents]. rewrite Ho.
    rewrite (bind_step _ _ _ _ _ (query_nf _ _)). rewrite (select_single _ _ k w).
    + cbn [omap list_omap fst snd k]. unfold d' at 1. cbn [with_allocations with_devices ip_allocations].
      rewrite lookup_insert_eq. cbn [fmap option_fmap option_map head].
      unfold k. cbv beta iota zeta. rewrite (lift_step _ _ _ tt) by (cbn; by rewrite Hlen).
      rewrite (bind_step _ _ _ _ _ (query_nf _ _)). rewrite (select_routes_eq _ _ 0 []).
      * rewrite (lift_step _ _ _ []) by done. rewrite (lift_step _ _ _ ip); [done|].
        unfold parse_ip. by rewrite StdFacts.ipv4_parse_to_string.
      * rewrite select_nil; [done|]. intros k' x Hx. apply bool_decide_eq_false. intros E.
        destruct (P4 k' x Hx) as [y Hy]. rewrite E in Hy. fold k in Hy. congruence.
    + apply lookup_insert_eq.
    + by rewrite bool_decide_eq_true_2.
    + intros k' x Hx [Hb%bool_decide_eq_true _]%andb_true_iff. unfold d' in Hx. cbn in Hx.
      apply lookup_insert_Some in Hx as [[<- _]|[_ Hx]]; [done|]. by destruct (Hun k' x Hx).
  - unfold Db.load_wireguard_peer, db_pool. cbn [contents]. rewrite Ho.
    rewrite (bind_step _ _ _ _ _ (query_nf _ _)). fold k. unfold d' at 1.
    cbn [with_allocations with_devices with_wireguard_peers wireguard_peers]. rewrite lookup_insert_eq.
    cbn. rewrite Hlen. destruct r. simpl in *. by subst.
  - assert (db_inv d') as Hi'.
    { pose proof (StoreFacts.run_inv (InsertPeerWithIp r ip) (mkConn d []) Hi) as Hr. cbn [run] in Hr. rewrite H in Hr.
      cbn [snd contents] in Hr. exact Hr. }
    destruct (delete_peer_total (wp_network_code r) (wp_peer_id r) d' Hi') as (res & [d2 fs] & Ed). rewrite Ed.
    pose proof (delete_peer_ff (wp_network_code r) (wp_peer_id r) (mkConn d' []) eq_refl) as Hff.
    rewrite Ed in Hff. cbn in Hff. subst fs. apply StoreFacts.delete_peer_ok in Ed as [-> Ed]. cbn [contents] in Ed.
    fold k in Ed |- *. unfold d' in Ed |- *. cbn in Ed |- *. rewrite !lookup_insert_eq. do 2 f_equal. rewrite Ed.
    rewrite !delete_insert_id by done.
    assert (wireguard_peer_profiles d !! k = None) as Ef.
    { destruct (wireguard_peer_profiles d !! k) as [x|] eqn:E; [|done]. apply P3 in E as [[y Hy] _]. congruence. }
    assert (wireguard_peer_secrets d !! k = None) as Es.
    { destruct (wireguard_peer_secrets d !! k) as [x|] eqn:E; [|done]. apply P5 in E as [[y Hy] _]. congruence. }
    rewrite !delete_id by done.
    assert (delete_where (λ k' _, Db.route_of (wp_network_code r) (wp_peer_id r) k') (wireguard_peer_routes d)
            = wireguard_peer_routes d) as ->; [|by destruct d].
    apply map_eq. intros k'. rewrite lookup_delete_where. destruct (wireguard_peer_routes d !! k') as [x|] eqn:E; [|done].
    unfold Db.route_of. rewrite bool_decide_eq_false_2; [done|]. intros E'. destruct (P4 k' x E) as [y Hy].
    rewrite E' in Hy. fold k in Hy. congruence.
Qed.
End Peers.

(** ** Witnesses *)

Module RestoreWitness.
Import Model StoreModel LeaseWitness StorageWitness.
#[local] Existing Instance NetWitness.MV.
#[local] Existing Instance NetWitness.MW.

Lemma device_rows : map_to_list (devices (contents c1)) =
  [(("dev", "net")%string, mkDeviceRow (Some "10.26.0.2"%string) "laptop" "2.0" 100 0 0)].
Proof. vm_compute. reflexivity. Qed.
Lemma allocation_rows : map_to_list (ip_allocations (contents c1)) = [(device_key "net" "dev", "10.26.0.2"%string)].
Proof. vm_compute. reflexivity. Qed.

Lemma times_ok dev w : devices (contents c1) !! (dev, "net"%string) = Some w → 0 ≤ dv_last_connect_time w ≤ i64_max.
Proof.
  intros H. apply elem_of_map_to_list in H. rewrite device_rows in H. apply list_elem_of_singleton in H.
  injection H as _ ->. unfold i64_max. simpl. lia.
Qed.
Lemma no_peers p t : ip_allocations (contents c1) !! peer_key "net" p = Some t → is_Some (ipv4_parse t).
Proof.
  intros H. apply elem_of_map_to_list in H. rewrite allocation_rows in H. apply list_elem_of_singleton in H.
  injection H as H _. discriminate H.
Qed.
Lemma dev_row : devices (contents c1) !! ("dev"%string, "net"%string) =
  Some (mkDeviceRow (Some "10.26.0.2"%string) "laptop" "2.0" 100 0 0).
Proof. apply elem_of_map_to_list. rewrite device_rows. by apply list_elem_of_singleton. Qed.


(** A generated peer with the address 9. *)
Definition key : bytes := replicate 32 7.
Definition peer : WireGuardPeerRecord := mkWireGuardPeerRecord "net" "phone" key true 50 50.
Definition c5 : Conn Database := (Db.insert_wireguard_peer_with_ip peer (host 9) (mkConn (contents c1) [])).2.
Lemma inserted : Db.insert_wireguard_peer_with_ip peer (host 9) (mkConn (contents c1) []) = (Ok tt, c5).
Proof.
  rewrite (surjective_pairing (Db.insert_wireguard_peer_with_ip peer (host 9) (mkConn (contents c1) []))).
  apply (f_equal2 pair); [vm_compute; reflexivity|reflexivity].
Defined.

Lemma peer_lifecycle_witness :
  Db.load_wireguard_runtime_peer_by_public_key key c5 =
    (Ok (Some (Db.mkRuntimePeer "net" "phone" key (host 9) [])), c5) ∧
  Db.load_wireguard_peer "net" "phone" c5 = (Ok (Some peer), c5) ∧
  Db.delete_wireguard_peer "net" "phone" c5 = (Ok (mkWireGuardPeerDeleteResult true true), mkConn (contents c1) []).
Proof. refine (peer_lifecycle peer (host 9) (contents c1) c5 inv1 _ eq_refl inserted). vm_compute. by split. Defined.

(** Its profile, with two routes. *)
Definition profile : Db.WireGuardPeerProfileRecord :=
  Db.mkPeerProfile "net" "phone" (Some [IpV4 (ipv4 1 1 1 1); IpV6 1]) 25
    [Db.mkPeerRoute (mkCidr (ipv4 192 168 9 0) 24 eq_refl) (host 2);
     Db.mkPeerRoute (mkCidr (ipv4 10 0 0 0) 8 eq_refl) (host 2)] false 60 60.
Definition c6 : Conn Database := (Db.save_wireguard_peer_profile profile None (mkConn (contents c5) [])).2.
Lemma saved : Db.save_wireguard_peer_profile profile None (mkConn (contents c5) []) = (Ok tt, c6).
Proof.
  rewrite (surjective_pairing (Db.save_wireguard_peer_profile profile None (mkConn (contents c5) []))).
  apply (f_equal2 pair); [vm_compute; reflexivity|reflexivity].
Defined.
Lemma inv5 : db_inv (contents c5).
Proof.
  assert (∀ c c', Db.insert_wireguard_peer_with_ip peer (host 9) c = (Ok tt, c') → db_inv (contents c) →
            db_inv (contents c')) as H; [|exact (H _ _ inserted inv1)].
  intros c c' E Hi. pose proof (StoreFacts.run_inv (InsertPeerWithIp peer (host 9)) c Hi) as Hr.
  cbn [run] in Hr. rewrite E in Hr. exact Hr.
Qed.
Lemma no_secret : is_some (wireguard_peer_secrets (contents c5) !! ("net", "phone")%string) = false.
Proof. vm_compute. reflexivity. Qed.
Lemma no_profile : wireguard_peer_profiles (contents c5) !! ("net", "phone")%string = None.
Proof. vm_compute. reflexivity. Qed.

Lemma profile_roundtrip_witness :
  Db.load_wireguard_peer_profile "net" "phone" c6 = (Ok (Some profile), c6).
Proof.
  pose proof (profile_roundtrip profile None (contents c5) c6 inv5) as H. cbv zeta in H.
  cbn [Db.pf_network_code Db.pf_peer_id profile fst snd] in H.
  rewrite no_secret, no_profile in H. apply H; [|discriminate|exact saved].
  repeat constructor; vm_compute; discriminate.
Defined.
End RestoreWitness.
