(* ===== verification/Vault.v ===== *)
(** The keys the server keeps encrypted in its database:
    [server/control_server/wireguard_identity.rs] and
    [server/control_server/wireguard_profile.rs].

    The private key of the server and those of the generated WireGuard peers
    are encrypted with XChaCha20-Poly1305 under a master key from a file.  The
    cipher and the curve are the parameter [KeyLib]; random nonces and keys are
    arguments; a [WireGuardIdentity] is its 32 private bytes. *)

From S2P Require Import Prelude Libs Std NetState Sql Db DbFacts Storage Restore.
From stdpp Require Import base gmap strings list.
From Stdlib Require Import ZArith Lia.

Local Open Scope Z_scope.

(** chacha20poly1305 and x25519-dalek. *)
Class KeyLib := {
  (** [XChaCha20Poly1305::new(key).encrypt(nonce, Payload { msg, aad })]. *)
  aead_encrypt : bytes → bytes → bytes → bytes → option bytes;
  aead_decrypt : bytes → bytes → bytes → bytes → option bytes;
  (** [PublicKey::from(&StaticSecret::from(private)).to_bytes()]. *)
  x25519_public : bytes → bytes
}.

Class KeyLaws `{!KeyLib} : Prop := {
  (** A private key can be encrypted; the tag has sixteen bytes. *)
  aead_encrypt_key k n a m : length m = 32%nat →
    ∃ c, aead_encrypt k n a m = Some c ∧ length c = 48%nat;
  (** What decrypts is what was encrypted. *)
  aead_decrypt_encrypt k n a m c : aead_encrypt k n a m = Some c ↔ aead_decrypt k n a c = Some m;
  x25519_public_length s : length (x25519_public s) = 32%nat
}.

Definition FORMAT_VERSION : Z := 1.
Definition INITIAL_KEY_VERSION : Z := 1.

(** [i64::to_be_bytes]. *)
Definition i64_be (x : Z) : bytes := to_be_bytes 8 (i64_as_u64 x).

(** [load_master_key]: the contents of the file, if it can be read. *)
Definition load_master_key (file : option bytes) : result DbError bytes :=
  content ← ok_or file BadMasterKey;
  _ ← ensure (length content =? 32)%nat BadMasterKey;
  Ok content.

(** ** The server's identity *)

Module Identity.
Section Identity.
Context {KL : KeyLib}.

Definition AAD_CONTEXT : bytes := string_bytes "vnts2/wireguard-server-identity".

Definition associated_data (format_version key_version : Z) (public_key : bytes) : bytes :=
  AAD_CONTEXT ++ i64_be format_version ++ i64_be key_version ++ public_key.

Definition encrypt_identity (nonce master_key identity : bytes) (key_version created_at updated_at : Z)
    : result DbError EncryptedKey :=
  let public_key := x25519_public identity in
  _ ← ensure (0 <? key_version) BadKeyVersion;
  ciphertext ← ok_or (aead_encrypt master_key nonce
                 (associated_data FORMAT_VERSION key_version public_key) identity) EncryptionFailed;
  Ok (mkEncryptedKey FORMAT_VERSION key_version nonce ciphertext public_key created_at updated_at).

Definition decrypt_identity (master_key : bytes) (r : EncryptedKey) : result DbError bytes :=
  _ ← ensure (ek_format_version r =? FORMAT_VERSION) UnsupportedFormat;
  _ ← ensure (0 <? ek_key_version r) BadKeyVersion;
  _ ← ensure (length (ek_public_key r) =? 32)%nat BadKeyLength;
  _ ← ensure (length (ek_nonce r) =? 24)%nat BadNonceLength;
  plaintext ← ok_or (aead_decrypt master_key (ek_nonce r)
                (associated_data (ek_format_version r) (ek_key_version r) (ek_public_key r))
                (ek_ciphertext r)) AuthenticationFailed;
  _ ← ensure (length plaintext =? 32)%nat BadKeyLength;
  _ ← ensure (bool_decide (x25519_public plaintext = ek_public_key r)) KeyMismatch;
  Ok plaintext.

(** [fresh] is the random key, [meanwhile] what other tasks do to the database
    between the two statements. *)
Definition load_or_create (master_key fresh nonce : bytes) (now : Z) (meanwhile : DBM unit) : DBM bytes :=
  existing ← Db.load_wireguard_server_identity;
  match existing with
  | Some r => db_lift (decrypt_identity master_key r)
  | None =>
      _ ← meanwhile;
      r ← db_lift (encrypt_identity nonce master_key fresh INITIAL_KEY_VERSION now now);
      inserted ← Db.insert_wireguard_server_identity_if_absent r;
      if (inserted : bool) then mret fresh
      else
        existing ← Db.load_wireguard_server_identity;
        r ← db_lift (ok_or existing IdentityMissing);
        db_lift (decrypt_identity master_key r)
  end.

(** [IdentityRotation]: the old and the new public key. *)
Definition rotate_identity (master_key fresh nonce : bytes) (now : Z) : DBM (bytes * bytes) :=
  existing ← Db.load_wireguard_server_identity;
  current ← db_lift (ok_or existing IdentityMissing);
  identity ← db_lift (decrypt_identity master_key current);
  _ ← db_lift (ensure (negb (bool_decide (x25519_public fresh = x25519_public identity))) SameIdentity);
  replacement ← db_lift (encrypt_identity nonce master_key fresh (ek_key_version current) now now);
  _ ← Db.replace_wireguard_server_identity current replacement;
  mret (x25519_public identity, x25519_public fresh).
End Identity.
End Identity.

(** ** The keys of generated peers *)

Module Profile.
Section Profile.
Context {KL : KeyLib}.

Definition AAD_CONTEXT : bytes := string_bytes "vnts2/wireguard-peer-secret".

(** [(s.len() as u32).to_be_bytes()] and the bytes of [s]. *)
Definition length_prefixed (s : string) : bytes :=
  to_be_bytes 4 (wrap 32 (Z.of_nat (length (string_bytes s)))) ++ string_bytes s.

Definition associated_data (format_version key_version : Z) (network_code peer_id : string)
    (public_key : bytes) : bytes :=
  AAD_CONTEXT ++ i64_be format_version ++ i64_be key_version ++ length_prefixed network_code
    ++ length_prefixed peer_id ++ public_key.

(** Of the profile only the owner and the times are used. *)
Definition encrypt_secret (nonce master_key : bytes) (network_code peer_id : string)
    (created_at updated_at : Z) (public_key private_key : bytes) (key_version : Z)
    : result DbError Db.EncryptedWireGuardPeerSecret :=
  _ ← ensure (0 <? key_version) BadKeyVersion;
  ciphertext ← ok_or (aead_encrypt master_key nonce
                 (associated_data FORMAT_VERSION key_version network_code peer_id public_key)
                 private_key) EncryptionFailed;
  Ok (Db.mkPeerSecret network_code peer_id
        (mkEncryptedKey FORMAT_VERSION key_version nonce ciphertext public_key created_at updated_at)).

Definition decrypt_secret (master_key : bytes) (s : Db.EncryptedWireGuardPeerSecret)
    : result DbError bytes :=
  let r := Db.sc_key s in
  _ ← ensure (ek_format_version r =? FORMAT_VERSION) UnsupportedFormat;
  _ ← ensure (0 <? ek_key_version r) BadKeyVersion;
  _ ← ensure (length (ek_public_key r) =? 32)%nat BadKeyLength;
  _ ← ensure (length (ek_nonce r) =? 24)%nat BadNonceLength;
  plaintext ← ok_or (aead_decrypt master_key (ek_nonce r)
                (associated_data (ek_format_version r) (ek_key_version r) (Db.sc_network_code s)
                   (Db.sc_peer_id s) (ek_public_key r)) (ek_ciphertext r)) AuthenticationFailed;
  _ ← ensure (length plaintext =? 32)%nat BadKeyLength;
  _ ← ensure (bool_decide (x25519_public plaintext = ek_public_key r)) KeyMismatch;
  Ok plaintext.

(** The [n]-th secret is encrypted with the nonce [nonces n]. *)
Fixpoint reencrypt (nonces : nat → bytes) (n : nat) (current_key new_key : bytes)
    (new_version updated_at : Z) (l : list Db.EncryptedWireGuardPeerSecret)
    : result DbError (list Db.EncryptedWireGuardPeerSecret) :=
  match l with
  | [] => Ok []
  | s :: l =>
      private_key ← decrypt_secret current_key s;
      _ ← ensure (length (ek_public_key (Db.sc_key s)) =? 32)%nat BadKeyLength;
      s' ← encrypt_secret (nonces n) new_key (Db.sc_network_code s) (Db.sc_peer_id s)
             (ek_created_at (Db.sc_key s)) updated_at (ek_public_key (Db.sc_key s)) private_key new_version;
      rest ← reencrypt nonces (S n) current_key new_key new_version updated_at l;
      Ok (s' :: rest)
  end.

Definition reencrypt_all_peer_secrets (nonces : nat → bytes) (current_key new_key : bytes)
    (new_version updated_at : Z) : DBM (list Db.EncryptedWireGuardPeerSecret) :=
  current ← Db.load_all_wireguard_peer_secrets;
  db_lift (reencrypt nonces 0 current_key new_key new_version updated_at current).

Section Save.
Context {NL : Ipv4NetLib} {NT : Ipv4NetText} {DJ : DnsJson}.

Definition save_generated_profile (nonce : bytes) (file : option bytes)
    (p : Db.WireGuardPeerProfileRecord) (public_key private_key : bytes) : DBM unit :=
  master_key ← db_lift (load_master_key file);
  secret ← db_lift (encrypt_secret nonce master_key (Db.pf_network_code p) (Db.pf_peer_id p)
             (Db.pf_created_at p) (Db.pf_updated_at p) public_key private_key INITIAL_KEY_VERSION);
  Db.save_wireguard_peer_profile p (Some secret).

Definition save_profile (p : Db.WireGuardPeerProfileRecord) : DBM unit :=
  Db.save_wireguard_peer_profile p None.
End Save.

Definition load_private_key (file : option bytes) (network_code peer_id : string)
    : DBM (option bytes) :=
  secret ← Db.load_wireguard_peer_secret network_code peer_id;
  match secret with
  | None => mret None
  | Some s =>
      master_key ← db_lift (load_master_key file);
      key ← db_lift (decrypt_secret master_key s);
      mret (Some key)
  end.
End Profile.
End Profile.

(** ** Rotation of the master key *)

Record MasterKeyRotation := mkMasterKeyRotation {
  mr_public_key : bytes; mr_previous_version : Z; mr_new_version : Z }.

Section Rotation.
Context {KL : KeyLib}.

(** [wireguard_identity::rotate_master_key_with_pool]; [nonces 0] is for the
    identity, the following ones for the peers' keys. *)
Definition rotate_master_key (nonces : nat → bytes) (current_key new_key : bytes) (now : Z)
    : DBM MasterKeyRotation :=
  _ ← db_lift (ensure (negb (bool_decide (current_key = new_key))) SameMasterKey);
  existing ← Db.load_wireguard_server_identity;
  current ← db_lift (ok_or existing IdentityMissing);
  identity ← db_lift (Identity.decrypt_identity current_key current);
  new_version ← db_lift (ok_or (if ek_key_version current <? i64_max
                                then Some (ek_key_version current + 1) else None) KeyVersionOverflow);
  replacement ← db_lift (Identity.encrypt_identity (nonces 0%nat) new_key identity new_version
                           (ek_created_at current) now);
  secrets ← Profile.reencrypt_all_peer_secrets (λ n, nonces (S n)) current_key new_key new_version
              (ek_updated_at replacement);
  _ ← Db.replace_wireguard_identity_and_peer_secrets current replacement secrets;
  mret (mkMasterKeyRotation (x25519_public identity) (ek_key_version current) new_version).
End Rotation.

(** ** Facts *)

Module VaultFacts.
Section VaultFacts.
Context {KL : KeyLib} {KLL : KeyLaws}.

Lemma decrypt_identity_ok key r m :
  Identity.decrypt_identity key r = Ok m ↔
  ek_format_version r = FORMAT_VERSION ∧ 0 < ek_key_version r ∧ length (ek_public_key r) = 32%nat ∧
  length (ek_nonce r) = 24%nat ∧
  aead_decrypt key (ek_nonce r)
    (Identity.associated_data (ek_format_version r) (ek_key_version r) (ek_public_key r)) (ek_ciphertext r) = Some m ∧
  length m = 32%nat ∧ x25519_public m = ek_public_key r.
Proof.
  unfold Identity.decrypt_identity, ensure.
  destruct (Z.eqb_spec (ek_format_version r) FORMAT_VERSION); [|naive_solver].
  destruct (Z.ltb_spec 0 (ek_key_version r)); [|naive_solver lia].
  destruct (Nat.eqb_spec (length (ek_public_key r)) 32); [|naive_solver].
  destruct (Nat.eqb_spec (length (ek_nonce r)) 24); [|naive_solver]. cbn [mbind result_bind].
  destruct (aead_decrypt _ _ _ _) as [x|]; [|naive_solver]. cbn [ok_or mbind result_bind].
  destruct (Nat.eqb_spec (length x) 32); [|naive_solver]. cbn [mbind result_bind].
  destruct (bool_decide_reflect (x25519_public x = ek_public_key r)); naive_solver.
Qed.

Lemma encrypt_identity_ok nonce key m v t1 t2 r :
  Identity.encrypt_identity nonce key m v t1 t2 = Ok r →
  0 < v ∧ ∃ c, aead_encrypt key nonce (Identity.associated_data FORMAT_VERSION v (x25519_public m)) m = Some c ∧
    r = mkEncryptedKey FORMAT_VERSION v nonce c (x25519_public m) t1 t2.
Proof.
  unfold Identity.encrypt_identity, ensure. destruct (Z.ltb_spec 0 v); [|done]. cbn [mbind result_bind].
  destruct (aead_encrypt _ _ _ _) as [c|]; [|done]. cbn [ok_or mbind result_bind]. intros [= <-]. eauto.
Qed.

Lemma encrypt_identity_total nonce key m v t1 t2 :
  length m = 32%nat → length nonce = 24%nat → 0 < v →
  ∃ r, Identity.encrypt_identity nonce key m v t1 t2 = Ok r ∧ Db.key_checks r = true.
Proof.
  intros Hm Hn Hv. unfold Identity.encrypt_identity, ensure. rewrite (proj2 (Z.ltb_lt _ _)) by done. cbn [mbind result_bind].
  destruct (aead_encrypt_key key nonce (Identity.associated_data FORMAT_VERSION v (x25519_public m)) m Hm)
    as (c & -> & Hc).
  eexists. split; [reflexivity|]. unfold Db.key_checks. cbn.
  by rewrite (proj2 (Z.ltb_lt _ _)), Hn, Hc, x25519_public_length.
Qed.

Lemma identity_roundtrip nonce key m v t1 t2 r :
  length m = 32%nat → length nonce = 24%nat →
  Identity.encrypt_identity nonce key m v t1 t2 = Ok r → Identity.decrypt_identity key r = Ok m.
Proof.
  intros Hm Hn (Hv & c & Hc & ->)%encrypt_identity_ok. apply decrypt_identity_ok. cbn.
  split_and!; try done; [apply x25519_public_length|by apply aead_decrypt_encrypt].
Qed.

Lemma decrypt_secret_ok key s m :
  let r := Db.sc_key s in
  Profile.decrypt_secret key s = Ok m ↔
  ek_format_version r = FORMAT_VERSION ∧ 0 < ek_key_version r ∧ length (ek_public_key r) = 32%nat ∧
  length (ek_nonce r) = 24%nat ∧
  aead_decrypt key (ek_nonce r)
    (Profile.associated_data (ek_format_version r) (ek_key_version r) (Db.sc_network_code s) (Db.sc_peer_id s)
       (ek_public_key r)) (ek_ciphertext r) = Some m ∧
  length m = 32%nat ∧ x25519_public m = ek_public_key r.
Proof.
  intros r. unfold Profile.decrypt_secret, ensure. fold r.
  destruct (Z.eqb_spec (ek_format_version r) FORMAT_VERSION); [|naive_solver].
  destruct (Z.ltb_spec 0 (ek_key_version r)); [|naive_solver lia].
  destruct (Nat.eqb_spec (length (ek_public_key r)) 32); [|naive_solver].
  destruct (Nat.eqb_spec (length (ek_nonce r)) 24); [|naive_solver]. cbn [mbind result_bind].
  destruct (aead_decrypt _ _ _ _) as [x|]; [|naive_solver]. cbn [ok_or mbind result_bind].
  destruct (Nat.eqb_spec (length x) 32); [|naive_solver]. cbn [mbind result_bind].
  destruct (bool_decide_reflect (x25519_public x = ek_public_key r)); naive_solver.
Qed.

Lemma encrypt_secret_ok nonce key code p t1 t2 pub m v s :
  Profile.encrypt_secret nonce key code p t1 t2 pub m v = Ok s →
  0 < v ∧ ∃ c, aead_encrypt key nonce (Profile.associated_data FORMAT_VERSION v code p pub) m = Some c ∧
    s = Db.mkPeerSecret code p (mkEncryptedKey FORMAT_VERSION v nonce c pub t1 t2).
Proof.
  unfold Profile.encrypt_secret, ensure. destruct (Z.ltb_spec 0 v); [|done]. cbn [mbind result_bind].
  destruct (aead_encrypt _ _ _ _) as [c|]; [|done]. cbn [ok_or mbind result_bind]. intros [= <-]. eauto.
Qed.

Lemma secret_roundtrip nonce key code p t1 t2 m v s :
  length m = 32%nat → length nonce = 24%nat →
  Profile.encrypt_secret nonce key code p t1 t2 (x25519_public m) m v = Ok s →
  Profile.decrypt_secret key s = Ok m.
Proof.
  intros Hm Hn (Hv & c & Hc & ->)%encrypt_secret_ok. apply decrypt_secret_ok. cbn.
  split_and!; try done; [apply x25519_public_length|by apply aead_decrypt_encrypt].
Qed.

(** *** Rotation *)

Definition owner (s : Db.EncryptedWireGuardPeerSecret) : PeerKey := (Db.sc_network_code s, Db.sc_peer_id s).
Definition keep_created (k old : EncryptedKey) : EncryptedKey :=
  mkEncryptedKey (ek_format_version k) (ek_key_version k) (ek_nonce k) (ek_ciphertext k) (ek_public_key k)
    (ek_created_at old) (ek_updated_at k).

Lemma decrypt_keep_created key code p k old :
  Profile.decrypt_secret key (Db.mkPeerSecret code p (keep_created k old)) =
  Profile.decrypt_secret key (Db.mkPeerSecret code p k).
Proof. done. Qed.

Lemma reencrypt_ok nonces n k1 k2 v t l l' :
  (∀ i, length (nonces i) = 24%nat) →
  Profile.reencrypt nonces n k1 k2 v t l = Ok l' →
  Forall2 (λ s s', owner s' = owner s ∧ ∃ m, Profile.decrypt_secret k1 s = Ok m ∧ Profile.decrypt_secret k2 s' = Ok m) l l'.
Proof.
  intros Hn. revert n l'. induction l as [|s l IH]; intros n l'; simpl; [by intros [= <-]|].
  destruct (Profile.decrypt_secret k1 s) as [m|] eqn:Ed; [|done]. cbn.
  destruct (Nat.eqb_spec (length (ek_public_key (Db.sc_key s))) 32); [|done]. cbn.
  destruct (Profile.encrypt_secret _ _ _ _ _ _ _ _ _) as [s'|] eqn:Ee; [|done]. cbn.
  destruct (Profile.reencrypt _ _ _ _ _ _ _) as [rest|] eqn:Er; [|done]. cbn. intros [= <-].
  constructor; [|by eapply IH].
  pose proof (proj1 (decrypt_secret_ok k1 s m) Ed) as (_ & _ & _ & _ & _ & Hm & Hpub).
  pose proof (encrypt_secret_ok _ _ _ _ _ _ _ _ _ _ Ee) as (_ & c & _ & Es). split; [by rewrite Es|].
  exists m. split; [done|]. rewrite <- Hpub in Ee. by eapply secret_roundtrip.
Qed.

Lemma update_secret_ok s d n d' :
  Db.update_secret s d = Ok (n, d') → n = 1 →
  ∃ old, wireguard_peer_secrets d !! owner s = Some old ∧
    d' = with_profiles (wireguard_peer_profiles d) (wireguard_peer_routes d)
           (<[owner s := keep_created (Db.sc_key s) old]> (wireguard_peer_secrets d)) d.
Proof.
  unfold Db.update_secret, ensure. fold (owner s). destruct (wireguard_peer_secrets d !! _) as [old|]; [|naive_solver].
  destruct (Db.key_checks _); [|done]. cbn. intros [= <- <-] _. eauto.
Qed.

Lemma update_secrets_ok l c c' :
  Db.update_secrets l c = (Ok tt, c') → NoDup (owner <$> l) →
  wireguard_server_identity (contents c') = wireguard_server_identity (contents c) ∧
  (∀ s, s ∈ l → ∃ old, wireguard_peer_secrets (contents c) !! owner s = Some old ∧
     wireguard_peer_secrets (contents c') !! owner s = Some (keep_created (Db.sc_key s) old)) ∧
  (∀ k, k ∉ owner <$> l → wireguard_peer_secrets (contents c') !! k = wireguard_peer_secrets (contents c) !! k).
Proof.
  revert c. induction l as [|s l IH]; intros c H Hnd; simpl in H.
  { injection H as <-. split; [done|]. split; [by intros s ?%not_elem_of_nil|done]. }
  cbn in Hnd. apply NoDup_cons in Hnd as [Hs Hnd].
  apply RunFacts.bind_ok in H as (n & c1 & H1%RunFacts.exec_ok & H).
  apply RunFacts.bind_ok in H as ([] & ? & [Hn ->]%RunFacts.lift_ok & H). apply TableFacts.ensure_ok, Z.eqb_eq in Hn.
  apply update_secret_ok in H1 as (old & Ho & E1); [|done]. apply IH in H as (E & HA & HB); [|done].
  rewrite E1 in E, HA, HB. cbn in *. split; [done|]. split.
  - intros s' [->|Hs']%elem_of_cons.
    + exists old. split; [done|]. by rewrite HB, lookup_insert_eq.
    + destruct (HA s' Hs') as (old' & Ho' & Hn'). exists old'. split; [|done].
      rewrite lookup_insert_ne in Ho'; [done|]. intros E'. apply Hs. rewrite E'. apply list_elem_of_fmap. eauto.
  - intros k Hk. apply not_elem_of_cons in Hk as [Hne Hk]. rewrite HB by done. by apply lookup_insert_ne.
Qed.

Lemma load_secrets_ok c l c' :
  Db.load_all_wireguard_peer_secrets c = (Ok l, c') →
  contents c' = contents c ∧ NoDup (owner <$> l) ∧
  ∀ s, s ∈ l ↔ wireguard_peer_secrets (contents c) !! owner s = Some (Db.sc_key s).
Proof.
  unfold Db.load_all_wireguard_peer_secrets. intros [-> E]%RunFacts.query_ok. split; [done|].
  set (f := λ x : PeerKey * EncryptedKey, Db.mkPeerSecret x.1.1 x.1.2 x.2). split.
  - rewrite <- list_fmap_compose, ReadFacts.order_by_perm.
    rewrite (list_fmap_ext (owner ∘ f) fst); [apply NoDup_fst_map_to_list|]. by intros i [[? ?] ?] _.
  - intros [code p k]. rewrite list_elem_of_fmap. unfold owner. cbn. split.
    + intros ([[code' p'] k'] & [= -> -> ->] & Hin). rewrite ReadFacts.order_by_perm in Hin.
      by apply elem_of_map_to_list in Hin.
    + intros Hk. exists ((code, p), k). split; [done|]. rewrite ReadFacts.order_by_perm. by apply elem_of_map_to_list.
Qed.

Lemma rotate_atomic nonces k1 k2 now : all_or_nothing (rotate_master_key nonces k1 k2 now).
Proof.
  unfold rotate_master_key, Db.load_wireguard_server_identity, Profile.reencrypt_all_peer_secrets,
    Db.load_all_wireguard_peer_secrets.
  do 7 (apply CallFacts.bind_atomic; [auto with db|intros ?]).
  intros c. unfold mbind, DB_bind.
  match goal with |- context [Db.replace_wireguard_identity_and_peer_secrets ?a ?b ?l c] =>
    assert (all_or_nothing (Db.replace_wireguard_identity_and_peer_secrets a b l)) as Ha
      by apply CallFacts.atomically_atomic; specialize (Ha c);
    destruct (Db.replace_wireguard_identity_and_peer_secrets a b l c) as [[[]|e] c'] end; done.
Qed.
End VaultFacts.
End VaultFacts.

(** ** Properties *)

Section VaultProperties.
Context {KL : KeyLib} {KLL : KeyLaws}.
Import VaultFacts.


(** The identity a start returns is the stored one. *)
Lemma identity_stored key fresh nonce now meanwhile c m c' :
  length fresh = 32%nat → length nonce = 24%nat →
  Identity.load_or_create key fresh nonce now meanwhile c = (Ok m, c') →
  ∃ r, wireguard_server_identity (contents c') = Some r ∧ Identity.decrypt_identity key r = Ok m.
Proof.
  intros Hf Hn H.
  unfold Identity.load_or_create, Db.load_wireguard_server_identity in H.
  apply RunFacts.bind_ok in H as (o & c1 & [-> E1]%RunFacts.query_ok & H).
  destruct (wireguard_server_identity (contents c)) as [r|] eqn:Er.
  { apply RunFacts.lift_ok in H as [Hm ->]. exists r. by rewrite E1. }
  apply RunFacts.bind_ok in H as ([] & c2 & _ & H).
  apply RunFacts.bind_ok in H as (r & ? & [Hr ->]%RunFacts.lift_ok & H).
  apply RunFacts.bind_ok in H as (b & c3 & Hb%RunFacts.exec_ok & H).
  destruct (is_some _ || _) eqn:Ec; injection Hb as <- E3.
  - apply RunFacts.bind_ok in H as (o & c4 & [-> E4]%RunFacts.query_ok & H).
    apply RunFacts.bind_ok in H as (r' & ? & [Hr' ->]%RunFacts.lift_ok & [Hm ->]%RunFacts.lift_ok).
    destruct (wireguard_server_identity (contents c3)) as [x|] eqn:Ex; [|done]. injection Hr' as ->.
    exists r'. by rewrite E4.
  - apply RunFacts.ret_ok in H as [-> ->]. exists r. rewrite <- E3. split; [done|].
    by eapply identity_roundtrip.
Qed.

(** The server has one identity.  Whatever other tasks write while the server
    starts, an identity that [load_or_create] returns is the one stored in the
    database, and from then on every start with the same master key returns it
    again. *)
Theorem identity_stable key fresh nonce now meanwhile c m c' :
  length fresh = 32%nat → length nonce = 24%nat →
  Identity.load_or_create key fresh nonce now meanwhile c = (Ok m, c') →
  (∃ r, wireguard_server_identity (contents c') = Some r ∧ Identity.decrypt_identity key r = Ok m) ∧
  ∀ fresh' nonce' now' meanwhile',
    Identity.load_or_create key fresh' nonce' now' meanwhile' (mkConn (contents c') []) =
      (Ok m, mkConn (contents c') []).
Proof.
  intros Hf Hn H.
  destruct (identity_stored _ _ _ _ _ _ _ _ Hf Hn H) as (r & Er & Em).
  split; [eauto|]. intros. unfold Identity.load_or_create, Db.load_wireguard_server_identity.
  rewrite (NoFaults.bind_step _ _ _ _ _ (NoFaults.query_nf _ _)), Er. unfold db_lift. by rewrite Em.
Qed.
End VaultProperties.

(** ** Binding of a stored key to its owner *)

Module AadFacts.
Lemma be_bytes_inj n x y : is_u (8 * Z.of_nat n) x → is_u (8 * Z.of_nat n) y → to_be_bytes n x = to_be_bytes n y → x = y.
Proof.
  intros Hx Hy E%(f_equal from_be_bytes). rewrite !from_to_be_bytes in E.
  assert (256 ^ Z.of_nat n = 2 ^ (8 * Z.of_nat n)) as Ep by (rewrite Z.pow_mul_r by lia; done).
  rewrite Ep, !Z.mod_small in E by done. done.
Qed.

Lemma i64_be_inj x y : - 2 ^ 63 ≤ x < 2 ^ 63 → - 2 ^ 63 ≤ y < 2 ^ 63 → i64_be x = i64_be y → x = y.
Proof.
  intros Hx Hy E. apply be_bytes_inj in E; [|by apply wrap_range; lia..].
  rewrite <- (i64_u64_roundtrip x), <- (i64_u64_roundtrip y) by done. by rewrite E.
Qed.

Lemma length_prefixed_inj s1 s2 r1 r2 :
  Z.of_nat (length (string_bytes s1)) < 2 ^ 32 → Z.of_nat (length (string_bytes s2)) < 2 ^ 32 →
  Profile.length_prefixed s1 ++ r1 = Profile.length_prefixed s2 ++ r2 → s1 = s2 ∧ r1 = r2.
Proof.
  unfold Profile.length_prefixed. intros H1 H2 E. rewrite <- !app_assoc in E.
  apply app_inj_1 in E as [El E]; [|by rewrite !length_to_be_bytes].
  apply be_bytes_inj in El; [|by apply wrap_range; lia..].
  rewrite !wrap_small in El by (unfold is_u; lia). apply Nat2Z.inj in El.
  apply app_inj_1 in E as [Es E]; [|done]. split; [by apply StdFacts.string_bytes_inj|done].
Qed.
End AadFacts.

Section Binding.
Context {KL : KeyLib} {KLL : KeyLaws}.

(** A stored private key is tied to its owner.  A secret that opens is the
    encryption of the key under the associated data of exactly this record, and
    no record of another network, peer, public key or version has the same
    associated data. *)
Theorem secret_bound_to_owner key s1 m :
  let aad s := Profile.associated_data (ek_format_version (Db.sc_key s)) (ek_key_version (Db.sc_key s))
                 (Db.sc_network_code s) (Db.sc_peer_id s) (ek_public_key (Db.sc_key s)) in
  let bounded s := Z.of_nat (length (string_bytes (Db.sc_network_code s))) < 2 ^ 32 ∧
                   Z.of_nat (length (string_bytes (Db.sc_peer_id s))) < 2 ^ 32 ∧
                   - 2 ^ 63 ≤ ek_key_version (Db.sc_key s) < 2 ^ 63 in
  bounded s1 → Profile.decrypt_secret key s1 = Ok m →
  aead_encrypt key (ek_nonce (Db.sc_key s1)) (aad s1) m = Some (ek_ciphertext (Db.sc_key s1)) ∧
  ∀ s2, bounded s2 → ek_format_version (Db.sc_key s2) = FORMAT_VERSION → aad s2 = aad s1 →
    Db.sc_network_code s2 = Db.sc_network_code s1 ∧ Db.sc_peer_id s2 = Db.sc_peer_id s1 ∧
    ek_public_key (Db.sc_key s2) = ek_public_key (Db.sc_key s1) ∧
    ek_key_version (Db.sc_key s2) = ek_key_version (Db.sc_key s1).
Proof.
  intros aad bounded (N1 & P1 & V1) (F1 & _ & _ & _ & A & _ & _)%VaultFacts.decrypt_secret_ok.
  split; [by apply aead_decrypt_encrypt|]. intros s2 (N2 & P2 & V2) F2 E. unfold aad in E.
  rewrite F1, F2 in E. unfold Profile.associated_data in E. apply app_inv_head, app_inv_head in E.
  apply app_inj_1 in E as [Ev%AadFacts.i64_be_inj E]; [|done..].
  apply AadFacts.length_prefixed_inj in E as [Ecode E]; [|done..].
  by apply AadFacts.length_prefixed_inj in E as [Epeer E].
Qed.
End Binding.

(** ** An executable model of the cipher, and witnesses *)

Module VaultModel.
(** Not a cipher: the message is followed by a tag that depends on the key, the
    nonce and the associated data. *)
Definition tag (k n a : bytes) : bytes :=
  to_be_bytes 16 (fold_left (λ h b, (h * 257 + b + 1) mod 2 ^ 128) (k ++ n ++ a) 0).
Definition encrypt (k n a m : bytes) : option bytes := Some (m ++ tag k n a).
Definition decrypt (k n a c : bytes) : option bytes :=
  let l := (length c - 16)%nat in
  if (16 <=? length c)%nat && bool_decide (drop l c = tag k n a) then Some (take l c) else None.
Definition public (s : bytes) : bytes := to_be_bytes 32 (from_be_bytes s + 1).

#[export] Instance key_lib : KeyLib := {|
  aead_encrypt := encrypt; aead_decrypt := decrypt; x25519_public := public |}.

Lemma tag_length k n a : length (tag k n a) = 16%nat.
Proof. apply length_to_be_bytes. Qed.

#[export] Instance key_laws : KeyLaws.
Proof.
  split; unfold aead_encrypt, aead_decrypt, x25519_public, key_lib.
  - intros k n a m Hm. eexists. split; [reflexivity|]. by rewrite length_app, tag_length, Hm.
  - intros k n a m c. unfold encrypt, decrypt. split.
    + intros [= <-]. rewrite length_app, tag_length.
      replace (length m + 16 - 16)%nat with (length m) by lia.
      rewrite (proj2 (Nat.leb_le _ _)) by lia. rewrite drop_app_length, take_app_length.
      by rewrite bool_decide_eq_true_2.
    + destruct (Nat.leb_spec 16 (length c)); [|done]. simpl.
      destruct (bool_decide_reflect (drop (length c - 16) c = tag k n a)) as [E|]; [|done].
      intros [= <-]. by rewrite <- E, take_drop.
  - intros s. apply length_to_be_bytes.
Qed.
End VaultModel.

Module VaultWitness.
Import VaultModel Model StoreModel StorageWitness RestoreWitness.

Definition master1 : bytes := replicate 32 17.
Definition master2 : bytes := replicate 32 34.
Definition server_key : bytes := replicate 32 5.
Definition nonces (n : nat) : bytes := replicate 24 (Z.of_nat n).

(** The first start, and the private key of the generated peer. *)
Definition v1 : Conn Database :=
  (Identity.load_or_create master1 server_key (nonces 9) 70 (mret tt) (mkConn (contents c6) [])).2.
Lemma created :
  Identity.load_or_create master1 server_key (nonces 9) 70 (mret tt) (mkConn (contents c6) []) = (Ok server_key, v1).
Proof.
  rewrite (surjective_pairing (Identity.load_or_create master1 server_key (nonces 9) 70 (mret tt) (mkConn (contents c6) []))).
  apply (f_equal2 pair); [vm_compute; reflexivity|reflexivity].
Defined.

Lemma identity_stable_witness :
  (∃ r, wireguard_server_identity (contents v1) = Some r ∧ Identity.decrypt_identity master1 r = Ok server_key) ∧
  ∀ fresh' nonce' now' meanwhile',
    Identity.load_or_create master1 fresh' nonce' now' meanwhile' (mkConn (contents v1) []) =
      (Ok server_key, mkConn (contents v1) []).
Proof.
  exact (identity_stable master1 server_key (nonces 9) 70 (mret tt) (mkConn (contents c6) []) server_key v1
           eq_refl eq_refl created).
Defined.

Definition peer_private : bytes := replicate 32 8.
Definition v2 : Conn Database :=
  (Profile.save_generated_profile (nonces 3) (Some master1) profile (x25519_public peer_private) peer_private
     (mkConn (contents v1) [])).2.

(** The rotation succeeds; with a storage failure in the middle of the writes it
    does not, and nothing has changed. *)
Definition rotation := rotate_master_key nonces master1 master2 80 v2.
Definition failed_rotation :=
  rotate_master_key nonces master1 master2 80 (mkConn (contents v2) [false; false; false; false; true]).
Lemma nonces_ok i : length (nonces i) = 24%nat.
Proof. apply length_replicate. Qed.

Lemma rotated : is_ok rotation.1 = true ∧ is_err failed_rotation.1 = true.
Proof. split; vm_compute; reflexivity. Defined.

Lemma rotation_eq : rotate_master_key nonces master1 master2 80 v2 = (rotation.1, rotation.2).
Proof. exact (surjective_pairing (rotate_master_key nonces master1 master2 80 v2)). Defined.


(** The stored secret of the peer. *)
Definition secret1 : Db.EncryptedWireGuardPeerSecret :=
  Db.mkPeerSecret "net" "phone" (mkEncryptedKey 1 1 (nonces 3)
    (peer_private ++ tag master1 (nonces 3) (Profile.associated_data 1 1 "net" "phone" (public peer_private)))
    (public peer_private) 60 60).
Lemma secret_bound_to_owner_witness :
  aead_encrypt master1 (nonces 3) (Profile.associated_data 1 1 "net" "phone" (public peer_private)) peer_private
  = Some (ek_ciphertext (Db.sc_key secret1)).
Proof.
  refine (proj1 (secret_bound_to_owner master1 secret1 peer_private _ _)).
  - split; [vm_compute; reflexivity|]. split; [vm_compute; reflexivity|]. split; [vm_compute; discriminate|vm_compute; reflexivity].
  - vm_compute. reflexivity.
Defined.
End VaultWitness.
