(* ===== verification/Tunnel.v ===== *)
(** Interfaces of the WireGuard side: the UDP and remaining IPv4 accessors of
    [pnet_packet], the [boringtun] state machine, and the text form of socket
    addresses of the standard library.

    As in [Libs], each crate is a class of operations with a class of laws; the
    instances in [TunnelModel] show that the laws can hold. *)

From S2P Require Import Prelude Libs Std Db.
From stdpp Require Import base gmap strings list.
From Stdlib Require Import ZArith Lia Ascii.

Local Open Scope Z_scope.

(** ** [std::net]: [IpAddr], [SocketAddr] and their text form *)

#[export] Instance IpAddr_eq_dec : EqDecision IpAddr.
Proof. solve_decision. Defined.

(** [SocketAddr::ip]. *)
Definition sock_ip (a : SocketAddr) : IpAddr :=
  match a with SockV4 ip _ => IpV4 ip | SockV6 ip _ => IpV6 ip end.

Definition hex_char (d : Z) : ascii :=
  ascii_of_nat (Z.to_nat (if d <? 10 then d + 48 else d + 87)).

(** [{:x}] of a 16-bit segment: no leading zero. *)
Definition hex16 (x : Z) : string :=
  let d i := hex_char (Z.shiftr x (4 * i) mod 16) in
  if x <? 16 then String (d 0) ""
  else if x <? 256 then String (d 1) (String (d 0) "")
  else if x <? 4096 then String (d 2) (String (d 1) (String (d 0) ""))
  else String (d 3) (String (d 2) (String (d 1) (String (d 0) ""))).

(** The eight 16-bit segments, most significant first. *)
Definition segments (ip : Z) : list Z :=
  (λ i, Z.shiftr ip (16 * i) mod 65536) <$> [7; 6; 5; 4; 3; 2; 1; 0].

(** The longest run of zero segments, the first one of equal length: the
    running and the best span as (start, length). *)
Definition longest_zeros (segs : list Z) : nat * nat :=
  (fold_left (λ '(i, (current, longest)) seg,
     if seg =? 0 then
       let current := if (current.2 =? 0)%nat then (i, 1%nat) else (current.1, S current.2) in
       (S i, (current, if (longest.2 <? current.2)%nat then current else longest))
     else (S i, ((0, 0)%nat, longest)))
   segs (0%nat, ((0, 0)%nat, (0, 0)%nat))).2.2.

Fixpoint fmt_subslice (segs : list Z) : string :=
  match segs with
  | [] => ""
  | [s] => hex16 s
  | s :: segs => hex16 s +:+ ":" +:+ fmt_subslice segs
  end%string.

Definition ipv6_to_string (ip : Z) : string :=
  if Z.shiftr ip 32 =? 65535 then ("::ffff:" +:+ ipv4_to_string (ip mod 2 ^ 32))%string
  else
    let segs := segments ip in
    let '(start, len) := longest_zeros segs in
    if (1 <? len)%nat
    then (fmt_subslice (take start segs) +:+ "::" +:+ fmt_subslice (drop (start + len) segs))%string
    else fmt_subslice segs.

(** [u16: Display]. *)
Definition u16_to_string (x : Z) : string :=
  let d k := digit_char (x / 10 ^ k mod 10) in
  if x <? 1000 then octet_to_string x
  else if x <? 10000 then String (d 3) (String (d 2) (String (d 1) (String (d 0) "")))
  else String (d 4) (String (d 3) (String (d 2) (String (d 1) (String (d 0) "")))).

(** [SocketAddr: Display]; an IPv6 address here has scope id 0. *)
Definition socket_to_string (a : SocketAddr) : string :=
  match a with
  | SockV4 ip port => ipv4_to_string ip +:+ ":" +:+ u16_to_string port
  | SockV6 ip port => "[" +:+ ipv6_to_string ip +:+ "]:" +:+ u16_to_string port
  end%string.

(** ** pnet_packet: the UDP view and the IPv4 setters of a fresh packet *)

Class PnetUdpLib := {
  ipv4_set_version : Z → bytes → bytes;
  ipv4_set_header_length : Z → bytes → bytes;
  ipv4_set_total_length : Z → bytes → bytes;
  ipv4_set_ttl : Z → bytes → bytes;
  ipv4_set_next_level_protocol : Z → bytes → bytes;
  (** [UdpPacket::new(b).is_some()] and the accessors of the view. *)
  udp_new : bytes → bool;
  udp_get_source : bytes → Z;
  udp_get_destination : bytes → Z;
  udp_get_length : bytes → Z;
  udp_payload : bytes → bytes;
  udp_set_source : Z → bytes → bytes;
  udp_set_destination : Z → bytes → bytes;
  udp_set_length : Z → bytes → bytes;
  udp_set_payload : bytes → bytes → bytes;
  udp_set_checksum : Z → bytes → bytes;
  (** [udp::ipv4_checksum(packet, source, destination)]. *)
  udp_ipv4_checksum : bytes → Ipv4Addr → Ipv4Addr → Z
}.

(** A field of [n] bytes at offset [i], most significant byte first. *)
Abbreviation field := Model.field (only parsing).
Abbreviation set_field := Model.set_field (only parsing).

(** The views are the headers of RFC 791 and RFC 768: the place of each field in
    a buffer that is long enough for the header. *)
Class PnetLayout `{!PnetLib, !PnetUdpLib} : Prop := {
  ipv4_version_layout b : (20 ≤ length b)%nat → ipv4_get_version b = Z.shiftr (field 0 1 b) 4;
  ipv4_header_length_layout b : (20 ≤ length b)%nat →
    ipv4_get_header_length b = Z.land (field 0 1 b) 15;
  ipv4_total_length_layout b : (20 ≤ length b)%nat → ipv4_get_total_length b = field 2 2 b;
  ipv4_protocol_layout b : (20 ≤ length b)%nat → ipv4_get_next_level_protocol b = field 9 1 b;
  ipv4_source_layout b : (20 ≤ length b)%nat → ipv4_get_source b = field 12 4 b;
  ipv4_destination_layout b : (20 ≤ length b)%nat → ipv4_get_destination b = field 16 4 b;
  ipv4_set_version_layout x b : (20 ≤ length b)%nat →
    ipv4_set_version x b = set_field 0 1 (16 * x + Z.land (field 0 1 b) 15) b;
  ipv4_set_header_length_layout x b : (20 ≤ length b)%nat →
    ipv4_set_header_length x b = set_field 0 1 (16 * Z.shiftr (field 0 1 b) 4 + x) b;
  ipv4_set_total_length_layout x b : (20 ≤ length b)%nat →
    ipv4_set_total_length x b = set_field 2 2 x b;
  ipv4_set_ttl_layout x b : (20 ≤ length b)%nat → ipv4_set_ttl x b = set_field 8 1 x b;
  ipv4_set_protocol_layout x b : (20 ≤ length b)%nat →
    ipv4_set_next_level_protocol x b = set_field 9 1 x b;
  ipv4_set_source_layout x b : (20 ≤ length b)%nat → ipv4_set_source x b = set_field 12 4 x b;
  ipv4_set_destination_layout x b : (20 ≤ length b)%nat →
    ipv4_set_destination x b = set_field 16 4 x b;
  ipv4_set_checksum_layout x b : (20 ≤ length b)%nat → ipv4_set_checksum x b = set_field 10 2 x b;
  udp_new_layout b : udp_new b = bool_decide (8 ≤ length b)%nat;
  udp_source_layout b : (8 ≤ length b)%nat → udp_get_source b = field 0 2 b;
  udp_destination_layout b : (8 ≤ length b)%nat → udp_get_destination b = field 2 2 b;
  udp_length_layout b : (8 ≤ length b)%nat → udp_get_length b = field 4 2 b;
  udp_payload_layout b : udp_payload b = drop 8 b;
  udp_set_source_layout x b : (8 ≤ length b)%nat → udp_set_source x b = set_field 0 2 x b;
  udp_set_destination_layout x b : (8 ≤ length b)%nat →
    udp_set_destination x b = set_field 2 2 x b;
  udp_set_length_layout x b : (8 ≤ length b)%nat → udp_set_length x b = set_field 4 2 x b;
  udp_set_checksum_layout x b : (8 ≤ length b)%nat → udp_set_checksum x b = set_field 6 2 x b;
  udp_set_payload_layout p b : (8 + length p ≤ length b)%nat → udp_set_payload p b = write_at 8 p b
}.

(** ** tokio::sync::mpsc: what was sent stays sent, whichever queue is used next *)

Class MpscMono (W M : Type) `{!Mpsc W M} : Prop :=
  mpsc_sent_grows s s' m w : mpsc_sent s w `prefix_of` mpsc_sent s (mpsc_try_send s' m w).2.

(** ** boringtun: the noise state machine of one tunnel

    Its timers and random numbers make it depend on more than the tunnel, so
    every operation threads the state [B] of the crate's environment. *)

Inductive TunnError := ConnectionExpired | OtherTunnError.

Inductive TunnResult :=
| TunnDone
| TunnErr (e : TunnError)
| WriteToNetwork (packet : bytes)
| WriteToTunnelV4 (packet : bytes) (source : Ipv4Addr)
| WriteToTunnelV6 (packet : bytes) (source : Z).

(** [noise::Packet]: the handshake initiation is kept as it came. *)
Inductive WgPacket :=
| HandshakeInit (init : bytes)
| HandshakeResponse (receiver_idx : Z)
| PacketCookieReply (receiver_idx : Z)
| PacketData (receiver_idx : Z).

Class Boringtun (B : Type) := {
  Tunn : Type;
  RateLimiter : Type;
  (** [RateLimiter::verify_packet] and [reset_count]; the limiter counts behind a
      shared reference. *)
  verify_packet : RateLimiter → IpAddr → bytes → B → (WgPacket + TunnResult) * B;
  reset_count : RateLimiter → B → B;
  (** [parse_handshake_anon]: the static public key of the initiator. *)
  parse_handshake_anon : bytes → bytes → bytes → option bytes;
  tunn_new : bytes → bytes → Z → RateLimiter → B → Tunn * B;
  decapsulate : Tunn → option IpAddr → bytes → B → TunnResult * Tunn * B;
  encapsulate : Tunn → bytes → B → TunnResult * Tunn * B;
  tunn_update_timers : Tunn → B → TunnResult * Tunn * B
}.

(** [Tunn::decapsulate] with an empty datagram flushes the packets that waited
    for the handshake, one per call: the queue is finite. *)
Class BoringtunLaws (B : Type) `{!Boringtun B} := {
  queued : Tunn → nat;
  decapsulate_flush t b p t' b' :
    decapsulate t None [] b = (WriteToNetwork p, t', b') → (queued t' < queued t)%nat
}.

(** ** Executable models *)

Module TunnelModel.
#[local] Existing Instance Model.rfc_pnet.

Lemma field_byte i b : (i < length b)%nat → field i 1 b = Model.byte_at i b.
Proof.
  intros H. unfold Model.field, Model.byte_at. destruct (lookup_lt_is_Some_2 b i H) as [x Hx].
  rewrite Hx, (drop_S _ _ _ Hx). simpl. unfold from_be_bytes. simpl. lia.
Qed.

#[export] Instance rfc_udp : PnetUdpLib := {|
  ipv4_set_version := λ x b, set_field 0 1 (16 * x + Z.land (field 0 1 b) 15) b;
  ipv4_set_header_length := λ x b, set_field 0 1 (16 * Z.shiftr (field 0 1 b) 4 + x) b;
  ipv4_set_total_length := set_field 2 2;
  ipv4_set_ttl := set_field 8 1;
  ipv4_set_next_level_protocol := set_field 9 1;
  udp_new := λ b, bool_decide (8 ≤ length b)%nat;
  udp_get_source := field 0 2;
  udp_get_destination := field 2 2;
  udp_get_length := field 4 2;
  udp_payload := drop 8;
  udp_set_source := set_field 0 2;
  udp_set_destination := set_field 2 2;
  udp_set_length := set_field 4 2;
  udp_set_payload := write_at 8;
  udp_set_checksum := set_field 6 2;
  udp_ipv4_checksum := λ b src dst,
    Model.checksum16 9 (to_be_bytes 4 src ++ to_be_bytes 4 dst ++ [0; PROTO_UDP]
      ++ to_be_bytes 2 (Z.of_nat (length b)) ++ b)
|}.

#[export] Instance rfc_layout : PnetLayout.
Proof. split; try done; intros b Hb; cbn; rewrite field_byte by lia; done. Qed.

Lemma map_sent_grows {M} s s' (m : M) w :
  Model.map_sent s w `prefix_of` Model.map_sent s (Model.map_send s' m w).2.
Proof.
  destruct (Model.map_send s' m w) as [[e|] w'] eqn:E; [by rewrite (Model.map_send_err _ _ _ _ _ E)|].
  destruct (decide (s = s')) as [->|Hs].
  - simpl. rewrite (Model.map_send_ok _ _ _ _ E). apply prefix_app_r. done.
  - unfold Model.map_send in E. destruct (w !! s') as [q|]; [|done].
    destruct (Model.queue_send m q) as [[]]; simplify_eq. unfold Model.map_sent. simpl.
    by rewrite lookup_insert_ne.
Qed.

Lemma mpsc_fst_mono M1 M2 : @MpscMono _ M1 (Model.mpsc_fst M1 M2).
Proof.
  intros s s' m w. simpl. pose proof (map_sent_grows s s' m w.1).
  by destruct (Model.map_send s' m w.1).
Qed.

(** A tunnel that does not encrypt: the first byte of a datagram is its kind, a
    handshake carries the initiator's key, data the receiver index and the inner
    packet; packets given before the handshake wait in a queue. *)
Record PlainTunn := mkPlainTunn { pt_peer : bytes; pt_index : Z; pt_open : bool; pt_queue : list bytes }.

Definition plain_receiver (b : bytes) : Z := from_be_bytes (take 4 b).

Definition plain_verify (b : bytes) : WgPacket + TunnResult :=
  match b with
  | 1 :: init => inl (HandshakeInit init)
  | 2 :: r => inl (HandshakeResponse (plain_receiver r))
  | 4 :: r => inl (PacketData (plain_receiver r))
  | _ => inr (TunnErr OtherTunnError)
  end.

Definition plain_decapsulate (t : PlainTunn) (b : bytes) : TunnResult * PlainTunn :=
  match b with
  | [] => match pt_queue t with
          | p :: q => (WriteToNetwork (4 :: p), mkPlainTunn (pt_peer t) (pt_index t) (pt_open t) q)
          | [] => (TunnDone, t)
          end
  | 1 :: _ => (WriteToNetwork [2], mkPlainTunn (pt_peer t) (pt_index t) true (pt_queue t))
  | 4 :: r => if pt_open t then (WriteToTunnelV4 (drop 4 r) (field 12 4 (drop 4 r)), t)
              else (TunnErr OtherTunnError, t)
  | _ => (TunnErr OtherTunnError, t)
  end.

Definition plain_encapsulate (t : PlainTunn) (b : bytes) : TunnResult * PlainTunn :=
  if pt_open t then (WriteToNetwork (4 :: b), t)
  else (TunnDone, mkPlainTunn (pt_peer t) (pt_index t) false (pt_queue t ++ [b])).

#[export] Instance plain_tunnel : Boringtun unit := {|
  Tunn := PlainTunn;
  RateLimiter := unit;
  verify_packet := λ _ _ b w, (plain_verify b, w);
  reset_count := λ _ w, w;
  parse_handshake_anon := λ _ _ init, Some init;
  tunn_new := λ _ key index _ w, (mkPlainTunn key index false [], w);
  decapsulate := λ t _ b w, (plain_decapsulate t b, w);
  encapsulate := λ t b w, (plain_encapsulate t b, w);
  tunn_update_timers := λ t w, (if pt_open t then TunnDone else TunnErr ConnectionExpired, t, w)
|}.

#[export] Instance plain_laws : BoringtunLaws unit.
Proof.
  refine {| queued := λ t, length (pt_queue t) |}.
  intros t b p t' b'. simpl. unfold plain_decapsulate. destruct (pt_queue t); intros; simplify_eq/=. lia.
Defined.
End TunnelModel.
