(* ===== verification/P2p.v ===== *)
(** Direct tunnels between a WireGuard peer and a VNT client:
    [server/wireguard_p2p.rs].

    A peer asks the gateway, in a UDP packet inside its tunnel, for a direct
    tunnel to a client; the server offers the peer to the client and answers
    with the client's key and endpoint.  The lease is revoked when the session
    of the peer ends. *)

From S2P Require Import Prelude Libs Std Packet ControlMessage Bridge Lease NetState Db Tunnel.
From stdpp Require Import base gmap strings list.
From Stdlib Require Import ZArith Lia.

Local Open Scope Z_scope.

Definition AGENT_CONTROL_PORT : Z := 51821.
Definition IPV4_HEADER_LEN : nat := 20.
Definition UDP_HEADER_LEN : nat := 8.
Definition MAX_CONTROL_PAYLOAD : nat := 1024.
Definition LEASE_DURATION_MS : Z := 60000.

(** ** Messages *)

Inductive WireGuardP2pStatus :=
| WireguardP2pOk | WireguardP2pNotFound | WireguardP2pNotCapable | WireguardP2pRejected
| WireguardP2pBusy.

Definition status_as_i32 (s : WireGuardP2pStatus) : Z :=
  match s with
  | WireguardP2pOk => 0 | WireguardP2pNotFound => 1 | WireguardP2pNotCapable => 2
  | WireguardP2pRejected => 3 | WireguardP2pBusy => 4
  end.

Record WireGuardP2pAgentRequest := mkP2pAgentRequest { aq_target_ip : Z; aq_request_id : Z }.

Record WireGuardP2pAgentResponse := mkP2pAgentResponse {
  ar_request_id : Z; ar_status : Z; ar_target_ip : Z; ar_target_public_key : bytes;
  ar_target_endpoint : string; ar_lease_id : Z; ar_expires_at_unix_ms : Z }.

Record WireGuardP2pOffer := mkP2pOffer {
  of_lease_id : Z; of_expires_at_unix_ms : Z; of_peer_ip : Z; of_peer_public_key : bytes;
  of_peer_endpoint : string }.

(** [proto::WireGuardP2pControl]. *)
Inductive P2pPayload := POffer (o : WireGuardP2pOffer) | PRevoke (lease_id : Z).
Record P2pControlMessage := mkP2pControl { p2p_payload : option P2pPayload }.

Record AgentControlRequest := mkAgentControlRequest {
  rq_source_port : Z; rq_target_ip : Ipv4Addr; rq_request_id : Z }.
Record GrantedLease := mkGrantedLease { gl_target_ip : Ipv4Addr; gl_lease_id : Z }.
Record ResolvedAgentRequest := mkResolved { rs_response : bytes; rs_granted : option GrantedLease }.

Inductive AgentControlParse := NotControl | Invalid | Request (r : AgentControlRequest).

(** The messages as encoders see them; an encoder writes bytes. *)
Class P2pCodec := {
  agent_request_codec :: ProstCodec WireGuardP2pAgentRequest;
  agent_response_codec :: ProstCodec WireGuardP2pAgentResponse;
  p2p_control_codec :: ProstCodec P2pControlMessage
}.
Class P2pCodecLaws `{!P2pCodec} : Prop := {
  agent_request_laws :: ProstLaws WireGuardP2pAgentRequest;
  agent_response_laws :: ProstLaws WireGuardP2pAgentResponse;
  p2p_control_laws :: ProstLaws P2pControlMessage;
  agent_request_bytes (m : WireGuardP2pAgentRequest) : bytes_ok (prost_encode m);
  p2p_control_bytes (m : P2pControlMessage) : bytes_ok (prost_encode m)
}.

Section P2p.
Context {NL : Ipv4NetLib} {PL : PnetLib} {UL : PnetUdpLib} {U32 : NetU32Lib} {PC : P2pCodec}.
Context {W : Type} {MV : Mpsc W bytes} {MW : Mpsc W WireGuardBridgePacket}.

(** ** The request of a peer *)

(** [packet[6]], [packet[7]] and [&packet[header_len..]] panic out of range. *)
Definition parse_agent_control (packet : bytes) (expected_source gateway : Ipv4Addr)
    : outcome AgentControlParse :=
  if negb (ipv4_new packet) then Ret NotControl
  else if negb (ipv4_get_version packet =? 4) || negb (ipv4_get_source packet =? expected_source)
          || negb (ipv4_get_destination packet =? gateway)
          || negb (ipv4_get_next_level_protocol packet =? PROTO_UDP)
  then Ret NotControl
  else
    let header_len := Z.to_nat (ipv4_get_header_length packet * 4) in
    if (header_len <? IPV4_HEADER_LEN)%nat
       || negb (ipv4_get_total_length packet =? Z.of_nat (length packet))
       || (length packet <? header_len + UDP_HEADER_LEN)%nat
    then Ret Invalid
    else match packet !! 6%nat, packet !! 7%nat with
    | Some hi, Some lo =>
        if negb (Z.land (from_be_bytes [hi; lo]) 16383 =? 0) then Ret Invalid
        else if (length packet <? header_len)%nat then Panic
        else
          let udp := drop header_len packet in
          if negb (udp_new udp) then Ret Invalid
          else if negb (udp_get_destination udp =? AGENT_CONTROL_PORT) then Ret NotControl
          else if negb (udp_get_length udp =? Z.of_nat (length packet - header_len))
                  || is_nil (udp_payload udp)
                  || (MAX_CONTROL_PAYLOAD <? length (udp_payload udp))%nat
          then Ret Invalid
          else match prost_decode (udp_payload udp) with
          | None => Ret Invalid
          | Some request =>
              let target_ip := aq_target_ip request in
              if (aq_request_id request =? 0) || is_unspecified target_ip || is_multicast target_ip
              then Ret Invalid
              else Ret (Request (mkAgentControlRequest (udp_get_source udp) target_ip
                          (aq_request_id request)))
          end
    | _, _ => Panic
    end.

(** ** The answer *)

Definition u16_try_from (x : Z) : option Z :=
  if (0 <=? x) && (x <=? 65535) then Some x else None.

Definition build_agent_response (gateway destination : Ipv4Addr) (destination_port : Z)
    (payload : bytes) : option bytes :=
  if (destination_port =? 0) || is_nil payload || (MAX_CONTROL_PAYLOAD <? length payload)%nat
  then None
  else
    let total_len := (IPV4_HEADER_LEN + UDP_HEADER_LEN + length payload)%nat in
    total_len_u16 ← u16_try_from (Z.of_nat total_len);
    udp_len ← u16_try_from (Z.of_nat (UDP_HEADER_LEN + length payload));
    let b := zeroed total_len in
    if negb (ipv4_new b) then None
    else
      let b := ipv4_set_version 4 b in
      let b := ipv4_set_header_length 5 b in
      let b := ipv4_set_total_length total_len_u16 b in
      let b := ipv4_set_ttl 64 b in
      let b := ipv4_set_next_level_protocol PROTO_UDP b in
      let b := ipv4_set_source gateway b in
      let b := ipv4_set_destination destination b in
      if negb (udp_new (drop IPV4_HEADER_LEN b)) then None
      else
        let b := Bridge.update_from IPV4_HEADER_LEN (λ u,
          let u := udp_set_source AGENT_CONTROL_PORT u in
          let u := udp_set_destination destination_port u in
          let u := udp_set_length udp_len u in
          let u := udp_set_payload payload u in
          udp_set_checksum (udp_ipv4_checksum u gateway destination) u) b in
        if negb (ipv4_new b) then None else Some (ipv4_set_checksum (ipv4_checksum b) b).

(** ** Offers and revocations *)

(** The packet that carries a control message from the gateway to a client. *)
Definition control_packet (gateway target : Ipv4Addr) (control : bytes) : option bytes :=
  match Packet.new (zeroed (HEAD_LENGTH + length control)) with
  | Err _ => None
  | Ok p =>
      let p := Packet.set_msg_type WireGuardP2pControl p in
      let p := Packet.set_gateway_flag true p in
      let p := Packet.set_ttl 1 p in
      let p := Packet.set_src_id gateway p in
      let p := Packet.set_dest_id target p in
      match Packet.set_payload control p with Ok p => Some (buffer p) | Err _ => None end
  end.

(** The loop that draws a lease id: the [i]-th draw of the generator is [rng i];
    [None] when the first [fuel] draws are all zero. *)
Fixpoint draw_lease_id (fuel : nat) (rng : nat → Z) : option Z :=
  match fuel with
  | O => None
  | S fuel => if negb (rng 0%nat =? 0) then Some (rng 0%nat) else draw_lease_id fuel (λ i, rng (S i))
  end.

(** [SystemTime::now()] is [wall] nanoseconds after the epoch; before the epoch
    [duration_since] fails and the default is zero. *)
Definition lease_expiry (wall : Z) : Z :=
  Z.min (Z.min (Z.max wall 0 / 1000000 + LEASE_DURATION_MS) (2 ^ 128 - 1)) u64_max.

Definition resolution (response : WireGuardP2pAgentResponse) (granted : option GrantedLease)
    : ResolvedAgentRequest := mkResolved (prost_encode response) granted.

(** [None]: the lease id is still being drawn. *)
Definition resolve_agent_request (fuel : nat) (rng : nat → Z) (wall : Z) (peer_ip : Ipv4Addr)
    (peer_public_key : bytes) (peer_endpoint : SocketAddr) (request : AgentControlRequest)
    (s : NetworkState) (w : W) : option (ResolvedAgentRequest * NetworkState * W) :=
  let target_ip := rq_target_ip request in
  let response status := mkP2pAgentResponse (rq_request_id request) (status_as_i32 status)
                           target_ip [] "" 0 0 in
  if (target_ip =? peer_ip) || (target_ip =? ns_gateway s) || negb (net_contains (ns_net s) target_ip)
  then Some (resolution (response WireguardP2pRejected) None, s, w)
  else match wireguard_p2p_endpoint target_ip s with
  | None => Some (resolution (response WireguardP2pNotCapable) None, s, w)
  | Some target =>
      lease_id ← draw_lease_id fuel rng;
      let expires := lease_expiry wall in
      let offer := prost_encode (mkP2pControl (Some (POffer (mkP2pOffer lease_id expires peer_ip
                     peer_public_key (socket_to_string peer_endpoint))))) in
      let '(delivered, s, w) :=
        match control_packet (ns_gateway s) target_ip offer with
        | Some data =>
            let '(r, s, w) := try_deliver target_ip data OriginWireGuard s w in
            (bool_decide (r = Delivered), s, w)
        | None => (false, s, w)
        end in
      if negb delivered then Some (resolution (response WireguardP2pBusy) None, s, w)
      else
        Some (resolution (mkP2pAgentResponse (rq_request_id request) (status_as_i32 WireguardP2pOk)
                target_ip (NetState.p2p_public_key target)
                (socket_to_string (p2p_endpoint target)) lease_id expires)
                (Some (mkGrantedLease target_ip lease_id)), s, w)
  end.

Definition revoke_lease (target_ip : Ipv4Addr) (lease_id : Z) (s : NetworkState) (w : W)
    : NetworkState * W :=
  match control_packet (ns_gateway s) target_ip
          (prost_encode (mkP2pControl (Some (PRevoke lease_id)))) with
  | Some data => let '(_, s, w) := try_deliver target_ip data OriginWireGuard s w in (s, w)
  | None => (s, w)
  end.
End P2p.

(** ** Lemmas *)

(** What a well-formed control datagram is: [hl] is the length of its IPv4
    header. *)
Definition control_datagram `{!PnetLib, !PnetUdpLib} (packet : bytes) (src gw : Ipv4Addr) (hl : nat)
    : Prop :=
  (20 ≤ length packet)%nat ∧ ipv4_get_version packet = 4 ∧ ipv4_get_source packet = src ∧
  ipv4_get_destination packet = gw ∧ ipv4_get_next_level_protocol packet = PROTO_UDP ∧
  hl = Z.to_nat (ipv4_get_header_length packet * 4) ∧ (20 ≤ hl)%nat ∧
  ipv4_get_total_length packet = Z.of_nat (length packet) ∧ (hl + 8 ≤ length packet)%nat ∧
  Z.land (field 6 2 packet) 16383 = 0 ∧
  udp_get_destination (drop hl packet) = AGENT_CONTROL_PORT ∧
  udp_get_length (drop hl packet) = Z.of_nat (length packet - hl) ∧
  (1 ≤ length (udp_payload (drop hl packet)) ≤ MAX_CONTROL_PAYLOAD)%nat.

Module P2pFacts.
Section P2pFacts.
Context {NL : Ipv4NetLib} {PL : PnetLib} {PLL : PnetLaws} {UL : PnetUdpLib} {LY : PnetLayout}.
Context {U32 : NetU32Lib} {U32L : NetU32Laws} {PC : P2pCodec} {PCL : P2pCodecLaws}.
Context {W : Type} {MV : Mpsc W bytes} {MVL : MpscLaws W bytes} {MW : Mpsc W WireGuardBridgePacket}.

(** [bool_simpl], for comparisons of lengths too. *)
Ltac nat_simpl := bool_simpl;
  repeat match goal with
  | H : (_ <? _)%nat = true |- _ => apply Nat.ltb_lt in H
  | H : (_ <? _)%nat = false |- _ => apply Nat.ltb_ge in H
  end.
(** The parser stops without a request. *)
Ltac no_request := eexists; split; [done|]; intros r; split; [done|].

Lemma fragment_field (b : bytes) hi lo :
  b !! 6%nat = Some hi → b !! 7%nat = Some lo → field 6 2 b = from_be_bytes [hi; lo].
Proof.
  intros H6 H7. unfold Model.field. by rewrite (drop_S _ _ _ H6), (drop_S _ _ _ H7).
Qed.

(** Every path of the parser, as one reading: it returns, and what it accepts. *)
Lemma parse_spec packet src gw :
  ∃ o, parse_agent_control packet src gw = Ret o ∧
    ∀ r, o = Request r ↔
      ∃ hl m, control_datagram packet src gw hl ∧
        prost_decode (udp_payload (drop hl packet)) = Some m ∧ aq_request_id m ≠ 0 ∧
        is_unspecified (aq_target_ip m) = false ∧ is_multicast (aq_target_ip m) = false ∧
        r = mkAgentControlRequest (udp_get_source (drop hl packet)) (aq_target_ip m) (aq_request_id m).
Proof.
  unfold parse_agent_control, control_datagram, IPV4_HEADER_LEN, UDP_HEADER_LEN. rewrite ipv4_new_eq.
  case_bool_decide as Hl; cbn [negb]; [|no_request; naive_solver].
  destruct (_ || _ || _ || _) eqn:E1.
  { no_request. intros (hl & m & (_&?&?&?&?&_) & _).
    repeat (apply orb_true_iff in E1 as [E1|E1]); bool_simpl; done. }
  bool_simpl. remember (Z.to_nat (ipv4_get_header_length packet * 4)) as h eqn:Hh.
  destruct (_ || _ || _) eqn:E2.
  { no_request. intros (hl & m & (_&_&_&_&_&Hhl&?&?&?&_) & _). subst hl.
    repeat (apply orb_true_iff in E2 as [E2|E2]); nat_simpl; done || lia. }
  nat_simpl.
  destruct (lookup_lt_is_Some_2 packet 6 ltac:(lia)) as [hi H6].
  destruct (lookup_lt_is_Some_2 packet 7 ltac:(lia)) as [lo H7].
  rewrite H6, H7, (fragment_field packet hi lo H6 H7).
  destruct (Z.eqb_spec (Z.land (from_be_bytes [hi; lo]) 16383) 0); cbn [negb];
    [|no_request; by intros (hl & m & (_&_&_&_&_&_&_&_&_&?&_) & _)].
  rewrite (proj2 (Nat.ltb_ge _ _)) by lia.
  rewrite udp_new_layout, bool_decide_eq_true_2 by (rewrite length_drop; lia). cbn [negb].
  destruct (Z.eqb_spec (udp_get_destination (drop h packet)) AGENT_CONTROL_PORT); cbn [negb];
    [|no_request; by intros (hl & m & (_&_&_&_&_&->&_&_&_&_&?&_) & _)].
  destruct (_ || _ || _) eqn:E3.
  { no_request. intros (hl & m & (_&_&_&_&_&Hhl&_&_&_&_&_&?&?) & _). subst hl.
    repeat (apply orb_true_iff in E3 as [E3|E3]); nat_simpl; try done; [|lia].
    destruct (udp_payload (drop h packet)); simpl in *; [lia|done]. }
  nat_simpl.
  assert (1 ≤ length (udp_payload (drop h packet)))%nat
    by (destruct (udp_payload (drop h packet)); simpl in *; [done|lia]).
  destruct (prost_decode _) as [m|] eqn:Ed;
    [|no_request; intros (hl & m & (_&_&_&_&_&->&_) & Ed' & _); congruence].
  destruct (_ || _ || _) eqn:E4.
  { no_request. intros (hl & m' & (_&_&_&_&_&Hhl&_) & Ed' & ? & Hu & Hm & _).
    subst hl. assert (m' = m) as -> by congruence.
    rewrite Hu, Hm, !orb_false_r in E4. bool_simpl. done. }
  bool_simpl. eexists; split; [done|]. intros r; split.
  - intros [= <-]. exists h, m. split_and!; done || lia.
  - intros (hl & m' & (_&_&_&_&_&Hhl&_) & Ed' & _ & _ & _ & ->). subst hl.
    assert (m' = m) as -> by congruence. done.
Qed.

(** ** The built packet *)

Lemma drop_set_field i n x k (b : bytes) : (i + n ≤ k)%nat → drop k (set_field i n x b) = drop k b.
Proof.
  intros H. apply list_eq. intros j. rewrite !lookup_drop. apply Model.set_field_out. lia.
Qed.

Lemma field_update_from i n k f (b : bytes) :
  (i + n ≤ k ≤ length b)%nat → field i n (Bridge.update_from k f b) = field i n b.
Proof.
  intros H. unfold Model.field, Bridge.update_from. f_equal.
  rewrite drop_app_le, take_app_le by (rewrite ?length_drop, length_take; lia).
  by rewrite skipn_firstn_comm, take_take, Nat.min_l by lia.
Qed.

Lemma length_update_tail k f (b : bytes) :
  (k ≤ length b)%nat → length (f (drop k b)) = length (drop k b) →
  length (Bridge.update_from k f b) = length b.
Proof.
  intros H Hf. unfold Bridge.update_from. rewrite length_app, Hf, length_take, length_drop. lia.
Qed.

Lemma field_zeroed i n k : field i n (zeroed k) = 0.
Proof.
  unfold Model.field, zeroed. rewrite drop_replicate, take_replicate.
  generalize (n `min` (k - i))%nat. intros j.
  induction j as [|j IH]; [done|]. cbn [replicate]. rewrite from_be_cons, IH. lia.
Qed.

Ltac flen :=
  rewrite ?Model.length_set_field;
  rewrite ?length_write_at by (rewrite ?Model.length_set_field; lia);
  rewrite ?Model.length_set_field; lia.
(** Read a field of a buffer written field by field. *)
Ltac read_field :=
  repeat first [rewrite Model.field_set_other by lia | rewrite Model.field_set_same by flen].

(** The IPv4 header [build_agent_response] writes over a zeroed buffer. *)
Lemma ipv4_header_written (b : bytes) n total gw dst :
  b = zeroed n → (20 ≤ n)%nat → is_u 16 total → is_u 32 gw → is_u 32 dst →
  let c := ipv4_set_destination dst (ipv4_set_source gw (ipv4_set_next_level_protocol PROTO_UDP
    (ipv4_set_ttl 64 (ipv4_set_total_length total (ipv4_set_header_length 5
      (ipv4_set_version 4 b)))))) in
  length c = n ∧ field 0 1 c = 69 ∧ field 2 2 c = total ∧ field 6 2 c = 0 ∧
  field 9 1 c = PROTO_UDP ∧ field 12 4 c = gw ∧ field 16 4 c = dst.
Proof.
  intros -> Hn Ht Hg Hd c. assert (length (zeroed n) = n) as Hz by apply length_replicate.
  unfold is_u in *. unfold c.
  rewrite ipv4_set_version_layout by lia.
  rewrite ipv4_set_header_length_layout by flen. rewrite ipv4_set_total_length_layout by flen.
  rewrite ipv4_set_ttl_layout by flen. rewrite ipv4_set_protocol_layout by flen.
  rewrite ipv4_set_source_layout by flen. rewrite ipv4_set_destination_layout by flen.
  read_field. rewrite !field_zeroed. split; [flen|].
  split; [reflexivity|]. rewrite !Z.mod_small by done. done.
Qed.

(** The UDP header and payload it writes. *)
Lemma udp_written (u : bytes) port len (payload : bytes) ck :
  length u = (8 + length payload)%nat → is_u 16 port → is_u 16 len →
  let c := udp_set_checksum ck (udp_set_payload payload (udp_set_length len
    (udp_set_destination port (udp_set_source AGENT_CONTROL_PORT u)))) in
  length c = length u ∧ udp_get_source c = AGENT_CONTROL_PORT ∧ udp_get_destination c = port ∧
  udp_get_length c = len ∧ udp_payload c = payload.
Proof.
  intros Hu Hp Hl c. unfold is_u in *. unfold c.
  rewrite udp_set_source_layout by flen. rewrite udp_set_destination_layout by flen.
  rewrite udp_set_length_layout by flen. rewrite udp_set_payload_layout by flen.
  rewrite udp_set_checksum_layout by flen.
  rewrite udp_source_layout, udp_destination_layout, udp_length_layout, udp_payload_layout by flen.
  set (h := set_field 4 2 len _).
  assert (length h = length u) as Hh by (unfold h; flen).
  assert (∀ i n, (i + n ≤ 8)%nat → field i n (write_at 8 payload h) = field i n h) as Hf.
  { intros i n Hi. apply Model.field_ext; [flen|]. intros j Hj. apply write_at_lookup_out; lia. }
  split; [flen|]. rewrite !Model.field_set_other, !Hf, drop_set_field by lia. unfold h.
  read_field. rewrite !Z.mod_small by done. split_and!; try done.
  unfold write_at. rewrite drop_app_length' by (rewrite length_take; flen).
  rewrite drop_ge by flen. apply app_nil_r.
Qed.

Lemma build_spec gw dst port (payload : bytes) :
  is_u 32 gw → is_u 32 dst → 1 ≤ port ≤ 65535 →
  (1 ≤ length payload ≤ MAX_CONTROL_PAYLOAD)%nat →
  ∃ b, build_agent_response gw dst port payload = Some b ∧
    length b = (28 + length payload)%nat ∧ field 0 1 b = 69 ∧
    field 2 2 b = Z.of_nat (length b) ∧ field 6 2 b = 0 ∧ field 9 1 b = PROTO_UDP ∧
    field 12 4 b = gw ∧ field 16 4 b = dst ∧
    udp_get_source (drop 20 b) = AGENT_CONTROL_PORT ∧ udp_get_destination (drop 20 b) = port ∧
    udp_get_length (drop 20 b) = Z.of_nat (8 + length payload) ∧ udp_payload (drop 20 b) = payload.
Proof.
  intros Hg Hd Hp Hl. unfold MAX_CONTROL_PAYLOAD in *.
  unfold build_agent_response, IPV4_HEADER_LEN, UDP_HEADER_LEN, MAX_CONTROL_PAYLOAD.
  rewrite (proj2 (Z.eqb_neq _ _)) by lia. cbn [orb].
  rewrite (proj2 (Nat.ltb_ge _ _)) by lia.
  destruct (is_nil payload) eqn:En; [destruct payload; simpl in *; lia|]. cbn [orb].
  unfold u16_try_from. rewrite !(proj2 (Z.leb_le _ _)) by lia. cbn [andb mbind option_bind].
  set (n := (20 + 8 + length payload)%nat).
  rewrite !ipv4_new_eq. rewrite bool_decide_eq_true_2 by (unfold zeroed; rewrite length_replicate; lia).
  cbn [negb]. destruct (ipv4_header_written (zeroed n) n (Z.of_nat n) gw dst eq_refl
    ltac:(lia) ltac:(unfold is_u; lia) Hg Hd) as (Lc & F0 & F2 & F6 & F9 & F12 & F16).
  set (c := ipv4_set_destination dst _) in *. clearbody c.
  rewrite udp_new_layout, bool_decide_eq_true_2 by (rewrite length_drop; lia). cbn [negb].
  lazymatch goal with |- context [Bridge.update_from 20 ?g c] => set (f := g) end.
  set (d := Bridge.update_from 20 f c).
  assert (drop 20 d = f (drop 20 c)) as Hdrop by (apply BridgeFacts.drop_update_from; lia).
  destruct (udp_written (drop 20 c) port (Z.of_nat (8 + length payload)) payload
    (udp_ipv4_checksum (udp_set_payload payload (udp_set_length (Z.of_nat (8 + length payload))
      (udp_set_destination port (udp_set_source AGENT_CONTROL_PORT (drop 20 c))))) gw dst)
    ltac:(rewrite length_drop; lia) ltac:(unfold is_u; lia) ltac:(unfold is_u; lia))
    as (Lu & U0 & U2 & U4 & Up).
  assert (length d = n) as Ld by (unfold d; rewrite length_update_tail by (done || lia); done).
  rewrite bool_decide_eq_true_2 by lia. cbn [negb]. eexists. split; [done|].
  rewrite ipv4_set_checksum_layout by lia. rewrite Model.length_set_field, Ld.
  rewrite !Model.field_set_other, drop_set_field by lia.
  assert (∀ i k, (i + k ≤ 20)%nat → field i k d = field i k c) as Hf
    by (intros; apply field_update_from; lia).
  rewrite !Hf, Hdrop by lia. split_and!; done || lia.
Qed.

(** Reading back the header of a built packet. *)
Lemma built_header (b : bytes) :
  (20 ≤ length b)%nat → field 0 1 b = 69 →
  ipv4_get_version b = 4 ∧ Z.to_nat (ipv4_get_header_length b * 4) = 20%nat.
Proof.
  intros Hl H. rewrite ipv4_version_layout, ipv4_header_length_layout, H by done. done.
Qed.

(** The control packet: every field a client reads. *)
Lemma control_packet_spec gw target (c : bytes) :
  is_u 32 gw → is_u 32 target → bytes_ok c →
  ∃ data p, control_packet gw target c = Some data ∧ Packet.new data = Ok p ∧
    Packet.msg_type p = Ok WireGuardP2pControl ∧ Packet.ttl p = 1 ∧ Packet.is_gateway p = true ∧
    Packet.src_id p = gw ∧ Packet.dest_id p = target ∧ Packet.payload p = c ∧ Packet.is_compressed p = false.
Proof.
  intros Hg Ht Hc. unfold control_packet. set (z := zeroed (HEAD_LENGTH + length c)).
  assert (length z = (HEAD_LENGTH + length c)%nat) as Lz by apply length_replicate.
  assert (packet_ok (mkNetPacket z)) as Hz by (split; [cbn [buffer]; lia|apply zeroed_ok]).
  unfold Packet.new at 1. rewrite (proj2 (Nat.ltb_ge _ _)) by lia.
  destruct (PacketFacts.setter_effect (Header.set_msg_type (MsgType_.into WireGuardP2pControl)) _ Hz
    (PacketFacts.set_msg_type_ok _ _)) as (H1 & E1 & _ & L1).
  destruct (PacketFacts.setter_effect (Header.set_flag GATEWAY true) _ H1
    (PacketFacts.set_flag_ok GATEWAY true _ ltac:(unfold is_u, GATEWAY; lia))) as (H2 & E2 & _ & L2).
  destruct (PacketFacts.setter_effect (Header.set_ttl 1 1) _ H2 (PacketFacts.set_ttl_ok _ _ _))
    as (H3 & E3 & _ & L3).
  destruct (PacketFacts.setter_effect (Header.set_src_id gw) _ H3 (PacketFacts.set_src_id_ok gw _ Hg))
    as (H4 & E4 & _ & L4).
  destruct (PacketFacts.setter_effect (Header.set_dest_id target) _ H4
    (PacketFacts.set_dest_id_ok target _ Ht)) as (H5 & E5 & _ & L5).
  unfold Packet.set_msg_type, Packet.set_gateway_flag, Packet.set_ttl, Packet.set_src_id,
    Packet.set_dest_id.
  rewrite E4, E3, E2, E1 in E5. rewrite L4, L3, L2, L1 in L5. clear E1 E2 E3 E4 L1 L2 L3 L4.
  set (q := Packet.header_mut (Header.set_dest_id target) _) in *. clearbody q. cbn [buffer] in L5.
  destruct (PacketFacts.set_payload_ok c q H5 Hc ltac:(lia)) as (p & -> & Hp & Eh & Et & Lp).
  exists (buffer p), p. split; [done|]. unfold Packet.new.
  rewrite (proj2 (Nat.ltb_ge _ _)) by apply Hp. split; [by destruct p|].
  rewrite E5 in Eh.
  destruct (PacketFacts.read_envelope p WireGuardP2pControl 1 _ _ _ gw target
    ltac:(unfold is_u; lia) Hg Ht Eh) as (?&?&?&?&?).
  split_and!; try done.
  - unfold Packet.is_gateway. by rewrite Eh.
  - rewrite take_ge in Et; [done|]. unfold Packet.payload. rewrite length_drop. lia.
  - unfold Packet.is_compressed. by rewrite Eh.
Qed.

Lemma draw_nonzero fuel rng x : draw_lease_id fuel rng = Some x → x ≠ 0.
Proof.
  revert rng. induction fuel as [|n IH]; intros rng; simpl; [done|].
  destruct (Z.eqb_spec (rng 0%nat) 0); simpl; [apply IH|by intros [= <-]].
Qed.

(** The loop ends with the first draw that is not zero. *)
Lemma draw_total fuel rng k : (k < fuel)%nat → rng k ≠ 0 → is_Some (draw_lease_id fuel rng).
Proof.
  revert rng k. induction fuel as [|n IH]; intros rng k Hk Hr; simpl; [lia|].
  destruct (Z.eqb_spec (rng 0%nat) 0); simpl; [|by eexists].
  destruct k; [done|]. apply (IH _ k); [lia|done].
Qed.

Lemma draw_typed fuel rng x : (∀ i, is_u 64 (rng i)) → draw_lease_id fuel rng = Some x → is_u 64 x.
Proof.
  revert rng. induction fuel as [|n IH]; intros rng H; simpl; [done|].
  destruct (negb _); [by intros [= <-]|]. apply IH. auto.
Qed.

Lemma expiry_typed wall : is_u 64 (lease_expiry wall).
Proof.
  unfold lease_expiry, is_u, LEASE_DURATION_MS, u64_max.
  pose proof (Z.div_pos (Z.max wall 0) 1000000). lia.
Qed.

(** Delivering a control packet to a VNT client: queued, or counted as a drop. *)
Lemma deliver_control s w target (data : bytes) p rid a k c pp :
  senders_ok (sender_map s) (online_endpoints s) →
  online_endpoints s !! target = Some (EpVnt rid a k c pp) →
  Packet.new data = Ok p → Packet.msg_type p = Ok WireGuardP2pControl →
  ∃ q, sender_map s !! target = Some (SVnt q) ∧
    ((∃ w', try_deliver target data OriginWireGuard s w = (Delivered, s, w') ∧
        mpsc_sent q w' = mpsc_sent q w ++ [data]) ∨
     (∃ r, r ≠ Delivered ∧ is_Some (mpsc_try_send q data w).1 ∧
        try_deliver target data OriginWireGuard s w = (r, count_drop target s, w))).
Proof.
  intros Hs He Hp Hm. specialize (Hs target). rewrite He in Hs.
  destruct (sender_map s !! target) as [[q|]|] eqn:Eq; try done.
  exists q. split; [done|]. unfold try_deliver. rewrite He, Hp, Hm, Eq. simpl.
  destruct (mpsc_try_send q data w) as [[[]|] w'] eqn:E; simpl.
  - right. apply mpsc_send_err in E. subst. exists Full. by split_and!.
  - right. apply mpsc_send_err in E. subst. exists Closed. by split_and!.
  - left. exists w'. split; [done|]. by apply mpsc_send_ok.
Qed.
End P2pFacts.
End P2pFacts.

(** ** Theorems *)

Section Theorems.
Context {NL : Ipv4NetLib} {PL : PnetLib} {PLL : PnetLaws} {UL : PnetUdpLib} {LY : PnetLayout}.
Context {U32 : NetU32Lib} {U32L : NetU32Laws} {PC : P2pCodec} {PCL : P2pCodecLaws}.
Context {W : Type} {MV : Mpsc W bytes} {MVL : MpscLaws W bytes} {MW : Mpsc W WireGuardBridgePacket}.

(** The request parser is safe on every input and accepts exactly the
    well-formed requests: whatever the bytes, it returns without an
    out-of-range access, and it returns a request exactly for an unfragmented
    UDP datagram from the authenticated peer to the gateway's control port whose
    lengths agree and whose payload decodes to a request with a non-zero id for a
    target that is neither unspecified nor multicast. *)
Theorem agent_request_authentic packet src gw :
  ∃ o, parse_agent_control packet src gw = Ret o ∧
    ∀ r, o = Request r ↔
      ∃ hl m, control_datagram packet src gw hl ∧
        prost_decode (udp_payload (drop hl packet)) = Some m ∧ aq_request_id m ≠ 0 ∧
        is_unspecified (aq_target_ip m) = false ∧ is_multicast (aq_target_ip m) = false ∧
        r = mkAgentControlRequest (udp_get_source (drop hl packet)) (aq_target_ip m) (aq_request_id m).
Proof. apply P2pFacts.parse_spec. Qed.

(** A request built like the server builds its answers, from the peer to the
    gateway's control port, is read back as the request it carries. *)
Theorem agent_request_roundtrip peer gw target id :
  let m := mkP2pAgentRequest target id in
  is_u 32 peer → is_u 32 gw → id ≠ 0 → is_unspecified target = false → is_multicast target = false →
  (1 ≤ length (prost_encode m) ≤ MAX_CONTROL_PAYLOAD)%nat →
  ∃ packet, build_agent_response peer gw AGENT_CONTROL_PORT (prost_encode m) = Some packet ∧
    parse_agent_control packet peer gw =
      Ret (Request (mkAgentControlRequest AGENT_CONTROL_PORT target id)).
Proof.
  intros m Hp Hg Hid Hu Hm Hl.
  destruct (P2pFacts.build_spec peer gw AGENT_CONTROL_PORT (prost_encode m) Hp Hg
    ltac:(unfold AGENT_CONTROL_PORT; lia) Hl)
    as (b & Eb & Lb & F0 & F2 & F6 & F9 & F12 & F16 & U0 & U2 & U4 & Up).
  exists b. split; [done|].
  destruct (P2pFacts.built_header b ltac:(lia) F0) as [Hv Hh].
  destruct (P2pFacts.parse_spec b peer gw) as (o & -> & Ho). f_equal. apply Ho.
  exists 20%nat, m. rewrite Up, U0. split; [|split_and!; try done; apply prost_decode_encode].
  unfold control_datagram. rewrite Up, U2, U4, F6, Hv, Hh.
  rewrite ipv4_source_layout, ipv4_destination_layout, ipv4_protocol_layout,
    ipv4_total_length_layout by lia. split_and!; try done; lia.
Qed.

(** A lease is granted exactly when the target was told.  A request that is
    granted is answered with status OK, a non-zero lease id, the expiry one
    minute ahead and the key and endpoint of a confirmed client that allows
    WireGuard and lies inside the network, and at that moment the client's queue
    received an offer with the same lease id and expiry and the peer's address,
    key and endpoint.  A request that is not granted changes no queue and is
    answered without a key and with the actual reason: rejected (the peer itself,
    the gateway or an address outside the network), not capable, or busy (the
    client's queue refused the offer). *)
Theorem lease_granted_when_offered fuel rng wall peer key ep req s w res s' w' :
  is_u 32 (ns_gateway s) → is_u 32 (rq_target_ip req) →
  senders_ok (sender_map s) (online_endpoints s) →
  resolve_agent_request fuel rng wall peer key ep req s w = Some (res, s', w') →
  ∃ resp, prost_decode (rs_response res) = Some resp ∧
    ar_request_id resp = rq_request_id req ∧ ar_target_ip resp = rq_target_ip req ∧
    match rs_granted res with
    | Some g => ar_status resp = 0 ∧ g = mkGrantedLease (rq_target_ip req) (ar_lease_id resp) ∧
        ar_lease_id resp ≠ 0 ∧ ar_expires_at_unix_ms resp = lease_expiry wall ∧ s' = s ∧
        rq_target_ip req ≠ peer ∧ rq_target_ip req ≠ ns_gateway s ∧
        net_contains (ns_net s) (rq_target_ip req) = true ∧
        ∃ rid caps target q data p,
          online_endpoints s !! rq_target_ip req = Some (EpVnt rid true caps true (Some target)) ∧
          ar_target_public_key resp = NetState.p2p_public_key target ∧
          ar_target_endpoint resp = socket_to_string (p2p_endpoint target) ∧
          sender_map s !! rq_target_ip req = Some (SVnt q) ∧
          mpsc_sent q w' = mpsc_sent q w ++ [data] ∧
          Packet.new data = Ok p ∧ Packet.msg_type p = Ok WireGuardP2pControl ∧
          Packet.dest_id p = rq_target_ip req ∧
          prost_decode (Packet.payload p) = Some (mkP2pControl (Some (POffer
            (mkP2pOffer (ar_lease_id resp) (lease_expiry wall) peer key (socket_to_string ep)))))
    | None => ar_lease_id resp = 0 ∧ ar_target_public_key resp = [] ∧ w' = w ∧
        (ar_status resp = 3 ∧ (rq_target_ip req = peer ∨ rq_target_ip req = ns_gateway s ∨
           net_contains (ns_net s) (rq_target_ip req) = false) ∨
         ar_status resp = 2 ∧ wireguard_p2p_endpoint (rq_target_ip req) s = None ∨
         ar_status resp = 4 ∧ ∃ q data, sender_map s !! rq_target_ip req = Some (SVnt q) ∧
           is_Some (mpsc_try_send q data w).1)
    end.
Proof.
  intros Hg Ht Hs. unfold resolve_agent_request.
  destruct (_ || _ || _) eqn:E1.
  { intros [= <- <- <-]. eexists. split; [apply prost_decode_encode|]. simpl. split_and!; try done.
    left. split; [done|]. apply orb_prop in E1 as [E1|E1]; [apply orb_prop in E1 as [E1|E1]|]; bool_simpl; auto. }
  bool_simpl. destruct (wireguard_p2p_endpoint (rq_target_ip req) s) as [target|] eqn:Ew.
  2: { intros [= <- <- <-]. eexists. split; [apply prost_decode_encode|]. simpl. split_and!; try done.
       right. by left. }
  assert (∃ rid caps, online_endpoints s !! rq_target_ip req =
      Some (EpVnt rid true caps true (Some target))) as (rid & caps & He).
  { unfold wireguard_p2p_endpoint in Ew.
    destruct (online_endpoints s !! rq_target_ip req) as [[? [] ? [] [?|]|]|]; try done.
    injection Ew as ->. by eexists _, _. }
  destruct (draw_lease_id fuel rng) as [lease|] eqn:Hd; cbn [mbind option_bind]; [|done].
  set (offer := mkP2pControl _).
  destruct (P2pFacts.control_packet_spec (ns_gateway s) (rq_target_ip req) (prost_encode offer) Hg Ht
    (p2p_control_bytes _)) as (data & p & -> & Hn & Hm & _ & _ & _ & Hdst & Hpl & _).
  destruct (P2pFacts.deliver_control s w (rq_target_ip req) data p _ _ _ _ _ Hs He Hn Hm)
    as (q & Hq & [(w1 & -> & Hsent)|(r & Hr & Hfull & ->)]).
  - rewrite bool_decide_eq_true_2 by done. intros [= <- <- <-].
    eexists. split; [apply prost_decode_encode|]. simpl. split_and!; try done.
    { by eapply P2pFacts.draw_nonzero. }
    exists rid, caps, target, q, data, p. rewrite Hpl. split_and!; try done. apply prost_decode_encode.
  - rewrite bool_decide_eq_false_2 by done. intros [= <- <- <-].
    eexists. split; [apply prost_decode_encode|]. simpl. split_and!; try done. right. right. by eauto.
Qed.

End Theorems.

(** ** Witnesses *)

Module P2pModel.
#[export] Instance request_eq_dec : EqDecision WireGuardP2pAgentRequest.
Proof. solve_decision. Defined.
#[export] Instance response_eq_dec : EqDecision WireGuardP2pAgentResponse.
Proof. solve_decision. Defined.
#[export] Instance offer_eq_dec : EqDecision WireGuardP2pOffer.
Proof. solve_decision. Defined.
#[export] Instance payload_eq_dec : EqDecision P2pPayload.
Proof. solve_decision. Defined.
#[export] Instance control_eq_dec : EqDecision P2pControlMessage.
Proof. solve_decision. Defined.

#[export] Instance request_countable : Countable WireGuardP2pAgentRequest.
Proof.
  apply (inj_countable' (λ r, (aq_target_ip r, aq_request_id r)) (λ '(a, b), mkP2pAgentRequest a b)).
  by intros [].
Defined.
#[export] Instance response_countable : Countable WireGuardP2pAgentResponse.
Proof.
  apply (inj_countable' (λ r, (ar_request_id r, ar_status r, ar_target_ip r, ar_target_public_key r,
      ar_target_endpoint r, ar_lease_id r, ar_expires_at_unix_ms r))
    (λ '(a, b, c, d, e, f, g), mkP2pAgentResponse a b c d e f g)). by intros [].
Defined.
#[export] Instance offer_countable : Countable WireGuardP2pOffer.
Proof.
  apply (inj_countable' (λ r, (of_lease_id r, of_expires_at_unix_ms r, of_peer_ip r,
      of_peer_public_key r, of_peer_endpoint r)) (λ '(a, b, c, d, e), mkP2pOffer a b c d e)).
  by intros [].
Defined.
#[export] Instance payload_countable : Countable P2pPayload.
Proof.
  apply (inj_countable' (λ p, match p with POffer o => inl o | PRevoke i => inr i end)
    (λ x, match x with inl o => POffer o | inr i => PRevoke i end)). by intros [].
Defined.
#[export] Instance control_countable : Countable P2pControlMessage.
Proof. apply (inj_countable' p2p_payload mkP2pControl). by intros []. Defined.

(** Any countable message type, as the bytes of its number. *)
Definition packed_length (p : positive) : nat := S (Pos.size_nat p / 8).
Definition packed_codec (M : Type) `{Countable M} : ProstCodec M := {|
  prost_encode := λ m, to_be_bytes (packed_length (encode m)) (Zpos (encode m));
  prost_decode := λ b, decode (Z.to_pos (from_be_bytes b))
|}.

Lemma pos_bits p : Zpos p < 2 ^ Z.of_nat (Pos.size_nat p).
Proof.
  induction p as [p IH|p IH|]; [| |done]; cbn [Pos.size_nat];
    rewrite Nat2Z.inj_succ, Z.pow_succ_r by lia; lia.
Qed.

Lemma packed_fits p : Zpos p < 256 ^ Z.of_nat (packed_length p).
Proof.
  eapply Z.lt_le_trans; [apply pos_bits|]. change 256 with (2 ^ 8).
  rewrite <- Z.pow_mul_r by lia. apply Z.pow_le_mono_r; [lia|]. unfold packed_length.
  pose proof (Nat.div_mod_eq (Pos.size_nat p) 8). pose proof (Nat.mod_upper_bound (Pos.size_nat p) 8). lia.
Qed.

Lemma packed_codec_laws M `{Countable M} : @ProstLaws M (packed_codec M).
Proof.
  intros m. unfold prost_encode, prost_decode, packed_codec. rewrite from_to_be_bytes.
  rewrite Z.mod_small by (split; [lia|apply packed_fits]). apply decode_encode.
Qed.

#[export] Instance packed_p2p : P2pCodec := {|
  agent_request_codec := packed_codec _;
  agent_response_codec := packed_codec _;
  p2p_control_codec := packed_codec _ |}.

#[export] Instance packed_p2p_laws : P2pCodecLaws.
Proof. split; try apply packed_codec_laws; intros m; apply to_be_bytes_ok. Qed.
End P2pModel.

Module P2pWitness.
Import Model LeaseWitness NetWitness TunnelModel P2pModel.
#[local] Existing Instance NetWitness.MV.
#[local] Existing Instance NetWitness.MW.
#[local] Existing Instance NetWitness.MVL.
#[local] Existing Instance NetWitness.MWL.

Lemma agent_request_roundtrip_witness :
  ∃ packet, build_agent_response (host 9) gw AGENT_CONTROL_PORT
      (prost_encode (mkP2pAgentRequest (host 3) 7)) = Some packet ∧
    parse_agent_control packet (host 9) gw =
      Ret (Request (mkAgentControlRequest AGENT_CONTROL_PORT (host 3) 7)).
Proof.
  apply (agent_request_roundtrip (host 9) gw (host 3) 7);
    try (apply (bool_decide_eq_true_1 _); vm_compute; reflexivity); vm_compute; reflexivity.
Defined.

Definition request_packet : bytes :=
  default [] (build_agent_response (host 9) gw AGENT_CONTROL_PORT
                (prost_encode (mkP2pAgentRequest (host 3) 7))).

Lemma agent_request_authentic_witness :
  parse_agent_control request_packet (host 9) gw =
    Ret (Request (mkAgentControlRequest AGENT_CONTROL_PORT (host 3) 7)) ∧
  ∃ hl, control_datagram request_packet (host 9) gw hl.
Proof.
  assert (parse_agent_control request_packet (host 9) gw =
    Ret (Request (mkAgentControlRequest AGENT_CONTROL_PORT (host 3) 7))) as He by (vm_compute; reflexivity).
  split; [exact He|].
  destruct (agent_request_authentic request_packet (host 9) gw) as (o & Ho & H).
  rewrite He in Ho. injection Ho as Ho.
  destruct (proj1 (H (mkAgentControlRequest AGENT_CONTROL_PORT (host 3) 7)) (eq_sym Ho))
    as (hl & m & Hd & _).
  exists hl. exact Hd.
Defined.

(** Device "b" of the network registers for direct tunnels, on port 51820. *)
Definition p2p_state : NetworkState :=
  (allocate_ip_and_get_entry
     (mkRegRequestMsg "net" "b" None "host" "2.0" None false 0 Normal true
        (Some (mkWireGuardP2pRegistration (replicate 32 42) 51820)) 3)
     42 1000 0%nat (Some (mkWireGuardP2pEndpoint (replicate 32 42) (SockV4 (ipv4 1 2 3 4) 51820)))
     s0).2.

Lemma p2p_state_inv : net_inv p2p_state.
Proof.
  refine (NetFacts.net_step_inv s0 p2p_state _ (net_allocate _ _ _ _ _ _) s0_inv).
  vm_compute. reflexivity.
Defined.

Definition asked : option (ResolvedAgentRequest * NetworkState * Wd) :=
  resolve_agent_request 2 (λ i, Z.of_nat (min i 1)) 5000000000 (host 9) (replicate 32 7)
    (SockV4 (ipv4 5 6 7 8) 4000) (mkAgentControlRequest 1000 (host 3) 7) p2p_state w0.
Definition answer : ResolvedAgentRequest * NetworkState * Wd :=
  default (mkResolved [] None, dead, w0) asked.

Lemma lease_granted_when_offered_witness :
  rs_granted answer.1.1 = Some (mkGrantedLease (host 3) 1) ∧
  ∃ resp, prost_decode (rs_response answer.1.1) = Some resp ∧ ar_request_id resp = 7.
Proof.
  assert (asked = Some (answer.1.1, answer.1.2, answer.2)) as He.
  { assert (is_some asked = true) as Hs by (vm_compute; reflexivity).
    unfold answer. destruct asked as [[[]]|]; [reflexivity|discriminate Hs]. }
  split; [vm_compute; reflexivity|].
  destruct (lease_granted_when_offered 2 (λ i, Z.of_nat (min i 1)) 5000000000 (host 9) (replicate 32 7)
    (SockV4 (ipv4 5 6 7 8) 4000) (mkAgentControlRequest 1000 (host 3) 7) p2p_state w0
    answer.1.1 answer.1.2 answer.2) as (resp & H1 & H2 & _).
  - apply (bool_decide_eq_true_1 _). vm_compute. reflexivity.
  - apply (bool_decide_eq_true_1 _). vm_compute. reflexivity.
  - apply ni_senders, p2p_state_inv.
  - exact He.
  - exists resp. split; [exact H1|exact H2].
Defined.

End P2pWitness.
