(* ===== verification/Runtime.v ===== *)
(** The WireGuard runtime: [server/wireguard_runtime.rs].

    One task owns the UDP socket and the sessions of the connected peers.  Its
    state is [Runtime]: the sessions and three indices into them.  The networks
    are those of [Service]; the tunnel of a session is [boringtun]'s.  An [await]
    lets other tasks act: the awaited operations are fields of [IoOps] and may
    change the shared networks, never the sessions.  Handlers run in a state monad
    that ends in a value, in a panic, or out of fuel where the source has a loop
    that is not bounded by its data. *)

From S2P Require Import Prelude Libs Std Packet ControlMessage Bridge Lease NetState Service Db Tunnel P2p.
From stdpp Require Import base gmap strings list.
From Stdlib Require Import ZArith Lia.

Local Open Scope Z_scope.

Definition MAX_RECEIVER_INDEX : Z := 16777215.
Definition INDEX_ALLOCATION_ATTEMPTS : nat := 128.
Definition P2P_REQUEST_INTERVAL : Z := from_secs 1.

(** ** Runs *)

Inductive run (A : Type) := Finished (a : A) | Panicked | OutOfFuel.
Arguments Finished {A}. Arguments Panicked {A}. Arguments OutOfFuel {A}.

Record ActivePeerStats := mkStats {
  st_rx_bytes : Z; st_tx_bytes : Z; st_rejected_packets : Z; st_dropped_packets : Z }.
Definition no_stats : ActivePeerStats := mkStats 0 0 0 0.

Inductive WireGuardIngressRelay :=
| RelayUnicast (destination : Ipv4Addr) (data : bytes)
| RelayBroadcast (source : Ipv4Addr) (inner : bytes)
| RelaySubnet (vnt_gateway : Ipv4Addr) (data : bytes).

Section Routes.
Context {NL : Ipv4NetLib}.

(** [filter(contains).max_by_key(prefix_len)]: the last of the longest. *)
Definition longest_prefix_route (routes : list Db.WireGuardPeerRouteRecord) (destination : Ipv4Addr)
    : option Db.WireGuardPeerRouteRecord :=
  fold_left (λ best r, match best with
      | Some b => if net_prefix_len (Db.rt_lan_network r) <? net_prefix_len (Db.rt_lan_network b)
                  then Some b else Some r
      | None => Some r
      end)
    (filter (λ r, net_contains (Db.rt_lan_network r) destination = true) routes) None.
End Routes.

(** The generator is called until a candidate is free, 128 times at most;
    [generate i] is its [i]-th answer. *)
Definition allocate_receiver_index_with (used : gset Z) (generate : nat → Z) : option Z :=
  find_map (λ i, let candidate := Z.land (generate i) MAX_RECEIVER_INDEX in
                 if bool_decide (candidate ∈ used) then None else Some candidate)
    (seq 0 INDEX_ALLOCATION_ATTEMPTS).

Definition accepts_inner_source (reserved_ip : Ipv4Addr) (source_ip : IpAddr) : bool :=
  bool_decide (source_ip = IpV4 reserved_ip).

Section Runtime.
Context {NL : Ipv4NetLib} {PL : PnetLib} {UL : PnetUdpLib} {U32 : NetU32Lib} {PC : P2pCodec}.
Context {W : Type} {MV : Mpsc W bytes} {MW : Mpsc W WireGuardBridgePacket}.
Context {B : Type} {BT : Boringtun B}.

Record ActivePeer := mkActivePeer {
  ap_public_key : bytes;
  ap_reserved_ip : Ipv4Addr;
  ap_receiver_index : Z;
  ap_endpoint : option SocketAddr;
  ap_tunnel : Tunn;
  ap_network_state : positive;   (** the [Arc] of the network *)
  ap_stats : ActivePeerStats;
  ap_last_p2p_request : option Z;
  ap_p2p_leases : gmap Ipv4Addr Z;
  ap_routes : list Db.WireGuardPeerRouteRecord
}.

Definition with_tunnel (t : Tunn) (p : ActivePeer) : ActivePeer :=
  mkActivePeer (ap_public_key p) (ap_reserved_ip p) (ap_receiver_index p) (ap_endpoint p) t
    (ap_network_state p) (ap_stats p) (ap_last_p2p_request p) (ap_p2p_leases p) (ap_routes p).
Definition with_endpoint (e : SocketAddr) (p : ActivePeer) : ActivePeer :=
  mkActivePeer (ap_public_key p) (ap_reserved_ip p) (ap_receiver_index p) (Some e) (ap_tunnel p)
    (ap_network_state p) (ap_stats p) (ap_last_p2p_request p) (ap_p2p_leases p) (ap_routes p).
Definition with_peer_stats (s : ActivePeerStats) (p : ActivePeer) : ActivePeer :=
  mkActivePeer (ap_public_key p) (ap_reserved_ip p) (ap_receiver_index p) (ap_endpoint p)
    (ap_tunnel p) (ap_network_state p) s (ap_last_p2p_request p) (ap_p2p_leases p) (ap_routes p).
Definition with_p2p (last : option Z) (leases : gmap Ipv4Addr Z) (p : ActivePeer) : ActivePeer :=
  mkActivePeer (ap_public_key p) (ap_reserved_ip p) (ap_receiver_index p) (ap_endpoint p)
    (ap_tunnel p) (ap_network_state p) (ap_stats p) last leases (ap_routes p).

(** [peer.stats.rejected_packets += 1] and the other counters. *)
Definition count_rejected (p : ActivePeer) : ActivePeer :=
  let s := ap_stats p in
  with_peer_stats (mkStats (st_rx_bytes s) (st_tx_bytes s) (u64_add (st_rejected_packets s) 1)
                     (st_dropped_packets s)) p.
Definition count_dropped (p : ActivePeer) : ActivePeer :=
  let s := ap_stats p in
  with_peer_stats (mkStats (st_rx_bytes s) (st_tx_bytes s) (st_rejected_packets s)
                     (u64_add (st_dropped_packets s) 1)) p.
Definition count_rx (n : nat) (p : ActivePeer) : ActivePeer :=
  let s := ap_stats p in
  with_peer_stats (mkStats (u64_add (st_rx_bytes s) (Z.of_nat n)) (st_tx_bytes s)
                     (st_rejected_packets s) (st_dropped_packets s)) p.
Definition count_tx (n : nat) (p : ActivePeer) : ActivePeer :=
  let s := ap_stats p in
  with_peer_stats (mkStats (st_rx_bytes s) (u64_add (st_tx_bytes s) (Z.of_nat n))
                     (st_rejected_packets s) (st_dropped_packets s)) p.

(** [socket] is the list of datagrams handed to the UDP socket, oldest first. *)
Record Runtime := mkRuntime {
  socket : list (bytes * SocketAddr);
  static_private : bytes;
  static_public : bytes;
  global_rate_limiter : RateLimiter;
  peer_verifier : RateLimiter;
  max_active_peers : nat;
  bridge_sender : mpsc_sender W WireGuardBridgePacket;
  peers : gmap PeerKey ActivePeer;
  peers_by_public_key : gmap bytes PeerKey;
  peers_by_receiver_index : gmap Z PeerKey;
  peers_by_reserved_ip : gmap (string * Ipv4Addr) PeerKey
}.

Definition with_peers (ps : gmap PeerKey ActivePeer) (rt : Runtime) : Runtime :=
  mkRuntime (socket rt) (static_private rt) (static_public rt) (global_rate_limiter rt)
    (peer_verifier rt) (max_active_peers rt) (bridge_sender rt) ps (peers_by_public_key rt)
    (peers_by_receiver_index rt) (peers_by_reserved_ip rt).
Definition with_tables (ps : gmap PeerKey ActivePeer) (pk : gmap bytes PeerKey)
    (ix : gmap Z PeerKey) (ip : gmap (string * Ipv4Addr) PeerKey) (rt : Runtime) : Runtime :=
  mkRuntime (socket rt) (static_private rt) (static_public rt) (global_rate_limiter rt)
    (peer_verifier rt) (max_active_peers rt) (bridge_sender rt) ps pk ix ip.
Definition log_datagram (x : bytes * SocketAddr) (rt : Runtime) : Runtime :=
  mkRuntime (socket rt ++ [x]) (static_private rt) (static_public rt) (global_rate_limiter rt)
    (peer_verifier rt) (max_active_peers rt) (bridge_sender rt) (peers rt)
    (peers_by_public_key rt) (peers_by_receiver_index rt) (peers_by_reserved_ip rt).
Definition update_peer (key : PeerKey) (f : ActivePeer → ActivePeer) (rt : Runtime) : Runtime :=
  with_peers (alter f key (peers rt)) rt.

(** The runtime, the environment of [boringtun], and the shared networks. *)
Record St := mkSt { st_rt : Runtime; st_bt : B; st_gl : Global }.

(** What the runtime awaits.  [io_send] is [UdpSocket::send_to] ([true] when it
    is accepted), [io_load] the query for the peer with a public key; other tasks
    may act on the networks meanwhile.  [io_network] is what the database holds
    for a network that is not in memory, [io_meanwhile] what happens while the
    task waits for the initialisation lock of a network. *)
Record IoOps := mkIoOps {
  io_send : bytes → SocketAddr → B * Global → bool * (B * Global);
  io_load : bytes → B * Global → result DbError (option Db.WireGuardRuntimePeer) * (B * Global);
  io_network : string → DbLoad;
  io_meanwhile : Global → Global;
  io_peer : option PeerOps
}.

(** One reading of the clocks per event, and the random numbers of the event:
    receiver indices and lease ids. *)
Record Oracle := mkOracle {
  instant : Z; wall : Z; index_rng : nat → Z; lease_rng : nat → Z }.

(** The tables [start] hands to the task. *)
Definition start (private public : bytes) (limiter verifier : RateLimiter) (max : nat)
    (sender : mpsc_sender W WireGuardBridgePacket) : Runtime :=
  mkRuntime [] private public limiter verifier max sender ∅ ∅ ∅ ∅.

(** ** The monad *)

Definition step (A : Type) : Type := St → run (A * St).
#[local] Instance step_ret : MRet step := λ A a st, Finished (a, st).
#[local] Instance step_bind : MBind step := λ A C k c st,
  match c st with
  | Finished (a, st) => k a st
  | Panicked => Panicked
  | OutOfFuel => OutOfFuel
  end.

Definition get_rt : step Runtime := λ st, Finished (st_rt st, st).
Definition get_gl : step Global := λ st, Finished (st_gl st, st).
Definition modify_rt (f : Runtime → Runtime) : step unit := λ st,
  Finished (tt, mkSt (f (st_rt st)) (st_bt st) (st_gl st)).
Definition put_gl (g : Global) : step unit := λ st, Finished (tt, mkSt (st_rt st) (st_bt st) g).
(** A call into [boringtun]. *)
Definition with_bt {A} (f : B → A * B) : step A := λ st,
  let '(a, b) := f (st_bt st) in Finished (a, mkSt (st_rt st) b (st_gl st)).
Definition lift_outcome {A} (o : outcome A) : step A := λ st,
  match o with Ret a => Finished (a, st) | Panic => Panicked end.
Definition lift_fuel {A} (o : option A) : step A := λ st,
  match o with Some a => Finished (a, st) | None => OutOfFuel end.
Definition set_peer (key : PeerKey) (p : ActivePeer) : step unit :=
  modify_rt (λ rt, with_peers (<[key := p]> (peers rt)) rt).
Definition on_peer (key : PeerKey) (f : ActivePeer → ActivePeer) : step unit :=
  modify_rt (update_peer key f).
(** The network behind an [Arc] that is held: it is never missing. *)
Definition network_at (l : positive) : step NetworkState := λ st,
  match arena (st_gl st) !! l with Some s => Finished (s, st) | None => Panicked end.

Section Handlers.
Context (io : IoOps) (fuel : nat) (o : Oracle).

Definition send_to (packet : bytes) (destination : SocketAddr) : step bool := λ st,
  let '(ok, (b, g)) := io_send io packet destination (st_bt st, st_gl st) in
  Finished (ok, mkSt (log_datagram (packet, destination) (st_rt st)) b g).

Definition load_runtime_peer (key : bytes) : step (result DbError (option Db.WireGuardRuntimePeer)) :=
  λ st, let '(r, (b, g)) := io_load io key (st_bt st, st_gl st) in
        Finished (r, mkSt (st_rt st) b g).

(** [ControlService::wireguard_network_state]. *)
Definition wireguard_network_state (code : string) : step (option positive) :=
  g ← get_gl;
  match db_nets g !! code with
  | None => mret None
  | Some config =>
      '(l, g) ← lift_outcome (get_or_create_network_state code config (io_network io code)
                  (wall o) (instant o) (io_meanwhile io) g);
      _ ← put_gl g;
      mret (Some l)
  end.

(** ** Removal of a session *)

Definition revoke_leases (l : positive) (leases : list (Ipv4Addr * Z)) (g : Global) : Global :=
  fold_left (λ g '(target_ip, lease_id),
    match arena g !! l with
    | Some s => let '(s, w) := revoke_lease target_ip lease_id s (queues g) in
                set_state l s (with_queues w g)
    | None => g
    end) leases g.

Definition remove_peer (key : PeerKey) : step unit :=
  rt ← get_rt;
  match peers rt !! key with
  | None => mret tt
  | Some peer =>
      let l := ap_network_state peer in
      g ← get_gl;
      let g := revoke_leases l (map_to_list (ap_p2p_leases peer)) g in
      _ ← modify_rt (with_tables (delete key (peers rt))
            (delete (ap_public_key peer) (peers_by_public_key rt))
            (delete (ap_receiver_index peer) (peers_by_receiver_index rt))
            (delete (key.1, ap_reserved_ip peer) (peers_by_reserved_ip rt)));
      put_gl match arena g !! l with
             | Some s => set_state l
                 (disconnect_wireguard_peer (instant o) key.2 (ap_reserved_ip peer) s).2 g
             | None => g
             end
  end.

Fixpoint remove_peers (keys : list PeerKey) : step unit :=
  match keys with
  | [] => mret tt
  | key :: keys => _ ← remove_peer key; remove_peers keys
  end.

Definition remove_all_peers : step unit :=
  rt ← get_rt;
  remove_peers (map_to_list (peers rt)).*1.

(** [RuntimeCommand::Revoke]; the acknowledgement follows. *)
Definition handle_command (key : PeerKey) : step unit := remove_peer key.

(** ** Activation *)

Definition activate_peer (record : Db.WireGuardRuntimePeer) : step (option PeerKey) :=
  rt ← get_rt;
  if (max_active_peers rt <=? size (peers rt))%nat then mret None
  else
    network ← wireguard_network_state (Db.wr_network_code record);
    match network with
    | None => mret None
    | Some l =>
        rt ← get_rt;
        match allocate_receiver_index_with (dom (peers_by_receiver_index rt)) (index_rng o) with
        | None => mret None
        | Some receiver_index =>
            let key := (Db.wr_network_code record, Db.wr_peer_id record) in
            tunnel ← with_bt (tunn_new (static_private rt) (Db.wr_public_key record) receiver_index
                       (peer_verifier rt));
            s ← network_at l;
            g ← get_gl;
            let '(connected, s) := connect_wireguard_peer (instant o) (wall o)
                (Db.wr_peer_id record) (Db.wr_ip record) (bridge_sender rt) s in
            _ ← put_gl (set_state l s g);
            if negb connected then mret None
            else
              _ ← modify_rt (with_tables
                    (<[key := mkActivePeer (Db.wr_public_key record) (Db.wr_ip record)
                                receiver_index None tunnel l no_stats None ∅
                                (Db.wr_routes record)]> (peers rt))
                    (<[Db.wr_public_key record := key]> (peers_by_public_key rt))
                    (<[receiver_index := key]> (peers_by_receiver_index rt))
                    (<[(key.1, Db.wr_ip record) := key]> (peers_by_reserved_ip rt)));
              mret (Some key)
        end
    end.

Definition peer_for_handshake (public_key : bytes) : step (option PeerKey) :=
  rt ← get_rt;
  match peers_by_public_key rt !! public_key with
  | Some key => mret (Some key)
  | None =>
      if (max_active_peers rt <=? size (peers rt))%nat then mret None
      else
        loaded ← load_runtime_peer public_key;
        match loaded with
        | Ok (Some record) => activate_peer record
        | _ => mret None
        end
  end.

(** ** Packets from a peer *)

(** What the runtime makes of a decrypted packet: the session afterwards, a reply
    of the gateway, a packet to relay, a request for a direct tunnel. *)
Record Ingress := mkIngress {
  ig_peer : ActivePeer; ig_reply : option bytes; ig_relay : option WireGuardIngressRelay;
  ig_agent : option AgentControlRequest }.

Definition p2p_request_too_soon (peer : ActivePeer) : bool :=
  match ap_last_p2p_request peer with
  | Some last => saturating_sub (instant o) last <? P2P_REQUEST_INTERVAL
  | None => false
  end.

Definition classify_inner (inner : bytes) (source_ip : Ipv4Addr) (s : NetworkState)
    (peer : ActivePeer) : outcome Ingress :=
  let rejected := mkIngress (count_rejected peer) None None None in
  let accepted relay := mkIngress (count_rx (length inner) peer) None (Some relay) None in
  let ip := ap_reserved_ip peer in
  let gateway := ns_gateway s in
  if negb (accepts_inner_source ip (IpV4 source_ip)) then Ret rejected
  else match parse_agent_control inner ip gateway with
  | Panic => Panic
  | Ret (Request request) =>
      if p2p_request_too_soon peer then Ret (mkIngress (count_dropped peer) None None None)
      else Ret (mkIngress (with_p2p (Some (instant o)) (ap_p2p_leases peer) peer) None None
                  (Some request))
  | Ret Invalid => Ret rejected
  | Ret NotControl =>
      match Bridge.build_gateway_echo_reply inner ip gateway with
      | Err _ => Ret rejected
      | Ok (Some reply) => Ret (mkIngress (count_rx (length inner) peer) (Some reply) None None)
      | Ok None =>
          match Bridge.validate_broadcast_inner_ipv4 inner ip (ns_net s) gateway with
          | Ok route => Ret (accepted (RelayBroadcast (source route) inner))
          | Err _ =>
              match Bridge.validate_inner_ipv4 inner ip (ns_net s) gateway with
              | Ok route => Ret (accepted (RelayUnicast (destination route)
                                   (Bridge.build_wireguard_relay inner route)))
              | Err _ =>
                  let subnet := if ipv4_new inner
                    then longest_prefix_route (ap_routes peer) (ipv4_get_destination inner)
                    else None in
                  match subnet with
                  | None => Ret rejected
                  | Some r =>
                      match Bridge.validate_subnet_inner_ipv4 inner ip (ns_net s) gateway
                              (Db.rt_lan_network r) with
                      | Err _ => Ret rejected
                      | Ok route => Ret (accepted (RelaySubnet (Db.rt_vnt_cli_ip r)
                          (Bridge.build_wireguard_subnet_relay inner route (Db.rt_vnt_cli_ip r))))
                      end
                  end
              end
          end
      end
  end.

(** [while let WriteToNetwork(p) = tunnel.decapsulate(None, &[], ..)]. *)
Fixpoint flush_tunnel (fuel : nat) (t : Tunn) (b : B) : option (list bytes * Tunn * B) :=
  match fuel with
  | O => None
  | S fuel =>
      match decapsulate t None [] b with
      | (WriteToNetwork p, t, b) =>
          match flush_tunnel fuel t b with
          | Some (ps, t, b) => Some (p :: ps, t, b)
          | None => None
          end
      | (_, t, b) => Some ([], t, b)
      end
  end.

Definition flush (t : Tunn) : step (list bytes * Tunn) := λ st,
  match flush_tunnel fuel t (st_bt st) with
  | Some (ps, t, b) => Finished (ps, t, mkSt (st_rt st) b (st_gl st))
  | None => OutOfFuel
  end.

Definition tunnel_decapsulate (t : Tunn) (src : SocketAddr) (packet : bytes) : step (TunnResult * Tunn) :=
  with_bt (decapsulate t (Some (sock_ip src)) packet).
Definition tunnel_encapsulate (t : Tunn) (packet : bytes) : step (TunnResult * Tunn) :=
  with_bt (encapsulate t packet).

Fixpoint send_all (key : PeerKey) (destination : SocketAddr) (packets : list bytes) : step unit :=
  match packets with
  | [] => mret tt
  | packet :: packets =>
      ok ← send_to packet destination;
      _ ← (if ok : bool then mret tt else on_peer key count_dropped);
      send_all key destination packets
  end.

Definition handle_agent_control (key : PeerKey) (request : AgentControlRequest) (src : SocketAddr)
    : step unit :=
  rt ← get_rt;
  match peers rt !! key with
  | None => mret tt
  | Some peer =>
      let l := ap_network_state peer in
      s ← network_at l;
      g ← get_gl;
      '(resolved, s', w) ← lift_fuel (resolve_agent_request fuel (lease_rng o) (wall o)
          (ap_reserved_ip peer) (ap_public_key peer) src request s (queues g));
      _ ← put_gl (set_state l s' (with_queues w g));
      match build_agent_response (ns_gateway s) (ap_reserved_ip peer) (rq_source_port request)
              (rs_response resolved) with
      | None => mret tt
      | Some inner =>
          _ ← match rs_granted resolved with
              | Some granted => on_peer key (λ p, with_p2p (ap_last_p2p_request p)
                  (<[gl_target_ip granted := gl_lease_id granted]> (ap_p2p_leases p)) p)
              | None => mret tt
              end;
          match ap_endpoint peer with
          | None => on_peer key count_dropped
          | Some endpoint =>
              '(r, t) ← tunnel_encapsulate (ap_tunnel peer) inner;
              _ ← on_peer key (with_tunnel t);
              match r with
              | WriteToNetwork packet =>
                  sent ← send_to packet endpoint;
                  on_peer key (if sent : bool then count_tx (length inner) else count_dropped)
              | TunnErr _ => on_peer key count_rejected
              | _ => on_peer key count_dropped
              end
          end
      end
  end.

(** The packet that goes into the network. *)
Definition relay_ingress (key : PeerKey) (relay : WireGuardIngressRelay) : step unit :=
  g ← get_gl;
  let deliver destination data :=
    let '(r, g) := route_wireguard_relay (io_peer io) key.1 destination data OriginWireGuard g in
    _ ← put_gl g;
    if bool_decide (r ≠ Delivered) then on_peer key count_dropped else mret tt in
  match relay with
  | RelayUnicast destination data => deliver destination data
  | RelaySubnet vnt_gateway data => deliver vnt_gateway data
  | RelayBroadcast src inner =>
      let '(ok, g) := route_wireguard_broadcast (io_peer io) key.1 src inner OriginWireGuard g in
      _ ← put_gl g;
      if ok : bool then mret tt else on_peer key count_dropped
  end.

(** The packets [decapsulate] produced, before anything waits. *)
Definition decrypted (peer : ActivePeer) (result : TunnResult) : step (Ingress * list bytes) :=
  match result with
  | WriteToNetwork response => mret (mkIngress peer None None None, [response])
  | WriteToTunnelV4 inner source_ip =>
      s ← network_at (ap_network_state peer);
      ig ← lift_outcome (classify_inner inner source_ip s peer);
      mret (ig, [])
  | WriteToTunnelV6 _ _ => mret (mkIngress (count_rejected peer) None None None, [])
  | TunnDone | TunnErr _ => mret (mkIngress peer None None None, [])
  end.

(** The gateway's own reply goes back through the tunnel. *)
Definition reply_direct (peer : ActivePeer) (reply : option bytes) : step (ActivePeer * list bytes) :=
  match reply with
  | None => mret (peer, [])
  | Some reply =>
      '(r, t) ← tunnel_encapsulate (ap_tunnel peer) reply;
      let peer := with_tunnel t peer in
      mret match r with
           | WriteToNetwork packet => (count_tx (length reply) peer, [packet])
           | TunnErr _ => (count_rejected peer, [])
           | _ => (count_dropped peer, [])
           end
  end.

Definition process_peer_packet (key : PeerKey) (packet : bytes) (src : SocketAddr) : step unit :=
  rt ← get_rt;
  match peers rt !! key with
  | None => mret tt
  | Some peer =>
      '(result, t) ← tunnel_decapsulate (ap_tunnel peer) src packet;
      let peer := with_tunnel t peer in
      match result with
      | TunnErr _ => set_peer key (count_rejected peer)
      | _ =>
          '(ig, responses) ← decrypted peer result;
          '(peer, replies) ← reply_direct (with_endpoint src (ig_peer ig)) (ig_reply ig);
          '(flushed, t) ← flush (ap_tunnel peer);
          _ ← set_peer key (with_tunnel t peer);
          _ ← send_all key src (responses ++ replies ++ flushed);
          _ ← match ig_relay ig with Some relay => relay_ingress key relay | None => mret tt end;
          match ig_agent ig with
          | Some request => handle_agent_control key request src
          | None => mret tt
          end
      end
  end.

(** ** Datagrams *)

Definition handle_datagram (packet : bytes) (src : SocketAddr) : step unit :=
  rt ← get_rt;
  verified ← with_bt (verify_packet (global_rate_limiter rt) (sock_ip src) packet);
  let to_receiver receiver_idx :=
    match peers_by_receiver_index rt !! Z.shiftr receiver_idx 8 with
    | Some key => process_peer_packet key packet src
    | None => mret tt
    end in
  match verified with
  | inl (HandshakeInit init) =>
      match parse_handshake_anon (static_private rt) (static_public rt) init with
      | None => mret tt
      | Some public_key =>
          key ← peer_for_handshake public_key;
          match key with
          | Some key => process_peer_packet key packet src
          | None => mret tt
          end
      end
  | inl (HandshakeResponse idx) | inl (PacketCookieReply idx) | inl (PacketData idx) => to_receiver idx
  | inr (WriteToNetwork cookie) => _ ← send_to cookie src; mret tt
  | inr _ => mret tt
  end.

(** ** Packets from the network *)

(** Whether the packet may leave through the tunnel of the session. *)
Definition egress_valid (packet : NetPacket) (s : NetworkState) (peer : ActivePeer) : bool :=
  let src := Packet.src_id packet in
  match Packet.msg_type packet with
  | Ok WireGuardRelay => is_ok (Bridge.validate_vnt_relay packet src (ns_net s) (ns_gateway s))
  | Ok WireGuardBroadcastRelay =>
      is_ok (Bridge.validate_broadcast_inner_ipv4 (Packet.payload packet) src (ns_net s) (ns_gateway s))
  | Ok WireGuardSubnetRelay =>
      match Bridge.validate_vnt_subnet_relay packet src (ns_net s) (ns_gateway s) with
      | Ok route => match longest_prefix_route (ap_routes peer) (source route) with
                    | Some r => Db.rt_vnt_cli_ip r =? src
                    | None => false
                    end
      | Err _ => false
      end
  | _ => false
  end.

Definition handle_bridge_packet (bridge : WireGuardBridgePacket) : step unit :=
  match Packet.new (bp_data bridge) with
  | Err _ => mret tt
  | Ok packet =>
      rt ← get_rt;
      match peers_by_reserved_ip rt !! (bp_network_code bridge, Packet.dest_id packet) with
      | None => mret tt
      | Some key =>
          match peers rt !! key with
          | None => mret tt
          | Some peer =>
              s ← network_at (ap_network_state peer);
              if negb (egress_valid packet s peer) then set_peer key (count_rejected peer)
              else match ap_endpoint peer with
              | None => set_peer key (count_dropped peer)
              | Some endpoint =>
                  '(r, t) ← tunnel_encapsulate (ap_tunnel peer) (Packet.payload packet);
                  let peer := with_tunnel t peer in
                  match r with
                  | WriteToNetwork datagram =>
                      _ ← set_peer key peer;
                      sent ← send_to datagram endpoint;
                      on_peer key (if sent : bool then count_tx (length (Packet.payload packet))
                                   else count_dropped)
                  | TunnErr _ => set_peer key (count_rejected peer)
                  | _ => set_peer key (count_dropped peer)
                  end
              end
          end
      end
  end.

(** ** Timers *)

(** One tick over the sessions: the expired ones and the packets to send. *)
Fixpoint tick_tunnels (keys : list PeerKey) : step (list PeerKey * list (bytes * SocketAddr)) :=
  match keys with
  | [] => mret ([], [])
  | key :: keys =>
      rt ← get_rt;
      match peers rt !! key with
      | None => tick_tunnels keys
      | Some peer =>
          '(r, t) ← with_bt (tunn_update_timers (ap_tunnel peer));
          _ ← set_peer key (with_tunnel t peer);
          '(expired, outbound) ← tick_tunnels keys;
          mret match r, ap_endpoint peer with
               | TunnErr ConnectionExpired, _ => (key :: expired, outbound)
               | WriteToNetwork packet, Some endpoint => (expired, (packet, endpoint) :: outbound)
               | _, _ => (expired, outbound)
               end
      end
  end.

Fixpoint send_outbound (l : list (bytes * SocketAddr)) : step unit :=
  match l with
  | [] => mret tt
  | (packet, endpoint) :: l => _ ← send_to packet endpoint; send_outbound l
  end.

Definition update_timers : step unit :=
  rt ← get_rt;
  '(expired, outbound) ← tick_tunnels (map_to_list (peers rt)).*1;
  _ ← remove_peers expired;
  send_outbound outbound.

(** ** The select loop: one event at a time *)

Inductive Event :=
| EvCommand (key : PeerKey)
| EvBridge (packet : WireGuardBridgePacket)
| EvDatagram (packet : bytes) (src : SocketAddr)
| EvTimer
| EvRateReset.

Definition handle_event (e : Event) : step unit :=
  match e with
  | EvCommand key => handle_command key
  | EvBridge packet => handle_bridge_packet packet
  | EvDatagram packet src => handle_datagram packet src
  | EvTimer => update_timers
  | EvRateReset => rt ← get_rt; with_bt (λ b, (tt, reset_count (global_rate_limiter rt) b))
  end.
End Handlers.
End Runtime.
