(* ===== verification/RuntimeFacts.v ===== *)
(** Facts about the WireGuard runtime: a program logic for its monad, the
    session tables, activation and removal, and termination of its loops. *)

From S2P Require Import Prelude Libs Std Packet ControlMessage Bridge Lease NetState Service Db Tunnel P2p Runtime.
From stdpp Require Import base gmap strings list.
From Stdlib Require Import ZArith Lia.

Local Open Scope Z_scope.

#[export] Existing Instance step_ret.
#[export] Existing Instance step_bind.

(** ** What a computation does to the runtime *)

Module RuntimeLogic.
Section RuntimeLogic.
Context {NL : Ipv4NetLib} {PL : PnetLib} {UL : PnetUdpLib} {U32 : NetU32Lib} {PC : P2pCodec}.
Context {W : Type} {MV : Mpsc W bytes} {MW : Mpsc W WireGuardBridgePacket}.
Context {B : Type} {BT : Boringtun B}.
Implicit Types (rt : Runtime) (p : ActivePeer).

(** From every runtime with [P], a run that finishes ends in one with [Q]. *)
Definition triple {A} (P : Runtime → Prop) (c : step A) (Q : A → Runtime → Prop) : Prop :=
  ∀ st a st', P (st_rt st) → c st = Finished (a, st') → Q a (st_rt st').

Lemma triple_ret {A} (P : Runtime → Prop) (a : A) (Q : A → Runtime → Prop) :
  (∀ rt, P rt → Q a rt) → triple P (mret a) Q.
Proof. intros H st x st' HP [= <- <-]. by apply H. Qed.

Lemma triple_bind {A C} P (c : step A) R (k : A → step C) Q :
  triple P c R → (∀ a, triple (R a) (k a) Q) → triple P (c ≫= k) Q.
Proof.
  intros Hc Hk st b st' HP. unfold mbind, step_bind.
  destruct (c st) as [[a st1]| |] eqn:E; try done. intros E'.
  eapply Hk; [|exact E']. by eapply Hc.
Qed.

Lemma triple_weaken {A} P P' (c : step A) Q Q' :
  (∀ rt, P rt → P' rt) → (∀ a rt, Q' a rt → Q a rt) → triple P' c Q' → triple P c Q.
Proof. intros HP HQ H st a st' Hst E. eapply HQ, H; [|exact E]. by apply HP. Qed.

Lemma triple_pre {A} P P' (c : step A) Q : (∀ rt, P rt → P' rt) → triple P' c Q → triple P c Q.
Proof. intros HP H st a st' Hst E. eapply H; [|exact E]. by apply HP. Qed.

(** A computation that leaves the runtime alone, up to the log of datagrams. *)
Definition quiet {A} (c : step A) : Prop :=
  ∀ st a st', c st = Finished (a, st') → st_rt st' = st_rt st.

Lemma triple_quiet {A} P (c : step A) : quiet c → triple P c (λ _, P).
Proof. intros Hq st a st' HP E. by rewrite (Hq _ _ _ E). Qed.

Lemma quiet_bind {A C} (c : step A) (k : A → step C) :
  quiet c → (∀ a, quiet (k a)) → quiet (c ≫= k).
Proof.
  intros Hc Hk st b st'. unfold mbind, step_bind.
  destruct (c st) as [[a st1]| |] eqn:E; try done. intros E'.
  etrans; [by eapply Hk|by eapply Hc].
Qed.

Lemma quiet_ret {A} (a : A) : quiet (mret a).
Proof. by intros st x st' [= <- <-]. Qed.
Lemma quiet_get_gl : quiet get_gl.
Proof. by intros st x st' [= <- <-]. Qed.
Lemma quiet_put_gl g : quiet (put_gl g).
Proof. by intros st x st' [= <- <-]. Qed.
Lemma quiet_with_bt {A} (f : B → A * B) : quiet (with_bt f).
Proof. intros st x st'. unfold with_bt. destruct (f _). by intros [= <- <-]. Qed.
Lemma quiet_lift_outcome {A} (o : outcome A) : quiet (lift_outcome o).
Proof. intros st x st'. unfold lift_outcome. destruct o; [by intros [= <- <-]|done]. Qed.
Lemma quiet_lift_fuel {A} (o : option A) : quiet (lift_fuel o).
Proof. intros st x st'. unfold lift_fuel. destruct o; [by intros [= <- <-]|done]. Qed.
Lemma quiet_network_at l : quiet (network_at l).
Proof. intros st x st'. unfold network_at. destruct (_ !! _); [by intros [= <- <-]|done]. Qed.
Lemma quiet_flush fuel t : quiet (flush fuel t).
Proof. intros st x st'. unfold flush. destruct (flush_tunnel _ _ _) as [[[]]|]; [by intros [= <- <-]|done]. Qed.
Lemma quiet_load io key : quiet (load_runtime_peer io key).
Proof.
  intros st x st'. unfold load_runtime_peer. destruct (io_load _ _ _) as [? []]. by intros [= <- <-].
Qed.

Lemma quiet_network_state io o code : quiet (wireguard_network_state io o code).
Proof.
  apply quiet_bind; [apply quiet_get_gl|]. intros g. destruct (_ !! _); [|apply quiet_ret].
  apply quiet_bind; [apply quiet_lift_outcome|]. intros [].
  apply quiet_bind; [apply quiet_put_gl|]. intros _. apply quiet_ret.
Qed.

Lemma quiet_decrypted o p r : quiet (decrypted o p r).
Proof.
  destruct r; try apply quiet_ret. apply quiet_bind; [apply quiet_network_at|]. intros s.
  apply quiet_bind; [apply quiet_lift_outcome|]. intros ig. apply quiet_ret.
Qed.

Lemma quiet_reply p r : quiet (reply_direct p r).
Proof.
  destruct r; [|apply quiet_ret]. apply quiet_bind; [apply quiet_with_bt|]. intros []. apply quiet_ret.
Qed.

(** The two reads of the runtime. *)
Lemma triple_get_rt P : triple P get_rt (λ rt rt', rt' = rt ∧ P rt).
Proof. by intros st a st' HP [= <- <-]. Qed.
Lemma triple_modify P f (Q : unit → Runtime → Prop) :
  (∀ rt, P rt → Q tt (f rt)) → triple P (modify_rt f) Q.
Proof. intros H st [] st' HP [= <-]. by apply H. Qed.
End RuntimeLogic.
End RuntimeLogic.

(** ** Invariants of the session tables *)

Module SessionFacts.
Import RuntimeLogic.
Section SessionFacts.
Context {NL : Ipv4NetLib} {PL : PnetLib} {UL : PnetUdpLib} {U32 : NetU32Lib} {PC : P2pCodec}.
Context {W : Type} {MV : Mpsc W bytes} {MW : Mpsc W WireGuardBridgePacket}.
Context {B : Type} {BT : Boringtun B}.
Implicit Types (rt : Runtime) (p : ActivePeer).

(** The fields of a session that never change. *)
Definition same_session p q : Prop :=
  ap_public_key p = ap_public_key q ∧ ap_reserved_ip p = ap_reserved_ip q ∧
  ap_receiver_index p = ap_receiver_index q ∧ ap_network_state p = ap_network_state q.

#[local] Instance same_session_equiv : Equivalence same_session.
Proof.
  split; [by intros p|by intros p q (?&?&?&?)|].
  intros p q r (?&?&?&?) (?&?&?&?). unfold same_session. split_and!; congruence.
Qed.

(** Sessions as they stand after a removal and after an activation. *)
Definition removed (key : PeerKey) p rt : Runtime :=
  with_tables (delete key (peers rt)) (delete (ap_public_key p) (peers_by_public_key rt))
    (delete (ap_receiver_index p) (peers_by_receiver_index rt))
    (delete (key.1, ap_reserved_ip p) (peers_by_reserved_ip rt)) rt.
Definition record_key (r : Db.WireGuardRuntimePeer) : PeerKey :=
  (Db.wr_network_code r, Db.wr_peer_id r).
Definition activated (r : Db.WireGuardRuntimePeer) (index : Z) (t : Tunn) (l : positive) rt : Runtime :=
  with_tables
    (<[record_key r := mkActivePeer (Db.wr_public_key r) (Db.wr_ip r) index None t l no_stats None ∅
                         (Db.wr_routes r)]> (peers rt))
    (<[Db.wr_public_key r := record_key r]> (peers_by_public_key rt))
    (<[index := record_key r]> (peers_by_receiver_index rt))
    (<[((record_key r).1, Db.wr_ip r) := record_key r]> (peers_by_reserved_ip rt)) rt.

(** An invariant that no packet disturbs: it looks at the tables and at the
    fixed fields of the sessions only. *)
Record stable (I : Runtime → Prop) : Prop := {
  stable_log x rt : I rt → I (log_datagram x rt);
  stable_update k p p' rt : peers rt !! k = Some p → same_session p' p → I rt →
    I (with_peers (<[k := p']> (peers rt)) rt)
}.

(** One that holds through activations of records with [F] and removals too. *)
Record session_inv (I : Runtime → Prop) (F : Db.WireGuardRuntimePeer → Runtime → Prop) : Prop := {
  inv_stable : stable I;
  inv_remove k p rt : peers rt !! k = Some p → I rt → I (removed k p rt);
  inv_activate r index t l rt : (size (peers rt) < max_active_peers rt)%nat → is_u 24 index →
    peers_by_receiver_index rt !! index = None → F r rt → I rt → I (activated r index t l rt)
}.

Definition has (k : PeerKey) p0 rt : Prop := ∃ p, peers rt !! k = Some p ∧ same_session p p0.

Lemma has_stable I k p0 : stable I → stable (λ rt, I rt ∧ has k p0 rt).
Proof.
  intros HI. split.
  - intros x rt [H1 H2]. split; [by apply HI|done].
  - intros j p p' rt Hj Hs [H1 (q & Hq & Hqs)]. split; [by eapply HI|].
    unfold has. simpl. destruct (decide (j = k)) as [->|].
    + exists p'. rewrite lookup_insert_eq. split; [done|]. simplify_eq. by etrans.
    + exists q. by rewrite lookup_insert_ne.
Qed.

Section Stable.
Context (I : Runtime → Prop) (HI : stable I).

Lemma keep_on_peer k f : (∀ p, same_session (f p) p) → triple I (on_peer k f) (λ _, I).
Proof.
  intros Hf. apply triple_modify. intros rt H. unfold update_peer.
  destruct (peers rt !! k) as [p|] eqn:E.
  - assert (alter f k (peers rt) = <[k := f p]> (peers rt)) as ->.
    { apply map_eq. intros j. destruct (decide (j = k)) as [->|].
      - by rewrite lookup_alter_eq, lookup_insert_eq, E.
      - by rewrite lookup_alter_ne, lookup_insert_ne. }
    by eapply HI.
  - assert (alter f k (peers rt) = peers rt) as ->.
    { apply map_eq. intros j. destruct (decide (j = k)) as [->|].
      - by rewrite lookup_alter_eq, E.
      - by rewrite lookup_alter_ne. }
    by destruct rt.
Qed.

Lemma keep_set_peer k p' p0 :
  same_session p' p0 → triple (λ rt, I rt ∧ has k p0 rt) (set_peer k p') (λ _ rt, I rt ∧ has k p0 rt).
Proof.
  intros Hs. apply triple_modify. intros rt [H (p & Hp & Hps)].
  apply (stable_update _ (has_stable I k p0 HI) k p); [done| |split; [done|by exists p]].
  etrans; [exact Hs|by symmetry].
Qed.

Lemma keep_send io packet dst : triple I (send_to io packet dst) (λ _, I).
Proof.
  intros st a st' H. unfold send_to. destruct (io_send _ _ _ _) as [? []].
  intros [= <- <-]. by apply HI.
Qed.

Lemma keep_bind {A C} P (c : step A) (k : A → step C) Q :
  triple P c (λ _, P) → (∀ a, triple P (k a) Q) → triple P (c ≫= k) Q.
Proof. intros Hc Hk. by eapply triple_bind. Qed.

Lemma keep_if {A} (b : bool) (c d : step A) Q P :
  triple P c Q → triple P d Q → triple P (if b then c else d) Q.
Proof. by destruct b. Qed.

Lemma keep_send_all io k dst l : triple I (send_all io k dst l) (λ _, I).
Proof.
  induction l as [|x l IH]; cbn [send_all]; [by apply triple_ret|].
  apply keep_bind; [apply keep_send|]. intros ok.
  apply keep_bind; [|intros _; apply IH]. apply keep_if; [by apply triple_ret|].
  by apply keep_on_peer.
Qed.

Lemma keep_send_outbound io l : triple I (send_outbound io l) (λ _, I).
Proof.
  induction l as [|[x d] l IH]; cbn [send_outbound]; [by apply triple_ret|].
  apply keep_bind; [apply keep_send|]. intros _. apply IH.
Qed.

(** Quiet prefixes. *)
Lemma keep_quiet {A C} P (c : step A) (k : A → step C) Q :
  quiet c → (∀ a, triple P (k a) Q) → triple P (c ≫= k) Q.
Proof. intros Hc Hk. eapply triple_bind; [by apply triple_quiet|done]. Qed.

Lemma keep_agent io fuel o k r src : triple I (handle_agent_control io fuel o k r src) (λ _, I).
Proof.
  unfold handle_agent_control. eapply triple_bind; [apply triple_get_rt|]. intros rt.
  apply (triple_weaken _ I _ (λ _, I) (λ _, I)); [by intros ? [-> ?]|done|].
  destruct (peers rt !! k) as [p|]; [|by apply triple_ret].
  apply keep_quiet; [apply quiet_network_at|intros s].
  apply keep_quiet; [apply quiet_get_gl|intros g].
  apply keep_quiet; [apply quiet_lift_fuel|intros [[res s'] w]].
  apply keep_quiet; [apply quiet_put_gl|intros _].
  destruct (build_agent_response _ _ _ _); [|by apply triple_ret].
  apply keep_bind.
  { destruct (rs_granted res); [by apply keep_on_peer|by apply triple_ret]. }
  intros _. destruct (ap_endpoint p); [|by apply keep_on_peer].
  apply keep_quiet; [apply quiet_with_bt|intros [x t]].
  apply keep_bind; [by apply keep_on_peer|]. intros _.
  destruct x; try by apply keep_on_peer.
  apply keep_bind; [apply keep_send|]. intros []; by apply keep_on_peer.
Qed.

Lemma keep_relay io k x : triple I (relay_ingress io k x) (λ _, I).
Proof.
  unfold relay_ingress. apply keep_quiet; [apply quiet_get_gl|intros g].
  assert (∀ dst data, triple I (let '(r, g) := route_wireguard_relay (io_peer io) k.1 dst data
      OriginWireGuard g in _ ← put_gl g;
      if bool_decide (r ≠ Delivered) then on_peer k count_dropped else mret tt) (λ _, I)) as Hd.
  { intros dst data. destruct (route_wireguard_relay _ _ _ _ _ _) as [r g'].
    apply keep_quiet; [apply quiet_put_gl|intros _].
    apply keep_if; [by apply keep_on_peer|by apply triple_ret]. }
  destruct x; [apply Hd| |apply Hd].
  destruct (route_wireguard_broadcast _ _ _ _ _ _) as [ok g'].
  apply keep_quiet; [apply quiet_put_gl|intros _].
  apply keep_if; [by apply triple_ret|by apply keep_on_peer].
Qed.
End Stable.

(** A packet leaves the identity of the session alone. *)
Lemma classify_same o inner src s p ig :
  classify_inner o inner src s p = Ret ig → same_session (ig_peer ig) p.
Proof. unfold classify_inner. intros H. break. Qed.

Lemma decrypted_same o p r (P : Runtime → Prop) :
  triple P (decrypted o p r) (λ x rt, P rt ∧ same_session (ig_peer x.1) p).
Proof.
  intros st [ig l] st' HP E. split; [by rewrite (quiet_decrypted _ _ _ _ _ _ E)|].
  unfold decrypted, mret, step_ret in E. destruct r; try by simplify_eq.
  unfold mbind, step_bind, network_at, lift_outcome in E.
  destruct (_ !! _); [|done]. destruct (classify_inner _ _ _ _ _) eqn:Ec; [|done].
  simplify_eq. by eapply classify_same.
Qed.

Lemma reply_same p r (P : Runtime → Prop) :
  triple P (reply_direct p r) (λ x rt, P rt ∧ same_session x.1 p).
Proof.
  intros st [q l] st' HP E. split; [by rewrite (quiet_reply _ _ _ _ _ E)|].
  unfold reply_direct, mret, step_ret in E. destruct r; [|by simplify_eq].
  unfold mbind, step_bind, tunnel_encapsulate, with_bt in E.
  destruct (encapsulate _ _ _) as [[x t] b]. destruct x; by simplify_eq.
Qed.

Lemma keep_process I io fuel o k packet src :
  stable I → triple I (process_peer_packet io fuel o k packet src) (λ _, I).
Proof.
  intros HI. unfold process_peer_packet. eapply triple_bind; [apply triple_get_rt|]. intros rt.
  destruct (peers rt !! k) as [p|] eqn:Ep; [|apply triple_ret; by intros ? [-> ?]].
  apply (triple_weaken _ (λ rt, I rt ∧ has k p rt) _ _ (λ _ rt, I rt ∧ has k p rt));
    [intros ? [-> ?]; split; [done|by exists p]|by intros ? ? []|].
  apply keep_quiet; [apply quiet_with_bt|intros [result t]].
  assert (∀ c : step unit, c = (
    '(ig, responses) ← decrypted o (with_tunnel t p) result;
    '(peer, replies) ← reply_direct (with_endpoint src (ig_peer ig)) (ig_reply ig);
    '(flushed, t) ← flush fuel (ap_tunnel peer);
    _ ← set_peer k (with_tunnel t peer);
    _ ← send_all io k src (responses ++ replies ++ flushed);
    _ ← match ig_relay ig with Some relay => relay_ingress io k relay | None => mret tt end;
    match ig_agent ig with
    | Some request => handle_agent_control io fuel o k request src
    | None => mret tt
    end) → triple (λ rt, I rt ∧ has k p rt) c (λ _ rt, I rt ∧ has k p rt)) as Hc.
  { intros c ->. pose proof (has_stable I k p HI) as HJ.
    eapply triple_bind; [apply decrypted_same|]. intros [ig responses]. cbn [fst].
    eapply triple_bind; [apply reply_same|]. intros [q replies]. cbn [fst].
    apply keep_quiet; [apply quiet_flush|intros [flushed t']].
    eapply triple_bind.
    { apply (triple_weaken _ (λ rt, (I rt ∧ has k p rt) ∧ same_session q p) _
        (λ _ rt, I rt ∧ has k p rt) (λ _ rt, I rt ∧ has k p rt)); [|done|].
      - intros rt' [[H1 H2] H3]. split; [done|]. etrans; [exact H3|]. by etrans; [|exact H2].
      - intros st [] st' [H Hq] E. eapply (keep_set_peer I HI k _ p); [|exact H|exact E].
        by etrans; [|exact Hq]. }
    intros []. apply keep_bind; [by apply keep_send_all|intros []].
    apply keep_bind; [destruct (ig_relay ig); [by apply keep_relay|by apply triple_ret]|intros []].
    destruct (ig_agent ig); [by apply keep_agent|by apply triple_ret]. }
  destruct result; try (by apply Hc). by apply keep_set_peer.
Qed.

Lemma keep_bridge I io bp : stable I → triple I (handle_bridge_packet io bp) (λ _, I).
Proof.
  intros HI. unfold handle_bridge_packet. destruct (Packet.new _) as [packet|]; [|by apply triple_ret].
  eapply triple_bind; [apply triple_get_rt|]. intros rt.
  destruct (peers_by_reserved_ip rt !! _) as [k|]; [|apply triple_ret; by intros ? [-> ?]].
  destruct (peers rt !! k) as [p|] eqn:Ep; [|apply triple_ret; by intros ? [-> ?]].
  apply (triple_weaken _ (λ rt, I rt ∧ has k p rt) _ _ (λ _ rt, I rt ∧ has k p rt));
    [intros ? [-> ?]; split; [done|by exists p]|by intros ? ? []|].
  pose proof (has_stable I k p HI) as HJ.
  apply keep_quiet; [apply quiet_network_at|intros s].
  destruct (negb _); [by apply keep_set_peer|].
  destruct (ap_endpoint p) as [endpoint|]; [|by apply keep_set_peer].
  apply keep_quiet; [apply quiet_with_bt|intros [result t]].
  destruct result; try by apply keep_set_peer.
  apply keep_bind; [by apply keep_set_peer|intros []].
  apply keep_bind; [by apply keep_send|intros []]; by apply keep_on_peer.
Qed.

Lemma keep_tick I keys : stable I → triple I (tick_tunnels keys) (λ _, I).
Proof.
  intros HI. induction keys as [|k keys IH]; cbn [tick_tunnels]; [by apply triple_ret|].
  eapply triple_bind; [apply triple_get_rt|]. intros rt.
  destruct (peers rt !! k) as [p|] eqn:Ep.
  2: { eapply triple_pre; [|exact IH]. by intros ? [-> ?]. }
  apply (triple_weaken _ (λ rt, I rt ∧ has k p rt) _ _ (λ _, I));
    [intros ? [-> ?]; split; [done|by exists p]|done|].
  apply keep_quiet; [apply quiet_with_bt|intros [result t]].
  eapply triple_bind; [apply (keep_set_peer I HI k _ p); by destruct p|]. intros [].
  apply (triple_weaken _ I _ _ (λ _, I)); [by intros ? []|done|].
  apply keep_bind; [exact IH|]. intros [expired outbound]. by apply triple_ret.
Qed.

(** Receiver indices: 24 bits, and not in use. *)
Lemma allocate_index_spec used gen i :
  allocate_receiver_index_with used gen = Some i → is_u 24 i ∧ i ∉ used.
Proof.
  unfold allocate_receiver_index_with. intros H. apply find_map_Some in H as (j & _ & H).
  case_bool_decide; simplify_eq. split; [|done].
  unfold is_u, MAX_RECEIVER_INDEX. rewrite (land_low _ 24) by lia. apply Z.mod_pos_bound. lia.
Qed.

Section Events.
Context (I : Runtime → Prop) (F : Db.WireGuardRuntimePeer → Runtime → Prop) (HI : session_inv I F).

Lemma keep_remove o k : triple I (remove_peer o k) (λ _, I).
Proof.
  unfold remove_peer. eapply triple_bind; [apply triple_get_rt|]. intros rt.
  destruct (peers rt !! k) as [p|] eqn:Ep; [|apply triple_ret; by intros ? [-> ?]].
  apply keep_quiet; [apply quiet_get_gl|intros g].
  eapply (triple_bind _ _ (λ _, I)).
  - apply triple_modify. intros rt' [-> H]. by eapply (inv_remove _ _ HI).
  - intros _. apply triple_quiet, quiet_put_gl.
Qed.

Lemma keep_removes o ks : triple I (remove_peers o ks) (λ _, I).
Proof.
  induction ks as [|k ks IH]; cbn [remove_peers]; [by apply triple_ret|].
  apply keep_bind; [apply keep_remove|]. by intros [].
Qed.

(** Every record the database returns for a key without a session has [F]. *)
Definition admits (io : IoOps (B := B)) rt : Prop := ∀ key e r e',
  peers_by_public_key rt !! key = None → io_load io key e = (Ok (Some r), e') → F r rt.

Lemma keep_activate io o r : triple (λ rt, I rt ∧ F r rt) (activate_peer io o r) (λ _, I).
Proof.
  unfold activate_peer. eapply triple_bind; [apply triple_get_rt|]. intros rt.
  destruct (Nat.leb_spec (max_active_peers rt) (size (peers rt)));
    [apply triple_ret; by intros ? (-> & ? & ?)|].
  apply keep_quiet; [apply quiet_network_state|intros [l|]];
    [|apply triple_ret; by intros ? (-> & ? & ?)].
  eapply triple_bind; [apply triple_get_rt|]. intros rt2.
  destruct (allocate_receiver_index_with _ _) as [index|] eqn:Ei;
    [|apply triple_ret; by intros ? (-> & -> & ? & ?)].
  apply allocate_index_spec in Ei as [Hu Hn]. apply not_elem_of_dom in Hn.
  apply keep_quiet; [apply quiet_with_bt|intros t].
  apply keep_quiet; [apply quiet_network_at|intros s].
  apply keep_quiet; [apply quiet_get_gl|intros g].
  destruct (connect_wireguard_peer _ _ _ _ _ _) as [connected s'].
  apply keep_quiet; [apply quiet_put_gl|intros _].
  destruct (negb connected); [apply triple_ret; by intros ? (-> & -> & ? & ?)|].
  eapply (triple_bind _ _ (λ _, I)); [|intros _; by apply triple_ret].
  apply triple_modify. intros rt' (-> & -> & H1 & H2). by apply (inv_activate _ _ HI).
Qed.

Lemma keep_handshake io o key :
  triple (λ rt, I rt ∧ admits io rt) (peer_for_handshake io o key) (λ _, I).
Proof.
  unfold peer_for_handshake. eapply triple_bind; [apply triple_get_rt|]. intros rt.
  destruct (peers_by_public_key rt !! key) eqn:Ek; [apply triple_ret; by intros ? (-> & ? & ?)|].
  destruct (_ <=? _)%nat; [apply triple_ret; by intros ? (-> & ? & ?)|].
  eapply (triple_bind _ _ (λ x rt', I rt' ∧ ∀ r, x = Ok (Some r) → F r rt')).
  - intros st x st' (Hrt & H1 & H2) E. rewrite (quiet_load _ _ _ _ _ E), Hrt. split; [done|].
    intros r ->. unfold load_runtime_peer in E. destruct (io_load _ _ _) as [y [b g]] eqn:El.
    simplify_eq. by eapply H2.
  - intros [[r|]|]; try (apply triple_ret; by intros ? []).
    eapply triple_pre; [|apply keep_activate]. intros rt' [H1 H2]. split; [done|by apply H2].
Qed.

Lemma keep_datagram io fuel o packet src :
  triple (λ rt, I rt ∧ admits io rt) (handle_datagram io fuel o packet src) (λ _, I).
Proof.
  unfold handle_datagram. eapply triple_bind; [apply triple_get_rt|]. intros rt.
  apply (triple_weaken _ (λ rt, I rt ∧ admits io rt) _ _ (λ _, I)); [by intros ? [-> ?]|done|].
  pose proof (λ k, keep_process I io fuel o k packet src (inv_stable _ _ HI)) as Hp.
  apply keep_quiet; [apply quiet_with_bt|intros verified].
  destruct verified as [[init|idx|idx|idx]|[]]; try (apply triple_ret; by intros ? []).
  - destruct (parse_handshake_anon _ _ _); [|apply triple_ret; by intros ? []].
    eapply triple_bind; [apply keep_handshake|]. intros [k|]; [apply Hp|by apply triple_ret].
  - destruct (_ !! _); [|apply triple_ret; by intros ? []].
    eapply triple_pre; [|apply Hp]. by intros ? [].
  - destruct (_ !! _); [|apply triple_ret; by intros ? []].
    eapply triple_pre; [|apply Hp]. by intros ? [].
  - destruct (_ !! _); [|apply triple_ret; by intros ? []].
    eapply triple_pre; [|apply Hp]. by intros ? [].
  - apply (triple_weaken _ I _ _ (λ _, I)); [by intros ? []|done|].
    apply keep_bind; [apply keep_send, HI|]. intros _. by apply triple_ret.
Qed.

Lemma keep_event io fuel o e :
  triple (λ rt, I rt ∧ admits io rt) (handle_event io fuel o e) (λ _, I).
Proof.
  destruct e as [k|bp|packet src| |]; [| |apply keep_datagram| |];
    apply (triple_weaken _ I _ _ (λ _, I)); try (by intros ? []); try done.
  - apply keep_remove.
  - apply keep_bridge, HI.
  - unfold handle_event, update_timers. eapply triple_bind; [apply triple_get_rt|]. intros rt.
    apply (triple_weaken _ I _ _ (λ _, I)); [by intros ? [-> ?]|done|].
    apply keep_bind; [apply keep_tick, HI|]. intros [expired outbound].
    apply keep_bind; [apply keep_removes|]. intros _. apply keep_send_outbound, HI.
  - unfold handle_event. eapply triple_bind; [apply triple_get_rt|]. intros rt.
    apply (triple_weaken _ I _ _ (λ _, I)); [by intros ? [-> ?]|done|].
    apply triple_quiet, quiet_with_bt.
Qed.
End Events.

(** *** The two invariants *)

Definition capacity (max : nat) rt : Prop :=
  max_active_peers rt = max ∧ (size (peers rt) ≤ max)%nat.

Lemma capacity_inv max : session_inv (capacity max) (λ _ _, True).
Proof.
  unfold capacity. split; [split| |]; cbn [log_datagram with_peers removed activated with_tables
    peers max_active_peers].
  - done.
  - intros k p p' rt Hk _ [H1 H2]. by rewrite map_size_insert_Some by done.
  - intros k p rt Hk [H1 H2]. split; [done|]. rewrite map_size_delete_Some by done. lia.
  - intros r i t l rt Hlt _ _ _ [H1 H2]. split; [done|]. rewrite map_size_insert.
    destruct (_ !! _); simpl; lia.
Qed.

(** Sessions and indices correspond: each index finds a session that has the
    indexed value, and each session is found by its key, its index and its
    address. *)
Record tables_inv rt : Prop := {
  tables_session k p : peers rt !! k = Some p →
    peers_by_public_key rt !! ap_public_key p = Some k ∧
    peers_by_receiver_index rt !! ap_receiver_index p = Some k ∧
    peers_by_reserved_ip rt !! (k.1, ap_reserved_ip p) = Some k ∧ is_u 24 (ap_receiver_index p);
  tables_public_key x k : peers_by_public_key rt !! x = Some k →
    ∃ p, peers rt !! k = Some p ∧ ap_public_key p = x;
  tables_receiver_index x k : peers_by_receiver_index rt !! x = Some k →
    ∃ p, peers rt !! k = Some p ∧ ap_receiver_index p = x;
  tables_reserved_ip x k : peers_by_reserved_ip rt !! x = Some k →
    ∃ p, peers rt !! k = Some p ∧ (k.1, ap_reserved_ip p) = x
}.

(** The record is of no active session: neither its key, nor its peer, nor its
    address in the network. *)
Definition fresh_record (r : Db.WireGuardRuntimePeer) rt : Prop :=
  peers_by_public_key rt !! Db.wr_public_key r = None ∧ peers rt !! record_key r = None ∧
  peers_by_reserved_ip rt !! (Db.wr_network_code r, Db.wr_ip r) = None.

(** An index of sessions by a field [f] of a session and its key. *)
Lemma index_update {K} `{Countable K} (f : PeerKey → ActivePeer → K) (ix : gmap K PeerKey)
    (ps : gmap PeerKey ActivePeer) k p p' :
  ps !! k = Some p → f k p' = f k p →
  (∀ x j, ix !! x = Some j → ∃ q, ps !! j = Some q ∧ f j q = x) →
  ∀ x j, ix !! x = Some j → ∃ q, <[k := p']> ps !! j = Some q ∧ f j q = x.
Proof.
  intros Hk Hf HI x j Hx. destruct (HI x j Hx) as (q & Hq & <-).
  destruct (decide (j = k)) as [->|]; [|exists q; by rewrite lookup_insert_ne].
  exists p'. rewrite lookup_insert_eq. simplify_eq. done.
Qed.

Lemma index_remove {K} `{Countable K} (f : PeerKey → ActivePeer → K) (ix : gmap K PeerKey)
    (ps : gmap PeerKey ActivePeer) k p :
  ps !! k = Some p →
  (∀ x j, ix !! x = Some j → ∃ q, ps !! j = Some q ∧ f j q = x) →
  ∀ x j, delete (f k p) ix !! x = Some j → ∃ q, delete k ps !! j = Some q ∧ f j q = x.
Proof.
  intros Hk HI x j [Hne Hx]%lookup_delete_Some. destruct (HI x j Hx) as (q & Hq & <-).
  exists q. split; [|done]. apply lookup_delete_Some. split; [|done]. congruence.
Qed.

Lemma index_insert {K} `{Countable K} (f : PeerKey → ActivePeer → K) (ix : gmap K PeerKey)
    (ps : gmap PeerKey ActivePeer) k p :
  ps !! k = None →
  (∀ x j, ix !! x = Some j → ∃ q, ps !! j = Some q ∧ f j q = x) →
  ∀ x j, <[f k p := k]> ix !! x = Some j → ∃ q, <[k := p]> ps !! j = Some q ∧ f j q = x.
Proof.
  intros Hk HI x j [[<- <-]|[Hne Hx]]%lookup_insert_Some; [exists p; by rewrite lookup_insert_eq|].
  destruct (HI x j Hx) as (q & Hq & <-). exists q. split; [|done].
  rewrite lookup_insert_ne; [done|]. congruence.
Qed.

Lemma tables_inv_session : session_inv tables_inv fresh_record.
Proof.
  split; [split| |].
  - intros x rt []. by split.
  - intros k p p' rt Hk (E1 & E2 & E3 & _) [H1 H2 H3 H4]. split; simpl.
    + intros j q [[<- <-]|[_ Hq]]%lookup_insert_Some; [|by apply H1].
      rewrite E1, E2, E3. by apply H1.
    + by apply (index_update (λ _ q, ap_public_key q) _ _ _ p).
    + by apply (index_update (λ _ q, ap_receiver_index q) _ _ _ p).
    + apply (index_update (λ j q, (j.1, ap_reserved_ip q)) _ _ _ p); [done| |done]. by rewrite E2.
  - intros k p rt Hk [H1 H2 H3 H4]. destruct (H1 k p Hk) as (K1 & K2 & K3 & _).
    split; simpl.
    + intros j q [Hne Hq]%lookup_delete_Some. destruct (H1 j q Hq) as (J1 & J2 & J3 & J4).
      rewrite !lookup_delete_ne by congruence. done.
    + by apply (index_remove (λ _ q, ap_public_key q)).
    + by apply (index_remove (λ _ q, ap_receiver_index q)).
    + by apply (index_remove (λ j q, (j.1, ap_reserved_ip q))).
  - intros r i t l rt _ Hu Hi (F1 & F2 & F3) [H1 H2 H3 H4]. unfold activated.
    set (p := mkActivePeer _ _ _ _ _ _ _ _ _ _). split; simpl.
    + intros j q [[<- <-]|[_ Hq]]%lookup_insert_Some; [by rewrite !lookup_insert_eq|].
      destruct (H1 j q Hq) as (J1 & J2 & J3 & J4).
      rewrite !lookup_insert_ne by (intros E; rewrite <- E in *; unfold record_key in *; simpl in *; congruence).
      done.
    + by apply (index_insert (λ _ q, ap_public_key q) _ _ _ p).
    + by apply (index_insert (λ _ q, ap_receiver_index q) _ _ _ p).
    + by apply (index_insert (λ j q, (j.1, ap_reserved_ip q)) _ _ (record_key r) p).
Qed.

Lemma tables_inv_start priv pub lim ver max sender :
  tables_inv (start priv pub lim ver max sender).
Proof. split; simpl; intros; simplify_map_eq. Qed.
End SessionFacts.
End SessionFacts.

(** ** Every event ends *)

Module Termination.
Section Termination.
Context {NL : Ipv4NetLib} {PL : PnetLib} {UL : PnetUdpLib} {U32 : NetU32Lib} {PC : P2pCodec}.
Context {W : Type} {MV : Mpsc W bytes} {MW : Mpsc W WireGuardBridgePacket}.
Context {B : Type} {BT : Boringtun B} {BTL : BoringtunLaws B}.

(** From some amount of fuel on, the run ends and fuel no longer matters. *)
Definition settles {A} (c : nat → step A) : Prop := ∀ st, ∃ n r,
  r ≠ OutOfFuel ∧ ∀ fuel, (n ≤ fuel)%nat → c fuel st = r.

Definition total {A} (c : step A) : Prop := ∀ st, c st ≠ OutOfFuel.

Lemma settles_total {A} (c : step A) : total c → settles (λ _, c).
Proof. intros H st. exists 0%nat, (c st). by split. Qed.

Lemma settles_bind {A C} (c : nat → step A) (k : nat → A → step C) :
  settles c → (∀ a, settles (λ fuel, k fuel a)) → settles (λ fuel, c fuel ≫= k fuel).
Proof.
  intros Hc Hk st. destruct (Hc st) as (n & [[a st1]| |] & Hr & Hn); [| |done].
  - destruct (Hk a st1) as (m & r' & Hr' & Hm). exists (n `max` m)%nat, r'. split; [done|].
    intros fuel Hf. unfold mbind, step_bind. rewrite Hn by lia. apply Hm. lia.
  - exists n, Panicked. split; [done|]. intros fuel Hf. unfold mbind, step_bind. by rewrite Hn.
Qed.

Lemma total_ret {A} (a : A) : total (mret a).
Proof. done. Qed.
Lemma total_get_rt : total get_rt.
Proof. done. Qed.
Lemma total_get_gl : total get_gl.
Proof. done. Qed.
Lemma total_put_gl g : total (put_gl g).
Proof. done. Qed.
Lemma total_modify f : total (modify_rt f).
Proof. done. Qed.
Lemma total_with_bt {A} (f : B → A * B) : total (with_bt f).
Proof. intros st. unfold with_bt. by destruct (f _). Qed.
Lemma total_lift_outcome {A} (o : outcome A) : total (lift_outcome o).
Proof. intros st. by destruct o. Qed.
Lemma total_network_at l : total (network_at l).
Proof. intros st. unfold network_at. by destruct (_ !! _). Qed.
Lemma total_send io packet dst : total (send_to io packet dst).
Proof. intros st. unfold send_to. by destruct (io_send _ _ _ _) as [? []]. Qed.
Lemma total_load io key : total (load_runtime_peer io key).
Proof. intros st. unfold load_runtime_peer. by destruct (io_load _ _ _) as [? []]. Qed.

(** The flush loop: each turn takes a packet off the tunnel's queue. *)
Lemma flush_settles t b : ∃ n r, ∀ fuel, (n ≤ fuel)%nat → flush_tunnel fuel t b = Some r.
Proof.
  remember (queued t) as m eqn:Hm. revert t b Hm.
  induction m as [m IH] using lt_wf_ind. intros t b Hm.
  destruct (decapsulate t None [] b) as [[r t'] b'] eqn:E.
  assert ((∃ p, r = WriteToNetwork p) ∨ (∀ p, r ≠ WriteToNetwork p)) as [[p ->]|Hr]
    by (destruct r; eauto).
  - pose proof (decapsulate_flush _ _ _ _ _ E) as Hq.
    destruct (IH (queued t') ltac:(lia) t' b' eq_refl) as (n & [[ps t2] b2] & Hn).
    exists (S n), (p :: ps, t2, b2). intros [|fuel] Hf; [lia|]. simpl. by rewrite E, Hn by lia.
  - exists 1%nat, ([], t', b'). intros [|fuel] Hf; [lia|]. simpl. rewrite E.
    destruct r; naive_solver.
Qed.

Lemma settles_flush t : settles (λ fuel, flush fuel t).
Proof.
  intros st. destruct (flush_settles t (st_bt st)) as (n & [[ps t'] b] & Hn).
  exists n, (Finished (ps, t', mkSt (st_rt st) b (st_gl st))). split; [done|].
  intros fuel Hf. unfold flush. by rewrite Hn.
Qed.

Lemma draw_settles rng k :
  rng k ≠ 0 → ∃ x, ∀ fuel, (k < fuel)%nat → draw_lease_id fuel rng = Some x.
Proof.
  revert rng. induction k as [|k IH]; intros rng Hk.
  - exists (rng 0%nat). intros [|fuel] Hf; [lia|]. simpl. by rewrite (proj2 (Z.eqb_neq _ _)).
  - destruct (Z.eqb_spec (rng 0%nat) 0) as [E|E].
    + destruct (IH (λ i, rng (S i)) Hk) as [x Hx]. exists x. intros [|fuel] Hf; [lia|].
      simpl. rewrite (proj2 (Z.eqb_eq _ _) E). simpl. apply Hx. lia.
    + exists (rng 0%nat). intros [|fuel] Hf; [lia|]. simpl. by rewrite (proj2 (Z.eqb_neq _ _) E).
Qed.

Section Oracle.
Context (io : IoOps (B := B)) (o : Oracle) (Ho : ∃ k, lease_rng o k ≠ 0).

Lemma settles_resolve (wall : Z) ip key src r s (w : W) :
  settles (λ fuel, lift_fuel (resolve_agent_request fuel (lease_rng o) wall ip key src r s w)).
Proof.
  intros st. destruct Ho as [k Hk]. destruct (draw_settles _ _ Hk) as [x Hx]. exists (S k).
  eexists. split; cycle 1.
  - intros fuel Hf. unfold resolve_agent_request. rewrite Hx by lia. reflexivity.
  - unfold lift_fuel. destruct (_ || _); [done|]. destruct (wireguard_p2p_endpoint _ _); [|done].
    cbn [mbind option_bind].
    destruct (control_packet _ _ _); [destruct (try_deliver _ _ _ _ _) as [[[] ?] ?]|]; done.
Qed.
End Oracle.
End Termination.

Create HintDb settle discriminated.
#[export] Hint Resolve settles_total total_ret total_get_rt total_get_gl total_put_gl total_modify
  total_with_bt total_lift_outcome total_network_at total_send total_load settles_flush
  settles_resolve : settle.

(** Split binds and case distinctions; the leaves are in the hint database. *)
Ltac settle :=
  repeat match goal with
  | |- ∀ _, _ => intros
  | |- settles (λ _, match ?x with _ => _ end) => destruct x
  | |- settles (λ _, let '_ := ?x in _) => destruct x
  | |- settles (λ fuel, _ ≫= _) => apply settles_bind
  | |- settles _ => solve [eauto with settle]
  end.

Section Events.
Context {NL : Ipv4NetLib} {PL : PnetLib} {UL : PnetUdpLib} {U32 : NetU32Lib} {PC : P2pCodec}.
Context {W : Type} {MV : Mpsc W bytes} {MW : Mpsc W WireGuardBridgePacket}.
Context {B : Type} {BT : Boringtun B} {BTL : BoringtunLaws B}.
Context (io : IoOps (B := B)) (o : Oracle) (Ho : ∃ k, lease_rng o k ≠ 0).

Lemma settles_remove k : settles (λ _, remove_peer o k).
Proof. unfold remove_peer. settle. Qed.

Lemma settles_removes ks : settles (λ _, remove_peers o ks).
Proof.
  induction ks as [|k ks IH]; simpl; [settle|]. apply settles_bind; [apply settles_remove|by intros].
Qed.

Lemma settles_network code : settles (λ _, wireguard_network_state io o code).
Proof. unfold wireguard_network_state. settle. Qed.
#[local] Hint Resolve settles_remove settles_removes settles_network : settle.

Lemma settles_activate r : settles (λ _, activate_peer io o r).
Proof. unfold activate_peer. settle. Qed.
#[local] Hint Resolve settles_activate : settle.

Lemma settles_handshake key : settles (λ _, peer_for_handshake io o key).
Proof. unfold peer_for_handshake. settle. Qed.

Lemma settles_send_all k dst l : settles (λ _, send_all io k dst l).
Proof.
  induction l as [|x l IH]; cbn [send_all]; [settle|].
  apply settles_bind; [settle|]. intros ok. apply settles_bind; [unfold on_peer; settle|by intros].
Qed.

Lemma settles_outbound l : settles (λ _, send_outbound io l).
Proof.
  induction l as [|[x d] l IH]; cbn [send_outbound]; [settle|].
  apply settles_bind; [settle|by intros].
Qed.

Lemma settles_tick ks : settles (λ _, tick_tunnels ks).
Proof.
  induction ks as [|k ks IH]; cbn [tick_tunnels]; [settle|]. unfold set_peer.
  apply settles_bind; [settle|]. intros rt. destruct (peers rt !! k); [|done].
  apply settles_bind; [settle|]. intros [r t]. apply settles_bind; [settle|]. intros _.
  apply settles_bind; [done|]. settle.
Qed.
#[local] Hint Resolve settles_handshake settles_send_all settles_outbound settles_tick : settle.

Lemma settles_agent k r src : settles (λ fuel, handle_agent_control io fuel o k r src).
Proof. unfold handle_agent_control, tunnel_encapsulate, on_peer. settle. Qed.

Lemma settles_relay k x : settles (λ _, relay_ingress io k x).
Proof. unfold relay_ingress, on_peer. settle. Qed.

Lemma settles_decrypted p r : settles (λ _, decrypted o p r).
Proof. unfold decrypted. settle. Qed.

Lemma settles_reply p r : settles (λ _, reply_direct p r).
Proof. unfold reply_direct, tunnel_encapsulate. settle. Qed.
#[local] Hint Resolve settles_agent settles_relay settles_decrypted settles_reply : settle.

Lemma settles_process k packet src : settles (λ fuel, process_peer_packet io fuel o k packet src).
Proof. unfold process_peer_packet, tunnel_decapsulate, set_peer. settle. Qed.
#[local] Hint Resolve settles_process : settle.

Lemma settles_event e : settles (λ fuel, handle_event io fuel o e).
Proof.
  destruct e; unfold handle_event, handle_command, handle_bridge_packet, handle_datagram,
    update_timers, tunnel_encapsulate, set_peer, on_peer; settle.
Qed.
End Events.
End Termination.
