(* ===== verification/Sessions.v ===== *)
(** The sessions of the WireGuard runtime: the theorems about
    [server/wireguard_runtime.rs] and their witnesses. *)

From S2P Require Import Prelude Libs Std Packet ControlMessage Bridge Lease NetState Service Db Tunnel P2p Runtime RuntimeFacts.
From stdpp Require Import base gmap strings list.
From Stdlib Require Import ZArith Lia.

Local Open Scope Z_scope.

(** ** The life of the runtime *)

Section Steps.
Context {NL : Ipv4NetLib} {PL : PnetLib} {UL : PnetUdpLib} {U32 : NetU32Lib} {PC : P2pCodec}.
Context {W : Type} {MV : Mpsc W bytes} {MW : Mpsc W WireGuardBridgePacket}.
Context {B : Type} {BT : Boringtun B}.

(** One turn of the select loop, and anything other tasks do between two turns.
    [F] is what the records of the database satisfy when the runtime asks for a
    key that has no session. *)
Inductive runtime_step (F : Db.WireGuardRuntimePeer → Runtime → Prop) : St → St → Prop :=
| step_event io fuel o e st st' :
    SessionFacts.admits F io (st_rt st) →
    handle_event io fuel o e st = Finished (tt, st') →
    runtime_step F st st'
| step_others rt b g b' g' : runtime_step F (mkSt rt b g) (mkSt rt b' g').

Lemma reachable_keeps I F st st' :
  SessionFacts.session_inv I F → rtc (runtime_step F) st st' → I (st_rt st) → I (st_rt st').
Proof.
  intros HI. induction 1 as [|st st1 st2 Hs _ IH]; [done|]. intros H. apply IH.
  destruct Hs as [io fuel o e st st' Ha E|]; [|done].
  by apply (SessionFacts.keep_event I F HI io fuel o e st tt st').
Qed.
End Steps.

(** ** Lemmas *)

Module SessionsFacts.
Section SessionsFacts.
Context {NL : Ipv4NetLib} {NLL : Ipv4NetLaws} {PL : PnetLib} {PLL : PnetLaws}.
Context {UL : PnetUdpLib} {LY : PnetLayout} {U32 : NetU32Lib} {U32L : NetU32Laws}.
Context {PC : P2pCodec} {PCL : P2pCodecLaws}.
Context {W : Type} {MV : Mpsc W bytes} {MVL : MpscLaws W bytes} {MVM : MpscMono W bytes}.
Context {MW : Mpsc W WireGuardBridgePacket}.
Context {B : Type} {BT : Boringtun B}.

(** The fold of [longest_prefix_route], from any candidate on. *)
Lemma best_route (l : list Db.WireGuardPeerRouteRecord) best :
  let pick best r := match best with
      | Some b => if net_prefix_len (Db.rt_lan_network r) <? net_prefix_len (Db.rt_lan_network b)
                  then Some b else Some r
      | None => Some r
      end in
  match fold_left pick l best with
  | Some r => (r ∈ l ∨ best = Some r) ∧
      (∀ r', r' ∈ l ∨ best = Some r' →
         net_prefix_len (Db.rt_lan_network r') ≤ net_prefix_len (Db.rt_lan_network r))
  | None => l = [] ∧ best = None
  end.
Proof.
  intros pick. revert best. induction l as [|x l IH]; intros best; simpl.
  { destruct best; [|done]. split; [by right|]. intros r' [Hr|[= <-]]; [by apply not_elem_of_nil in Hr|done]. }
  specialize (IH (pick best x)). destruct (fold_left pick l (pick best x)) as [r|] eqn:E.
  - destruct IH as [IH1 IH2]. unfold pick in IH1, IH2. destruct best as [b|].
    + destruct (Z.ltb_spec (net_prefix_len (Db.rt_lan_network x)) (net_prefix_len (Db.rt_lan_network b))).
      * split; [destruct IH1 as [?|?]; [left; by right|by right]|].
        assert (net_prefix_len (Db.rt_lan_network b) ≤ net_prefix_len (Db.rt_lan_network r))
          by (apply IH2; by right).
        intros r' [[->|Hr]%elem_of_cons|[= <-]]; [lia|apply IH2; by left|done].
      * split; [left; destruct IH1 as [?|[= <-]]; [by right|by left]|].
        assert (net_prefix_len (Db.rt_lan_network x) ≤ net_prefix_len (Db.rt_lan_network r))
          by (apply IH2; by right).
        intros r' [[->|Hr]%elem_of_cons|[= <-]]; [done|apply IH2; by left|lia].
    + split; [left; destruct IH1 as [?|[= <-]]; [by right|by left]|].
      intros r' [[->|Hr]%elem_of_cons|[=]]; [apply IH2; by right|apply IH2; by left].
  - destruct IH as [_ IH]. unfold pick in IH. destruct best; [|done]. by destruct (_ <? _).
Qed.

Lemma longest_prefix_spec routes dst :
  match longest_prefix_route routes dst with
  | Some r => r ∈ routes ∧ net_contains (Db.rt_lan_network r) dst = true ∧
      ∀ r', r' ∈ routes → net_contains (Db.rt_lan_network r') dst = true →
        net_prefix_len (Db.rt_lan_network r') ≤ net_prefix_len (Db.rt_lan_network r)
  | None => ∀ r, r ∈ routes → net_contains (Db.rt_lan_network r) dst = false
  end.
Proof.
  unfold longest_prefix_route.
  pose proof (best_route (filter (λ r, net_contains (Db.rt_lan_network r) dst = true) routes) None) as H.
  cbn zeta in H. destruct (fold_left _ _ _) as [r|].
  - destruct H as [[H1|H1] H2]; [|done]. apply list_elem_of_filter in H1 as [Hc Hr].
    split_and!; [done..|]. intros r' Hr' Hc'. apply H2. left. by apply list_elem_of_filter.
  - destruct H as [H _]. intros r Hr. destruct (net_contains _ dst) eqn:E; [|done].
    assert (r ∈ filter (λ r, net_contains (Db.rt_lan_network r) dst = true) routes) as Hin
      by (by apply list_elem_of_filter). rewrite H in Hin. by apply not_elem_of_nil in Hin.
Qed.

(** Reading a relay envelope built from an inner packet. *)
Definition carries (data : bytes) (m : MsgType) (src dst : Ipv4Addr) (inner : bytes) : Prop :=
  ∃ p, Packet.new data = Ok p ∧ Packet.msg_type p = Ok m ∧ Packet.src_id p = src ∧
    Packet.dest_id p = dst ∧ Packet.payload p = inner.

Lemma envelope_carries m (inner : bytes) s d :
  bytes_ok inner → is_u 32 s → is_u 32 d →
  carries (Bridge.build_wireguard_envelope m inner s d) m s d inner.
Proof.
  intros Hi Hs Hd. destruct (BridgeFacts.build_envelope_spec m inner s d Hi Hs Hd)
    as (p & ? & _ & ? & _ & ? & ? & _ & _ & ? & _). by exists p.
Qed.

Lemma relay_carries (inner : bytes) s d :
  bytes_ok inner → is_u 32 s → is_u 32 d →
  carries (Bridge.build_wireguard_relay inner (mkIpv4Route s d)) WireGuardRelay s d inner.
Proof. intros. unfold Bridge.build_wireguard_relay. cbn [source destination]. by apply envelope_carries. Qed.
Lemma subnet_carries (inner : bytes) s d gw :
  bytes_ok inner → is_u 32 s → is_u 32 gw →
  carries (Bridge.build_wireguard_subnet_relay inner (mkIpv4Route s d) gw) WireGuardSubnetRelay s gw inner.
Proof. intros. unfold Bridge.build_wireguard_subnet_relay. cbn [source]. by apply envelope_carries. Qed.

Lemma contains_u32 n ip : net_contains n ip = true → is_u 32 ip.
Proof.
  intros [H1 H2]%net_contains_true. pose proof (net_network_range n). pose proof (net_broadcast_range n).
  unfold is_u, u32_max in *. lia.
Qed.

(** *** Revocation of leases *)

(** A control packet for [target] that revokes the lease. *)
Definition revokes (data : bytes) (target : Ipv4Addr) (lease_id : Z) : Prop :=
  ∃ p, Packet.new data = Ok p ∧ Packet.msg_type p = Ok WireGuardP2pControl ∧
    Packet.dest_id p = target ∧
    prost_decode (Packet.payload p) = Some (mkP2pControl (Some (PRevoke lease_id))).

(** The revocation was queued, or the queue refused it. *)
Definition told (q : mpsc_sender W bytes) (w' : W) (target : Ipv4Addr) (lease_id : Z) : Prop :=
  ∃ data, revokes data target lease_id ∧
    (data ∈ mpsc_sent q w' ∨ ∃ w e, mpsc_try_send q data w = (Some e, w)).

(** What a control packet leaves of a network. *)
Definition same_endpoints (s s' : NetworkState (W := W)) : Prop :=
  online_endpoints s' = online_endpoints s ∧ sender_map s' = sender_map s ∧
  ns_gateway s' = ns_gateway s.
Definition grown (w w' : W) : Prop := ∀ q : mpsc_sender W bytes, mpsc_sent q w `prefix_of` mpsc_sent q w'.

#[local] Instance grown_preorder : PreOrder grown.
Proof. split; [intros w q; reflexivity|]. intros a b c H1 H2 q. etrans; [apply H1|apply H2]. Qed.

Lemma told_grows q w w' target lease_id : grown w w' → told q w target lease_id → told q w' target lease_id.
Proof.
  intros Hg (data & Hd & [H|H]); exists data; (split; [done|]); [left|by right].
  destruct (Hg q) as [k Hk]. rewrite Hk. apply elem_of_app. by left.
Qed.

Lemma revoke_lease_spec target lease_id s w s' w' :
  is_u 32 (ns_gateway s) → is_u 32 target → senders_ok (sender_map s) (online_endpoints s) →
  revoke_lease target lease_id s w = (s', w') →
  same_endpoints s s' ∧ grown w w' ∧
  ∀ q, sender_map s !! target = Some (SVnt q) → told q w' target lease_id.
Proof.
  intros Hg Ht Hs. unfold revoke_lease. set (c := mkP2pControl _).
  destruct (P2pFacts.control_packet_spec (ns_gateway s) target (prost_encode c) Hg Ht
    (p2p_control_bytes _)) as (data & p & -> & Hn & Hm & _ & _ & _ & Hdst & Hpl & _).
  assert (revokes data target lease_id) as Hrev.
  { exists p. split_and!; try done. rewrite Hpl. apply prost_decode_encode. }
  specialize (Hs target) as Hst.
  unfold try_deliver. destruct (online_endpoints s !! target) as [[rid a k cf pp|]|] eqn:He.
  - destruct (sender_map s !! target) as [[q|]|] eqn:Eq; try done. rewrite Hn, Hm. simpl.
    destruct (mpsc_try_send q data w) as [[e|] w1] eqn:E.
    + pose proof (mpsc_send_err _ _ _ _ _ E) as ->. intros Hr.
      assert (same_endpoints s s' ∧ w' = w) as [Hse ->] by (destruct e; simpl in Hr; by simplify_eq).
      split_and!; [done|reflexivity|]. intros q' [= <-]. exists data. split; [done|].
      right. by exists w, e.
    + simpl. intros [= <- <-]. split_and!; [done| |].
      * intros q'. pose proof (mpsc_sent_grows q' q data w) as H. by rewrite E in H.
      * intros q' [= <-]. exists data. split; [done|]. left.
        rewrite (mpsc_send_ok _ _ _ _ E). apply elem_of_app. right. by apply list_elem_of_singleton.
  - rewrite Hn, Hm. simpl. intros [= <- <-]. split_and!; [done|reflexivity|].
    intros q Hq. by rewrite Hq in Hst.
  - intros [= <- <-]. split_and!; [done|reflexivity|]. intros q Hq. by rewrite Hq in Hst.
Qed.

Lemma revoke_leases_spec l leases g s :
  arena g !! l = Some s → is_u 32 (ns_gateway s) → Forall (λ x, is_u 32 x.1) leases →
  senders_ok (sender_map s) (online_endpoints s) →
  ∃ s', arena (revoke_leases l leases g) !! l = Some s' ∧ same_endpoints s s' ∧
    grown (queues g) (queues (revoke_leases l leases g)) ∧
    ∀ target lease_id q, (target, lease_id) ∈ leases → sender_map s !! target = Some (SVnt q) →
      told q (queues (revoke_leases l leases g)) target lease_id.
Proof.
  intros Hl Hg Hf Hs. revert g s Hl Hg Hs.
  induction Hf as [|[target lease_id] leases Ht _ IH]; intros g s Hl Hg Hs.
  { exists s. split_and!; [done..|reflexivity|]. intros ? ? ? Hin. by apply not_elem_of_nil in Hin. }
  cbn [revoke_leases fold_left]. rewrite Hl.
  destruct (revoke_lease target lease_id s (queues g)) as [s1 w1] eqn:E.
  destruct (revoke_lease_spec _ _ _ _ _ _ Hg Ht Hs E) as ((E1 & E2 & E3) & Hgr & Htold).
  destruct (IH (set_state l s1 (with_queues w1 g)) s1) as (s' & H1 & (H2 & H3 & H4) & H5 & H6).
  { simpl. apply lookup_insert_eq. }
  { by rewrite E3. }
  { by rewrite E1, E2. }
  simpl queues in H5. exists s'. split_and!; [done| |by etrans|].
  { split_and!; congruence. }
  intros target' lease_id' q [[= -> ->]|Hin]%elem_of_cons Hq.
  - eapply told_grows; [exact H5|]. by apply Htold.
  - apply H6; [done|]. by rewrite E2.
Qed.

(** *** Removal *)

Lemma revoke_lease_endpoints target lease_id s w :
  online_endpoints (revoke_lease target lease_id s w).1 = online_endpoints s.
Proof.
  unfold revoke_lease. destruct (control_packet _ _ _); [|done].
  unfold try_deliver. repeat case_match; by simplify_eq.
Qed.

(** Networks only lose endpoints. *)
Definition shrunk (g g' : Global (W := W)) : Prop := ∀ l s', arena g' !! l = Some s' →
  ∃ s, arena g !! l = Some s ∧ online_endpoints s' ⊆ online_endpoints s.

#[local] Instance shrunk_preorder : PreOrder shrunk.
Proof.
  split; [intros g l s H; by exists s|]. intros g1 g2 g3 H1 H2 l s3 Hl.
  destruct (H2 l s3 Hl) as (s2 & Hs2 & Hle2). destruct (H1 l s2 Hs2) as (s1 & Hs1 & Hle1).
  exists s1. split; [done|by etrans].
Qed.

Lemma shrunk_set l s s' g w :
  arena g !! l = Some s → online_endpoints s' ⊆ online_endpoints s →
  shrunk g (set_state l s' (with_queues w g)).
Proof.
  intros Hl Hsub j x. simpl. destruct (decide (l = j)) as [->|].
  - rewrite lookup_insert_eq. intros [= <-]. by exists s.
  - rewrite lookup_insert_ne by done. intros Hj. by exists x.
Qed.

Lemma shrunk_revoke l leases g : shrunk g (revoke_leases l leases g).
Proof.
  revert g. induction leases as [|[target lease_id] leases IH]; intros g; [reflexivity|].
  cbn [revoke_leases fold_left]. etrans; [|apply IH].
  destruct (arena g !! l) as [s|] eqn:E; [|reflexivity].
  pose proof (revoke_lease_endpoints target lease_id s (queues g)) as He.
  destruct (revoke_lease _ _ _ _) as [s' w']. apply (shrunk_set l s); [done|]. simpl in He. by rewrite He.
Qed.

Lemma disconnect_endpoints now peer ip s :
  online_endpoints (disconnect_wireguard_peer now peer ip s).2 ⊆ online_endpoints s ∧
  ∀ t, online_endpoints (disconnect_wireguard_peer now peer ip s).2 !! ip ≠ Some (EpWireGuard peer t).
Proof.
  unfold disconnect_wireguard_peer.
  destruct (online_endpoints s !! ip) as [[|q x]|] eqn:E; simpl; try (split; [done|congruence]).
  case_bool_decide; simpl; [|split; [done|congruence]].
  split; [apply delete_subseteq|]. by rewrite lookup_delete_eq.
Qed.

Lemma remove_peer_spec o k st : ∃ st', remove_peer o k st = Finished (tt, st') ∧
  peers (st_rt st') = delete k (peers (st_rt st)) ∧ shrunk (st_gl st) (st_gl st') ∧
  ∀ p, peers (st_rt st) !! k = Some p → ∀ s' t,
    arena (st_gl st') !! ap_network_state p = Some s' →
    online_endpoints s' !! ap_reserved_ip p ≠ Some (EpWireGuard k.2 t).
Proof.
  unfold remove_peer, mbind, step_bind, get_rt.
  destruct (peers (st_rt st) !! k) as [p|] eqn:E.
  2: { exists st. split_and!; [done| |reflexivity|done]. symmetry. by apply delete_id. }
  simpl. set (g := revoke_leases _ _ _).
  pose proof (shrunk_revoke (ap_network_state p) (map_to_list (ap_p2p_leases p)) (st_gl st)) as Hg.
  fold g in Hg. eexists. split; [done|]. simpl. split; [done|].
  destruct (arena g !! ap_network_state p) as [s|] eqn:Es.
  - pose proof (disconnect_endpoints (instant o) k.2 (ap_reserved_ip p) s) as [H1 H2]. split.
    + etrans; [exact Hg|]. by apply (shrunk_set _ s _ g (queues g)).
    + intros q [= <-] s' t. simpl. rewrite lookup_insert_eq. intros [= <-]. apply H2.
  - split; [done|]. intros q [= <-] s' t. congruence.
Qed.

Lemma remove_peers_spec o ks st : ∃ st', remove_peers o ks st = Finished (tt, st') ∧
  (∀ k, peers (st_rt st) !! k = None ∨ k ∈ ks → peers (st_rt st') !! k = None) ∧
  shrunk (st_gl st) (st_gl st') ∧
  ∀ k p, k ∈ ks → peers (st_rt st) !! k = Some p → ∀ s' t,
    arena (st_gl st') !! ap_network_state p = Some s' →
    online_endpoints s' !! ap_reserved_ip p ≠ Some (EpWireGuard k.2 t).
Proof.
  revert st. induction ks as [|k ks IH]; intros st; cbn [remove_peers].
  { exists st. split_and!; [done| |reflexivity|by intros k p Hk%not_elem_of_nil].
    intros k [H|Hk]; [done|by apply not_elem_of_nil in Hk]. }
  destruct (remove_peer_spec o k st) as (st1 & E1 & P1 & S1 & D1).
  destruct (IH st1) as (st2 & E2 & P2 & S2 & D2). exists st2.
  unfold mbind, step_bind. rewrite E1. split_and!; [done| |by etrans|].
  - intros j Hj. apply P2. rewrite P1. destruct (decide (j = k)) as [->|Hne].
    + left. apply lookup_delete_eq.
    + rewrite lookup_delete_ne by done. destruct Hj as [?|[?|?]%elem_of_cons]; [by left|done|by right].
  - intros j p Hj Hp s' t Hs'. destruct (decide (j = k)) as [->|Hne].
    + destruct (S2 _ _ Hs') as (s1 & Hs1 & Hsub). intros He. eapply D1; [done|exact Hs1|].
      by eapply lookup_weaken.
    + apply elem_of_cons in Hj as [?|Hj]; [done|].
      apply (D2 j p Hj); [by rewrite P1, lookup_delete_ne|done].
Qed.
End SessionsFacts.
End SessionsFacts.

(** ** Theorems *)

Section Theorems.
Context {NL : Ipv4NetLib} {NLL : Ipv4NetLaws} {PL : PnetLib} {PLL : PnetLaws}.
Context {UL : PnetUdpLib} {LY : PnetLayout} {U32 : NetU32Lib} {U32L : NetU32Laws}.
Context {PC : P2pCodec} {PCL : P2pCodecLaws}.
Context {W : Type} {MV : Mpsc W bytes} {MVL : MpscLaws W bytes} {MVM : MpscMono W bytes}.
Context {MW : Mpsc W WireGuardBridgePacket}.
Context {B : Type} {BT : Boringtun B}.


(** The number of sessions never exceeds the configured maximum, whatever the
    database answers. *)
Theorem session_capacity priv pub lim ver max sender st0 st :
  st_rt st0 = start priv pub lim ver max sender →
  rtc (runtime_step (λ _ _, True)) st0 st →
  (size (peers (st_rt st)) ≤ max)%nat.
Proof.
  intros E H. enough (SessionFacts.capacity max (st_rt st)) as [_ ?] by done.
  eapply reachable_keeps; [apply SessionFacts.capacity_inv|exact H|].
  rewrite E. split; [done|]. simpl. rewrite map_size_empty. lia.
Qed.

(** C19: every event is handled to its end: with enough fuel the run does not stop for
    lack of it, and more fuel changes nothing.  The flush loop ends because the
    tunnel's queue is finite, the lease loop at the first random number that is
    not zero. *)
Theorem event_handled {BTL : BoringtunLaws B} io o e st k :
  lease_rng o k ≠ 0 →
  ∃ n r, r ≠ OutOfFuel ∧ ∀ fuel, (n ≤ fuel)%nat → handle_event io fuel o e st = r.
Proof. intros Hk. apply Termination.settles_event. by exists k. Qed.

(** The route of a packet for a private subnet is the longest matching prefix. *)
Theorem subnet_route_longest_prefix routes dst :
  match longest_prefix_route routes dst with
  | Some r => r ∈ routes ∧ net_contains (Db.rt_lan_network r) dst = true ∧
      ∀ r', r' ∈ routes → net_contains (Db.rt_lan_network r') dst = true →
        net_prefix_len (Db.rt_lan_network r') ≤ net_prefix_len (Db.rt_lan_network r)
  | None => ∀ r, r ∈ routes → net_contains (Db.rt_lan_network r) dst = false
  end.
Proof. apply SessionsFacts.longest_prefix_spec. Qed.

(** C7: a peer cannot speak for another address or reach what it may not.  Of a
    decrypted packet the server acts on nothing whose source is not the address
    reserved for the peer; what it relays carries the packet unchanged under that
    address, to a host of the virtual network that is not the gateway, as a
    broadcast, or to the client behind the longest matching subnet route of the
    peer for an address outside the network; and it takes up requests for direct
    tunnels at most once per second. *)
Theorem ingress_confined o inner src s p ig :
  bytes_ok inner → is_u 32 (ap_reserved_ip p) →
  Forall (λ r, is_u 32 (Db.rt_vnt_cli_ip r)) (ap_routes p) →
  classify_inner o inner src s p = Ret ig →
  (is_Some (ig_reply ig) ∨ is_Some (ig_relay ig) ∨ is_Some (ig_agent ig) →
     src = ap_reserved_ip p ∧ ipv4_get_source inner = ap_reserved_ip p) ∧
  match ig_relay ig with
  | None => True
  | Some (RelayUnicast d data) =>
      SessionsFacts.carries data WireGuardRelay (ap_reserved_ip p) d inner ∧
      d = ipv4_get_destination inner ∧ net_contains (ns_net s) d = true ∧ d ≠ ns_gateway s ∧
      d ≠ net_broadcast (ns_net s) ∧ is_multicast d = false
  | Some (RelayBroadcast a b) => a = ap_reserved_ip p ∧ b = inner ∧
      (ipv4_get_destination inner = ADDR_BROADCAST ∨
       ipv4_get_destination inner = net_broadcast (ns_net s) ∨
       is_multicast (ipv4_get_destination inner) = true)
  | Some (RelaySubnet gw data) =>
      SessionsFacts.carries data WireGuardSubnetRelay (ap_reserved_ip p) gw inner ∧
      net_contains (ns_net s) (ipv4_get_destination inner) = false ∧
      ∃ r, longest_prefix_route (ap_routes p) (ipv4_get_destination inner) = Some r ∧
        Db.rt_vnt_cli_ip r = gw
  end ∧
  (is_Some (ig_agent ig) → ap_last_p2p_request (ig_peer ig) = Some (instant o) ∧
     ∀ last, ap_last_p2p_request p = Some last → last + P2P_REQUEST_INTERVAL ≤ instant o).
Proof.
  intros Hi Hip Hr. unfold classify_inner, accepts_inner_source.
  assert (∀ P : Prop, is_Some (@None bytes) ∨ is_Some (@None WireGuardIngressRelay) ∨
    is_Some (@None AgentControlRequest) → P) as Hnone by (intros P [[]|[[]|[]]]; done).
  case_bool_decide as Hsrc; cbn [negb];
    [|intros [= <-]; split_and!; [exact (Hnone _)|done|by intros []]].
  injection Hsrc as ->.
  destruct (P2pFacts.parse_spec inner (ap_reserved_ip p) (ns_gateway s)) as (a & -> & Ha).
  destruct a as [| |r]; [|intros [= <-]; split_and!; [exact (Hnone _)|done|by intros []]|].
  2: { destruct (proj1 (Ha r) eq_refl) as (hl & m & Hd & _). unfold p2p_request_too_soon.
       destruct Hd as (_ & _ & Hs & _).
       destruct (match ap_last_p2p_request p with Some _ => _ | None => _ end) eqn:El;
         intros [= <-]; (split; [first [exact (Hnone _)|by intros _; split]|split; [done|]]); [by intros []|].
       intros _. split; [done|]. intros last Hlast. rewrite Hlast in El. bool_simpl.
       unfold saturating_sub, P2P_REQUEST_INTERVAL, from_secs, nanos in *. lia. }
  destruct (Bridge.build_gateway_echo_reply _ _ _) as [[reply|]|] eqn:Ee;
    [|..|intros [= <-]; split_and!; [exact (Hnone _)|done|by intros []]].
  - intros [= <-]. split_and!; [|done|by intros []]. intros _. split; [done|].
    unfold Bridge.build_gateway_echo_reply in Ee.
    destruct (Bridge.parse_inner_ipv4 _ _) as [[route hl]|] eqn:Ep; [|done].
    by apply BridgeFacts.parse_inner_ok in Ep as (_ & ? & _).
  - destruct (Bridge.validate_broadcast_inner_ipv4 _ _ _ _) as [route|] eqn:Eb.
    { apply BridgeFacts.validate_broadcast_ok in Eb as (_ & Hs & -> & _ & _ & Hd).
      intros [= <-]. split; [by intros _|]. split; [done|by intros []]. }
    destruct (Bridge.validate_inner_ipv4 _ _ _ _) as [route|] eqn:Eu.
    { apply BridgeFacts.validate_inner_ok in Eu as (_ & Hs & -> & Hc & _ & Hm & _ & Hb & Hg).
      intros [= <-]. split; [by intros _|]. split; [split; [|done]|by intros []].
      apply SessionsFacts.relay_carries; [done..|]. by eapply SessionsFacts.contains_u32. }
    destruct (ipv4_new inner); [|intros [= <-]; split_and!; [exact (Hnone _)|done|by intros []]].
    pose proof (SessionsFacts.longest_prefix_spec (ap_routes p) (ipv4_get_destination inner)) as Hl.
    destruct (longest_prefix_route _ _) as [r|];
      [|intros [= <-]; split_and!; [exact (Hnone _)|done|by intros []]].
    destruct (Bridge.validate_subnet_inner_ipv4 _ _ _ _ _) as [route|] eqn:Es;
      [|intros [= <-]; split_and!; [exact (Hnone _)|done|by intros []]].
    apply BridgeFacts.validate_subnet_ok in Es as (_ & Hs & -> & _ & _ & _ & _ & Hc & _).
    intros [= <-]. split; [by intros _|]. split; [|by intros []]. split; [|split; [done|by exists r]].
    apply SessionsFacts.subnet_carries; [done..|]. rewrite Forall_forall in Hr. apply Hr, Hl.
Qed.

(** C8: what leaves towards a peer is its own.  A packet from the network produces at
    most one datagram; it is the encryption, in the tunnel of the session that
    holds the packet's destination address in the packet's network, of the payload
    of a relay packet that passed the checks for its type, and it goes to the
    address the peer last used. *)
Theorem egress_confined io bp st st' :
  SessionFacts.tables_inv (st_rt st) →
  handle_bridge_packet io bp st = Finished (tt, st') →
  socket (st_rt st') = socket (st_rt st) ∨
  ∃ packet key p s datagram endpoint t b,
    Packet.new (bp_data bp) = Ok packet ∧ peers (st_rt st) !! key = Some p ∧
    key.1 = bp_network_code bp ∧ ap_reserved_ip p = Packet.dest_id packet ∧
    arena (st_gl st) !! ap_network_state p = Some s ∧ egress_valid packet s p = true ∧
    ap_endpoint p = Some endpoint ∧
    encapsulate (ap_tunnel p) (Packet.payload packet) (st_bt st) = (WriteToNetwork datagram, t, b) ∧
    socket (st_rt st') = socket (st_rt st) ++ [(datagram, endpoint)].
Proof.
  intros HI. unfold handle_bridge_packet.
  destruct (Packet.new (bp_data bp)) as [packet|] eqn:En; [|intros [= <-]; by left].
  unfold mbind, step_bind, get_rt.
  destruct (peers_by_reserved_ip (st_rt st) !! _) as [key|] eqn:Ek; [|intros [= <-]; by left].
  destruct (SessionFacts.tables_reserved_ip _ HI _ _ Ek) as (p & Ep & Hip). rewrite Ep.
  unfold network_at. destruct (arena (st_gl st) !! ap_network_state p) as [s|] eqn:Es; [|done].
  destruct (egress_valid packet s p) eqn:Ev; cbn [negb]; [|intros [= <-]; by left].
  destruct (ap_endpoint p) as [endpoint|] eqn:Ee; [|intros [= <-]; by left].
  unfold tunnel_encapsulate, with_bt.
  destruct (encapsulate (ap_tunnel p) (Packet.payload packet) (st_bt st)) as [[r t] b] eqn:Ec.
  destruct r; try (intros [= <-]; by left). unfold send_to, set_peer, modify_rt. cbn [st_rt st_bt st_gl].
  destruct (io_send io _ _ _) as [ok [b' g']]. intros [= <-]. right.
  exists packet, key, p, s, packet0, endpoint, t, b. injection Hip as Hn Hd. split_and!; done.
Qed.


(** When the runtime stops, it leaves nothing behind: all sessions are gone, the
    four tables are empty, and no network still lists one of the sessions as an
    online endpoint. *)
Theorem shutdown_releases_sessions o st :
  SessionFacts.tables_inv (st_rt st) →
  ∃ st', remove_all_peers o st = Finished (tt, st') ∧ peers (st_rt st') = ∅ ∧
    peers_by_public_key (st_rt st') = ∅ ∧ peers_by_receiver_index (st_rt st') = ∅ ∧
    peers_by_reserved_ip (st_rt st') = ∅ ∧
    ∀ k p s t, peers (st_rt st) !! k = Some p →
      arena (st_gl st') !! ap_network_state p = Some s →
      online_endpoints s !! ap_reserved_ip p ≠ Some (EpWireGuard k.2 t).
Proof.
  intros HI.
  destruct (SessionsFacts.remove_peers_spec o (map_to_list (peers (st_rt st))).*1 st)
    as (st' & E & Hn & _ & Hd).
  assert (∀ k p, peers (st_rt st) !! k = Some p → k ∈ (map_to_list (peers (st_rt st))).*1) as Hk.
  { intros k p Hp. apply list_elem_of_fmap. exists (k, p). split; [done|].
    by apply elem_of_map_to_list. }
  assert (remove_all_peers o st = Finished (tt, st')) as Ea by (unfold remove_all_peers, mbind, step_bind, get_rt; done).
  exists st'. split; [done|].
  assert (SessionFacts.tables_inv (st_rt st')) as HI'.
  { by apply (SessionFacts.keep_removes _ _ SessionFacts.tables_inv_session o
      (map_to_list (peers (st_rt st))).*1 st tt st'). }
  assert (∀ k p, peers (st_rt st') !! k = Some p → False) as Hgone.
  { intros k p Hp. assert (peers (st_rt st') !! k = None) as Hnone; [|congruence].
    apply Hn. destruct (peers (st_rt st) !! k) eqn:Ek; [right; by eapply Hk|by left]. }
  split_and!; try (apply map_empty; intros x; destruct (_ !! x) as [k|] eqn:Ex; [exfalso|done]).
  - by eapply Hgone.
  - destruct (SessionFacts.tables_public_key _ HI' _ _ Ex) as (q & Hq & _). by eapply Hgone.
  - destruct (SessionFacts.tables_receiver_index _ HI' _ _ Ex) as (q & Hq & _). by eapply Hgone.
  - destruct (SessionFacts.tables_reserved_ip _ HI' _ _ Ex) as (q & Hq & _). by eapply Hgone.
  - intros k p s t Hp Hs. apply (Hd k p); [by eapply Hk|done|done].
Qed.

(** A request from UDP port 0 loses its lease.  The target receives the offer and
    the lease is granted, but no answer can be built for port 0 and the handler
    returns before it records the lease: the runtime is unchanged, so the end of
    the session will not revoke it. *)
Theorem port_zero_orphans_lease io fuel o key request src st p s res s' w' g :
  peers (st_rt st) !! key = Some p → arena (st_gl st) !! ap_network_state p = Some s →
  rq_source_port request = 0 →
  resolve_agent_request fuel (lease_rng o) (wall o) (ap_reserved_ip p) (ap_public_key p) src request
    s (queues (st_gl st)) = Some (res, s', w') →
  rs_granted res = Some g →
  handle_agent_control io fuel o key request src st =
    Finished (tt, mkSt (st_rt st) (st_bt st)
                    (set_state (ap_network_state p) s' (with_queues w' (st_gl st)))).
Proof.
  intros Hp Hs H0 Hr _. unfold handle_agent_control, mbind, step_bind, get_rt, network_at. rewrite Hp, Hs.
  unfold get_gl, lift_fuel. rewrite Hr. unfold put_gl. simpl.
  unfold build_agent_response. rewrite H0. done.
Qed.

(** Why the records must be fresh: a record for a peer with an active session but
    another key replaces the session without removing the old key from the index;
    once the new session ends, the old key leads to a session that does not exist,
    and a handshake with it is dropped without asking the database, until the
    runtime restarts. *)
Theorem conflicting_record_strands_key rt k p r index t l b g io fuel o packet src init b' :
  SessionFacts.tables_inv rt → peers rt !! k = Some p → SessionFacts.record_key r = k →
  Db.wr_public_key r ≠ ap_public_key p →
  let p' := mkActivePeer (Db.wr_public_key r) (Db.wr_ip r) index None t l no_stats None ∅
              (Db.wr_routes r) in
  let rt' := SessionFacts.removed k p' (SessionFacts.activated r index t l rt) in
  verify_packet (global_rate_limiter rt) (sock_ip src) packet b = (inl (HandshakeInit init), b') →
  parse_handshake_anon (static_private rt) (static_public rt) init = Some (ap_public_key p) →
  handle_datagram io fuel o packet src (mkSt rt' b g) = Finished (tt, mkSt rt' b' g).
Proof.
  intros HI Hp Hk Hne p' rt' Hv Hh. destruct (SessionFacts.tables_session _ HI _ _ Hp) as (H1 & _).
  unfold handle_datagram, mbind, step_bind, get_rt, with_bt. simpl. rewrite Hv. simpl. rewrite Hh.
  unfold peer_for_handshake, mbind, step_bind, get_rt. simpl.
  rewrite lookup_delete_ne, lookup_insert_ne, H1 by done.
  unfold process_peer_packet, mbind, step_bind, get_rt, mret, step_ret. simpl. by rewrite lookup_delete_eq.
Qed.
End Theorems.

(** ** Witnesses *)

Module SessionsWitness.
Import Model LeaseWitness NetWitness TunnelModel P2pModel P2pWitness.
#[local] Existing Instance NetWitness.MV.
#[local] Existing Instance NetWitness.MW.
#[local] Existing Instance NetWitness.MVL.
#[local] Existing Instance NetWitness.MWL.
#[local] Instance MVM : MpscMono Wd bytes := mpsc_fst_mono _ _.

(** The network of [P2pWitness], in memory; peer "p" has address 10.26.0.9. *)
Definition g0 : Global (W := Wd) :=
  mkGlobal net24 (from_secs 3600) {[ "net"%string := mkNetworkConfig net24 (from_secs 3600) SrcManual ]}
    {[ "net"%string := 1%positive ]} {[ 1%positive := p2p_state ]} w0 [].

Definition peer_public_key : bytes := replicate 32 7.
Definition peer_record : Db.WireGuardRuntimePeer :=
  Db.mkRuntimePeer "net" "p" peer_public_key (host 9) [].
Definition peer_addr : SocketAddr := SockV4 (ipv4 5 6 7 8) 4000.

(** The socket accepts everything; the database knows one peer. *)
Definition io0 : IoOps (W := Wd) (B := unit) :=
  mkIoOps (λ _ _ e, (true, e))
    (λ key e, (Ok (if bool_decide (key = peer_public_key) then Some peer_record else None), e))
    (λ _, mkDbLoad [] []) id None.
Definition o0 : Oracle := mkOracle 5000000000 6000000000 (λ _, 11) (λ i, Z.of_nat (min i 1)).

Definition rt0 : Runtime (W := Wd) (B := unit) := start [] [] tt tt 4 0%nat.
Definition st0 : St := mkSt rt0 tt g0.

(** The state after a run that finishes. *)
Definition after {A} (r : run (A * St (W := Wd) (B := unit))) : St :=
  match r with Finished (_, st) => st | _ => st0 end.
Definition finishes {A} (r : run A) : bool := match r with Finished _ => true | _ => false end.
Lemma after_eq (r : run (unit * St)) : finishes r = true → r = Finished (tt, after r).
Proof. by destruct r as [[[]]| |]. Qed.

(** The handshake of the peer, then a request for a tunnel to device "b". *)
Definition handshake : bytes := 1 :: peer_public_key.
Definition request_inner : bytes :=
  default [] (build_agent_response (host 9) gw AGENT_CONTROL_PORT
                (prost_encode (mkP2pAgentRequest (host 3) 7))).
Definition request_datagram : bytes := 4 :: to_be_bytes 4 (11 * 256) ++ request_inner.

Definition st1 : St := after (handle_event io0 10 o0 (EvDatagram handshake peer_addr) st0).
Definition st2 : St := after (handle_event io0 10 o0 (EvDatagram request_datagram peer_addr) st1).

Lemma step1 : handle_event io0 10 o0 (EvDatagram handshake peer_addr) st0 = Finished (tt, st1).
Proof. apply after_eq. vm_compute. reflexivity. Defined.
Lemma step2 : handle_event io0 10 o0 (EvDatagram request_datagram peer_addr) st1 = Finished (tt, st2).
Proof. apply after_eq. vm_compute. reflexivity. Defined.


(** *** The session tables *)

Lemma fresh0 : SessionFacts.admits SessionFacts.fresh_record io0 rt0.
Proof. intros key e r e' _ _. by repeat split. Defined.

Lemma known1 : peers_by_public_key (st_rt st1) !! peer_public_key = Some ("net", "p")%string.
Proof. vm_compute. reflexivity. Defined.

Lemma fresh1 : SessionFacts.admits SessionFacts.fresh_record io0 (st_rt st1).
Proof.
  intros key e r e' Hk. cbn [io0 io_load]. case_bool_decide as E; [|discriminate].
  rewrite E, known1 in Hk. discriminate Hk.
Defined.


Lemma inv_st1 : SessionFacts.tables_inv (st_rt st1).
Proof.
  exact (reachable_keeps _ _ st0 st1 SessionFacts.tables_inv_session
    (rtc_once _ _ (step_event _ io0 10 o0 _ st0 st1 fresh0 step1))
    (SessionFacts.tables_inv_start [] [] _ _ 4 _)).
Defined.
Lemma inv_st2 : SessionFacts.tables_inv (st_rt st2).
Proof.
  exact (reachable_keeps _ _ st1 st2 SessionFacts.tables_inv_session
    (rtc_once _ _ (step_event _ io0 10 o0 _ st1 st2 fresh1 step2)) inv_st1).
Defined.

Lemma session_capacity_witness :
  size (peers (st_rt st2)) = 1%nat ∧ (size (peers (st_rt st2)) ≤ 4)%nat.
Proof.
  split; [vm_compute; reflexivity|].
  apply (session_capacity [] [] _ _ 4 _ st0 st2 eq_refl).
  eapply rtc_l; [by apply (step_event _ io0 10 o0 _ st0 st1 (λ _ _ _ _ _ _, Logic.I) step1)|].
  eapply rtc_l; [by apply (step_event _ io0 10 o0 _ st1 st2 (λ _ _ _ _ _ _, Logic.I) step2)|].
  apply rtc_refl.
Defined.

Lemma event_handled_witness :
  ∃ n r, r ≠ OutOfFuel ∧
    ∀ fuel, (n ≤ fuel)%nat → handle_event io0 fuel o0 (EvDatagram request_datagram peer_addr) st1 = r.
Proof. apply (event_handled io0 o0 _ st1 1). discriminate. Defined.

(** *** Packets *)

(** UDP from the peer to device "b", and the answer. *)
Definition udp_to_b : bytes :=
  [69; 0; 0; 24; 0; 0; 0; 0; 64; 17; 0; 0; 10; 26; 0; 9; 10; 26; 0; 3; 1; 2; 3; 4].
Definition udp_from_b : bytes :=
  [69; 0; 0; 24; 0; 0; 0; 0; 64; 17; 0; 0; 10; 26; 0; 3; 10; 26; 0; 9; 1; 2; 3; 4].

Definition no_peer : ActivePeer (B := unit) :=
  mkActivePeer [] 0 0 None (mkPlainTunn [] 0 false []) 1 no_stats None ∅ [].
Definition session2 : ActivePeer := default no_peer (peers (st_rt st2) !! ("net", "p")%string).
Lemma session2_eq : peers (st_rt st2) !! ("net", "p")%string = Some session2.
Proof.
  assert (is_some (peers (st_rt st2) !! ("net", "p")%string) = true) as H by (vm_compute; reflexivity).
  unfold session2. destruct (peers (st_rt st2) !! ("net", "p")%string); [reflexivity|discriminate H].
Defined.

Lemma routes2 : ap_routes session2 = [].
Proof.
  assert (is_nil (ap_routes session2) = true) as H by (vm_compute; reflexivity).
  destruct (ap_routes session2); [reflexivity|discriminate H].
Defined.

Definition sent_to_b : Ingress (B := unit) :=
  match classify_inner o0 udp_to_b (host 9) p2p_state session2 with
  | Ret ig => ig | Panic => mkIngress no_peer None None None end.

Lemma ingress_confined_witness :
  ∃ d data, ig_relay sent_to_b = Some (RelayUnicast d data) ∧ d = host 3 ∧
    SessionsFacts.carries data WireGuardRelay (ap_reserved_ip session2) d udp_to_b.
Proof.
  assert (classify_inner o0 udp_to_b (host 9) p2p_state session2 = Ret sent_to_b) as E.
  { assert (match classify_inner o0 udp_to_b (host 9) p2p_state session2 with
            | Ret _ => true | Panic => false end = true) as H by (vm_compute; reflexivity).
    unfold sent_to_b. destruct (classify_inner _ _ _ _ _); [reflexivity|discriminate H]. }
  destruct (ingress_confined o0 udp_to_b (host 9) p2p_state session2 sent_to_b) as (_ & H & _).
  - apply (bool_decide_eq_true_1 _). vm_compute. reflexivity.
  - apply (bool_decide_eq_true_1 _). vm_compute. reflexivity.
  - exact (eq_ind_r (Forall _) (Forall_nil_2 _) routes2).
  - exact E.
  - assert (match ig_relay sent_to_b with Some (RelayUnicast d _) => d =? host 3 | _ => false end = true)
      as Hd by (vm_compute; reflexivity).
    destruct (ig_relay sent_to_b) as [[d data| |]|]; try discriminate Hd.
    exists d, data. apply Z.eqb_eq in Hd. split; [reflexivity|]. split; [exact Hd|exact (proj1 H)].
Defined.

Definition bridge_packet : WireGuardBridgePacket :=
  mkWireGuardBridgePacket "net" (Bridge.build_wireguard_relay udp_from_b (mkIpv4Route (host 3) (host 9))).
Definition st3 : St := after (handle_bridge_packet io0 bridge_packet st2).

Lemma egress_confined_witness :
  length (socket (st_rt st3)) = S (length (socket (st_rt st2))) ∧
  ∃ datagram endpoint, socket (st_rt st3) = socket (st_rt st2) ++ [(datagram, endpoint)].
Proof.
  assert (length (socket (st_rt st3)) = S (length (socket (st_rt st2)))) as Hl by (vm_compute; reflexivity).
  split; [exact Hl|].
  destruct (egress_confined io0 bridge_packet st2 st3) as [E|(p & k & q & s & d & e & t & b & H)].
  - exact inv_st2.
  - apply after_eq. vm_compute. reflexivity.
  - exfalso. rewrite E in Hl. exact (n_Sn _ Hl).
  - exists d, e. apply H.
Defined.

(** *** The end of the session *)

Definition senders_okb (sm : gmap Ipv4Addr (NetworkSender (W := Wd)))
    (eps : gmap Ipv4Addr OnlineEndpoint) : bool :=
  forallb (λ x, match x.2, eps !! x.1 with
      | SVnt _, Some (EpVnt _ _ _ _ _) => true
      | SWireGuard _ _, Some (EpWireGuard _ _) => true
      | _, _ => false
      end) (map_to_list sm) && forallb (λ x, is_some (sm !! x.1)) (map_to_list eps).

Lemma senders_okb_ok sm eps : senders_okb sm eps = true → senders_ok sm eps.
Proof.
  intros [H1 H2]%andb_true_iff ip.
  pose proof (proj1 (forallb_forall _ _) H1) as G1. pose proof (proj1 (forallb_forall _ _) H2) as G2.
  destruct (sm !! ip) as [x|] eqn:Ex.
  - specialize (G1 (ip, x)). simpl in G1.
    specialize (G1 ltac:(by apply list_elem_of_In, elem_of_map_to_list)).
    destruct x, (eps !! ip) as [[]|]; done.
  - destruct (eps !! ip) as [e|] eqn:Ee; [|done].
    specialize (G2 (ip, e) ltac:(by apply list_elem_of_In, elem_of_map_to_list)). simpl in G2.
    by rewrite Ex in G2.
Qed.

Definition network2 : NetworkState := default p2p_state (arena (st_gl st2) !! 1%positive).
Lemma network2_eq : arena (st_gl st2) !! ap_network_state session2 = Some network2.
Proof.
  assert (ap_network_state session2 = 1%positive) as -> by (vm_compute; reflexivity).
  assert (is_some (arena (st_gl st2) !! 1%positive) = true) as H by (vm_compute; reflexivity).
  unfold network2. destruct (arena (st_gl st2) !! 1%positive); [reflexivity|discriminate H].
Defined.

Lemma leases2 : ap_p2p_leases session2 = {[ host 3 := 1 ]}.
Proof. vm_compute. reflexivity. Defined.


Lemma shutdown_releases_sessions_witness :
  ∃ st', remove_all_peers o0 st2 = Finished (tt, st') ∧ peers (st_rt st') = ∅.
Proof.
  destruct (shutdown_releases_sessions o0 st2 inv_st2) as (st' & E & H & _).
  exists st'. split; [exact E|exact H].
Defined.

Definition port_zero : AgentControlRequest := mkAgentControlRequest 0 (host 3) 7.
Definition asked0 := resolve_agent_request 10 (lease_rng o0) (wall o0) (ap_reserved_ip session2)
  (ap_public_key session2) peer_addr port_zero network2 (queues (st_gl st2)).
Definition answer0 : ResolvedAgentRequest * NetworkState * Wd :=
  default (mkResolved [] None, dead, w0) asked0.

Lemma port_zero_orphans_lease_witness :
  rs_granted answer0.1.1 = Some (mkGrantedLease (host 3) 1) ∧
  ∃ g', handle_agent_control io0 10 o0 ("net", "p")%string port_zero peer_addr st2 =
    Finished (tt, mkSt (st_rt st2) (st_bt st2) g').
Proof.
  assert (rs_granted answer0.1.1 = Some (mkGrantedLease (host 3) 1)) as Hg by (vm_compute; reflexivity).
  assert (asked0 = Some (answer0.1.1, answer0.1.2, answer0.2)) as He.
  { assert (is_some asked0 = true) as Hs by (vm_compute; reflexivity).
    unfold answer0. destruct asked0 as [[[]]|]; [reflexivity|discriminate Hs]. }
  unfold asked0 in He. split; [exact Hg|]. eexists.
  exact (port_zero_orphans_lease io0 10 o0 ("net", "p")%string port_zero peer_addr st2 session2 network2
    answer0.1.1 answer0.1.2 answer0.2 (mkGrantedLease (host 3) 1) session2_eq network2_eq eq_refl He Hg).
Defined.

Definition recreated : Db.WireGuardRuntimePeer :=
  Db.mkRuntimePeer "net" "p" (replicate 32 8) (host 10) [].

Definition stranded : Runtime :=
  SessionFacts.removed ("net", "p")%string
    (mkActivePeer (replicate 32 8) (host 10) 12 None (ap_tunnel no_peer) 1 no_stats None ∅ [])
    (SessionFacts.activated recreated 12 (ap_tunnel no_peer) 1 (st_rt st2)).

Lemma conflicting_record_strands_key_witness :
  handle_datagram io0 10 o0 handshake peer_addr (mkSt stranded tt g0) = Finished (tt, mkSt stranded tt g0).
Proof.
  apply (conflicting_record_strands_key (st_rt st2) ("net", "p")%string session2 recreated 12
    (ap_tunnel no_peer) 1 tt g0 io0 10 o0 handshake peer_addr peer_public_key tt inv_st2
    session2_eq eq_refl); vm_compute; [discriminate|reflexivity..].
Defined.
End SessionsWitness.
