(* ===== verification/Config.v ===== *)
(** The configuration file and its validation: [utils/config.rs].

    [toml] and the file system are outside the repository: the class [TomlLib] and
    a map from paths to contents.  What the host answers (the local address of a
    connected UDP socket, the environment) is an argument.  A path is a string. *)

From S2P Require Import Prelude Libs Std Db Storage Tunnel Text.
From stdpp Require Import base gmap strings list.
From Stdlib Require Import ZArith Lia Ascii.

Local Open Scope Z_scope.

Section ConfigFile.
Context {NL : Ipv4NetLib}.

Record ConfigFile := mkConfigFile {
  tcp_bind : option SocketAddr;
  quic_bind : option SocketAddr;
  ws_bind : option SocketAddr;
  cert : option string;
  key : option string;
  network : Ipv4Net;
  custom_nets : gmap string Ipv4Net;
  white_list : gset string;
  lease_duration : Z;
  web_bind : option SocketAddr;
  username : option string;
  password : option string;
  persistence : bool;
  wireguard_master_key_file : option string;
  wireguard_bind : option SocketAddr;
  wireguard_public_endpoint : option string;
  wireguard_max_active_peers : Z;
  wireguard_dns : list IpAddr;
  server_quic_bind : option SocketAddr;
  peer_servers : list string;
  server_token : option string;
  server_id : option string;
  lease_authority : option string
}.

Inductive ConfigError :=
| WebNotLoopback | UsernameMissing | PasswordMissing | PasswordBlank | PasswordWeak
| EndpointEmpty | EndpointWhitespace | EndpointSyntax | EndpointTooLong | EndpointIpv6Form
| EndpointIpv6 | EndpointAddress | EndpointForm | EndpointPort | EndpointPortZero
| HostTooLong | HostInvalid | BindPortZero
| ClusterHalfConfigured | ServerIdLength | ServerIdCharacters | NeedsPersistence
| NeedsQuicBind | NeedsToken | TooManyDns
| FileErr | TomlErr.

Definition default_wireguard_max_active_peers : Z := 4096.

(** [Default]; [Ipv4Net::new_assert] panics on a bad prefix, [None] here. *)
Definition default_config : option ConfigFile :=
  net ← net_new (ipv4 10 26 0 0) 24;
  let bind := Some (SockV4 (ipv4 0 0 0 0) 29872) in
  Some (mkConfigFile bind bind bind None None net ∅ ∅ (24 * 60 * 60)
    (Some (SockV4 (ipv4 127 0 0 1) 29871)) (Some "admin"%string) None true None None None
    default_wireguard_max_active_peers [] None [] None None None).

Definition with_password (p : option string) (c : ConfigFile) : ConfigFile :=
  mkConfigFile (tcp_bind c) (quic_bind c) (ws_bind c) (cert c) (key c) (network c) (custom_nets c)
    (white_list c) (lease_duration c) (web_bind c) (username c) p (persistence c)
    (wireguard_master_key_file c) (wireguard_bind c) (wireguard_public_endpoint c)
    (wireguard_max_active_peers c) (wireguard_dns c) (server_quic_bind c) (peer_servers c)
    (server_token c) (server_id c) (lease_authority c).

(** [sample i] is the [i]-th answer of the [Alphanumeric] sampler. *)
Definition generate_admin_password (sample : nat → ascii) : string :=
  String.string_of_list_ascii (sample <$> seq 0 24).

(** ** The web interface *)

Definition is_loopback_ip (a : IpAddr) : bool :=
  match a with IpV4 ip => octet 3 ip =? 127 | IpV6 ip => ip =? 1 end.

Definition web_management_config (c : ConfigFile)
    : result ConfigError (option (SocketAddr * string * string)) :=
  match web_bind c with
  | None => Ok None
  | Some web_bind =>
      _ ← ensure (is_loopback_ip (sock_ip web_bind)) WebNotLoopback;
      username ← match trim <$> username c with
                 | Some value => if bool_decide (value = "")%string then Err UsernameMissing else Ok value
                 | None => Err UsernameMissing
                 end;
      password ← match password c with Some p => Ok p | None => Err PasswordMissing end;
      _ ← ensure (negb (bool_decide (trim password = "")%string)) PasswordBlank;
      _ ← ensure (negb (eq_ignore_ascii_case password "admin")
                  && negb (bool_decide (password = username))) PasswordWeak;
      Ok (Some (web_bind, username, password))
  end.

(** ** The public endpoint *)

Definition host_char (c : ascii) : bool :=
  is_ascii_alphanumeric c || bool_decide (c = "-"%char).

Definition label_ok (label : string) : result ConfigError unit :=
  let b := String.list_ascii_of_string label in
  _ ← ensure (negb (bool_decide (label = "")%string) && (String.length label <=? 63)%nat) HostInvalid;
  ensure (match head b with Some c => is_ascii_alphanumeric c | None => false end
          && match last b with Some c => is_ascii_alphanumeric c | None => false end
          && all_bytes host_char label) HostInvalid.

Fixpoint labels_ok (labels : list string) : result ConfigError unit :=
  match labels with
  | [] => Ok tt
  | label :: labels => _ ← label_ok label; labels_ok labels
  end.

Definition validate_endpoint_hostname (host : string) : result ConfigError unit :=
  _ ← ensure (String.length host <=? 253)%nat HostTooLong;
  labels_ok (Str.split "." host).

Definition ipv6_is_multicast (ip : Z) : bool := Z.shiftr ip 120 =? 255.

(** The text of the port, after the checks of the host. *)
Definition endpoint_port_text (value : string) : result ConfigError string :=
  match Str.strip_prefix "[" value with
  | Some bracketed =>
      '(host, suffix) ← match Str.split_once "]" bracketed with
                        | Some x => Ok x | None => Err EndpointIpv6Form end;
      address ← match ipv6_parse host with Some a => Ok a | None => Err EndpointIpv6 end;
      _ ← ensure (negb (address =? 0) && negb (ipv6_is_multicast address)) EndpointAddress;
      match Str.strip_prefix ":" suffix with
      | Some port => if contains_char ":" port then Err EndpointForm else Ok port
      | None => Err EndpointForm
      end
  | None =>
      '(host, port) ← match rsplit_once ":" value with Some x => Ok x | None => Err EndpointForm end;
      _ ← ensure (negb (bool_decide (host = "")%string) && negb (contains_char ":" host)) EndpointIpv6Form;
      _ ← match ipv4_parse host with
          | Some address => ensure (negb (is_unspecified address) && negb (is_multicast address))
                              EndpointAddress
          | None => validate_endpoint_hostname host
          end;
      Ok port
  end.

Definition validate_wireguard_public_endpoint (raw : string) : result ConfigError string :=
  let value := trim raw in
  _ ← ensure (negb (bool_decide (value = "")%string)) EndpointEmpty;
  _ ← ensure (bool_decide (value = raw) && negb (existsb is_whitespace (chars value))) EndpointWhitespace;
  _ ← ensure (negb (contains "://" value) && negb (contains_char "/" value)
              && negb (contains_char "?" value) && negb (contains_char "#" value)
              && negb (contains_char "@" value)) EndpointSyntax;
  _ ← ensure (String.length value <=? 259)%nat EndpointTooLong;
  port_text ← endpoint_port_text value;
  port ← match u16_parse port_text with Some p => Ok p | None => Err EndpointPort end;
  _ ← ensure (negb (port =? 0)) EndpointPortZero;
  Ok value.

Definition validated_wireguard_public_endpoint (c : ConfigFile) : result ConfigError (option string) :=
  match wireguard_public_endpoint c with
  | None => Ok None
  | Some raw => v ← validate_wireguard_public_endpoint raw; Ok (Some v)
  end.

Definition is_ipv4_benchmark_address (ip : Ipv4Addr) : bool :=
  (octet 3 ip =? 198) && ((octet 2 ip =? 18) || (octet 2 ip =? 19)).

(** What the host answers: the local address of the connected socket, if every
    call succeeded, and the environment. *)
Record Host := mkHost { routed : option SocketAddr; env_var : string → option string }.

Definition env_host (h : Host) (variable : string) : option string :=
  host ← env_var h variable;
  let host := trim host in
  if negb (bool_decide (host = "")%string) && is_ok (validate_endpoint_hostname host)
  then Some host else None.

Definition discover_wireguard_endpoint_host (h : Host) : string :=
  let routed_address :=
    match sock_ip <$> routed h with
    | Some (IpV4 ip) =>
        if negb (is_unspecified ip) && negb (octet 3 ip =? 127)
           && negb ((octet 3 ip =? 169) && (octet 2 ip =? 254))
           && negb (is_ipv4_benchmark_address ip)
        then Some (ipv4_to_string ip) else None
    | _ => None
    end in
  match routed_address with
  | Some address => address
  | None =>
      match find_map (env_host h) ["COMPUTERNAME"; "HOSTNAME"]%string with
      | Some host => host
      | None => ipv4_to_string (ipv4 127 0 0 1)
      end
  end.

Definition sock_port (a : SocketAddr) : Z := match a with SockV4 _ p | SockV6 _ p => p end.

Definition endpoint_host (h : Host) (bind : SocketAddr) : string :=
  match sock_ip bind with
  | IpV4 ip => if is_unspecified ip then discover_wireguard_endpoint_host h else ipv4_to_string ip
  | IpV6 ip => if ip =? 0 then discover_wireguard_endpoint_host h
               else ("[" +:+ ipv6_to_string ip +:+ "]")%string
  end.

Definition effective_wireguard_public_endpoint (h : Host) (c : ConfigFile)
    : result ConfigError (option string) :=
  if is_some (wireguard_public_endpoint c) then validated_wireguard_public_endpoint c
  else match wireguard_bind c with
  | None => Ok None
  | Some bind =>
      _ ← ensure (negb (sock_port bind =? 0)) BindPortZero;
      v ← validate_wireguard_public_endpoint
            (endpoint_host h bind +:+ ":" +:+ u16_to_string (sock_port bind))%string;
      Ok (Some v)
  end.

(** ** The cluster *)

Definition validate_server_id (value : string) : result ConfigError unit :=
  _ ← ensure (negb (bool_decide (value = "")%string) && (String.length value <=? 64)%nat) ServerIdLength;
  ensure (all_bytes (λ c, is_ascii_alphanumeric c || bool_decide (c = "-"%char)
                          || bool_decide (c = "_"%char) || bool_decide (c = "."%char)) value)
    ServerIdCharacters.

Definition validate_cluster_config (c : ConfigFile) : result ConfigError unit :=
  match trim <$> server_id c, trim <$> lease_authority c with
  | None, None => Ok tt
  | Some server_id, Some authority =>
      _ ← validate_server_id server_id;
      _ ← validate_server_id authority;
      _ ← ensure (persistence c) NeedsPersistence;
      _ ← ensure (is_some (server_quic_bind c)) NeedsQuicBind;
      ensure (match server_token c with
              | Some token => negb (bool_decide (trim token = "")%string)
              | None => false
              end) NeedsToken
  | _, _ => Err ClusterHalfConfigured
  end.

(** ** DNS servers *)

Definition push_new (result : list IpAddr) (a : IpAddr) : list IpAddr :=
  if bool_decide (a ∈ result) then result else result ++ [a].

Definition validated_wireguard_dns (c : ConfigFile) : result ConfigError (list IpAddr) :=
  _ ← ensure (length (wireguard_dns c) <=? 4)%nat TooManyDns;
  Ok (fold_left push_new (wireguard_dns c) []).

(** ** The file *)

Class TomlLib := {
  toml_to_string : ConfigFile → option string;
  toml_from_str : string → option ConfigFile
}.

(** A configuration whose numbers fit TOML's integers is written, and read back as
    it was. *)
Class TomlLaws {T : TomlLib} : Prop := {
  toml_serializes c : 0 ≤ lease_duration c ≤ i64_max → 0 ≤ wireguard_max_active_peers c ≤ i64_max →
    is_Some (toml_to_string c);
  toml_roundtrip c s : toml_to_string c = Some s → toml_from_str s = Some c
}.

(** How far writing a file gets. *)
Inductive Write := CreateFails | WriteFails (written : string) | WriteOk.

Definition save_to {T : TomlLib} (c : ConfigFile) (path : string) (w : Write)
    (fs : gmap string string) : result ConfigError unit * gmap string string :=
  match toml_to_string c with
  | None => (Err TomlErr, fs)
  | Some s =>
      match w with
      | CreateFails => (Err FileErr, fs)
      | WriteFails written => (Err FileErr, <[path := written]> fs)
      | WriteOk => (Ok tt, <[path := s]> fs)
      end
  end.

Definition read_config {T : TomlLib} (path : string) (fs : gmap string string)
    : result ConfigError ConfigFile :=
  match fs !! path with
  | None => Err FileErr
  | Some content => match toml_from_str content with Some c => Ok c | None => Err TomlErr end
  end.

(** [load_from]; [None] is the panic of [Default]. *)
Definition load_from {T : TomlLib} (path : option string) (sample : nat → ascii) (w : Write)
    (fs : gmap string string) : option (result ConfigError ConfigFile * gmap string string) :=
  match path with
  | Some path => Some (read_config path fs, fs)
  | None =>
      let path := "config.toml"%string in
      if is_some (fs !! path) then Some (read_config path fs, fs)
      else
        d ← default_config;
        let file := with_password (Some (generate_admin_password sample)) d in
        Some match save_to file path w fs with
             | (Ok _, fs) => (Ok file, fs)
             | (Err e, fs) => (Err e, fs)
             end
  end.
End ConfigFile.

(** ** The language of endpoints *)

(** A label of a host name: up to 63 letters, digits and hyphens, none of the
    hyphens at an end. *)
Definition host_label (l : string) : Prop :=
  (1 ≤ String.length l ≤ 63)%nat ∧ all_bytes host_char l = true ∧
  (∃ c r, l = String c r ∧ is_ascii_alphanumeric c = true) ∧
  (∃ r c, l = (r +:+ String c "")%string ∧ is_ascii_alphanumeric c = true).

Definition host_name (h : string) : Prop :=
  (String.length h ≤ 253)%nat ∧
  ∃ labels, labels ≠ [] ∧ Forall host_label labels ∧ h = String.concat "." labels.

(** [host:port] with a usable address or a host name, or [[ipv6]:port]. *)
Definition wireguard_endpoint (e : string) : Prop :=
  (String.length e ≤ 259)%nat ∧ ∃ port p, u16_parse port = Some p ∧ p ≠ 0 ∧
  ((∃ host a, e = ("[" +:+ host +:+ "]:" +:+ port)%string ∧ ipv6_parse host = Some a ∧ a ≠ 0 ∧
      ipv6_is_multicast a = false) ∨
   (∃ host, e = (host +:+ ":" +:+ port)%string ∧
      match ipv4_parse host with
      | Some a => a ≠ 0 ∧ is_multicast a = false
      | None => host_name host
      end)).

(** Credentials the web interface may start with. *)
Definition web_safe (b : SocketAddr) (u p : string) : Prop :=
  is_loopback_ip (sock_ip b) = true ∧ u ≠ ""%string ∧ trim p ≠ ""%string ∧
  eq_ignore_ascii_case p "admin" = false ∧ p ≠ u.

(** The characters of endpoints. *)
Definition endpoint_char (c : ascii) : bool :=
  is_ascii_alphanumeric c || bool_decide (c ∈ ["-"; "."; ":"; "["; "]"; "+"]%char).

Module ConfigFacts.
Import StrFacts.
Local Open Scope string_scope.

Lemma ensure_true {E} b (e : E) : ensure b e = Ok tt ↔ b = true.
Proof. by destruct b. Qed.

Lemma list_ascii_app a b :
  String.list_ascii_of_string (a +:+ b) = (String.list_ascii_of_string a ++ String.list_ascii_of_string b)%list.
Proof. induction a as [|x a IH]; [done|]. rewrite append_string. simpl. by rewrite IH. Qed.

Lemma last_text l c :
  last (String.list_ascii_of_string l) = Some c ↔ ∃ r, l = r +:+ String c "".
Proof.
  split.
  - intros H. apply last_Some in H as (l' & H).
    exists (String.string_of_list_ascii l').
    rewrite <- (String.string_of_list_ascii_of_string l), H.
    clear. induction l' as [|x l' IH]; [done|]. simpl. rewrite append_string. by rewrite IH.
  - intros (r & ->). rewrite list_ascii_app. apply last_snoc.
Qed.

Lemma label_ok_spec l : label_ok l = Ok tt ↔ host_label l.
Proof.
  unfold label_ok, host_label.
  assert (∀ c r, l = String c r → head (String.list_ascii_of_string l) = Some c) as Hh
    by (by intros c r ->).
  split.
  - destruct (negb (bool_decide (l = "")) && (String.length l <=? 63)%nat) eqn:E1; [|done].
    apply andb_prop in E1 as [E1 E2%Nat.leb_le]. apply negb_true_iff, bool_decide_eq_false in E1.
    cbn [mbind result_bind ensure]. rewrite ensure_true. intros [[H1 H2]%andb_prop H3]%andb_prop.
    destruct l as [|c r]; [done|]. simpl in H1. simpl in E2.
    split_and!; [simpl; lia|simpl; lia|done|by eauto|].
    destruct (last (String.list_ascii_of_string (String c r))) as [d|] eqn:Ed; [|done].
    apply last_text in Ed as (r' & E). by eauto.
  - intros ([H1 H2] & H3 & (c & r & Hl & Hc) & (r' & c' & Hr & Hc')).
    rewrite bool_decide_eq_false_2 by (by intros ->). rewrite (proj2 (Nat.leb_le _ _) H2).
    cbn [negb andb ensure mbind result_bind]. rewrite (Hh _ _ Hl), Hc.
    rewrite (proj2 (last_text l c')) by eauto. by rewrite Hc', H3.
Qed.

Lemma labels_ok_spec ls : labels_ok ls = Ok tt ↔ Forall host_label ls.
Proof.
  induction ls as [|l ls IH]; [done|]. simpl. rewrite Forall_cons, <- IH, <- label_ok_spec.
  destruct (label_ok l) as [[]|]; cbn [mbind result_bind]; [tauto|]. split; [done|by intros [? _]].
Qed.

Lemma concat_split c s : String.concat (String c "") (Str.split c s) = s.
Proof.
  induction s as [|a s IH]; [done|]. simpl.
  assert (Str.split c s ≠ []) as Hn by (destruct s; simpl; repeat case_match; done).
  case_bool_decide as Ha.
  - subst a. rewrite <- IH at 2. by destruct (Str.split c s) as [|w ws].
  - rewrite <- IH at 2. by destruct (Str.split c s) as [|w [|w' ws]].
Qed.

Lemma split_concat c ls :
  ls ≠ [] → Forall (λ l, contains_char c l = false) ls →
  Str.split c (String.concat (String c "") ls) = ls.
Proof.
  assert (∀ l, contains_char c l = false → Str.split c l = [l] ∧
            ∀ r, Str.split c (l +:+ String c r) = l :: Str.split c r) as Hs.
  { induction l as [|a l IH]; intros H.
    - split; [done|]. intros r. simpl. by rewrite bool_decide_eq_true_2.
    - rewrite contains_char_cons in H. apply orb_false_elim in H as [Ha Hl].
      destruct (IH Hl) as [H1 H2]. split.
      + simpl. by rewrite Ha, H1.
      + intros r. rewrite append_string. simpl. by rewrite Ha, H2. }
  induction ls as [|l [|l' ls] IH]; [done|..]; intros _ [Hl Hls]%Forall_cons.
  - by apply Hs.
  - change (Str.split c (l +:+ String c (String.concat (String c "") (l' :: ls))) = l :: l' :: ls).
    rewrite (proj2 (Hs l Hl)). f_equal. by apply IH.
Qed.

Lemma label_no_dot l : host_label l → contains_char "." l = false.
Proof. intros (_ & H & _). by eapply all_bytes_not; [|exact H]. Qed.

Lemma hostname_spec h : validate_endpoint_hostname h = Ok tt ↔ host_name h.
Proof.
  unfold validate_endpoint_hostname, host_name. split.
  - destruct (String.length h <=? 253)%nat eqn:E; [|done]. apply Nat.leb_le in E.
    cbn [mbind result_bind ensure]. rewrite labels_ok_spec. intros H. split; [done|].
    exists (Str.split "." h). split_and!; [|done|by rewrite concat_split].
    destruct h; simpl; repeat case_match; done.
  - intros (H & ls & Hn & Hf & ->). rewrite (proj2 (Nat.leb_le _ _) H).
    cbn [mbind result_bind ensure]. rewrite labels_ok_spec, split_concat; [done|done|].
    eapply Forall_impl; [exact Hf|]. apply label_no_dot.
Qed.

(** *** Characters *)

Definition name_char (c : ascii) : bool := host_char c || bool_decide (c = "."%char).

Lemma host_name_chars h : host_name h → all_bytes name_char h = true ∧ h ≠ "".
Proof.
  intros (_ & ls & Hn & Hf & ->). assert (Forall (λ l, all_bytes name_char l = true ∧ l ≠ "") ls) as Hl.
  { eapply Forall_impl; [exact Hf|]. intros l ([Hlen _] & Hc & _). split; [|by intros ->; simpl in Hlen; lia].
    eapply all_bytes_impl; [|exact Hc]. intros c Hh. unfold name_char. by rewrite Hh. }
  clear Hf. induction ls as [|l [|l' ls] IH]; [done|..]; apply Forall_cons in Hl as [[Hl Hne] Hls].
  - done.
  - destruct IH as [IH _]; [done|done|].
    change (String.concat "." (l :: l' :: ls)) with (l +:+ "." +:+ String.concat "." (l' :: ls)). split.
    + by rewrite !all_bytes_app, Hl, IH.
    + by destruct l.
Qed.

(** Classes of characters, compared on all 256 bytes. *)
Lemma class_check (P Q : ascii → bool) :
  forallb (λ n, implb (P (ascii_of_nat n)) (Q (ascii_of_nat n))) (seq 0 256) = true →
  ∀ c, P c = true → Q c = true.
Proof.
  intros H c Hc. rewrite forallb_forall in H. specialize (H (nat_of_ascii c)).
  rewrite ascii_nat_embedding, Hc in H. apply H, in_seq. pose proof (nat_ascii_bounded c). lia.
Qed.

Lemma endpoint_chars e : wireguard_endpoint e → all_bytes endpoint_char e = true.
Proof.
  intros (_ & port & p & Hp & _ & H). apply u16_parse_chars in Hp as [Hp _].
  apply (all_bytes_impl _ endpoint_char) in Hp; [|apply class_check; by vm_compute].
  destruct H as [(host & a & -> & Ha%ipv6_parse_chars & _)|(host & -> & H)].
  - apply (all_bytes_impl _ endpoint_char) in Ha; [|apply class_check; by vm_compute].
    rewrite !all_bytes_app, Ha, Hp. done.
  - assert (all_bytes endpoint_char host = true) as Hh.
    { destruct (ipv4_parse host) as [a|] eqn:E4.
      - apply ipv4_parse_chars in E4. eapply all_bytes_impl; [|exact E4]. apply class_check; by vm_compute.
      - apply host_name_chars in H as [H _]. eapply all_bytes_impl; [|exact H].
        apply class_check; by vm_compute. }
    rewrite !all_bytes_app, Hh, Hp. done.
Qed.

(** *** The two forms *)

Lemma bracketed_form value port :
  (∃ host a, value = "[" +:+ host +:+ "]:" +:+ port ∧ ipv6_parse host = Some a ∧ a ≠ 0%Z ∧
     ipv6_is_multicast a = false) → contains_char ":" port = false →
  endpoint_port_text value = Ok port.
Proof.
  intros (host & a & -> & Ha & H0 & Hm) Hp. unfold endpoint_port_text.
  rewrite (proj2 (strip_prefix_spec "[" _ (host +:+ "]:" +:+ port))) by done.
  rewrite (proj2 (split_once_spec "]" _ host (":" +:+ port))).
  - cbn [mbind result_bind]. rewrite Ha. cbn [mbind result_bind].
    rewrite (proj2 (Z.eqb_neq _ _) H0), Hm. cbn [negb andb ensure mbind result_bind].
    rewrite (proj2 (strip_prefix_spec ":" _ port)) by done. by rewrite Hp.
  - split; [done|]. apply ipv6_parse_chars in Ha. by eapply all_bytes_not; [|exact Ha].
Qed.

Lemma plain_form value port host :
  value = host +:+ ":" +:+ port →
  match ipv4_parse host with Some a => a ≠ 0%Z ∧ is_multicast a = false | None => host_name host end →
  contains_char ":" port = false → endpoint_port_text value = Ok port.
Proof.
  intros -> H Hp. unfold endpoint_port_text.
  assert (all_bytes name_char host = true ∧ host ≠ "") as [Hc Hne].
  { destruct (ipv4_parse host) as [a|] eqn:E; [|by apply host_name_chars]. split; [|by intros ->].
    apply ipv4_parse_chars in E. eapply all_bytes_impl; [|exact E]. apply class_check; by vm_compute. }
  destruct (Str.strip_prefix "[" (host +:+ ":" +:+ port)) as [r|] eqn:Es.
  { apply strip_prefix_spec in Es. destruct host as [|x host]; [done|]. rewrite !append_string in Es.
    injection Es as -> _. rewrite all_bytes_cons in Hc. by apply andb_prop in Hc as [? _]. }
  rewrite (proj2 (rsplit_once_spec ":" _ host port)) by done. cbn [mbind result_bind].
  rewrite bool_decide_eq_false_2 by done. rewrite (all_bytes_not _ ":" _ eq_refl Hc).
  cbn [negb andb ensure mbind result_bind].
  destruct (ipv4_parse host) as [a|].
  - destruct H as [H0 Hm]. unfold is_unspecified. by rewrite (proj2 (Z.eqb_neq _ _) H0), Hm.
  - apply hostname_spec in H. by rewrite H.
Qed.

Lemma port_text_forms value port : endpoint_port_text value = Ok port →
  (∃ host a, value = "[" +:+ host +:+ "]:" +:+ port ∧ ipv6_parse host = Some a ∧ a ≠ 0%Z ∧
     ipv6_is_multicast a = false) ∨
  (∃ host, value = host +:+ ":" +:+ port ∧
     match ipv4_parse host with Some a => a ≠ 0%Z ∧ is_multicast a = false | None => host_name host end).
Proof.
  unfold endpoint_port_text. destruct (Str.strip_prefix "[" value) as [b|] eqn:E1.
  - apply strip_prefix_spec in E1 as ->. destruct (Str.split_once "]" b) as [[host suffix]|] eqn:E2; [|done].
    apply split_once_spec in E2 as [-> _]. cbn [mbind result_bind].
    destruct (ipv6_parse host) as [a|] eqn:E3; [|done]. cbn [mbind result_bind].
    destruct (negb (a =? 0)%Z && negb (ipv6_is_multicast a)) eqn:E4; [|done].
    apply andb_prop in E4 as [E4 E5]. apply negb_true_iff in E4, E5. apply Z.eqb_neq in E4.
    cbn [mbind result_bind ensure].
    destruct (Str.strip_prefix ":" suffix) as [q|] eqn:E6; [|done]. apply strip_prefix_spec in E6 as ->.
    destruct (contains_char ":" q); [done|]. intros [= ->]. left. by exists host, a.
  - destruct (rsplit_once ":" value) as [[host q]|] eqn:E2; [|done].
    apply rsplit_once_spec in E2 as [-> _]. cbn [mbind result_bind].
    destruct (negb (bool_decide (host = "")) && _); [|done]. cbn [mbind result_bind ensure].
    destruct (ipv4_parse host) as [a|] eqn:E4.
    + destruct (negb (is_unspecified a) && negb (is_multicast a)) eqn:E5; [|done].
      apply andb_prop in E5 as [E5 E6]. apply negb_true_iff in E5, E6. apply Z.eqb_neq in E5.
      cbn [mbind result_bind ensure]. intros [= ->]. right. exists host. by rewrite E4.
    + destruct (validate_endpoint_hostname host) as [[]|] eqn:E5; [|done]. apply hostname_spec in E5.
      cbn [mbind result_bind]. intros [= ->]. right. exists host. by rewrite E4.
Qed.

Lemma port_text_complete e port p :
  u16_parse port = Some p →
  (∃ host a, e = "[" +:+ host +:+ "]:" +:+ port ∧ ipv6_parse host = Some a ∧ a ≠ 0%Z ∧
     ipv6_is_multicast a = false) ∨
  (∃ host, e = host +:+ ":" +:+ port ∧
     match ipv4_parse host with Some a => a ≠ 0%Z ∧ is_multicast a = false | None => host_name host end) →
  endpoint_port_text e = Ok port.
Proof.
  intros [Hp _]%u16_parse_chars. apply (all_bytes_not _ ":"%char) in Hp; [|done].
  intros [H|(host & E & H)]; [by apply bracketed_form|by eapply plain_form].
Qed.

Lemma validate_endpoint_spec raw v :
  validate_wireguard_public_endpoint raw = Ok v ↔ v = raw ∧ wireguard_endpoint raw.
Proof.
  unfold validate_wireguard_public_endpoint. split.
  - destruct (negb (bool_decide (trim raw = ""))); [|done]. cbn [mbind result_bind ensure].
    destruct (bool_decide (trim raw = raw) && _) eqn:E1; [|done]. cbn [mbind result_bind ensure].
    apply andb_prop in E1 as [E1%bool_decide_eq_true _]. rewrite E1.
    destruct (negb (contains "://" raw) && _ && _ && _ && _); [|done]. cbn [mbind result_bind ensure].
    destruct (String.length raw <=? 259)%nat eqn:E2; [|done]. apply Nat.leb_le in E2.
    cbn [mbind result_bind ensure].
    destruct (endpoint_port_text raw) as [port|] eqn:E3; [|done]. cbn [mbind result_bind].
    destruct (u16_parse port) as [p|] eqn:E4; [|done]. cbn [mbind result_bind].
    destruct (negb (p =? 0)%Z) eqn:E5; [|done]. apply negb_true_iff, Z.eqb_neq in E5.
    intros [= ->]. split; [done|]. split; [done|]. exists port, p. split_and!; [done|done|].
    by apply port_text_forms.
  - intros [-> H]. pose proof (endpoint_chars _ H) as Hc. destruct H as (Hl & port & p & Hp & H0 & H).
    assert (existsb is_whitespace (chars raw) = false) as Hw.
    { apply graphic_no_whitespace. eapply all_bytes_impl; [|exact Hc]. apply class_check; by vm_compute. }
    assert (raw ≠ "") as Hne.
    { destruct H as [(host & a & -> & _)|(host & -> & _)]; [done|]. by destruct host. }
    rewrite (trim_no_whitespace raw Hw), Hw, (bool_decide_eq_false_2 (raw = "")) by done.
    rewrite (bool_decide_eq_true_2 (raw = raw)) by done.
    assert (∀ c, endpoint_char c = false → contains_char c raw = false) as Hno
      by (intros c Hn; by eapply all_bytes_not).
    assert (contains "://" raw = false) as ->.
    { destruct (contains "://" raw) eqn:E; [|done].
      by rewrite <- (contains_chars _ _ "/"%char E eq_refl), Hno. }
    rewrite !Hno by done. rewrite (proj2 (Nat.leb_le _ _) Hl).
    cbn [negb andb ensure mbind result_bind]. rewrite (port_text_complete _ _ _ Hp H).
    cbn [mbind result_bind]. rewrite Hp. cbn [mbind result_bind].
    by rewrite (proj2 (Z.eqb_neq _ _) H0).
Qed.

(** *** The other checks *)

Section Checks.
Context {NL : Ipv4NetLib}.
Implicit Types c : ConfigFile.

Lemma web_config_ok c b u p : web_management_config c = Ok (Some (b, u, p)) →
  web_bind c = Some b ∧ web_safe b u p ∧ password c = Some p ∧ trim <$> username c = Some u.
Proof.
  unfold web_management_config, web_safe. destruct (web_bind c) as [wb|]; [|done].
  destruct (is_loopback_ip (sock_ip wb)) eqn:E1; [|done]. cbn [mbind result_bind ensure].
  destruct (trim <$> username c) as [u'|]; [|done].
  destruct (bool_decide_reflect (u' = "")); [done|]. cbn [mbind result_bind].
  destruct (password c) as [p'|]; [|done]. cbn [mbind result_bind].
  destruct (bool_decide_reflect (trim p' = "")); [done|]. cbn [negb mbind result_bind ensure].
  destruct (eq_ignore_ascii_case p' "admin") eqn:Ea; [done|]. cbn [negb andb].
  destruct (bool_decide_reflect (p' = u')); [done|]. cbn [negb mbind result_bind ensure].
  intros [= <- <- <-]. by split_and!.
Qed.

Lemma push_new_fold l acc : NoDup acc →
  NoDup (fold_left push_new l acc) ∧ (∀ x, x ∈ fold_left push_new l acc ↔ x ∈ acc ∨ x ∈ l) ∧
  (length (fold_left push_new l acc) ≤ length acc + length l)%nat.
Proof.
  revert acc. induction l as [|a l IH]; intros acc Hn; simpl.
  { split_and!; [done| |lia]. intros x. pose proof (not_elem_of_nil x). tauto. }
  unfold push_new at 2 4 6. case_bool_decide as Ha.
  - destruct (IH acc Hn) as (H1 & H2 & H3). split_and!; [done| |lia].
    intros x. rewrite H2, elem_of_cons. naive_solver.
  - destruct (IH (acc ++ [a])%list) as (H1 & H2 & H3).
    { apply NoDup_app. split_and!; [done| |apply NoDup_singleton].
      intros x Hx ->%list_elem_of_singleton. done. }
    split_and!; [done| |rewrite length_app in H3; simpl in H3; lia].
    intros x. rewrite H2, elem_of_app, !elem_of_cons. pose proof (not_elem_of_nil x). tauto.
Qed.

Lemma dns_ok c l : validated_wireguard_dns c = Ok l →
  NoDup l ∧ (length l ≤ 4)%nat ∧ ∀ x, x ∈ l ↔ x ∈ wireguard_dns c.
Proof.
  unfold validated_wireguard_dns. destruct (length (wireguard_dns c) <=? 4)%nat eqn:E; [|done].
  apply Nat.leb_le in E. intros [= <-]. destruct (push_new_fold (wireguard_dns c) []) as (H1 & H2 & H3);
    [constructor|]. simpl in H3. split_and!; [done|lia|].
  intros x. rewrite H2. pose proof (not_elem_of_nil x). tauto.
Qed.

Lemma effective_ok h c e : effective_wireguard_public_endpoint h c = Ok (Some e) → wireguard_endpoint e.
Proof.
  unfold effective_wireguard_public_endpoint, validated_wireguard_public_endpoint.
  destruct (wireguard_public_endpoint c) as [raw|]; cbn [is_some].
  - destruct (validate_wireguard_public_endpoint raw) as [v|] eqn:E; [|done].
    intros [= ->]. by apply validate_endpoint_spec in E as [-> ?].
  - destruct (wireguard_bind c) as [b|]; [|done]. destruct (negb _); [|done].
    cbn [mbind result_bind ensure].
    destruct (validate_wireguard_public_endpoint _) as [v|] eqn:E; [|done].
    intros [= ->]. by apply validate_endpoint_spec in E as [-> ?].
Qed.

Lemma cluster_ok c : validate_cluster_config c = Ok tt →
  (server_id c = None ∧ lease_authority c = None) ∨
  (∃ id authority token, server_id c = Some id ∧ lease_authority c = Some authority ∧
     validate_server_id (trim id) = Ok tt ∧ validate_server_id (trim authority) = Ok tt ∧
     persistence c = true ∧ is_Some (server_quic_bind c) ∧ server_token c = Some token ∧ trim token ≠ "").
Proof.
  unfold validate_cluster_config.
  destruct (server_id c) as [id|], (lease_authority c) as [au|]; cbn [fmap option_fmap option_map]; try done;
    [|by left].
  destruct (validate_server_id (trim id)) as [[]|] eqn:E1; [|done]. cbn [mbind result_bind].
  destruct (validate_server_id (trim au)) as [[]|] eqn:E2; [|done]. cbn [mbind result_bind].
  destruct (persistence c) eqn:E3; [|done]. destruct (server_quic_bind c) as [q|]; [|done].
  cbn [mbind result_bind ensure is_some]. rewrite ensure_true.
  destruct (server_token c) as [t|]; [|done]. intros Ht%negb_true_iff%bool_decide_eq_false.
  right. exists id, au, t. by split_and!.
Qed.
End Checks.
End ConfigFacts.

(** ** Theorems *)

Section Theorems.
Context {NL : Ipv4NetLib} {NLL : Ipv4NetLaws} {T : TomlLib} {TL : TomlLaws}.

(** C36: the endpoint check accepts a language, not just some strings: what it returns
    is the text as it was written, and it accepts exactly the texts of at most 259
    bytes of the form host:port, with a usable IPv4 address or a host name of
    well-formed labels, or [ipv6]:port, with a usable IPv6 address, where the port
    is a number from 1 to 65535. *)
Theorem endpoint_language raw v :
  validate_wireguard_public_endpoint raw = Ok v ↔ v = raw ∧ wireguard_endpoint raw.
Proof. apply ConfigFacts.validate_endpoint_spec. Qed.

(** The first start makes a usable and safe configuration.  Without a file a
    configuration is written, and every later start reads the same one; its web
    interface listens on the loopback address only with a password of 24 letters
    and digits, and it passes every other check, whatever the host answers. *)
Theorem first_start_usable sample fs :
  (∀ i, is_ascii_alphanumeric (sample i) = true) → fs !! "config.toml"%string = None →
  ∃ c fs' p, load_from None sample WriteOk fs = Some (Ok c, fs') ∧
    (∀ sample' w', load_from None sample' w' fs' = Some (Ok c, fs')) ∧
    web_management_config c = Ok (Some (SockV4 (ipv4 127 0 0 1) 29871, "admin"%string, p)) ∧
    String.length p = 24%nat ∧ all_bytes is_ascii_alphanumeric p = true ∧
    validate_cluster_config c = Ok tt ∧ validated_wireguard_dns c = Ok [] ∧
    ∀ h, effective_wireguard_public_endpoint h c = Ok None.
Proof.
  intros Hs Hfs. set (p := generate_admin_password sample).
  assert (all_bytes is_ascii_alphanumeric p = true) as Hp.
  { unfold p, generate_admin_password, all_bytes. rewrite String.list_ascii_of_string_of_list_ascii.
    apply forallb_forall. intros x Hx. apply list_elem_of_In in Hx.
    apply list_elem_of_fmap in Hx as (i & -> & _). apply Hs. }
  assert (String.length p = 24%nat) as Hl by reflexivity.
  assert (trim p = p) as Ht.
  { apply StrFacts.trim_no_whitespace, StrFacts.graphic_no_whitespace.
    eapply StrFacts.all_bytes_impl; [|exact Hp]. apply ConfigFacts.class_check; by vm_compute. }
  destruct (net_new_Some (ipv4 10 26 0 0) 24) as (net & Hnet & _); [unfold is_u; vm_compute; by split|lia|].
  set (d := with_password (Some p) (default (mkConfigFile None None None None None net ∅ ∅ 0 None None None
    false None None None 0 [] None [] None None None) default_config)).
  assert (∃ c, default_config = Some c ∧ d = with_password (Some p) c ∧ web_bind c = Some (SockV4 (ipv4 127 0 0 1) 29871)
    ∧ username c = Some "admin"%string ∧ server_id c = None ∧ lease_authority c = None ∧ wireguard_dns c = [] ∧
    wireguard_public_endpoint c = None ∧ wireguard_bind c = None ∧ lease_duration c = 86400 ∧
    wireguard_max_active_peers c = 4096) as (c & Hc & Hd & H1 & H2 & H3 & H4 & H5 & H6 & H7 & H8 & H9).
  { unfold d, default_config. rewrite Hnet. cbn [mbind option_bind]. eexists. split; [reflexivity|]. by split_and!. }
  destruct (toml_serializes d) as [s Hser].
  { rewrite Hd. cbn. rewrite H8. unfold i64_max. lia. }
  { rewrite Hd. cbn. rewrite H9. unfold i64_max. lia. }
  exists d, (<["config.toml"%string := s]> fs), p.
  assert (load_from None sample WriteOk fs = Some (Ok d, <["config.toml"%string := s]> fs)) as Hload.
  { unfold load_from. rewrite Hfs. cbn [is_some]. rewrite Hc. cbn [mbind option_bind].
    fold p. rewrite <- Hd. unfold save_to. by rewrite Hser. }
  split_and!; try done.
  - intros sample' w'. unfold load_from, read_config. rewrite lookup_insert_eq. cbn [is_some].
    by rewrite (toml_roundtrip _ _ Hser).
  - rewrite Hd. unfold web_management_config, with_password. cbn [web_bind username password].
    rewrite H1, H2. cbn [fmap option_fmap option_map mbind result_bind].
    change (is_loopback_ip (sock_ip (SockV4 (ipv4 127 0 0 1) 29871))) with true.
    change (trim "admin") with "admin"%string. cbn [ensure mbind result_bind].
    rewrite (bool_decide_eq_false_2 ("admin"%string = ""%string)) by done. cbn [mbind result_bind].
    rewrite Ht. rewrite (bool_decide_eq_false_2 (p = ""%string)) by (intros E; by rewrite E in Hl).
    rewrite (bool_decide_eq_false_2 (p = "admin"%string)) by (intros E; by rewrite E in Hl).
    assert (eq_ignore_ascii_case p "admin" = false) as ->; [|done].
    unfold eq_ignore_ascii_case. apply bool_decide_eq_false_2. intros E%(f_equal length).
    rewrite !length_fmap in E. done.
  - rewrite Hd. unfold validate_cluster_config, with_password. cbn [server_id lease_authority]. by rewrite H3, H4.
  - rewrite Hd. unfold validated_wireguard_dns, with_password. cbn [wireguard_dns]. by rewrite H5.
  - intros h. rewrite Hd. unfold effective_wireguard_public_endpoint, with_password.
    cbn [wireguard_public_endpoint wireguard_bind]. by rewrite H6, H7.
Qed.
End Theorems.

(** ** An executable instance of the interface *)

Module ConfigModel.
Import StoreModel.
Section Toml.
Context {NL : Ipv4NetLib} {NT : Ipv4NetText} {NTL : Ipv4NetTextLaws}.

#[export] Instance SocketAddr_countable : Countable SocketAddr.
Proof.
  refine (inj_countable' (λ a, match a with SockV4 i p => inl (i, p) | SockV6 i p => inr (i, p) end)
    (λ s, match s with inl (i, p) => SockV4 i p | inr (i, p) => SockV6 i p end) _).
  by intros [].
Defined.

(** The fields of the file, networks as text. *)
Definition fields (c : ConfigFile) :=
  ((tcp_bind c, quic_bind c, ws_bind c, cert c, key c, net_to_string (network c)),
   (net_to_string <$> custom_nets c, white_list c, lease_duration c, web_bind c, username c, password c),
   (persistence c, wireguard_master_key_file c, wireguard_bind c, wireguard_public_endpoint c,
    wireguard_max_active_peers c, wireguard_dns c),
   (server_quic_bind c, peer_servers c, server_token c, server_id c, lease_authority c)).

Definition of_fields (x : option SocketAddr * option SocketAddr * option SocketAddr * option string *
      option string * string *
    (gmap string string * gset string * Z * option SocketAddr * option string * option string) *
    (bool * option string * option SocketAddr * option string * Z * list IpAddr) *
    (option SocketAddr * list string * option string * option string * option string))
    : option ConfigFile :=
  let '((tb, qb, wb, ce, ke, nt), (cn, wl, ld, web, us, pw), (pe, mk, wgb, wge, wgm, wgd),
        (sq, ps, st, si, la)) := x in
  net ← net_parse nt;
  Some (mkConfigFile tb qb wb ce ke net (omap net_parse cn) wl ld web us pw pe mk wgb wge wgm wgd sq ps
          st si la).

Lemma of_fields_fields c : of_fields (fields c) = Some c.
Proof.
  destruct c as [? ? ? ? ? net nets]. unfold fields, of_fields. cbn [network custom_nets tcp_bind quic_bind].
  rewrite net_parse_to_string. cbn [mbind option_bind]. do 2 f_equal.
  apply map_eq. intros k. rewrite lookup_omap, lookup_fmap. destruct (nets !! k); [|done].
  cbn. apply net_parse_to_string.
Qed.

#[export] Instance packed_toml : TomlLib := {|
  toml_to_string := λ c, Some (pos_text (encode (fields c)));
  toml_from_str := λ s, x ← decode (text_pos s); of_fields x
|}.

#[export] Instance packed_toml_laws : TomlLaws.
Proof.
  split; [by eexists|]. intros c s [= <-]. unfold toml_from_str, packed_toml.
  rewrite text_pos_text, decode_encode. apply of_fields_fields.
Qed.
End Toml.
End ConfigModel.

Module ConfigWitness.
Import Model StoreModel ConfigModel.

Lemma first_start_usable_witness :
  ∃ c fs' p, load_from None (λ _, "a"%char) WriteOk ∅ = Some (Ok c, fs') ∧
    web_management_config c = Ok (Some (SockV4 (ipv4 127 0 0 1) 29871, "admin"%string, p)).
Proof.
  destruct (first_start_usable (λ _, "a"%char) ∅) as (c & fs' & p & H1 & _ & H2 & _).
  - intros i. reflexivity.
  - reflexivity.
  - exists c, fs', p. split; [exact H1|exact H2].
Defined.
End ConfigWitness.
