(* ===== verification/Startup.v ===== *)
(** The start of the process: [main.rs] between the command line and the
    listeners, and its two offline commands.

    The configuration is validated, the database opened and the identity loaded
    before anything listens.  Computations run on a database connection, as in
    [Db]; [Machine] is what the host contributes: the process lock, the contents
    of key files, randomness and the clock. *)

From S2P Require Import Prelude Libs Std Lease NetState Service Sql Db Storage Restore Tunnel Text Peer Vault Config.
From stdpp Require Import base gmap strings list sorting.
From Stdlib Require Import ZArith Lia Ascii.

Local Open Scope Z_scope.

Inductive StartError :=
| ConfErr (e : ConfigError)
| ListenerNeedsPersistence | ListenerNeedsDatabase | ListenerNeedsMasterKey
| IdentityNeedsPersistence | IdentityNeedsDatabase | IdentityErr (e : DbError)
| RotationNeedsPersistence | RotationNeedsMasterKey | RotationNeedsDatabase
| DatabaseErr (e : DbError) | RotationErr (e : DbError).

(** The text of a network: an address in dotted decimal, a slash and a number. *)
Definition net_char (c : ascii) : bool :=
  is_digit c || bool_decide (c = "."%char) || bool_decide (c = "/"%char).
Class Ipv4NetTextChars `{!Ipv4NetLib, !Ipv4NetText} : Prop :=
  net_text_chars n : all_bytes net_char (net_to_string n) = true.

Abbreviation StartM := (DB Database StartError).

Section Startup.
Context {NL : Ipv4NetLib} {NT : Ipv4NetText} {KL : KeyLib}.

Record Machine := mkMachine {
  mc_host : Host;
  mc_lock : bool;                          (** whether the database lock is free *)
  mc_database_exists : bool;
  mc_file : string → option bytes;         (** [std::fs::read] *)
  mc_fresh : bytes;                        (** a random private key *)
  mc_nonces : nat → bytes;
  mc_now : Z;
  mc_meanwhile : DBM unit;
  mc_digest : string → string              (** SHA-256, in hexadecimal *)
}.

(** A call into the database layer, with its error wrapped. *)
Definition from_db {A} (wrap : DbError → StartError) (m : DBM A) : StartM A := λ c,
  match m c with (Ok a, c) => (Ok a, c) | (Err e, c) => (Err (wrap e), c) end.
Definition from_config {A} (r : result ConfigError A) : StartM A :=
  db_lift match r with Ok a => Ok a | Err e => Err (ConfErr e) end.
Definition require (b : bool) (e : StartError) : StartM unit := db_lift (ensure b e).

(** ** The digest of the networks *)

Definition newline : ascii := "010"%char.
Definition line (s : string) : string := (s +:+ String newline "")%string.

(** What is hashed: the default network, then the others sorted by code. *)
Definition digest_lines (default_network : Ipv4Net) (nets : gmap string Ipv4Net) : list string :=
  ("default=" +:+ net_to_string default_network)%string ::
  ((λ '(code, net), code +:+ "=" +:+ net_to_string net)%string
     <$> order_by (λ a b, text_leb a.1 b.1) (map_to_list nets)).

Definition network_config_digest (sha256 : string → string) (default_network : Ipv4Net)
    (nets : gmap string Ipv4Net) : string :=
  sha256 (concat_chars (line <$> digest_lines default_network nets)).

Record PeerConf := mkPeerConf {
  pc_persistence : bool;
  pc_server_quic_bind : option SocketAddr;
  pc_peer_servers : list string;
  pc_server_token : option string;
  pc_server_id : option string;
  pc_lease_authority : option string;
  pc_network_config_digest : string
}.

(** What the listeners are started with. *)
Record Prepared := mkPrepared {
  pr_wireguard_dns : list IpAddr;
  pr_web_management : option (SocketAddr * string * string);
  pr_wireguard_public_endpoint : option string;
  pr_database_ready : bool;
  pr_wireguard_identity : option bytes;
  pr_need_peer_manager : bool;
  pr_peer_conf : PeerConf
}.

Definition open_database (mc : Machine) (conf : ConfigFile) : StartM bool := λ c,
  if persistence conf then
    match Db.init_db_pool (mc_lock mc) c with
    | (Ok _, c) => (Ok true, c)
    | (Err _, c) => (Ok false, c)
    end
  else (Ok false, c).

(** [load_or_create(master_key_file)]. *)
Definition load_identity (mc : Machine) (file : string) : DBM bytes :=
  master_key ← db_lift (load_master_key (mc_file mc file));
  db_pool (Identity.load_or_create master_key (mc_fresh mc) (mc_nonces mc 0%nat) (mc_now mc)
             (mc_meanwhile mc)).

(** [run_app] up to the construction of the control service. *)
Definition prepare (mc : Machine) (conf : ConfigFile) : StartM Prepared :=
  _ ← from_config (validate_cluster_config conf);
  dns ← from_config (validated_wireguard_dns conf);
  web ← from_config (web_management_config conf);
  endpoint ← from_config (effective_wireguard_public_endpoint (mc_host mc) conf);
  database_ready ← open_database mc conf;
  _ ← match wireguard_bind conf with
      | None => mret tt
      | Some _ =>
          _ ← require (persistence conf) ListenerNeedsPersistence;
          _ ← require database_ready ListenerNeedsDatabase;
          require (is_some (wireguard_master_key_file conf)) ListenerNeedsMasterKey
      end;
  identity ← match wireguard_master_key_file conf with
      | None => mret None
      | Some file =>
          _ ← require (persistence conf) IdentityNeedsPersistence;
          _ ← require database_ready IdentityNeedsDatabase;
          id ← from_db IdentityErr (load_identity mc file);
          mret (Some id)
      end;
  mret (mkPrepared dns web endpoint database_ready identity
    (is_some (server_quic_bind conf) || negb (bool_decide (peer_servers conf = [])) || is_some web)
    (mkPeerConf (persistence conf) (server_quic_bind conf) (peer_servers conf) (server_token conf)
       (server_id conf) (lease_authority conf)
       (network_config_digest (mc_digest mc) (network conf) (custom_nets conf)))).

(** ** The peer servers of the configuration *)

(** Failures are logged and skipped. *)
Fixpoint sync_peer_servers_to_db (now : Z) (addrs : list string) : DBM unit :=
  match addrs with
  | [] => mret tt
  | addr :: addrs => λ c,
      sync_peer_servers_to_db now addrs
        (Db.save_peer_server_if_not_exists (Db.mkPeerServerRecord addr Db.PsConfig now) c).2
  end.

(** The manager [init_peer_manager] makes. *)
Definition peer_manager_of (digest : string → string) (conf : PeerConf) : Manager :=
  Peer.new_with_identity (digest (default "default_token"%string (pc_server_token conf)))
    (pc_server_id conf) (pc_lease_authority conf) (pc_network_config_digest conf).

(** ** The offline commands *)

Definition run_master_key_rotation (mc : Machine) (conf : ConfigFile) (new_file : string)
    : StartM MasterKeyRotation :=
  _ ← require (persistence conf) RotationNeedsPersistence;
  file ← db_lift (ok_or (wireguard_master_key_file conf) RotationNeedsMasterKey);
  _ ← require (mc_database_exists mc) RotationNeedsDatabase;
  _ ← from_db DatabaseErr (Db.init_db_pool (mc_lock mc));
  from_db RotationErr (
    current ← db_lift (load_master_key (mc_file mc file));
    new ← db_lift (load_master_key (mc_file mc new_file));
    db_pool (rotate_master_key (mc_nonces mc) current new (mc_now mc))).

Definition run_identity_rotation (mc : Machine) (conf : ConfigFile) : StartM (bytes * bytes) :=
  _ ← require (persistence conf) RotationNeedsPersistence;
  file ← db_lift (ok_or (wireguard_master_key_file conf) RotationNeedsMasterKey);
  _ ← require (mc_database_exists mc) RotationNeedsDatabase;
  _ ← from_db DatabaseErr (Db.init_db_pool (mc_lock mc));
  from_db RotationErr (
    master_key ← db_lift (load_master_key (mc_file mc file));
    db_pool (Identity.rotate_identity master_key (mc_fresh mc) (mc_nonces mc 0%nat) (mc_now mc))).
End Startup.

(** ** Facts *)

Module StartupFacts.
Section Runs.
Context {NL : Ipv4NetLib} {NT : Ipv4NetText} {KL : KeyLib}.

Lemma start_bind_ok {A B} (m : StartM A) (k : A → StartM B) c b c' :
  (m ≫= k) c = (Ok b, c') → ∃ a c1, m c = (Ok a, c1) ∧ k a c1 = (Ok b, c').
Proof. unfold mbind, DB_bind. destruct (m c) as [[a|e] c1]; [by eauto|done]. Qed.

Lemma start_bind_err {A B} (m : StartM A) (k : A → StartM B) c e c' :
  (m ≫= k) c = (Err e, c') → m c = (Err e, c') ∨ ∃ a c1, m c = (Ok a, c1) ∧ k a c1 = (Err e, c').
Proof. unfold mbind, DB_bind. destruct (m c) as [[a|e'] c1]; [by eauto|]. intros [= -> ->]. by left. Qed.

Lemma config_run {A} (r : result ConfigError A) c : from_config r c =
  (match r with Ok a => Ok a | Err e => Err (ConfErr e) end, c).
Proof. reflexivity. Qed.

Lemma require_ok b e c x c' : require b e c = (Ok x, c') → b = true ∧ c' = c.
Proof. destruct b; [by intros [= _ <-]|done]. Qed.

(** Only the checks of the configuration raise [ConfErr]. *)
Definition not_config (e : StartError) : Prop := match e with ConfErr _ => False | _ => True end.
Definition no_config_error {A} (m : StartM A) : Prop := ∀ c e c', m c = (Err e, c') → not_config e.

Lemma no_config_ret {A} (a : A) : no_config_error (mret a).
Proof. done. Qed.
Lemma no_config_bind {A B} (m : StartM A) (k : A → StartM B) :
  no_config_error m → (∀ a, no_config_error (k a)) → no_config_error (m ≫= k).
Proof. intros Hm Hk c e c' [H|(a & c1 & _ & H)]%start_bind_err; [by eapply Hm|by eapply Hk]. Qed.
Lemma no_config_require b e : not_config e → no_config_error (require b e).
Proof. intros He c e' c'. destruct b; [done|]. by intros [= <- _]. Qed.
Lemma no_config_db {A} w (m : DBM A) : (∀ e, not_config (w e)) → no_config_error (from_db w m).
Proof.
  intros Hw c e c'. unfold from_db. destruct (m c) as [[a|e'] c1]; [done|]. intros [= <- _]. apply Hw.
Qed.
Lemma no_config_open mc conf : no_config_error (open_database mc conf).
Proof.
  intros c e c'. unfold open_database. destruct (persistence conf); [|done].
  by destruct (Db.init_db_pool _ c) as [[]].
Qed.
End Runs.

(** *** The text that is hashed *)

Section Digest.
Context {NL : Ipv4NetLib} {NT : Ipv4NetText} {NTL : Ipv4NetTextLaws} {NC : Ipv4NetTextChars}.

Lemma lines_inj ls ls' :
  Forall (λ l, contains_char newline l = false) ls → Forall (λ l, contains_char newline l = false) ls' →
  concat_chars (line <$> ls) = concat_chars (line <$> ls') → ls = ls'.
Proof.
  revert ls'. induction ls as [|l ls IH]; intros [|l' ls'] H H' E; try done.
  - unfold line in E. cbn in E. by destruct l'.
  - unfold line in E. cbn in E. by destruct l.
  - apply Forall_cons in H as [Hl H], H' as [Hl' H'].
    assert (∀ x r, line x +:+ r = x +:+ String newline r)%string as Hline.
    { intros x r. unfold line. by rewrite StrFacts.append_assoc. }
    cbn [fmap list_fmap concat_chars foldr] in E. rewrite !Hline in E.
    assert (Str.split_once newline (l +:+ String newline (concat_chars (line <$> ls)))%string =
            Some (l, concat_chars (line <$> ls))) as E1 by by apply StrFacts.split_once_spec.
    assert (Str.split_once newline (l' +:+ String newline (concat_chars (line <$> ls')))%string =
            Some (l', concat_chars (line <$> ls'))) as E2 by by apply StrFacts.split_once_spec.
    unfold concat_chars in *. rewrite E in E1. rewrite E1 in E2. injection E2 as -> E2. f_equal. by apply IH.
Qed.

Lemma entry_inj a n b m :
  (a +:+ "=" +:+ net_to_string n)%string = (b +:+ "=" +:+ net_to_string m)%string → a = b ∧ n = m.
Proof.
  intros E.
  assert (∀ c k, rsplit_once "=" (c +:+ "=" +:+ net_to_string k)%string = Some (c, net_to_string k)) as Hr.
  { intros c k. apply StrFacts.rsplit_once_spec. split; [done|].
    eapply StrFacts.all_bytes_not; [|apply net_text_chars]. done. }
  pose proof (Hr a n) as H. rewrite E, Hr in H. injection H as -> H. split; [done|].
  apply (f_equal net_parse) in H. rewrite !net_parse_to_string in H. by injection H.
Qed.

Lemma entries_inj (l l' : list (string * Ipv4Net)) :
  (λ x, x.1 +:+ "=" +:+ net_to_string x.2)%string <$> l =
  (λ x, x.1 +:+ "=" +:+ net_to_string x.2)%string <$> l' → l = l'.
Proof.
  revert l'. induction l as [|[a n] l IH]; intros [|[b m] l']; try done.
  rewrite !fmap_cons. intros [= E El]. apply entry_inj in E as [-> ->]. f_equal. by apply IH.
Qed.
End Digest.
End StartupFacts.

(** ** Theorems *)

Section Theorems.
Context {NL : Ipv4NetLib} {NT : Ipv4NetText} {KL : KeyLib} {KLL : KeyLaws}.


Context {NTL : Ipv4NetTextLaws} {NC : Ipv4NetTextChars}.

(** The digest identifies the networks: servers whose digests come from the same
    text have the same default network and the same networks under the same
    codes, as long as no code contains a line break. *)
Theorem digest_text_injective net net' nets nets' :
  (∀ k, k ∈ dom nets → contains_char newline k = false) →
  (∀ k, k ∈ dom nets' → contains_char newline k = false) →
  concat_chars (line <$> digest_lines net nets) = concat_chars (line <$> digest_lines net' nets') →
  net = net' ∧ nets = nets'.
Proof.
  intros H H' E.
  assert (∀ d (m : gmap string Ipv4Net), (∀ k, k ∈ dom m → contains_char newline k = false) →
    Forall (λ l, contains_char newline l = false) (digest_lines d m)) as Hl.
  { intros d m Hm.
    assert (∀ n, contains_char newline (net_to_string n) = false) as Hn.
    { intros n. eapply StrFacts.all_bytes_not; [|apply net_text_chars]. done. }
    constructor; [by rewrite StrFacts.contains_char_app, Hn|].
    apply Forall_fmap, Forall_forall. intros [k n] Hin.
    change (contains_char newline (k +:+ "=" +:+ net_to_string n)%string = false).
    rewrite !StrFacts.contains_char_app, Hn, Hm; [done|].
    rewrite (ReadFacts.order_by_perm _ _) in Hin. apply elem_of_map_to_list in Hin. by eapply elem_of_dom_2. }
  apply StartupFacts.lines_inj in E; [|by apply Hl..]. unfold digest_lines in E. injection E as E1 E2.
  split.
  - change (net_to_string net = net_to_string net') in E1. apply (f_equal net_parse) in E1. rewrite !net_parse_to_string in E1. by injection E1.
  - assert (∀ l : list (string * Ipv4Net), ((λ '(code, net), code +:+ "=" +:+ net_to_string net)%string <$> l) =
      ((λ x : string * Ipv4Net, x.1 +:+ "=" +:+ net_to_string x.2)%string <$> l)) as Hx.
    { intros l. by apply list_fmap_ext; intros ? [] ?. }
    rewrite !Hx in E2. apply StartupFacts.entries_inj in E2.
    rewrite <- (list_to_map_to_list nets), <- (list_to_map_to_list nets').
    apply list_to_map_proper; [apply NoDup_fst_map_to_list|].
    by rewrite <- (ReadFacts.order_by_perm (λ a b, text_leb a.1 b.1) (map_to_list nets)), E2, ReadFacts.order_by_perm.
Qed.

(** White space around the server's id is ignored by the check and kept by the
    cluster: a server that names itself as the authority but for white space
    passes validation and is not the authority, so it is never ready. *)
Theorem padded_server_id_not_authority mc conf id authority c p c' :
  server_id conf = Some id → lease_authority conf = Some authority →
  trim id = trim authority → id ≠ authority →
  prepare mc conf c = (Ok p, c') →
  validate_cluster_config conf = Ok tt ∧
  let m := peer_manager_of (mc_digest mc) (pr_peer_conf p) in
  Peer.is_lease_authority m = false ∧ cluster_ready m = false.
Proof.
  intros Hid Ha _ Hne Hr. unfold prepare in Hr.
  unfold mbind at 1, DB_bind at 1 in Hr. rewrite StartupFacts.config_run in Hr.
  destruct (validate_cluster_config conf) as [[]|] eqn:Ecl; [|done]. split; [done|].
  do 6 (apply StartupFacts.start_bind_ok in Hr as (? & ? & _ & Hr)). injection Hr as <- <-.
  cbn [pr_peer_conf]. unfold peer_manager_of, Peer.new_with_identity. cbn [pc_server_id pc_lease_authority].
  rewrite Hid, Ha. cbn [default].
  apply ConfigFacts.cluster_ok in Ecl as [[H _]|(i & a & t & H1 & H2 & V1 & V2 & _)]; [congruence|].
  assert (i = id) as -> by congruence. assert (a = authority) as -> by congruence.
  assert (∀ s, validate_server_id (trim s) = Ok tt → s ≠ EmptyString) as Hv by (by intros s Hs ->).
  unfold Peer.is_lease_authority. cbn [cluster_ready Peer.server_id Peer.lease_authority].
  rewrite !bool_decide_eq_false_2 by (done || by apply Hv). rewrite andb_false_r. done.
Qed.
End Theorems.

(** ** Witnesses *)

Module StartupModel.
Import Model StoreModel.

Lemma octet_text_chars o : is_u 8 o → all_bytes net_char (octet_to_string o) = true.
Proof. apply (u8_check (λ o, all_bytes net_char (octet_to_string o))). vm_compute. reflexivity. Qed.

#[export] Instance cidr_chars : Ipv4NetTextChars.
Proof.
  intros [a l H]. pose proof (bool_decide_eq_true_1 _ H) as [_ Hl].
  unfold net_to_string, cidr_text. cbn [cidr_addr cidr_len].
  rewrite !StrFacts.all_bytes_app, !octet_text_chars by (apply StdFacts.octet_range || (unfold is_u; lia)).
  done.
Qed.
End StartupModel.

Module StartupWitness.
Import Model StoreModel VaultModel LeaseWitness StorageWitness VaultWitness StartupModel.

Definition machine : Machine :=
  mkMachine (mkHost (Some (SockV4 (ipv4 192 168 1 7) 40000)) (λ _, None)) true true
    (λ f, if bool_decide (f = "master.key"%string) then Some master1 else None) server_key nonces 70
    (mret tt) (λ s, s).

(** A server with a WireGuard listener, a web interface and a cluster, and the same
    one with a space before its id. *)
Definition conf_of (id : string) : ConfigFile :=
  mkConfigFile None None None None None net24 {[ "office"%string := net24 ]} ∅ 86400
    (Some (SockV4 (ipv4 127 0 0 1) 29871)) (Some "admin"%string) (Some "correct horse"%string) true
    (Some "master.key"%string) (Some (SockV4 (ipv4 0 0 0 0) 51820)) None 4096 [IpV4 (ipv4 1 1 1 1)]
    (Some (SockV4 (ipv4 0 0 0 0) 29873)) [] (Some "token"%string) (Some id) (Some "server-a"%string).

Definition no_prepared : Prepared :=
  mkPrepared [] None None false None false (mkPeerConf false None [] None None None "").
Definition prepared_of (id : string) : Prepared :=
  match prepare machine (conf_of id) c0 with (Ok p, _) => p | _ => no_prepared end.
Definition conn_of (id : string) : Conn Database := (prepare machine (conf_of id) c0).2.

Lemma prepared_ok id : is_ok (prepare machine (conf_of id) c0).1 = true →
  prepare machine (conf_of id) c0 = (Ok (prepared_of id), conn_of id).
Proof.
  unfold prepared_of, conn_of. destruct (prepare machine (conf_of id) c0) as [[p|e] c]; [reflexivity|done].
Defined.


Lemma digest_text_injective_witness :
  ∀ nets', (∀ k, k ∈ dom nets' → contains_char newline k = false) →
    concat_chars (line <$> digest_lines net24 (custom_nets (conf_of "server-a"))) =
      concat_chars (line <$> digest_lines net24 nets') →
    custom_nets (conf_of "server-a") = nets'.
Proof.
  intros nets' H E. apply (digest_text_injective net24 net24 (custom_nets (conf_of "server-a")) nets').
  - intros k Hk. assert (k = "office"%string) as ->; [|reflexivity].
    apply elem_of_dom in Hk as [x Hx]. cbn in Hx. apply lookup_singleton_Some in Hx as [<- _]. reflexivity.
  - exact H.
  - exact E.
Defined.

Lemma padded_server_id_witness :
  cluster_ready (peer_manager_of (mc_digest machine) (pr_peer_conf (prepared_of " server-a"))) = false ∧
  cluster_ready (peer_manager_of (mc_digest machine) (pr_peer_conf (prepared_of "server-a"))) = true.
Proof.
  split; [|vm_compute; reflexivity].
  apply (padded_server_id_not_authority machine (conf_of " server-a") " server-a" "server-a" c0
    (prepared_of " server-a") (conn_of " server-a")); [reflexivity|reflexivity|vm_compute; reflexivity|discriminate|].
  apply prepared_ok. vm_compute. reflexivity.
Defined.

(** A code with a line break makes the text ambiguous. *)
Theorem digest_ambiguous :
  let nets := {[ "a"%string := net24; "b"%string := net24 ]} : gmap string Ipv4Net in
  let nets' := {[ ("a=" +:+ net_to_string net24 +:+ String newline "b")%string := net24 ]} : gmap string Ipv4Net in
  nets ≠ nets' ∧
  concat_chars (line <$> digest_lines net24 nets) = concat_chars (line <$> digest_lines net24 nets').
Proof.
  split; [|vm_compute; reflexivity]. intros E%(f_equal size). vm_compute in E. discriminate.
Qed.
End StartupWitness.
