(* ===== verification/Admin.v ===== *)
(** The administration of WireGuard peers: the calls of [ControlService] in
    [server/control_server/service.rs] behind the web interface.

    Every call finds or loads the network, asks the cluster where an address is
    involved, and hands over to the operation of [NetState].  The answers of the
    database and of the WireGuard runtime are arguments ([query]): what the awaited
    call returns, and the network as other tasks leave it meanwhile. *)

From S2P Require Import Prelude Libs Std Db Packet ControlMessage Bridge Lease NetState Service.
From stdpp Require Import base gmap strings list sorting.
From Stdlib Require Import ZArith Lia.

Local Open Scope Z_scope.

Record WireGuardPeerVO := mkPeerVO {
  vo_network_code : string; vo_peer_id : string; vo_public_key : bytes; vo_enabled : bool;
  vo_ip : option Ipv4Addr; vo_created_at : Z; vo_updated_at : Z }.
Record WireGuardPeerIpVO := mkPeerIpVO { vi_peer_id : string; vi_ip : Ipv4Addr }.

Definition wireguard_peer_vo (record : WireGuardPeerRecord) (ip : option Ipv4Addr) : WireGuardPeerVO :=
  mkPeerVO (wp_network_code record) (wp_peer_id record) (wp_public_key record) (wp_enabled record) ip
    (wp_created_at record) (wp_updated_at record).

Inductive AdminError :=
| NoNetwork (code : string)
| Net (e : NetError)
| Cluster (e : ServiceError)
| NoPeer (code peer_id : string).

Section Admin.
Context {NL : Ipv4NetLib} {PL : PnetLib} {U32 : NetU32Lib}.
Context {W : Type} {MV : Mpsc W bytes} {MW : Mpsc W WireGuardBridgePacket}.

(** The computations of this file: they may panic in [Ipv4Net::new_assert] and
    while a network is loaded. *)
Definition admin (A : Type) : Type := Global → outcome (result AdminError A * Global).

#[local] Instance admin_ret : MRet admin := λ A a g, Ret (Ok a, g).
#[local] Instance admin_bind : MBind admin := λ A B k m g,
  match m g with
  | Panic => Panic
  | Ret (Err e, g) => Ret (Err e, g)
  | Ret (Ok a, g) => k a g
  end.
Definition fail {A} (e : AdminError) : admin A := λ g, Ret (Err e, g).

(** A call of the cluster component. *)
Definition from_cluster {A} (f : Global → result ServiceError A * Global) : admin A := λ g,
  let '(r, g) := f g in Ret (match r with Ok x => Ok x | Err e => Err (Cluster e) end, g).

(** What an await of the call brings. *)
Record World := mkWorld {
  wd_load : DbLoad; wd_wall : Z; wd_instant : Z; wd_meanwhile : Global → Global;
  wd_peer : option PeerOps
}.

Section Calls.
Context (wd : World).

(** The first lines of every call: the configuration and the network. *)
Definition network_of (code : string) : admin (NetworkConfig * positive) := λ g,
  match db_nets g !! code with
  | None => Ret (Err (NoNetwork code), g)
  | Some config =>
      match get_or_create_network_state code config (wd_load wd) (wd_wall wd) (wd_instant wd)
              (wd_meanwhile wd) g with
      | Panic => Panic
      | Ret (l, g) => Ret (Ok (config, l), g)
      end
  end.

(** A call on the network behind the [Arc]; it is never missing. *)
Definition on_network {A} (l : positive) (op : NetworkState → result NetError A * NetworkState)
    : admin A := λ g,
  match arena g !! l with
  | None => Panic
  | Some s =>
      let '(r, s) := op s in
      Ret (match r with Ok a => Ok a | Err e => Err (Net e) end, set_state l s g)
  end.

Definition gateway_of (l : positive) : admin Ipv4Addr :=
  λ g, match arena g !! l with Some s => Ret (Ok (ns_gateway s), g) | None => Panic end.

(** [get_peer_manager()] with [acquire_lease(.., static_reservation = true)]. *)
Definition acquire_static (code peer_id : string) (ip : option Ipv4Addr) (config : NetworkConfig)
    (l : positive) : admin (option ClusterLeaseGrant) :=
  match wd_peer wd with
  | None => mret None
  | Some p =>
      gateway ← gateway_of l;
      from_cluster (acquire_lease p code "wireguard_peer" peer_id ip (cfg_net config) gateway
                      (cfg_lease_duration config) true)
  end.

Definition release_static (code peer_id : string) : admin unit :=
  match wd_peer wd with
  | None => mret tt
  | Some p => from_cluster (release_lease p code "wireguard_peer" peer_id)
  end.

Definition new_record (code peer_id : string) (public_key : bytes) (enabled : bool)
    : WireGuardPeerRecord :=
  let now := system_time_to_i64 (wd_wall wd) in
  mkWireGuardPeerRecord code peer_id public_key enabled now now.

Definition create_wireguard_peer (code peer_id : string) (public_key : bytes) (enabled : bool)
    (insert : WireGuardPeerRecord → query unit) : admin WireGuardPeerVO :=
  '(_, l) ← network_of code;
  let record := new_record code peer_id public_key enabled in
  ip ← on_network l (NetState.create_wireguard_peer record (insert record));
  mret (wireguard_peer_vo record ip).

Definition create_wireguard_peer_with_automatic_ip (code peer_id : string) (public_key : bytes)
    (enabled : bool) (insert : WireGuardPeerRecord → Ipv4Addr → query unit)
    : admin (WireGuardPeerVO * Ipv4Net) :=
  '(config, l) ← network_of code;
  let record := new_record code peer_id public_key enabled in
  cluster_grant ← acquire_static code peer_id None config l;
  ip ← match cluster_grant with
       | Some grant => on_network l (create_wireguard_peer_with_ip (wd_instant wd) record (gr_ip grant)
                         (insert record (gr_ip grant)))
       | None => on_network l (NetState.create_wireguard_peer_with_automatic_ip (wd_instant wd) record
                   (insert record))
       end;
  mret (wireguard_peer_vo record (Some ip), cfg_net config).

Definition list_wireguard_peers (code : string) (load : query (list WireGuardPeerRecord))
    : admin (list WireGuardPeerVO) :=
  '(_, l) ← network_of code;
  peers ← on_network l (NetState.list_wireguard_peers load);
  mret (map (λ '(record, ip), wireguard_peer_vo record ip) peers).

Definition set_wireguard_peer_enabled (code peer_id : string) (enabled : bool) (update : query bool)
    (load : query (option WireGuardPeerRecord)) (revoke : query unit) : admin WireGuardPeerVO :=
  '(_, l) ← network_of code;
  updated ← on_network l (NetState.set_wireguard_peer_enabled peer_id enabled update load revoke);
  match updated with
  | Some (record, ip) => mret (wireguard_peer_vo record ip)
  | None => fail (NoPeer code peer_id)
  end.

Definition delete_wireguard_peer (code peer_id : string) (persist : query WireGuardPeerDeleteResult)
    (revoke : query unit) : admin WireGuardPeerDeleteResult :=
  '(_, l) ← network_of code;
  result ← on_network l (delete_wireguard_peer_with (wd_instant wd) peer_id persist revoke);
  _ ← (if ip_released result then release_static code peer_id else mret tt);
  mret result.

(** [list_wireguard_peer_ips], with the sorted list of the network. *)
Definition peer_ips (s : NetworkState) : list (string * Ipv4Addr) :=
  order_by (λ a b, text_leb a.1 b.1)
    (map (λ '(ip, peer_id), (peer_id, ip)) (map_to_list (wireguard_peer_ip_map (lease_state s)))).

Definition list_wireguard_peer_ips (code : string) : admin (list WireGuardPeerIpVO) :=
  '(_, l) ← network_of code;
  ips ← on_network l (λ s, (Ok (peer_ips s), s));
  mret (map (λ '(peer_id, ip), mkPeerIpVO peer_id ip) ips).

Definition reserve_wireguard_peer_ip (code peer_id : string) (ip : Ipv4Addr) (persist revoke : query unit)
    : admin unit :=
  '(config, l) ← network_of code;
  _ ← acquire_static code peer_id (Some ip) config l;
  on_network l (NetState.reserve_wireguard_peer_ip (wd_instant wd) peer_id ip persist revoke).

Definition release_wireguard_peer_ip (code peer_id : string) (persist : query bool) (revoke : query unit)
    : admin bool :=
  '(_, l) ← network_of code;
  removed ← on_network l (NetState.release_wireguard_peer_ip (wd_instant wd) peer_id persist revoke);
  _ ← (if removed : bool then release_static code peer_id else mret tt);
  mret removed.
End Calls.
End Admin.

(** ** Theorems *)

Module AdminFacts.
Section AdminFacts.
Context {NL : Ipv4NetLib} {PL : PnetLib} {U32 : NetU32Lib}.
Context {W : Type} {MV : Mpsc W bytes} {MW : Mpsc W WireGuardBridgePacket}.

(** A query that holds the lock of the peers' addresses while it waits. *)
Definition keeps_peers {A} (q : query A) : Prop := ∀ s,
  wireguard_peer_ip_map (lease_state (q s).2) = wireguard_peer_ip_map (lease_state s).

(** No address of the network belongs to the peer. *)
Definition no_address (peer_id : string) (s : NetworkState) : Prop :=
  ∀ ip, wireguard_peer_ip_map (lease_state s) !! ip ≠ Some peer_id.

Lemma release_no_address peer_id s i b :
  Lease.release_wireguard_peer_ip peer_id (lease_state s) = (b, i) →
  (∀ ip, wireguard_peer_ip_map i !! ip ≠ Some peer_id) ∧
  (no_address peer_id s → b = false ∧ wireguard_peer_ip_map i = wireguard_peer_ip_map (lease_state s)).
Proof.
  unfold Lease.release_wireguard_peer_ip. intros [= <- <-]. split.
  - intros ip H. cbn in H. by apply map_lookup_filter_Some in H as [_ ?].
  - intros Hn. assert (filter (λ '(_, owner), owner ≠ peer_id) (wireguard_peer_ip_map (lease_state s)) =
      wireguard_peer_ip_map (lease_state s)) as E.
    { apply map_filter_id. intros ip q Hq ->. by eapply Hn. }
    cbn. by rewrite E, Nat.eqb_refl.
Qed.

Lemma reserve_ok now peer_id ip persist s prev s' :
  keeps_peers persist → reserve_with now peer_id ip persist s = (Ok prev, s') →
  wireguard_peer_ip_map (lease_state s') !! ip = Some peer_id.
Proof.
  intros Hk. unfold reserve_with.
  destruct (Lease.prepare_wireguard_peer_ip_reservation _ _ _) as [[pv i]|] eqn:Ep; [|done].
  apply TableFacts.prepare_Ok in Ep as (_ & _ & _ & Em & _).
  pose proof (Hk (with_inner i s)) as Hq.
  destruct (persist (with_inner i s)) as [[[]|e] s1]; [|done]. intros [= _ <-]. cbn in Hq. cbn.
  unfold Lease.commit_wireguard_peer_ip_reservation. rewrite Em in Hq.
  destruct pv as [p|]; [|by rewrite Hq, lookup_insert_eq].
  destruct (bool_decide_reflect (p ≠ ip)) as [Hp|Hp]; cbn [andb]; [|by rewrite Hq, lookup_insert_eq].
  destruct (bool_decide _); cbn; rewrite Hq; [rewrite lookup_delete_ne by done|]; by rewrite lookup_insert_eq.
Qed.

(** What a bind that ends with a value went through. *)
Lemma on_network_ok {A} l (op : NetworkState → result NetError A * NetworkState) g a g' :
  on_network l op g = Ret (Ok a, g') →
  ∃ s s', arena g !! l = Some s ∧ op s = (Ok a, s') ∧ g' = set_state l s' g.
Proof.
  unfold on_network. destruct (arena g !! l) as [s|]; [|done]. destruct (op s) as [[x|e] s'] eqn:E; [|done].
  intros [= -> <-]. by exists s, s'.
Qed.
End AdminFacts.
End AdminFacts.

Section Theorems.
Context {NL : Ipv4NetLib} {PL : PnetLib} {U32 : NetU32Lib}.
Context {W : Type} {MV : Mpsc W bytes} {MW : Mpsc W WireGuardBridgePacket}.
Implicit Types (wd : World (W := W)) (g : Global (W := W)).

(** Deleting a peer is complete.  When the call succeeds the peer holds no address
    of the network any more, and if one was released, from the database or from
    memory, its lease in the cluster has been released after that. *)
Theorem peer_deletion_complete wd code peer_id persist revoke g config l g1 res g' :
  AdminFacts.keeps_peers revoke →
  network_of wd code g = Ret (Ok (config, l), g1) →
  delete_wireguard_peer wd code peer_id persist revoke g = Ret (Ok res, g') →
  ∃ g2 s2, arena g2 !! l = Some s2 ∧ AdminFacts.no_address peer_id s2 ∧
    if ip_released res then release_static wd code peer_id g2 = Ret (Ok tt, g') else g' = g2.
Proof.
  intros Hk Hn. unfold delete_wireguard_peer, mbind, admin_bind. rewrite Hn.
  destruct (on_network l _ g1) as [[[r|e] g2]|] eqn:Eo; try done.
  apply AdminFacts.on_network_ok in Eo as (s & s' & Hs & Ho & ->).
  unfold delete_wireguard_peer_with in Ho. destruct (str_blank peer_id); [done|].
  destruct (persist s) as [[pr|] s1]; [|done].
  destruct (Lease.release_wireguard_peer_ip peer_id (lease_state s1)) as [removed i] eqn:Er.
  apply AdminFacts.release_no_address in Er as [Hna _]. cbv zeta in Ho.
  set (s3 := if removed then _ else _) in Ho. pose proof (Hk s3) as Hr.
  destruct (revoke s3) as [[[]|] s4]; [|done]. injection Ho as <- <-. cbn [ip_released].
  intros H. exists (set_state l s4 g1), s4. split; [apply lookup_insert_eq|]. split.
  { intros ip. cbn in Hr. rewrite Hr. unfold s3. destruct removed; apply Hna. }
  destruct (ip_released pr || removed).
  - destruct (release_static wd code peer_id (set_state l s4 g1)) as [[[[]|] g3]|]; try done.
    by injection H as <- <-.
  - by injection H as <- <-.
Qed.

(** A peer created with an address holds it.  The address in the answer is the one
    the cluster granted, if there is a cluster, and the network knows it as the
    peer's. *)
Theorem peer_created_with_address wd code peer_id key enabled insert g config l g1 vo net g' :
  (∀ r ip, AdminFacts.keeps_peers (insert r ip)) →
  network_of wd code g = Ret (Ok (config, l), g1) →
  create_wireguard_peer_with_automatic_ip wd code peer_id key enabled insert g = Ret (Ok (vo, net), g') →
  ∃ ip s g2 grant, acquire_static wd code peer_id None config l g1 = Ret (Ok grant, g2) ∧
    vo_ip vo = Some ip ∧ vo_peer_id vo = peer_id ∧ vo_public_key vo = key ∧ vo_enabled vo = enabled ∧
    net = cfg_net config ∧ arena g' !! l = Some s ∧
    wireguard_peer_ip_map (lease_state s) !! ip = Some peer_id ∧
    ∀ gr, grant = Some gr → ip = gr_ip gr.
Proof.
  intros Hk Hn. unfold create_wireguard_peer_with_automatic_ip, mbind, admin_bind. rewrite Hn.
  destruct (acquire_static wd code peer_id None config l g1) as [[[grant|e] g2]|]; try done.
  set (record := new_record wd code peer_id key enabled). intros H.
  assert (∃ ip s, vo = wireguard_peer_vo record (Some ip) ∧ net = cfg_net config ∧ arena g' !! l = Some s ∧
    wireguard_peer_ip_map (lease_state s) !! ip = Some peer_id ∧ ∀ gr, grant = Some gr → ip = gr_ip gr)
    as (ip & s & -> & -> & Hs & Hip & Hg).
  { destruct grant as [gr|].
    - destruct (on_network l _ g2) as [[[ip|e] g3]|] eqn:Eo; try done. injection H as <- <- <-.
      apply AdminFacts.on_network_ok in Eo as (s & s' & _ & Ho & ->).
      unfold create_wireguard_peer_with_ip in Ho.
      destruct (reserve_with _ _ _ _ s) as [[prev|e] s1] eqn:Er; [|done]. injection Ho as <- <-.
      exists (gr_ip gr), s1. split_and!; [done|done|apply lookup_insert_eq| |by intros ? [= <-]].
      by eapply AdminFacts.reserve_ok in Er.
    - destruct (on_network l _ g2) as [[[ip|e] g3]|] eqn:Eo; try done. injection H as <- <- <-.
      apply AdminFacts.on_network_ok in Eo as (s & s' & _ & Ho & ->).
      unfold NetState.create_wireguard_peer_with_automatic_ip in Ho.
      destruct (Lease.find_available_ip _ _ _) as [jp|]; [|done].
      destruct (Lease.prepare_wireguard_peer_ip_reservation _ _ _) as [[pv i]|] eqn:Ep; [|done].
      apply TableFacts.prepare_Ok in Ep as (_ & _ & _ & Em & _).
      pose proof (Hk record jp (with_inner i s)) as Hq.
      destruct (insert record jp (with_inner i s)) as [[[]|] s1]; [|done]. injection Ho as <- <-.
      exists jp, (update_time (wd_instant wd) (with_inner (lease_state s1) s1)).
      split_and!; [done|done|apply lookup_insert_eq| |done]. cbn in Hq. cbn.
      by rewrite Hq, Em, lookup_insert_eq. }
  exists ip, s, g2, grant. by split_and!.
Qed.

(** A lease whose release fails is never released.  When the authority cannot be
    reached, deleting a peer fails after the peer and its address are gone; the
    database has nothing left to delete, so a second attempt succeeds without
    asking the cluster, whatever cluster there is. *)
Theorem failed_release_not_retried wd p e code peer_id g config l s :
  db_nets g !! code = Some config → network_states g !! code = Some l → arena g !! l = Some s →
  str_blank peer_id = false → wd_peer wd = Some p →
  (∀ g, release_lease p code "wireguard_peer" peer_id g = (Err e, g)) →
  let ok s := (Ok tt, s) in
  let removed s := (Ok (mkWireGuardPeerDeleteResult true true), s) in
  let nothing s := (Ok (mkWireGuardPeerDeleteResult false false), s) in
  ∃ g', delete_wireguard_peer wd code peer_id removed ok g = Ret (Err (Cluster e), g') ∧
    ∃ g'', ∀ peer, delete_wireguard_peer
      (mkWorld (wd_load wd) (wd_wall wd) (wd_instant wd) (wd_meanwhile wd) peer)
      code peer_id nothing ok g' = Ret (Ok (mkWireGuardPeerDeleteResult false false), g'').
Proof.
  intros Hc Hl Hs Hb Hp He ok removed nothing.
  destruct (Lease.release_wireguard_peer_ip peer_id (lease_state (update_time (wd_instant wd) s)))
    as [b i] eqn:Er.
  apply AdminFacts.release_no_address in Er as Hi. destruct Hi as [Hi _].
  set (t := update_time (wd_instant wd) s).
  set (s1 := if b then update_time (wd_instant wd) (with_inner i t) else with_inner i t).
  set (g0 := touch (wd_instant wd) l g).
  assert (arena g0 !! l = Some t) as H0.
  { unfold g0, touch. rewrite Hs. apply lookup_insert_eq. }
  exists (set_state l s1 g0). split.
  { unfold delete_wireguard_peer, network_of, mbind, admin_bind. rewrite Hc.
    unfold get_or_create_network_state. rewrite Hl. fold g0. unfold on_network. rewrite H0.
    unfold delete_wireguard_peer_with. rewrite Hb. unfold removed, ok. fold t in Er. rewrite Er.
    cbv zeta. fold s1. cbn [ip_released orb]. unfold release_static, from_cluster. rewrite Hp, He. done. }
  set (g1 := touch (wd_instant wd) l (set_state l s1 g0)). set (t1 := update_time (wd_instant wd) s1).
  assert (arena g1 !! l = Some t1) as H1.
  { unfold g1, touch. cbn [set_state arena with_states]. rewrite lookup_insert_eq. apply lookup_insert_eq. }
  destruct (Lease.release_wireguard_peer_ip peer_id (lease_state t1)) as [b1 i1] eqn:Er1.
  assert (b1 = false) as ->.
  { apply AdminFacts.release_no_address in Er1 as [_ Hr1]. apply Hr1. intros ip. unfold t1, s1. destruct b; apply Hi. }
  exists (set_state l (with_inner i1 t1) g1). intros peer.
  unfold delete_wireguard_peer, network_of, mbind, admin_bind.
  cbn [wd_load wd_wall wd_instant wd_meanwhile].
  assert (db_nets (set_state l s1 g0) !! code = Some config) as ->.
  { unfold g0, touch. rewrite Hs. done. }
  unfold get_or_create_network_state.
  assert (network_states (set_state l s1 g0) !! code = Some l) as ->.
  { unfold g0, touch. rewrite Hs. done. }
  fold g1. unfold on_network. rewrite H1. unfold delete_wireguard_peer_with. rewrite Hb.
  unfold nothing, ok. rewrite Er1. done.
Qed.

(** A grant is kept when the creation fails.  The cluster has reserved the address
    for the peer without a time limit; when the peer cannot be stored, the call
    ends with the error, and nothing has happened after the grant but the rollback
    in the network: the cluster is not told. *)
Theorem failed_creation_keeps_grant wd code peer_id key enabled insert g config l g1 gr g2 s e s' :
  network_of wd code g = Ret (Ok (config, l), g1) →
  acquire_static wd code peer_id None config l g1 = Ret (Ok (Some gr), g2) →
  arena g2 !! l = Some s →
  reserve_with (wd_instant wd) peer_id (gr_ip gr)
    (insert (new_record wd code peer_id key enabled) (gr_ip gr)) s = (Err e, s') →
  create_wireguard_peer_with_automatic_ip wd code peer_id key enabled insert g =
    Ret (Err (Net e), set_state l s' g2).
Proof.
  intros Hn Ha Hs Hr. unfold create_wireguard_peer_with_automatic_ip, mbind, admin_bind.
  rewrite Hn, Ha. unfold on_network. rewrite Hs. unfold create_wireguard_peer_with_ip.
  change (wp_peer_id (new_record wd code peer_id key enabled)) with peer_id. by rewrite Hr.
Qed.
End Theorems.

Module AdminWitness.
Import Model LeaseWitness NetWitness.
#[local] Existing Instance NetWitness.MV.
#[local] Existing Instance NetWitness.MW.

(** The network of [NetWitness]: peer "p" has address 10.26.0.9. *)
Definition config0 : NetworkConfig := mkNetworkConfig net24 (from_secs 3600) SrcManual.
Definition g0 : Global (W := Wd) :=
  mkGlobal net24 (from_secs 3600) {[ "net"%string := config0 ]} {[ "net"%string := 1%positive ]}
    {[ 1%positive := s0 ]} w0 [].
Definition granted : ClusterLeaseGrant := mkClusterLeaseGrant (host 5) 1 0.
(** A cluster that grants and releases, and one whose authority is out of reach. *)
Definition cluster : PeerOps (W := Wd) := mkPeerOps
  (λ _ _ _ _ _ _ _ _ g, (Ok (Some granted), g)) (λ _ _ _ g, (Ok tt, g))
  (λ _ _ _ _ g, (false, g)) (λ _ _ _ _ g, g).
Definition cut_off : PeerOps (W := Wd) := mkPeerOps
  (λ _ _ _ _ _ _ _ _ g, (Err ClusterErr, g)) (λ _ _ _ g, (Err ClusterErr, g))
  (λ _ _ _ _ g, (false, g)) (λ _ _ _ _ g, g).
Definition world (p : option PeerOps) : World (W := Wd) := mkWorld (mkDbLoad [] []) 1000 7 id p.
Definition ok : query (W := Wd) unit := λ s, (Ok tt, s).
Definition removed : query (W := Wd) WireGuardPeerDeleteResult :=
  λ s, (Ok (mkWireGuardPeerDeleteResult true true), s).

Definition g1 : Global (W := Wd) := touch 7 1 g0.
Lemma network0 p : network_of (world p) "net" g0 = Ret (Ok (config0, 1%positive), g1).
Proof. reflexivity. Defined.

Definition succeeds {A} (x : outcome (result AdminError A * Global (W := Wd))) : bool :=
  match x with Ret (Ok _, _) => true | _ => false end.

Lemma peer_deletion_complete_witness :
  ∃ g2 s2, arena g2 !! 1%positive = Some s2 ∧ AdminFacts.no_address "p" s2.
Proof.
  assert (succeeds (delete_wireguard_peer (world (Some cluster)) "net" "p" removed ok g0) = true) as H
    by (vm_compute; reflexivity).
  destruct (delete_wireguard_peer (world (Some cluster)) "net" "p" removed ok g0) as [[[res|] g']|] eqn:E;
    [|discriminate H..].
  destruct (peer_deletion_complete (world (Some cluster)) "net" "p" removed ok g0 config0 1 g1 res g')
    as (g2 & s2 & H1 & H2 & _).
  - intros s. reflexivity.
  - apply network0.
  - exact E.
  - exists g2, s2. split; [exact H1|exact H2].
Defined.

Lemma peer_created_with_address_witness :
  ∃ vo g' s, create_wireguard_peer_with_automatic_ip (world (Some cluster)) "net" "q" (replicate 32 8) true
      (λ _ _, ok) g0 = Ret (Ok (vo, net24), g') ∧ vo_ip vo = Some (host 5) ∧
    arena g' !! 1%positive = Some s ∧ wireguard_peer_ip_map (lease_state s) !! host 5 = Some "q"%string.
Proof.
  assert (succeeds (create_wireguard_peer_with_automatic_ip (world (Some cluster)) "net" "q" (replicate 32 8)
    true (λ _ _, ok) g0) = true) as H by (vm_compute; reflexivity).
  destruct (create_wireguard_peer_with_automatic_ip (world (Some cluster)) "net" "q" (replicate 32 8) true
    (λ _ _, ok) g0) as [[[[vo net]|] g']|] eqn:E; [|discriminate H..].
  destruct (peer_created_with_address (world (Some cluster)) "net" "q" (replicate 32 8) true (λ _ _, ok) g0
    config0 1 g1 vo net g') as (ip & s & g2 & grant & Ha & H1 & _ & _ & _ & H2 & H3 & H4 & H5).
  - intros r ip s. reflexivity.
  - apply network0.
  - exact E.
  - cbn in Ha. injection Ha as <- _. rewrite (H5 granted eq_refl) in H1, H4.
    exists vo, g', s. rewrite H2. split; [reflexivity|]. split; [exact H1|]. split; [exact H3|exact H4].
Defined.

Lemma failed_release_not_retried_witness :
  ∃ g', delete_wireguard_peer (world (Some cut_off)) "net" "p" removed ok g0 = Ret (Err (Cluster ClusterErr), g').
Proof.
  destruct (failed_release_not_retried (world (Some cut_off)) cut_off ClusterErr "net" "p" g0 config0 1 s0
    eq_refl eq_refl eq_refl eq_refl eq_refl (λ _, eq_refl)) as (g' & H & _).
  exists g'. exact H.
Defined.

Definition refused : query (W := Wd) unit := λ s, (Err DbErr, s).
Lemma failed_creation_keeps_grant_witness :
  ∃ g', create_wireguard_peer_with_automatic_ip (world (Some cluster)) "net" "q" (replicate 32 8) true
    (λ _ _, refused) g0 = Ret (Err (Net DbErr), g').
Proof.
  eexists. eapply (failed_creation_keeps_grant (world (Some cluster)) "net" "q" (replicate 32 8) true
    (λ _ _, refused) g0 config0 1 g1 granted g1); [apply network0|reflexivity..].
Defined.
End AdminWitness.
