(* ===== verification/ClientConfig.v ===== *)
(** The client configurations of WireGuard peers: the functions of
    [http/web_server.rs] that check a peer's key and profile and render the
    configuration file a user imports.

    Base64 is the class [Base64Lib].  A route keeps its network as it was written,
    host bits included; its block is what it contains. *)

From S2P Require Import Prelude Libs Std Db Lease NetState Tunnel Text Runtime Sessions Storage Restore Config Startup Admin.
From stdpp Require Import base gmap strings list sorting.
From Stdlib Require Import ZArith Lia Ascii.

Local Open Scope Z_scope.

(** [base64::engine::general_purpose::STANDARD]. *)
Class Base64Lib := {
  b64_encode : bytes → string;
  b64_decode : string → option bytes
}.
Definition b64_char (c : ascii) : bool :=
  is_ascii_alphanumeric c || bool_decide (c ∈ ["+"; "/"; "="]%char).
Class Base64Laws `{!Base64Lib} : Prop := {
  b64_decode_encode b : bytes_ok b → b64_decode (b64_encode b) = Some b;
  b64_decode_ok s b : b64_decode s = Some b → bytes_ok b;
  b64_encode_chars b : all_bytes b64_char (b64_encode b) = true
}.

Inductive ProfileError :=
| BadPublicKey | TooManyPeerDns | TooManyRoutes | RouteOverlaps | RouteGateway | RouteRepeated.

Section ClientConfig.
Context {NL : Ipv4NetLib} {NE : EqDecision Ipv4Net} {NT : Ipv4NetText} {B64 : Base64Lib}.

Definition decode_wireguard_public_key (value : string) : result ProfileError bytes :=
  decoded ← ok_or (b64_decode value) BadPublicKey;
  _ ← ensure (length decoded =? 32)%nat BadPublicKey;
  _ ← ensure (bool_decide (b64_encode decoded = value)) BadPublicKey;
  Ok decoded.

(** ** Profiles *)

Definition normalize_dns (servers : list IpAddr) : result ProfileError (list IpAddr) :=
  _ ← ensure (length servers <=? 4)%nat TooManyPeerDns;
  Ok (fold_left push_new servers []).

(** One turn of the loop over the routes; [seen] are the networks before it. *)
Definition check_route (net : Ipv4Net) (gateway : Ipv4Addr) (seen : list Ipv4Net)
    (r : Db.WireGuardPeerRouteRecord) : result ProfileError (list Ipv4Net) :=
  let lan := Db.rt_lan_network r in
  let via := Db.rt_vnt_cli_ip r in
  _ ← ensure (negb (net_contains net (net_network lan)) && negb (net_contains lan (net_network net)))
        RouteOverlaps;
  _ ← ensure (net_contains net via && negb (via =? net_network net) && negb (via =? net_broadcast net)
              && negb (via =? gateway)) RouteGateway;
  _ ← ensure (negb (bool_decide (lan ∈ seen))) RouteRepeated;
  Ok (lan :: seen).

Fixpoint check_routes (net : Ipv4Net) (gateway : Ipv4Addr) (seen : list Ipv4Net)
    (routes : list Db.WireGuardPeerRouteRecord) : result ProfileError unit :=
  match routes with
  | [] => Ok tt
  | r :: routes => seen ← check_route net gateway seen r; check_routes net gateway seen routes
  end.

(** Longer prefixes first, then by address. *)
Definition route_leb (a b : Db.WireGuardPeerRouteRecord) : bool :=
  let pa := net_prefix_len (Db.rt_lan_network a) in
  let pb := net_prefix_len (Db.rt_lan_network b) in
  (pb <? pa) || ((pa =? pb) && (net_network (Db.rt_lan_network a) <=? net_network (Db.rt_lan_network b))).

(** [sort_unstable_by_key]: equal keys come out in the order they came in, one of
    the orders it may choose. *)
Definition normalized_profile (net : Ipv4Net) (gateway : Ipv4Addr) (code peer_id : string)
    (dns_servers : option (list IpAddr)) (persistent_keepalive : Z)
    (routes : list Db.WireGuardPeerRouteRecord) (created_at now : Z)
    : result ProfileError Db.WireGuardPeerProfileRecord :=
  dns ← match dns_servers with
        | Some servers => l ← normalize_dns servers; Ok (Some l)
        | None => Ok None
        end;
  _ ← ensure (length routes <=? 64)%nat TooManyRoutes;
  _ ← check_routes net gateway [] routes;
  Ok (Db.mkPeerProfile code peer_id dns persistent_keepalive (order_by route_leb routes) false created_at
        now).

(** [unix_timestamp_i64], from the time since the epoch. *)
Definition unix_timestamp_i64 (since_epoch : Z) : Z := Z.min (as_secs (Z.max 0 since_epoch)) i64_max.

(** ** The state of a peer in the list *)

Record WireGuardPeerResponse := mkPeerResponse {
  rp_peer : WireGuardPeerVO; rp_dns_servers : list IpAddr; rp_dns_inherited : bool;
  rp_persistent_keepalive : Z; rp_routes : list Db.WireGuardPeerRouteRecord;
  rp_config_available : bool; rp_online : bool; rp_status : string }.

Context {PL : PnetLib} {U32 : NetU32Lib}.
Context {W : Type} {MV : Mpsc W bytes} {MW : Mpsc W WireGuardBridgePacket}.

(** [None] when the peer has disappeared. *)
Definition wireguard_peer_response (peer : WireGuardPeerVO) (global_dns : list IpAddr)
    (profile : option Db.WireGuardPeerProfileRecord) (s : NetworkState (W := W))
    : option WireGuardPeerResponse :=
  p ← profile;
  let online := match vo_ip peer with Some ip => is_wireguard_endpoint ip s | None => false end in
  let status := if negb (vo_enabled peer) then "disabled"
                else if online then "online"
                else if is_some (vo_ip peer) then "offline" else "unassigned" in
  Some (mkPeerResponse peer (default global_dns (Db.pf_dns_servers p))
          (negb (is_some (Db.pf_dns_servers p))) (Db.pf_persistent_keepalive p) (Db.pf_routes p)
          (Db.pf_config_available p) online status%string).

(** ** Rendering *)

Definition ip_to_string (a : IpAddr) : string :=
  match a with IpV4 ip => ipv4_to_string ip | IpV6 ip => ipv6_to_string ip end.

(** [join(", ")]. *)
Definition join (l : list string) : string := String.concat ", " l.

Definition allowed_ips (net : Ipv4Net) (routes : list Db.WireGuardPeerRouteRecord) : string :=
  join (net_to_string net :: ((λ r, net_to_string (Db.rt_lan_network r)) <$> routes)).

Definition nl : string := String newline "".

Definition render_wireguard_client_config (private_key : string) (address : Ipv4Addr)
    (dns_servers : list IpAddr) (server_public_key allowed endpoint : string) (keepalive : Z) : string :=
  let dns_line := if bool_decide (dns_servers = []) then ""
                  else ("DNS = " +:+ join (ip_to_string <$> dns_servers) +:+ nl)%string in
  ("[Interface]" +:+ nl +:+ "PrivateKey = " +:+ private_key +:+ nl +:+
   "Address = " +:+ ipv4_to_string address +:+ "/32" +:+ nl +:+ dns_line +:+ nl +:+
   "[Peer]" +:+ nl +:+ "PublicKey = " +:+ server_public_key +:+ nl +:+
   "AllowedIPs = " +:+ allowed +:+ nl +:+ "Endpoint = " +:+ endpoint +:+ nl +:+
   "PersistentKeepalive = " +:+ u16_to_string keepalive +:+ nl)%string.
End ClientConfig.

(** The lines of a configuration file. *)
Definition config_lines (private_key : string) (address : Ipv4Addr) (dns : list IpAddr)
    (server_public_key allowed endpoint : string) (keepalive : Z) : list string :=
  ["[Interface]"; "PrivateKey = " +:+ private_key; "Address = " +:+ ipv4_to_string address +:+ "/32"]%string ++
  (if bool_decide (dns = []) then [] else ["DNS = " +:+ join (ip_to_string <$> dns)]%string) ++
  [""; "[Peer]"; "PublicKey = " +:+ server_public_key; "AllowedIPs = " +:+ allowed;
   "Endpoint = " +:+ endpoint; "PersistentKeepalive = " +:+ u16_to_string keepalive; ""]%string.

(** ** Facts *)

Module RenderFacts.
Import StrFacts ConfigFacts.

Definition printable (c : ascii) : bool := (32 <=? ascii_code c) && (ascii_code c <? 128).

Lemma printable_of (P : ascii → bool) s :
  forallb (λ n, implb (P (ascii_of_nat n)) (printable (ascii_of_nat n))) (seq 0 256) = true →
  all_bytes P s = true → all_bytes printable s = true.
Proof. intros H. apply all_bytes_impl, class_check, H. Qed.

Lemma concat_bytes P sep ls :
  all_bytes P sep = true → Forall (λ l, all_bytes P l = true) ls → all_bytes P (String.concat sep ls) = true.
Proof.
  intros Hs. induction ls as [|l [|l' ls] IH]; [done|..]; intros [Hl Hls]%Forall_cons; [done|].
  change (String.concat sep (l :: l' :: ls)) with (l +:+ sep +:+ String.concat sep (l' :: ls))%string.
  by rewrite !all_bytes_app, Hl, Hs, IH.
Qed.

Lemma digit_char_ok d : 0 ≤ d < 10 → is_digit (digit_char d) = true.
Proof.
  intros H. assert (d = 0 ∨ d = 1 ∨ d = 2 ∨ d = 3 ∨ d = 4 ∨ d = 5 ∨ d = 6 ∨ d = 7 ∨ d = 8 ∨ d = 9) as Hd by lia.
  by repeat destruct Hd as [->|Hd]; subst.
Qed.

Lemma octet_digits x : 0 ≤ x < 1000 → all_bytes is_digit (octet_to_string x) = true.
Proof.
  intros H. unfold octet_to_string.
  assert (∀ a, 0 ≤ a mod 10 < 10) as Hm by (intros; apply Z.mod_pos_bound; lia).
  pose proof (Z.div_pos x 10) as P1. pose proof (Z.div_pos x 100) as P2.
  pose proof (Z.div_lt_upper_bound x 100 10) as B2.
  destruct (Z.ltb_spec x 10); [|destruct (Z.ltb_spec x 100)]; rewrite !all_bytes_cons; cbn [all_bytes];
    rewrite !digit_char_ok; try done; try lia; try apply Hm.
  split; [lia|]. apply Z.div_lt_upper_bound; lia.
Qed.

Lemma u16_digits x : is_u 16 x → all_bytes is_digit (u16_to_string x) = true.
Proof.
  intros H. unfold is_u in H. change (2 ^ 16) with 65536 in H. unfold u16_to_string.
  assert (∀ a, 0 ≤ a mod 10 < 10) as Hm by (intros; apply Z.mod_pos_bound; lia).
  destruct (Z.ltb_spec x 1000); [apply octet_digits; lia|].
  destruct (Z.ltb_spec x 10000); rewrite !all_bytes_cons, !digit_char_ok by apply Hm; done.
Qed.

Lemma ipv4_text_chars ip : all_bytes ipv4_char (ipv4_to_string ip) = true.
Proof.
  unfold ipv4_to_string.
  assert (∀ i, all_bytes ipv4_char (octet_to_string (octet i ip)) = true) as Ho.
  { intros i. pose proof (StdFacts.octet_range i ip) as Hr. unfold is_u in Hr. change (2 ^ 8) with 256 in Hr.
    eapply all_bytes_impl; [|apply octet_digits; lia]. apply class_check; by vm_compute. }
  by rewrite !all_bytes_app, !Ho.
Qed.

Lemma hex_char_ok d : 0 ≤ d < 16 → ipv6_char (hex_char d) = true.
Proof.
  intros H. assert (d = 0 ∨ d = 1 ∨ d = 2 ∨ d = 3 ∨ d = 4 ∨ d = 5 ∨ d = 6 ∨ d = 7 ∨ d = 8 ∨ d = 9 ∨
    d = 10 ∨ d = 11 ∨ d = 12 ∨ d = 13 ∨ d = 14 ∨ d = 15) as Hd by lia.
  by repeat destruct Hd as [->|Hd]; subst.
Qed.

Lemma hex16_chars x : all_bytes ipv6_char (hex16 x) = true.
Proof.
  unfold hex16. assert (∀ a, ipv6_char (hex_char (a mod 16)) = true) as Hm.
  { intros a. apply hex_char_ok, Z.mod_pos_bound. lia. }
  repeat case_match; rewrite !all_bytes_cons, !Hm; done.
Qed.

Lemma fmt_chars segs : all_bytes ipv6_char (fmt_subslice segs) = true.
Proof.
  induction segs as [|x [|y segs] IH]; [done|apply hex16_chars|].
  change (fmt_subslice (x :: y :: segs)) with (hex16 x +:+ ":" +:+ fmt_subslice (y :: segs))%string.
  by rewrite !all_bytes_app, hex16_chars, IH.
Qed.

Lemma ipv6_text_chars ip : all_bytes ipv6_char (ipv6_to_string ip) = true.
Proof.
  unfold ipv6_to_string. destruct (_ =? _).
  - rewrite all_bytes_app. rewrite (all_bytes_impl ipv4_char ipv6_char (ipv4_to_string _));
      [done|apply ipv4_ipv6_char|apply ipv4_text_chars].
  - destruct (longest_zeros (segments ip)) as [start len]. destruct (1 <? len)%nat; [|apply fmt_chars].
    by rewrite !all_bytes_app, !fmt_chars.
Qed.

Lemma ip_text_chars a : all_bytes ipv6_char (ip_to_string a) = true.
Proof.
  destruct a; [|apply ipv6_text_chars]. eapply all_bytes_impl; [apply ipv4_ipv6_char|apply ipv4_text_chars].
Qed.

(** *** Comma-separated lists *)

Lemma split_join ls :
  ls ≠ [] → Forall (λ l, contains_char "," l = false ∧ no_space l = true) ls →
  Str.trim <$> Str.split "," (join ls) = ls.
Proof.
  intros Hn Hf. unfold join.
  assert (∀ ls, ls ≠ [] → String.concat ", " ls = String.concat "," (match ls with
    | [] => [] | l :: r => l :: ((λ x, " " +:+ x)%string <$> r) end)) as Hc.
  { clear. induction ls as [|l [|l' ls] IH]; intros Hn; [done|done|].
    change (l +:+ ", " +:+ String.concat ", " (l' :: ls) =
      l +:+ "," +:+ String.concat "," ((" " +:+ l')%string :: ((λ x, " " +:+ x)%string <$> ls)))%string.
    rewrite IH by done. f_equal. destruct ls; [done|]. done. }
  rewrite Hc by done. destruct ls as [|l ls]; [done|].
  rewrite split_concat; [|done|].
  - apply Forall_cons in Hf as [[_ Hl] Hf]. cbn [fmap list_fmap]. f_equal.
    + by apply trim_no_space.
    + clear -Hf. induction Hf as [|x r [_ Hx] _ IH]; [done|]. cbn [fmap list_fmap]. f_equal; [|done].
      by apply trim_lead_space.
  - apply Forall_cons in Hf as [[Hl _] Hf]. constructor; [done|].
    apply Forall_fmap. eapply Forall_impl; [exact Hf|]. intros x [Hx _]. cbn. done.
Qed.

(** *** The file *)

Lemma render_concat private address dns public allowed endpoint keepalive :
  render_wireguard_client_config private address dns public allowed endpoint keepalive =
  String.concat (String newline "") (config_lines private address dns public allowed endpoint keepalive).
Proof.
  unfold render_wireguard_client_config, config_lines.
  destruct (bool_decide (dns = [])); cbn [app String.concat]; unfold nl; rewrite !append_assoc; reflexivity.
Qed.

Lemma lines_printable private address dns public allowed endpoint keepalive :
  all_bytes b64_char private = true → all_bytes b64_char public = true →
  all_bytes printable allowed = true → all_bytes endpoint_char endpoint = true → is_u 16 keepalive →
  Forall (λ l, contains_char newline l = false)
    (config_lines private address dns public allowed endpoint keepalive).
Proof.
  intros Hp Hq Ha He Hk. apply (printable_of _ private) in Hp; [|by vm_compute].
  apply (printable_of _ public) in Hq; [|by vm_compute]. apply (printable_of _ endpoint) in He; [|by vm_compute].
  pose proof (printable_of is_digit _ ltac:(by vm_compute) (u16_digits keepalive Hk)) as Hu.
  pose proof (printable_of ipv4_char _ ltac:(by vm_compute) (ipv4_text_chars address)) as Hd.
  assert (all_bytes printable (join (ip_to_string <$> dns)) = true) as Hj.
  { apply concat_bytes; [done|]. apply Forall_fmap, Forall_forall. intros a _.
    eapply printable_of; [|apply ip_text_chars]. by vm_compute. }
  assert (Forall (λ l, all_bytes printable l = true)
    (config_lines private address dns public allowed endpoint keepalive)) as Hl.
  { unfold config_lines. destruct (bool_decide _); repeat constructor;
      rewrite ?all_bytes_app, ?Hp, ?Hq, ?Ha, ?He, ?Hu, ?Hd, ?Hj; done. }
  eapply Forall_impl; [exact Hl|]. intros l. by apply all_bytes_not.
Qed.

Section Nets.
Context {NL : Ipv4NetLib} {NT : Ipv4NetText} {NC : Ipv4NetTextChars}.

Lemma allowed_chars net routes : all_bytes printable (allowed_ips net routes) = true.
Proof.
  assert (∀ n, all_bytes printable (net_to_string n) = true) as Hn.
  { intros n. eapply printable_of; [|apply net_text_chars]. by vm_compute. }
  apply concat_bytes; [done|]. constructor; [apply Hn|]. apply Forall_fmap, Forall_forall. intros r _. apply Hn.
Qed.

Lemma nets_plain net (routes : list Db.WireGuardPeerRouteRecord) :
  Forall (λ l, contains_char "," l = false ∧ no_space l = true)
    (net_to_string net :: ((λ r, net_to_string (Db.rt_lan_network r)) <$> routes)).
Proof.
  assert (∀ n, contains_char "," (net_to_string n) = false ∧ no_space (net_to_string n) = true) as Hn.
  { intros n. pose proof (net_text_chars n) as Hc. split; [by apply (all_bytes_not net_char)|].
    revert Hc. apply (all_bytes_impl net_char (λ a, negb (Str.is_space a))), class_check. by vm_compute. }
  constructor; [apply Hn|]. apply Forall_fmap, Forall_forall. intros r _. apply Hn.
Qed.
End Nets.
End RenderFacts.

Module RouteFacts.
Section RouteFacts.
Context {NL : Ipv4NetLib} {NLL : Ipv4NetLaws} {NE : EqDecision Ipv4Net}.
Implicit Types (r : Db.WireGuardPeerRouteRecord) (net : Ipv4Net).

(** A network is the block of its size around any of its addresses. *)
Lemma block_of net ip : net_contains net ip = true →
  net_network net = ip / 2 ^ (32 - net_prefix_len net) * 2 ^ (32 - net_prefix_len net).
Proof.
  intros H%net_contains_true. rewrite net_broadcast_eq in H. pose proof (net_size_pos net) as Hs.
  pose proof (net_aligned net) as Ha. set (m := 2 ^ (32 - net_prefix_len net)) in *.
  apply Z.mod_divide in Ha as [k Hk]; [|lia]. rewrite Hk in *.
  assert (ip / m = k) as ->; [|done]. symmetry. apply (Z.div_unique ip m k (ip - k * m)); lia.
Qed.

(** Two networks that share an address are nested: the smaller one starts in the
    larger one. *)
Lemma blocks_nested a b ip : net_contains a ip = true → net_contains b ip = true →
  net_prefix_len b ≤ net_prefix_len a → net_contains b (net_network a) = true.
Proof.
  intros Ha Hb Hp. pose proof (block_of a ip Ha) as Ea. pose proof (block_of b ip Hb) as Eb.
  apply net_contains_true in Ha as Ha', Hb as Hb'. apply net_contains_true. split; [|lia].
  pose proof (net_prefix_range a). pose proof (net_prefix_range b).
  set (m := 2 ^ (32 - net_prefix_len a)) in *.
  assert (2 ^ (32 - net_prefix_len b) = 2 ^ (net_prefix_len a - net_prefix_len b) * m) as Em.
  { unfold m. rewrite <- Z.pow_add_r by lia. f_equal. lia. }
  assert (0 < m) by (unfold m; apply Z.pow_pos_nonneg; lia).
  rewrite Em in Eb. set (q := 2 ^ (net_prefix_len a - net_prefix_len b)) in *.
  rewrite Ea, Eb, Z.mul_assoc. apply Z.mul_le_mono_nonneg_r; [lia|].
  apply Z.div_le_lower_bound; [lia|].
  rewrite (Z.mul_comm m), <- Z.mul_assoc. rewrite Z.mul_comm. apply Z.mul_div_le.
  assert (0 < q) by (unfold q; apply Z.pow_pos_nonneg; lia). nia.
Qed.

Lemma blocks_disjoint a b ip :
  net_contains a (net_network b) = false → net_contains b (net_network a) = false →
  net_contains a ip = true → net_contains b ip = false.
Proof.
  intros H1 H2 Ha. destruct (net_contains b ip) eqn:Hb; [exfalso|done].
  destruct (Z.le_ge_cases (net_prefix_len b) (net_prefix_len a)).
  - by rewrite (blocks_nested a b ip) in H2.
  - by rewrite (blocks_nested b a ip) in H1.
Qed.

(** *** The loop over the routes *)

Definition route_ok net gateway r : Prop :=
  (∀ ip, net_contains net ip = true → net_contains (Db.rt_lan_network r) ip = false) ∧
  net_contains net (Db.rt_vnt_cli_ip r) = true ∧ Db.rt_vnt_cli_ip r ≠ net_network net ∧
  Db.rt_vnt_cli_ip r ≠ net_broadcast net ∧ Db.rt_vnt_cli_ip r ≠ gateway.

Lemma check_routes_ok net gateway routes seen :
  check_routes net gateway seen routes = Ok tt →
  Forall (route_ok net gateway) routes ∧ NoDup (Db.rt_lan_network <$> routes) ∧
  ∀ x, x ∈ Db.rt_lan_network <$> routes → x ∉ seen.
Proof.
  revert seen. induction routes as [|r routes IH]; intros seen; cbn [check_routes].
  { intros _. split_and!; [constructor|constructor|]. intros x Hx. by apply not_elem_of_nil in Hx. }
  unfold check_route. set (lan := Db.rt_lan_network r). set (via := Db.rt_vnt_cli_ip r).
  destruct (negb (net_contains net (net_network lan)) && negb (net_contains lan (net_network net))) eqn:E1; [|done].
  destruct (net_contains net via && negb (via =? net_network net) && negb (via =? net_broadcast net)
            && negb (via =? gateway)) eqn:E2; [|done].
  destruct (bool_decide_reflect (lan ∈ seen)) as [|Hn]; [done|].
  cbn [ensure mbind result_bind negb]. intros H. apply IH in H as (H1 & H2 & H3). bool_simpl.
  split_and!.
  - constructor; [|done]. unfold route_ok. fold lan via. split_and!; try done.
    intros ip Hip. by eapply blocks_disjoint.
  - rewrite fmap_cons. apply NoDup_cons. split; [|done]. fold lan. intros Hin.
    apply (H3 lan Hin). by left.
  - rewrite fmap_cons. intros x [->|Hx]%elem_of_cons; [done|].
    intros Hs. apply (H3 x Hx). by right.
Qed.

(** *** The order of the routes *)

Lemma sorted_insert_hd x l y : route_leb y x = true → HdRel (λ a b, route_leb a b = true) y l →
  HdRel (λ a b, route_leb a b = true) y (sorted_insert route_leb x l).
Proof.
  intros Hx Hl. destruct l as [|z l]; simpl; [by constructor|].
  destruct (route_leb x z); constructor; [done|]. by inversion Hl.
Qed.

Lemma route_leb_total a b : route_leb a b = false → route_leb b a = true.
Proof.
  unfold route_leb. intros H. apply orb_false_elim in H as [H1 H2]. apply Z.ltb_ge in H1.
  apply orb_true_iff. destruct (Z.eqb_spec (net_prefix_len (Db.rt_lan_network a))
    (net_prefix_len (Db.rt_lan_network b))) as [E|E].
  - right. simpl in H2. apply Z.leb_gt in H2. rewrite E, Z.eqb_refl. simpl. apply Z.leb_le. lia.
  - left. apply Z.ltb_lt. lia.
Qed.

Lemma routes_sorted l : Sorted (λ a b, route_leb a b = true) (order_by route_leb l).
Proof.
  unfold order_by. induction l as [|x l IH]; simpl; [constructor|].
  induction (foldr (sorted_insert route_leb) [] l) as [|y s IHs]; simpl; [by repeat constructor|].
  inversion IH; subst. destruct (route_leb x y) eqn:E.
  - by repeat constructor.
  - constructor; [by apply IHs|]. apply sorted_insert_hd; [by apply route_leb_total|done].
Qed.

Lemma route_leb_prefix a b : route_leb a b = true →
  net_prefix_len (Db.rt_lan_network b) ≤ net_prefix_len (Db.rt_lan_network a).
Proof.
  unfold route_leb. intros [H%Z.ltb_lt|[H%Z.eqb_eq _]%andb_prop]%orb_prop; lia.
Qed.

Lemma order_by_prefix l :
  StronglySorted (λ a b, net_prefix_len (Db.rt_lan_network b) ≤ net_prefix_len (Db.rt_lan_network a))
    (order_by route_leb l).
Proof.
  apply Sorted_StronglySorted; [intros a b c ? ?; lia|].
  pose proof (routes_sorted l) as Hs. revert Hs. generalize (order_by route_leb l). clear l. intros l Hs.
  induction Hs as [|a l Hs IH Hd]; constructor; [done|]. inversion Hd; constructor. by apply route_leb_prefix.
Qed.
End RouteFacts.
End RouteFacts.

(** ** Theorems *)

Section Theorems.
Context {NL : Ipv4NetLib} {NLL : Ipv4NetLaws} {NE : EqDecision Ipv4Net}.
Context {NT : Ipv4NetText} {NTL : Ipv4NetTextLaws} {NC : Ipv4NetTextChars}.
Context {B64 : Base64Lib} {B64L : Base64Laws}.

(** A key has one text.  The texts that are accepted as public keys are exactly the
    canonical encodings of 32 bytes, so two texts never name the same key. *)
Theorem public_key_canonical value k :
  decode_wireguard_public_key value = Ok k ↔ bytes_ok k ∧ length k = 32%nat ∧ value = b64_encode k.
Proof.
  unfold decode_wireguard_public_key. split.
  - destruct (b64_decode value) as [b|] eqn:E; [|done]. cbn [ok_or mbind result_bind].
    destruct (length b =? 32)%nat eqn:El; [|done]. apply Nat.eqb_eq in El. cbn [ensure mbind result_bind].
    destruct (bool_decide_reflect (b64_encode b = value)); [|done]. intros [= <-].
    split_and!; [by eapply b64_decode_ok|done|done].
  - intros (Hk & Hl & ->). rewrite b64_decode_encode by done. cbn [ok_or mbind result_bind].
    rewrite Hl. cbn [Nat.eqb ensure mbind result_bind]. by rewrite bool_decide_eq_true_2.
Qed.

(** An accepted profile is safe to route by.  No LAN of a route shares an address
    with the virtual network, every route goes through a host of the network that
    is not the gateway, no network is listed twice; the routes are those of the
    request, longest prefixes first, and the DNS servers are those of the request,
    once each and at most four. *)
Theorem profile_accepted net gateway code peer_id dns keepalive routes created_at now p :
  normalized_profile net gateway code peer_id dns keepalive routes created_at now = Ok p →
  Db.pf_routes p ≡ₚ routes ∧ (length routes ≤ 64)%nat ∧
  Forall (RouteFacts.route_ok net gateway) (Db.pf_routes p) ∧
  NoDup (Db.rt_lan_network <$> Db.pf_routes p) ∧
  StronglySorted (λ a b, net_prefix_len (Db.rt_lan_network b) ≤ net_prefix_len (Db.rt_lan_network a))
    (Db.pf_routes p) ∧
  match dns, Db.pf_dns_servers p with
  | Some servers, Some l => NoDup l ∧ (length l ≤ 4)%nat ∧ ∀ x, x ∈ l ↔ x ∈ servers
  | None, None => True
  | _, _ => False
  end.
Proof.
  unfold normalized_profile. intros H.
  destruct (match dns with Some servers => _ | None => _ end) as [d|] eqn:Ed; [|done].
  cbn [mbind result_bind] in H. destruct (length routes <=? 64)%nat eqn:El; [|done]. apply Nat.leb_le in El.
  cbn [ensure mbind result_bind] in H.
  destruct (check_routes net gateway [] routes) as [[]|] eqn:Ec; [|done]. injection H as <-. cbn.
  apply RouteFacts.check_routes_ok in Ec as (Hr & Hn & _).
  pose proof (ReadFacts.order_by_perm route_leb routes) as Hp.
  split_and!; [done|done|by rewrite Hp|by rewrite Hp| |].
  - apply RouteFacts.order_by_prefix.
  - destruct dns as [servers|]; [|by injection Ed as <-]. unfold normalize_dns in Ed.
    destruct (length servers <=? 4)%nat eqn:E4; [|done]. apply Nat.leb_le in E4. injection Ed as <-.
    destruct (ConfigFacts.push_new_fold servers []) as (H1 & H2 & H3); [constructor|]. simpl in H3.
    split_and!; [done|lia|]. intros x. rewrite H2. pose proof (not_elem_of_nil x). tauto.
Qed.

(** The order of the profile is the order of the search: for a profile in which no
    two routes have the same block, the runtime's longest-prefix search returns the
    first route of the list that contains the destination. *)
Theorem route_order_is_search net gateway code peer_id dns keepalive routes created_at now p dst :
  normalized_profile net gateway code peer_id dns keepalive routes created_at now = Ok p →
  (∀ r r', r ∈ routes → r' ∈ routes →
     net_network (Db.rt_lan_network r) = net_network (Db.rt_lan_network r') →
     net_prefix_len (Db.rt_lan_network r) = net_prefix_len (Db.rt_lan_network r') → r = r') →
  longest_prefix_route (Db.pf_routes p) dst =
    List.find (λ r, net_contains (Db.rt_lan_network r) dst) (Db.pf_routes p).
Proof.
  unfold normalized_profile. intros H Hu.
  destruct (match dns with Some servers => _ | None => _ end) as [d|]; [|done].
  cbn [mbind result_bind] in H. destruct (length routes <=? 64)%nat; [|done]. cbn [ensure mbind result_bind] in H.
  destruct (check_routes net gateway [] routes) as [[]|]; [|done]. injection H as <-. cbn [Db.pf_routes].
  pose proof (RouteFacts.order_by_prefix routes) as Hs.
  assert (∀ r, r ∈ order_by route_leb routes → r ∈ routes) as Hin
    by (intros r; by rewrite ReadFacts.order_by_perm).
  set (l := order_by route_leb routes) in *. clearbody l.
  pose proof (SessionsFacts.longest_prefix_spec l dst) as Hl.
  destruct (longest_prefix_route l dst) as [r|].
  - destruct Hl as (Hr & Hc & Hmax).
    destruct (List.find (λ r, net_contains (Db.rt_lan_network r) dst) l) as [r0|] eqn:E0.
    2: { apply list_elem_of_In in Hr. pose proof (List.find_none _ _ E0 r Hr) as Hf. cbv beta in Hf. congruence. }
    apply List.find_some in E0 as E1. destruct E1 as [H0 Hc0]. apply list_elem_of_In in H0. f_equal.
    assert (net_prefix_len (Db.rt_lan_network r) ≤ net_prefix_len (Db.rt_lan_network r0)) as Hle.
    { clear -Hs Hr Hc E0. induction Hs as [|a l Hs IH Hf]; [by apply not_elem_of_nil in Hr|]. simpl in E0.
      destruct (net_contains (Db.rt_lan_network a) dst) eqn:Ea.
      - injection E0 as <-. apply elem_of_cons in Hr as [->|Hr]; [lia|].
        rewrite Forall_forall in Hf. by apply Hf.
      - apply elem_of_cons in Hr as [->|Hr]; [congruence|by apply IH]. }
    specialize (Hmax r0 H0 Hc0).
    assert (net_prefix_len (Db.rt_lan_network r) = net_prefix_len (Db.rt_lan_network r0)) as Ep by lia.
    apply Hu; [by apply Hin..| |done]. by rewrite (RouteFacts.block_of _ _ Hc), (RouteFacts.block_of _ _ Hc0), Ep.
  - destruct (List.find _ l) as [r0|] eqn:E0; [|done].
    apply List.find_some in E0 as [H0 Hc0]. apply list_elem_of_In in H0. by rewrite Hl in Hc0.
Qed.

(** C28: the configuration file says what it was made from.  For keys in Base64, an
    accepted endpoint and a 16-bit keepalive, the rendered file has exactly the
    lines of the two sections, whatever the DNS servers and routes are, so no
    field can add a line; and the list of allowed addresses is read back as the
    virtual network and the LANs of the routes. *)
Theorem client_config_lines private address dns public net routes endpoint raw keepalive :
  validate_wireguard_public_endpoint raw = Ok endpoint → is_u 16 keepalive →
  let config := render_wireguard_client_config (b64_encode private) address dns (b64_encode public)
                  (allowed_ips net routes) endpoint keepalive in
  Str.split newline config =
    config_lines (b64_encode private) address dns (b64_encode public) (allowed_ips net routes) raw keepalive ∧
  net_parse <$> (Str.trim <$> Str.split "," (allowed_ips net routes)) =
    Some <$> (net :: (Db.rt_lan_network <$> routes)).
Proof.
  intros [-> Hep%ConfigFacts.endpoint_chars]%ConfigFacts.validate_endpoint_spec Hk config. split.
  - unfold config. rewrite RenderFacts.render_concat. apply ConfigFacts.split_concat.
    + unfold config_lines. by destruct (bool_decide _).
    + apply RenderFacts.lines_printable; [apply b64_encode_chars..|apply RenderFacts.allowed_chars|done|done].
  - unfold allowed_ips. rewrite RenderFacts.split_join; [|done|].
    + rewrite !fmap_cons, net_parse_to_string. f_equal. rewrite <- !list_fmap_compose.
      apply list_fmap_ext. intros i r _. apply net_parse_to_string.
    + apply RenderFacts.nets_plain.
Qed.
End Theorems.

(** ** An executable Base64 and witnesses *)

Module ConfigLines.
Import Model StoreModel StartupModel LeaseWitness.

#[export] Instance cidr_eq_dec : EqDecision Ipv4Net.
Proof.
  intros [a l H] [a' l' H'].
  destruct (decide (a = a' ∧ l = l')) as [[-> ->]|Hn]; [left|right; intros [= Ea El]; by apply Hn].
  f_equal. apply Eqdep_dec.UIP_dec, bool_dec.
Defined.

(** Not Base64: two letters for a byte, which is enough for the laws. *)
Definition letter (n : Z) : ascii := ascii_of_nat (Z.to_nat (65 + n)).
Definition letter_value (c : ascii) : Z := ascii_code c - 65.
Fixpoint letters (b : bytes) : string :=
  match b with
  | [] => EmptyString
  | x :: b => if (0 <=? x) && (x <? 256) then String (letter (x / 16)) (String (letter (x mod 16)) (letters b))
              else letters b
  end.
Fixpoint of_letters (s : string) : option bytes :=
  match s with
  | EmptyString => Some []
  | String a (String b s) =>
      let x := letter_value a * 16 + letter_value b in
      if (0 <=? x) && (x <? 256) then r ← of_letters s; Some (x :: r) else None
  | String _ EmptyString => None
  end.

#[export] Instance letters64 : Base64Lib := {| b64_encode := letters; b64_decode := of_letters |}.

Lemma letter_ok n : 0 ≤ n < 16 → letter_value (letter n) = n ∧ b64_char (letter n) = true.
Proof.
  intros H. assert (n = 0 ∨ n = 1 ∨ n = 2 ∨ n = 3 ∨ n = 4 ∨ n = 5 ∨ n = 6 ∨ n = 7 ∨ n = 8 ∨ n = 9 ∨
    n = 10 ∨ n = 11 ∨ n = 12 ∨ n = 13 ∨ n = 14 ∨ n = 15) as Hd by lia.
  by repeat destruct Hd as [->|Hd]; subst.
Qed.

#[export] Instance letters64_laws : Base64Laws.
Proof.
  split; unfold b64_encode, b64_decode, letters64.
  - intros b Hb. induction Hb as [|x b Hx Hb IH]; [done|]. simpl. unfold is_u in Hx. change (2 ^ 8) with 256 in Hx.
    rewrite (proj2 (Z.leb_le _ _)), (proj2 (Z.ltb_lt _ _)) by lia. simpl.
    pose proof (Z.mod_pos_bound x 16 ltac:(lia)). pose proof (Z.div_lt_upper_bound x 16 16 ltac:(lia) ltac:(lia)).
    pose proof (Z.div_pos x 16 ltac:(lia) ltac:(lia)).
    rewrite (proj1 (letter_ok (x / 16) ltac:(lia))), (proj1 (letter_ok (x mod 16) ltac:(lia))).
    replace (x / 16 * 16 + x mod 16) with x by (pose proof (Z.div_mod x 16); lia).
    rewrite (proj2 (Z.leb_le _ _)), (proj2 (Z.ltb_lt _ _)) by lia. simpl. by rewrite IH.
  - fix IH 1. intros [|a [|c s]] b; simpl; [intros [= <-]; constructor|done|].
    destruct ((0 <=? _) && (_ <? 256)) eqn:E; [|done].
    destruct (of_letters s) as [r|] eqn:Er; [|done]. intros [= <-].
    apply andb_prop in E as [?%Z.leb_le ?%Z.ltb_lt]. constructor; [unfold is_u; change (2 ^ 8) with 256; lia|].
    by apply (IH s).
  - intros b. induction b as [|x b IH]; [done|]. simpl. destruct ((0 <=? x) && (x <? 256)) eqn:E; [|done].
    apply andb_prop in E as [?%Z.leb_le ?%Z.ltb_lt].
    pose proof (Z.mod_pos_bound x 16 ltac:(lia)). pose proof (Z.div_lt_upper_bound x 16 16 ltac:(lia) ltac:(lia)).
    pose proof (Z.div_pos x 16 ltac:(lia) ltac:(lia)).
    by rewrite !StrFacts.all_bytes_cons, (proj2 (letter_ok (x / 16) ltac:(lia))),
      (proj2 (letter_ok (x mod 16) ltac:(lia))).
Qed.

Definition home : Db.WireGuardPeerRouteRecord :=
  Db.mkPeerRoute (mkCidr (ipv4 192 168 1 0) 24 eq_refl) (host 2).
Definition printer : Db.WireGuardPeerRouteRecord :=
  Db.mkPeerRoute (mkCidr (ipv4 192 168 1 128) 25 eq_refl) (host 3).
(** The block of [home], written with a host address. *)
Definition home_again : Db.WireGuardPeerRouteRecord :=
  Db.mkPeerRoute (mkCidr (ipv4 192 168 1 1) 24 eq_refl) (host 3).

Definition profile_of (routes : list Db.WireGuardPeerRouteRecord) :=
  normalized_profile net24 gw "net" "p" (Some [IpV4 (ipv4 1 1 1 1); IpV4 (ipv4 1 1 1 1)]) 25 routes 5 6.
Definition profile1 : Db.WireGuardPeerProfileRecord :=
  Db.mkPeerProfile "net" "p" (Some [IpV4 (ipv4 1 1 1 1)]) 25 [printer; home] false 5 6.

Lemma public_key_canonical_witness :
  decode_wireguard_public_key (b64_encode (replicate 32 7)) = Ok (replicate 32 7).
Proof.
  apply public_key_canonical. split; [|split; [reflexivity|reflexivity]].
  apply Forall_replicate. apply (bool_decide_eq_true_1 _). vm_compute. reflexivity.
Defined.

Lemma profile_accepted_witness :
  profile_of [home; printer] = Ok profile1 ∧ Forall (RouteFacts.route_ok net24 gw) [printer; home].
Proof.
  assert (profile_of [home; printer] = Ok profile1) as H by reflexivity.
  split; [exact H|]. unfold profile_of in H.
  exact (proj1 (proj2 (proj2 (profile_accepted _ _ _ _ _ _ _ _ _ _ H)))).
Defined.

Lemma route_order_is_search_witness :
  longest_prefix_route [printer; home] (ipv4 192 168 1 200) = Some printer.
Proof.
  assert (profile_of [home; printer] = Ok profile1) as H by reflexivity.
  unfold profile_of in H.
  pose proof (route_order_is_search _ _ _ _ _ _ _ _ _ _ (ipv4 192 168 1 200) H) as Hs.
  transitivity (List.find (λ r, net_contains (Db.rt_lan_network r) (ipv4 192 168 1 200)) [printer; home]).
  2: reflexivity.
  apply Hs.
  intros r r' Hr Hr' _ Hp.
    apply elem_of_cons in Hr as [->|Hr]; [|apply list_elem_of_singleton in Hr as ->];
      apply elem_of_cons in Hr' as [->|Hr']; try (apply list_elem_of_singleton in Hr' as ->);
      [reflexivity|vm_compute in Hp; discriminate Hp|vm_compute in Hp; discriminate Hp|reflexivity].
Defined.

Lemma client_config_lines_witness :
  Str.split newline (render_wireguard_client_config (b64_encode (replicate 32 7)) (host 9) [IpV6 1]
    (b64_encode (replicate 32 8)) (allowed_ips net24 [home]) "vpn.example.com:51820" 25) =
  config_lines (b64_encode (replicate 32 7)) (host 9) [IpV6 1] (b64_encode (replicate 32 8))
    "10.26.0.0/24, 192.168.1.0/24" "vpn.example.com:51820" 25.
Proof.
  refine (proj1 (client_config_lines (replicate 32 7) (host 9) [IpV6 1] (replicate 32 8) net24 [home]
    "vpn.example.com:51820" "vpn.example.com:51820" 25 _ _)).
  - vm_compute. reflexivity.
  - apply (bool_decide_eq_true_1 _). vm_compute. reflexivity.
Defined.

(** The check for repeated routes compares the networks as they are written: two
    routes for one block, written with different host bits and through different
    clients, are accepted, and the search silently takes one of them. *)
Theorem same_block_accepted_twice :
  net_network (Db.rt_lan_network home) = net_network (Db.rt_lan_network home_again) ∧
  net_prefix_len (Db.rt_lan_network home) = net_prefix_len (Db.rt_lan_network home_again) ∧
  Db.rt_vnt_cli_ip home ≠ Db.rt_vnt_cli_ip home_again ∧
  (∃ p, profile_of [home; home_again] = Ok p ∧ Db.pf_routes p = [home; home_again]) ∧
  longest_prefix_route [home; home_again] (ipv4 192 168 1 7) = Some home_again.
Proof.
  split; [vm_compute; reflexivity|]. split; [vm_compute; reflexivity|].
  split; [vm_compute; discriminate|]. split; [|reflexivity].
  exists (Db.mkPeerProfile "net" "p" (Some [IpV4 (ipv4 1 1 1 1)]) 25 [home; home_again] false 5 6).
  split; [reflexivity|reflexivity].
Qed.
End ConfigLines.
