(* ===== verification/Agent.v ===== *)
(** The managed WireGuard agent: [wireguard-agent/src/main.rs].

    The agent runs beside a WireGuard interface that is a peer of the server.  It
    asks the gateway for direct tunnels to its targets and drives the [wg] command.
    This file holds the command line, the [wg] commands, the validation of the
    gateway's answers and what they show together with [P2p]; the tasks of the
    agent are in [AgentTasks].

    The agent declares its own copies of the request and the answer, field by field
    those of [server_message.proto]: they are the records of [P2p]. *)

From S2P Require Import Prelude Libs Std Text Packet ControlMessage Bridge Lease NetState Db Tunnel P2p ClientConfig.
From stdpp Require Import base gmap strings list sorting.
From Stdlib Require Import ZArith Lia Ascii.

Local Open Scope Z_scope.

Definition CONTROL_PORT : Z := 51821.
(** Nanoseconds, as every [Duration]. *)
Definition HANDSHAKE_TIMEOUT : Z := 8 * nanos.
Definition HANDSHAKE_POLL_INTERVAL : Z := 500 * 1000000.
Definition MAX_HANDSHAKE_AGE : Z := 180 * nanos.
Definition MAX_LEASE_AHEAD_MS : Z := 120000.
(** The buffer of [discover]: [recv] cuts a longer datagram. *)
Definition ANSWER_BUFFER : nat := 1024.

Inductive AgentError :=
| MissingValue (arg : string) | InvalidGateway | InvalidTarget | UnknownArgument (arg : string)
| InterfaceRequired | GatewayRequired | TargetRequired | GatewayIsTarget
| WgNotStarted | WgFailed | WgOutput
| Undecodable | Mismatched | Unavailable (status : Z) | BadTargetKey | BadTargetEndpoint
| TargetNotIpv4 | BadLifetime
| SocketFailed | DiscoveryTimedOut | HandshakeTimedOut.

(** ** The command line *)

Record AgentConfig := mkAgentConfig {
  ac_interface : string; ac_gateway : Ipv4Addr; ac_wg_path : string; ac_targets : list Ipv4Addr }.

(** [--help] prints the usage and ends the process. *)
Inductive Cli (A : Type) := CliHelp | CliResult (r : result AgentError A).
Arguments CliHelp {A}.
Arguments CliResult {A} r.

(** The variables of the loop. *)
Record CliArgs := mkCliArgs {
  ca_interface : option string; ca_gateway : option Ipv4Addr; ca_wg_path : string;
  ca_targets : list Ipv4Addr }.

Fixpoint parse_args (args : list string) (v : CliArgs) : Cli CliArgs :=
  match args with
  | [] => CliResult (Ok v)
  | arg :: args =>
      if bool_decide (arg = "--interface")%string then
        match args with
        | value :: args =>
            parse_args args (mkCliArgs (Some value) (ca_gateway v) (ca_wg_path v) (ca_targets v))
        | [] => CliResult (Err (MissingValue arg))
        end
      else if bool_decide (arg = "--gateway")%string then
        match args with
        | value :: args =>
            match ipv4_parse value with
            | Some ip => parse_args args (mkCliArgs (ca_interface v) (Some ip) (ca_wg_path v) (ca_targets v))
            | None => CliResult (Err InvalidGateway)
            end
        | [] => CliResult (Err (MissingValue arg))
        end
      else if bool_decide (arg = "--wg")%string then
        match args with
        | value :: args =>
            parse_args args (mkCliArgs (ca_interface v) (ca_gateway v) value (ca_targets v))
        | [] => CliResult (Err (MissingValue arg))
        end
      else if bool_decide (arg = "--target")%string then
        match args with
        | value :: args =>
            match ipv4_parse value with
            | Some ip =>
                parse_args args (mkCliArgs (ca_interface v) (ca_gateway v) (ca_wg_path v) (ca_targets v ++ [ip]))
            | None => CliResult (Err InvalidTarget)
            end
        | [] => CliResult (Err (MissingValue arg))
        end
      else if bool_decide (arg = "--help")%string || bool_decide (arg = "-h")%string then CliHelp
      else CliResult (Err (UnknownArgument arg))
  end.

(** [Vec::dedup]: of a run of equal elements the first stays. *)
Fixpoint dedup (l : list Z) : list Z :=
  match l with
  | a :: (b :: _) as r => if a =? b then dedup r else a :: dedup r
  | l => l
  end.

Definition check_args (v : CliArgs) : result AgentError AgentConfig :=
  interface ← ok_or (ca_interface v) InterfaceRequired;
  gateway ← ok_or (ca_gateway v) GatewayRequired;
  _ ← ensure (negb (is_nil (ca_targets v))) TargetRequired;
  let targets := dedup (merge_sort Z.le (ca_targets v)) in
  _ ← ensure (negb (bool_decide (gateway ∈ targets))) GatewayIsTarget;
  Ok (mkAgentConfig interface gateway (ca_wg_path v) targets).

(** [windows]: the agent was built for Windows. *)
Definition parse_config (windows : bool) (args : list string) : Cli AgentConfig :=
  match parse_args (tail args)
          (mkCliArgs None None (if windows then "wg.exe" else "wg")%string []) with
  | CliHelp => CliHelp
  | CliResult (Err e) => CliResult (Err e)
  | CliResult (Ok v) => CliResult (check_args v)
  end.

(** ** The [wg] command *)

Record WgCli := mkWgCli { wg_path : string; wg_interface : string }.

(** How a run of the command ends; the output is [None] when it is not UTF-8. *)
Inductive CmdResult := NotStarted | Exited (success : bool) (stdout : option string).
#[export] Instance CmdResult_eq_dec : EqDecision CmdResult.
Proof. solve_decision. Defined.

Definition run (r : CmdResult) : result AgentError string :=
  match r with
  | NotStarted => Err WgNotStarted
  | Exited false _ => Err WgFailed
  | Exited true (Some out) => Ok out
  | Exited true None => Err WgOutput
  end.

Definition probe_args (interface public_key : string) (endpoint : SocketAddr) : list string :=
  ["set"; interface; "peer"; public_key; "endpoint"; socket_to_string endpoint;
   "persistent-keepalive"; "15"]%string.

Definition activate_args (interface public_key : string) (target : Ipv4Addr) : list string :=
  ["set"; interface; "peer"; public_key; "allowed-ips"; ipv4_to_string target +:+ "/32"]%string.

Definition remove_args (interface public_key : string) : list string :=
  ["set"; interface; "peer"; public_key; "remove"]%string.

Definition show_args (interface : string) : list string :=
  ["show"; interface; "latest-handshakes"]%string.

Definition handshake_field (public_key line : string) : option Z :=
  match split_whitespace line with
  | [] => None
  | key :: fields =>
      if bool_decide (key = public_key) then value ← head fields; u64_parse value else None
  end.

Definition parse_latest_handshake (output public_key : string) : option Z :=
  find_map (handshake_field public_key) (lines output).

Definition latest_handshake (r : CmdResult) (public_key : string) : result AgentError Z :=
  output ← run r; Ok (default 0 (parse_latest_handshake output public_key)).

(** ** The gateway's answer *)

(** [SystemTime::now()] is [wall] nanoseconds after the epoch. *)
Definition unix_ms (wall : Z) : Z := Z.min (Z.max wall 0 / 1000000) u64_max.

Record AgentLease := mkAgentLease {
  le_public_key : bytes; le_endpoint : SocketAddr; le_lease_id : Z; le_expires_at_unix_ms : Z }.

Section Answer.
Context {PC : P2pCodec}.

Definition validate_response (b : bytes) (request_id : Z) (target : Ipv4Addr) (wall : Z)
    : result AgentError AgentLease :=
  response ← ok_or (prost_decode b) Undecodable;
  _ ← ensure ((ar_request_id response =? request_id) && (ar_target_ip response =? target)) Mismatched;
  _ ← ensure (ar_status response =? status_as_i32 WireguardP2pOk) (Unavailable (ar_status response));
  _ ← ensure (length (ar_target_public_key response) =? 32)%nat BadTargetKey;
  endpoint ← ok_or (socket_parse (ar_target_endpoint response)) BadTargetEndpoint;
  _ ← ensure (match endpoint with SockV4 _ _ => true | SockV6 _ _ => false end) TargetNotIpv4;
  let now := unix_ms wall in
  _ ← ensure (negb ((ar_lease_id response =? 0) || (ar_expires_at_unix_ms response <=? now)
              || (MAX_LEASE_AHEAD_MS <? saturating_sub (ar_expires_at_unix_ms response) now))) BadLifetime;
  Ok (mkAgentLease (ar_target_public_key response) endpoint (ar_lease_id response)
        (ar_expires_at_unix_ms response)).

(** What [discover] sends. *)
Definition request (target : Ipv4Addr) (request_id : Z) : bytes :=
  prost_encode (mkP2pAgentRequest target request_id).
End Answer.

(** ** Lemmas *)

Module AgentFacts.
Section Facts.
Context {NL : Ipv4NetLib} {U32 : NetU32Lib} {PC : P2pCodec} {PCL : P2pCodecLaws}.
Context {W : Type} {MV : Mpsc W bytes} {MW : Mpsc W WireGuardBridgePacket}.

(** *** Socket addresses as text *)

Lemma read_ipv4_app ip r :
  is_u 32 ip → (match r with String c _ => is_digit c = false | EmptyString => True end) →
  read_ipv4 (ipv4_to_string ip +:+ r) = Some (ip, r).
Proof.
  intros H Hr. unfold read_ipv4, ipv4_to_string. pose proof StdFacts.octet_range as Ho.
  rewrite !StrFacts.append_assoc.
  do 3 (rewrite StdFacts.read_octet_app by done; rewrite StdFacts.append_cons, StdFacts.append_nil;
    cbn [mbind option_bind read_dot]; rewrite bool_decide_eq_true_2 by done; cbn [mbind option_bind]).
  rewrite StdFacts.read_octet_app by done. cbn [mbind option_bind]. by rewrite StdFacts.ipv4_octets.
Qed.

Definition port_text_ok (h l : Z) : bool :=
  match read_number 65535 (u16_to_string (256 * h + l)) with
  | Some (v, EmptyString) => v =? 256 * h + l | _ => false end.

Lemma read_port_text p : is_u 16 p → read_number 65535 (u16_to_string p) = Some (p, ""%string).
Proof.
  unfold is_u. change (2 ^ 16) with 65536. intros Hp. pose proof (Z.div_mod p 256 ltac:(lia)).
  pose proof (Z.mod_pos_bound p 256 ltac:(lia)). pose proof (Z.div_pos p 256 ltac:(lia) ltac:(lia)).
  pose proof (Z.div_lt_upper_bound p 256 256 ltac:(lia) ltac:(lia)).
  assert (port_text_ok (p / 256) (p mod 256) = true) as H'.
  { apply (u8_check2 port_text_ok); [vm_compute; reflexivity|unfold is_u; lia..]. }
  unfold port_text_ok in H'. replace (256 * (p / 256) + p mod 256) with p in H' by lia.
  destruct (read_number 65535 (u16_to_string p)) as [[v [|??]]|]; try done.
  apply Z.eqb_eq in H'. by subst.
Qed.

Lemma socket_parse_to_string ip port : is_u 32 ip → is_u 16 port →
  socket_parse (socket_to_string (SockV4 ip port)) = Some (SockV4 ip port).
Proof.
  intros Hi Hp. unfold socket_parse, read_socket_v4, socket_to_string.
  rewrite read_ipv4_app by done. cbn [mbind option_bind]. unfold read_port.
  rewrite StdFacts.append_cons, StdFacts.append_nil. cbn [read_char].
  rewrite bool_decide_eq_true_2 by done. cbn [mbind option_bind]. by rewrite read_port_text.
Qed.

(** *** What the server answers *)

Lemma resolve_answer fuel rng wall peer key ep req s w res s' w' :
  resolve_agent_request fuel rng wall peer key ep req s w = Some (res, s', w') →
  match rs_granted res with
  | Some g => ∃ target lease, wireguard_p2p_endpoint (rq_target_ip req) s = Some target ∧ lease ≠ 0 ∧
      g = mkGrantedLease (rq_target_ip req) lease ∧
      rs_response res = prost_encode (mkP2pAgentResponse (rq_request_id req) 0 (rq_target_ip req)
        (NetState.p2p_public_key target) (socket_to_string (p2p_endpoint target)) lease (lease_expiry wall))
  | None => ∃ status, status ≠ 0 ∧
      rs_response res = prost_encode (mkP2pAgentResponse (rq_request_id req) status (rq_target_ip req) [] "" 0 0)
  end.
Proof.
  unfold resolve_agent_request. destruct (_ || _ || _); [intros [= <- <- <-]; by exists 3|].
  destruct (wireguard_p2p_endpoint _ _) as [target|]; [|intros [= <- <- <-]; by exists 2].
  destruct (draw_lease_id fuel rng) as [lease|] eqn:Hd; cbn [mbind option_bind]; [|done].
  destruct (match control_packet _ _ _ with Some _ => _ | None => _ end) as [[[] ?] ?]; cbn [negb];
    intros [= <- <- <-]; [|by exists 4].
  exists target, lease. split_and!; try done. by eapply P2pFacts.draw_nonzero.
Qed.

(** *** What the agent accepts *)

Lemma validate_granted id tip key ip port lease expiry wall :
  length key = 32%nat → is_u 32 ip → is_u 16 port → lease ≠ 0 →
  validate_response (prost_encode (mkP2pAgentResponse id 0 tip key (socket_to_string (SockV4 ip port))
    lease expiry)) id tip wall =
  if bool_decide (unix_ms wall < expiry ≤ unix_ms wall + MAX_LEASE_AHEAD_MS)
  then Ok (mkAgentLease key (SockV4 ip port) lease expiry) else Err BadLifetime.
Proof.
  intros Hk Hi Hp Hl. unfold validate_response. rewrite prost_decode_encode.
  cbn [ok_or mbind result_bind ar_request_id ar_target_ip ar_status ar_target_public_key
       ar_target_endpoint ar_lease_id ar_expires_at_unix_ms].
  rewrite !Z.eqb_refl, Hk. cbn [andb status_as_i32 ensure mbind result_bind Nat.eqb].
  rewrite socket_parse_to_string by done. cbn [ok_or mbind result_bind ensure].
  destruct (Z.eqb_spec lease 0); [done|]. cbn [orb]. unfold saturating_sub, MAX_LEASE_AHEAD_MS.
  destruct (Z.leb_spec expiry (unix_ms wall)); cbn [orb negb ensure mbind result_bind].
  { rewrite bool_decide_eq_false_2 by lia. done. }
  destruct (Z.ltb_spec 120000 (Z.max (expiry - unix_ms wall) 0)); cbn [negb ensure mbind result_bind].
  - by rewrite bool_decide_eq_false_2 by lia.
  - by rewrite bool_decide_eq_true_2 by lia.
Qed.

Lemma validate_refused id tip status wall :
  status ≠ 0 →
  validate_response (prost_encode (mkP2pAgentResponse id status tip [] "" 0 0)) id tip wall =
  Err (Unavailable status).
Proof.
  intros Hs. unfold validate_response. rewrite prost_decode_encode.
  cbn [ok_or mbind result_bind ar_request_id ar_target_ip ar_status].
  rewrite !Z.eqb_refl. cbn [andb status_as_i32 ensure mbind result_bind].
  by destruct (Z.eqb_spec status 0).
Qed.
End Facts.
End AgentFacts.

(** *** The command line *)

(** An option of the command line, with its value as it is written. *)
Inductive CliOption :=
| OInterface (name : string) | OGateway (text : string) | OWg (path : string) | OTarget (text : string).

Definition render_option (o : CliOption) : list string :=
  match o with
  | OInterface v => ["--interface"; v] | OGateway v => ["--gateway"; v]
  | OWg v => ["--wg"; v] | OTarget v => ["--target"; v]
  end%string.

Definition interfaces (opts : list CliOption) : list string :=
  omap (λ o, match o with OInterface v => Some v | _ => None end) opts.
Definition gateways (opts : list CliOption) : list string :=
  omap (λ o, match o with OGateway v => Some v | _ => None end) opts.
Definition wg_paths (opts : list CliOption) : list string :=
  omap (λ o, match o with OWg v => Some v | _ => None end) opts.
Definition targets (opts : list CliOption) : list string :=
  omap (λ o, match o with OTarget v => Some v | _ => None end) opts.

(** What a list of options means: every address is one, the last interface,
    gateway and path count, and so do all targets. *)
Definition options_mean (windows : bool) (opts : list CliOption) (c : AgentConfig) : Prop :=
  last (interfaces opts) = Some (ac_interface c) ∧
  Forall (λ v, is_Some (ipv4_parse v)) (gateways opts) ∧
  (last (gateways opts) ≫= ipv4_parse) = Some (ac_gateway c) ∧
  ac_wg_path c = default (if windows then "wg.exe" else "wg")%string (last (wg_paths opts)) ∧
  Forall (λ v, is_Some (ipv4_parse v)) (targets opts) ∧
  ac_targets c ≠ [] ∧ StronglySorted Z.lt (ac_targets c) ∧ ac_gateway c ∉ ac_targets c ∧
  ∀ ip, ip ∈ ac_targets c ↔ ∃ v, v ∈ targets opts ∧ ipv4_parse v = Some ip.

Module CliFacts.
(** One option read by the loop. *)
Definition read_option (o : CliOption) (v : CliArgs) : option CliArgs :=
  match o with
  | OInterface i => Some (mkCliArgs (Some i) (ca_gateway v) (ca_wg_path v) (ca_targets v))
  | OGateway t => ip ← ipv4_parse t; Some (mkCliArgs (ca_interface v) (Some ip) (ca_wg_path v) (ca_targets v))
  | OWg w => Some (mkCliArgs (ca_interface v) (ca_gateway v) w (ca_targets v))
  | OTarget t => ip ← ipv4_parse t;
      Some (mkCliArgs (ca_interface v) (ca_gateway v) (ca_wg_path v) (ca_targets v ++ [ip]))
  end.

Fixpoint read_options (opts : list CliOption) (v : CliArgs) : option CliArgs :=
  match opts with [] => Some v | o :: opts => v ← read_option o v; read_options opts v end.

Lemma parse_args_options args v v' :
  parse_args args v = CliResult (Ok v') ↔
  ∃ opts, args = concat (render_option <$> opts) ∧ read_options opts v = Some v'.
Proof.
  split.
  - revert v. induction args as [args IH] using (induction_ltof1 _ length). unfold ltof in IH. intros v.
    assert (∀ o rest v1, args = render_option o ++ rest → read_option o v = Some v1 →
      parse_args rest v1 = CliResult (Ok v') →
      ∃ opts, args = concat (render_option <$> opts) ∧ read_options opts v = Some v') as Hone.
    { intros o rest v1 -> Ho Hp. destruct (IH rest) with v1 as (opts & -> & Hr); [|done|].
      { rewrite length_app. destruct o; simpl; lia. }
      exists (o :: opts). simpl. by rewrite Ho. }
    destruct args as [|arg args]; simpl; [intros [= <-]; by exists []|].
    case_bool_decide; [subst; destruct args as [|value rest]; [done|]; by eapply (Hone (OInterface value))|].
    case_bool_decide; [subst; destruct args as [|value rest]; [done|]; destruct (ipv4_parse value) eqn:E;
      [intros Hp; eapply (Hone (OGateway value)); [done|simpl; by rewrite E|done]|done]|].
    case_bool_decide; [subst; destruct args as [|value rest]; [done|]; by eapply (Hone (OWg value))|].
    case_bool_decide; [subst; destruct args as [|value rest]; [done|]; destruct (ipv4_parse value) eqn:E;
      [intros Hp; eapply (Hone (OTarget value)); [done|simpl; by rewrite E|done]|done]|].
    by destruct (_ || _).
  - intros (opts & -> & H). revert v H. induction opts as [|o opts IH]; intros v; simpl; [by intros [= ->]|].
    destruct (read_option o v) as [v1|] eqn:Ho; cbn [mbind option_bind]; [|done]. intros H.
    destruct o; simpl in *; repeat (rewrite (bool_decide_eq_true_2 (_ = _)) by done || rewrite (bool_decide_eq_false_2 (_ = _)) by done).
    all: try destruct (ipv4_parse text); simplify_eq/=; by apply IH.
Qed.

Lemma read_options_spec opts v v' :
  read_options opts v = Some v' ↔
  Forall (λ t, is_Some (ipv4_parse t)) (gateways opts) ∧ Forall (λ t, is_Some (ipv4_parse t)) (targets opts) ∧
  v' = mkCliArgs (match last (interfaces opts) with Some i => Some i | None => ca_interface v end)
         (match last (gateways opts) with Some t => ipv4_parse t | None => ca_gateway v end)
         (default (ca_wg_path v) (last (wg_paths opts)))
         (ca_targets v ++ omap ipv4_parse (targets opts)).
Proof.
  revert v. induction opts as [|o opts IH]; intros v.
  { simpl. rewrite app_nil_r. destruct v; simpl. naive_solver constructor. }
  destruct o as [i|t|w|t]; simpl; rewrite ?last_cons, ?Forall_cons.
  - rewrite IH. by destruct (last (interfaces opts)).
  - destruct (ipv4_parse t) as [ip|] eqn:E; cbn [mbind option_bind].
    + rewrite IH. simpl. pose proof (mk_is_Some _ _ E). destruct (last (gateways opts)); rewrite ?E; naive_solver.
    + split; [done|]. intros ([[? ?] _] & _). congruence.
  - rewrite IH. by destruct (last (wg_paths opts)).
  - destruct (ipv4_parse t) as [ip|] eqn:E; cbn [mbind option_bind].
    + rewrite IH. simpl. pose proof (mk_is_Some _ _ E). rewrite <- (assoc_L (++)). simpl. naive_solver.
    + split; [done|]. intros (_ & [[? ?] _] & _). congruence.
Qed.

(** *** Sorting and removing duplicates *)

Lemma dedup_spec l : StronglySorted Z.le l →
  StronglySorted Z.lt (dedup l) ∧ (∀ x, x ∈ dedup l ↔ x ∈ l) ∧ (l ≠ [] → dedup l ≠ []).
Proof.
  induction 1 as [|a l Hl (IH1 & IH2 & IH3) Ha]; [split_and!; try done; constructor|].
  destruct l as [|b l]; [split_and!; try done; by repeat constructor|].
  change (dedup (a :: b :: l)) with (if a =? b then dedup (b :: l) else a :: dedup (b :: l)).
  destruct (Z.eqb_spec a b) as [->|Hab].
  - split_and!; [done| |by intros _; apply IH3]. intros x. rewrite IH2. set_solver.
  - assert (∀ x, x ∈ b :: l → b ≤ x) as Hb.
    { intros x [->|Hx]%elem_of_cons; [lia|]. apply StronglySorted_inv in Hl as [_ Hl].
      rewrite Forall_forall in Hl. by apply Hl. }
    apply Forall_cons in Ha as [Ha _].
    split_and!; [|intros x; rewrite !elem_of_cons, IH2; set_solver|done].
    constructor; [done|]. apply Forall_forall. intros x Hx%IH2. specialize (Hb x Hx). lia.
Qed.

Lemma sorted_lt_unique l l' : StronglySorted Z.lt l → StronglySorted Z.lt l' →
  (∀ x, x ∈ l ↔ x ∈ l') → l = l'.
Proof.
  assert (∀ k, StronglySorted Z.lt k → NoDup k ∧ StronglySorted Z.le k) as Hk.
  { induction 1 as [|x k Hk [IH1 IH2] Hx]; [split; constructor|]. rewrite Forall_forall in Hx.
    split; constructor; try done; [intros Hin; specialize (Hx x Hin); lia|].
    apply Forall_forall. intros y Hy. specialize (Hx y Hy). lia. }
  intros [N1 S1]%Hk [N2 S2]%Hk He. apply (StronglySorted_unique Z.le); [done..|]. by apply NoDup_Permutation.
Qed.

Definition targets_of (l : list Z) : list Z := dedup (merge_sort Z.le l).

Lemma targets_of_spec l : StronglySorted Z.lt (targets_of l) ∧ (∀ x, x ∈ targets_of l ↔ x ∈ l) ∧
  (l ≠ [] → targets_of l ≠ []).
Proof.
  destruct (dedup_spec (merge_sort Z.le l)) as (H1 & H2 & H3);
    [apply Sorted_StronglySorted; [intros ???; lia|apply Sorted_merge_sort; apply _]|].
  pose proof (merge_sort_Permutation Z.le l) as Hp. split_and!; [done| |].
  - intros x. unfold targets_of. by rewrite H2, Hp.
  - intros Hl. apply H3. intros E. rewrite E in Hp. by apply Permutation_nil_l in Hp.
Qed.

Lemma check_args_spec v c : check_args v = Ok c ↔
  ca_interface v = Some (ac_interface c) ∧ ca_gateway v = Some (ac_gateway c) ∧
  ac_wg_path c = ca_wg_path v ∧ ca_targets v ≠ [] ∧ ac_targets c = targets_of (ca_targets v) ∧
  ac_gateway c ∉ ac_targets c.
Proof.
  unfold check_args. destruct v as [[i|] [g|] w ts], c as [i' g' w' ts']; simpl; try naive_solver.
  fold (targets_of ts). destruct ts as [|t ts]; simpl; [naive_solver|].
  case_bool_decide; simpl; split; intros H0; naive_solver.
Qed.
End CliFacts.

(** *** The output of [wg show latest-handshakes] *)

Local Abbreviation tab := (ascii_of_nat 9).
Local Abbreviation nl := (ascii_of_nat 10).

(** One line per peer: its key, a tab and the time of the handshake. *)
Fixpoint handshake_table (rows : list (string * string)) : string :=
  match rows with
  | [] => EmptyString
  | (key, time) :: rows => (key +:+ String tab (time +:+ String nl (handshake_table rows)))%string
  end.

Definition row_ok (row : string * string) : Prop :=
  all_bytes StrFacts.is_graphic row.1 = true ∧ row.1 ≠ ""%string ∧
  all_bytes StrFacts.is_graphic row.2 = true ∧ is_Some (u64_parse row.2).

Module TableFacts.
Import StrFacts.

Lemma strip_cr_graphic s : all_bytes is_graphic s = true → strip_cr s = s.
Proof.
  induction s as [|a s IH]; [done|]. rewrite all_bytes_cons. intros [Ha Hs]%andb_prop. simpl.
  destruct s as [|b s]; [|by rewrite IH]. unfold is_graphic in Ha. apply andb_prop in Ha as [Ha%Z.leb_le _].
  by destruct (Z.eqb_spec (ascii_code a) 13); [lia|].
Qed.

Lemma strip_cr_app a s : s ≠ ""%string → strip_cr (a +:+ s) = (a +:+ strip_cr s)%string.
Proof.
  intros Hs. induction a as [|x a IH]; [done|]. rewrite append_string. simpl. rewrite IH.
  destruct (a +:+ s)%string eqn:E; [|done]. destruct a; [|done]. by destruct s.
Qed.

Definition line_char (c : ascii) : bool := is_graphic c || bool_decide (c = tab).

Lemma line_no_nl s : all_bytes line_char s = true → no_char nl s = true.
Proof.
  intros H. unfold no_char. unfold all_bytes in H. induction (String.list_ascii_of_string s) as [|a l IH]; [done|].
  simpl in *. apply andb_prop in H as [Ha Hl]. rewrite IH by done.
  destruct (bool_decide_reflect (a = nl)); [by subst|done].
Qed.

Lemma lines_cons l r : all_bytes line_char l = true → strip_cr l = l →
  lines (l +:+ String nl r)%string = l :: lines r.
Proof.
  intros Hl Hs. unfold lines. rewrite split_app by (by apply line_no_nl). simpl. rewrite Hs.
  assert (∀ t, Str.split nl t ≠ []) as Hn.
  { intros t. destruct t as [|a t]; simpl; [done|]. case_bool_decide; [done|]. by destruct (Str.split nl t). }
  specialize (Hn r). by destruct (Str.split nl r).
Qed.

Lemma graphic_not_space a : is_graphic a = true → is_whitespace (String a "") = false.
Proof.
  intros H. assert (all_bytes is_graphic (String a "") = true) as H' by (by rewrite all_bytes_cons, H).
  apply graphic_no_whitespace in H'. simpl in H'. by rewrite orb_false_r in H'.
Qed.

(** The characters of a graphic word are collected. *)
Lemma words_graphic s cur rest : all_bytes is_graphic s = true →
  words cur (((λ c, String c "") <$> String.list_ascii_of_string s) ++ rest) = words (cur +:+ s) rest.
Proof.
  revert cur. induction s as [|a s IH]; intros cur; [by rewrite append_empty|].
  rewrite all_bytes_cons. intros [Ha Hs]%andb_prop. simpl. rewrite graphic_not_space by done.
  rewrite IH by done. by rewrite append_assoc.
Qed.

Lemma chars_line s : all_bytes line_char s = true →
  chars s = (λ c, String c "") <$> String.list_ascii_of_string s.
Proof.
  intros H. apply chars_ascii. revert H. apply all_bytes_impl. intros c [H|H]%orb_prop.
  - unfold is_graphic in H. by apply andb_prop in H as [_ H].
  - apply bool_decide_eq_true_1 in H. by subst.
Qed.

Lemma graphic_line s : all_bytes is_graphic s = true → all_bytes line_char s = true.
Proof. apply all_bytes_impl. intros c H. unfold line_char. by rewrite H. Qed.

Lemma row_words key time : all_bytes is_graphic key = true → key ≠ ""%string →
  all_bytes is_graphic time = true → time ≠ ""%string →
  split_whitespace (key +:+ String tab time) = [key; time].
Proof.
  intros Hk Hk0 Ht Ht0. unfold split_whitespace. rewrite chars_line.
  2: { rewrite all_bytes_app, all_bytes_cons, !graphic_line by done. done. }
  assert (∀ a b, String.list_ascii_of_string (a +:+ b) =
    String.list_ascii_of_string a ++ String.list_ascii_of_string b) as Happ.
  { induction a as [|x a IH]; intros b; [done|]. rewrite append_string. simpl. by rewrite IH. }
  rewrite Happ, fmap_app, words_graphic by done.
  change (String.list_ascii_of_string (String tab time)) with (tab :: String.list_ascii_of_string time).
  rewrite fmap_cons. cbn [words]. change (is_whitespace (String tab "")) with true. cbn iota.
  rewrite bool_decide_eq_false_2 by done. f_equal.
  rewrite <- (app_nil_r (_ <$> String.list_ascii_of_string time)), words_graphic by done. simpl.
  by rewrite bool_decide_eq_false_2.
Qed.

Lemma time_nonempty t : is_Some (u64_parse t) → t ≠ ""%string.
Proof. intros [n H] ->. by vm_compute in H. Qed.
End TableFacts.

(** ** Theorems *)

Section Theorems.
Context {NL : Ipv4NetLib} {U32 : NetU32Lib} {PC : P2pCodec} {PCL : P2pCodecLaws}.
Context {W : Type} {MV : Mpsc W bytes} {MW : Mpsc W WireGuardBridgePacket}.

(** The command line.  The agent starts exactly when its arguments are options with
    their values, every address written as an IPv4 address, an interface, a gateway
    and a target among them; the last interface, gateway and path count, the targets
    are the ones written, each once and in ascending order, and the gateway is not one
    of them. *)
Theorem agent_command_line windows args c :
  parse_config windows args = CliResult (Ok c) ↔
  ∃ opts, tail args = concat (render_option <$> opts) ∧ options_mean windows opts c.
Proof.
  unfold parse_config, options_mean. set (v0 := mkCliArgs _ _ _ _).
  assert (parse_config windows args = CliResult (Ok c) ↔
    ∃ v, parse_args (tail args) v0 = CliResult (Ok v) ∧ check_args v = Ok c) as Hv.
  { unfold parse_config. fold v0. destruct (parse_args (tail args) v0) as [|[v|e]];
      (split; [intros H|intros (v' & E & H)]); simplify_eq/=; try done; [by exists v|by rewrite H]. }
  etransitivity; [exact Hv|]. setoid_rewrite CliFacts.parse_args_options.
  setoid_rewrite CliFacts.read_options_spec. setoid_rewrite CliFacts.check_args_spec.
  assert (∀ opts ip, ip ∈ omap ipv4_parse (targets opts) ↔
    ∃ v, v ∈ targets opts ∧ ipv4_parse v = Some ip) as Hin by (intros; apply list_elem_of_omap).
  split.
  - intros (v & (opts & Ho & Hg & Ht & ->) & Hi & Hgw & Hw & Hne & Htg & Hn). exists opts. simpl in *.
    destruct (CliFacts.targets_of_spec (omap ipv4_parse (targets opts))) as (S1 & S2 & S3).
    split; [done|]. split_and!; try done.
    + revert Hi. destruct (last (interfaces opts)); [by intros ->|done].
    + rewrite Htg. by apply S3.
    + by rewrite Htg.
    + intros ip. by rewrite Htg, S2, Hin.
  - intros (opts & Ho & Hi & Hg & Hgw & Hw & Ht & Hne & Hs & Hn & Hel). eexists. split; [by exists opts|].
    simpl. destruct (CliFacts.targets_of_spec (omap ipv4_parse (targets opts))) as (S1 & S2 & S3).
    rewrite Hi. destruct (last (gateways opts)); [|done]. split_and!; try done.
    + destruct (ac_targets c) as [|t r]; [done|]. specialize (Hel t). rewrite <- Hin in Hel.
      intros E. rewrite E in Hel. set_solver.
    + apply CliFacts.sorted_lt_unique; [done..|]. intros x. by rewrite S2, Hin, Hel.
Qed.

(** The agent reads the handshake times [wg] prints: from a table with one line
    per peer it takes the time of the first line with the key, and nothing when the
    key has no line. *)
Theorem handshake_times_read rows key :
  Forall row_ok rows →
  parse_latest_handshake (handshake_table rows) key =
  find_map (λ row, if bool_decide (row.1 = key) then u64_parse row.2 else None) rows.
Proof.
  unfold parse_latest_handshake. induction 1 as [|[k t] rows (Hk & Hk0 & Ht & Hp) _ IH]; [done|].
  simpl in *. pose proof (TableFacts.time_nonempty t Hp).
  replace (k +:+ String tab (t +:+ String nl (handshake_table rows)))%string
    with ((k +:+ String tab t) +:+ String nl (handshake_table rows))%string
    by by rewrite StrFacts.append_assoc.
  rewrite TableFacts.lines_cons.
  - simpl. unfold handshake_field at 1. rewrite TableFacts.row_words by done. simpl.
    rewrite IH. case_bool_decide; [|done]. destruct Hp as [n ->]. done.
  - rewrite StrFacts.all_bytes_app, StrFacts.all_bytes_cons, !TableFacts.graphic_line by done. done.
  - rewrite TableFacts.strip_cr_app by done. simpl. f_equal. destruct t; [done|].
    by rewrite TableFacts.strip_cr_graphic.
Qed.

End Theorems.

(** ** Witnesses *)

Module AgentAnswerWitness.
Import Model LeaseWitness NetWitness TunnelModel P2pModel P2pWitness.
#[local] Existing Instance NetWitness.MV.
#[local] Existing Instance NetWitness.MW.


Lemma handshake_times_read_witness :
  parse_latest_handshake (handshake_table [("other", "20"); ("managed", "30")]%string) "managed" = Some 30.
Proof.
  etransitivity; [apply (handshake_times_read [("other", "20"); ("managed", "30")]%string "managed")|reflexivity].
  repeat constructor; try done; vm_compute; eauto.
Defined.

Example command_line :
  parse_config false ["agent"; "--interface"; "wg0"; "--gateway"; "10.26.0.1"; "--target"; "10.26.0.3";
    "--target"; "10.26.0.2"; "--target"; "10.26.0.3"]%string =
    CliResult (Ok (mkAgentConfig "wg0" gw "wg" [host 2; host 3])) ∧
  parse_config false ["agent"]%string = CliResult (Err InterfaceRequired) ∧
  parse_config false ["agent"; "--target"]%string = CliResult (Err (MissingValue "--target")) ∧
  parse_config true ["agent"; "-h"]%string = CliHelp.
Proof. vm_compute. done. Qed.
End AgentAnswerWitness.
