(* ===== verification/AgentTasks.v ===== *)
(** The tasks of the managed agent: [discover], [wait_for_handshake], [run_target]
    and the end of [main] in [wireguard-agent/src/main.rs].

    One task per target runs until the process is told to stop; the tasks share the
    table of the peers they manage.  A task is a state machine: between two awaits it
    runs alone, so a state is the await it is in, with the variables that are still
    used, and an input is how that await ends.  The log holds what a task sent,
    received, read, ran and recorded. *)

From S2P Require Import Prelude Libs Std Text Tunnel P2p ClientConfig Agent.
From stdpp Require Import base gmap strings list.
From Stdlib Require Import ZArith Lia.

Local Open Scope Z_scope.

(** How an await ends.  [wall] is the system time and [instant] the monotonic clock
    when the task runs on, in nanoseconds. *)
Inductive input :=
| Io (ok : bool)                             (** a socket call *)
| Candidate (c : Z)                          (** a draw of the random generator *)
| Datagram (d : option bytes) (wall : Z)     (** [recv] before its timeout; [None]: an error *)
| TimedOut                                   (** [recv] did not return in time *)
| Locked (wall : Z)                          (** the lock of the table *)
| Ran (r : CmdResult) (instant : Z)          (** a [wg] command *)
| Slept.                                     (** [sleep] *)

Inductive state :=
| Bind                                                     (** [bind] and [connect] *)
| Draw                                                     (** the loop that draws the request id *)
| SendRequest (id : Z)
| AwaitAnswer (id : Z)
| ReadPrevious (l : AgentLease)                            (** [managed.lock()] for [get] *)
| RemovePrevious (l : AgentLease) (previous : string)
| Probe (l : AgentLease) (same_peer : bool)
| Insert (key : string) (same_peer : bool)                 (** [managed.lock()] for [insert] *)
| ReadLatest (key : string) (same_peer : bool) (now : Z)
| Poll (key : string) (started deadline : Z)
| PollSleep (key : string) (started deadline : Z)
| RemoveTimedOut (key : string)
| ForgetTimedOut (key : string)                            (** [managed.lock()] for [remove] *)
| Activate (key : string)
| Refresh
| Failed (e : AgentError)                                  (** [managed.lock()] after an error *)
| RemoveFailed (key : string)
| Retry.

Inductive event :=
| EvSent (request : bytes)
| EvAnswer (d : bytes) (wall : Z)
| EvPrevious (previous : option string)
| EvInserted (key : string) (now : Z)
| EvForgotten (key : option string)
| EvCommand (args : list string) (r : CmdResult).

Abbreviation Managed := (gmap Z string) (only parsing).

Section Task.
Context {PC : P2pCodec} {B64 : Base64Lib}.
Context (cli : WgCli) (target : Ipv4Addr).

Definition lease_key (l : AgentLease) : string := b64_encode (le_public_key l).

(** [SystemTime::now()] in seconds. *)
Definition unix_secs (wall : Z) : Z := as_secs (Z.max wall 0).

(** The command a task waits for; it runs as soon as the task is in the state. *)
Definition command (p : state) : option (list string) :=
  let i := wg_interface cli in
  match p with
  | RemovePrevious _ previous => Some (remove_args i previous)
  | Probe l _ => Some (probe_args i (lease_key l) (le_endpoint l))
  | ReadLatest _ _ _ | Poll _ _ _ => Some (show_args i)
  | RemoveTimedOut key | RemoveFailed key => Some (remove_args i key)
  | Activate key => Some (activate_args i key target)
  | _ => None
  end.

Definition still_fresh (same_peer : bool) (latest now : Z) : bool :=
  same_peer && (0 <? latest) && (saturating_sub now latest <=? as_secs MAX_HANDSHAKE_AGE).

(** [?] on the result of a command. *)
Definition after (r : CmdResult) (next : state) : state :=
  match run r with Ok _ => next | Err e => Failed e end.

(** The end of [wg.latest_handshake(..).await?]. *)
Definition after_latest (r : CmdResult) (key : string) (next : Z → state) : state :=
  match latest_handshake r key with Ok latest => next latest | Err e => Failed e end.

Definition after_command (p : state) (r : CmdResult) (instant : Z) : option state :=
  match p with
  | RemovePrevious l _ => Some (Probe l false)
  | Probe l same_peer => Some (after r (Insert (lease_key l) same_peer))
  | ReadLatest key same_peer now =>
      Some (after_latest r key (λ latest,
        if still_fresh same_peer latest now then Activate key
        else Poll key (saturating_sub now 1) (instant + HANDSHAKE_TIMEOUT)))
  | Poll key started deadline =>
      Some (after_latest r key (λ latest,
        if started <=? latest then Activate key
        else if deadline <=? instant then RemoveTimedOut key
        else PollSleep key started deadline))
  | RemoveTimedOut key => Some (after r (ForgetTimedOut key))
  | Activate key => Some (after r Refresh)
  | RemoveFailed _ => Some Retry
  | _ => None
  end.

(** [None]: the input is not an end of the await. *)
Definition step (i : input) (p : state) (m : Managed) : option (state * Managed * list event) :=
  match p, i with
  | Bind, Io ok => Some (if ok then Draw else Failed SocketFailed, m, [])
  | Draw, Candidate c => Some (if negb (c =? 0) then SendRequest c else Draw, m, [])
  | SendRequest id, Io true => Some (AwaitAnswer id, m, [EvSent (request target id)])
  | SendRequest id, Io false => Some (Failed SocketFailed, m, [])
  | AwaitAnswer id, TimedOut => Some (Failed DiscoveryTimedOut, m, [])
  | AwaitAnswer id, Datagram None _ => Some (Failed SocketFailed, m, [])
  | AwaitAnswer id, Datagram (Some d) wall =>
      match validate_response (take ANSWER_BUFFER d) id target wall with
      | Ok l => Some (ReadPrevious l, m, [EvAnswer d wall])
      | Err e => Some (Failed e, m, [EvAnswer d wall])
      end
  | ReadPrevious l, Locked _ =>
      let previous := m !! target in
      let same_peer := bool_decide (previous = Some (lease_key l)) in
      match previous with
      | Some previous' =>
          if negb same_peer then Some (RemovePrevious l previous', m, [EvPrevious previous])
          else Some (Probe l same_peer, m, [EvPrevious previous])
      | None => Some (Probe l same_peer, m, [EvPrevious previous])
      end
  | Insert key same_peer, Locked wall =>
      let now := unix_secs wall in
      Some (ReadLatest key same_peer now, <[target := key]> m, [EvInserted key now])
  | PollSleep key started deadline, Slept => Some (Poll key started deadline, m, [])
  | ForgetTimedOut key, Locked _ =>
      Some (Failed HandshakeTimedOut, delete target m, [EvForgotten (m !! target)])
  | Refresh, Slept | Retry, Slept => Some (Bind, m, [])
  | Failed e, Locked _ =>
      match m !! target with
      | Some key => Some (RemoveFailed key, delete target m, [EvForgotten (Some key)])
      | None => Some (Retry, m, [EvForgotten None])
      end
  | p, Ran r instant =>
      args ← command p; p' ← after_command p r instant; Some (p', m, [EvCommand args r])
  | _, _ => None
  end.
End Task.

(** ** The running agent *)

Record System := mkSystem {
  tasks : gmap Z state; managed : gmap Z string; log : list (Z * event) }.

Section System.
Context {PC : P2pCodec} {B64 : Base64Lib}.
Context (cli : WgCli).

(** [main]: one task for every target of the configuration. *)
Definition start (targets : list Ipv4Addr) : System :=
  mkSystem (list_to_map ((λ t, (t, Bind)) <$> targets)) ∅ [].

(** The guard of [if let Some(..) = managed.lock().await.remove(..)] lives until the
    removal inside has run: meanwhile no other task gets the lock. *)
Definition holds_lock (p : state) : bool := match p with RemoveFailed _ => true | _ => false end.
Definition lock_free (s : System) : Prop := map_Forall (λ _ p, holds_lock p = false) (tasks s).

Inductive sys_step : System → System → Prop :=
| sys_task t i p p' m evs s :
    tasks s !! t = Some p → step cli t i p (managed s) = Some (p', m, evs) →
    (∀ wall, i = Locked wall → lock_free s) →
    sys_step s (mkSystem (<[t := p']> (tasks s)) m (log s ++ ((t,.) <$> evs))).

(** [ctrl_c]: every task is aborted; a command it waits for goes on without it.  The
    table is drained, in an order the hash map chooses, and its peers are removed. *)
Record Closing := mkClosing { orphans : list (list string); todo : list string; trace : list event }.

Definition close (s : System) (peers : list string) : Closing :=
  mkClosing (omap (λ tp, command cli tp.1 tp.2) (map_to_list (tasks s))) peers (snd <$> log s).

Inductive close_step : Closing → Closing → Prop :=
| close_orphan o1 args o2 r todo trace :
    close_step (mkClosing (o1 ++ args :: o2) todo trace)
               (mkClosing (o1 ++ o2) todo (trace ++ [EvCommand args r]))
| close_remove o key todo trace r :
    close_step (mkClosing o (key :: todo) trace)
               (mkClosing o todo (trace ++ [EvCommand (remove_args (wg_interface cli) key) r])).
End System.

(** ** What the commands leave behind *)

(** Whether the agent saw a command succeed that sets peer [key] of the interface,
    and none since that removes it. *)
Definition mark (iface key : string) (b : bool) (e : event) : bool :=
  match e with
  | EvCommand args r =>
      if is_ok (run r) then
        if bool_decide (args = remove_args iface key) then false
        else if bool_decide (take 4 args = ["set"; iface; "peer"; key]%string) then true else b
      else b
  | _ => b
  end.

Definition outstanding (iface key : string) (trace : list event) : bool :=
  fold_left (mark iface key) trace false.

(** A removal of the peer failed. *)
Definition removal_failed (iface key : string) (trace : list event) : Prop :=
  ∃ r, EvCommand (remove_args iface key) r ∈ trace ∧ is_ok (run r) = false.

(** ** Invariants of a task and the table *)

Section Book.
Context {B64 : Base64Lib}.

(** What a task knows of its own entry [e] of the table. *)
Definition entry_ok (p : state) (e : option string) : Prop :=
  match p with
  | RemovePrevious l previous => e = Some previous ∧ previous ≠ lease_key l
  | Probe l same_peer => same_peer = bool_decide (e = Some (lease_key l))
  | Insert key same_peer => same_peer = bool_decide (e = Some key)
  | ReadLatest key _ _ | Poll key _ _ | PollSleep key _ _ | RemoveTimedOut key | ForgetTimedOut key
  | Activate key => e = Some key
  | _ => True
  end.

(** The task accounts for a peer: it will record it, remove it, or has recorded it and
    not removed it yet. *)
Definition accounts (p : state) (e : option string) (key : string) : Prop :=
  match p with
  | Probe _ same_peer => same_peer = true ∧ e = Some key
  | Insert k _ | RemoveFailed k => k = key
  | ForgetTimedOut _ => False
  | _ => e = Some key
  end.

(** The states in which a task that is aborted leaves a peer without an entry, or a
    command that sets one running. *)
Definition unsettled (p : state) (key : string) : Prop :=
  match p with
  | Probe l _ => lease_key l = key
  | Insert k _ | Activate k | RemoveFailed k => k = key
  | _ => False
  end.
End Book.

Module BookFacts.
Section Facts.
Context {PC : P2pCodec} {B64 : Base64Lib} (cli : WgCli).
Abbreviation iface := (wg_interface cli).

Lemma mark_remove key k b r :
  mark iface key b (EvCommand (remove_args iface k) r) =
  if bool_decide (k = key) then (if is_ok (run r) then false else b) else b.
Proof.
  unfold mark. destruct (bool_decide_reflect (k = key)).
  - subst. rewrite (bool_decide_eq_true_2 (remove_args _ _ = _)) by done. by destruct (is_ok (run r)).
  - destruct (is_ok (run r)); [|done]. rewrite !bool_decide_eq_false_2; [done|..]; intros [= ?]; done.
Qed.

Lemma mark_show key b r : mark iface key b (EvCommand (show_args iface) r) = b.
Proof. unfold mark. by destruct (is_ok (run r)). Qed.

Lemma mark_set key k b r rest : (2 ≤ length rest)%nat →
  mark iface key b (EvCommand (["set"; iface; "peer"; k]%string ++ rest) r) =
  if bool_decide (k = key) then (if is_ok (run r) then true else b) else b.
Proof.
  intros Hr. unfold mark.
  rewrite bool_decide_eq_false_2 by (intros [= _ Hl]; by rewrite Hl in Hr; simpl in Hr; lia). simpl.
  destruct (bool_decide_reflect (k = key)), (is_ok (run r)); try done; case_bool_decide; naive_solver.
Qed.

Lemma mark_probe key k b r ep : mark iface key b (EvCommand (probe_args iface k ep) r) =
  if bool_decide (k = key) then (if is_ok (run r) then true else b) else b.
Proof. apply (mark_set key k b r ["endpoint"; socket_to_string ep; "persistent-keepalive"; "15"]%string). simpl. lia. Qed.

Lemma mark_activate key k b r t : mark iface key b (EvCommand (activate_args iface k t) r) =
  if bool_decide (k = key) then (if is_ok (run r) then true else b) else b.
Proof. apply (mark_set key k b r ["allowed-ips"; ipv4_to_string t +:+ "/32"]%string). simpl. lia. Qed.

Lemma outstanding_app key tr evs :
  outstanding iface key (tr ++ evs) = fold_left (mark iface key) evs (outstanding iface key tr).
Proof. apply fold_left_app. Qed.

(** *** One step of a task *)

(** A task touches no entry but its own. *)
Lemma step_others t i p m p' m' evs t' :
  step cli t i p m = Some (p', m', evs) → t' ≠ t → m' !! t' = m !! t'.
Proof.
  intros H Ht. destruct p, i; simplify_eq/=; try done; repeat case_match; simplify_eq/=;
    by rewrite ?lookup_insert_ne, ?lookup_delete_ne.
Qed.

Lemma step_entry_ok t i p m p' m' evs :
  step cli t i p m = Some (p', m', evs) → entry_ok p (m !! t) → entry_ok p' (m' !! t).
Proof.
  intros H He. unfold after, after_latest in *.
  destruct p, i; simplify_eq/=; try done; unfold after, after_latest in *;
    repeat case_match; simplify_eq/=; bool_simpl; rewrite ?lookup_insert_eq; try done.
  - split; congruence.
  - by match goal with H : _ !! t = Some _ |- _ => rewrite H end.
  - symmetry. apply bool_decide_eq_false_2. congruence.
  - destruct He as [-> ?]. symmetry. apply bool_decide_eq_false_2. congruence.
Qed.

Lemma removal_failed_here k r : is_ok (run r) = false →
  removal_failed iface k [EvCommand (remove_args iface k) r].
Proof. intros H. exists r. split; [left|done]. Qed.

(** What a step leaves outstanding is accounted for: the removal failed, the task
    accounts for it afterwards, or it was outstanding and somebody else's. *)
Lemma step_account t i p m p' m' evs key tr :
  step cli t i p m = Some (p', m', evs) → entry_ok p (m !! t) →
  outstanding iface key (tr ++ evs) = true →
  removal_failed iface key evs ∨ accounts p' (m' !! t) key ∨
  (outstanding iface key tr = true ∧ ¬ accounts p (m !! t) key).
Proof.
  rewrite outstanding_app. intros H He Ho.
  destruct p, i; simplify_eq/=; try done; unfold after, after_latest in *.
  all: rewrite ?mark_remove, ?mark_show, ?mark_probe, ?mark_activate in Ho.
  all: repeat case_match; simplify_eq/=; bool_simpl.
  all: rewrite ?lookup_insert_eq, ?lookup_delete_eq.
  all: try (by eauto); try (by destruct He as [-> ?]; naive_solver).
  all: try (by destruct (decide (m' !! t = Some key)); naive_solver).
  - match goal with H : m' !! t = Some _ |- _ => rewrite H end.
    rewrite bool_decide_eq_true_2 by done. destruct (decide (s = key)); naive_solver.
  - destruct He as [He ?]. rewrite He. destruct (bool_decide_reflect (previous = key)); [subst|naive_solver].
    destruct (is_ok (run r)) eqn:Hr; [done|]. left. by apply removal_failed_here.
  - destruct (bool_decide_reflect (lease_key l = key)); [by right; left|]. right. right. split; [done|].
    intros [E1%bool_decide_eq_true_1 E2]. congruence.
  - destruct (decide (key0 = key)); naive_solver.
  - destruct (decide (s = key)); naive_solver.
  - destruct (bool_decide_reflect (key0 = key)); [subst|naive_solver].
    destruct (is_ok (run r)) eqn:Hr; [done|]. left. by apply removal_failed_here.
Qed.

(** *** The running agent *)

Definition accounted (s : System) : Prop :=
  (∀ t p, tasks s !! t = Some p → entry_ok p (managed s !! t)) ∧
  ∀ key, outstanding iface key (snd <$> log s) = true →
    removal_failed iface key (snd <$> log s) ∨
    ∃ t p, tasks s !! t = Some p ∧ accounts p (managed s !! t) key.

Lemma start_accounted targets : accounted (start targets).
Proof.
  split; [|done]. simpl. intros t p Hp%elem_of_list_to_map_2. apply list_elem_of_fmap in Hp as (? & ? & _).
  by simplify_eq.
Qed.

Lemma log_events (t : Z) evs : snd <$> ((t,.) <$> evs : list (Z * event)) = evs.
Proof. rewrite <- list_fmap_compose. apply list_fmap_id. Qed.

Lemma removal_failed_mono key tr evs :
  removal_failed iface key tr ∨ removal_failed iface key evs → removal_failed iface key (tr ++ evs).
Proof. intros [(r & ? & ?)|(r & ? & ?)]; exists r; (split; [|done]); apply elem_of_app; auto. Qed.

Lemma sys_step_accounted s s' : sys_step cli s s' → accounted s → accounted s'.
Proof.
  intros [t i p p' m evs s0 Hp Hs _] [He Ha]. unfold accounted. simpl.
  rewrite fmap_app, log_events. pose proof (He t p Hp) as Hpe. split.
  - intros t' q. rewrite lookup_insert_Some. intros [[<- <-]|[Ht Hq]]; [by eapply step_entry_ok|].
    rewrite (step_others _ _ _ _ _ _ _ t' Hs) by done. by apply He.
  - intros key Ho.
    destruct (step_account _ _ _ _ _ _ _ key _ Hs Hpe Ho) as [Hf|[Hk|[Ho' Hn]]].
    + left. apply removal_failed_mono. by right.
    + right. exists t, p'. by rewrite lookup_insert_eq.
    + destruct (Ha key Ho') as [Hf|(t' & q & Hq & Hk)]; [left; apply removal_failed_mono; by left|].
      right. assert (t' ≠ t) by (intros ->; congruence). exists t', q.
      by rewrite lookup_insert_ne, (step_others _ _ _ _ _ _ _ t' Hs).
Qed.

Lemma reachable_accounted targets s : rtc (sys_step cli) (start targets) s → accounted s.
Proof. apply rtc_ind_r; [apply start_accounted|]. intros s1 s2 _ H. by apply sys_step_accounted. Qed.

(** *** The end of the process *)

(** The command of an aborted task makes a peer outstanding only if the task was
    unsettled. *)
Lemma orphan_mark t p args key b r :
  command cli t p = Some args → mark iface key b (EvCommand args r) = true → b = true ∨ unsettled p key.
Proof.
  intros Hc Hm. destruct p; simpl in Hc; try done; injection Hc as <-;
    rewrite ?mark_remove, ?mark_show, ?mark_probe, ?mark_activate in Hm; simpl; auto;
    (match type of Hm with context [bool_decide ?P] => destruct (bool_decide_reflect P) end);
    destruct (is_ok (run r)); auto; done.
Qed.

Definition closing_ok (s : System) (c : Closing) : Prop :=
  (∀ args, args ∈ orphans c → ∃ t p, tasks s !! t = Some p ∧ command cli t p = Some args) ∧
  ∀ key, outstanding iface key (trace c) = true →
    removal_failed iface key (trace c) ∨ key ∈ todo c ∨ ∃ t p, tasks s !! t = Some p ∧ unsettled p key.

Lemma close_ok s peers :
  accounted s → peers ≡ₚ (map_to_list (managed s)).*2 → closing_ok s (close cli s peers).
Proof.
  intros [He Ha] Hp. split.
  - simpl. intros args ([t p] & Hin & Hc)%list_elem_of_omap. exists t, p.
    by rewrite <- elem_of_map_to_list.
  - simpl. intros key Ho. destruct (Ha key Ho) as [Hf|(t & p & Ht & Hk)]; [by left|right].
    assert (managed s !! t = Some key → key ∈ peers) as Hm.
    { intros Hm%elem_of_map_to_list. rewrite Hp. apply list_elem_of_fmap. by exists (t, key). }
    destruct p; simpl in Hk; try (by left; apply Hm; naive_solver); try done;
      right; by eexists _, _.
Qed.

Lemma close_step_ok s c c' : close_step cli c c' → closing_ok s c → closing_ok s c'.
Proof.
  intros Hs [Ho Hk]. destruct Hs as [o1 args o2 r td tr|o k td tr r]; simpl in *.
  - split; simpl.
    { intros a Ha. apply Ho. set_solver. }
    intros key Hout. rewrite outstanding_app in Hout. cbn [fold_left] in Hout.
    destruct (Ho args) as (t & p & Ht & Hc); [set_solver|].
    destruct (orphan_mark _ _ _ _ _ _ Hc Hout) as [Hb|Hu]; [|right; right; by eexists _, _].
    destruct (Hk key Hb) as [Hf|Hrest]; [|by right]. left. apply removal_failed_mono. by left.
  - split; [done|]. simpl. intros key Hout. rewrite outstanding_app in Hout. cbn [fold_left] in Hout. rewrite mark_remove in Hout. destruct (bool_decide_reflect (k = key)); [subst|].
    + destruct (is_ok (run r)) eqn:Hr; [done|]. left. apply removal_failed_mono. right.
      by apply removal_failed_here.
    + destruct (Hk key Hout) as [Hf|[Hin|Hu]]; [left; apply removal_failed_mono; by left| |by right; right].
      right. left. apply elem_of_cons in Hin as [->|]; done.
Qed.

Lemma closing_accounted s c c' : rtc (close_step cli) c c' → closing_ok s c → closing_ok s c'.
Proof. induction 1 as [|c1 c2 c3 Hs _ IH]; [done|]. intros H. by apply IH, (close_step_ok s c1). Qed.
End Facts.
End BookFacts.

(** ** The rounds of a task *)

(** The events of one task. *)
Definition own (t : Z) (l : list (Z * event)) : list event :=
  omap (λ te, if te.1 =? t then Some te.2 else None) l.

Section Rounds.
Context {PC : P2pCodec} {B64 : Base64Lib} (cli : WgCli) (target : Ipv4Addr).
Local Abbreviation iface := (wg_interface cli).

(** A request was sent and its answer accepted as the lease. *)
Definition answered (l : AgentLease) (rd : list event) : Prop :=
  ∃ id d wall, id ≠ 0 ∧ validate_response (take ANSWER_BUFFER d) id target wall = Ok l ∧
    rd = [EvSent (request target id); EvAnswer d wall].

(** The peer recorded before was removed first, if it was another one. *)
Definition removal (previous : option string) (key : string) (evs : list event) : Prop :=
  match previous with
  | Some k => if bool_decide (k = key) then evs = [] else ∃ r, evs = [EvCommand (remove_args iface k) r]
  | None => evs = []
  end.

Definition prepared (l : AgentLease) (previous : option string) (rd : list event) : Prop :=
  ∃ a evs, answered l a ∧ removal previous (lease_key l) evs ∧ rd = a ++ EvPrevious previous :: evs.

(** The peer was set with the endpoint of the lease. *)
Definition probed (key : string) (previous : option string) (rd : list event) : Prop :=
  ∃ l a r, prepared l previous a ∧ key = lease_key l ∧ is_ok (run r) = true ∧
    rd = a ++ [EvCommand (probe_args iface key (le_endpoint l)) r].

Definition is_show (e : event) : Prop := ∃ r, e = EvCommand (show_args iface) r.

(** It was recorded at the time [now], and since then only handshakes were read. *)
Definition waiting (key : string) (previous : option string) (now : Z) (rd : list event) : Prop :=
  ∃ a shows, probed key previous a ∧ Forall is_show shows ∧ rd = a ++ EvInserted key now :: shows.

(** A handshake not older than the second before, or, for a peer that was managed
    already, than three minutes. *)
Definition handshake_fresh (previous : option string) (key : string) (now latest : Z) : Prop :=
  now - 1 ≤ latest ∨ previous = Some key ∧ 0 < latest ∧ now - latest ≤ 180.

(** The last of these readings showed a fresh handshake. *)
Definition confirmed (key : string) (rd : list event) : Prop :=
  ∃ previous now a r out, waiting key previous now a ∧ run r = Ok out ∧
    handshake_fresh previous key now (default 0 (parse_latest_handshake out key)) ∧
    rd = a ++ [EvCommand (show_args iface) r].

Definition round_ok (p : state) (rd : list event) : Prop :=
  match p with
  | Bind | Draw => rd = []
  | SendRequest id => rd = [] ∧ id ≠ 0
  | AwaitAnswer id => rd = [EvSent (request target id)] ∧ id ≠ 0
  | ReadPrevious l => answered l rd
  | RemovePrevious l k => ∃ a, answered l a ∧ rd = a ++ [EvPrevious (Some k)] ∧ k ≠ lease_key l
  | Probe l same => ∃ previous, prepared l previous rd ∧ same = bool_decide (previous = Some (lease_key l))
  | Insert key same => ∃ previous, probed key previous rd ∧ same = bool_decide (previous = Some key)
  | ReadLatest key same now => ∃ previous, waiting key previous now rd ∧ same = bool_decide (previous = Some key)
  | Poll key started _ | PollSleep key started _ =>
      ∃ previous now, waiting key previous now rd ∧ started = saturating_sub now 1
  | Activate key => confirmed key rd
  | _ => True
  end.

(** A command that changes routes. *)
Definition routes (e : event) : Prop :=
  match e with EvCommand args _ => args !! 4%nat = Some "allowed-ips"%string | _ => False end.

Lemma waiting_snoc key previous now rd r :
  waiting key previous now rd → waiting key previous now (rd ++ [EvCommand (show_args iface) r]).
Proof.
  intros (a & shows & Ha & Hs & ->). exists a, (shows ++ [EvCommand (show_args iface) r]).
  split_and!; [done| |by rewrite <- app_assoc]. apply Forall_app. split; [done|].
  repeat constructor. by exists r.
Qed.

Lemma latest_ok r key h : latest_handshake r key = Ok h →
  ∃ out, run r = Ok out ∧ h = default 0 (parse_latest_handshake out key).
Proof. unfold latest_handshake. destruct (run r) as [out|]; [|done]. intros [= <-]. by exists out. Qed.

(** A step changes routes only when it ends the activation. *)
Lemma step_routes i p m p' m' evs e :
  step cli target i p m = Some (p', m', evs) → e ∈ evs → routes e →
  ∃ key r, p = Activate key ∧ e = EvCommand (activate_args iface key target) r.
Proof.
  intros H He Hr. destruct p, i; simplify_eq/=; try done; repeat case_match; simplify_eq/=;
    first [by apply elem_of_nil in He|apply list_elem_of_singleton in He; subst; try done]; eauto.
Qed.

(** A step goes on with the round or starts a new one. *)
Lemma step_round i p m p' m' evs rd :
  step cli target i p m = Some (p', m', evs) → round_ok p rd →
  ∃ rd', round_ok p' rd' ∧ (rd' = rd ++ evs ∨ rd' = []).
Proof.
  intros H Hr. destruct p, i; simplify_eq/=; try done; unfold after, after_latest in *.
  all: repeat case_match; simplify_eq/=; bool_simpl.
  all: try (exists []; split; [done|by right]).
  all: eexists; split; [|by left].
  - by destruct Hr as [-> ?].
  - destruct Hr as [-> ?]. by exists id, l, wall.
  - exists rd. split_and!; [done..|congruence].
  - exists (Some s). split; [|done]. exists rd, []. split_and!; [done| |done].
    simpl. rewrite bool_decide_eq_true_2; [done|congruence].
  - exists None. split; [|done]. by exists rd, [].
  - destruct Hr as (a & Ha & -> & Hk). exists (Some previous). split.
    + exists a, [EvCommand (remove_args iface previous) r]. split_and!; [done| |by rewrite <- app_assoc].
      simpl. rewrite bool_decide_eq_false_2 by done. by exists r.
    + symmetry. apply bool_decide_eq_false_2. congruence.
  - destruct Hr as (previous & Hp & ->). exists previous. split; [|done]. exists l, rd, r. split_and!; try done.
    by match goal with E : run r = _ |- _ => rewrite E end.
  - destruct Hr as (previous & Hp & ->). exists previous. split; [|done]. exists rd, []. by split_and!.
  - destruct Hr as (previous & Hw & ->). destruct (latest_ok _ _ _ H) as (out & Ho & ->).
    exists previous, now, rd, r, out. split_and!; try done. right. unfold still_fresh in *. bool_simpl.
    unfold saturating_sub in *. change (as_secs MAX_HANDSHAKE_AGE) with 180 in *. split_and!; try done; lia.
  - destruct Hr as (previous & Hw & ->). exists previous, now. split; [by apply waiting_snoc|done].
  - destruct Hr as (previous & now & Hw & ->). destruct (latest_ok _ _ _ H) as (out & Ho & ->).
    exists previous, now, rd, r, out. split_and!; try done. left. unfold saturating_sub in *. lia.
  - destruct Hr as (previous & now & Hw & ->). exists previous, now. split; [by apply waiting_snoc|done].
  - destruct Hr as (previous & now & Hw & ->). exists previous, now. by rewrite app_nil_r.
Qed.
End Rounds.

Module RoundFacts.
Section Facts.
Context {PC : P2pCodec} {B64 : Base64Lib} (cli : WgCli).
Local Abbreviation iface := (wg_interface cli).

Definition justified (t : Z) (l : list event) : Prop :=
  ∀ l1 e l2, l = l1 ++ e :: l2 → routes e →
    ∃ key r l0 rd, e = EvCommand (activate_args iface key t) r ∧ l1 = l0 ++ rd ∧ confirmed cli t key rd.

Lemma step_single t i p m p' m' evs : step cli t i p m = Some (p', m', evs) → (length evs ≤ 1)%nat.
Proof.
  intros H. destruct p, i; simplify_eq/=; try done; repeat case_match; simplify_eq/=; simpl; lia.
Qed.

Lemma justified_snoc t l e :
  justified t l → (routes e → ∃ key r l0 rd, e = EvCommand (activate_args iface key t) r ∧
    l = l0 ++ rd ∧ confirmed cli t key rd) → justified t (l ++ [e]).
Proof.
  intros Hl He l1 e' l2 E Hr. destruct l2 as [|x l2 _] using rev_ind.
  - apply app_inj_tail in E as [-> ->]. by apply He.
  - rewrite app_comm_cons, app_assoc in E. apply app_inj_tail in E as [-> ->]. by eapply Hl.
Qed.

Lemma own_app t l l' : own t (l ++ l') = own t l ++ own t l'.
Proof. apply omap_app. Qed.

Lemma own_cons t t' e l : own t ((t', e) :: l) = if t' =? t then e :: own t l else own t l.
Proof. unfold own. simpl. by destruct (t' =? t). Qed.

Lemma own_same t (evs : list event) : own t ((t,.) <$> evs) = evs.
Proof. induction evs as [|e evs IH]; [done|]. by rewrite fmap_cons, own_cons, Z.eqb_refl, IH. Qed.

Lemma own_other t t' (evs : list event) : t ≠ t' → own t ((t',.) <$> evs) = [].
Proof.
  intros H. induction evs as [|e evs IH]; [done|]. rewrite fmap_cons, own_cons, IH.
  by destruct (Z.eqb_spec t' t); [congruence|].
Qed.

Definition rounds_ok (s : System) : Prop :=
  ∀ t, justified t (own t (log s)) ∧
    ∀ p, tasks s !! t = Some p → ∃ l0 rd, own t (log s) = l0 ++ rd ∧ round_ok cli t p rd.

Lemma start_rounds targets : rounds_ok (start targets).
Proof.
  intros t. split; [by intros [|??] ???|]. simpl. intros p Hp%elem_of_list_to_map_2.
  apply list_elem_of_fmap in Hp as (? & ? & _). simplify_eq. by exists [], [].
Qed.

Lemma sys_step_rounds s s' : sys_step cli s s' → rounds_ok s → rounds_ok s'.
Proof.
  intros [t i p p' m evs s0 Hp Hs _] H t'. simpl. rewrite own_app.
  destruct (decide (t' = t)) as [->|Ht].
  2: { rewrite own_other, app_nil_r, lookup_insert_ne by done. apply H. }
  rewrite own_same, lookup_insert_eq. destruct (H t) as [Hj Hrd].
  destruct (Hrd p Hp) as (l0 & rd & E & Hr). split.
  - pose proof (step_single _ _ _ _ _ _ _ Hs) as Hl.
    destruct evs as [|e [|??]]; simpl in Hl; [by rewrite app_nil_r| |lia].
    apply justified_snoc; [done|]. intros He.
    destruct (step_routes _ _ _ _ _ _ _ _ e Hs ltac:(left) He) as (key & r & -> & ->).
    by exists key, r, l0, rd.
  - intros q [= <-]. destruct (step_round _ _ _ _ _ _ _ _ _ Hs Hr) as (rd' & Hr' & [-> | ->]).
    + exists l0, (rd ++ evs). by rewrite E, app_assoc.
    + exists (own t (log s0) ++ evs), []. by rewrite app_nil_r.
Qed.

Lemma reachable_rounds targets s : rtc (sys_step cli) (start targets) s → rounds_ok s.
Proof. apply rtc_ind_r; [apply start_rounds|]. intros s1 s2 _ H. by apply sys_step_rounds. Qed.
End Facts.
End RoundFacts.

(** ** The wait for the handshake *)

Section Wait.
Context {PC : P2pCodec} {B64 : Base64Lib} (cli : WgCli) (t : Ipv4Addr).

(** The task runs alone. *)
Fixpoint run_task (ins : list input) (p : state) (m : Managed) : option (state * Managed) :=
  match ins with
  | [] => Some (p, m)
  | i :: ins => '(p, m, _) ← step cli t i p m; run_task ins p m
  end.

(** The inputs of a wait, from the results of its polls and the instants they ended at. *)
Fixpoint poll_inputs (polls : list (CmdResult * Z)) : list input :=
  match polls with
  | [] => []
  | [(r, c)] => [Ran r c]
  | (r, c) :: polls => Ran r c :: Slept :: poll_inputs polls
  end.

(** No poll ends before [from], and each ends at least an interval after the one
    before it: the clock is monotonic and [sleep] sleeps. *)
Fixpoint paced (from : Z) (polls : list (CmdResult * Z)) : Prop :=
  match polls with
  | [] => True
  | (_, c) :: polls => from ≤ c ∧ paced (c + HANDSHAKE_POLL_INTERVAL) polls
  end.

Definition wait_over (key : string) (p : state) : Prop :=
  p = Activate key ∨ p = RemoveTimedOut key ∨ ∃ e, p = Failed e.

Lemma wait_ends key started deadline polls from m :
  paced from polls → polls ≠ [] →
  deadline ≤ from + (Z.of_nat (length polls) - 1) * HANDSHAKE_POLL_INTERVAL →
  ∃ k p, (1 ≤ k ≤ length polls)%nat ∧ wait_over key p ∧
    run_task (poll_inputs (take k polls)) (Poll key started deadline) m = Some (p, m).
Proof.
  revert from. induction polls as [|[r c] polls IH]; intros from; [done|]. cbn [paced length].
  intros [Hc Hp] _ Hd.
  destruct (latest_handshake r key) as [h|e] eqn:Eh.
  2: { exists 1%nat, (Failed e). split_and!; [lia|lia|right; right; by exists e|].
       simpl. unfold after_latest. by rewrite Eh. }
  destruct (started <=? h) eqn:E1.
  { exists 1%nat, (Activate key). split_and!; [lia|lia|by left|]. simpl. unfold after_latest. by rewrite Eh, E1. }
  destruct (deadline <=? c) eqn:E2.
  { exists 1%nat, (RemoveTimedOut key). split_and!; [lia|lia|by right; left|].
    simpl. unfold after_latest. by rewrite Eh, E1, E2. }
  apply Z.leb_gt in E2 as E2'. destruct polls as [|[r2 c2] polls]; [cbn [length] in Hd; lia|].
  destruct (IH (c + HANDSHAKE_POLL_INTERVAL)) as (k & p & Hk & Hw & Hr); [done|done| |].
  { cbn [length] in *. lia. }
  exists (S k), p. split_and!; [lia|simpl in *; lia|done|]. destruct k as [|k]; [lia|].
  cbn [take poll_inputs run_task step command after_command mbind option_bind].
  unfold after_latest. rewrite Eh, E1, E2. cbn [mbind option_bind run_task step]. exact Hr.
Qed.
End Wait.

(** ** Theorems *)

Section Theorems.
Context {PC : P2pCodec} {B64 : Base64Lib}.

(** C20: traffic moves to the direct tunnel only after a handshake.  Every command of a
    task that changes routes installs the route to the task's own target, and nothing
    else; right before it, in this order, the task asked the gateway, got an answer it
    accepted, removed the peer it had for the target if that was another one, set the
    peer of the answer without a route, recorded it, and read handshake times until
    one for this peer was not older than the moment before the recording (or, for a
    peer it was managing already, than three minutes). *)
Theorem route_after_handshake cli targets s t l1 args r l2 :
  rtc (sys_step cli) (start targets) s →
  own t (log s) = l1 ++ EvCommand args r :: l2 → args !! 4%nat = Some "allowed-ips"%string →
  ∃ key l0 rd, args = activate_args (wg_interface cli) key t ∧ l1 = l0 ++ rd ∧ confirmed cli t key rd.
Proof.
  intros Hs E Hr. destruct (RoundFacts.reachable_rounds _ _ _ Hs t) as [Hj _].
  destruct (Hj l1 (EvCommand args r) l2 E Hr) as (key & r' & l0 & rd & [= -> _] & ? & ?). by exists key, l0, rd.
Qed.

(** The wait for a handshake ends.  If the clock is monotonic and a sleep lasts as
    long as it should, the loop returns within seventeen readings of the handshake
    times, whatever they show: with the handshake, with a timeout, or with the error of
    a reading. *)
Theorem handshake_wait_bounded cli t key started instant polls m :
  paced instant polls → length polls = 17%nat →
  ∃ k p, (1 ≤ k ≤ 17)%nat ∧ wait_over key p ∧
    run_task cli t (poll_inputs (take k polls)) (Poll key started (instant + HANDSHAKE_TIMEOUT)) m = Some (p, m).
Proof.
  intros Hp Hl. destruct (wait_ends cli t key started (instant + HANDSHAKE_TIMEOUT) polls instant m)
    as (k & p & Hk & Hw & Hr); [done|by intros ->| |].
  - rewrite Hl. unfold HANDSHAKE_TIMEOUT, HANDSHAKE_POLL_INTERVAL, nanos. lia.
  - rewrite Hl in Hk. by exists k, p.
Qed.

(** C27: the agent cleans up after itself.  However the tasks interleave, and whatever
    the gateway answers and the commands return, when the agent has stopped and has
    removed the peers of its table, a peer it set on the interface is gone, unless a
    removal of that peer failed or a task was stopped while it was setting the peer,
    about to record it, installing its route, or removing it after a failure. *)
Theorem shutdown_removes_peers cli targets s peers c key :
  rtc (sys_step cli) (start targets) s → peers ≡ₚ (map_to_list (managed s)).*2 →
  rtc (close_step cli) (close cli s peers) c → todo c = [] →
  outstanding (wg_interface cli) key (trace c) = true →
  removal_failed (wg_interface cli) key (trace c) ∨
  ∃ t p, tasks s !! t = Some p ∧ unsettled p key.
Proof.
  intros Hs Hp Hc Ht Ho. pose proof (BookFacts.reachable_accounted _ _ _ Hs) as Ha.
  destruct (BookFacts.closing_accounted cli s _ _ Hc (BookFacts.close_ok cli s peers Ha Hp)) as [_ H].
  destruct (H key Ho) as [?|[Hin|?]]; [by left| |by right]. rewrite Ht in Hin. set_solver.
Qed.
End Theorems.

(** ** Executions *)

(** A schedule: which task goes on with which input. *)
Fixpoint sys_run `{!P2pCodec, !Base64Lib} (cli : WgCli) (sch : list (Z * input)) (s : System) : option System :=
  match sch with
  | [] => Some s
  | (t, i) :: sch =>
      p ← tasks s !! t;
      '(p', m, evs) ← step cli t i p (managed s);
      if match i with Locked _ => forallb (λ tp, negb (holds_lock tp.2)) (map_to_list (tasks s)) | _ => true end
      then sys_run cli sch (mkSystem (<[t := p']> (tasks s)) m (log s ++ ((t,.) <$> evs))) else None
  end.

Lemma sys_run_rtc `{!P2pCodec, !Base64Lib} cli sch s s' : sys_run cli sch s = Some s' → rtc (sys_step cli) s s'.
Proof.
  revert s. induction sch as [|[t i] sch IH]; intros s; simpl; [intros [= ->]; apply rtc_refl|].
  destruct (tasks s !! t) as [p|] eqn:Hp; cbn [mbind option_bind]; [|done].
  destruct (step cli t i p (managed s)) as [[[p' m] evs]|] eqn:Hs; cbn [mbind option_bind]; [|done].
  destruct (match i with Locked _ => _ | _ => _ end) eqn:Hl; [|done]. intros Hrun.
  eapply rtc_l; [|by apply IH]. econstructor; [done..|]. intros wall ->. intros t' q Hq.
  rewrite forallb_forall in Hl. specialize (Hl (t', q)). apply negb_true_iff, Hl, list_elem_of_In.
  by apply elem_of_map_to_list.
Qed.

Module AgentWitness.
Import P2pModel ConfigLines.

Definition cli0 : WgCli := mkWgCli "wg" "wg0".
Definition gateway0 : Ipv4Addr := ipv4 10 26 0 1.
Definition target0 : Ipv4Addr := ipv4 10 26 0 10.
Definition endpoint0 : SocketAddr := SockV4 (ipv4 198 51 100 8) 51820.
Definition wall0 : Z := 1700000000 * nanos.
Definition key0 : string := b64_encode (replicate 32 42).

Definition answer0 : bytes :=
  prost_encode (mkP2pAgentResponse 7 0 target0 (replicate 32 42) (socket_to_string endpoint0) 9
    (wall0 / 1000000 + 60000)).

Definition done0 : CmdResult := Exited true (Some EmptyString).
Definition shown0 : CmdResult := Exited true (Some (handshake_table [(key0, "1700000000")])%string).

(** A round that ends with the route installed. *)
Definition to_probe : list (Z * input) :=
  (target0,.) <$> [Io true; Candidate 7; Io true; Datagram (Some answer0) wall0; Locked wall0].
Definition to_route : list (Z * input) :=
  to_probe ++ ((target0,.) <$> [Ran done0 0; Locked wall0; Ran shown0 0; Ran shown0 0; Ran done0 0]).

Definition after_run (sch : list (Z * input)) : System :=
  default (start [target0]) (sys_run cli0 sch (start [target0])).

Lemma after_run_rtc sch : is_some (sys_run cli0 sch (start [target0])) = true →
  rtc (sys_step cli0) (start [target0]) (after_run sch).
Proof.
  intros H. apply (sys_run_rtc cli0 sch). unfold after_run. by destruct (sys_run cli0 sch (start [target0])).
Qed.

Example to_route_run :
  is_some (sys_run cli0 to_route (start [target0])) = true ∧
  (length (own target0 (log (after_run to_route))) = 8)%nat ∧ managed (after_run to_route) !! target0 = Some key0.
Proof. vm_compute. done. Qed.

Lemma route_after_handshake_witness :
  ∃ key l0 rd, activate_args "wg0" key0 target0 = activate_args "wg0" key target0 ∧
    take 7 (own target0 (log (after_run to_route))) = l0 ++ rd ∧ confirmed cli0 target0 key rd.
Proof.
  apply (route_after_handshake cli0 [target0] (after_run to_route) target0
    (take 7 (own target0 (log (after_run to_route)))) (activate_args "wg0" key0 target0) done0 []).
  - apply after_run_rtc. vm_compute. reflexivity.
  - vm_compute. reflexivity.
  - vm_compute. reflexivity.
Defined.

Lemma handshake_wait_bounded_witness :
  ∃ k p, (1 ≤ k ≤ 17)%nat ∧ wait_over key0 p ∧
    run_task cli0 target0 (poll_inputs (take k ((λ i, (done0, Z.of_nat i * 500000000)) <$> seq 0 17)))
      (Poll key0 5 (0 + HANDSHAKE_TIMEOUT)) ∅ = Some (p, ∅).
Proof.
  apply (handshake_wait_bounded cli0 target0 key0 5 0).
  - vm_compute. repeat split; discriminate.
  - reflexivity.
Defined.

(** The process is stopped after the round; the removal of the peer fails. *)
Definition closed0 : Closing :=
  mkClosing [] [] ((snd <$> log (after_run to_route)) ++ [EvCommand (remove_args "wg0" key0) (Exited false None)]).

Lemma shutdown_removes_peers_witness :
  removal_failed "wg0" key0 (trace closed0) ∨
  ∃ t p, tasks (after_run to_route) !! t = Some p ∧ unsettled p key0.
Proof.
  apply (shutdown_removes_peers cli0 [target0] (after_run to_route) [key0] closed0 key0).
  - apply after_run_rtc. vm_compute. reflexivity.
  - vm_compute. reflexivity.
  - apply rtc_once.
    assert (close cli0 (after_run to_route) [key0] =
      mkClosing [] [key0] (snd <$> log (after_run to_route))) as -> by (vm_compute; reflexivity).
    exact (close_remove cli0 [] key0 [] _ (Exited false None)).
  - reflexivity.
  - vm_compute. reflexivity.
Defined.

(** A task that is stopped between setting its peer and recording it: every removal
    of the shutdown succeeds, none was needed for the peer, and the peer stays. *)
Definition stopped0 : System := after_run (to_probe ++ [(target0, Ran done0 0)]).

Theorem aborted_task_leaks_peer :
  ∃ c, rtc (sys_step cli0) (start [target0]) stopped0 ∧ managed stopped0 = ∅ ∧
    rtc (close_step cli0) (close cli0 stopped0 []) c ∧ todo c = [] ∧ orphans c = [] ∧
    outstanding "wg0" key0 (trace c) = true ∧ tasks stopped0 !! target0 = Some (Insert key0 false).
Proof.
  exists (close cli0 stopped0 []). split_and!.
  - apply after_run_rtc. vm_compute. reflexivity.
  - vm_compute. reflexivity.
  - apply rtc_refl.
  - reflexivity.
  - vm_compute. reflexivity.
  - vm_compute. reflexivity.
  - vm_compute. reflexivity.
Qed.
End AgentWitness.
