(* ===== verification/Outbound.v ===== *)
(** Outbound connections to peer servers: [PeerEndpoint], the choice of the address in
    [connect_to_peer_once] and the administration of outbound peers in
    [server/peer_server.rs], and its part in [http/web_server.rs].

    DNS and the connections are outside the program: what they answer is an
    argument. *)

From S2P Require Import Prelude Libs Std Text ControlMessage Db Sql Storage Restore Tunnel Config ClientConfig Peer PeerFacts.
From stdpp Require Import base gmap strings list.
From Stdlib Require Import ZArith Lia Ascii Sorting.Sorted.

Local Open Scope Z_scope.

Inductive OutboundError :=
| PeerEmpty | PeerWhitespace | PeerSyntax | PeerAddress | PeerPortZero | PeerIpv6Form | PeerNoPort
| PeerHost | PeerPort | PeerExists | PeerDb (e : DbError)
| ResolveTimeout | ResolveFailed | NoAddress | ConnectFailed.

(** ** [PeerEndpoint] *)

Record PeerEndpoint := mkPeerEndpoint { pe_host : string; pe_port : Z; pe_server_name : string }.

Definition validate_peer_ip (ip : IpAddr) : result OutboundError unit :=
  match ip with
  | IpV4 a => ensure (negb (is_unspecified a) && negb (is_multicast a)) PeerAddress
  | IpV6 a => ensure (negb (a =? 0) && negb (ipv6_is_multicast a)) PeerAddress
  end.

(** Statement by statement the checks of [validate_endpoint_hostname]. *)
Definition validate_peer_hostname (host : string) : result OutboundError unit :=
  match validate_endpoint_hostname host with Ok _ => Ok tt | Err _ => Err PeerHost end.

Definition to_lowercase (s : string) : string :=
  String.string_of_list_ascii (to_ascii_lowercase <$> String.list_ascii_of_string s).

Definition parse_peer_endpoint (raw : string) : result OutboundError PeerEndpoint :=
  let value := trim raw in
  _ ← ensure (negb (bool_decide (value = "")%string)) PeerEmpty;
  _ ← ensure (bool_decide (value = raw) && negb (existsb is_whitespace (chars value))) PeerWhitespace;
  _ ← ensure (negb (contains "://" value) && negb (contains_char "/" value)
              && negb (contains_char "?" value) && negb (contains_char "#" value)
              && negb (contains_char "@" value)) PeerSyntax;
  match socket_parse value with
  | Some address =>
      let host := ip_to_string (sock_ip address) in
      _ ← validate_peer_ip (sock_ip address);
      _ ← ensure (negb (sock_port address =? 0)) PeerPortZero;
      Ok (mkPeerEndpoint host (sock_port address) host)
  | None =>
      _ ← ensure (negb (is_some (Str.strip_prefix "[" value))) PeerIpv6Form;
      '(host, port) ← ok_or (rsplit_once ":" value) PeerNoPort;
      _ ← ensure (negb (bool_decide (host = "")%string) && negb (contains_char ":" host)) PeerIpv6Form;
      _ ← validate_peer_hostname host;
      port ← ok_or (u16_parse port) PeerPort;
      _ ← ensure (negb (port =? 0)) PeerPortZero;
      Ok (mkPeerEndpoint (to_lowercase host) port (to_lowercase host))
  end.

(** [IpAddr: FromStr]. *)
Definition ip_parse (s : string) : option IpAddr :=
  match ipv4_parse s with
  | Some a => Some (IpV4 a)
  | None => IpV6 <$> ipv6_parse s
  end.

Definition sock_new (ip : IpAddr) (port : Z) : SocketAddr :=
  match ip with IpV4 a => SockV4 a port | IpV6 a => SockV6 a port end.

Definition push_usable (result : list SocketAddr) (address : SocketAddr) : list SocketAddr :=
  if is_ok (validate_peer_ip (sock_ip address)) && negb (bool_decide (address ∈ result))
  then result ++ [address] else result.

(** What [lookup_host] answers in time, if it does; [Some None]: an error. *)
Definition resolve (lookup : option (option (list SocketAddr))) (e : PeerEndpoint)
    : result OutboundError (list SocketAddr) :=
  match ip_parse (pe_host e) with
  | Some ip => Ok [sock_new ip (pe_port e)]
  | None =>
      match lookup with
      | None => Err ResolveTimeout
      | Some None => Err ResolveFailed
      | Some (Some addresses) =>
          let result := fold_left push_usable addresses [] in
          _ ← ensure (negb (is_nil result)) NoAddress;
          Ok result
      end
  end.

(** ** The choice of the address *)

(** [addresses.sort_by_key(|address| *address != last)]. *)
Definition prefer (last : option SocketAddr) (addresses : list SocketAddr) : list SocketAddr :=
  match last with
  | Some last => sort_by_key (λ a, if bool_decide (a = last) then 0 else 1) addresses
  | None => addresses
  end.

(** [attempt] is the connection an address gives, if it does within the timeout. *)
Fixpoint first_connected (attempt : SocketAddr → option Link) (addresses : list SocketAddr)
    : option (Link * SocketAddr) :=
  match addresses with
  | [] => None
  | a :: addresses =>
      match attempt a with Some l => Some (l, a) | None => first_connected attempt addresses end
  end.

(** [connect_to_peer_once] up to the established connection. *)
Definition dial (lookup : option (option (list SocketAddr))) (attempt : SocketAddr → option Link)
    (peer_addr : string) (last_resolved : gmap string SocketAddr)
    : result OutboundError (Link * SocketAddr) * gmap string SocketAddr :=
  match (endpoint ← parse_peer_endpoint peer_addr; resolve lookup endpoint) with
  | Err e => (Err e, last_resolved)
  | Ok addresses =>
      match first_connected attempt (prefer (last_resolved !! peer_addr) addresses) with
      | Some (l, a) => (Ok (l, a), <[peer_addr := a]> last_resolved)
      | None => (Err ConnectFailed, last_resolved)
      end
  end.

(** ** Administration *)

(** The manager with its table of outbound tasks; a task is known by its peer. *)
Record Outbound := mkOutbound { ob_manager : Manager; outbound_tasks : gmap string positive }.

(** [outbound_tasks.insert]: the sender of a task that is replaced is dropped, which
    its [select!] takes for the signal to stop. *)
Definition insert_task (server_addr : string) (p : positive) (o : Outbound) : Outbound :=
  mkOutbound (match outbound_tasks o !! server_addr with
              | Some old => stop_outbound old (ob_manager o) | None => ob_manager o end)
    (<[server_addr := p]> (outbound_tasks o)).

Definition start_outbound (server_addr : string) (o : Outbound) : Outbound :=
  let '(p, m) := connect_to_peer server_addr (ob_manager o) in
  insert_task server_addr p (mkOutbound m (outbound_tasks o)).

Definition load_and_start_outbound_peers (o : Outbound) (c : Conn Database)
    : result OutboundError Outbound * Conn Database :=
  match Db.load_all_peer_servers c with
  | (Err e, c) => (Err (PeerDb e), c)
  | (Ok records, c) =>
      (Ok (fold_left (λ o r, start_outbound (Db.ps_server_addr r) o) records o), c)
  end.

(** [now] is the system time in seconds. *)
Definition add_outbound_peer (now : Z) (server_addr : string) (o : Outbound) (c : Conn Database)
    : result OutboundError unit * Outbound * Conn Database :=
  match parse_peer_endpoint server_addr with
  | Err e => (Err e, o, c)
  | Ok _ =>
      if is_some (outbound_tasks o !! server_addr) then (Err PeerExists, o, c)
      else match Db.save_peer_server (Db.mkPeerServerRecord server_addr Db.PsManual now) c with
           | (Err e, c) => (Err (PeerDb e), o, c)
           | (Ok _, c) => (Ok tt, start_outbound server_addr o, c)
           end
  end.

Definition outbound_to (server_addr : string) (m : Manager) (p : positive) : bool :=
  match peers m !! p with
  | Some i => bool_decide (addr i = server_addr) && is_outbound i
  | None => false
  end.

(** [in_time]: the task ended within the five seconds the call waits for it. *)
Definition remove_outbound_peer (in_time : bool) (server_addr : string) (o : Outbound) (c : Conn Database)
    : result OutboundError unit * Outbound * Conn Database :=
  let m := match outbound_tasks o !! server_addr with
           | Some p => if in_time then stop_outbound p (ob_manager o) else ob_manager o
           | None => ob_manager o
           end in
  let to_remove := filter (λ p, outbound_to server_addr m p = true) (peer_servers m) in
  let m := fold_left (λ m p, on_peer p PeerInfo.set_disconnected m) to_remove m in
  let m := with_peers (peers m) (filter (.∉ to_remove) (peer_servers m)) m in
  let o := mkOutbound m (delete server_addr (outbound_tasks o)) in
  match Db.delete_peer_server server_addr c with
  | (Err e, c) => (Err (PeerDb e), o, c)
  | (Ok _, c) => (Ok tt, o, c)
  end.

(** ** Lemmas *)

Definition usable (ip : IpAddr) : Prop :=
  match ip with
  | IpV4 a => a ≠ 0 ∧ is_multicast a = false
  | IpV6 a => a ≠ 0 ∧ ipv6_is_multicast a = false
  end.

(** A text without white space and the signs of an address with more than a host and a
    port. *)
Definition plain_text (raw : string) : Prop :=
  raw ≠ ""%string ∧ existsb is_whitespace (chars raw) = false ∧
  Forall (λ c, contains_char c raw = false) ["/"; "?"; "#"; "@"]%char.

(** [host:port] with the address of a host, or with its name. *)
Definition peer_endpoint (raw : string) (e : PeerEndpoint) : Prop :=
  plain_text raw ∧ pe_port e ≠ 0 ∧ pe_server_name e = pe_host e ∧
  match socket_parse raw with
  | Some a => usable (sock_ip a) ∧ pe_port e = sock_port a ∧ pe_host e = ip_to_string (sock_ip a)
  | None => ∃ host port, raw = (host +:+ ":" +:+ port)%string ∧ host_name host ∧
      u16_parse port = Some (pe_port e) ∧ pe_host e = to_lowercase host
  end.

Module OutboundFacts.
Import StrFacts.

Lemma usable_spec ip : validate_peer_ip ip = Ok tt ↔ usable ip.
Proof.
  assert (∀ a (b : bool), negb (a =? 0) && negb b = true ↔ a ≠ 0 ∧ b = false) as H.
  { intros a b. rewrite andb_true_iff, !negb_true_iff, Z.eqb_neq. done. }
  destruct ip as [a|a]; unfold validate_peer_ip, usable, is_unspecified; rewrite ConfigFacts.ensure_true;
    [exact (H a (is_multicast a))|exact (H a (ipv6_is_multicast a))].
Qed.

Lemma usable_ok ip : is_ok (validate_peer_ip ip) = true ↔ usable ip.
Proof. rewrite <- usable_spec. destruct (validate_peer_ip ip) as [[]|]; done. Qed.

Lemma hostname_ok host : validate_peer_hostname host = Ok tt ↔ host_name host.
Proof.
  rewrite <- ConfigFacts.hostname_spec. unfold validate_peer_hostname.
  destruct (validate_endpoint_hostname host) as [[]|]; done.
Qed.

Lemma host_name_plain host : host_name host → host ≠ ""%string ∧ contains_char ":" host = false ∧
  ∀ port, Str.strip_prefix "[" (host +:+ ":" +:+ port) = None.
Proof.
  intros [Hc Hn]%ConfigFacts.host_name_chars. split_and!; [done|by eapply all_bytes_not; [|exact Hc]|].
  intros port. destruct host as [|a host]; [done|]. rewrite all_bytes_cons in Hc.
  apply andb_prop in Hc as [Ha _]. simpl. case_bool_decide as E; [by subst|done].
Qed.

Lemma plain_spec raw :
  plain_text raw ↔ trim raw ≠ ""%string ∧
    bool_decide (trim raw = raw) && negb (existsb is_whitespace (chars (trim raw))) = true ∧
    negb (contains "://" (trim raw)) && negb (contains_char "/" (trim raw))
      && negb (contains_char "?" (trim raw)) && negb (contains_char "#" (trim raw))
      && negb (contains_char "@" (trim raw)) = true.
Proof.
  unfold plain_text. rewrite !Forall_cons, Forall_nil. split.
  - intros (Hn & Hw & H1 & H2 & H3 & H4 & _). rewrite (trim_no_whitespace raw Hw), Hw, H1, H2, H3, H4.
    rewrite bool_decide_eq_true_2 by done. destruct (contains "://" raw) eqn:E; [|done].
    by rewrite (contains_chars _ _ "/"%char E) in H1.
  - intros (Hn & [Ht%bool_decide_eq_true_1 Hw]%andb_prop & H). rewrite Ht in *.
    repeat (apply andb_prop in H as [H ?]). repeat match goal with H : negb _ = true |- _ => apply negb_true_iff in H end.
    by split_and!.
Qed.

Lemma parse_endpoint_spec raw e : parse_peer_endpoint raw = Ok e ↔ peer_endpoint raw e.
Proof.
  unfold parse_peer_endpoint, peer_endpoint. rewrite plain_spec.
  destruct (bool_decide_reflect (trim raw = ""%string)) as [Ht|Ht]; cbn [negb ensure mbind result_bind].
  { split; [done|]. intros [(? & _) _]. done. }
  destruct (bool_decide (trim raw = raw) && _) eqn:E1; cbn [ensure mbind result_bind];
    [|split; [done|]; by intros [(_ & ? & _) _]].
  destruct (negb (contains "://" (trim raw)) && _ && _ && _ && _); cbn [ensure mbind result_bind];
    [|split; [done|]; by intros [(_ & _ & ?) _]].
  apply andb_prop in E1 as [E1%bool_decide_eq_true_1 _]. rewrite E1 in *.
  destruct (socket_parse raw) as [a|].
  - destruct (validate_peer_ip (sock_ip a)) as [[]|] eqn:Ev; cbn [mbind result_bind].
    + apply usable_spec in Ev. destruct (Z.eqb_spec (sock_port a) 0); cbn [negb ensure mbind result_bind].
      * split; [done|]. intros (_ & Hp & _ & _ & Hq & _). congruence.
      * split; [intros [= <-]; by split_and!|]. destruct e as [h p nm]. simpl. naive_solver.
    + split; [done|]. intros (_ & _ & _ & Hu & _). apply usable_spec in Hu. congruence.
  - split.
    + destruct (is_some (Str.strip_prefix "[" raw)); [done|]. cbn [negb ensure mbind result_bind].
      destruct (rsplit_once ":" raw) as [[host port]|] eqn:Er; [|done]. cbn [ok_or mbind result_bind].
      apply rsplit_once_spec in Er as [Er _].
      destruct (negb _ && negb _); [|done]. cbn [ensure mbind result_bind].
      destruct (validate_peer_hostname host) as [[]|] eqn:Eh; [|done]. apply hostname_ok in Eh.
      cbn [mbind result_bind]. destruct (u16_parse port) as [p|] eqn:Ep; [|done]. cbn [ok_or mbind result_bind].
      destruct (Z.eqb_spec p 0); [done|]. cbn [negb ensure mbind result_bind]. intros [= <-].
      split_and!; try done. by exists host, port.
    + intros (_ & Hp0 & Hn & host & port & Hr & Hh & Hp & He).
      destruct (host_name_plain host Hh) as (H1 & H2 & H3).
      assert (rsplit_once ":" raw = Some (host, port)) as Er.
      { apply rsplit_once_spec. split; [done|]. apply u16_parse_chars in Hp as [Hp _]. by eapply all_bytes_not; [|exact Hp]. }
      rewrite Er, Hr, H3. cbn [is_some negb ensure mbind result_bind ok_or].
      rewrite bool_decide_eq_false_2, H2 by done. cbn [negb andb ensure mbind result_bind].
      rewrite (proj2 (hostname_ok host) Hh), Hp. cbn [ok_or mbind result_bind].
      destruct (Z.eqb_spec (pe_port e) 0); [done|]. cbn [negb ensure mbind result_bind].
      destruct e as [h p nm]. simpl in *. by subst.
Qed.

(** *** Resolution and choice *)

Lemma push_usable_fold l acc :
  NoDup acc → Forall (usable ∘ sock_ip) acc →
  NoDup (fold_left push_usable l acc) ∧ Forall (usable ∘ sock_ip) (fold_left push_usable l acc) ∧
  ∀ a, a ∈ fold_left push_usable l acc ↔ a ∈ acc ∨ a ∈ l ∧ usable (sock_ip a).
Proof.
  revert acc. induction l as [|x l IH]; intros acc Hn Hu; simpl; [split_and!; [done..|set_solver]|].
  unfold push_usable at 2 4 6. destruct (is_ok (validate_peer_ip (sock_ip x))) eqn:E1.
  - apply usable_ok in E1. case_bool_decide as E2; cbn [negb andb].
    + destruct (IH acc) as (H1 & H2 & H3); [done..|]. split_and!; [done..|].
      intros a. rewrite H3, elem_of_cons. naive_solver.
    + destruct (IH (acc ++ [x])) as (H1 & H2 & H3).
      { apply NoDup_app. split_and!; [done| |apply NoDup_singleton]. set_solver. }
      { apply Forall_app. split; [done|]. by constructor. }
      split_and!; [done..|]. intros a. rewrite H3, elem_of_app, list_elem_of_singleton, elem_of_cons. naive_solver.
  - destruct (IH acc) as (H1 & H2 & H3); [done..|]. split_and!; [done..|]. intros a.
    rewrite H3, elem_of_cons. assert (x = a → ¬ usable (sock_ip a)); [|naive_solver].
    intros -> Hx%usable_ok. congruence.
Qed.

Lemma prefer_perm last l : prefer last l ≡ₚ l.
Proof. destruct last; [apply RouteFacts.sort_by_key_perm|done]. Qed.

Lemma prefer_head last l : last ∈ l → ∃ r, prefer (Some last) l = last :: r.
Proof.
  intros Hl. simpl. set (key := λ a : SocketAddr, if bool_decide (a = last) then 0 else 1).
  pose proof (RouteFacts.sort_by_key_sorted key l) as Hs. rewrite <- (RouteFacts.sort_by_key_perm key) in Hl.
  destruct (sort_by_key key l) as [|x r]; [set_solver|]. exists r. f_equal.
  apply StronglySorted_inv in Hs as [_ Hs]. rewrite Forall_forall in Hs.
  apply elem_of_cons in Hl as [->|Hl]; [done|]. specialize (Hs last Hl). unfold key in Hs.
  rewrite (bool_decide_eq_true_2 (last = last)) in Hs by done. case_bool_decide; [done|lia].
Qed.

Lemma first_connected_spec attempt l :
  match first_connected attempt l with
  | Some (c, a) => ∃ l1 l2, l = l1 ++ a :: l2 ∧ attempt a = Some c ∧ Forall (λ b, attempt b = None) l1
  | None => Forall (λ b, attempt b = None) l
  end.
Proof.
  induction l as [|x l IH]; simpl; [constructor|]. destruct (attempt x) as [c|] eqn:E; [by exists [], l|].
  destruct (first_connected attempt l) as [[c a]|]; [|by constructor].
  destruct IH as (l1 & l2 & -> & Ha & Hf). exists (x :: l1), l2. split_and!; [done..|by constructor].
Qed.
End OutboundFacts.

(** ** Theorems *)

(** The addresses of peer servers.  An address is accepted exactly when it is
    [host:port] without blanks, slashes, question marks, hashes and at signs, with a port
    other than 0 and either an address of a host that is neither unspecified nor
    multicast, or a host name of at most 253 characters with well-formed labels; the
    host is kept in lower case and is the name the certificate is asked for. *)
Theorem peer_endpoint_language raw e : parse_peer_endpoint raw = Ok e ↔ peer_endpoint raw e.
Proof. apply OutboundFacts.parse_endpoint_spec. Qed.

(** Dialling a peer.  The connection is to one of the addresses the name has now,
    the one that worked last if it is among them and works again; an address is tried
    only after all before it failed, and the call fails only if the address is
    malformed, has no usable address, or none of them answers.  Names never lead to an
    unspecified or multicast address. *)
Theorem dial_spec lookup attempt peer_addr last_resolved r last_resolved' :
  dial lookup attempt peer_addr last_resolved = (r, last_resolved') →
  match parse_peer_endpoint peer_addr with
  | Err e => r = Err e ∧ last_resolved' = last_resolved
  | Ok e =>
      match resolve lookup e with
      | Err x => r = Err x ∧ last_resolved' = last_resolved
      | Ok addresses =>
          (ip_parse (pe_host e) = None → NoDup addresses ∧ Forall (usable ∘ sock_ip) addresses) ∧
          match r with
          | Ok (l, a) => a ∈ addresses ∧ attempt a = Some l ∧ last_resolved' = <[peer_addr := a]> last_resolved ∧
              (∀ b, last_resolved !! peer_addr = Some b → b ∈ addresses → is_Some (attempt b) → a = b) ∧
              ∃ l1 l2, prefer (last_resolved !! peer_addr) addresses = l1 ++ a :: l2 ∧
                Forall (λ b, attempt b = None) l1
          | Err x => x = ConnectFailed ∧ Forall (λ b, attempt b = None) addresses ∧
              last_resolved' = last_resolved
          end
      end
  end.
Proof.
  unfold dial. destruct (parse_peer_endpoint peer_addr) as [e|x]; cbn [mbind result_bind]; [|by intros [= <- <-]].
  destruct (resolve lookup e) as [addresses|x] eqn:Er; [|by intros [= <- <-]]. intros H. split.
  - intros Hip. unfold resolve in Er. rewrite Hip in Er. destruct lookup as [[l|]|]; [|done..].
    destruct (OutboundFacts.push_usable_fold l []) as (H1 & H2 & _); [constructor|constructor|].
    destruct (negb (is_nil (fold_left push_usable l []))); [|done]. cbn [ensure mbind result_bind] in Er.
    by injection Er as <-.
  - pose proof (OutboundFacts.first_connected_spec attempt (prefer (last_resolved !! peer_addr) addresses)) as Hf.
    destruct (first_connected attempt _) as [[l a]|]; injection H as <- <-.
    + destruct Hf as (l1 & l2 & E & Ha & Hf). split_and!; [|done|done| |by exists l1, l2].
      * rewrite <- (OutboundFacts.prefer_perm (last_resolved !! peer_addr)), E. set_solver.
      * intros b Hb Hin [lb Hlb]. destruct (OutboundFacts.prefer_head b addresses Hin) as (r & Hr).
        rewrite Hb, Hr in E. destruct l1 as [|x l1]; [by injection E as ->|]. injection E as -> ->.
        apply Forall_cons in Hf as [Hx _]. congruence.
    + split_and!; [done| |done]. by rewrite OutboundFacts.prefer_perm in Hf.
Qed.

(** *** Administration *)

(** Tasks and outbound peers of the list correspond to each other. *)
Record outbound_ok (o : Outbound) : Prop := {
  oo_known p : p ∈ peer_servers (ob_manager o) → is_Some (peers (ob_manager o) !! p);
  oo_task a p : outbound_tasks o !! a = Some p → p ∈ peer_servers (ob_manager o) ∧
    ∃ i, peers (ob_manager o) !! p = Some i ∧ addr i = a ∧ is_outbound i = true;
  oo_peer p i : p ∈ peer_servers (ob_manager o) → peers (ob_manager o) !! p = Some i →
    is_outbound i = true → outbound_tasks o !! addr i = Some p
}.

Inductive OutboundOp := OpAdd (now : Z) (server_addr : string) | OpRemove (in_time : bool) (server_addr : string).

Definition outbound_op (op : OutboundOp) (o : Outbound) (c : Conn Database)
    : result OutboundError unit * Outbound * Conn Database :=
  match op with
  | OpAdd now a => add_outbound_peer now a o c
  | OpRemove in_time a => remove_outbound_peer in_time a o c
  end.

(** A sequence of calls, and whether all of them succeeded. *)
Fixpoint outbound_run (ops : list OutboundOp) (o : Outbound) (c : Conn Database) : bool * Outbound * Conn Database :=
  match ops with
  | [] => (true, o, c)
  | op :: ops =>
      let '(r, o, c) := outbound_op op o c in
      let '(ok, o, c) := outbound_run ops o c in (is_ok r && ok, o, c)
  end.

Definition rows (c : Conn Database) : gset string := dom (peer_server_rows (contents c)).

Module TaskFacts.

Lemma start_ok a o : outbound_ok o → outbound_tasks o !! a = None →
  outbound_ok (start_outbound a o) ∧ ∃ p, outbound_tasks (start_outbound a o) = <[a := p]> (outbound_tasks o).
Proof.
  intros [Hk Ht Hp] Ha. unfold start_outbound, connect_to_peer, insert_task. simpl. rewrite Ha.
  set (m := ob_manager o) in *. set (p := fresh (dom (peers m))).
  assert (peers m !! p = None) as Hf by (apply not_elem_of_dom, is_fresh).
  assert (p ∉ peer_servers m) as Hn by (intros Hin; destruct (Hk p Hin); congruence).
  split; [|by exists p]. split; simpl.
  - intros q [Hq| ->%list_elem_of_singleton]%elem_of_app; [|by rewrite lookup_insert_eq].
    rewrite lookup_insert_ne; [by apply Hk|intros ->; done].
  - intros b q [[<- <-]|[Hb Hq]]%lookup_insert_Some.
    + split; [set_solver|]. eexists. by rewrite lookup_insert_eq.
    + destruct (Ht b q Hq) as [Hq1 Hq2]. split; [set_solver|]. rewrite lookup_insert_ne; [done|by intros ->].
  - intros q i [Hq| ->%list_elem_of_singleton]%elem_of_app.
    + rewrite lookup_insert_ne by (by intros ->). intros Hi Ho. rewrite lookup_insert_ne; [by apply Hp|].
      intros E. pose proof (Hp q i Hq Hi Ho) as Hx. congruence.
    + rewrite lookup_insert_eq. intros [= <-] _. simpl. by rewrite lookup_insert_eq.
Qed.

(** Disconnecting keeps what the invariant reads of a peer. *)
Definition same_peers (m m' : Manager) : Prop :=
  ∀ q, (λ i, (addr i, is_outbound i)) <$> peers m' !! q = (λ i, (addr i, is_outbound i)) <$> peers m !! q.

Lemma same_disconnected p m : same_peers m (on_peer p PeerInfo.set_disconnected m).
Proof.
  intros q. simpl. destruct (decide (q = p)) as [->|]; [rewrite lookup_alter_eq|by rewrite lookup_alter_ne].
  by destruct (peers m !! p).
Qed.

Lemma same_fold l m : same_peers m (fold_left (λ m p, on_peer p PeerInfo.set_disconnected m) l m) ∧
  peer_servers (fold_left (λ m p, on_peer p PeerInfo.set_disconnected m) l m) = peer_servers m.
Proof.
  revert m. induction l as [|p l IH]; intros m; simpl; [done|].
  destruct (IH (on_peer p PeerInfo.set_disconnected m)) as [H1 ->]. split; [|done].
  intros q. by rewrite H1, same_disconnected.
Qed.

Lemma same_outbound m m' a p : same_peers m m' → outbound_to a m' p = outbound_to a m p.
Proof.
  intros H. specialize (H p). unfold outbound_to.
  destruct (peers m' !! p), (peers m !! p); simpl in H; try done. injection H as E1 E2. by rewrite E1, E2.
Qed.

(** The list after a removal: all but the outbound peers with the address. *)
Lemma remove_spec in_time a o c r o' c' :
  outbound_ok o → remove_outbound_peer in_time a o c = (r, o', c') →
  outbound_tasks o' = delete a (outbound_tasks o) ∧ same_peers (ob_manager o) (ob_manager o') ∧
  (∀ p, p ∈ peer_servers (ob_manager o') ↔
     p ∈ peer_servers (ob_manager o) ∧ outbound_to a (ob_manager o) p = false).
Proof.
  intros Hok. unfold remove_outbound_peer.
  set (m1 := match outbound_tasks o !! a with Some p => _ | None => _ end).
  set (gone := filter _ (peer_servers m1)). set (m2 := fold_left _ gone m1).
  assert (same_peers (ob_manager o) m1 ∧ ∀ p, (p ∈ peer_servers m1 → p ∈ peer_servers (ob_manager o)) ∧
    (p ∈ peer_servers (ob_manager o) → outbound_to a (ob_manager o) p = false → p ∈ peer_servers m1)) as [Hs1 Hl1].
  { unfold m1. destruct (outbound_tasks o !! a) as [p|] eqn:Ep; [|done]. destruct in_time; [|done].
    split; [apply same_disconnected|]. intros q. simpl. rewrite list_elem_of_filter. split; [by intros [_ ?]|].
    intros Hq Hn. split; [|done]. intros ->. destruct (oo_task o Hok a p Ep) as (_ & i & Hi & Ha & Hout).
    unfold outbound_to in Hn. by rewrite Hi, Hout, bool_decide_eq_true_2 in Hn. }
  destruct (same_fold gone m1) as [Hs Hl]. fold m2 in Hs, Hl.
  assert (same_peers (ob_manager o) m2 ∧ ∀ p, p ∈ filter (.∉ gone) (peer_servers m2) ↔
    p ∈ peer_servers (ob_manager o) ∧ outbound_to a (ob_manager o) p = false) as H.
  { split; [intros q; by rewrite Hs, Hs1|]. intros p. rewrite Hl, list_elem_of_filter. unfold gone.
    rewrite list_elem_of_filter, (same_outbound _ _ _ _ Hs1).
    destruct (outbound_to a (ob_manager o) p) eqn:E; naive_solver. }
  destruct (Db.delete_peer_server a c) as [[?|?] c1]; intros [= <- <- <-]; split; try done; apply H.
Qed.

Lemma remove_ok in_time a o c r o' c' :
  outbound_ok o → remove_outbound_peer in_time a o c = (r, o', c') → outbound_ok o'.
Proof.
  intros Hok Hr. destruct (remove_spec _ _ _ _ _ _ _ Hok Hr) as (Et & Hs & Hl). destruct Hok as [Hk Ht Hp].
  assert (∀ q i', peers (ob_manager o') !! q = Some i' → ∃ i, peers (ob_manager o) !! q = Some i ∧
    addr i' = addr i ∧ is_outbound i' = is_outbound i) as Hi.
  { intros q i' Hq. specialize (Hs q). rewrite Hq in Hs. simpl in Hs.
    destruct (peers (ob_manager o) !! q) as [i|]; [|done]. injection Hs as ??. eauto. }
  split.
  - intros p [Hin _]%Hl. destruct (Hk p Hin) as [i E]. specialize (Hs p). rewrite E in Hs.
    destruct (peers (ob_manager o') !! p); done.
  - rewrite Et. intros b p [Hb Hbp]%lookup_delete_Some. destruct (Ht b p Hbp) as (Hin & i & E & <- & Hout).
    split.
    + apply Hl. split; [done|]. unfold outbound_to. rewrite E, bool_decide_eq_false_2; [done|congruence].
    + specialize (Hs p). rewrite E in Hs. destruct (peers (ob_manager o') !! p) as [i'|]; [|done].
      exists i'. injection Hs as E1 E2. split_and!; [done|congruence..].
  - intros p i' Hin%Hl Hpi Hout. destruct Hin as [Hin Hn]. destruct (Hi p i' Hpi) as (i & E & Ea & Eo).
    rewrite Ea, Et. unfold outbound_to in Hn. rewrite E in Hn. rewrite <- Eo, Hout, andb_true_r in Hn.
    apply bool_decide_eq_false in Hn. rewrite lookup_delete_ne by congruence. apply Hp; congruence.
Qed.

(** *** The rows *)

Lemma save_rows r c res c' : pool_open (contents c) = true → Db.save_peer_server r c = (res, c') →
  pool_open (contents c') = true ∧
  rows c' = if is_ok res then {[ Db.ps_server_addr r ]} ∪ rows c else rows c.
Proof.
  intros Ho. unfold Db.save_peer_server, if_open, exec, stmt. rewrite Ho.
  destruct (faults c) as [|[] fs]; intros [= <- <-]; split; try done; unfold rows; simpl; by rewrite dom_insert_L.
Qed.

Lemma delete_rows a c res c' : pool_open (contents c) = true → Db.delete_peer_server a c = (res, c') →
  pool_open (contents c') = true ∧ rows c' = if is_ok res then rows c ∖ {[ a ]} else rows c.
Proof.
  intros Ho. unfold Db.delete_peer_server, if_open, exec, stmt. rewrite Ho.
  destruct (faults c) as [|[] fs]; intros [= <- <-]; split; try done; unfold rows; simpl; by rewrite dom_delete_L.
Qed.

(** *** One call *)

Definition in_step (o : Outbound) (c : Conn Database) : Prop :=
  outbound_ok o ∧ pool_open (contents c) = true ∧ dom (outbound_tasks o) ⊆ rows c.

Lemma op_in_step op o c r o' c' :
  in_step o c → outbound_op op o c = (r, o', c') →
  in_step o' c' ∧ (is_ok r = true → dom (outbound_tasks o) = rows c → dom (outbound_tasks o') = rows c').
Proof.
  intros (Hok & Ho & Hd). destruct op as [now a|in_time a]; simpl.
  - unfold add_outbound_peer. destruct (parse_peer_endpoint a) as [e|e]; [|intros [= <- <- <-]; done].
    destruct (outbound_tasks o !! a) eqn:Ea; [intros [= <- <- <-]; done|]. simpl.
    destruct (Db.save_peer_server _ c) as [res c1] eqn:Es. apply (save_rows _ _ _ _ Ho) in Es as [Ho1 Hr1].
    destruct res as [[]|e']; intros [= <- <- <-]; simpl in Hr1.
    + destruct (start_ok a o Hok Ea) as (Hok' & p & Et). split.
      * split_and!; [done..|]. rewrite Et, dom_insert_L, Hr1. set_solver.
      * intros _ E. by rewrite Et, dom_insert_L, Hr1, E.
    + split; [|done]. split_and!; [done..|by rewrite Hr1].
  - intros Hr. pose proof (remove_ok _ _ _ _ _ _ _ Hok Hr) as Hok'.
    destruct (remove_spec _ _ _ _ _ _ _ Hok Hr) as (Et & _ & _). unfold remove_outbound_peer in Hr.
    destruct (Db.delete_peer_server a c) as [res c1] eqn:Es. apply (delete_rows _ _ _ _ Ho) in Es as [Ho1 Hr1].
    destruct res as [b|e]; injection Hr as <- _ <-; simpl in Hr1; (split; [split_and!; [done..|]|]).
    + rewrite Et, dom_delete_L, Hr1. set_solver.
    + intros _ E. by rewrite Et, dom_delete_L, Hr1, E.
    + rewrite Et, dom_delete_L, Hr1. set_solver.
    + done.
Qed.

Lemma run_in_step ops o c ok o' c' :
  in_step o c → outbound_run ops o c = (ok, o', c') →
  in_step o' c' ∧ (ok = true → dom (outbound_tasks o) = rows c → dom (outbound_tasks o') = rows c').
Proof.
  revert o c ok. induction ops as [|op ops IH]; intros o c ok Hin; simpl; [by intros [= <- <- <-]|].
  destruct (outbound_op op o c) as [[r o1] c1] eqn:Eop. destruct (op_in_step _ _ _ _ _ _ Hin Eop) as [Hin1 Heq].
  destruct (outbound_run ops o1 c1) as [[ok2 o2] c2] eqn:Erun. intros [= <- <- <-].
  destruct (IH _ _ _ Hin1 Erun) as [Hin2 Heq2]. split; [done|].
  intros [Hr Hk]%andb_prop E. apply Heq2; [done|]. by apply Heq.
Qed.
End TaskFacts.

(** *** Restarts *)

Module RestartFacts.
Lemma start_all l o :
  outbound_ok o → NoDup (Db.ps_server_addr <$> l) → (∀ r, r ∈ l → outbound_tasks o !! Db.ps_server_addr r = None) →
  let o' := fold_left (λ o r, start_outbound (Db.ps_server_addr r) o) l o in
  outbound_ok o' ∧ dom (outbound_tasks o') = dom (outbound_tasks o) ∪ list_to_set (Db.ps_server_addr <$> l).
Proof.
  revert o. induction l as [|r l IH]; intros o Hok Hn Hnew; simpl; [split; [done|set_solver]|].
  apply NoDup_cons in Hn as [Hr Hn].
  destruct (TaskFacts.start_ok (Db.ps_server_addr r) o Hok) as (Hok' & p & Et); [apply Hnew; left|].
  destruct (IH (start_outbound (Db.ps_server_addr r) o)) as [H1 H2]; [done|done| |].
  - intros r' Hr'. rewrite Et, lookup_insert_ne; [apply Hnew; by right|].
    intros E. apply Hr. rewrite E. apply list_elem_of_fmap. by exists r'.
  - split; [done|]. rewrite H2, Et, dom_insert_L. set_solver.
Qed.

Lemma load_rows d : pool_open d = true →
  ∃ l, Db.load_all_peer_servers (mkConn d []) = (Ok l, mkConn d []) ∧
    NoDup (Db.ps_server_addr <$> l) ∧ list_to_set (Db.ps_server_addr <$> l) = dom (peer_server_rows d).
Proof.
  intros Ho. unfold Db.load_all_peer_servers, if_open, query, stmt. simpl. rewrite Ho.
  eexists. split; [reflexivity|].
  match goal with |- context [order_by ?leb0 ?l0] => set (leb := leb0); set (l := l0) end.
  assert (Db.ps_server_addr <$> l = (map_to_list (peer_server_rows d)).*1) as El.
  { unfold l. rewrite <- list_fmap_compose. done. }
  pose proof (fmap_Permutation Db.ps_server_addr _ _ (ReadFacts.order_by_perm leb l)) as Hp.
  rewrite El in Hp. split; [rewrite Hp; apply NoDup_fst_map_to_list|].
  apply set_eq. intros a. rewrite elem_of_list_to_set, Hp, elem_of_dom. split.
  - intros ([b r] & -> & Hin%elem_of_map_to_list)%list_elem_of_fmap. by exists r.
  - intros [r Hr%elem_of_map_to_list]. apply list_elem_of_fmap. by exists (a, r).
Qed.

Lemma fresh_ok m : peer_servers m = [] → outbound_ok (mkOutbound m ∅).
Proof. intros E. split; simpl; rewrite ?E; [set_solver|done|set_solver]. Qed.
End RestartFacts.

Section Theorems.
End Theorems.

(** ** Examples and witnesses *)

Module OutboundWitness.
Import StorageWitness.

Definition relay : string := "relay.example.com:29873".
Definition good : SocketAddr := SockV4 (ipv4 203 0 113 7) 29873.
Definition other : SocketAddr := SockV4 (ipv4 203 0 113 8) 29873.

Example endpoints :
  parse_peer_endpoint "Relay.Example.com:29873" = Ok (mkPeerEndpoint "relay.example.com" 29873 "relay.example.com") ∧
  parse_peer_endpoint "127.0.0.1:29873" = Ok (mkPeerEndpoint "127.0.0.1" 29873 "127.0.0.1") ∧
  parse_peer_endpoint "[2001:db8::1]:29873" = Ok (mkPeerEndpoint "2001:db8::1" 29873 "2001:db8::1") ∧
  existsb (λ raw, is_ok (parse_peer_endpoint raw))
    [""; " relay.example.com:29873"; "https://relay.example.com:29873"; "relay.example.com";
     "relay.example.com:0"; "bad_host.example.com:29873"; "0.0.0.0:29873"; "[::]:29873"; "2001:db8::1:29873"]%string = false.
Proof. repeat split; vm_compute; reflexivity. Qed.

(** A port with a plus sign is no socket address, so an address in front of it is taken
    for a name and escapes the check of addresses; it is dialled as an address. *)
Theorem plus_sign_escapes_check :
  is_ok (parse_peer_endpoint "0.0.0.0:80") = false ∧
  ∃ e, parse_peer_endpoint "0.0.0.0:+80" = Ok e ∧ resolve None e = Ok [SockV4 0 80] ∧
    validate_peer_ip (IpV4 0) = Err PeerAddress.
Proof.
  split; [vm_compute; reflexivity|]. exists (mkPeerEndpoint "0.0.0.0" 80 "0.0.0.0").
  split; [vm_compute; reflexivity|]. split; vm_compute; reflexivity.
Qed.

Lemma dial_spec_witness :
  dial (Some (Some [other; SockV4 (ipv4 224 0 0 1) 29873; good])) (λ _, Some 5%positive) relay {[ relay := good ]} =
    (Ok (5%positive, good), {[ relay := good ]}) ∧
  ∀ b, ({[ relay := good ]} : gmap string SocketAddr) !! relay = Some b → b ∈ [other; good] → good = b.
Proof.
  assert (dial (Some (Some [other; SockV4 (ipv4 224 0 0 1) 29873; good])) (λ _, Some 5%positive) relay {[ relay := good ]} =
    (Ok (5%positive, good), {[ relay := good ]})) as E by (vm_compute; reflexivity).
  split; [exact E|]. intros b Hb Hin.
  pose proof (dial_spec _ _ _ _ _ _ E) as H.
  assert (parse_peer_endpoint relay = Ok (mkPeerEndpoint "relay.example.com" 29873 "relay.example.com")) as Ep
    by (vm_compute; reflexivity).
  rewrite Ep in H.
  assert (resolve (Some (Some [other; SockV4 (ipv4 224 0 0 1) 29873; good]))
    (mkPeerEndpoint "relay.example.com" 29873 "relay.example.com") = Ok [other; good]) as Er
    by (vm_compute; reflexivity).
  rewrite Er in H. destruct H as (_ & _ & _ & _ & H & _). apply (H b Hb Hin). by exists 5%positive.
Defined.

Definition manager0 : Manager := new_with_identity "hash" None None "".
(** An open database without peer servers, and three calls. *)
Definition conn0 : Conn Database := mkConn (open_pool (with_peer_servers ∅ legacy)) [].
Definition ops0 : list OutboundOp :=
  [OpAdd 1 relay; OpAdd 2 "10.0.0.2:29873"; OpRemove true "10.0.0.2:29873"]%string.
Definition run0 : bool * Outbound * Conn Database := outbound_run ops0 (mkOutbound manager0 ∅) conn0.

End OutboundWitness.
