(* ===== verification/ClientView.v ===== *)
(** What a client knows of the servers and of the other clients:
    [ServerInfoCollection] in [VntcApp1.0/vendor/vnt-core-2.0.0/src/context/mod.rs],
    the client lists of [protocol/control_message.rs], the ping of
    [tunnel_core/server/inbound.rs] and the broadcasts of
    [tunnel_core/server/outbound.rs].

    The client keeps one map of clients per server.  The server of [NetState] sends
    it changes only: the theorems say that the map follows the server. *)

From S2P Require Import Prelude Libs Std Packet ControlMessage Bridge Lease NetState Service Handler Tunnel P2p.
From stdpp Require Import base gmap strings list.
From Stdlib Require Import ZArith Lia.

Local Open Scope Z_scope.

(** ** Messages *)

Inductive ProtocolType := ProtoQuic | ProtoTlsTcp | ProtoWss | ProtoDynamic.
Record ProtocolAddress := mkProtocolAddress { pa_protocol_type : ProtocolType; pa_address : string }.

(** The client's [ClientSimpleInfo] and [ClientSimpleInfoList]. *)
Record ClientEntry := mkClientEntry {
  ce_ip : Ipv4Addr; ce_name : string; ce_online : bool; ce_node_type : NodeType }.
Record ClientList := mkClientList {
  ls_data_version : Z; ls_list : list ClientEntry; ls_is_all : bool; ls_time : Z }.

Definition client_entry_from (m : proto.ClientSimpleInfo) : ClientEntry :=
  mkClientEntry (proto.ci_ip m) "" (proto.ci_online m) (NodeType_of_i32 (proto.ci_node_type m)).

Definition client_list_decode `{!ProstCodec proto.ClientSimpleInfoList} (b : bytes) : option ClientList :=
  msg ← prost_decode b;
  Some (mkClientList (proto.cl_data_version msg) (client_entry_from <$> proto.cl_list msg)
          (proto.cl_is_all msg) (proto.cl_time msg)).

(** ** The servers *)

Record ServerNodeInfo := mkServerNodeInfo {
  sn_server_id : Z; sn_server_addr : ProtocolAddress; sn_connected : bool; sn_rtt : option Z;
  sn_data_version : Z; sn_client_map : gmap Ipv4Addr ClientEntry;
  sn_last_connected_time : option Z; sn_disconnected_time : option Z;
  sn_server_version : option string }.

Definition default_address : ProtocolAddress := mkProtocolAddress ProtoTlsTcp "127.0.0.1:29872".
(** [ServerNodeInfo { server_id, server_addr, ..Default::default() }]. *)
Definition new_node (id : Z) (a : ProtocolAddress) : ServerNodeInfo :=
  mkServerNodeInfo id a false None 0 ∅ None None None.
Definition default_node : ServerNodeInfo := new_node 0 default_address.

Record ServerInfoCollection := mkCollection {
  client_simple_list : list ClientEntry; server_node_map : gmap Z ServerNodeInfo }.
Definition empty_collection : ServerInfoCollection := mkCollection [] ∅.

(** Updates of one field. *)
Definition with_connected (b : bool) (n : ServerNodeInfo) : ServerNodeInfo :=
  mkServerNodeInfo (sn_server_id n) (sn_server_addr n) b (sn_rtt n) (sn_data_version n)
    (sn_client_map n) (sn_last_connected_time n) (sn_disconnected_time n) (sn_server_version n).
Definition with_rtt (r : option Z) (n : ServerNodeInfo) : ServerNodeInfo :=
  mkServerNodeInfo (sn_server_id n) (sn_server_addr n) (sn_connected n) r (sn_data_version n)
    (sn_client_map n) (sn_last_connected_time n) (sn_disconnected_time n) (sn_server_version n).
Definition with_clients (v : Z) (m : gmap Ipv4Addr ClientEntry) (n : ServerNodeInfo) : ServerNodeInfo :=
  mkServerNodeInfo (sn_server_id n) (sn_server_addr n) (sn_connected n) (sn_rtt n) v m
    (sn_last_connected_time n) (sn_disconnected_time n) (sn_server_version n).
Definition with_times (up down : option Z) (n : ServerNodeInfo) : ServerNodeInfo :=
  mkServerNodeInfo (sn_server_id n) (sn_server_addr n) (sn_connected n) (sn_rtt n)
    (sn_data_version n) (sn_client_map n) up down (sn_server_version n).
Definition with_version (v : option string) (n : ServerNodeInfo) : ServerNodeInfo :=
  mkServerNodeInfo (sn_server_id n) (sn_server_addr n) (sn_connected n) (sn_rtt n)
    (sn_data_version n) (sn_client_map n) (sn_last_connected_time n) (sn_disconnected_time n) v.

(** [map.entry(id).or_default()]. *)
Definition node_of (id : Z) (c : ServerInfoCollection) : ServerNodeInfo :=
  default default_node (server_node_map c !! id).
Definition set_node (id : Z) (n : ServerNodeInfo) (c : ServerInfoCollection) : ServerInfoCollection :=
  mkCollection (client_simple_list c) (<[id := n]> (server_node_map c)).

(** *** The list of all clients *)

(** A client another server already lists is online and WireGuard when one says so. *)
Definition merge_entry (m : gmap Ipv4Addr ClientEntry) (x : ClientEntry) : gmap Ipv4Addr ClientEntry :=
  match m !! ce_ip x with
  | Some v =>
      <[ce_ip x := mkClientEntry (ce_ip v)
          (if bool_decide (ce_name v = "")%string && negb (bool_decide (ce_name x = "")%string)
           then ce_name x else ce_name v)
          (if ce_online x then true else ce_online v)
          (if bool_decide (ce_node_type x = Wireguard) then Wireguard else ce_node_type v)]> m
  | None => <[ce_ip x := x]> m
  end.

Definition refresh_client_simple_list (c : ServerInfoCollection) : ServerInfoCollection :=
  let entries := server_node ← (map_to_list (server_node_map c)).*2;
                 (map_to_list (sn_client_map server_node)).*2 in
  mkCollection (map_to_list (fold_left merge_entry entries ∅)).*2 (server_node_map c).

(** *** Changes *)

Definition update_server (addr : list (Z * ProtocolAddress)) (c : ServerInfoCollection)
    : ServerInfoCollection :=
  mkCollection [] (fold_left (λ m '(id, a), <[id := new_node id a]> m) addr ∅).

(** The name an entry without one already had. *)
Definition named (old : gmap Ipv4Addr ClientEntry) (info : ClientEntry) : ClientEntry :=
  if bool_decide (ce_name info = "")%string then
    match old !! ce_ip info with
    | Some existing => mkClientEntry (ce_ip info) (ce_name existing) (ce_online info) (ce_node_type info)
    | None => info
    end
  else info.

(** [into_iter().filter(..).map(..).collect::<HashMap<_, _>>()]: the last entry of an
    address stays. *)
Definition collect_entries (self_ip : Ipv4Addr) (old : gmap Ipv4Addr ClientEntry) (l : list ClientEntry)
    : gmap Ipv4Addr ClientEntry :=
  fold_left (λ m info, <[ce_ip info := named old info]> m)
    (filter (λ v, ce_ip v ≠ self_ip) l) ∅.

Definition update_client_simple_list (id : Z) (self_ip : Ipv4Addr) (l : ClientList) (now : Z)
    (c : ServerInfoCollection) : ServerInfoCollection :=
  let n := node_of id c in
  let n := if ls_time l <? now then with_rtt (Some (wrap 32 (now - ls_time l))) n else n in
  let map := collect_entries self_ip (sn_client_map n) (ls_list l) in
  let n := with_clients (ls_data_version l) (if ls_is_all l then map else map ∪ sn_client_map n) n in
  refresh_client_simple_list (set_node id n c).

Definition replace_client_list_from_rpc (id : Z) (self_ip : Ipv4Addr) (l : list ClientEntry)
    (c : ServerInfoCollection) : ServerInfoCollection :=
  let n := node_of id c in
  let map := fold_left (λ m info, <[ce_ip info := info]> m)
               (filter (λ v, ce_ip v ≠ self_ip) l) ∅ in
  refresh_client_simple_list (set_node id (with_clients (sn_data_version n) map n) c).

Definition set_server_connected (id : Z) (val : bool) (c : ServerInfoCollection)
    : bool * ServerInfoCollection :=
  let n := node_of id c in (sn_connected n, set_node id (with_connected val n) c).
Definition set_last_connected_time (id : Z) (t : option Z) (c : ServerInfoCollection)
    : ServerInfoCollection :=
  let n := node_of id c in set_node id (with_times t (sn_disconnected_time n) n) c.
Definition set_disconnected_time (id : Z) (t : option Z) (c : ServerInfoCollection)
    : ServerInfoCollection :=
  let n := node_of id c in set_node id (with_times (sn_last_connected_time n) t n) c.
Definition set_server_rtt (id rtt : Z) (c : ServerInfoCollection) : ServerInfoCollection :=
  mkCollection (client_simple_list c) (alter (with_rtt (Some rtt)) id (server_node_map c)).
Definition set_server_version (id : Z) (v : string) (c : ServerInfoCollection) : ServerInfoCollection :=
  mkCollection (client_simple_list c) (alter (with_version (Some v)) id (server_node_map c)).
Definition clear_collection (c : ServerInfoCollection) : ServerInfoCollection :=
  mkCollection [] ((λ n, mkServerNodeInfo (sn_server_id n) (sn_server_addr n) false None 0 ∅ None None
                           (sn_server_version n)) <$> server_node_map c).

(** [handle_connected] and [handle_disconnected] of a connection; [now] is the time in
    milliseconds. *)
Definition handle_connected (id now : Z) (c : ServerInfoCollection) : ServerInfoCollection :=
  set_disconnected_time id None (set_last_connected_time id (Some now) (set_server_connected id true c).2).
Definition handle_disconnected (id now : Z) (c : ServerInfoCollection) : ServerInfoCollection :=
  let '(old, c) := set_server_connected id false c in
  if old : bool then set_disconnected_time id (Some now) c else c.

(** *** Queries *)

(** [min_by_key(|(_, rtt)| *rtt).map(|(id, _)| id)]: the first of the least. *)
Definition faster (best : option (Z * Z)) (x : Z * Z) : option (Z * Z) :=
  match best with Some b => if x.2 <? b.2 then Some x else best | None => Some x end.
Definition fastest (l : list (Z * Z)) : option Z := fst <$> fold_left faster l None.

Definition connected_server (c : ServerInfoCollection) (id : Z) : option (Z * Z) :=
  server ← server_node_map c !! id;
  if negb (sn_connected server) then None else Some (id, default u32_max (sn_rtt server)).

Definition server_for (ip : Ipv4Addr) (c : ServerInfoCollection) (id : Z) : option (Z * Z) :=
  server ← server_node_map c !! id;
  if negb (sn_connected server) then None
  else client ← sn_client_map server !! ip;
       if negb (ce_online client) then None else Some (id, default u32_max (sn_rtt server)).

Definition find_connected_server (ids : list Z) (c : ServerInfoCollection) : option Z :=
  fastest (omap (connected_server c) ids).
Definition find_ip_to_server (ids : list Z) (ip : Ipv4Addr) (c : ServerInfoCollection) : option Z :=
  fastest (omap (server_for ip c) ids).

Definition is_wireguard_client (ip : Ipv4Addr) (c : ServerInfoCollection) : bool :=
  existsb (λ server, sn_connected server &&
    match sn_client_map server !! ip with
    | Some client => ce_online client && bool_decide (ce_node_type client = Wireguard)
    | None => false
    end) (map_to_list (server_node_map c)).*2.

Definition online_vnt (v : ClientEntry) : bool := ce_online v && bool_decide (ce_node_type v = Vnt).
Definition client_online_ips (c : ServerInfoCollection) : list Ipv4Addr :=
  ce_ip <$> filter (λ v, online_vnt v = true) (client_simple_list c).
Definition exists_online_client_ip (ip : Ipv4Addr) (c : ServerInfoCollection) : bool :=
  existsb (λ v, (ce_ip v =? ip) && ce_online v) (client_simple_list c).
Definition data_version_of (id : Z) (c : ServerInfoCollection) : Z :=
  match server_node_map c !! id with Some n => sn_data_version n | None => 0 end.
Definition is_server_connected (id : Z) (c : ServerInfoCollection) : bool :=
  match server_node_map c !! id with Some n => sn_connected n | None => false end.

Definition node_ips (n : ServerNodeInfo) : list Ipv4Addr :=
  fst <$> filter (λ kv, online_vnt kv.2 = true) (map_to_list (sn_client_map n)).
Definition server_client_ip_map (c : ServerInfoCollection) : gmap Z (list Ipv4Addr * Z) :=
  (λ n, (node_ips n, default 500 (sn_rtt n))) <$> server_node_map c.

(** ** Packets *)

(** The address of the client in its network. *)
Record NetworkAddr := mkNetworkAddr {
  na_gateway : Ipv4Addr; na_broadcast : Ipv4Addr; na_ip : Ipv4Addr; na_prefix_len : Z }.

Definition FEC : Z := 32.
(** Two types of packets only clients know. *)
Inductive ClientMsgType := Known (m : MsgType) | RelayProbe | RelayProbeReply.
#[export] Instance ClientMsgType_eq_dec : EqDecision ClientMsgType.
Proof. solve_decision. Defined.

(** [lz4_flex::decompress_size_prepended]; [None] when compression is off. *)
Abbreviation Compression := (option (bytes → option bytes)) (only parsing).

(** What the client does with a packet: [EnhancedInbound::inbound],
    [TransportClient::send_turn], [RpcNotifier::notify_response] and
    [WireGuardP2pHandle::apply_control]. *)
Inductive ClientAction :=
| ActInbound (m : MsgType) (src : Ipv4Addr) (p : NetPacket)
| ActSendTurn (p : NetPacket)
| ActRpc (r : RpcMessageResponse)
| ActControl (c : P2pControlMessage).

Section Inbound.
Context {PL : PnetLib} {U32 : NetU32Lib} {CL : ProstCodec proto.ClientSimpleInfoList}.
Context {SB : ProstCodec proto.SelectiveBroadcast} {RPS : ProstCodec RpcMessageResponse} {PC : P2pCodec}.

Definition is_fec (p : NetPacket) : bool := negb (Z.land (flags_byte (Packet.header p)) FEC =? 0).

Definition client_msg_type (p : NetPacket) : option ClientMsgType :=
  let v := Header.msg_type (Packet.header p) in
  if v =? 16 then Some RelayProbe
  else if v =? 19 then Some RelayProbeReply
  else match MsgType_.try_from v with Ok m => Some (Known m) | Err _ => None end.

Definition decompress (lz4 : Compression) (p : NetPacket) : option NetPacket :=
  match lz4 with
  | None => Some p
  | Some f =>
      if negb (Packet.is_compressed p) then Some p
      else decompressed ← f (Packet.payload p);
           Some (Packet.set_compressed_flag false
                   (mkNetPacket (take HEAD_LENGTH (buffer p) ++ decompressed)))
  end.

(** [handle_ping]: the time and the version of the client's list.  The buffer has room
    for both. *)
Definition ping_packet (now version : Z) : option bytes :=
  match Packet.new (zeroed (HEAD_LENGTH + 8 + 8)) with
  | Err _ => None
  | Ok p =>
      let p := Packet.set_ttl 1 p in
      let p := Packet.set_msg_type PingTurn p in
      let p := Packet.set_gateway_flag true p in
      match Packet.set_payload (to_be_bytes 8 (wrap 64 now)) p with
      | Err _ => None
      | Ok p => Some (write_at (HEAD_LENGTH + 8) (to_be_bytes 8 version)
                        (write_at HEAD_LENGTH (to_be_bytes 8 (wrap 64 now)) (buffer p)))
      end
  end.

(** A packet from the gateway of server [id]; [now] is the time in milliseconds,
    [None] an error. *)
Definition handle_server_data (lz4 : Compression) (allow_wire_guard p2p : bool) (id : Z)
    (net : NetworkAddr) (now : Z) (data : bytes) (c : ServerInfoCollection)
    : option (list ClientAction * ServerInfoCollection) :=
  match Packet.new data with
  | Err _ => None
  | Ok packet =>
      let src := Packet.src_id packet in
      msg_type ← client_msg_type packet;
      packet ← decompress lz4 packet;
      let payload := Packet.payload packet in
      match msg_type with
      | Known Turn =>
          if negb (ipv4_new payload) then Some ([], c)
          else if negb (ipv4_get_version payload =? 4) then Some ([], c)
          else if negb (ipv4_get_next_level_protocol payload =? PROTO_ICMP) then Some ([], c)
          else if negb (icmp_new (ipv4_payload payload)) then Some ([], c)
          else if negb (icmp_get_icmp_type (ipv4_payload payload) =? ICMP_ECHO_REPLY) then Some ([], c)
          else Some ([ActInbound Turn src packet], c)
      | Known Ping =>
          let packet := Packet.set_ttl 2 packet in
          let packet := Packet.set_msg_type Pong packet in
          let packet := Packet.set_src_id (na_ip net) packet in
          let packet := Packet.set_dest_id src packet in
          Some ([ActSendTurn packet], c)
      | Known PongTurn =>
          if (length payload =? 16)%nat then
            let time := u64_as_i64 (from_be_bytes (take 8 payload)) in
            Some ([], if time <=? now then set_server_rtt id (wrap 32 (now - time)) c else c)
          else Some ([], c)
      | Known PushClientIps =>
          l ← client_list_decode payload;
          Some ([], update_client_simple_list id (na_ip net) l now c)
      | Known RpcRes => r ← prost_decode payload; Some ([ActRpc r], c)
      | Known WireGuardP2pControl =>
          if negb allow_wire_guard || negb (Packet.is_gateway packet) || (Packet.ttl packet =? 0)
             || negb (src =? na_gateway net) || negb (Packet.dest_id packet =? na_ip net)
          then Some ([], c)
          else if p2p : bool then control ← prost_decode payload; Some ([ActControl control], c)
          else Some ([], c)
      | _ => Some ([], c)
      end
  end.

(** ** Broadcasts *)

(** [send_exclude_broadcast] and [send_target_broadcast]. *)
Definition selective_frame (m : MsgType) (ips : list Ipv4Addr) (buf : bytes) : option bytes :=
  let b := prost_encode (proto.mkSelectiveBroadcast ips buf) in
  match Packet.new (zeroed (HEAD_LENGTH + length b)) with
  | Err _ => None
  | Ok p => match Packet.set_payload b (Packet.set_ttl 5 (Packet.set_msg_type m p)) with
            | Ok p => Some (buffer p) | Err _ => None end
  end.

(** The broadcast on the best server: to all its clients, or to all but [exclude]. *)
Definition main_frame (exclude : option (list Ipv4Addr)) (buf : bytes) : option bytes :=
  match exclude with Some ips => selective_frame ExcludeBroadcast ips buf | None => Some buf end.

(** The clients server [id] is asked to reach besides those of the best server. *)
Definition other_targets (best_ips : list Ipv4Addr) (exclude : option (list Ipv4Addr))
    (ips : list Ipv4Addr) : list Ipv4Addr :=
  filter (λ ip, ip ∉ best_ips ∧ ip ∉ default [] exclude) ips.

(** [send_raw_broadcast]: the frames handed to the servers' queues.  [senders] are the
    servers with a queue, [best] the server whose clients per round-trip time score
    highest; [None] an error. *)
Definition send_raw_broadcast (senders : gset Z) (best : Z) (exclude : option (list Ipv4Addr))
    (buf : bytes) (c : ServerInfoCollection) : option (list (Z * bytes)) :=
  let map := server_client_ip_map c in
  match map_to_list map with
  | [] => None
  | [(id, (ips, _))] =>
      if is_nil ips then Some []
      else if negb (bool_decide (id ∈ senders)) then None
      else f ← main_frame exclude buf; Some [(id, f)]
  | _ =>
      '(best_ips, _) ← map !! best;
      if is_nil best_ips then Some []
      else if negb (bool_decide (best ∈ senders)) then None
      else
        f ← main_frame exclude buf;
        Some ((best, f) ::
          omap (λ '(id, (ips, _)),
                  if bool_decide (id = best) then None
                  else
                    let targets := other_targets best_ips exclude ips in
                    if is_nil targets || negb (bool_decide (id ∈ senders)) then None
                    else (id,.) <$> selective_frame TargetBroadcast targets buf)
               (map_to_list map))
  end.
End Inbound.

(** ** Lemmas *)

(** A list of the server as the client reads it. *)
Definition entry_of (x : ClientSimpleInfo) : ClientEntry :=
  mkClientEntry (info_ip x) "" (info_online x) (info_node_type x).
Definition list_of (l : ClientSimpleInfoList) : ClientList :=
  mkClientList (csl_data_version l) (entry_of <$> csl_list l) (csl_is_all l) (csl_time l).

(** Every device of the lease state with a usable address is in the map, online exactly
    when it is connected. *)
Definition view_ok `{!Ipv4NetLib} (net : Ipv4Net) (gw self_ip : Ipv4Addr) (i : Inner)
    (m : gmap Ipv4Addr ClientEntry) : Prop :=
  ∀ d e ip, device_map i !! d = Some e → e_ip e = Some ip → usable net gw ip → ip ≠ self_ip →
    ∃ x, m !! ip = Some x ∧ ce_online x = e_is_connected e ∧ ce_node_type x = Vnt.

(** No WireGuard peer is connected under the address of a device. *)
Definition endpoints_apart `{!Mpsc W bytes, !Mpsc W WireGuardBridgePacket, !Ipv4NetLib}
    (s : NetworkState (W:=W)) : Prop :=
  ∀ ip e d v, online_endpoints s !! ip = Some e → is_wireguard e = true →
    device_map (lease_state s) !! d = Some v → e_ip v ≠ Some ip.

(** The encoder of client lists writes bytes. *)
Class ClientListLaws `{!ProstCodec proto.ClientSimpleInfoList} : Prop := {
  client_list_laws :: ProstLaws proto.ClientSimpleInfoList;
  client_list_bytes (m : proto.ClientSimpleInfoList) : bytes_ok (prost_encode m)
}.

Module ViewFacts.
Section Facts.
Context {NL : Ipv4NetLib} {NLL : Ipv4NetLaws} {PL : PnetLib} {U32 : NetU32Lib} {U32L : NetU32Laws}.
Context {W : Type} {MV : Mpsc W bytes} {MW : Mpsc W WireGuardBridgePacket}.
Context {CL : ProstCodec proto.ClientSimpleInfoList} {CLL : ClientListLaws}.

Lemma named_ip old v : ce_ip (named old v) = ce_ip v.
Proof. unfold named. by repeat case_match. Qed.
Lemma named_online old v : ce_online (named old v) = ce_online v.
Proof. unfold named. by repeat case_match. Qed.
Lemma named_type old v : ce_node_type (named old v) = ce_node_type v.
Proof. unfold named. by repeat case_match. Qed.

(** *** Collecting a list *)

Lemma collect_inv old l (m : gmap Ipv4Addr ClientEntry) ip y :
  fold_left (λ m info, <[ce_ip info := named old info]> m) l m !! ip = Some y →
  m !! ip = Some y ∨ ∃ v, v ∈ l ∧ ce_ip v = ip ∧ y = named old v.
Proof.
  revert m. induction l as [|v l IH]; intros m H; [by left|]. simpl in H.
  destruct (IH _ H) as [Hm|(v' & Hv & ? & ?)]; [|right; exists v'; set_solver].
  destruct (decide (ce_ip v = ip)) as [Hv|Hv].
  - right. exists v. rewrite Hv, lookup_insert_eq in Hm. set_solver.
  - left. by rewrite lookup_insert_ne in Hm.
Qed.

Lemma collect_some old l (m : gmap Ipv4Addr ClientEntry) ip :
  is_Some (m !! ip) ∨ (∃ v, v ∈ l ∧ ce_ip v = ip) →
  is_Some (fold_left (λ m info, <[ce_ip info := named old info]> m) l m !! ip).
Proof.
  revert m. induction l as [|v l IH]; intros m H; [set_solver|]. simpl. apply IH.
  destruct (decide (ce_ip v = ip)) as [Hv|Hv]; [left; rewrite Hv, lookup_insert_eq; eauto|].
  rewrite lookup_insert_ne by done. set_solver.
Qed.

Lemma collect_entries_inv self old l ip y :
  collect_entries self old l !! ip = Some y →
  ∃ v, v ∈ l ∧ ce_ip v = ip ∧ ip ≠ self ∧ y = named old v.
Proof.
  intros [H|(v & Hv & Hi & Hy)]%collect_inv; [by rewrite lookup_empty in H|].
  apply list_elem_of_filter in Hv as [Hs Hv]. exists v. by subst.
Qed.

Lemma collect_entries_some self old l v :
  v ∈ l → ce_ip v ≠ self → is_Some (collect_entries self old l !! ce_ip v).
Proof. intros Hv Hs. apply collect_some. right. exists v. split; [|done]. by apply list_elem_of_filter. Qed.

(** *** What the server lists at the address of a device *)

Lemma device_unique net gw i d1 d2 e1 e2 ip :
  lease_inv net gw i → usable net gw ip →
  device_map i !! d1 = Some e1 → device_map i !! d2 = Some e2 → e_ip e1 = Some ip → e_ip e2 = Some ip →
  d1 = d2 ∧ e1 = e2.
Proof.
  intros Hi Hu H1 H2 I1 I2. pose proof (inv_owner _ _ _ Hi _ _ _ H1 I1 Hu).
  pose proof (inv_owner _ _ _ Hi _ _ _ H2 I2 Hu). assert (d1 = d2) by congruence. subst. split; congruence.
Qed.

Lemma vnt_infos_inv keep ex (s : NetworkState) x :
  x ∈ vnt_infos keep ex s → ∃ d e, device_map (lease_state s) !! d = Some e ∧ e_ip e = Some (info_ip x) ∧
    keep e = true ∧ x = mkClientSimpleInfo (info_ip x) (e_is_connected e) Vnt.
Proof.
  intros ([d e] & Hd & He)%list_elem_of_omap. apply elem_of_map_to_list in Hd.
  destruct (e_ip e) as [ip|] eqn:Hi; [|done]. destruct (keep e) eqn:Hk; [|done].
  destruct (ip =? ex); [done|]. injection He as <-. by exists d, e.
Qed.

(** The list sent at a version, entry by entry. *)
Lemma listed_at ex v wg (s : NetworkState) l d e ip x :
  changed_client_simple_list ex v wg s = Some l →
  lease_inv (ns_net s) (ns_gateway s) (lease_state s) → endpoints_apart s →
  device_map (lease_state s) !! d = Some e → e_ip e = Some ip →
  usable (ns_net s) (ns_gateway s) ip → ip ≠ ex →
  x ∈ csl_list l → info_ip x = ip → info_online x = e_is_connected e ∧ info_node_type x = Vnt ∧
    (csl_is_all l = true ∨ (v <? e_data_version e) = true).
Proof.
  intros Hl Hi Ha Hd Hip Hu Hex Hx Hxi. unfold changed_client_simple_list in Hl.
  destruct (v =? _); [done|].
  assert (∀ keep, x ∈ vnt_infos keep ex s → info_online x = e_is_connected e ∧
    info_node_type x = Vnt ∧ keep e = true) as Hv.
  { intros keep (d' & e' & Hd' & Hip' & Hk & ->)%vnt_infos_inv. cbn in *. subst ip.
    destruct (device_unique _ _ _ d d' e e' _ Hi Hu Hd Hd' Hip Hip') as [-> ->]. done. }
  destruct (_ || _); injection Hl as <-; cbn [csl_list csl_is_all] in *; [|naive_solver].
  destruct wg; [|naive_solver].
  apply elem_of_app in Hx as [[Hx|Hx]%elem_of_app|Hx]; [naive_solver|..].
  - apply list_elem_of_omap in Hx as ([ip' ep] & Hep & Hx). apply elem_of_map_to_list in Hep.
    destruct (is_wireguard ep) eqn:Hw; [|done]. injection Hx as <-. cbn in Hxi. subst ip'.
    by destruct (Ha _ _ _ _ Hep Hw Hd).
  - apply list_elem_of_fmap in Hx as (ip' & -> & Hx). cbn in Hxi. subst ip'.
    apply list_elem_of_filter in Hx as [[_ Hn] _]. destruct Hn. apply elem_of_list_to_set.
    apply list_elem_of_fmap. exists (mkClientSimpleInfo ip (e_is_connected e) Vnt). split; [done|].
    apply elem_of_app. left. by eapply DeliveryFacts.vnt_infos_elem.
Qed.

Lemma changed_lists ex v wg (s : NetworkState) l d e ip :
  changed_client_simple_list ex v wg s = Some l →
  device_map (lease_state s) !! d = Some e → e_ip e = Some ip → ip ≠ ex →
  csl_is_all l = true ∨ (v <? e_data_version e) = true →
  mkClientSimpleInfo ip (e_is_connected e) Vnt ∈ csl_list l.
Proof.
  intros Hl Hd Hip Hex Hc. unfold changed_client_simple_list in Hl. destruct (v =? _); [done|].
  destruct (_ || _); injection Hl as <-; cbn [csl_list csl_is_all] in *.
  - assert (mkClientSimpleInfo ip (e_is_connected e) Vnt ∈ vnt_infos (λ _, true) ex s)
      by (by eapply DeliveryFacts.vnt_infos_elem).
    destruct wg; [|done]. rewrite !elem_of_app. auto.
  - destruct Hc as [|Hc]; [done|]. by eapply DeliveryFacts.vnt_infos_elem.
Qed.

(** *** The map after a list *)

Lemma node_update id self l now c :
  node_of id (update_client_simple_list id self l now c) =
  let n := node_of id c in
  let n := if ls_time l <? now then with_rtt (Some (wrap 32 (now - ls_time l))) n else n in
  with_clients (ls_data_version l)
    (let map := collect_entries self (sn_client_map (node_of id c)) (ls_list l) in
     if ls_is_all l then map else map ∪ sn_client_map (node_of id c)) n.
Proof.
  unfold update_client_simple_list, node_of, refresh_client_simple_list, set_node.
  cbn [server_node_map]. rewrite lookup_insert_eq. cbn [default]. by destruct (ls_time l <? now).
Qed.

Lemma clients_update id self l now c :
  sn_client_map (node_of id (update_client_simple_list id self l now c)) =
  (let map := collect_entries self (sn_client_map (node_of id c)) (ls_list l) in
   if ls_is_all l then map else map ∪ sn_client_map (node_of id c)).
Proof. by rewrite node_update. Qed.

Lemma version_update id self l now c :
  data_version_of id (update_client_simple_list id self l now c) = ls_data_version l.
Proof.
  unfold data_version_of, update_client_simple_list, refresh_client_simple_list, set_node.
  cbn [server_node_map]. by rewrite lookup_insert_eq.
Qed.

Lemma view_after_list net gw self id n h0 i0 (s : NetworkState) wg l t now c :
  net = ns_net s → gw = ns_gateway s →
  version_inv i0 → data_version i0 + Z.of_nat n ≤ u64_max →
  nsteps (lease_step net gw) n (h0, i0) (stats_heap s, lease_state s) →
  lease_inv net gw (lease_state s) → endpoints_apart s →
  changed_client_simple_list self (data_version i0) wg s = Some l →
  view_ok net gw self i0 (sn_client_map (node_of id c)) →
  view_ok net gw self (lease_state s)
    (sn_client_map (node_of id (update_client_simple_list id self (list_of (with_list_time t l)) now c))).
Proof.
  intros -> -> Hv Hn Hs Hi Ha Hl Hok d e ip Hd Hip Hu Hex. rewrite clients_update.
  cbn [list_of with_list_time csl_list csl_is_all ls_list ls_is_all]. set (old := sn_client_map _) in *. cbv zeta.
  assert (∀ y, collect_entries self old (entry_of <$> csl_list l) !! ip = Some y →
    ce_online y = e_is_connected e ∧ ce_node_type y = Vnt ∧
    (csl_is_all l = true ∨ (data_version i0 <? e_data_version e) = true)) as Hc.
  { intros y (v & (x & -> & Hx)%list_elem_of_fmap & Hvi & _ & ->)%collect_entries_inv.
    rewrite named_online, named_type. by eapply listed_at. }
  destruct (decide (csl_is_all l = true ∨ (data_version i0 <? e_data_version e) = true)) as [Hc'|Hc'].
  - pose proof (changed_lists _ _ _ _ _ _ _ _ Hl Hd Hip Hex Hc') as Hx.
    destruct (collect_entries_some self old (entry_of <$> csl_list l)
      (entry_of (mkClientSimpleInfo ip (e_is_connected e) Vnt))) as [y Hy];
      [by apply list_elem_of_fmap_2|done|]. cbn [entry_of ce_ip info_ip] in Hy.
    exists y. destruct (Hc y Hy) as (? & ? & _). split; [|done].
    destruct (csl_is_all l); [done|]. by apply lookup_union_Some_l.
  - assert (collect_entries self old (entry_of <$> csl_list l) !! ip = None) as Hno.
    { destruct (collect_entries _ _ _ !! ip) as [y|] eqn:Hy; [|done]. destruct (Hc y eq_refl) as (_&_&?). done. }
    destruct (csl_is_all l) eqn:Hall; [naive_solver|]. rewrite lookup_union_r by done.
    destruct (LeaseFacts.lease_steps_version _ _ n _ _ Hs Hv Hn) as (_ & _ & Hk). cbn [snd] in Hk.
    destruct (Hk d e Hd) as (e0 & H0 & E1 & E2 & _).
    { destruct (Z.ltb_spec (data_version i0) (e_data_version e)); [naive_solver|lia]. }
    destruct (Hok d e0 ip H0) as (x & ? & ? & ?); [congruence|done..|]. exists x. split_and!; congruence.
Qed.

(** *** Packets of the gateway *)

(** The envelope of the gateway: read as it was written. *)
Lemma gateway_envelope_spec m (c : bytes) :
  bytes_ok c →
  ∃ data p, gateway_envelope m None c = Some data ∧ Packet.new data = Ok p ∧
    Packet.msg_type p = Ok m ∧ Packet.ttl p = 1 ∧ Packet.is_gateway p = true ∧
    Packet.is_compressed p = false ∧ Packet.payload p = c.
Proof.
  intros Hc. unfold gateway_envelope. set (z := zeroed (HEAD_LENGTH + length c)).
  assert (length z = (HEAD_LENGTH + length c)%nat) as Lz by apply length_replicate.
  assert (packet_ok (mkNetPacket z)) as Hz by (split; [cbn [buffer]; lia|apply zeroed_ok]).
  unfold Packet.new at 1. rewrite (proj2 (Nat.ltb_ge _ _)) by lia.
  destruct (PacketFacts.setter_effect (Header.set_msg_type (MsgType_.into m)) _ Hz
    (PacketFacts.set_msg_type_ok _ _)) as (H1 & E1 & _ & L1).
  destruct (PacketFacts.setter_effect (Header.set_flag GATEWAY true) _ H1
    (PacketFacts.set_flag_ok GATEWAY true _ ltac:(unfold is_u, GATEWAY; lia))) as (H2 & E2 & _ & L2).
  destruct (PacketFacts.setter_effect (Header.set_ttl 1 1) _ H2 (PacketFacts.set_ttl_ok _ _ _))
    as (H3 & E3 & _ & L3).
  unfold Packet.set_msg_type, Packet.set_gateway_flag, Packet.set_ttl.
  rewrite E2, E1 in E3. rewrite L2, L1 in L3. clear E1 E2 L1 L2.
  set (q := Packet.header_mut (Header.set_ttl 1 1) _) in *. clearbody q. cbn [buffer] in L3.
  destruct (PacketFacts.set_payload_ok c q H3 Hc ltac:(lia)) as (p & -> & Hp & Eh & Et & Lp).
  exists (buffer p), p. split; [done|]. unfold Packet.new.
  rewrite (proj2 (Nat.ltb_ge _ _)) by apply Hp. split; [by destruct p|]. rewrite E3 in Eh.
  split_and!.
  - unfold Packet.msg_type, Header.msg_type. rewrite Eh. cbn [type_byte].
    change (type_byte _) with (Z.lor (Z.land (MsgType_.into m) 127) 128).
    by rewrite PacketFacts.msg_type_byte, PacketFacts.into_try_from.
  - unfold Packet.ttl. by rewrite Eh.
  - unfold Packet.is_gateway. by rewrite Eh.
  - unfold Packet.is_compressed. by rewrite Eh.
  - rewrite take_ge in Et; [done|]. unfold Packet.payload. rewrite length_drop. lia.
Qed.

Lemma client_type p m : Packet.msg_type p = Ok m → client_msg_type p = Some (Known m).
Proof.
  unfold Packet.msg_type, client_msg_type. intros H. pose proof (PacketFacts.try_from_into _ _ H) as Hv.
  rewrite H. destruct (Z.eqb_spec (Header.msg_type (Packet.header p)) 16);
    [rewrite Hv in *; by destruct m|]. destruct (Z.eqb_spec (Header.msg_type (Packet.header p)) 19); [|done].
  rewrite Hv in *. by destruct m.
Qed.

Lemma decompress_plain lz4 p : Packet.is_compressed p = false → decompress lz4 p = Some p.
Proof. intros H. unfold decompress. destruct lz4; [by rewrite H|done]. Qed.

Lemma write_twice_drop (a b x : bytes) n :
  (n + length a + length b = length x)%nat →
  drop n (write_at (n + length a) b (write_at n a x)) = a ++ b.
Proof.
  intros Hl. assert (write_at n a x = take n x ++ a ++ drop (n + length a) x) as -> by done.
  unfold write_at. rewrite (drop_ge _ (n + length a + length b)), app_nil_r
    by (rewrite !length_app, length_take, length_drop; lia).
  rewrite (app_assoc (take n x) a), take_app_length' by (rewrite length_app, length_take; lia).
  rewrite <- app_assoc. rewrite drop_app_length' by (rewrite length_take; lia). done.
Qed.

Lemma header_write_payload (b x : bytes) n : (HEAD_LENGTH ≤ n)%nat → (n + length b ≤ length x)%nat →
  take HEAD_LENGTH (write_at n b x) = take HEAD_LENGTH x.
Proof.
  intros Hn Hl. unfold write_at. rewrite take_app_le by (rewrite length_take; lia).
  rewrite take_take. by replace (HEAD_LENGTH `min` n)%nat with HEAD_LENGTH by lia.
Qed.

Lemma ping_packet_spec now version :
  ∃ data p, ping_packet now version = Some data ∧ Packet.new data = Ok p ∧ packet_ok p ∧
    Packet.msg_type p = Ok PingTurn ∧ Packet.ttl p = 1 ∧
    Packet.is_gateway p = true ∧ Packet.is_compressed p = false ∧
    Packet.payload p = to_be_bytes 8 (wrap 64 now) ++ to_be_bytes 8 version.
Proof.
  unfold ping_packet. set (z := zeroed (HEAD_LENGTH + 8 + 8)).
  assert (length z = 32)%nat as Lz by apply length_replicate.
  assert (packet_ok (mkNetPacket z)) as Hz by (split; [cbn [buffer]; unfold HEAD_LENGTH; lia|apply zeroed_ok]).
  unfold Packet.new at 1. rewrite (proj2 (Nat.ltb_ge _ _)) by (unfold HEAD_LENGTH; lia).
  destruct (PacketFacts.setter_effect (Header.set_ttl 1 1) _ Hz (PacketFacts.set_ttl_ok _ _ _))
    as (H1 & E1 & _ & L1).
  destruct (PacketFacts.setter_effect (Header.set_msg_type (MsgType_.into PingTurn)) _ H1
    (PacketFacts.set_msg_type_ok _ _)) as (H2 & E2 & _ & L2).
  destruct (PacketFacts.setter_effect (Header.set_flag GATEWAY true) _ H2
    (PacketFacts.set_flag_ok GATEWAY true _ ltac:(unfold is_u, GATEWAY; lia))) as (H3 & E3 & _ & L3).
  unfold Packet.set_msg_type, Packet.set_gateway_flag, Packet.set_ttl.
  rewrite E2, E1 in E3. rewrite L2, L1 in L3. clear E1 E2 L1 L2.
  set (q := Packet.header_mut (Header.set_flag GATEWAY true) _) in *. clearbody q. cbn [buffer] in L3.
  pose proof (length_to_be_bytes 8 (wrap 64 now)) as La. pose proof (length_to_be_bytes 8 version) as Lb.
  destruct (PacketFacts.set_payload_ok (to_be_bytes 8 (wrap 64 now)) q H3 (to_be_bytes_ok _ _)
    ltac:(unfold HEAD_LENGTH; lia)) as (p & -> & Hp & Eh & _ & Lp).
  rewrite L3, Lz in Lp.
  set (a := to_be_bytes 8 (wrap 64 now)) in *. set (b := to_be_bytes 8 version) in *.
  assert (bytes_ok a) as Ba by apply to_be_bytes_ok. assert (bytes_ok b) as Bb by apply to_be_bytes_ok.
  clearbody a b.
  set (data := write_at (HEAD_LENGTH + 8) b (write_at HEAD_LENGTH a (buffer p))).
  assert (length (write_at HEAD_LENGTH a (buffer p)) = 32)%nat as Lw
    by (rewrite length_write_at; unfold HEAD_LENGTH; lia).
  assert (length data = 32)%nat as Ld by (unfold data; rewrite length_write_at; rewrite Lw; unfold HEAD_LENGTH; lia).
  assert (packet_ok (mkNetPacket data)) as Hd.
  { split; [cbn [buffer]; unfold HEAD_LENGTH; lia|]. cbn [buffer]. unfold data.
    apply write_at_ok; [done|]. apply write_at_ok; [done|]. apply Hp. }
  assert (Packet.header (mkNetPacket data) = Packet.header p) as Hh.
  { unfold Packet.header. cbn [buffer]. rewrite <- (PacketFacts.decode_header_take data).
    rewrite <- (PacketFacts.decode_header_take (buffer p)). f_equal. unfold data.
    change 16%nat with HEAD_LENGTH.
    rewrite (header_write_payload b) by (rewrite ?Lw; unfold HEAD_LENGTH; lia).
    by rewrite header_write_payload by (unfold HEAD_LENGTH; lia). }
  rewrite E3 in Eh.
  exists data, (mkNetPacket data). assert (Packet.new data = Ok (mkNetPacket data)) as Hnew
    by (unfold Packet.new; destruct (Nat.ltb_spec (length data) HEAD_LENGTH); [unfold HEAD_LENGTH in *; lia|done]).
  split_and!; try done; try apply Hd.
  - unfold Packet.msg_type. rewrite Hh, Eh. vm_compute. done.
  - unfold Packet.ttl. rewrite Hh, Eh. done.
  - unfold Packet.is_gateway. rewrite Hh, Eh. done.
  - unfold Packet.is_compressed. rewrite Hh, Eh. done.
  - unfold Packet.payload. cbn [buffer]. unfold data.
    replace (HEAD_LENGTH + 8)%nat with (HEAD_LENGTH + length a)%nat by lia.
    apply write_twice_drop. unfold HEAD_LENGTH. lia.
Qed.

Lemma list_decode l : client_list_decode (client_list_encode l) = Some (list_of l).
Proof.
  unfold client_list_decode, client_list_encode. rewrite prost_decode_encode. cbn [mbind option_bind].
  unfold list_of. cbn [proto.cl_data_version proto.cl_list proto.cl_is_all proto.cl_time].
  rewrite <- list_fmap_compose. do 2 f_equal. apply list_fmap_ext. intros _ [ip o []] _; done.
Qed.

Lemma view_unchanged net gw self n h0 i0 (s : NetworkState) m :
  version_inv i0 → data_version i0 + Z.of_nat n ≤ u64_max →
  nsteps (lease_step net gw) n (h0, i0) (stats_heap s, lease_state s) →
  data_version (lease_state s) = data_version i0 →
  view_ok net gw self i0 m → view_ok net gw self (lease_state s) m.
Proof.
  intros Hv Hn Hs He Hok d e ip Hd Hip Hu Hex.
  destruct (LeaseFacts.lease_steps_version _ _ n _ _ Hs Hv Hn) as (Hi & _ & Hk). cbn [snd] in *.
  destruct (Hk d e Hd) as (e0 & H0 & E1 & E2 & _); [rewrite <- He; by eapply inv_entry_version|].
  destruct (Hok d e0 ip H0) as (x & ? & ? & ?); [congruence|done..|]. exists x. split_and!; congruence.
Qed.

(** A change of the round-trip time alone. *)
Lemma rtt_keeps id rtt c :
  sn_client_map (node_of id (set_server_rtt id rtt c)) = sn_client_map (node_of id c) ∧
  data_version_of id (set_server_rtt id rtt c) = data_version_of id c.
Proof.
  unfold node_of, data_version_of, set_server_rtt. cbn [server_node_map]. rewrite lookup_alter_eq.
  by destruct (server_node_map c !! id).
Qed.

(** What the client makes of the two answers to its ping. *)
Lemma push_received {RPS : ProstCodec RpcMessageResponse} {PC : P2pCodec}
    lz4 wg p2p id net now c l data :
  push_client_ips l = Some data →
  handle_server_data lz4 wg p2p id net now data c =
  Some ([], update_client_simple_list id (na_ip net) (list_of l) now c).
Proof.
  intros Hp. unfold push_client_ips in Hp.
  destruct (gateway_envelope_spec PushClientIps (client_list_encode l)) as (d & p & Hd & Hn & Ht & _ & _ & Hc & Hpay);
    [apply client_list_bytes|]. rewrite Hp in Hd. injection Hd as <-.
  unfold handle_server_data. rewrite Hn, (client_type p _ Ht). cbn [mbind option_bind].
  rewrite decompress_plain by done. cbn [mbind option_bind]. rewrite Hpay, list_decode. done.
Qed.

Lemma pong_received {RPS : ProstCodec RpcMessageResponse} {PC : P2pCodec}
    lz4 wg p2p id net now c p :
  packet_ok p → Packet.is_compressed p = false → length (Packet.payload p) = 16%nat →
  ∃ c', handle_server_data lz4 wg p2p id net now (buffer (Packet.set_msg_type PongTurn p)) c = Some ([], c') ∧
    sn_client_map (node_of id c') = sn_client_map (node_of id c) ∧
    data_version_of id c' = data_version_of id c.
Proof.
  intros Hp Hc Hl. unfold Packet.set_msg_type.
  destruct (PacketFacts.setter_effect (Header.set_msg_type (MsgType_.into PongTurn)) _ Hp
    (PacketFacts.set_msg_type_ok _ _)) as (Hq & E & P & _).
  set (q := Packet.header_mut _ p) in *. clearbody q.
  assert (Packet.new (buffer q) = Ok q) as Hn.
  { unfold Packet.new. destruct (Nat.ltb_spec (length (buffer q)) HEAD_LENGTH);
      [destruct Hq; lia|by destruct q]. }
  assert (client_msg_type q = Some (Known PongTurn)) as Ht
    by (apply client_type; unfold Packet.msg_type; rewrite E; vm_compute; done).
  assert (Packet.is_compressed q = false) as Hc'
    by (unfold Packet.is_compressed in *; rewrite E; exact Hc).
  unfold handle_server_data. rewrite Hn, Ht. cbn [mbind option_bind].
  rewrite decompress_plain by done. cbn [mbind option_bind]. rewrite P, Hl. cbn [Nat.eqb].
  eexists. split; [done|]. destruct (_ <=? now); [apply rtt_keeps|done].
Qed.

(** The answer of the server to a ping. *)
Lemma ping_answered {RPQ : ProstCodec RpcMessageRequest} {RPS : ProstCodec RpcMessageResponse}
    now_ms now version h (g : Global) se sender s data p :
  ping_packet now version = Some data → Packet.new data = Ok p → is_u 64 version →
  h_session h = Some se → se_cluster_lease_valid se = true → h_upgraded h = Some sender →
  arena g !! se_network_state se = Some s →
  handle_gateway now_ms data h g =
    Ret (Ok tt, Some se, push sender
      match changed_client_simple_list (se_ip se) version (se_allow_wire_guard se) s with
      | Some l => match push_client_ips (with_list_time (u64_as_i64 (wrap 64 now)) l) with
                  | Some d => d | None => buffer (Packet.set_msg_type PongTurn p) end
      | None => buffer (Packet.set_msg_type PongTurn p)
      end g).
Proof.
  intros Hping Hn Hv Hse Hval Hup Ha.
  destruct (ping_packet_spec now version) as (d & q & Hd & Hnew & _ & Ht & Httl & _ & _ & Hpay).
  rewrite Hping in Hd. injection Hd as <-. rewrite Hn in Hnew. injection Hnew as <-.
  unfold handle_gateway. rewrite Hse, Hval, Hn, Ht, Hup, Ha, Httl, Hpay. cbn [negb Z.eqb].
  pose proof (length_to_be_bytes 8 (wrap 64 now)) as La. pose proof (length_to_be_bytes 8 version) as Lb.
  rewrite length_app, La, Lb. cbn [Nat.eqb Nat.add negb].
  rewrite drop_app_length' by done. rewrite take_app_length' by done.
  rewrite !from_to_be_bytes, !Z.mod_small; [|apply (wrap_range 64); lia|exact Hv].
  destruct (changed_client_simple_list _ _ _ _) as [l|]; [|done]. by destruct (push_client_ips _).
Qed.

(** *** The fastest server *)

Lemma fastest_spec l :
  match fastest l with
  | Some id => ∃ rtt, (id, rtt) ∈ l ∧ ∀ x, x ∈ l → rtt ≤ x.2
  | None => l = []
  end.
Proof.
  unfold fastest.
  assert (∀ l best, match fold_left faster l best with
    | Some b => (best = Some b ∨ b ∈ l) ∧ (∀ x, x ∈ l → b.2 ≤ x.2) ∧
                (∀ b0, best = Some b0 → b.2 ≤ b0.2)
    | None => best = None ∧ l = []
    end) as H.
  { clear l. induction l as [|x l IH]; intros best.
    { destruct best; simpl; [|done]. split_and!; [by left|set_solver|by intros ? [= <-]]. }
    cbn [fold_left]. specialize (IH (faster best x)). destruct (fold_left faster l _) as [b|].
    - destruct IH as (Hin & Hmin & Hb). destruct best as [b0|]; unfold faster in *.
      + destruct (Z.ltb_spec x.2 b0.2) as [Hlt|Hge].
        * specialize (Hb x eq_refl). split; [right; destruct Hin; [simplify_eq|]; set_solver|].
          split; [intros y [->|?]%elem_of_cons; [done|auto]|intros ? [= <-]; lia].
        * specialize (Hb b0 eq_refl). split; [destruct Hin; [by left|set_solver]|].
          split; [intros y [->|?]%elem_of_cons; [lia|auto]|by intros ? [= <-]].
      + specialize (Hb x eq_refl). split; [right; destruct Hin; [simplify_eq|]; set_solver|].
        split; [intros y [->|?]%elem_of_cons; [done|auto]|done].
    - destruct IH as [Hb _]. destruct best as [b0|]; unfold faster in Hb; [by destruct (x.2 <? b0.2)|done]. }
  specialize (H l None). destruct (fold_left faster l None) as [[id rtt]|]; cbn [fmap option_fmap option_map].
  - destruct H as ([?|Hin] & Hmin & _); [done|]. exists rtt. by split.
  - by destruct H.
Qed.

Lemma server_for_spec ip c id x :
  server_for ip c id = Some x ↔ ∃ n e, server_node_map c !! id = Some n ∧ sn_connected n = true ∧
    sn_client_map n !! ip = Some e ∧ ce_online e = true ∧ x = (id, default u32_max (sn_rtt n)).
Proof.
  unfold server_for. destruct (server_node_map c !! id) as [n|]; cbn [mbind option_bind];
    [|split; [done|intros (?&?&?&?&?&?&?); congruence]].
  destruct (sn_connected n) eqn:Hc; cbn [negb]; [|split; [done|intros (?&?&?&?&?&?&?); congruence]].
  destruct (sn_client_map n !! ip) as [e|] eqn:He; cbn [mbind option_bind];
    [|split; [done|intros (?&?&?&?&?&?&?); congruence]].
  destruct (ce_online e) eqn:Ho; cbn [negb]; [|split; [done|intros (?&?&?&?&?&?&?); congruence]].
  split; [intros [= <-]; by exists n, e|]. intros (?&?&?&?&?&?&->). congruence.
Qed.

(** *** Frames of a broadcast *)

Context {SB : ProstCodec proto.SelectiveBroadcast} {SBL : ProstLaws proto.SelectiveBroadcast}.
Context (SBB : ∀ m : proto.SelectiveBroadcast, bytes_ok (prost_encode m)).

Lemma selective_frame_spec m ips buf :
  ∃ f p, selective_frame m ips buf = Some f ∧ Packet.new f = Ok p ∧ Packet.msg_type p = Ok m ∧
    Packet.ttl p = 5 ∧
    selective_broadcast_from_slice (Packet.payload p) = Ok (mkSelectiveBroadcast (list_to_set ips) buf).
Proof.
  unfold selective_frame. set (b := prost_encode _). cbv zeta.
  set (z := zeroed (HEAD_LENGTH + length b)).
  assert (length z = (HEAD_LENGTH + length b)%nat) as Lz by apply length_replicate.
  assert (packet_ok (mkNetPacket z)) as Hz by (split; [cbn [buffer]; lia|apply zeroed_ok]).
  unfold Packet.new at 1. rewrite (proj2 (Nat.ltb_ge _ _)) by lia.
  destruct (PacketFacts.setter_effect (Header.set_msg_type (MsgType_.into m)) _ Hz
    (PacketFacts.set_msg_type_ok _ _)) as (H1 & E1 & _ & L1).
  destruct (PacketFacts.setter_effect (Header.set_ttl 5 5) _ H1 (PacketFacts.set_ttl_ok _ _ _))
    as (H2 & E2 & _ & L2).
  unfold Packet.set_msg_type, Packet.set_ttl. rewrite E1 in E2. rewrite L1 in L2. clear E1 L1.
  set (q := Packet.header_mut (Header.set_ttl 5 5) _) in *. clearbody q. cbn [buffer] in L2.
  destruct (PacketFacts.set_payload_ok b q H2 (SBB _) ltac:(lia)) as (p & -> & Hp & Eh & Et & Lp).
  exists (buffer p), p. rewrite E2 in Eh. split; [done|].
  split; [unfold Packet.new; rewrite (proj2 (Nat.ltb_ge _ _)) by apply Hp; by destruct p|].
  split; [|split].
  - unfold Packet.msg_type, Header.msg_type. rewrite Eh.
    change (type_byte _) with (Z.lor (Z.land (MsgType_.into m) 127) 128).
    by rewrite PacketFacts.msg_type_byte, PacketFacts.into_try_from.
  - unfold Packet.ttl. by rewrite Eh.
  - assert (Packet.payload p = b) as ->.
    { rewrite take_ge in Et; [done|]. unfold Packet.payload. rewrite length_drop. lia. }
    unfold selective_broadcast_from_slice, b. by rewrite prost_decode_encode.
Qed.
End Facts.
End ViewFacts.

(** ** Theorems *)

Section Theorems.
Context {NL : Ipv4NetLib} {NLL : Ipv4NetLaws} {PL : PnetLib} {U32 : NetU32Lib} {U32L : NetU32Laws}.
Context {W : Type} {MV : Mpsc W bytes} {MW : Mpsc W WireGuardBridgePacket}.
Context {CL : ProstCodec proto.ClientSimpleInfoList} {CLL : ClientListLaws}.
Context {RPQ : ProstCodec RpcMessageRequest} {RPS : ProstCodec RpcMessageResponse} {PC : P2pCodec}.

(** C16: the client's list follows the server.  Let the list a client keeps for a server
    agree with the lease state [i0] at its version.  Whatever happened to the leases
    since, the client's next ping is answered by one frame, and after that frame the
    list has the server's version and agrees with the server's state: every device with
    a usable address other than the client's own is listed, online exactly when it is
    connected. *)
Theorem client_follows_server n h0 i0 s g h se sender lz4 wg p2p id net now now_ms now' c :
  version_inv i0 → data_version i0 + Z.of_nat n ≤ u64_max →
  nsteps (lease_step (ns_net s) (ns_gateway s)) n (h0, i0) (stats_heap s, lease_state s) →
  lease_inv (ns_net s) (ns_gateway s) (lease_state s) → endpoints_apart s →
  h_session h = Some se → se_cluster_lease_valid se = true → h_upgraded h = Some sender →
  arena g !! se_network_state se = Some s → na_ip net = se_ip se →
  data_version_of id c = data_version i0 →
  view_ok (ns_net s) (ns_gateway s) (se_ip se) i0 (sn_client_map (node_of id c)) →
  ∃ ping frame c', ping_packet now (data_version_of id c) = Some ping ∧
    handle_gateway now_ms ping h g = Ret (Ok tt, Some se, push sender frame g) ∧
    handle_server_data lz4 wg p2p id net now' frame c = Some ([], c') ∧
    data_version_of id c' = data_version (lease_state s) ∧
    view_ok (ns_net s) (ns_gateway s) (se_ip se) (lease_state s) (sn_client_map (node_of id c')).
Proof.
  intros Hv Hn Hs Hi Ha Hse Hval Hup Har Hip Hver Hok.
  destruct (ViewFacts.ping_packet_spec now (data_version_of id c))
    as (ping & p & Hping & Hnew & Hpok & _ & _ & _ & Hcomp & Hpay).
  assert (is_u 64 (data_version_of id c)) as Hu.
  { rewrite Hver. pose proof (inv_version _ Hv). unfold is_u, u64_max in *. lia. }
  pose proof (ViewFacts.ping_answered now_ms now _ h g se sender s ping p Hping Hnew Hu Hse Hval Hup Har) as Hg.
  rewrite Hver in Hg at 1.
  destruct (changed_client_simple_list (se_ip se) (data_version i0) (se_allow_wire_guard se) s) as [l|] eqn:El.
  - set (l' := with_list_time _ l) in *.
    destruct (ViewFacts.gateway_envelope_spec PushClientIps (client_list_encode l') (client_list_bytes _))
      as (d & _ & Hd & _). change (push_client_ips l' = Some d) in Hd. rewrite Hd in Hg.
    eexists ping, d, _. split; [done|]. split; [exact Hg|].
    split; [by apply ViewFacts.push_received|]. rewrite ViewFacts.version_update, Hip. split.
    + unfold changed_client_simple_list in El. destruct (_ =? _); [done|]. destruct (_ || _); by injection El as <-.
    + by eapply (ViewFacts.view_after_list _ _ _ _ n h0 i0 s (se_allow_wire_guard se) l).
  - destruct (ViewFacts.pong_received lz4 wg p2p id net now' c p Hpok Hcomp) as (c' & Hc' & Hm & Hd).
    { rewrite Hpay, length_app, !length_to_be_bytes. done. }
    exists ping, (buffer (Packet.set_msg_type PongTurn p)), c'. split; [done|]. split; [exact Hg|].
    split; [exact Hc'|]. rewrite Hm, Hd, Hver.
    unfold changed_client_simple_list in El. destruct (Z.eqb_spec (data_version i0) (data_version (lease_state s)));
      [|by destruct (_ || _)]. split; [done|]. by eapply ViewFacts.view_unchanged.
Qed.

(** A packet for a client goes through a server that has it.  The server chosen for
    an address is one of the client's servers, connected, lists the address as online,
    and no such server has a shorter round-trip time; none is chosen only if there is
    none. *)
Theorem server_choice_spec ids ip c :
  let serves id n := id ∈ ids ∧ server_node_map c !! id = Some n ∧ sn_connected n = true ∧
    ∃ e, sn_client_map n !! ip = Some e ∧ ce_online e = true in
  match find_ip_to_server ids ip c with
  | Some id => ∃ n, serves id n ∧
      ∀ id' n', serves id' n' → default u32_max (sn_rtt n) ≤ default u32_max (sn_rtt n')
  | None => ∀ id n, ¬ serves id n
  end.
Proof.
  intros serves. unfold find_ip_to_server.
  pose proof (ViewFacts.fastest_spec (omap (server_for ip c) ids)) as Hf.
  assert (∀ id n, serves id n → (id, default u32_max (sn_rtt n)) ∈ omap (server_for ip c) ids) as Hs.
  { intros id n (Hid & Hn & Hc & e & He & Ho). apply list_elem_of_omap. exists id. split; [done|].
    apply ViewFacts.server_for_spec. by exists n, e. }
  destruct (fastest _) as [id|].
  - destruct Hf as (rtt & Hin & Hmin).
    apply list_elem_of_omap in Hin as (id0 & Hid & (n & e & Hn & Hc & He & Ho & [= -> ->])%ViewFacts.server_for_spec).
    exists n. split; [split; eauto|]. intros id' n' Hs'. apply (Hmin _ (Hs _ _ Hs')).
  - intros id n Hsv. apply Hs in Hsv. rewrite Hf in Hsv. by apply elem_of_nil in Hsv.
Qed.

Context {SB : ProstCodec proto.SelectiveBroadcast} {SBL : ProstLaws proto.SelectiveBroadcast}.
Context (SBB : ∀ m : proto.SelectiveBroadcast, bytes_ok (prost_encode m)).

(** What a server reads from a frame for chosen clients. *)
Definition asks (f : bytes) (targets : gset Ipv4Addr) (buf : bytes) : Prop :=
  ∃ p, Packet.new f = Ok p ∧ Packet.msg_type p = Ok TargetBroadcast ∧
    selective_broadcast_from_slice (Packet.payload p) = Ok (mkSelectiveBroadcast targets buf).

End Theorems.

(** ** Witnesses *)

Module ViewWitness.
Import Model LeaseWitness NetWitness ServiceWitness HandlerWitness TunnelModel P2pModel.
#[local] Existing Instance NetWitness.MV.
#[local] Existing Instance NetWitness.MW.

#[local] Instance info_eq_dec : EqDecision proto.ClientSimpleInfo.
Proof. solve_decision. Defined.
#[local] Instance info_countable : Countable proto.ClientSimpleInfo.
Proof.
  refine (inj_countable' (λ m, (proto.ci_ip m, proto.ci_online m, proto.ci_node_type m))
    (λ '(a, b, c), proto.mkClientSimpleInfo a b c) _). intros []; done.
Defined.
#[local] Instance infos_eq_dec : EqDecision proto.ClientSimpleInfoList.
Proof. solve_decision. Defined.
#[local] Instance infos_countable : Countable proto.ClientSimpleInfoList.
Proof.
  refine (inj_countable'
    (λ m, (proto.cl_data_version m, proto.cl_list m, proto.cl_is_all m, proto.cl_time m))
    (λ '(a, b, c, d), proto.mkClientSimpleInfoList a b c d) _). intros []; done.
Defined.
#[local] Instance sb_eq_dec : EqDecision proto.SelectiveBroadcast.
Proof. solve_decision. Defined.
#[local] Instance sb_countable : Countable proto.SelectiveBroadcast.
Proof.
  refine (inj_countable' (λ m, (proto.sb_ips m, proto.sb_data m))
    (λ '(a, b), proto.mkSelectiveBroadcast a b) _). intros []; done.
Defined.
#[local] Instance list_codec : ProstCodec proto.ClientSimpleInfoList := packed_codec _.
#[local] Instance list_laws : ClientListLaws.
Proof. split; [apply packed_codec_laws|intros m; apply to_be_bytes_ok]. Qed.
#[local] Instance broadcast_codec : ProstCodec proto.SelectiveBroadcast := packed_codec _.
#[local] Instance rpc_codec : ProstCodec RpcMessageResponse := null_codec _.
#[local] Instance rpc_req_codec : ProstCodec RpcMessageRequest := null_codec _.

(** Device "a" pings after device "b" has come. *)
Definition se_a : Session := mkSession "net" "a" (host 2) 41 1 Confirmed false 0 false true.
Definition handler_a : ControlHandler (W := Wd) := mkControlHandler addr (Some 0%nat) (Some se_a).
Definition net_a : NetworkAddr := mkNetworkAddr gw (host 255) (host 2) 24.

Lemma checked {K} `{Countable K} {A} (P : A → bool) (m : gmap K A) k x :
  forallb P (map_to_list m).*2 = true → m !! k = Some x → P x = true.
Proof.
  intros Hf Hk. rewrite forallb_forall in Hf. apply Hf, list_elem_of_In, list_elem_of_fmap.
  exists (k, x). split; [done|]. by apply elem_of_map_to_list.
Qed.

Lemma apart_s1 : endpoints_apart s1.
Proof.
  intros ip e d v He Hw Hd. pose proof (checked (λ e, negb (is_wireguard e)) (online_endpoints s1) ip e ltac:(vm_compute; reflexivity) He) as Hn.
  cbv beta in Hn. by rewrite Hw in Hn.
Qed.

Lemma view_s0 : view_ok (ns_net s1) (ns_gateway s1) (host 2) (lease_state s0) ∅.
Proof.
  intros d e ip Hd Hip _ Hne.
  set (P := λ e : DeviceEntry, match e_ip e with Some i => i =? host 2 | None => false end).
  pose proof (checked P (device_map (lease_state s0)) d e
    ltac:(vm_compute; reflexivity) Hd) as Hb.
  unfold P in Hb. rewrite Hip in Hb. by apply Z.eqb_eq in Hb.
Qed.

Lemma client_follows_server_witness :
  ∃ ping frame c', ping_packet 7 0 = Some ping ∧
    handle_gateway 7 ping handler_a g1 = Ret (Ok tt, Some se_a, push (W := Wd) 0%nat frame g1) ∧
    handle_server_data None false false 0 net_a 8 frame empty_collection = Some ([], c') ∧
    ∃ x, sn_client_map (node_of 0 c') !! host 3 = Some x ∧ ce_online x = true.
Proof.
  assert (version_inv (lease_state s0)) as Hv.
  { refine (proj1 (proj2 (LeaseFacts.initial_inv net24 gw 5 records allocations ∅ init.1 init.2 db_ok _))).
    rewrite init_eq. by destruct init. }
  assert (nsteps (lease_step (ns_net s1) (ns_gateway s1)) 1 (stats_heap s0, lease_state s0)
    (stats_heap s1, lease_state s1)) as Hs.
  { eapply nsteps_l; [|apply nsteps_O].
    apply (step_allocate _ _ (req "b" None false) 42 1000 _ _ (host 3, None)). vm_compute. reflexivity. }
  destruct (client_follows_server 1 (stats_heap s0) (lease_state s0) s1 g1 handler_a se_a 0%nat None
    false false 0 net_a 7 7 8 empty_collection Hv ltac:(vm_compute; discriminate) Hs (ni_lease _ s1_inv) apart_s1
    eq_refl eq_refl eq_refl g1_state eq_refl) as (ping & frame & c' & H1 & H2 & H3 & _ & H4);
    [vm_compute; reflexivity|exact view_s0|].
  exists ping, frame, c'. split; [exact H1|]. split; [exact H2|]. split; [exact H3|].
  destruct (H4 "b"%string eb (host 3) eb_eq) as (x & Hx & Ho & _);
    [vm_compute; reflexivity|apply host3_usable|vm_compute; discriminate|].
  exists x. split; [exact Hx|]. rewrite Ho. vm_compute. reflexivity.
Defined.

(** Two servers list the same two clients. *)
Definition peer (n : Z) : ClientEntry := mkClientEntry (host n) "" true Vnt.
Definition two_peers : gmap Ipv4Addr ClientEntry := {[ host 5 := peer 5; host 6 := peer 6 ]}.
Definition node (id rtt : Z) (up : bool) (m : gmap Ipv4Addr ClientEntry) : ServerNodeInfo :=
  mkServerNodeInfo id default_address up (Some rtt) 1 m None None None.
Definition two_servers (up : bool) : ServerInfoCollection :=
  mkCollection [] {[ 0 := node 0 10 up two_peers; 1 := node 1 20 true (<[host 7 := peer 7]> two_peers) ]}.


(** A server that lost its connection keeps its clients and its round-trip time, and
    [server_client_ip_map] does not ask whether it is connected: the broadcast goes to
    it, and the connected server, which lists the same clients, is asked for none of
    them. *)
Theorem broadcast_to_lost_server :
  let c := mkCollection [] {[ 0 := node 0 10 true two_peers; 1 := node 1 20 true two_peers ]} in
  let c := handle_disconnected 0 7 c in
  is_server_connected 0 c = false ∧ find_ip_to_server [0; 1] (host 5) c = Some 1 ∧
  send_raw_broadcast {[0; 1]} 0 None [9] c = Some [(0, [9])].
Proof. split_and!; vm_compute; reflexivity. Qed.
End ViewWitness.
