(* ===== verification/ClientTunnel.v ===== *)
(** The client's end of direct tunnels: [wireguard_bridge.rs] and [wireguard_p2p.rs] of
    [VntcApp1.0/vendor/vnt-core-2.0.0/src], the relays of [tunnel_core/server/inbound.rs]
    and the choice between a direct tunnel and the relay in [tunnel_core/outbound.rs].

    The server of [P2p] offers a client the WireGuard peer that asked for it; the client
    opens a tunnel of its own to that peer.  One task owns the socket and the tunnels, so
    its handlers are computations on its state; they end in a value, a panic, or out of
    fuel where the source has a loop that is not bounded by its data. *)

From S2P Require Import Prelude Libs Std Text Packet ControlMessage Bridge Lease NetState Db Tunnel P2p Agent Handler ClientView Runtime.
From stdpp Require Import base gmap strings list.
From Stdlib Require Import ZArith Lia.

Local Open Scope Z_scope.

Definition MAX_ACTIVE_PEERS : nat := 64.
Definition AUTHENTICATED_ROUTE_TTL : Z := 45 * nanos.
Definition MAX_LEASE_AHEAD : Z := 120 * nanos.

(** What the client calls of [boringtun] besides what the server does: a tunnel with a
    rate limiter of its own, and the handshake it starts. *)
Class BoringtunClient (B : Type) `{!Boringtun B} := {
  tunn_new_own : bytes → bytes → Z → B → Tunn * B;
  format_handshake_initiation : Tunn → bool → B → TunnResult * Tunn * B
}.

(** ** [wireguard_bridge.rs] *)

Module ClientBridge.
Section ClientBridge.
Context {NL : Ipv4NetLib} {PL : PnetLib} {U32 : NetU32Lib}.

(** [Ipv4Net::new_assert] panics on a prefix length above 32. *)
Definition network (na : NetworkAddr) : outcome Ipv4Net :=
  match net_new (na_ip na) (na_prefix_len na) with Some n => Ret n | None => Panic end.

Definition parse_unbound_inner_ipv4 (packet : bytes) : option Ipv4Route :=
  if negb ((20 <=? length packet)%nat && (length packet <=? MAX_INNER_IPV4_PACKET_SIZE)%nat) then None
  else if negb (ipv4_new packet) then None
  else if negb (ipv4_get_version packet =? 4) then None
  else
    let header_length := Z.to_nat (ipv4_get_header_length packet * 4) in
    if (header_length <? 20)%nat || (length packet <? header_length)%nat then None
    else if negb (ipv4_get_total_length packet =? Z.of_nat (length packet)) then None
    else Some (mkIpv4Route (ipv4_get_source packet) (ipv4_get_destination packet)).

Definition parse_inner_ipv4 (packet : bytes) (expected_source : Ipv4Addr) : option Ipv4Route :=
  route ← parse_unbound_inner_ipv4 packet;
  if source route =? expected_source then Some route else None.

Definition validate_inner_ipv4 (packet : bytes) (expected_source : Ipv4Addr)
    (expected_destination : option Ipv4Addr) (na : NetworkAddr) : outcome (option Ipv4Route) :=
  match parse_inner_ipv4 packet expected_source with
  | None => Ret None
  | Some route =>
      let s := source route in
      let d := destination route in
      if match expected_destination with Some ip => negb (d =? ip) | None => false end then Ret None
      else match network na with
      | Panic => Panic
      | Ret n =>
          if negb (net_contains n s) || negb (net_contains n d) || (s =? net_network n)
             || (s =? net_broadcast n) || (s =? na_gateway na) || is_multicast s
             || (d =? ADDR_BROADCAST) || is_multicast d || (d =? net_network n)
             || (d =? net_broadcast n) || (d =? na_gateway na)
          then Ret None else Ret (Some route)
      end
  end.

Definition validate_broadcast_inner_ipv4 (packet : bytes) (expected_source : Ipv4Addr) (na : NetworkAddr)
    : outcome (option Ipv4Route) :=
  match parse_inner_ipv4 packet expected_source with
  | None => Ret None
  | Some route =>
      match network na with
      | Panic => Panic
      | Ret n =>
          let s := source route in
          let d := destination route in
          if negb (net_contains n s) || (s =? net_network n) || (s =? net_broadcast n)
             || (s =? na_gateway na) || is_multicast s
          then Ret None
          else if negb (d =? ADDR_BROADCAST) && negb (d =? net_broadcast n) && negb (is_multicast d)
          then Ret None else Ret (Some route)
      end
  end.

Definition validate_subnet_inner_ipv4 (packet : bytes) (expected_source : Ipv4Addr) (na : NetworkAddr)
    : outcome (option Ipv4Route) :=
  match parse_inner_ipv4 packet expected_source with
  | None => Ret None
  | Some route =>
      match network na with
      | Panic => Panic
      | Ret n =>
          let s := source route in
          let d := destination route in
          if negb (net_contains n s) || (s =? net_network n) || (s =? net_broadcast n)
             || (s =? na_gateway na) || is_unspecified d || (d =? ADDR_BROADCAST) || is_multicast d
             || net_contains n d
          then Ret None else Ret (Some route)
      end
  end.

Definition validate_subnet_reply_inner_ipv4 (packet : bytes) (expected_destination : Ipv4Addr)
    (na : NetworkAddr) : outcome (option Ipv4Route) :=
  match parse_unbound_inner_ipv4 packet with
  | None => Ret None
  | Some route =>
      match network na with
      | Panic => Panic
      | Ret n =>
          let s := source route in
          let d := destination route in
          if negb (d =? expected_destination) || negb (net_contains n d) || (d =? net_network n)
             || (d =? net_broadcast n) || (d =? na_gateway na) || is_unspecified s
             || (s =? ADDR_BROADCAST) || is_multicast s || net_contains n s
          then Ret None else Ret (Some route)
      end
  end.

(** The checks of the envelope the three validators begin with. *)
Definition envelope_ok (p : NetPacket) (m : MsgType) : bool :=
  bool_decide (client_msg_type p = Some (Known m)) && negb (Packet.is_compressed p)
  && negb (Packet.is_gateway p) && negb (is_fec p) && negb (Packet.ttl p =? 0).

Definition validate_relay (p : NetPacket) (expected_destination : Ipv4Addr) (na : NetworkAddr)
    : outcome (option Ipv4Route) :=
  if negb (envelope_ok p WireGuardRelay) then Ret None
  else match validate_inner_ipv4 (Packet.payload p) (Packet.src_id p) (Some expected_destination) na with
  | Panic => Panic
  | Ret None => Ret None
  | Ret (Some route) => if negb (Packet.dest_id p =? destination route) then Ret None else Ret (Some route)
  end.

Definition validate_broadcast_relay (p : NetPacket) (expected_destination : Ipv4Addr) (na : NetworkAddr)
    : outcome (option Ipv4Route) :=
  if negb (envelope_ok p WireGuardBroadcastRelay) || negb (Packet.dest_id p =? expected_destination)
  then Ret None
  else validate_broadcast_inner_ipv4 (Packet.payload p) (Packet.src_id p) na.

Definition validate_subnet_relay (p : NetPacket) (expected_destination : Ipv4Addr) (na : NetworkAddr)
    : outcome (option Ipv4Route) :=
  if negb (envelope_ok p WireGuardSubnetRelay) || negb (Packet.dest_id p =? expected_destination)
  then Ret None
  else validate_subnet_inner_ipv4 (Packet.payload p) (Packet.src_id p) na.
End ClientBridge.
End ClientBridge.

(** ** [wireguard_p2p.rs] *)

Section Tunnels.
Context {NL : Ipv4NetLib} {PL : PnetLib} {U32 : NetU32Lib}.
Context {B : Type} {BT : Boringtun B} {BC : BoringtunClient B}.

(** [ActivePeer]. *)
Record DirectPeer := mkDirectPeer {
  dp_public_key : bytes;
  dp_endpoint : SocketAddr;
  dp_receiver_index : Z;
  dp_lease_id : Z;
  dp_expires_at_unix_ms : Z;
  dp_last_authenticated : option Z;
  dp_tunnel : Tunn
}.

(** [Runtime]; [sent] are the datagrams handed to the socket and [delivered] the packets
    handed to [EnhancedInbound], oldest first. *)
Record Tunnels := mkTunnels {
  sent : list (bytes * SocketAddr);
  private_key : bytes;
  public_key : bytes;
  rate_limiter : RateLimiter;
  direct_peers : gmap Ipv4Addr DirectPeer;
  receiver_indices : gmap Z Ipv4Addr;
  network_addr : NetworkAddr;
  delivered : list (MsgType * Ipv4Addr * NetPacket)
}.

(** [PreparedWireGuardP2p::start]. *)
Definition start_tunnels (private public : bytes) (limiter : RateLimiter) (na : NetworkAddr) : Tunnels :=
  mkTunnels [] private public limiter ∅ ∅ na [].

Definition with_direct (ps : gmap Ipv4Addr DirectPeer) (ix : gmap Z Ipv4Addr) (t : Tunnels) : Tunnels :=
  mkTunnels (sent t) (private_key t) (public_key t) (rate_limiter t) ps ix (network_addr t) (delivered t).
Definition add_sent (d : bytes * SocketAddr) (t : Tunnels) : Tunnels :=
  mkTunnels (sent t ++ [d]) (private_key t) (public_key t) (rate_limiter t) (direct_peers t)
    (receiver_indices t) (network_addr t) (delivered t).
Definition add_delivered (x : MsgType * Ipv4Addr * NetPacket) (t : Tunnels) : Tunnels :=
  mkTunnels (sent t) (private_key t) (public_key t) (rate_limiter t) (direct_peers t)
    (receiver_indices t) (network_addr t) (delivered t ++ [x]).
Definition put_peer (ip : Ipv4Addr) (p : DirectPeer) (t : Tunnels) : Tunnels :=
  with_direct (<[ip := p]> (direct_peers t)) (receiver_indices t) t.

(** *** The monad *)

Definition act (A : Type) : Type := Tunnels * B → run (A * (Tunnels * B)).
#[local] Instance act_ret : MRet act := λ A a st, Finished (a, st).
#[local] Instance act_bind : MBind act := λ A C k c st,
  match c st with
  | Finished (a, st) => k a st
  | Panicked => Panicked
  | OutOfFuel => OutOfFuel
  end.
Definition get_tunnels : act Tunnels := λ st, Finished (st.1, st).
Definition modify_tunnels (f : Tunnels → Tunnels) : act unit := λ st, Finished (tt, (f st.1, st.2)).
Definition on_bt {A} (f : B → A * B) : act A := λ st, let '(a, b) := f st.2 in Finished (a, (st.1, b)).
Definition or_panic {A} (o : outcome A) : act A := λ st,
  match o with Ret a => Finished (a, st) | Panic => Panicked end.
Definition or_fuel {A} (o : option A) : act A := λ st,
  match o with Some a => Finished (a, st) | None => OutOfFuel end.

(** *** Helpers *)

Definition remove_direct (ip : Ipv4Addr) (t : Tunnels) : Tunnels :=
  match direct_peers t !! ip with
  | Some peer => with_direct (delete ip (direct_peers t))
                   (delete (dp_receiver_index peer) (receiver_indices t)) t
  | None => t
  end.

(** The loop draws until an index is free; [rng i] is the [i]-th draw. *)
Fixpoint allocate_receiver_index (fuel : nat) (used : gmap Z Ipv4Addr) (rng : nat → Z) : option Z :=
  match fuel with
  | O => None
  | S fuel =>
      if negb (is_some (used !! rng 0%nat)) then Some (rng 0%nat)
      else allocate_receiver_index fuel used (λ i, rng (S i))
  end.

Definition synthetic_ipv4 (src dst : Ipv4Addr) : bytes :=
  write_at 16 (to_be_bytes 4 dst) (write_at 12 (to_be_bytes 4 src)
    (<[9%nat := 17]> (<[8%nat := 64]> (write_at 2 (to_be_bytes 2 20) (<[0%nat := 69]> (zeroed 20)))))).

Definition find_direct (f : DirectPeer → bool) (t : Tunnels) : option Ipv4Addr :=
  find_map (λ '(ip, peer), if f peer then Some ip else None) (map_to_list (direct_peers t)).

(** The readings of an event: the monotonic clock when it is handled, the system time in
    nanoseconds, the draws of the generator, and whether the socket takes a datagram. *)
Record Readings := mkReadings {
  rd_instant : Z; rd_wall : Z; rd_rng : nat → Z; rd_accepts : bytes → SocketAddr → bool }.

Section Handlers.
Context (fuel : nat) (o : Readings).

Definition send_datagram (packet : bytes) (destination : SocketAddr) : act bool :=
  _ ← modify_tunnels (add_sent (packet, destination)); mret (rd_accepts o packet destination).

Fixpoint send_datagrams (l : list (bytes * SocketAddr)) : act unit :=
  match l with
  | [] => mret tt
  | (packet, destination) :: l => _ ← send_datagram packet destination; send_datagrams l
  end.

(** *** Offers *)

(** The part of [apply_offer] that reads the offer; [None]: it is ignored. *)
Definition offer_terms (offer : WireGuardP2pOffer) (na : NetworkAddr)
    : outcome (option (bytes * SocketAddr * Ipv4Addr)) :=
  if negb (length (of_peer_public_key offer) =? 32)%nat then Ret None
  else match socket_parse (of_peer_endpoint offer) with
  | Some (SockV4 a p) =>
      let peer_ip := of_peer_ip offer in
      let now_ms := unix_ms (rd_wall o) in
      if (of_lease_id offer =? 0) || (of_expires_at_unix_ms offer <=? now_ms)
         || (MAX_LEASE_AHEAD / 1000000 <? saturating_sub (of_expires_at_unix_ms offer) now_ms)
      then Ret None
      else match ClientBridge.validate_inner_ipv4 (synthetic_ipv4 peer_ip (na_ip na)) peer_ip
                   (Some (na_ip na)) na with
      | Panic => Panic
      | Ret None => Ret None
      | Ret (Some _) => Ret (Some (of_peer_public_key offer, SockV4 a p, peer_ip))
      end
  | _ => Ret None
  end.

Definition apply_offer (offer : WireGuardP2pOffer) : act unit :=
  t ← get_tunnels;
  terms ← or_panic (offer_terms offer (network_addr t));
  match terms with
  | None => mret tt
  | Some (key, endpoint, peer_ip) =>
      if (MAX_ACTIVE_PEERS <=? size (direct_peers t))%nat && negb (is_some (direct_peers t !! peer_ip))
      then mret tt
      else
        let open :=
          _ ← modify_tunnels (remove_direct peer_ip);
          t ← get_tunnels;
          receiver_index ← or_fuel (allocate_receiver_index fuel (receiver_indices t) (rd_rng o));
          tunnel ← on_bt (tunn_new_own (private_key t) key receiver_index);
          '(r, tunnel) ← on_bt (format_handshake_initiation tunnel false);
          _ ← modify_tunnels (with_direct
                (<[peer_ip := mkDirectPeer key endpoint receiver_index (of_lease_id offer)
                                (of_expires_at_unix_ms offer) None tunnel]> (direct_peers t))
                (<[receiver_index := peer_ip]> (receiver_indices t)));
          match r with
          | WriteToNetwork handshake => _ ← send_datagram handshake endpoint; mret tt
          | _ => mret tt
          end in
        match direct_peers t !! peer_ip with
        | Some peer =>
            if bool_decide (dp_public_key peer = key) then
              modify_tunnels (put_peer peer_ip (mkDirectPeer (dp_public_key peer) endpoint
                (dp_receiver_index peer) (of_lease_id offer) (of_expires_at_unix_ms offer)
                (dp_last_authenticated peer) (dp_tunnel peer)))
            else open
        | None => open
        end
  end.

Definition apply_control (c : P2pControlMessage) : act unit :=
  match p2p_payload c with
  | Some (POffer offer) => apply_offer offer
  | Some (PRevoke lease_id) =>
      t ← get_tunnels;
      match find_direct (λ p, dp_lease_id p =? lease_id) t with
      | Some ip => modify_tunnels (remove_direct ip)
      | None => mret tt
      end
  | None => mret tt
  end.

(** *** Datagrams *)

Definition deliver_inner (peer_ip : Ipv4Addr) (inner : bytes) : act unit :=
  t ← get_tunnels;
  p ← or_panic match Packet.new (zeroed (HEAD_LENGTH + length inner)) with Ok p => Ret p | Err _ => Panic end;
  let p := Packet.set_msg_type WireGuardRelay p in
  let p := Packet.set_ttl 1 p in
  let p := Packet.set_src_id peer_ip p in
  let p := Packet.set_dest_id (na_ip (network_addr t)) p in
  match Packet.set_payload inner p with
  | Ok p => modify_tunnels (add_delivered (Turn, peer_ip, p))
  | Err _ => mret tt
  end.

(** What [decapsulate] gave: the packets to send back and the one for this host; [None]:
    the datagram was not processed. *)
Definition direct_result (r : TunnResult) (peer_ip : Ipv4Addr) (na : NetworkAddr)
    : outcome (option (list bytes * option bytes)) :=
  match r with
  | TunnDone => Ret (Some ([], None))
  | WriteToNetwork response => Ret (Some ([response], None))
  | WriteToTunnelV4 inner source_ip =>
      if source_ip =? peer_ip then
        match ClientBridge.validate_inner_ipv4 inner peer_ip (Some (na_ip na)) na with
        | Panic => Panic
        | Ret None => Ret (Some ([], None))
        | Ret (Some _) => Ret (Some ([], Some inner))
        end
      else Ret (Some ([], None))
  | _ => Ret None
  end.

Definition process_direct (peer_ip : Ipv4Addr) (packet : bytes) (src : SocketAddr) : act unit :=
  t ← get_tunnels;
  match direct_peers t !! peer_ip with
  | None => mret tt
  | Some peer =>
      '(r, tunnel) ← on_bt (decapsulate (dp_tunnel peer) (Some (sock_ip src)) packet);
      result ← or_panic (direct_result r peer_ip (network_addr t));
      match result with
      | None => modify_tunnels (put_peer peer_ip (mkDirectPeer (dp_public_key peer) (dp_endpoint peer)
                  (dp_receiver_index peer) (dp_lease_id peer) (dp_expires_at_unix_ms peer)
                  (dp_last_authenticated peer) tunnel))
      | Some (responses, inbound) =>
          '(flushed, tunnel) ← (λ st : Tunnels * B,
             match flush_tunnel fuel tunnel st.2 with
             | Some (ps, tn, b) => Finished ((ps, tn), (st.1, b))
             | None => OutOfFuel
             end);
          _ ← modify_tunnels (put_peer peer_ip (mkDirectPeer (dp_public_key peer) src
                (dp_receiver_index peer) (dp_lease_id peer) (dp_expires_at_unix_ms peer)
                (Some (rd_instant o)) tunnel));
          _ ← send_datagrams ((., src) <$> (responses ++ flushed));
          match inbound with Some inner => deliver_inner peer_ip inner | None => mret tt end
      end
  end.

Definition handle_direct_datagram (packet : bytes) (src : SocketAddr) : act unit :=
  t ← get_tunnels;
  verified ← on_bt (verify_packet (rate_limiter t) (sock_ip src) packet);
  let process peer_ip := match peer_ip with
                         | Some ip => process_direct ip packet src
                         | None => mret tt
                         end in
  match verified with
  | inl (HandshakeInit init) =>
      match parse_handshake_anon (private_key t) (public_key t) init with
      | None => mret tt
      | Some key => process (find_direct (λ p, bool_decide (dp_public_key p = key)) t)
      end
  | inl (HandshakeResponse idx) | inl (PacketCookieReply idx) | inl (PacketData idx) =>
      process (receiver_indices t !! Z.shiftr idx 8)
  | inr (WriteToNetwork cookie) => _ ← send_datagram cookie src; mret tt
  | inr _ => mret tt
  end.

(** *** Packets of this host *)

Definition send_inner (destination : Ipv4Addr) (packet : bytes) : act bool :=
  t ← get_tunnels;
  let na := network_addr t in
  valid ← or_panic (ClientBridge.validate_inner_ipv4 packet (na_ip na) (Some destination) na);
  match valid, direct_peers t !! destination with
  | Some _, Some peer =>
      if (dp_expires_at_unix_ms peer <=? unix_ms (rd_wall o))
         || match dp_last_authenticated peer with
            | Some last => AUTHENTICATED_ROUTE_TTL <? saturating_sub (rd_instant o) last
            | None => true
            end
      then mret false
      else
        '(r, tunnel) ← on_bt (encapsulate (dp_tunnel peer) packet);
        _ ← modify_tunnels (put_peer destination (mkDirectPeer (dp_public_key peer) (dp_endpoint peer)
              (dp_receiver_index peer) (dp_lease_id peer) (dp_expires_at_unix_ms peer)
              (dp_last_authenticated peer) tunnel));
        match r with
        | WriteToNetwork datagram => send_datagram datagram (dp_endpoint peer)
        | _ => mret false
        end
  | _, _ => mret false
  end.

(** *** Timers *)

Fixpoint tick_direct (ips : list Ipv4Addr) : act (list (bytes * SocketAddr)) :=
  match ips with
  | [] => mret []
  | ip :: ips =>
      t ← get_tunnels;
      match direct_peers t !! ip with
      | None => tick_direct ips
      | Some peer =>
          '(r, tunnel) ← on_bt (tunn_update_timers (dp_tunnel peer));
          _ ← modify_tunnels (put_peer ip (mkDirectPeer (dp_public_key peer) (dp_endpoint peer)
                (dp_receiver_index peer) (dp_lease_id peer) (dp_expires_at_unix_ms peer)
                (dp_last_authenticated peer) tunnel));
          outbound ← tick_direct ips;
          mret match r with
               | WriteToNetwork packet => (packet, dp_endpoint peer) :: outbound
               | _ => outbound
               end
      end
  end.

Definition expired_direct (t : Tunnels) : list Ipv4Addr :=
  omap (λ '(ip, peer), if dp_expires_at_unix_ms peer <=? unix_ms (rd_wall o) then Some ip else None)
    (map_to_list (direct_peers t)).

Definition update_direct_timers : act unit :=
  t ← get_tunnels;
  _ ← modify_tunnels (λ t', fold_left (λ t ip, remove_direct ip t) (expired_direct t) t');
  t ← get_tunnels;
  outbound ← tick_direct (map_to_list (direct_peers t)).*1;
  send_datagrams outbound.

(** *** The select loop *)

Inductive DirectEvent :=
| DvControl (c : P2pControlMessage)
| DvSend (destination : Ipv4Addr) (packet : bytes)
| DvDatagram (packet : bytes) (src : SocketAddr)
| DvTimer.

(** The answer of a [Send] command; the other events have none. *)
Definition handle_direct_event (e : DirectEvent) : act (option bool) :=
  match e with
  | DvControl c => _ ← apply_control c; mret None
  | DvSend destination packet => r ← send_inner destination packet; mret (Some r)
  | DvDatagram packet src => _ ← handle_direct_datagram packet src; mret None
  | DvTimer => _ ← update_direct_timers; mret None
  end.
End Handlers.
End Tunnels.
#[export] Existing Instance act_ret.
#[export] Existing Instance act_bind.

(** ** Relays through the server *)

Section Relays.
Context {NL : Ipv4NetLib} {PL : PnetLib} {U32 : NetU32Lib}.

(** [handle_client_data] up to the WireGuard relays; [None]: a packet of another type. *)
Definition client_relay (allow_wire_guard : bool) (na : NetworkAddr) (p : NetPacket)
    (c : ServerInfoCollection) : outcome (option (list ClientAction)) :=
  let src := Packet.src_id p in
  let relay as_type valid :=
    if negb allow_wire_guard || negb (is_wireguard_client src c) then Ret (Some [])
    else match valid with
         | Panic => Panic
         | Ret None => Ret (Some [])
         | Ret (Some _) => Ret (Some [ActInbound as_type src p])
         end in
  match client_msg_type p with
  | Some (Known WireGuardRelay) => relay Turn (ClientBridge.validate_relay p (na_ip na) na)
  | Some (Known WireGuardBroadcastRelay) => relay Broadcast (ClientBridge.validate_broadcast_relay p (na_ip na) na)
  | Some (Known WireGuardSubnetRelay) => relay Turn (ClientBridge.validate_subnet_relay p (na_ip na) na)
  | _ => Ret None
  end.

(** [AllowSubnetExternalRoute::allow] and [SubnetExternalRoute::route]. *)
Definition subnet_allowed (nets : list Ipv4Net) (ip : Ipv4Addr) : bool :=
  existsb (λ n, net_contains n ip) nets.
Definition external_route (routes : list (Ipv4Net * Ipv4Addr)) (ip : Ipv4Addr) : option Ipv4Addr :=
  find_map (λ r, if net_contains r.1 ip then Some r.2 else None) routes.

(** [data.retreat_head(HEAD_LENGTH)] and [NetPacket::new]: the header is written over the
    last bytes of the room in front of the data. *)
Definition with_header (room data : bytes) : option NetPacket :=
  if (length room <? HEAD_LENGTH)%nat then None
  else Some (mkNetPacket (drop (length room - HEAD_LENGTH) room ++ data)).

(** What becomes of a packet of this host: nothing, a direct tunnel, the server of the
    destination as it is, or the path between clients (compression, error correction and
    encryption follow). *)
Inductive Outgoing :=
| OutNothing
| OutDirect (dest : Ipv4Addr)
| OutServer (dest : Ipv4Addr) (p : NetPacket)
| OutClient (dest : Ipv4Addr) (p : NetPacket).

(** [WireGuardP2pHandle::send_ipv4]: what the task answers, if there is one. *)
Abbreviation Direct := (option (Ipv4Addr → bytes → bool)) (only parsing).

(** The message type of a packet for a WireGuard peer; [None]: it is dropped. *)
Definition wireguard_type (allow_wire_guard : bool) (allow_subnet : list Ipv4Net) (na : NetworkAddr)
    (data : bytes) (dest : Ipv4Addr) : outcome (option MsgType) :=
  if ipv4_get_source data =? na_ip na then
    match ClientBridge.validate_inner_ipv4 data (na_ip na) (Some dest) na with
    | Panic => Panic
    | Ret None => Ret None
    | Ret (Some _) => Ret (Some WireGuardRelay)
    end
  else match ClientBridge.validate_subnet_reply_inner_ipv4 data dest na with
  | Panic => Panic
  | Ret None => Ret None
  | Ret (Some route) =>
      if negb allow_wire_guard || negb (subnet_allowed allow_subnet (source route)) then Ret None
      else Ret (Some WireGuardSubnetRelay)
  end.

(** [ipv4_outbound]; [Ret None]: an error. *)
Definition ipv4_outbound (allow_wire_guard : bool) (allow_subnet : list Ipv4Net)
    (external : list (Ipv4Net * Ipv4Addr)) (direct : Direct) (c : ServerInfoCollection)
    (na : NetworkAddr) (room data : bytes) : outcome (option Outgoing) :=
  if negb (ipv4_new data) then Ret (Some OutNothing)
  else
    let dest := ipv4_get_destination data in
    match ClientBridge.network na with
    | Panic => Panic
    | Ret n =>
        if net_contains n dest && is_wireguard_client dest c then
          match wireguard_type allow_wire_guard allow_subnet na data dest with
          | Panic => Panic
          | Ret None => Ret (Some OutNothing)
          | Ret (Some m) =>
              if bool_decide (m = WireGuardRelay)
                 && match direct with Some send => send dest data | None => false end
              then Ret (Some (OutDirect dest))
              else Ret (p ← with_header room data;
                        let p := Packet.set_msg_type m p in
                        let p := Packet.set_src_id (na_ip na) p in
                        let p := Packet.set_dest_id dest p in
                        Some (OutServer dest (Packet.set_ttl 5 p)))
          end
        else
          Ret (p ← with_header room data;
               let p := Packet.set_msg_type Turn p in
               let p := Packet.set_src_id (na_ip na) p in
               let p := Packet.set_ttl 5 p in
               match (if negb (net_contains n dest) then external_route external dest else Some dest) with
               | None => Some OutNothing
               | Some dest => Some (OutClient dest (Packet.set_dest_id dest p))
               end)
    end.

(** [ipv4_broadcast_outbound] up to the ordinary broadcast: the copy for the WireGuard
    peers, sent through the fastest connected server. *)
Definition wireguard_broadcast (allow_wire_guard : bool) (na : NetworkAddr) (room data : bytes)
    : outcome (option NetPacket) :=
  if negb allow_wire_guard then Ret None
  else match ClientBridge.validate_broadcast_inner_ipv4 data (na_ip na) na with
  | Panic => Panic
  | Ret None => Ret None
  | Ret (Some _) =>
      Ret (p ← with_header room data;
           let p := Packet.set_msg_type WireGuardBroadcastRelay p in
           let p := Packet.set_src_id (na_ip na) p in
           let p := Packet.set_dest_id ADDR_BROADCAST p in
           Some (Packet.set_ttl 5 p))
  end.
End Relays.

(** ** A small program logic *)

Module TunnelLogic.
Section Logic.
Context {B : Type} {BT : Boringtun B}.
Implicit Types (st : Tunnels * B).

(** Every run from [st] that finishes ends in [Q]. *)
Definition ends {A} (c : act A) st (Q : A → Tunnels * B → Prop) : Prop :=
  ∀ a st', c st = Finished (a, st') → Q a st'.

Lemma ends_ret {A} (a : A) st (Q : A → Tunnels * B → Prop) : Q a st → ends (mret a) st Q.
Proof. by intros H ? ? [= <- <-]. Qed.
Lemma ends_bind {A C} (c : act A) (k : A → act C) st Q :
  ends c st (λ a st', ends (k a) st' Q) → ends (c ≫= k) st Q.
Proof.
  intros Hc b st' E. unfold mbind, act_bind in E.
  destruct (c st) as [[a st1]| |] eqn:Ec; try done. by eapply Hc.
Qed.
Lemma ends_mono {A} (c : act A) st (P Q : A → Tunnels * B → Prop) :
  ends c st P → (∀ a st', P a st' → Q a st') → ends c st Q.
Proof. intros Hc HQ a st' E. by apply HQ, Hc. Qed.
Lemma ends_get st (Q : Tunnels → Tunnels * B → Prop) : Q st.1 st → ends get_tunnels st Q.
Proof. by intros H ? ? [= <- <-]. Qed.
Lemma ends_modify f st (Q : unit → Tunnels * B → Prop) : Q tt (f st.1, st.2) → ends (modify_tunnels f) st Q.
Proof. by intros H ? ? [= <- <-]. Qed.
Lemma ends_bt {A} (f : B → A * B) st (Q : A → Tunnels * B → Prop) :
  (∀ a b, f st.2 = (a, b) → Q a (st.1, b)) → ends (on_bt f) st Q.
Proof. intros H a st'. unfold on_bt. destruct (f st.2) as [x b] eqn:E. intros [= <- <-]. by apply H. Qed.
Lemma ends_panic {A} (x : outcome A) st (Q : A → Tunnels * B → Prop) :
  (∀ a, x = Ret a → Q a st) → ends (or_panic x) st Q.
Proof. intros H a st'. unfold or_panic. destruct x; [|done]. intros [= <- <-]. by apply H. Qed.
Lemma ends_fuel {A} (x : option A) st (Q : A → Tunnels * B → Prop) :
  (∀ a, x = Some a → Q a st) → ends (or_fuel x) st Q.
Proof. intros H a st'. unfold or_fuel. destruct x; [|done]. intros [= <- <-]. by apply H. Qed.
End Logic.
End TunnelLogic.

(** One step of a computation in [ends]. *)
Ltac act_step :=
  lazymatch goal with
  | |- TunnelLogic.ends (mret _) _ _ => apply TunnelLogic.ends_ret
  | |- TunnelLogic.ends (_ ≫= _) _ _ => apply TunnelLogic.ends_bind
  | |- TunnelLogic.ends get_tunnels _ _ => apply TunnelLogic.ends_get
  | |- TunnelLogic.ends (modify_tunnels _) _ _ => apply TunnelLogic.ends_modify
  | |- TunnelLogic.ends (on_bt _) _ _ => apply TunnelLogic.ends_bt; intros ? ? ?
  | |- TunnelLogic.ends (or_panic _) _ _ => apply TunnelLogic.ends_panic; intros ? ?
  | |- TunnelLogic.ends (or_fuel _) _ _ => apply TunnelLogic.ends_fuel; intros ? ?
  | |- TunnelLogic.ends (let '(_, _) := ?x in _) _ _ => destruct x
  | |- TunnelLogic.ends (match ?x with _ => _ end) _ _ => destruct x eqn:?
  end; cbn [fst snd].
Ltac act_steps := repeat act_step.

(** ** Invariants *)

(** The table of receiver indices is the inverse of the peers' indices, which fit in 24
    bits; there are at most sixty-four peers, each with a lease and a key. *)
Record tunnels_ok `{!Boringtun B} (t : Tunnels (B := B)) : Prop := {
  tk_indices i ip : receiver_indices t !! i = Some ip ↔
    ∃ p, direct_peers t !! ip = Some p ∧ dp_receiver_index p = i;
  tk_bounded : (size (direct_peers t) ≤ MAX_ACTIVE_PEERS)%nat;
  tk_peer ip p : direct_peers t !! ip = Some p →
    0 ≤ dp_receiver_index p ≤ MAX_RECEIVER_INDEX ∧ dp_lease_id p ≠ 0 ∧ length (dp_public_key p) = 32%nat
}.

Module TunnelFacts.
Import TunnelLogic.
Section Facts.
Context {NL : Ipv4NetLib} {PL : PnetLib} {U32 : NetU32Lib}.
Context {B : Type} {BT : Boringtun B} {BC : BoringtunClient B}.
Implicit Types (st : Tunnels * B) (t : Tunnels) (p : DirectPeer).

(** *** Updates of the tables *)

Lemma ok_start priv pub lim na : tunnels_ok (start_tunnels priv pub lim na).
Proof.
  split; [|cbn; rewrite map_size_empty; lia|intros ? ?; cbn; by rewrite lookup_empty].
  intros i ip. cbn. rewrite !lookup_empty. split; [done|]. by intros (? & ? & _).
Qed.

(** Changes of the logs. *)
Lemma ok_sent d t : tunnels_ok t → tunnels_ok (add_sent d t).
Proof. by intros []. Qed.
Lemma ok_delivered x t : tunnels_ok t → tunnels_ok (add_delivered x t).
Proof. by intros []. Qed.

(** A peer that keeps its index. *)
Lemma ok_put ip p p' t :
  tunnels_ok t → direct_peers t !! ip = Some p → dp_receiver_index p' = dp_receiver_index p →
  dp_lease_id p' ≠ 0 → length (dp_public_key p') = 32%nat → tunnels_ok (put_peer ip p' t).
Proof.
  intros Hok Hp Hi Hl Hk. split; cbn.
  - intros i jp. rewrite (tk_indices _ Hok). destruct (decide (jp = ip)) as [->|Hne].
    + rewrite lookup_insert_eq. split; intros (q & Hq & <-); eexists; (split; [done|]); congruence.
    + by rewrite lookup_insert_ne by done.
  - rewrite map_size_insert_Some by eauto. apply Hok.
  - intros jp q. destruct (decide (jp = ip)) as [->|Hne].
    + rewrite lookup_insert_eq. intros [= <-]. rewrite Hi. split; [|done]. by eapply Hok.
    + rewrite lookup_insert_ne by done. apply Hok.
Qed.

Lemma ok_remove ip t : tunnels_ok t → tunnels_ok (remove_direct ip t).
Proof.
  intros Hok. unfold remove_direct. destruct (direct_peers t !! ip) as [p|] eqn:Hp; [|done]. split; cbn.
  - intros i jp. rewrite lookup_delete_Some, (tk_indices _ Hok). split.
    + intros (Hi & q & Hq & <-). exists q. split; [|done]. rewrite lookup_delete_ne; [done|]. intros <-. congruence.
    + intros (q & [Hne Hq]%lookup_delete_Some & <-). split; [|eauto]. intros He. destruct Hne.
      assert (receiver_indices t !! dp_receiver_index p = Some ip) as H1 by (apply Hok; eauto).
      assert (receiver_indices t !! dp_receiver_index q = Some jp) as H2 by (apply Hok; eauto). congruence.
  - rewrite map_size_delete_Some by eauto. pose proof (tk_bounded _ Hok). lia.
  - intros jp q [_ Hq]%lookup_delete_Some. by eapply Hok.
Qed.

Lemma removed_none ip t : direct_peers (remove_direct ip t) !! ip = None.
Proof. unfold remove_direct. destruct (direct_peers t !! ip) eqn:E; [apply lookup_delete_eq|done]. Qed.

Lemma removed_size ip t : (size (direct_peers t) ≤ MAX_ACTIVE_PEERS)%nat →
  (size (direct_peers t) < MAX_ACTIVE_PEERS)%nat ∨ is_Some (direct_peers t !! ip) →
  (size (direct_peers (remove_direct ip t)) < MAX_ACTIVE_PEERS)%nat.
Proof.
  intros Hb H. unfold remove_direct. destruct (direct_peers t !! ip) as [p|] eqn:Hp.
  - cbn. rewrite map_size_delete_Some by eauto.
    assert (size (direct_peers t) ≠ 0%nat) by (apply map_size_ne_0_lookup; eauto). unfold MAX_ACTIVE_PEERS in *. lia.
  - destruct H as [|[? ?]]; done.
Qed.

Lemma ok_insert ip i p t :
  tunnels_ok t → direct_peers t !! ip = None → receiver_indices t !! i = None →
  (size (direct_peers t) < MAX_ACTIVE_PEERS)%nat → dp_receiver_index p = i → 0 ≤ i ≤ MAX_RECEIVER_INDEX →
  dp_lease_id p ≠ 0 → length (dp_public_key p) = 32%nat →
  tunnels_ok (with_direct (<[ip := p]> (direct_peers t)) (<[i := ip]> (receiver_indices t)) t).
Proof.
  intros Hok Hp Hi Hs He Hr Hl Hk. split; cbn.
  - intros j jp. destruct (decide (j = i)) as [->|Hj].
    + rewrite lookup_insert_eq. split; [intros [= <-]; exists p; by rewrite lookup_insert_eq|].
      intros (q & Hq & Hqi). destruct (decide (jp = ip)) as [->|Hne]; [done|].
      rewrite lookup_insert_ne in Hq by done.
      assert (receiver_indices t !! i = Some jp) by (apply Hok; eauto). congruence.
    + rewrite lookup_insert_ne by done. rewrite (tk_indices _ Hok). destruct (decide (jp = ip)) as [->|Hne].
      * rewrite lookup_insert_eq, Hp. split; [by intros (? & ? & _)|]. intros (q & [= <-] & Hqi). congruence.
      * by rewrite lookup_insert_ne by done.
  - rewrite map_size_insert_None by done. lia.
  - intros jp q. destruct (decide (jp = ip)) as [->|Hne].
    + rewrite lookup_insert_eq. intros [= <-]. by rewrite He.
    + rewrite lookup_insert_ne by done. apply Hok.
Qed.

(** *** What the handlers do to the tables *)

Abbreviation keeps_ok := (λ _ st', tunnels_ok st'.1).

(** The logs of datagrams and deliveries are no part of the tables. *)
Definition same_tables (t t' : Tunnels) : Prop :=
  direct_peers t' = direct_peers t ∧ receiver_indices t' = receiver_indices t ∧
  network_addr t' = network_addr t ∧ private_key t' = private_key t.

Lemma ok_same t t' : same_tables t t' → tunnels_ok t → tunnels_ok t'.
Proof. intros (E1 & E2 & _) [H1 H2 H3]. split; rewrite ?E1, ?E2; done. Qed.

Lemma send_ends o d e st : ends (send_datagram o d e) st
  (λ r st', r = rd_accepts o d e ∧ same_tables st.1 st'.1 ∧ delivered st'.1 = delivered st.1 ∧
            sent st'.1 = sent st.1 ++ [(d, e)] ∧ st'.2 = st.2).
Proof. unfold send_datagram. act_steps. done. Qed.

Lemma sends_end o l st : ends (send_datagrams o l) st
  (λ _ st', same_tables st.1 st'.1 ∧ delivered st'.1 = delivered st.1 ∧ sent st'.1 = sent st.1 ++ l).
Proof.
  revert st. induction l as [|[d e] l IH]; intros st; cbn [send_datagrams].
  - act_steps. by rewrite app_nil_r.
  - act_step. eapply ends_mono; [apply send_ends|].
    intros _ st1 (_ & (E1 & E2 & E3 & E4) & Hd & Hs & _).
    eapply ends_mono; [apply IH|]. intros _ st2 ((F1 & F2 & F3 & F4) & Hd' & Hs'). unfold same_tables.
    rewrite F1, F2, F3, F4, Hd', Hs', Hs, <- app_assoc. done.
Qed.

Lemma allocated_free fuel used rng i : allocate_receiver_index fuel used rng = Some i →
  used !! i = None ∧ ∃ k, i = rng k.
Proof.
  revert rng. induction fuel as [|n IH]; intros rng; simpl; [done|].
  destruct (used !! rng 0%nat) eqn:E; simpl; [|intros [= <-]; eauto].
  intros (Hu & k & ->)%IH. eauto.
Qed.

Lemma offer_terms_inv o offer na key e ip :
  offer_terms o offer na = Ret (Some (key, e, ip)) →
  key = of_peer_public_key offer ∧ length key = 32%nat ∧ ip = of_peer_ip offer ∧
  of_lease_id offer ≠ 0 ∧ unix_ms (rd_wall o) < of_expires_at_unix_ms offer ≤ unix_ms (rd_wall o) + 120000 ∧
  socket_parse (of_peer_endpoint offer) = Some e ∧ (∃ a (port : Z), e = SockV4 a port) ∧
  ∃ route, ClientBridge.validate_inner_ipv4 (synthetic_ipv4 ip (na_ip na)) ip (Some (na_ip na)) na =
    Ret (Some route).
Proof.
  unfold offer_terms. destruct (Nat.eqb_spec (length (of_peer_public_key offer)) 32); [|done]. cbn [negb].
  destruct (socket_parse _) as [[a q|]|]; try done. cbv zeta. unfold MAX_LEASE_AHEAD, nanos, saturating_sub.
  destruct (Z.eqb_spec (of_lease_id offer) 0); [done|].
  destruct (Z.leb_spec (of_expires_at_unix_ms offer) (unix_ms (rd_wall o))); [done|]. cbn [orb].
  destruct (Z.ltb_spec (120 * 1000000000 / 1000000)
    (Z.max (of_expires_at_unix_ms offer - unix_ms (rd_wall o)) 0)) as [|Hle]; [done|].
  change (120 * 1000000000 / 1000000) with 120000 in Hle.
  destruct (ClientBridge.validate_inner_ipv4 _ _ _ _) as [[route|]|] eqn:Ev; try done.
  intros [= <- <- <-]. split_and!; eauto; lia.
Qed.

Lemma apply_offer_ok fuel o offer st :
  (∀ i, 0 ≤ rd_rng o i ≤ MAX_RECEIVER_INDEX) → tunnels_ok st.1 →
  ends (apply_offer fuel o offer) st keeps_ok.
Proof.
  intros Hr Hok. unfold apply_offer. do 2 act_step. act_step. act_step.
  destruct a as [[[key e] ip]|]; [|by act_step].
  apply offer_terms_inv in H as (-> & Hk & -> & Hl & _ & _ & _ & _). set (ip := of_peer_ip offer).
  destruct (_ && _) eqn:Hfull; [by act_step|].
  set (body := modify_tunnels (remove_direct ip) ≫= _).
  assert (ends body st keeps_ok) as Hopen.
  { unfold body. do 6 act_step.
    pose proof (ok_remove ip st.1 Hok) as Hok'. set (t1 := remove_direct ip st.1) in *.
    apply allocated_free in H as (Hfree & k & Hk'). do 4 act_step.
    destruct a1 as [r tunnel]. act_step. act_step.
    assert (tunnels_ok (with_direct (<[ip := mkDirectPeer (of_peer_public_key offer) e a (of_lease_id offer)
        (of_expires_at_unix_ms offer) None tunnel]> (direct_peers t1)) (<[a := ip]> (receiver_indices t1)) t1)) as Hi.
    { apply ok_insert; try done; [apply removed_none| |rewrite Hk'; apply Hr].
      apply removed_size; [apply Hok|]. apply andb_false_iff in Hfull as [Hf|Hf].
      - left. by apply Nat.leb_gt in Hf.
      - right. destruct (direct_peers st.1 !! ip); [eauto|done]. }
    destruct r; try (by act_step). act_step. eapply ends_mono; [apply send_ends|].
    intros _ st2 (_ & Hst & _). act_step. by eapply ok_same. }
  destruct (direct_peers st.1 !! ip) as [q|] eqn:Hq; [|done]. case_bool_decide as Hkey; [|done].
  act_step. apply (ok_put ip q); try done. cbn. congruence.
Qed.

(** Updates of a peer that leave its index, its lease and its key alone. *)
Lemma ok_touch ip p t e last tunnel :
  tunnels_ok t → direct_peers t !! ip = Some p →
  tunnels_ok (put_peer ip (mkDirectPeer (dp_public_key p) e (dp_receiver_index p) (dp_lease_id p)
    (dp_expires_at_unix_ms p) last tunnel) t).
Proof. intros Hok Hp. destruct (tk_peer _ Hok _ _ Hp) as (_ & Hl & Hk). by apply (ok_put ip p). Qed.

Lemma apply_control_ok fuel o c st :
  (∀ i, 0 ≤ rd_rng o i ≤ MAX_RECEIVER_INDEX) → tunnels_ok st.1 → ends (apply_control fuel o c) st keeps_ok.
Proof.
  intros Hr Hok. unfold apply_control. destruct (p2p_payload c) as [[offer|id]|]; [by apply apply_offer_ok| |by act_step].
  do 2 act_step. destruct (find_direct _ _); [|by act_step]. act_step. by apply ok_remove.
Qed.

Lemma deliver_ends ip inner st : ends (deliver_inner ip inner) st
  (λ _ st', same_tables st.1 st'.1 ∧ sent st'.1 = sent st.1).
Proof.
  unfold deliver_inner. do 4 act_step. destruct (Packet.set_payload inner _); by act_step.
Qed.

Lemma process_ok fuel o ip packet src st : tunnels_ok st.1 → ends (process_direct fuel o ip packet src) st keeps_ok.
Proof.
  intros Hok. unfold process_direct. do 2 act_step. destruct (direct_peers st.1 !! ip) as [p|] eqn:Hp; [|by act_step].
  do 2 act_step. destruct a as [r tunnel]. do 2 act_step.
  destruct a as [[responses inbound]|]; [|act_step; by apply ok_touch].
  act_step. intros [flushed tunnel'] st1 E. cbn [fst snd] in E.
  destruct (flush_tunnel fuel tunnel b) as [[[ps tn] b']|]; [|done]. injection E as <- <- <-.
  do 3 act_step. set (t1 := put_peer ip _ st.1).
  assert (tunnels_ok t1) as Hok1 by (by apply ok_touch).
  eapply ends_mono; [apply sends_end|]. intros _ st2 (Hs & _). cbn [fst] in Hs.
  pose proof (ok_same _ _ Hs Hok1) as Hok2. destruct inbound as [inner|]; [|by act_step].
  eapply ends_mono; [apply deliver_ends|]. intros _ st3 (Hs3 & _). by eapply ok_same.
Qed.

Lemma datagram_ok fuel o packet src st :
  tunnels_ok st.1 → ends (handle_direct_datagram fuel o packet src) st keeps_ok.
Proof.
  intros Hok. unfold handle_direct_datagram. do 4 act_step.
  assert (∀ x, ends match x with Some ip => process_direct fuel o ip packet src | None => mret tt end
    (st.1, b) keeps_ok) as Hx by (intros [ip|]; [by apply process_ok|by act_step]).
  destruct a as [[init|i|i|i]|[|e|cookie|? ?|? ?]]; try (by apply Hx); try (by act_step).
  - destruct (parse_handshake_anon _ _ _); [apply Hx|by act_step].
  - act_step. eapply ends_mono; [apply send_ends|]. intros _ st1 (_ & Hs & _). act_step. by eapply ok_same.
Qed.

Lemma send_inner_ok o d packet st : tunnels_ok st.1 → ends (send_inner o d packet) st keeps_ok.
Proof.
  intros Hok. unfold send_inner. do 4 act_step. destruct a; [|by act_step].
  destruct (direct_peers st.1 !! d) as [p|] eqn:Hp; [|by act_step]. destruct (_ || _); [by act_step|].
  do 2 act_step. destruct a as [r tunnel]. do 2 act_step.
  assert (tunnels_ok (put_peer d (mkDirectPeer (dp_public_key p) (dp_endpoint p) (dp_receiver_index p)
    (dp_lease_id p) (dp_expires_at_unix_ms p) (dp_last_authenticated p) tunnel) st.1)) as Hok1 by (by apply ok_touch).
  destruct r; try (by act_step). eapply ends_mono; [apply send_ends|]. intros _ st1 (_ & Hs & _). by eapply ok_same.
Qed.

Lemma tick_ok ips st : tunnels_ok st.1 → ends (tick_direct ips) st keeps_ok.
Proof.
  revert st. induction ips as [|ip ips IH]; intros st Hok; cbn [tick_direct]; [by act_step|].
  do 2 act_step. destruct (direct_peers st.1 !! ip) as [p|] eqn:Hp; [|by apply IH].
  do 2 act_step. destruct a as [r tunnel]. do 2 act_step. act_step.
  eapply ends_mono; [apply IH; by apply ok_touch|]. intros l st1 H1. by act_step.
Qed.

Lemma remove_all_ok ips t : tunnels_ok t → tunnels_ok (fold_left (λ t ip, remove_direct ip t) ips t).
Proof. revert t. induction ips as [|ip ips IH]; intros t Hok; [done|]. by apply IH, ok_remove. Qed.

Lemma timers_ok o st : tunnels_ok st.1 → ends (update_direct_timers o) st keeps_ok.
Proof.
  intros Hok. unfold update_direct_timers. do 6 act_step. act_step.
  eapply ends_mono; [apply tick_ok; by apply remove_all_ok|]. intros l st1 Hok1.
  eapply ends_mono; [apply sends_end|]. intros _ st2 (Hs & _). by eapply ok_same.
Qed.

Lemma event_ok fuel o e st :
  (∀ i, 0 ≤ rd_rng o i ≤ MAX_RECEIVER_INDEX) → tunnels_ok st.1 → ends (handle_direct_event fuel o e) st keeps_ok.
Proof.
  intros Hr Hok. destruct e; cbn [handle_direct_event]; act_step;
    (eapply ends_mono; [by auto using apply_control_ok, send_inner_ok, datagram_ok, timers_ok|]);
    intros ? ? H'; by act_step.
Qed.

(** *** What is handed to the host and to the socket *)

(** A computation that hands nothing to the host. *)
Definition silent {A} (c : act A) : Prop :=
  ∀ st, ends c st (λ _ st', delivered st'.1 = delivered st.1 ∧ network_addr st'.1 = network_addr st.1).

Lemma silent_ret {A} (a : A) : silent (mret a).
Proof. intros st. by act_step. Qed.
Lemma silent_bind {A C} (c : act A) (k : A → act C) : silent c → (∀ a, silent (k a)) → silent (c ≫= k).
Proof.
  intros Hc Hk st. act_step. eapply ends_mono; [apply Hc|]. intros a st1 [E1 E2].
  eapply ends_mono; [apply Hk|]. intros b st2 [F1 F2]. by rewrite F1, F2.
Qed.
Lemma silent_modify f : (∀ t, delivered (f t) = delivered t ∧ network_addr (f t) = network_addr t) →
  silent (modify_tunnels f).
Proof. intros Hf st. by act_step. Qed.
Lemma silent_get : silent get_tunnels.
Proof. intros st. by act_step. Qed.
Lemma silent_bt {A} (f : B → A * B) : silent (on_bt f).
Proof. intros st. by act_step. Qed.
Lemma silent_panic {A} (x : outcome A) : silent (or_panic x).
Proof. intros st. by act_step. Qed.
Lemma silent_fuel {A} (x : option A) : silent (or_fuel x).
Proof. intros st. by act_step. Qed.
Lemma silent_send o d e : silent (send_datagram o d e).
Proof. intros st. eapply ends_mono; [apply send_ends|]. intros a st' (_ & (_ & _ & E & _) & Hd & _). done. Qed.
Lemma silent_sends o l : silent (send_datagrams o l).
Proof. intros st. eapply ends_mono; [apply sends_end|]. intros a st' ((_ & _ & E & _) & Hd & _). done. Qed.

Lemma remove_logs ip t : delivered (remove_direct ip t) = delivered t ∧ network_addr (remove_direct ip t) = network_addr t.
Proof. unfold remove_direct. by destruct (_ !! _). Qed.

Ltac silent :=
  repeat first
    [ apply silent_ret | apply silent_get | apply silent_bt | apply silent_panic | apply silent_fuel
    | apply silent_send | apply silent_sends | (apply silent_modify; intros; apply remove_logs)
    | (apply silent_modify; done) | (apply silent_bind; [|intros]) | case_match ].

Lemma silent_offer fuel o offer : silent (apply_offer fuel o offer).
Proof. unfold apply_offer. silent. Qed.
Lemma silent_control fuel o c : silent (apply_control fuel o c).
Proof. unfold apply_control. destruct (p2p_payload c) as [[]|]; [apply silent_offer|silent..]. Qed.
Lemma silent_inner o d packet : silent (send_inner o d packet).
Proof. unfold send_inner. silent. Qed.
Lemma silent_tick ips : silent (tick_direct ips).
Proof. induction ips as [|ip ips IH]; cbn [tick_direct]; silent; apply IH. Qed.
Lemma silent_timers o : silent (update_direct_timers o).
Proof.
  unfold update_direct_timers. apply silent_bind; [apply silent_get|intros t0].
  apply silent_bind; [|intros _; silent; apply silent_tick]. apply silent_modify. intros t.
  generalize (expired_direct o t0). intros l. revert t. induction l as [|ip l IH]; intros t; [done|]. cbn [fold_left].
  destruct (IH (remove_direct ip t)) as [-> ->]. apply remove_logs.
Qed.

Context {U32L : NetU32Laws}.

Lemma set_payload_exact d q :
  packet_ok q → length (buffer q) = (HEAD_LENGTH + length d)%nat →
  ∃ r, Packet.set_payload d q = Ok r ∧ Packet.header r = Packet.header q ∧ Packet.payload r = d.
Proof.
  intros [Hl Hb] Hlen. unfold Packet.set_payload. rewrite (proj2 (Nat.ltb_ge _ _)) by lia.
  eexists. split; [done|]. split.
  - unfold Packet.header. cbn [buffer]. rewrite <- (PacketFacts.decode_header_take (write_at _ _ _)),
      <- (PacketFacts.decode_header_take (buffer q)). f_equal. change 16%nat with HEAD_LENGTH.
    apply ViewFacts.header_write_payload; lia.
  - unfold Packet.payload. cbn [buffer]. unfold write_at. rewrite drop_app_length' by (rewrite length_take; lia).
    rewrite drop_ge by lia. apply app_nil_r.
Qed.

Lemma deliver_spec ip inner st :
  is_u 32 ip → is_u 32 (na_ip (network_addr st.1)) →
  ends (deliver_inner ip inner) st (λ _ st', ∃ q,
    delivered st'.1 = delivered st.1 ++ [(Turn, ip, q)] ∧ Packet.payload q = inner ∧
    Packet.src_id q = ip ∧ Packet.dest_id q = na_ip (network_addr st.1)).
Proof.
  intros Hi Ho. unfold deliver_inner. do 4 act_step. set (z := zeroed (HEAD_LENGTH + length inner)) in *.
  assert (length z = (HEAD_LENGTH + length inner)%nat) as Lz by apply length_replicate.
  assert (packet_ok (mkNetPacket z)) as Hz by (split; [cbn [buffer]; lia|apply zeroed_ok]).
  unfold Packet.new in H. rewrite (proj2 (Nat.ltb_ge _ _)) in H by lia. injection H as <-. cbv zeta.
  destruct (PacketFacts.envelope_writes (mkNetPacket z) WireGuardRelay 1 ip _ Hz ltac:(unfold is_u; lia) Hi Ho)
    as (Hq & Eh & _ & Lq). set (q := Packet.set_dest_id _ _) in *. clearbody q. cbn [buffer] in Lq.
  destruct (set_payload_exact inner q Hq ltac:(lia)) as (r & -> & Er & Pr). act_step.
  rewrite Eh in Er. destruct (PacketFacts.read_envelope r WireGuardRelay 1 _ _ _ ip _
    ltac:(unfold is_u; lia) Hi Ho Er) as (_ & _ & _ & ? & ?). by exists r.
Qed.
End Facts.
End TunnelFacts.
