(* ===== verification/ClientTunnelFacts.v ===== *)
(** The client's end of direct tunnels, continued: that client and server agree on what
    they relay and on the leases they hold, that the task deals with every event, and the
    theorems about [ClientTunnel]. *)

From S2P Require Import Prelude Libs Std Text Packet ControlMessage Bridge Lease NetState Db Tunnel P2p Agent Handler ClientView Runtime RuntimeFacts ClientTunnel.
From stdpp Require Import base gmap strings list.
From Stdlib Require Import ZArith Lia.

Local Open Scope Z_scope.

(** ** Agreement of client and server *)

(** An address a client or a peer of the network can have. *)
Record net_host `{!Ipv4NetLib} (n : Ipv4Net) (gw ip : Ipv4Addr) : Prop := {
  ho_contains : net_contains n ip = true;
  ho_network : ip ≠ net_network n;
  ho_broadcast : ip ≠ net_broadcast n;
  ho_gateway : ip ≠ gw;
  ho_multicast : is_multicast ip = false
}.

(** [ipnet] keeps the address a network was made from: the client's own for the client.
    Two networks are the same block if they begin at the same address and have the same
    prefix. *)
Record same_net `{!Ipv4NetLib} (n n' : Ipv4Net) : Prop := {
  sn_network : net_network n = net_network n';
  sn_prefix : net_prefix_len n = net_prefix_len n'
}.

(** The client is a member of the network: what registration tells it. *)
Record joined `{!Ipv4NetLib} (na : NetworkAddr) (n : Ipv4Net) (gw : Ipv4Addr) : Prop := {
  jo_prefix : na_prefix_len na = net_prefix_len n;
  jo_host : net_host n gw (na_ip na);
  jo_gateway : na_gateway na = gw
}.

Module NetAgree.
Section Agree.
Context {NL : Ipv4NetLib} {NLL : Ipv4NetLaws} {PL : PnetLib} {U32 : NetU32Lib}.

#[export] Instance same_net_equiv : Equivalence same_net.
Proof.
  split; [done|by intros ? ? []; split|]. intros ? ? ? [] []. split; congruence.
Qed.
#[export] Instance network_proper : Proper (same_net ==> eq) net_network.
Proof. by intros ? ? []. Qed.
#[export] Instance broadcast_proper : Proper (same_net ==> eq) net_broadcast.
Proof. intros ? ? [H1 H2]. by rewrite !net_broadcast_eq, H1, H2. Qed.
#[export] Instance contains_proper : Proper (same_net ==> eq ==> eq) net_contains.
Proof. intros n n' H ip ? <-. rewrite !net_contains_eq. by rewrite H. Qed.
#[export] Instance host_proper : Proper (same_net ==> eq ==> eq ==> iff) net_host.
Proof.
  assert (∀ n n' gw ip, same_net n n' → net_host n gw ip → net_host n' gw ip) as H.
  { intros n n' gw ip H [H1 H2 H3 H4 H5]. rewrite H in H1, H2, H3. by split. }
  intros n n' Hn gw ? <- ip ? <-. split; [by apply H|]. apply H. by symmetry.
Qed.
(** Rewrite all that is read of a network. *)
Ltac block_eq H :=
  rewrite ?(network_proper _ _ H), ?(broadcast_proper _ _ H), ?(contains_proper _ _ H _ _ eq_refl).

#[export] Instance inner_proper b src : Proper (same_net ==> eq ==> eq) (Bridge.validate_inner_ipv4 b src).
Proof.
  intros n n' H gw ? <-. unfold Bridge.validate_inner_ipv4. destruct (Bridge.parse_inner_ipv4 b src) as [[r ?]|]; [|done].
  cbn [mbind result_bind]. cbv zeta. by block_eq H.
Qed.
#[export] Instance relay_proper p src : Proper (same_net ==> eq ==> eq) (Bridge.validate_vnt_relay p src).
Proof.
  intros n n' H gw ? <-. unfold Bridge.validate_vnt_relay. destruct (Bridge.validate_envelope p _ src); [|done].
  cbn [mbind result_bind]. by rewrite (inner_proper _ _ n n' H gw gw eq_refl).
Qed.
#[export] Instance subnet_proper p src : Proper (same_net ==> eq ==> eq) (Bridge.validate_vnt_subnet_relay p src).
Proof.
  intros n n' H gw ? <-. unfold Bridge.validate_vnt_subnet_relay. destruct (Bridge.validate_envelope p _ src); [|done].
  cbn [mbind result_bind]. cbv zeta. block_eq H. destruct (_ || _); [done|].
  destruct (Bridge.parse_unbound_inner_ipv4 _) as [[r ?]|]; [|done]. cbn [mbind result_bind]. cbv zeta. by block_eq H.
Qed.

(** The network a member works with is the block of its server's. *)
Lemma joined_network na n gw : joined na n gw → ∃ n', ClientBridge.network na = Ret n' ∧ same_net n' n.
Proof.
  intros [Hp [Hc _ _ _ _] _]. pose proof (net_prefix_range n) as Hr. pose proof (net_network_range n) as Hn.
  pose proof (net_broadcast_range n) as Hb. apply net_contains_true in Hc.
  destruct (net_new_Some (na_ip na) (na_prefix_len na)) as (n' & E & E1 & E2); [unfold is_u, u32_max in *; lia|lia|].
  exists n'. unfold ClientBridge.network. rewrite E. split; [done|]. split; [|by rewrite E1].
  rewrite E2, Hp. pose proof (net_aligned n) as Ha. rewrite net_broadcast_eq in Hc. pose proof (net_size_pos n) as Hs.
  set (k := 2 ^ (32 - net_prefix_len n)) in *. assert (net_network n = k * (net_network n / k)) as En
    by (apply Z.div_exact; lia).
  assert (na_ip na / k = net_network n / k) as ->; [|lia].
  symmetry. apply (Z.div_unique _ _ _ (na_ip na - net_network n)); lia.
Qed.
End Agree.
End NetAgree.

Module RelayFacts.
Section Facts.
Context {NL : Ipv4NetLib} {NLL : Ipv4NetLaws} {PL : PnetLib} {PLL : PnetLaws}.
Context {U32 : NetU32Lib} {U32L : NetU32Laws}.

(** The parser is the server's. *)
Lemma parse_unbound_spec b route :
  ClientBridge.parse_unbound_inner_ipv4 b = Some route ↔
  ∃ hl, Bridge.parse_unbound_inner_ipv4 b = Ok (route, hl).
Proof.
  unfold ClientBridge.parse_unbound_inner_ipv4, Bridge.parse_unbound_inner_ipv4.
  destruct (Nat.leb_spec 20 (length b)), (Nat.ltb_spec (length b) 20); try lia; cbn [andb negb];
    [|split; [done|by intros []]].
  destruct (Nat.leb_spec (length b) MAX_INNER_IPV4_PACKET_SIZE), (Nat.ltb_spec MAX_INNER_IPV4_PACKET_SIZE (length b));
    try lia; cbn [andb negb]; [|split; [done|by intros []]].
  destruct (ipv4_new b); cbn [negb]; [|split; [done|by intros []]].
  destruct (ipv4_get_version b =? 4); cbn [negb]; [|split; [done|by intros []]].
  destruct (_ || _); [split; [done|by intros []]|].
  destruct (ipv4_get_total_length b =? Z.of_nat (length b)); cbn [negb]; [|split; [done|by intros []]].
  split; [intros [= <-]; eauto|by intros (? & [= <- _])].
Qed.

Lemma parse_inner_spec b s route :
  ClientBridge.parse_inner_ipv4 b s = Some route ↔ ∃ hl, Bridge.parse_inner_ipv4 b s = Ok (route, hl).
Proof.
  unfold ClientBridge.parse_inner_ipv4, Bridge.parse_inner_ipv4. pose proof (parse_unbound_spec b) as Hp.
  destruct (ClientBridge.parse_unbound_inner_ipv4 b) as [r|] eqn:E; cbn [mbind option_bind].
  - destruct (proj1 (Hp r) eq_refl) as [hl Hr]. rewrite Hr. cbn [mbind result_bind fst].
    destruct (source r =? s); cbn [negb]; split; try done; [intros [= <-]; eauto|by intros (? & [= <- _])|by intros []].
  - destruct (Bridge.parse_unbound_inner_ipv4 b) as [[r hl]|] eqn:E'; cbn [mbind result_bind]; [|split; [done|by intros []]].
    assert (None = Some r) by (apply Hp; eauto). done.
Qed.

Lemma relay_checks n gw s d :
  negb (net_contains n s) || negb (net_contains n d) || (s =? net_network n)
    || (s =? net_broadcast n) || (s =? gw) || is_multicast s
    || (d =? ADDR_BROADCAST) || is_multicast d || (d =? net_network n)
    || (d =? net_broadcast n) || (d =? gw) = false ↔
  net_host n gw s ∧ net_contains n d = true ∧ d ≠ ADDR_BROADCAST ∧ is_multicast d = false ∧
  d ≠ net_network n ∧ d ≠ net_broadcast n ∧ d ≠ gw.
Proof.
  rewrite !orb_false_iff, !negb_false_iff, !Z.eqb_neq. split.
  - intros ((((((((((?&?)&?)&?)&?)&?)&?)&?)&?)&?)&?). split_and!; try done.
  - intros ([] & ? & ? & ? & ? & ? & ?). done.
Qed.

(** What the client accepts is what the server accepts, from a host of the network. *)
Lemma validate_inner_spec b s ed na n route :
  ClientBridge.network na = Ret n →
  ClientBridge.validate_inner_ipv4 b s ed na = Ret (Some route) ↔
  Bridge.validate_inner_ipv4 b s n (na_gateway na) = Ok route ∧ net_host n (na_gateway na) s ∧
  match ed with Some d => destination route = d | None => True end.
Proof.
  intros Hn. rewrite BridgeFacts.validate_inner_ok. unfold ClientBridge.validate_inner_ipv4. rewrite Hn.
  pose proof (parse_inner_spec b s) as Hp.
  destruct (ClientBridge.parse_inner_ipv4 b s) as [r|] eqn:E.
  2: { split; [done|]. intros (([hl Hw] & Hs & -> & _) & _).
       assert (None = Some (mkIpv4Route s (ipv4_get_destination b))); [|done].
       apply Hp. exists hl. by apply BridgeFacts.parse_inner_ok. }
  destruct (proj1 (Hp r) eq_refl) as [hl Hr]. apply BridgeFacts.parse_inner_ok in Hr as (Hw & Hs & ->).
  cbn [source destination]. set (d := ipv4_get_destination b).
  destruct (match ed with Some ip => negb (d =? ip) | None => false end) eqn:Ed.
  - split; [done|]. intros ((_ & _ & -> & _) & _ & He). cbn [destination] in He.
    destruct ed as [ip|]; [|done]. fold d in He. by rewrite He, Z.eqb_refl in Ed.
  - assert (match ed with Some ip => d = ip | None => True end) as He
      by (destruct ed; [by apply negb_false_iff, Z.eqb_eq in Ed|done]).
    pose proof (relay_checks n (na_gateway na) s d) as Hc. destruct (_ || _) eqn:Eb.
    + split; [done|]. intros ((_ & _ & _ & ? & ? & ? & ? & ? & ?) & ? & _).
      assert (true = false) by (by apply Hc). done.
    + destruct (proj1 Hc eq_refl) as (Hh & ? & ? & ? & ? & ? & ?). split.
      * intros [= <-]. split_and!; eauto.
      * by intros ((_ & _ & -> & _) & _).
Qed.
End Facts.
End RelayFacts.

(** The one packet a datagram from [src] makes the client take: its peer's tunnel
    decrypted it, and it goes from that peer to this host. *)
Definition direct_delivery `{!Ipv4NetLib, !PnetLib, !NetU32Lib, !Boringtun B} (packet : bytes) (src : SocketAddr)
    (t t' : Tunnels (B := B)) : Prop :=
  ∃ ip peer inner tunnel b b' q n,
    direct_peers t !! ip = Some peer ∧
    decapsulate (dp_tunnel peer) (Some (sock_ip src)) packet b = (WriteToTunnelV4 inner ip, tunnel, b') ∧
    delivered t' = delivered t ++ [(Turn, ip, q)] ∧ Packet.payload q = inner ∧
    Packet.src_id q = ip ∧ Packet.dest_id q = na_ip (network_addr t) ∧
    ClientBridge.network (network_addr t) = Ret n ∧ net_host n (na_gateway (network_addr t)) ip ∧
    Bridge.validate_inner_ipv4 inner ip n (na_gateway (network_addr t)) =
      Ok (mkIpv4Route ip (na_ip (network_addr t))).

Module DirectFacts.
Import TunnelLogic TunnelFacts RelayFacts.
Section Facts.
Context {NL : Ipv4NetLib} {NLL : Ipv4NetLaws} {PL : PnetLib} {PLL : PnetLaws}.
Context {U32 : NetU32Lib} {U32L : NetU32Laws}.
Context {B : Type} {BT : Boringtun B} {BC : BoringtunClient B}.
Implicit Types (st : Tunnels * B).

Lemma contains_range32 n ip : net_contains n ip = true → is_u 32 ip.
Proof.
  intros H%net_contains_true. pose proof (net_network_range n). pose proof (net_broadcast_range n).
  unfold is_u, u32_max in *. lia.
Qed.

Lemma validate_network b s ed na route :
  ClientBridge.validate_inner_ipv4 b s ed na = Ret (Some route) → ∃ n, ClientBridge.network na = Ret n.
Proof.
  unfold ClientBridge.validate_inner_ipv4. destruct (ClientBridge.parse_inner_ipv4 b s); [|done].
  destruct ed as [ip|]; [destruct (negb _); [done|]|]; (destruct (ClientBridge.network na); [eauto|done]).
Qed.

(** A packet the client takes for its own. *)
Lemma accepted_inner b s d na route :
  ClientBridge.validate_inner_ipv4 b s (Some d) na = Ret (Some route) →
  ∃ n, ClientBridge.network na = Ret n ∧ net_host n (na_gateway na) s ∧
    Bridge.validate_inner_ipv4 b s n (na_gateway na) = Ok (mkIpv4Route s d) ∧
    ipv4_get_source b = s ∧ ipv4_get_destination b = d ∧ is_u 32 s ∧ is_u 32 d.
Proof.
  intros Hv. pose proof (validate_network _ _ _ _ _ Hv) as [n Hn]. exists n.
  pose proof (proj1 (validate_inner_spec _ _ _ _ _ _ Hn) Hv) as (Hv1 & Hh & Hd). clear Hv. rename Hv1 into Hv. pose proof Hv as Hv'.
  apply BridgeFacts.validate_inner_ok in Hv' as (_ & Hs & -> & Hc & _). cbn [destination] in Hd. subst d.
  assert (is_u 32 s) by (eapply contains_range32, Hh).
  assert (is_u 32 (ipv4_get_destination b)) by (eapply contains_range32, Hc). by split_and!.
Qed.

Lemma process_delivers fuel o ip packet src st : ends (process_direct fuel o ip packet src) st (λ _ st',
  delivered st'.1 = delivered st.1 ∨ direct_delivery packet src st.1 st'.1).
Proof.
  unfold process_direct. do 2 act_step. destruct (direct_peers st.1 !! ip) as [peer|] eqn:Hp; [|act_step; by left].
  do 2 act_step. destruct a as [r tunnel]. do 2 act_step.
  destruct a as [[responses inbound]|]; [|act_step; by left].
  act_step. intros [flushed tunnel'] st1 E. cbn [fst snd] in E.
  destruct (flush_tunnel fuel tunnel b) as [[[ps tn] b']|]; [|done]. injection E as <- <- <-.
  do 3 act_step. eapply ends_mono; [apply sends_end|]. intros _ st2 ((_ & _ & En & _) & Ed & _). cbn in En, Ed.
  destruct inbound as [inner|]; [|act_step; left; exact Ed].
  unfold direct_result in H0. destruct r as [| |?|inner' sip|]; try done.
  destruct (Z.eqb_spec sip ip) as [->|]; [|done].
  destruct (ClientBridge.validate_inner_ipv4 _ _ _ _) as [[route|]|] eqn:Ev; try done. injection H0 as <- <-.
  apply accepted_inner in Ev as (n & Hn & Hh & Hv & _ & _ & Hu & Hu'). rewrite <- En in Hu'.
  eapply ends_mono; [by apply deliver_spec|]. intros _ st3 (q & Hd & Hq1 & Hq2 & Hq3). right.
  exists ip, peer, inner', tunnel, st.2, b, q, n. rewrite En in Hq3. rewrite Ed in Hd. done.
Qed.
Lemma datagram_delivers fuel o packet src st : ends (handle_direct_datagram fuel o packet src) st (λ _ st',
  delivered st'.1 = delivered st.1 ∨ direct_delivery packet src st.1 st'.1).
Proof.
  unfold handle_direct_datagram. do 4 act_step.
  assert (∀ x, ends match x with Some ip => process_direct fuel o ip packet src | None => mret tt end (st.1, b)
    (λ _ st', delivered st'.1 = delivered st.1 ∨ direct_delivery packet src st.1 st'.1)) as Hx
    by (intros [ip|]; [apply (process_delivers fuel o ip packet src (st.1, b))|act_step; by left]).
  destruct a as [[init|i|i|i]|[|e|cookie|? ?|? ?]]; try (by apply Hx); try (act_step; by left).
  - destruct (parse_handshake_anon _ _ _); [apply Hx|act_step; by left].
  - act_step. eapply ends_mono; [apply send_ends|]. intros _ st1 (_ & _ & Hd & _). act_step. by left.
Qed.

(** A packet of this host for a peer. *)
Lemma send_inner_spec o d packet st : ends (send_inner o d packet) st (λ r st',
  match direct_peers st.1 !! d with
  | Some peer =>
      if bool_decide (unix_ms (rd_wall o) < dp_expires_at_unix_ms peer) &&
         match dp_last_authenticated peer with
         | Some last => rd_instant o - last <=? AUTHENTICATED_ROUTE_TTL
         | None => false
         end
      then (r = false ∧ sent st'.1 = sent st.1) ∨ ∃ n datagram tunnel,
        ClientBridge.network (network_addr st.1) = Ret n ∧
        Bridge.validate_inner_ipv4 packet (na_ip (network_addr st.1)) n (na_gateway (network_addr st.1)) =
          Ok (mkIpv4Route (na_ip (network_addr st.1)) d) ∧
        encapsulate (dp_tunnel peer) packet st.2 = (WriteToNetwork datagram, tunnel, st'.2) ∧
        sent st'.1 = sent st.1 ++ [(datagram, dp_endpoint peer)] ∧ r = rd_accepts o datagram (dp_endpoint peer)
      else r = false ∧ st' = st
  | None => r = false ∧ st' = st
  end).
Proof.
  unfold send_inner. do 4 act_step. destruct (direct_peers st.1 !! d) as [peer|] eqn:Hp.
  2: { destruct a; act_step; by destruct st. }
  set (live := _ && _). assert (live = negb ((dp_expires_at_unix_ms peer <=? unix_ms (rd_wall o))
         || match dp_last_authenticated peer with
            | Some last => AUTHENTICATED_ROUTE_TTL <? saturating_sub (rd_instant o) last
            | None => true
            end)) as Hl.
  { unfold live. rewrite negb_orb. f_equal.
    - destruct (Z.leb_spec (dp_expires_at_unix_ms peer) (unix_ms (rd_wall o)));
        [rewrite bool_decide_eq_false_2 by lia|rewrite bool_decide_eq_true_2 by lia]; done.
    - destruct (dp_last_authenticated peer) as [last|]; [|done]. unfold saturating_sub, AUTHENTICATED_ROUTE_TTL, nanos.
      destruct (Z.leb_spec (rd_instant o - last) (45 * 1000000000)),
        (Z.ltb_spec (45 * 1000000000) (Z.max (rd_instant o - last) 0)); done || lia. }
  clearbody live. destruct a as [route|].
  2: { act_step. destruct live; [by left|by destruct st]. }
  destruct (_ || _); cbn [negb] in Hl; subst live; [act_step; by destruct st|].
  apply accepted_inner in H as (n & Hn & _ & Hv & _). do 2 act_step. destruct a as [res tunnel]. do 2 act_step.
  destruct res as [| |datagram| |]; try (act_step; by left). eapply ends_mono; [apply send_ends|].
  intros r st1 (Hr & _ & _ & Hs & Hb). right. cbn [snd] in Hb. exists n, datagram, tunnel. by rewrite Hb.
Qed.
End Facts.
End DirectFacts.

(** ** Frames between client and server *)

Module FrameFacts.
Import RelayFacts DirectFacts.
Section Facts.
Context {NL : Ipv4NetLib} {NLL : Ipv4NetLaws} {PL : PnetLib} {PLL : PnetLaws}.
Context {U32 : NetU32Lib} {U32L : NetU32Laws}.

(** A frame the client builds in front of its data, in a buffer that was zeroed. *)
Lemma client_frame k m s d data :
  (HEAD_LENGTH ≤ k)%nat → bytes_ok data → is_u 32 s → is_u 32 d →
  ∃ p0 p, with_header (zeroed k) data = Some p0 ∧
    p = Packet.set_ttl 5 (Packet.set_dest_id d (Packet.set_src_id s (Packet.set_msg_type m p0))) ∧
    Packet.msg_type p = Ok m ∧ Packet.ttl p = 5 ∧ Packet.src_id p = s ∧ Packet.dest_id p = d ∧
    Packet.is_compressed p = false ∧ Packet.is_gateway p = false ∧ Packet.payload p = data.
Proof.
  intros Hk Hb Hs Hd. unfold with_header. assert (length (zeroed k) = k) as Lz by apply length_replicate.
  rewrite Lz, (proj2 (Nat.ltb_ge _ _)) by lia.
  assert (drop (k - HEAD_LENGTH) (zeroed k) = zeroed HEAD_LENGTH) as ->.
  { unfold zeroed. rewrite drop_replicate. f_equal. lia. }
  set (p0 := mkNetPacket _). eexists p0, _. split; [done|]. split; [done|].
  assert (packet_ok p0) as H0.
  { split; [unfold p0; cbn [buffer]; rewrite length_app; unfold zeroed; rewrite length_replicate; lia|].
    apply Forall_app. split; [apply zeroed_ok|done]. }
  destruct (PacketFacts.setter_effect (Header.set_msg_type (MsgType_.into m)) _ H0
    (PacketFacts.set_msg_type_ok _ _)) as (H1 & E1 & P1 & _).
  destruct (PacketFacts.setter_effect (Header.set_src_id s) _ H1 (PacketFacts.set_src_id_ok s _ Hs)) as (H2 & E2 & P2 & _).
  destruct (PacketFacts.setter_effect (Header.set_dest_id d) _ H2 (PacketFacts.set_dest_id_ok d _ Hd)) as (H3 & E3 & P3 & _).
  destruct (PacketFacts.setter_effect (Header.set_ttl 5 5) _ H3 (PacketFacts.set_ttl_ok _ _ _)) as (H4 & E4 & P4 & _).
  rewrite E3, E2, E1 in E4. rewrite P3, P2, P1 in P4.
  unfold Packet.set_msg_type, Packet.set_src_id, Packet.set_dest_id, Packet.set_ttl.
  set (q := Packet.header_mut (Header.set_ttl 5 5) _) in *. clearbody q.
  destruct (PacketFacts.read_envelope q m 5 _ _ _ s d ltac:(unfold is_u; lia) Hs Hd E4) as (? & ? & _ & ? & ?).
  assert (flags_byte (Packet.header q) = 0) as Hq by (rewrite E4; reflexivity).
  split_and!; try done.
  - unfold Packet.is_compressed. rewrite Hq. done.
  - unfold Packet.is_gateway. rewrite Hq. done.
Qed.

Lemma unicast_frame p s d n gw inner :
  Packet.msg_type p = Ok WireGuardRelay → Packet.ttl p = 5 → Packet.src_id p = s → Packet.dest_id p = d →
  Packet.is_compressed p = false → Packet.is_gateway p = false → Packet.payload p = inner →
  Bridge.validate_inner_ipv4 inner s n gw = Ok (mkIpv4Route s d) →
  Bridge.validate_vnt_relay p s n gw = Ok (mkIpv4Route s d).
Proof.
  intros Hm Ht Hs Hd Hc Hg Hp Hv. unfold Bridge.validate_vnt_relay.
  rewrite (BridgeFacts.validate_envelope_ok p WireGuardRelay s) by (done || by rewrite Ht). cbn [mbind result_bind]. rewrite Hp, Hv.
  cbn [mbind result_bind destination]. by rewrite Hd, Z.eqb_refl.
Qed.

Lemma subnet_frame p s d na n inner route :
  Packet.msg_type p = Ok WireGuardSubnetRelay → Packet.ttl p = 5 → Packet.src_id p = s → Packet.dest_id p = d →
  Packet.is_compressed p = false → Packet.is_gateway p = false → Packet.payload p = inner →
  d ≠ s → ClientBridge.network na = Ret n →
  ClientBridge.validate_subnet_reply_inner_ipv4 inner d na = Ret (Some route) →
  Bridge.validate_vnt_subnet_relay p s n (na_gateway na) = Ok route ∧ destination route = d.
Proof.
  intros Hm Ht Hs Hd Hc Hg Hp Hne Hn Hv. unfold Bridge.validate_vnt_subnet_relay.
  rewrite (BridgeFacts.validate_envelope_ok p WireGuardSubnetRelay s) by (done || by rewrite Ht). cbn [mbind result_bind]. rewrite Hp, Hd.
  unfold ClientBridge.validate_subnet_reply_inner_ipv4 in Hv. pose proof (parse_unbound_spec inner) as Hps.
  destruct (ClientBridge.parse_unbound_inner_ipv4 inner) as [r|]; [|done].
  destruct (proj1 (Hps r) eq_refl) as [hl ->]. cbn [mbind result_bind]. rewrite Hn in Hv.
  destruct (_ || _) eqn:E in Hv; [done|]. injection Hv as ->.
  rewrite !orb_false_iff, !negb_false_iff in E. destruct E as ((((((((E1 & E2) & E3) & E4) & E5) & E6) & E7) & E8) & E9).
  apply Z.eqb_eq in E1. rewrite E1 in *. rewrite E2, E3, E4, E5, (proj2 (Z.eqb_neq d s)) by done. cbn [negb orb].
  by rewrite E6, E7, E8, E9, Z.eqb_refl.
Qed.
(** A host is below the end of its block, so it is not 255.255.255.255. *)
Lemma host_not_limited n gw ip : net_host n gw ip → ip ≠ ADDR_BROADCAST.
Proof.
  intros [Hc _ Hb _ _] ->. apply net_contains_true in Hc. pose proof (net_broadcast_range n).
  unfold ADDR_BROADCAST, u32_max in *. lia.
Qed.

(** The packet an offer is checked with passes for two hosts of the network. *)
Lemma synthetic_valid `{!PnetUdpLib, !PnetLayout} src na n :
  ClientBridge.network na = Ret n → net_host n (na_gateway na) src → net_host n (na_gateway na) (na_ip na) →
  ClientBridge.validate_inner_ipv4 (synthetic_ipv4 src (na_ip na)) src (Some (na_ip na)) na =
    Ret (Some (mkIpv4Route src (na_ip na))).
Proof.
  intros Hn Hs Hd. pose proof (host_not_limited _ _ _ Hd) as Hb. assert (is_u 32 src) as Us by (eapply contains_range32, ho_contains, Hs).
  assert (is_u 32 (na_ip na)) as Ud by (eapply contains_range32, ho_contains, Hd).
  set (b := synthetic_ipv4 src (na_ip na)). assert (length b = 20%nat) as Lb by reflexivity.
  assert (ipv4_get_source b = src) as Es.
  { rewrite ipv4_source_layout by lia. change (Model.field 12 4 b) with (from_be_bytes (to_be_bytes 4 src)).
    rewrite from_to_be_bytes. apply Z.mod_small. exact Us. }
  assert (ipv4_get_destination b = na_ip na) as Ed.
  { rewrite ipv4_destination_layout by lia. change (Model.field 16 4 b) with (from_be_bytes (to_be_bytes 4 (na_ip na))).
    rewrite from_to_be_bytes. apply Z.mod_small. exact Ud. }
  apply (validate_inner_spec _ _ _ _ n); [done|]. split; [|by split].
  apply BridgeFacts.validate_inner_ok. rewrite Es, Ed. destruct Hd. split_and!; try done.
  exists 20%nat. unfold BridgeFacts.inner_wf. rewrite Lb, ipv4_version_layout, ipv4_header_length_layout,
    ipv4_total_length_layout by lia. unfold MAX_INNER_IPV4_PACKET_SIZE. split_and!; reflexivity || lia.
Qed.

Lemma hops_flags k p q : packet_ok p → hops k p = Some q →
  flags_byte (Packet.header q) = flags_byte (Packet.header p).
Proof.
  revert p. induction k as [|k IH]; intros p Hp H; cbn [hops] in H; [by injection H as ->|].
  destruct (Packet.decr_ttl p) as [[] p'] eqn:E; [|done].
  destruct (PacketFacts.decr_ttl_effect p _ _ Hp E) as (Hq & _ & Hh & _). rewrite (IH p' Hq H), Hh. done.
Qed.

Lemma envelope_flags m inner s d p : is_u 32 s → is_u 32 d →
  Packet.new (Bridge.build_wireguard_envelope m inner s d) = Ok p → flags_byte (Packet.header p) = 0.
Proof.
  intros Hs Hd. unfold Bridge.build_wireguard_envelope. set (z := zeroed (HEAD_LENGTH + length inner)).
  assert (length z = (HEAD_LENGTH + length inner)%nat) as Lz by apply length_replicate.
  assert (packet_ok (mkNetPacket z)) as Hz by (split; [cbn [buffer]; lia|apply zeroed_ok]).
  unfold Packet.new at 2. rewrite (proj2 (Nat.ltb_ge _ _)) by lia. cbv zeta.
  destruct (PacketFacts.envelope_writes (mkNetPacket z) m RELAY_TTL s d Hz ltac:(unfold is_u, RELAY_TTL; lia) Hs Hd)
    as (Hq & Eh & _ & Lq). set (q := Packet.set_dest_id _ _) in *. clearbody q. cbn [buffer] in Lq.
  destruct (TunnelFacts.set_payload_exact inner q Hq ltac:(lia)) as (r & -> & Er & _).
  unfold Packet.new. destruct (_ <? _)%nat; [done|]. intros [= <-]. destruct r as [r]. cbn [buffer].
  rewrite Er, Eh. reflexivity.
Qed.

(** The frame the server relays a packet in, as the client reads it. *)
Lemma server_frame k inner s d :
  bytes_ok inner → is_u 32 s → is_u 32 d → (k < Z.to_nat RELAY_TTL)%nat →
  ∃ p q, Packet.new (Bridge.build_wireguard_envelope WireGuardRelay inner s d) = Ok p ∧ hops k p = Some q ∧
    Packet.payload q = inner ∧ Packet.src_id q = s ∧ Packet.dest_id q = d ∧
    client_msg_type q = Some (Known WireGuardRelay) ∧ ClientBridge.envelope_ok q WireGuardRelay = true.
Proof.
  intros Hb Hs Hd Hk. destruct (BridgeFacts.build_envelope_spec WireGuardRelay inner s d Hb Hs Hd)
    as (p & Hp & Hok & Hm & Ht & Hsi & Hdi & Hc & Hg & Hpay & _).
  destruct (BridgeFacts.hops_total k p Hok ltac:(unfold RELAY_TTL in *; lia)) as [q Hq].
  destruct (BridgeFacts.hops_preserve k p q Hok Hq) as (_ & Em & Es & Ed & Ec & Eg & Ep & Et).
  assert (is_fec q = false) as Hf.
  { unfold is_fec. by rewrite (hops_flags k p q Hok Hq), (envelope_flags _ _ _ _ _ Hs Hd Hp). }
  assert (client_msg_type q = Some (Known WireGuardRelay)) as Hct by (apply ViewFacts.client_type; by rewrite Em).
  exists p, q. split; [done|]. split; [done|]. split_and!; try congruence.
  unfold ClientBridge.envelope_ok. rewrite Hct, bool_decide_eq_true_2, Ec, Hc, Eg, Hg, Hf by done.
  destruct (Z.eqb_spec (Packet.ttl q) 0); [|done]. unfold RELAY_TTL in *. lia.
Qed.

(** *** Offers *)

Context {B : Type} {BT : Boringtun B} {BC : BoringtunClient B}.

Lemma allocate_total fuel used rng k : (k < fuel)%nat → used !! rng k = None →
  is_Some (allocate_receiver_index fuel used rng).
Proof.
  revert rng k. induction fuel as [|fuel IH]; intros rng k Hk Hu; [lia|]. simpl.
  destruct (used !! rng 0%nat) eqn:E; simpl; [|eauto]. destruct k as [|k]; [congruence|].
  apply (IH (λ i, rng (S i)) k); [lia|done].
Qed.

Lemma removed_index ip i (t : Tunnels) : receiver_indices t !! i = None → receiver_indices (remove_direct ip t) !! i = None.
Proof. intros H. unfold remove_direct. destruct (_ !! ip); [|done]. cbn. by rewrite lookup_delete_None; right. Qed.

Lemma removed_other ip ip' (t : Tunnels) : ip' ≠ ip →
  direct_peers (remove_direct ip t) !! ip' = direct_peers t !! ip'.
Proof. intros H. unfold remove_direct. destruct (_ !! ip); [|done]. cbn. by rewrite lookup_delete_ne. Qed.

(** An offer that is not ignored is stored, and no other peer is touched. *)
Lemma offer_stored fuel o offer (t : Tunnels) (b : B) key e ip k :
  offer_terms o offer (network_addr t) = Ret (Some (key, e, ip)) →
  (size (direct_peers t) < MAX_ACTIVE_PEERS)%nat ∨ is_Some (direct_peers t !! ip) →
  (k < fuel)%nat → receiver_indices t !! rd_rng o k = None →
  ∃ t' b' p, apply_offer fuel o offer (t, b) = Finished (tt, (t', b')) ∧ direct_peers t' !! ip = Some p ∧
    dp_public_key p = key ∧ dp_endpoint p = e ∧ dp_lease_id p = of_lease_id offer ∧
    dp_expires_at_unix_ms p = of_expires_at_unix_ms offer ∧
    ∀ ip', ip' ≠ ip → direct_peers t' !! ip' = direct_peers t !! ip'.
Proof.
  intros Ht Hfull Hk Hfree. unfold apply_offer.
  unfold mbind, act_bind, get_tunnels, or_panic. cbn [fst]. rewrite Ht.
  assert ((MAX_ACTIVE_PEERS <=? size (direct_peers t))%nat && negb (is_some (direct_peers t !! ip)) = false) as ->.
  { destruct Hfull as [Hs|[? ->]]; [|by rewrite andb_false_r]. by rewrite (proj2 (Nat.leb_gt _ _)). }
  destruct (allocate_total fuel (receiver_indices (remove_direct ip t)) (rd_rng o) k Hk (removed_index _ _ _ Hfree))
    as [i Hi].
  destruct (tunn_new_own (private_key (remove_direct ip t)) key i b) as [tunnel0 b0] eqn:Hnew.
  destruct (format_handshake_initiation tunnel0 false b0) as [[r tunnel] b1] eqn:Hhs.
  destruct (direct_peers t !! ip) as [peer|] eqn:Hp; [case_bool_decide as Hkey|].
  1: { eexists _, _, _. split; [done|]. cbn. rewrite lookup_insert_eq. split; [done|]. cbn. split_and!; try done.
       intros ip' Hne. by rewrite lookup_insert_ne. }
  all: unfold modify_tunnels, or_fuel, on_bt; cbn [fst snd]; rewrite Hi; cbn [fst snd]; rewrite Hnew; cbn [fst snd]; rewrite Hhs; cbn [fst snd].
  all: destruct r; eexists _, _, _; (split; [done|]); cbn; rewrite lookup_insert_eq; (split; [done|]); cbn; split_and!; try done;
    intros ip' Hne; rewrite lookup_insert_ne by done; by apply removed_other.
Qed.

(** *** The frame of an offer *)

Section Offered.
Context {PU : PnetUdpLib} {PY : PnetLayout}.
Context {CL : ProstCodec proto.ClientSimpleInfoList} {RPS : ProstCodec RpcMessageResponse} {PC : P2pCodec} {PCL : P2pCodecLaws}.
Context {W : Type} {MV : Mpsc W bytes} {MVL : MpscLaws W bytes} {MW : Mpsc W WireGuardBridgePacket}.

(** A granted request: the frame in the target's queue. *)
Lemma granted_frame fuel rng wall peer key ep req (s : NetworkState) (w : W) res s' w' g :
  is_u 32 (ns_gateway s) → is_u 32 (rq_target_ip req) → senders_ok (sender_map s) (online_endpoints s) →
  resolve_agent_request fuel rng wall peer key ep req s w = Some (res, s', w') → rs_granted res = Some g →
  ∃ q frame, sender_map s !! rq_target_ip req = Some (SVnt q) ∧ mpsc_sent q w' = mpsc_sent q w ++ [frame] ∧
    gl_lease_id g ≠ 0 ∧ control_packet (ns_gateway s) (rq_target_ip req) (prost_encode (mkP2pControl (Some (POffer
      (mkP2pOffer (gl_lease_id g) (lease_expiry wall) peer key (socket_to_string ep)))))) = Some frame.
Proof.
  intros Hg Ht Hs. unfold resolve_agent_request. destruct (_ || _ || _); [by intros [= <- <- <-]|].
  destruct (wireguard_p2p_endpoint (rq_target_ip req) s) as [target|] eqn:Ew; [|by intros [= <- <- <-]].
  destruct (online_endpoints s !! rq_target_ip req) as [[rid [] caps [] [tg|]|]|] eqn:He;
    unfold wireguard_p2p_endpoint in Ew; rewrite He in Ew; try done.
  destruct (draw_lease_id fuel rng) as [lease|] eqn:Hd; cbn [mbind option_bind]; [|done]. cbv zeta.
  set (offer := mkP2pControl _).
  destruct (P2pFacts.control_packet_spec (ns_gateway s) (rq_target_ip req) (prost_encode offer) Hg Ht
    (p2p_control_bytes _)) as (data & p & Hcp & Hn & Hm & _). rewrite Hcp.
  destruct (P2pFacts.deliver_control s w (rq_target_ip req) data p _ _ _ _ _ Hs He Hn Hm)
    as (q & Hq & [(w1 & -> & Hsent)|(r & Hr & Hfull & ->)]).
  - rewrite bool_decide_eq_true_2 by done. intros [= <- <- <-]. unfold resolution. cbn [rs_granted]. intros [= <-].
    exists q, data. split; [exact Hq|]. split; [exact Hsent|]. split; [by eapply P2pFacts.draw_nonzero|exact Hcp].
  - rewrite bool_decide_eq_false_2 by done. by intros [= <- <- <-].
Qed.

(** The client takes a control frame from its gateway. *)
Lemma control_received lz4 id na now (m : P2pControlMessage) frame (c : ServerInfoCollection) :
  is_u 32 (na_gateway na) → is_u 32 (na_ip na) →
  control_packet (na_gateway na) (na_ip na) (prost_encode m) = Some frame →
  handle_server_data lz4 true true id na now frame c = Some ([ActControl m], c).
Proof.
  intros Hg Hi Hf. destruct (P2pFacts.control_packet_spec _ _ (prost_encode m) Hg Hi (p2p_control_bytes _))
    as (data & p & Hc & Hn & Hm & Ht & Hgw & Hs & Hd & Hp & Hcm). rewrite Hf in Hc. injection Hc as <-.
  unfold handle_server_data. rewrite Hn, (ViewFacts.client_type p _ Hm). cbn [mbind option_bind].
  rewrite ViewFacts.decompress_plain by done. cbn [mbind option_bind].
  rewrite Hgw, Ht, Hs, Hd, !Z.eqb_refl, Hp, prost_decode_encode. done.
Qed.
End Offered.
End Facts.
End FrameFacts.

(** ** Termination *)

Module TunnelTotal.
Section Total.
Context {NL : Ipv4NetLib} {PL : PnetLib} {U32 : NetU32Lib}.
Context {B : Type} {BT : Boringtun B} {BC : BoringtunClient B} {BL : BoringtunLaws B}.
Implicit Types (st : Tunnels * B).

(** With enough fuel the computation ends without a panic, and the network is as it was. *)
Definition halts {A} (c : nat → act A) st : Prop :=
  ∃ n a st', (∀ fuel, (n ≤ fuel)%nat → c fuel st = Finished (a, st')) ∧ network_addr st'.1 = network_addr st.1.

Lemma halts_now {A} (c : act A) st a st' :
  c st = Finished (a, st') → network_addr st'.1 = network_addr st.1 → halts (λ _, c) st.
Proof. intros Hc Hn. by exists O, a, st'. Qed.

Lemma halts_bind {A C} (c : nat → act A) (k : nat → A → act C) st :
  halts c st → (∀ a st', network_addr st'.1 = network_addr st.1 → halts (λ fuel, k fuel a) st') →
  halts (λ fuel, c fuel ≫= k fuel) st.
Proof.
  intros (n & a & st1 & Hc & H1) Hk. destruct (Hk a st1 H1) as (m & x & st2 & Hm & H2).
  exists (Nat.max n m), x, st2. split; [|by rewrite H2]. intros fuel Hf. unfold mbind, act_bind.
  rewrite Hc by lia. apply Hm. lia.
Qed.

Lemma halts_ret {A} (a : A) st : halts (λ _, mret a) st.
Proof. eapply halts_now; [reflexivity|done]. Qed.
Lemma halts_modify f st : (∀ t, network_addr (f t) = network_addr t) → halts (λ _, modify_tunnels f) st.
Proof. intros Hf. eapply halts_now; [reflexivity|apply Hf]. Qed.
Lemma halts_bt {A} (f : B → A * B) st : halts (λ _, on_bt f) st.
Proof. destruct (f st.2) as [a b] eqn:E. eapply (halts_now _ _ a (st.1, b)); [|done]. unfold on_bt. by rewrite E. Qed.
Lemma halts_panic {A} (a : A) st : halts (λ _, or_panic (Ret a)) st.
Proof. eapply halts_now; [reflexivity|done]. Qed.
Lemma halts_send o d e st : halts (λ _, send_datagram o d e) st.
Proof. eapply halts_now; [reflexivity|done]. Qed.

(** Reading the state, with the knowledge that it is the state. *)
Lemma halts_get {C} (k : nat → Tunnels → act C) st :
  halts (λ fuel, k fuel st.1) st → halts (λ fuel, get_tunnels ≫= k fuel) st.
Proof. done. Qed.

Lemma halts_panic_bind {A C} (a : A) (k : nat → A → act C) st :
  halts (λ fuel, k fuel a) st → halts (λ fuel, or_panic (Ret a) ≫= k fuel) st.
Proof. done. Qed.
Lemma halts_modify_bind {C} f (k : nat → unit → act C) st :
  network_addr (f st.1) = network_addr st.1 → halts (λ fuel, k fuel tt) (f st.1, st.2) →
  halts (λ fuel, modify_tunnels f ≫= k fuel) st.
Proof. intros Hf (m & a & st' & Hm & He). exists m, a, st'. split; [exact Hm|]. by rewrite He. Qed.

(** The first computation of a sequence. *)
Tactic Notation "halt" tactic3(t) := apply (halts_bind (λ _, _) (λ _ _, _)); [t|].

Lemma halts_sends o l st : halts (λ _, send_datagrams o l) st.
Proof.
  revert st. induction l as [|[d e] l IH]; intros st; cbn [send_datagrams]; [apply halts_ret|].
  halt (apply halts_send). intros _ st' _. apply IH.
Qed.
Lemma halts_tick ips st : halts (λ _, tick_direct ips) st.
Proof.
  revert st. induction ips as [|ip ips IH]; intros st; cbn [tick_direct]; [apply halts_ret|].
  apply (halts_get (λ _ _, _)). destruct (direct_peers st.1 !! ip); [|apply IH].
  halt (apply halts_bt). intros [r tunnel] st1 _.
  halt (by apply halts_modify). intros _ st2 _.
  halt (apply IH). intros ? ? _. apply halts_ret.
Qed.

Context (n : Ipv4Net).

Lemma valid_ret b s ed na : ClientBridge.network na = Ret n → ∃ x, ClientBridge.validate_inner_ipv4 b s ed na = Ret x.
Proof.
  intros Hn. unfold ClientBridge.validate_inner_ipv4. destruct (ClientBridge.parse_inner_ipv4 _ _); [|eauto].
  cbv zeta. rewrite Hn. repeat case_match; eauto.
Qed.

Lemma halts_timers o st : halts (λ _, update_direct_timers o) st.
Proof.
  apply (halts_get (λ _ _, _)). apply (halts_bind (λ _, _) (λ _ _, _)).
  { apply halts_modify. generalize (expired_direct o st.1). intros l t. revert t.
    induction l as [|ip l IH]; intros t; [done|]. cbn [fold_left]. rewrite IH. apply TunnelFacts.remove_logs. }
  intros _ st1 _. apply (halts_get (λ _ _, _)). halt (apply halts_tick).
  intros l st2 _. apply halts_sends.
Qed.

Lemma halts_inner o d packet st : ClientBridge.network (network_addr st.1) = Ret n →
  halts (λ _, send_inner o d packet) st.
Proof.
  intros Hn. apply (halts_get (λ _ _, _)). cbv zeta. destruct (valid_ret packet (na_ip (network_addr st.1)) (Some d) _ Hn) as [x ->].
  halt (apply halts_panic). intros v st1 _.
  destruct v; [|apply halts_ret]. destruct (direct_peers st.1 !! d); [|apply halts_ret].
  destruct (_ || _); [apply halts_ret|].
  halt (apply halts_bt). intros [r tunnel] st2 _.
  halt (by apply halts_modify). intros _ st3 _.
  destruct r; first [apply halts_send|apply halts_ret].
Qed.

Lemma halts_deliver ip inner st : halts (λ _, deliver_inner ip inner) st.
Proof.
  apply (halts_get (λ _ _, _)).
  assert (Packet.new (zeroed (HEAD_LENGTH + length inner)) = Ok (mkNetPacket (zeroed (HEAD_LENGTH + length inner)))) as ->.
  { unfold Packet.new. rewrite (proj2 (Nat.ltb_ge _ _)); [done|]. unfold zeroed. rewrite length_replicate. lia. }
  halt (apply halts_panic). intros p st1 _. cbv zeta.
  destruct (Packet.set_payload _ _); [by apply halts_modify|apply halts_ret].
Qed.

Lemma halts_process o ip packet src st : ClientBridge.network (network_addr st.1) = Ret n →
  halts (λ fuel, process_direct fuel o ip packet src) st.
Proof.
  intros Hn. apply (halts_get (λ _ _, _)). destruct (direct_peers st.1 !! ip) as [peer|]; [|apply halts_ret].
  halt (apply halts_bt). intros [r tunnel] st1 _.
  assert (∃ x, direct_result r ip (network_addr st.1) = Ret x) as [x ->].
  { destruct r as [| | |inner sip|]; cbn; eauto. destruct (sip =? ip); [|eauto].
    destruct (valid_ret inner ip (Some (na_ip (network_addr st.1))) _ Hn) as [[] ->]; eauto. }
  halt (apply halts_panic). intros [[responses inbound]|] st2 _; [|by apply halts_modify].
  apply (halts_bind (λ fuel, _) (λ _ _, _)).
  { destruct (Termination.flush_settles tunnel st2.2) as (m & [[ps tn] b] & Hm).
    exists m, (ps, tn), (st2.1, b). split; [|done]. intros fuel Hf. by rewrite Hm. }
  intros [flushed tunnel'] st3 _. halt (by apply halts_modify). intros _ st4 _.
  halt (apply halts_sends). intros _ st5 _.
  destruct inbound; [apply halts_deliver|apply halts_ret].
Qed.

Lemma halts_datagram o packet src st : ClientBridge.network (network_addr st.1) = Ret n →
  halts (λ fuel, handle_direct_datagram fuel o packet src) st.
Proof.
  intros Hn. apply (halts_get (λ _ _, _)). halt (apply halts_bt).
  intros v st1 H1. rewrite <- H1 in Hn.
  assert (∀ x, halts (λ fuel, match x with Some ip => process_direct fuel o ip packet src | None => mret tt end) st1) as Hx
    by (intros [ip|]; [by apply halts_process|apply halts_ret]).
  destruct v as [[init|i|i|i]|[|e|cookie|? ?|? ?]]; try apply Hx; try apply halts_ret.
  - destruct (parse_handshake_anon _ _ _); [apply Hx|apply halts_ret].
  - halt (apply halts_send). intros _ st2 _. apply halts_ret.
Qed.

Lemma terms_ret o offer na : ClientBridge.network na = Ret n → ∃ x, offer_terms o offer na = Ret x.
Proof.
  intros Hn. unfold offer_terms. destruct (negb _); [eauto|]. destruct (socket_parse _) as [[]|]; eauto. cbv zeta.
  destruct (_ || _); [eauto|].
  destruct (valid_ret (synthetic_ipv4 (of_peer_ip offer) (na_ip na)) (of_peer_ip offer) (Some (na_ip na)) na Hn) as [[] ->]; eauto.
Qed.

Lemma halts_allocate used rng k st : used !! rng k = None →
  halts (λ fuel, or_fuel (allocate_receiver_index fuel used rng)) st.
Proof.
  intros Hk. assert (∃ i, ∀ fuel, (S k ≤ fuel)%nat → allocate_receiver_index fuel used rng = Some i) as [i Hi].
  { revert rng Hk. induction k as [|k IH]; intros rng Hk.
    - exists (rng 0%nat). intros [|fuel] Hf; [lia|]. simpl. by rewrite Hk.
    - destruct (used !! rng 0%nat) eqn:E.
      + destruct (IH (λ j, rng (S j)) Hk) as [i Hi]. exists i. intros [|fuel] Hf; [lia|]. simpl. rewrite E. apply Hi. lia.
      + exists (rng 0%nat). intros [|fuel] Hf; [lia|]. simpl. by rewrite E. }
  exists (S k), i, st. split; [|done]. intros fuel Hf. by rewrite (Hi fuel Hf).
Qed.

Lemma halts_offer o offer st k : ClientBridge.network (network_addr st.1) = Ret n →
  receiver_indices st.1 !! rd_rng o k = None → halts (λ fuel, apply_offer fuel o offer) st.
Proof.
  intros Hn Hk. apply (halts_get (λ _ _, _)). destruct (terms_ret o offer _ Hn) as [x ->].
  apply (halts_panic_bind x (λ _ _, _)). destruct x as [[[key e] ip]|]; [|apply halts_ret].
  destruct (_ && _); [apply halts_ret|]. cbv zeta.
  destruct (direct_peers st.1 !! ip); [case_bool_decide; [by apply halts_modify|]|].
  all: apply halts_modify_bind; [apply TunnelFacts.remove_logs|]; apply (halts_get (λ _ _, _)); cbn [fst];
    halt (by eapply halts_allocate, FrameFacts.removed_index); intros i st1 _;
    halt (apply halts_bt); intros tunnel st2 _;
    halt (apply halts_bt); intros [r tunnel'] st3 _;
    halt (by apply halts_modify); intros _ st4 _;
    destruct r; try apply halts_ret; halt (apply halts_send);
    intros _ st5 _; apply halts_ret.
Qed.

Lemma halts_control o c st k : ClientBridge.network (network_addr st.1) = Ret n →
  receiver_indices st.1 !! rd_rng o k = None → halts (λ fuel, apply_control fuel o c) st.
Proof.
  intros Hn Hk. unfold apply_control. destruct (p2p_payload c) as [[offer|id]|]; [by eapply halts_offer| |apply halts_ret].
  apply (halts_get (λ _ _, _)). destruct (find_direct _ _); [|apply halts_ret].
  apply halts_modify. intros t. apply TunnelFacts.remove_logs.
Qed.

Lemma halts_event o e st k : ClientBridge.network (network_addr st.1) = Ret n →
  receiver_indices st.1 !! rd_rng o k = None → halts (λ fuel, handle_direct_event fuel o e) st.
Proof.
  intros Hn Hk. destruct e; cbn [handle_direct_event]; apply (halts_bind (λ fuel, _) (λ _ _, _));
    eauto using halts_control, halts_inner, halts_datagram, halts_timers; intros; apply halts_ret.
Qed.
End Total.
End TunnelTotal.

(** ** Theorems *)

(** A step of the client's tunnels: an event of the loop, whatever the readings and the
    state of the tunnels. *)
Inductive direct_step `{!Ipv4NetLib, !PnetLib, !NetU32Lib} {B} `{!Boringtun B, !BoringtunClient B} :
    Tunnels (B := B) → Tunnels (B := B) → Prop :=
| ds_event fuel o e t b r t' b' :
    (∀ i, 0 ≤ rd_rng o i ≤ MAX_RECEIVER_INDEX) →
    handle_direct_event fuel o e (t, b) = Finished (r, (t', b')) → direct_step t t'.

Import NetAgree.

Section Theorems.
Context {NL : Ipv4NetLib} {NLL : Ipv4NetLaws} {PL : PnetLib} {PLL : PnetLaws}.
Context {U32 : NetU32Lib} {U32L : NetU32Laws}.
Context {B : Type} {BT : Boringtun B} {BC : BoringtunClient B}.

(** C9: the tables of the direct tunnels stay consistent.  From the start of the task on,
    whatever offers, revocations, datagrams, packets and timers come, the table of
    receiver indices is exactly the inverse of the peers' indices, so a datagram is given
    to the tunnel its index was drawn for; indices fit in 24 bits, there are at most 64
    peers, and each has a lease and a 32-byte key. *)
Theorem direct_tunnels_consistent private public limiter na t :
  rtc direct_step (start_tunnels private public limiter na) t → tunnels_ok t.
Proof.
  intros H. remember (start_tunnels private public limiter na) as t0 eqn:E.
  assert (tunnels_ok t0) as Hok by (subst; apply TunnelFacts.ok_start). clear E.
  induction H as [t|t t1 t2 Hs _ IH]; [done|]. apply IH. destruct Hs as [fuel o e t b r t' b' Hr He].
  exact (TunnelFacts.event_ok fuel o e (t, b) Hr Hok r (t', b') He).
Qed.

(** C10: nothing but a peer's own packets for this host comes out of a tunnel.  An event
    leaves what the host was given as it was, unless it is a datagram that the tunnel of
    some peer decrypted to a packet; then the host is given that packet alone, from the
    peer's address to the client's own, both hosts of the network. *)
Theorem direct_ingress_confined fuel o e t (b : B) r t' b' :
  handle_direct_event fuel o e (t, b) = Finished (r, (t', b')) →
  delivered t' = delivered t ∨ ∃ packet src, e = DvDatagram packet src ∧ direct_delivery packet src t t'.
Proof.
  intros He. assert (TunnelLogic.ends (handle_direct_event fuel o e) (t, b) (λ _ st',
    delivered st'.1 = delivered t ∨ ∃ packet src, e = DvDatagram packet src ∧ direct_delivery packet src t st'.1)) as H.
  { destruct e as [c|d packet|packet src|]; cbn [handle_direct_event]; act_step.
    1: eapply TunnelLogic.ends_mono; [apply TunnelFacts.silent_control|]; intros ? ? [Hd _]; act_step; by left.
    1: eapply TunnelLogic.ends_mono; [apply TunnelFacts.silent_inner|]; intros ? ? [Hd _]; act_step; by left.
    2: eapply TunnelLogic.ends_mono; [apply TunnelFacts.silent_timers|]; intros ? ? [Hd _]; act_step; by left.
    eapply TunnelLogic.ends_mono; [apply DirectFacts.datagram_delivers|]. intros ? ? [Hd|Hd]; act_step; [by left|right; eauto]. }
  exact (H r (t', b') He).
Qed.

(** C21: a packet leaves by a direct tunnel only on a live, authenticated lease.  Without
    such a lease for the destination nothing is sent and the state is as it was; with
    one, either the packet is refused, or its encryption by the peer's tunnel goes to the
    peer's endpoint, for a packet from this host to that peer, and the answer says
    whether the socket took it. *)
Theorem direct_send_spec o d packet t (b : B) r t' b' :
  send_inner o d packet (t, b) = Finished (r, (t', b')) →
  (∃ peer last, direct_peers t !! d = Some peer ∧ unix_ms (rd_wall o) < dp_expires_at_unix_ms peer ∧
     dp_last_authenticated peer = Some last ∧ rd_instant o - last ≤ AUTHENTICATED_ROUTE_TTL ∧
     (r = false ∧ sent t' = sent t ∨ ∃ n datagram tunnel,
       ClientBridge.network (network_addr t) = Ret n ∧
       Bridge.validate_inner_ipv4 packet (na_ip (network_addr t)) n (na_gateway (network_addr t)) =
         Ok (mkIpv4Route (na_ip (network_addr t)) d) ∧
       encapsulate (dp_tunnel peer) packet b = (WriteToNetwork datagram, tunnel, b') ∧
       sent t' = sent t ++ [(datagram, dp_endpoint peer)] ∧ r = rd_accepts o datagram (dp_endpoint peer))) ∨
  r = false ∧ t' = t ∧ b' = b.
Proof.
  intros He. pose proof (DirectFacts.send_inner_spec o d packet (t, b) r (t', b') He) as H. cbn [fst snd] in H.
  destruct (direct_peers t !! d) as [peer|] eqn:Hp; [|right; by destruct H as [-> [= -> ->]]].
  destruct (bool_decide _ && _) eqn:Hl; [left|right; by destruct H as [-> [= -> ->]]].
  apply andb_true_iff in Hl as [Hl%bool_decide_eq_true Ha].
  destruct (dp_last_authenticated peer) as [last|] eqn:El; [|done]. apply Z.leb_le in Ha. by exists peer, last.
Qed.

(** C30: the server accepts what the client relays.  A packet the client hands to its
    server for a WireGuard peer carries the data as it was, and the server's own check of
    the frame gives the route back: from the client to the peer; or, for a packet of a
    subnet behind the client, from a source the client may speak for.  The first is sent
    this way only when no direct tunnel took it. *)
Theorem relay_accepted_by_server wg subnets ext direct c na n gw k data d p :
  (HEAD_LENGTH ≤ k)%nat → bytes_ok data → joined na n gw → is_wireguard_client (na_ip na) c = false →
  ipv4_outbound wg subnets ext direct c na (zeroed k) data = Ret (Some (OutServer d p)) →
  is_wireguard_client d c = true ∧ Packet.payload p = data ∧
  (Bridge.validate_vnt_relay p (na_ip na) n gw = Ok (mkIpv4Route (na_ip na) d) ∧
     match direct with Some send => send d data = false | None => True end ∨
   ∃ s, Bridge.validate_vnt_subnet_relay p (na_ip na) n gw = Ok (mkIpv4Route s d) ∧
     wg = true ∧ subnet_allowed subnets s = true).
Proof.
  intros Hk Hb Hj Hself. destruct (NetAgree.joined_network _ _ _ Hj) as (n' & Hn & Hsame). rewrite <- (jo_gateway _ _ _ Hj).
  setoid_rewrite <- Hsame. assert (is_u 32 (na_ip na)) as Hu by (eapply DirectFacts.contains_range32, ho_contains, Hj).
  clear Hj Hsame n. rename n' into n. unfold ipv4_outbound. destruct (ipv4_new data); [|done]. cbn [negb]. cbv zeta. rewrite Hn.
  set (dest := ipv4_get_destination data).
  destruct (net_contains n dest && is_wireguard_client dest c) eqn:Hd.
  2: { destruct (with_header _ _); [|done]. cbn [mbind option_bind]. by destruct (if negb _ then _ else _). }
  apply andb_true_iff in Hd as [Hc Hw]. assert (dest ≠ na_ip na) as Hne by (intros E; congruence).
  pose proof (DirectFacts.contains_range32 _ _ Hc) as Hud.
  destruct (wireguard_type _ _ _ _ _) as [[m|]|] eqn:Ht; [|done..]. destruct (_ && _) eqn:Hdir; [done|].
  destruct (FrameFacts.client_frame k m (na_ip na) dest data Hk Hb Hu Hud) as (p0 & q & -> & Eq & Hm & Hl & Hs & Hds & Hcm & Hg & Hp).
  cbn [mbind option_bind]. intros [= <- <-]. rewrite <- Eq. split; [done|]. split; [done|].
  unfold wireguard_type in Ht. destruct (_ =? _).
  - left. destruct (ClientBridge.validate_inner_ipv4 _ _ _ _) as [[route|]|] eqn:Ev; try done. injection Ht as <-.
    apply DirectFacts.accepted_inner in Ev as (n' & Hn' & _ & Hv & _). rewrite Hn in Hn'. injection Hn' as <-.
    split; [by eapply FrameFacts.unicast_frame|]. rewrite bool_decide_eq_true_2 in Hdir by done. by destruct direct.
  - right. destruct (ClientBridge.validate_subnet_reply_inner_ipv4 _ _ _) as [[route|]|] eqn:Ev; try done.
    destruct wg; [|done]. destruct (subnet_allowed _ _) eqn:Ha; [|done]. cbn in Ht. injection Ht as <-.
    destruct (FrameFacts.subnet_frame q (na_ip na) dest na n data route Hm Hl Hs Hds Hcm Hg Hp Hne Hn Ev) as [Hv Hdst].
    exists (source route). destruct route as [s d']. cbn in *. by subst d'.
Qed.


(** Every event of the tunnels' task is dealt with.  With a valid network, and a
    generator that some day draws a free index, there is an amount of fuel from which on
    each event ends with the same result, and none panics. *)
Theorem direct_event_terminates {BL : BoringtunLaws B} o e t (b : B) n k :
  ClientBridge.network (network_addr t) = Ret n → receiver_indices t !! rd_rng o k = None →
  ∃ m r st', ∀ fuel, (m ≤ fuel)%nat → handle_direct_event fuel o e (t, b) = Finished (r, st').
Proof.
  intros Hn Hk. destruct (TunnelTotal.halts_event n o e (t, b) k Hn Hk) as (m & r & st' & H & _). eauto.
Qed.

Context {PU : PnetUdpLib} {PY : PnetLayout}.
Context {CL : ProstCodec proto.ClientSimpleInfoList} {RPS : ProstCodec RpcMessageResponse} {PC : P2pCodec} {PCL : P2pCodecLaws}.
Context {W : Type} {MV : Mpsc W bytes} {MVL : MpscLaws W bytes} {MW : Mpsc W WireGuardBridgePacket}.

End Theorems.

(** ** Witnesses *)

Module TunnelWitness.
Import Model LeaseWitness NetWitness HandlerWitness TunnelModel P2pModel P2pWitness.
#[local] Existing Instance NetWitness.MV.
#[local] Existing Instance NetWitness.MW.
#[local] Existing Instance NetWitness.MVL.
#[local] Instance list_codec : ProstCodec proto.ClientSimpleInfoList := null_codec _.
#[local] Instance rpc_codec : ProstCodec RpcMessageResponse := null_codec _.

(** A handshake that carries the initiator's key in the clear. *)
#[local] Instance plain_client : BoringtunClient unit := {|
  tunn_new_own := λ _ key index w, (mkPlainTunn key index false [], w);
  format_handshake_initiation := λ t _ w, (WriteToNetwork (1 :: pt_peer t), t, w)
|}.

(** The client at 10.26.0.3, and the WireGuard peer at 10.26.0.9 whose agent asks for it. *)
Definition na3 : NetworkAddr := mkNetworkAddr gw (host 255) (host 3) 24.
Definition peer_key : bytes := replicate 32 7.
Definition endpoint9 : SocketAddr := SockV4 (ipv4 5 6 7 8) 4000.
Definition reads (wall : Z) : Readings :=
  mkReadings wall wall (λ i, Z.of_nat (min i 5)) (λ _ _, true).
Definition t0 : Tunnels := start_tunnels [1] [2] tt na3.

Lemma host_3 : net_host net24 gw (host 3).
Proof. split; try (vm_compute; reflexivity); vm_compute; discriminate. Qed.
Lemma host_9 : net_host net24 gw (host 9).
Proof. split; try (vm_compute; reflexivity); vm_compute; discriminate. Qed.
Lemma joined_3 : joined na3 net24 gw.
Proof. split; [vm_compute; reflexivity|exact host_3|reflexivity]. Qed.


(** The tunnel is opened by an offer and by the peer's handshake. *)
Definition next (wall : Z) (e : DirectEvent) (t : Tunnels) : Tunnels :=
  match handle_direct_event 9 (reads wall) e (t, tt) with Finished (_, (t, _)) => t | _ => t end.
Definition offer9 : P2pControlMessage :=
  mkP2pControl (Some (POffer (mkP2pOffer 1 65000 (host 9) peer_key "5.6.7.8:4000"))).
Definition t1 : Tunnels := next 6000000000 (DvControl offer9) t0.
Definition t2 : Tunnels := next 7000000000 (DvDatagram (1 :: peer_key) endpoint9) t1.

(** A datagram from the peer to the client, and one back. *)
Definition udp_in : bytes :=
  [69; 0; 0; 24; 0; 0; 0; 0; 64; 17; 0; 0; 10; 26; 0; 9; 10; 26; 0; 3; 1; 2; 3; 4].
Definition udp_out : bytes :=
  [69; 0; 0; 24; 0; 0; 0; 0; 64; 17; 0; 0; 10; 26; 0; 3; 10; 26; 0; 9; 5; 6; 7; 8].
Definition data_event : DirectEvent := DvDatagram (4 :: [0; 0; 0; 0] ++ udp_in) endpoint9.
Definition t3 : Tunnels := next 8000000000 data_event t2.

Lemma reads_range wall i : 0 ≤ rd_rng (reads wall) i ≤ MAX_RECEIVER_INDEX.
Proof. cbn. unfold MAX_RECEIVER_INDEX. lia. Qed.

Lemma direct_tunnels_consistent_witness :
  (∃ p, direct_peers t3 !! host 9 = Some p) ∧ tunnels_ok t3.
Proof.
  split; [eexists; vm_compute; reflexivity|].
  apply (direct_tunnels_consistent (BT := plain_tunnel) [1] [2] tt na3). eapply rtc_l; [|eapply rtc_l; [|eapply rtc_l; [|apply rtc_refl]]].
  - apply (ds_event 9 (reads 6000000000) (DvControl offer9) _ tt None t1 tt); [apply reads_range|vm_compute; reflexivity].
  - apply (ds_event 9 (reads 7000000000) (DvDatagram (1 :: peer_key) endpoint9) _ tt None t2 tt);
      [apply reads_range|vm_compute; reflexivity].
  - apply (ds_event 9 (reads 8000000000) data_event _ tt None t3 tt); [apply reads_range|vm_compute; reflexivity].
Defined.

Lemma direct_ingress_confined_witness :
  ClientTunnel.delivered t3 ≠ ClientTunnel.delivered t2 ∧ ∃ packet src, direct_delivery packet src t2 t3.
Proof.
  assert (ClientTunnel.delivered t3 ≠ ClientTunnel.delivered t2) as Hne by (vm_compute; discriminate). split; [exact Hne|].
  destruct (direct_ingress_confined 9 (reads 8000000000) data_event t2 tt None t3 tt) as [H|(packet & src & _ & H)];
    [vm_compute; reflexivity|by destruct Hne|by exists packet, src].
Defined.

Lemma direct_send_spec_witness :
  ∃ t' peer, send_inner (reads 9000000000) (host 9) udp_out (t2, tt) = Finished (true, (t', tt)) ∧
    direct_peers t2 !! host 9 = Some peer ∧ 9000 < dp_expires_at_unix_ms peer.
Proof.
  set (x := send_inner (reads 9000000000) (host 9) udp_out (t2, tt)).
  set (t' := match x with Finished (_, (t, _)) => t | _ => t0 end).
  assert (x = Finished (true, (t', tt))) as Hx by (vm_compute; reflexivity). exists t'.
  destruct (direct_send_spec (reads 9000000000) (host 9) udp_out t2 tt true t' tt Hx) as [(peer & last & H1 & H2 & _)|[H _]];
    [|discriminate H]. exists peer. split; [exact Hx|]. split; [exact H1|exact H2].
Defined.

(** The client's list: the peer at 10.26.0.9 is a WireGuard client of server 0. *)
Definition known9 : ServerInfoCollection := mkCollection []
  {[ 0 := mkServerNodeInfo 0 default_address true (Some 10) 1
            {[ host 9 := mkClientEntry (host 9) "" true Wireguard ]} None None None ]}.

Lemma relay_accepted_by_server_witness :
  ∃ p, ipv4_outbound false [] [] None known9 na3 (zeroed 16) udp_out = Ret (Some (OutServer (host 9) p)) ∧
    Packet.payload p = udp_out.
Proof.
  set (x := ipv4_outbound false [] [] None known9 na3 (zeroed 16) udp_out).
  set (p := match x with Ret (Some (OutServer _ p)) => p | _ => mkNetPacket [] end).
  assert (x = Ret (Some (OutServer (host 9) p))) as Hx by (vm_compute; reflexivity). exists p. split; [exact Hx|].
  refine (proj1 (proj2 (relay_accepted_by_server false [] [] None known9 na3 net24 gw 16 udp_out (host 9) p _ _ joined_3 _ Hx))).
  - apply Nat.leb_le. vm_compute. reflexivity.
  - apply (bool_decide_eq_true_1 _). vm_compute. reflexivity.
  - vm_compute. reflexivity.
Defined.


Lemma direct_event_terminates_witness :
  ∃ m r st', ∀ fuel, (m ≤ fuel)%nat →
    handle_direct_event fuel (reads 8000000000) data_event (t2, tt) = Finished (r, st').
Proof.
  destruct (NetAgree.joined_network na3 net24 gw joined_3) as (n & Hn & _).
  apply (direct_event_terminates (reads 8000000000) data_event t2 tt n 5); [exact Hn|vm_compute; reflexivity].
Defined.
End TunnelWitness.
