(* ===== verification/Fec.v ===== *)
(** Forward error correction between clients: [fec/encoder.rs] and [fec/decoder.rs] of
    [VntcApp1.0/vendor/vnt-core-2.0.0/src].

    The encoder numbers the packets for a destination in groups of at most ten and sends
    parity packets for each group; the decoder passes the packets on as they come and
    rebuilds lost ones from the parity.  The Reed-Solomon code is a parameter. *)

From S2P Require Import Prelude Libs Std Packet Bridge ControlMessage NetState Db Tunnel P2p Agent Handler ClientView Runtime ClientTunnel.
From stdpp Require Import base gmap sorting list.
From Stdlib Require Import ZArith Lia.

Local Open Scope Z_scope.

(** [fec.proto]. *)
Record ParityData := mkParityData { pd_data_shards : Z; pd_parity_shards : Z }.
Record FecPacket := mkFecPacket {
  fp_group_id : Z; fp_packet_index : Z; fp_payload : bytes; fp_parity_data : option ParityData }.

(** [reed_solomon_erasure::galois_8::ReedSolomon] for [d] data and [p] parity shards:
    [new] succeeds, [encode] gives the parity shards, [reconstruct] all of them. *)
Class ReedSolomon := {
  rs_new : nat → nat → bool;
  rs_encode : nat → nat → list bytes → list bytes;
  rs_reconstruct : nat → nat → list (option bytes) → option (list bytes)
}.

(** The code corrects erasures: parity shards have the size of the data, and whenever at
    least [d] shards of the encoding are there, all come back. *)
Class ReedSolomonLaws `{!ReedSolomon} (d p : nat) : Prop := {
  rs_new_ok : rs_new d p = true;
  rs_encode_shape data n : length data = d → (∀ s, s ∈ data → length s = n) →
    length (rs_encode d p data) = p ∧ ∀ s, s ∈ rs_encode d p data → length s = n;
  rs_recovers data n shards : length data = d → (0 < n)%nat → (∀ s, s ∈ data → length s = n) →
    length shards = (d + p)%nat →
    (∀ i s, shards !! i = Some (Some s) → (data ++ rs_encode d p data) !! i = Some s) →
    (d ≤ length (filter is_Some shards))%nat →
    rs_reconstruct d p shards = Some (data ++ rs_encode d p data)
}.

Definition BATCH_SIZE : nat := 10.
Definition BATCH_TIMEOUT : Z := 20000000.
Definition MIN_PARITY : nat := 1.
Definition GROUP_TIMEOUT : Z := 3 * nanos.
Definition MAX_GROUPS : nat := 1000.
Definition MAX_NUM : Z := 50.

(** ** The encoder *)

Record DestBatchState := mkDestBatch {
  db_group_id : Z; db_current_batch : list bytes; db_deadline : Z; db_src_ip : Ipv4Addr }.

(** What goes to the worker: source, destination, group and shards. *)
Record Batch := mkBatch { ba_src : Ipv4Addr; ba_dest : Ipv4Addr; ba_group : Z; ba_items : list bytes }.

Section Fec.
Context {U32 : NetU32Lib} {FC : ProstCodec FecPacket} {RS : ReedSolomon}.

Definition set_fec_flag (v : bool) : NetPacket → NetPacket := Packet.header_mut (Header.set_flag FEC v).

(** [TransmissionBytes::resize]. *)
Definition resize (n : nat) (b : bytes) : bytes := take n b ++ zeroed (n - length b).

(** A shard: [type_byte, flags_byte, payload_len(u16), payload...]. *)
Definition shard_of (h : NetHeader) (payload : bytes) : bytes :=
  [type_byte h; flags_byte h] ++ to_be_bytes 2 (Z.of_nat (length payload)) ++ payload.

(** The part of [encode] under the lock: the group and the index of the packet, and the
    batch if it is full; [None] for a batch the worker's channel does not take. *)
Definition add_shard (now : Z) (accepts : bool) (src dest : Ipv4Addr) (shard : bytes)
    (states : gmap Ipv4Addr DestBatchState) : Z * nat * option Batch * gmap Ipv4Addr DestBatchState :=
  let state := default (mkDestBatch 0 [] (now + BATCH_TIMEOUT) src) (states !! dest) in
  let group_id := db_group_id state in
  let packet_index := length (db_current_batch state) in
  let batch := db_current_batch state ++ [shard] in
  if (BATCH_SIZE <=? length batch)%nat then
    (group_id, packet_index, (if accepts then Some (mkBatch src dest group_id batch) else None),
     <[dest := mkDestBatch (u64_add group_id 1) [] (now + BATCH_TIMEOUT) (db_src_ip state)]> states)
  else
    (group_id, packet_index, None,
     <[dest := mkDestBatch group_id batch (db_deadline state) (db_src_ip state)]> states).

Definition encode (now : Z) (accepts : bool) (p : NetPacket) (states : gmap Ipv4Addr DestBatchState)
    : option NetPacket * option Batch * gmap Ipv4Addr DestBatchState :=
  let payload := Packet.payload p in
  if 65535 <? Z.of_nat (length payload) then (None, None, states)
  else
    let '(group_id, packet_index, batch, states) :=
      add_shard now accepts (Packet.src_id p) (Packet.dest_id p) (shard_of (Packet.header p) payload) states in
    let fec_payload := prost_encode (mkFecPacket group_id (Z.of_nat packet_index) payload None) in
    let p := mkNetPacket (resize (HEAD_LENGTH + length fec_payload) (buffer p)) in
    (match Packet.set_payload fec_payload p with
     | Ok p => Some (set_fec_flag true p)
     | Err _ => None
     end, batch, states).

(** The batches the worker's timer takes. *)
Definition timed_out (now : Z) (s : DestBatchState) : bool :=
  negb (is_nil (db_current_batch s)) && (db_deadline s <=? now).
Definition timeout_batches (now : Z) (states : gmap Ipv4Addr DestBatchState)
    : list Batch * gmap Ipv4Addr DestBatchState :=
  (omap (λ '(dest, s), if timed_out now s
           then Some (mkBatch (db_src_ip s) dest (db_group_id s) (db_current_batch s)) else None)
     (map_to_list states),
   (λ s, if timed_out now s
         then mkDestBatch (u64_add (db_group_id s) 1) [] (now + BATCH_TIMEOUT) (db_src_ip s) else s) <$> states).

(** [(n as f32 * 0.2).ceil()]: for the ten shards of a batch at most, the rounded product
    is exact at five and ten, so this is the quotient by five rounded up. *)
Definition parity_count (data_shards : nat) : nat := Nat.max ((data_shards + 4) / 5) MIN_PARITY.

Definition max_len (items : list bytes) : nat := foldr (λ b n, Nat.max (length b) n) 0%nat items.

(** [buf.extend_end(padding)] of every shard. *)
Definition padded (items : list bytes) : list bytes :=
  (λ b, b ++ zeroed (max_len items - length b)) <$> items.

Definition parity_packet (b : Batch) (data_shards parity_shards i : nat) (parity : bytes) : option NetPacket :=
  let fec_payload := prost_encode (mkFecPacket (ba_group b) (Z.of_nat (data_shards + i)) parity
                       (Some (mkParityData (Z.of_nat data_shards) (Z.of_nat parity_shards)))) in
  match Packet.new (zeroed (HEAD_LENGTH + length fec_payload)) with
  | Err _ => None
  | Ok p =>
      let p := Packet.set_msg_type Turn p in
      let p := Packet.set_src_id (ba_src b) p in
      let p := Packet.set_dest_id (ba_dest b) p in
      let p := Packet.set_ttl 5 p in
      match Packet.set_payload fec_payload p with Ok p => Some (set_fec_flag true p) | Err _ => None end
  end.

(** [encode_and_send_parity]: the packets handed to [send_encrypted_packet]; [None] for
    an error of the code. *)
Definition encode_and_send_parity (b : Batch) : option (list NetPacket) :=
  let items := ba_items b in
  let data_shards := length items in
  let parity_shards := parity_count data_shards in
  if is_nil items || (max_len items =? 0)%nat then Some []
  else if negb (rs_new data_shards parity_shards) then None
  else mapM (λ '(i, parity), parity_packet b data_shards parity_shards i parity)
         (imap pair (rs_encode data_shards parity_shards (padded items))).

(** ** The decoder *)

Record FecGroup := mkFecGroup {
  fg_data_shards : nat; fg_parity_shards : nat; fg_received_original_count : nat;
  fg_received_shards : list (option bytes); fg_last_update : Z }.

Record FecDecoder := mkFecDecoder { groups : gmap (Ipv4Addr * Z) FecGroup; last_cleanup : Z }.

Definition is_done (g : FecGroup) : bool :=
  negb (fg_data_shards g =? 0)%nat && (fg_received_original_count g =? fg_data_shards g)%nat.
Definition done_group (g : FecGroup) : FecGroup :=
  mkFecGroup (fg_data_shards g) (fg_parity_shards g) (fg_data_shards g) [] (fg_last_update g).

(** [Vec::resize(n, None)] of a vector that is not longer. *)
Definition grow (n : nat) (l : list (option bytes)) : list (option bytes) := l ++ replicate (n - length l) None.

(** A parity packet; [None]: it contradicts its group. *)
Definition accept_parity (index : nat) (pd : ParityData) (payload : bytes) (g : FecGroup) : option FecGroup :=
  let d := pd_data_shards pd in
  let p := pd_parity_shards pd in
  if (MAX_NUM <? d) || (MAX_NUM <? p) || (d + p <=? Z.of_nat index)
     || (negb (fg_data_shards g =? 0)%nat && negb (Z.of_nat (fg_data_shards g) =? d))
     || (negb (fg_parity_shards g =? 0)%nat && negb (Z.of_nat (fg_parity_shards g) =? p))
  then None
  else Some (mkFecGroup (Z.to_nat d) (Z.to_nat p) (fg_received_original_count g)
         (<[index := Some payload]> (grow (Z.to_nat (d + p)) (fg_received_shards g))) (fg_last_update g)).

(** A packet of the group: passed on, and kept as a shard. *)
Definition accept_data (index : nat) (h : NetHeader) (payload : bytes) (g : FecGroup) : FecGroup :=
  mkFecGroup (fg_data_shards g) (fg_parity_shards g) (S (fg_received_original_count g))
    (<[index := Some (shard_of h payload)]> (grow (S index) (fg_received_shards g))) (fg_last_update g).

(** The packet as it was before [encode]: its header with the flag cleared. *)
Definition original (p : NetPacket) (payload : bytes) : option NetPacket :=
  let b := write_at 0 (take HEAD_LENGTH (buffer p)) (zeroed (HEAD_LENGTH + length payload)) in
  match Packet.set_payload payload (set_fec_flag false (mkNetPacket b)) with Ok p => Some p | Err _ => None end.

(** Writes of the header's bytes 0 and 2. *)
Definition with_type_flags (t f : Z) (h : NetHeader) : NetHeader :=
  mkNetHeader t (ttl_byte h) f (reserved h) (h_seq h) (h_src_id h) (h_dest_id h).

Definition rebuild_net_packet (current : NetPacket) (shard : bytes) : option NetPacket :=
  match shard with
  | t :: f :: l1 :: l2 :: rest =>
      let payload_len := Z.to_nat (from_be_bytes [l1; l2]) in
      if (length shard <? payload_len + 4)%nat then None
      else
        let payload := take payload_len rest in
        match Packet.new (zeroed (HEAD_LENGTH + length payload)) with
        | Err _ => None
        | Ok p =>
            let p := Packet.header_mut (with_type_flags t f) p in
            let p := Packet.set_src_id (Packet.src_id current) p in
            let p := Packet.set_dest_id (Packet.dest_id current) p in
            let p := Packet.set_ttl (Packet.ttl current) p in
            let p := set_fec_flag false p in
            match Packet.set_payload payload p with Ok p => Some p | Err _ => None end
        end
  | _ => None
  end.

(** [decode_with_rs]: the rebuilt packets, or [None] for an error, and the group. *)
Definition decode_with_rs (g : FecGroup) (p : NetPacket) : option (list NetPacket) * FecGroup :=
  let d := fg_data_shards g in
  if negb (length (fg_received_shards g) =? d + fg_parity_shards g)%nat then (None, g)
  else if negb (rs_new d (fg_parity_shards g)) then (None, g)
  else match rs_reconstruct d (fg_parity_shards g) (fg_received_shards g) with
  | None => (None, g)
  | Some shards =>
      let missing := omap (λ x : option bytes * bytes, if is_some x.1 then None else Some x.2)
                       (take d (zip (fg_received_shards g) shards)) in
      match mapM (rebuild_net_packet p) missing with
      | None => (None, mkFecGroup d (fg_parity_shards g) (fg_received_original_count g)
                         (Some <$> shards) (fg_last_update g))
      | Some l => (Some l, done_group g)
      end
  end.

(** [try_decode]; [Some None]: not enough shards. *)
Definition try_decode (g : FecGroup) (p : NetPacket) : option (option (list NetPacket)) * FecGroup :=
  if (fg_data_shards g =? 0)%nat then (Some None, g)
  else if (fg_received_original_count g =? fg_data_shards g)%nat then (Some None, g)
  else if (length (filter is_Some (fg_received_shards g)) <? fg_data_shards g)%nat then (Some None, g)
  else let '(r, g) := decode_with_rs g p in (Some <$> r, g).

Definition older (a b : (Ipv4Addr * Z) * Z) : Prop := a.2 ≤ b.2.
#[local] Instance older_dec a b : Decision (older a b).
Proof. unfold older. apply _. Defined.

Definition cleanup_old_groups (now : Z) (gs : gmap (Ipv4Addr * Z) FecGroup) : gmap (Ipv4Addr * Z) FecGroup :=
  let gs := filter (λ x, now - fg_last_update x.2 < GROUP_TIMEOUT) gs in
  if (MAX_GROUPS <? size gs)%nat then
    let ids := merge_sort older ((λ x : (Ipv4Addr * Z) * FecGroup, (x.1, fg_last_update x.2)) <$> map_to_list gs) in
    fold_left (λ m k, delete k m) (take (length ids - MAX_GROUPS) ids).*1 gs
  else gs.

Definition maybe_cleanup (now : Z) (dec : FecDecoder) : FecDecoder :=
  if nanos <? now - last_cleanup dec then mkFecDecoder (cleanup_old_groups now (groups dec)) now else dec.

Definition touch (now : Z) (g : FecGroup) : FecGroup :=
  mkFecGroup (fg_data_shards g) (fg_parity_shards g) (fg_received_original_count g) (fg_received_shards g) now.

(** The end of [receive], after the packet has been entered in its group. *)
Definition finish (now : Z) (key : Ipv4Addr * Z) (p : NetPacket) (packet : option NetPacket) (g : FecGroup)
    (dec : FecDecoder) : option (option (list NetPacket)) * FecDecoder :=
  let put g := mkFecDecoder (<[key := g]> (groups dec)) (last_cleanup dec) in
  let g := touch now g in
  if is_done g then (Some ((λ v, [v]) <$> packet), maybe_cleanup now (put (done_group g)))
  else match try_decode g p with
  | (None, g) => (None, put g)
  | (Some result, g) =>
      (Some match packet, result with
            | Some packet, Some result => Some (result ++ [packet])
            | Some packet, None => Some [packet]
            | None, result => result
            end, maybe_cleanup now (put g))
  end.

(** [receive]; [None] is an error, [Some None] nothing to pass on. *)
Definition receive (now : Z) (p : NetPacket) (dec : FecDecoder) : option (option (list NetPacket)) * FecDecoder :=
  match prost_decode (Packet.payload p) with
  | None => (None, dec)
  | Some f =>
      if MAX_NUM <? fp_packet_index f then (None, dec)
      else
        let key := (Packet.src_id p, fp_group_id f) in
        let index := Z.to_nat (fp_packet_index f) in
        let g := default (mkFecGroup 0 0 0 [] now) (groups dec !! key) in
        let dec0 := mkFecDecoder (<[key := g]> (groups dec)) (last_cleanup dec) in
        if is_done g then (Some None, dec0)
        else if match fg_received_shards g !! index with Some (Some _) => true | _ => false end
        then (Some None, dec0)
        else match fp_parity_data f with
        | Some pd =>
            match accept_parity index pd (fp_payload f) g with
            | None => (None, dec0)
            | Some g => finish now key p None g dec
            end
        | None =>
            match original p (fp_payload f) with
            | None => (None, dec0)
            | Some packet =>
                finish now key p (Some packet) (accept_data index (Packet.header p) (fp_payload f) g) dec
            end
        end
  end.
End Fec.

(** The messages as encoders see them; an encoder writes bytes. *)
Class FecCodecLaws `{!ProstCodec FecPacket} : Prop := {
  fec_packet_laws :: ProstLaws FecPacket;
  fec_packet_bytes (m : FecPacket) : bytes_ok (prost_encode m)
}.

(** ** Lemmas *)

Module FecFacts.
Section Facts.
Context {U32 : NetU32Lib} {U32L : NetU32Laws} {FC : ProstCodec FecPacket} {FL : FecCodecLaws} {RS : ReedSolomon}.

(** A packet is its header and its payload. *)
Lemma packet_eq p q : packet_ok p → packet_ok q → Packet.header p = Packet.header q →
  Packet.payload p = Packet.payload q → p = q.
Proof.
  intros [Hp _] [Hq _] Hh Hl. destruct p as [b], q as [b']. f_equal. cbn [buffer] in *.
  rewrite <- (take_drop HEAD_LENGTH b), <- (take_drop HEAD_LENGTH b'). f_equal; [|exact Hl].
  rewrite <- !PacketFacts.encode_decode_header by done. f_equal. exact Hh.
Qed.

(** The flag is set and cleared without a trace. *)
Lemma bit_cleared f : is_u 8 f → Z.land f FEC = 0 → Z.land f 223 = f ∧ Z.land (Z.lor f FEC) 223 = f.
Proof.
  intros Hu Hz. assert (Z.land f 223 = f) as Hf.
  { assert (Z.land f (Z.lor 223 FEC) = f) as H.
    { change (Z.lor 223 FEC) with (Z.ones 8). rewrite Z.land_ones by lia. by apply Z.mod_small. }
    by rewrite Z.land_lor_distr_r, Hz, Z.lor_0_r in H. }
  split; [done|]. by rewrite Z.land_lor_distr_l, Hf, Z.lor_0_r.
Qed.

Lemma flag_cleared h : is_u 8 (flags_byte h) → Z.land (flags_byte h) FEC = 0 →
  Header.set_flag FEC false (Header.set_flag FEC true h) = h ∧ Header.set_flag FEC false h = h.
Proof.
  intros Hu Hz. destruct (bit_cleared _ Hu Hz) as [E1 E2]. destruct h as [t l f v s a d].
  unfold Header.set_flag. cbn [type_byte ttl_byte flags_byte reserved h_seq h_src_id h_dest_id] in *.
  change (255 - FEC) with 223. by rewrite E1, E2.
Qed.

Lemma fec_flag_ok v h : header_ok h → header_ok (Header.set_flag FEC v h).
Proof. apply PacketFacts.set_flag_ok. unfold is_u, FEC. lia. Qed.

Lemma length_resize n b : length (resize n b) = n.
Proof. unfold resize. rewrite length_app, length_take. unfold zeroed. rewrite length_replicate. lia. Qed.

Lemma exact_payload x q : packet_ok q → bytes_ok x → length (buffer q) = (HEAD_LENGTH + length x)%nat →
  ∃ r, Packet.set_payload x q = Ok r ∧ packet_ok r ∧ Packet.header r = Packet.header q ∧ Packet.payload r = x.
Proof.
  intros Hq Hx Hl. destruct (TunnelFacts.set_payload_exact x q Hq Hl) as (r & Hr & Hh & Hp).
  destruct (PacketFacts.set_payload_ok x q Hq Hx ltac:(lia)) as (r' & Hr' & Hok & _). rewrite Hr in Hr'.
  injection Hr' as <-. by exists r.
Qed.

(** A packet whose payload is replaced by one of any length. *)
Lemma replaced p x : packet_ok p → bytes_ok x → ∃ q,
  Packet.set_payload x (mkNetPacket (resize (HEAD_LENGTH + length x) (buffer p))) = Ok q ∧ packet_ok q ∧
  Packet.header q = Packet.header p ∧ Packet.payload q = x.
Proof.
  intros [Hl Hb] Hx. set (r := mkNetPacket _).
  assert (length (buffer r) = (HEAD_LENGTH + length x)%nat) as Lr by apply length_resize.
  assert (packet_ok r) as Hr.
  { split; [lia|]. apply Forall_app. split; [by apply Forall_take|apply zeroed_ok]. }
  destruct (exact_payload x r Hr Hx Lr) as (q & Hq & Hok & Hh & Hp).
  exists q. split; [done|]. split; [done|]. split; [|done]. rewrite Hh. unfold Packet.header, r. cbn [buffer].
  rewrite <- (PacketFacts.decode_header_take (resize _ _)), <- (PacketFacts.decode_header_take (buffer p)). f_equal.
  unfold resize. change 16%nat with HEAD_LENGTH. rewrite take_app_le by (rewrite length_take; lia).
  by rewrite take_take.
Qed.

(** The frame [encode] makes of a packet. *)
Lemma fec_frame p x : packet_ok p → bytes_ok x → ∃ q,
  match Packet.set_payload x (mkNetPacket (resize (HEAD_LENGTH + length x) (buffer p))) with
  | Ok p => Some (set_fec_flag true p)
  | Err _ => None
  end = Some q ∧ packet_ok q ∧ Packet.header q = Header.set_flag FEC true (Packet.header p) ∧ Packet.payload q = x.
Proof.
  intros Hp Hx. destruct (replaced p x Hp Hx) as (r & -> & Hr & Hh & Hl).
  destruct (PacketFacts.setter_effect (Header.set_flag FEC true) r Hr (fec_flag_ok true _)) as (H1 & E1 & P1 & _).
  exists (set_fec_flag true r). split; [done|]. split; [exact H1|]. unfold set_fec_flag. by rewrite E1, P1, Hh.
Qed.

(** [receive] undoes it. *)
Lemma original_spec p q : packet_ok p → packet_ok q → is_fec p = false →
  Packet.header q = Header.set_flag FEC true (Packet.header p) → original q (Packet.payload p) = Some p.
Proof.
  intros Hp Hq Hf Hh. unfold original. set (x := Packet.payload p). set (b := write_at 0 _ _).
  assert (length (take HEAD_LENGTH (buffer q)) = HEAD_LENGTH) as Lt by (rewrite length_take; destruct Hq; lia).
  assert (length (zeroed (HEAD_LENGTH + length x)) = (HEAD_LENGTH + length x)%nat) as Lz by apply length_replicate.
  assert (length b = (HEAD_LENGTH + length x)%nat) as Lb by (unfold b; rewrite length_write_at; rewrite ?Lt, ?Lz; lia).
  assert (packet_ok (mkNetPacket b)) as Hb.
  { split; [cbn [buffer]; lia|]. apply write_at_ok; [apply Forall_take, Hq|apply zeroed_ok]. }
  assert (Packet.header (mkNetPacket b) = Packet.header q) as Eb.
  { unfold Packet.header. cbn [buffer]. rewrite <- (PacketFacts.decode_header_take b), <- (PacketFacts.decode_header_take (buffer q)).
    f_equal. unfold b, write_at. change 16%nat with HEAD_LENGTH. rewrite take_0, app_nil_l.
    by apply take_app_length'. }
  destruct (PacketFacts.setter_effect (Header.set_flag FEC false) _ Hb (fec_flag_ok false _)) as (H1 & E1 & _ & L1).
  cbn [buffer] in L1. unfold set_fec_flag.
  destruct (exact_payload x _ H1 ltac:(apply Forall_drop, Hp) ltac:(lia)) as (r & -> & Hr & Er & Pr). f_equal.
  apply packet_eq; try done. rewrite Er, E1, Eb, Hh. apply flag_cleared; [by apply PacketFacts.header_ok_of|].
  unfold is_fec in Hf. by apply negb_false_iff, Z.eqb_eq in Hf.
Qed.

(** *** The encoder *)

(** The group and the index the next packet for [dest] gets. *)
Definition next_group (dest : Ipv4Addr) (states : gmap Ipv4Addr DestBatchState) : Z :=
  match states !! dest with Some s => db_group_id s | None => 0 end.
Definition next_index (dest : Ipv4Addr) (states : gmap Ipv4Addr DestBatchState) : nat :=
  match states !! dest with Some s => length (db_current_batch s) | None => 0 end.

Lemma encode_spec now accepts p states : packet_ok p → Z.of_nat (length (Packet.payload p)) ≤ 65535 →
  ∃ q b states', encode now accepts p states = (Some q, b, states') ∧ packet_ok q ∧
    Packet.header q = Header.set_flag FEC true (Packet.header p) ∧
    Packet.payload q = prost_encode (mkFecPacket (next_group (Packet.dest_id p) states)
      (Z.of_nat (next_index (Packet.dest_id p) states)) (Packet.payload p) None).
Proof.
  intros Hp Hl. unfold encode. rewrite (proj2 (Z.ltb_ge _ _)) by done.
  assert (∃ b states', add_shard now accepts (Packet.src_id p) (Packet.dest_id p)
    (shard_of (Packet.header p) (Packet.payload p)) states =
    (next_group (Packet.dest_id p) states, next_index (Packet.dest_id p) states, b, states')) as (b & states' & ->).
  { unfold add_shard, next_group, next_index. destruct (states !! Packet.dest_id p); cbn [default db_group_id db_current_batch];
      destruct (BATCH_SIZE <=? _)%nat; by eexists _, _. }
  set (x := prost_encode _).
  destruct (fec_frame p x Hp (fec_packet_bytes _)) as (q & -> & Hq & Hh & Hx). by exists q, b, states'.
Qed.

Lemma flag_ids p q v : Packet.header q = Header.set_flag FEC v (Packet.header p) →
  Packet.src_id q = Packet.src_id p ∧ Packet.dest_id q = Packet.dest_id p.
Proof. intros H. unfold Packet.src_id, Packet.dest_id. by rewrite H. Qed.

(** *** The decoder *)

Lemma cleanup_keeps now key g (dec : FecDecoder) :
  groups dec !! key = Some g → fg_last_update g = now → (size (groups dec) ≤ MAX_GROUPS)%nat →
  groups (maybe_cleanup now dec) !! key = Some g.
Proof.
  intros Hg Hu Hs. unfold maybe_cleanup. destruct (_ <? _); [|done]. cbn [groups]. unfold cleanup_old_groups.
  set (gs := filter _ _). assert (gs !! key = Some g) as Hf.
  { apply map_lookup_filter_Some. split; [done|]. cbn. rewrite Hu. unfold GROUP_TIMEOUT, nanos. lia. }
  assert (size gs ≤ size (groups dec))%nat by (apply map_subseteq_size, map_filter_subseteq).
  rewrite (proj2 (Nat.ltb_ge _ _)) by lia. done.
Qed.

Lemma length_grow n l : (n ≤ length (grow n l))%nat.
Proof. unfold grow. rewrite length_app, length_replicate. lia. Qed.

(** *** Recovery *)

(** The header of a rebuilt or a parity packet, written over zeros. *)
Lemma zero_packet n : (HEAD_LENGTH ≤ n)%nat → Packet.new (zeroed n) = Ok (mkNetPacket (zeroed n)) ∧
  packet_ok (mkNetPacket (zeroed n)).
Proof.
  intros Hn. assert (length (zeroed n) = n) as Lz by apply length_replicate. split.
  - unfold Packet.new. by rewrite (proj2 (Nat.ltb_ge _ _)) by lia.
  - split; [cbn [buffer]; lia|apply zeroed_ok].
Qed.

Lemma parity_frame b d n i parity : is_u 32 (ba_src b) → is_u 32 (ba_dest b) → ∃ r,
  parity_packet b d n i parity = Some r ∧ packet_ok r ∧ Packet.src_id r = ba_src b ∧ Packet.dest_id r = ba_dest b ∧
  Packet.ttl r = 5 ∧ Packet.payload r = prost_encode (mkFecPacket (ba_group b) (Z.of_nat (d + i)) parity
    (Some (mkParityData (Z.of_nat d) (Z.of_nat n)))).
Proof.
  intros Hs Hd. unfold parity_packet. set (x := prost_encode _).
  destruct (zero_packet (HEAD_LENGTH + length x) ltac:(lia)) as [-> H0]. set (p0 := mkNetPacket _) in *.
  assert (length (buffer p0) = (HEAD_LENGTH + length x)%nat) as L0 by apply length_replicate.
  destruct (PacketFacts.setter_effect (Header.set_msg_type (MsgType_.into Turn)) _ H0 (PacketFacts.set_msg_type_ok _ _)) as (H1 & E1 & _ & L1).
  destruct (PacketFacts.setter_effect (Header.set_src_id (ba_src b)) _ H1 (PacketFacts.set_src_id_ok _ _ Hs)) as (H2 & E2 & _ & L2).
  destruct (PacketFacts.setter_effect (Header.set_dest_id (ba_dest b)) _ H2 (PacketFacts.set_dest_id_ok _ _ Hd)) as (H3 & E3 & _ & L3).
  destruct (PacketFacts.setter_effect (Header.set_ttl 5 5) _ H3 (PacketFacts.set_ttl_ok _ _ _)) as (H4 & E4 & _ & L4).
  rewrite E3, E2, E1 in E4. rewrite L3, L2, L1, L0 in L4.
  unfold Packet.set_msg_type, Packet.set_src_id, Packet.set_dest_id, Packet.set_ttl.
  set (q := Packet.header_mut (Header.set_ttl 5 5) _) in *. clearbody q.
  destruct (exact_payload x q H4 (fec_packet_bytes _) L4) as (r & -> & Hr & Er & Pr).
  destruct (PacketFacts.setter_effect (Header.set_flag FEC true) r Hr (fec_flag_ok true _)) as (H5 & E5 & P5 & _).
  exists (set_fec_flag true r). split; [done|]. split; [exact H5|]. unfold set_fec_flag. rewrite P5. rewrite Er, E4 in E5.
  destruct (PacketFacts.read_envelope (Packet.header_mut (Header.set_flag FEC true) r) Turn 5 _ _ _ (ba_src b) (ba_dest b)
    ltac:(unfold is_u; lia) Hs Hd E5) as (_ & Ht & _ & Hsi & Hdi). done.
Qed.

(** A shard, padded or not, gives the packet back. *)
Lemma rebuild_spec current p pad :
  packet_ok p → is_fec p = false → Z.of_nat (length (Packet.payload p)) ≤ 65535 → packet_ok current →
  is_u 32 (Packet.src_id current) → is_u 32 (Packet.dest_id current) → ∃ r,
  rebuild_net_packet current (shard_of (Packet.header p) (Packet.payload p) ++ pad) = Some r ∧
  type_byte (Packet.header r) = type_byte (Packet.header p) ∧
  flags_byte (Packet.header r) = flags_byte (Packet.header p) ∧
  Packet.src_id r = Packet.src_id current ∧ Packet.dest_id r = Packet.dest_id current ∧
  Packet.ttl r = Packet.ttl current ∧ Packet.payload r = Packet.payload p.
Proof.
  intros Hp Hf Hl Hc Hs Hd. unfold shard_of. set (x := Packet.payload p) in *.
  pose proof (length_to_be_bytes 2 (Z.of_nat (length x))) as Lb. pose proof (from_to_be_bytes 2 (Z.of_nat (length x))) as Fb.
  destruct (to_be_bytes 2 (Z.of_nat (length x))) as [|l1 [|l2 [|]]]; try done. cbn [app rebuild_net_packet].
  rewrite Z.mod_small in Fb by lia. rewrite Fb, Nat2Z.id. cbn [length]. rewrite (proj2 (Nat.ltb_ge _ _)) by (rewrite length_app; lia).
  rewrite (take_app_length' x) by done.
  assert (bytes_ok x) as Hx by (apply Forall_drop, Hp). pose proof (PacketFacts.header_ok_of p Hp) as Hh.
  destruct (zero_packet (HEAD_LENGTH + length x) ltac:(lia)) as [-> H0]. set (p0 := mkNetPacket _) in *.
  assert (length (buffer p0) = (HEAD_LENGTH + length x)%nat) as L0 by apply length_replicate.
  assert (∀ h, header_ok h → header_ok (with_type_flags (type_byte (Packet.header p)) (flags_byte (Packet.header p)) h)) as Hwt
    by (intros h; unfold header_ok in *; cbn; tauto).
  destruct (PacketFacts.setter_effect _ _ H0 (Hwt _)) as (H1 & E1 & _ & L1).
  destruct (PacketFacts.setter_effect (Header.set_src_id (Packet.src_id current)) _ H1 (PacketFacts.set_src_id_ok _ _ Hs)) as (H2 & E2 & _ & L2).
  destruct (PacketFacts.setter_effect (Header.set_dest_id (Packet.dest_id current)) _ H2 (PacketFacts.set_dest_id_ok _ _ Hd)) as (H3 & E3 & _ & L3).
  destruct (PacketFacts.setter_effect (Header.set_ttl (Packet.ttl current) (Packet.ttl current)) _ H3 (PacketFacts.set_ttl_ok _ _ _)) as (H4 & E4 & _ & L4).
  destruct (PacketFacts.setter_effect (Header.set_flag FEC false) _ H4 (fec_flag_ok false _)) as (H5 & E5 & _ & L5).
  rewrite L4, L3, L2, L1, L0 in L5. unfold Packet.set_src_id, Packet.set_dest_id, Packet.set_ttl, set_fec_flag.
  set (q4 := Packet.header_mut (Header.set_ttl _ _) _) in *. set (q := Packet.header_mut (Header.set_flag FEC false) q4) in *.
  clearbody q. rewrite E3, E2, E1 in E4. clearbody q4.
  destruct (exact_payload x q H5 Hx L5) as (r & -> & _ & Er & Pr). exists r.
  unfold is_fec in Hf. apply negb_false_iff, Z.eqb_eq in Hf.
  assert (Header.set_flag FEC false (Packet.header q4) = Packet.header q4) as E6
    by (apply flag_cleared; rewrite E4; [apply Hh|exact Hf]).
  rewrite E6, E4 in E5. rewrite E5 in Er. pose proof (PacketFacts.ttl_range current Hc) as Ht.
  split; [done|]. unfold Packet.src_id at 1, Packet.dest_id at 1, Packet.ttl at 1. rewrite Er. cbn. rewrite !u32_get_set by done.
  split_and!; try done. unfold Header.curr_ttl. cbn. by apply (PacketFacts.ttl_byte_set (Packet.ttl current) ltac:(unfold is_u; lia)).
Qed.
End Facts.
End FecFacts.

(** ** Theorems *)

Section Theorems.
Context {U32 : NetU32Lib} {U32L : NetU32Laws} {FC : ProstCodec FecPacket} {FL : FecCodecLaws} {RS : ReedSolomon}.

(** C32: error correction does not change what arrives.  A packet the encoder takes, sent
    to a decoder that has no parity of its group and not this packet, comes out as it
    went in, at once and alone; a second copy of it gives nothing. *)
Theorem fec_transparent now now' accepts p states dec :
  packet_ok p → is_fec p = false → Z.of_nat (length (Packet.payload p)) ≤ 65535 →
  let index := FecFacts.next_index (Packet.dest_id p) states in
  let key := (Packet.src_id p, FecFacts.next_group (Packet.dest_id p) states) in
  (index < BATCH_SIZE)%nat → (size (groups dec) < MAX_GROUPS)%nat →
  (∀ g, groups dec !! key = Some g →
     fg_data_shards g = 0%nat ∧ ∀ s, fg_received_shards g !! index ≠ Some (Some s)) →
  ∃ q b states' dec', encode now accepts p states = (Some q, b, states') ∧
    receive now' q dec = (Some (Some [p]), dec') ∧ (receive now' q dec').1 = Some None.
Proof.
  intros Hp Hf Hl index key Hi Hsz Hg.
  destruct (FecFacts.encode_spec now accepts p states Hp Hl) as (q & b & states' & He & Hq & Hh & Hx).
  destruct (FecFacts.flag_ids p q true Hh) as [Es _].
  set (g := default (mkFecGroup 0 0 0 [] now') (groups dec !! key)).
  assert (fg_data_shards g = 0%nat ∧ ∀ s, fg_received_shards g !! index ≠ Some (Some s)) as [Hd Hslot].
  { unfold g. destruct (groups dec !! key) as [g0|] eqn:E; [by apply Hg|]. split; [done|]. intros s. cbn. by rewrite lookup_nil. }
  set (g' := touch now' (accept_data index (Packet.header q) (Packet.payload p) g)).
  set (dec' := maybe_cleanup now' (mkFecDecoder (<[key := g']> (groups dec)) (last_cleanup dec))).
  exists q, b, states', dec'. split; [done|].
  assert (receive now' q dec = (Some (Some [p]), dec')) as Hr.
  { unfold receive. rewrite Hx, prost_decode_encode. cbn [fp_packet_index fp_group_id fp_payload fp_parity_data].
    rewrite Nat2Z.id, Es. fold index key g. unfold MAX_NUM, BATCH_SIZE in *. rewrite (proj2 (Z.ltb_ge _ _)) by lia.
    unfold is_done at 1. rewrite Hd. cbn [Nat.eqb negb andb].
    destruct (fg_received_shards g !! index) as [[s|]|] eqn:E; [by destruct (Hslot s)|..];
      rewrite (FecFacts.original_spec p q Hp Hq Hf Hh); unfold finish, is_done, try_decode; fold g'; cbn; by rewrite Hd. }
  split; [done|].
  assert (groups dec' !! key = Some g') as Hk.
  { apply FecFacts.cleanup_keeps; [apply lookup_insert_eq|done|]. cbn [groups].
    rewrite map_size_insert. destruct (groups dec !! key); unfold id; lia. }
  unfold receive. rewrite Hx, prost_decode_encode. cbn [fp_packet_index fp_group_id fp_payload fp_parity_data].
  rewrite Nat2Z.id, Es. fold index key. unfold MAX_NUM, BATCH_SIZE in *. rewrite (proj2 (Z.ltb_ge _ _)) by lia.
  rewrite Hk. cbn [from_option id]. unfold is_done. assert (fg_data_shards g' = 0%nat) as -> by done. cbn [Nat.eqb negb andb].
  unfold g', touch, accept_data. cbn [fg_received_shards]. rewrite list_lookup_insert_eq; [done|].
  pose proof (FecFacts.length_grow (S index) (fg_received_shards g)). lia.
Qed.

(** A lost packet that was alone in its group is recovered once.  Its parity packet,
    reaching a decoder that has seen nothing of the group, gives the packet back, with its
    type, its flags, its addresses and its payload; the packet itself, when it comes
    late, is not passed on again. *)
Theorem fec_recovers_single {RL : ReedSolomonLaws 1 1} now p group dec :
  packet_ok p → is_fec p = false → Z.of_nat (length (Packet.payload p)) ≤ 65535 →
  is_u 32 (Packet.src_id p) → is_u 32 (Packet.dest_id p) →
  groups dec !! (Packet.src_id p, group) = None → (size (groups dec) < MAX_GROUPS)%nat →
  ∃ r dec' p',
    encode_and_send_parity (mkBatch (Packet.src_id p) (Packet.dest_id p) group
      [shard_of (Packet.header p) (Packet.payload p)]) = Some [r] ∧
    receive now r dec = (Some (Some [p']), dec') ∧
    type_byte (Packet.header p') = type_byte (Packet.header p) ∧
    flags_byte (Packet.header p') = flags_byte (Packet.header p) ∧
    Packet.src_id p' = Packet.src_id p ∧ Packet.dest_id p' = Packet.dest_id p ∧
    Packet.payload p' = Packet.payload p ∧
    ∀ q x, Packet.src_id q = Packet.src_id p → Packet.payload q = prost_encode (mkFecPacket group 0 x None) →
      (receive now q dec').1 = Some None.
Proof.
  intros Hp Hf Hl Hs Hd Hg Hsz. set (s := shard_of _ _). set (b := mkBatch _ _ _ _). set (key := (Packet.src_id p, group)) in *.
  assert (length s = 4 + length (Packet.payload p))%nat as Ls
    by (unfold s, shard_of; rewrite !length_app, length_to_be_bytes; done).
  destruct (rs_encode_shape (d := 1) (p := 1) [s] (length s)) as [Lp Hlp]; [done|by intros ? ->%list_elem_of_singleton|].
  destruct (rs_encode 1 1 [s]) as [|par [|]] eqn:Epar; try done.
  destruct (FecFacts.parity_frame b 1 1 0 par Hs Hd) as (r & Hr & Hok & Ers & Erd & Ert & Epl).
  destruct (FecFacts.rebuild_spec r p [] Hp Hf Hl Hok ltac:(by rewrite Ers) ltac:(by rewrite Erd)) as (p' & Hp' & E1 & E2 & E3 & E4 & _ & E6).
  rewrite app_nil_r in Hp'. fold s in Hp'.
  set (g := done_group (touch now (mkFecGroup 1 1 0 [None; Some par] now))).
  set (dec' := maybe_cleanup now (mkFecDecoder (<[key := g]> (groups dec)) (last_cleanup dec))).
  exists r, dec', p'.
  assert (groups dec' !! key = Some g) as Hk.
  { apply FecFacts.cleanup_keeps; [apply lookup_insert_eq|done|]. cbn [groups]. rewrite map_size_insert, Hg. lia. }
  rewrite Ers in E3. rewrite Erd in E4. split_and!; try done.
  - unfold encode_and_send_parity, padded, max_len. change (ba_items b) with [s]. cbn [length is_nil orb foldr fmap list_fmap]. rewrite Ls.
    change (parity_count 1) with 1%nat. rewrite rs_new_ok. cbn [Nat.max Nat.add Nat.eqb negb].
    rewrite Nat.sub_diag. cbn [zeroed replicate]. rewrite app_nil_r, Epar. cbn -[parity_packet b]. by rewrite Hr.
  - unfold receive. rewrite Epl, prost_decode_encode. cbn [fp_packet_index fp_group_id fp_payload fp_parity_data].
    rewrite Ers. change (ba_group b) with group. change (ba_src b) with (Packet.src_id p). fold key. rewrite Hg.
    assert (rs_reconstruct 1 1 [None; Some par] = Some [s; par]) as Hrec.
    { pose proof (rs_recovers (d := 1) (p := 1) [s] (length s) [None; Some par]) as H. rewrite Epar in H. apply H; try done.
      - lia.
      - by intros ? ->%list_elem_of_singleton.
      - intros [|[|[|j]]] x; cbn; congruence. }
    set (g0 := mkFecGroup 1 1 0 [None; Some par] now).
    assert (try_decode g0 r = (Some (Some [p']), done_group g0)) as Htry.
    { unfold try_decode, decode_with_rs, g0.
      cbn [fg_data_shards fg_parity_shards fg_received_original_count fg_received_shards Nat.eqb].
      change (length (filter is_Some [None; Some par])) with 1%nat. cbn [Nat.ltb Nat.leb length Nat.add Nat.eqb negb].
      rewrite rs_new_ok, Hrec. cbn [negb zip zip_with take omap list_omap fst snd is_some mapM option_bind mbind mret option_ret].
      by rewrite Hp'. }
    change (Z.of_nat (1 + 0)) with 1. change (MAX_NUM <? 1) with false. cbn [from_option]. change (Z.to_nat 1) with 1%nat.
    change (is_done (mkFecGroup 0 0 0 [] now)) with false. cbn [fg_received_shards lookup list_lookup].
    change (accept_parity 1 (mkParityData (Z.of_nat 1) (Z.of_nat 1)) par (mkFecGroup 0 0 0 [] now)) with (Some g0).
    unfold finish. change (touch now g0) with g0. change (is_done g0) with false. by rewrite Htry.
  - intros q x Eq Ex. unfold receive. rewrite Ex, prost_decode_encode. cbn [fp_packet_index fp_group_id fp_payload fp_parity_data].
    rewrite Eq. fold key. by rewrite Hk.
Qed.
End Theorems.

(** ** Witnesses *)

Module FecWitness.
Import Model P2pModel.

#[local] Instance pd_eq_dec : EqDecision ParityData.
Proof. solve_decision. Defined.
#[local] Instance pd_countable : Countable ParityData.
Proof. refine (inj_countable' (λ m, (pd_data_shards m, pd_parity_shards m)) (λ '(a, b), mkParityData a b) _). by intros []. Defined.
#[local] Instance fp_eq_dec : EqDecision FecPacket.
Proof. solve_decision. Defined.
#[local] Instance fp_countable : Countable FecPacket.
Proof.
  refine (inj_countable' (λ m, (fp_group_id m, fp_packet_index m, fp_payload m, fp_parity_data m))
    (λ '(a, b, c, d), mkFecPacket a b c d) _). by intros [].
Defined.
#[local] Instance fec_codec : ProstCodec FecPacket := packed_codec _.
#[local] Instance fec_laws : FecCodecLaws.
Proof. split; [apply packed_codec_laws|intros m; apply to_be_bytes_ok]. Qed.

(** Multiplication in the field with 256 elements, by the polynomial 0x11d. *)
Definition xtime (a : Z) : Z := let y := 2 * a in if y <? 256 then y else Z.lxor y 285.
Definition gf_mul (a b : Z) : Z :=
  if a =? 1 then b
  else (fold_left (λ '(x, acc) i, (xtime x, if Z.testbit b i then Z.lxor acc x else acc))
          [0; 1; 2; 3; 4; 5; 6; 7] (a, 0)).2.
Definition gf_inv (a : Z) : Z :=
  if a =? 1 then 1 else default 0 (find_map (λ x, if gf_mul a x =? 1 then Some x else None) (seqZ 2 254)).

(** The parity row of the code over a Vandermonde matrix for one and two data shards. *)
Definition row (d : nat) : list Z := match d with 1%nat => [1] | 2%nat => [3; 2] | _ => replicate d 1 end.
Definition add_to (x : Z * bytes) (acc : bytes) : bytes := zip_with Z.lxor (gf_mul x.1 <$> x.2) acc.
Definition parity_of (d : nat) (data : list bytes) : bytes :=
  foldr add_to (zeroed (max_len data)) (zip (row d) data).

Definition reconstruct1 (d : nat) (shards : list (option bytes)) : option (list bytes) :=
  match omap id shards with
  | [] => None
  | s0 :: rest =>
      if negb (forallb (λ s, (length s =? length s0)%nat) rest) || (length (s0 :: rest) <? d)%nat then None
      else
        let data := take d shards in
        match find_map (λ x : Z * option bytes, if is_some x.2 then None else Some x.1) (zip (row d) data) with
        | None => let data := omap id data in Some (data ++ [parity_of d data])
        | Some c =>
            par ← mjoin (shards !! d);
            let known := omap (λ x : Z * option bytes, (x.1,.) <$> x.2) (zip (row d) data) in
            let lost := gf_mul (gf_inv c) <$> foldr add_to par known in
            Some ((default lost <$> data) ++ [par])
        end
  end.

#[local] Instance row_code : ReedSolomon := {|
  rs_new := λ d p, (0 <? d)%nat && (p =? 1)%nat;
  rs_encode := λ d p data, [parity_of d data];
  rs_reconstruct := λ d p shards, if (p =? 1)%nat then reconstruct1 d shards else None
|}.

Lemma add_zero s : add_to (1, s) (zeroed (length s)) = s.
Proof.
  unfold add_to. cbn [fst snd]. induction s as [|x s IH]; [done|]. cbn. f_equal; [apply Z.lxor_0_r|exact IH].
Qed.

Lemma parity_single s : parity_of 1 [s] = s.
Proof. unfold parity_of. cbn [max_len foldr zip zip_with row]. rewrite Nat.max_0_r. apply add_zero. Qed.

#[local] Instance row_laws : ReedSolomonLaws 1 1.
Proof.
  split; [done|..].
  - intros [|s [|]] n; try done. intros _ Hn. cbn [rs_encode row_code]. rewrite parity_single. split; [done|exact Hn].
  - intros [|s [|]] n [|x [|y [|]]]; try done. intros _ Hn _ _ Hsh Hc. cbn [rs_encode row_code app] in *.
    rewrite parity_single in *. cbn [rs_reconstruct row_code Nat.eqb].
    assert (∀ z, x = Some z → z = s) as Hx by (intros z ->; specialize (Hsh 0%nat z eq_refl); by injection Hsh).
    assert (∀ z, y = Some z → z = s) as Hy by (intros z ->; specialize (Hsh 1%nat z eq_refl); by injection Hsh).
    destruct x as [x|], y as [y|]; rewrite ?(Hx _ eq_refl), ?(Hy _ eq_refl).
    + unfold reconstruct1. cbn -[parity_of]. rewrite Nat.eqb_refl. cbn -[parity_of]. by rewrite parity_single.
    + unfold reconstruct1. cbn -[parity_of]. by rewrite parity_single.
    + unfold reconstruct1. cbn. by rewrite list_fmap_id.
    + change (1 ≤ 0)%nat in Hc. lia.
Qed.

(** Packets from 10.26.0.2 to 10.26.0.3. *)
Definition mk (flags : Z) (payload : bytes) : NetPacket :=
  mkNetPacket ([129; 85; flags; 0; 0; 0; 0; 0; 10; 26; 0; 2; 10; 26; 0; 3] ++ payload).
Definition src : Ipv4Addr := ipv4 10 26 0 2.
Definition dst : Ipv4Addr := ipv4 10 26 0 3.
Definition empty_decoder : FecDecoder := mkFecDecoder ∅ 0.

Lemma fec_transparent_witness :
  ∃ q b states' dec', encode 5 true (mk 0 [1; 2]) ∅ = (Some q, b, states') ∧
    receive 6 q empty_decoder = (Some (Some [mk 0 [1; 2]]), dec') ∧ (receive 6 q dec').1 = Some None.
Proof.
  apply (fec_transparent 5 6 true (mk 0 [1; 2]) ∅ empty_decoder).
  - apply (bool_decide_eq_true_1 _). vm_compute. reflexivity.
  - vm_compute. reflexivity.
  - vm_compute. discriminate.
  - apply Nat.ltb_lt. vm_compute. reflexivity.
  - apply Nat.ltb_lt. vm_compute. reflexivity.
  - intros g Hg. discriminate Hg.
Defined.

Lemma fec_recovers_single_witness :
  ∃ r dec' p', encode_and_send_parity (mkBatch src dst 4 [shard_of (Packet.header (mk 1 [1; 2])) [1; 2]]) = Some [r] ∧
    receive 6 r empty_decoder = (Some (Some [p']), dec') ∧ Packet.payload p' = [1; 2].
Proof.
  destruct (fec_recovers_single 6 (mk 1 [1; 2]) 4 empty_decoder) as (r & dec' & p' & H1 & H2 & _ & _ & _ & _ & H3 & _).
  - apply (bool_decide_eq_true_1 _). vm_compute. reflexivity.
  - vm_compute. reflexivity.
  - vm_compute. discriminate.
  - apply (bool_decide_eq_true_1 _). vm_compute. reflexivity.
  - apply (bool_decide_eq_true_1 _). vm_compute. reflexivity.
  - reflexivity.
  - apply Nat.ltb_lt. vm_compute. reflexivity.
  - exists r, dec', p'. split; [exact H1|]. split; [exact H2|exact H3].
Defined.

(** Encode the packets of a group, take it by timeout, and send its parity. *)
Fixpoint encode_all (ps : list NetPacket) (states : gmap Ipv4Addr DestBatchState)
    : list (option NetPacket) * gmap Ipv4Addr DestBatchState :=
  match ps with
  | [] => ([], states)
  | p :: ps => let '(q, _, states) := encode 0 true p states in
               let '(qs, states) := encode_all ps states in (q :: qs, states)
  end.
Definition parity_of_all (ps : list NetPacket) : option (list NetPacket) :=
  match (timeout_batches BATCH_TIMEOUT (encode_all ps ∅).2).1 with
  | [b] => encode_and_send_parity b
  | _ => None
  end.

Definition frame (ps : list NetPacket) (i : nat) : NetPacket :=
  default (mk 0 []) (mjoin ((encode_all ps ∅).1 !! i)).
Definition parity_frame_of (ps : list NetPacket) : NetPacket := default (mk 0 []) (parity_of_all ps ≫= head).

(** The decoder keeps shards unpadded, so a group with packets of unequal length cannot
    be reconstructed, and the attempt also loses the packet it was made for: the second
    of three packets arrives, after the first and the parity, and is not passed on. *)
Definition unequal : list NetPacket := [mk 0 [1]; mk 0 [1; 2]; mk 0 [1; 2; 3]].
Theorem unequal_lengths_lose_packet :
  (encode_all unequal ∅).1 = [Some (frame unequal 0); Some (frame unequal 1); Some (frame unequal 2)] ∧
  parity_of_all unequal = Some [parity_frame_of unequal] ∧
  (receive 1 (frame unequal 1) empty_decoder).1 = Some (Some [mk 0 [1; 2]]) ∧
  (receive 1 (frame unequal 1)
     (receive 1 (parity_frame_of unequal) (receive 1 (frame unequal 0) empty_decoder).2).2).1 = None.
Proof. split_and!; vm_compute; reflexivity. Qed.

(** The encoder takes the flags before it sets its own, the decoder after: the shards of
    received packets differ from the encoded ones, and a packet rebuilt with them comes
    out with other flags.  Two packets of the same length, the first is lost. *)
Definition pair_of : list NetPacket := [mk 0 [1; 2]; mk 0 [3; 4]].
Definition rebuilt : option (option (list NetPacket)) :=
  (receive 1 (parity_frame_of pair_of) (receive 1 (frame pair_of 1) empty_decoder).2).1.
Theorem recovered_flags_corrupted :
  parity_of_all pair_of = Some [parity_frame_of pair_of] ∧
  match rebuilt with
  | Some (Some [p]) => Packet.payload p = [1; 2] ∧ flags_byte (Packet.header p) ≠ 0
  | _ => False
  end ∧
  (let s1 := shard_of (Packet.header (mk 0 [1; 2])) [1; 2] in
   let s2 := shard_of (Packet.header (mk 0 [3; 4])) [3; 4] in
   rs_reconstruct 2 1 [None; Some s2; Some (parity_of 2 [s1; s2])] = Some [s1; s2; parity_of 2 [s1; s2]]).
Proof. split_and!; [vm_compute; reflexivity|vm_compute; split; [reflexivity|discriminate]|vm_compute; reflexivity]. Qed.
End FecWitness.
